(* ===== verification/_CoqProject ===== *)
-Q . S2P
Prelude.v
PfcpIo.v
PfcpIe.v
PfcpLeaf.v
PfcpIeSafe.v
PfcpIeRt.v
PfcpLeafRt.v
PfcpTables.v
PfcpCodec.v
PfcpWire.v
PfcpDecode.v
PfcpLoop.v
PfcpMsgRt.v
PfcpRoom.v
PfcpFaults.v
UpfVec.v
UpfTypes.v
UpfUrr.v
UpfUsage.v
UpfRules.v
UpfTeid.v
UpfAssoc.v
FlowTcp.v
FlowKey.v
FlowTable.v
FlowTableInv.v
FlowExpire.v
FlowNode.v
UpfAcl.v
UpfAppDpo.v
AppDetect.v
UpfClassify.v
PfcpServer.v
PfcpServerInv.v
PfcpServerSafe.v
PfcpServerRun.v
UrrTimer.v
UpfIpfilter.v
UpfIpfilterRt.v
ApiMsg.v
UpfMain.v
UpfSession.v
ApiRules.v
ApiPdr.v
ApiSession.v
ApiDemo.v
AssocInv.v
ApiInv.v
ApiReply.v
UpfProcess.v
PluginInv.v
GtpuBuf.v
GtpuError.v
GtpuDecap.v
GtpuPath.v
GtpuEcho.v
TcpSplice.v
SessionDpo.v
ProxySession.v
ProxyInv.v
