(* ===== verification/Prelude.v ===== *)
(** * Verification of the UPG-VPP user plane gateway plugin (src/upf)

    The plugin turns VPP into the user plane function (UPF/PGW-U) of a mobile
    core. A control plane node speaks PFCP with it over UDP: it sets up an
    association, establishes sessions, and fills each session with packet
    detection, forwarding, usage reporting and QoS rules. Packets that enter
    through GTP-U tunnels or IP routes are classified against those rules,
    counted, and forwarded.

    ** Parts of the program and the files that model them

    - The PFCP codec, src/upf/pfcp.c and pfcp.h. A message is a header and a
      sequence of information elements, some of which are groups of elements.
      Tables describe which elements a message or group may carry; a generic
      engine walks the tables and calls an encoder or decoder per simple
      element.
      - [PfcpIo]: the get_ and put_ macros, as a reader over the received
        octets with the remaining length, and a writer on a vector whose
        capacity limits the stores.
      - [PfcpIe]: the structs of the simple elements and their
        decode_x and encode_x functions, one definition per C function.
      - [PfcpLeaf]: the type [leaf] of the simple element codecs, with
        [leaf_decode] and [leaf_encode] that select the pair the SIMPLE_IE
        macros put in a table entry.
      - [PfcpTables]: the group tables, tgpp_specs, vendor_tp_specs,
        vendor_bbf_specs and msg_specs, entry by entry.
      - [PfcpCodec]: the engine, decode_group, decode_ie, encode_group,
        encode_ie, pfcp_decode_msg, pfcp_encode_msg. A group struct is
        [VGroup fields members ies], its presence bits, one list of values per
        table entry and the elements set aside; a simple element [VLeaf k x].
    - Sessions and rules, src/upf/upf_pfcp.c and upf.h. A session has an active
      and a pending set of rules, vectors sorted by id; a request changes the
      pending set, which then replaces the active one.
      - [UpfTypes]: the structs of upf.h, the pools of vppinfra, IEEE doubles.
      - [UpfVec]: intcmp, vec_bsearch, vec_delete and the macro vec_diff.
      - [UpfRules]: pfcp_make_pending_x, the functions of
        pfcp_rule_vector_fns for PDR, FAR, URR and QER (class [RuleKind]),
        policers and pfcp_free_rules.
      - [UpfTeid]: rules_add_v4_teid, rules_add_v6_teid and the table of
        tunnels, pfcp_add_del_v4_teid and pfcp_add_del_v6_teid.
      - [UpfAssoc]: associations, and the doubly linked list of sessions of each
        (pfcp_get_association to pfcp_create_session, pfcp_lookup).
      - [UpfAcl]: the compilation of filters to masks and values, compile_pdi,
        build_pfcp_rules, build_urr_link_map.
      - [UpfMain]: upf_main_t, what is configured ([upf_config]) and what
        changes ([upf_main_t]), with what leaves the plugin ([output]).
      - [UpfSession]: pfcp_update_apply and pfcp_update_finish,
        pfcp_disable_session, pfcp_free_session, pfcp_release_association, the
        peers of FARs and the end markers.
    - IP filter rules, src/upf/upf_ipfilter.c, in [UpfIpfilter]: the parser and
      the printer.
    - The message handlers, src/upf/upf_pfcp_api.c. A handler decodes nothing
      itself: it reads members of the decoded message, changes the pending rules
      of a session and fills in a response, and leaves through out_error or
      out_send_resp.
      - [ApiMsg]: the places of the members in messages, the response.
      - [ApiRules]: an error monad with the state of a handler ([hstate]), and
        the handlers of FARs, URRs and QERs. [ApiPdr]: TEIDs, conflicts of UE
        addresses, the handlers of PDRs.
      - [ApiSession]: heartbeats, association setup, session establishment,
        modification and deletion, and the dispatch, upf_pfcp_handle_msg.
      - [ApiDemo]: a configuration and messages to run them with.
    - Usage reporting, [UpfUrr]: process_urrs counts packets (upf_pfcp.c),
      urr_check_counter decides what is reported (upf_pfcp_server.c),
      upf_usage_report_build makes the report (upf_pfcp_api.c). [UrrTimer]: the
      timers of the rules and of inactivity, upf_pfcp_session_urr_timer, and the
      messages that carry the reports (upf_pfcp_server.c).
    - The flow table, src/upf/flowtable.h, flowtable.c, flowtable_tcp.h,
      flowtable_init.c, and its graph node upf_flow_node.c: [FlowTcp] the TCP
      states, [FlowKey] keys from packet headers, [FlowTable] entries, hash
      table, timer wheel and upf_flow_process.
    - Classification, src/upf/upf_classify.c, in [UpfClassify]: the ACLs of
      [UpfAcl] against the packets of [FlowTable].
    - Applications: [UpfAppDpo] (upf_app_dpo.c) by server address and
      [AppDetect] (upf_adf.c) by the name in a TLS Client Hello or HTTP request.
    - The PFCP server, src/upf/upf_pfcp_server.c and .h, in [PfcpServer]: queues
      of requests and responses, the pool of messages, timers, and the process
      that handles a batch of events and the timers that are due ([pfcp_turn]).
      It encodes with [PfcpCodec] and calls the rest of the plugin through the
      class [PfcpApp]: a call is a tree of the server functions it calls in turn
      ([upcall]). [UpfProcess] puts the handlers and the timers of rules in the
      place of that class; the result, [upf_turn], is a turn of pfcp_process.
    - The packet path. A packet comes from a GTP-U tunnel or by the route of a
      session, passes the flow table and the classification, then upf_input and
      upf_forward, and leaves by a tunnel or a route.
      - [GtpuBuf]: vlib_buffer_t as memory with a window, the metadata
        upf_buffer_opaque_t, GTP-U headers and one's complement sums.
      - [GtpuDecap], [GtpuEcho], [GtpuError] (src/upf/upf_gtpu_decap.c):
        upf_gtpu_input with its pairs of packets and the last tunnel it keeps,
        the bypass of the IP graph, echo requests, error indications received;
        and, of upf_gtpu_encap.c, those sent.
      - [GtpuPath]: upf_input (upf_input.c), upf_forward (upf_forward.c) with
        process_qers, the encapsulation and end markers (upf_gtpu_encap.c).
      - [SessionDpo]: the nodes of the route to a session (upf_session_dpo.c).
    - The TCP proxy. [TcpSplice]: upf_proxy_input.c, upf_tcp_forward.c and
      upf_proxy_output.c, the packets to it, past it and from it.
      [ProxySession]: its sessions and the callbacks of the session layer of
      VPP (upf_proxy.c, upf_proxy_accept.c), as steps of a machine
      ([proxy_step]) that VPP, the flow table and the data path drive within
      the limits of [enabled].

    ** What the theorems show

    - [PfcpIeRt], [PfcpLeafRt]: every element codec returns the value that was
      encoded, for the values [leaf_wf] lists, and [lost_values] are values
      that do not survive.
    - [PfcpIeSafe]: which decoders stay inside the received data, and an input
      for each that does not.
    - [PfcpWire]: a declarative wire format ([wire_ie], [wire_msg]) and the
      refinement theorem that the encoder, which reserves room, stores past the
      length and patches lengths afterwards, produces it.
    - [PfcpDecode]: decoding returns on every input, and what it returns has
      the shape the tables announce.
    - [PfcpLoop]: unknown, repeated and overlong elements.
    - [PfcpMsgRt]: whole messages survive encoding and decoding.
    - [PfcpRoom]: when the encoder stays inside the capacity of its vector.
    - [PfcpFaults]: defects of the tables and the engine.
    - [UpfVec], [UpfRules], [UpfTeid], [UpfAssoc]: vec_diff adds and removes
      exactly the difference; what a sorted vector of rules holds is found;
      deleting takes one rule; the tunnel table follows the rules; the linked
      lists behave like lists.
    - [UpfUsage]: a crossing is signalled once, nothing counted is lost, quotas
      drop packets, and the cases in which usage goes unreported. [UrrTimer]:
      what is due is reported, once, and the report of a rule that runs late by
      more than a period is not covered.
    - [FlowTcp], [FlowKey]: TCP states only advance; keys are equal exactly for
      the packets of one connection.
    - [FlowTableInv], [FlowExpire], [FlowNode]: the invariant of the flow table
      holds in every reachable state; a frame never faults; a pass of the timer
      wheel removes exactly the idle flows.
    - [UpfClassify]: a compiled filter matches exactly what the filter
      describes; the best precedence wins; and the UE address of IPv4 is not
      compared.
    - [AppDetect]: well-formed names are found, and how far the TLS parser may
      load past the hello.
    - [PfcpServerInv], [PfcpServerSafe]: the invariant of the server and every
      operation of a turn. [PfcpServerRun]: it holds in every reachable state
      and no assertion of the server fails, as long as the peer does not use
      the numbers of the UPF's own requests ([own] tells them apart) and fewer
      than 2^24 messages are alive; a repeated request is handled once; an
      unanswered request is sent three times; runs that fail.
    - [UpfIpfilterRt]: what the printer writes is read back as the same rule.
    - [ApiInv]: the handlers of rules leave the active rules alone, and what
      they do when a rule is refused, by a relation between states carried
      through their monad. [ApiReply]: one response for a request, and none
      otherwise.
    - [AssocInv], [PluginInv]: sessions, SEIDs and associations agree in every
      state the handlers, timers and releases reach; a request to establish,
      delete or release does that, and a failed establishment leaves nothing.
    - [UpfProcess]: what the server relies on is proved of the plugin, so the
      invariant of the server holds of the process as a whole; a run of it, from
      the setup of an association to the end of a session, is computed.
    - [GtpuDecap], [GtpuPath]: a G-PDU of a known tunnel reaches the session of
      the tunnel and is forwarded with its payload; a frame is handled packet by
      packet; no octets lead outside the buffer; only what a FAR forwards and
      the gates let through is sent on. [GtpuEcho], [GtpuError]: echo requests
      are answered, error indications are read back as they were written, and
      the checksums they leave wrong.
    - [SessionDpo]: the time to live and the checksum of a routed packet.
    - [TcpSplice]: a splice continues both TCP streams, every segment is
      translated, with all its options, and answers reach their sender in its
      own numbers. [ProxyInv]: the sessions of the proxy are counted right in
      every reachable state and freed with their last reference; a second
      connection, and a session that is never freed, as runs.

    ** Conventions

    C integers are [Z]; conversions that can lose bits are written with
    [wrap]. A C function that can fail returns an [outcome]: [Err] is an error
    code of the program, [Fault] behaviour that C leaves undefined. A vector
    of vppinfra is [vec], [None] for the null pointer.

    Recursion that is not structural takes fuel. The loop of decode_group gets
    as many turns as the group has octets, which is enough because each turn
    consumes an element header of four; nested groups get [group_depth] = 3
    levels, which is enough because the tables nest no deeper ([specs_depth]);
    [decode_msg_terminates] proves both bounds sufficient.

    What is not under src/ is a parameter: the class [Vppinfra] has the growth
    policy of vectors and the parser and printer of IP addresses, with the laws
    the code relies on in [VppinfraOk]; [vpp_exact] is an instance that shows
    they can hold.

    Other bounds: a slot of the timer wheel is walked with [slot_fuel] = 257
    entries and the seconds that have passed with [expire_seconds], both shown
    sufficient by [flow_frame_returns]; the loops of the TLS and HTTP parsers
    and over the expired timers of the server get the length of what they walk;
    the loop that moves a late measurement period on gets 2^64 turns.

    Further parameters, each a class with its laws and an instance: [VppPool]
    (which free index a pool hands out), with [VppPoolDense] that it is below
    the number of elements or was used before; [VecSort]; [IpCompare] and
    [IpMasks] of vnet; [NextFrames]; [AppFib], the FIB of an application;
    [AdfLookup], the expressions of an application; [VppNet], the FIB, the
    interfaces, NAT and random numbers, over an abstract state; [VppUnformat]
    and [VppFormat], the tokens of unformat and format; [VppMemory], what a new
    ACL holds before it is set. [PfcpAppOk] states what the server relies on in
    its callers: a bound on the messages a call sends, and one response to a
    request at most.

    The search for an unused TEID gets [attempts] turns, as the code gives up
    only on invalid ones; release_sessions gets as many turns as there are
    sessions, which [release_ends_sessions] proves sufficient. Handlers run on
    the state of the plugin and list what they send in [um_out]; [UpfProcess]
    hands that to the server in order.

    Of packets: [VppPacket], with its laws [VppPacketOk], has the checksum
    functions, flags and hashes of VPP, [VppTcp] its TCP connections, [VppDpo]
    the offloaded checksums; [demo_vpp] and its like are instances. The walks
    over extension headers, elements of error indications and TCP options get as
    many turns as there are octets to walk. UPF_ENTER_SUBGRAPH is that of a
    release build, and so are assertions that are followed by a check of the
    same condition, and those of [ProxySession]; any other that fails is a
    [Fault]. The steps of [ProxySession] are atomic; the places where the code
    gives up its lock too early are recorded in PROJECT.json.

    ** What is not modelled

    The format_x functions (text output) and free_x functions (memory release)
    of the codec. Of the other parts of the plugin:
    the session layer callbacks that feed the PFCP server, the TCP stack and the
    session layer of VPP under the proxy, and the applications it registers;
    CLI, binary API, event exposure over HTTP and the unit tests, which call
    third-party code or print. Of the modelled parts, packet traces, interface
    counters, the state of policers and log messages are left out, and memory
    is not limited. *)

From Stdlib Require Import ZArith Lia Btauto.
From stdpp Require Import base list list_numbers option numbers decidable.

Declare Scope upf_scope.
Delimit Scope upf_scope with upf.
#[global] Open Scope upf_scope.
#[global] Open Scope Z_scope.

(** ** Outcomes of C code

    [Ok] is a normal return, [Err c] the return of the non-zero error code
    [c] (a PFCP cause, or -1), and [Fault f] behaviour the C language leaves
    undefined: the model stops there and says why. *)

Inductive fault :=
| OobRead        (** a load past the end of the received message *)
| HeapOverflow   (** a store past the capacity of a vector *)
| TypeConfusion  (** a store through a pointer of the wrong C type *)
| NoDefinition   (** a table entry that is missing or past its table *)
| BadIndex       (** an index of a pool or vector that is not in use *)
| Assertion      (** a failed ASSERT *)
| BadShift       (** a shift by the width of its type or more *)
| NullDeref      (** a null pointer is followed *)
| Callback       (** a fault inside a function of another part that was called *)
| NoFuel.        (** the recursion bound of the model is reached *)

#[export] Instance fault_eq_dec : EqDecision fault.
Proof. solve_decision. Defined.

Inductive outcome (A : Type) :=
| Ok (a : A)
| Err (c : Z)
| Fault (f : fault).
Arguments Ok {A} a.
Arguments Err {A} c.
Arguments Fault {A} f.

#[export] Instance outcome_eq_dec {A} `{EqDecision A} : EqDecision (outcome A).
Proof. solve_decision. Defined.

Definition obind {A B} (m : outcome A) (k : A -> outcome B) : outcome B :=
  match m with
  | Ok a => k a
  | Err c => Err c
  | Fault f => Fault f
  end.

(** ASSERT of vppinfra, then the rest of the function *)
Definition assert (c : bool) {A} (k : outcome A) : outcome A := if c then k else Fault Assertion.

Definition is_ok {A} (m : outcome A) : bool :=
  match m with Ok _ => true | _ => false end.

Definition is_fault {A} (m : outcome A) : bool :=
  match m with Fault _ => true | _ => false end.

(** ** Machine integers

    A w-bit unsigned integer is a [Z] in [0, 2^w); conversions to a narrower
    C type are written out with [wrap]. *)

Definition wrap (w x : Z) : Z := x mod 2 ^ w.

Definition in_range (w x : Z) : bool := (0 <=? x) && (x <? 2 ^ w).

(** two's complement reinterpretation of a w-bit pattern *)
Definition to_signed (w x : Z) : Z :=
  if x <? 2 ^ (w - 1) then x else x - 2 ^ w.

(** [BIT(n)], pfcp.h *)
Definition BIT (n : Z) : Z := Z.shiftl 1 n.

(** [x & m] used as a C condition *)
Definition flag (x m : Z) : bool := negb (Z.land x m =? 0).

Definition is_byte (b : Z) : Prop := 0 <= b < 256.

Lemma in_range_spec w x : in_range w x = true <-> 0 <= x < 2 ^ w.
Proof. unfold in_range. rewrite andb_true_iff, Z.leb_le, Z.ltb_lt. tauto. Qed.

Lemma wrap_small w x : in_range w x = true -> wrap w x = x.
Proof. intros H%in_range_spec. apply Z.mod_small. lia. Qed.

Lemma land_mask_small n x m :
  0 <= n -> m = Z.ones n -> in_range n x = true -> Z.land x m = x.
Proof.
  intros Hn -> H%in_range_spec. rewrite Z.land_ones by lia.
  apply Z.mod_small. lia.
Qed.

Lemma land_ones_bound x m n :
  0 <= n -> m = Z.ones n -> 0 <= Z.land x m < 2 ^ n.
Proof. intros Hn ->. rewrite Z.land_ones by lia. apply Z.mod_pos_bound. lia. Qed.

(** ** Byte strings *)

(** the [n] bytes of [x], most significant first *)
Fixpoint be (n : nat) (x : Z) : list Z :=
  match n with
  | O => []
  | S k => (x / 256 ^ Z.of_nat k) mod 256 :: be k x
  end.

Definition de_be (l : list Z) : Z := fold_left (fun acc b => acc * 256 + b) l 0.

(** the [n] bytes of [x], least significant first *)
Definition le (n : nat) (x : Z) : list Z := rev (be n x).
Definition de_le (l : list Z) : Z := de_be (rev l).

Lemma length_be n x : length (be n x) = n.
Proof. induction n; simpl; auto. Qed.

Lemma length_le n x : length (le n x) = n.
Proof. unfold le. by rewrite length_rev, length_be. Qed.

Lemma de_be_acc l acc :
  fold_left (fun acc b => acc * 256 + b) l acc
  = acc * 256 ^ Z.of_nat (length l) + de_be l.
Proof.
  unfold de_be. revert acc. induction l as [|b l IH]; intros acc; simpl fold_left.
  - simpl. lia.
  - rewrite IH, (IH (0 * 256 + b)). simpl length.
    rewrite Nat2Z.inj_succ, Z.pow_succ_r by lia. ring.
Qed.

Lemma de_be_cons b l : de_be (b :: l) = b * 256 ^ Z.of_nat (length l) + de_be l.
Proof. unfold de_be at 1. simpl. rewrite de_be_acc. lia. Qed.

Lemma de_be_be n x : de_be (be n x) = x mod 256 ^ Z.of_nat n.
Proof.
  induction n as [|k IH]; [by rewrite Z.mod_1_r|].
  simpl be. rewrite de_be_cons, IH, length_be, Nat2Z.inj_succ, Z.pow_succ_r by lia.
  rewrite (Z.mul_comm 256), Z.rem_mul_r by lia. lia.
Qed.

Lemma de_be_be_small n x : 0 <= x < 256 ^ Z.of_nat n -> de_be (be n x) = x.
Proof. intros. rewrite de_be_be. by apply Z.mod_small. Qed.

Lemma de_le_le_small n x : 0 <= x < 256 ^ Z.of_nat n -> de_le (le n x) = x.
Proof. intros. unfold de_le, le. rewrite rev_involutive. by apply de_be_be_small. Qed.

Lemma be_bytes n x : Forall is_byte (be n x).
Proof.
  induction n; simpl; constructor; auto.
  unfold is_byte. apply Z.mod_pos_bound. lia.
Qed.

Lemma de_be_bound l :
  Forall is_byte l -> 0 <= de_be l < 256 ^ Z.of_nat (length l).
Proof.
  induction 1 as [|b l Hb Hl IH]; [vm_compute; split; congruence|].
  rewrite de_be_cons. simpl length. rewrite Nat2Z.inj_succ, Z.pow_succ_r by lia.
  unfold is_byte in Hb. nia.
Qed.

Lemma de_le_bound l :
  Forall is_byte l -> 0 <= de_le l < 256 ^ Z.of_nat (length l).
Proof.
  intros H. unfold de_le. rewrite <- (length_rev l). apply de_be_bound.
  by apply Forall_rev.
Qed.

(** ** Lists *)

(** length as an integer, the way C code counts *)
Definition Zlen {A} (l : list A) : Z := Z.of_nat (length l).

Lemma Zlen_nonneg {A} (l : list A) : 0 <= Zlen l.
Proof. unfold Zlen. lia. Qed.

Lemma Zlen_app {A} (l k : list A) : Zlen (l ++ k) = Zlen l + Zlen k.
Proof. unfold Zlen. rewrite length_app. lia. Qed.

Lemma Zlen_cons {A} (x : A) l : Zlen (x :: l) = 1 + Zlen l.
Proof. unfold Zlen. simpl length. lia. Qed.

Lemma Zlen_nil {A} : Zlen (@nil A) = 0.
Proof. reflexivity. Qed.

Lemma Zlen_be n x : Zlen (be n x) = Z.of_nat n.
Proof. unfold Zlen. by rewrite length_be. Qed.

Lemma Zlen_le n x : Zlen (le n x) = Z.of_nat n.
Proof. unfold Zlen. by rewrite length_le. Qed.

Create Rewrite HintDb upf_len.
#[export] Hint Rewrite @Zlen_app @Zlen_cons @Zlen_nil Zlen_be Zlen_le : upf_len.

Create HintDb upf.
#[export] Hint Resolve Zlen_nonneg be_bytes : upf.

(** ** Tactics *)

(** turn the boolean tests of the code into propositions [lia] reads *)
Ltac btest :=
  repeat match goal with
  | H : (_ && _)%bool = true |- _ => apply andb_true_iff in H as [? ?]
  | H : (_ || _)%bool = false |- _ => apply orb_false_iff in H as [? ?]
  | H : (_ || _)%bool = true |- _ => apply orb_true_iff in H as [?|?]
  | H : negb _ = true |- _ => apply negb_true_iff in H
  | H : negb _ = false |- _ => apply negb_false_iff in H
  | H : (_ <? _) = true |- _ => apply Z.ltb_lt in H
  | H : (_ <? _) = false |- _ => apply Z.ltb_ge in H
  | H : (_ <=? _) = true |- _ => apply Z.leb_le in H
  | H : (_ <=? _) = false |- _ => apply Z.leb_gt in H
  | H : (_ =? _) = true |- _ => apply Z.eqb_eq in H
  | H : (_ =? _) = false |- _ => apply Z.eqb_neq in H
  | H : in_range _ _ = true |- _ => apply in_range_spec in H
  | H : bool_decide _ = true |- _ => apply bool_decide_eq_true_1 in H
  | H : bool_decide _ = false |- _ => apply bool_decide_eq_false_1 in H
  end.

(** split the conditional the goal is stuck on, keeping the equation *)
Ltac case_test :=
  match goal with
  | |- context [if ?c then _ else _] =>
      lazymatch c with
      | context [if _ then _ else _] => fail
      | _ => let E := fresh "Ht" in destruct c eqn:E
      end
  end.

(** ** Single-bit masks *)

Lemma flag_BIT x i : 0 <= i -> flag x (BIT i) = Z.testbit x i.
Proof.
  intros Hi. unfold flag, BIT. rewrite Z.shiftl_1_l.
  destruct (Z.testbit x i) eqn:E.
  - apply negb_true_iff, Z.eqb_neq. intros H.
    assert (Z.testbit (Z.land x (2 ^ i)) i = false) as H' by (rewrite H; apply Z.bits_0).
    rewrite Z.land_spec, E, Z.pow2_bits_true in H' by lia. discriminate.
  - apply negb_false_iff, Z.eqb_eq. apply Z.bits_inj'. intros j Hj.
    rewrite Z.land_spec, Z.bits_0. destruct (Z.eq_dec j i) as [->|Hne].
    + by rewrite E.
    + rewrite Z.pow2_bits_false by lia. apply andb_false_r.
Qed.

Lemma flag_lor x m n : flag x (Z.lor m n) = flag x m || flag x n.
Proof.
  unfold flag. rewrite Z.land_lor_distr_r.
  destruct (Z.eqb_spec (Z.lor (Z.land x m) (Z.land x n)) 0) as [H|H]; simpl.
  - apply Z.lor_eq_0_iff in H as [-> ->]. reflexivity.
  - destruct (Z.eqb_spec (Z.land x m) 0) as [Hm|?]; [|reflexivity].
    destruct (Z.eqb_spec (Z.land x n) 0) as [Hn|?]; [|reflexivity].
    rewrite Hm, Hn in H. contradiction.
Qed.

#[global] Arguments Z.testbit : simpl never.
#[global] Arguments Z.land : simpl never.
#[global] Arguments Z.lor : simpl never.
#[global] Arguments Z.shiftl : simpl never.
#[global] Arguments Z.shiftr : simpl never.
#[global] Arguments Z.sub : simpl never.
#[global] Arguments Z.add : simpl never.
#[global] Arguments Z.mul : simpl never.
#[global] Arguments Z.modulo : simpl never.
#[global] Arguments Z.div : simpl never.
#[global] Arguments Z.pow : simpl never.

(** evaluate the bits of constants *)
Ltac const_bits :=
  repeat match goal with
  | |- context [Z.testbit (Zpos ?c) ?i] =>
      let b := eval vm_compute in (Z.testbit (Zpos c) i) in
      lazymatch b with
      | true => change (Z.testbit (Zpos c) i) with true
      | false => change (Z.testbit (Zpos c) i) with false
      end
  end;
  rewrite ?andb_true_r, ?andb_false_r, ?andb_true_l, ?andb_false_l.

(** ** Evaluation on concrete inputs *)

Lemma bytes_check l : forallb (in_range 8) l = true -> Forall is_byte l.
Proof.
  intros H. apply List.Forall_forall. intros b Hb.
  rewrite forallb_forall in H. specialize (H b Hb). by apply in_range_spec in H.
Qed.

(** decide a closed decidable proposition by evaluation *)
Ltac by_eval := apply (bool_decide_unpack _); vm_compute; exact I.

#[global] Arguments be : simpl never.
#[global] Arguments le : simpl never.
#[global] Arguments de_be : simpl never.
#[global] Arguments de_le : simpl never.
#[global] Arguments Zlen : simpl never.
#[global] Arguments flag : simpl never.
#[global] Arguments in_range : simpl never.
#[global] Arguments wrap : simpl never.
#[global] Arguments BIT : simpl never.

Lemma take_Zlen {A} (l : list A) : take (Z.to_nat (Zlen l)) l = l.
Proof. unfold Zlen. rewrite Nat2Z.id. apply firstn_all. Qed.

Lemma Zlen_take {A} n (l : list A) : 0 <= n <= Zlen l -> Zlen (take (Z.to_nat n) l) = n.
Proof. unfold Zlen. rewrite length_take. lia. Qed.

(** ** Joining bit fields *)

Lemma testbit_small n v i : 0 <= v < 2 ^ n -> 0 <= n <= i -> Z.testbit v i = false.
Proof.
  intros Hv Hi. rewrite <- (Z.mod_small v (2 ^ n)) by lia.
  apply Z.mod_pow2_bits_high. lia.
Qed.

Lemma lor_shiftl_add n u v :
  0 <= n -> 0 <= v < 2 ^ n -> Z.lor (Z.shiftl u n) v = u * 2 ^ n + v.
Proof.
  intros Hn Hv. rewrite <- Z.shiftl_mul_pow2 by lia.
  assert (Z.land (Z.shiftl u n) v = 0) as Hd.
  { apply Z.bits_inj'. intros i Hi. rewrite Z.land_spec, Z.bits_0.
    destruct (Z.lt_ge_cases i n) as [Hlt|Hge].
    - by rewrite Z.shiftl_spec_low by lia.
    - rewrite (testbit_small n v i) by lia. apply andb_false_r. }
  by rewrite <- Z.lxor_lor, <- Z.add_nocarry_lxor.
Qed.

Lemma lor_shiftl_add_r n u v :
  0 <= n -> 0 <= v < 2 ^ n -> Z.lor v (Z.shiftl u n) = u * 2 ^ n + v.
Proof. intros. rewrite Z.lor_comm. by apply lor_shiftl_add. Qed.

Lemma in_range_wrap w x : 0 <= w -> in_range w (wrap w x) = true.
Proof. intros. apply in_range_spec. unfold wrap. apply Z.mod_pos_bound. lia. Qed.

Lemma be_wrap n x : be n (wrap (8 * Z.of_nat n) x) = be n x.
Proof.
  unfold wrap. rewrite Z.pow_mul_r by lia. change (2 ^ 8) with 256.
  assert (forall m k, (k <= m)%nat ->
    be k (x mod 256 ^ Z.of_nat m) = be k x) as H; [|by apply H].
  intros m. induction k as [|k IH]; intros Hk; [done|].
  unfold be; fold be. f_equal; [|apply IH; lia].
  replace (Z.of_nat m) with (Z.of_nat k + Z.of_nat (m - k)) by lia.
  rewrite Z.pow_add_r, Z.rem_mul_r, Z.mul_comm, Z.div_add by lia.
  rewrite Z.div_small by (apply Z.mod_pos_bound; lia). rewrite Z.add_0_l.
  replace (Z.of_nat (m - k)) with (1 + Z.of_nat (m - k - 1)) by lia.
  rewrite Z.pow_add_r, Z.rem_mul_r by lia. change (256 ^ 1) with 256.
  rewrite Z.mul_comm, Z.mod_add by lia. apply Z.mod_mod. lia.
Qed.

Lemma le_wrap n x : le n (wrap (8 * Z.of_nat n) x) = le n x.
Proof. unfold le. by rewrite be_wrap. Qed.

Lemma to_signed_wrap w x :
  0 < w -> - 2 ^ (w - 1) <= x < 2 ^ (w - 1) -> to_signed w (wrap w x) = x.
Proof.
  intros Hw Hx. unfold to_signed, wrap.
  assert (2 ^ w = 2 * 2 ^ (w - 1)) as Hp by (rewrite <- Z.pow_succ_r; f_equal; lia).
  destruct (Z.lt_ge_cases x 0).
  - rewrite <- (Z.mod_add x 1), Z.mod_small by lia.
    destruct (Z.ltb_spec (x + 1 * 2 ^ w) (2 ^ (w - 1))); lia.
  - rewrite Z.mod_small by lia. destruct (Z.ltb_spec x (2 ^ (w - 1))); lia.
Qed.
