(* ===== verification/PfcpIo.v ===== *)
(** * PFCP wire access (src/upf/pfcp.c, "message construction helpers")

    The [get_*] macros as operations of a reader over the received bytes, the
    [put_*] macros as writer operations on a vector of limited capacity, the
    vppinfra vectors the information elements hold, and the two program logics
    the rest of the codec is verified with: [safe] (no load past the bytes that
    are there) and [yields] (what a decoder returns on given bytes). *)

From Stdlib Require Import ZArith Lia.
From stdpp Require Import base list list_numbers option numbers decidable.
From S2P Require Import Prelude.

(** ** Causes (pfcp.h) *)

Definition PFCP_CAUSE_REQUEST_REJECTED : Z := 64.
Definition PFCP_CAUSE_MANDATORY_IE_MISSING : Z := 66.
Definition PFCP_CAUSE_INVALID_LENGTH : Z := 68.

(** ** vppinfra vectors

    [None] is the NULL vector. [vec_add] of no elements leaves a vector as it
    is, so NULL stays NULL. *)

Definition vec (A : Type) := option (list A).

Definition vec_elts {A} (v : vec A) : list A :=
  match v with None => [] | Some l => l end.
Definition vec_len {A} (v : vec A) : Z := Zlen (vec_elts v).
Definition vec_reset_length {A} (v : vec A) : vec A :=
  match v with None => None | Some _ => Some [] end.
Definition vec_add {A} (v : vec A) (l : list A) : vec A :=
  match l with [] => v | _ => Some (vec_elts v ++ l) end.

(** ** Reading *)

(** [rd_data] is everything the buffer holds from the pointer [data] on, not
    only the element; [rd_len] is the [u16 length] variable. *)
Record rd := mk_rd { rd_data : list Z; rd_len : Z }.

Definition D (A : Type) := rd -> outcome (A * rd).

Definition dret {A} (a : A) : D A := fun s => Ok (a, s).
Definition dbind {A B} (m : D A) (k : A -> D B) : D B :=
  fun s => obind (m s) (fun '(a, s') => k a s').
Definition derr {A} (c : Z) : D A := fun _ => Err c.
Definition dfault {A} (f : fault) : D A := fun _ => Fault f.

Notation "x <- m ;; k" := (dbind m (fun x => k))
  (at level 100, m at next level, right associativity) : upf_scope.
Notation "m ;;; k" := (dbind m (fun _ => k))
  (at level 100, right associativity) : upf_scope.

(** load [n] bytes and advance the pointer *)
Definition get_n (n : Z) : D (list Z) := fun s =>
  if Zlen (rd_data s) <? n then Fault OobRead
  else Ok (take (Z.to_nat n) (rd_data s),
           mk_rd (drop (Z.to_nat n) (rd_data s)) (rd_len s)).

Definition get_u8 : D Z := l <- get_n 1 ;; dret (de_be l).
Definition get_u16 : D Z := l <- get_n 2 ;; dret (de_be l).
Definition get_u16_little : D Z := l <- get_n 2 ;; dret (de_le l).
Definition get_u24 : D Z := l <- get_n 3 ;; dret (de_be l).
Definition get_u32 : D Z := l <- get_n 4 ;; dret (de_be l).
Definition get_u40 : D Z := l <- get_n 5 ;; dret (de_be l).
Definition get_u64 : D Z := l <- get_n 8 ;; dret (de_be l).

(** addresses are copied in memory order *)
Definition get_ip4 : D (list Z) := get_n 4.
Definition get_ip6 : D (list Z) := get_n 16.

(** an [ip46_address_t] is its sixteen bytes; an IPv4 address has twelve
    padding bytes of zero before it *)
Definition ip46_pad : list Z := replicate 12 0.
Definition ip46_address_set_ip4 (ip4 : list Z) : list Z := ip46_pad ++ ip4.
Definition ip46_ip4 (ip : list Z) : list Z := drop 12 ip.
Definition ip46_address_is_ip4 (ip : list Z) : bool :=
  bool_decide (take 12 ip = ip46_pad).
Definition get_ip46_ip4 : D (list Z) :=
  l <- get_n 4 ;; dret (ip46_address_set_ip4 l).
Definition get_ip46_ip6 : D (list Z) := get_ip6.

(** [get_vec]: the vector is emptied, then [l] bytes are appended *)
Definition get_vec (v : vec Z) (l : Z) : D (vec Z) :=
  bs <- get_n l ;; dret (vec_add (vec_reset_length v) bs).

(** [data += n] *)
Definition skip (n : Z) : D unit := fun s =>
  Ok (tt, mk_rd (drop (Z.to_nat n) (rd_data s)) (rd_len s)).

(** [length] and its updates *)
Definition get_length : D Z := fun s => Ok (rd_len s, s).
Definition length_sub (n : Z) : D unit := fun s =>
  Ok (tt, mk_rd (rd_data s) (wrap 16 (rd_len s - n))).

(** [if (length < n) return PFCP_CAUSE_INVALID_LENGTH;] *)
Definition check_length (n : Z) : D unit := fun s =>
  if rd_len s <? n then Err PFCP_CAUSE_INVALID_LENGTH else Ok (tt, s).

(** run a decoder on an element at [data] with [length] bytes *)
Definition run_decode {A} (m : D A) (data : list Z) (length : Z) : outcome A :=
  obind (m (mk_rd data length)) (fun '(a, _) => Ok a).

(** ** Writing

    [put_*] stores without looking at the capacity; [vec_add] and [vec_append]
    make room first. *)

Inductive wop :=
| Put (bs : list Z)
| Append (bs : list Z).

Definition put_u8 (x : Z) : wop := Put (be 1 x).
Definition put_u16 (x : Z) : wop := Put (be 2 x).
Definition put_u16_little (x : Z) : wop := Put (le 2 x).
Definition put_u24 (x : Z) : wop := Put (be 3 x).
Definition put_u32 (x : Z) : wop := Put (be 4 x).
Definition put_u40 (x : Z) : wop := Put (be 5 x).
Definition put_u64 (x : Z) : wop := Put (be 8 x).
Definition put_ip4 (ip : list Z) : wop := Put ip.
Definition put_ip6 (ip : list Z) : wop := Put ip.
Definition put_ip46_ip4 (ip : list Z) : wop := Put (ip46_ip4 ip).
Definition put_ip46_ip6 (ip : list Z) : wop := Put ip.
Definition vec_append (v : vec Z) : wop := Append (vec_elts v).
Definition vec_add_bytes (l : list Z) : wop := Append l.

Definition wop_bytes (o : wop) : list Z :=
  match o with Put bs => bs | Append bs => bs end.

(** the bytes a sequence of operations produces *)
Definition wbytes (ops : list wop) : list Z := concat (map wop_bytes ops).

(** a vector under construction: contents and allocated size *)
Record buf := mk_buf { buf_bytes : list Z; buf_cap : Z }.

Section Buffer.
(** [vec_grow cap need]: the size the allocator picks when a vector of
    capacity [cap] has to hold [need] bytes. *)
Variable vec_grow : Z -> Z -> Z.

Definition reserve (b : buf) (need : Z) : buf :=
  if buf_cap b <? need then mk_buf (buf_bytes b) (vec_grow (buf_cap b) need)
  else b.

Definition run_wop (b : buf) (o : wop) : outcome buf :=
  let need := Zlen (buf_bytes b) + Zlen (wop_bytes o) in
  match o with
  | Put bs =>
      if buf_cap b <? need then Fault HeapOverflow
      else Ok (mk_buf (buf_bytes b ++ bs) (buf_cap b))
  | Append bs =>
      Ok (mk_buf (buf_bytes b ++ bs) (buf_cap (reserve b need)))
  end.

Fixpoint run_wops (b : buf) (ops : list wop) : outcome buf :=
  match ops with
  | [] => Ok b
  | o :: ops => obind (run_wop b o) (fun b' => run_wops b' ops)
  end.
End Buffer.

(** ** The in-bounds logic *)

(** [safe m av len Q]: from a state with [av] bytes left and [length = len],
    [m] never loads past the end, and if it returns [a] with [av'] bytes left
    and [length = len'], then [Q a av' len']. *)
Definition safe {A} (m : D A) (av len : Z) (Q : A -> Z -> Z -> Prop) : Prop :=
  forall s, Forall is_byte (rd_data s) -> Zlen (rd_data s) = av -> rd_len s = len ->
  match m s with
  | Ok (a, s') => Forall is_byte (rd_data s') /\ Q a (Zlen (rd_data s')) (rd_len s')
  | Err _ => True
  | Fault _ => False
  end.

Section Safe.
Context {A B : Type}.
Implicit Types (av len : Z).

Lemma safe_ret (a : A) av len (Q : A -> Z -> Z -> Prop) :
  Q a av len -> safe (dret a) av len Q.
Proof. intros H s Hb <- <-. by split. Qed.

Lemma safe_err c av len (Q : A -> Z -> Z -> Prop) : safe (derr c) av len Q.
Proof. intros s _ _ _. exact I. Qed.

Lemma safe_bind (m : D A) (k : A -> D B) av len Q :
  safe m av len (fun a av' len' => safe (k a) av' len' Q) ->
  safe (dbind m k) av len Q.
Proof.
  intros H s Hb Hav Hlen. specialize (H s Hb Hav Hlen). unfold dbind.
  destruct (m s) as [[a s']|c|f]; simpl; [|exact I|contradiction].
  destruct H as [Hb' Hk]. by apply Hk.
Qed.

Lemma safe_conseq (m : D A) av len (Q R : A -> Z -> Z -> Prop) :
  safe m av len Q -> (forall a av' len', Q a av' len' -> R a av' len') ->
  safe m av len R.
Proof.
  intros H HQR s Hb Hav Hlen. specialize (H s Hb Hav Hlen).
  destruct (m s) as [[a s']|c|f]; auto. destruct H. auto.
Qed.
End Safe.

Lemma safe_get_n n av len Q :
  0 <= n <= av ->
  (forall l, Forall is_byte l -> Zlen l = n -> Q l (av - n) len) ->
  safe (get_n n) av len Q.
Proof.
  intros Hn HQ [data ln] Hb Hav Hlen; simpl in *. subst. unfold get_n; simpl.
  destruct (Z.ltb_spec (Zlen data) n) as [Hlt|Hge]; [lia|]; simpl.
  split; [by apply Forall_drop|].
  replace (Zlen (drop (Z.to_nat n) data)) with (Zlen data - n)
    by (unfold Zlen in *; rewrite length_drop; lia).
  apply HQ; [by apply Forall_take|].
  unfold Zlen in *. rewrite length_take. lia.
Qed.

Lemma safe_get_be n av len Q :
  Z.of_nat n <= av ->
  (forall x, 0 <= x < 256 ^ Z.of_nat n -> Q x (av - Z.of_nat n) len) ->
  safe (l <- get_n (Z.of_nat n) ;; dret (de_be l)) av len Q.
Proof.
  intros Hn HQ. apply safe_bind, safe_get_n; [lia|]. intros l Hl Hlen.
  apply safe_ret, HQ. rewrite <- Hlen. by apply de_be_bound.
Qed.

Lemma safe_get_u8 av len (Q : Z -> Z -> Z -> Prop) :
  1 <= av -> (forall x, 0 <= x < 256 -> Q x (av - 1) len) -> safe get_u8 av len Q.
Proof. intros. by apply (safe_get_be 1). Qed.

Lemma safe_get_u16 av len (Q : Z -> Z -> Z -> Prop) :
  2 <= av -> (forall x, 0 <= x < 65536 -> Q x (av - 2) len) -> safe get_u16 av len Q.
Proof. intros. by apply (safe_get_be 2). Qed.

Lemma safe_get_u24 av len (Q : Z -> Z -> Z -> Prop) :
  3 <= av -> (forall x, 0 <= x < 16777216 -> Q x (av - 3) len) -> safe get_u24 av len Q.
Proof. intros. by apply (safe_get_be 3). Qed.

Lemma safe_get_u32 av len (Q : Z -> Z -> Z -> Prop) :
  4 <= av -> (forall x, 0 <= x < 4294967296 -> Q x (av - 4) len) -> safe get_u32 av len Q.
Proof. intros. by apply (safe_get_be 4). Qed.

Lemma safe_get_u40 av len (Q : Z -> Z -> Z -> Prop) :
  5 <= av -> (forall x, 0 <= x < 1099511627776 -> Q x (av - 5) len) -> safe get_u40 av len Q.
Proof. intros. by apply (safe_get_be 5). Qed.

Lemma safe_get_u64 av len (Q : Z -> Z -> Z -> Prop) :
  8 <= av -> (forall x, 0 <= x < 18446744073709551616 -> Q x (av - 8) len) ->
  safe get_u64 av len Q.
Proof. intros. by apply (safe_get_be 8). Qed.

Lemma safe_get_u16_little av len (Q : Z -> Z -> Z -> Prop) :
  2 <= av -> (forall x, 0 <= x < 65536 -> Q x (av - 2) len) ->
  safe get_u16_little av len Q.
Proof.
  intros Hn HQ. apply safe_bind, safe_get_n; [lia|]. intros l Hl Hlen.
  apply safe_ret, HQ. change 65536 with (256 ^ 2). rewrite <- Hlen. by apply de_le_bound.
Qed.

Lemma safe_get_ip4 av len (Q : list Z -> Z -> Z -> Prop) :
  4 <= av -> (forall l, Q l (av - 4) len) -> safe get_ip4 av len Q.
Proof. intros. apply safe_get_n; [lia|auto]. Qed.

Lemma safe_get_ip6 av len (Q : list Z -> Z -> Z -> Prop) :
  16 <= av -> (forall l, Q l (av - 16) len) -> safe get_ip6 av len Q.
Proof. intros. apply safe_get_n; [lia|auto]. Qed.

Lemma safe_get_ip46_ip4 av len (Q : list Z -> Z -> Z -> Prop) :
  4 <= av -> (forall l, Q l (av - 4) len) -> safe get_ip46_ip4 av len Q.
Proof.
  intros. apply safe_bind, safe_get_n; [lia|]. intros. by apply safe_ret.
Qed.

Lemma safe_get_vec v n av len Q :
  0 <= n <= av -> (forall w, Q w (av - n) len) -> safe (get_vec v n) av len Q.
Proof. intros. apply safe_bind, safe_get_n; [done|]. intros. by apply safe_ret. Qed.

Lemma safe_skip n av len (Q : unit -> Z -> Z -> Prop) :
  0 <= n <= av -> Q tt (av - n) len -> safe (skip n) av len Q.
Proof.
  intros Hn HQ [data ln] Hb Hav Hlen; simpl in *. subst.
  split; [by apply Forall_drop|].
  by replace (Zlen (drop (Z.to_nat n) data)) with (Zlen data - n)
    by (unfold Zlen in *; rewrite length_drop; lia).
Qed.

Lemma safe_get_length av len (Q : Z -> Z -> Z -> Prop) :
  Q len av len -> safe get_length av len Q.
Proof. intros H s Hb <- <-. by split. Qed.

Lemma safe_length_sub n av len (Q : unit -> Z -> Z -> Prop) :
  0 <= n <= len -> len < 65536 -> Q tt av (len - n) -> safe (length_sub n) av len Q.
Proof.
  intros Hn Hlen HQ s Hb <- Hl. split; [done|]. simpl. unfold wrap. rewrite Hl.
  rewrite Z.mod_small; [done|lia].
Qed.

Lemma safe_check_length n av len (Q : unit -> Z -> Z -> Prop) :
  (n <= len -> Q tt av len) -> safe (check_length n) av len Q.
Proof.
  intros H s Hb <- Hl. unfold check_length. destruct (Z.ltb_spec (rd_len s) n); [exact I|].
  split; [done|]. rewrite Hl in *. auto.
Qed.

(** ** The round-trip logic *)

(** [yields m bs len a]: on data that starts with [bs], with [length = len],
    [m] returns [a]. The rules follow a decoder in continuation style, taking
    the bytes off the front. *)
Definition yields {A} (m : D A) (bs : list Z) (len : Z) (a : A) : Prop :=
  forall rest, exists s', m (mk_rd (bs ++ rest) len) = Ok (a, s').

Lemma yields_run {A} (m : D A) bs len a rest :
  yields m bs len a -> run_decode m (bs ++ rest) len = Ok a.
Proof. intros H. unfold run_decode. by destruct (H rest) as [s' ->]. Qed.

Section Yields.
Context {A B C : Type}.
Implicit Types (bs : list Z) (len : Z).

Lemma yields_ret (a b : A) bs len : a = b -> yields (dret a) bs len b.
Proof. intros -> rest. by eexists. Qed.

Lemma yields_bret (a : A) (k : A -> D B) bs len b :
  yields (k a) bs len b -> yields (dbind (dret a) k) bs len b.
Proof. done. Qed.

Lemma yields_assoc (m : D A) (f : A -> D B) (k : B -> D C) bs len c :
  yields (dbind m (fun x => dbind (f x) k)) bs len c ->
  yields (dbind (dbind m f) k) bs len c.
Proof.
  intros H rest. destruct (H rest) as [s' E]. exists s'. revert E. unfold dbind.
  by destruct (m _) as [[x s]|?|?].
Qed.

Lemma yields_tail (m : D A) bs len a :
  yields (dbind m dret) bs len a -> yields m bs len a.
Proof.
  intros H rest. destruct (H rest) as [s' E]. exists s'. revert E. unfold dbind.
  by destruct (m _) as [[x s]|?|?].
Qed.

Lemma yields_check n (k : unit -> D B) bs len b :
  n <= len -> yields (k tt) bs len b -> yields (dbind (check_length n) k) bs len b.
Proof.
  intros Hn H rest. destruct (H rest) as [s' E]. exists s'.
  unfold dbind, check_length; simpl. destruct (Z.ltb_spec len n); [lia|exact E].
Qed.

Lemma yields_sub n (k : unit -> D B) bs len b :
  0 <= n <= len -> len < 65536 -> yields (k tt) bs (len - n) b ->
  yields (dbind (length_sub n) k) bs len b.
Proof.
  intros Hn Hl H rest. destruct (H rest) as [s' E]. exists s'.
  unfold dbind, length_sub, wrap; simpl. rewrite Z.mod_small; [exact E|lia].
Qed.

Lemma yields_get_length (k : Z -> D B) bs len b :
  yields (k len) bs len b -> yields (dbind get_length k) bs len b.
Proof. done. Qed.

Lemma yields_get_n n l (k : list Z -> D B) bs len b :
  Zlen l = n -> yields (k l) bs len b -> yields (dbind (get_n n) k) (l ++ bs) len b.
Proof.
  intros <- H rest. destruct (H rest) as [s' E]. exists s'.
  unfold dbind, get_n; simpl. rewrite <- app_assoc.
  destruct (Z.ltb_spec (Zlen (l ++ bs ++ rest)) (Zlen l)) as [Hlt|_].
  { rewrite Zlen_app in Hlt. pose proof (Zlen_nonneg (bs ++ rest)). lia. }
  unfold Zlen. rewrite Nat2Z.id, take_app_length, drop_app_length. exact E.
Qed.

Lemma yields_skip n l (k : unit -> D B) bs len b :
  Zlen l = n -> yields (k tt) bs len b -> yields (dbind (skip n) k) (l ++ bs) len b.
Proof.
  intros <- H rest. destruct (H rest) as [s' E]. exists s'.
  unfold dbind, skip; simpl. rewrite <- app_assoc. unfold Zlen.
  rewrite Nat2Z.id, drop_app_length. exact E.
Qed.

End Yields.

Section YieldsGet.
Context {B : Type}.

Lemma yields_get_be n x (k : Z -> D B) bs len b :
  in_range (8 * Z.of_nat n) x = true -> yields (k x) bs len b ->
  yields (dbind (l <- get_n (Z.of_nat n) ;; dret (de_be l)) k) (be n x ++ bs) len b.
Proof.
  intros Hx%in_range_spec H. apply yields_assoc, yields_get_n; [apply Zlen_be|].
  apply yields_bret. rewrite de_be_be_small; [done|].
  change 256 with (2 ^ 8). rewrite <- Z.pow_mul_r by lia. done.
Qed.

Lemma yields_get_le16 x (k : Z -> D B) bs len b :
  in_range 16 x = true -> yields (k x) bs len b ->
  yields (dbind get_u16_little k) (le 2 x ++ bs) len b.
Proof.
  intros Hx%in_range_spec H. apply yields_assoc, yields_get_n; [apply Zlen_le|].
  apply yields_bret. by rewrite de_le_le_small.
Qed.

Lemma yields_get_vec n l (k : vec Z -> D B) bs len b :
  Zlen l = n -> yields (k (vec_add None l)) bs len b ->
  yields (dbind (get_vec None n) k) (l ++ bs) len b.
Proof. intros Hn H. by apply yields_assoc, yields_get_n. Qed.

Lemma yields_get_ip46_ip4 l (k : list Z -> D B) bs len b :
  Zlen l = 4 -> yields (k (ip46_address_set_ip4 l)) bs len b ->
  yields (dbind get_ip46_ip4 k) (l ++ bs) len b.
Proof. intros Hn H. by apply yields_assoc, yields_get_n. Qed.
End YieldsGet.

(** a vector as a decoder leaves it: NULL or not empty *)
Definition vec_canon {A} (v : vec A) : bool :=
  match v with Some [] => false | _ => true end.

Lemma vec_add_canon {A} (v : vec A) : vec_canon v = true -> vec_add None (vec_elts v) = v.
Proof. by destruct v as [[|x l]|]. Qed.

Lemma vec_canon_empty {A} (v : vec A) : vec_canon v = true -> vec_len v <= 0 -> v = None.
Proof.
  destruct v as [[|x l]|]; intros H Hl; [discriminate| |done].
  unfold vec_len in Hl. simpl in Hl. rewrite Zlen_cons in Hl.
  pose proof (Zlen_nonneg l). lia.
Qed.

Definition is_ip46 (ip : list Z) : bool := Zlen ip =? 16.

Lemma ip46_restore ip :
  ip46_address_is_ip4 ip = true -> ip46_address_set_ip4 (ip46_ip4 ip) = ip.
Proof.
  intros H%bool_decide_eq_true_1. unfold ip46_address_set_ip4, ip46_ip4.
  rewrite <- H. apply take_drop.
Qed.

Lemma Zlen_ip46_ip4 ip : Zlen ip = 16 -> Zlen (ip46_ip4 ip) = 4.
Proof. unfold Zlen, ip46_ip4. rewrite length_drop. lia. Qed.
