(* ===== verification/PfcpIe.v ===== *)
(** * Simple PFCP information elements (src/upf/pfcp.c, "Information Elements")

    One record per C struct of pfcp.h, one [decode_*] and one [encode_*]
    definition per codec function of pfcp.c, in source order. A decoder starts
    from a zeroed struct, as decode_group and decode_vector_ie guarantee; a
    field it does not write is zero. An encoder is the sequence of stores it
    makes, or its error code. The host is little endian. *)

From Stdlib Require Import ZArith Lia Floats.SpecFloat.
From stdpp Require Import base list list_numbers option numbers decidable.
From S2P Require Import Prelude PfcpIo.

(** ** Library functions the codecs call

    Text conversion of addresses and vector growth belong to VPP; they are
    parameters, with the behaviour the codecs rely on in [VppinfraOk]. *)

Inductive ip46_type := IP46_TYPE_ANY | IP46_TYPE_IP4 | IP46_TYPE_IP6.

Class Vppinfra := {
  vec_grow : Z -> Z -> Z;
  format_ip46_address : list Z -> list Z;
  unformat_ip46_address : list Z -> ip46_type -> option (list Z)
}.

Class VppinfraOk (V : Vppinfra) := {
  vec_grow_enough cap need : need <= vec_grow cap need;
  unformat_format_ip4 ip :
    length ip = 16%nat -> ip46_address_is_ip4 ip = true ->
    unformat_ip46_address (format_ip46_address ip) IP46_TYPE_IP4 = Some ip;
  unformat_format_ip6 ip :
    length ip = 16%nat -> ip46_address_is_ip4 ip = false ->
    unformat_ip46_address (format_ip46_address ip) IP46_TYPE_IP6 = Some ip;
  format_ip46_short ip : Zlen (format_ip46_address ip) < 65536
}.

Definition ip4_zero : list Z := replicate 4 0.
Definition ip6_zero : list Z := replicate 16 0.
Definition mac_zero : list Z := replicate 6 0.

(** load [n] bytes, leaving the pointer where it is *)
Definition peek_n (n : Z) : D (list Z) := fun s =>
  obind (get_n n s) (fun '(l, _) => Ok (l, s)).

Definition opt_ops (c : bool) (ops : list wop) : list wop := if c then ops else [].

(** [__builtin_popcount] of an octet *)
Definition popcount8 (x : Z) : Z :=
  fold_right Z.add 0 (map (fun i => Z.b2z (Z.testbit x i)) [0; 1; 2; 3; 4; 5; 6; 7]).

Definition bswap16 (x : Z) : Z :=
  Z.lor (Z.shiftl (Z.land x 255) 8) (Z.land (Z.shiftr x 8) 255).

(** ** Generic elements *)

Definition decode_u8_ie : D Z := check_length 1 ;;; get_u8.
Definition encode_u8_ie (v : Z) : outcome (list wop) := Ok [put_u8 v].

Definition decode_u16_ie : D Z := check_length 2 ;;; get_u16.
Definition encode_u16_ie (v : Z) : outcome (list wop) := Ok [put_u16 v].

Definition decode_u16_little_ie : D Z := check_length 2 ;;; get_u16_little.
Definition encode_u16_little_ie (v : Z) : outcome (list wop) := Ok [put_u16_little v].

Definition decode_u32_ie : D Z := check_length 4 ;;; get_u32.
Definition encode_u32_ie (v : Z) : outcome (list wop) := Ok [put_u32 v].

Definition decode_simple_vec_ie : D (vec Z) :=
  length <- get_length ;; get_vec None length.
Definition encode_simple_vec_ie (v : vec Z) : outcome (list wop) := Ok [vec_append v].

Definition PFCP_VOLUME_TOVOL : Z := BIT 0.
Definition PFCP_VOLUME_ULVOL : Z := BIT 1.
Definition PFCP_VOLUME_DLVOL : Z := BIT 2.
Definition PFCP_VOLUME_TONOP : Z := BIT 3.
Definition PFCP_VOLUME_ULNOP : Z := BIT 4.
Definition PFCP_VOLUME_DLNOP : Z := BIT 5.
Definition PFCP_VOLUME_VOLUME : Z :=
  Z.lor PFCP_VOLUME_TOVOL (Z.lor PFCP_VOLUME_ULVOL PFCP_VOLUME_DLVOL).

Record pfcp_volume_ie_t := {
  vol_fields : Z; vol_total : Z; vol_ul : Z; vol_dl : Z }.

Definition decode_volume_ie : D pfcp_volume_ie_t :=
  check_length 1 ;;;
  b <- get_u8 ;;
  let fields := Z.land b PFCP_VOLUME_VOLUME in
  check_length (1 + popcount8 fields * 8) ;;;
  total <- (if flag fields PFCP_VOLUME_TOVOL then get_u64 else dret 0) ;;
  ul <- (if flag fields PFCP_VOLUME_ULVOL then get_u64 else dret 0) ;;
  dl <- (if flag fields PFCP_VOLUME_DLVOL then get_u64 else dret 0) ;;
  dret {| vol_fields := fields; vol_total := total; vol_ul := ul; vol_dl := dl |}.

Definition encode_volume_ie (v : pfcp_volume_ie_t) : outcome (list wop) :=
  Ok ([put_u8 (vol_fields v)]
      ++ opt_ops (flag (vol_fields v) PFCP_VOLUME_TOVOL) [put_u64 (vol_total v)]
      ++ opt_ops (flag (vol_fields v) PFCP_VOLUME_ULVOL) [put_u64 (vol_ul v)]
      ++ opt_ops (flag (vol_fields v) PFCP_VOLUME_DLVOL) [put_u64 (vol_dl v)]).

(** seconds since 1900 on the wire, Unix seconds modulo 2^32 in memory *)
Definition decode_time_stamp_ie : D Z :=
  length <- get_length ;;
  if negb (length =? 4) then derr PFCP_CAUSE_INVALID_LENGTH
  else
    v <- get_u32 ;;
    dret (if flag v 0x80000000 then wrap 32 (v - 2208988800)
          else wrap 32 (v + 2085978496)).

Definition encode_time_stamp_ie (v : Z) : outcome (list wop) :=
  Ok [if 2085978496 <=? v then put_u32 (wrap 32 (v - 2085978496))
      else put_u32 (wrap 32 (v + 2208988800))].

Record pfcp_timer_ie_t := { tm_unit : Z; tm_value : Z }.

Definition decode_timer_ie : D pfcp_timer_ie_t :=
  check_length 1 ;;;
  t <- get_u8 ;;
  dret {| tm_unit := Z.shiftr t 4; tm_value := Z.land t 0x0f |}.

Definition encode_timer_ie (v : pfcp_timer_ie_t) : outcome (list wop) :=
  Ok [put_u8 (Z.lor (Z.shiftl (Z.land (tm_unit v) 0x0f) 4) (Z.land (tm_value v) 0x0f))].

(** IEEE binary64 *)
Definition f64 := spec_float.
Definition f64_of_Z (x : Z) : f64 := binary_normalize 53 1024 x 0 false.
Definition f64_add : f64 -> f64 -> f64 := SFadd 53 1024.
Definition f64_sub : f64 -> f64 -> f64 := SFsub 53 1024.
Definition f64_mul : f64 -> f64 -> f64 := SFmul 53 1024.
Definition f64_div : f64 -> f64 -> f64 := SFdiv 53 1024.
Definition f64_ge (a b : f64) : bool := SFleb b a.

(** conversion of a double to an integer truncates towards zero *)
Definition f64_trunc (x : f64) : Z :=
  match x with
  | S754_finite s m e =>
      let a := if 0 <=? e then Z.pos m * 2 ^ e else Z.pos m / 2 ^ (- e) in
      if s then - a else a
  | _ => 0
  end.

Definition decode_sntp_time_stamp_ie : D f64 :=
  length <- get_length ;;
  if negb (length =? 8) then derr PFCP_CAUSE_INVALID_LENGTH
  else
    s <- get_u32 ;;
    let v := f64_of_Z s in
    let v := if f64_ge v (f64_of_Z 2208988800) then f64_sub v (f64_of_Z 2208988800)
             else f64_add v (f64_of_Z 2085978496) in
    frac <- get_u32 ;;
    dret (f64_add v (f64_div (f64_of_Z frac) (f64_of_Z (2 ^ 32)))).

Definition encode_sntp_time_stamp_ie (v : f64) : outcome (list wop) :=
  let seconds := f64_of_Z (f64_trunc v) in
  let fraction := f64_sub v seconds in
  let seconds :=
    if f64_ge seconds (f64_of_Z 2085978496) then f64_sub seconds (f64_of_Z 2085978496)
    else f64_add seconds (f64_of_Z 2208988800) in
  Ok [put_u32 (f64_trunc seconds);
      put_u32 (f64_trunc (f64_mul fraction (f64_of_Z (2 ^ 32))))].

(** ** Information elements *)

Definition decode_source_interface : D Z :=
  check_length 1 ;;;
  b <- get_u8 ;;
  let v := Z.land b 0x0f in
  if 4 <=? v then derr PFCP_CAUSE_REQUEST_REJECTED else dret v.
Definition encode_source_interface (v : Z) : outcome (list wop) :=
  Ok [put_u8 (Z.land v 0x0f)].

Definition F_TEID_V4 : Z := BIT 0.
Definition F_TEID_V6 : Z := BIT 1.
Definition F_TEID_CH : Z := BIT 2.
Definition F_TEID_CHID : Z := BIT 3.

Record pfcp_f_teid_t := {
  ft_flags : Z; ft_teid : Z; ft_ip4 : list Z; ft_ip6 : list Z; ft_choose_id : Z }.

Definition decode_f_teid : D pfcp_f_teid_t :=
  check_length 1 ;;;
  b <- get_u8 ;;
  let flags := Z.land b 0x0f in
  if negb (flag flags F_TEID_CH) then
    check_length 4 ;;;
    teid <- get_u32 ;;
    length_sub 4 ;;;
    if flag flags F_TEID_CHID then derr (-1)
    else if negb (flag flags (Z.lor F_TEID_V4 F_TEID_V6)) then derr (-1)
    else
      ip4 <- (if flag flags F_TEID_V4 then
                check_length 4 ;;; a <- get_ip4 ;; length_sub 4 ;;; dret a
              else dret ip4_zero) ;;
      ip6 <- (if flag flags F_TEID_V6 then
                check_length 16 ;;; a <- get_ip6 ;; length_sub 16 ;;; dret a
              else dret ip6_zero) ;;
      dret {| ft_flags := flags; ft_teid := teid; ft_ip4 := ip4; ft_ip6 := ip6;
              ft_choose_id := 0 |}
  else
    check_length 1 ;;;
    if negb (flag flags F_TEID_V6) && negb (flag flags F_TEID_V4) then derr (-1)
    else
      c <- get_u8 ;;
      dret {| ft_flags := flags; ft_teid := 0; ft_ip4 := ip4_zero; ft_ip6 := ip6_zero;
              ft_choose_id := c |}.

Definition encode_f_teid (v : pfcp_f_teid_t) : outcome (list wop) :=
  Ok ([put_u8 (ft_flags v); put_u32 (ft_teid v)]
      ++ opt_ops (flag (ft_flags v) F_TEID_V4) [put_ip4 (ft_ip4 v)]
      ++ opt_ops (flag (ft_flags v) F_TEID_V6) [put_ip6 (ft_ip6 v)]
      ++ opt_ops (flag (ft_flags v) F_TEID_CHID) [put_u8 (ft_choose_id v)]).

Definition F_SDF_FD : Z := BIT 0.
Definition F_SDF_TTC : Z := BIT 1.
Definition F_SDF_SPI : Z := BIT 2.
Definition F_SDF_FL : Z := BIT 3.
Definition F_SDF_BID : Z := BIT 4.

Record pfcp_sdf_filter_t := {
  sdf_flags : Z; sdf_flow : vec Z; sdf_tos_traffic_class : Z; sdf_spi : Z;
  sdf_flow_label : Z; sdf_sdf_filter_id : Z }.

Definition decode_sdf_filter : D pfcp_sdf_filter_t :=
  check_length 2 ;;;
  b <- get_u8 ;;
  let flags := Z.land b 0x0f in
  skip 1 ;;;
  length_sub 2 ;;;
  flow <- (if flag flags F_SDF_FD then
             check_length 2 ;;;
             flow_len <- get_u16 ;;
             length_sub 2 ;;;
             check_length flow_len ;;;
             f <- get_vec None flow_len ;;
             length_sub flow_len ;;;
             dret f
           else dret None) ;;
  ttc <- (if flag flags F_SDF_TTC then
            check_length 2 ;;; x <- get_u16 ;; length_sub 2 ;;; dret x
          else dret 0) ;;
  spi <- (if flag flags F_SDF_SPI then
            check_length 4 ;;; x <- get_u32 ;; length_sub 4 ;;; dret x
          else dret 0) ;;
  fl <- (if flag flags F_SDF_FL then
           check_length 3 ;;; x <- get_u24 ;; length_sub 3 ;;; dret x
         else dret 0) ;;
  bid <- (if flag flags F_SDF_BID then
            check_length 4 ;;; x <- get_u32 ;; length_sub 4 ;;; dret x
          else dret 0) ;;
  dret {| sdf_flags := flags; sdf_flow := flow; sdf_tos_traffic_class := ttc;
          sdf_spi := spi; sdf_flow_label := fl; sdf_sdf_filter_id := bid |}.

Definition encode_sdf_filter (v : pfcp_sdf_filter_t) : outcome (list wop) :=
  Ok ([put_u8 (Z.land (sdf_flags v) 0x0f); put_u8 0]
      ++ opt_ops (flag (sdf_flags v) F_SDF_FD)
           [put_u16 (vec_len (sdf_flow v)); vec_append (sdf_flow v)]
      ++ opt_ops (flag (sdf_flags v) F_SDF_TTC) [put_u16 (sdf_tos_traffic_class v)]
      ++ opt_ops (flag (sdf_flags v) F_SDF_SPI) [put_u32 (sdf_spi v)]
      ++ opt_ops (flag (sdf_flags v) F_SDF_FL) [put_u24 (sdf_flow_label v)]
      ++ opt_ops (flag (sdf_flags v) F_SDF_BID) [put_u32 (sdf_sdf_filter_id v)]).

Record pfcp_gate_status_t := { gs_ul : Z; gs_dl : Z }.

Definition decode_gate_status : D pfcp_gate_status_t :=
  check_length 1 ;;;
  status <- get_u8 ;;
  dret {| gs_dl := Z.b2z (flag status 0x03);
          gs_ul := Z.b2z (flag (Z.shiftr status 2) 0x03) |}.

Definition encode_gate_status (v : pfcp_gate_status_t) : outcome (list wop) :=
  Ok [put_u8 (Z.lor (Z.land (gs_dl v) 0x03) (Z.shiftl (Z.land (gs_ul v) 0x03) 2))].

Record pfcp_bit_rate_t := { br_ul : Z; br_dl : Z }.

Definition decode_bit_rate : D pfcp_bit_rate_t :=
  check_length 10 ;;;
  ul <- get_u40 ;;
  dl <- get_u40 ;;
  dret {| br_ul := ul; br_dl := dl |}.

Definition encode_bit_rate (v : pfcp_bit_rate_t) : outcome (list wop) :=
  Ok [put_u40 (br_ul v); put_u40 (br_dl v)].

Section Redirect.
Context {V : Vppinfra}.

Definition REDIRECT_INFORMATION_IPv4 : Z := 0.
Definition REDIRECT_INFORMATION_IPv6 : Z := 1.
Definition REDIRECT_INFORMATION_HTTP : Z := 2.
Definition REDIRECT_INFORMATION_SIP : Z := 3.
Definition REDIRECT_INFORMATION_IPv4v6 : Z := 4.

(** the C union of two addresses and a URI; the member not selected by the
    type is zero *)
Record pfcp_redirect_information_t := {
  ri_type : Z; ri_ip : list Z; ri_other_ip : list Z; ri_uri : vec Z }.

Definition decode_redirect_information : D pfcp_redirect_information_t :=
  check_length 3 ;;;
  type <- get_u8 ;;
  addr_len <- get_u16 ;;
  length_sub 3 ;;;
  check_length addr_len ;;;
  if (type =? REDIRECT_INFORMATION_IPv4) || (type =? REDIRECT_INFORMATION_IPv6) then
    txt <- peek_n addr_len ;;
    match unformat_ip46_address txt
            (if type =? REDIRECT_INFORMATION_IPv4 then IP46_TYPE_IP4
             else IP46_TYPE_IP6) with
    | None => derr PFCP_CAUSE_REQUEST_REJECTED
    | Some ip => dret {| ri_type := type; ri_ip := ip; ri_other_ip := ip6_zero;
                         ri_uri := None |}
    end
  else if type =? REDIRECT_INFORMATION_IPv4v6 then
    txt <- peek_n addr_len ;;
    match unformat_ip46_address txt IP46_TYPE_ANY with
    | None => derr PFCP_CAUSE_REQUEST_REJECTED
    | Some ip =>
        skip addr_len ;;;
        check_length 2 ;;;
        addr_len <- get_u16 ;;
        length_sub 2 ;;;
        check_length addr_len ;;;
        txt <- peek_n addr_len ;;
        match unformat_ip46_address txt IP46_TYPE_ANY with
        | None => derr PFCP_CAUSE_REQUEST_REJECTED
        | Some other => dret {| ri_type := type; ri_ip := ip; ri_other_ip := other;
                                ri_uri := None |}
        end
    end
  else if (type =? REDIRECT_INFORMATION_HTTP) || (type =? REDIRECT_INFORMATION_SIP) then
    uri <- get_vec None addr_len ;;
    length_sub addr_len ;;;
    dret {| ri_type := type; ri_ip := ip6_zero; ri_other_ip := ip6_zero; ri_uri := uri |}
  else derr PFCP_CAUSE_REQUEST_REJECTED.

Definition encode_redirect_information (v : pfcp_redirect_information_t)
  : outcome (list wop) :=
  Ok ([put_u8 (ri_type v)]
      ++ (if (ri_type v =? REDIRECT_INFORMATION_IPv4)
             || (ri_type v =? REDIRECT_INFORMATION_IPv6) then
            let s := format_ip46_address (ri_ip v) in
            [put_u16 (Zlen s); vec_append (Some s)]
          else if (ri_type v =? REDIRECT_INFORMATION_HTTP)
                  || (ri_type v =? REDIRECT_INFORMATION_SIP) then
            [put_u16 (vec_len (ri_uri v)); vec_append (ri_uri v)]
          else [])).
End Redirect.

Record pfcp_forwarding_policy_t := { fp_identifier : vec Z }.

Definition decode_forwarding_policy : D pfcp_forwarding_policy_t :=
  check_length 1 ;;;
  fpi_len <- get_u8 ;;
  length_sub 1 ;;;
  check_length fpi_len ;;;
  length <- get_length ;;
  i <- get_vec None length ;;
  dret {| fp_identifier := i |}.

Definition encode_forwarding_policy (v : pfcp_forwarding_policy_t) : outcome (list wop) :=
  Ok [put_u8 (vec_len (fp_identifier v)); vec_append (fp_identifier v)].

Definition DST_INTF_NUM : Z := 6.

Definition decode_destination_interface : D Z :=
  check_length 1 ;;;
  b <- get_u8 ;;
  let v := Z.land b 0x0f in
  if DST_INTF_NUM <=? v then derr PFCP_CAUSE_REQUEST_REJECTED else dret v.
Definition encode_destination_interface (v : Z) : outcome (list wop) := Ok [put_u8 v].

Definition decode_up_function_features : D Z :=
  length <- get_length ;;
  if negb (length mod 2 =? 0) || (length <? 2) then derr PFCP_CAUSE_INVALID_LENGTH
  else
    a <- get_u16_little ;;
    length_sub 2 ;;;
    length <- get_length ;;
    if length =? 0 then dret a
    else
      b <- get_u16_little ;;
      let v := Z.lor a (Z.shiftl b 16) in
      length_sub 2 ;;;
      length <- get_length ;;
      if length =? 0 then dret v
      else
        c <- get_u16_little ;;
        let v := Z.lor v (Z.shiftl c 32) in
        length_sub 2 ;;;
        length <- get_length ;;
        if length =? 0 then dret v
        else
          d <- get_u16_little ;;
          dret (Z.lor v (Z.shiftl d 48)).

Definition encode_up_function_features (v : Z) : outcome (list wop) :=
  Ok [put_u16_little v; put_u16_little (Z.shiftr v 16); put_u16_little (Z.shiftr v 32)].

Definition F_DDSI_PPI : Z := BIT 0.
Definition F_DDSI_QFII : Z := BIT 1.

Record pfcp_downlink_data_service_information_t := {
  ddsi_flags : Z; ddsi_paging_policy_indication : Z; ddsi_qfi : Z }.

Definition decode_downlink_data_service_information
  : D pfcp_downlink_data_service_information_t :=
  check_length 1 ;;;
  b <- get_u8 ;;
  let flags := Z.land b 0x03 in
  length_sub 1 ;;;
  ppi <- (if flag flags F_DDSI_PPI then
            check_length 1 ;;; x <- get_u8 ;; length_sub 1 ;;; dret x
          else dret 0) ;;
  qfi <- (if flag flags F_DDSI_QFII then
            check_length 1 ;;; x <- get_u8 ;; length_sub 1 ;;; dret x
          else dret 0) ;;
  dret {| ddsi_flags := flags; ddsi_paging_policy_indication := ppi; ddsi_qfi := qfi |}.

Definition encode_downlink_data_service_information
  (v : pfcp_downlink_data_service_information_t) : outcome (list wop) :=
  Ok ([put_u8 (ddsi_flags v)]
      ++ opt_ops (flag (ddsi_flags v) F_DDSI_PPI) [put_u8 (ddsi_paging_policy_indication v)]
      ++ opt_ops (flag (ddsi_flags v) F_DDSI_QFII) [put_u8 (ddsi_qfi v)]).

Definition decode_dl_buffering_suggested_packet_count : D Z :=
  length <- get_length ;;
  if length =? 1 then get_u8
  else if length =? 2 then get_u16
  else derr PFCP_CAUSE_INVALID_LENGTH.

Definition encode_dl_buffering_suggested_packet_count (v : Z) : outcome (list wop) :=
  Ok [if v <? 256 then put_u8 v else put_u16 v].

Definition IE_F_SEID_IP_ADDRESS_V6 : Z := BIT 0.
Definition IE_F_SEID_IP_ADDRESS_V4 : Z := BIT 1.

Record pfcp_f_seid_t := {
  fs_flags : Z; fs_seid : Z; fs_ip4 : list Z; fs_ip6 : list Z }.

Definition decode_f_seid : D pfcp_f_seid_t :=
  check_length 9 ;;;
  b <- get_u8 ;;
  let flags := Z.land b 0x03 in
  if flags =? 0 then derr (-1)
  else
    seid <- get_u64 ;;
    ip4 <- (if flag flags IE_F_SEID_IP_ADDRESS_V4 then
              check_length 4 ;;; a <- get_ip4 ;; length_sub 4 ;;; dret a
            else dret ip4_zero) ;;
    ip6 <- (if flag flags IE_F_SEID_IP_ADDRESS_V6 then
              check_length 16 ;;; get_ip6
            else dret ip6_zero) ;;
    dret {| fs_flags := flags; fs_seid := seid; fs_ip4 := ip4; fs_ip6 := ip6 |}.

Definition encode_f_seid (v : pfcp_f_seid_t) : outcome (list wop) :=
  Ok ([put_u8 (fs_flags v); put_u64 (fs_seid v)]
      ++ opt_ops (flag (fs_flags v) IE_F_SEID_IP_ADDRESS_V4) [put_ip4 (fs_ip4 v)]
      ++ opt_ops (flag (fs_flags v) IE_F_SEID_IP_ADDRESS_V6) [put_ip6 (fs_ip6 v)]).

Definition NID_IPv4 : Z := 0.
Definition NID_IPv6 : Z := 1.
Definition NID_FQDN : Z := 2.

(** the C union of an address and a name; the member not selected is zero *)
Record pfcp_node_id_t := { nid_type : Z; nid_ip : list Z; nid_fqdn : vec Z }.

Definition decode_node_id : D pfcp_node_id_t :=
  check_length 1 ;;;
  b <- get_u8 ;;
  let type := Z.land b 0x0f in
  length_sub 1 ;;;
  if type =? NID_IPv4 then
    check_length 4 ;;;
    ip <- get_ip46_ip4 ;;
    dret {| nid_type := type; nid_ip := ip; nid_fqdn := None |}
  else if type =? NID_IPv6 then
    check_length 16 ;;;
    ip <- get_ip46_ip6 ;;
    dret {| nid_type := type; nid_ip := ip; nid_fqdn := None |}
  else if type =? NID_FQDN then
    length <- get_length ;;
    n <- get_vec None length ;;
    dret {| nid_type := type; nid_ip := ip6_zero; nid_fqdn := n |}
  else derr PFCP_CAUSE_REQUEST_REJECTED.

Definition encode_node_id (v : pfcp_node_id_t) : outcome (list wop) :=
  Ok ([put_u8 (nid_type v)]
      ++ (if nid_type v =? NID_IPv4 then [put_ip46_ip4 (nid_ip v)]
          else if nid_type v =? NID_IPv6 then [put_ip46_ip6 (nid_ip v)]
          else if nid_type v =? NID_FQDN then [vec_append (nid_fqdn v)]
          else [])).

Definition F_PFD_C_FD : Z := BIT 0.
Definition F_PFD_C_URL : Z := BIT 1.
Definition F_PFD_C_DN : Z := BIT 2.
Definition F_PFD_C_CP : Z := BIT 3.
Definition F_PFD_C_DNP : Z := BIT 4.
Definition F_PFD_C_MASK : Z :=
  Z.lor F_PFD_C_FD (Z.lor F_PFD_C_URL (Z.lor F_PFD_C_DN (Z.lor F_PFD_C_CP F_PFD_C_DNP))).

Record pfcp_pfd_contents_t := {
  pfd_flow_description : vec Z; pfd_url : vec Z; pfd_domain : vec Z;
  pfd_custom : vec Z; pfd_dnp : vec Z }.

(** the block decode_pfd_contents repeats for each of its five members *)
Definition decode_pfd_member (present : bool) : D (vec Z) :=
  if present then
    check_length 2 ;;;
    len <- get_u16 ;;
    length_sub 2 ;;;
    check_length len ;;;
    v <- get_vec None len ;;
    length_sub len ;;;
    dret v
  else dret None.

Definition decode_pfd_contents : D pfcp_pfd_contents_t :=
  check_length 2 ;;;
  b <- get_u8 ;;
  let flags := Z.land b F_PFD_C_MASK in
  skip 1 ;;;
  length_sub 2 ;;;
  fd <- decode_pfd_member (flag flags F_PFD_C_FD) ;;
  url <- decode_pfd_member (flag flags F_PFD_C_URL) ;;
  dn <- decode_pfd_member (flag flags F_PFD_C_DN) ;;
  cp <- decode_pfd_member (flag flags F_PFD_C_CP) ;;
  dnp <- decode_pfd_member (flag flags F_PFD_C_DNP) ;;
  dret {| pfd_flow_description := fd; pfd_url := url; pfd_domain := dn;
          pfd_custom := cp; pfd_dnp := dnp |}.

Definition encode_pfd_member (v : vec Z) : list wop :=
  opt_ops (0 <? vec_len v) [put_u16 (vec_len v); vec_append v].

Definition encode_pfd_contents (v : pfcp_pfd_contents_t) : outcome (list wop) :=
  let bit (m : vec Z) (f : Z) := if 0 <? vec_len m then f else 0 in
  let flags :=
    Z.lor (Z.lor (Z.lor (Z.lor (bit (pfd_flow_description v) F_PFD_C_FD)
                               (bit (pfd_url v) F_PFD_C_URL))
                        (bit (pfd_domain v) F_PFD_C_DN))
                 (bit (pfd_custom v) F_PFD_C_CP))
          (bit (pfd_dnp v) F_PFD_C_DNP) in
  Ok ([put_u8 flags]
      ++ encode_pfd_member (pfd_flow_description v)
      ++ encode_pfd_member (pfd_url v)
      ++ encode_pfd_member (pfd_domain v)
      ++ encode_pfd_member (pfd_custom v)
      ++ encode_pfd_member (pfd_dnp v)).

(** writes a [u64] into the 32-bit member; its low word is what is kept here *)
Definition decode_usage_report_trigger : D Z :=
  check_length 2 ;;;
  v <- get_u16_little ;;
  length_sub 2 ;;;
  length <- get_length ;;
  if length =? 0 then dret v
  else
    b <- get_u8 ;;
    dret (Z.lor v (Z.shiftl b 16)).

Definition encode_usage_report_trigger (v : Z) : outcome (list wop) :=
  Ok [put_u16_little v; put_u8 (Z.shiftr v 16)].

Definition FQ_CSID_NID_IP4 : Z := 0.
Definition FQ_CSID_NID_IP6 : Z := 1.
Definition FQ_CSID_NID_NID : Z := 2.

Record pfcp_fq_csid_t := {
  fq_node_id_type : Z; fq_ip : list Z; fq_mcc : Z; fq_mnc : Z; fq_nid : Z;
  fq_csid : list Z }.

Fixpoint get_u16s (n : nat) : D (list Z) :=
  match n with
  | O => dret []
  | S k =>
      x <- get_u16 ;;
      length_sub 2 ;;;
      l <- get_u16s k ;;
      dret (x :: l)
  end.

Definition decode_fq_csid : D pfcp_fq_csid_t :=
  check_length 1 ;;;
  b <- get_u8 ;;
  length_sub 1 ;;;
  let node_id_type := Z.shiftr b 4 in
  let n := Z.land b 0x0f in
  id <- (if node_id_type =? FQ_CSID_NID_IP4 then
           check_length 4 ;;; ip <- get_ip46_ip4 ;; length_sub 4 ;;; dret (ip, (0, 0, 0))
         else if node_id_type =? FQ_CSID_NID_IP6 then
           check_length 16 ;;; ip <- get_ip46_ip6 ;; length_sub 16 ;;; dret (ip, (0, 0, 0))
         else if node_id_type =? FQ_CSID_NID_NID then
           check_length 4 ;;;
           id <- get_u32 ;;
           length_sub 4 ;;;
           dret (ip6_zero, (Z.shiftr id 12 / 1000, Z.shiftr id 12 mod 1000,
                            Z.land id 0x0fff))
         else dret (ip6_zero, (0, 0, 0))) ;;
  check_length (n * 2) ;;;
  csid <- get_u16s (Z.to_nat n) ;;
  let '(ip, (mcc, mnc, nid)) := id in
  dret {| fq_node_id_type := node_id_type; fq_ip := ip; fq_mcc := mcc; fq_mnc := mnc;
          fq_nid := nid; fq_csid := csid |}.

Definition encode_fq_csid (v : pfcp_fq_csid_t) : outcome (list wop) :=
  Ok ([put_u8 (Z.lor (Z.shiftl (fq_node_id_type v) 4) (Z.land (Zlen (fq_csid v)) 0x0f))]
      ++ (if fq_node_id_type v =? FQ_CSID_NID_IP4 then [put_ip46_ip4 (fq_ip v)]
          else if fq_node_id_type v =? FQ_CSID_NID_IP6 then [put_ip46_ip6 (fq_ip v)]
          else if fq_node_id_type v =? FQ_CSID_NID_NID then
            [put_u32 (Z.lor (Z.shiftl (fq_mcc v * 1000 + fq_mnc v) 12)
                            (Z.land (fq_nid v) 0x0fff))]
          else [])
      ++ map put_u16 (fq_csid v)).

Record pfcp_volume_measurement_t := {
  vm_fields : Z;
  vm_volume_total : Z; vm_volume_ul : Z; vm_volume_dl : Z;
  vm_packets_total : Z; vm_packets_ul : Z; vm_packets_dl : Z }.

Definition decode_volume_measurement : D pfcp_volume_measurement_t :=
  check_length 1 ;;;
  b <- get_u8 ;;
  let fields := Z.land b 0x07 in
  check_length (1 + popcount8 fields * 8) ;;;
  vt <- (if flag fields PFCP_VOLUME_TOVOL then get_u64 else dret 0) ;;
  vu <- (if flag fields PFCP_VOLUME_ULVOL then get_u64 else dret 0) ;;
  vd <- (if flag fields PFCP_VOLUME_DLVOL then get_u64 else dret 0) ;;
  pt <- (if flag fields PFCP_VOLUME_TONOP then get_u64 else dret 0) ;;
  pu <- (if flag fields PFCP_VOLUME_ULNOP then get_u64 else dret 0) ;;
  pd <- (if flag fields PFCP_VOLUME_DLNOP then get_u64 else dret 0) ;;
  dret {| vm_fields := fields; vm_volume_total := vt; vm_volume_ul := vu;
          vm_volume_dl := vd; vm_packets_total := pt; vm_packets_ul := pu;
          vm_packets_dl := pd |}.

Definition encode_volume_measurement (v : pfcp_volume_measurement_t) : outcome (list wop) :=
  let f := vm_fields v in
  Ok ([put_u8 f]
      ++ opt_ops (flag f PFCP_VOLUME_TOVOL) [put_u64 (vm_volume_total v)]
      ++ opt_ops (flag f PFCP_VOLUME_ULVOL) [put_u64 (vm_volume_ul v)]
      ++ opt_ops (flag f PFCP_VOLUME_DLVOL) [put_u64 (vm_volume_dl v)]
      ++ opt_ops (flag f PFCP_VOLUME_TONOP) [put_u64 (vm_packets_total v)]
      ++ opt_ops (flag f PFCP_VOLUME_ULNOP) [put_u64 (vm_packets_ul v)]
      ++ opt_ops (flag f PFCP_VOLUME_DLNOP) [put_u64 (vm_packets_dl v)]).

Definition DDTT_DLPA : Z := BIT 0.
Definition DDTT_DLBY : Z := BIT 1.

Record pfcp_dropped_dl_traffic_threshold_t := {
  ddtt_flags : Z; ddtt_downlink_packets : Z; ddtt_downlink_volume : Z }.

Definition decode_dropped_dl_traffic_threshold : D pfcp_dropped_dl_traffic_threshold_t :=
  check_length 2 ;;;
  flags <- get_u8 ;;
  length_sub 1 ;;;
  p <- (if flag flags DDTT_DLPA then
          check_length 8 ;;; x <- get_u64 ;; length_sub 8 ;;; dret x
        else dret 0) ;;
  v <- (if flag flags DDTT_DLBY then
          check_length 8 ;;; x <- get_u64 ;; length_sub 8 ;;; dret x
        else dret 0) ;;
  dret {| ddtt_flags := flags; ddtt_downlink_packets := p; ddtt_downlink_volume := v |}.

Definition encode_dropped_dl_traffic_threshold (v : pfcp_dropped_dl_traffic_threshold_t)
  : outcome (list wop) :=
  Ok ([put_u8 (ddtt_flags v)]
      ++ opt_ops (flag (ddtt_flags v) DDTT_DLBY) [put_u64 (ddtt_downlink_packets v)]
      ++ opt_ops (flag (ddtt_flags v) DDTT_DLPA) [put_u64 (ddtt_downlink_packets v)]).

Definition OUTER_HEADER_CREATION_GTP_IP4 : Z := BIT 0.
Definition OUTER_HEADER_CREATION_GTP_IP6 : Z := BIT 1.
Definition OUTER_HEADER_CREATION_UDP_IP4 : Z := BIT 2.
Definition OUTER_HEADER_CREATION_UDP_IP6 : Z := BIT 3.
Definition OUTER_HEADER_CREATION_IP4 : Z := BIT 4.
Definition OUTER_HEADER_CREATION_IP6 : Z := BIT 5.
Definition OUTER_HEADER_CREATION_C_TAG : Z := BIT 6.
Definition OUTER_HEADER_CREATION_S_TAG : Z := BIT 7.
Definition OUTER_HEADER_CREATION_GTP_ANY : Z :=
  Z.lor OUTER_HEADER_CREATION_GTP_IP4 OUTER_HEADER_CREATION_GTP_IP6.
Definition OUTER_HEADER_CREATION_UDP_ANY : Z :=
  Z.lor OUTER_HEADER_CREATION_UDP_IP4 OUTER_HEADER_CREATION_UDP_IP6.
Definition OUTER_HEADER_CREATION_ANY_IP4 : Z :=
  Z.lor (Z.lor OUTER_HEADER_CREATION_GTP_IP4 OUTER_HEADER_CREATION_UDP_IP4)
        OUTER_HEADER_CREATION_IP4.
Definition OUTER_HEADER_CREATION_ANY_IP6 : Z :=
  Z.lor (Z.lor OUTER_HEADER_CREATION_GTP_IP6 OUTER_HEADER_CREATION_UDP_IP6)
        OUTER_HEADER_CREATION_IP4.

Record pfcp_outer_header_creation_t := {
  ohc_description : Z; ohc_teid : Z; ohc_ip : list Z; ohc_port : Z;
  ohc_c_tag : Z; ohc_s_tag : Z }.

(** the bit combinations decode_outer_header_creation rejects *)
Definition ohc_invalid (d : Z) : bool :=
  (d =? 0)
  || Bool.eqb (flag d OUTER_HEADER_CREATION_GTP_ANY) (flag d OUTER_HEADER_CREATION_UDP_ANY)
  || (Z.land d OUTER_HEADER_CREATION_UDP_ANY =? OUTER_HEADER_CREATION_UDP_ANY).

Definition decode_outer_header_creation : D pfcp_outer_header_creation_t :=
  check_length 2 ;;;
  d <- get_u16_little ;;
  length_sub 2 ;;;
  if ohc_invalid d then derr PFCP_CAUSE_REQUEST_REJECTED
  else
    teid <- (if flag d OUTER_HEADER_CREATION_GTP_ANY then
               check_length 4 ;;; x <- get_u32 ;; length_sub 4 ;;; dret x
             else dret 0) ;;
    ip <- (if flag d OUTER_HEADER_CREATION_ANY_IP4 then
             check_length 4 ;;; a <- get_ip46_ip4 ;; length_sub 4 ;;; dret a
           else dret ip6_zero) ;;
    ip <- (if flag d OUTER_HEADER_CREATION_ANY_IP6 then
             check_length 16 ;;; a <- get_ip46_ip6 ;; length_sub 16 ;;; dret a
           else dret ip) ;;
    port <- (if flag d OUTER_HEADER_CREATION_UDP_ANY then
               check_length 2 ;;; get_u16
             else dret 0) ;;
    c_tag <- (if flag d OUTER_HEADER_CREATION_C_TAG then
                check_length 3 ;;; get_u24
              else dret 0) ;;
    s_tag <- (if flag d OUTER_HEADER_CREATION_S_TAG then
                check_length 3 ;;; get_u24
              else dret 0) ;;
    dret {| ohc_description := d; ohc_teid := teid; ohc_ip := ip; ohc_port := port;
            ohc_c_tag := c_tag; ohc_s_tag := s_tag |}.

Definition encode_outer_header_creation (v : pfcp_outer_header_creation_t)
  : outcome (list wop) :=
  let d := ohc_description v in
  Ok ([put_u16_little d]
      ++ opt_ops (flag d OUTER_HEADER_CREATION_GTP_ANY) [put_u32 (ohc_teid v)]
      ++ opt_ops (flag d OUTER_HEADER_CREATION_ANY_IP4) [put_ip46_ip4 (ohc_ip v)]
      ++ opt_ops (flag d OUTER_HEADER_CREATION_ANY_IP6) [put_ip46_ip6 (ohc_ip v)]
      ++ opt_ops (flag d OUTER_HEADER_CREATION_UDP_ANY) [put_u16 (ohc_port v)]
      ++ opt_ops (flag d OUTER_HEADER_CREATION_C_TAG) [put_u24 (ohc_c_tag v)]
      ++ opt_ops (flag d OUTER_HEADER_CREATION_S_TAG) [put_u24 (ohc_s_tag v)]).

Record pfcp_flow_information_t := { fi_direction : Z; fi_flow_description : vec Z }.

Definition decode_flow_information : D pfcp_flow_information_t :=
  check_length 3 ;;;
  b <- get_u8 ;;
  len <- get_u16 ;;
  length_sub 3 ;;;
  check_length len ;;;
  f <- get_vec None len ;;
  length_sub len ;;;
  dret {| fi_direction := Z.land b 0x0f; fi_flow_description := f |}.

Definition encode_flow_information (v : pfcp_flow_information_t) : outcome (list wop) :=
  Ok [put_u8 (fi_direction v); put_u16 (vec_len (fi_flow_description v));
      vec_append (fi_flow_description v)].

Definition IE_UE_IP_ADDRESS_V6 : Z := BIT 0.
Definition IE_UE_IP_ADDRESS_V4 : Z := BIT 1.
Definition IE_UE_IP_ADDRESS_SD : Z := BIT 2.
Definition IE_UE_IP_ADDRESS_IPv6D : Z := BIT 3.
Definition IE_UE_IP_ADDRESS_IP6PL : Z := BIT 6.

Record pfcp_ue_ip_address_t := {
  ue_flags : Z; ue_ip4 : list Z; ue_ip6 : list Z;
  ue_prefix_delegation_length : Z; ue_prefix_length : Z }.

Definition decode_ue_ip_address : D pfcp_ue_ip_address_t :=
  check_length 1 ;;;
  flags <- get_u8 ;;
  length_sub 1 ;;;
  ip4 <- (if flag flags IE_UE_IP_ADDRESS_V4 then
            check_length 4 ;;; a <- get_ip4 ;; length_sub 4 ;;; dret a
          else dret ip4_zero) ;;
  ip6 <- (if flag flags IE_UE_IP_ADDRESS_V6 then
            check_length 16 ;;; a <- get_ip6 ;; length_sub 16 ;;; dret a
          else dret ip6_zero) ;;
  pd <- (if flag flags IE_UE_IP_ADDRESS_IPv6D then
           check_length 1 ;;; x <- get_u8 ;; length_sub 1 ;;; dret x
         else dret 0) ;;
  pl <- (if flag flags IE_UE_IP_ADDRESS_IP6PL then
           check_length 1 ;;; x <- get_u8 ;; length_sub 1 ;;; dret x
         else dret 0) ;;
  dret {| ue_flags := flags; ue_ip4 := ip4; ue_ip6 := ip6;
          ue_prefix_delegation_length := pd; ue_prefix_length := pl |}.

Definition encode_ue_ip_address (v : pfcp_ue_ip_address_t) : outcome (list wop) :=
  Ok ([put_u8 (ue_flags v)]
      ++ opt_ops (flag (ue_flags v) IE_UE_IP_ADDRESS_V4) [put_ip4 (ue_ip4 v)]
      ++ opt_ops (flag (ue_flags v) IE_UE_IP_ADDRESS_V6) [put_ip6 (ue_ip6 v)]
      ++ opt_ops (flag (ue_flags v) IE_UE_IP_ADDRESS_IPv6D)
           [put_u8 (ue_prefix_delegation_length v)]
      ++ opt_ops (flag (ue_flags v) IE_UE_IP_ADDRESS_IP6PL) [put_u8 (ue_prefix_length v)]).

Definition PACKET_RATE_ULPR : Z := BIT 0.
Definition PACKET_RATE_DLPR : Z := BIT 1.
Definition PACKET_RATE_APRC : Z := BIT 3.

Record packet_rate_t := { pr_unit : Z; pr_max : Z }.

Record pfcp_packet_rate_t := {
  pkr_flags : Z; pkr_ul : packet_rate_t; pkr_dl : packet_rate_t;
  pkr_a_ul : packet_rate_t; pkr_a_dl : packet_rate_t }.

Definition packet_rate_zero : packet_rate_t := {| pr_unit := 0; pr_max := 0 |}.

(** the block decode_packet_rate repeats for each of its four rates *)
Definition decode_rate (present : bool) : D packet_rate_t :=
  if present then
    check_length 3 ;;;
    u <- get_u8 ;;
    m <- get_u16 ;;
    length_sub 3 ;;;
    dret {| pr_unit := Z.land u 0x0f; pr_max := m |}
  else dret packet_rate_zero.

Definition decode_packet_rate : D pfcp_packet_rate_t :=
  check_length 1 ;;;
  b <- get_u8 ;;
  let flags := Z.land b 0x03 in
  length_sub 1 ;;;
  ul <- decode_rate (flag flags PACKET_RATE_ULPR) ;;
  dl <- decode_rate (flag flags PACKET_RATE_DLPR) ;;
  a_ul <- decode_rate (flag flags PACKET_RATE_APRC && flag flags PACKET_RATE_ULPR) ;;
  a_dl <- decode_rate (flag flags PACKET_RATE_APRC && flag flags PACKET_RATE_DLPR) ;;
  dret {| pkr_flags := flags; pkr_ul := ul; pkr_dl := dl; pkr_a_ul := a_ul;
          pkr_a_dl := a_dl |}.

Definition encode_rate (present : bool) (r : packet_rate_t) : list wop :=
  opt_ops present [put_u8 (pr_unit r); put_u16 (pr_max r)].

Definition encode_packet_rate (v : pfcp_packet_rate_t) : outcome (list wop) :=
  let f := pkr_flags v in
  Ok ([put_u8 f]
      ++ encode_rate (flag f PACKET_RATE_ULPR) (pkr_ul v)
      ++ encode_rate (flag f PACKET_RATE_DLPR) (pkr_dl v)
      ++ encode_rate (flag f PACKET_RATE_APRC && flag f PACKET_RATE_ULPR) (pkr_a_ul v)
      ++ encode_rate (flag f PACKET_RATE_APRC && flag f PACKET_RATE_DLPR) (pkr_a_dl v)).

Definition DL_FLM_TTC : Z := BIT 0.
Definition DL_FLM_SCI : Z := BIT 1.

Record pfcp_dl_flow_level_marking_t := {
  flm_flags : Z; flm_tos_traffic_class : Z; flm_service_class_indicator : Z }.

Definition decode_dl_flow_level_marking : D pfcp_dl_flow_level_marking_t :=
  check_length 1 ;;;
  b <- get_u8 ;;
  let flags := Z.land b 0x03 in
  length_sub 1 ;;;
  ttc <- (if flag flags DL_FLM_TTC then
            check_length 2 ;;; x <- get_u16 ;; length_sub 2 ;;; dret x
          else dret 0) ;;
  sci <- (if flag flags DL_FLM_SCI then
            check_length 2 ;;; x <- get_u16 ;; length_sub 2 ;;; dret x
          else dret 0) ;;
  dret {| flm_flags := flags; flm_tos_traffic_class := ttc;
          flm_service_class_indicator := sci |}.

Definition encode_dl_flow_level_marking (v : pfcp_dl_flow_level_marking_t)
  : outcome (list wop) :=
  Ok ([put_u8 (flm_flags v)]
      ++ opt_ops (flag (flm_flags v) DL_FLM_TTC) [put_u16 (flm_tos_traffic_class v)]
      ++ opt_ops (flag (flm_flags v) DL_FLM_SCI) [put_u16 (flm_service_class_indicator v)]).

Record pfcp_header_enrichment_t := { he_type : Z; he_name : vec Z; he_value : vec Z }.

Definition decode_header_enrichment : D pfcp_header_enrichment_t :=
  check_length 1 ;;;
  b <- get_u8 ;;
  length_sub 1 ;;;
  check_length 2 ;;;
  len <- get_u16 ;;
  length_sub 2 ;;;
  check_length len ;;;
  name <- get_vec None len ;;
  length_sub len ;;;
  check_length 2 ;;;
  len <- get_u16 ;;
  length_sub 2 ;;;
  check_length len ;;;
  value <- get_vec None len ;;
  length_sub len ;;;
  dret {| he_type := Z.land b 0x0f; he_name := name; he_value := value |}.

Definition encode_header_enrichment (v : pfcp_header_enrichment_t) : outcome (list wop) :=
  Ok [put_u8 (he_type v); put_u16 (vec_len (he_name v)); vec_append (he_name v);
      put_u16 (vec_len (he_value v)); vec_append (he_value v)].

(** the structs that hold one masked octet, and their common decoder body *)
Definition decode_masked_u8 (mask : Z) : D Z :=
  check_length 1 ;;; b <- get_u8 ;; dret (Z.land b mask).

Definition MEASUREMENT_INFORMATION_MASK : Z := 0x1f.
Definition decode_measurement_information : D Z :=
  decode_masked_u8 MEASUREMENT_INFORMATION_MASK.
Definition encode_measurement_information (v : Z) : outcome (list wop) := Ok [put_u8 v].

Definition NRT_MASK : Z := 0x0f.
Definition decode_node_report_type : D Z := decode_masked_u8 NRT_MASK.
Definition encode_node_report_type (v : Z) : outcome (list wop) := Ok [put_u8 v].

Definition REMOTE_GTP_U_PEER_IP6 : Z := BIT 0.
Definition REMOTE_GTP_U_PEER_IP4 : Z := BIT 1.
Definition REMOTE_GTP_U_PEER_DI : Z := BIT 2.
Definition REMOTE_GTP_U_PEER_NI : Z := BIT 3.

Record pfcp_remote_gtp_u_peer_t := {
  rg_ip : list Z; rg_destination_interface : Z; rg_network_instance : vec Z }.

Definition decode_remote_gtp_u_peer : D pfcp_remote_gtp_u_peer_t :=
  check_length 1 ;;;
  flags <- get_u8 ;;
  length_sub 1 ;;;
  ip <- (if flag flags REMOTE_GTP_U_PEER_IP6 then
           check_length 16 ;;; a <- get_ip46_ip6 ;; length_sub 16 ;;; dret a
         else if flag flags REMOTE_GTP_U_PEER_IP4 then
           check_length 4 ;;; a <- get_ip46_ip4 ;; length_sub 4 ;;; dret a
         else dret ip6_zero) ;;
  di <- (if flag flags REMOTE_GTP_U_PEER_DI then
           check_length 2 ;;;
           di_len <- get_u16 ;;
           length_sub 2 ;;;
           length <- get_length ;;
           if negb (di_len =? 1) || (length <? di_len) then derr PFCP_CAUSE_INVALID_LENGTH
           else
             b <- get_u8 ;;
             length_sub di_len ;;;
             let di := Z.land b 0x0f in
             if DST_INTF_NUM <=? di then derr PFCP_CAUSE_REQUEST_REJECTED else dret di
         else dret 255) ;;
  ni <- (if flag flags REMOTE_GTP_U_PEER_NI then
           check_length 2 ;;;
           ni_len <- get_u16 ;;
           length_sub 2 ;;;
           check_length ni_len ;;;
           v <- get_vec None ni_len ;;
           length_sub ni_len ;;;
           dret v
         else dret None) ;;
  dret {| rg_ip := ip; rg_destination_interface := di; rg_network_instance := ni |}.

Definition encode_remote_gtp_u_peer (v : pfcp_remote_gtp_u_peer_t) : outcome (list wop) :=
  let has_di := negb (rg_destination_interface v =? 255) in
  let has_ni := 0 <? vec_len (rg_network_instance v) in
  let flags := Z.lor (if has_di then REMOTE_GTP_U_PEER_DI else 0)
                     (if has_ni then REMOTE_GTP_U_PEER_NI else 0) in
  Ok ((if ip46_address_is_ip4 (rg_ip v) then
         [put_u8 (Z.lor flags REMOTE_GTP_U_PEER_IP4); put_ip46_ip4 (rg_ip v)]
       else
         [put_u8 (Z.lor flags REMOTE_GTP_U_PEER_IP6); put_ip46_ip6 (rg_ip v)])
      ++ opt_ops has_di [put_u16 1; put_u8 (rg_destination_interface v)]
      ++ opt_ops has_ni [put_u16 (vec_len (rg_network_instance v));
                         vec_append (rg_network_instance v)]).

Definition decode_oci_flags : D Z := decode_masked_u8 0x01.
Definition encode_oci_flags (v : Z) : outcome (list wop) := Ok [put_u8 v].

Definition F_PFCP_ASSOCIATION_RELEASE_REQUEST_MASK : Z := 0x03.
Definition decode_pfcp_association_release_request : D Z :=
  decode_masked_u8 F_PFCP_ASSOCIATION_RELEASE_REQUEST_MASK.
Definition encode_pfcp_association_release_request (v : Z) : outcome (list wop) :=
  Ok [put_u8 v].

Definition decode_pdn_type : D Z := decode_masked_u8 0x0f.
Definition encode_pdn_type (v : Z) : outcome (list wop) := Ok [put_u8 v].

Definition FAILED_RULE_TYPE_PDR : Z := 0.
Definition FAILED_RULE_TYPE_FAR : Z := 1.
Definition FAILED_RULE_TYPE_QER : Z := 2.
Definition FAILED_RULE_TYPE_URR : Z := 3.
Definition FAILED_RULE_TYPE_BAR : Z := 4.

Record pfcp_failed_rule_id_t := { fr_type : Z; fr_id : Z }.

Definition decode_failed_rule_id : D pfcp_failed_rule_id_t :=
  check_length 1 ;;;
  type <- get_u8 ;;
  length_sub 1 ;;;
  id <- (if type =? FAILED_RULE_TYPE_PDR then check_length 2 ;;; get_u16
         else if type =? FAILED_RULE_TYPE_FAR then check_length 4 ;;; get_u32
         else if type =? FAILED_RULE_TYPE_QER then check_length 4 ;;; get_u32
         else if type =? FAILED_RULE_TYPE_URR then check_length 4 ;;; get_u32
         else if type =? FAILED_RULE_TYPE_BAR then check_length 1 ;;; get_u8
         else check_length 4 ;;; get_u32) ;;
  dret {| fr_type := type; fr_id := id |}.

Definition encode_failed_rule_id (v : pfcp_failed_rule_id_t) : outcome (list wop) :=
  Ok [put_u8 (fr_type v);
      if fr_type v =? FAILED_RULE_TYPE_PDR then put_u16 (fr_id v)
      else if fr_type v =? FAILED_RULE_TYPE_FAR then put_u32 (fr_id v)
      else if fr_type v =? FAILED_RULE_TYPE_QER then put_u32 (fr_id v)
      else if fr_type v =? FAILED_RULE_TYPE_URR then put_u32 (fr_id v)
      else if fr_type v =? FAILED_RULE_TYPE_BAR then put_u8 (fr_id v)
      else put_u32 (fr_id v)].

Record pfcp_time_quota_mechanism_t := {
  tqm_base_time_interval_type : Z; tqm_base_time_interval : Z }.

Definition decode_time_quota_mechanism : D pfcp_time_quota_mechanism_t :=
  check_length 3 ;;;
  b <- get_u8 ;;
  i <- get_u32 ;;
  dret {| tqm_base_time_interval_type := Z.land b 0x03; tqm_base_time_interval := i |}.

Definition encode_time_quota_mechanism (v : pfcp_time_quota_mechanism_t)
  : outcome (list wop) :=
  Ok [put_u8 (tqm_base_time_interval_type v); put_u32 (tqm_base_time_interval v)].

Definition USER_PLANE_IP_RESOURCE_INFORMATION_V4 : Z := BIT 0.
Definition USER_PLANE_IP_RESOURCE_INFORMATION_V6 : Z := BIT 1.
Definition USER_PLANE_IP_RESOURCE_INFORMATION_ASSONI : Z := BIT 5.
Definition USER_PLANE_IP_RESOURCE_INFORMATION_ASSOSI : Z := BIT 6.
Definition USER_PLANE_IP_RESOURCE_INFORMATION_MASK : Z := 0x63.

Record pfcp_user_plane_ip_resource_information_t := {
  upr_flags : Z; upr_teid_range_indication : Z; upr_teid_range : Z;
  upr_source_intf : Z; upr_network_instance : vec Z; upr_ip4 : list Z; upr_ip6 : list Z }.

Definition decode_user_plane_ip_resource_information
  : D pfcp_user_plane_ip_resource_information_t :=
  check_length 1 ;;;
  flags <- get_u8 ;;
  length_sub 1 ;;;
  let tri := Z.land (Z.shiftr flags 2) 0x07 in
  teid_range <- (if negb (tri =? 0) then
                   check_length 1 ;;; x <- get_u8 ;; length_sub 1 ;;; dret x
                 else dret 0) ;;
  ip4 <- (if flag flags USER_PLANE_IP_RESOURCE_INFORMATION_V4 then
            check_length 4 ;;; a <- get_ip4 ;; length_sub 4 ;;; dret a
          else dret ip4_zero) ;;
  ip6 <- (if flag flags USER_PLANE_IP_RESOURCE_INFORMATION_V6 then
            check_length 16 ;;; a <- get_ip6 ;; length_sub 16 ;;; dret a
          else dret ip6_zero) ;;
  ni <- (if flag flags USER_PLANE_IP_RESOURCE_INFORMATION_ASSONI then
           length <- get_length ;; get_vec None length
         else dret None) ;;
  si <- (if flag flags USER_PLANE_IP_RESOURCE_INFORMATION_ASSOSI then
           x <- get_u8 ;; dret (Z.land x 0x0f)
         else dret 0) ;;
  dret {| upr_flags := Z.land flags USER_PLANE_IP_RESOURCE_INFORMATION_MASK;
          upr_teid_range_indication := tri; upr_teid_range := teid_range;
          upr_source_intf := si; upr_network_instance := ni;
          upr_ip4 := ip4; upr_ip6 := ip6 |}.

Definition encode_user_plane_ip_resource_information
  (v : pfcp_user_plane_ip_resource_information_t) : outcome (list wop) :=
  let has_ni := match upr_network_instance v with None => false | Some _ => true end in
  let flags :=
    Z.lor (Z.lor (Z.land (upr_flags v) USER_PLANE_IP_RESOURCE_INFORMATION_MASK)
                 (Z.shiftl (Z.land (upr_teid_range_indication v) 0x07) 2))
          (if has_ni then USER_PLANE_IP_RESOURCE_INFORMATION_ASSONI else 0) in
  Ok ([put_u8 flags]
      ++ opt_ops (negb (upr_teid_range_indication v =? 0)) [put_u8 (upr_teid_range v)]
      ++ opt_ops (flag (upr_flags v) USER_PLANE_IP_RESOURCE_INFORMATION_V4)
           [put_ip4 (upr_ip4 v)]
      ++ opt_ops (flag (upr_flags v) USER_PLANE_IP_RESOURCE_INFORMATION_V6)
           [put_ip6 (upr_ip6 v)]
      ++ opt_ops has_ni [vec_append (upr_network_instance v)]
      ++ opt_ops (flag (upr_flags v) USER_PLANE_IP_RESOURCE_INFORMATION_ASSOSI)
           [put_u8 (Z.land (upr_source_intf v) 0x0f)]).

Record pfcp_multiplier_t := { mul_digits : Z; mul_exponent : Z }.

Definition decode_multiplier : D pfcp_multiplier_t :=
  check_length 12 ;;;
  d <- get_u64 ;;
  e <- get_u32 ;;
  dret {| mul_digits := to_signed 64 d; mul_exponent := to_signed 32 e |}.

Definition encode_multiplier (v : pfcp_multiplier_t) : outcome (list wop) :=
  Ok [put_u64 (wrap 64 (mul_digits v)); put_u32 (wrap 32 (mul_exponent v))].

Definition decode_rqi : D Z := decode_masked_u8 0x01.
Definition encode_rqi (v : Z) : outcome (list wop) := Ok [put_u8 v].

Definition F_SOURCE_MAC : Z := BIT 0.
Definition F_DESTINATION_MAC : Z := BIT 1.
Definition F_UPPER_SOURCE_MAC : Z := BIT 2.
Definition F_UPPER_DESTINATION_MAC : Z := BIT 3.

Record pfcp_mac_address_t := {
  ma_flags : Z; ma_src_mac : list Z; ma_dst_mac : list Z;
  ma_upper_src_mac : list Z; ma_upper_dst_mac : list Z }.

(** the block decode_pfcp_mac_address repeats for each of its four addresses *)
Definition decode_mac (present : bool) : D (list Z) :=
  if present then check_length 6 ;;; m <- get_n 6 ;; length_sub 6 ;;; dret m
  else dret mac_zero.

Definition decode_pfcp_mac_address : D pfcp_mac_address_t :=
  check_length 1 ;;;
  flags <- get_u8 ;;
  length_sub 1 ;;;
  s <- decode_mac (flag flags F_SOURCE_MAC) ;;
  d <- decode_mac (flag flags F_DESTINATION_MAC) ;;
  us <- decode_mac (flag flags F_UPPER_SOURCE_MAC) ;;
  ud <- decode_mac (flag flags F_UPPER_DESTINATION_MAC) ;;
  dret {| ma_flags := flags; ma_src_mac := s; ma_dst_mac := d;
          ma_upper_src_mac := us; ma_upper_dst_mac := ud |}.

Definition encode_pfcp_mac_address (v : pfcp_mac_address_t) : outcome (list wop) :=
  Ok ([put_u8 (ma_flags v)]
      ++ opt_ops (flag (ma_flags v) F_SOURCE_MAC) [vec_add_bytes (ma_src_mac v)]
      ++ opt_ops (flag (ma_flags v) F_DESTINATION_MAC) [vec_add_bytes (ma_dst_mac v)]
      ++ opt_ops (flag (ma_flags v) F_UPPER_SOURCE_MAC) [vec_add_bytes (ma_upper_src_mac v)]
      ++ opt_ops (flag (ma_flags v) F_UPPER_DESTINATION_MAC)
           [vec_add_bytes (ma_upper_dst_mac v)]).

Definition VLAN_MASK_PCP : Z := 0xe000.
Definition VLAN_MASK_DEI : Z := 0x1000.
Definition VLAN_MASK_VID : Z := 0x0fff.

(** both members hold a value in network byte order *)
Record pfcp_vlan_tag_t := { vlan_mask : Z; vlan_tci : Z }.

Definition decode_vlan_tag : D pfcp_vlan_tag_t :=
  check_length 3 ;;;
  d0 <- get_u8 ;;
  d1 <- get_u8 ;;
  d2 <- get_u8 ;;
  length_sub 3 ;;;
  dret {| vlan_mask :=
            bswap16 (Z.lor (Z.lor (if flag d0 (BIT 0) then VLAN_MASK_PCP else 0)
                                  (if flag d0 (BIT 1) then VLAN_MASK_DEI else 0))
                           (if flag d0 (BIT 2) then VLAN_MASK_VID else 0));
          vlan_tci :=
            bswap16 (Z.lor (Z.lor (Z.lor (Z.shiftl (Z.land d1 0x07) 5)
                                         (Z.shiftl (Z.land d1 0x08) 1))
                                  (Z.shiftl (Z.land d1 0xf0) 4))
                           d2) |}.

Definition encode_vlan_tag (v : pfcp_vlan_tag_t) : outcome (list wop) :=
  let mask := bswap16 (vlan_mask v) in
  let tci := bswap16 (vlan_tci v) in
  Ok [put_u8 (Z.lor (Z.lor (if flag mask VLAN_MASK_PCP then BIT 0 else 0)
                           (if flag mask VLAN_MASK_DEI then BIT 1 else 0))
                    (if flag mask VLAN_MASK_VID then BIT 2 else 0));
      put_u16 (Z.lor (Z.lor (Z.lor (Z.shiftr (Z.land tci VLAN_MASK_PCP) 5)
                                   (Z.shiftr (Z.land tci VLAN_MASK_DEI) 1))
                            (Z.shiftl (Z.land tci 0x0f00) 4))
                     (Z.land tci 0x00ff))].

Definition decode_proxying : D Z := decode_masked_u8 0x03.
Definition encode_proxying (v : Z) : outcome (list wop) := Ok [put_u8 v].

Definition decode_ethernet_filter_properties : D Z := decode_masked_u8 0x01.
Definition encode_ethernet_filter_properties (v : Z) : outcome (list wop) := Ok [put_u8 v].

Definition USER_ID_IMEI : Z := BIT 0.
Definition USER_ID_IMSI : Z := BIT 1.
Definition USER_ID_MSISDN : Z := BIT 2.
Definition USER_ID_NAI : Z := BIT 4.

(** the digits sit at the start of an array of eight bytes *)
Record pfcp_user_id_t := {
  uid_imei_len : Z; uid_imei : list Z; uid_imsi_len : Z; uid_imsi : list Z;
  uid_msisdn_len : Z; uid_msisdn : list Z; uid_nai : vec Z }.

(** memcpy to the start of a zeroed array of eight bytes *)
Definition array8 (l : list Z) : list Z := l ++ replicate (8 - length l) 0.

(** the block decode_user_id repeats for IMEI, IMSI and MSISDN *)
Definition decode_user_id_digits (present : bool) : D (Z * list Z) :=
  if present then
    check_length 1 ;;;
    n <- get_u8 ;;
    length_sub 1 ;;;
    length <- get_length ;;
    if (8 <? n) || (length <? n) then derr PFCP_CAUSE_INVALID_LENGTH
    else
      d <- get_n n ;;
      length_sub n ;;;
      dret (n, array8 d)
  else dret (0, array8 []).

Definition decode_user_id : D pfcp_user_id_t :=
  check_length 1 ;;;
  flags <- get_u8 ;;
  length_sub 1 ;;;
  imei <- decode_user_id_digits (flag flags USER_ID_IMEI) ;;
  imsi <- decode_user_id_digits (flag flags USER_ID_IMSI) ;;
  msisdn <- decode_user_id_digits (flag flags USER_ID_MSISDN) ;;
  nai <- (if flag flags USER_ID_NAI then
            check_length 1 ;;;
            len <- get_u8 ;;
            length_sub 1 ;;;
            check_length len ;;;
            v <- get_vec None len ;;
            length_sub len ;;;
            dret v
          else dret None) ;;
  dret {| uid_imei_len := fst imei; uid_imei := snd imei;
          uid_imsi_len := fst imsi; uid_imsi := snd imsi;
          uid_msisdn_len := fst msisdn; uid_msisdn := snd msisdn; uid_nai := nai |}.

(** copying more bytes than the array holds leaves the struct member *)
Definition encode_user_id_digits (n : Z) (digits : list Z) : outcome (list wop) :=
  if 0 <? n then
    if Zlen digits <? n then Fault OobRead
    else Ok [put_u8 n; vec_add_bytes (take (Z.to_nat n) digits)]
  else Ok [].

Definition encode_user_id (v : pfcp_user_id_t) : outcome (list wop) :=
  let flags :=
    Z.lor (Z.lor (Z.lor (if 0 <? uid_imei_len v then USER_ID_IMEI else 0)
                        (if 0 <? uid_imsi_len v then USER_ID_IMSI else 0))
                 (if 0 <? uid_msisdn_len v then USER_ID_MSISDN else 0))
          (if 0 <? vec_len (uid_nai v) then USER_ID_NAI else 0) in
  obind (encode_user_id_digits (uid_imei_len v) (uid_imei v)) (fun imei =>
  obind (encode_user_id_digits (uid_imsi_len v) (uid_imsi v)) (fun imsi =>
  obind (encode_user_id_digits (uid_msisdn_len v) (uid_msisdn v)) (fun msisdn =>
  Ok ([put_u8 flags] ++ imei ++ imsi ++ msisdn
      ++ opt_ops (0 <? vec_len (uid_nai v))
           [put_u8 (vec_len (uid_nai v)); vec_append (uid_nai v)])))).

Definition decode_ethernet_pdu_session_information : D Z := decode_masked_u8 0x01.
Definition encode_ethernet_pdu_session_information (v : Z) : outcome (list wop) :=
  Ok [put_u8 v].

Fixpoint get_macs (n : nat) : D (list (list Z)) :=
  match n with
  | O => dret []
  | S k => m <- get_n 6 ;; l <- get_macs k ;; dret (m :: l)
  end.

Definition decode_mac_addresses_vec : D (vec (list Z)) :=
  check_length 1 ;;;
  cnt <- get_u8 ;;
  check_length (cnt * 6) ;;;
  l <- get_macs (Z.to_nat cnt) ;;
  length_sub (cnt * 6) ;;;
  dret (vec_add None l).

(** [vec_add] to a byte vector copies one byte per address *)
Definition encode_mac_addresses_vec (v : vec (list Z)) : outcome (list wop) :=
  Ok (put_u8 (vec_len v) :: map (fun mac => vec_add_bytes (take 1 mac)) (vec_elts v)).

Record pfcp_trace_information_t := {
  ti_mccmnc : list Z; ti_trace_id : Z; ti_triggering_events : vec Z;
  ti_trace_depth : Z; ti_interfaces : vec Z; ti_collection_entity : list Z }.

Definition decode_trace_information : D pfcp_trace_information_t :=
  check_length 8 ;;;
  m0 <- get_u8 ;;
  m1 <- get_u8 ;;
  m2 <- get_u8 ;;
  id <- get_u32 ;;
  len <- get_u8 ;;
  length_sub 8 ;;;
  check_length len ;;;
  ev <- get_vec None len ;;
  length_sub len ;;;
  check_length 1 ;;;
  len <- get_u8 ;;
  length_sub 1 ;;;
  check_length len ;;;
  intf <- get_vec None len ;;
  length_sub len ;;;
  check_length 1 ;;;
  len <- get_u8 ;;
  length_sub 1 ;;;
  check_length len ;;;
  ce <- (if len =? 4 then
           (* case 4 falls through to case 16 *)
           get_ip46_ip4 ;;; get_ip46_ip6
         else if len =? 16 then get_ip46_ip6
         else derr PFCP_CAUSE_INVALID_LENGTH) ;;
  length_sub len ;;;
  dret {| ti_mccmnc := [m0; m1; m2]; ti_trace_id := id; ti_triggering_events := ev;
          ti_trace_depth := 0; ti_interfaces := intf; ti_collection_entity := ce |}.

Definition encode_trace_information (v : pfcp_trace_information_t) : outcome (list wop) :=
  Ok (map put_u8 (ti_mccmnc v)
      ++ [put_u32 (ti_trace_id v);
          put_u8 (vec_len (ti_triggering_events v)); vec_append (ti_triggering_events v);
          put_u8 (ti_trace_depth v);
          put_u8 (vec_len (ti_interfaces v)); vec_append (ti_interfaces v)]
      ++ (if ip46_address_is_ip4 (ti_collection_entity v) then
            [put_u8 4; put_ip46_ip4 (ti_collection_entity v)]
          else [put_u8 16; put_ip46_ip6 (ti_collection_entity v)])).

(** [get_vec (v, ...)] takes the address of the struct member for a vector and
    stores to the length field it expects in front of it *)
Definition decode_ue_ip_address_pool_identity : D (vec Z) :=
  check_length 2 ;;;
  id_len <- get_u16 ;;
  length_sub 2 ;;;
  check_length id_len ;;;
  dfault TypeConfusion.

(** the vector is taken for one of pointers, and eight bytes per element are
    copied into room for one *)
Definition encode_ue_ip_address_pool_identity (v : vec Z) : outcome (list wop) :=
  if vec_len v =? 0 then Ok [put_u16 0] else Fault HeapOverflow.

Definition ALTERNATIVE_SMF_IP_ADDRESS_V4 : Z := BIT 0.
Definition ALTERNATIVE_SMF_IP_ADDRESS_V6 : Z := BIT 1.

Record pfcp_alternative_smf_ip_address_t := {
  as_flags : Z; as_ip4 : list Z; as_ip6 : list Z }.

Definition decode_alternative_smf_ip_address : D pfcp_alternative_smf_ip_address_t :=
  check_length 9 ;;;
  b <- get_u8 ;;
  let flags := Z.land b 0x03 in
  if flags =? 0 then derr (-1)
  else
    ip4 <- (if flag flags ALTERNATIVE_SMF_IP_ADDRESS_V4 then
              check_length 4 ;;; a <- get_ip4 ;; length_sub 4 ;;; dret a
            else dret ip4_zero) ;;
    ip6 <- (if flag flags ALTERNATIVE_SMF_IP_ADDRESS_V6 then
              check_length 16 ;;; get_ip6
            else dret ip6_zero) ;;
    dret {| as_flags := flags; as_ip4 := ip4; as_ip6 := ip6 |}.

Definition encode_alternative_smf_ip_address (v : pfcp_alternative_smf_ip_address_t)
  : outcome (list wop) :=
  Ok ([put_u8 (as_flags v)]
      ++ opt_ops (flag (as_flags v) ALTERNATIVE_SMF_IP_ADDRESS_V4) [put_ip4 (as_ip4 v)]
      ++ opt_ops (flag (as_flags v) ALTERNATIVE_SMF_IP_ADDRESS_V6) [put_ip6 (as_ip6 v)]).

Definition decode_bbf_nat_outside_address : D (list Z) := check_length 4 ;;; get_ip4.
Definition encode_bbf_nat_outside_address (v : list Z) : outcome (list wop) :=
  Ok [put_ip4 v].

Record pfcp_bbf_nat_external_port_range_t := { npr_start_port : Z; npr_end_port : Z }.

(** both loads go to start_port *)
Definition decode_bbf_nat_external_port_range : D pfcp_bbf_nat_external_port_range_t :=
  check_length 4 ;;;
  get_u16 ;;;
  length_sub 2 ;;;
  s <- get_u16 ;;
  dret {| npr_start_port := s; npr_end_port := 0 |}.

Definition encode_bbf_nat_external_port_range (v : pfcp_bbf_nat_external_port_range_t)
  : outcome (list wop) :=
  Ok [put_u16 (npr_start_port v); put_u16 (npr_end_port v)].

Definition decode_bbf_up_function_features : D Z :=
  length <- get_length ;;
  if negb (length mod 2 =? 0) || (length <? 4) then derr PFCP_CAUSE_INVALID_LENGTH
  else
    a <- get_u16_little ;;
    length_sub 2 ;;;
    b <- get_u16_little ;;
    dret (Z.lor a (Z.shiftl b 16)).

Definition encode_bbf_up_function_features (v : Z) : outcome (list wop) := Ok [put_u32 v].

(** elements declared between the group tables *)

Record pfcp_fatemeh_packet_header_t := {
  ph_ip_version_and_header_length : Z; ph_tos : Z; ph_length : Z; ph_fragment_id : Z;
  ph_flags_and_fragment_offset : Z; ph_ttl : Z; ph_protocol : Z; ph_checksum : Z;
  ph_src : Z; ph_dst : Z }.

Definition decode_fatemeh_packet_header : D pfcp_fatemeh_packet_header_t :=
  check_length 20 ;;;
  vhl <- get_u8 ;;
  tos <- get_u8 ;;
  len <- get_u16 ;;
  fid <- get_u16 ;;
  ffo <- get_u16 ;;
  ttl <- get_u8 ;;
  proto <- get_u8 ;;
  ck <- get_u16 ;;
  src <- get_u32 ;;
  dst <- get_u32 ;;
  dret {| ph_ip_version_and_header_length := vhl; ph_tos := tos; ph_length := len;
          ph_fragment_id := fid; ph_flags_and_fragment_offset := ffo; ph_ttl := ttl;
          ph_protocol := proto; ph_checksum := ck; ph_src := src; ph_dst := dst |}.

Definition encode_fatemeh_packet_header (v : pfcp_fatemeh_packet_header_t)
  : outcome (list wop) :=
  Ok [put_u8 (ph_ip_version_and_header_length v); put_u8 (ph_tos v); put_u16 (ph_length v);
      put_u16 (ph_fragment_id v); put_u16 (ph_flags_and_fragment_offset v);
      put_u8 (ph_ttl v); put_u8 (ph_protocol v); put_u16 (ph_checksum v);
      put_u32 (ph_src v); put_u32 (ph_dst v)].

Record pfcp_fatemeh_packet_data_t := { pd_length : Z; pd_data : vec Z }.

Definition decode_fatemeh_packet_data : D pfcp_fatemeh_packet_data_t :=
  check_length 2 ;;;
  l <- get_u16 ;;
  d <- get_vec None l ;;
  length_sub l ;;;
  dret {| pd_length := l; pd_data := d |}.

Definition encode_fatemeh_packet_data (v : pfcp_fatemeh_packet_data_t)
  : outcome (list wop) :=
  if vec_len (pd_data v) <? pd_length v then Fault OobRead
  else Ok [put_u16 (pd_length v);
           vec_add_bytes (take (Z.to_nat (pd_length v)) (vec_elts (pd_data v)))].

Definition IP_VERSION_4 : Z := BIT 0.
Definition IP_VERSION_6 : Z := BIT 1.

Definition decode_ip_version : D Z :=
  v <- get_u8 ;;
  if negb (flag v IP_VERSION_4) && negb (flag v IP_VERSION_6) then derr (-1) else dret v.

Definition encode_ip_version (v : Z) : outcome (list wop) :=
  if negb (flag v IP_VERSION_4) && negb (flag v IP_VERSION_6) then Err (-1)
  else Ok [put_u8 v].
