(* ===== verification/PfcpLeaf.v ===== *)
(** * The codec functions as a type (src/upf/pfcp.c, SIMPLE_IE tables)

    A [leaf] names a pair of decode and encode functions, as the [.decode] and
    [.encode] members of a table entry do, with the C type they work on. *)

From Stdlib Require Import ZArith Lia.
From stdpp Require Import base list list_numbers option numbers decidable finite.
From S2P Require Import Prelude PfcpIo PfcpIe.

Inductive leaf :=
| K_u8_ie | K_u16_ie | K_u16_little_ie | K_u32_ie | K_simple_vec_ie | K_volume_ie
| K_time_stamp_ie | K_timer_ie | K_sntp_time_stamp_ie | K_source_interface | K_f_teid
| K_sdf_filter | K_gate_status | K_bit_rate | K_redirect_information | K_forwarding_policy
| K_destination_interface | K_up_function_features | K_downlink_data_service_information
| K_dl_buffering_suggested_packet_count | K_f_seid | K_node_id | K_pfd_contents
| K_usage_report_trigger | K_fq_csid | K_volume_measurement
| K_dropped_dl_traffic_threshold | K_outer_header_creation | K_flow_information
| K_ue_ip_address | K_packet_rate | K_dl_flow_level_marking | K_header_enrichment
| K_measurement_information | K_node_report_type | K_remote_gtp_u_peer | K_oci_flags
| K_pfcp_association_release_request | K_pdn_type | K_failed_rule_id
| K_time_quota_mechanism | K_user_plane_ip_resource_information | K_multiplier | K_rqi
| K_pfcp_mac_address | K_vlan_tag | K_proxying | K_ethernet_filter_properties | K_user_id
| K_ethernet_pdu_session_information | K_mac_addresses_vec | K_trace_information
| K_ue_ip_address_pool_identity | K_alternative_smf_ip_address | K_bbf_nat_outside_address
| K_bbf_nat_external_port_range | K_bbf_up_function_features | K_fatemeh_packet_header
| K_fatemeh_packet_data | K_ip_version.

Definition leaf_all : list leaf :=
  [K_u8_ie; K_u16_ie; K_u16_little_ie; K_u32_ie; K_simple_vec_ie; K_volume_ie;
   K_time_stamp_ie; K_timer_ie; K_sntp_time_stamp_ie; K_source_interface; K_f_teid;
   K_sdf_filter; K_gate_status; K_bit_rate; K_redirect_information; K_forwarding_policy;
   K_destination_interface; K_up_function_features; K_downlink_data_service_information;
   K_dl_buffering_suggested_packet_count; K_f_seid; K_node_id; K_pfd_contents;
   K_usage_report_trigger; K_fq_csid; K_volume_measurement;
   K_dropped_dl_traffic_threshold; K_outer_header_creation; K_flow_information;
   K_ue_ip_address; K_packet_rate; K_dl_flow_level_marking; K_header_enrichment;
   K_measurement_information; K_node_report_type; K_remote_gtp_u_peer; K_oci_flags;
   K_pfcp_association_release_request; K_pdn_type; K_failed_rule_id;
   K_time_quota_mechanism; K_user_plane_ip_resource_information; K_multiplier; K_rqi;
   K_pfcp_mac_address; K_vlan_tag; K_proxying; K_ethernet_filter_properties; K_user_id;
   K_ethernet_pdu_session_information; K_mac_addresses_vec; K_trace_information;
   K_ue_ip_address_pool_identity; K_alternative_smf_ip_address; K_bbf_nat_outside_address;
   K_bbf_nat_external_port_range; K_bbf_up_function_features; K_fatemeh_packet_header;
   K_fatemeh_packet_data; K_ip_version].

Definition leaf_ty (k : leaf) : Type :=
  match k with
  | K_u8_ie | K_u16_ie | K_u16_little_ie | K_u32_ie | K_time_stamp_ie
  | K_source_interface | K_destination_interface | K_up_function_features
  | K_dl_buffering_suggested_packet_count | K_usage_report_trigger
  | K_measurement_information | K_node_report_type | K_oci_flags
  | K_pfcp_association_release_request | K_pdn_type | K_rqi | K_proxying
  | K_ethernet_filter_properties | K_ethernet_pdu_session_information
  | K_bbf_up_function_features | K_ip_version => Z
  | K_simple_vec_ie | K_ue_ip_address_pool_identity => vec Z
  | K_volume_ie => pfcp_volume_ie_t
  | K_timer_ie => pfcp_timer_ie_t
  | K_sntp_time_stamp_ie => f64
  | K_f_teid => pfcp_f_teid_t
  | K_sdf_filter => pfcp_sdf_filter_t
  | K_gate_status => pfcp_gate_status_t
  | K_bit_rate => pfcp_bit_rate_t
  | K_redirect_information => pfcp_redirect_information_t
  | K_forwarding_policy => pfcp_forwarding_policy_t
  | K_downlink_data_service_information => pfcp_downlink_data_service_information_t
  | K_f_seid => pfcp_f_seid_t
  | K_node_id => pfcp_node_id_t
  | K_pfd_contents => pfcp_pfd_contents_t
  | K_fq_csid => pfcp_fq_csid_t
  | K_volume_measurement => pfcp_volume_measurement_t
  | K_dropped_dl_traffic_threshold => pfcp_dropped_dl_traffic_threshold_t
  | K_outer_header_creation => pfcp_outer_header_creation_t
  | K_flow_information => pfcp_flow_information_t
  | K_ue_ip_address => pfcp_ue_ip_address_t
  | K_packet_rate => pfcp_packet_rate_t
  | K_dl_flow_level_marking => pfcp_dl_flow_level_marking_t
  | K_header_enrichment => pfcp_header_enrichment_t
  | K_remote_gtp_u_peer => pfcp_remote_gtp_u_peer_t
  | K_failed_rule_id => pfcp_failed_rule_id_t
  | K_time_quota_mechanism => pfcp_time_quota_mechanism_t
  | K_user_plane_ip_resource_information => pfcp_user_plane_ip_resource_information_t
  | K_multiplier => pfcp_multiplier_t
  | K_pfcp_mac_address => pfcp_mac_address_t
  | K_vlan_tag => pfcp_vlan_tag_t
  | K_user_id => pfcp_user_id_t
  | K_mac_addresses_vec => vec (list Z)
  | K_trace_information => pfcp_trace_information_t
  | K_alternative_smf_ip_address => pfcp_alternative_smf_ip_address_t
  | K_bbf_nat_outside_address => list Z
  | K_bbf_nat_external_port_range => pfcp_bbf_nat_external_port_range_t
  | K_fatemeh_packet_header => pfcp_fatemeh_packet_header_t
  | K_fatemeh_packet_data => pfcp_fatemeh_packet_data_t
  end.

Section LeafCodec.
Context {V : Vppinfra}.

Definition leaf_decode (k : leaf) : D (leaf_ty k) :=
  match k with
  | K_u8_ie => decode_u8_ie
  | K_u16_ie => decode_u16_ie
  | K_u16_little_ie => decode_u16_little_ie
  | K_u32_ie => decode_u32_ie
  | K_simple_vec_ie => decode_simple_vec_ie
  | K_volume_ie => decode_volume_ie
  | K_time_stamp_ie => decode_time_stamp_ie
  | K_timer_ie => decode_timer_ie
  | K_sntp_time_stamp_ie => decode_sntp_time_stamp_ie
  | K_source_interface => decode_source_interface
  | K_f_teid => decode_f_teid
  | K_sdf_filter => decode_sdf_filter
  | K_gate_status => decode_gate_status
  | K_bit_rate => decode_bit_rate
  | K_redirect_information => decode_redirect_information
  | K_forwarding_policy => decode_forwarding_policy
  | K_destination_interface => decode_destination_interface
  | K_up_function_features => decode_up_function_features
  | K_downlink_data_service_information => decode_downlink_data_service_information
  | K_dl_buffering_suggested_packet_count => decode_dl_buffering_suggested_packet_count
  | K_f_seid => decode_f_seid
  | K_node_id => decode_node_id
  | K_pfd_contents => decode_pfd_contents
  | K_usage_report_trigger => decode_usage_report_trigger
  | K_fq_csid => decode_fq_csid
  | K_volume_measurement => decode_volume_measurement
  | K_dropped_dl_traffic_threshold => decode_dropped_dl_traffic_threshold
  | K_outer_header_creation => decode_outer_header_creation
  | K_flow_information => decode_flow_information
  | K_ue_ip_address => decode_ue_ip_address
  | K_packet_rate => decode_packet_rate
  | K_dl_flow_level_marking => decode_dl_flow_level_marking
  | K_header_enrichment => decode_header_enrichment
  | K_measurement_information => decode_measurement_information
  | K_node_report_type => decode_node_report_type
  | K_remote_gtp_u_peer => decode_remote_gtp_u_peer
  | K_oci_flags => decode_oci_flags
  | K_pfcp_association_release_request => decode_pfcp_association_release_request
  | K_pdn_type => decode_pdn_type
  | K_failed_rule_id => decode_failed_rule_id
  | K_time_quota_mechanism => decode_time_quota_mechanism
  | K_user_plane_ip_resource_information => decode_user_plane_ip_resource_information
  | K_multiplier => decode_multiplier
  | K_rqi => decode_rqi
  | K_pfcp_mac_address => decode_pfcp_mac_address
  | K_vlan_tag => decode_vlan_tag
  | K_proxying => decode_proxying
  | K_ethernet_filter_properties => decode_ethernet_filter_properties
  | K_user_id => decode_user_id
  | K_ethernet_pdu_session_information => decode_ethernet_pdu_session_information
  | K_mac_addresses_vec => decode_mac_addresses_vec
  | K_trace_information => decode_trace_information
  | K_ue_ip_address_pool_identity => decode_ue_ip_address_pool_identity
  | K_alternative_smf_ip_address => decode_alternative_smf_ip_address
  | K_bbf_nat_outside_address => decode_bbf_nat_outside_address
  | K_bbf_nat_external_port_range => decode_bbf_nat_external_port_range
  | K_bbf_up_function_features => decode_bbf_up_function_features
  | K_fatemeh_packet_header => decode_fatemeh_packet_header
  | K_fatemeh_packet_data => decode_fatemeh_packet_data
  | K_ip_version => decode_ip_version
  end.

Definition leaf_encode (k : leaf) : leaf_ty k -> outcome (list wop) :=
  match k with
  | K_u8_ie => encode_u8_ie
  | K_u16_ie => encode_u16_ie
  | K_u16_little_ie => encode_u16_little_ie
  | K_u32_ie => encode_u32_ie
  | K_simple_vec_ie => encode_simple_vec_ie
  | K_volume_ie => encode_volume_ie
  | K_time_stamp_ie => encode_time_stamp_ie
  | K_timer_ie => encode_timer_ie
  | K_sntp_time_stamp_ie => encode_sntp_time_stamp_ie
  | K_source_interface => encode_source_interface
  | K_f_teid => encode_f_teid
  | K_sdf_filter => encode_sdf_filter
  | K_gate_status => encode_gate_status
  | K_bit_rate => encode_bit_rate
  | K_redirect_information => encode_redirect_information
  | K_forwarding_policy => encode_forwarding_policy
  | K_destination_interface => encode_destination_interface
  | K_up_function_features => encode_up_function_features
  | K_downlink_data_service_information => encode_downlink_data_service_information
  | K_dl_buffering_suggested_packet_count => encode_dl_buffering_suggested_packet_count
  | K_f_seid => encode_f_seid
  | K_node_id => encode_node_id
  | K_pfd_contents => encode_pfd_contents
  | K_usage_report_trigger => encode_usage_report_trigger
  | K_fq_csid => encode_fq_csid
  | K_volume_measurement => encode_volume_measurement
  | K_dropped_dl_traffic_threshold => encode_dropped_dl_traffic_threshold
  | K_outer_header_creation => encode_outer_header_creation
  | K_flow_information => encode_flow_information
  | K_ue_ip_address => encode_ue_ip_address
  | K_packet_rate => encode_packet_rate
  | K_dl_flow_level_marking => encode_dl_flow_level_marking
  | K_header_enrichment => encode_header_enrichment
  | K_measurement_information => encode_measurement_information
  | K_node_report_type => encode_node_report_type
  | K_remote_gtp_u_peer => encode_remote_gtp_u_peer
  | K_oci_flags => encode_oci_flags
  | K_pfcp_association_release_request => encode_pfcp_association_release_request
  | K_pdn_type => encode_pdn_type
  | K_failed_rule_id => encode_failed_rule_id
  | K_time_quota_mechanism => encode_time_quota_mechanism
  | K_user_plane_ip_resource_information => encode_user_plane_ip_resource_information
  | K_multiplier => encode_multiplier
  | K_rqi => encode_rqi
  | K_pfcp_mac_address => encode_pfcp_mac_address
  | K_vlan_tag => encode_vlan_tag
  | K_proxying => encode_proxying
  | K_ethernet_filter_properties => encode_ethernet_filter_properties
  | K_user_id => encode_user_id
  | K_ethernet_pdu_session_information => encode_ethernet_pdu_session_information
  | K_mac_addresses_vec => encode_mac_addresses_vec
  | K_trace_information => encode_trace_information
  | K_ue_ip_address_pool_identity => encode_ue_ip_address_pool_identity
  | K_alternative_smf_ip_address => encode_alternative_smf_ip_address
  | K_bbf_nat_outside_address => encode_bbf_nat_outside_address
  | K_bbf_nat_external_port_range => encode_bbf_nat_external_port_range
  | K_bbf_up_function_features => encode_bbf_up_function_features
  | K_fatemeh_packet_header => encode_fatemeh_packet_header
  | K_fatemeh_packet_data => encode_fatemeh_packet_data
  | K_ip_version => encode_ip_version
  end.
End LeafCodec.

#[export] Instance leaf_eq_dec : EqDecision leaf.
Proof. intros x y. unfold Decision. decide equality. Defined.

Lemma leaf_all_complete k : k ∈ leaf_all.
Proof. apply list_elem_of_In. destruct k; simpl; tauto. Qed.

(** ** A concrete library, for evaluation

    Vectors grow to exactly the size asked for; the text of an address is its
    sixteen bytes. *)

Definition vpp_exact : Vppinfra := {|
  vec_grow := fun _ need => need;
  format_ip46_address := fun ip => take 16 ip;
  unformat_ip46_address := fun txt _ => if decide (length txt = 16%nat) then Some txt else None
|}.

Lemma vpp_exact_ok : VppinfraOk vpp_exact.
Proof.
  split; simpl; intros.
  - lia.
  - rewrite take_ge by lia. by rewrite decide_True.
  - rewrite take_ge by lia. by rewrite decide_True.
  - unfold Zlen. rewrite length_take. lia.
Qed.
