(* ===== verification/PfcpIeSafe.v ===== *)
(** * Which element decoders stay inside the element

    Proved with the [safe] logic of PfcpIo: every decoder outside
    [oob_leaves] loads only from the bytes of its element; every one in
    [oob_leaves] is shown to load past them on a concrete element. *)

From Stdlib Require Import ZArith Lia.
From stdpp Require Import base list list_numbers option numbers decidable.
From S2P Require Import Prelude PfcpIo PfcpIe PfcpLeaf.

(** symbolic execution of a decoder with the [safe] rules *)
Ltac safe_step :=
  lazymatch goal with
  | |- True => exact I
  | |- safe (dbind _ _) _ _ _ => apply safe_bind
  | |- safe (dret _) _ _ _ => apply safe_ret
  | |- safe (derr _) _ _ _ => apply safe_err
  | |- safe (check_length _) _ _ _ => apply safe_check_length; intros ?
  | |- safe (length_sub _) _ _ _ => apply safe_length_sub; [lia|lia|]
  | |- safe get_length _ _ _ => apply safe_get_length
  | |- safe get_u8 _ _ _ => apply safe_get_u8; [lia|intros ? ?]
  | |- safe get_u16 _ _ _ => apply safe_get_u16; [lia|intros ? ?]
  | |- safe get_u16_little _ _ _ => apply safe_get_u16_little; [lia|intros ? ?]
  | |- safe get_u24 _ _ _ => apply safe_get_u24; [lia|intros ? ?]
  | |- safe get_u32 _ _ _ => apply safe_get_u32; [lia|intros ? ?]
  | |- safe get_u40 _ _ _ => apply safe_get_u40; [lia|intros ? ?]
  | |- safe get_u64 _ _ _ => apply safe_get_u64; [lia|intros ? ?]
  | |- safe get_ip4 _ _ _ => apply safe_get_ip4; [lia|intros ?]
  | |- safe get_ip6 _ _ _ => apply safe_get_ip6; [lia|intros ?]
  | |- safe get_ip46_ip4 _ _ _ => apply safe_get_ip46_ip4; [lia|intros ?]
  | |- safe get_ip46_ip6 _ _ _ => apply safe_get_ip6; [lia|intros ?]
  | |- safe (get_vec _ _) _ _ _ => apply safe_get_vec; [lia|intros ?]
  | |- safe (get_n _) _ _ _ => apply safe_get_n; [lia|intros ? ? ?]
  | |- safe (skip _) _ _ _ => apply safe_skip; [lia|]
  | |- safe (if ?c then _ else _) _ _ _ =>
      let E := fresh "Ht" in destruct c eqn:E; btest
  | |- safe (let _ := _ in _) _ _ _ => cbv zeta
  | |- safe (let '(_, _) := ?p in _) _ _ _ => destruct p
  end.
Ltac safe_run := cbv zeta; repeat (safe_step; cbv beta zeta).

Definition in_element {A} (m : D A) : Prop :=
  forall len av, 0 <= len < 65536 -> len <= av -> safe m av len (fun _ _ _ => True).

Ltac safe_decoder d := solve [intros len av Hlen Hav; unfold d; safe_run].
Ltac safe_decoder2 d block :=
  solve [intros len av Hlen Hav; unfold d, block; safe_run].

(** ** Loops and shared blocks *)

Lemma safe_get_u16s n av len (Q : list Z -> Z -> Z -> Prop) :
  2 * Z.of_nat n <= av -> 2 * Z.of_nat n <= len < 65536 ->
  (forall l, Q l (av - 2 * Z.of_nat n) (len - 2 * Z.of_nat n)) ->
  safe (get_u16s n) av len Q.
Proof.
  revert av len Q. induction n as [|k IH]; intros av len Q Hav Hlen HQ.
  - apply safe_ret. specialize (HQ []). by rewrite !Z.sub_0_r in HQ.
  - simpl. apply safe_bind, safe_get_u16; [lia|intros x Hx].
    apply safe_bind, safe_length_sub; [lia|lia|].
    apply safe_bind, IH; [lia|lia|]. intros l. apply safe_ret.
    replace (av - 2 - 2 * Z.of_nat k) with (av - 2 * Z.of_nat (S k)) by lia.
    replace (len - 2 - 2 * Z.of_nat k) with (len - 2 * Z.of_nat (S k)) by lia.
    apply HQ.
Qed.

Lemma popcount8_land7 b :
  popcount8 (Z.land b 7)
  = Z.b2z (Z.testbit b 0) + Z.b2z (Z.testbit b 1) + Z.b2z (Z.testbit b 2).
Proof.
  unfold popcount8. cbn [map fold_right]. rewrite !Z.land_spec.
  const_bits. cbn. lia.
Qed.

Lemma flag_land_BIT b m i :
  0 <= i -> flag (Z.land b m) (BIT i) = Z.testbit b i && Z.testbit m i.
Proof. intros. by rewrite flag_BIT, Z.land_spec. Qed.

Lemma volume_ie_in_element : in_element decode_volume_ie.
Proof.
  intros len av Hlen Hav. unfold decode_volume_ie. do 4 safe_step. cbv zeta.
  change PFCP_VOLUME_VOLUME with 7. rewrite popcount8_land7.
  unfold PFCP_VOLUME_TOVOL, PFCP_VOLUME_ULVOL, PFCP_VOLUME_DLVOL.
  rewrite !flag_land_BIT by lia. const_bits.
  destruct (Z.testbit x 0), (Z.testbit x 1), (Z.testbit x 2); cbn [Z.b2z]; safe_run.
Qed.

Lemma volume_measurement_in_element : in_element decode_volume_measurement.
Proof.
  intros len av Hlen Hav. unfold decode_volume_measurement. do 4 safe_step. cbv zeta.
  rewrite popcount8_land7.
  unfold PFCP_VOLUME_TOVOL, PFCP_VOLUME_ULVOL, PFCP_VOLUME_DLVOL, PFCP_VOLUME_TONOP,
    PFCP_VOLUME_ULNOP, PFCP_VOLUME_DLNOP.
  rewrite !flag_land_BIT by lia. const_bits.
  destruct (Z.testbit x 0), (Z.testbit x 1), (Z.testbit x 2); cbn [Z.b2z]; safe_run.
Qed.

Lemma fq_csid_in_element : in_element decode_fq_csid.
Proof.
  intros len av Hlen Hav. unfold decode_fq_csid.
  do 5 safe_step. cbv beta zeta.
  assert (0 <= Z.land x 15 < 2 ^ 4) as Hn by (apply land_ones_bound; lia || reflexivity).
  safe_run; (apply safe_get_u16s; [lia|lia|intros ?]; safe_run).
Qed.

Lemma user_id_in_element : in_element decode_user_id.
Proof. safe_decoder2 decode_user_id decode_user_id_digits. Qed.

Lemma masked_u8_in_element m : in_element (decode_masked_u8 m).
Proof. safe_decoder decode_masked_u8. Qed.

Lemma up_function_features_in_element : in_element decode_up_function_features.
Proof.
  intros len av Hlen Hav. unfold decode_up_function_features. do 3 safe_step; try apply safe_err.
  assert (len = 2 * (len / 2)) as Hq by (rewrite (Z.div_mod len 2) at 1; lia).
  set (q := len / 2) in *. clearbody q. clear H. subst len. safe_run.
Qed.

(** the decoders of [leaf_all] that load past their element *)
Definition oob_leaves : list leaf :=
  [K_f_teid; K_redirect_information; K_f_seid; K_outer_header_creation;
   K_time_quota_mechanism; K_user_plane_ip_resource_information; K_mac_addresses_vec;
   K_trace_information; K_ue_ip_address_pool_identity; K_alternative_smf_ip_address;
   K_fatemeh_packet_data; K_ip_version].

Section InBounds.
Context {V : Vppinfra}.

Lemma leaf_in_element k : k ∉ oob_leaves -> in_element (leaf_decode k).
Proof.
  intros Hk.
  destruct k; simpl; try (exfalso; apply Hk, list_elem_of_In; simpl; tauto);
  first
    [ apply masked_u8_in_element | apply volume_ie_in_element | apply fq_csid_in_element
    | apply volume_measurement_in_element | apply user_id_in_element
    | apply up_function_features_in_element
    | safe_decoder decode_u8_ie | safe_decoder decode_u16_ie
    | safe_decoder decode_u16_little_ie | safe_decoder decode_u32_ie
    | safe_decoder decode_simple_vec_ie | safe_decoder decode_time_stamp_ie
    | safe_decoder decode_timer_ie | safe_decoder decode_sntp_time_stamp_ie
    | safe_decoder decode_source_interface | safe_decoder decode_sdf_filter
    | safe_decoder decode_gate_status | safe_decoder decode_bit_rate
    | safe_decoder decode_forwarding_policy | safe_decoder decode_destination_interface
    | safe_decoder decode_downlink_data_service_information
    | safe_decoder decode_dl_buffering_suggested_packet_count
    | safe_decoder decode_node_id
    | safe_decoder2 decode_pfd_contents decode_pfd_member
    | safe_decoder decode_usage_report_trigger
    | safe_decoder decode_dropped_dl_traffic_threshold
    | safe_decoder decode_flow_information | safe_decoder decode_ue_ip_address
    | safe_decoder2 decode_packet_rate decode_rate
    | safe_decoder decode_dl_flow_level_marking | safe_decoder decode_header_enrichment
    | safe_decoder decode_remote_gtp_u_peer | safe_decoder decode_failed_rule_id
    | safe_decoder decode_multiplier
    | safe_decoder2 decode_pfcp_mac_address decode_mac
    | safe_decoder decode_vlan_tag | safe_decoder decode_bbf_nat_outside_address
    | safe_decoder decode_bbf_nat_external_port_range
    | safe_decoder decode_bbf_up_function_features
    | safe_decoder decode_fatemeh_packet_header ].
Qed.
End InBounds.

(** C33. Memory safety of the element decoders: a decoder outside [oob_leaves],
    given an element of [len] bytes that lies inside the received [data], never
    loads past the data (past the element, when the element ends it) and never
    reaches undefined behaviour, whatever the bytes are. *)
Theorem leaf_decode_in_bounds {V : Vppinfra} k data len :
  k ∉ oob_leaves -> Forall is_byte data -> 0 <= len < 65536 -> len <= Zlen data ->
  is_fault (run_decode (leaf_decode k) data len) = false.
Proof.
  intros Hk Hb Hlen Hin.
  pose proof (leaf_in_element k Hk len (Zlen data) Hlen Hin (mk_rd data len) Hb
                eq_refl eq_refl) as H.
  unfold run_decode. by destruct (leaf_decode k (mk_rd data len)) as [[a s]|c|f].
Qed.

Lemma leaf_decode_in_bounds_witness :
  is_fault (run_decode (@leaf_decode vpp_exact K_ue_ip_address) [3; 10; 0; 0; 1; 9] 5) = false.
Proof.
  apply leaf_decode_in_bounds; [by_eval | by apply bytes_check | lia | by_eval].
Defined.

(** for each decoder of [oob_leaves], an element it runs past *)
Definition overrun_input (k : leaf) : list Z :=
  match k with
  | K_f_teid => [1; 0; 0; 0]
  | K_redirect_information => [4; 0; 16] ++ replicate 16 0
  | K_f_seid => 2 :: replicate 8 0
  | K_outer_header_creation => [0x44; 0; 10; 0; 0; 1; 8; 104; 0]
  | K_time_quota_mechanism => [0; 0; 0]
  | K_user_plane_ip_resource_information => [0x60; 1]
  | K_mac_addresses_vec => [1; 0; 0; 0; 0; 0]
  | K_trace_information => replicate 7 0 ++ [0; 0; 4; 10; 0; 0; 1]
  | K_ue_ip_address_pool_identity => [0; 0]
  | K_alternative_smf_ip_address => 2 :: replicate 15 0
  | K_fatemeh_packet_data => [0; 1]
  | _ => []
  end.

(** The decoders of [oob_leaves] are exactly the ones whose length checks do
    not cover their loads: each of them leaves defined behaviour on an element
    whose bytes are all there. *)
Theorem oob_leaves_overrun k :
  k ∈ oob_leaves ->
  Forall is_byte (overrun_input k) /\
  is_fault (run_decode (@leaf_decode vpp_exact k) (overrun_input k)
              (Zlen (overrun_input k))) = true.
Proof.
  intros Hk. apply list_elem_of_In in Hk. simpl in Hk.
  repeat destruct Hk as [<-|Hk]; [..|contradiction];
    (split; [by apply bytes_check | vm_compute; reflexivity]).
Qed.

Lemma oob_leaves_overrun_witness :
  is_fault (run_decode (@leaf_decode vpp_exact K_f_teid) [1; 0; 0; 0] 4) = true.
Proof. apply (oob_leaves_overrun K_f_teid). by_eval. Defined.
