(* ===== verification/PfcpIeRt.v ===== *)
(** * Encode then decode of the simple elements

    A [wf_*] predicate describes, for each codec, the values it transports: in
    range for the width on the wire, and zero where the flags say a member is
    absent. On those values decoding what was encoded gives the value back
    ([transports]). This file has the elements with flags and types;
    PfcpLeafRt has the rest and the theorem over all codecs. *)

From Stdlib Require Import ZArith Lia.
From stdpp Require Import base list list_numbers option numbers decidable.
From S2P Require Import Prelude PfcpIo PfcpIe PfcpLeaf.

(** ** Values each codec transports *)

(** a member of width [w] that is present when [c] holds *)
Definition opt_int (c : bool) (w x : Z) : bool := if c then in_range w x else x =? 0.
(** raw bytes: [n] of them when present, else the zero value *)
Definition opt_raw (c : bool) (n : Z) (zero x : list Z) : bool :=
  if c then Zlen x =? n else bool_decide (x = zero).
Definition opt_vec (c : bool) (v : vec Z) : bool :=
  if c then vec_canon v else bool_decide (v = None).

Definition wf_volume_ie (v : pfcp_volume_ie_t) : bool :=
  let f := vol_fields v in
  in_range 3 f
  && opt_int (flag f PFCP_VOLUME_TOVOL) 64 (vol_total v)
  && opt_int (flag f PFCP_VOLUME_ULVOL) 64 (vol_ul v)
  && opt_int (flag f PFCP_VOLUME_DLVOL) 64 (vol_dl v).

Definition wf_timer_ie (v : pfcp_timer_ie_t) : bool :=
  in_range 4 (tm_unit v) && in_range 4 (tm_value v).

Definition wf_f_teid (v : pfcp_f_teid_t) : bool :=
  let f := ft_flags v in
  in_range 2 f && negb (f =? 0) && in_range 32 (ft_teid v)
  && opt_raw (flag f F_TEID_V4) 4 ip4_zero (ft_ip4 v)
  && opt_raw (flag f F_TEID_V6) 16 ip6_zero (ft_ip6 v)
  && (ft_choose_id v =? 0).

Definition wf_sdf_filter (v : pfcp_sdf_filter_t) : bool :=
  let f := sdf_flags v in
  in_range 4 f
  && opt_vec (flag f F_SDF_FD) (sdf_flow v)
  && opt_int (flag f F_SDF_TTC) 16 (sdf_tos_traffic_class v)
  && opt_int (flag f F_SDF_SPI) 32 (sdf_spi v)
  && opt_int (flag f F_SDF_FL) 24 (sdf_flow_label v)
  && (sdf_sdf_filter_id v =? 0).

Definition wf_gate_status (v : pfcp_gate_status_t) : bool :=
  in_range 1 (gs_ul v) && in_range 1 (gs_dl v).

Definition wf_bit_rate (v : pfcp_bit_rate_t) : bool :=
  in_range 40 (br_ul v) && in_range 40 (br_dl v).

Definition wf_redirect_information (v : pfcp_redirect_information_t) : bool :=
  bool_decide (ri_other_ip v = ip6_zero)
  && (if ri_type v =? REDIRECT_INFORMATION_IPv4 then
        is_ip46 (ri_ip v) && ip46_address_is_ip4 (ri_ip v) && bool_decide (ri_uri v = None)
      else if ri_type v =? REDIRECT_INFORMATION_IPv6 then
        is_ip46 (ri_ip v) && negb (ip46_address_is_ip4 (ri_ip v))
        && bool_decide (ri_uri v = None)
      else
        ((ri_type v =? REDIRECT_INFORMATION_HTTP) || (ri_type v =? REDIRECT_INFORMATION_SIP))
        && bool_decide (ri_ip v = ip6_zero) && vec_canon (ri_uri v)).

Definition wf_forwarding_policy (v : pfcp_forwarding_policy_t) : bool :=
  vec_canon (fp_identifier v) && (vec_len (fp_identifier v) <? 256).

Definition wf_downlink_data_service_information
  (v : pfcp_downlink_data_service_information_t) : bool :=
  let f := ddsi_flags v in
  in_range 2 f
  && opt_int (flag f F_DDSI_PPI) 8 (ddsi_paging_policy_indication v)
  && opt_int (flag f F_DDSI_QFII) 8 (ddsi_qfi v).

Definition wf_f_seid (v : pfcp_f_seid_t) : bool :=
  let f := fs_flags v in
  in_range 2 f && negb (f =? 0) && in_range 64 (fs_seid v)
  && opt_raw (flag f IE_F_SEID_IP_ADDRESS_V4) 4 ip4_zero (fs_ip4 v)
  && opt_raw (flag f IE_F_SEID_IP_ADDRESS_V6) 16 ip6_zero (fs_ip6 v).

Definition wf_node_id (v : pfcp_node_id_t) : bool :=
  if nid_type v =? NID_IPv4 then
    is_ip46 (nid_ip v) && ip46_address_is_ip4 (nid_ip v) && bool_decide (nid_fqdn v = None)
  else if nid_type v =? NID_IPv6 then
    is_ip46 (nid_ip v) && bool_decide (nid_fqdn v = None)
  else
    (nid_type v =? NID_FQDN) && bool_decide (nid_ip v = ip6_zero) && vec_canon (nid_fqdn v).

Definition wf_fq_csid (v : pfcp_fq_csid_t) : bool :=
  let no_nid := (fq_mcc v =? 0) && (fq_mnc v =? 0) && (fq_nid v =? 0) in
  (Zlen (fq_csid v) <? 16) && forallb (in_range 16) (fq_csid v)
  && (if fq_node_id_type v =? FQ_CSID_NID_IP4 then
        is_ip46 (fq_ip v) && ip46_address_is_ip4 (fq_ip v) && no_nid
      else if fq_node_id_type v =? FQ_CSID_NID_IP6 then is_ip46 (fq_ip v) && no_nid
      else
        (fq_node_id_type v =? FQ_CSID_NID_NID)
        && bool_decide (fq_ip v = ip6_zero)
        && (0 <=? fq_mcc v) && (fq_mcc v <? 1000)
        && (0 <=? fq_mnc v) && (fq_mnc v <? 1000) && in_range 12 (fq_nid v)).

Definition wf_volume_measurement (v : pfcp_volume_measurement_t) : bool :=
  let f := vm_fields v in
  in_range 3 f
  && opt_int (flag f PFCP_VOLUME_TOVOL) 64 (vm_volume_total v)
  && opt_int (flag f PFCP_VOLUME_ULVOL) 64 (vm_volume_ul v)
  && opt_int (flag f PFCP_VOLUME_DLVOL) 64 (vm_volume_dl v)
  && (vm_packets_total v =? 0) && (vm_packets_ul v =? 0) && (vm_packets_dl v =? 0).

Definition wf_dropped_dl_traffic_threshold (v : pfcp_dropped_dl_traffic_threshold_t) : bool :=
  let f := ddtt_flags v in
  in_range 8 f && flag f DDTT_DLPA && negb (flag f DDTT_DLBY)
  && in_range 64 (ddtt_downlink_packets v) && (ddtt_downlink_volume v =? 0).

Definition wf_outer_header_creation (v : pfcp_outer_header_creation_t) : bool :=
  let d := ohc_description v in
  in_range 16 d && negb (ohc_invalid d)
  && opt_int (flag d OUTER_HEADER_CREATION_GTP_ANY) 32 (ohc_teid v)
  && (if flag d OUTER_HEADER_CREATION_ANY_IP6 then is_ip46 (ohc_ip v)
      else if flag d OUTER_HEADER_CREATION_ANY_IP4 then
        is_ip46 (ohc_ip v) && ip46_address_is_ip4 (ohc_ip v)
      else bool_decide (ohc_ip v = ip6_zero))
  && opt_int (flag d OUTER_HEADER_CREATION_UDP_ANY) 16 (ohc_port v)
  && opt_int (flag d OUTER_HEADER_CREATION_C_TAG) 24 (ohc_c_tag v)
  && opt_int (flag d OUTER_HEADER_CREATION_S_TAG) 24 (ohc_s_tag v).

Definition wf_flow_information (v : pfcp_flow_information_t) : bool :=
  in_range 4 (fi_direction v) && vec_canon (fi_flow_description v).

Definition wf_ue_ip_address (v : pfcp_ue_ip_address_t) : bool :=
  let f := ue_flags v in
  in_range 8 f
  && opt_raw (flag f IE_UE_IP_ADDRESS_V4) 4 ip4_zero (ue_ip4 v)
  && opt_raw (flag f IE_UE_IP_ADDRESS_V6) 16 ip6_zero (ue_ip6 v)
  && opt_int (flag f IE_UE_IP_ADDRESS_IPv6D) 8 (ue_prefix_delegation_length v)
  && opt_int (flag f IE_UE_IP_ADDRESS_IP6PL) 8 (ue_prefix_length v).

Definition wf_rate (c : bool) (r : packet_rate_t) : bool :=
  opt_int c 4 (pr_unit r) && opt_int c 16 (pr_max r).

Definition wf_packet_rate (v : pfcp_packet_rate_t) : bool :=
  let f := pkr_flags v in
  in_range 2 f
  && wf_rate (flag f PACKET_RATE_ULPR) (pkr_ul v)
  && wf_rate (flag f PACKET_RATE_DLPR) (pkr_dl v)
  && wf_rate false (pkr_a_ul v) && wf_rate false (pkr_a_dl v).

Definition wf_dl_flow_level_marking (v : pfcp_dl_flow_level_marking_t) : bool :=
  let f := flm_flags v in
  in_range 2 f
  && opt_int (flag f DL_FLM_TTC) 16 (flm_tos_traffic_class v)
  && opt_int (flag f DL_FLM_SCI) 16 (flm_service_class_indicator v).

Definition wf_header_enrichment (v : pfcp_header_enrichment_t) : bool :=
  in_range 4 (he_type v) && vec_canon (he_name v) && vec_canon (he_value v).

Definition wf_remote_gtp_u_peer (v : pfcp_remote_gtp_u_peer_t) : bool :=
  is_ip46 (rg_ip v)
  && ((rg_destination_interface v =? 255)
      || (0 <=? rg_destination_interface v) && (rg_destination_interface v <? DST_INTF_NUM))
  && vec_canon (rg_network_instance v).

Definition wf_failed_rule_id (v : pfcp_failed_rule_id_t) : bool :=
  in_range 8 (fr_type v)
  && (if fr_type v =? FAILED_RULE_TYPE_PDR then in_range 16 (fr_id v)
      else if fr_type v =? FAILED_RULE_TYPE_BAR then in_range 8 (fr_id v)
      else in_range 32 (fr_id v)).

Definition wf_time_quota_mechanism (v : pfcp_time_quota_mechanism_t) : bool :=
  in_range 2 (tqm_base_time_interval_type v) && in_range 32 (tqm_base_time_interval v).

Definition wf_user_plane_ip_resource_information
  (v : pfcp_user_plane_ip_resource_information_t) : bool :=
  let f := upr_flags v in
  in_range 7 f && (Z.land f USER_PLANE_IP_RESOURCE_INFORMATION_MASK =? f)
  && in_range 3 (upr_teid_range_indication v)
  && opt_int (negb (upr_teid_range_indication v =? 0)) 8 (upr_teid_range v)
  && opt_raw (flag f USER_PLANE_IP_RESOURCE_INFORMATION_V4) 4 ip4_zero (upr_ip4 v)
  && opt_raw (flag f USER_PLANE_IP_RESOURCE_INFORMATION_V6) 16 ip6_zero (upr_ip6 v)
  && vec_canon (upr_network_instance v)
  && Bool.eqb (flag f USER_PLANE_IP_RESOURCE_INFORMATION_ASSONI)
       (0 <? vec_len (upr_network_instance v))
  && negb (flag f USER_PLANE_IP_RESOURCE_INFORMATION_ASSONI
           && flag f USER_PLANE_IP_RESOURCE_INFORMATION_ASSOSI)
  && opt_int (flag f USER_PLANE_IP_RESOURCE_INFORMATION_ASSOSI) 4 (upr_source_intf v).

Definition wf_multiplier (v : pfcp_multiplier_t) : bool :=
  (- 2 ^ 63 <=? mul_digits v) && (mul_digits v <? 2 ^ 63)
  && (- 2 ^ 31 <=? mul_exponent v) && (mul_exponent v <? 2 ^ 31).

Definition wf_pfcp_mac_address (v : pfcp_mac_address_t) : bool :=
  let f := ma_flags v in
  in_range 8 f
  && opt_raw (flag f F_SOURCE_MAC) 6 mac_zero (ma_src_mac v)
  && opt_raw (flag f F_DESTINATION_MAC) 6 mac_zero (ma_dst_mac v)
  && opt_raw (flag f F_UPPER_SOURCE_MAC) 6 mac_zero (ma_upper_src_mac v)
  && opt_raw (flag f F_UPPER_DESTINATION_MAC) 6 mac_zero (ma_upper_dst_mac v).

(** a tag with a VLAN id only *)
Definition wf_vlan_tag (v : pfcp_vlan_tag_t) : bool :=
  bool_decide (vlan_mask v ∈ map bswap16 [0; 0x1000; 0xe000; 0xf000; 0x0fff; 0x1fff; 0xefff; 0xffff])
  && in_range 16 (vlan_tci v) && (bswap16 (vlan_tci v) <? 4096).

Definition wf_digits (n : Z) (l : list Z) : bool :=
  (0 <=? n) && (n <=? 8) && bool_decide (l = array8 (take (Z.to_nat n) l)).

Definition wf_user_id (v : pfcp_user_id_t) : bool :=
  wf_digits (uid_imei_len v) (uid_imei v)
  && wf_digits (uid_imsi_len v) (uid_imsi v)
  && wf_digits (uid_msisdn_len v) (uid_msisdn v)
  && vec_canon (uid_nai v) && (vec_len (uid_nai v) <? 256).

Definition wf_alternative_smf_ip_address (v : pfcp_alternative_smf_ip_address_t) : bool :=
  let f := as_flags v in
  in_range 2 f && flag f ALTERNATIVE_SMF_IP_ADDRESS_V6
  && opt_raw (flag f ALTERNATIVE_SMF_IP_ADDRESS_V4) 4 ip4_zero (as_ip4 v)
  && (Zlen (as_ip6 v) =? 16).

Definition wf_fatemeh_packet_header (v : pfcp_fatemeh_packet_header_t) : bool :=
  in_range 8 (ph_ip_version_and_header_length v) && in_range 8 (ph_tos v)
  && in_range 16 (ph_length v) && in_range 16 (ph_fragment_id v)
  && in_range 16 (ph_flags_and_fragment_offset v) && in_range 8 (ph_ttl v)
  && in_range 8 (ph_protocol v) && in_range 16 (ph_checksum v)
  && in_range 32 (ph_src v) && in_range 32 (ph_dst v).

Definition wf_fatemeh_packet_data (v : pfcp_fatemeh_packet_data_t) : bool :=
  (pd_length v =? vec_len (pd_data v)) && vec_canon (pd_data v).

Definition wf_ip_version (v : Z) : bool :=
  in_range 8 v && (flag v IP_VERSION_4 || flag v IP_VERSION_6).

(** ** The method *)

(** the decoder [d] gives [x] back from the bytes of [enc] *)
Definition transports {A} (d : D A) (enc : A -> outcome (list wop)) (x : A) : Prop :=
  forall ops, enc x = Ok ops -> Zlen (wbytes ops) < 65536 ->
  yields d (wbytes ops) (Zlen (wbytes ops)) x.

(** split the presence conditions of the encoder *)
Ltac split_on c :=
  lazymatch c with
  | true => fail
  | false => fail
  | _ => let E := fresh "Hc" in destruct c eqn:E
  end.
Ltac split_opts :=
  repeat match goal with
  | |- context [opt_ops ?c _] => split_on c
  | H : context [opt_int ?c _ _] |- _ => split_on c
  | H : context [opt_raw ?c _ _ _] |- _ => split_on c
  | H : context [opt_vec ?c _] |- _ => split_on c
  end.

Ltac unmask :=
  repeat match goal with
  | |- context [Z.land ?x ?m] =>
      let n := eval vm_compute in (Z.log2 (m + 1)) in
      rewrite (land_mask_small n x m) by
        first [lia | reflexivity | assumption | apply in_range_spec; cbn; lia]
  end.

Ltac side := first [assumption | reflexivity | lia
  | apply in_range_spec; unfold Z.pow; simpl; lia | autorewrite with upf_len; lia].

Ltac yields_step :=
  lazymatch goal with
  | |- yields (dbind (dbind _ _) _) _ _ _ => apply yields_assoc
  | |- yields (dbind (dret _) _) _ _ _ => apply yields_bret
  | |- yields (dbind (check_length _) _) _ _ _ => apply yields_check; [side|]
  | |- yields (dbind (length_sub _) _) _ _ _ => apply yields_sub; [side|side|]
  | |- yields (dbind get_length _) _ _ _ => apply yields_get_length
  | |- yields (dbind get_u8 _) _ _ _ => apply (yields_get_be 1); [side|]
  | |- yields (dbind get_u16 _) _ _ _ => apply (yields_get_be 2); [side|]
  | |- yields (dbind get_u16_little _) _ _ _ => apply yields_get_le16; [side|]
  | |- yields (dbind get_u24 _) _ _ _ => apply (yields_get_be 3); [side|]
  | |- yields (dbind get_u32 _) _ _ _ => apply (yields_get_be 4); [side|]
  | |- yields (dbind get_u40 _) _ _ _ => apply (yields_get_be 5); [side|]
  | |- yields (dbind get_u64 _) _ _ _ => apply (yields_get_be 8); [side|]
  | |- yields (dbind get_ip4 _) _ _ _ => apply yields_get_n; [side|]
  | |- yields (dbind get_ip6 _) _ _ _ => apply yields_get_n; [side|]
  | |- yields (dbind get_ip46_ip6 _) _ _ _ => apply yields_get_n; [side|]
  | |- yields (dbind get_ip46_ip4 _) _ _ _ => apply yields_get_ip46_ip4; [side|]
  | |- yields (dbind (get_n _) _) _ _ _ => apply yields_get_n; [side|]
  | |- yields (dbind (get_vec _ _) _) _ _ _ => apply yields_get_vec; [side|]
  | |- yields (dbind (skip _) _) _ _ _ => apply yields_skip; [side|]
  | |- yields (dbind (if ?c then _ else _) _) _ _ _ =>
      match goal with
      | H : c = true |- _ => rewrite H
      | H : c = false |- _ => rewrite H
      | _ => let E := fresh "Ht" in destruct c eqn:E; btest; try (exfalso; lia)
      end
  | |- yields (if ?c then _ else _) _ _ _ =>
      match goal with
      | H : c = true |- _ => rewrite H
      | H : c = false |- _ => rewrite H
      | _ => let E := fresh "Ht" in destruct c eqn:E; btest; try (exfalso; lia)
      end
  | |- yields (dret _) _ _ _ => apply yields_ret
  | |- yields (dbind _ _) _ _ _ => fail
  | |- yields _ _ _ _ => apply yields_tail
  end; cbv beta zeta; cbn [negb].

(** case split on a flags member of few bits *)
Ltac enum f :=
  match goal with
  | H : in_range ?n f = true |- _ =>
      let l := eval vm_compute in (map Z.of_nat (seq 0 (Z.to_nat (2 ^ n)))) in
      let E := fresh "He" in
      assert (In f l) as E by (apply in_range_spec in H; simpl in *; lia);
      simpl in E; clear H;
      repeat (destruct E as [E|E]; [|]); try contradiction; try subst f
  end.

(** evaluate the tests on constant flags *)
Ltac eval_flags :=
  repeat match goal with
  | |- context [flag ?x ?m] =>
      let b := eval vm_compute in (flag x m) in
      lazymatch b with
      | true => change (flag x m) with true
      | false => change (flag x m) with false
      end
  | H : context [flag ?x ?m] |- _ =>
      let b := eval vm_compute in (flag x m) in
      lazymatch b with
      | true => change (flag x m) with true in H
      | false => change (flag x m) with false in H
      end
  end.

(** write the value back from what was read *)
Ltac rt_value :=
  rewrite ?vec_add_canon, ?ip46_restore by assumption; reflexivity.

Ltac rt_bytes :=
  cbn [wbytes map concat wop_bytes app put_u8 put_u16 put_u16_little put_u24 put_u32
       put_u40 put_u64 put_ip4 put_ip6 put_ip46_ip4 put_ip46_ip6 vec_append vec_add_bytes
       vec_elts opt_ops];
  autorewrite with upf_len;
  repeat match goal with H : Zlen _ = _ |- _ => rewrite H end.

Ltac rt_run := repeat (yields_step; eval_flags; unmask; cbn [negb andb]); try rt_value.

(** prove [transports d e x] by evaluating both sides on every combination of
    presence conditions; [rt_pre] leaves the conditions to the caller *)
Ltac rt_clean :=
  eval_flags; cbn [opt_int opt_raw opt_vec opt_ops app negb andb orb] in *; btest;
  try discriminate; try (exfalso; lia); subst.
Ltac pose_lens :=
  repeat match goal with
  | |- context [Zlen ?l] =>
      lazymatch goal with
      | H : 0 <= Zlen l |- _ => fail
      | _ => pose proof (Zlen_nonneg l)
      end
  end.
Ltac rt_body := rt_bytes; pose_lens; unmask; intros Hlen; rt_run.
Ltac rt_pre :=
  unfold transports; simpl;
  let Hwf := fresh "Hwf" in intros Hwf ops [= <-]; unfold vec_len in *;
  repeat match goal with
  | H : (_ && _)%bool = true |- _ => apply andb_true_iff in H as [? ?]
  end.

(** ** Elements whose flags take few values *)

Lemma volume_ie_rt v : wf_volume_ie v = true -> transports decode_volume_ie encode_volume_ie v.
Proof.
  destruct v as [f]. unfold wf_volume_ie, encode_volume_ie, decode_volume_ie. rt_pre.
  enum f; rt_clean; rt_body.
Qed.

Lemma f_teid_rt v : wf_f_teid v = true -> transports decode_f_teid encode_f_teid v.
Proof.
  destruct v as [f]. unfold wf_f_teid, encode_f_teid, decode_f_teid. rt_pre.
  enum f; rt_clean; rt_body.
Qed.

Lemma sdf_filter_rt v : wf_sdf_filter v = true -> transports decode_sdf_filter encode_sdf_filter v.
Proof.
  destruct v as [f]. unfold wf_sdf_filter, encode_sdf_filter, decode_sdf_filter. rt_pre.
  enum f; rt_clean; rt_body.
Qed.

Lemma downlink_data_service_information_rt v : wf_downlink_data_service_information v = true -> transports decode_downlink_data_service_information encode_downlink_data_service_information v.
Proof.
  destruct v as [f]. unfold wf_downlink_data_service_information, encode_downlink_data_service_information, decode_downlink_data_service_information. rt_pre.
  enum f; rt_clean; rt_body.
Qed.

Lemma f_seid_rt v : wf_f_seid v = true -> transports decode_f_seid encode_f_seid v.
Proof.
  destruct v as [f]. unfold wf_f_seid, encode_f_seid, decode_f_seid. rt_pre.
  enum f; rt_clean; rt_body.
Qed.

Lemma volume_measurement_rt v : wf_volume_measurement v = true -> transports decode_volume_measurement encode_volume_measurement v.
Proof.
  destruct v as [f]. unfold wf_volume_measurement, encode_volume_measurement, decode_volume_measurement. rt_pre.
  enum f; rt_clean; rt_body.
Qed.

Lemma dl_flow_level_marking_rt v : wf_dl_flow_level_marking v = true -> transports decode_dl_flow_level_marking encode_dl_flow_level_marking v.
Proof.
  destruct v as [f]. unfold wf_dl_flow_level_marking, encode_dl_flow_level_marking, decode_dl_flow_level_marking. rt_pre.
  enum f; rt_clean; rt_body.
Qed.

Lemma alternative_smf_ip_address_rt v : wf_alternative_smf_ip_address v = true -> transports decode_alternative_smf_ip_address encode_alternative_smf_ip_address v.
Proof.
  destruct v as [f]. unfold wf_alternative_smf_ip_address, encode_alternative_smf_ip_address, decode_alternative_smf_ip_address. rt_pre.
  enum f; rt_clean; rt_body.
Qed.

(** ** Elements without conditions *)

Lemma bit_rate_rt v : wf_bit_rate v = true -> transports decode_bit_rate encode_bit_rate v.
Proof.
  destruct v. unfold wf_bit_rate, encode_bit_rate, decode_bit_rate. rt_pre.
  rt_clean; rt_body.
Qed.

Lemma forwarding_policy_rt v : wf_forwarding_policy v = true -> transports decode_forwarding_policy encode_forwarding_policy v.
Proof.
  destruct v. unfold wf_forwarding_policy, encode_forwarding_policy, decode_forwarding_policy. rt_pre.
  rt_clean; rt_body.
Qed.

Lemma flow_information_rt v : wf_flow_information v = true -> transports decode_flow_information encode_flow_information v.
Proof.
  destruct v. unfold wf_flow_information, encode_flow_information, decode_flow_information. rt_pre.
  rt_clean; rt_body.
Qed.

Lemma header_enrichment_rt v : wf_header_enrichment v = true -> transports decode_header_enrichment encode_header_enrichment v.
Proof.
  destruct v. unfold wf_header_enrichment, encode_header_enrichment, decode_header_enrichment. rt_pre.
  rt_clean; rt_body.
Qed.

Lemma time_quota_mechanism_rt v : wf_time_quota_mechanism v = true -> transports decode_time_quota_mechanism encode_time_quota_mechanism v.
Proof.
  destruct v. unfold wf_time_quota_mechanism, encode_time_quota_mechanism, decode_time_quota_mechanism. rt_pre.
  rt_clean; rt_body.
Qed.

Lemma fatemeh_packet_header_rt v : wf_fatemeh_packet_header v = true -> transports decode_fatemeh_packet_header encode_fatemeh_packet_header v.
Proof.
  destruct v. unfold wf_fatemeh_packet_header, encode_fatemeh_packet_header, decode_fatemeh_packet_header. rt_pre.
  rt_clean; rt_body.
Qed.

(** ** Elements with an octet of flags *)

Lemma ue_ip_address_rt v : wf_ue_ip_address v = true -> transports decode_ue_ip_address encode_ue_ip_address v.
Proof.
  destruct v. unfold wf_ue_ip_address, encode_ue_ip_address, decode_ue_ip_address. rt_pre.
  split_opts; rt_clean; rt_body.
Qed.

Lemma pfcp_mac_address_rt v :
  wf_pfcp_mac_address v = true -> transports decode_pfcp_mac_address encode_pfcp_mac_address v.
Proof.
  destruct v. unfold wf_pfcp_mac_address, encode_pfcp_mac_address, decode_pfcp_mac_address,
    decode_mac.
  rt_pre. split_opts; rt_clean; rt_body.
Qed.

Lemma dropped_dl_traffic_threshold_rt v :
  wf_dropped_dl_traffic_threshold v = true ->
  transports decode_dropped_dl_traffic_threshold encode_dropped_dl_traffic_threshold v.
Proof.
  destruct v. unfold wf_dropped_dl_traffic_threshold, encode_dropped_dl_traffic_threshold,
    decode_dropped_dl_traffic_threshold.
  rt_pre. split_opts; rt_clean; try discriminate. rt_body.
Qed.

Lemma packet_rate_rt v :
  wf_packet_rate v = true -> transports decode_packet_rate encode_packet_rate v.
Proof.
  destruct v as [f [u1 m1] [u2 m2] [u3 m3] [u4 m4]].
  unfold wf_packet_rate, wf_rate, encode_packet_rate, decode_packet_rate, encode_rate,
    decode_rate.
  rt_pre. enum f; rt_clean; rt_body.
Qed.

Lemma outer_header_creation_rt v :
  wf_outer_header_creation v = true ->
  transports decode_outer_header_creation encode_outer_header_creation v.
Proof.
  destruct v as [d t ip p ct st].
  unfold wf_outer_header_creation, encode_outer_header_creation,
    decode_outer_header_creation, is_ip46, transports; simpl.
  intros Hwf; revert Hwf. split_opts; rt_pre; rt_clean;
    try pose proof (Zlen_ip46_ip4 ip ltac:(assumption)); rt_body.
Qed.

(** ** Elements with a type octet *)

Lemma fatemeh_packet_data_rt v :
  wf_fatemeh_packet_data v = true ->
  transports decode_fatemeh_packet_data encode_fatemeh_packet_data v.
Proof.
  destruct v as [l d].
  unfold wf_fatemeh_packet_data, transports, encode_fatemeh_packet_data,
    decode_fatemeh_packet_data.
  simpl. unfold vec_len. intros Hwf. btest. subst l. rewrite Z.ltb_irrefl, take_Zlen.
  intros ops [= <-]. rt_body.
Qed.

Lemma failed_rule_id_rt v :
  wf_failed_rule_id v = true -> transports decode_failed_rule_id encode_failed_rule_id v.
Proof.
  destruct v as [t i].
  unfold wf_failed_rule_id, encode_failed_rule_id, decode_failed_rule_id, transports. simpl.
  repeat case_test; rt_pre; rt_clean; rt_body.
Qed.

Lemma node_id_rt v :
  wf_node_id v = true -> transports decode_node_id encode_node_id v.
Proof.
  destruct v as [t ip n].
  unfold wf_node_id, encode_node_id, decode_node_id, is_ip46, transports. simpl.
  repeat case_test; rt_pre; rt_clean;
    try pose proof (Zlen_ip46_ip4 ip ltac:(assumption)); rt_body.
Qed.

Lemma remote_gtp_u_peer_rt v :
  wf_remote_gtp_u_peer v = true ->
  transports decode_remote_gtp_u_peer encode_remote_gtp_u_peer v.
Proof.
  destruct v as [ip di ni].
  unfold wf_remote_gtp_u_peer, encode_remote_gtp_u_peer, decode_remote_gtp_u_peer, is_ip46,
    transports. simpl. unfold DST_INTF_NUM.
  destruct (di =? 255) eqn:Hdi, (0 <? vec_len ni) eqn:Hni, (ip46_address_is_ip4 ip) eqn:H4;
    rt_pre; rt_clean;
    try pose proof (Zlen_ip46_ip4 ip ltac:(assumption));
    try (assert (ni = None) by (apply vec_canon_empty; done); subst ni);
    rt_body.
Qed.
