(* ===== verification/PfcpLeafRt.v ===== *)
(** * Round trip of every simple element

    The remaining codecs (scalars, packed octets, loops, text), the predicate
    [leaf_wf] over all codecs, the round-trip theorem, and the values the
    codecs lose. *)

From Stdlib Require Import ZArith Lia.
From stdpp Require Import base list list_numbers option numbers decidable.
From S2P Require Import Prelude PfcpIo PfcpIe PfcpLeaf PfcpIeRt.

(** ** Scalars *)

Ltac rt_scalar := rt_pre; rt_clean; rt_body.

Lemma u8_ie_rt v : in_range 8 v = true -> transports decode_u8_ie encode_u8_ie v.
Proof. unfold decode_u8_ie, encode_u8_ie. rt_scalar. Qed.
Lemma u16_ie_rt v : in_range 16 v = true -> transports decode_u16_ie encode_u16_ie v.
Proof. unfold decode_u16_ie, encode_u16_ie. rt_scalar. Qed.
Lemma u16_little_ie_rt v :
  in_range 16 v = true -> transports decode_u16_little_ie encode_u16_little_ie v.
Proof. unfold decode_u16_little_ie, encode_u16_little_ie. rt_scalar. Qed.
Lemma u32_ie_rt v : in_range 32 v = true -> transports decode_u32_ie encode_u32_ie v.
Proof. unfold decode_u32_ie, encode_u32_ie. rt_scalar. Qed.
Lemma simple_vec_ie_rt v :
  vec_canon v = true -> transports decode_simple_vec_ie encode_simple_vec_ie v.
Proof. unfold decode_simple_vec_ie, encode_simple_vec_ie. rt_scalar. Qed.
Lemma bbf_nat_outside_address_rt v :
  (Zlen v =? 4) = true -> transports decode_bbf_nat_outside_address encode_bbf_nat_outside_address v.
Proof. unfold decode_bbf_nat_outside_address, encode_bbf_nat_outside_address. rt_scalar. Qed.

Lemma masked_u8_rt n m v :
  0 <= n <= 8 -> m = Z.ones n -> in_range n v = true ->
  transports (decode_masked_u8 m) (fun v => Ok [put_u8 v]) v.
Proof.
  intros Hn Hm Hv ops [= <-] Hlen. unfold decode_masked_u8.
  pose proof (land_mask_small n v m ltac:(lia) Hm Hv) as Hl.
  assert (2 ^ n <= 2 ^ 8) by (apply Z.pow_le_mono_r; lia). btest.
  rt_bytes. do 2 yields_step. rewrite Hl. by apply yields_ret.
Qed.

Definition wf_source_interface (v : Z) : bool := in_range 2 v.
Lemma source_interface_rt v :
  wf_source_interface v = true -> transports decode_source_interface encode_source_interface v.
Proof.
  unfold wf_source_interface, decode_source_interface, encode_source_interface. rt_pre.
  enum v; rt_clean; rt_body.
Qed.

Definition wf_destination_interface (v : Z) : bool := (0 <=? v) && (v <? DST_INTF_NUM).
Lemma destination_interface_rt v :
  wf_destination_interface v = true ->
  transports decode_destination_interface encode_destination_interface v.
Proof.
  unfold wf_destination_interface, decode_destination_interface,
    encode_destination_interface, DST_INTF_NUM. rt_scalar.
Qed.

Lemma dl_buffering_suggested_packet_count_rt v :
  in_range 16 v = true ->
  transports decode_dl_buffering_suggested_packet_count
    encode_dl_buffering_suggested_packet_count v.
Proof.
  unfold decode_dl_buffering_suggested_packet_count,
    encode_dl_buffering_suggested_packet_count, transports.
  destruct (v <? 256) eqn:E; rt_scalar.
Qed.

Lemma ip_version_rt v :
  wf_ip_version v = true -> transports decode_ip_version encode_ip_version v.
Proof.
  unfold wf_ip_version, decode_ip_version, encode_ip_version, transports.
  destruct (flag v IP_VERSION_4) eqn:E4, (flag v IP_VERSION_6) eqn:E6; simpl;
    rt_pre; try discriminate; rt_clean; rt_bytes; intros Hlen;
    yields_step; rewrite E4, E6; by apply yields_ret.
Qed.

(** the two conversions of the time stamp differ by 2^32, and undo each other *)
Lemma time_stamp_ie_rt v :
  in_range 32 v = true -> transports decode_time_stamp_ie encode_time_stamp_ie v.
Proof.
  intros Hv ops [= <-] Hlen. unfold decode_time_stamp_ie. apply in_range_spec in Hv.
  set (w := wrap 32 (v - 2085978496)).
  assert (wbytes [if 2085978496 <=? v then put_u32 w else put_u32 (wrap 32 (v + 2208988800))]
          = be 4 w ++ []) as ->.
  { destruct (2085978496 <=? v); [reflexivity|].
    replace w with (wrap 32 (v + 2208988800)); [reflexivity|]. unfold w, wrap.
    replace (v + 2208988800) with (v - 2085978496 + 1 * 2 ^ 32) by lia.
    rewrite Z.mod_add by lia. reflexivity. }
  pose proof (in_range_wrap 32 (v - 2085978496) ltac:(lia)) as Hw. fold w in Hw.
  clear Hlen. rt_bytes. do 3 yields_step. apply yields_ret.
  assert (wrap 32 (w - 2208988800) = v /\ wrap 32 (w + 2085978496) = v) as [-> ->].
  { unfold w, wrap. split.
    - rewrite Zminus_mod_idemp_l.
      replace (v - 2085978496 - 2208988800) with (v + (-1) * 2 ^ 32) by lia.
      rewrite Z.mod_add by lia. apply Z.mod_small; lia.
    - rewrite Zplus_mod_idemp_l. replace (v - 2085978496 + 2085978496) with v by lia.
      apply Z.mod_small; lia. }
  by destruct (flag w 2147483648).
Qed.

(** the low bits and the rest of a value make it up again *)
Lemma join_low k v :
  0 <= k -> 0 <= v -> Z.lor (wrap k v) (Z.shiftl (Z.shiftr v k) k) = v.
Proof.
  intros Hk Hv. rewrite lor_shiftl_add_r;
    [|lia|by apply in_range_spec, in_range_wrap].
  rewrite Z.shiftr_div_pow2 by lia. unfold wrap.
  rewrite Z.mul_comm, <- Z.div_mod; [done|]. apply Z.pow_nonzero; lia.
Qed.

Lemma in_range_shiftr w k v :
  0 <= k -> 0 <= w -> in_range (k + w) v = true -> in_range w (Z.shiftr v k) = true.
Proof.
  intros Hk Hw H%in_range_spec. apply in_range_spec.
  rewrite Z.shiftr_div_pow2 by lia. rewrite Z.pow_add_r in H by lia.
  pose proof (Z.pow_pos_nonneg 2 k). split; [apply Z.div_pos; lia|].
  apply Z.div_lt_upper_bound; lia.
Qed.

Lemma usage_report_trigger_rt v :
  in_range 24 v = true ->
  transports decode_usage_report_trigger encode_usage_report_trigger v.
Proof.
  intros Hv ops [= <-] Hlen. unfold decode_usage_report_trigger.
  pose proof (in_range_wrap 16 v ltac:(lia)).
  pose proof (in_range_shiftr 8 16 v ltac:(lia) ltac:(lia) Hv).
  rt_bytes. rewrite <- (le_wrap 2 v). change (8 * Z.of_nat 2) with 16.
  rt_run. btest. apply join_low; lia.
Qed.

Lemma up_function_features_rt v :
  in_range 48 v = true ->
  transports decode_up_function_features encode_up_function_features v.
Proof.
  intros Hv ops [= <-] Hlen. unfold decode_up_function_features.
  pose proof (in_range_wrap 16 v ltac:(lia)).
  pose proof (in_range_wrap 16 (Z.shiftr v 16) ltac:(lia)).
  pose proof (in_range_shiftr 16 32 v ltac:(lia) ltac:(lia) Hv).
  rt_bytes. rewrite <- (le_wrap 2 v), <- (le_wrap 2 (Z.shiftr v 16)).
  change (8 * Z.of_nat 2) with 16.
  rt_run; btest; [contradiction|].
  rewrite <- Z.lor_assoc.
  change 32 with (16 + 16) at 2. rewrite <- Z.shiftl_shiftl, <- Z.shiftl_lor by lia.
  change 32 with (16 + 16) at 1. rewrite <- Z.shiftr_shiftr by lia.
  rewrite join_low by (try apply Z.shiftr_nonneg; lia). apply join_low; lia.
Qed.

(** two values of four bits in an octet *)
Lemma nibbles h l :
  in_range 4 h = true -> in_range 4 l = true ->
  let b := Z.lor (Z.shiftl h 4) l in
  in_range 8 b = true /\ Z.shiftr b 4 = h /\ Z.land b 15 = l.
Proof.
  intros Hh%in_range_spec Hl%in_range_spec b. unfold b.
  rewrite lor_shiftl_add by lia. split; [apply in_range_spec; lia|].
  rewrite Z.shiftr_div_pow2 by lia. change 15 with (Z.ones 4). rewrite Z.land_ones by lia.
  rewrite Z.div_add_l, Z.div_small by lia. split; [lia|].
  rewrite Z.add_comm, Z.mod_add by lia. apply Z.mod_small. lia.
Qed.

Lemma timer_ie_rt v : wf_timer_ie v = true -> transports decode_timer_ie encode_timer_ie v.
Proof.
  destruct v as [u w]. unfold wf_timer_ie, decode_timer_ie, encode_timer_ie. rt_pre. unmask.
  destruct (nibbles u w) as (Hb & Hh & Hl); [done..|].
  rt_bytes. intros _. do 2 yields_step. apply yields_ret. by rewrite Hh, Hl.
Qed.

Lemma gate_status_rt v :
  wf_gate_status v = true -> transports decode_gate_status encode_gate_status v.
Proof.
  destruct v as [u w]. unfold wf_gate_status, decode_gate_status, encode_gate_status. rt_pre.
  enum u; enum w; rt_clean; rt_body.
Qed.

Lemma multiplier_rt v :
  wf_multiplier v = true -> transports decode_multiplier encode_multiplier v.
Proof.
  destruct v as [d e]. unfold wf_multiplier, decode_multiplier, encode_multiplier. rt_pre.
  pose proof (in_range_wrap 64 d ltac:(lia)).
  pose proof (in_range_wrap 32 e ltac:(lia)). rt_body.
  btest. rewrite !to_signed_wrap by lia. reflexivity.
Qed.

(** ** Elements with embedded loops and text *)

Lemma yields_peek {B} n l (k : list Z -> D B) bs len b :
  Zlen l = n -> yields (k l) (l ++ bs) len b -> yields (dbind (peek_n n) k) (l ++ bs) len b.
Proof.
  intros <- H rest. destruct (H rest) as [s' E]. exists s'.
  unfold dbind, peek_n, get_n; simpl.
  destruct (Z.ltb_spec (Zlen ((l ++ bs) ++ rest)) (Zlen l)) as [Hlt|_].
  { rewrite !Zlen_app in Hlt. pose proof (Zlen_nonneg bs). pose proof (Zlen_nonneg rest). lia. }
  simpl. replace (take (Z.to_nat (Zlen l)) ((l ++ bs) ++ rest)) with l; [exact E|].
  rewrite <- app_assoc. unfold Zlen. by rewrite Nat2Z.id, take_app_length.
Qed.

Section RedirectRt.
Context {V : Vppinfra} {VOk : VppinfraOk V}.

Lemma redirect_information_rt v :
  wf_redirect_information v = true ->
  transports decode_redirect_information encode_redirect_information v.
Proof.
  destruct v as [t ip o uri].
  unfold wf_redirect_information, encode_redirect_information, decode_redirect_information,
    is_ip46, transports. simpl.
  unfold REDIRECT_INFORMATION_IPv4, REDIRECT_INFORMATION_IPv6, REDIRECT_INFORMATION_HTTP,
    REDIRECT_INFORMATION_SIP.
  pose proof (format_ip46_short ip) as Hs.
  destruct (t =? 0) eqn:E0; [|destruct (t =? 1) eqn:E1];
    [| |destruct (t =? 2) eqn:E2; [|destruct (t =? 3) eqn:E3]];
    simpl; rt_pre; rt_clean; rt_bytes; pose_lens; intros Hlen;
    do 5 yields_step.
  all: eval_flags; simpl; repeat yields_step.
  3, 4: rt_value.
  all: apply yields_peek; [done|]; unfold Zlen in *.
  - rewrite unformat_format_ip4 by (assumption || lia). by apply yields_ret.
  - rewrite unformat_format_ip6 by (assumption || lia). by apply yields_ret.
Qed.
End RedirectRt.

Lemma wbytes_cons o ops : wbytes (o :: ops) = wop_bytes o ++ wbytes ops.
Proof. reflexivity. Qed.

Lemma wbytes_app a b : wbytes (a ++ b) = wbytes a ++ wbytes b.
Proof. unfold wbytes. by rewrite map_app, concat_app. Qed.

Lemma yields_get_u16s {B} xs (k : list Z -> D B) bs len b :
  forallb (in_range 16) xs = true -> 2 * Zlen xs <= len < 65536 ->
  yields (k xs) bs (len - 2 * Zlen xs) b ->
  yields (dbind (get_u16s (length xs)) k) (wbytes (map put_u16 xs) ++ bs) len b.
Proof.
  revert k len. induction xs as [|x xs IH]; intros k len Hr Hl H; cbn [get_u16s forallb map length] in *.
  - apply yields_bret. by replace len with (len - 2 * Zlen (@nil Z)) by (rewrite (@Zlen_nil Z); lia).
  - apply andb_true_iff in Hr as [Hx Hr]. rewrite Zlen_cons in Hl, H.
    pose proof (Zlen_nonneg xs). rewrite wbytes_cons, <- app_assoc. do 4 yields_step.
    apply yields_assoc, IH; [done|lia|].
    apply yields_bret. by replace (len - 2 - 2 * Zlen xs) with (len - 2 * (1 + Zlen xs)) by lia.
Qed.

Lemma Zlen_put_u16s xs : Zlen (wbytes (map put_u16 xs)) = 2 * Zlen xs.
Proof.
  induction xs as [|x xs IH]; [done|]. simpl map. rewrite wbytes_cons.
  autorewrite with upf_len. rewrite IH. simpl. autorewrite with upf_len. lia.
Qed.

(** mcc, mnc and nid in 32 bits *)
Lemma fq_nid_word mcc mnc nid :
  0 <= mcc < 1000 -> 0 <= mnc < 1000 -> in_range 12 nid = true ->
  let id := Z.lor (Z.shiftl (mcc * 1000 + mnc) 12) (Z.land nid 0x0fff) in
  in_range 32 id = true /\ Z.shiftr id 12 / 1000 = mcc /\ Z.shiftr id 12 mod 1000 = mnc
  /\ Z.land id 0x0fff = nid.
Proof.
  intros Hc Hn Hd id. unfold id. rewrite (land_mask_small 12) by done.
  apply in_range_spec in Hd. rewrite lor_shiftl_add by lia.
  rewrite Z.shiftr_div_pow2 by lia. change 4095 with (Z.ones 12). rewrite Z.land_ones by lia.
  rewrite (Z.div_add_l _ (2 ^ 12)), (Z.div_small nid), Z.add_0_r by lia.
  split; [apply in_range_spec; lia|].
  rewrite Z.div_add_l, (Z.div_small mnc), Z.add_0_r by lia. split; [done|].
  rewrite (Z.add_comm (mcc * 1000)), Z.mod_add, Z.mod_small by lia. split; [done|].
  rewrite Z.add_comm, Z.mod_add, Z.mod_small by lia. done.
Qed.

Lemma fq_csid_rt v : wf_fq_csid v = true -> transports decode_fq_csid encode_fq_csid v.
Proof.
  destruct v as [t ip mcc mnc nid cs].
  unfold wf_fq_csid, encode_fq_csid, decode_fq_csid, is_ip46, transports. simpl.
  intros Hwf. apply andb_true_iff in Hwf as [Hcs Hid].
  apply andb_true_iff in Hcs as [Hcs Hr]. pose proof (Zlen_nonneg cs).
  assert (in_range 4 (Zlen cs) = true) as Hn by (apply in_range_spec; btest; lia).
  assert (in_range 4 t = true) as Ht.
  { revert Hid. unfold FQ_CSID_NID_IP4, FQ_CSID_NID_IP6, FQ_CSID_NID_NID.
    repeat case_test; intros; btest; apply in_range_spec; lia. }
  intros ops [= <-]. unmask. destruct (nibbles t (Zlen cs) Ht Hn) as (Hb & Hh & Hl).
  rewrite wbytes_cons, wbytes_app. generalize dependent (Z.lor (Z.shiftl t 4) (Zlen cs)).
  intros b Hb Hh Hl. clear Hn Ht.
  revert Hid. unfold FQ_CSID_NID_IP4, FQ_CSID_NID_IP6, FQ_CSID_NID_NID.
  repeat case_test; intros Hid; btest; try discriminate; subst;
    try pose proof (Zlen_ip46_ip4 ip ltac:(assumption));
    try destruct (fq_nid_word mcc mnc nid) as (Hw & Ec & En & Ed); try solve [done | side];
    rt_bytes; rewrite Zlen_put_u16s; intros Hlen; repeat yields_step;
    rewrite Hl; (unfold Zlen at 1; rewrite Nat2Z.id);
    (rewrite <- (app_nil_r (wbytes _)); apply yields_get_u16s; [done|lia|]);
    apply yields_ret; rewrite ?app_nil_r; f_equal; try assumption; try done;
    by apply ip46_restore.
Qed.

(** ** Optional members

    [takes m l x]: [m] takes the bytes [l] off the front, accounts for them in
    [length], and returns [x]. *)
Definition takes {A} (m : D A) (l : list Z) (x : A) : Prop :=
  forall B (k : A -> D B) bs len b, Zlen l <= len < 65536 ->
  yields (k x) bs (len - Zlen l) b -> yields (dbind m k) (l ++ bs) len b.

Lemma takes_opt {A} (c : bool) (m : D A) ops z x :
  (c = true -> takes m (wbytes ops) x) -> (c = false -> x = z) ->
  takes (if c then m else dret z) (wbytes (opt_ops c ops)) x.
Proof.
  destruct c; intros Ht Hz; [by apply Ht|]. rewrite Hz by done.
  intros B k bs len b Hlen H. apply yields_bret. by rewrite Z.sub_0_r in H.
Qed.

Lemma yields_at {A} (m : D A) bs len len' b :
  yields m bs len b -> len = len' -> yields m bs len' b.
Proof. by intros H <-. Qed.

Ltac takes_block :=
  let k := fresh "k" in let Hl := fresh "Hl" in let Hk := fresh "Hk" in
  intros ? k ? ? ?; rt_bytes; rewrite ?app_nil_r; intros Hl Hk; pose_lens;
  repeat first [ apply (yields_at _ _ _ _ _ Hk); lia | rewrite vec_add_canon by assumption
               | yields_step; unmask ].

(** a member the flag [c] announces, well formed by [H] *)
Ltac takes_member x :=
  apply (takes_opt _ _ _ _ x);
  [ let Hc := fresh "Hc" in intros Hc; rewrite Hc in *;
    cbn [opt_int opt_raw opt_vec] in *; btest; takes_block
  | let Hc := fresh "Hc" in intros Hc; rewrite Hc in *;
    cbn [opt_int opt_raw opt_vec] in *; by btest
  | lia |].

(** the three bits of the TEID range sit between the flags *)
Definition upr_octet (f t : Z) : Z :=
  Z.lor (Z.lor (Z.land f USER_PLANE_IP_RESOURCE_INFORMATION_MASK)
               (Z.shiftl (Z.land t 0x07) 2))
        (if flag f USER_PLANE_IP_RESOURCE_INFORMATION_ASSONI
         then USER_PLANE_IP_RESOURCE_INFORMATION_ASSONI else 0).

Lemma upr_octet_fields f t :
  in_range 7 f = true -> Z.land f USER_PLANE_IP_RESOURCE_INFORMATION_MASK = f ->
  in_range 3 t = true ->
  let o := upr_octet f t in
  in_range 8 o = true /\ Z.land (Z.shiftr o 2) 7 = t
  /\ Z.land o USER_PLANE_IP_RESOURCE_INFORMATION_MASK = f
  /\ forallb (fun m => Bool.eqb (flag o m) (flag f m))
       [BIT 0; BIT 1; BIT 5; BIT 6] = true.
Proof.
  intros Hf Hm Ht.
  assert (forallb (fun f => negb (Z.land f 0x63 =? f) || forallb (fun t =>
    let o := upr_octet f t in
    in_range 8 o && (Z.land (Z.shiftr o 2) 7 =? t) && (Z.land o 0x63 =? f)
    && forallb (fun m => Bool.eqb (flag o m) (flag f m)) [BIT 0; BIT 1; BIT 5; BIT 6])
    (seqZ 0 8)) (seqZ 0 128) = true) as H by (vm_compute; reflexivity).
  rewrite forallb_forall in H. apply in_range_spec in Hf, Ht.
  specialize (H f ltac:(apply list_elem_of_In, elem_of_seqZ; lia)).
  apply orb_true_iff in H as [H|H].
  { apply negb_true_iff, Z.eqb_neq in H. by unfold USER_PLANE_IP_RESOURCE_INFORMATION_MASK in Hm. }
  rewrite forallb_forall in H.
  specialize (H t ltac:(apply list_elem_of_In, elem_of_seqZ; lia)). cbv zeta in *.
  apply andb_true_iff in H as [H Hb]. btest. repeat split; try done. by apply in_range_spec.
Qed.

Lemma user_plane_ip_resource_information_rt v :
  wf_user_plane_ip_resource_information v = true ->
  transports decode_user_plane_ip_resource_information
    encode_user_plane_ip_resource_information v.
Proof.
  destruct v as [f t r si ni i4 i6].
  unfold wf_user_plane_ip_resource_information, decode_user_plane_ip_resource_information,
    encode_user_plane_ip_resource_information. rt_pre.
  assert ((match ni with Some _ => true | None => false end)
          = flag f USER_PLANE_IP_RESOURCE_INFORMATION_ASSONI) as ->.
  { destruct ni as [[|x l]|]; [discriminate| |];
      match goal with H : Bool.eqb _ _ = true |- _ => apply eqb_prop in H; rewrite H end;
      [|reflexivity].
    symmetry. apply Z.ltb_lt. simpl. rewrite Zlen_cons. pose proof (Zlen_nonneg l). lia. }
  fold (upr_octet f t).
  destruct (upr_octet_fields f t) as (Ho & Et & Ef & Eb); [done|by btest|done|].
  simpl in Eb. repeat (apply andb_true_iff in Eb as [? Eb]).
  repeat match goal with H : Bool.eqb _ _ = true |- _ => apply eqb_prop in H end.
  unfold USER_PLANE_IP_RESOURCE_INFORMATION_V4, USER_PLANE_IP_RESOURCE_INFORMATION_V6,
    USER_PLANE_IP_RESOURCE_INFORMATION_ASSONI, USER_PLANE_IP_RESOURCE_INFORMATION_ASSOSI in *.
  intros Hlen. rewrite wbytes_cons, !wbytes_app in *. simpl wop_bytes in *.
  rewrite !Zlen_app, Zlen_be in *. pose_lens. do 3 yields_step. rewrite Et. subst.
  rewrite H9, H10, H11, H12.
  takes_member r. takes_member i4. takes_member i6.
  eapply (yields_at _ _ (Zlen (wbytes (opt_ops (flag f (BIT 5)) [vec_append ni]))
    + Zlen (wbytes (opt_ops (flag f (BIT 6)) [put_u8 (Z.land si 15)])))); [|lia].
  rewrite Ef. clear Hlen. revert H0 H1 H2.
  destruct (flag f (BIT 5)), (flag f (BIT 6)); intros; try discriminate; rt_clean;
    rt_bytes; rewrite <- ?app_assoc; unmask; repeat (yields_step; unmask); f_equal;
    first [done | by apply vec_add_canon
          | symmetry; apply vec_canon_empty; [done|]; apply Z.ltb_ge; symmetry; assumption].
Qed.

Lemma be_2 w : be 2 w = be 1 (w / 256) ++ be 1 w.
Proof.
  unfold be. change (256 ^ Z.of_nat 1) with 256. change (256 ^ Z.of_nat 0) with 1.
  by rewrite !Z.div_1_r.
Qed.

(** the TCI on the wire and back *)
Definition vlan_wire (tci : Z) : Z :=
  Z.lor (Z.lor (Z.lor (Z.shiftr (Z.land tci VLAN_MASK_PCP) 5)
                      (Z.shiftr (Z.land tci VLAN_MASK_DEI) 1))
               (Z.shiftl (Z.land tci 0x0f00) 4))
        (Z.land tci 0x00ff).
Definition vlan_unwire (d1 d2 : Z) : Z :=
  bswap16 (Z.lor (Z.lor (Z.lor (Z.shiftl (Z.land d1 0x07) 5)
                               (Z.shiftl (Z.land d1 0x08) 1))
                        (Z.shiftl (Z.land d1 0xf0) 4))
                 d2).

Lemma bswap16_val x :
  in_range 16 x = true -> bswap16 x = x mod 256 * 256 + x / 256.
Proof.
  intros H%in_range_spec. unfold bswap16. change 255 with (Z.ones 8).
  rewrite !Z.land_ones, Z.shiftr_div_pow2 by lia. change (2 ^ 8) with 256.
  pose proof (Z.div_pos x 256). pose proof (Z.div_lt_upper_bound x 256 256).
  rewrite (Z.mod_small (x / 256)) by lia. apply lor_shiftl_add; lia.
Qed.

Lemma bswap16_invol x : in_range 16 x = true -> bswap16 (bswap16 x) = x.
Proof.
  intros H. pose proof (proj1 (in_range_spec 16 x) H).
  rewrite (bswap16_val x) by done.
  rewrite bswap16_val by (apply in_range_spec; Z.to_euclidean_division_equations; lia).
  Z.to_euclidean_division_equations; lia.
Qed.

(** a VLAN id goes through, checked on every id *)
Lemma vlan_wire_vid t :
  in_range 16 t = true -> (bswap16 t <? 4096) = true ->
  let w := vlan_wire (bswap16 t) in
  0 <= w < 65536 /\ vlan_unwire (w / 256) (w mod 256) = t.
Proof.
  intros Ht Hv. pose proof (bswap16_invol t Ht) as Et.
  assert (0 <= bswap16 t) by (rewrite bswap16_val by done; apply in_range_spec in Ht;
    Z.to_euclidean_division_equations; lia).
  set (v := bswap16 t) in *. rewrite <- Et. clearbody v. clear Ht Et.
  assert (forallb (fun v => in_range 16 (vlan_wire v) &&
    (vlan_unwire (vlan_wire v / 256) (vlan_wire v mod 256) =? bswap16 v))
    (seqZ 0 4096) = true) as H0 by (vm_compute; reflexivity).
  rewrite forallb_forall in H0. specialize (H0 v). btest.
  specialize (H0 ltac:(apply list_elem_of_In, elem_of_seqZ; lia)). btest. done.
Qed.

Lemma vlan_tag_rt v : wf_vlan_tag v = true -> transports decode_vlan_tag encode_vlan_tag v.
Proof.
  destruct v as [m t]. unfold wf_vlan_tag, encode_vlan_tag, decode_vlan_tag. rt_pre.
  destruct (vlan_wire_vid t) as [Hw Et]; [done..|].
  fold (vlan_wire (bswap16 t)). generalize dependent (vlan_wire (bswap16 t)). intros w Hw Et.
  pose proof (Z.mod_pos_bound w 256). pose proof (Z.div_pos w 256).
  pose proof (Z.div_lt_upper_bound w 256 256).
  rt_bytes. rewrite be_2, <- (be_wrap 1 w). change (wrap (8 * Z.of_nat 1) w) with (w mod 256).
  intros Hlen. fold (vlan_unwire (w / 256) (w mod 256)).
  btest. rewrite list_elem_of_In in *.
  match goal with H : In m _ |- _ => repeat (destruct H as [<-|H]) end; try contradiction.
  all: yields_step.
  all: apply (yields_get_be 1); [vm_compute; reflexivity|].
  all: do 3 yields_step; apply yields_ret; f_equal; first [exact Et | vm_compute; reflexivity].
Qed.

(** ** The user identity: four optional members *)

Definition digit_ops (n : Z) (l : list Z) : list wop :=
  opt_ops (0 <? n) [put_u8 n; vec_add_bytes (take (Z.to_nat n) l)].

Lemma Zlen_array8 l : (length l <= 8)%nat -> Zlen (array8 l) = 8.
Proof. intros. unfold array8, Zlen. rewrite length_app, length_replicate. lia. Qed.

Lemma wf_digits_Zlen n l : wf_digits n l = true -> Zlen l = 8.
Proof.
  intros H. unfold wf_digits in H. btest. rewrite H0. apply Zlen_array8.
  rewrite length_take. lia.
Qed.

Lemma encode_digits_ok n l :
  wf_digits n l = true -> encode_user_id_digits n l = Ok (digit_ops n l).
Proof.
  intros H. pose proof (wf_digits_Zlen n l H). unfold wf_digits in H.
  unfold encode_user_id_digits, digit_ops, opt_ops. btest.
  destruct (0 <? n); [|done]. by destruct (Z.ltb_spec (Zlen l) n); [lia|].
Qed.

Lemma takes_digits n l :
  wf_digits n l = true ->
  takes (decode_user_id_digits (0 <? n)) (wbytes (digit_ops n l)) (n, l).
Proof.
  intros H. pose proof (wf_digits_Zlen n l H) as Hl. unfold wf_digits in H. btest.
  apply takes_opt; intros Hn; btest.
  - pose proof (Zlen_take n l ltac:(lia)) as Ht. rewrite H0 at 2.
    generalize dependent (take (Z.to_nat n) l). intros. takes_block.
  - assert (n = 0) as -> by lia. by rewrite H0 at 1.
Qed.

(** the flags octet and what the decoder reads from it *)
Lemma user_id_flags (a b c d : bool) :
  let f := Z.lor (Z.lor (Z.lor (if a then USER_ID_IMEI else 0) (if b then USER_ID_IMSI else 0))
                        (if c then USER_ID_MSISDN else 0)) (if d then USER_ID_NAI else 0) in
  in_range 8 f = true /\ flag f USER_ID_IMEI = a /\ flag f USER_ID_IMSI = b
  /\ flag f USER_ID_MSISDN = c /\ flag f USER_ID_NAI = d.
Proof. destruct a, b, c, d; vm_compute; auto. Qed.

Lemma user_id_rt v : wf_user_id v = true -> transports decode_user_id encode_user_id v.
Proof.
  destruct v as [n1 l1 n2 l2 n3 l3 nai].
  unfold wf_user_id, encode_user_id, transports. simpl. intros Hwf.
  do 4 (apply andb_true_iff in Hwf as [Hwf ?]).
  rewrite !encode_digits_ok by done. simpl. intros ops [= <-].
  destruct (user_id_flags (0 <? n1) (0 <? n2) (0 <? n3) (0 <? vec_len nai))
    as (Hf & E1 & E2 & E3 & E4).
  revert Hf E1 E2 E3 E4. generalize (Z.lor
    (Z.lor (Z.lor (if 0 <? n1 then USER_ID_IMEI else 0) (if 0 <? n2 then USER_ID_IMSI else 0))
           (if 0 <? n3 then USER_ID_MSISDN else 0)) (if 0 <? vec_len nai then USER_ID_NAI else 0)).
  intros f Hf E1 E2 E3 E4. rewrite wbytes_cons, !wbytes_app. simpl wop_bytes.
  autorewrite with upf_len. pose_lens. intros Hlen. unfold decode_user_id.
  do 3 yields_step. rewrite E1, E2, E3, E4.
  do 3 (apply takes_digits; [done|lia|]).
  rewrite <- (app_nil_r (wbytes (opt_ops _ _))).
  apply (takes_opt _ _ _ _ nai).
  - unfold vec_len in *. btest. intros Hn. takes_block.
  - intros Hn. by apply vec_canon_empty, Z.ltb_ge.
  - rewrite ?app_nil_r. lia.
  - by apply yields_ret.
Qed.

Lemma mac_addresses_vec_rt v :
  bool_decide (v = None) = true ->
  transports decode_mac_addresses_vec encode_mac_addresses_vec v.
Proof.
  unfold decode_mac_addresses_vec, encode_mac_addresses_vec. intros Hv. btest. subst v.
  intros ops [= <-] Hlen. change (@vec_len (list Z) None) with 0 in *. simpl in *.
  rt_bytes. repeat yields_step. by intros rest; eexists.
Qed.

(** ** All codecs *)

Definition leaf_wf (k : leaf) : leaf_ty k -> bool :=
  match k with
  | K_u8_ie => in_range 8
  | K_u16_ie => in_range 16
  | K_u16_little_ie => in_range 16
  | K_u32_ie => in_range 32
  | K_simple_vec_ie => vec_canon
  | K_volume_ie => wf_volume_ie
  | K_time_stamp_ie => in_range 32
  | K_timer_ie => wf_timer_ie
  | K_sntp_time_stamp_ie => fun _ => false
  | K_source_interface => wf_source_interface
  | K_f_teid => wf_f_teid
  | K_sdf_filter => wf_sdf_filter
  | K_gate_status => wf_gate_status
  | K_bit_rate => wf_bit_rate
  | K_redirect_information => wf_redirect_information
  | K_forwarding_policy => wf_forwarding_policy
  | K_destination_interface => wf_destination_interface
  | K_up_function_features => in_range 48
  | K_downlink_data_service_information => wf_downlink_data_service_information
  | K_dl_buffering_suggested_packet_count => in_range 16
  | K_f_seid => wf_f_seid
  | K_node_id => wf_node_id
  | K_pfd_contents => fun _ => false
  | K_usage_report_trigger => in_range 24
  | K_fq_csid => wf_fq_csid
  | K_volume_measurement => wf_volume_measurement
  | K_dropped_dl_traffic_threshold => wf_dropped_dl_traffic_threshold
  | K_outer_header_creation => wf_outer_header_creation
  | K_flow_information => wf_flow_information
  | K_ue_ip_address => wf_ue_ip_address
  | K_packet_rate => wf_packet_rate
  | K_dl_flow_level_marking => wf_dl_flow_level_marking
  | K_header_enrichment => wf_header_enrichment
  | K_measurement_information => in_range 5
  | K_node_report_type => in_range 4
  | K_remote_gtp_u_peer => wf_remote_gtp_u_peer
  | K_oci_flags => in_range 1
  | K_pfcp_association_release_request => in_range 2
  | K_pdn_type => in_range 4
  | K_failed_rule_id => wf_failed_rule_id
  | K_time_quota_mechanism => wf_time_quota_mechanism
  | K_user_plane_ip_resource_information => wf_user_plane_ip_resource_information
  | K_multiplier => wf_multiplier
  | K_rqi => in_range 1
  | K_pfcp_mac_address => wf_pfcp_mac_address
  | K_vlan_tag => wf_vlan_tag
  | K_proxying => in_range 2
  | K_ethernet_filter_properties => in_range 1
  | K_user_id => wf_user_id
  | K_ethernet_pdu_session_information => in_range 1
  | K_mac_addresses_vec => fun v => bool_decide (v = None)
  | K_trace_information => fun _ => false
  | K_ue_ip_address_pool_identity => fun _ => false
  | K_alternative_smf_ip_address => wf_alternative_smf_ip_address
  | K_bbf_nat_outside_address => fun v => Zlen v =? 4
  | K_bbf_nat_external_port_range => fun _ => false
  | K_bbf_up_function_features => fun _ => false
  | K_fatemeh_packet_header => wf_fatemeh_packet_header
  | K_fatemeh_packet_data => wf_fatemeh_packet_data
  | K_ip_version => wf_ip_version
  end.

Section LeafRt.
Context {V : Vppinfra} {VOk : VppinfraOk V}.

Lemma leaf_transports k x :
  leaf_wf k x = true -> transports (leaf_decode k) (leaf_encode k) x.
Proof.
  destruct k; simpl; intros H; try discriminate;
  first
    [ by apply u8_ie_rt | by apply u16_ie_rt | by apply u16_little_ie_rt
    | by apply u32_ie_rt | by apply simple_vec_ie_rt | by apply volume_ie_rt
    | by apply time_stamp_ie_rt | by apply timer_ie_rt | by apply source_interface_rt
    | by apply f_teid_rt | by apply sdf_filter_rt | by apply gate_status_rt
    | by apply bit_rate_rt | by apply redirect_information_rt
    | by apply forwarding_policy_rt | by apply destination_interface_rt
    | by apply up_function_features_rt | by apply downlink_data_service_information_rt
    | by apply dl_buffering_suggested_packet_count_rt | by apply f_seid_rt
    | by apply node_id_rt | by apply usage_report_trigger_rt | by apply fq_csid_rt
    | by apply volume_measurement_rt | by apply dropped_dl_traffic_threshold_rt
    | by apply outer_header_creation_rt | by apply flow_information_rt
    | by apply ue_ip_address_rt | by apply packet_rate_rt
    | by apply dl_flow_level_marking_rt | by apply header_enrichment_rt
    | by apply remote_gtp_u_peer_rt | by apply failed_rule_id_rt
    | by apply time_quota_mechanism_rt | by apply user_plane_ip_resource_information_rt
    | by apply multiplier_rt | by apply pfcp_mac_address_rt | by apply vlan_tag_rt
    | by apply user_id_rt | by apply mac_addresses_vec_rt
    | by apply alternative_smf_ip_address_rt | by apply bbf_nat_outside_address_rt
    | by apply fatemeh_packet_header_rt | by apply fatemeh_packet_data_rt
    | by apply ip_version_rt
    | by apply (masked_u8_rt 1) | by apply (masked_u8_rt 2) | by apply (masked_u8_rt 4)
    | by apply (masked_u8_rt 5) ].
Qed.

Lemma leaf_encode_ok k x : leaf_wf k x = true -> exists ops, leaf_encode k x = Ok ops.
Proof.
  destruct k; simpl; intros H; try discriminate; try (eexists; reflexivity).
  - unfold wf_user_id in H. do 4 (apply andb_true_iff in H as [H ?]).
    unfold encode_user_id. rewrite !encode_digits_ok by done. by eexists.
  - unfold wf_fatemeh_packet_data in H. unfold encode_fatemeh_packet_data. btest.
    rewrite H, Z.ltb_irrefl. by eexists.
  - unfold wf_ip_version in H. unfold encode_ip_version.
    apply andb_true_iff in H as [_ H].
    rewrite <- negb_orb, H. by eexists.
Qed.
End LeafRt.

(** Round trip of the simple elements: for every codec [k] and every value
    [x] the codec transports, encoding succeeds, and decoding the bytes it
    produced, wherever they lie in a message, returns [x], as long as they
    fit the 16-bit length of an element. *)
Theorem leaf_roundtrip {V : Vppinfra} {VOk : VppinfraOk V} k (x : leaf_ty k) rest :
  leaf_wf k x = true ->
  exists ops, leaf_encode k x = Ok ops /\
  (Zlen (wbytes ops) < 65536 ->
   run_decode (leaf_decode k) (wbytes ops ++ rest) (Zlen (wbytes ops)) = Ok x).
Proof.
  intros Hx. destruct (leaf_encode_ok k x Hx) as [ops E]. exists ops. split; [done|].
  intros Hlen. by apply yields_run, (leaf_transports k x Hx ops).
Qed.

Lemma leaf_roundtrip_witness :
  let x := {| ue_flags := 2; ue_ip4 := [10; 0; 0; 1]; ue_ip6 := ip6_zero;
              ue_prefix_delegation_length := 0; ue_prefix_length := 0 |} in
  leaf_wf K_ue_ip_address x = true /\
  exists ops, @leaf_encode vpp_exact K_ue_ip_address x = Ok ops /\
  (Zlen (wbytes ops) < 65536 ->
   run_decode (@leaf_decode vpp_exact K_ue_ip_address) (wbytes ops ++ [7; 7])
     (Zlen (wbytes ops)) = Ok x).
Proof.
  split; [vm_compute; reflexivity|].
  apply (@leaf_roundtrip vpp_exact vpp_exact_ok K_ue_ip_address). vm_compute. reflexivity.
Defined.


(** ** Values that do not survive *)

Definition mk_leaf (k : leaf) (x : leaf_ty k) : {k : leaf & leaf_ty k} := existT k x.

(** one value per fault of the codecs, with every member in the range of its C
    type *)
Definition lost_values : list {k : leaf & leaf_ty k} :=
  [ (* the id of an F-TEID the user plane chooses *)
    mk_leaf K_f_teid {| ft_flags := 13; ft_teid := 0; ft_ip4 := ip4_zero; ft_ip6 := ip6_zero;
                        ft_choose_id := 9 |};
    (* the bidirectional SDF filter id *)
    mk_leaf K_sdf_filter {| sdf_flags := 16; sdf_flow := None; sdf_tos_traffic_class := 0;
                            sdf_spi := 0; sdf_flow_label := 0; sdf_sdf_filter_id := 7 |};
    (* packet counts of a volume measurement *)
    mk_leaf K_volume_measurement
      {| vm_fields := 8; vm_volume_total := 0; vm_volume_ul := 0; vm_volume_dl := 0;
         vm_packets_total := 5; vm_packets_ul := 0; vm_packets_dl := 0 |};
    (* a byte threshold *)
    mk_leaf K_dropped_dl_traffic_threshold
      {| ddtt_flags := 2; ddtt_downlink_packets := 0; ddtt_downlink_volume := 9 |};
    (* a flow description of a PFD *)
    mk_leaf K_pfd_contents
      {| pfd_flow_description := Some [65; 66]; pfd_url := None; pfd_domain := None;
         pfd_custom := None; pfd_dnp := None |};
    (* the additional packet rates *)
    mk_leaf K_packet_rate
      {| pkr_flags := 4; pkr_ul := packet_rate_zero; pkr_dl := packet_rate_zero;
         pkr_a_ul := {| pr_unit := 1; pr_max := 2 |}; pkr_a_dl := packet_rate_zero |};
    (* a VLAN priority *)
    mk_leaf K_vlan_tag {| vlan_mask := bswap16 0xe000; vlan_tci := bswap16 0x2000 |};
    (* a list of one MAC address *)
    mk_leaf K_mac_addresses_vec (Some [[1; 2; 3; 4; 5; 6]]);
    (* the second address of an IPv4v6 redirect *)
    mk_leaf K_redirect_information
      {| ri_type := 4; ri_ip := ip46_pad ++ [10; 0; 0; 1]; ri_other_ip := replicate 16 32;
         ri_uri := None |};
    (* trace depth *)
    mk_leaf K_trace_information
      {| ti_mccmnc := [0; 1; 2]; ti_trace_id := 1; ti_triggering_events := None;
         ti_trace_depth := 3; ti_interfaces := None; ti_collection_entity := replicate 16 32 |};
    (* an IPv4-only alternative SMF address *)
    mk_leaf K_alternative_smf_ip_address
      {| as_flags := 1; as_ip4 := [10; 0; 0; 1]; as_ip6 := ip6_zero |};
    (* a NAT port range *)
    mk_leaf K_bbf_nat_external_port_range {| npr_start_port := 1024; npr_end_port := 2047 |};
    (* BBF UP function features *)
    mk_leaf K_bbf_up_function_features 1 ].

(** The restrictions of [leaf_wf] are not artefacts of the proof: each of
    the values of [lost_values] is encoded without an error and is not what
    decoding the result returns. *)
Theorem lost_values_lost :
  Forall (fun v => exists ops, @leaf_encode vpp_exact (projT1 v) (projT2 v) = Ok ops /\
    run_decode (@leaf_decode vpp_exact (projT1 v)) (wbytes ops) (Zlen (wbytes ops))
    <> Ok (projT2 v)) lost_values.
Proof.
  unfold lost_values.
  repeat (constructor; [eexists; split; [reflexivity | vm_compute; discriminate]|]).
  constructor.
Qed.
