(* ===== verification/PfcpTables.v ===== *)
(** * The PFCP element and message tables (src/upf/pfcp.c)

    The group tables [pfcp_*_group], the element tables [tgpp_specs],
    [vendor_tp_specs] and [vendor_bbf_specs], and the message table
    [msg_specs], with their designated initialisers in source order. *)

From Stdlib Require Import ZArith Lia String.
From stdpp Require Import base list list_numbers option numbers decidable strings.
From S2P Require Import Prelude PfcpIo PfcpIe PfcpLeaf.

(** ** Types (pfcp.h) *)

Record pfcp_group_ie_def := {
  gi_type : Z;
  gi_vendor : Z;
  gi_is_array : bool;
  gi_offset : string  (** the member of the struct *)
}.

(** [size != 0] tells a group from a simple element *)
Inductive pfcp_ie_def :=
| SIMPLE_IE (k : leaf)
| GROUP_IE (mandatory : Z) (group : list pfcp_group_ie_def).

#[export] Instance pfcp_group_ie_def_eq_dec : EqDecision pfcp_group_ie_def.
Proof. solve_decision. Defined.
#[export] Instance pfcp_ie_def_eq_dec : EqDecision pfcp_ie_def.
Proof. solve_decision. Defined.

(** [[i] = e] in an initialiser; the last one for an index counts *)
Notation "i |-> e" := (i, e) (at level 60, only parsing) : upf_scope.

Definition spec_at {A} (tbl : list (Z * A)) (i : Z) : option A :=
  fold_left (fun acc '(j, e) => if j =? i then Some e else acc) tbl None.

(** ARRAY_LEN: one more than the highest index *)
Definition array_len {A} (tbl : list (Z * A)) : Z :=
  fold_left (fun n '(j, _) => Z.max n (j + 1)) tbl 0.

Definition ie (type : Z) (offset : string) : pfcp_group_ie_def :=
  {| gi_type := type; gi_vendor := 0; gi_is_array := false; gi_offset := offset |}.
Definition ie_array (type : Z) (offset : string) : pfcp_group_ie_def :=
  {| gi_type := type; gi_vendor := 0; gi_is_array := true; gi_offset := offset |}.
Definition ie_vendor (vendor type : Z) (offset : string) : pfcp_group_ie_def :=
  {| gi_type := type; gi_vendor := vendor; gi_is_array := false; gi_offset := offset |}.
Definition ie_vendor_array (vendor type : Z) (offset : string) : pfcp_group_ie_def :=
  {| gi_type := type; gi_vendor := vendor; gi_is_array := true; gi_offset := offset |}.
(** an index without initialiser is zero *)
Definition ie_none : pfcp_group_ie_def :=
  {| gi_type := 0; gi_vendor := 0; gi_is_array := false; gi_offset := EmptyString |}.

Definition group_table (tbl : list (Z * pfcp_group_ie_def)) : list pfcp_group_ie_def :=
  map (fun i => default ie_none (spec_at tbl i)) (seqZ 0 (array_len tbl)).

Definition BITS (l : list Z) : Z := fold_left (fun m i => Z.lor m (BIT i)) l 0.

(** ** Element types and vendors (pfcp.h) *)

Definition PFCP_IE_CREATE_PDR : Z := 1.
Definition PFCP_IE_PDI : Z := 2.
Definition PFCP_IE_CREATE_FAR : Z := 3.
Definition PFCP_IE_FORWARDING_PARAMETERS : Z := 4.
Definition PFCP_IE_DUPLICATING_PARAMETERS : Z := 5.
Definition PFCP_IE_CREATE_URR : Z := 6.
Definition PFCP_IE_CREATE_QER : Z := 7.
Definition PFCP_IE_CREATED_PDR : Z := 8.
Definition PFCP_IE_UPDATE_PDR : Z := 9.
Definition PFCP_IE_UPDATE_FAR : Z := 10.
Definition PFCP_IE_UPDATE_FORWARDING_PARAMETERS : Z := 11.
Definition PFCP_IE_UPDATE_BAR_RESPONSE : Z := 12.
Definition PFCP_IE_UPDATE_URR : Z := 13.
Definition PFCP_IE_UPDATE_QER : Z := 14.
Definition PFCP_IE_REMOVE_PDR : Z := 15.
Definition PFCP_IE_REMOVE_FAR : Z := 16.
Definition PFCP_IE_REMOVE_URR : Z := 17.
Definition PFCP_IE_REMOVE_QER : Z := 18.
Definition PFCP_IE_CAUSE : Z := 19.
Definition PFCP_IE_SOURCE_INTERFACE : Z := 20.
Definition PFCP_IE_F_TEID : Z := 21.
Definition PFCP_IE_NETWORK_INSTANCE : Z := 22.
Definition PFCP_IE_SDF_FILTER : Z := 23.
Definition PFCP_IE_APPLICATION_ID : Z := 24.
Definition PFCP_IE_GATE_STATUS : Z := 25.
Definition PFCP_IE_MBR : Z := 26.
Definition PFCP_IE_GBR : Z := 27.
Definition PFCP_IE_QER_CORRELATION_ID : Z := 28.
Definition PFCP_IE_PRECEDENCE : Z := 29.
Definition PFCP_IE_TRANSPORT_LEVEL_MARKING : Z := 30.
Definition PFCP_IE_VOLUME_THRESHOLD : Z := 31.
Definition PFCP_IE_TIME_THRESHOLD : Z := 32.
Definition PFCP_IE_MONITORING_TIME : Z := 33.
Definition PFCP_IE_SUBSEQUENT_VOLUME_THRESHOLD : Z := 34.
Definition PFCP_IE_SUBSEQUENT_TIME_THRESHOLD : Z := 35.
Definition PFCP_IE_INACTIVITY_DETECTION_TIME : Z := 36.
Definition PFCP_IE_REPORTING_TRIGGERS : Z := 37.
Definition PFCP_IE_REDIRECT_INFORMATION : Z := 38.
Definition PFCP_IE_REPORT_TYPE : Z := 39.
Definition PFCP_IE_OFFENDING_IE : Z := 40.
Definition PFCP_IE_FORWARDING_POLICY : Z := 41.
Definition PFCP_IE_DESTINATION_INTERFACE : Z := 42.
Definition PFCP_IE_UP_FUNCTION_FEATURES : Z := 43.
Definition PFCP_IE_APPLY_ACTION : Z := 44.
Definition PFCP_IE_DOWNLINK_DATA_SERVICE_INFORMATION : Z := 45.
Definition PFCP_IE_DOWNLINK_DATA_NOTIFICATION_DELAY : Z := 46.
Definition PFCP_IE_DL_BUFFERING_DURATION : Z := 47.
Definition PFCP_IE_DL_BUFFERING_SUGGESTED_PACKET_COUNT : Z := 48.
Definition PFCP_IE_PFCPSMREQ_FLAGS : Z := 49.
Definition PFCP_IE_PFCPSRRSP_FLAGS : Z := 50.
Definition PFCP_IE_LOAD_CONTROL_INFORMATION : Z := 51.
Definition PFCP_IE_SEQUENCE_NUMBER : Z := 52.
Definition PFCP_IE_METRIC : Z := 53.
Definition PFCP_IE_OVERLOAD_CONTROL_INFORMATION : Z := 54.
Definition PFCP_IE_TIMER : Z := 55.
Definition PFCP_IE_PDR_ID : Z := 56.
Definition PFCP_IE_F_SEID : Z := 57.
Definition PFCP_IE_APPLICATION_ID_PFDS : Z := 58.
Definition PFCP_IE_PFD : Z := 59.
Definition PFCP_IE_NODE_ID : Z := 60.
Definition PFCP_IE_PFD_CONTENTS : Z := 61.
Definition PFCP_IE_MEASUREMENT_METHOD : Z := 62.
Definition PFCP_IE_USAGE_REPORT_TRIGGER : Z := 63.
Definition PFCP_IE_MEASUREMENT_PERIOD : Z := 64.
Definition PFCP_IE_FQ_CSID : Z := 65.
Definition PFCP_IE_VOLUME_MEASUREMENT : Z := 66.
Definition PFCP_IE_DURATION_MEASUREMENT : Z := 67.
Definition PFCP_IE_APPLICATION_DETECTION_INFORMATION : Z := 68.
Definition PFCP_IE_TIME_OF_FIRST_PACKET : Z := 69.
Definition PFCP_IE_TIME_OF_LAST_PACKET : Z := 70.
Definition PFCP_IE_QUOTA_HOLDING_TIME : Z := 71.
Definition PFCP_IE_DROPPED_DL_TRAFFIC_THRESHOLD : Z := 72.
Definition PFCP_IE_VOLUME_QUOTA : Z := 73.
Definition PFCP_IE_TIME_QUOTA : Z := 74.
Definition PFCP_IE_START_TIME : Z := 75.
Definition PFCP_IE_END_TIME : Z := 76.
Definition PFCP_IE_QUERY_URR : Z := 77.
Definition PFCP_IE_USAGE_REPORT_SMR : Z := 78.
Definition PFCP_IE_USAGE_REPORT_SDR : Z := 79.
Definition PFCP_IE_USAGE_REPORT_SRR : Z := 80.
Definition PFCP_IE_URR_ID : Z := 81.
Definition PFCP_IE_LINKED_URR_ID : Z := 82.
Definition PFCP_IE_DOWNLINK_DATA_REPORT : Z := 83.
Definition PFCP_IE_OUTER_HEADER_CREATION : Z := 84.
Definition PFCP_IE_CREATE_BAR : Z := 85.
Definition PFCP_IE_UPDATE_BAR_REQUEST : Z := 86.
Definition PFCP_IE_REMOVE_BAR : Z := 87.
Definition PFCP_IE_BAR_ID : Z := 88.
Definition PFCP_IE_CP_FUNCTION_FEATURES : Z := 89.
Definition PFCP_IE_USAGE_INFORMATION : Z := 90.
Definition PFCP_IE_APPLICATION_INSTANCE_ID : Z := 91.
Definition PFCP_IE_FLOW_INFORMATION : Z := 92.
Definition PFCP_IE_UE_IP_ADDRESS : Z := 93.
Definition PFCP_IE_PACKET_RATE : Z := 94.
Definition PFCP_IE_OUTER_HEADER_REMOVAL : Z := 95.
Definition PFCP_IE_RECOVERY_TIME_STAMP : Z := 96.
Definition PFCP_IE_DL_FLOW_LEVEL_MARKING : Z := 97.
Definition PFCP_IE_HEADER_ENRICHMENT : Z := 98.
Definition PFCP_IE_ERROR_INDICATION_REPORT : Z := 99.
Definition PFCP_IE_MEASUREMENT_INFORMATION : Z := 100.
Definition PFCP_IE_NODE_REPORT_TYPE : Z := 101.
Definition PFCP_IE_USER_PLANE_PATH_FAILURE_REPORT : Z := 102.
Definition PFCP_IE_REMOTE_GTP_U_PEER : Z := 103.
Definition PFCP_IE_UR_SEQN : Z := 104.
Definition PFCP_IE_UPDATE_DUPLICATING_PARAMETERS : Z := 105.
Definition PFCP_IE_ACTIVATE_PREDEFINED_RULES : Z := 106.
Definition PFCP_IE_DEACTIVATE_PREDEFINED_RULES : Z := 107.
Definition PFCP_IE_FAR_ID : Z := 108.
Definition PFCP_IE_QER_ID : Z := 109.
Definition PFCP_IE_OCI_FLAGS : Z := 110.
Definition PFCP_IE_PFCP_ASSOCIATION_RELEASE_REQUEST : Z := 111.
Definition PFCP_IE_GRACEFUL_RELEASE_PERIOD : Z := 112.
Definition PFCP_IE_PDN_TYPE : Z := 113.
Definition PFCP_IE_FAILED_RULE_ID : Z := 114.
Definition PFCP_IE_TIME_QUOTA_MECHANISM : Z := 115.
Definition PFCP_IE_USER_PLANE_IP_RESOURCE_INFORMATION : Z := 116.
Definition PFCP_IE_USER_PLANE_INACTIVITY_TIMER : Z := 117.
Definition PFCP_IE_AGGREGATED_URRS : Z := 118.
Definition PFCP_IE_MULTIPLIER : Z := 119.
Definition PFCP_IE_AGGREGATED_URR_ID : Z := 120.
Definition PFCP_IE_SUBSEQUENT_VOLUME_QUOTA : Z := 121.
Definition PFCP_IE_SUBSEQUENT_TIME_QUOTA : Z := 122.
Definition PFCP_IE_RQI : Z := 123.
Definition PFCP_IE_QFI : Z := 124.
Definition PFCP_IE_QUERY_URR_REFERENCE : Z := 125.
Definition PFCP_IE_ADDITIONAL_USAGE_REPORTS_INFORMATION : Z := 126.
Definition PFCP_IE_CREATE_TRAFFIC_ENDPOINT : Z := 127.
Definition PFCP_IE_CREATED_TRAFFIC_ENDPOINT : Z := 128.
Definition PFCP_IE_UPDATE_TRAFFIC_ENDPOINT : Z := 129.
Definition PFCP_IE_REMOVE_TRAFFIC_ENDPOINT : Z := 130.
Definition PFCP_IE_TRAFFIC_ENDPOINT_ID : Z := 131.
Definition PFCP_IE_ETHERNET_PACKET_FILTER : Z := 132.
Definition PFCP_IE_MAC_ADDRESS : Z := 133.
Definition PFCP_IE_C_TAG : Z := 134.
Definition PFCP_IE_S_TAG : Z := 135.
Definition PFCP_IE_ETHERTYPE : Z := 136.
Definition PFCP_IE_PROXYING : Z := 137.
Definition PFCP_IE_ETHERNET_FILTER_ID : Z := 138.
Definition PFCP_IE_ETHERNET_FILTER_PROPERTIES : Z := 139.
Definition PFCP_IE_SUGGESTED_BUFFERING_PACKETS_COUNT : Z := 140.
Definition PFCP_IE_USER_ID : Z := 141.
Definition PFCP_IE_ETHERNET_PDU_SESSION_INFORMATION : Z := 142.
Definition PFCP_IE_ETHERNET_TRAFFIC_INFORMATION : Z := 143.
Definition PFCP_IE_MAC_ADDRESSES_DETECTED : Z := 144.
Definition PFCP_IE_MAC_ADDRESSES_REMOVED : Z := 145.
Definition PFCP_IE_ETHERNET_INACTIVITY_TIMER : Z := 146.
Definition PFCP_IE_ADDITIONAL_MONITORING_TIME : Z := 147.
Definition PFCP_IE_EVENT_QUOTA : Z := 148.
Definition PFCP_IE_EVENT_THRESHOLD : Z := 149.
Definition PFCP_IE_SUBSEQUENT_EVENT_QUOTA : Z := 150.
Definition PFCP_IE_SUBSEQUENT_EVENT_THRESHOLD : Z := 151.
Definition PFCP_IE_TRACE_INFORMATION : Z := 152.
Definition PFCP_IE_FRAMED_ROUTE : Z := 153.
Definition PFCP_IE_FRAMED_ROUTING : Z := 154.
Definition PFCP_IE_FRAMED_IPV6_ROUTE : Z := 155.
Definition PFCP_IE_EVENT_TIME_STAMP : Z := 156.
Definition PFCP_IE_AVERAGING_WINDOW : Z := 157.
Definition PFCP_IE_PAGING_POLICY_INDICATOR : Z := 158.
Definition PFCP_IE_APN_DNN : Z := 159.
Definition PFCP_IE_TGPP_INTERFACE_TYPE : Z := 160.
Definition PFCP_IE_PFCPSRREQ_FLAGS : Z := 161.
Definition PFCP_IE_PFCPAUREQ_FLAGS : Z := 162.
Definition PFCP_IE_ACTIVATION_TIME : Z := 163.
Definition PFCP_IE_DEACTIVATION_TIME : Z := 164.
Definition PFCP_IE_CREATE_MAR : Z := 165.
Definition PFCP_IE_ACCESS_FORWARDING_ACTION_INFORMATION_1 : Z := 166.
Definition PFCP_IE_ACCESS_FORWARDING_ACTION_INFORMATION_2 : Z := 167.
Definition PFCP_IE_REMOVE_MAR : Z := 168.
Definition PFCP_IE_UPDATE_MAR : Z := 169.
Definition PFCP_IE_MAR_ID : Z := 170.
Definition PFCP_IE_STEERING_FUNCTIONALITY : Z := 171.
Definition PFCP_IE_STEERING_MODE : Z := 172.
Definition PFCP_IE_WEIGHT : Z := 173.
Definition PFCP_IE_PRIORITY : Z := 174.
Definition PFCP_IE_UPDATE_ACCESS_FORWARDING_ACTION_INFORMATION_1 : Z := 175.
Definition PFCP_IE_UPDATE_ACCESS_FORWARDING_ACTION_INFORMATION_2 : Z := 176.
Definition PFCP_IE_UE_IP_ADDRESS_POOL_IDENTITY : Z := 177.
Definition PFCP_IE_ALTERNATIVE_SMF_IP_ADDRESS : Z := 178.
Definition PFCP_IE_PACKET_REPORT : Z := 180.
Definition PFCP_IE_QUOTA_VALIDITY_TIME : Z := 181.
Definition PFCP_IE_TRAFFIC_REPORT_PACKET_TYPE : Z := 181.
Definition PFCP_IE_TRAFFIC_REPORT_PACKET_HEADER : Z := 182.
Definition PFCP_IE_TRAFFIC_REPORT_PACKET_DATA : Z := 183.
Definition PFCP_IE_UE_IP_ADDRESS_POOL_INFORMATION : Z := 233.
Definition PFCP_IE_IP_VERSION : Z := 258.
Definition PFCP_IE_BBF_UP_FUNCTION_FEATURES : Z := 0.
Definition PFCP_IE_TP_PACKET_MEASUREMENT : Z := 1.
Definition PFCP_IE_TP_BUILD_ID : Z := 2.
Definition PFCP_IE_TP_NOW : Z := 3.
Definition PFCP_IE_TP_START_TIME : Z := 4.
Definition PFCP_IE_TP_END_TIME : Z := 5.
Definition PFCP_IE_TP_ERROR_REPORT : Z := 6.
Definition PFCP_IE_TP_ERROR_MESSAGE : Z := 7.
Definition PFCP_IE_TP_FILE_NAME : Z := 8.
Definition PFCP_IE_TP_LINE_NUMBER : Z := 9.
Definition PFCP_IE_TP_CREATED_NAT_BINDING : Z := 10.
Definition PFCP_IE_BBF_NAT_OUTSIDE_ADDRESS : Z := 14.
Definition PFCP_IE_BBF_APPLY_ACTION : Z := 15.
Definition PFCP_IE_BBF_NAT_EXTERNAL_PORT_RANGE : Z := 16.
Definition PFCP_IE_BBF_NAT_PORT_BLOCK : Z := 18.
Definition PFCP_HEARTBEAT_REQUEST : Z := 1.
Definition PFCP_HEARTBEAT_RESPONSE : Z := 2.
Definition PFCP_PFD_MANAGEMENT_REQUEST : Z := 3.
Definition PFCP_ASSOCIATION_SETUP_REQUEST : Z := 5.
Definition PFCP_ASSOCIATION_SETUP_RESPONSE : Z := 6.
Definition PFCP_ASSOCIATION_UPDATE_REQUEST : Z := 7.
Definition PFCP_ASSOCIATION_UPDATE_RESPONSE : Z := 8.
Definition PFCP_ASSOCIATION_RELEASE_REQUEST : Z := 9.
Definition PFCP_ASSOCIATION_RELEASE_RESPONSE : Z := 10.
Definition PFCP_NODE_REPORT_REQUEST : Z := 12.
Definition PFCP_NODE_REPORT_RESPONSE : Z := 13.
Definition PFCP_SESSION_SET_DELETION_REQUEST : Z := 14.
Definition PFCP_SESSION_SET_DELETION_RESPONSE : Z := 15.
Definition PFCP_SESSION_ESTABLISHMENT_REQUEST : Z := 50.
Definition PFCP_SESSION_ESTABLISHMENT_RESPONSE : Z := 51.
Definition PFCP_SESSION_MODIFICATION_REQUEST : Z := 52.
Definition PFCP_SESSION_MODIFICATION_RESPONSE : Z := 53.
Definition PFCP_SESSION_DELETION_REQUEST : Z := 54.
Definition PFCP_SESSION_DELETION_RESPONSE : Z := 55.
Definition PFCP_SESSION_REPORT_REQUEST : Z := 56.
Definition PFCP_SESSION_REPORT_RESPONSE : Z := 57.
Definition VENDOR_BBF : Z := 3561.
Definition VENDOR_TRAVELPING : Z := 18681.

(** ** Group tables *)

Definition pfcp_create_pdr_group : list pfcp_group_ie_def := group_table
  [0 |-> ie PFCP_IE_PDR_ID "pdr_id"; (* CREATE_PDR_PDR_ID *)
   1 |-> ie PFCP_IE_PRECEDENCE "precedence"; (* CREATE_PDR_PRECEDENCE *)
   2 |-> ie PFCP_IE_PDI "pdi"; (* CREATE_PDR_PDI *)
   3 |-> ie PFCP_IE_OUTER_HEADER_REMOVAL "outer_header_removal"; (* CREATE_PDR_OUTER_HEADER_REMOVAL *)
   4 |-> ie PFCP_IE_FAR_ID "far_id"; (* CREATE_PDR_FAR_ID *)
   5 |-> ie_array PFCP_IE_URR_ID "urr_id"; (* CREATE_PDR_URR_ID *)
   6 |-> ie_array PFCP_IE_QER_ID "qer_id"; (* CREATE_PDR_QER_ID *)
   7 |-> ie PFCP_IE_ACTIVATE_PREDEFINED_RULES "activate_predefined_rules"; (* CREATE_PDR_ACTIVATE_PREDEFINED_RULES *)
   8 |-> ie PFCP_IE_ACTIVATION_TIME "activation_time"; (* CREATE_PDR_ACTIVATION_TIME *)
   9 |-> ie PFCP_IE_DEACTIVATION_TIME "deactivation_time"; (* CREATE_PDR_DEACTIVATION_TIME *)
   10 |-> ie PFCP_IE_MAR_ID "mar_id" (* CREATE_PDR_MAR_ID *)
  ].

Definition pfcp_pdi_group : list pfcp_group_ie_def := group_table
  [0 |-> ie PFCP_IE_SOURCE_INTERFACE "source_interface"; (* PDI_SOURCE_INTERFACE *)
   1 |-> ie PFCP_IE_F_TEID "f_teid"; (* PDI_F_TEID *)
   2 |-> ie PFCP_IE_NETWORK_INSTANCE "network_instance"; (* PDI_NETWORK_INSTANCE *)
   3 |-> ie PFCP_IE_UE_IP_ADDRESS "ue_ip_address"; (* PDI_UE_IP_ADDRESS *)
   4 |-> ie_array PFCP_IE_SDF_FILTER "sdf_filter"; (* PDI_SDF_FILTER *)
   5 |-> ie PFCP_IE_APPLICATION_ID "application_id"; (* PDI_APPLICATION_ID *)
   6 |-> ie PFCP_IE_ETHERNET_PDU_SESSION_INFORMATION "ethernet_pdu_session_information"; (* PDI_ETHERNET_PDU_SESSION_INFORMATION *)
   7 |-> ie PFCP_IE_ETHERNET_PACKET_FILTER "ethernet_packet_filter"; (* PDI_ETHERNET_PACKET_FILTER *)
   8 |-> ie PFCP_IE_QFI "qfi"; (* PDI_QFI *)
   9 |-> ie_array PFCP_IE_FRAMED_ROUTE "framed_route"; (* PDI_FRAMED_ROUTE *)
   10 |-> ie PFCP_IE_FRAMED_ROUTING "framed_routing"; (* PDI_FRAMED_ROUTING *)
   11 |-> ie_array PFCP_IE_FRAMED_IPV6_ROUTE "framed_ipv6_route"; (* PDI_FRAMED_IPV6_ROUTE *)
   12 |-> ie PFCP_IE_TGPP_INTERFACE_TYPE "source_interface_type" (* PDI_SOURCE_INTERFACE_TYPE *)
  ].

Definition pfcp_create_far_group : list pfcp_group_ie_def := group_table
  [0 |-> ie PFCP_IE_FAR_ID "far_id"; (* CREATE_FAR_FAR_ID *)
   1 |-> ie PFCP_IE_APPLY_ACTION "apply_action"; (* CREATE_FAR_APPLY_ACTION *)
   2 |-> ie PFCP_IE_FORWARDING_PARAMETERS "forwarding_parameters"; (* CREATE_FAR_FORWARDING_PARAMETERS *)
   3 |-> ie PFCP_IE_DUPLICATING_PARAMETERS "duplicating_parameters"; (* CREATE_FAR_DUPLICATING_PARAMETERS *)
   4 |-> ie PFCP_IE_BAR_ID "bar_id" (* CREATE_FAR_BAR_ID *)
  ].

Definition pfcp_forwarding_parameters_group : list pfcp_group_ie_def := group_table
  [0 |-> ie PFCP_IE_DESTINATION_INTERFACE "destination_interface"; (* FORWARDING_PARAMETERS_DESTINATION_INTERFACE *)
   1 |-> ie PFCP_IE_NETWORK_INSTANCE "network_instance"; (* FORWARDING_PARAMETERS_NETWORK_INSTANCE *)
   2 |-> ie PFCP_IE_REDIRECT_INFORMATION "redirect_information"; (* FORWARDING_PARAMETERS_REDIRECT_INFORMATION *)
   3 |-> ie PFCP_IE_OUTER_HEADER_CREATION "outer_header_creation"; (* FORWARDING_PARAMETERS_OUTER_HEADER_CREATION *)
   4 |-> ie PFCP_IE_TRANSPORT_LEVEL_MARKING "transport_level_marking"; (* FORWARDING_PARAMETERS_TRANSPORT_LEVEL_MARKING *)
   5 |-> ie PFCP_IE_FORWARDING_POLICY "forwarding_policy"; (* FORWARDING_PARAMETERS_FORWARDING_POLICY *)
   6 |-> ie PFCP_IE_HEADER_ENRICHMENT "header_enrichment"; (* FORWARDING_PARAMETERS_HEADER_ENRICHMENT *)
   7 |-> ie PFCP_IE_TRAFFIC_ENDPOINT_ID "linked_traffic_endpoint_id"; (* FORWARDING_PARAMETERS_LINKED_TRAFFIC_ENDPOINT_ID *)
   8 |-> ie PFCP_IE_PROXYING "proxying"; (* FORWARDING_PARAMETERS_PROXYING *)
   9 |-> ie PFCP_IE_TGPP_INTERFACE_TYPE "destination_interface_type"; (* FORWARDING_PARAMETERS_DESTINATION_INTERFACE_TYPE *)
   10 |-> ie_vendor VENDOR_BBF PFCP_IE_BBF_APPLY_ACTION "bbf_apply_action"; (* FORWARDING_PARAMETERS_BBF_APPLY_ACTION *)
   11 |-> ie_vendor VENDOR_BBF PFCP_IE_BBF_NAT_PORT_BLOCK "nat_port_block" (* FORWARDING_PARAMETERS_BBF_NAT_PORT_BLOCK *)
  ].

Definition pfcp_duplicating_parameters_group : list pfcp_group_ie_def := group_table
  [0 |-> ie PFCP_IE_DESTINATION_INTERFACE "destination_interface"; (* DUPLICATING_PARAMETERS_DESTINATION_INTERFACE *)
   1 |-> ie PFCP_IE_OUTER_HEADER_CREATION "outer_header_creation"; (* DUPLICATING_PARAMETERS_OUTER_HEADER_CREATION *)
   2 |-> ie PFCP_IE_TRANSPORT_LEVEL_MARKING "transport_level_marking"; (* DUPLICATING_PARAMETERS_TRANSPORT_LEVEL_MARKING *)
   3 |-> ie PFCP_IE_FORWARDING_POLICY "forwarding_policy" (* DUPLICATING_PARAMETERS_FORWARDING_POLICY *)
  ].

Definition pfcp_create_urr_group : list pfcp_group_ie_def := group_table
  [0 |-> ie PFCP_IE_URR_ID "urr_id"; (* CREATE_URR_URR_ID *)
   1 |-> ie PFCP_IE_MEASUREMENT_METHOD "measurement_method"; (* CREATE_URR_MEASUREMENT_METHOD *)
   2 |-> ie PFCP_IE_REPORTING_TRIGGERS "reporting_triggers"; (* CREATE_URR_REPORTING_TRIGGERS *)
   3 |-> ie PFCP_IE_MEASUREMENT_PERIOD "measurement_period"; (* CREATE_URR_MEASUREMENT_PERIOD *)
   4 |-> ie PFCP_IE_VOLUME_THRESHOLD "volume_threshold"; (* CREATE_URR_VOLUME_THRESHOLD *)
   5 |-> ie PFCP_IE_VOLUME_QUOTA "volume_quota"; (* CREATE_URR_VOLUME_QUOTA *)
   6 |-> ie PFCP_IE_TIME_THRESHOLD "time_threshold"; (* CREATE_URR_TIME_THRESHOLD *)
   7 |-> ie PFCP_IE_TIME_QUOTA "time_quota"; (* CREATE_URR_TIME_QUOTA *)
   8 |-> ie PFCP_IE_QUOTA_HOLDING_TIME "quota_holding_time"; (* CREATE_URR_QUOTA_HOLDING_TIME *)
   9 |-> ie PFCP_IE_DROPPED_DL_TRAFFIC_THRESHOLD "dropped_dl_traffic_threshold"; (* CREATE_URR_DROPPED_DL_TRAFFIC_THRESHOLD *)
   10 |-> ie PFCP_IE_QUOTA_VALIDITY_TIME "quota_validity_time"; (* CREATE_URR_QUOTA_VALIDITY_TIME *)
   11 |-> ie PFCP_IE_MONITORING_TIME "monitoring_time"; (* CREATE_URR_MONITORING_TIME *)
   12 |-> ie PFCP_IE_SUBSEQUENT_VOLUME_THRESHOLD "subsequent_volume_threshold"; (* CREATE_URR_SUBSEQUENT_VOLUME_THRESHOLD *)
   13 |-> ie PFCP_IE_SUBSEQUENT_TIME_THRESHOLD "subsequent_time_threshold"; (* CREATE_URR_SUBSEQUENT_TIME_THRESHOLD *)
   14 |-> ie PFCP_IE_INACTIVITY_DETECTION_TIME "inactivity_detection_time"; (* CREATE_URR_INACTIVITY_DETECTION_TIME *)
   15 |-> ie_array PFCP_IE_LINKED_URR_ID "linked_urr_id"; (* CREATE_URR_LINKED_URR_ID *)
   16 |-> ie PFCP_IE_MEASUREMENT_INFORMATION "measurement_information"; (* CREATE_URR_MEASUREMENT_INFORMATION *)
   17 |-> ie PFCP_IE_TIME_QUOTA_MECHANISM "time_quota_mechanism"; (* CREATE_URR_TIME_QUOTA_MECHANISM *)
   18 |-> ie PFCP_IE_AGGREGATED_URRS "aggregated_urrs"; (* CREATE_URR_AGGREGATED_URRS *)
   19 |-> ie PFCP_IE_FAR_ID "far_id_for_quota_action"; (* CREATE_URR_FAR_ID_FOR_QUOTE_ACTION *)
   20 |-> ie PFCP_IE_ETHERNET_INACTIVITY_TIMER "ethernet_inactivity_timer"; (* CREATE_URR_ETHERNET_INACTIVITY_TIMER *)
   21 |-> ie_array PFCP_IE_ADDITIONAL_MONITORING_TIME "additional_monitoring_time" (* CREATE_URR_ADDITIONAL_MONITORING_TIME *)
  ].

Definition pfcp_create_qer_group : list pfcp_group_ie_def := group_table
  [0 |-> ie PFCP_IE_QER_ID "qer_id"; (* CREATE_QER_QER_ID *)
   1 |-> ie PFCP_IE_QER_CORRELATION_ID "qer_correlation_id"; (* CREATE_QER_QER_CORRELATION_ID *)
   2 |-> ie PFCP_IE_GATE_STATUS "gate_status"; (* CREATE_QER_GATE_STATUS *)
   3 |-> ie PFCP_IE_MBR "mbr"; (* CREATE_QER_MBR *)
   4 |-> ie PFCP_IE_GBR "gbr"; (* CREATE_QER_GBR *)
   5 |-> ie PFCP_IE_PACKET_RATE "packet_rate"; (* CREATE_QER_PACKET_RATE *)
   6 |-> ie PFCP_IE_DL_FLOW_LEVEL_MARKING "dl_flow_level_marking"; (* CREATE_QER_DL_FLOW_LEVEL_MARKING *)
   7 |-> ie PFCP_IE_QFI "qos_flow_identifier"; (* CREATE_QER_QOS_FLOW_IDENTIFIER *)
   8 |-> ie PFCP_IE_RQI "reflective_qos"; (* CREATE_QER_REFLECTIVE_QOS *)
   9 |-> ie PFCP_IE_PAGING_POLICY_INDICATOR "paging_policy_indicator"; (* CREATE_QER_PAGING_POLICY_INDICATOR *)
   10 |-> ie PFCP_IE_AVERAGING_WINDOW "averaging_window" (* CREATE_QER_AVERAGING_WINDOW *)
  ].

Definition pfcp_created_pdr_group : list pfcp_group_ie_def := group_table
  [0 |-> ie PFCP_IE_PDR_ID "pdr_id"; (* CREATED_PDR_PDR_ID *)
   1 |-> ie PFCP_IE_F_TEID "f_teid"; (* CREATED_PDR_F_TEID *)
   2 |-> ie PFCP_IE_UE_IP_ADDRESS "ue_ip_address" (* CREATED_PDR_UE_IP_ADDRESS *)
  ].

Definition pfcp_update_pdr_group : list pfcp_group_ie_def := group_table
  [0 |-> ie PFCP_IE_PDR_ID "pdr_id"; (* UPDATE_PDR_PDR_ID *)
   1 |-> ie PFCP_IE_OUTER_HEADER_REMOVAL "outer_header_removal"; (* UPDATE_PDR_OUTER_HEADER_REMOVAL *)
   2 |-> ie PFCP_IE_PRECEDENCE "precedence"; (* UPDATE_PDR_PRECEDENCE *)
   3 |-> ie PFCP_IE_PDI "pdi"; (* UPDATE_PDR_PDI *)
   4 |-> ie PFCP_IE_FAR_ID "far_id"; (* UPDATE_PDR_FAR_ID *)
   5 |-> ie_array PFCP_IE_URR_ID "urr_id"; (* UPDATE_PDR_URR_ID *)
   6 |-> ie_array PFCP_IE_QER_ID "qer_id"; (* UPDATE_PDR_QER_ID *)
   7 |-> ie PFCP_IE_ACTIVATE_PREDEFINED_RULES "activate_predefined_rules"; (* UPDATE_PDR_ACTIVATE_PREDEFINED_RULES *)
   8 |-> ie PFCP_IE_DEACTIVATE_PREDEFINED_RULES "deactivate_predefined_rules"; (* UPDATE_PDR_DEACTIVATE_PREDEFINED_RULES *)
   9 |-> ie PFCP_IE_ACTIVATION_TIME "activation_time"; (* UPDATE_PDR_ACTIVATION_TIME *)
   10 |-> ie PFCP_IE_DEACTIVATION_TIME "deactivation_time" (* UPDATE_PDR_DEACTIVATION_TIME *)
  ].

Definition pfcp_update_far_group : list pfcp_group_ie_def := group_table
  [0 |-> ie PFCP_IE_FAR_ID "far_id"; (* UPDATE_FAR_FAR_ID *)
   1 |-> ie PFCP_IE_APPLY_ACTION "apply_action"; (* UPDATE_FAR_APPLY_ACTION *)
   2 |-> ie PFCP_IE_UPDATE_FORWARDING_PARAMETERS "update_forwarding_parameters"; (* UPDATE_FAR_UPDATE_FORWARDING_PARAMETERS *)
   3 |-> ie PFCP_IE_UPDATE_DUPLICATING_PARAMETERS "update_duplicating_parameters"; (* UPDATE_FAR_UPDATE_DUPLICATING_PARAMETERS *)
   4 |-> ie PFCP_IE_BAR_ID "bar_id" (* UPDATE_FAR_BAR_ID *)
  ].

Definition pfcp_update_forwarding_parameters_group : list pfcp_group_ie_def := group_table
  [0 |-> ie PFCP_IE_DESTINATION_INTERFACE "destination_interface"; (* UPDATE_FORWARDING_PARAMETERS_DESTINATION_INTERFACE *)
   1 |-> ie PFCP_IE_NETWORK_INSTANCE "network_instance"; (* UPDATE_FORWARDING_PARAMETERS_NETWORK_INSTANCE *)
   2 |-> ie PFCP_IE_REDIRECT_INFORMATION "redirect_information"; (* UPDATE_FORWARDING_PARAMETERS_REDIRECT_INFORMATION *)
   3 |-> ie PFCP_IE_OUTER_HEADER_CREATION "outer_header_creation"; (* UPDATE_FORWARDING_PARAMETERS_OUTER_HEADER_CREATION *)
   4 |-> ie PFCP_IE_TRANSPORT_LEVEL_MARKING "transport_level_marking"; (* UPDATE_FORWARDING_PARAMETERS_TRANSPORT_LEVEL_MARKING *)
   5 |-> ie PFCP_IE_FORWARDING_POLICY "forwarding_policy"; (* UPDATE_FORWARDING_PARAMETERS_FORWARDING_POLICY *)
   6 |-> ie PFCP_IE_HEADER_ENRICHMENT "header_enrichment"; (* UPDATE_FORWARDING_PARAMETERS_HEADER_ENRICHMENT *)
   7 |-> ie PFCP_IE_PFCPSMREQ_FLAGS "pfcpsmreq_flags"; (* UPDATE_FORWARDING_PARAMETERS_PFCPSMREQ_FLAGS *)
   8 |-> ie PFCP_IE_TRAFFIC_ENDPOINT_ID "linked_traffic_endpoint_id"; (* UPDATE_FORWARDING_PARAMETERS_LINKED_TRAFFIC_ENDPOINT_ID *)
   9 |-> ie PFCP_IE_TGPP_INTERFACE_TYPE "destination_interface_type" (* UPDATE_FORWARDING_PARAMETERS_DESTINATION_INTERFACE_TYPE *)
  ].

Definition pfcp_update_bar_response_group : list pfcp_group_ie_def := group_table
  [0 |-> ie PFCP_IE_BAR_ID "bar_id"; (* UPDATE_BAR_RESPONSE_BAR_ID *)
   1 |-> ie PFCP_IE_DOWNLINK_DATA_NOTIFICATION_DELAY "downlink_data_notification_delay"; (* UPDATE_BAR_RESPONSE_DOWNLINK_DATA_NOTIFICATION_DELAY *)
   2 |-> ie PFCP_IE_DL_BUFFERING_DURATION "dl_buffering_duration"; (* UPDATE_BAR_RESPONSE_DL_BUFFERING_DURATION *)
   3 |-> ie PFCP_IE_DL_BUFFERING_SUGGESTED_PACKET_COUNT "dl_buffering_suggested_packet_count"; (* UPDATE_BAR_RESPONSE_DL_BUFFERING_SUGGESTED_PACKET_COUNT *)
   4 |-> ie PFCP_IE_SUGGESTED_BUFFERING_PACKETS_COUNT "suggested_buffering_packets_count" (* UPDATE_BAR_RESPONSE_SUGGESTED_BUFFERING_PACKETS_COUNT *)
  ].

Definition pfcp_update_urr_group : list pfcp_group_ie_def := group_table
  [0 |-> ie PFCP_IE_URR_ID "urr_id"; (* UPDATE_URR_URR_ID *)
   1 |-> ie PFCP_IE_MEASUREMENT_METHOD "measurement_method"; (* UPDATE_URR_MEASUREMENT_METHOD *)
   2 |-> ie PFCP_IE_REPORTING_TRIGGERS "reporting_triggers"; (* UPDATE_URR_REPORTING_TRIGGERS *)
   3 |-> ie PFCP_IE_MEASUREMENT_PERIOD "measurement_period"; (* UPDATE_URR_MEASUREMENT_PERIOD *)
   4 |-> ie PFCP_IE_VOLUME_THRESHOLD "volume_threshold"; (* UPDATE_URR_VOLUME_THRESHOLD *)
   5 |-> ie PFCP_IE_VOLUME_QUOTA "volume_quota"; (* UPDATE_URR_VOLUME_QUOTA *)
   6 |-> ie PFCP_IE_TIME_THRESHOLD "time_threshold"; (* UPDATE_URR_TIME_THRESHOLD *)
   7 |-> ie PFCP_IE_TIME_QUOTA "time_quota"; (* UPDATE_URR_TIME_QUOTA *)
   8 |-> ie PFCP_IE_QUOTA_HOLDING_TIME "quota_holding_time"; (* UPDATE_URR_QUOTA_HOLDING_TIME *)
   9 |-> ie PFCP_IE_DROPPED_DL_TRAFFIC_THRESHOLD "dropped_dl_traffic_threshold"; (* UPDATE_URR_DROPPED_DL_TRAFFIC_THRESHOLD *)
   10 |-> ie PFCP_IE_QUOTA_VALIDITY_TIME "quota_validity_time"; (* UPDATE_URR_QUOTA_VALIDITY_TIME *)
   11 |-> ie PFCP_IE_MONITORING_TIME "monitoring_time"; (* UPDATE_URR_MONITORING_TIME *)
   12 |-> ie PFCP_IE_SUBSEQUENT_VOLUME_THRESHOLD "subsequent_volume_threshold"; (* UPDATE_URR_SUBSEQUENT_VOLUME_THRESHOLD *)
   13 |-> ie PFCP_IE_SUBSEQUENT_TIME_THRESHOLD "subsequent_time_threshold"; (* UPDATE_URR_SUBSEQUENT_TIME_THRESHOLD *)
   14 |-> ie PFCP_IE_INACTIVITY_DETECTION_TIME "inactivity_detection_time"; (* UPDATE_URR_INACTIVITY_DETECTION_TIME *)
   15 |-> ie_array PFCP_IE_LINKED_URR_ID "linked_urr_id"; (* UPDATE_URR_LINKED_URR_ID *)
   16 |-> ie PFCP_IE_MEASUREMENT_INFORMATION "measurement_information"; (* UPDATE_URR_MEASUREMENT_INFORMATION *)
   17 |-> ie PFCP_IE_TIME_QUOTA_MECHANISM "time_quota_mechanism"; (* UPDATE_URR_TIME_QUOTA_MECHANISM *)
   18 |-> ie PFCP_IE_AGGREGATED_URRS "aggregated_urrs"; (* UPDATE_URR_AGGREGATED_URRS *)
   19 |-> ie PFCP_IE_FAR_ID "far_id_for_quota_action"; (* UPDATE_URR_FAR_ID_FOR_QUOTE_ACTION *)
   20 |-> ie PFCP_IE_ETHERNET_INACTIVITY_TIMER "ethernet_inactivity_timer" (* UPDATE_URR_ETHERNET_INACTIVITY_TIMER *)
  ].

Definition pfcp_update_qer_group : list pfcp_group_ie_def := group_table
  [0 |-> ie PFCP_IE_QER_ID "qer_id"; (* UPDATE_QER_QER_ID *)
   1 |-> ie PFCP_IE_QER_CORRELATION_ID "qer_correlation_id"; (* UPDATE_QER_QER_CORRELATION_ID *)
   2 |-> ie PFCP_IE_GATE_STATUS "gate_status"; (* UPDATE_QER_GATE_STATUS *)
   3 |-> ie PFCP_IE_MBR "mbr"; (* UPDATE_QER_MBR *)
   4 |-> ie PFCP_IE_GBR "gbr"; (* UPDATE_QER_GBR *)
   5 |-> ie PFCP_IE_PACKET_RATE "packet_rate"; (* UPDATE_QER_PACKET_RATE *)
   6 |-> ie PFCP_IE_DL_FLOW_LEVEL_MARKING "dl_flow_level_marking"; (* UPDATE_QER_DL_FLOW_LEVEL_MARKING *)
   7 |-> ie PFCP_IE_QFI "qos_flow_identifier"; (* UPDATE_QER_QOS_FLOW_IDENTIFIER *)
   8 |-> ie PFCP_IE_RQI "reflective_qos"; (* UPDATE_QER_REFLECTIVE_QOS *)
   9 |-> ie PFCP_IE_PAGING_POLICY_INDICATOR "paging_policy_indicator"; (* UPDATE_QER_PAGING_POLICY_INDICATOR *)
   10 |-> ie PFCP_IE_AVERAGING_WINDOW "averaging_window" (* UPDATE_QER_AVERAGING_WINDOW *)
  ].

Definition pfcp_remove_pdr_group : list pfcp_group_ie_def := group_table
  [0 |-> ie PFCP_IE_PDR_ID "pdr_id" (* REMOVE_PDR_PDR_ID *)
  ].

Definition pfcp_remove_far_group : list pfcp_group_ie_def := group_table
  [0 |-> ie PFCP_IE_FAR_ID "far_id" (* REMOVE_FAR_FAR_ID *)
  ].

Definition pfcp_remove_urr_group : list pfcp_group_ie_def := group_table
  [0 |-> ie PFCP_IE_URR_ID "urr_id" (* REMOVE_URR_URR_ID *)
  ].

Definition pfcp_remove_qer_group : list pfcp_group_ie_def := group_table
  [0 |-> ie PFCP_IE_QER_ID "qer_id" (* REMOVE_QER_QER_ID *)
  ].

Definition pfcp_load_control_information_group : list pfcp_group_ie_def := group_table
  [0 |-> ie PFCP_IE_SEQUENCE_NUMBER "sequence_number"; (* LOAD_CONTROL_INFORMATION_SEQUENCE_NUMBER *)
   1 |-> ie PFCP_IE_METRIC "metric" (* LOAD_CONTROL_INFORMATION_METRIC *)
  ].

Definition pfcp_overload_control_information_group : list pfcp_group_ie_def := group_table
  [0 |-> ie PFCP_IE_SEQUENCE_NUMBER "sequence_number"; (* OVERLOAD_CONTROL_INFORMATION_SEQUENCE_NUMBER *)
   1 |-> ie PFCP_IE_METRIC "metric"; (* OVERLOAD_CONTROL_INFORMATION_METRIC *)
   2 |-> ie PFCP_IE_TIMER "timer"; (* OVERLOAD_CONTROL_INFORMATION_TIMER *)
   3 |-> ie PFCP_IE_OCI_FLAGS "oci_flags" (* OVERLOAD_CONTROL_INFORMATION_OCI_FLAGS *)
  ].

Definition pfcp_application_id_pfds_group : list pfcp_group_ie_def := group_table
  [0 |-> ie PFCP_IE_APPLICATION_ID "application_id"; (* APPLICATION_ID_PFDS_APPLICATION_ID *)
   1 |-> ie_array PFCP_IE_PFD "pfd" (* APPLICATION_ID_PFDS_PFD *)
  ].

Definition pfcp_pfd_group : list pfcp_group_ie_def := group_table
  [0 |-> ie_array PFCP_IE_PFD_CONTENTS "pfd_contents" (* PFD_PFD_CONTENTS *)
  ].

Definition pfcp_application_detection_information_group : list pfcp_group_ie_def := group_table
  [0 |-> ie PFCP_IE_APPLICATION_ID "application_id"; (* APPLICATION_DETECTION_INFORMATION_APPLICATION_ID *)
   1 |-> ie PFCP_IE_APPLICATION_INSTANCE_ID "application_instance_id"; (* APPLICATION_DETECTION_INFORMATION_APPLICATION_INSTANCE_ID *)
   2 |-> ie PFCP_IE_FLOW_INFORMATION "flow_information" (* APPLICATION_DETECTION_INFORMATION_FLOW_INFORMATION *)
  ].

Definition pfcp_query_urr_group : list pfcp_group_ie_def := group_table
  [0 |-> ie PFCP_IE_URR_ID "urr_id" (* QUERY_URR_URR_ID *)
  ].

Definition pfcp_usage_report_smr_group : list pfcp_group_ie_def := group_table
  [0 |-> ie PFCP_IE_URR_ID "urr_id"; (* USAGE_REPORT_URR_ID *)
   1 |-> ie PFCP_IE_UR_SEQN "ur_seqn"; (* USAGE_REPORT_UR_SEQN *)
   2 |-> ie PFCP_IE_USAGE_REPORT_TRIGGER "usage_report_trigger"; (* USAGE_REPORT_USAGE_REPORT_TRIGGER *)
   3 |-> ie PFCP_IE_START_TIME "start_time"; (* USAGE_REPORT_START_TIME *)
   4 |-> ie PFCP_IE_END_TIME "end_time"; (* USAGE_REPORT_END_TIME *)
   5 |-> ie PFCP_IE_VOLUME_MEASUREMENT "volume_measurement"; (* USAGE_REPORT_VOLUME_MEASUREMENT *)
   6 |-> ie PFCP_IE_DURATION_MEASUREMENT "duration_measurement"; (* USAGE_REPORT_DURATION_MEASUREMENT *)
   10 |-> ie PFCP_IE_TIME_OF_FIRST_PACKET "time_of_first_packet"; (* USAGE_REPORT_TIME_OF_FIRST_PACKET *)
   11 |-> ie PFCP_IE_TIME_OF_LAST_PACKET "time_of_last_packet"; (* USAGE_REPORT_TIME_OF_LAST_PACKET *)
   12 |-> ie PFCP_IE_USAGE_INFORMATION "usage_information"; (* USAGE_REPORT_USAGE_INFORMATION *)
   13 |-> ie PFCP_IE_QUERY_URR_REFERENCE "query_urr_reference"; (* USAGE_REPORT_QUERY_URR_REFERENCE *)
   14 |-> ie_array PFCP_IE_EVENT_TIME_STAMP "event_time_stamp"; (* USAGE_REPORT_EVENT_TIME_STAMP *)
   15 |-> ie PFCP_IE_ETHERNET_TRAFFIC_INFORMATION "ethernet_traffic_information"; (* USAGE_REPORT_ETHERNET_TRAFFIC_INFORMATION *)
   16 |-> ie_vendor VENDOR_TRAVELPING PFCP_IE_TP_NOW "tp_now"; (* USAGE_REPORT_TP_NOW *)
   17 |-> ie_vendor VENDOR_TRAVELPING PFCP_IE_TP_START_TIME "tp_start_time"; (* USAGE_REPORT_TP_START_TIME *)
   18 |-> ie_vendor VENDOR_TRAVELPING PFCP_IE_TP_END_TIME "tp_end_time" (* USAGE_REPORT_TP_END_TIME *)
  ].

Definition pfcp_packet_report_group : list pfcp_group_ie_def := group_table
  [0 |-> ie PFCP_IE_TRAFFIC_REPORT_PACKET_TYPE "packet_type"; (* TRAFFIC_REPORT_PACKET_TYPE *)
   1 |-> ie PFCP_IE_TRAFFIC_REPORT_PACKET_HEADER "packet_header"; (* TRAFFIC_REPORT_PACKET_HEADER *)
   2 |-> ie PFCP_IE_TRAFFIC_REPORT_PACKET_DATA "packet_data" (* TRAFFIC_REPORT_PACKET_DATA *)
  ].

Definition pfcp_usage_report_sdr_group : list pfcp_group_ie_def := group_table
  [0 |-> ie PFCP_IE_URR_ID "urr_id"; (* USAGE_REPORT_URR_ID *)
   1 |-> ie PFCP_IE_UR_SEQN "ur_seqn"; (* USAGE_REPORT_UR_SEQN *)
   2 |-> ie PFCP_IE_USAGE_REPORT_TRIGGER "usage_report_trigger"; (* USAGE_REPORT_USAGE_REPORT_TRIGGER *)
   3 |-> ie PFCP_IE_START_TIME "start_time"; (* USAGE_REPORT_START_TIME *)
   4 |-> ie PFCP_IE_END_TIME "end_time"; (* USAGE_REPORT_END_TIME *)
   5 |-> ie PFCP_IE_VOLUME_MEASUREMENT "volume_measurement"; (* USAGE_REPORT_VOLUME_MEASUREMENT *)
   6 |-> ie PFCP_IE_DURATION_MEASUREMENT "duration_measurement"; (* USAGE_REPORT_DURATION_MEASUREMENT *)
   10 |-> ie PFCP_IE_TIME_OF_FIRST_PACKET "time_of_first_packet"; (* USAGE_REPORT_TIME_OF_FIRST_PACKET *)
   11 |-> ie PFCP_IE_TIME_OF_LAST_PACKET "time_of_last_packet"; (* USAGE_REPORT_TIME_OF_LAST_PACKET *)
   12 |-> ie PFCP_IE_USAGE_INFORMATION "usage_information"; (* USAGE_REPORT_USAGE_INFORMATION *)
   15 |-> ie PFCP_IE_ETHERNET_TRAFFIC_INFORMATION "ethernet_traffic_information"; (* USAGE_REPORT_ETHERNET_TRAFFIC_INFORMATION *)
   16 |-> ie_vendor VENDOR_TRAVELPING PFCP_IE_TP_NOW "tp_now"; (* USAGE_REPORT_TP_NOW *)
   17 |-> ie_vendor VENDOR_TRAVELPING PFCP_IE_TP_START_TIME "tp_start_time"; (* USAGE_REPORT_TP_START_TIME *)
   18 |-> ie_vendor VENDOR_TRAVELPING PFCP_IE_TP_END_TIME "tp_end_time" (* USAGE_REPORT_TP_END_TIME *)
  ].

Definition pfcp_usage_report_srr_group : list pfcp_group_ie_def := group_table
  [0 |-> ie PFCP_IE_URR_ID "urr_id"; (* USAGE_REPORT_URR_ID *)
   1 |-> ie PFCP_IE_UR_SEQN "ur_seqn"; (* USAGE_REPORT_UR_SEQN *)
   2 |-> ie PFCP_IE_USAGE_REPORT_TRIGGER "usage_report_trigger"; (* USAGE_REPORT_USAGE_REPORT_TRIGGER *)
   3 |-> ie PFCP_IE_START_TIME "start_time"; (* USAGE_REPORT_START_TIME *)
   4 |-> ie PFCP_IE_END_TIME "end_time"; (* USAGE_REPORT_END_TIME *)
   5 |-> ie PFCP_IE_VOLUME_MEASUREMENT "volume_measurement"; (* USAGE_REPORT_VOLUME_MEASUREMENT *)
   6 |-> ie PFCP_IE_DURATION_MEASUREMENT "duration_measurement"; (* USAGE_REPORT_DURATION_MEASUREMENT *)
   7 |-> ie PFCP_IE_APPLICATION_DETECTION_INFORMATION "application_detection_information"; (* USAGE_REPORT_APPLICATION_DETECTION_INFORMATION *)
   8 |-> ie PFCP_IE_UE_IP_ADDRESS "ue_ip_address"; (* USAGE_REPORT_UE_IP_ADDRESS *)
   9 |-> ie PFCP_IE_NETWORK_INSTANCE "network_instance"; (* USAGE_REPORT_NETWORK_INSTANCE *)
   10 |-> ie PFCP_IE_TIME_OF_FIRST_PACKET "time_of_first_packet"; (* USAGE_REPORT_TIME_OF_FIRST_PACKET *)
   11 |-> ie PFCP_IE_TIME_OF_LAST_PACKET "time_of_last_packet"; (* USAGE_REPORT_TIME_OF_LAST_PACKET *)
   12 |-> ie PFCP_IE_USAGE_INFORMATION "usage_information"; (* USAGE_REPORT_USAGE_INFORMATION *)
   13 |-> ie PFCP_IE_QUERY_URR_REFERENCE "query_urr_reference"; (* USAGE_REPORT_QUERY_URR_REFERENCE *)
   15 |-> ie PFCP_IE_ETHERNET_TRAFFIC_INFORMATION "ethernet_traffic_information"; (* USAGE_REPORT_ETHERNET_TRAFFIC_INFORMATION *)
   16 |-> ie_vendor VENDOR_TRAVELPING PFCP_IE_TP_NOW "tp_now"; (* USAGE_REPORT_TP_NOW *)
   17 |-> ie_vendor VENDOR_TRAVELPING PFCP_IE_TP_START_TIME "tp_start_time"; (* USAGE_REPORT_TP_START_TIME *)
   18 |-> ie_vendor VENDOR_TRAVELPING PFCP_IE_TP_END_TIME "tp_end_time" (* USAGE_REPORT_TP_END_TIME *)
  ].

Definition pfcp_downlink_data_report_group : list pfcp_group_ie_def := group_table
  [0 |-> ie_array PFCP_IE_PDR_ID "pdr_id"; (* DOWNLINK_DATA_REPORT_PDR_ID *)
   1 |-> ie_array PFCP_IE_DOWNLINK_DATA_SERVICE_INFORMATION "downlink_data_service_information" (* DOWNLINK_DATA_REPORT_DOWNLINK_DATA_SERVICE_INFORMATION *)
  ].

Definition pfcp_create_bar_group : list pfcp_group_ie_def := group_table
  [0 |-> ie PFCP_IE_BAR_ID "bar_id"; (* CREATE_BAR_BAR_ID *)
   1 |-> ie PFCP_IE_DOWNLINK_DATA_NOTIFICATION_DELAY "downlink_data_notification_delay"; (* CREATE_BAR_DOWNLINK_DATA_NOTIFICATION_DELAY *)
   2 |-> ie PFCP_IE_SUGGESTED_BUFFERING_PACKETS_COUNT "suggested_buffering_packets_count" (* CREATE_BAR_SUGGESTED_BUFFERING_PACKETS_COUNT *)
  ].

Definition pfcp_update_bar_request_group : list pfcp_group_ie_def := group_table
  [0 |-> ie PFCP_IE_BAR_ID "bar_id"; (* UPDATE_BAR_REQUEST_BAR_ID *)
   1 |-> ie PFCP_IE_DOWNLINK_DATA_NOTIFICATION_DELAY "downlink_data_notification_delay"; (* UPDATE_BAR_REQUEST_DOWNLINK_DATA_NOTIFICATION_DELAY *)
   2 |-> ie PFCP_IE_SUGGESTED_BUFFERING_PACKETS_COUNT "suggested_buffering_packets_count" (* UPDATE_BAR_REQUEST_SUGGESTED_BUFFERING_PACKETS_COUNT *)
  ].

Definition pfcp_remove_bar_group : list pfcp_group_ie_def := group_table
  [0 |-> ie PFCP_IE_BAR_ID "bar_id" (* REMOVE_BAR_BAR_ID *)
  ].

Definition pfcp_error_indication_report_group : list pfcp_group_ie_def := group_table
  [0 |-> ie_array PFCP_IE_F_TEID "f_teid" (* ERROR_INDICATION_REPORT_F_TEID *)
  ].

Definition pfcp_user_plane_path_failure_report_group : list pfcp_group_ie_def := group_table
  [0 |-> ie_array PFCP_IE_REMOTE_GTP_U_PEER "remote_gtp_u_peer" (* USER_PLANE_PATH_FAILURE_REPORT_REMOTE_GTP_U_PEER *)
  ].

Definition pfcp_update_duplicating_parameters_group : list pfcp_group_ie_def := group_table
  [0 |-> ie PFCP_IE_DESTINATION_INTERFACE "destination_interface"; (* UPDATE_DUPLICATING_PARAMETERS_DESTINATION_INTERFACE *)
   1 |-> ie PFCP_IE_OUTER_HEADER_CREATION "outer_header_creation"; (* UPDATE_DUPLICATING_PARAMETERS_OUTER_HEADER_CREATION *)
   2 |-> ie PFCP_IE_TRANSPORT_LEVEL_MARKING "transport_level_marking"; (* UPDATE_DUPLICATING_PARAMETERS_TRANSPORT_LEVEL_MARKING *)
   3 |-> ie PFCP_IE_FORWARDING_POLICY "forwarding_policy" (* UPDATE_DUPLICATING_PARAMETERS_FORWARDING_POLICY *)
  ].

Definition pfcp_aggregated_urrs_group : list pfcp_group_ie_def := group_table
  [0 |-> ie PFCP_IE_AGGREGATED_URR_ID "aggregated_urr_id"; (* AGGREGATED_URRS_AGGREGATED_URR_ID *)
   1 |-> ie PFCP_IE_MULTIPLIER "multiplier" (* AGGREGATED_URRS_MULTIPLIER *)
  ].

Definition pfcp_create_traffic_endpoint_group : list pfcp_group_ie_def := group_table
  [0 |-> ie PFCP_IE_TRAFFIC_ENDPOINT_ID "traffic_endpoint_id"; (* CREATE_TRAFFIC_ENDPOINT_TRAFFIC_ENDPOINT_ID *)
   1 |-> ie PFCP_IE_F_TEID "f_teid"; (* CREATE_TRAFFIC_ENDPOINT_F_TEID *)
   2 |-> ie PFCP_IE_NETWORK_INSTANCE "network_instance"; (* CREATE_TRAFFIC_ENDPOINT_NETWORK_INSTANCE *)
   3 |-> ie PFCP_IE_UE_IP_ADDRESS "ue_ip_address"; (* CREATE_TRAFFIC_ENDPOINT_UE_IP_ADDRESS *)
   4 |-> ie PFCP_IE_ETHERNET_PDU_SESSION_INFORMATION "ethernet_pdu_session_information"; (* CREATE_TRAFFIC_ENDPOINT_ETHERNET_PDU_SESSION_INFORMATION *)
   5 |-> ie_array PFCP_IE_FRAMED_ROUTE "framed_route"; (* CREATE_TRAFFIC_ENDPOINT_FRAMED_ROUTE *)
   6 |-> ie PFCP_IE_FRAMED_ROUTING "framed_routing"; (* CREATE_TRAFFIC_ENDPOINT_FRAMED_ROUTING *)
   7 |-> ie_array PFCP_IE_FRAMED_IPV6_ROUTE "framed_ipv6_route" (* CREATE_TRAFFIC_ENDPOINT_FRAMED_IPV6_ROUTE *)
  ].

Definition pfcp_created_traffic_endpoint_group : list pfcp_group_ie_def := group_table
  [0 |-> ie PFCP_IE_TRAFFIC_ENDPOINT_ID "traffic_endpoint_id"; (* CREATED_TRAFFIC_ENDPOINT_TRAFFIC_ENDPOINT_ID *)
   1 |-> ie PFCP_IE_F_TEID "f_teid"; (* CREATED_TRAFFIC_ENDPOINT_F_TEID *)
   2 |-> ie PFCP_IE_UE_IP_ADDRESS "ue_ip_address" (* CREATED_TRAFFIC_ENDPOINT_UE_IP_ADDRESS *)
  ].

Definition pfcp_update_traffic_endpoint_group : list pfcp_group_ie_def := group_table
  [0 |-> ie PFCP_IE_TRAFFIC_ENDPOINT_ID "traffic_endpoint_id"; (* UPDATE_TRAFFIC_ENDPOINT_TRAFFIC_ENDPOINT_ID *)
   1 |-> ie PFCP_IE_F_TEID "f_teid"; (* UPDATE_TRAFFIC_ENDPOINT_F_TEID *)
   2 |-> ie PFCP_IE_NETWORK_INSTANCE "network_instance"; (* UPDATE_TRAFFIC_ENDPOINT_NETWORK_INSTANCE *)
   3 |-> ie PFCP_IE_UE_IP_ADDRESS "ue_ip_address"; (* UPDATE_TRAFFIC_ENDPOINT_UE_IP_ADDRESS *)
   4 |-> ie_array PFCP_IE_FRAMED_ROUTE "framed_route"; (* UPDATE_TRAFFIC_ENDPOINT_FRAMED_ROUTE *)
   5 |-> ie PFCP_IE_FRAMED_ROUTING "framed_routing"; (* UPDATE_TRAFFIC_ENDPOINT_FRAMED_ROUTING *)
   6 |-> ie_array PFCP_IE_FRAMED_IPV6_ROUTE "framed_ipv6_route" (* UPDATE_TRAFFIC_ENDPOINT_FRAMED_IPV6_ROUTE *)
  ].

Definition pfcp_remove_traffic_endpoint_group : list pfcp_group_ie_def := group_table
  [0 |-> ie PFCP_IE_TRAFFIC_ENDPOINT_ID "traffic_endpoint_id" (* REMOVE_TRAFFIC_ENDPOINT_TRAFFIC_ENDPOINT_ID *)
  ].

Definition pfcp_ethernet_packet_filter_group : list pfcp_group_ie_def := group_table
  [0 |-> ie PFCP_IE_ETHERNET_FILTER_ID "ethernet_filter_id"; (* ETHERNET_PACKET_FILTER_ETHERNET_FILTER_ID *)
   1 |-> ie PFCP_IE_ETHERNET_FILTER_PROPERTIES "ethernet_filter_properties"; (* ETHERNET_PACKET_FILTER_ETHERNET_FILTER_PROPERTIES *)
   2 |-> ie PFCP_IE_MAC_ADDRESS "mac_address"; (* ETHERNET_PACKET_FILTER_MAC_ADDRESS *)
   3 |-> ie PFCP_IE_ETHERTYPE "ethertype"; (* ETHERNET_PACKET_FILTER_ETHERTYPE *)
   4 |-> ie PFCP_IE_C_TAG "c_tag"; (* ETHERNET_PACKET_FILTER_C_TAG *)
   5 |-> ie PFCP_IE_S_TAG "s_tag"; (* ETHERNET_PACKET_FILTER_S_TAG *)
   6 |-> ie_array PFCP_IE_SDF_FILTER "sdf_filter" (* ETHERNET_PACKET_FILTER_SDF_FILTER *)
  ].

Definition pfcp_ethernet_traffic_information_group : list pfcp_group_ie_def := group_table
  [0 |-> ie PFCP_IE_MAC_ADDRESSES_DETECTED "mac_addresses_detected"; (* ETHERNET_TRAFFIC_INFORMATION_MAC_ADDRESSES_DETECTED *)
   1 |-> ie PFCP_IE_MAC_ADDRESSES_REMOVED "mac_addresses_removed" (* ETHERNET_TRAFFIC_INFORMATION_MAC_ADDRESSES_REMOVED *)
  ].

Definition pfcp_additional_monitoring_time_group : list pfcp_group_ie_def := group_table
  [0 |-> ie PFCP_IE_MONITORING_TIME "monitoring_time"; (* ADDITIONAL_MONITORING_TIME_MONITORING_TIME *)
   1 |-> ie PFCP_IE_SUBSEQUENT_VOLUME_THRESHOLD "subsequent_volume_threshold"; (* ADDITIONAL_MONITORING_TIME_SUBSEQUENT_VOLUME_THRESHOLD *)
   2 |-> ie PFCP_IE_SUBSEQUENT_TIME_THRESHOLD "subsequent_time_threshold"; (* ADDITIONAL_MONITORING_TIME_SUBSEQUENT_TIME_THRESHOLD *)
   3 |-> ie PFCP_IE_SUBSEQUENT_VOLUME_QUOTA "subsequent_volume_quota"; (* ADDITIONAL_MONITORING_TIME_SUBSEQUENT_VOLUME_QUOTA *)
   4 |-> ie PFCP_IE_SUBSEQUENT_TIME_QUOTA "subsequent_time_quota" (* ADDITIONAL_MONITORING_TIME_SUBSEQUENT_TIME_QUOTA *)
  ].

Definition pfcp_create_mar_group : list pfcp_group_ie_def := group_table
  [0 |-> ie PFCP_IE_MAR_ID "mar_id"; (* CREATE_MAR_MAR_ID *)
   1 |-> ie PFCP_IE_STEERING_FUNCTIONALITY "steering_functionality"; (* CREATE_MAR_STEERING_FUNCTIONALITY *)
   2 |-> ie PFCP_IE_STEERING_MODE "steering_mode"; (* CREATE_MAR_STEERING_MODE *)
   3 |-> ie PFCP_IE_ACCESS_FORWARDING_ACTION_INFORMATION_1 "access_forwarding_action_information_1"; (* CREATE_MAR_ACCESS_FORWARDING_ACTION_INFORMATION_1 *)
   4 |-> ie PFCP_IE_ACCESS_FORWARDING_ACTION_INFORMATION_2 "access_forwarding_action_information_2" (* CREATE_MAR_ACCESS_FORWARDING_ACTION_INFORMATION_2 *)
  ].

Definition pfcp_access_forwarding_action_information_group : list pfcp_group_ie_def := group_table
  [0 |-> ie PFCP_IE_FAR_ID "far_id"; (* ACCESS_FORWARDING_ACTION_INFORMATION_FAR_ID *)
   1 |-> ie PFCP_IE_WEIGHT "weight"; (* ACCESS_FORWARDING_ACTION_INFORMATION_WEIGHT *)
   2 |-> ie PFCP_IE_PRIORITY "priority"; (* ACCESS_FORWARDING_ACTION_INFORMATION_PRIORITY *)
   3 |-> ie PFCP_IE_URR_ID "urr_id" (* ACCESS_FORWARDING_ACTION_INFORMATION_URR_ID *)
  ].

Definition pfcp_remove_mar_group : list pfcp_group_ie_def := group_table
  [0 |-> ie PFCP_IE_MAR_ID "mar_id" (* REMOVE_MAR_MAR_ID *)
  ].

Definition pfcp_update_mar_group : list pfcp_group_ie_def := group_table
  [0 |-> ie PFCP_IE_MAR_ID "mar_id"; (* UPDATE_MAR_MAR_ID *)
   1 |-> ie PFCP_IE_STEERING_FUNCTIONALITY "steering_functionality"; (* UPDATE_MAR_STEERING_FUNCTIONALITY *)
   2 |-> ie PFCP_IE_STEERING_MODE "steering_mode"; (* UPDATE_MAR_STEERING_MODE *)
   3 |-> ie PFCP_IE_UPDATE_ACCESS_FORWARDING_ACTION_INFORMATION_1 "update_access_forwarding_action_information_1"; (* UPDATE_MAR_UPDATE_ACCESS_FORWARDING_ACTION_INFORMATION_1 *)
   4 |-> ie PFCP_IE_UPDATE_ACCESS_FORWARDING_ACTION_INFORMATION_2 "update_access_forwarding_action_information_2"; (* UPDATE_MAR_UPDATE_ACCESS_FORWARDING_ACTION_INFORMATION_2 *)
   5 |-> ie PFCP_IE_ACCESS_FORWARDING_ACTION_INFORMATION_1 "access_forwarding_action_information_1"; (* UPDATE_MAR_ACCESS_FORWARDING_ACTION_INFORMATION_1 *)
   6 |-> ie PFCP_IE_ACCESS_FORWARDING_ACTION_INFORMATION_2 "access_forwarding_action_information_2" (* UPDATE_MAR_ACCESS_FORWARDING_ACTION_INFORMATION_2 *)
  ].

Definition pfcp_update_access_forwarding_action_information_group : list pfcp_group_ie_def := group_table
  [0 |-> ie PFCP_IE_FAR_ID "far_id"; (* UPDATE_ACCESS_FORWARDING_ACTION_INFORMATION_FAR_ID *)
   1 |-> ie PFCP_IE_WEIGHT "weight"; (* UPDATE_ACCESS_FORWARDING_ACTION_INFORMATION_WEIGHT *)
   2 |-> ie PFCP_IE_PRIORITY "priority"; (* UPDATE_ACCESS_FORWARDING_ACTION_INFORMATION_PRIORITY *)
   3 |-> ie PFCP_IE_URR_ID "urr_id" (* UPDATE_ACCESS_FORWARDING_ACTION_INFORMATION_URR_ID *)
  ].

Definition pfcp_ue_ip_address_pool_group : list pfcp_group_ie_def := group_table
  [0 |-> ie PFCP_IE_UE_IP_ADDRESS_POOL_IDENTITY "ue_ip_address_pool_identity"; (* UE_IP_ADDRESS_POOL_INFORMATION_POOL_IDENTIFY *)
   1 |-> ie PFCP_IE_NETWORK_INSTANCE "network_instance"; (* UE_IP_ADDRESS_POOL_INFORMATION_NETWORK_INSTANCE *)
   2 |-> ie PFCP_IE_IP_VERSION "ip_version"; (* UE_IP_ADDRESS_POOL_INFORMATION_IP_VERSION *)
   3 |-> ie_vendor_array VENDOR_BBF PFCP_IE_BBF_NAT_PORT_BLOCK "port_blocks" (* UE_IP_ADDRESS_POOL_INFORMATION_BBF_NAT_PORT_BLOCK *)
  ].

Definition pfcp_tp_error_report_group : list pfcp_group_ie_def := group_table
  [0 |-> ie_vendor VENDOR_TRAVELPING PFCP_IE_TP_ERROR_MESSAGE "error_message"; (* TP_ERROR_REPORT_TP_ERROR_MESSAGE *)
   1 |-> ie_vendor VENDOR_TRAVELPING PFCP_IE_TP_FILE_NAME "file_name"; (* TP_ERROR_REPORT_TP_FILE_NAME *)
   2 |-> ie_vendor VENDOR_TRAVELPING PFCP_IE_TP_LINE_NUMBER "line_number" (* TP_ERROR_REPORT_TP_LINE_NUMBER *)
  ].

Definition pfcp_tp_created_binding_group : list pfcp_group_ie_def := group_table
  [0 |-> ie_vendor VENDOR_BBF PFCP_IE_BBF_NAT_PORT_BLOCK "block"; (* TP_CREATED_BINDING_NAT_PORT_BLOCK *)
   1 |-> ie_vendor VENDOR_BBF PFCP_IE_BBF_NAT_OUTSIDE_ADDRESS "outside_addr"; (* TP_CREATED_BINDING_NAT_OUTSIDE_ADDRESS *)
   2 |-> ie_vendor VENDOR_BBF PFCP_IE_BBF_NAT_EXTERNAL_PORT_RANGE "port_range" (* TP_CREATED_BINDING_NAT_EXTERNAL_PORT_RANGE *)
  ].

Definition pfcp_simple_response_group : list pfcp_group_ie_def := group_table
  [1 |-> ie PFCP_IE_CAUSE "response.cause"; (* PFCP_RESPONSE_CAUSE *)
   2 |-> ie PFCP_IE_OFFENDING_IE "response.offending_ie"; (* PFCP_RESPONSE_OFFENDING_IE *)
   3 |-> ie PFCP_IE_RECOVERY_TIME_STAMP "response.recovery_time_stamp"; (* PFCP_RESPONSE_RECOVERY_TIME_STAMP *)
   4 |-> ie_vendor VENDOR_TRAVELPING PFCP_IE_TP_ERROR_REPORT "response.tp_error_report" (* PFCP_RESPONSE_TP_ERROR_REPORT *)
  ].

Definition pfcp_heartbeat_request_group : list pfcp_group_ie_def := group_table
  [0 |-> ie PFCP_IE_RECOVERY_TIME_STAMP "recovery_time_stamp" (* HEARTBEAT_REQUEST_RECOVERY_TIME_STAMP *)
  ].

Definition pfcp_pfd_management_request_group : list pfcp_group_ie_def := group_table
  [0 |-> ie_array PFCP_IE_APPLICATION_ID_PFDS "application_id_pfds" (* PFD_MANAGEMENT_REQUEST_APPLICATION_ID_PFDS *)
  ].

Definition pfcp_association_setup_request_group : list pfcp_group_ie_def := group_table
  [0 |-> ie PFCP_IE_NODE_ID "request.node_id"; (* ASSOCIATION_SETUP_REQUEST_NODE_ID *)
   1 |-> ie PFCP_IE_RECOVERY_TIME_STAMP "recovery_time_stamp"; (* ASSOCIATION_SETUP_REQUEST_RECOVERY_TIME_STAMP *)
   3 |-> ie PFCP_IE_CP_FUNCTION_FEATURES "cp_function_features"; (* ASSOCIATION_SETUP_REQUEST_CP_FUNCTION_FEATURES *)
   2 |-> ie PFCP_IE_UP_FUNCTION_FEATURES "up_function_features"; (* ASSOCIATION_SETUP_REQUEST_UP_FUNCTION_FEATURES *)
   4 |-> ie_array PFCP_IE_USER_PLANE_IP_RESOURCE_INFORMATION "user_plane_ip_resource_information"; (* ASSOCIATION_SETUP_REQUEST_USER_PLANE_IP_RESOURCE_INFORMATION *)
   6 |-> ie_vendor VENDOR_TRAVELPING PFCP_IE_TP_BUILD_ID "tp_build_id"; (* ASSOCIATION_SETUP_REQUEST_TP_BUILD_ID *)
   5 |-> ie_array PFCP_IE_UE_IP_ADDRESS_POOL_INFORMATION "ue_ip_address_pool_information"; (* ASSOCIATION_SETUP_REQUEST_UE_IP_ADDRESS_POOL_INFORMATION *)
   7 |-> ie_array PFCP_IE_ALTERNATIVE_SMF_IP_ADDRESS "alternative_smf_ip_address" (* ASSOCIATION_SETUP_REQUEST_ALTERNATIVE_SMF_IP_ADDRESS *)
  ].

Definition pfcp_association_setup_response_group : list pfcp_group_ie_def := group_table
  [0 |-> ie PFCP_IE_NODE_ID "node_id"; (* ASSOCIATION_PROCEDURE_RESPONSE_NODE_ID *)
   1 |-> ie PFCP_IE_CAUSE "cause"; (* ASSOCIATION_PROCEDURE_RESPONSE_CAUSE *)
   8 |-> ie_vendor VENDOR_TRAVELPING PFCP_IE_TP_ERROR_REPORT "tp_error_report"; (* ASSOCIATION_PROCEDURE_RESPONSE_TP_ERROR_REPORT *)
   2 |-> ie PFCP_IE_RECOVERY_TIME_STAMP "recovery_time_stamp"; (* ASSOCIATION_PROCEDURE_RESPONSE_RECOVERY_TIME_STAMP *)
   4 |-> ie PFCP_IE_CP_FUNCTION_FEATURES "cp_function_features"; (* ASSOCIATION_PROCEDURE_RESPONSE_CP_FUNCTION_FEATURES *)
   3 |-> ie PFCP_IE_UP_FUNCTION_FEATURES "up_function_features"; (* ASSOCIATION_PROCEDURE_RESPONSE_UP_FUNCTION_FEATURES *)
   5 |-> ie_vendor VENDOR_BBF PFCP_IE_BBF_UP_FUNCTION_FEATURES "bbf_up_function_features"; (* ASSOCIATION_PROCEDURE_RESPONSE_BBF_UP_FUNCTION_FEATURES *)
   7 |-> ie_array PFCP_IE_USER_PLANE_IP_RESOURCE_INFORMATION "user_plane_ip_resource_information"; (* ASSOCIATION_PROCEDURE_RESPONSE_USER_PLANE_IP_RESOURCE_INFORMATION *)
   9 |-> ie_vendor VENDOR_TRAVELPING PFCP_IE_TP_BUILD_ID "tp_build_id"; (* ASSOCIATION_PROCEDURE_RESPONSE_TP_BUILD_ID *)
   6 |-> ie_array PFCP_IE_UE_IP_ADDRESS_POOL_INFORMATION "ue_ip_address_pool_information" (* ASSOCIATION_PROCEDURE_RESPONSE_UE_IP_ADDRESS_POOL_INFORMATION *)
  ].

Definition pfcp_association_update_request_group : list pfcp_group_ie_def := group_table
  [0 |-> ie PFCP_IE_NODE_ID "request.node_id"; (* ASSOCIATION_UPDATE_REQUEST_NODE_ID *)
   1 |-> ie PFCP_IE_CP_FUNCTION_FEATURES "cp_function_features"; (* ASSOCIATION_UPDATE_REQUEST_CP_FUNCTION_FEATURES *)
   2 |-> ie PFCP_IE_UP_FUNCTION_FEATURES "up_function_features"; (* ASSOCIATION_UPDATE_REQUEST_UP_FUNCTION_FEATURES *)
   3 |-> ie PFCP_IE_PFCP_ASSOCIATION_RELEASE_REQUEST "pfcp_association_release_request"; (* ASSOCIATION_UPDATE_REQUEST_PFCP_ASSOCIATION_RELEASE_REQUEST *)
   4 |-> ie PFCP_IE_GRACEFUL_RELEASE_PERIOD "graceful_release_period"; (* ASSOCIATION_UPDATE_REQUEST_GRACEFUL_RELEASE_PERIOD *)
   6 |-> ie_array PFCP_IE_USER_PLANE_IP_RESOURCE_INFORMATION "user_plane_ip_resource_information"; (* ASSOCIATION_UPDATE_REQUEST_USER_PLANE_IP_RESOURCE_INFORMATION *)
   7 |-> ie PFCP_IE_PFCPAUREQ_FLAGS "pfcpaureq_flags"; (* ASSOCIATION_UPDATE_REQUEST_PFCPAUREQ_FLAGS *)
   5 |-> ie_array PFCP_IE_UE_IP_ADDRESS_POOL_INFORMATION "ue_ip_address_pool_information"; (* ASSOCIATION_UPDATE_REQUEST_UE_IP_ADDRESS_POOL_INFORMATION *)
   9 |-> ie_array PFCP_IE_ALTERNATIVE_SMF_IP_ADDRESS "alternative_smf_ip_address" (* ASSOCIATION_UPDATE_REQUEST_ALTERNATIVE_SMF_IP_ADDRESS *)
  ].

Definition pfcp_association_update_response_group : list pfcp_group_ie_def := group_table
  [0 |-> ie PFCP_IE_NODE_ID "node_id"; (* ASSOCIATION_PROCEDURE_RESPONSE_NODE_ID *)
   1 |-> ie PFCP_IE_CAUSE "cause"; (* ASSOCIATION_PROCEDURE_RESPONSE_CAUSE *)
   8 |-> ie_vendor VENDOR_TRAVELPING PFCP_IE_TP_ERROR_REPORT "tp_error_report"; (* ASSOCIATION_PROCEDURE_RESPONSE_TP_ERROR_REPORT *)
   4 |-> ie PFCP_IE_CP_FUNCTION_FEATURES "cp_function_features"; (* ASSOCIATION_PROCEDURE_RESPONSE_CP_FUNCTION_FEATURES *)
   3 |-> ie PFCP_IE_UP_FUNCTION_FEATURES "up_function_features" (* ASSOCIATION_PROCEDURE_RESPONSE_UP_FUNCTION_FEATURES *)
  ].

Definition pfcp_association_release_request_group : list pfcp_group_ie_def := group_table
  [0 |-> ie PFCP_IE_NODE_ID "request.node_id" (* ASSOCIATION_RELEASE_REQUEST_NODE_ID *)
  ].

Definition pfcp_node_report_request_group : list pfcp_group_ie_def := group_table
  [0 |-> ie PFCP_IE_NODE_ID "request.node_id"; (* NODE_REPORT_REQUEST_NODE_ID *)
   1 |-> ie PFCP_IE_NODE_REPORT_TYPE "node_report_type"; (* NODE_REPORT_REQUEST_NODE_REPORT_TYPE *)
   2 |-> ie PFCP_IE_USER_PLANE_PATH_FAILURE_REPORT "user_plane_path_failure_report" (* NODE_REPORT_REQUEST_USER_PLANE_PATH_FAILURE_REPORT *)
  ].

Definition pfcp_session_set_deletion_request_group : list pfcp_group_ie_def := group_table
  [0 |-> ie PFCP_IE_NODE_ID "request.node_id"; (* SESSION_SET_DELETION_REQUEST_NODE_ID *)
   1 |-> ie_array PFCP_IE_FQ_CSID "fq_csid" (* SESSION_SET_DELETION_REQUEST_FQ_CSID *)
  ].

Definition pfcp_session_establishment_request_group : list pfcp_group_ie_def := group_table
  [0 |-> ie PFCP_IE_NODE_ID "request.node_id"; (* SESSION_ESTABLISHMENT_REQUEST_NODE_ID *)
   1 |-> ie PFCP_IE_F_SEID "f_seid"; (* SESSION_ESTABLISHMENT_REQUEST_F_SEID *)
   2 |-> ie_array PFCP_IE_CREATE_PDR "create_pdr"; (* SESSION_ESTABLISHMENT_REQUEST_CREATE_PDR *)
   3 |-> ie_array PFCP_IE_CREATE_FAR "create_far"; (* SESSION_ESTABLISHMENT_REQUEST_CREATE_FAR *)
   4 |-> ie_array PFCP_IE_CREATE_URR "create_urr"; (* SESSION_ESTABLISHMENT_REQUEST_CREATE_URR *)
   5 |-> ie_array PFCP_IE_CREATE_QER "create_qer"; (* SESSION_ESTABLISHMENT_REQUEST_CREATE_QER *)
   6 |-> ie_array PFCP_IE_CREATE_BAR "create_bar"; (* SESSION_ESTABLISHMENT_REQUEST_CREATE_BAR *)
   7 |-> ie_array PFCP_IE_CREATE_TRAFFIC_ENDPOINT "create_traffic_endpoint"; (* SESSION_ESTABLISHMENT_REQUEST_CREATE_TRAFFIC_ENDPOINT *)
   8 |-> ie PFCP_IE_PDN_TYPE "pdn_type"; (* SESSION_ESTABLISHMENT_REQUEST_PDN_TYPE *)
   9 |-> ie_array PFCP_IE_FQ_CSID "fq_csid"; (* SESSION_ESTABLISHMENT_REQUEST_FQ_CSID *)
   10 |-> ie PFCP_IE_USER_PLANE_INACTIVITY_TIMER "user_plane_inactivity_timer"; (* SESSION_ESTABLISHMENT_REQUEST_USER_PLANE_INACTIVITY_TIMER *)
   11 |-> ie PFCP_IE_USER_ID "user_id"; (* SESSION_ESTABLISHMENT_REQUEST_USER_ID *)
   12 |-> ie PFCP_IE_TRACE_INFORMATION "trace_information"; (* SESSION_ESTABLISHMENT_REQUEST_TRACE_INFORMATION *)
   13 |-> ie PFCP_IE_APN_DNN "apn_dnn"; (* SESSION_ESTABLISHMENT_REQUEST_APN_DNN *)
   14 |-> ie_array PFCP_IE_CREATE_MAR "create_mar" (* SESSION_ESTABLISHMENT_REQUEST_CREATE_MAR *)
  ].

Definition pfcp_session_establishment_response_group : list pfcp_group_ie_def := group_table
  [0 |-> ie PFCP_IE_NODE_ID "node_id"; (* SESSION_PROCEDURE_RESPONSE_NODE_ID *)
   1 |-> ie PFCP_IE_CAUSE "cause"; (* SESSION_PROCEDURE_RESPONSE_CAUSE *)
   2 |-> ie PFCP_IE_OFFENDING_IE "offending_ie"; (* SESSION_PROCEDURE_RESPONSE_OFFENDING_IE *)
   3 |-> ie_vendor VENDOR_TRAVELPING PFCP_IE_TP_ERROR_REPORT "tp_error_report"; (* SESSION_PROCEDURE_RESPONSE_TP_ERROR_REPORT *)
   4 |-> ie PFCP_IE_F_SEID "up_f_seid"; (* SESSION_PROCEDURE_RESPONSE_UP_F_SEID *)
   5 |-> ie_array PFCP_IE_CREATED_PDR "created_pdr"; (* SESSION_PROCEDURE_RESPONSE_CREATED_PDR *)
   6 |-> ie PFCP_IE_LOAD_CONTROL_INFORMATION "load_control_information"; (* SESSION_PROCEDURE_RESPONSE_LOAD_CONTROL_INFORMATION *)
   7 |-> ie PFCP_IE_OVERLOAD_CONTROL_INFORMATION "overload_control_information"; (* SESSION_PROCEDURE_RESPONSE_OVERLOAD_CONTROL_INFORMATION *)
   9 |-> ie_array PFCP_IE_FQ_CSID "fq_csid"; (* SESSION_PROCEDURE_RESPONSE_FQ_CSID *)
   10 |-> ie PFCP_IE_FAILED_RULE_ID "failed_rule_id"; (* SESSION_PROCEDURE_RESPONSE_FAILED_RULE_ID *)
   12 |-> ie_array PFCP_IE_CREATED_TRAFFIC_ENDPOINT "created_traffic_endpoint"; (* SESSION_PROCEDURE_RESPONSE_CREATED_TRAFFIC_ENDPOINT *)
   13 |-> ie_vendor VENDOR_TRAVELPING PFCP_IE_TP_CREATED_NAT_BINDING "created_binding" (* SESSION_PROCEDURE_RESPONSE_TP_CREATED_BINDING *)
  ].

Definition pfcp_session_modification_request_group : list pfcp_group_ie_def := group_table
  [0 |-> ie PFCP_IE_F_SEID "f_seid"; (* SESSION_MODIFICATION_REQUEST_F_SEID *)
   1 |-> ie_array PFCP_IE_REMOVE_PDR "remove_pdr"; (* SESSION_MODIFICATION_REQUEST_REMOVE_PDR *)
   2 |-> ie_array PFCP_IE_REMOVE_FAR "remove_far"; (* SESSION_MODIFICATION_REQUEST_REMOVE_FAR *)
   3 |-> ie_array PFCP_IE_REMOVE_URR "remove_urr"; (* SESSION_MODIFICATION_REQUEST_REMOVE_URR *)
   4 |-> ie_array PFCP_IE_REMOVE_QER "remove_qer"; (* SESSION_MODIFICATION_REQUEST_REMOVE_QER *)
   5 |-> ie_array PFCP_IE_REMOVE_BAR "remove_bar"; (* SESSION_MODIFICATION_REQUEST_REMOVE_BAR *)
   6 |-> ie_array PFCP_IE_REMOVE_TRAFFIC_ENDPOINT "remove_traffic_endpoint"; (* SESSION_MODIFICATION_REQUEST_REMOVE_TRAFFIC_ENDPOINT *)
   7 |-> ie_array PFCP_IE_CREATE_PDR "create_pdr"; (* SESSION_MODIFICATION_REQUEST_CREATE_PDR *)
   8 |-> ie_array PFCP_IE_CREATE_FAR "create_far"; (* SESSION_MODIFICATION_REQUEST_CREATE_FAR *)
   9 |-> ie_array PFCP_IE_CREATE_URR "create_urr"; (* SESSION_MODIFICATION_REQUEST_CREATE_URR *)
   10 |-> ie_array PFCP_IE_CREATE_QER "create_qer"; (* SESSION_MODIFICATION_REQUEST_CREATE_QER *)
   11 |-> ie_array PFCP_IE_CREATE_BAR "create_bar"; (* SESSION_MODIFICATION_REQUEST_CREATE_BAR *)
   12 |-> ie_array PFCP_IE_CREATE_TRAFFIC_ENDPOINT "create_traffic_endpoint"; (* SESSION_MODIFICATION_REQUEST_CREATE_TRAFFIC_ENDPOINT *)
   13 |-> ie_array PFCP_IE_UPDATE_PDR "update_pdr"; (* SESSION_MODIFICATION_REQUEST_UPDATE_PDR *)
   14 |-> ie_array PFCP_IE_UPDATE_FAR "update_far"; (* SESSION_MODIFICATION_REQUEST_UPDATE_FAR *)
   15 |-> ie_array PFCP_IE_UPDATE_URR "update_urr"; (* SESSION_MODIFICATION_REQUEST_UPDATE_URR *)
   16 |-> ie_array PFCP_IE_UPDATE_QER "update_qer"; (* SESSION_MODIFICATION_REQUEST_UPDATE_QER *)
   17 |-> ie_array PFCP_IE_UPDATE_BAR_REQUEST "update_bar"; (* SESSION_MODIFICATION_REQUEST_UPDATE_BAR *)
   18 |-> ie_array PFCP_IE_UPDATE_TRAFFIC_ENDPOINT "update_traffic_endpoint"; (* SESSION_MODIFICATION_REQUEST_UPDATE_TRAFFIC_ENDPOINT *)
   19 |-> ie PFCP_IE_PFCPSMREQ_FLAGS "pfcpsmreq_flags"; (* SESSION_MODIFICATION_REQUEST_PFCPSMREQ_FLAGS *)
   20 |-> ie_array PFCP_IE_QUERY_URR "query_urr"; (* SESSION_MODIFICATION_REQUEST_QUERY_URR *)
   21 |-> ie_array PFCP_IE_FQ_CSID "fq_csid"; (* SESSION_MODIFICATION_REQUEST_FQ_CSID *)
   22 |-> ie PFCP_IE_USER_PLANE_INACTIVITY_TIMER "user_plane_inactivity_timer"; (* SESSION_MODIFICATION_REQUEST_USER_PLANE_INACTIVITY_TIMER *)
   23 |-> ie PFCP_IE_QUERY_URR_REFERENCE "query_urr_reference"; (* SESSION_MODIFICATION_REQUEST_QUERY_URR_REFERENCE *)
   24 |-> ie PFCP_IE_TRACE_INFORMATION "trace_information"; (* SESSION_MODIFICATION_REQUEST_TRACE_INFORMATION *)
   25 |-> ie_array PFCP_IE_REMOVE_MAR "remove_mar"; (* SESSION_MODIFICATION_REQUEST_REMOVE_MAR *)
   26 |-> ie_array PFCP_IE_UPDATE_MAR "update_mar"; (* SESSION_MODIFICATION_REQUEST_UPDATE_MAR *)
   27 |-> ie_array PFCP_IE_CREATE_MAR "create_mar" (* SESSION_MODIFICATION_REQUEST_CREATE_MAR *)
  ].

Definition pfcp_session_modification_response_group : list pfcp_group_ie_def := group_table
  [1 |-> ie PFCP_IE_CAUSE "cause"; (* SESSION_PROCEDURE_RESPONSE_CAUSE *)
   2 |-> ie PFCP_IE_OFFENDING_IE "offending_ie"; (* SESSION_PROCEDURE_RESPONSE_OFFENDING_IE *)
   3 |-> ie_vendor VENDOR_TRAVELPING PFCP_IE_TP_ERROR_REPORT "tp_error_report"; (* SESSION_PROCEDURE_RESPONSE_TP_ERROR_REPORT *)
   5 |-> ie_array PFCP_IE_CREATED_PDR "created_pdr"; (* SESSION_PROCEDURE_RESPONSE_CREATED_PDR *)
   6 |-> ie PFCP_IE_LOAD_CONTROL_INFORMATION "load_control_information"; (* SESSION_PROCEDURE_RESPONSE_LOAD_CONTROL_INFORMATION *)
   7 |-> ie PFCP_IE_OVERLOAD_CONTROL_INFORMATION "overload_control_information"; (* SESSION_PROCEDURE_RESPONSE_OVERLOAD_CONTROL_INFORMATION *)
   8 |-> ie_array PFCP_IE_USAGE_REPORT_SMR "usage_report"; (* SESSION_PROCEDURE_RESPONSE_USAGE_REPORT *)
   10 |-> ie PFCP_IE_FAILED_RULE_ID "failed_rule_id"; (* SESSION_PROCEDURE_RESPONSE_FAILED_RULE_ID *)
   11 |-> ie PFCP_IE_ADDITIONAL_USAGE_REPORTS_INFORMATION "additional_usage_reports_information"; (* SESSION_PROCEDURE_RESPONSE_ADDITIONAL_USAGE_REPORTS_INFORMATION *)
   12 |-> ie_array PFCP_IE_CREATED_TRAFFIC_ENDPOINT "created_traffic_endpoint" (* SESSION_PROCEDURE_RESPONSE_CREATED_TRAFFIC_ENDPOINT *)
  ].

Definition pfcp_session_deletion_response_group : list pfcp_group_ie_def := group_table
  [1 |-> ie PFCP_IE_CAUSE "cause"; (* SESSION_PROCEDURE_RESPONSE_CAUSE *)
   2 |-> ie PFCP_IE_OFFENDING_IE "offending_ie"; (* SESSION_PROCEDURE_RESPONSE_OFFENDING_IE *)
   3 |-> ie_vendor VENDOR_TRAVELPING PFCP_IE_TP_ERROR_REPORT "tp_error_report"; (* SESSION_PROCEDURE_RESPONSE_TP_ERROR_REPORT *)
   6 |-> ie PFCP_IE_LOAD_CONTROL_INFORMATION "load_control_information"; (* SESSION_PROCEDURE_RESPONSE_LOAD_CONTROL_INFORMATION *)
   7 |-> ie PFCP_IE_OVERLOAD_CONTROL_INFORMATION "overload_control_information"; (* SESSION_PROCEDURE_RESPONSE_OVERLOAD_CONTROL_INFORMATION *)
   8 |-> ie_array PFCP_IE_USAGE_REPORT_SDR "usage_report" (* SESSION_PROCEDURE_RESPONSE_USAGE_REPORT *)
  ].

Definition pfcp_session_report_request_group : list pfcp_group_ie_def := group_table
  [0 |-> ie PFCP_IE_REPORT_TYPE "report_type"; (* SESSION_REPORT_REQUEST_REPORT_TYPE *)
   1 |-> ie PFCP_IE_DOWNLINK_DATA_REPORT "downlink_data_report"; (* SESSION_REPORT_REQUEST_DOWNLINK_DATA_REPORT *)
   2 |-> ie_array PFCP_IE_USAGE_REPORT_SRR "usage_report"; (* SESSION_REPORT_REQUEST_USAGE_REPORT *)
   3 |-> ie PFCP_IE_ERROR_INDICATION_REPORT "error_indication_report"; (* SESSION_REPORT_REQUEST_ERROR_INDICATION_REPORT *)
   4 |-> ie PFCP_IE_LOAD_CONTROL_INFORMATION "load_control_information"; (* SESSION_REPORT_REQUEST_LOAD_CONTROL_INFORMATION *)
   5 |-> ie PFCP_IE_OVERLOAD_CONTROL_INFORMATION "overload_control_information"; (* SESSION_REPORT_REQUEST_OVERLOAD_CONTROL_INFORMATION *)
   6 |-> ie PFCP_IE_ADDITIONAL_USAGE_REPORTS_INFORMATION "additional_usage_reports_information"; (* SESSION_REPORT_REQUEST_ADDITIONAL_USAGE_REPORTS_INFORMATION *)
   7 |-> ie PFCP_IE_PACKET_REPORT "packet_report"; (* SESSION_REPORT_REQUEST_PACKET_REPORT *)
   8 |-> ie PFCP_IE_PFCPSRREQ_FLAGS "pfcpsrreq_flags" (* SESSION_REPORT_REQUEST_PFCPSRREQ_FLAGS *)
  ].

Definition pfcp_session_report_response_group : list pfcp_group_ie_def := group_table
  [1 |-> ie PFCP_IE_CAUSE "response.cause"; (* SESSION_REPORT_RESPONSE_CAUSE *)
   2 |-> ie PFCP_IE_OFFENDING_IE "response.offending_ie"; (* SESSION_REPORT_RESPONSE_OFFENDING_IE *)
   4 |-> ie_vendor VENDOR_TRAVELPING PFCP_IE_TP_ERROR_REPORT "response.tp_error_report"; (* SESSION_REPORT_RESPONSE_TP_ERROR_REPORT *)
   5 |-> ie_array PFCP_IE_UPDATE_BAR_RESPONSE "update_bar"; (* SESSION_REPORT_RESPONSE_UPDATE_BAR *)
   6 |-> ie PFCP_IE_PFCPSRRSP_FLAGS "pfcpsrrsp_flags"; (* SESSION_REPORT_RESPONSE_PFCPSRRSP_FLAGS *)
   7 |-> ie PFCP_IE_F_SEID "cp_f_seid"; (* SESSION_REPORT_RESPONSE_CP_F_SEID *)
   8 |-> ie PFCP_IE_F_TEID "n4_u_f_teid" (* SESSION_REPORT_RESPONSE_N4_u_F_TEID *)
  ].

(** ** Element tables *)

(** tgpp_specs, part 1 of 4 *)
Definition tgpp_specs_1 : list (Z * pfcp_ie_def) :=
  [PFCP_IE_CREATE_PDR |-> GROUP_IE (BITS [0; 1; 2]) pfcp_create_pdr_group;
   PFCP_IE_PDI |-> GROUP_IE (BITS [0]) pfcp_pdi_group;
   PFCP_IE_CREATE_FAR |-> GROUP_IE (BITS [0; 1]) pfcp_create_far_group;
   PFCP_IE_FORWARDING_PARAMETERS |-> GROUP_IE (BITS [0]) pfcp_forwarding_parameters_group;
   PFCP_IE_DUPLICATING_PARAMETERS |-> GROUP_IE (BITS [0]) pfcp_duplicating_parameters_group;
   PFCP_IE_CREATE_URR |-> GROUP_IE (BITS [0; 1; 2]) pfcp_create_urr_group;
   PFCP_IE_CREATE_QER |-> GROUP_IE (BITS [0; 2]) pfcp_create_qer_group;
   PFCP_IE_CREATED_PDR |-> GROUP_IE (BITS [0]) pfcp_created_pdr_group;
   PFCP_IE_UPDATE_PDR |-> GROUP_IE (BITS [0]) pfcp_update_pdr_group;
   PFCP_IE_UPDATE_FAR |-> GROUP_IE (BITS [0]) pfcp_update_far_group;
   PFCP_IE_UPDATE_FORWARDING_PARAMETERS |-> GROUP_IE 0 pfcp_update_forwarding_parameters_group;
   PFCP_IE_UPDATE_BAR_RESPONSE |-> GROUP_IE (BITS [0]) pfcp_update_bar_response_group;
   PFCP_IE_UPDATE_URR |-> GROUP_IE (BITS [0]) pfcp_update_urr_group;
   PFCP_IE_UPDATE_QER |-> GROUP_IE (BITS [0]) pfcp_update_qer_group;
   PFCP_IE_REMOVE_PDR |-> GROUP_IE (BITS [0]) pfcp_remove_pdr_group;
   PFCP_IE_REMOVE_FAR |-> GROUP_IE (BITS [0]) pfcp_remove_far_group;
   PFCP_IE_REMOVE_URR |-> GROUP_IE (BITS [0]) pfcp_remove_urr_group;
   PFCP_IE_REMOVE_QER |-> GROUP_IE (BITS [0]) pfcp_remove_qer_group;
   PFCP_IE_CAUSE |-> SIMPLE_IE K_u8_ie].

(** tgpp_specs, part 2 of 4 *)
Definition tgpp_specs_2 : list (Z * pfcp_ie_def) :=
  [PFCP_IE_SOURCE_INTERFACE |-> SIMPLE_IE K_source_interface;
   PFCP_IE_F_TEID |-> SIMPLE_IE K_f_teid;
   PFCP_IE_NETWORK_INSTANCE |-> SIMPLE_IE K_simple_vec_ie;
   PFCP_IE_SDF_FILTER |-> SIMPLE_IE K_sdf_filter;
   PFCP_IE_APPLICATION_ID |-> SIMPLE_IE K_simple_vec_ie;
   PFCP_IE_GATE_STATUS |-> SIMPLE_IE K_gate_status;
   PFCP_IE_MBR |-> SIMPLE_IE K_bit_rate;
   PFCP_IE_GBR |-> SIMPLE_IE K_bit_rate;
   PFCP_IE_QER_CORRELATION_ID |-> SIMPLE_IE K_u32_ie;
   PFCP_IE_PRECEDENCE |-> SIMPLE_IE K_u32_ie;
   PFCP_IE_TRANSPORT_LEVEL_MARKING |-> SIMPLE_IE K_u16_ie;
   PFCP_IE_VOLUME_THRESHOLD |-> SIMPLE_IE K_volume_ie;
   PFCP_IE_TIME_THRESHOLD |-> SIMPLE_IE K_u32_ie;
   PFCP_IE_MONITORING_TIME |-> SIMPLE_IE K_time_stamp_ie;
   PFCP_IE_SUBSEQUENT_VOLUME_THRESHOLD |-> SIMPLE_IE K_volume_ie;
   PFCP_IE_SUBSEQUENT_TIME_THRESHOLD |-> SIMPLE_IE K_u32_ie;
   PFCP_IE_INACTIVITY_DETECTION_TIME |-> SIMPLE_IE K_u32_ie;
   PFCP_IE_REPORTING_TRIGGERS |-> SIMPLE_IE K_u16_little_ie;
   PFCP_IE_REDIRECT_INFORMATION |-> SIMPLE_IE K_redirect_information;
   PFCP_IE_REPORT_TYPE |-> SIMPLE_IE K_u8_ie;
   PFCP_IE_OFFENDING_IE |-> SIMPLE_IE K_u16_ie;
   PFCP_IE_FORWARDING_POLICY |-> SIMPLE_IE K_forwarding_policy;
   PFCP_IE_DESTINATION_INTERFACE |-> SIMPLE_IE K_destination_interface;
   PFCP_IE_UP_FUNCTION_FEATURES |-> SIMPLE_IE K_up_function_features;
   PFCP_IE_APPLY_ACTION |-> SIMPLE_IE K_u8_ie;
   PFCP_IE_DOWNLINK_DATA_SERVICE_INFORMATION |-> SIMPLE_IE K_downlink_data_service_information;
   PFCP_IE_DOWNLINK_DATA_NOTIFICATION_DELAY |-> SIMPLE_IE K_u8_ie;
   PFCP_IE_DL_BUFFERING_DURATION |-> SIMPLE_IE K_timer_ie;
   PFCP_IE_DL_BUFFERING_SUGGESTED_PACKET_COUNT |-> SIMPLE_IE K_dl_buffering_suggested_packet_count;
   PFCP_IE_PFCPSMREQ_FLAGS |-> SIMPLE_IE K_u8_ie;
   PFCP_IE_PFCPSRRSP_FLAGS |-> SIMPLE_IE K_u8_ie;
   PFCP_IE_LOAD_CONTROL_INFORMATION |-> GROUP_IE (BITS [0; 1]) pfcp_load_control_information_group;
   PFCP_IE_SEQUENCE_NUMBER |-> SIMPLE_IE K_u32_ie;
   PFCP_IE_METRIC |-> SIMPLE_IE K_u8_ie;
   PFCP_IE_OVERLOAD_CONTROL_INFORMATION |-> GROUP_IE (BITS [0; 1; 2]) pfcp_overload_control_information_group;
   PFCP_IE_TIMER |-> SIMPLE_IE K_timer_ie;
   PFCP_IE_PDR_ID |-> SIMPLE_IE K_u16_ie;
   PFCP_IE_F_SEID |-> SIMPLE_IE K_f_seid;
   PFCP_IE_APPLICATION_ID_PFDS |-> GROUP_IE (BITS [0]) pfcp_application_id_pfds_group;
   PFCP_IE_PFD |-> GROUP_IE (BITS [0]) pfcp_pfd_group;
   PFCP_IE_NODE_ID |-> SIMPLE_IE K_node_id;
   PFCP_IE_PFD_CONTENTS |-> SIMPLE_IE K_pfd_contents;
   PFCP_IE_MEASUREMENT_METHOD |-> SIMPLE_IE K_u8_ie;
   PFCP_IE_USAGE_REPORT_TRIGGER |-> SIMPLE_IE K_usage_report_trigger;
   PFCP_IE_MEASUREMENT_PERIOD |-> SIMPLE_IE K_u32_ie;
   PFCP_IE_FQ_CSID |-> SIMPLE_IE K_fq_csid;
   PFCP_IE_VOLUME_MEASUREMENT |-> SIMPLE_IE K_volume_measurement;
   PFCP_IE_DURATION_MEASUREMENT |-> SIMPLE_IE K_u32_ie;
   PFCP_IE_APPLICATION_DETECTION_INFORMATION |-> GROUP_IE (BITS [0]) pfcp_application_detection_information_group;
   PFCP_IE_TIME_OF_FIRST_PACKET |-> SIMPLE_IE K_time_stamp_ie;
   PFCP_IE_TIME_OF_LAST_PACKET |-> SIMPLE_IE K_time_stamp_ie;
   PFCP_IE_QUOTA_HOLDING_TIME |-> SIMPLE_IE K_u32_ie;
   PFCP_IE_DROPPED_DL_TRAFFIC_THRESHOLD |-> SIMPLE_IE K_dropped_dl_traffic_threshold;
   PFCP_IE_VOLUME_QUOTA |-> SIMPLE_IE K_volume_ie;
   PFCP_IE_TIME_QUOTA |-> SIMPLE_IE K_u32_ie;
   PFCP_IE_START_TIME |-> SIMPLE_IE K_time_stamp_ie;
   PFCP_IE_END_TIME |-> SIMPLE_IE K_time_stamp_ie;
   PFCP_IE_QUERY_URR |-> GROUP_IE (BITS [0]) pfcp_query_urr_group;
   PFCP_IE_USAGE_REPORT_SMR |-> GROUP_IE (BITS [0; 1; 2]) pfcp_usage_report_smr_group;
   PFCP_IE_USAGE_REPORT_SDR |-> GROUP_IE (BITS [0; 1; 2]) pfcp_usage_report_sdr_group;
   PFCP_IE_USAGE_REPORT_SRR |-> GROUP_IE (BITS [0; 1; 2]) pfcp_usage_report_srr_group;
   PFCP_IE_URR_ID |-> SIMPLE_IE K_u32_ie;
   PFCP_IE_LINKED_URR_ID |-> SIMPLE_IE K_u32_ie].

(** tgpp_specs, part 3 of 4 *)
Definition tgpp_specs_3 : list (Z * pfcp_ie_def) :=
  [PFCP_IE_DOWNLINK_DATA_REPORT |-> GROUP_IE (BITS [0]) pfcp_downlink_data_report_group;
   PFCP_IE_OUTER_HEADER_CREATION |-> SIMPLE_IE K_outer_header_creation;
   PFCP_IE_CREATE_BAR |-> GROUP_IE (BITS [0]) pfcp_create_bar_group;
   PFCP_IE_UPDATE_BAR_REQUEST |-> GROUP_IE (BITS [0]) pfcp_update_bar_request_group;
   PFCP_IE_REMOVE_BAR |-> GROUP_IE (BITS [0]) pfcp_remove_bar_group;
   PFCP_IE_BAR_ID |-> SIMPLE_IE K_u8_ie;
   PFCP_IE_CP_FUNCTION_FEATURES |-> SIMPLE_IE K_u8_ie;
   PFCP_IE_USAGE_INFORMATION |-> SIMPLE_IE K_u8_ie;
   PFCP_IE_APPLICATION_INSTANCE_ID |-> SIMPLE_IE K_simple_vec_ie;
   PFCP_IE_FLOW_INFORMATION |-> SIMPLE_IE K_flow_information;
   PFCP_IE_UE_IP_ADDRESS |-> SIMPLE_IE K_ue_ip_address;
   PFCP_IE_PACKET_RATE |-> SIMPLE_IE K_packet_rate;
   PFCP_IE_OUTER_HEADER_REMOVAL |-> SIMPLE_IE K_u8_ie;
   PFCP_IE_RECOVERY_TIME_STAMP |-> SIMPLE_IE K_time_stamp_ie;
   PFCP_IE_DL_FLOW_LEVEL_MARKING |-> SIMPLE_IE K_dl_flow_level_marking;
   PFCP_IE_HEADER_ENRICHMENT |-> SIMPLE_IE K_header_enrichment;
   PFCP_IE_ERROR_INDICATION_REPORT |-> GROUP_IE (BITS [0]) pfcp_error_indication_report_group;
   PFCP_IE_MEASUREMENT_INFORMATION |-> SIMPLE_IE K_measurement_information;
   PFCP_IE_NODE_REPORT_TYPE |-> SIMPLE_IE K_node_report_type;
   PFCP_IE_USER_PLANE_PATH_FAILURE_REPORT |-> GROUP_IE (BITS [0]) pfcp_user_plane_path_failure_report_group;
   PFCP_IE_REMOTE_GTP_U_PEER |-> SIMPLE_IE K_remote_gtp_u_peer;
   PFCP_IE_UR_SEQN |-> SIMPLE_IE K_u32_ie;
   PFCP_IE_UPDATE_DUPLICATING_PARAMETERS |-> GROUP_IE 0 pfcp_update_duplicating_parameters_group;
   PFCP_IE_ACTIVATE_PREDEFINED_RULES |-> SIMPLE_IE K_simple_vec_ie;
   PFCP_IE_DEACTIVATE_PREDEFINED_RULES |-> SIMPLE_IE K_simple_vec_ie;
   PFCP_IE_FAR_ID |-> SIMPLE_IE K_u32_ie;
   PFCP_IE_QER_ID |-> SIMPLE_IE K_u32_ie;
   PFCP_IE_OCI_FLAGS |-> SIMPLE_IE K_oci_flags;
   PFCP_IE_PFCP_ASSOCIATION_RELEASE_REQUEST |-> SIMPLE_IE K_pfcp_association_release_request;
   PFCP_IE_GRACEFUL_RELEASE_PERIOD |-> SIMPLE_IE K_timer_ie;
   PFCP_IE_PDN_TYPE |-> SIMPLE_IE K_pdn_type;
   PFCP_IE_FAILED_RULE_ID |-> SIMPLE_IE K_failed_rule_id;
   PFCP_IE_TIME_QUOTA_MECHANISM |-> SIMPLE_IE K_time_quota_mechanism;
   PFCP_IE_USER_PLANE_IP_RESOURCE_INFORMATION |-> SIMPLE_IE K_user_plane_ip_resource_information;
   PFCP_IE_USER_PLANE_INACTIVITY_TIMER |-> SIMPLE_IE K_u32_ie;
   PFCP_IE_AGGREGATED_URRS |-> GROUP_IE (BITS [0; 1]) pfcp_aggregated_urrs_group;
   PFCP_IE_MULTIPLIER |-> SIMPLE_IE K_multiplier;
   PFCP_IE_AGGREGATED_URR_ID |-> SIMPLE_IE K_u32_ie;
   PFCP_IE_SUBSEQUENT_VOLUME_QUOTA |-> SIMPLE_IE K_volume_ie;
   PFCP_IE_SUBSEQUENT_TIME_QUOTA |-> SIMPLE_IE K_u32_ie;
   PFCP_IE_RQI |-> SIMPLE_IE K_rqi;
   PFCP_IE_QFI |-> SIMPLE_IE K_u8_ie;
   PFCP_IE_QUERY_URR_REFERENCE |-> SIMPLE_IE K_u32_ie;
   PFCP_IE_ADDITIONAL_USAGE_REPORTS_INFORMATION |-> SIMPLE_IE K_u16_ie;
   PFCP_IE_CREATE_TRAFFIC_ENDPOINT |-> GROUP_IE (BITS [0]) pfcp_create_traffic_endpoint_group;
   PFCP_IE_CREATED_TRAFFIC_ENDPOINT |-> GROUP_IE (BITS [0]) pfcp_created_traffic_endpoint_group;
   PFCP_IE_UPDATE_TRAFFIC_ENDPOINT |-> GROUP_IE (BITS [0]) pfcp_update_traffic_endpoint_group;
   PFCP_IE_REMOVE_TRAFFIC_ENDPOINT |-> GROUP_IE (BITS [0]) pfcp_remove_traffic_endpoint_group;
   PFCP_IE_TRAFFIC_ENDPOINT_ID |-> SIMPLE_IE K_u8_ie;
   PFCP_IE_ETHERNET_PACKET_FILTER |-> GROUP_IE 0 pfcp_ethernet_packet_filter_group].

(** tgpp_specs, part 4 of 4 *)
Definition tgpp_specs_4 : list (Z * pfcp_ie_def) :=
  [PFCP_IE_MAC_ADDRESS |-> SIMPLE_IE K_pfcp_mac_address;
   PFCP_IE_C_TAG |-> SIMPLE_IE K_vlan_tag;
   PFCP_IE_S_TAG |-> SIMPLE_IE K_vlan_tag;
   PFCP_IE_ETHERTYPE |-> SIMPLE_IE K_u16_ie;
   PFCP_IE_PROXYING |-> SIMPLE_IE K_proxying;
   PFCP_IE_ETHERNET_FILTER_ID |-> SIMPLE_IE K_u32_ie;
   PFCP_IE_ETHERNET_FILTER_PROPERTIES |-> SIMPLE_IE K_ethernet_filter_properties;
   PFCP_IE_SUGGESTED_BUFFERING_PACKETS_COUNT |-> SIMPLE_IE K_u8_ie;
   PFCP_IE_USER_ID |-> SIMPLE_IE K_user_id;
   PFCP_IE_ETHERNET_PDU_SESSION_INFORMATION |-> SIMPLE_IE K_ethernet_pdu_session_information;
   PFCP_IE_ETHERNET_TRAFFIC_INFORMATION |-> GROUP_IE 0 pfcp_ethernet_traffic_information_group;
   PFCP_IE_MAC_ADDRESSES_DETECTED |-> SIMPLE_IE K_mac_addresses_vec;
   PFCP_IE_MAC_ADDRESSES_REMOVED |-> SIMPLE_IE K_mac_addresses_vec;
   PFCP_IE_ETHERNET_INACTIVITY_TIMER |-> SIMPLE_IE K_u32_ie;
   PFCP_IE_ADDITIONAL_MONITORING_TIME |-> GROUP_IE 0 pfcp_additional_monitoring_time_group;
   PFCP_IE_EVENT_QUOTA |-> SIMPLE_IE K_u32_ie;
   PFCP_IE_EVENT_THRESHOLD |-> SIMPLE_IE K_u32_ie;
   PFCP_IE_SUBSEQUENT_EVENT_QUOTA |-> SIMPLE_IE K_u32_ie;
   PFCP_IE_SUBSEQUENT_EVENT_THRESHOLD |-> SIMPLE_IE K_u32_ie;
   PFCP_IE_TRACE_INFORMATION |-> SIMPLE_IE K_trace_information;
   PFCP_IE_FRAMED_ROUTE |-> SIMPLE_IE K_simple_vec_ie;
   PFCP_IE_FRAMED_ROUTING |-> SIMPLE_IE K_u8_ie;
   PFCP_IE_FRAMED_IPV6_ROUTE |-> SIMPLE_IE K_simple_vec_ie;
   PFCP_IE_EVENT_TIME_STAMP |-> SIMPLE_IE K_time_stamp_ie;
   PFCP_IE_AVERAGING_WINDOW |-> SIMPLE_IE K_u32_ie;
   PFCP_IE_PAGING_POLICY_INDICATOR |-> SIMPLE_IE K_u8_ie;
   PFCP_IE_APN_DNN |-> SIMPLE_IE K_simple_vec_ie;
   PFCP_IE_TGPP_INTERFACE_TYPE |-> SIMPLE_IE K_u8_ie;
   PFCP_IE_PFCPSRREQ_FLAGS |-> SIMPLE_IE K_u8_ie;
   PFCP_IE_PFCPAUREQ_FLAGS |-> SIMPLE_IE K_u8_ie;
   PFCP_IE_ACTIVATION_TIME |-> SIMPLE_IE K_time_stamp_ie;
   PFCP_IE_DEACTIVATION_TIME |-> SIMPLE_IE K_time_stamp_ie;
   PFCP_IE_CREATE_MAR |-> GROUP_IE 0 pfcp_create_mar_group;
   PFCP_IE_ACCESS_FORWARDING_ACTION_INFORMATION_1 |-> GROUP_IE 0 pfcp_access_forwarding_action_information_group;
   PFCP_IE_ACCESS_FORWARDING_ACTION_INFORMATION_2 |-> GROUP_IE 0 pfcp_access_forwarding_action_information_group;
   PFCP_IE_REMOVE_MAR |-> GROUP_IE 0 pfcp_remove_mar_group;
   PFCP_IE_UPDATE_MAR |-> GROUP_IE 0 pfcp_update_mar_group;
   PFCP_IE_MAR_ID |-> SIMPLE_IE K_u16_ie;
   PFCP_IE_STEERING_FUNCTIONALITY |-> SIMPLE_IE K_u8_ie;
   PFCP_IE_STEERING_MODE |-> SIMPLE_IE K_u8_ie;
   PFCP_IE_WEIGHT |-> SIMPLE_IE K_u8_ie;
   PFCP_IE_PRIORITY |-> SIMPLE_IE K_u8_ie;
   PFCP_IE_UPDATE_ACCESS_FORWARDING_ACTION_INFORMATION_1 |-> GROUP_IE 0 pfcp_update_access_forwarding_action_information_group;
   PFCP_IE_UPDATE_ACCESS_FORWARDING_ACTION_INFORMATION_2 |-> GROUP_IE 0 pfcp_update_access_forwarding_action_information_group;
   PFCP_IE_UE_IP_ADDRESS_POOL_IDENTITY |-> SIMPLE_IE K_ue_ip_address_pool_identity;
   PFCP_IE_ALTERNATIVE_SMF_IP_ADDRESS |-> SIMPLE_IE K_alternative_smf_ip_address;
   PFCP_IE_QUOTA_VALIDITY_TIME |-> SIMPLE_IE K_u32_ie;
   PFCP_IE_UE_IP_ADDRESS_POOL_INFORMATION |-> GROUP_IE 0 pfcp_ue_ip_address_pool_group;
   PFCP_IE_IP_VERSION |-> SIMPLE_IE K_ip_version;
   PFCP_IE_PACKET_REPORT |-> GROUP_IE (BITS [0]) pfcp_packet_report_group;
   PFCP_IE_TRAFFIC_REPORT_PACKET_TYPE |-> SIMPLE_IE K_u8_ie;
   PFCP_IE_TRAFFIC_REPORT_PACKET_HEADER |-> SIMPLE_IE K_fatemeh_packet_header;
   PFCP_IE_TRAFFIC_REPORT_PACKET_DATA |-> SIMPLE_IE K_fatemeh_packet_data].

Definition tgpp_specs : list (Z * pfcp_ie_def) := tgpp_specs_1 ++ tgpp_specs_2 ++ tgpp_specs_3 ++ tgpp_specs_4.

Definition vendor_tp_specs : list (Z * pfcp_ie_def) :=
  [PFCP_IE_TP_PACKET_MEASUREMENT |-> SIMPLE_IE K_volume_ie;
   PFCP_IE_TP_BUILD_ID |-> SIMPLE_IE K_simple_vec_ie;
   PFCP_IE_TP_NOW |-> SIMPLE_IE K_sntp_time_stamp_ie;
   PFCP_IE_TP_START_TIME |-> SIMPLE_IE K_sntp_time_stamp_ie;
   PFCP_IE_TP_END_TIME |-> SIMPLE_IE K_sntp_time_stamp_ie;
   PFCP_IE_TP_ERROR_REPORT |-> GROUP_IE (BITS [0]) pfcp_tp_error_report_group;
   PFCP_IE_TP_CREATED_NAT_BINDING |-> GROUP_IE 0 pfcp_tp_created_binding_group;
   PFCP_IE_TP_ERROR_MESSAGE |-> SIMPLE_IE K_simple_vec_ie;
   PFCP_IE_TP_FILE_NAME |-> SIMPLE_IE K_simple_vec_ie;
   PFCP_IE_TP_LINE_NUMBER |-> SIMPLE_IE K_u32_ie].

Definition vendor_bbf_specs : list (Z * pfcp_ie_def) :=
  [PFCP_IE_BBF_UP_FUNCTION_FEATURES |-> SIMPLE_IE K_bbf_up_function_features;
   PFCP_IE_BBF_NAT_OUTSIDE_ADDRESS |-> SIMPLE_IE K_bbf_nat_outside_address;
   PFCP_IE_BBF_APPLY_ACTION |-> SIMPLE_IE K_u8_ie;
   PFCP_IE_BBF_NAT_PORT_BLOCK |-> SIMPLE_IE K_simple_vec_ie;
   PFCP_IE_BBF_NAT_EXTERNAL_PORT_RANGE |-> SIMPLE_IE K_bbf_nat_external_port_range].

(** ** Messages *)

(** msg_specs, part 1 of 2 *)
Definition msg_specs_1 : list (Z * pfcp_ie_def) :=
  [PFCP_HEARTBEAT_REQUEST |-> GROUP_IE (BITS [0]) pfcp_heartbeat_request_group;
   PFCP_HEARTBEAT_RESPONSE |-> GROUP_IE (BITS [3]) pfcp_simple_response_group;
   PFCP_PFD_MANAGEMENT_REQUEST |-> GROUP_IE 0 pfcp_pfd_management_request_group;
   PFCP_ASSOCIATION_SETUP_REQUEST |-> GROUP_IE (BITS [0; 1]) pfcp_association_setup_request_group;
   PFCP_ASSOCIATION_SETUP_RESPONSE |-> GROUP_IE (BITS [0; 1; 2]) pfcp_association_setup_response_group;
   PFCP_ASSOCIATION_UPDATE_REQUEST |-> GROUP_IE (BITS [0]) pfcp_association_update_request_group;
   PFCP_ASSOCIATION_UPDATE_RESPONSE |-> GROUP_IE (BITS [0; 1]) pfcp_association_update_response_group;
   PFCP_ASSOCIATION_RELEASE_REQUEST |-> GROUP_IE (BITS [0]) pfcp_association_release_request_group;
   PFCP_ASSOCIATION_RELEASE_RESPONSE |-> GROUP_IE (BITS [0; 1]) pfcp_simple_response_group;
   PFCP_NODE_REPORT_REQUEST |-> GROUP_IE (BITS [0; 1]) pfcp_node_report_request_group;
   PFCP_NODE_REPORT_RESPONSE |-> GROUP_IE (BITS [0; 1]) pfcp_simple_response_group;
   PFCP_SESSION_SET_DELETION_REQUEST |-> GROUP_IE (BITS [0]) pfcp_session_set_deletion_request_group;
   PFCP_SESSION_SET_DELETION_RESPONSE |-> GROUP_IE (BITS [0; 1]) pfcp_simple_response_group;
   PFCP_SESSION_ESTABLISHMENT_REQUEST |-> GROUP_IE (BITS [0; 1; 2; 3]) pfcp_session_establishment_request_group;
   PFCP_SESSION_ESTABLISHMENT_RESPONSE |-> GROUP_IE (BITS [0; 1; 4]) pfcp_session_establishment_response_group;
   PFCP_SESSION_MODIFICATION_REQUEST |-> GROUP_IE 0 pfcp_session_modification_request_group;
   PFCP_SESSION_MODIFICATION_RESPONSE |-> GROUP_IE (BITS [1]) pfcp_session_modification_response_group].

(** msg_specs, part 2 of 2 *)
Definition msg_specs_2 : list (Z * pfcp_ie_def) :=
  [PFCP_SESSION_DELETION_REQUEST |-> GROUP_IE 0 [];
   PFCP_SESSION_DELETION_RESPONSE |-> GROUP_IE (BITS [1]) pfcp_session_deletion_response_group;
   PFCP_SESSION_REPORT_REQUEST |-> GROUP_IE (BITS [0]) pfcp_session_report_request_group;
   PFCP_SESSION_REPORT_RESPONSE |-> GROUP_IE (BITS [1]) pfcp_session_report_response_group].

Definition msg_specs : list (Z * pfcp_ie_def) := msg_specs_1 ++ msg_specs_2.
