(* ===== verification/PfcpCodec.v ===== *)
(** * The PFCP codec engine (src/upf/pfcp.c, get_ie_spec to
      pfcp_encode_version_not_supported_response)

    Table-driven decoding and encoding of groups and messages. A C struct that
    starts with [struct pfcp_group] is a [VGroup]: its presence bits, one list
    of values per entry of its table (no value: still zero; one value: a
    member; several: a vector), and the elements kept in [grp.ies]. *)

From Stdlib Require Import ZArith Lia.
From stdpp Require Import base list list_numbers option numbers decidable.
From S2P Require Import Prelude PfcpIo PfcpIe PfcpLeaf PfcpTables.

(** ** Decoded values *)

#[local] Unset Elimination Schemes.
Inductive val :=
| VLeaf (k : leaf) (x : leaf_ty k)
| VGroup (fields : Z) (members : list (list val)) (ies : list (list Z)).
#[local] Set Elimination Schemes.

(** zeroed memory of the C type of each codec *)
Definition leaf_zero (k : leaf) : leaf_ty k :=
  match k with
  | K_u8_ie | K_u16_ie | K_u16_little_ie | K_u32_ie | K_time_stamp_ie
  | K_source_interface | K_destination_interface | K_up_function_features
  | K_dl_buffering_suggested_packet_count | K_usage_report_trigger
  | K_measurement_information | K_node_report_type | K_oci_flags
  | K_pfcp_association_release_request | K_pdn_type | K_rqi | K_proxying
  | K_ethernet_filter_properties | K_ethernet_pdu_session_information
  | K_bbf_up_function_features | K_ip_version => 0
  | K_simple_vec_ie | K_ue_ip_address_pool_identity => None
  | K_volume_ie => Build_pfcp_volume_ie_t 0 0 0 0
  | K_timer_ie => Build_pfcp_timer_ie_t 0 0
  | K_sntp_time_stamp_ie => f64_of_Z 0
  | K_f_teid => Build_pfcp_f_teid_t 0 0 ip4_zero ip6_zero 0
  | K_sdf_filter => Build_pfcp_sdf_filter_t 0 None 0 0 0 0
  | K_gate_status => Build_pfcp_gate_status_t 0 0
  | K_bit_rate => Build_pfcp_bit_rate_t 0 0
  | K_redirect_information => Build_pfcp_redirect_information_t 0 ip6_zero ip6_zero None
  | K_forwarding_policy => Build_pfcp_forwarding_policy_t None
  | K_downlink_data_service_information =>
      Build_pfcp_downlink_data_service_information_t 0 0 0
  | K_f_seid => Build_pfcp_f_seid_t 0 0 ip4_zero ip6_zero
  | K_node_id => Build_pfcp_node_id_t 0 ip6_zero None
  | K_pfd_contents => Build_pfcp_pfd_contents_t None None None None None
  | K_fq_csid => Build_pfcp_fq_csid_t 0 ip6_zero 0 0 0 []
  | K_volume_measurement => Build_pfcp_volume_measurement_t 0 0 0 0 0 0 0
  | K_dropped_dl_traffic_threshold => Build_pfcp_dropped_dl_traffic_threshold_t 0 0 0
  | K_outer_header_creation => Build_pfcp_outer_header_creation_t 0 0 ip6_zero 0 0 0
  | K_flow_information => Build_pfcp_flow_information_t 0 None
  | K_ue_ip_address => Build_pfcp_ue_ip_address_t 0 ip4_zero ip6_zero 0 0
  | K_packet_rate =>
      Build_pfcp_packet_rate_t 0 packet_rate_zero packet_rate_zero packet_rate_zero
        packet_rate_zero
  | K_dl_flow_level_marking => Build_pfcp_dl_flow_level_marking_t 0 0 0
  | K_header_enrichment => Build_pfcp_header_enrichment_t 0 None None
  | K_remote_gtp_u_peer => Build_pfcp_remote_gtp_u_peer_t ip6_zero 0 None
  | K_failed_rule_id => Build_pfcp_failed_rule_id_t 0 0
  | K_time_quota_mechanism => Build_pfcp_time_quota_mechanism_t 0 0
  | K_user_plane_ip_resource_information =>
      Build_pfcp_user_plane_ip_resource_information_t 0 0 0 0 None ip4_zero ip6_zero
  | K_multiplier => Build_pfcp_multiplier_t 0 0
  | K_pfcp_mac_address => Build_pfcp_mac_address_t 0 mac_zero mac_zero mac_zero mac_zero
  | K_vlan_tag => Build_pfcp_vlan_tag_t 0 0
  | K_user_id => Build_pfcp_user_id_t 0 (array8 []) 0 (array8 []) 0 (array8 []) None
  | K_mac_addresses_vec => None
  | K_trace_information =>
      Build_pfcp_trace_information_t [0; 0; 0] 0 None 0 None ip6_zero
  | K_alternative_smf_ip_address => Build_pfcp_alternative_smf_ip_address_t 0 ip4_zero ip6_zero
  | K_bbf_nat_outside_address => ip4_zero
  | K_bbf_nat_external_port_range => Build_pfcp_bbf_nat_external_port_range_t 0 0
  | K_fatemeh_packet_header => Build_pfcp_fatemeh_packet_header_t 0 0 0 0 0 0 0 0 0 0
  | K_fatemeh_packet_data => Build_pfcp_fatemeh_packet_data_t 0 None
  end.

Definition zero_val (def : pfcp_ie_def) : val :=
  match def with
  | SIMPLE_IE k => VLeaf k (leaf_zero k)
  | GROUP_IE _ g => VGroup 0 (replicate (length g) []) []
  end.

(** ** Table access *)

Definition ISSET_BIT (mask n : Z) : bool := flag mask (BIT n).
Definition SET_BIT (mask n : Z) : Z := Z.lor mask (BIT n).

(** the first entry with the type; the vendor is not compared *)
Fixpoint get_ie_spec_from (i : nat) (group : list pfcp_group_ie_def) (type : Z)
  : option (nat * pfcp_group_ie_def) :=
  match group with
  | [] => None
  | item :: group =>
      if negb (gi_type item =? 0) && (gi_type item =? type) then Some (i, item)
      else get_ie_spec_from (S i) group type
  end.
Definition get_ie_spec (group : list pfcp_group_ie_def) (type : Z)
  : option (nat * pfcp_group_ie_def) := get_ie_spec_from 0 group type.

(** [None] is NULL; [Some None] points to an entry that is not initialised, or
    past the table *)
Definition get_ie_def (item : pfcp_group_ie_def) : option (option pfcp_ie_def) :=
  if gi_vendor item =? 0 then Some (spec_at tgpp_specs (gi_type item))
  else if gi_vendor item =? VENDOR_BBF then Some (spec_at vendor_bbf_specs (gi_type item))
  else if gi_vendor item =? VENDOR_TRAVELPING then Some (spec_at vendor_tp_specs (gi_type item))
  else None.

(** load [n] bytes at offset [off] of the received bytes [data] *)
Definition load (data : list Z) (off n : Z) : outcome (list Z) :=
  if Zlen data <? off + n then Fault OobRead
  else Ok (take (Z.to_nat n) (drop (Z.to_nat off) data)).

(** ** Decoding *)

(** the state decode_group builds: the group and the offending elements *)
Record dstate := mk_dstate {
  ds_fields : Z;
  ds_members : list (list val);
  ds_ies : list (list Z);
  ds_err : list Z
}.

(** one turn of the loop either leaves the function or goes on with the value
    of [r] and the position *)
Inductive turn :=
| Return (c : Z) (st : dstate)
| Next (r : Z) (pos : Z) (st : dstate).

Definition keep_ie (st : dstate) (raw : list Z) : dstate :=
  mk_dstate (ds_fields st) (ds_members st) (ds_ies st ++ [raw]) (ds_err st).
Definition set_err (st : dstate) (err : list Z) : dstate :=
  mk_dstate (ds_fields st) (ds_members st) (ds_ies st) err.
(** store the vector or value of entry [id] and mark it *)
Definition set_member (st : dstate) (id : nat) (vs : list val) : dstate :=
  mk_dstate (SET_BIT (ds_fields st) (Z.of_nat id)) (<[id := vs]> (ds_members st))
    (ds_ies st) (ds_err st).

(** the element header at [pos] as the loop reads it: the definition its type
    and vendor select ([None]: a vendor that is not known), the type, where the
    payload starts and its length, and the element as [grp->ies] keeps it *)
Record ie_hdr := mk_ie_hdr {
  ih_def : option (option pfcp_ie_def);
  ih_type : Z;
  ih_pos : Z;
  ih_length : Z;
  ih_raw : list Z
}.

(** [None]: the length points past the group *)
Definition read_ie_hdr (p : list Z) (len pos : Z) : outcome (option ie_hdr) :=
  obind (load p pos 4) (fun hdr =>
  let type := de_be (take 2 hdr) in
  let length := de_be (drop 2 hdr) in
  let raw := take (Z.to_nat (4 + length)) (drop (Z.to_nat pos) p) in
  let pos := pos + 4 in
  if len <? pos + length then Ok None
  else if flag type 0x8000 then
    obind (load p pos 2) (fun vendor =>
    let vendor := de_be vendor in
    let type := Z.land type 0x7fff in
    let def :=
      if vendor =? VENDOR_BBF then Some (spec_at vendor_bbf_specs type)
      else if vendor =? VENDOR_TRAVELPING then Some (spec_at vendor_tp_specs type)
      else None in
    Ok (Some (mk_ie_hdr def type (pos + 2) (wrap 16 (length - 2)) raw)))
  else Ok (Some (mk_ie_hdr (Some (spec_at tgpp_specs type)) type pos length raw))).

Section Engine.
Context {V : Vppinfra}.

(** what decode_ie does for an element: [r], the value, the offending
    elements *)
Definition elem_decoder :=
  pfcp_ie_def -> list Z -> Z -> list Z -> outcome (Z * val * list Z).

Section Group.
Variable decode_ie : elem_decoder.

(** the resized vector has the new element only if decoding succeeds *)
Definition decode_vector_ie (def : pfcp_ie_def) (data : list Z) (length : Z)
  (v : list val) (err : list Z) : outcome (Z * list val * list Z) :=
  obind (decode_ie def data length err) (fun '(r, x, err) =>
  Ok (r, if r =? 0 then v ++ [x] else v, err)).

(** the part of the loop body from the table entry on: [ie_def] is what the
    type on the wire selects, [item] the entry of the group. A definition
    other than the one the entry's own vendor selects writes a value of
    another C type. *)
Definition decode_item (id : nat) (item : pfcp_group_ie_def)
  (ie_def : option pfcp_ie_def) (raw data : list Z) (length : Z) (st : dstate)
  : outcome (Z * dstate) :=
  if negb (gi_is_array item) && ISSET_BIT (ds_fields st) (Z.of_nat id) then
    (* duplicate IE; setting its bit again changes nothing *)
    Ok (0, keep_ie st raw)
  else
    match ie_def with
    | None => Fault NoDefinition
    | Some def =>
        if decide (get_ie_def item = Some (Some def)) then
          if gi_is_array item then
            obind (decode_vector_ie def data length (default [] (ds_members st !! id))
                     (ds_err st)) (fun '(r, vs, err) =>
            Ok (r, if r =? 0 then set_member (set_err st err) id vs else set_err st err))
          else
            obind (decode_ie def data length (ds_err st)) (fun '(r, x, err) =>
            Ok (r, if r =? 0 then set_member (set_err st err) id [x] else set_err st err))
        else Fault TypeConfusion
    end.

(** the body of the while loop *)
Definition decode_turn (group : list pfcp_group_ie_def) (p : list Z) (len pos : Z)
  (st : dstate) : outcome turn :=
  obind (read_ie_hdr p len pos) (fun h =>
  match h with
  | None => Ok (Return PFCP_CAUSE_INVALID_LENGTH st)
  | Some h =>
      let pos := ih_pos h in
      let length := ih_length h in
      match ih_def h, get_ie_spec group (ih_type h) with
      | Some ie_def, Some (id, item) =>
          obind (decode_item id item ie_def (ih_raw h) (drop (Z.to_nat pos) p) length st)
            (fun '(r, st) => Ok (Next r (pos + length) st))
      | _, _ => Ok (Next 0 (pos + length) (keep_ie st (ih_raw h)))
      end
  end).

(** [while (r == 0 && pos < len)]; the fuel bounds the number of turns *)
Fixpoint decode_loop (fuel : nat) (group : list pfcp_group_ie_def) (p : list Z)
  (len r pos : Z) (st : dstate) : outcome turn :=
  if (r =? 0) && (pos <? len) then
    match fuel with
    | O => Fault NoFuel
    | S fuel =>
        obind (decode_turn group p len pos st) (fun t =>
        match t with
        | Return c st => Ok (Return c st)
        | Next r pos st => decode_loop fuel group p len r pos st
        end)
    end
  else Ok (Next r pos st).

(** the types of the entries whose bit is set in [missing] *)
Fixpoint missing_types (i : Z) (group : list pfcp_group_ie_def) (missing : Z) : list Z :=
  match group with
  | [] => []
  | item :: group =>
      (if ISSET_BIT missing i then [gi_type item] else [])
      ++ missing_types (i + 1) group missing
  end.

Definition decode_group (p : list Z) (len : Z) (mandatory : Z)
  (group : list pfcp_group_ie_def) (err : list Z) : outcome (Z * val * list Z) :=
  let st := mk_dstate 0 (replicate (length group) []) [] err in
  obind (decode_loop (Z.to_nat len) group p len 0 0 st) (fun t =>
  match t with
  | Return c st => Ok (c, VGroup (ds_fields st) (ds_members st) (ds_ies st), ds_err st)
  | Next r _ st =>
      let fields := ds_fields st in
      let v := VGroup fields (ds_members st) (ds_ies st) in
      if negb (Z.land fields mandatory =? mandatory) then
        let missing := Z.land (Z.lnot fields) mandatory in
        if 2 ^ Zlen group <=? missing then Fault NoDefinition
        else Ok (PFCP_CAUSE_MANDATORY_IE_MISSING, v,
                 ds_err st ++ missing_types 0 group missing)
      else Ok (r, v, ds_err st)
  end).
End Group.

(** the fuel is the nesting depth of groups *)
Fixpoint decode_ie (fuel : nat) (def : pfcp_ie_def) (ie : list Z) (length : Z)
  (err : list Z) : outcome (Z * val * list Z) :=
  match def with
  | GROUP_IE mandatory group =>
      match fuel with
      | O => Fault NoFuel
      | S fuel => decode_group (decode_ie fuel) ie length mandatory group err
      end
  | SIMPLE_IE k =>
      match run_decode (leaf_decode k) ie length with
      | Ok x => Ok (0, VLeaf k x, err)
      | Err r => Ok (r, zero_val def, err)
      | Fault f => Fault f
      end
  end.

(** ** Encoding *)

Definition MIN_SIMPLE_IE_SPACE : Z := 64.

(** vec_validate: room for the index [i] *)
Definition vec_validate (b : buf) (i : Z) : buf := reserve vec_grow b (i + 1).

(** the header encode_ie writes before the element; its length follows *)
Definition ie_header (item : pfcp_group_ie_def) : list Z :=
  if gi_vendor item =? 0 then be 2 (gi_type item) ++ [0; 0]
  else be 2 (Z.lor 0x8000 (gi_type item)) ++ [0; 0] ++ be 2 (gi_vendor item).

(** set_ie_hdr_length: store two bytes in the element header at [hdr] *)
Definition set_ie_hdr_length (b : buf) (len hdr : Z) : buf :=
  mk_buf (take (Z.to_nat (hdr + 2)) (buf_bytes b) ++ be 2 len
          ++ drop (Z.to_nat (hdr + 4)) (buf_bytes b)) (buf_cap b).
Definition finalize_ie (b : buf) (hdr p : Z) : buf :=
  set_ie_hdr_length b (p - hdr - 4) hdr.

Definition elem_encoder := pfcp_group_ie_def -> pfcp_ie_def -> val -> buf -> outcome buf.

Section EncodeGroup.
Variable encode_ie : elem_encoder.

Fixpoint encode_vector_ie (item : pfcp_group_ie_def) (def : pfcp_ie_def)
  (vs : list val) (b : buf) : outcome buf :=
  match vs with
  | [] => Ok b
  | v :: vs => obind (encode_ie item def v b) (encode_vector_ie item def vs)
  end.

(** the loop of encode_group from entry [i] on *)
Fixpoint encode_items (i : Z) (group : list pfcp_group_ie_def) (fields : Z)
  (members : list (list val)) (b : buf) : outcome buf :=
  match group with
  | [] => Ok b
  | item :: group =>
      let rest := encode_items (i + 1) group fields (tail members) in
      if (gi_type item =? 0) && (gi_vendor item =? 0) then rest b
      else if negb (ISSET_BIT fields i) then rest b
      else
        match get_ie_def item with
        | None => rest b
        | Some None => Fault NoDefinition
        | Some (Some def) =>
            let v := hd [] members in
            obind (if gi_is_array item then encode_vector_ie item def v b
                   else encode_ie item def (hd (zero_val def) v) b) rest
        end
  end.

Definition encode_group (group : list pfcp_group_ie_def) (v : val) (b : buf)
  : outcome buf :=
  match v with
  | VGroup fields members _ => encode_items 0 group fields members b
  | VLeaf _ _ => Fault TypeConfusion
  end.
End EncodeGroup.

Definition encode_leaf (k : leaf) (v : val) (b : buf) : outcome buf :=
  match v with
  | VLeaf k' x =>
      if decide (k' = k) then
        obind (leaf_encode k' x) (fun ops => run_wops vec_grow b ops)
      else Fault TypeConfusion
  | VGroup _ _ _ => Fault TypeConfusion
  end.

(** an error leaves the message unfinished: the caller frees it *)
Fixpoint encode_ie (fuel : nat) (item : pfcp_group_ie_def) (def : pfcp_ie_def) (v : val)
  (b : buf) : outcome buf :=
  let hdr := Zlen (buf_bytes b) in
  let b := vec_validate b (hdr + MIN_SIMPLE_IE_SPACE) in
  obind (run_wop vec_grow b (Put (ie_header item))) (fun b =>
  obind
    (match def with
     | GROUP_IE _ group =>
         match fuel with
         | O => Fault NoFuel
         | S fuel => encode_group (encode_ie fuel) group v b
         end
     | SIMPLE_IE k => encode_leaf k v b
     end)
    (fun b => Ok (finalize_ie b hdr (Zlen (buf_bytes b))))).

(** ** Messages *)

Definition NODE_MSG_HDR_LEN : Z := 8.
Definition SESSION_MSG_HDR_LEN : Z := 16.

(** the depth of groups inside groups, see [specs_depth] *)
Definition group_depth : nat := 3.

Record pfcp_decoded_msg_t := mk_dmsg {
  dm_type : Z; dm_seq_no : Z; dm_seid : Z; dm_grp : val }.

Definition pfcp_is_session_msg (type : Z) : bool := (50 <=? type) && (type <=? 99).

Definition msg_hdr_len (type : Z) : Z :=
  if pfcp_is_session_msg type then SESSION_MSG_HDR_LEN else NODE_MSG_HDR_LEN.

(** an index of msg_specs without initialiser has size 0; no entry has a size
    and no group *)
Definition msg_spec (type : Z) : Z * list pfcp_group_ie_def :=
  match spec_at msg_specs type with
  | Some (GROUP_IE mandatory group) => (mandatory, group)
  | _ => (0, [])
  end.

Definition dmsg_zero : pfcp_decoded_msg_t := mk_dmsg 0 0 0 (VGroup 0 [] []).

Definition pfcp_decode_msg (p : list Z) (len : Z)
  : outcome (Z * pfcp_decoded_msg_t * list Z) :=
  if len =? 0 then Ok (-1, dmsg_zero, [])
  else
    obind (load p 1 1) (fun t =>
    let type := de_be t in
    let is_session_msg := pfcp_is_session_msg type in
    let hdr_len := msg_hdr_len type in
    if len <? hdr_len then Ok (-1, dmsg_zero, [])
    else if array_len msg_specs <=? type then Ok (-1, dmsg_zero, [])
    else
      obind (load p 0 hdr_len) (fun hdr =>
      let seid := if is_session_msg then de_be (take 8 (drop 4 hdr)) else 0 in
      let seq_no := de_be (take 3 (drop (if is_session_msg then 12 else 4) hdr)) in
      let dmsg := mk_dmsg type seq_no seid (VGroup 0 [] []) in
      let msg_len := de_be (take 2 (drop 2 hdr)) in
      let s_flag := flag (de_be (take 1 hdr)) 1 in
      if len <? msg_len + 4 then Ok (PFCP_CAUSE_INVALID_LENGTH, dmsg, [])
      else if negb (Bool.eqb is_session_msg s_flag)
      then Ok (PFCP_CAUSE_REQUEST_REJECTED, dmsg, [])
      else
        let '(mandatory, group) := msg_spec type in
        obind (decode_group (decode_ie group_depth) (drop (Z.to_nat hdr_len) p)
                 (msg_len - hdr_len + 4) mandatory group [])
          (fun '(r, v, err) => Ok (r, mk_dmsg type seq_no seid v, err)))).

(** the header pfcp_encode_msg writes, with the length [len] *)
Definition msg_header (m : pfcp_decoded_msg_t) (len : Z) : list Z :=
  if pfcp_is_session_msg (dm_type m) then
    [0x21; dm_type m] ++ be 2 len ++ be 8 (dm_seid m) ++ be 3 (dm_seq_no m) ++ [0]
  else [0x20; dm_type m] ++ be 2 len ++ be 3 (dm_seq_no m) ++ [0].

Definition pfcp_encode_msg (m : pfcp_decoded_msg_t) : outcome (list Z) :=
  if array_len msg_specs <=? dm_type m then Fault Assertion
  else
    let hdr_len := msg_hdr_len (dm_type m) in
    let b := mk_buf (msg_header m 0) (vec_grow 0 hdr_len) in
    obind (encode_group (encode_ie group_depth) (snd (msg_spec (dm_type m))) (dm_grp m) b)
      (fun b =>
       (* set_msg_hdr_length *)
       Ok (take 2 (buf_bytes b) ++ be 2 (Zlen (buf_bytes b) - 4) ++ drop 4 (buf_bytes b))).

Definition PFCP_VERSION_NOT_SUPPORTED_RESPONSE : Z := 11.

Definition pfcp_encode_version_not_supported_response : list Z :=
  [0x20; PFCP_VERSION_NOT_SUPPORTED_RESPONSE] ++ be 2 (NODE_MSG_HDR_LEN - 4) ++ [0; 0; 0; 0].
End Engine.
