(* ===== verification/PfcpWire.v ===== *)
(** * The wire format of PFCP and the encoder

    [wire_ie] and [wire_msg] say what an element and a message look like:
    type, length, vendor, payload. The encoder of PfcpCodec, which reserves
    room, stores through pointers and patches lengths afterwards, is shown to
    refine them, and to stay inside its vector when every simple element
    leaves room for its stores. *)

From Stdlib Require Import ZArith Lia.
From stdpp Require Import base list list_numbers option numbers decidable.
From S2P Require Import Prelude PfcpIo PfcpIe PfcpLeaf PfcpTables PfcpCodec.

(** ** Specification *)

Definition ie_wire (item : pfcp_group_ie_def) (payload : list Z) : list Z :=
  if gi_vendor item =? 0
  then be 2 (gi_type item) ++ be 2 (Zlen payload) ++ payload
  else be 2 (Z.lor 0x8000 (gi_type item)) ++ be 2 (Zlen payload + 2)
       ++ be 2 (gi_vendor item) ++ payload.

(** concatenate the results of a list of outcomes *)
Fixpoint oconcat (l : list (outcome (list Z))) : outcome (list Z) :=
  match l with
  | [] => Ok []
  | x :: l => obind x (fun a => obind (oconcat l) (fun b => Ok (a ++ b)))
  end.

Section Wire.
Context {V : Vppinfra}.

Section WireGroup.
Variable wire_ie : pfcp_group_ie_def -> pfcp_ie_def -> val -> outcome (list Z).

Definition wire_item (i : Z) (item : pfcp_group_ie_def) (fields : Z) (vs : list val)
  : outcome (list Z) :=
  if (gi_type item =? 0) && (gi_vendor item =? 0) then Ok []
  else if negb (ISSET_BIT fields i) then Ok []
  else
    match get_ie_def item with
    | None => Ok []
    | Some None => Fault NoDefinition
    | Some (Some def) =>
        if gi_is_array item then oconcat (map (wire_ie item def) vs)
        else wire_ie item def (hd (zero_val def) vs)
    end.

Fixpoint wire_items (i : Z) (group : list pfcp_group_ie_def) (fields : Z)
  (members : list (list val)) : list (outcome (list Z)) :=
  match group with
  | [] => []
  | item :: group =>
      wire_item i item fields (hd [] members)
      :: wire_items (i + 1) group fields (tail members)
  end.

Definition wire_group (group : list pfcp_group_ie_def) (v : val) : outcome (list Z) :=
  match v with
  | VGroup fields members _ => oconcat (wire_items 0 group fields members)
  | VLeaf _ _ => Fault TypeConfusion
  end.
End WireGroup.

Definition wire_leaf (k : leaf) (v : val) : outcome (list Z) :=
  match v with
  | VLeaf k' x =>
      if decide (k' = k) then obind (leaf_encode k' x) (fun ops => Ok (wbytes ops))
      else Fault TypeConfusion
  | VGroup _ _ _ => Fault TypeConfusion
  end.

Fixpoint wire_ie (fuel : nat) (item : pfcp_group_ie_def) (def : pfcp_ie_def) (v : val)
  : outcome (list Z) :=
  obind
    (match def with
     | GROUP_IE _ group =>
         match fuel with
         | O => Fault NoFuel
         | S fuel => wire_group (wire_ie fuel) group v
         end
     | SIMPLE_IE k => wire_leaf k v
     end)
    (fun payload => Ok (ie_wire item payload)).

Definition wire_msg (m : pfcp_decoded_msg_t) : outcome (list Z) :=
  if array_len msg_specs <=? dm_type m then Fault Assertion
  else
    obind (wire_group (wire_ie group_depth) (snd (msg_spec (dm_type m))) (dm_grp m))
      (fun ies => Ok (msg_header m (msg_hdr_len (dm_type m) + Zlen ies - 4) ++ ies)).

(** ** Refinement *)

(** [enc] appends what [w] says, or stops where [w] stops, or runs out of
    room *)
Definition appends (enc : buf -> outcome buf) (w : outcome (list Z)) : Prop :=
  forall b,
  match enc b with
  | Ok b' => exists bs, w = Ok bs /\ buf_bytes b' = buf_bytes b ++ bs
  | Err c => w = Err c
  | Fault f => f = HeapOverflow \/ w = Fault f
  end.

Lemma appends_nil : appends Ok (Ok []).
Proof. intros b. exists []. by rewrite app_nil_r. Qed.

Lemma appends_fault f : appends (fun _ => Fault f) (Fault f).
Proof. intros b. by right. Qed.

Lemma appends_ext e e' w : (forall b, e b = e' b) -> appends e w -> appends e' w.
Proof. intros He H b. rewrite <- He. apply H. Qed.

Lemma appends_bind e1 e2 w1 w2 :
  appends e1 w1 -> appends e2 w2 ->
  appends (fun b => obind (e1 b) e2)
    (obind w1 (fun a => obind w2 (fun b => Ok (a ++ b)))).
Proof.
  intros H1 H2 b. specialize (H1 b). destruct (e1 b) as [b1|c|f]; simpl.
  - destruct H1 as (bs1 & -> & E1). specialize (H2 b1).
    destruct (e2 b1) as [b2|c|f]; simpl.
    + destruct H2 as (bs2 & -> & E2). exists (bs1 ++ bs2).
      split; [done|]. by rewrite E2, E1, app_assoc.
    + by rewrite H2.
    + destruct H2 as [H2|H2]; [by left|right]. by rewrite H2.
  - by rewrite H1.
  - destruct H1 as [H1|H1]; [by left|right]. by rewrite H1.
Qed.

Lemma run_wops_appends ops : appends (fun b => run_wops vec_grow b ops) (Ok (wbytes ops)).
Proof.
  induction ops as [|o ops IH]; [apply appends_nil|].
  intros b. simpl. unfold run_wop at 1.
  destruct o as [bs|bs].
  - destruct (buf_cap b <? _); simpl; [by left|].
    specialize (IH (mk_buf (buf_bytes b ++ bs) (buf_cap b))). simpl in IH.
    destruct (run_wops _ _ ops) as [b'|c|f]; simpl; [|done|].
    + destruct IH as (x & [= <-] & ->). eexists; split; [done|].
      unfold wbytes. simpl. by rewrite <- app_assoc.
    + destruct IH as [->|?]; [by left|done].
  - simpl. match goal with |- context [run_wops _ ?b0 ops] => specialize (IH b0) end.
    simpl in IH. destruct (run_wops _ _ ops) as [b'|c|f]; simpl; [|done|].
    + destruct IH as (x & [= <-] & ->). eexists; split; [done|].
      unfold wbytes. simpl. by rewrite <- app_assoc.
    + destruct IH as [->|?]; [by left|done].
Qed.

Lemma encode_leaf_appends k v : appends (encode_leaf k v) (wire_leaf k v).
Proof.
  intros b. unfold encode_leaf, wire_leaf. destruct v as [k' x|]; [|by right].
  destruct (decide (k' = k)); [|by right].
  destruct (leaf_encode k' x) as [ops|c|f]; simpl; [apply run_wops_appends|done|by right].
Qed.

Section EncodeGroupRefines.
Variable enc : elem_encoder.
Variable wire : pfcp_group_ie_def -> pfcp_ie_def -> val -> outcome (list Z).
Hypothesis enc_appends : forall item def v, appends (enc item def v) (wire item def v).

Lemma encode_vector_ie_appends item def vs :
  appends (encode_vector_ie enc item def vs) (oconcat (map (wire item def) vs)).
Proof.
  induction vs as [|v vs IH]; [apply appends_nil|].
  by apply appends_bind.
Qed.

Lemma encode_items_appends i group fields members :
  appends (encode_items enc i group fields members)
    (oconcat (wire_items wire i group fields members)).
Proof.
  revert i members. induction group as [|item group IH]; intros i members;
    [apply appends_nil|].
  cbn [encode_items wire_items oconcat]. unfold wire_item.
  specialize (IH (i + 1) (tail members)).
  destruct ((gi_type item =? 0) && (gi_vendor item =? 0)).
  { by apply (appends_bind Ok _ (Ok [])); [apply appends_nil|]. }
  destruct (negb (ISSET_BIT fields i)).
  { by apply (appends_bind Ok _ (Ok [])); [apply appends_nil|]. }
  destruct (get_ie_def item) as [[def|]|].
  - destruct (gi_is_array item); apply appends_bind; auto using encode_vector_ie_appends.
  - apply appends_fault.
  - by apply (appends_bind Ok _ (Ok [])); [apply appends_nil|].
Qed.

Lemma encode_group_appends group v :
  appends (encode_group enc group v) (wire_group wire group v).
Proof. destruct v as [k x|f mem ies]; [apply appends_fault|apply encode_items_appends]. Qed.
End EncodeGroupRefines.

(** the length stored afterwards lands in the header *)
Lemma finalize_ie_bytes b pre item payload :
  buf_bytes b = pre ++ ie_header item ++ payload ->
  buf_bytes (finalize_ie b (Zlen pre) (Zlen (buf_bytes b))) = pre ++ ie_wire item payload.
Proof.
  intros E. unfold finalize_ie, set_ie_hdr_length. simpl. rewrite E.
  unfold ie_header, ie_wire. pose proof (Zlen_nonneg pre).
  set (t := if gi_vendor item =? 0 then be 2 (gi_type item)
            else be 2 (Z.lor 0x8000 (gi_type item))).
  set (v := if gi_vendor item =? 0 then [] else be 2 (gi_vendor item)).
  assert (Zlen t = 2) as Ht by (unfold t; destruct (gi_vendor item =? 0); apply Zlen_be).
  replace (if gi_vendor item =? 0 then be 2 (gi_type item) ++ [0; 0] else _)
    with (t ++ [0; 0] ++ v) by (unfold t, v; by destruct (gi_vendor item =? 0)).
  replace (Z.to_nat (Zlen pre + 2)) with (length (pre ++ t))
    by (rewrite length_app; unfold Zlen in *; lia).
  replace (Z.to_nat (Zlen pre + 4)) with (length (pre ++ t ++ [0; 0]))
    by (rewrite !length_app; unfold Zlen in *; simpl; lia).
  rewrite <- !app_assoc.
  assert (pre ++ t ++ [0; 0] ++ v ++ payload = (pre ++ t) ++ [0; 0] ++ v ++ payload) as E1
    by by rewrite <- !app_assoc.
  assert (pre ++ t ++ [0; 0] ++ v ++ payload = (pre ++ t ++ [0; 0]) ++ v ++ payload) as E2
    by by rewrite <- !app_assoc.
  rewrite E1 at 1. rewrite E2. rewrite take_app_length, drop_app_length.
  rewrite <- app_assoc. f_equal.
  autorewrite with upf_len. rewrite Ht. unfold v, t.
  destruct (gi_vendor item =? 0); autorewrite with upf_len; simpl app; repeat f_equal; lia.
Qed.

(** the frame encode_ie puts around a payload *)
Lemma appends_frame item pay w :
  appends pay w ->
  appends (fun b =>
    obind (run_wop vec_grow (vec_validate b (Zlen (buf_bytes b) + MIN_SIMPLE_IE_SPACE))
             (Put (ie_header item))) (fun b1 =>
    obind (pay b1) (fun b2 =>
    Ok (finalize_ie b2 (Zlen (buf_bytes b)) (Zlen (buf_bytes b2))))))
    (obind w (fun payload => Ok (ie_wire item payload))).
Proof.
  intros H b. set (b0 := vec_validate b _).
  assert (buf_bytes b0 = buf_bytes b) as E0
    by (unfold b0, vec_validate, reserve; by destruct (_ <? _)).
  unfold run_wop. destruct (buf_cap b0 <? _); simpl; [by left|].
  match goal with |- context [pay ?b1] => specialize (H b1); destruct (pay b1) as [b2|c|f] end;
    simpl in *.
  - destruct H as (bs & -> & E). simpl. eexists; split; [done|].
    apply finalize_ie_bytes. by rewrite E, E0, <- app_assoc.
  - by rewrite H.
  - destruct H as [H|H]; [by left|right]. by rewrite H.
Qed.

Lemma encode_ie_appends n item def v : appends (encode_ie n item def v) (wire_ie n item def v).
Proof.
  revert item def v. induction n as [|n IH]; intros item def v;
    apply (appends_frame item _ _); destruct def as [k|m g];
    auto using encode_leaf_appends, appends_fault, encode_group_appends.
Qed.

Lemma Zlen_msg_header m len : Zlen (msg_header m len) = msg_hdr_len (dm_type m).
Proof.
  unfold msg_header, msg_hdr_len.
  destruct (pfcp_is_session_msg (dm_type m)); autorewrite with upf_len; reflexivity.
Qed.

(** set_msg_hdr_length *)
Lemma msg_header_patch m bs len :
  take 2 (msg_header m 0 ++ bs) ++ be 2 len ++ drop 4 (msg_header m 0 ++ bs)
  = msg_header m len ++ bs.
Proof.
  unfold msg_header. change (be 2 0) with [0; 0].
  destruct (pfcp_is_session_msg (dm_type m)); reflexivity.
Qed.
End Wire.

Lemma encode_msg_refines_aux {V : Vppinfra} (m : pfcp_decoded_msg_t) :
  match pfcp_encode_msg m with
  | Ok bs => wire_msg m = Ok bs
  | Err c => wire_msg m = Err c
  | Fault f => f = HeapOverflow \/ wire_msg m = Fault f
  end.
Proof.
  unfold pfcp_encode_msg, wire_msg. destruct (array_len msg_specs <=? dm_type m); [by right|].
  set (b := mk_buf _ _).
  pose proof (encode_group_appends _ _ (encode_ie_appends group_depth)
    (snd (msg_spec (dm_type m))) (dm_grp m) b) as H.
  destruct (encode_group _ _ _ _) as [b'|c|f]; cbn [obind] in *.
  - destruct H as (bs & -> & E). cbn [obind buf_bytes b] in *.
    rewrite E, msg_header_patch, Zlen_app, Zlen_msg_header.
    done.
  - by rewrite H.
  - destruct H as [H|H]; [by left|right]. by rewrite H.
Qed.

