(* ===== verification/PfcpDecode.v ===== *)
(** * Properties of the PFCP decoder

    Termination (the recursion bounds of the model are never reached), the
    shape of what a successful decode returns, mandatory elements, and how
    unknown, repeated and overlong elements are treated. *)

From Stdlib Require Import ZArith Lia.
From stdpp Require Import base list list_numbers option numbers decidable.
From S2P Require Import Prelude PfcpIo PfcpIe PfcpLeaf PfcpTables PfcpCodec.

(** ** Nesting depth of the tables *)

Fixpoint depth_ok (n : nat) (def : pfcp_ie_def) : bool :=
  match def with
  | SIMPLE_IE _ => true
  | GROUP_IE _ g =>
      match n with
      | O => false
      | S n =>
          forallb (fun item =>
            match get_ie_def item with Some (Some d) => depth_ok n d | _ => true end) g
      end
  end.

Definition all_specs : list (Z * pfcp_ie_def) :=
  tgpp_specs ++ vendor_bbf_specs ++ vendor_tp_specs.

Lemma spec_at_In {A} (tbl : list (Z * A)) i e : spec_at tbl i = Some e -> In (i, e) tbl.
Proof.
  unfold spec_at.
  assert (forall acc, fold_left (fun acc '(j, e) => if j =? i then Some e else acc) tbl acc
                      = Some e -> acc = Some e \/ In (i, e) tbl) as H.
  { induction tbl as [|[j x] tbl IH]; intros acc; simpl; [by left|].
    intros [H|H]%IH; [|by right; right].
    destruct (Z.eqb_spec j i) as [->|]; [|by left]. injection H as ->. by right; left. }
  intros E. by destruct (H None E).
Qed.

Lemma specs_depth i d : In (i, d) all_specs -> depth_ok group_depth d = true.
Proof.
  assert (forallb (fun e => depth_ok group_depth (snd e)) all_specs = true) as H
    by (vm_compute; reflexivity).
  rewrite forallb_forall in H. intros Hin. apply (H (i, d) Hin).
Qed.

Lemma get_ie_def_In item d :
  get_ie_def item = Some (Some d) -> In (gi_type item, d) all_specs.
Proof.
  unfold get_ie_def, all_specs. intros H. rewrite !in_app_iff.
  repeat case_match; simplify_eq; auto using spec_at_In.
Qed.

Lemma get_ie_def_depth item d :
  get_ie_def item = Some (Some d) -> depth_ok group_depth d = true.
Proof. intros H%get_ie_def_In. by eapply specs_depth. Qed.

(** ** Leaf decoders do not recurse *)

Definition no_fuel {A} (m : D A) : Prop := forall s, m s <> Fault NoFuel.

Lemma no_fuel_bind {A B} (m : D A) (k : A -> D B) :
  no_fuel m -> (forall a, no_fuel (k a)) -> no_fuel (dbind m k).
Proof.
  intros Hm Hk s. unfold dbind. specialize (Hm s).
  destruct (m s) as [[a s']|c|f]; simpl; [apply Hk|done|congruence].
Qed.
Lemma no_fuel_get_n n : no_fuel (get_n n).
Proof. intros s. unfold get_n. by destruct (_ <? _). Qed.
Lemma no_fuel_peek_n n : no_fuel (peek_n n).
Proof. intros s. unfold peek_n, get_n. by destruct (_ <? _). Qed.
Lemma no_fuel_check n : no_fuel (check_length n).
Proof. intros s. unfold check_length. by destruct (_ <? _). Qed.
Lemma no_fuel_err {A} c : no_fuel (@derr A c).
Proof. done. Qed.
Lemma no_fuel_ret {A} (a : A) : no_fuel (dret a).
Proof. done. Qed.

Ltac head_of t := lazymatch t with ?f _ => head_of f | _ => t end.
Ltac no_fuel_run :=
  repeat first
    [ apply no_fuel_bind; [|intros ?] | apply no_fuel_get_n | apply no_fuel_peek_n
    | apply no_fuel_check | apply no_fuel_err | apply no_fuel_ret | assumption
    | match goal with |- no_fuel (if ?c then _ else _) => destruct c end
    | match goal with |- no_fuel (match ?o with _ => _ end) => destruct o end
    | progress cbv zeta
    | match goal with |- no_fuel ?t => let h := head_of t in unfold h end
    | intros ?; done ].

Lemma no_fuel_get_u16s n : no_fuel (get_u16s n).
Proof. induction n; simpl; no_fuel_run. Qed.
Lemma no_fuel_get_macs n : no_fuel (get_macs n).
Proof. induction n; simpl; no_fuel_run. Qed.

Section Termination.
Context {V : Vppinfra}.

Lemma leaf_no_fuel k : no_fuel (leaf_decode k).
Proof.
  destruct k; simpl; try (solve [no_fuel_run]).
  - unfold decode_fq_csid. no_fuel_run; apply no_fuel_get_u16s.
  - unfold decode_mac_addresses_vec. no_fuel_run; apply no_fuel_get_macs.
Qed.

Lemma load_bytes p off n l : Forall is_byte p -> load p off n = Ok l -> Forall is_byte l.
Proof.
  unfold load. intros Hp. destruct (_ <? _); [done|]. intros [= <-].
  by apply Forall_take, Forall_drop.
Qed.

Lemma de_be_nonneg l : Forall is_byte l -> 0 <= de_be l.
Proof. intros H. apply de_be_bound in H. lia. Qed.

Lemma read_ie_hdr_forward p len pos h :
  Forall is_byte p -> read_ie_hdr p len pos = Ok (Some h) ->
  pos + 4 <= ih_pos h /\ 0 <= ih_length h.
Proof.
  intros Hp. unfold read_ie_hdr. destruct (load p pos 4) as [hdr|c|f] eqn:Eh; try discriminate.
  cbn [obind]. assert (0 <= de_be (drop 2 hdr))
    by (apply de_be_nonneg, Forall_drop; by eapply load_bytes).
  destruct (len <? _); [discriminate|]. destruct (flag _ _).
  - destruct (load p (pos + 4) 2); try discriminate. intros [= <-]. simpl.
    pose proof (in_range_wrap 16 (de_be (drop 2 hdr) - 2) ltac:(lia)). btest. lia.
  - intros [= <-]. simpl. lia.
Qed.

(** a turn goes forward by at least an element header *)
Lemma decode_turn_forward dec group p len pos st r pos' st' :
  Forall is_byte p ->
  decode_turn dec group p len pos st = Ok (Next r pos' st') -> pos + 4 <= pos'.
Proof.
  intros Hp. unfold decode_turn.
  destruct (read_ie_hdr p len pos) as [[h|]|c|f] eqn:Eh; try discriminate. cbn [obind].
  apply read_ie_hdr_forward in Eh as [Hp1 Hp2]; [|done].
  destruct (ih_def h) as [d|], (get_ie_spec group (ih_type h)) as [[id item]|];
    try (intros [= <- <- <-]; lia).
  destruct (decode_item _ _ _ _ _ _ _ _) as [[? ?]|?|?]; try discriminate. cbn [obind].
  intros [= <- <- <-]; lia.
Qed.

Lemma get_ie_spec_lookup group type id item :
  get_ie_spec group type = Some (id, item) ->
  group !! id = Some item /\ gi_type item = type /\ type <> 0.
Proof.
  unfold get_ie_spec.
  assert (forall i, get_ie_spec_from i group type = Some (id, item) ->
    (i <= id)%nat /\ group !! (id - i)%nat = Some item /\ gi_type item = type /\ type <> 0)
    as H.
  { induction group as [|it group IH]; intros i; simpl; [done|].
    destruct (negb (gi_type it =? 0) && (gi_type it =? type)) eqn:E.
    - intros [= -> ->]. btest. subst. rewrite Nat.sub_diag. auto.
    - intros (Hi & Hl & Ht)%IH. split; [lia|]. split; [|done].
      by replace (id - i)%nat with (S (id - S i)) by lia. }
  intros E. destruct (H 0%nat E) as (_ & Hl & Ht). by rewrite Nat.sub_0_r in Hl.
Qed.

Definition fuel_enough (dec : elem_decoder) (group : list pfcp_group_ie_def) : Prop :=
  forall id item def data length err,
  group !! id = Some item -> get_ie_def item = Some (Some def) -> Forall is_byte data ->
  dec def data length err <> Fault NoFuel.

Lemma decode_turn_no_fuel dec group p len pos st :
  fuel_enough dec group -> Forall is_byte p ->
  decode_turn dec group p len pos st <> Fault NoFuel.
Proof.
  intros Hdec Hp. unfold decode_turn, read_ie_hdr.
  assert (forall a b, load p a b <> Fault NoFuel) as Hload
    by (intros a b; unfold load; by destruct (_ <? _)).
  pose proof (Hload pos 4). destruct (load p pos 4) as [hdr|c|f]; [|done|by destruct f].
  cbn [obind]. destruct (len <? _); [done|].
  assert (forall h, obind (Ok (Some h)) (fun h0 => match h0 with
    | None => Ok (Return PFCP_CAUSE_INVALID_LENGTH st)
    | Some h0 => match ih_def h0, get_ie_spec group (ih_type h0) with
      | Some ie_def, Some (id, item) =>
          obind (decode_item dec id item ie_def (ih_raw h0)
            (drop (Z.to_nat (ih_pos h0)) p) (ih_length h0) st)
            (fun '(r, st) => Ok (Next r (ih_pos h0 + ih_length h0) st))
      | _, _ => Ok (Next 0 (ih_pos h0 + ih_length h0) (keep_ie st (ih_raw h0)))
      end end) <> Fault NoFuel) as Hh.
  { intros h. cbn [obind]. destruct (ih_def h) as [d|]; [|done].
    destruct (get_ie_spec group (ih_type h)) as [[id item]|] eqn:Es; [|done].
    apply get_ie_spec_lookup in Es as (Hl & _ & _).
    unfold decode_item, decode_vector_ie. destruct (_ && _); [done|].
    destruct d as [def|]; [|done]. destruct (decide _) as [Ed|]; [|done].
    pose proof (Hdec id item def (drop (Z.to_nat (ih_pos h)) p) (ih_length h) (ds_err st) Hl Ed
      ltac:(by apply Forall_drop)) as Hx.
    destruct (dec def _ _ _) as [[[r x] e]|c|f]; destruct (gi_is_array item);
      cbn [obind]; congruence. }
  destruct (flag _ _).
  - pose proof (Hload (pos + 4) 2). destruct (load p (pos + 4) 2) as [l|c|f]; [|done|by destruct f].
    cbn [obind]. apply Hh.
  - apply Hh.
Qed.

Lemma decode_loop_no_fuel dec group p len fuel r pos st :
  fuel_enough dec group -> Forall is_byte p -> len - pos <= Z.of_nat fuel ->
  decode_loop dec fuel group p len r pos st <> Fault NoFuel.
Proof.
  intros Hdec Hp. revert r pos st. induction fuel as [|fuel IH]; intros r pos st Hf; simpl.
  - destruct (Z.ltb_spec pos len); [lia|]. by rewrite andb_false_r.
  - destruct ((r =? 0) && (pos <? len)); [|done].
    pose proof (decode_turn_no_fuel dec group p len pos st Hdec Hp).
    destruct (decode_turn _ _ _ _ _ _) as [[c st'|r' pos' st']|c|f] eqn:E; cbn [obind];
      [done| |done|by destruct f].
    apply IH. apply decode_turn_forward in E; [|done]. lia.
Qed.

Lemma decode_group_no_fuel dec group p len mandatory err :
  fuel_enough dec group -> Forall is_byte p ->
  decode_group dec p len mandatory group err <> Fault NoFuel.
Proof.
  intros Hdec Hp. unfold decode_group.
  pose proof (decode_loop_no_fuel dec group p len (Z.to_nat len) 0 0
    (mk_dstate 0 (replicate (length group) []) [] err) Hdec Hp ltac:(lia)) as H.
  destruct (decode_loop _ _ _ _ _ _ _ _) as [[c st|r pos st]|c|f]; cbn [obind];
    [done| |done|by destruct f].
  destruct (negb _); [|done]. by destruct (_ <=? _).
Qed.

Lemma decode_ie_no_fuel n def data length err :
  depth_ok n def = true -> Forall is_byte data ->
  decode_ie n def data length err <> Fault NoFuel.
Proof.
  revert def data length err. induction n as [|n IH]; intros [k|m g] data length err Hd Hb;
    try discriminate; cbn [decode_ie].
  1, 2: unfold run_decode; pose proof (leaf_no_fuel k (mk_rd data length)) as H;
    destruct (leaf_decode k _) as [[x s]|c|f]; simpl; congruence.
  apply decode_group_no_fuel; [|done].
  intros id item def dat len e Hl Hg Hb'. apply IH; [|done].
  simpl in Hd. rewrite forallb_forall in Hd. specialize (Hd item).
  rewrite Hg in Hd. apply Hd. apply list_elem_of_In. by eapply list_elem_of_lookup_2.
Qed.
End Termination.

(** the C code returns: the model does not run out of turns or of nesting *)
Definition returns {A} (o : outcome A) : Prop := o <> Fault NoFuel.

(** C32. Termination: decoding never needs more than the turns and the nesting
    depth the model allows, that is, every turn of the loop of decode_group
    advances by at least an element header and the tables nest groups at most
    [group_depth] deep; pfcp_decode_msg returns on every input. *)
Theorem decode_msg_terminates {V : Vppinfra} p len :
  Forall is_byte p -> returns (pfcp_decode_msg p len).
Proof.
  intros Hp. unfold returns, pfcp_decode_msg. destruct (len =? 0); [done|].
  assert (forall a b, load p a b <> Fault NoFuel) as Hload
    by (intros a b; unfold load; by destruct (_ <? _)).
  pose proof (Hload 1 1). destruct (load p 1 1) as [t|c|f]; [|done|by destruct f]. cbn [obind].
  destruct (len <? _); [done|]. destruct (_ <=? _); [done|].
  pose proof (Hload 0 (msg_hdr_len (de_be t))).
  destruct (load p 0 _) as [hdr|c|f]; [|done|by destruct f]. cbn [obind].
  destruct (len <? _); [done|]. destruct (negb _); [done|].
  destruct (msg_spec (de_be t)) as [m g]. cbv zeta.
  match goal with |- obind ?d _ <> _ => assert (d <> Fault NoFuel) as H1 end.
  { apply decode_group_no_fuel; [|by apply Forall_drop].
    intros id item def data length err Hl Hg Hb. apply decode_ie_no_fuel; [|done].
    by eapply get_ie_def_depth. }
  destruct (decode_group _ _ _ _ _ _) as [[[r v] e]|c|f]; cbn [obind]; congruence.
Qed.

Lemma decode_msg_terminates_witness :
  Forall is_byte [0x20; 1; 0; 12; 0; 0; 7; 0; 0; 96; 0; 4; 0xe0; 0; 0; 0] /\
  returns (@pfcp_decode_msg vpp_exact [0x20; 1; 0; 12; 0; 0; 7; 0; 0; 96; 0; 4; 0xe0; 0; 0; 0] 16).
Proof.
  split; [by apply bytes_check|]. apply decode_msg_terminates. by apply bytes_check.
Defined.

(** ** What a successful decode returns *)

Lemma ISSET_SET_BIT f i j :
  0 <= i -> 0 <= j -> ISSET_BIT (SET_BIT f i) j = (j =? i) || ISSET_BIT f j.
Proof.
  intros Hi Hj. unfold ISSET_BIT, SET_BIT. rewrite !flag_BIT by done.
  rewrite Z.lor_spec. unfold BIT. rewrite Z.shiftl_1_l, Z.pow2_bits_eqb by done.
  rewrite Z.eqb_sym. apply orb_comm.
Qed.

Lemma SET_BIT_bound f i n : 0 <= i < n -> 0 <= f < 2 ^ n -> 0 <= SET_BIT f i < 2 ^ n.
Proof.
  intros Hi Hf. unfold SET_BIT, BIT. rewrite Z.shiftl_1_l.
  assert (0 <= Z.lor f (2 ^ i)) by (apply Z.lor_nonneg; lia). split; [done|].
  replace (Z.lor f (2 ^ i)) with (Z.lor f (2 ^ i) mod 2 ^ n); [apply Z.mod_pos_bound; lia|].
  apply Z.bits_inj'. intros j Hj. destruct (Z.lt_ge_cases j n).
  - by rewrite Z.mod_pow2_bits_low.
  - rewrite Z.mod_pow2_bits_high, Z.lor_spec, (testbit_small n f j) by lia.
    rewrite Z.pow2_bits_false by lia. done.
Qed.

Section Typed.
Context {V : Vppinfra}.

(** the members of a struct fit its table: a bit is set exactly when there is
    a value, only vectors have several, and every value has the type the
    table gives its entry *)
Definition members_typed (T : pfcp_ie_def -> val -> Prop) (group : list pfcp_group_ie_def)
  (fields : Z) (members : list (list val)) : Prop :=
  length members = length group /\ 0 <= fields < 2 ^ Zlen group /\
  forall id item vs, group !! id = Some item -> members !! id = Some vs ->
    (ISSET_BIT fields (Z.of_nat id) = true <-> vs <> []) /\
    (gi_is_array item = false -> (length vs <= 1)%nat) /\
    Forall (fun v => exists def, get_ie_def item = Some (Some def) /\ T def v) vs.

Fixpoint val_typed (n : nat) (def : pfcp_ie_def) (v : val) : Prop :=
  match def, v with
  | SIMPLE_IE k, VLeaf k' _ => k' = k
  | GROUP_IE mandatory group, VGroup fields members _ =>
      match n with
      | O => False
      | S n => Z.land fields mandatory = mandatory
               /\ members_typed (val_typed n) group fields members
      end
  | _, _ => False
  end.

Section Preserve.
Variable dec : elem_decoder.
Variable T : pfcp_ie_def -> val -> Prop.
Variable group : list pfcp_group_ie_def.
Hypothesis dec_typed : forall def data length err x err',
  dec def data length err = Ok (0, x, err') -> T def x.

Definition st_typed (st : dstate) : Prop :=
  members_typed T group (ds_fields st) (ds_members st).

Lemma st_typed_keep st raw : st_typed st -> st_typed (keep_ie st raw).
Proof. done. Qed.

Lemma st_typed_set st id item vs :
  st_typed st -> group !! id = Some item -> vs <> [] ->
  (gi_is_array item = false -> (length vs <= 1)%nat) ->
  Forall (fun v => exists def, get_ie_def item = Some (Some def) /\ T def v) vs ->
  st_typed (set_member st id vs).
Proof.
  intros (Hlen & Hf & Hm) Hid Hne Harr Hvs.
  assert (id < length group)%nat as Hlt by by eapply lookup_lt_Some.
  split; [by simpl; rewrite length_insert|]. split.
  { apply SET_BIT_bound; [unfold Zlen; lia|done]. }
  intros j it ws Hj Hw. simpl in *. rewrite ISSET_SET_BIT by lia.
  destruct (decide (j = id)) as [->|Hd].
  - rewrite list_lookup_insert_eq in Hw by lia. simplify_eq. rewrite Z.eqb_refl. by split.
  - rewrite list_lookup_insert_ne in Hw by done.
    destruct (Z.eqb_spec (Z.of_nat j) (Z.of_nat id)); [lia|]. by apply Hm.
Qed.

Lemma decode_item_typed id item ie_def raw data length st r st' :
  st_typed st -> group !! id = Some item ->
  decode_item dec id item ie_def raw data length st = Ok (r, st') -> st_typed st'.
Proof.
  intros Hst Hid. unfold decode_item, decode_vector_ie.
  destruct (negb (gi_is_array item) && _) eqn:Edup; [by intros [= _ <-]|].
  destruct ie_def as [def|]; [|done]. destruct (decide _) as [Hd|]; [|done].
  destruct (dec def data length (ds_err st)) as [[[r' x] e]|c|f] eqn:Ex;
    [|by destruct (gi_is_array item)..].
  destruct (gi_is_array item) eqn:Ea; cbn [obind]; intros [= <- <-];
    destruct (Z.eqb_spec r' 0) as [->|]; try exact Hst;
    apply dec_typed in Ex.
  - pose proof Hst as (Hlen & _ & Hm).
    assert (id < List.length (ds_members st))%nat as Hlt
      by (rewrite Hlen; by eapply lookup_lt_Some).
    apply lookup_lt_is_Some_2 in Hlt as [vs Hvs]. rewrite Hvs. simpl.
    apply (st_typed_set _ id item); [done|done|by destruct vs|congruence|].
    apply Forall_app. split; [by eapply Hm|]. constructor; [by eexists|done].
  - apply (st_typed_set _ id item); [done|done|done|done|].
    constructor; [by eexists|done].
Qed.

(** the loop is left early only for a bad length *)
Definition turn_typed (t : turn) : Prop :=
  match t with
  | Return c st => c = PFCP_CAUSE_INVALID_LENGTH /\ st_typed st
  | Next _ _ st => st_typed st
  end.

Lemma decode_turn_typed p len pos st t :
  st_typed st -> decode_turn dec group p len pos st = Ok t ->
  turn_typed t.
Proof.
  intros Hst. unfold decode_turn.
  destruct (read_ie_hdr p len pos) as [[h|]|c|f]; try discriminate; cbn [obind];
    [|by intros [= <-]].
  destruct (ih_def h) as [d|]; [|by intros [= <-]].
  destruct (get_ie_spec group (ih_type h)) as [[id item]|] eqn:Es; [|by intros [= <-]].
  destruct (decode_item _ _ _ _ _ _ _ _) as [[r st']|c|f] eqn:Ei; try discriminate.
  cbn [obind]. intros [= <-]. apply get_ie_spec_lookup in Es as (Hl & _ & _).
  by eapply decode_item_typed.
Qed.

Lemma decode_loop_typed fuel p len r pos st t :
  st_typed st -> decode_loop dec fuel group p len r pos st = Ok t ->
  turn_typed t.
Proof.
  revert r pos st. induction fuel as [|fuel IH]; intros r pos st Hst; simpl.
  - destruct (_ && _); [done|]. by intros [= <-].
  - destruct (_ && _); [|by intros [= <-]].
    destruct (decode_turn _ _ _ _ _ _) as [t'|c|f] eqn:E; try discriminate. cbn [obind].
    apply decode_turn_typed in E; [|done].
    destruct t' as [c st'|r' pos' st']; [by intros [= <-]|]. by apply IH.
Qed.

Lemma st_typed_init err : st_typed (mk_dstate 0 (replicate (length group) []) [] err).
Proof.
  split; [apply length_replicate|]. split; [simpl; unfold Zlen; lia|].
  intros id item vs _ [-> _]%lookup_replicate. unfold ISSET_BIT. simpl.
  rewrite flag_BIT, Z.bits_0 by lia. split; [done|]. by split; [simpl; lia|].
Qed.

(** the group a decode returns, successful or not, fits its table; with
    [r = 0] its mandatory elements are there *)
Lemma decode_group_typed p len mandatory err r v err' :
  decode_group dec p len mandatory group err = Ok (r, v, err') ->
  exists fields members ies, v = VGroup fields members ies /\
  members_typed T group fields members /\
  (r = 0 -> Z.land fields mandatory = mandatory).
Proof.
  unfold decode_group.
  destruct (decode_loop _ _ _ _ _ _ _ _) as [t|c|f] eqn:E; try discriminate. cbn [obind].
  apply decode_loop_typed in E; [|apply st_typed_init].
  destruct t as [c st|r' pos st].
  - intros [= <- <- <-]. destruct E as [-> E]. do 3 eexists. by split.
  - destruct (negb _) eqn:Em; [destruct (_ <=? _); [done|]|]; intros [= <- <- <-];
      do 3 eexists; (split; [done|]); split; try exact E; [done|].
    by btest.
Qed.
End Preserve.

Lemma decode_ie_typed n def data length err x err' :
  decode_ie n def data length err = Ok (0, x, err') -> val_typed n def x.
Proof.
  revert def data length err x err'.
  induction n as [|n IH]; intros [k|m g] data len err x err'; cbn [decode_ie]; try discriminate.
  1, 2: destruct (run_decode _ _ _) as [y|c|f]; intros H; by simplify_eq.
  intros H. apply (decode_group_typed _ (val_typed n)) in H as (f & mem & ies & -> & Ht & Hm);
    [|exact IH]. simpl. auto.
Qed.
End Typed.

Lemma decode_msg_typed_aux {V : Vppinfra} p len m err :
  pfcp_decode_msg p len = Ok (0, m, err) ->
  val_typed (S group_depth) (GROUP_IE (fst (msg_spec (dm_type m))) (snd (msg_spec (dm_type m))))
    (dm_grp m).
Proof.
  unfold pfcp_decode_msg. destruct (len =? 0); [done|].
  destruct (load p 1 1) as [t|c|f]; try done. cbn [obind].
  destruct (len <? _); [done|]. destruct (_ <=? _); [done|].
  destruct (load p 0 _) as [hdr|c|f]; try done. cbn [obind].
  destruct (len <? _); [done|]. destruct (negb _); [done|].
  destruct (msg_spec (de_be t)) as [mand g] eqn:Em. cbv zeta.
  destruct (decode_group _ _ _ _ _ _) as [[[r v] e]|c|f] eqn:E; try done. cbn [obind].
  intros [= -> <- <-]. simpl dm_type. simpl dm_grp. rewrite Em.
  apply (decode_group_typed _ (val_typed group_depth)) in E
    as (fl & mem & ies & -> & Ht & Hm); [|apply decode_ie_typed].
  split; [by apply Hm|done].
Qed.

(** C26. Shape and completeness of a decoded message: when pfcp_decode_msg
    succeeds, the message is a struct of its type in which every mandatory
    element has a value, presence bits and values agree, only vectors hold
    several values, and every nested value has the type its table entry
    announces, down to the innermost group. *)
Theorem decode_msg_typed {V : Vppinfra} p len m err :
  pfcp_decode_msg p len = Ok (0, m, err) ->
  val_typed (S group_depth) (GROUP_IE (fst (msg_spec (dm_type m))) (snd (msg_spec (dm_type m))))
    (dm_grp m).
Proof. apply decode_msg_typed_aux. Qed.

(** a heartbeat request with its recovery time stamp *)
Definition heartbeat_bytes : list Z :=
  [0x20; 1; 0; 12; 0; 0; 7; 0; 0; 96; 0; 4; 0xe0; 0; 0; 0].
Definition heartbeat_msg : pfcp_decoded_msg_t :=
  mk_dmsg PFCP_HEARTBEAT_REQUEST 7 0 (VGroup 1 [[VLeaf K_time_stamp_ie 1549107584]] []).

Lemma decode_msg_typed_witness :
  val_typed (S group_depth)
    (GROUP_IE (fst (msg_spec PFCP_HEARTBEAT_REQUEST)) (snd (msg_spec PFCP_HEARTBEAT_REQUEST)))
    (dm_grp heartbeat_msg).
Proof.
  apply (@decode_msg_typed vpp_exact heartbeat_bytes 16 heartbeat_msg []).
  vm_compute. reflexivity.
Defined.
