(* ===== verification/PfcpLoop.v ===== *)
(** * Element by element reasoning about decode_group

    The loop keeps a position in the received bytes; here it is shown to be
    a fold over the elements from the front ([group_run_next]), and what one
    element on the wire does to the group is worked out: unknown elements are
    kept aside, repeated ones too, a length past the group ends the decode. *)

From Stdlib Require Import ZArith Lia.
From stdpp Require Import base list list_numbers option numbers decidable.
From S2P Require Import Prelude PfcpIo PfcpIe PfcpLeaf PfcpTables PfcpCodec PfcpWire PfcpDecode.

Lemma drop_add {A} (p : list A) a b :
  0 <= a -> 0 <= b -> drop (Z.to_nat b) (drop (Z.to_nat a) p) = drop (Z.to_nat (a + b)) p.
Proof. intros. rewrite drop_drop. f_equal. lia. Qed.

Lemma load_shift p a b n :
  0 <= a -> 0 <= b -> 0 < n -> load p (a + b) n = load (drop (Z.to_nat a) p) b n.
Proof.
  intros. unfold load. rewrite drop_add by done.
  replace (Zlen (drop (Z.to_nat a) p)) with (Z.max 0 (Zlen p - a))
    by (unfold Zlen; rewrite length_drop; lia).
  destruct (Z.ltb_spec (Zlen p) (a + b + n)), (Z.ltb_spec (Z.max 0 (Zlen p - a)) (b + n));
    done || lia.
Qed.

Definition shift_hdr (a : Z) (h : ie_hdr) : ie_hdr :=
  mk_ie_hdr (ih_def h) (ih_type h) (a + ih_pos h) (ih_length h) (ih_raw h).

Lemma read_ie_hdr_shift p len a :
  0 <= a ->
  read_ie_hdr p len a
  = obind (read_ie_hdr (drop (Z.to_nat a) p) (len - a) 0) (fun h => Ok (shift_hdr a <$> h)).
Proof.
  intros Ha. unfold read_ie_hdr. rewrite <- (Z.add_0_r a) at 1. rewrite load_shift by lia.
  destruct (load (drop (Z.to_nat a) p) 0 4) as [hdr|c|f]; try done. cbn [obind].
  rewrite drop_0. replace (len - a <? 0 + 4 + de_be (drop 2 hdr))
    with (len <? a + 4 + de_be (drop 2 hdr)).
  2:{ destruct (Z.ltb_spec len (a + 4 + de_be (drop 2 hdr))),
        (Z.ltb_spec (len - a) (0 + 4 + de_be (drop 2 hdr))); done || lia. }
  destruct (len <? _); [done|]. destruct (flag _ _).
  - rewrite load_shift, Z.add_0_l by lia. destruct (load _ 4 2); try done. cbn.
    unfold shift_hdr. simpl. do 3 f_equal. lia.
  - cbn. unfold shift_hdr. simpl. do 3 f_equal.
Qed.

Section Loop.
Context {V : Vppinfra}.
Variable dec : elem_decoder.
Variable group : list pfcp_group_ie_def.

Definition shift_turn (a : Z) (t : turn) : turn :=
  match t with Return c st => Return c st | Next r pos st => Next r (a + pos) st end.

Lemma decode_turn_shift p len a st :
  Forall is_byte p -> 0 <= a ->
  decode_turn dec group p len a st
  = obind (decode_turn dec group (drop (Z.to_nat a) p) (len - a) 0 st)
      (fun t => Ok (shift_turn a t)).
Proof.
  intros Hp Ha. unfold decode_turn. rewrite read_ie_hdr_shift by done.
  destruct (read_ie_hdr (drop (Z.to_nat a) p) (len - a) 0) as [[h|]|c|f] eqn:Eh; try done.
  apply read_ie_hdr_forward in Eh as [Hpos Hl]; [|by apply Forall_drop].
  cbn. rewrite <- drop_add by lia.
  destruct (ih_def h) as [d|], (get_ie_spec group (ih_type h)) as [[id item]|];
    try (cbn; do 2 f_equal; lia).
  destruct (decode_item _ _ _ _ _ _ _ _) as [[r st']|c|f]; try done.
  cbn. do 2 f_equal. lia.
Qed.

(** how the loop ended: early return or not, [r], and the state *)
Definition result (o : outcome turn) : outcome (bool * Z * dstate) :=
  obind o (fun t => Ok match t with
                       | Return c st => (true, c, st)
                       | Next r _ st => (false, r, st)
                       end).

Lemma decode_loop_shift fuel p len r a st :
  Forall is_byte p -> 0 <= a ->
  result (decode_loop dec fuel group p len r a st)
  = result (decode_loop dec fuel group (drop (Z.to_nat a) p) (len - a) r 0 st).
Proof.
  intros Hp. revert p Hp len r a st. induction fuel as [|fuel IH];
    intros p Hp len r a st Ha; simpl.
  all: replace (0 <? len - a) with (a <? len)
    by (destruct (Z.ltb_spec a len), (Z.ltb_spec 0 (len - a)); done || lia).
  all: destruct ((r =? 0) && (a <? len)); [|done].
  { done. }
  rewrite decode_turn_shift by done.
  destruct (decode_turn _ _ (drop (Z.to_nat a) p) _ _ _) as [[c st'|r' q st']|c|f] eqn:E;
    try done.
  apply decode_turn_forward in E; [|by apply Forall_drop]. cbn [obind shift_turn].
  rewrite IH by (done || lia). rewrite (IH (drop (Z.to_nat a) p)) by (try apply Forall_drop; done || lia).
  rewrite drop_add by lia. do 2 f_equal. lia.
Qed.

Lemma decode_loop_fuel f1 f2 p len r pos st :
  Forall is_byte p -> len - pos <= Z.of_nat f1 -> len - pos <= Z.of_nat f2 ->
  decode_loop dec f1 group p len r pos st = decode_loop dec f2 group p len r pos st.
Proof.
  intros Hp. revert f2 r pos st. induction f1 as [|f1 IH]; intros [|f2] r pos st H1 H2;
    simpl; try done.
  1, 2: destruct (Z.ltb_spec pos len); [lia|]; by rewrite andb_false_r.
  destruct ((r =? 0) && (pos <? len)); [|done].
  destruct (decode_turn _ _ _ _ _ _) as [[c st'|r' q st']|c|f] eqn:E; try done.
  cbn [obind]. apply decode_turn_forward in E; [|done]. apply IH; lia.
Qed.

Definition group_run (p : list Z) (len : Z) (st : dstate) : outcome (bool * Z * dstate) :=
  result (decode_loop dec (Z.to_nat len) group p len 0 0 st).

Lemma group_run_done p len st : len <= 0 -> group_run p len st = Ok (false, 0, st).
Proof.
  intros H. unfold group_run. destruct (Z.to_nat len); simpl;
    (destruct (Z.ltb_spec 0 len); [lia|done]).
Qed.

(** take an element off the front *)
Lemma group_run_next p len st q st' :
  Forall is_byte p -> 0 < len ->
  decode_turn dec group p len 0 st = Ok (Next 0 q st') ->
  group_run p len st = group_run (drop (Z.to_nat q) p) (len - q) st'.
Proof.
  intros Hp Hlen E. unfold group_run at 1. destruct (Z.to_nat len) as [|n] eqn:En; [lia|].
  simpl. destruct (Z.ltb_spec 0 len); [|lia]. rewrite E. cbn [obind].
  apply decode_turn_forward in E; [|done].
  rewrite decode_loop_shift by (done || lia). unfold group_run.
  f_equal. apply decode_loop_fuel; [by apply Forall_drop|lia|lia].
Qed.

Lemma decode_group_run p len mandatory err :
  decode_group dec p len mandatory group err
  = obind (group_run p len (mk_dstate 0 (replicate (length group) []) [] err))
      (fun '(ret, r, st) =>
       let v := VGroup (ds_fields st) (ds_members st) (ds_ies st) in
       if ret then Ok (r, v, ds_err st)
       else if negb (Z.land (ds_fields st) mandatory =? mandatory) then
         let missing := Z.land (Z.lnot (ds_fields st)) mandatory in
         if 2 ^ Zlen group <=? missing then Fault NoDefinition
         else Ok (PFCP_CAUSE_MANDATORY_IE_MISSING, v,
                  ds_err st ++ missing_types 0 group missing)
       else Ok (r, v, ds_err st)).
Proof.
  unfold decode_group, group_run. by destruct (decode_loop _ _ _ _ _ _ _ _) as [[]|c|f].
Qed.
End Loop.

(** ** One element at the front *)

Definition ie_hdr_len (item : pfcp_group_ie_def) : Z := if gi_vendor item =? 0 then 4 else 6.

(** the type and vendor of an entry fit the header *)
Definition item_hdr_ok (item : pfcp_group_ie_def) : bool :=
  in_range 15 (gi_type item) && in_range 16 (gi_vendor item).

Lemma Zlen_ie_wire item payload :
  Zlen (ie_wire item payload) = ie_hdr_len item + Zlen payload.
Proof.
  unfold ie_wire, ie_hdr_len. destruct (gi_vendor item =? 0); autorewrite with upf_len; lia.
Qed.

Lemma ie_hdr_len_bound item : 4 <= ie_hdr_len item <= 6.
Proof. unfold ie_hdr_len. destruct (_ =? _); lia. Qed.

Lemma load_app p l1 l2 l3 a n :
  p = l1 ++ l2 ++ l3 -> Zlen l1 = a -> Zlen l2 = n -> load p a n = Ok l2.
Proof.
  intros -> <- <-. unfold load. rewrite !Zlen_app. pose proof (Zlen_nonneg l3).
  destruct (Z.ltb_spec (Zlen l1 + (Zlen l2 + Zlen l3)) (Zlen l1 + Zlen l2)); [lia|].
  unfold Zlen. rewrite !Nat2Z.id, drop_app_length, take_app_length. done.
Qed.

Lemma vendor_type_bits t :
  in_range 15 t = true ->
  let w := Z.lor 0x8000 t in
  in_range 16 w = true /\ flag w 0x8000 = true /\ Z.land w 0x7fff = t.
Proof.
  intros Ht w. unfold w. change 0x8000 with (Z.shiftl 1 15).
  pose proof (proj1 (in_range_spec 15 t) Ht). rewrite lor_shiftl_add by lia.
  split; [apply in_range_spec; lia|]. split.
  - change (Z.shiftl 1 15) with (BIT 15). rewrite flag_BIT by lia.
    rewrite <- lor_shiftl_add by lia. rewrite Z.lor_spec, Z.shiftl_spec by lia. done.
  - change 0x7fff with (Z.ones 15). rewrite Z.land_ones by lia.
    rewrite Z.add_comm, Z.mod_add by lia. apply Z.mod_small. lia.
Qed.

Lemma type_bits t : in_range 15 t = true -> in_range 16 t = true /\ flag t 0x8000 = false.
Proof.
  intros Ht%in_range_spec. split; [apply in_range_spec; lia|].
  change 0x8000 with (BIT 15). rewrite flag_BIT by lia. apply (testbit_small 15); lia.
Qed.

Lemma de_be_2 x : in_range 16 x = true -> de_be (be 2 x) = x.
Proof. intros H%in_range_spec. by apply de_be_be_small. Qed.

Lemma take_be_2 x l : take 2 (be 2 x ++ l) = be 2 x.
Proof. reflexivity. Qed.
Lemma drop_be_2 x l : drop 2 (be 2 x ++ l) = l.
Proof. reflexivity. Qed.

Lemma read_ie_wire item payload rest len :
  item_hdr_ok item = true -> Zlen payload + 2 < 65536 ->
  Zlen (ie_wire item payload) <= len ->
  read_ie_hdr (ie_wire item payload ++ rest) len 0
  = Ok (Some (mk_ie_hdr (get_ie_def item) (gi_type item) (ie_hdr_len item) (Zlen payload)
                (ie_wire item payload))).
Proof.
  intros Hi Hl Hlen. unfold item_hdr_ok in Hi. apply andb_true_iff in Hi as [Ht Hv].
  pose proof (Zlen_nonneg payload).
  assert (take (Z.to_nat (ie_hdr_len item + Zlen payload)) (ie_wire item payload ++ rest)
          = ie_wire item payload) as Hraw.
  { rewrite <- Zlen_ie_wire. unfold Zlen. by rewrite Nat2Z.id, take_app_length. }
  rewrite Zlen_ie_wire in Hlen. revert Hlen Hraw.
  unfold read_ie_hdr, ie_wire, ie_hdr_len, get_ie_def. rewrite drop_0.
  destruct (Z.eqb_spec (gi_vendor item) 0) as [E|E]; intros Hlen Hraw.
  - destruct (type_bits _ Ht) as [Ht16 Hflag].
    rewrite (load_app _ [] (be 2 (gi_type item) ++ be 2 (Zlen payload)) (payload ++ rest))
      by (done || by rewrite <- !app_assoc).
    cbn [obind]. rewrite take_be_2, drop_be_2, !de_be_2, Hflag by (done || by apply in_range_spec; lia).
    destruct (Z.ltb_spec len (0 + 4 + Zlen payload)); [lia|].
    by rewrite Hraw.
  - destruct (vendor_type_bits _ Ht) as (Ht16 & Hflag & Hland).
    set (w := Z.lor 0x8000 (gi_type item)) in *.
    rewrite (load_app _ [] (be 2 w ++ be 2 (Zlen payload + 2))
      (be 2 (gi_vendor item) ++ payload ++ rest)) by (done || by rewrite <- !app_assoc).
    cbn [obind]. rewrite take_be_2, drop_be_2, !de_be_2, Hflag by (done || by apply in_range_spec; lia).
    destruct (Z.ltb_spec len (0 + 4 + (Zlen payload + 2))); [lia|].
    rewrite (load_app _ (be 2 w ++ be 2 (Zlen payload + 2)) (be 2 (gi_vendor item))
      (payload ++ rest)) by (done || by rewrite <- !app_assoc).
    cbn [obind]. rewrite de_be_2, Hland by done.
    rewrite wrap_small by (apply in_range_spec; lia).
    replace (4 + (Zlen payload + 2)) with (6 + Zlen payload) by lia.
    rewrite Hraw. do 3 f_equal; lia.
Qed.

Section Front.
Context {V : Vppinfra}.
Variable dec : elem_decoder.
Variable group : list pfcp_group_ie_def.

(** an element of the group, as decode_item leaves the state *)
Lemma group_run_item item id def payload rest len st st' :
  item_hdr_ok item = true -> Forall is_byte (ie_wire item payload ++ rest) ->
  Zlen payload + 2 < 65536 -> Zlen (ie_wire item payload) <= len ->
  get_ie_def item = Some (Some def) -> get_ie_spec group (gi_type item) = Some (id, item) ->
  decode_item dec id item (Some def) (ie_wire item payload) (payload ++ rest) (Zlen payload) st
  = Ok (0, st') ->
  group_run dec group (ie_wire item payload ++ rest) len st
  = group_run dec group rest (len - Zlen (ie_wire item payload)) st'.
Proof.
  intros Hok Hb Hl Hlen Hdef Hspec Hitem.
  pose proof (ie_hdr_len_bound item). pose proof (Zlen_nonneg payload).
  assert (Zlen (ie_wire item payload) = ie_hdr_len item + Zlen payload) as El
    by apply Zlen_ie_wire.
  assert (drop (Z.to_nat (ie_hdr_len item)) (ie_wire item payload ++ rest) = payload ++ rest)
    as Hdrop.
  { unfold ie_wire, ie_hdr_len. destruct (gi_vendor item =? 0); reflexivity. }
  rewrite (group_run_next _ _ _ _ _ (ie_hdr_len item + Zlen payload) st'); [|done|lia|].
  - rewrite <- drop_add, Hdrop by lia. unfold Zlen at 1. rewrite Nat2Z.id, drop_app_length.
    by rewrite El.
  - unfold decode_turn. rewrite read_ie_wire by done. cbn [obind ih_def ih_type ih_pos ih_length ih_raw].
    by rewrite Hdef, Hspec, Hdrop, Hitem.
Qed.

(** an element the group does not know, or of a vendor nobody knows *)
Lemma group_run_unknown item payload rest len st :
  item_hdr_ok item = true -> Forall is_byte (ie_wire item payload ++ rest) ->
  Zlen payload + 2 < 65536 -> Zlen (ie_wire item payload) <= len ->
  get_ie_def item = None \/ get_ie_spec group (gi_type item) = None ->
  group_run dec group (ie_wire item payload ++ rest) len st
  = group_run dec group rest (len - Zlen (ie_wire item payload))
      (keep_ie st (ie_wire item payload)).
Proof.
  intros Hok Hb Hl Hlen Hunk.
  pose proof (ie_hdr_len_bound item). pose proof (Zlen_nonneg payload).
  assert (Zlen (ie_wire item payload) = ie_hdr_len item + Zlen payload) as El
    by apply Zlen_ie_wire.
  rewrite (group_run_next _ _ _ _ _ (ie_hdr_len item + Zlen payload)
             (keep_ie st (ie_wire item payload))); [|done|lia|].
  - rewrite <- El. unfold Zlen at 1. by rewrite Nat2Z.id, drop_app_length.
  - unfold decode_turn. rewrite read_ie_wire by done.
    cbn [obind ih_def ih_type ih_pos ih_length ih_raw].
    destruct Hunk as [E|E]; rewrite E; [done|]. by destruct (get_ie_def item).
Qed.

(** ** The elements set aside do not matter *)

Definition add_ies (ies : list (list Z)) (st : dstate) : dstate :=
  mk_dstate (ds_fields st) (ds_members st) (ies ++ ds_ies st) (ds_err st).

Lemma decode_item_add_ies ies id item ie_def raw data length st :
  decode_item dec id item ie_def raw data length (add_ies ies st)
  = obind (decode_item dec id item ie_def raw data length st)
      (fun '(r, st') => Ok (r, add_ies ies st')).
Proof.
  unfold decode_item, decode_vector_ie. simpl.
  destruct (_ && _); [unfold keep_ie, add_ies; simpl; by rewrite app_assoc|].
  destruct ie_def as [def|]; [|done]. destruct (decide _); [|done].
  destruct (gi_is_array item), (dec def data length (ds_err st)) as [[[? ?] ?]|?|?];
    try done; cbn [obind]; by destruct (_ =? 0).
Qed.

Definition add_ies_turn (ies : list (list Z)) (t : turn) : turn :=
  match t with
  | Return c st => Return c (add_ies ies st)
  | Next r pos st => Next r pos (add_ies ies st)
  end.

Lemma decode_turn_add_ies ies p len pos st :
  decode_turn dec group p len pos (add_ies ies st)
  = obind (decode_turn dec group p len pos st) (fun t => Ok (add_ies_turn ies t)).
Proof.
  unfold decode_turn. destruct (read_ie_hdr p len pos) as [[h|]|c|f]; try done.
  cbn [obind].
  destruct (ih_def h) as [d|], (get_ie_spec group (ih_type h)) as [[id item]|];
    try (cbn; unfold keep_ie, add_ies; simpl; by rewrite app_assoc).
  rewrite decode_item_add_ies. by destruct (decode_item _ _ _ _ _ _ _ _) as [[? ?]|?|?].
Qed.

Lemma decode_loop_add_ies ies fuel p len r pos st :
  decode_loop dec fuel group p len r pos (add_ies ies st)
  = obind (decode_loop dec fuel group p len r pos st) (fun t => Ok (add_ies_turn ies t)).
Proof.
  revert r pos st. induction fuel as [|fuel IH]; intros r pos st; simpl;
    (destruct (_ && _); [|done]); [done|].
  rewrite decode_turn_add_ies.
  destruct (decode_turn _ _ _ _ _ _) as [[c st'|r' q st']|c|f]; try done. apply IH.
Qed.

Lemma group_run_add_ies ies p len st :
  group_run dec group p len (add_ies ies st)
  = obind (group_run dec group p len st)
      (fun '(ret, r, st') => Ok (ret, r, add_ies ies st')).
Proof.
  unfold group_run. rewrite decode_loop_add_ies.
  by destruct (decode_loop _ _ _ _ _ _ _ _) as [[]|?|?].
Qed.
End Front.

(** add elements to the ones a group has set aside *)
Definition with_ies (ies : list (list Z)) (v : val) : val :=
  match v with VGroup f m i => VGroup f m (ies ++ i) | v => v end.

(** Forward compatibility: an element whose type the group does not list,
    or whose vendor is not known, changes nothing but the list of elements
    set aside: the group decodes to what the remaining bytes decode to, with
    the same result code and offending elements. *)
Theorem decode_unknown_skipped {V : Vppinfra} dec group item payload rest mandatory err :
  item_hdr_ok item = true -> Forall is_byte (ie_wire item payload ++ rest) ->
  Zlen payload + 2 < 65536 ->
  get_ie_def item = None \/ get_ie_spec group (gi_type item) = None ->
  decode_group dec (ie_wire item payload ++ rest) (Zlen (ie_wire item payload ++ rest))
    mandatory group err
  = obind (decode_group dec rest (Zlen rest) mandatory group err)
      (fun '(r, v, err') => Ok (r, with_ies [ie_wire item payload] v, err')).
Proof.
  intros Hok Hb Hl Hunk. rewrite !decode_group_run.
  pose proof (Zlen_nonneg rest).
  rewrite group_run_unknown by (done || rewrite Zlen_app; lia).
  rewrite Zlen_app. replace (Zlen _ + Zlen rest - Zlen _) with (Zlen rest) by lia.
  set (st := mk_dstate 0 _ [] err).
  change (keep_ie st (ie_wire item payload)) with (add_ies [ie_wire item payload] st).
  rewrite group_run_add_ies.
  destruct (group_run dec group rest (Zlen rest) st) as [[[ret r] st']|c|f]; try done.
  cbn [obind add_ies ds_fields ds_members ds_ies ds_err].
  destruct ret; [done|]. destruct (negb _); [|done]. by destruct (_ <=? _).
Qed.

Lemma decode_unknown_skipped_witness :
  let item := ie 9999 (gi_offset ie_none) in
  let rest := [0; 96; 0; 4; 0xe0; 0; 0; 0] in
  let dec := @decode_ie vpp_exact group_depth in
  decode_group dec (ie_wire item [1; 2; 3] ++ rest) (Zlen (ie_wire item [1; 2; 3] ++ rest)) 1
    pfcp_heartbeat_request_group []
  = obind (decode_group dec rest (Zlen rest) 1 pfcp_heartbeat_request_group [])
      (fun '(r, v, err') => Ok (r, with_ies [ie_wire item [1; 2; 3]] v, err')).
Proof.
  apply (@decode_unknown_skipped vpp_exact);
    [by_eval | by apply bytes_check; vm_compute | by_eval | right; by_eval].
Defined.

(** A repeated element does not overwrite: when a single-valued element
    comes twice, the first one counts and the second is set aside; the rest of
    the group decodes as if the second were not there. *)
Theorem decode_duplicate_first_wins {V : Vppinfra} dec group id item def p1 p2 rest mandatory
    err x err1 :
  item_hdr_ok item = true -> gi_is_array item = false ->
  get_ie_def item = Some (Some def) -> get_ie_spec group (gi_type item) = Some (id, item) ->
  Forall is_byte (ie_wire item p1 ++ ie_wire item p2 ++ rest) ->
  Zlen p1 + 2 < 65536 -> Zlen p2 + 2 < 65536 ->
  (forall tl, dec def (p1 ++ tl) (Zlen p1) err = Ok (0, x, err1)) ->
  let w := ie_wire item p1 ++ rest in
  let ww := ie_wire item p1 ++ ie_wire item p2 ++ rest in
  decode_group dec ww (Zlen ww) mandatory group err
  = obind (decode_group dec w (Zlen w) mandatory group err)
      (fun '(r, v, err') => Ok (r, with_ies [ie_wire item p2] v, err')).
Proof.
  intros Hok Ha Hdef Hspec Hb Hl1 Hl2 Hdec w ww. rewrite !decode_group_run.
  set (st := mk_dstate 0 _ [] err).
  apply Forall_app in Hb as [Hb1 Hb2]. pose proof (proj1 (Forall_app _ _ _) Hb2) as [_ Hb3].
  assert (forall tl, decode_item dec id item (Some def) (ie_wire item p1) (p1 ++ tl) (Zlen p1) st
    = Ok (0, set_member (set_err st err1) id [x])) as H1.
  { intros tl. unfold decode_item, ISSET_BIT. simpl ds_fields.
    rewrite flag_BIT, Z.bits_0, andb_false_r, decide_True, Ha by (done || lia).
    change (ds_err st) with err. by rewrite Hdec. }
  set (st1 := set_member (set_err st err1) id [x]) in *.
  pose proof (Zlen_nonneg rest). pose proof (Zlen_nonneg (ie_wire item p2)).
  unfold w, ww. rewrite !Zlen_app.
  rewrite (group_run_item _ _ item id def p1 (ie_wire item p2 ++ rest) _ st st1)
    by (done || lia || by apply Forall_app).
  rewrite (group_run_item _ _ item id def p1 rest _ st st1)
    by (done || lia || by apply Forall_app).
  rewrite (group_run_item _ _ item id def p2 rest _ st1 (keep_ie st1 (ie_wire item p2)));
    try done; [|lia|].
  2:{ unfold decode_item, st1. simpl ds_fields. rewrite Ha.
      rewrite (ISSET_SET_BIT 0 (Z.of_nat id) (Z.of_nat id)) by lia.
      by rewrite Z.eqb_refl. }
  match goal with |- obind (group_run _ _ _ ?a _) _ = obind (obind (group_run _ _ _ ?b _) _) _ =>
    replace a with (Zlen rest) by lia; replace b with (Zlen rest) by lia end.
  change (keep_ie st1 (ie_wire item p2)) with (add_ies [ie_wire item p2] st1).
  rewrite group_run_add_ies.
  destruct (group_run dec group rest (Zlen rest) st1) as [[[ret r] st']|c|f]; try done.
  cbn [obind add_ies ds_fields ds_members ds_ies ds_err].
  destruct ret; [done|]. destruct (negb _); [|done]. by destruct (_ <=? _).
Qed.

(** an element as it is received: its length field need not be the number of
    octets that follow *)
Definition element_octets (type length : Z) (payload : list Z) : list Z :=
  be 2 type ++ be 2 length ++ payload.

(** An element whose length points past its group ends the decode with
    INVALID_LENGTH, before any other check: nothing of the element is read and
    missing mandatory elements are not reported. *)
Theorem decode_overlong_rejected {V : Vppinfra} dec group type length rest len mandatory err :
  in_range 16 type = true -> in_range 16 length = true ->
  0 < len < 4 + length ->
  decode_group dec (element_octets type length rest) len mandatory group err
  = Ok (PFCP_CAUSE_INVALID_LENGTH, VGroup 0 (replicate (List.length group) []) [], err).
Proof.
  intros Ht Hl Hlen. unfold element_octets, decode_group. destruct (Z.to_nat len) as [|n] eqn:En; [lia|].
  cbn [decode_loop]. destruct (Z.ltb_spec 0 len); [|lia]. cbn [andb Z.eqb].
  unfold decode_turn, read_ie_hdr.
  rewrite (load_app _ [] (be 2 type ++ be 2 length) rest) by (done || by rewrite <- app_assoc).
  cbn [obind]. rewrite take_be_2, drop_be_2, !de_be_2 by done.
  by destruct (Z.ltb_spec len (0 + 4 + length)); [|lia].
Qed.

Lemma decode_overlong_rejected_witness :
  decode_group (@decode_ie vpp_exact group_depth) (element_octets 96 5 [1; 2; 3; 4]) 8 1
    pfcp_heartbeat_request_group []
  = Ok (PFCP_CAUSE_INVALID_LENGTH, VGroup 0 [[]] [], []).
Proof.
  apply (@decode_overlong_rejected vpp_exact (@decode_ie vpp_exact group_depth)
           pfcp_heartbeat_request_group 96 5 [1; 2; 3; 4] 8 1 []); by_eval.
Defined.
