(* ===== verification/PfcpMsgRt.v ===== *)
(** * Round trip of PFCP messages

    [val_ok] describes the messages the codec transports: every simple value
    is one its codec transports, presence bits and values agree, mandatory
    elements are there, and entries that share no type with another entry and
    have a definition are the only ones used. Decoding the encoding of such a
    message gives the message back. *)

From Stdlib Require Import ZArith Lia.
From stdpp Require Import base list list_numbers option numbers decidable.
From S2P Require Import Prelude PfcpIo PfcpIe PfcpLeaf PfcpIeRt PfcpLeafRt PfcpTables PfcpCodec PfcpWire PfcpDecode PfcpLoop.

(** ** Messages the codec transports *)

(** entry [i] is the one a decoder finds for its own type *)
Definition item_decodable (group : list pfcp_group_ie_def) (i : nat)
  (item : pfcp_group_ie_def) : bool :=
  item_hdr_ok item && bool_decide (get_ie_spec group (gi_type item) = Some (i, item)).

Section Ok.
Variable ok : pfcp_ie_def -> val -> bool.

Definition member_ok (group : list pfcp_group_ie_def) (fields : Z) (i : nat)
  (item : pfcp_group_ie_def) (vs : list val) : bool :=
  if ISSET_BIT fields (Z.of_nat i) then
    item_decodable group i item
    && match get_ie_def item with
       | Some (Some def) =>
           forallb (ok def) vs
           && match vs with [] => false | [_] => true | _ => gi_is_array item end
       | _ => false
       end
  else match vs with [] => true | _ => false end.

Fixpoint members_ok (group : list pfcp_group_ie_def) (fields : Z) (i : nat)
  (items : list pfcp_group_ie_def) (members : list (list val)) : bool :=
  match items, members with
  | [], [] => true
  | item :: items, vs :: members =>
      member_ok group fields i item vs && members_ok group fields (S i) items members
  | _, _ => false
  end.
End Ok.

Fixpoint val_ok (n : nat) (def : pfcp_ie_def) (v : val) : bool :=
  match def, v with
  | SIMPLE_IE k, VLeaf k' x => bool_decide (k' = k) && leaf_wf k' x
  | GROUP_IE mandatory group, VGroup fields members ies =>
      match n with
      | O => false
      | S n =>
          (Z.land fields mandatory =? mandatory) && in_range (Zlen group) fields
          && bool_decide (ies = []) && members_ok (val_ok n) group fields 0 group members
      end
  | _, _ => false
  end.

(** ** Bits below an index *)

Lemma fields_upto_0 f : Z.land f (Z.ones 0) = 0.
Proof. apply Z.land_0_r. Qed.

Lemma fields_upto_S f i :
  0 <= i ->
  Z.land f (Z.ones (i + 1))
  = if ISSET_BIT f i then SET_BIT (Z.land f (Z.ones i)) i else Z.land f (Z.ones i).
Proof.
  intros Hi. apply Z.bits_inj'. intros j Hj. unfold ISSET_BIT. rewrite flag_BIT by done.
  assert (Z.testbit (Z.land f (Z.ones (i + 1))) j = Z.testbit f j && (j <? i + 1)) as ->.
  { rewrite Z.land_spec, Z.testbit_ones_nonneg by lia. done. }
  destruct (Z.testbit f i) eqn:Ei; unfold SET_BIT, BIT;
    rewrite ?Z.lor_spec, ?Z.shiftl_1_l, ?Z.pow2_bits_eqb, Z.land_spec,
      Z.testbit_ones_nonneg by lia;
    destruct (Z.eqb_spec i j), (Z.ltb_spec j (i + 1)), (Z.ltb_spec j i); try lia; subst;
    rewrite ?Ei; by rewrite ?andb_true_r, ?andb_false_r, ?orb_true_r, ?orb_false_r.
Qed.

Lemma fields_upto_all f n : in_range n f = true -> Z.land f (Z.ones n) = f.
Proof.
  intros H. pose proof (proj1 (in_range_spec n f) H) as Hb.
  destruct (Z.lt_ge_cases n 0).
  - rewrite Z.pow_neg_r in Hb by lia. lia.
  - by apply (land_mask_small n).
Qed.

Lemma fields_upto_unset f i : 0 <= i -> ISSET_BIT (Z.land f (Z.ones i)) i = false.
Proof.
  intros Hi. unfold ISSET_BIT. rewrite flag_BIT, Z.land_spec by done.
  rewrite Z.testbit_ones_nonneg, Z.ltb_irrefl by lia. apply andb_false_r.
Qed.

(** ** Groups *)

Lemma oconcat_cons_inv x l bs :
  oconcat (x :: l) = Ok bs ->
  exists a b, x = Ok a /\ oconcat l = Ok b /\ bs = a ++ b.
Proof.
  simpl. destruct x as [a|c|f]; try done. destruct (oconcat l) as [b|c|f]; try done.
  intros [= <-]. by exists a, b.
Qed.

Lemma insert_middle {A} (l k : list A) x y : <[length l := y]> (l ++ x :: k) = l ++ y :: k.
Proof. induction l as [|z l IH]; simpl; [done|]. by rewrite IH. Qed.

Section GroupRt.
Context {V : Vppinfra}.
Variable dec : elem_decoder.
Variable ok : pfcp_ie_def -> val -> bool.
Variable payload : pfcp_ie_def -> val -> outcome (list Z).
Variable group : list pfcp_group_ie_def.

Definition frame (item : pfcp_group_ie_def) (def : pfcp_ie_def) (v : val)
  : outcome (list Z) := obind (payload def v) (fun pl => Ok (ie_wire item pl)).

Hypothesis dec_payload : forall def v pl tl err,
  ok def v = true -> payload def v = Ok pl -> Forall is_byte (pl ++ tl) ->
  Zlen pl < 65536 -> dec def (pl ++ tl) (Zlen pl) err = Ok (0, v, err).

Lemma run_vector id item def vs2 vs1 st rest len bs :
  item_decodable group id item = true -> get_ie_def item = Some (Some def) ->
  gi_is_array item = true -> forallb (ok def) vs2 = true ->
  oconcat (map (frame item def) vs2) = Ok bs -> Forall is_byte (bs ++ rest) ->
  Zlen bs < 65536 -> Zlen bs <= len -> ds_members st !! id = Some vs1 ->
  group_run dec group (bs ++ rest) len st
  = group_run dec group rest (len - Zlen bs)
      (match vs2 with [] => st | _ => set_member st id (vs1 ++ vs2) end).
Proof.
  intros Hid Hdef Harr. apply andb_true_iff in Hid as [Hok Hs].
  apply bool_decide_eq_true_1 in Hs.
  revert vs1 st len bs. induction vs2 as [|v vs2 IH];
    intros vs1 st len bs Hvs Hbs Hb Hl Hlen Hm.
  { injection Hbs as <-. by rewrite Z.sub_0_r. }
  cbn [map] in Hbs. apply oconcat_cons_inv in Hbs as (a & b & Ha & Hb2 & ->).
  unfold frame in Ha. destruct (payload def v) as [pl|c|f] eqn:Ep; try done.
  injection Ha as <-. simpl in Hvs. apply andb_true_iff in Hvs as [Hv Hvs].
  rewrite <- app_assoc in *. pose proof (ie_hdr_len_bound item).
  rewrite Zlen_app, Zlen_ie_wire in Hl, Hlen. pose proof (Zlen_nonneg b).
  pose proof (Zlen_nonneg pl).
  rewrite (group_run_item _ _ item id def pl (b ++ rest) _ st (set_member st id (vs1 ++ [v])));
    try done; [|lia|rewrite Zlen_ie_wire; lia|].
  2:{ unfold decode_item, decode_vector_ie.
      rewrite Harr, decide_True, Hm by done. cbn [negb andb default].
      rewrite (dec_payload def v); [done|done|done| |lia].
      unfold ie_wire in Hb. destruct (gi_vendor item =? 0); by rewrite !Forall_app in *; tauto. }
  apply Forall_app in Hb as [_ Hb].
  rewrite (IH (vs1 ++ [v])); try done; [|lia|rewrite Zlen_ie_wire; lia|].
  2:{ simpl. apply list_lookup_insert_eq. by eapply lookup_lt_Some. }
  rewrite Zlen_app. f_equal; [lia|]. destruct vs2 as [|w vs2]; [done|].
  unfold set_member; simpl. rewrite list_insert_insert_eq, <- app_assoc.
  f_equal. unfold SET_BIT. by rewrite <- Z.lor_assoc, Z.lor_diag.
Qed.

Lemma run_member fields i item vs pre post err bs rest len :
  member_ok ok group fields i item vs = true -> i = length pre ->
  wire_item frame (Z.of_nat i) item fields vs = Ok bs -> Forall is_byte (bs ++ rest) ->
  Zlen bs < 65536 -> Zlen bs <= len ->
  group_run dec group (bs ++ rest) len
    (mk_dstate (Z.land fields (Z.ones (Z.of_nat i))) (pre ++ [] :: post) [] err)
  = group_run dec group rest (len - Zlen bs)
      (mk_dstate (Z.land fields (Z.ones (Z.of_nat i + 1))) (pre ++ vs :: post) [] err).
Proof.
  intros Hok Hi Hw Hb Hl Hlen. rewrite fields_upto_S by lia.
  unfold member_ok in Hok. unfold wire_item in Hw.
  destruct (ISSET_BIT fields (Z.of_nat i)) eqn:Eb.
  2:{ destruct vs; [|done]. cbn [negb] in Hw.
      assert (bs = []) as ->.
      { destruct (_ && _); by injection Hw as <-. }
      by rewrite Z.sub_0_r. }
  cbn [negb] in Hw. apply andb_true_iff in Hok as [Hid Hok].
  destruct (get_ie_def item) as [[def|]|] eqn:Ed; try done.
  apply andb_true_iff in Hok as [Hvs Hne]. set (st := mk_dstate _ _ _ _).
  assert (mk_dstate (SET_BIT (Z.land fields (Z.ones (Z.of_nat i))) (Z.of_nat i))
            (pre ++ vs :: post) [] err = set_member st i vs) as ->.
  { unfold set_member, st. simpl. by rewrite Hi, insert_middle. }
  assert ((gi_type item =? 0) && (gi_vendor item =? 0) = false) as E0.
  { apply andb_true_iff in Hid as [_ Hs%bool_decide_eq_true_1].
    apply get_ie_spec_lookup in Hs as (_ & _ & Ht). destruct (Z.eqb_spec (gi_type item) 0); [|done].
    congruence. }
  rewrite E0 in Hw. destruct (gi_is_array item) eqn:Ea.
  - rewrite (run_vector i item def vs [] st rest len bs); try done.
    + by destruct vs.
    + unfold st. simpl. by rewrite Hi, list_lookup_middle.
  - destruct vs as [|v [|]]; [done| |done]. simpl hd in Hw. unfold frame in Hw.
    destruct (payload def v) as [pl|c|f] eqn:Ep; try done. injection Hw as <-.
    apply andb_true_iff in Hid as [Hhd Hs%bool_decide_eq_true_1].
    simpl in Hvs. rewrite andb_true_r in Hvs. rewrite Zlen_ie_wire in Hl.
    pose proof (ie_hdr_len_bound item).
    rewrite (group_run_item _ _ item i def pl rest _ st (set_member st i [v]));
      try done; [lia|].
    unfold decode_item. unfold st at 1. simpl ds_fields.
    rewrite fields_upto_unset, andb_false_r, decide_True, Ea by (done || lia).
    rewrite (dec_payload def v); [done|done|done| |lia].
    unfold ie_wire in Hb. destruct (gi_vendor item =? 0); by rewrite !Forall_app in *; tauto.
Qed.

Lemma run_members fields items members pre err bs rest :
  members_ok ok group fields (length pre) items members = true ->
  oconcat (wire_items frame (Z.of_nat (length pre)) items fields members) = Ok bs ->
  Forall is_byte (bs ++ rest) -> Zlen bs < 65536 ->
  group_run dec group (bs ++ rest) (Zlen bs)
    (mk_dstate (Z.land fields (Z.ones (Zlen pre))) (pre ++ replicate (length items) []) [] err)
  = Ok (false, 0, mk_dstate (Z.land fields (Z.ones (Zlen pre + Zlen items)))
                    (pre ++ members) [] err).
Proof.
  revert members pre bs. induction items as [|item items IH];
    intros [|vs members] pre bs Hok Hw Hb Hl; try done.
  - injection Hw as <-. rewrite group_run_done by done.
    change (Zlen (@nil pfcp_group_ie_def)) with 0. by rewrite Z.add_0_r.
  - cbn [members_ok] in Hok. apply andb_true_iff in Hok as [Hm Hok].
    cbn [wire_items hd tail] in Hw. apply oconcat_cons_inv in Hw as (a & b & Ha & Hw & ->).
    rewrite <- app_assoc in *. rewrite Zlen_app in *.
    pose proof (Zlen_nonneg a). pose proof (Zlen_nonneg b).
    cbn [length replicate]. unfold Zlen at 3.
    rewrite (run_member fields (length pre) item vs); try done; [|lia|lia].
    specialize (IH members (pre ++ [vs]) b). rewrite length_app in IH. simpl length in IH.
    rewrite <- !app_assoc in IH. simpl app in IH. rewrite Zlen_app, Zlen_cons, Zlen_nil in IH.
    replace (length pre + 1)%nat with (S (length pre)) in IH by lia.
    replace (Z.of_nat (S (length pre))) with (Z.of_nat (length pre) + 1) in IH by lia.
    replace (Zlen a + Zlen b - Zlen a) with (Zlen b) by lia.
    rewrite Zlen_cons. replace (Zlen pre + (1 + Zlen items)) with (Zlen pre + (1 + 0) + Zlen items) by lia.
    replace (Z.of_nat (length pre) + 1) with (Zlen pre + (1 + 0)) by (unfold Zlen; lia).
    apply IH; try done; [|lia]. by apply Forall_app in Hb as [_ Hb].
Qed.
End GroupRt.

(** ** Elements and messages *)

Section MsgRt.
Context {V : Vppinfra} {VOk : VppinfraOk V}.

Fixpoint wire_payload (n : nat) (def : pfcp_ie_def) (v : val) : outcome (list Z) :=
  match def with
  | GROUP_IE _ group =>
      match n with
      | O => Fault NoFuel
      | S n => wire_group (frame (wire_payload n)) group v
      end
  | SIMPLE_IE k => wire_leaf k v
  end.

Lemma decode_payload n def v pl tl err :
  val_ok n def v = true -> wire_payload n def v = Ok pl -> Forall is_byte (pl ++ tl) ->
  Zlen pl < 65536 -> decode_ie n def (pl ++ tl) (Zlen pl) err = Ok (0, v, err).
Proof.
  revert def v pl tl err.
  induction n as [|n IH]; intros [k|m g] [k' x|f mem ies] pl tl err Hok Hw Hb Hl; try done.
  1, 2: cbn [val_ok] in Hok; apply andb_true_iff in Hok as [Hk Hx];
    apply bool_decide_eq_true_1 in Hk; subst k';
    cbn [wire_payload wire_leaf] in Hw; rewrite decide_True in Hw by done;
    destruct (leaf_encode k x) as [ops|c|fl] eqn:Eo; try done; injection Hw as <-;
    cbn [decode_ie];
    by rewrite (yields_run _ _ _ _ tl (leaf_transports k x Hx ops Eo Hl)).
  cbn [val_ok] in Hok. do 3 (apply andb_true_iff in Hok as [Hok ?]). btest. subst ies.
  cbn [wire_payload wire_group] in Hw. cbn [decode_ie]. rewrite decode_group_run.
  pose proof (run_members (decode_ie n) (val_ok n) (wire_payload n) g IH f g mem [] err pl tl
    ltac:(done) ltac:(done) Hb Hl) as Hrun.
  change (Zlen (@nil (list val))) with 0 in Hrun. rewrite fields_upto_0 in Hrun. simpl app in Hrun.
  rewrite Z.add_0_l, fields_upto_all in Hrun by (by apply in_range_spec).
  rewrite Hrun. cbn [obind ds_fields ds_members ds_ies ds_err].
  rewrite Hok, Z.eqb_refl. done.
Qed.

(** header values the message has room for *)
Definition msg_ok (m : pfcp_decoded_msg_t) : bool :=
  (0 <=? dm_type m) && in_range 24 (dm_seq_no m)
  && (if pfcp_is_session_msg (dm_type m) then in_range 64 (dm_seid m) else dm_seid m =? 0)
  && val_ok (S group_depth)
       (GROUP_IE (fst (msg_spec (dm_type m))) (snd (msg_spec (dm_type m)))) (dm_grp m).

Lemma decode_msg_group m ies :
  msg_ok m = true ->
  wire_group (wire_ie group_depth) (snd (msg_spec (dm_type m))) (dm_grp m) = Ok ies ->
  Forall is_byte ies -> Zlen ies < 65536 ->
  decode_group (decode_ie group_depth) ies (Zlen ies) (fst (msg_spec (dm_type m)))
    (snd (msg_spec (dm_type m))) [] = Ok (0, dm_grp m, []).
Proof.
  intros Hm Hw Hb Hl. unfold msg_ok in Hm. apply andb_true_iff in Hm as [_ Hok].
  rewrite <- (app_nil_r ies) at 1.
  apply (decode_payload (S group_depth) _ _ _ _ [] Hok); [|by rewrite app_nil_r|done].
  cbn [wire_payload]. destruct (dm_grp m) as [k x|f mem ies']; [done|].
  rewrite <- Hw. unfold wire_group. f_equal.
Qed.

(** the accessors find what the header was made of *)
Lemma msg_header_fields m len :
  in_range 16 len = true -> in_range 24 (dm_seq_no m) = true ->
  (if pfcp_is_session_msg (dm_type m) then in_range 64 (dm_seid m) else dm_seid m =? 0)
    = true ->
  let hdr := msg_header m len in
  let s := pfcp_is_session_msg (dm_type m) in
  de_be (take 2 (drop 2 hdr)) = len
  /\ (if s then de_be (take 8 (drop 4 hdr)) else 0) = dm_seid m
  /\ de_be (take 3 (drop (if s then 12 else 4) hdr)) = dm_seq_no m
  /\ flag (de_be (take 1 hdr)) 1 = s.
Proof.
  intros Hl%in_range_spec Hs%in_range_spec Hi. unfold msg_header.
  destruct (pfcp_is_session_msg (dm_type m)).
  - apply in_range_spec in Hi. repeat split.
    + change (de_be (be 2 len) = len). by apply de_be_be_small.
    + change (de_be (be 8 (dm_seid m)) = dm_seid m). by apply de_be_be_small.
    + change (de_be (be 3 (dm_seq_no m)) = dm_seq_no m). by apply de_be_be_small.
  - btest. repeat split; [|done|].
    + change (de_be (be 2 len) = len). by apply de_be_be_small.
    + change (de_be (be 3 (dm_seq_no m)) = dm_seq_no m). by apply de_be_be_small.
Qed.

Lemma msg_header_split m len :
  exists b r, msg_header m len = [b] ++ [dm_type m] ++ r.
Proof. unfold msg_header. by destruct (pfcp_is_session_msg (dm_type m)); do 2 eexists. Qed.

Lemma decode_wire_msg m bs :
  msg_ok m = true -> wire_msg m = Ok bs -> Forall is_byte bs -> Zlen bs < 65540 ->
  pfcp_decode_msg bs (Zlen bs) = Ok (0, m, []).
Proof.
  intros Hm Hw Hb Hl. unfold wire_msg in Hw.
  destruct (Z.leb_spec (array_len msg_specs) (dm_type m)) as [|Ht]; [done|].
  destruct (wire_group _ _ _) as [ies|c|f] eqn:Eg; try done. injection Hw as <-.
  pose proof (decode_msg_group m ies Hm Eg) as Hg. unfold msg_ok in Hm.
  do 3 (apply andb_true_iff in Hm as [Hm ?]). apply Z.leb_le in Hm.
  set (len := msg_hdr_len (dm_type m) + Zlen ies - 4) in *.
  rewrite Zlen_app, Zlen_msg_header in Hl. pose proof (Zlen_nonneg ies).
  assert (8 <= msg_hdr_len (dm_type m)) as Hh
    by (unfold msg_hdr_len; by destruct (pfcp_is_session_msg _)).
  destruct (msg_header_fields m len) as (El & Ei & Es & Ef);
    [apply in_range_spec; unfold len; lia|done|done|].
  destruct (msg_header_split m len) as (b & r & Esp).
  unfold pfcp_decode_msg. rewrite Zlen_app, Zlen_msg_header.
  destruct (Z.eqb_spec (msg_hdr_len (dm_type m) + Zlen ies) 0); [lia|].
  rewrite (load_app _ [b] [dm_type m] (r ++ ies)) by (done || by rewrite Esp, <- !app_assoc).
  cbn [obind]. change (de_be [dm_type m]) with (0 * 256 + dm_type m). rewrite Z.mul_0_l, Z.add_0_l.
  destruct (Z.ltb_spec (msg_hdr_len (dm_type m) + Zlen ies) (msg_hdr_len (dm_type m))); [lia|].
  destruct (Z.leb_spec (array_len msg_specs) (dm_type m)); [lia|].
  rewrite (load_app _ [] (msg_header m len) ies) by (done || apply Zlen_msg_header).
  cbn [obind]. rewrite El, Ei, Es, Ef.
  destruct (Z.ltb_spec (msg_hdr_len (dm_type m) + Zlen ies) (len + 4)); [unfold len in *; lia|].
  rewrite eqb_reflx. cbn [negb].
  destruct (msg_spec (dm_type m)) as [mand g] eqn:Emsg. cbn [fst snd] in *.
  replace (drop _ (msg_header m len ++ ies)) with ies.
  2:{ rewrite <- (Zlen_msg_header m len). unfold Zlen. by rewrite Nat2Z.id, drop_app_length. }
  replace (len - msg_hdr_len (dm_type m) + 4) with (Zlen ies) by (unfold len; lia).
  apply Forall_app in Hb as [_ Hb].
  rewrite Hg by (done || lia). cbn [obind]. by destruct m.
Qed.
End MsgRt.


(** a struct from the entries that are present *)
Definition mk_group (group : list pfcp_group_ie_def) (l : list (nat * list val)) : val :=
  VGroup (BITS (map (fun e => Z.of_nat (fst e)) l))
    (fold_left (fun m e => <[fst e := snd e]> m) l (replicate (length group) [])) [].

(** a session with an uplink and a downlink rule *)
Definition session_request : pfcp_decoded_msg_t :=
  mk_dmsg PFCP_SESSION_ESTABLISHMENT_REQUEST 42 0
    (mk_group pfcp_session_establishment_request_group
      [(0%nat, [VLeaf K_node_id {| nid_type := NID_IPv4; nid_ip := ip46_pad ++ [10; 0; 0; 1];
                                   nid_fqdn := None |}]);
       (1%nat, [VLeaf K_f_seid {| fs_flags := 2; fs_seid := 0x1234567890; fs_ip4 := [10; 0; 0; 1];
                                  fs_ip6 := ip6_zero |}]);
       (2%nat,
         [mk_group pfcp_create_pdr_group
           [(0%nat, [VLeaf K_u16_ie 1]); (1%nat, [VLeaf K_u32_ie 200]);
            (2%nat, [mk_group pfcp_pdi_group
               [(0%nat, [VLeaf K_source_interface 0]);
                (1%nat, [VLeaf K_f_teid {| ft_flags := 1; ft_teid := 77; ft_ip4 := [10; 1; 1; 1];
                                           ft_ip6 := ip6_zero; ft_choose_id := 0 |}]);
                (2%nat, [VLeaf K_simple_vec_ie (Some [4; 101; 112; 99; 49])])]]);
            (3%nat, [VLeaf K_u8_ie 0]); (4%nat, [VLeaf K_u32_ie 1]);
            (5%nat, [VLeaf K_u32_ie 5; VLeaf K_u32_ie 6])];
          mk_group pfcp_create_pdr_group
           [(0%nat, [VLeaf K_u16_ie 2]); (1%nat, [VLeaf K_u32_ie 200]);
            (2%nat, [mk_group pfcp_pdi_group
               [(0%nat, [VLeaf K_source_interface 1]);
                (3%nat, [VLeaf K_ue_ip_address
                   {| ue_flags := 6; ue_ip4 := [198; 20; 0; 2]; ue_ip6 := ip6_zero;
                      ue_prefix_delegation_length := 0; ue_prefix_length := 0 |}])]]);
            (4%nat, [VLeaf K_u32_ie 2])]]);
       (3%nat,
         [mk_group pfcp_create_far_group
           [(0%nat, [VLeaf K_u32_ie 1]); (1%nat, [VLeaf K_u8_ie 2]);
            (2%nat, [mk_group pfcp_forwarding_parameters_group
               [(0%nat, [VLeaf K_destination_interface 1]);
                (10%nat, [VLeaf K_u8_ie 1])]])];
          mk_group pfcp_create_far_group
           [(0%nat, [VLeaf K_u32_ie 2]); (1%nat, [VLeaf K_u8_ie 1])]])]).

Definition session_request_bytes : list Z :=
  Eval vm_compute in
  match @pfcp_encode_msg vpp_exact session_request with Ok bs => bs | _ => [] end.


(** the recovery time stamp of a heartbeat, twice *)
Lemma decode_duplicate_first_wins_witness :
  let item := hd ie_none pfcp_heartbeat_request_group in
  let dec := @decode_ie vpp_exact group_depth in
  let w := ie_wire item [0xe0; 0; 0; 0] ++ [] in
  let ww := ie_wire item [0xe0; 0; 0; 0] ++ ie_wire item [1; 2; 3; 4] ++ [] in
  decode_group dec ww (Zlen ww) 1 pfcp_heartbeat_request_group []
  = obind (decode_group dec w (Zlen w) 1 pfcp_heartbeat_request_group [])
      (fun '(r, v, err') => Ok (r, with_ies [ie_wire item [1; 2; 3; 4]] v, err')).
Proof.
  apply (@decode_duplicate_first_wins vpp_exact (@decode_ie vpp_exact group_depth)
    pfcp_heartbeat_request_group 0 _ (SIMPLE_IE K_time_stamp_ie)
    [0xe0; 0; 0; 0] [1; 2; 3; 4] [] 1 [] (VLeaf K_time_stamp_ie 1549107584) []);
    try by_eval.
  intros tl.
  pose proof (yields_run _ _ _ _ tl (time_stamp_ie_rt 1549107584 eq_refl _ eq_refl eq_refl)) as H.
  exact (f_equal (fun o => match o with
    | Ok x => Ok (0, VLeaf K_time_stamp_ie x, [])
    | Err r => Ok (r, zero_val (SIMPLE_IE K_time_stamp_ie), [])
    | Fault f => Fault f end) H).
Defined.
