(* ===== verification/PfcpRoom.v ===== *)
(** * Room for the encoder's stores

    [put_*] stores without checking the capacity of the vector; encode_ie
    reserves MIN_SIMPLE_IE_SPACE octets in front of every element. Shown here:
    when the stores of every simple element fit that reserve ([ops_fit]),
    encoding never overruns, whatever the growth policy of the allocator, and
    which encoders keep to it for every value they transport. *)

From Stdlib Require Import ZArith Lia.
From stdpp Require Import base list list_numbers option numbers decidable.
From S2P Require Import Prelude PfcpIo PfcpIe PfcpLeaf PfcpIeRt PfcpLeafRt PfcpTables PfcpCodec PfcpWire PfcpMsgRt.

(** what remains of the reserve behind the longest element header *)
Definition ie_room : Z := 59.

(** the stores fit [room] octets; an append makes its own room and may leave
    none behind *)
Fixpoint ops_fit (room : Z) (ops : list wop) : bool :=
  match ops with
  | [] => true
  | Put bs :: ops => (Zlen bs <=? room) && ops_fit (room - Zlen bs) ops
  | Append bs :: ops => ops_fit (Z.max 0 (room - Zlen bs)) ops
  end.

Section Room.
Context {V : Vppinfra} {VOk : VppinfraOk V}.

Definition leaf_fits (k : leaf) (x : leaf_ty k) : bool :=
  match leaf_encode k x with
  | Ok ops => ops_fit ie_room ops
  | Err _ => true
  | Fault f => bool_decide (f <> HeapOverflow)
  end.

Fixpoint leaves_fit (v : val) : bool :=
  match v with
  | VLeaf k x => leaf_fits k x
  | VGroup _ members _ => forallb (forallb leaves_fit) members
  end.

Lemma run_wops_fit ops room b :
  0 <= room -> Zlen (buf_bytes b) + room <= buf_cap b -> ops_fit room ops = true ->
  run_wops vec_grow b ops <> Fault HeapOverflow.
Proof.
  revert room b. induction ops as [|[bs|bs] ops IH]; intros room b Hr Hcap Hfit; [done|..];
    cbn [run_wops run_wop wop_bytes ops_fit obind] in *.
  - apply andb_true_iff in Hfit as [Hb Hfit]. apply Z.leb_le in Hb.
    destruct (Z.ltb_spec (buf_cap b) (Zlen (buf_bytes b) + Zlen bs)); [lia|]. cbn [obind].
    apply (IH (room - Zlen bs)); [lia| |done]. simpl. rewrite Zlen_app. lia.
  - apply (IH (Z.max 0 (room - Zlen bs))); [lia| |done]. simpl. rewrite Zlen_app.
    pose proof (Zlen_nonneg bs). unfold reserve.
    destruct (Z.ltb_spec (buf_cap b) (Zlen (buf_bytes b) + Zlen bs)); simpl; [|lia].
    pose proof (vec_grow_enough (buf_cap b) (Zlen (buf_bytes b) + Zlen bs)). lia.
Qed.

Definition never_full (enc : buf -> outcome buf) : Prop := forall b, enc b <> Fault HeapOverflow.

Lemma never_full_bind e1 e2 :
  never_full e1 -> never_full e2 -> never_full (fun b => obind (e1 b) e2).
Proof.
  intros H1 H2 b. specialize (H1 b). destruct (e1 b) as [b'|c|f]; simpl; [apply H2|done|].
  congruence.
Qed.

(** the frame of encode_ie leaves [ie_room] to the payload *)
Lemma never_full_frame item pay :
  (forall b, Zlen (buf_bytes b) + ie_room <= buf_cap b -> pay b <> Fault HeapOverflow) ->
  never_full (fun b =>
    obind (run_wop vec_grow (vec_validate b (Zlen (buf_bytes b) + MIN_SIMPLE_IE_SPACE))
             (Put (ie_header item))) (fun b1 =>
    obind (pay b1) (fun b2 =>
    Ok (finalize_ie b2 (Zlen (buf_bytes b)) (Zlen (buf_bytes b2)))))).
Proof.
  intros Hpay b. set (b0 := vec_validate b _).
  assert (buf_bytes b0 = buf_bytes b /\ Zlen (buf_bytes b) + 65 <= buf_cap b0) as [E0 Hcap].
  { unfold b0, vec_validate, reserve, MIN_SIMPLE_IE_SPACE.
    destruct (Z.ltb_spec (buf_cap b) (Zlen (buf_bytes b) + 64 + 1)); simpl; [|by split; [|lia]].
    pose proof (vec_grow_enough (buf_cap b) (Zlen (buf_bytes b) + 64 + 1)). split; [done|lia]. }
  assert (Zlen (ie_header item) <= 6) as Hh
    by (unfold ie_header; destruct (gi_vendor item =? 0); autorewrite with upf_len; lia).
  unfold run_wop. cbn [wop_bytes]. rewrite E0.
  destruct (Z.ltb_spec (buf_cap b0) (Zlen (buf_bytes b) + Zlen (ie_header item))); [lia|].
  cbn [obind]. set (b1 := mk_buf _ _).
  specialize (Hpay b1). destruct (pay b1) as [b2|c|f]; [done|done|].
  intros [= ->]. apply Hpay; [|done]. unfold b1, ie_room. simpl. rewrite Zlen_app. lia.
Qed.

Lemma zero_leaf_fits k : leaf_fits k (leaf_zero k) = true.
Proof. by destruct k. Qed.

Lemma zero_val_fits def : leaves_fit (zero_val def) = true.
Proof.
  destruct def as [k|m g]; [apply zero_leaf_fits|]. simpl. by induction g.
Qed.

Lemma encode_leaf_room k v b :
  leaves_fit v = true -> Zlen (buf_bytes b) + ie_room <= buf_cap b ->
  encode_leaf k v b <> Fault HeapOverflow.
Proof.
  intros Hfit Hcap. unfold encode_leaf. destruct v as [k' x|]; [|done].
  destruct (decide (k' = k)); [|done]. simpl in Hfit. unfold leaf_fits in Hfit.
  destruct (leaf_encode k' x) as [ops|c|f]; simpl; [|done|].
  - by apply (run_wops_fit ops ie_room).
  - apply bool_decide_eq_true_1 in Hfit. congruence.
Qed.

Section GroupRoom.
Variable enc : elem_encoder.
Hypothesis enc_room : forall item def v, leaves_fit v = true -> never_full (enc item def v).

Lemma encode_vector_room item def vs :
  forallb leaves_fit vs = true -> never_full (encode_vector_ie enc item def vs).
Proof.
  induction vs as [|v vs IH]; simpl; [done|]. intros [Hv Hvs]%andb_true_iff.
  apply never_full_bind; auto.
Qed.

Lemma encode_items_room i group fields members :
  forallb (forallb leaves_fit) members = true ->
  never_full (encode_items enc i group fields members).
Proof.
  revert i members. induction group as [|item group IH]; intros i members Hm; [done|].
  cbn [encode_items].
  assert (forallb leaves_fit (hd [] members) = true
          /\ forallb (forallb leaves_fit) (tail members) = true) as [Hh Ht].
  { destruct members as [|vs members]; [done|]. simpl in *. by apply andb_true_iff in Hm. }
  specialize (IH (i + 1) (tail members) Ht).
  destruct (_ && _); [done|]. destruct (negb _); [done|].
  destruct (get_ie_def item) as [[def|]|]; [|done|done].
  apply (never_full_bind (fun b => if gi_is_array item then _ else _)); [|done].
  destruct (gi_is_array item); [by apply encode_vector_room|]. apply enc_room.
  destruct (hd [] members) as [|v vs]; [apply zero_val_fits|].
  simpl in *. by apply andb_true_iff in Hh as [? _].
Qed.

Lemma encode_group_room group v :
  leaves_fit v = true -> never_full (encode_group enc group v).
Proof. destruct v as [k x|f mem ies]; [done|]. apply encode_items_room. Qed.
End GroupRoom.

Lemma encode_ie_room n item def v :
  leaves_fit v = true -> never_full (encode_ie n item def v).
Proof.
  revert item def v. induction n as [|n IH]; intros item def v Hv;
    apply (never_full_frame item _); intros b Hb; destruct def as [k|m g];
    try done; try by apply encode_leaf_room.
  by apply encode_group_room.
Qed.
End Room.

Lemma encode_msg_no_overflow_aux {V : Vppinfra} {VOk : VppinfraOk V} m bs :
  leaves_fit (dm_grp m) = true -> wire_msg m = Ok bs -> pfcp_encode_msg m = Ok bs.
Proof.
  intros Hfit Hw. pose proof (encode_msg_refines_aux m) as H.
  assert (pfcp_encode_msg m <> Fault HeapOverflow) as Hne.
  { unfold pfcp_encode_msg. destruct (_ <=? _); [done|].
    pose proof (encode_group_room _ (encode_ie_room group_depth) (snd (msg_spec (dm_type m)))
      (dm_grp m) Hfit (mk_buf (msg_header m 0) (vec_grow 0 (msg_hdr_len (dm_type m))))) as Hg.
    destruct (encode_group _ _ _ _) as [b'|c|f]; simpl; congruence. }
  destruct (pfcp_encode_msg m) as [b|c|f]; [congruence|congruence|].
  destruct H as [->|H]; [done|congruence].
Qed.



(** ** Encoders that keep to the reserve *)

(** encoders that store after an append *)
Definition tight_leaves : list leaf := [K_sdf_filter; K_header_enrichment; K_user_id].

Lemma ops_fit_u16s room xs : 2 * Zlen xs <= room -> ops_fit room (map put_u16 xs) = true.
Proof.
  revert room. induction xs as [|x xs IH]; intros room H; [done|]. simpl.
  rewrite Zlen_cons in H. rewrite Zlen_be. pose proof (Zlen_nonneg xs).
  destruct (Z.leb_spec (Z.of_nat 2) room); [|lia]. apply IH. lia.
Qed.

Ltac fit_bytes :=
  cbn [ops_fit app opt_ops put_u8 put_u16 put_u16_little put_u24 put_u32 put_u40 put_u64
       put_ip4 put_ip6 put_ip46_ip4 put_ip46_ip6 vec_append vec_add_bytes andb];
  rewrite ?Zlen_be, ?Zlen_le;
  repeat match goal with H : Zlen _ = _ |- _ => rewrite H end.
Ltac fit_go :=
  repeat match goal with
  | |- context [?a <=? ?b] => destruct (Z.leb_spec a b); [|unfold ie_room in *; lia]; cbn [andb]
  end; try reflexivity.
Ltac fit :=
  unfold vec_len in *;
  repeat match goal with
  | H : (_ && _)%bool = true |- _ => apply andb_true_iff in H as [? ?]
  end;
  split_opts; rt_clean; fit_bytes; fit_go.

Ltac fit_record x e w := destruct x; unfold e, w, is_ip46 in *; simpl in *; fit.

Section LeafRoom.
Context {V : Vppinfra}.

Lemma leaf_wf_fits k x : k ∉ tight_leaves -> leaf_wf k x = true -> leaf_fits k x = true.
Proof.
  intros Hk Hx.
  destruct k; try (exfalso; apply Hk, list_elem_of_In; simpl; tauto); clear Hk;
    simpl in Hx; try discriminate; unfold leaf_fits; cbn [leaf_encode]; try reflexivity.
  - fit_record x encode_volume_ie wf_volume_ie.
  - unfold encode_time_stamp_ie. by case_test.
  - fit_record x encode_f_teid wf_f_teid.
  - unfold encode_redirect_information. by repeat case_test.
  - fit_record x encode_downlink_data_service_information
      wf_downlink_data_service_information.
  - unfold encode_dl_buffering_suggested_packet_count. by case_test.
  - fit_record x encode_f_seid wf_f_seid.
  - destruct x as [t ip n]. unfold encode_node_id, wf_node_id, is_ip46 in *. simpl in *.
    revert Hx. repeat case_test; intros; btest;
      try pose proof (Zlen_ip46_ip4 ip ltac:(assumption)); fit.
  - destruct x as [t ip a b c l]. unfold encode_fq_csid, wf_fq_csid, is_ip46 in *. simpl in *.
    apply andb_true_iff in Hx as [Hx H2]. apply andb_true_iff in Hx as [Hn Hr]. btest.
    revert H2. repeat case_test; intros; btest; subst;
      try pose proof (Zlen_ip46_ip4 ip ltac:(assumption)); fit_bytes; fit_go;
      apply ops_fit_u16s; unfold ie_room; lia.
  - fit_record x encode_volume_measurement wf_volume_measurement.
  - fit_record x encode_dropped_dl_traffic_threshold wf_dropped_dl_traffic_threshold.
  - destruct x as [d t ip p ct st].
    unfold encode_outer_header_creation, wf_outer_header_creation, is_ip46 in *. simpl in *.
    revert Hx. split_opts; intros Hx; rt_clean;
    try pose proof (Zlen_ip46_ip4 ip ltac:(assumption)); fit.
  - fit_record x encode_ue_ip_address wf_ue_ip_address.
  - destruct x as [f [? ?] [? ?] [? ?] [? ?]].
    unfold encode_packet_rate, encode_rate, wf_packet_rate, wf_rate in *. simpl in *. fit.
  - fit_record x encode_dl_flow_level_marking wf_dl_flow_level_marking.
  - destruct x as [ip di ni].
    unfold encode_remote_gtp_u_peer, wf_remote_gtp_u_peer, is_ip46 in *. simpl in *.
    apply andb_true_iff in Hx as [Hx _]. apply andb_true_iff in Hx as [Hx _]. btest.
    pose proof (Zlen_ip46_ip4 ip Hx). destruct (ip46_address_is_ip4 ip); split_opts; fit.
  - unfold encode_failed_rule_id. by repeat case_test.
  - destruct x as [f t r si ni i4 i6].
    unfold encode_user_plane_ip_resource_information, wf_user_plane_ip_resource_information in *.
    simpl in *. destruct ni as [l|]; [|fit].
    assert (flag f USER_PLANE_IP_RESOURCE_INFORMATION_ASSOSI = false) as Es.
    { do 3 (apply andb_true_iff in Hx as [Hx ?]).
      destruct l as [|b l]; [by apply andb_true_iff in Hx as [_ ?]|].
      apply eqb_prop in H1. apply negb_true_iff in H0. rewrite H1 in H0.
      apply andb_false_iff in H0 as [H0|H0]; [|done].
      unfold vec_len in H0. simpl in H0. rewrite Zlen_cons in H0. pose proof (Zlen_nonneg l).
      btest. lia. }
    rewrite Es in *. fit.
  - fit_record x encode_pfcp_mac_address wf_pfcp_mac_address.
  - by destruct x.
  - fit_record x encode_alternative_smf_ip_address wf_alternative_smf_ip_address.
  - unfold encode_bbf_nat_outside_address. fit.
  - unfold encode_fatemeh_packet_data. by case_test.
  - unfold encode_ip_version. by case_test.
Qed.

(** every leaf of a value satisfies [P] *)
Fixpoint all_leaves (P : leaf -> bool) (v : val) : bool :=
  match v with
  | VLeaf k _ => P k
  | VGroup _ members _ => forallb (forallb (all_leaves P)) members
  end.

Definition roomy (k : leaf) : bool := bool_decide (k ∉ tight_leaves).

Lemma members_ok_elem ok group fields i items members vs :
  members_ok ok group fields i items members = true -> In vs members ->
  vs = [] \/ exists def, forallb (ok def) vs = true.
Proof.
  revert i items. induction members as [|ws members IH]; intros i [|item items] H Hin;
    try done. simpl in H. apply andb_true_iff in H as [Hm H].
  destruct Hin as [->|Hin]; [|by eapply IH].
  unfold member_ok in Hm. destruct (ISSET_BIT _ _); [|left; by destruct vs].
  apply andb_true_iff in Hm as [_ Hm]. destruct (get_ie_def item) as [[def|]|]; try done.
  right. exists def. by apply andb_true_iff in Hm as [Hm _].
Qed.

Lemma val_ok_fits n def v :
  val_ok n def v = true -> all_leaves roomy v = true -> leaves_fit v = true.
Proof.
  revert def v. induction n as [|n IH]; intros [k|m g] [k' x|f mem ies] Hok Hr; try done.
  1, 2: cbn [val_ok] in Hok; apply andb_true_iff in Hok as [_ Hx]; simpl in *;
    apply leaf_wf_fits; [by apply bool_decide_eq_true_1 in Hr | done].
  cbn [val_ok] in Hok. apply andb_true_iff in Hok as [_ Hm]. simpl in *.
  apply forallb_forall. intros vs Hvs. rewrite forallb_forall in Hr. specialize (Hr vs Hvs).
  destruct (members_ok_elem _ _ _ _ _ _ vs Hm Hvs) as [->|[def Hd]]; [done|].
  apply forallb_forall. intros v Hv. rewrite forallb_forall in Hr, Hd. eauto.
Qed.

(** ** Encoding succeeds *)

Lemma oconcat_ok l : Forall (fun o => exists bs, o = Ok bs) l -> exists bs, oconcat l = Ok bs.
Proof.
  induction 1 as [|o l [a ->] _ [b E]]; [by eexists|]. simpl. rewrite E. by eexists.
Qed.

Lemma wire_items_ok ok group fields wire i items members :
  (forall item def v, ok def v = true -> exists bs, wire item def v = Ok bs) ->
  members_ok ok group fields i items members = true ->
  Forall (fun o => exists bs, o = Ok bs) (wire_items wire (Z.of_nat i) items fields members).
Proof.
  intros Hw. revert i members. induction items as [|item items IH]; intros i [|vs members] H;
    try done. simpl in H. apply andb_true_iff in H as [Hm H]. cbn [wire_items hd tail].
  constructor.
  2:{ specialize (IH (S i) members H).
      by replace (Z.of_nat (S i)) with (Z.of_nat i + 1) in IH by lia. }
  unfold member_ok in Hm. unfold wire_item.
  destruct ((gi_type item =? 0) && (gi_vendor item =? 0)); [by eexists|].
  destruct (ISSET_BIT fields (Z.of_nat i)); [|by eexists]. cbn [negb].
  apply andb_true_iff in Hm as [_ Hm]. destruct (get_ie_def item) as [[def|]|]; try done.
  apply andb_true_iff in Hm as [Hvs Hne]. rewrite forallb_forall in Hvs.
  destruct (gi_is_array item).
  - apply oconcat_ok. rewrite Forall_map. apply List.Forall_forall. intros v Hv. apply Hw. auto.
  - destruct vs as [|v vs]; [done|]. apply Hw, Hvs. by left.
Qed.

Lemma wire_ie_ok {VOk : VppinfraOk V} n item def v :
  val_ok n def v = true -> exists bs, wire_ie n item def v = Ok bs.
Proof.
  revert item def v.
  induction n as [|n IH]; intros item [k|m g] [k' x|f mem ies] Hok; try done.
  1, 2: cbn [val_ok] in Hok; apply andb_true_iff in Hok as [Hk Hx];
    apply bool_decide_eq_true_1 in Hk; subst k';
    destruct (leaf_encode_ok k x Hx) as [ops E];
    cbn [wire_ie wire_leaf]; rewrite decide_True, E by done; by eexists.
  cbn [val_ok] in Hok. apply andb_true_iff in Hok as [_ Hm].
  cbn [wire_ie wire_group].
  destruct (oconcat_ok _ (wire_items_ok _ _ _ _ _ _ _ IH Hm)) as [bs E].
  change (Z.of_nat 0) with 0 in E. rewrite E. by eexists.
Qed.
End LeafRoom.

(** C31. Encoding is total: a message the codec transports, of a type msg_specs
    covers and without an element of [tight_leaves], is always encoded: no
    error, no store outside the vector. *)
Theorem encode_msg_total {V : Vppinfra} {VOk : VppinfraOk V} m :
  msg_ok m = true -> dm_type m < array_len msg_specs -> all_leaves roomy (dm_grp m) = true ->
  exists bs, pfcp_encode_msg m = Ok bs.
Proof.
  intros Hm Ht Hr. pose proof Hm as Hok. unfold msg_ok in Hok.
  apply andb_true_iff in Hok as [_ Hok].
  pose proof (val_ok_fits _ _ _ Hok Hr) as Hfit.
  assert (exists bs, wire_msg m = Ok bs) as [bs Hw].
  { unfold wire_msg. destruct (Z.leb_spec (array_len msg_specs) (dm_type m)); [lia|].
    destruct (dm_grp m) as [k x|f mem ies]; [done|]. cbn [val_ok] in Hok.
    apply andb_true_iff in Hok as [_ Hok].
    destruct (oconcat_ok _ (wire_items_ok _ _ _ _ _ _ _ (wire_ie_ok group_depth) Hok)) as [b E].
    change (Z.of_nat 0) with 0 in E. cbn [wire_group]. rewrite E. by eexists. }
  exists bs. by apply encode_msg_no_overflow_aux.
Qed.

Lemma encode_msg_total_witness :
  exists bs, @pfcp_encode_msg vpp_exact session_request = Ok bs.
Proof.
  apply (@encode_msg_total vpp_exact vpp_exact_ok); vm_compute; reflexivity.
Defined.
