(* ===== verification/PfcpFaults.v ===== *)
(** * What the codec gets wrong

    Theorems that pin down the defects found while modelling the tables and
    the engine of src/upf/pfcp.c: messages that can never be decoded, elements
    decoded into a member of another type, loads and stores outside the
    message, lengths that do not fit. *)

From Stdlib Require Import ZArith Lia.
From stdpp Require Import base list list_numbers option numbers decidable.
From S2P Require Import Prelude PfcpIo PfcpIe PfcpLeaf PfcpLeafRt PfcpTables PfcpCodec PfcpWire PfcpDecode PfcpLoop PfcpMsgRt PfcpRoom.

(** an element that has the room it needs is appended as [wire_ie] says *)
Lemma encode_ie_done {V : Vppinfra} {VOk : VppinfraOk V} n item def v b bs :
  leaves_fit v = true -> wire_ie n item def v = Ok bs ->
  exists b', encode_ie n item def v b = Ok b' /\ buf_bytes b' = buf_bytes b ++ bs.
Proof.
  intros Hf Hw. pose proof (encode_ie_appends n item def v b) as H.
  pose proof (encode_ie_room n item def v Hf b) as Hr.
  destruct (encode_ie n item def v b) as [b'|c|f].
  - destruct H as (bs' & E & Eb). exists b'. split; [done|]. congruence.
  - congruence.
  - destruct H as [->|H]; [done|congruence].
Qed.

(** ** Tables *)

(** the responses whose table misses an element they must carry *)
Definition node_id_responses : list Z :=
  [PFCP_ASSOCIATION_RELEASE_RESPONSE; PFCP_NODE_REPORT_RESPONSE;
   PFCP_SESSION_SET_DELETION_RESPONSE].

(** pfcp_simple_response_group has no entry for the Node ID that
    msg_specs declares mandatory for the responses to Association Release,
    Node Report and Session Set Deletion: no octets decode to such a response
    without an error. *)
Theorem node_id_responses_undecodable {V : Vppinfra} p len m err :
  dm_type m ∈ node_id_responses ->
  ~ pfcp_decode_msg p len = Ok (0, m, err).
Proof.
  intros Ht E. apply decode_msg_typed_aux in E.
  assert (msg_spec (dm_type m) = (3, pfcp_simple_response_group)) as Es.
  { apply list_elem_of_In in Ht. simpl in Ht.
    by repeat destruct Ht as [<-|Ht]; [..|contradiction]. }
  rewrite Es in E. simpl fst in E. simpl snd in E. destruct (dm_grp m) as [k x|f mem ies]; [done|].
  destruct E as (Hm & Hlen & _ & Hall).
  destruct mem as [|vs mem]; [done|].
  destruct (Hall 0%nat ie_none vs eq_refl eq_refl) as (Hb & _ & Hvs).
  assert (ISSET_BIT f (Z.of_nat 0) = true) as Hset.
  { unfold ISSET_BIT. rewrite flag_BIT by lia.
    assert (Z.testbit (Z.land f 3) 0 = true) as H by (by rewrite Hm).
    rewrite Z.land_spec in H. by apply andb_true_iff in H as [H _]. }
  apply Hb in Hset. destruct vs as [|v vs]; [done|].
  inversion Hvs as [|? ? (def & Hd & _)]; subst. by vm_compute in Hd.
Qed.

(** what is sent for a quota validity time of [v] seconds *)
Definition quota_validity_time_octets (v : Z) : list Z := [0; 181; 0; 1; v mod 256].

(** Entry 181 of tgpp_specs has two initialisers; the one of Traffic
    Report Packet Type replaces the one of Quota Validity Time, so a quota
    validity time of any number of seconds is sent as the single octet of its
    value modulo 256. *)
Theorem quota_validity_time_truncated {V : Vppinfra} {VOk : VppinfraOk V} item v b :
  gi_type item = PFCP_IE_QUOTA_VALIDITY_TIME -> gi_vendor item = 0 ->
  get_ie_def item = Some (Some (SIMPLE_IE K_u8_ie)) /\
  exists b', encode_ie group_depth item (SIMPLE_IE K_u8_ie) (VLeaf K_u8_ie v) b = Ok b' /\
  buf_bytes b' = buf_bytes b ++ quota_validity_time_octets v.
Proof.
  intros Ht Hv. split.
  { unfold get_ie_def. rewrite Ht, Hv. vm_compute. reflexivity. }
  apply (encode_ie_done group_depth item (SIMPLE_IE K_u8_ie)); [done|].
  transitivity (Ok (ie_wire item (wbytes [put_u8 v]))); [reflexivity|].
  unfold ie_wire. rewrite Ht, Hv.
  change (wbytes [put_u8 v]) with [v / 1 mod 256]. by rewrite Z.div_1_r.
Qed.

(** ** Elements of a vendor taken for elements of 3GPP *)

(** the element of 3GPP that has the type of the vendor element [item] *)
Definition namesake (item : pfcp_group_ie_def) (offset : String.string) (payload : list Z) : list Z :=
  ie_wire (ie (gi_type item) offset) payload.

(** get_ie_spec compares the type and not the vendor. A 3GPP element whose
    type a vendor element of the group uses is decoded with its own
    definition into the member of the vendor element, unless both have the
    same definition: a store of the wrong type, or a call through an empty
    table entry. *)
Theorem vendor_entry_confused {V : Vppinfra} dec group id item offset payload rest mandatory err :
  get_ie_spec group (gi_type item) = Some (id, item) ->
  in_range 15 (gi_type item) = true -> Zlen payload + 2 < 65536 ->
  get_ie_def item <> Some (spec_at tgpp_specs (gi_type item)) ->
  let w := namesake item offset payload ++ rest in
  Forall is_byte w ->
  exists f, decode_group dec w (Zlen w) mandatory group err = Fault f
            /\ (f = TypeConfusion \/ f = NoDefinition).
Proof.
  intros Hspec Ht Hl Hdef w Hb. unfold namesake in w. unfold decode_group.
  pose proof (Zlen_nonneg rest). pose proof (Zlen_nonneg payload).
  assert (Zlen w = 4 + Zlen payload + Zlen rest) as Hw
    by (unfold w; rewrite Zlen_app, Zlen_ie_wire; reflexivity).
  destruct (Z.to_nat (Zlen w)) as [|n] eqn:En; [lia|].
  cbn [decode_loop]. destruct (Z.ltb_spec 0 (Zlen w)); [|lia]. cbn [andb Z.eqb].
  unfold decode_turn, w at 1.
  rewrite read_ie_wire; [|unfold item_hdr_ok; simpl; by rewrite Ht|done|].
  2:{ rewrite Zlen_ie_wire. change (ie_hdr_len _) with 4. lia. }
  cbn [obind ih_def ih_type ih_pos ih_length ih_raw ie gi_type]. rewrite Hspec.
  change (get_ie_def (ie (gi_type item) offset))
    with (Some (spec_at tgpp_specs (gi_type item))).
  unfold decode_item. cbn [ds_fields]. unfold ISSET_BIT.
  rewrite flag_BIT, Z.bits_0, andb_false_r by lia.
  destruct (spec_at tgpp_specs (gi_type item)) as [d|]; [|by eexists; split; [|right]].
  rewrite decide_False by done. by eexists; split; [|left].
Qed.

Lemma node_id_responses_undecodable_witness :
  ~ @pfcp_decode_msg vpp_exact [0x20; 10; 0; 18; 0; 0; 7; 0; 0; 60; 0; 5; 0; 10; 0; 0; 1; 0; 19; 0; 1; 1] 22
    = Ok (0, mk_dmsg PFCP_ASSOCIATION_RELEASE_RESPONSE 7 0 (VGroup 0 [] []), []).
Proof. apply node_id_responses_undecodable. by_eval. Defined.

Lemma quota_validity_time_truncated_witness :
  let item := ie PFCP_IE_QUOTA_VALIDITY_TIME (gi_offset ie_none) in
  let b := mk_buf [] 0 in
  get_ie_def item = Some (Some (SIMPLE_IE K_u8_ie)) /\
  exists b', @encode_ie vpp_exact group_depth item (SIMPLE_IE K_u8_ie) (VLeaf K_u8_ie 3600) b
             = Ok b' /\
  buf_bytes b' = buf_bytes b ++ quota_validity_time_octets 3600.
Proof. apply (@quota_validity_time_truncated vpp_exact vpp_exact_ok); by_eval. Defined.

(** Remove PDR (3GPP type 15) inside Forwarding Parameters lands in the octet of
    the BBF Apply Action *)
Lemma vendor_entry_confused_witness :
  let item := ie_vendor VENDOR_BBF PFCP_IE_BBF_APPLY_ACTION
       (gi_offset (nth 10 pfcp_forwarding_parameters_group ie_none)) in
  let w := namesake item (gi_offset ie_none) [0; 56; 0; 2; 0; 1] ++ [] in
  exists f, decode_group (@decode_ie vpp_exact group_depth) w (Zlen w) 1
    pfcp_forwarding_parameters_group [] = Fault f /\ (f = TypeConfusion \/ f = NoDefinition).
Proof.
  apply (@vendor_entry_confused vpp_exact _ pfcp_forwarding_parameters_group 10
    (ie_vendor VENDOR_BBF PFCP_IE_BBF_APPLY_ACTION
       (gi_offset (nth 10 pfcp_forwarding_parameters_group ie_none))));
    by_eval.
Defined.

(** ** Loads outside the message *)

(** the octets left when a group ends inside an element header *)
Definition partial_header (p : list Z) : bool := (1 <=? Zlen p) && (Zlen p <=? 3).

(** decode_group reads an element header before it looks at the length
    left: a group that ends with one to three octets, the last ones received,
    makes it load past them, whatever the group. *)
Theorem short_header_overrun {V : Vppinfra} dec group p mandatory err :
  partial_header p = true -> decode_group dec p (Zlen p) mandatory group err = Fault OobRead.
Proof.
  intros Hp. unfold partial_header in Hp. unfold decode_group. destruct (Z.to_nat (Zlen p)) as [|n] eqn:En; [lia|].
  cbn [decode_loop]. destruct (Z.ltb_spec 0 (Zlen p)); [|lia]. cbn [andb Z.eqb].
  unfold decode_turn, read_ie_hdr, load. by destruct (Z.ltb_spec (Zlen p) (0 + 4)); [|lia].
Qed.

Lemma short_header_overrun_witness :
  decode_group (@decode_ie vpp_exact group_depth) [0; 96] (Zlen [0; 96]) 1
    pfcp_heartbeat_request_group [] = Fault OobRead.
Proof. apply (@short_header_overrun vpp_exact). by_eval. Defined.

(** a vendor element as it is received, with the length field [l] *)
Definition vendor_element_octets (t vendor l : Z) (rest : list Z) : list Z :=
  be 2 (Z.lor 0x8000 t) ++ be 2 l ++ be 2 vendor ++ rest.

(** A vendor element shorter than its vendor number is not refused: two is
    subtracted from its 16-bit length without a check, and an element of
    length 0 or 1 is decoded with a length of 65534 or 65535. *)
Theorem vendor_length_wraps t vendor l rest len :
  in_range 15 t = true -> in_range 16 vendor = true -> 0 <= l < 2 -> 4 + l <= len ->
  exists def raw,
  read_ie_hdr (vendor_element_octets t vendor l rest) len 0
  = Ok (Some (mk_ie_hdr def t 6 (65534 + l) raw)).
Proof.
  intros Ht Hv Hl Hlen. destruct (vendor_type_bits _ Ht) as (Ht16 & Hflag & Hland).
  unfold vendor_element_octets, read_ie_hdr.
  rewrite (load_app _ [] (be 2 (Z.lor 0x8000 t) ++ be 2 l) (be 2 vendor ++ rest))
    by (done || by rewrite <- !app_assoc).
  cbn [obind]. rewrite take_be_2, drop_be_2, !de_be_2, Hflag
    by (done || by apply in_range_spec; lia).
  destruct (Z.ltb_spec len (0 + 4 + l)); [lia|].
  rewrite (load_app _ (be 2 (Z.lor 0x8000 t) ++ be 2 l) (be 2 vendor) rest)
    by (done || by rewrite <- !app_assoc).
  cbn [obind]. rewrite de_be_2, Hland by done.
  replace (wrap 16 (l - 2)) with (65534 + l); [by do 2 eexists|].
  unfold wrap. replace (l - 2) with (65534 + l + (-1) * 2 ^ 16) by lia.
  rewrite Z.mod_add by lia. symmetry. apply Z.mod_small. lia.
Qed.

Lemma vendor_length_wraps_witness :
  exists def raw,
  read_ie_hdr (vendor_element_octets 2 VENDOR_TRAVELPING 0 []) 6 0
  = Ok (Some (mk_ie_hdr def 2 6 (65534 + 0) raw)).
Proof. apply vendor_length_wraps; by_eval. Defined.

(** ** Message types *)

(** a node message without elements *)
Definition bare_node_msg (type seq : Z) : list Z := [0x20; type; 0; 4] ++ be 3 seq ++ [0].

(** The check for a bad message type lets every type below the end of
    msg_specs through: a type without an entry is decoded as a message without
    elements, and any elements it carries are set aside. *)
Theorem unlisted_types_accepted {V : Vppinfra} {VOk : VppinfraOk V} type seq :
  0 <= type < array_len msg_specs -> spec_at msg_specs type = None ->
  pfcp_is_session_msg type = false -> in_range 24 seq = true ->
  pfcp_decode_msg (bare_node_msg type seq) 8
  = Ok (0, mk_dmsg type seq 0 (VGroup 0 [] []), []).
Proof.
  intros Ht Hs Hn Hseq. unfold bare_node_msg. set (m := mk_dmsg type seq 0 (VGroup 0 [] [])).
  assert (msg_spec type = (0, [])) as Hspec by (unfold msg_spec; by rewrite Hs).
  assert (wire_msg m = Ok ([0x20; type; 0; 4] ++ be 3 seq ++ [0])) as Hw.
  { unfold wire_msg. simpl dm_type. rewrite Hspec.
    destruct (Z.leb_spec (array_len msg_specs) type); [lia|].
    unfold msg_hdr_len, msg_header. simpl dm_type. rewrite Hn. reflexivity. }
  assert (array_len msg_specs = 58) as Ha by reflexivity.
  apply (decode_wire_msg m); [|done| |done].
  - unfold msg_ok. simpl dm_type. rewrite Hn, Hspec. simpl. rewrite Hseq.
    by destruct (Z.leb_spec 0 type); [|lia].
  - rewrite !Forall_app. split; [|split; [apply be_bytes|by apply bytes_check]].
    repeat constructor; unfold is_byte; lia.
Qed.

(** a PFD Management Response, which the plugin has no table for *)
Lemma unlisted_types_accepted_witness :
  @pfcp_decode_msg vpp_exact (bare_node_msg 4 9) 8
  = Ok (0, mk_dmsg 4 9 0 (VGroup 0 [] []), []).
Proof.
  apply (@unlisted_types_accepted vpp_exact vpp_exact_ok); by_eval.
Defined.

(** ** Stores outside the message *)

(** a rule with one SDF filter: a flow description of 90 octets and a traffic
    class *)
Definition sdf_request : pfcp_decoded_msg_t :=
  mk_dmsg PFCP_SESSION_MODIFICATION_REQUEST 1 1
    (mk_group pfcp_session_modification_request_group
      [(7%nat,
         [mk_group pfcp_create_pdr_group
           [(0%nat, [VLeaf K_u16_ie 1]); (1%nat, [VLeaf K_u32_ie 1]);
            (2%nat, [mk_group pfcp_pdi_group
               [(0%nat, [VLeaf K_source_interface 0]);
                (4%nat, [VLeaf K_sdf_filter
                   {| sdf_flags := 3; sdf_flow := Some (replicate 90 65);
                      sdf_tos_traffic_class := 0x10ff; sdf_spi := 0; sdf_flow_label := 0;
                      sdf_sdf_filter_id := 0 |}])]])]])]).

(** A comment in encode_ie says that larger elements use vec_append, which
    adjusts the capacity; it adjusts it for the appended octets only. An SDF
    filter with a flow description and a traffic class stores the traffic
    class past the end of the vector when the allocator gives the append just
    what it asked for, although the message is one the codec transports. *)
Theorem store_after_append_overflows :
  msg_ok sdf_request = true /\ @pfcp_encode_msg vpp_exact sdf_request = Fault HeapOverflow.
Proof. split; vm_compute; reflexivity. Qed.

(** what is sent for an element made of the octets [l] *)
Definition vec_element_octets (type : Z) (l : list Z) : list Z :=
  be 2 type ++ be 2 (Zlen l mod 65536) ++ l.

(** Lengths are stored without a check: an element made of a vector is
    encoded without an error whatever its size, with a length modulo 65536 in
    its header, so that a receiver takes the rest of an element of 65536 octets
    or more for further elements. *)
Theorem overlong_element_truncated {V : Vppinfra} {VOk : VppinfraOk V} item l b :
  gi_vendor item = 0 ->
  exists b',
  encode_ie group_depth item (SIMPLE_IE K_simple_vec_ie) (VLeaf K_simple_vec_ie (Some l)) b
  = Ok b' /\
  buf_bytes b' = buf_bytes b ++ vec_element_octets (gi_type item) l.
Proof.
  intros Hv. apply (encode_ie_done group_depth item (SIMPLE_IE K_simple_vec_ie)); [done|].
  transitivity (Ok (ie_wire item (l ++ []))); [reflexivity|].
  rewrite app_nil_r. unfold ie_wire. rewrite Hv, Z.eqb_refl.
  by rewrite <- (be_wrap 2 (Zlen l)).
Qed.

Lemma overlong_element_truncated_witness :
  exists b',
  @encode_ie vpp_exact group_depth (ie PFCP_IE_NETWORK_INSTANCE (gi_offset ie_none))
    (SIMPLE_IE K_simple_vec_ie) (VLeaf K_simple_vec_ie (Some [4; 101; 112; 99; 49]))
    (mk_buf [] 0) = Ok b' /\
  buf_bytes b' = [] ++ vec_element_octets PFCP_IE_NETWORK_INSTANCE [4; 101; 112; 99; 49].
Proof.
  apply (@overlong_element_truncated vpp_exact vpp_exact_ok
    (ie PFCP_IE_NETWORK_INSTANCE (gi_offset ie_none))). reflexivity.
Defined.
