(* ===== verification/UpfVec.v ===== *)
(** * Sorted vectors and their differences

    The vector algorithms src/upf/upf_pfcp.c shares between its components:
    intcmp and memcmp comparisons, vec_bsearch, vec_delete and the macro
    vec_diff, which brings a table of registrations from an old vector to a new
    one. The sort of vppinfra is a parameter. *)

From Stdlib Require Import ZArith Lia Sorting.Sorted.
From stdpp Require Import base list list_numbers option numbers decidable gmap.
From S2P Require Import Prelude PfcpIo.

(** ** Comparison functions *)

Definition intcmp (a b : Z) : Z := if a <? b then -1 else if b <? a then 1 else 0.

(** memcmp on two objects of the same size *)
Fixpoint memcmp (a b : list Z) : Z :=
  match a, b with
  | x :: a, y :: b => if x =? y then memcmp a b else intcmp x y
  | _, _ => 0
  end.

(** what qsort and bsearch require of a comparison function *)
Class Compar {A} (c : A -> A -> Z) := {
  compar_flip x y : Z.sgn (c y x) = - Z.sgn (c x y);
  compar_trans x y z : c x y <= 0 -> c y z <= 0 -> c x z <= 0
}.

Section ComparFacts.
Context {A} (c : A -> A -> Z) `{!Compar c}.

Lemma compar_refl x : c x x = 0.
Proof. pose proof (compar_flip x x). destruct (c x x); simpl in *; lia. Qed.

Lemma compar_sym x y : c x y = 0 -> c y x = 0.
Proof. intros E. pose proof (compar_flip x y). rewrite E in H. destruct (c y x); simpl in *; lia. Qed.

Lemma compar_neg x y : c x y < 0 <-> 0 < c y x.
Proof. pose proof (compar_flip x y). destruct (c y x), (c x y); simpl in *; lia. Qed.

Lemma compar_eq_l x y z : c x y = 0 -> (c x z = 0 <-> c y z = 0).
Proof.
  intros E. pose proof (compar_sym _ _ E).
  assert (forall u v w, c u v = 0 -> c u w = 0 -> c v w = 0) as H'; [|split; eauto].
  intros u v w E1 E2. pose proof (compar_sym _ _ E1). pose proof (compar_sym _ _ E2).
  assert (c v w <= 0) by (apply (compar_trans v u w); lia).
  assert (c w v <= 0) by (apply (compar_trans w u v); lia).
  pose proof (compar_neg v w). lia.
Qed.

Lemma compar_lt_le x y z : c x y < 0 -> c y z <= 0 -> c x z < 0.
Proof.
  intros H1 H2. assert (c x z <= 0) as H3 by (apply (compar_trans x y z); lia).
  destruct (Z.eq_dec (c x z) 0) as [E|]; [|lia]. apply compar_sym in E.
  pose proof (compar_trans y z x H2). pose proof (proj1 (compar_neg x y)). lia.
Qed.
End ComparFacts.

#[export] Instance intcmp_compar {A} (f : A -> Z) : Compar (fun x y => intcmp (f x) (f y)).
Proof.
  split; unfold intcmp; intros;
    repeat match goal with
    | H : context [?a <? ?b] |- _ => destruct (Z.ltb_spec a b)
    | |- context [?a <? ?b] => destruct (Z.ltb_spec a b) end; simpl in *; lia.
Qed.

Lemma intcmp_eq a b : intcmp a b = 0 <-> a = b.
Proof. unfold intcmp. destruct (Z.ltb_spec a b), (Z.ltb_spec b a); lia. Qed.

Lemma intcmp_le a b : intcmp a b <= 0 <-> a <= b.
Proof. unfold intcmp. destruct (Z.ltb_spec a b), (Z.ltb_spec b a); lia. Qed.

(** ** Sorting

    vec_sort_with_function of vppinfra sorts in place; it need not be stable. *)

Class VecSort := vec_sort_with_function : forall {A}, (A -> A -> Z) -> list A -> list A.

Class VecSortOk (S : VecSort) := {
  vec_sort_perm {A} (c : A -> A -> Z) l : Permutation (vec_sort_with_function c l) l;
  vec_sort_sorted {A} (c : A -> A -> Z) l :
    Compar c -> StronglySorted (fun x y => c x y <= 0) (vec_sort_with_function c l)
}.

(** an instance: insertion sort *)
Fixpoint insert_by {A} (c : A -> A -> Z) (x : A) (l : list A) : list A :=
  match l with
  | [] => [x]
  | y :: l => if c x y <=? 0 then x :: y :: l else y :: insert_by c x l
  end.
Definition insertion_sort : VecSort := fun A c l => foldr (insert_by c) [] l.

Lemma insert_by_perm {A} (c : A -> A -> Z) x l : Permutation (insert_by c x l) (x :: l).
Proof.
  induction l as [|y l IH]; simpl; [done|]. destruct (_ <=? _); [done|].
  rewrite IH. apply perm_swap.
Qed.

Lemma insert_by_sorted {A} (c : A -> A -> Z) `{!Compar c} x l :
  StronglySorted (fun x y => c x y <= 0) l ->
  StronglySorted (fun x y => c x y <= 0) (insert_by c x l).
Proof.
  induction 1 as [|y l Hs IH Hall]; simpl; [repeat constructor|].
  destruct (Z.leb_spec (c x y) 0).
  - constructor; [by constructor|]. constructor; [done|].
    eapply Forall_impl; [exact Hall|]. intros z Hz. by apply (compar_trans x y z).
  - constructor; [done|]. rewrite insert_by_perm. constructor; [|done].
    pose proof (proj2 (compar_neg c y x)). lia.
Qed.

#[export] Instance insertion_sort_ok : VecSortOk insertion_sort.
Proof.
  split; intros A c l.
  - induction l as [|x l IH]; [done|]. unfold vec_sort_with_function, insertion_sort in *.
    simpl. by rewrite insert_by_perm, IH.
  - intros Hc. induction l; [constructor|]. by apply insert_by_sorted.
Qed.

(** memcmp on objects of [n] octets *)
Section Memcmp.
Context {A} (n : nat) (f : A -> list Z) (Hf : forall a, length (f a) = n).

Lemma memcmp_eq_iff (a b : list Z) : length a = length b -> (memcmp a b = 0 <-> a = b).
Proof.
  revert b. induction a as [|x a IH]; intros [|y b] Hl; try done.
  simpl. destruct (Z.eqb_spec x y) as [->|Hne].
  - rewrite IH by (simpl in Hl; lia). split; congruence.
  - rewrite intcmp_eq. split; congruence.
Qed.

Lemma memcmp_flip (a b : list Z) : length a = length b -> Z.sgn (memcmp b a) = - Z.sgn (memcmp a b).
Proof.
  revert b. induction a as [|x a IH]; intros [|y b] Hl; try done.
  simpl. rewrite (Z.eqb_sym y x). destruct (Z.eqb_spec x y) as [->|Hne].
  - apply IH. simpl in Hl; lia.
  - apply (compar_flip (c := fun x y => intcmp x y)).
Qed.

Lemma memcmp_trans (a b d : list Z) :
  length a = length b -> length b = length d -> memcmp a b <= 0 -> memcmp b d <= 0 ->
  memcmp a d <= 0.
Proof.
  revert b d. induction a as [|x a IH]; intros [|y b] [|z d] Hab Hbd; try done.
  simpl. destruct (Z.eqb_spec x y) as [->|Hxy], (Z.eqb_spec y z) as [->|Hyz];
    rewrite ?Z.eqb_refl, ?intcmp_le.
  - intros. apply (IH b); simpl in *; lia.
  - done.
  - by destruct (Z.eqb_spec x z); [|rewrite intcmp_le].
  - intros. destruct (Z.eqb_spec x z); [lia|]. rewrite intcmp_le. lia.
Qed.

Lemma memcmp_compar : Compar (fun x y => memcmp (f x) (f y)).
Proof.
  split; intros.
  - apply memcmp_flip. by rewrite !Hf.
  - by apply (memcmp_trans (f x) (f y) (f z)); rewrite ?Hf.
Qed.
End Memcmp.

(** ** Binary search

    [bsearch] of the C library on the elements [l] to [u]; every turn halves
    the range, so the length of the vector bounds the turns. The result is the
    index of the element. *)

Fixpoint bsearch_loop {A} (fuel : nat) (compar : A -> Z) (v : list A) (l u : nat) : option nat :=
  match fuel with
  | O => None
  | S fuel =>
      if (l <? u)%nat then
        let idx := ((l + u) / 2)%nat in
        match v !! idx with
        | None => None
        | Some p =>
            let comparison := compar p in
            if comparison <? 0 then bsearch_loop fuel compar v l idx
            else if 0 <? comparison then bsearch_loop fuel compar v (S idx) u
            else Some idx
        end
      else None
  end.

Definition vec_bsearch {A} (compar : A -> Z) (v : list A) : option nat :=
  bsearch_loop (length v) compar v 0 (length v).

(** [vec_delete (v, 1, i)] *)
Definition vec_delete {A} (v : list A) (i : nat) : list A := delete i v.

Section Bsearch.
Context {A} (c : A -> A -> Z) `{!Compar c}.

Lemma bsearch_loop_sound fuel key v l u i :
  bsearch_loop fuel key v l u = Some i -> exists x : A, v !! i = Some x /\ key x = 0.
Proof.
  revert l u. induction fuel as [|fuel IH]; intros l u; cbn [bsearch_loop]; [done|].
  destruct (_ <? _)%nat; [|done]. destruct (v !! ((l + u) / 2)%nat) as [p|] eqn:Ep; [|done].
  destruct (Z.ltb_spec (key p) 0); [apply IH|].
  destruct (Z.ltb_spec 0 (key p)); [apply IH|]. intros [= <-]. exists p. split; [done|lia].
Qed.

Lemma sorted_lookup (R : A -> A -> Prop) v i j x y :
  StronglySorted R v -> v !! i = Some x -> v !! j = Some y -> (i < j)%nat -> R x y.
Proof.
  intros Hs. revert i j. induction Hs as [|a v Hs IH Hall]; intros i j Hi Hj Hlt; [done|].
  destruct j as [|j]; [lia|]. destruct i as [|i]; simpl in *.
  - injection Hi as ->. rewrite Forall_lookup in Hall. eauto.
  - apply (IH i j); auto. lia.
Qed.

Lemma bsearch_loop_complete fuel key v l u i x :
  StronglySorted (fun x y => c x y <= 0) v -> (u <= length v)%nat -> (u - l <= fuel)%nat ->
  v !! i = Some x -> c key x = 0 -> (l <= i < u)%nat ->
  is_Some (bsearch_loop fuel (c key) v l u).
Proof.
  intros Hs. revert l u. induction fuel as [|fuel IH]; intros l u Hu Hf Hi Hx Hr; [lia|].
  cbn [bsearch_loop]. destruct (Nat.ltb_spec l u); [|lia].
  set (m := ((l + u) / 2)%nat).
  assert (l <= m < u)%nat as Hm.
  { unfold m. split; [apply Nat.div_le_lower_bound; lia|apply Nat.Div0.div_lt_upper_bound; lia]. }
  destruct (lookup_lt_is_Some_2 v m) as [p Hp]; [lia|]. rewrite Hp.
  destruct (Z.ltb_spec (c key p) 0) as [Hlt|Hge].
  - apply IH; [lia|lia|done|done|]. split; [lia|].
    destruct (Nat.lt_ge_cases i m) as [|Hmi]; [done|].
    assert (c p x <= 0) as Hpx.
    { destruct (Nat.eq_dec m i) as [<-|]; [|apply (sorted_lookup _ v m i p x Hs); auto; lia].
      replace x with p by congruence. by rewrite compar_refl. }
    pose proof (compar_lt_le c _ _ _ Hlt Hpx). lia.
  - destruct (Z.ltb_spec 0 (c key p)) as [Hgt|]; [|by eexists].
    apply IH; [lia|lia|done|done|]. split; [|lia].
    destruct (Nat.lt_ge_cases m i) as [|Him]; [lia|].
    assert (c x p <= 0) as Hxp.
    { destruct (Nat.eq_dec i m) as [<-|]; [|apply (sorted_lookup _ v i m x p Hs); auto; lia].
      replace x with p by congruence. by rewrite compar_refl. }
    assert (c key p <= 0) by (apply (compar_trans key x p); lia). lia.
Qed.

(** on a sorted vector the search finds an equal element whenever there is
    one, and only then *)
Lemma vec_bsearch_spec v key :
  StronglySorted (fun x y => c x y <= 0) v ->
  match vec_bsearch (c key) v with
  | Some i => exists x, v !! i = Some x /\ c key x = 0
  | None => forall x, x ∈ v -> c key x <> 0
  end.
Proof.
  intros Hs. destruct (vec_bsearch (c key) v) as [i|] eqn:E.
  - by apply bsearch_loop_sound in E.
  - intros x Hx Hc. apply list_elem_of_lookup in Hx as [i Hi].
    pose proof (lookup_lt_Some _ _ _ Hi).
    destruct (bsearch_loop_complete (length v) key v 0 (length v) i x) as [j Hj]; auto; [lia..|].
    unfold vec_bsearch in E. congruence.
Qed.
End Bsearch.

(** ** vec_diff

    The macro sorts both vectors, walks them in step and calls add_del with 1
    for each element only in [new] and with 0 for each only in [old]. The
    calls are listed in order, with [is_add] as a boolean. *)

Section Diff.
Context {A} (compar : A -> A -> Z).

Fixpoint diff_loop (new : list A) : list A -> list (A * bool) :=
  fix go (old : list A) : list (A * bool) :=
    match new, old with
    | [], _ => (., false) <$> old
    | _, [] => (., true) <$> new
    | n :: new', o :: old' =>
        let r := compar n o in
        if r =? 0 then diff_loop new' old'
        else if r <? 0 then (n, true) :: diff_loop new' old
        else (o, false) :: go old'
    end.

Definition vec_diff {S : VecSort} (new old : vec A) : list (A * bool) * vec A * vec A :=
  let new := vec_sort_with_function compar <$> new in
  let old := vec_sort_with_function compar <$> old in
  (diff_loop (vec_elts new) (vec_elts old), new, old).

Definition added (calls : list (A * bool)) : list A :=
  (filter (fun p => p.2 = true) calls).*1.
Definition removed (calls : list (A * bool)) : list A :=
  (filter (fun p => p.2 = false) calls).*1.

(** how many elements of [l] compare equal to [x] *)
Definition occurs (x : A) (l : list A) : nat := length (filter (fun y => compar x y = 0) l).
End Diff.

Section DiffFacts.
Context {A} (c : A -> A -> Z) `{!Compar c}.

Lemma occurs_cons x y l :
  occurs c x (y :: l) = (Nat.b2n (c x y =? 0)%Z + occurs c x l)%nat.
Proof.
  unfold occurs. rewrite filter_cons. destruct (decide (c x y = 0)) as [E|E].
  - by rewrite (proj2 (Z.eqb_eq _ _) E).
  - by rewrite (proj2 (Z.eqb_neq _ _) E).
Qed.

Lemma occurs_perm x l k : Permutation l k -> occurs c x l = occurs c x k.
Proof. intros H. unfold occurs. by rewrite H. Qed.

Lemma occurs_0 x l : Forall (fun y => c x y <> 0) l -> occurs c x l = 0%nat.
Proof.
  induction 1 as [|y l Hy Hl IH]; [done|]. rewrite occurs_cons, IH.
  by rewrite (proj2 (Z.eqb_neq _ _) Hy).
Qed.

Lemma occurs_pos x l : (0 < occurs c x l)%nat <-> exists y, y ∈ l /\ c x y = 0.
Proof.
  induction l as [|y l IH]; [unfold occurs; simpl; split; [lia|by intros (? & ?%elem_of_nil & _)]|].
  rewrite occurs_cons. setoid_rewrite elem_of_cons. destruct (Z.eqb_spec (c x y) 0) as [E|E].
  - split; [eauto|simpl; lia].
  - simpl. rewrite IH. split; [intros (z & ? & ?); eauto|]. intros (z & [->|?] & ?); [done|eauto].
Qed.

Lemma added_cons (a : A) b l : added ((a, b) :: l) = if b : bool then a :: added l else added l.
Proof. unfold added. rewrite filter_cons. by destruct b. Qed.
Lemma removed_cons (a : A) b l : removed ((a, b) :: l) = if b : bool then removed l else a :: removed l.
Proof. unfold removed. rewrite filter_cons. by destruct b. Qed.
Lemma added_const (l : list A) b : added ((., b) <$> l) = if b : bool then l else [].
Proof. induction l as [|x l IH]; [by destruct b|]. rewrite fmap_cons, added_cons, IH. by destruct b. Qed.
Lemma removed_const (l : list A) b : removed ((., b) <$> l) = if b : bool then [] else l.
Proof. induction l as [|x l IH]; [by destruct b|]. rewrite fmap_cons, removed_cons, IH. by destruct b. Qed.

(** an element below the head of a sorted vector does not occur in it *)
Lemma sorted_below x y l :
  c x y < 0 -> StronglySorted (fun x y => c x y <= 0) (y :: l) -> Forall (fun z => c x z < 0) (y :: l).
Proof.
  intros Hlt Hs. apply StronglySorted_inv in Hs as [_ Hall]. constructor; [done|].
  eapply Forall_impl; [exact Hall|]. intros z Hz. by apply (compar_lt_le c x y z).
Qed.

Lemma occurs_below x z y l :
  c z y < 0 -> StronglySorted (fun x y => c x y <= 0) (y :: l) -> c x z = 0 ->
  occurs c x (y :: l) = 0%nat.
Proof.
  intros Hlt Hs E. apply occurs_0. eapply Forall_impl; [by apply (sorted_below z y l)|].
  simpl. intros w Hw Hxw. apply (compar_eq_l c x z w E) in Hxw. lia.
Qed.

Lemma diff_loop_cons n new o old :
  diff_loop c (n :: new) (o :: old)
  = if c n o =? 0 then diff_loop c new old
    else if c n o <? 0 then (n, true) :: diff_loop c new (o :: old)
    else (o, false) :: diff_loop c (n :: new) old.
Proof. reflexivity. Qed.

Lemma diff_loop_counts new old x :
  StronglySorted (fun x y => c x y <= 0) new -> StronglySorted (fun x y => c x y <= 0) old ->
  occurs c x (added (diff_loop c new old)) = (occurs c x new - occurs c x old)%nat /\
  occurs c x (removed (diff_loop c new old)) = (occurs c x old - occurs c x new)%nat.
Proof.
  revert old. induction new as [|n new IHn]; intros old Hn.
  { intros _. replace (diff_loop c [] old) with ((., false) <$> old) by (by destruct old).
    rewrite added_const, removed_const. change (occurs c x []) with 0%nat. split; lia. }
  induction old as [|o old IHo]; intros Ho.
  { change (diff_loop c (n :: new) []) with ((., true) <$> (n :: new)).
    rewrite added_const, removed_const. change (occurs c x []) with 0%nat. split; lia. }
  rewrite diff_loop_cons. pose proof (proj1 (StronglySorted_inv Hn)) as Hn'.
  pose proof (proj1 (StronglySorted_inv Ho)) as Ho'.
  destruct (Z.eqb_spec (c n o) 0) as [E|E]; [|destruct (Z.ltb_spec (c n o) 0) as [Hlt|Hge]].
  - destruct (IHn old Hn' Ho') as [-> ->]. rewrite !occurs_cons.
    assert ((c x n =? 0) = (c x o =? 0)) as ->.
    { destruct (Z.eqb_spec (c x n) 0) as [En|En], (Z.eqb_spec (c x o) 0) as [Eo|Eo]; try done.
      - apply (compar_eq_l c x n o En) in E. done.
      - exfalso. apply En. apply (compar_eq_l c x o n Eo). by apply (compar_sym c). }
    split; lia.
  - rewrite added_cons, removed_cons, (occurs_cons x n (added _)).
    destruct (IHn (o :: old) Hn' Ho) as [-> ->]. rewrite (occurs_cons x n new).
    destruct (Z.eqb_spec (c x n) 0) as [En|]; [|cbn [Nat.b2n]; split; lia].
    rewrite (occurs_below x n o old) by done. cbn [Nat.b2n]. split; lia.
  - rewrite added_cons, removed_cons, (occurs_cons x o (removed _)).
    destruct (IHo Ho') as [-> ->]. rewrite (occurs_cons x o old).
    destruct (Z.eqb_spec (c x o) 0) as [Eo|]; [|cbn [Nat.b2n]; split; lia].
    rewrite (occurs_below x o n new); [cbn [Nat.b2n]; split; lia| |done|done].
    pose proof (proj2 (compar_neg c o n)). lia.
Qed.
End DiffFacts.

(** vec_diff registers the difference, duplicates included: of every group
    of equal elements it adds as many as the new vector has more than the old
    one and removes as many as it has fewer, whatever the order of the
    vectors. A consumer that counts references, like the FIB, ends with as many
    references as the new vector has elements. *)
Theorem vec_diff_counts {A} (c : A -> A -> Z) {S : VecSort} new old x :
  Compar c -> VecSortOk S ->
  let calls := fst (fst (vec_diff c new old)) in
  occurs c x (added calls) = (occurs c x (vec_elts new) - occurs c x (vec_elts old))%nat /\
  occurs c x (removed calls) = (occurs c x (vec_elts old) - occurs c x (vec_elts new))%nat.
Proof.
  intros Hc HS. simpl.
  assert (forall v : vec A, occurs c x (vec_elts (vec_sort_with_function c <$> v))
                            = occurs c x (vec_elts v)) as Hp
    by (intros [l|]; [apply occurs_perm, vec_sort_perm|done]).
  assert (forall v : vec A, StronglySorted (fun x y => c x y <= 0)
            (vec_elts (vec_sort_with_function c <$> v))) as Hs
    by (intros [l|]; [by apply vec_sort_sorted|constructor]).
  rewrite <- (Hp new), <- (Hp old). by apply diff_loop_counts.
Qed.

Lemma vec_diff_counts_witness :
  let c := fun x y : Z => intcmp x y in
  let calls := fst (fst (@vec_diff _ c insertion_sort (Some [3; 1; 3]) (Some [2; 3]))) in
  occurs c 3 (added calls) = 1%nat /\ occurs c 3 (removed calls) = 0%nat.
Proof.
  apply (@vec_diff_counts Z (fun x y => intcmp x y) insertion_sort (Some [3; 1; 3]) (Some [2; 3]) 3);
    [exact (intcmp_compar (fun x => x)) | exact insertion_sort_ok].
Defined.

Section FindKey.
Context {A K : Type} `{EqDecision K} (key : A -> K).

(** the element of a vector with the key [k] *)
Definition find_key (k : K) (l : list A) : option A := head (filter (fun x => key x = k) l).

Lemma find_key_Some k l x : find_key k l = Some x -> x ∈ l /\ key x = k.
Proof.
  unfold find_key. intros E. assert (x ∈ filter (fun x => key x = k) l) as Hx.
  { destruct (filter _ l); [done|]. injection E as ->. by left. }
  apply list_elem_of_filter in Hx. tauto.
Qed.

Lemma find_key_None k l : find_key k l = None -> forall x, x ∈ l -> key x <> k.
Proof.
  unfold find_key. intros E x Hx Hk. assert (x ∈ filter (fun x => key x = k) l) as Hf
    by (apply list_elem_of_filter; done).
  destruct (filter _ l); [by apply elem_of_nil in Hf|done].
Qed.

End FindKey.

(** ** A table that follows a vector

    add_del on a table: store the value of an element under its key, or delete
    the key. *)

Section Table.
Context {A K V : Type} `{Countable K} (key : A -> K) (value : A -> V).

Definition add_del (t : gmap K V) (call : A * bool) : gmap K V :=
  if snd call then <[key (fst call) := value (fst call)]> t else delete (key (fst call)) t.
Definition run_add_del (t : gmap K V) (calls : list (A * bool)) : gmap K V :=
  foldl add_del t calls.

Lemma run_add_del_other calls k t :
  (forall a b, (a, b) ∈ calls -> key a <> k) -> run_add_del t calls !! k = t !! k.
Proof.
  revert t. induction calls as [|[a b] calls IH]; intros t Hk; [done|]. simpl.
  rewrite IH by (intros ? ? ?; eapply Hk; by right).
  assert (key a <> k) by (apply (Hk a b); by left).
  unfold add_del. simpl. destruct b; by rewrite ?lookup_insert_ne, ?lookup_delete_ne.
Qed.

(** when the calls agree on a key, the last one decides *)
Lemma run_add_del_hit calls k t x :
  Exists (fun p => key p.1 = k) calls ->
  (forall a b, (a, b) ∈ calls -> key a = k -> (if b : bool then Some (value a) else None) = x) ->
  run_add_del t calls !! k = x.
Proof.
  revert t. induction calls as [|[a b] calls IH]; intros t Hex Hall; [by inversion Hex|]. simpl.
  destruct (decide (Exists (fun p => key p.1 = k) calls)) as [Hex'|Hno].
  - apply IH; [done|]. intros; eapply Hall; eauto. by right.
  - rewrite run_add_del_other.
    2:{ intros a' b' Hin Hk'. apply Hno, Exists_exists. by exists (a', b'). }
    assert (key a = k) as Hka by (by inversion Hex; subst).
    rewrite <- (Hall a b (list_elem_of_here _ _) Hka). unfold add_del. simpl. rewrite Hka.
    destruct b; by rewrite ?lookup_insert_eq, ?lookup_delete_eq.
Qed.
End Table.

Section DiffTable.
Context {A K V : Type} `{Countable K} (key : A -> K) (value : A -> V).
Context (c : A -> A -> Z) `{!Compar c} (Hkey : forall x y, c x y = 0 <-> key x = key y).

Lemma elem_of_added (a : A) calls : a ∈ added calls <-> (a, true) ∈ calls.
Proof.
  unfold added. rewrite list_elem_of_fmap. setoid_rewrite list_elem_of_filter.
  split; [intros ([a' b] & -> & Hb & Hin); simpl in *; by subst|by exists (a, true)].
Qed.
Lemma elem_of_removed (a : A) calls : a ∈ removed calls <-> (a, false) ∈ calls.
Proof.
  unfold removed. rewrite list_elem_of_fmap. setoid_rewrite list_elem_of_filter.
  split; [intros ([a' b] & -> & Hb & Hin); simpl in *; by subst|by exists (a, false)].
Qed.

Lemma diff_loop_elem (a : A) b new old :
  (a, b) ∈ diff_loop c new old -> a ∈ (if b : bool then new else old).
Proof.
  revert old. induction new as [|n new IHn]; intros old.
  { replace (diff_loop c [] old) with ((., false) <$> old) by (by destruct old).
    intros (y & [= -> ->] & Hy)%list_elem_of_fmap. done. }
  induction old as [|o old IHo].
  { intros (y & [= -> ->] & Hy)%(list_elem_of_fmap (., true) (n :: new)). done. }
  rewrite diff_loop_cons. destruct (_ =? _); [|destruct (_ <? _)].
  - intros Hin%IHn. destruct b; by right.
  - intros [[= -> ->]|Hin%IHn]%elem_of_cons; [by left|]. destruct b; [by right|done].
  - intros [[= -> ->]|Hin%IHo]%elem_of_cons; [by left|]. destruct b; [done|by right].
Qed.

Lemma occurs_key_le x l : NoDup (key <$> l) -> (occurs c x l <= 1)%nat.
Proof.
  induction l as [|y l IH]; [unfold occurs; simpl; lia|]. rewrite fmap_cons, NoDup_cons.
  intros [Hy Hnd]. rewrite occurs_cons. destruct (Z.eqb_spec (c x y) 0) as [E|]; [|simpl; auto].
  rewrite occurs_0; [simpl; lia|]. apply Forall_forall. intros z Hz Ez.
  apply Hy. apply Hkey in E, Ez. rewrite <- E, Ez. by apply list_elem_of_fmap_2.
Qed.

Lemma occurs_key_pos x y l : y ∈ l -> key y = key x -> (0 < occurs c x l)%nat.
Proof. intros Hy E. apply occurs_pos. exists y. split; [done|]. by apply Hkey. Qed.

Lemma occurs_key_0 x k l : find_key key k l = None -> key x = k -> occurs c x l = 0%nat.
Proof.
  intros Ek Hx. apply occurs_0, Forall_forall. intros y Hy E%Hkey.
  apply (find_key_None key k l Ek y Hy). congruence.
Qed.

Section Calls.
Context (new old : list A).
Context (Hsn : StronglySorted (fun x y => c x y <= 0) new).
Context (Hso : StronglySorted (fun x y => c x y <= 0) old).
Context (Hdn : NoDup (key <$> new)) (Hdo : NoDup (key <$> old)).
Let calls := diff_loop c new old.

Lemma diff_call_count a b x :
  (a, b) ∈ calls -> key a = key x ->
  if b : bool then (occurs c x old < occurs c x new)%nat else (occurs c x new < occurs c x old)%nat.
Proof using All.
  intros Hin Hk. pose proof (diff_loop_counts c new old x Hsn Hso) as [Ha Hr]. fold calls in Ha, Hr.
  destruct b; [apply elem_of_added in Hin|apply elem_of_removed in Hin];
    pose proof (occurs_key_pos x a _ Hin Hk); lia.
Qed.

Lemma diff_table_both n o t k :
  n ∈ new -> o ∈ old -> key n = k -> key o = k -> run_add_del key value t calls !! k = t !! k.
Proof using All.
  intros Hn Ho Hk Hko. apply run_add_del_other. intros a b Hin Ha.
  pose proof (diff_call_count a b n Hin) as Hc. specialize (Hc ltac:(congruence)).
  pose proof (occurs_key_le n new Hdn). pose proof (occurs_key_le n old Hdo).
  pose proof (occurs_key_pos n n new Hn eq_refl).
  pose proof (occurs_key_pos n o old Ho ltac:(congruence)). destruct b; lia.
Qed.

Lemma NoDup_key_eq (l : list A) x y :
  NoDup (key <$> l) -> x ∈ l -> y ∈ l -> key x = key y -> x = y.
Proof.
  intros Hnd Hx Hy E. apply list_elem_of_lookup in Hx as [i Hi], Hy as [j Hj].
  replace i with j in Hi; [congruence|].
  eapply (NoDup_lookup (key <$> l)); [done|..]; rewrite list_lookup_fmap;
    [by rewrite Hj|rewrite Hi; simpl; congruence].
Qed.

Lemma diff_table_new n t k :
  n ∈ new -> key n = k -> find_key key k old = None ->
  run_add_del key value t calls !! k = Some (value n).
Proof using All.
  intros Hn Hk Eo. pose proof (occurs_key_0 n k old Eo Hk). pose proof (occurs_key_pos n n new Hn eq_refl).
  pose proof (diff_loop_counts c new old n Hsn Hso) as [Ha _]. fold calls in Ha.
  apply run_add_del_hit.
  - assert (0 < occurs c n (added calls))%nat as Hp by lia.
    apply occurs_pos in Hp as (a & Hin%elem_of_added & E%Hkey).
    apply Exists_exists. exists (a, true). simpl. split; [done|congruence].
  - intros a b Hin Ea. pose proof (diff_call_count a b n Hin) as Hc.
    specialize (Hc ltac:(congruence)). destruct b; [|lia].
    apply diff_loop_elem in Hin. f_equal. f_equal.
    apply (NoDup_key_eq new); congruence.
Qed.

Lemma diff_table_old o t k :
  o ∈ old -> key o = k -> find_key key k new = None ->
  run_add_del key value t calls !! k = None.
Proof using All.
  intros Ho Hk En. pose proof (occurs_key_0 o k new En Hk). pose proof (occurs_key_pos o o old Ho eq_refl).
  pose proof (diff_loop_counts c new old o Hsn Hso) as [_ Hr]. fold calls in Hr.
  apply run_add_del_hit.
  - assert (0 < occurs c o (removed calls))%nat as Hp by lia.
    apply occurs_pos in Hp as (a & Hin%elem_of_removed & E%Hkey).
    apply Exists_exists. exists (a, false). simpl. split; [done|congruence].
  - intros a b Hin Ea. pose proof (diff_call_count a b o Hin) as Hc.
    specialize (Hc ltac:(congruence)). destruct b; [lia|done].
Qed.

Lemma diff_loop_table t k :
  run_add_del key value t calls !! k
  = match find_key key k new, find_key key k old with
    | Some n, None => Some (value n)
    | None, Some _ => None
    | _, _ => t !! k
    end.
Proof using All.
  destruct (find_key key k new) as [n|] eqn:En, (find_key key k old) as [o|] eqn:Eo;
    try (apply find_key_Some in En as [? ?]); try (apply find_key_Some in Eo as [? ?]).
  - by apply (diff_table_both n o).
  - apply (diff_table_new n); done.
  - by apply (diff_table_old o).
  - apply run_add_del_other. intros a b Hin%diff_loop_elem.
    destruct b; [by apply (find_key_None key k new)|by apply (find_key_None key k old)].
Qed.
End Calls.
End DiffTable.

(** ** Vectors of rules sorted by id *)

Section ById.
Context {A} (id : A -> Z).

(** sorted and without duplicates *)
Definition sorted_by_id (v : list A) : Prop := StronglySorted Z.lt (id <$> v).

Lemma bsearch_loop_fmap fuel c (v : list A) l u :
  bsearch_loop fuel c (id <$> v) l u = bsearch_loop fuel (fun e => c (id e)) v l u.
Proof.
  revert l u. induction fuel as [|fuel IH]; intros l u; [done|]. cbn [bsearch_loop].
  destruct (_ <? _)%nat; [|done]. rewrite list_lookup_fmap. destruct (v !! _); [|done].
  simpl. by rewrite !IH.
Qed.

Lemma sorted_by_id_inj v i j x y :
  sorted_by_id v -> v !! i = Some x -> v !! j = Some y -> id x = id y -> i = j.
Proof.
  intros Hs Hi Hj E.
  assert (forall k k' a b, v !! k = Some a -> v !! k' = Some b -> (k < k')%nat -> id a < id b) as H.
  { intros k k' a b Ha Hb Hlt. apply (sorted_lookup Z.lt (id <$> v) k k'); try done;
      rewrite list_lookup_fmap; [by rewrite Ha|by rewrite Hb]. }
  destruct (Nat.lt_trichotomy i j) as [Hlt|[->|Hlt]]; [|done|].
  - specialize (H _ _ _ _ Hi Hj Hlt). lia.
  - specialize (H _ _ _ _ Hj Hi Hlt). lia.
Qed.

(** the search by id returns the index of the rule with the id, if there is one *)
Lemma bsearch_by_id v k i :
  sorted_by_id v ->
  vec_bsearch (fun e => intcmp k (id e)) v = Some i <-> exists x, v !! i = Some x /\ id x = k.
Proof.
  intros Hs. pose proof (vec_bsearch_spec (fun x y : Z => intcmp x y) (id <$> v) k) as H.
  unfold vec_bsearch in H at 1. rewrite bsearch_loop_fmap, length_fmap in H.
  change (bsearch_loop _ _ v _ _) with (vec_bsearch (fun e => intcmp k (id e)) v) in H.
  assert (StronglySorted (fun x y => intcmp x y <= 0) (id <$> v)) as Hs'.
  { unfold sorted_by_id in Hs. revert Hs. generalize (id <$> v). induction 1; constructor; auto.
    eapply Forall_impl; [done|]. intros z Hz. apply intcmp_le. lia. }
  specialize (H Hs'). destruct (vec_bsearch _ v) as [j|].
  - destruct H as (y & Hy & E). apply (proj1 (intcmp_eq _ _)) in E. rewrite list_lookup_fmap in Hy.
    apply fmap_Some in Hy as (x & Hx & ->). split.
    + intros [= <-]. exists x. split; [done|congruence].
    + intros (x' & Hx' & E'). f_equal. eapply (sorted_by_id_inj v); eauto. congruence.
  - split; [done|]. intros (x & Hx & E). exfalso.
    apply (H (id x)); [|by apply intcmp_eq].
    apply list_elem_of_lookup. exists i. by rewrite list_lookup_fmap, Hx.
Qed.
End ById.
