(* ===== verification/UpfTypes.v ===== *)
(** * Data of the session layer

    The structs of src/upf/upf.h that sessions, rules and associations are
    made of, the pools of vppinfra that hold them, and IEEE doubles for time
    stamps. *)

From Stdlib Require Import ZArith Lia Floats.SpecFloat.
From stdpp Require Import base list list_numbers option numbers decidable gmap fin_maps.
From S2P Require Import Prelude PfcpIo PfcpIe.

(** ** f64

    C doubles, the IEEE 754 binary64 values of [PfcpIe]. *)

#[export] Instance f64_eq_dec : EqDecision f64.
Proof. solve_decision. Defined.
#[export] Instance f64_inhabited : Inhabited f64 := populate (S754_zero false).

Definition f64_ltb : f64 -> f64 -> bool := SFltb.
Definition f64_eqb : f64 -> f64 -> bool := SFeqb.
Definition trunc (x : f64) : f64 :=
  match x with S754_finite _ _ _ => f64_of_Z (f64_trunc x) | _ => x end.
(** conversions to unsigned integers; C leaves values out of range undefined *)
Definition f64_to_u64 (x : f64) : Z := wrap 64 (f64_trunc x).
Definition f64_to_u32 (x : f64) : Z := wrap 32 (f64_trunc x).
Definition f64_zero : f64 := S754_zero false.
Definition INFINITY : f64 := S754_infinity false.

(** ** Pools

    A pool hands out indices. Which free index it picks is up to vppinfra and
    depends on what was freed before, so it is a parameter. *)

Record pool (A : Type) := mk_pool { pool_elts : gmap Z A; pool_free : list Z }.
Arguments mk_pool {A} pool_elts pool_free.
Arguments pool_elts {A} p.
Arguments pool_free {A} p.

(** ~0 as a u32 *)
Definition u32_none : Z := 2 ^ 32 - 1.

Class VppPool := pool_pick : forall {A}, gmap Z A -> list Z -> Z.

(** fewer elements than indices leave a free one, and ~0 is never used *)
Class VppPoolOk (P : VppPool) := {
  pool_pick_free {A} (m : gmap Z A) free :
    Z.of_nat (size m) < u32_none ->
    m !! pool_pick m free = None /\ 0 <= pool_pick m free < u32_none
}.

Section Pool.
Context {A : Type}.
Definition pool_empty : pool A := mk_pool ∅ [].
Definition pool_get `{P : VppPool} (p : pool A) (a : A) : Z * pool A :=
  let i := pool_pick (pool_elts p) (pool_free p) in
  (i, mk_pool (<[i := a]> (pool_elts p)) (filter (fun j => j <> i) (pool_free p))).
Definition pool_put (p : pool A) (i : Z) : pool A :=
  mk_pool (delete i (pool_elts p)) (i :: pool_free p).
Definition pool_elt (p : pool A) (i : Z) : option A := pool_elts p !! i.
Definition pool_is_free_index (p : pool A) (i : Z) : bool :=
  bool_decide (pool_elts p !! i = None).
Definition pool_set (p : pool A) (i : Z) (a : A) : pool A :=
  mk_pool (<[i := a]> (pool_elts p)) (pool_free p).
Definition pool_room (p : pool A) : Prop := Z.of_nat (size (pool_elts p)) < u32_none.
End Pool.

(** an instance: the index freed last, else the lowest unused one *)
Definition first_unused {A} (m : gmap Z A) : Z :=
  default 0 (find (fun i => bool_decide (m !! i = None)) (seqZ 0 (Z.of_nat (size m) + 1))).
Definition pool_lifo : VppPool := fun A m free =>
  match free with
  | i :: _ => if bool_decide (m !! i = None) && (0 <=? i) && (i <? u32_none) then i
              else first_unused m
  | [] => first_unused m
  end.

Lemma first_unused_free {A} (m : gmap Z A) :
  m !! first_unused m = None /\ 0 <= first_unused m <= Z.of_nat (size m).
Proof.
  unfold first_unused. destruct (find _ _) as [i|] eqn:E; simpl.
  - apply find_some in E as [Hin Hi]. apply bool_decide_eq_true in Hi. split; [done|].
    apply list_elem_of_In, elem_of_seqZ in Hin. lia.
  - exfalso. pose proof (find_none _ _ E) as Hall.
    assert (list_to_set (seqZ 0 (Z.of_nat (size m) + 1)) ⊆@{gset Z} dom m) as Hsub.
    { intros i Hi. apply elem_of_list_to_set, list_elem_of_In, Hall in Hi.
      apply bool_decide_eq_false in Hi. apply elem_of_dom. by destruct (m !! i). }
    apply subseteq_size in Hsub. rewrite size_dom, size_list_to_set, length_seqZ in Hsub
      by apply NoDup_seqZ. lia.
Qed.

#[export] Instance pool_lifo_ok : VppPoolOk pool_lifo.
Proof.
  split. intros A m free Hs. destruct (first_unused_free m) as [H1 H2].
  unfold pool_pick, pool_lifo. destruct free as [|i free]; [split; [done|lia]|].
  case_test; [|split; [done|lia]]. btest. split; [done|lia].
Qed.

(** ** Rules *)

Record ipfilter_address_t := { fa_address : list Z; fa_mask : Z }.
Record ipfilter_port_t := { fp_min : Z; fp_max : Z }.

Inductive ipfilter_type := IPFILTER_WILDCARD | IPFILTER_IPV4 | IPFILTER_IPV6.
Inductive acl_action := ACL_PERMIT | ACL_DENY.
Inductive acl_direction := ACL_IN | ACL_OUT.

(** the arrays of two are split into source and destination *)
Record acl_rule_t := {
  ar_type : ipfilter_type; ar_action : acl_action; ar_direction : acl_direction; ar_proto : Z;
  ar_src : ipfilter_address_t; ar_dst : ipfilter_address_t;
  ar_src_port : ipfilter_port_t; ar_dst_port : ipfilter_port_t }.

Record adr_rule_t := { adr_application_id : Z; adr_db_id : Z; adr_flags : Z }.

Definition F_PDI_LOCAL_F_TEID : Z := 0x0001.
Definition F_PDI_UE_IP_ADDR : Z := 0x0004.
Definition F_PDI_SDF_FILTER : Z := 0x0008.
Definition F_PDI_APPLICATION_ID : Z := 0x0010.

Record upf_pdi_t := {
  pdi_src_intf : Z; pdi_nwi_index : Z; pdi_fields : Z; pdi_teid : pfcp_f_teid_t;
  pdi_ue_addr : pfcp_ue_ip_address_t; pdi_acl : vec acl_rule_t; pdi_adr : adr_rule_t }.

(** Packet Detection Rules *)
Record upf_pdr_t := {
  pdr_id : Z; pdr_precedence : Z; pdr_pdi : upf_pdi_t; pdr_outer_header_removal : Z;
  pdr_far_id : Z; pdr_urr_ids : vec Z; pdr_qer_ids : vec Z }.

Definition FAR_F_REDIRECT_INFORMATION : Z := BIT 0.
Definition FAR_F_OUTER_HEADER_CREATION : Z := BIT 1.

Record upf_far_forward_t := {
  ff_flags : Z; ff_dst_intf : Z; ff_dst_sw_if_index : Z; ff_nwi_index : Z;
  ff_redirect_information : pfcp_redirect_information_t;
  ff_outer_header_creation : pfcp_outer_header_creation_t;
  ff_peer_idx : Z; ff_rewrite : vec Z }.

Definition FAR_DROP : Z := 0x0001.
Definition FAR_FORWARD : Z := 0x0002.
Definition FAR_BUFFER : Z := 0x0004.
Definition FAR_NOTIFY_CP : Z := 0x0008.
Definition FAR_DUPLICATE : Z := 0x0010.

(** Forward Action Rules; the other member of the union, [bar_id], is not used *)
Record upf_far_t := { far_id : Z; far_apply_action : Z; far_forward : upf_far_forward_t }.

(** ** Usage reporting rules *)

Definition URR_OK : Z := 0.
Definition URR_QUOTA_EXHAUSTED : Z := BIT 0.
Definition URR_THRESHOLD_REACHED : Z := BIT 1.
Definition URR_START_OF_TRAFFIC : Z := BIT 2.
Definition URR_DROP_SESSION : Z := BIT 3.

Record urr_counter_t := mk_counter { uc_ul : Z; uc_dl : Z; uc_total : Z }.
Record urr_measure_t := mk_measure {
  um_packets : urr_counter_t; um_bytes : urr_counter_t; um_consumed : urr_counter_t }.
Record urr_volume_t := mk_volume {
  uv_measure : urr_measure_t; uv_threshold : urr_counter_t; uv_quota : urr_counter_t }.

Definition counter_zero : urr_counter_t := mk_counter 0 0 0.
Definition measure_zero : urr_measure_t := mk_measure counter_zero counter_zero counter_zero.

Record urr_time_t := mk_urr_time {
  ut_base : f64; ut_period : Z; ut_expected : f64; ut_handle : Z }.
Record urr_abs_time_t := mk_abs_time { at_unix_time : f64; at_vlib_time : f64 }.

Record upf_urr_traffic_t := mk_traffic { tt_ip : list Z; tt_first_seen : f64 }.

Definition PFCP_URR_TIME : Z := 0x0001.
Definition PFCP_URR_VOLUME : Z := 0x0002.
Definition PFCP_URR_EVENT : Z := 0x0004.

Definition URR_OVER_QUOTA : Z := BIT 0.
Definition URR_AFTER_MONITORING_TIME : Z := BIT 1.
Definition URR_REPORTED : Z := BIT 2.

Definition PFCP_URR_UPDATE_VOLUME_QUOTA : Z := BIT 0.
Definition PFCP_URR_UPDATE_TIME_QUOTA : Z := BIT 1.
Definition PFCP_URR_UPDATE_TIME_THRESHOLD : Z := BIT 2.
Definition PFCP_URR_UPDATE_MONITORING_TIME : Z := BIT 3.
Definition PFCP_URR_UPDATE_MEASUREMENT_PERIOD : Z := BIT 4.
Definition PFCP_URR_UPDATE_QUOTA_VALIDITY_TIME : Z := BIT 5.

(** the anonymous struct usage_before_monitoring_time *)
Record urr_usage_t := mk_usage {
  uu_start_time : f64; uu_time_of_first_packet : f64; uu_time_of_last_packet : f64;
  uu_volume : urr_measure_t }.

Record upf_urr_t := mk_urr {
  urr_id : Z; urr_methods : Z; urr_triggers : Z; urr_status : Z; urr_update_flags : Z;
  urr_seq_no : Z; urr_start_time : f64; urr_time_of_first_packet : f64;
  urr_time_of_last_packet : f64; urr_volume : urr_volume_t;
  urr_measurement_period : urr_time_t; urr_time_threshold : urr_time_t;
  urr_time_quota : urr_time_t; urr_quota_holding_time : urr_time_t;
  urr_quota_validity_time : urr_time_t; urr_monitoring_time : urr_abs_time_t;
  urr_usage_before_monitoring_time : urr_usage_t;
  urr_traffic : pool upf_urr_traffic_t; urr_traffic_by_ue : option (gmap (list Z) Z);
  urr_traffic_timer : urr_time_t; urr_linked_urr_ids : vec Z;
  urr_liusa_bitmap : option (gset Z) }.

(** ** QoS enforcement rules *)

Definition PFCP_QER_MBR : Z := BIT 0.

(** a key-value pair of a bihash *)
Record bihash_kv := mk_kv { kv_key : Z; kv_value : Z }.

Record upf_qer_t := mk_qer {
  qer_id : Z; qer_flags : Z; qer_gate_status_ul : Z; qer_gate_status_dl : Z;
  qer_mbr : pfcp_bit_rate_t; qer_policer : bihash_kv }.

(** ** Compiled rules of a session *)

Record upf_acl_5tuple_t := {
  t5_protocol : Z; t5_src : list Z; t5_dst : list Z; t5_src_port : Z; t5_dst_port : Z }.

Record upf_acl_t := {
  acl_precedence : Z; acl_is_ip4 : bool; acl_match_teid : bool; acl_match_ue_ip : Z;
  acl_match_sdf : bool; acl_match_ip_app : bool; acl_fib_index : Z; acl_teid : Z;
  acl_ue_ip : list Z; acl_mask : upf_acl_5tuple_t; acl_match : upf_acl_5tuple_t;
  acl_pdr_idx : Z }.

(** the addresses of the keys are kept as integers, [as_u32] and [as_u128] *)
Record gtpu4_endp_rule_t := mk_endp4 { e4_dst : Z; e4_teid : Z; e4_rule_index : Z }.
Record gtpu6_endp_rule_t := mk_endp6 { e6_dst : Z; e6_teid : Z; e6_rule_index : Z }.
Record ue_ip_t := mk_ue_ip { ui_addr : list Z; ui_fib_index : Z; ui_sw_if_index : Z }.
Record send_end_marker_t := mk_send_em { sem_far_id : Z; sem_fib_index : Z; sem_dpoi_index : Z }.

Definition PFCP_SDF_IPV4 : Z := BIT 0.
Definition PFCP_SDF_IPV6 : Z := BIT 1.
Definition PFCP_ADR : Z := BIT 2.
Definition PFCP_CLASSIFY : Z := BIT 3.

Record rules := mk_rules {
  r_pdr : vec upf_pdr_t; r_far : vec upf_far_t; r_urr : vec upf_urr_t; r_qer : vec upf_qer_t;
  r_flags : Z; r_proxy_precedence : Z; r_proxy_pdr_idx : Z;
  r_v4_acls : vec upf_acl_t; r_v6_acls : vec upf_acl_t;
  r_ue_src_ip : vec ue_ip_t; r_ue_dst_ip : vec ue_ip_t;
  r_v4_teid : vec gtpu4_endp_rule_t; r_v6_teid : vec gtpu6_endp_rule_t;
  r_send_end_marker : vec send_end_marker_t; r_inactivity_timer : urr_time_t }.

(** memset 0 *)
Definition urr_time_zero : urr_time_t := mk_urr_time f64_zero 0 f64_zero 0.
Definition rules_zero : rules :=
  mk_rules None None None None 0 0 0 None None None None None None None urr_time_zero.

(** ** Sessions and associations *)

Record sx_assoc := mk_assoc { as_node : Z; as_next : Z; as_prev : Z }.

(** without the spin lock, the buffered packets and the NAT binding *)
Record upf_session_t := mk_session {
  sx_last_ul_traffic : f64; sx_up_address : list Z; sx_cp_seid : Z; sx_cp_address : list Z;
  sx_assoc_ : sx_assoc; sx_flags : Z; sx_active : Z; sx_rules0 : rules; sx_rules1 : rules;
  sx_unix_time_start : f64; sx_generation : Z }.

Definition PFCP_ACTIVE : Z := 0.
Definition PFCP_PENDING : Z := 1.
Definition PFCP_UPDATING : Z := 0x8000.

Record upf_node_assoc_t := mk_node {
  na_node_id : pfcp_node_id_t; na_recovery_time_stamp : Z; na_session_handle : Z;
  na_rmt_addr : list Z; na_lcl_addr : list Z; na_sessions : Z; na_heartbeat_handle : Z }.
