(* ===== verification/UpfUrr.v ===== *)
(** * Usage accounting

    Counting the packets of a session against its usage reporting rules
    (process_urrs and urr_increment_and_check_counter of src/upf/upf_pfcp.c),
    the check that decides what is reported (urr_check_counter of
    upf_pfcp_server.c), and the report itself (report_usage_ev and
    upf_usage_report_build of upf_pfcp_api.c). *)

From Stdlib Require Import ZArith Lia Sorting.Sorted Floats.SpecFloat.
From stdpp Require Import base list list_numbers option numbers decidable gmap.
From S2P Require Import Prelude PfcpIo PfcpIe UpfTypes UpfVec.

(** ** Counters *)

(** the result flags and the new packets, bytes and consumed counters *)
Definition urr_increment_and_check_counter (packets bytes consumed threshold quota n_bytes : Z)
  : Z * Z * Z * Z :=
  let r := URR_OK in
  let r := if negb (quota =? 0) && ((consumed <? quota) && (quota <=? wrap 64 (consumed + n_bytes)))
           then Z.lor r URR_QUOTA_EXHAUSTED else r in
  let consumed := wrap 64 (consumed + n_bytes) in
  let r := if negb (threshold =? 0)
              && ((bytes <? threshold) && (threshold <=? wrap 64 (bytes + n_bytes)))
           then Z.lor r URR_THRESHOLD_REACHED else r in
  let bytes := wrap 64 (bytes + n_bytes) in
  let packets := wrap 64 (packets + 1) in
  (r, packets, bytes, consumed).

(** the three members of a counter *)
Inductive dir := D_ul | D_dl | D_total.
Definition get_dir (d : dir) (c : urr_counter_t) : Z :=
  match d with D_ul => uc_ul c | D_dl => uc_dl c | D_total => uc_total c end.
Definition set_dir (d : dir) (x : Z) (c : urr_counter_t) : urr_counter_t :=
  match d with
  | D_ul => mk_counter x (uc_dl c) (uc_total c)
  | D_dl => mk_counter (uc_ul c) x (uc_total c)
  | D_total => mk_counter (uc_ul c) (uc_dl c) x
  end.

(** the macro urr_incr_and_check *)
Definition urr_incr_and_check (v : urr_volume_t) (d : dir) (len : Z) : Z * urr_volume_t :=
  let m := uv_measure v in
  let '(r, p, b, c) :=
    urr_increment_and_check_counter (get_dir d (um_packets m)) (get_dir d (um_bytes m))
      (get_dir d (um_consumed m)) (get_dir d (uv_threshold v)) (get_dir d (uv_quota v)) len in
  (r, mk_volume (mk_measure (set_dir d p (um_packets m)) (set_dir d b (um_bytes m))
                   (set_dir d c (um_consumed m)))
        (uv_threshold v) (uv_quota v)).

(** ** Packets *)

(** what process_urrs reads of a buffer: its length and the octets from the
    network header on *)
Record packet := mk_packet { pk_len : Z; pk_l3 : list Z }.

Definition ip_version_and_header_length (p : packet) : Z := nth 0 (pk_l3 p) 0.
Definition ip4_src_address (p : packet) : list Z := take 4 (drop 12 (pk_l3 p)).
Definition ip4_dst_address (p : packet) : list Z := take 4 (drop 16 (pk_l3 p)).
Definition ip6_src_address (p : packet) : list Z := take 16 (drop 8 (pk_l3 p)).
Definition ip6_dst_address (p : packet) : list Z := take 16 (drop 24 (pk_l3 p)).

(** the address of the UE in a packet; [old] when neither direction is set *)
Definition ue_address (p : packet) (is_dl is_ul : bool) (old : list Z) : list Z :=
  if Z.land (ip_version_and_header_length p) 0xF0 =? 0x40 then
    let ip := if is_dl then ip46_address_set_ip4 (ip4_dst_address p) else old in
    if is_ul then ip46_address_set_ip4 (ip4_src_address p) else ip
  else
    let ip := if is_dl then ip6_dst_address p else old in
    if is_ul then ip6_src_address p else ip.

(** ** Updating a rule *)

Section Setters.
Context (u : upf_urr_t).
Definition urr_set_status (x : Z) : upf_urr_t :=
  mk_urr (urr_id u) (urr_methods u) (urr_triggers u) x (urr_update_flags u) (urr_seq_no u)
    (urr_start_time u) (urr_time_of_first_packet u) (urr_time_of_last_packet u) (urr_volume u)
    (urr_measurement_period u) (urr_time_threshold u) (urr_time_quota u)
    (urr_quota_holding_time u) (urr_quota_validity_time u) (urr_monitoring_time u)
    (urr_usage_before_monitoring_time u) (urr_traffic u) (urr_traffic_by_ue u)
    (urr_traffic_timer u) (urr_linked_urr_ids u) (urr_liusa_bitmap u).
Definition urr_set_seq_no (x : Z) : upf_urr_t :=
  mk_urr (urr_id u) (urr_methods u) (urr_triggers u) (urr_status u) (urr_update_flags u) x
    (urr_start_time u) (urr_time_of_first_packet u) (urr_time_of_last_packet u) (urr_volume u)
    (urr_measurement_period u) (urr_time_threshold u) (urr_time_quota u)
    (urr_quota_holding_time u) (urr_quota_validity_time u) (urr_monitoring_time u)
    (urr_usage_before_monitoring_time u) (urr_traffic u) (urr_traffic_by_ue u)
    (urr_traffic_timer u) (urr_linked_urr_ids u) (urr_liusa_bitmap u).
(** start_time, time_of_first_packet, time_of_last_packet *)
Definition urr_set_times (start first last : f64) : upf_urr_t :=
  mk_urr (urr_id u) (urr_methods u) (urr_triggers u) (urr_status u) (urr_update_flags u)
    (urr_seq_no u) start first last (urr_volume u)
    (urr_measurement_period u) (urr_time_threshold u) (urr_time_quota u)
    (urr_quota_holding_time u) (urr_quota_validity_time u) (urr_monitoring_time u)
    (urr_usage_before_monitoring_time u) (urr_traffic u) (urr_traffic_by_ue u)
    (urr_traffic_timer u) (urr_linked_urr_ids u) (urr_liusa_bitmap u).
Definition urr_set_volume (x : urr_volume_t) : upf_urr_t :=
  mk_urr (urr_id u) (urr_methods u) (urr_triggers u) (urr_status u) (urr_update_flags u)
    (urr_seq_no u) (urr_start_time u) (urr_time_of_first_packet u) (urr_time_of_last_packet u) x
    (urr_measurement_period u) (urr_time_threshold u) (urr_time_quota u)
    (urr_quota_holding_time u) (urr_quota_validity_time u) (urr_monitoring_time u)
    (urr_usage_before_monitoring_time u) (urr_traffic u) (urr_traffic_by_ue u)
    (urr_traffic_timer u) (urr_linked_urr_ids u) (urr_liusa_bitmap u).
(** monitoring_time and usage_before_monitoring_time *)
Definition urr_set_monitoring (mt : urr_abs_time_t) (usage : urr_usage_t) : upf_urr_t :=
  mk_urr (urr_id u) (urr_methods u) (urr_triggers u) (urr_status u) (urr_update_flags u)
    (urr_seq_no u) (urr_start_time u) (urr_time_of_first_packet u) (urr_time_of_last_packet u)
    (urr_volume u) (urr_measurement_period u) (urr_time_threshold u) (urr_time_quota u)
    (urr_quota_holding_time u) (urr_quota_validity_time u) mt usage (urr_traffic u)
    (urr_traffic_by_ue u) (urr_traffic_timer u) (urr_linked_urr_ids u) (urr_liusa_bitmap u).
Definition urr_set_traffic (tr : pool upf_urr_traffic_t) (by_ue : option (gmap (list Z) Z))
  : upf_urr_t :=
  mk_urr (urr_id u) (urr_methods u) (urr_triggers u) (urr_status u) (urr_update_flags u)
    (urr_seq_no u) (urr_start_time u) (urr_time_of_first_packet u) (urr_time_of_last_packet u)
    (urr_volume u) (urr_measurement_period u) (urr_time_threshold u) (urr_time_quota u)
    (urr_quota_holding_time u) (urr_quota_validity_time u) (urr_monitoring_time u)
    (urr_usage_before_monitoring_time u) tr by_ue (urr_traffic_timer u) (urr_linked_urr_ids u)
    (urr_liusa_bitmap u).
Definition urr_set_time_threshold (x : urr_time_t) : upf_urr_t :=
  mk_urr (urr_id u) (urr_methods u) (urr_triggers u) (urr_status u) (urr_update_flags u)
    (urr_seq_no u) (urr_start_time u) (urr_time_of_first_packet u) (urr_time_of_last_packet u)
    (urr_volume u) (urr_measurement_period u) x (urr_time_quota u)
    (urr_quota_holding_time u) (urr_quota_validity_time u) (urr_monitoring_time u)
    (urr_usage_before_monitoring_time u) (urr_traffic u) (urr_traffic_by_ue u)
    (urr_traffic_timer u) (urr_linked_urr_ids u) (urr_liusa_bitmap u).
End Setters.

(** memset of the packets and bytes of a measure; consumed stays *)
Definition measure_reset (m : urr_measure_t) : urr_measure_t :=
  mk_measure counter_zero counter_zero (um_consumed m).
Definition volume_reset (v : urr_volume_t) : urr_volume_t :=
  mk_volume (measure_reset (uv_measure v)) (uv_threshold v) (uv_quota v).

(** process_urrs, the monitoring time has passed: set the usage up to now
    aside and start again *)
Definition urr_split_monitoring_time (now : f64) (u : upf_urr_t) : upf_urr_t :=
  let mt := urr_monitoring_time u in
  let usage := mk_usage (urr_start_time u) (urr_time_of_first_packet u)
                 (urr_time_of_last_packet u) (uv_measure (urr_volume u)) in
  let u := urr_set_volume u (volume_reset (urr_volume u)) in
  let u := urr_set_times u (at_unix_time mt) now (urr_time_of_last_packet u) in
  let u := urr_set_monitoring u (mk_abs_time (at_unix_time mt) INFINITY) usage in
  urr_set_status u (Z.lor (urr_status u) URR_AFTER_MONITORING_TIME).

(** process_urrs, methods with PFCP_URR_VOLUME: the flags and the rule *)
Definition urr_count_volume (is_dl is_ul : bool) (len : Z) (u : upf_urr_t) : Z * upf_urr_t :=
  let v := urr_volume u in
  let '(r1, v) := if is_ul then urr_incr_and_check v D_ul len else (URR_OK, v) in
  let '(r2, v) := if is_dl then urr_incr_and_check v D_dl len else (URR_OK, v) in
  let '(r3, v) := urr_incr_and_check v D_total len in
  let r := Z.lor (Z.lor r1 r2) r3 in
  let u := urr_set_volume u v in
  (r, if flag r URR_QUOTA_EXHAUSTED then urr_set_status u (Z.lor (urr_status u) URR_OVER_QUOTA)
      else u).

Definition REPORTING_TRIGGER_START_OF_TRAFFIC : Z := BIT 4.

(** an upf_event_urr_data_t *)
Record urr_event := mk_event { ev_urr_id : Z; ev_trigger : Z }.

(** the local variables of process_urrs that live across the loop: tt.ip, uev,
    status and next *)
Record urr_loop := mk_loop {
  ul_ip : list Z; ul_uev : list urr_event; ul_status : Z; ul_next : Z }.

Definition UPF_FORWARD_NEXT_DROP : Z := 0.

Section Process.
Context {P : VppPool}.

(** process_urrs, methods with PFCP_URR_EVENT and the start of traffic trigger *)
Definition urr_start_of_traffic (now : f64) (p : packet) (is_dl is_ul : bool) (u : upf_urr_t)
  (st : urr_loop) : outcome (upf_urr_t * urr_loop) :=
  let zero := bool_decide (ul_ip st = ip6_zero) in
  let version := Z.land (ip_version_and_header_length p) 0xF0 in
  if zero && negb (version =? 0x40) && negb (version =? 0x60) then Fault Assertion
  else
    let ip := if zero then ue_address p is_dl is_ul (ul_ip st) else ul_ip st in
    let report u :=
      Ok (u, mk_loop ip (ul_uev st ++ [mk_event (urr_id u) URR_START_OF_TRAFFIC])
               (Z.lor (ul_status st) URR_START_OF_TRAFFIC) (ul_next st)) in
    match urr_traffic_by_ue u ≫= lookup ip with
    | None =>
        let '(i, tr) := pool_get (urr_traffic u) (mk_traffic ip now) in
        report (urr_set_traffic u tr (Some (<[ip := i]> (default ∅ (urr_traffic_by_ue u)))))
    | Some i =>
        match pool_elt (urr_traffic u) i with
        | None => Fault BadIndex
        | Some t =>
            if f64_ltb (f64_add (tt_first_seen t) (f64_of_Z 10)) now then
              report (urr_set_traffic u (pool_set (urr_traffic u) i (mk_traffic (tt_ip t) now))
                        (urr_traffic_by_ue u))
            else Ok (u, mk_loop ip (ul_uev st) (ul_status st) (ul_next st))
        end
    end.

(** the part of the loop body after the monitoring time was handled *)
Definition urr_count (now : f64) (p : packet) (is_dl is_ul : bool) (u : upf_urr_t)
  (st : urr_loop) : outcome (upf_urr_t * urr_loop) :=
  let first := if f64_eqb (urr_time_of_first_packet u) INFINITY then now
               else urr_time_of_first_packet u in
  let u := urr_set_times u (urr_start_time u) first now in
  let '(r, u) := if flag (urr_methods u) PFCP_URR_VOLUME
                 then urr_count_volume is_dl is_ul (pk_len p) u else (URR_OK, u) in
  obind (if flag (urr_methods u) PFCP_URR_EVENT
            && flag (urr_triggers u) REPORTING_TRIGGER_START_OF_TRAFFIC
         then urr_start_of_traffic now p is_dl is_ul u st else Ok (u, st))
    (fun '(u, st) =>
     let next := if flag (urr_status u) URR_OVER_QUOTA then UPF_FORWARD_NEXT_DROP
                 else ul_next st in
     Ok (u, mk_loop (ul_ip st) (ul_uev st) (Z.lor (ul_status st) r) next)).

(** the body of the loop for a rule that was found; the boolean is [break] *)
Definition process_urr (now : f64) (p : packet) (is_dl is_ul : bool) (u : upf_urr_t)
  (st : urr_loop) : outcome (upf_urr_t * urr_loop * bool) :=
  if f64_ltb (at_vlib_time (urr_monitoring_time u)) now then
    if flag (urr_status u) URR_AFTER_MONITORING_TIME then
      Ok (u, mk_loop (ul_ip st) (ul_uev st) (Z.lor (ul_status st) URR_DROP_SESSION) (ul_next st),
          true)
    else
      obind (urr_count now p is_dl is_ul (urr_split_monitoring_time now u) st)
        (fun '(u, st) => Ok (u, st, false))
  else obind (urr_count now p is_dl is_ul u st) (fun '(u, st) => Ok (u, st, false)).

Definition pfcp_get_urr_by_id (urrs : list upf_urr_t) (id : Z) : option nat :=
  vec_bsearch (fun e => intcmp id (urr_id e)) urrs.

(** vec_foreach (urr_id, pdr->urr_ids) *)
Fixpoint process_urr_ids (now : f64) (p : packet) (is_dl is_ul : bool) (ids : list Z)
  (urrs : list upf_urr_t) (st : urr_loop) : outcome (list upf_urr_t * urr_loop) :=
  match ids with
  | [] => Ok (urrs, st)
  | id :: ids =>
      match pfcp_get_urr_by_id urrs id ≫= fun i => (i,.) <$> urrs !! i with
      | None => process_urr_ids now p is_dl is_ul ids urrs st
      | Some (i, u) =>
          obind (process_urr now p is_dl is_ul u st) (fun '(u, st, break) =>
          let urrs := <[i := u]> urrs in
          if break : bool then Ok (urrs, st)
          else process_urr_ids now p is_dl is_ul ids urrs st)
      end
  end.

(** the event sent to the PFCP server: upf_event_urr_hdr_t and its data *)
Record urr_report_event := mk_report_event {
  re_session_idx : Z; re_cp_seid : Z; re_ue : list Z; re_status : Z; re_uev : list urr_event }.

Definition set_last_ul_traffic (sx : upf_session_t) (now : f64) : upf_session_t :=
  mk_session now (sx_up_address sx) (sx_cp_seid sx) (sx_cp_address sx) (sx_assoc_ sx)
    (sx_flags sx) (sx_active sx) (sx_rules0 sx) (sx_rules1 sx) (sx_unix_time_start sx)
    (sx_generation sx).
Definition set_r_urr (r : rules) (urr : vec upf_urr_t) : rules :=
  mk_rules (r_pdr r) (r_far r) urr (r_qer r) (r_flags r) (r_proxy_precedence r)
    (r_proxy_pdr_idx r) (r_v4_acls r) (r_v6_acls r) (r_ue_src_ip r) (r_ue_dst_ip r)
    (r_v4_teid r) (r_v6_teid r) (r_send_end_marker r) (r_inactivity_timer r).

(** the session, the active rules, the event if one is sent, and next *)
Definition process_urrs (now : f64) (idx : Z) (sess : upf_session_t) (active : rules)
  (pdr : upf_pdr_t) (b : packet) (is_dl is_ul : bool) (next : Z)
  : outcome (upf_session_t * rules * option urr_report_event * Z) :=
  let sess := if is_ul then set_last_ul_traffic sess now else sess in
  obind (process_urr_ids now b is_dl is_ul (vec_elts (pdr_urr_ids pdr)) (vec_elts (r_urr active))
           (mk_loop ip6_zero [] URR_OK next))
    (fun '(urrs, st) =>
     let active := match r_urr active with Some _ => set_r_urr active (Some urrs)
                   | None => active end in
     let event :=
       if ul_status st =? URR_OK then None
       else
         (* vec_validate_ha makes sure that there is at least one entry *)
         let uev := match ul_uev st with [] => [mk_event 0 0] | l => l end in
         Some (mk_report_event idx (sx_cp_seid sess) (ul_ip st) (ul_status st) uev) in
     Ok (sess, active, event, ul_next st)).
End Process.

(** ** Reports *)

Definition USAGE_REPORT_TRIGGER_VOLUME_THRESHOLD : Z := BIT 1.
Definition USAGE_REPORT_TRIGGER_START_OF_TRAFFIC : Z := BIT 4.
Definition USAGE_REPORT_TRIGGER_STOP_OF_TRAFFIC : Z := BIT 5.
Definition USAGE_REPORT_TRIGGER_VOLUME_QUOTA : Z := BIT 8.
Definition USAGE_REPORT_TRIGGER_LINKED_USAGE_REPORTING : Z := BIT 10.
Definition USAGE_REPORT_TRIGGER_MONITORING_TIME : Z := BIT 12.
Definition USAGE_INFORMATION_BEFORE : Z := BIT 0.
Definition USAGE_INFORMATION_AFTER : Z := BIT 1.
Definition PFCP_VOLUME_ALL : Z := 0x3f.

Definition urr_check_counter (bytes consumed threshold quota : Z) : Z :=
  let r := 0 in
  let r := if negb (quota =? 0) && (quota <=? consumed)
           then Z.lor r USAGE_REPORT_TRIGGER_VOLUME_QUOTA else r in
  if negb (threshold =? 0) && (threshold <? bytes)
  then Z.lor r USAGE_REPORT_TRIGGER_VOLUME_THRESHOLD else r.

(** a pfcp_usage_report_t; an optional member is present when its bit is set *)
Record pfcp_usage_report_t := mk_usage_report {
  ur_urr_id : Z; ur_seqn : Z; ur_trigger : Z; ur_usage_information : option Z;
  ur_start_time : option Z; ur_end_time : option Z;
  ur_time_of_first_packet : option Z; ur_time_of_last_packet : option Z;
  ur_tp : option (f64 * f64 * f64);  (** tp_now, tp_start_time, tp_end_time *)
  ur_ue_ip_address : option pfcp_ue_ip_address_t;
  ur_volume_measurement : option pfcp_volume_measurement_t;
  ur_duration_measurement : option Z }.

Definition volume_measurement (m : urr_measure_t) : pfcp_volume_measurement_t :=
  {| vm_fields := PFCP_VOLUME_ALL;
     vm_volume_total := uc_total (um_bytes m); vm_volume_ul := uc_ul (um_bytes m);
     vm_volume_dl := uc_dl (um_bytes m); vm_packets_total := uc_total (um_packets m);
     vm_packets_ul := uc_ul (um_packets m); vm_packets_dl := uc_dl (um_packets m) |}.

(** a packet time stamp of the clock of VPP as a wall clock time *)
Definition packet_time (now vnow t : f64) : Z := f64_to_u32 (trunc (f64_sub now (f64_sub vnow t))).

(** init_usage_report: the sequence number counts the reports of the rule *)
Definition init_usage_report (u : upf_urr_t) (trigger : Z) : upf_urr_t * pfcp_usage_report_t :=
  (urr_set_seq_no u (wrap 32 (urr_seq_no u + 1)),
   mk_usage_report (urr_id u) (urr_seq_no u) trigger None None None None None None None None None).

Definition traffic_trigger (trigger : Z) : bool :=
  flag trigger (Z.lor USAGE_REPORT_TRIGGER_START_OF_TRAFFIC USAGE_REPORT_TRIGGER_STOP_OF_TRAFFIC).

(** the members both reports of report_usage_ev fill the same way *)
Definition fill_times (r : pfcp_usage_report_t) (trigger start_time duration : Z)
  (now vnow first last tp_start tp_end : f64) : pfcp_usage_report_t :=
  if traffic_trigger trigger then r
  else
    let start := wrap 32 start_time in
    let has_first := negb (f64_eqb first INFINITY) in
    mk_usage_report (ur_urr_id r) (ur_seqn r) (ur_trigger r) (ur_usage_information r)
      (Some start) (Some (wrap 32 (start + duration)))
      (if has_first then Some (packet_time now vnow first) else None)
      (if has_first && negb (f64_eqb last INFINITY) then Some (packet_time now vnow last) else None)
      (Some (now, tp_start, tp_end)) (ur_ue_ip_address r) (ur_volume_measurement r)
      (ur_duration_measurement r).
Definition fill_usage_information (r : pfcp_usage_report_t) (x : Z) : pfcp_usage_report_t :=
  mk_usage_report (ur_urr_id r) (ur_seqn r) (ur_trigger r) (Some x) (ur_start_time r)
    (ur_end_time r) (ur_time_of_first_packet r) (ur_time_of_last_packet r) (ur_tp r)
    (ur_ue_ip_address r) (ur_volume_measurement r) (ur_duration_measurement r).
Definition fill_volume (r : pfcp_usage_report_t) (m : urr_measure_t) (duration : Z)
  : pfcp_usage_report_t :=
  mk_usage_report (ur_urr_id r) (ur_seqn r) (ur_trigger r) (ur_usage_information r)
    (ur_start_time r) (ur_end_time r) (ur_time_of_first_packet r) (ur_time_of_last_packet r)
    (ur_tp r) (ur_ue_ip_address r) (Some (volume_measurement m)) (Some (wrap 32 duration)).
Definition fill_ue_ip (r : pfcp_usage_report_t) (ue : list Z) : pfcp_usage_report_t :=
  let a := if ip46_address_is_ip4 ue
           then {| ue_flags := IE_UE_IP_ADDRESS_V4; ue_ip4 := ip46_ip4 ue; ue_ip6 := ip6_zero;
                   ue_prefix_delegation_length := 0; ue_prefix_length := 0 |}
           else {| ue_flags := IE_UE_IP_ADDRESS_V6; ue_ip4 := ip4_zero; ue_ip6 := ue;
                   ue_prefix_delegation_length := 0; ue_prefix_length := 0 |} in
  mk_usage_report (ur_urr_id r) (ur_seqn r) (ur_trigger r) (ur_usage_information r)
    (ur_start_time r) (ur_end_time r) (ur_time_of_first_packet r) (ur_time_of_last_packet r)
    (ur_tp r) (Some a) (ur_volume_measurement r) (ur_duration_measurement r).

(** report_usage_ev, under the lock: take the volume, splitting it when the
    monitoring time has passed without a packet *)
Definition take_volume (now : f64) (u : upf_urr_t) : urr_measure_t * upf_urr_t :=
  let m := uv_measure (urr_volume u) in
  let u := urr_set_volume u (volume_reset (urr_volume u)) in
  let mt := urr_monitoring_time u in
  if negb (flag (urr_status u) URR_AFTER_MONITORING_TIME)
     && negb (f64_eqb (at_vlib_time mt) INFINITY) && f64_ltb (at_unix_time mt) now then
    let usage := mk_usage (urr_start_time u) (urr_time_of_first_packet u)
                   (urr_time_of_last_packet u) m in
    let u := urr_set_times u (at_unix_time mt) INFINITY INFINITY in
    let u := urr_set_monitoring u (mk_abs_time (at_unix_time mt) INFINITY) usage in
    (measure_reset m, urr_set_status u (Z.lor (urr_status u) URR_AFTER_MONITORING_TIME))
  else (m, u).

(** the report on the usage before the monitoring time *)
Definition report_before (now vnow : f64) (trigger : Z) (u : upf_urr_t)
  : upf_urr_t * pfcp_usage_report_t :=
  let '(u, r) := init_usage_report u USAGE_REPORT_TRIGGER_MONITORING_TIME in
  let r := fill_usage_information r USAGE_INFORMATION_BEFORE in
  let b := urr_usage_before_monitoring_time u in
  let start_time := f64_to_u64 (trunc (uu_start_time b)) in
  let duration := f64_to_u64 (f64_sub (trunc (urr_start_time u)) (f64_of_Z start_time)) in
  let r := fill_times r trigger start_time duration now vnow (uu_time_of_first_packet b)
             (uu_time_of_last_packet b) (uu_start_time b) (urr_start_time u) in
  (u, fill_volume r (uu_volume b) duration).

Definition report_usage_ev (vnow : f64) (ue : option (list Z)) (u : upf_urr_t) (trigger : Z)
  (now : f64) (report : list pfcp_usage_report_t) : upf_urr_t * list pfcp_usage_report_t :=
  let '(volume, u) := take_volume now u in
  let after := flag (urr_status u) URR_AFTER_MONITORING_TIME in
  let '(u, report) :=
    if after then let '(u, r) := report_before now vnow trigger u in (u, report ++ [r])
    else (u, report) in
  let '(u, r) := init_usage_report u trigger in
  let r := if after then fill_usage_information r USAGE_INFORMATION_AFTER else r in
  let start_time := f64_to_u64 (trunc (urr_start_time u)) in
  let duration := f64_to_u64 (f64_sub (trunc now) (f64_of_Z start_time)) in
  let end_time := f64_add (urr_start_time u) (f64_of_Z duration) in
  let r := fill_times r trigger start_time duration now vnow (urr_time_of_first_packet u)
             (urr_time_of_last_packet u) (urr_start_time u) end_time in
  let r := match ue with
           | Some ue => if traffic_trigger trigger then fill_ue_ip r ue else r
           | None => r
           end in
  let r := if flag trigger USAGE_REPORT_TRIGGER_START_OF_TRAFFIC then r
           else fill_volume r volume duration in
  let u := urr_set_status u (Z.land (urr_status u) (Z.lnot URR_AFTER_MONITORING_TIME)) in
  let u := urr_set_times u end_time INFINITY INFINITY in
  let tt := urr_time_threshold u in
  let u := if f64_eqb (ut_base tt) f64_zero then u
           else urr_set_time_threshold u
                  (mk_urr_time (urr_start_time u) (ut_period tt) (ut_expected tt) (ut_handle tt)) in
  (u, report ++ [r]).

(** ** Collecting reports *)

(** an upf_usage_report_ev_t, and an upf_usage_report_t with the bitmap as a set *)
Record usage_report_ev := mk_report_ev { rv_triggers : Z; rv_now : f64 }.
Record upf_usage_report_t := mk_report { rp_events : list usage_report_ev; rp_liusa : gset Z }.

Definition upf_usage_report_init (n_urrs : nat) : upf_usage_report_t :=
  mk_report (replicate n_urrs (mk_report_ev 0 f64_zero)) ∅.
Definition upf_usage_report_set (rp : upf_usage_report_t) (triggers : Z) (now : f64)
  : upf_usage_report_t :=
  mk_report ((fun _ => mk_report_ev triggers now) <$> rp_events rp) (rp_liusa rp).
Definition upf_usage_report_trigger (rp : upf_usage_report_t) (idx : nat) (triggers : Z)
  (liusa : option (gset Z)) (now : f64) : upf_usage_report_t :=
  mk_report (<[idx := mk_report_ev triggers now]> (rp_events rp))
    (match liusa with Some b => rp_liusa rp ∪ b | None => rp_liusa rp end).

(** the loop of upf_usage_report_build from entry [idx] on *)
Fixpoint usage_report_build_from (vnow : f64) (ue : option (list Z)) (idx : Z)
  (urrs : list upf_urr_t) (now : f64) (events : list usage_report_ev) (liusa : gset Z)
  (out : list pfcp_usage_report_t) : outcome (list upf_urr_t * list pfcp_usage_report_t) :=
  match events with
  | [] => Ok (urrs, out)
  | ev :: events =>
      let linked := bool_decide (idx ∈ liusa) in
      if (rv_triggers ev =? 0) && negb linked then
        obind (usage_report_build_from vnow ue (idx + 1) (tail urrs) now events liusa out)
          (fun '(us, out) => Ok (take 1 urrs ++ us, out))
      else
        match urrs with
        | [] => Fault BadIndex
        | u :: urrs =>
            let '(u, out) :=
              if rv_triggers ev =? 0
              then report_usage_ev vnow ue u USAGE_REPORT_TRIGGER_LINKED_USAGE_REPORTING now out
              else report_usage_ev vnow ue u (rv_triggers ev) (rv_now ev) out in
            obind (usage_report_build_from vnow ue (idx + 1) urrs now events liusa out)
              (fun '(us, out) => Ok (u :: us, out))
        end
  end.

Definition upf_usage_report_build (vnow : f64) (ue : option (list Z)) (urrs : list upf_urr_t)
  (now : f64) (rp : upf_usage_report_t) (out : list pfcp_usage_report_t)
  : outcome (list upf_urr_t * list pfcp_usage_report_t) :=
  usage_report_build_from vnow ue 0 urrs now (rp_events rp) (rp_liusa rp) out.

(** the triggers upf_pfcp_session_usage_report finds for a rule *)
Definition urr_volume_trigger (u : upf_urr_t) : Z :=
  let v := urr_volume u in
  let check d := urr_check_counter (get_dir d (um_bytes (uv_measure v)))
                   (get_dir d (um_consumed (uv_measure v))) (get_dir d (uv_threshold v))
                   (get_dir d (uv_quota v)) in
  Z.lor (Z.lor (check D_ul) (check D_dl)) (check D_total).

(** its second loop: the rules, the report and whether there is one to send *)
Fixpoint usage_report_volumes (now : f64) (idx : nat) (urrs : list upf_urr_t)
  (rp : upf_usage_report_t) (send : bool) : list upf_urr_t * upf_usage_report_t * bool :=
  match urrs with
  | [] => ([], rp, send)
  | u :: urrs =>
      let trigger := urr_volume_trigger u in
      if flag (urr_status u) URR_REPORTED || (trigger =? 0) then
        let '(us, rp, send) := usage_report_volumes now (S idx) urrs rp send in (u :: us, rp, send)
      else
        let rp := upf_usage_report_trigger rp idx trigger (urr_liusa_bitmap u) now in
        let u := urr_set_status u (Z.lor (urr_status u) URR_REPORTED) in
        let '(us, rp, send) := usage_report_volumes now (S idx) urrs rp true in (u :: us, rp, send)
  end.
