(* ===== verification/UpfUsage.v ===== *)
(** * Usage accounting: what is counted is reported

    Theorems on [UpfUrr]: crossing a quota or threshold is signalled once, every
    packet is added to every rule of its PDR, no counted byte is lost at the
    monitoring time or when a report is built, a rule over its quota drops the
    packets, and the cases in which usage goes unreported. *)

From Stdlib Require Import ZArith Lia Sorting.Sorted.
From stdpp Require Import base list list_numbers option numbers decidable gmap.
From S2P Require Import Prelude PfcpIo PfcpIe UpfTypes UpfVec UpfUrr.

(** ** One counter over a run of packets *)

(** the flags of each packet and the final packets, bytes and consumed *)
Fixpoint count_run (threshold quota : Z) (lens : list Z) (packets bytes consumed : Z)
  : list Z * (Z * Z * Z) :=
  match lens with
  | [] => ([], (packets, bytes, consumed))
  | n :: lens =>
      let '(r, p, b, c) := urr_increment_and_check_counter packets bytes consumed threshold quota n in
      let '(rs, fin) := count_run threshold quota lens p b c in (r :: rs, fin)
  end.

Definition sum (l : list Z) : Z := foldr Z.add 0 l.

(** how many of the flags carry [m] *)
Definition signals (m : Z) (rs : list Z) : nat := length (filter (fun r => flag r m = true) rs).

(** the counter starts below the limit and ends at or above it *)
Definition crosses (limit from to : Z) : bool :=
  negb (limit =? 0) && ((from <? limit) && (limit <=? to)).

Lemma signals_cons m r rs :
  signals m (r :: rs) = (Nat.b2n (flag r m) + signals m rs)%nat.
Proof.
  unfold signals. rewrite filter_cons. destruct (flag r m) eqn:E.
  - by rewrite decide_True.
  - by rewrite decide_False by congruence.
Qed.

Lemma sum_nonneg l : Forall (fun n => 0 <= n) l -> 0 <= sum l.
Proof. induction 1; simpl; lia. Qed.

Lemma increment_spec packets bytes consumed threshold quota n :
  in_range 64 (consumed + n) = true -> in_range 64 (bytes + n) = true ->
  in_range 64 (packets + 1) = true ->
  exists r, urr_increment_and_check_counter packets bytes consumed threshold quota n
            = (r, packets + 1, bytes + n, consumed + n)
  /\ flag r URR_QUOTA_EXHAUSTED = crosses quota consumed (consumed + n)
  /\ flag r URR_THRESHOLD_REACHED = crosses threshold bytes (bytes + n).
Proof.
  intros Hc Hb Hp. unfold urr_increment_and_check_counter. rewrite !wrap_small by done.
  eexists. split; [reflexivity|]. unfold crosses.
  split; do 2 case_test; reflexivity.
Qed.

Lemma crosses_split limit a n b :
  0 <= n -> a + n <= b ->
  Nat.b2n (crosses limit a b) = (Nat.b2n (crosses limit a (a + n)) + Nat.b2n (crosses limit (a + n) b))%nat.
Proof.
  intros Hn Hb. unfold crosses. destruct (Z.eqb_spec limit 0); [done|]. simpl.
  destruct (Z.ltb_spec a limit), (Z.ltb_spec (a + n) limit), (Z.leb_spec limit b),
    (Z.leb_spec limit (a + n)); simpl; lia.
Qed.

Lemma count_run_spec threshold quota lens packets bytes consumed :
  Forall (fun n => 0 <= n) lens -> 0 <= packets -> 0 <= bytes -> 0 <= consumed ->
  packets + Zlen lens < 2 ^ 64 -> bytes + sum lens < 2 ^ 64 -> consumed + sum lens < 2 ^ 64 ->
  let '(rs, fin) := count_run threshold quota lens packets bytes consumed in
  fin = (packets + Zlen lens, bytes + sum lens, consumed + sum lens)
  /\ signals URR_QUOTA_EXHAUSTED rs = Nat.b2n (crosses quota consumed (consumed + sum lens))
  /\ signals URR_THRESHOLD_REACHED rs = Nat.b2n (crosses threshold bytes (bytes + sum lens)).
Proof.
  intros Hl. revert packets bytes consumed.
  induction Hl as [|n lens Hn Hl IH]; intros packets bytes consumed Hp Hb Hc Hp' Hb' Hc'.
  { simpl. rewrite Zlen_nil, !Z.add_0_r. split; [done|].
    unfold crosses. destruct (Z.ltb_spec consumed quota), (Z.leb_spec quota consumed),
      (Z.ltb_spec bytes threshold), (Z.leb_spec threshold bytes); try lia;
      by rewrite ?andb_false_r. }
  pose proof (sum_nonneg _ Hl). rewrite Zlen_cons in *. cbn [count_run]. change (sum (n :: lens)) with (n + sum lens) in *.
  pose proof (Zlen_nonneg lens).
  destruct (increment_spec packets bytes consumed threshold quota n) as (r & -> & Hq & Ht);
    [apply in_range_spec; lia..|].
  specialize (IH (packets + 1) (bytes + n) (consumed + n)).
  destruct (count_run threshold quota lens (packets + 1) (bytes + n) (consumed + n)) as [rs fin].
  destruct IH as (-> & Hq' & Ht'); [lia..|]. rewrite !signals_cons, Hq, Ht, Hq', Ht'.
  rewrite (crosses_split quota consumed n (consumed + (n + sum lens))) by lia.
  rewrite (crosses_split threshold bytes n (bytes + (n + sum lens))) by lia.
  rewrite !Z.add_assoc. done.
Qed.

(** Crossing a limit is signalled once: over a run of packets whose counters
    do not overflow 64 bits, URR_QUOTA_EXHAUSTED is returned for exactly one
    packet if consumed starts below the quota and ends at or above it and for
    none otherwise, the same holds for the threshold, and the counters end at
    the exact sums. *)
Theorem crossing_signalled_once threshold quota lens packets bytes consumed :
  Forall (fun n => 0 <= n) lens -> 0 <= packets -> 0 <= bytes -> 0 <= consumed ->
  packets + Zlen lens < 2 ^ 64 -> bytes + sum lens < 2 ^ 64 -> consumed + sum lens < 2 ^ 64 ->
  let '(rs, fin) := count_run threshold quota lens packets bytes consumed in
  fin = (packets + Zlen lens, bytes + sum lens, consumed + sum lens)
  /\ signals URR_QUOTA_EXHAUSTED rs = Nat.b2n (crosses quota consumed (consumed + sum lens))
  /\ signals URR_THRESHOLD_REACHED rs = Nat.b2n (crosses threshold bytes (bytes + sum lens)).
Proof. apply count_run_spec. Qed.

Lemma crossing_signalled_once_witness :
  let '(rs, fin) := count_run 3000 4000 [1500; 1500; 1500] 0 0 0 in
  fin = (3, 4500, 4500) /\ signals URR_QUOTA_EXHAUSTED rs = 1%nat
  /\ signals URR_THRESHOLD_REACHED rs = 1%nat.
Proof.
  apply (crossing_signalled_once 3000 4000 [1500; 1500; 1500] 0 0 0);
    try (repeat constructor; discriminate); by vm_compute.
Defined.

(** A threshold hit exactly is never reported: the packet that brings the
    bytes to the threshold raises URR_THRESHOLD_REACHED (the comparison is
    >=), but the check that builds the report asks for more than the threshold
    and finds nothing, and no later packet raises the flag again. *)
Theorem threshold_hit_exactly_unreported packets bytes consumed threshold n lens :
  0 < n -> 0 <= bytes -> bytes + n = threshold -> 0 <= packets -> 0 <= consumed ->
  Forall (fun n => 0 <= n) lens -> packets + 1 + Zlen lens < 2 ^ 64 ->
  threshold + sum lens < 2 ^ 64 -> consumed + n + sum lens < 2 ^ 64 ->
  exists r p b c,
  urr_increment_and_check_counter packets bytes consumed threshold 0 n = (r, p, b, c) /\
  flag r URR_THRESHOLD_REACHED = true /\ urr_check_counter b c threshold 0 = 0 /\
  signals URR_THRESHOLD_REACHED (fst (count_run threshold 0 lens p b c)) = 0%nat.
Proof.
  intros Hn Hb Ht Hp Hc Hl Hp' Hb' Hc'. pose proof (sum_nonneg _ Hl). pose proof (Zlen_nonneg lens).
  destruct (increment_spec packets bytes consumed threshold 0 n) as (r & -> & _ & Hr);
    [apply in_range_spec; lia..|].
  exists r, (packets + 1), (bytes + n), (consumed + n). split; [done|].
  assert (crosses threshold bytes (bytes + n) = true) as Hx.
  { unfold crosses. destruct (Z.eqb_spec threshold 0), (Z.ltb_spec bytes threshold),
      (Z.leb_spec threshold (bytes + n)); (done || lia). }
  split; [congruence|]. split.
  { unfold urr_check_counter. rewrite Ht, Z.ltb_irrefl. simpl. by rewrite andb_false_r. }
  pose proof (count_run_spec threshold 0 lens (packets + 1) (bytes + n) (consumed + n) Hl) as Hrun.
  destruct (count_run _ _ _ _ _ _) as [rs fin]. destruct Hrun as (_ & _ & Hs); [lia..|]. simpl fst. rewrite Hs.
  unfold crosses. destruct (Z.ltb_spec (bytes + n) threshold); [lia|]. by rewrite andb_false_r.
Qed.

Lemma threshold_hit_exactly_unreported_witness :
  exists r p b c,
  urr_increment_and_check_counter 9 9000 9000 10000 0 1000 = (r, p, b, c) /\
  flag r URR_THRESHOLD_REACHED = true /\ urr_check_counter b c 10000 0 = 0 /\
  signals URR_THRESHOLD_REACHED (fst (count_run 10000 0 [1000; 500] p b c)) = 0%nat.
Proof.
  apply threshold_hit_exactly_unreported; try (repeat constructor; discriminate); by vm_compute.
Defined.

(** ** Every packet is counted *)

(** the bytes a rule has counted and not yet reported: those set aside at the
    monitoring time, if it has passed, and those since *)
Definition accounted (d : dir) (u : upf_urr_t) : Z :=
  (if flag (urr_status u) URR_AFTER_MONITORING_TIME
   then get_dir d (um_bytes (uu_volume (urr_usage_before_monitoring_time u))) else 0)
  + get_dir d (um_bytes (uv_measure (urr_volume u))).

(** what a packet adds to a rule *)
Definition contribution (d : dir) (is_dl is_ul : bool) (p : packet) (u : upf_urr_t) : Z :=
  if flag (urr_methods u) PFCP_URR_VOLUME
     && match d with D_ul => is_ul | D_dl => is_dl | D_total => true end
  then pk_len p else 0.

Lemma get_set_dir d e x c :
  get_dir d (set_dir e x c)
  = if match d, e with D_ul, D_ul | D_dl, D_dl | D_total, D_total => true | _, _ => false end
    then x else get_dir d c.
Proof. by destruct d, e. Qed.

Lemma incr_bytes v d e len :
  get_dir d (um_bytes (uv_measure (snd (urr_incr_and_check v e len))))
  = if match d, e with D_ul, D_ul | D_dl, D_dl | D_total, D_total => true | _, _ => false end
    then wrap 64 (get_dir d (um_bytes (uv_measure v)) + len)
    else get_dir d (um_bytes (uv_measure v)).
Proof. unfold urr_incr_and_check. simpl. rewrite get_set_dir. by destruct d, e. Qed.

(** the members a packet leaves alone *)
Definition same_rule (u u' : upf_urr_t) : Prop :=
  urr_id u' = urr_id u /\ urr_methods u' = urr_methods u /\ urr_triggers u' = urr_triggers u.

Lemma flag_lor_l a b m : flag a m = true -> flag (Z.lor a b) m = true.
Proof.
  unfold flag. rewrite !negb_true_iff, !Z.eqb_neq. intros Ha. rewrite Z.land_lor_distr_l.
  intros [H _]%Z.lor_eq_0_iff. done.
Qed.

Lemma flag_lor_bit a i j : 0 <= i -> 0 <= j -> i <> j -> flag (Z.lor a (BIT i)) (BIT j) = flag a (BIT j).
Proof.
  intros Hi Hj Hij. rewrite !flag_BIT by done. rewrite Z.lor_spec.
  unfold BIT. rewrite Z.shiftl_1_l, Z.pow2_bits_false by done. apply orb_false_r.
Qed.

Lemma flag_lor_same a i : 0 <= i -> flag (Z.lor a (BIT i)) (BIT i) = true.
Proof.
  intros Hi. rewrite flag_BIT by done. rewrite Z.lor_spec.
  unfold BIT. rewrite Z.shiftl_1_l, Z.pow2_bits_true by done. apply orb_true_r.
Qed.

Lemma count_volume_spec is_dl is_ul len u :
  let u' := snd (urr_count_volume is_dl is_ul len u) in
  same_rule u u'
  /\ urr_usage_before_monitoring_time u' = urr_usage_before_monitoring_time u
  /\ flag (urr_status u') URR_AFTER_MONITORING_TIME = flag (urr_status u) URR_AFTER_MONITORING_TIME
  /\ (flag (urr_status u) URR_OVER_QUOTA = true -> flag (urr_status u') URR_OVER_QUOTA = true)
  /\ forall d, get_dir d (um_bytes (uv_measure (urr_volume u')))
     = let b := get_dir d (um_bytes (uv_measure (urr_volume u))) in
       if match d with D_ul => is_ul | D_dl => is_dl | D_total => true end
       then wrap 64 (b + len) else b.
Proof.
  unfold urr_count_volume.
  destruct (if is_ul then _ else _) as [r1 v1] eqn:E1.
  destruct (if is_dl then _ else _) as [r2 v2] eqn:E2.
  pose proof (incr_bytes v2) as Hb3. destruct (urr_incr_and_check v2 D_total len) as [r3 v3] eqn:E3.
  simpl. assert (forall d, get_dir d (um_bytes (uv_measure v3))
    = let b := get_dir d (um_bytes (uv_measure (urr_volume u))) in
      if match d with D_ul => is_ul | D_dl => is_dl | D_total => true end
      then wrap 64 (b + len) else b) as Hv.
  { intros d. specialize (Hb3 d D_total len). rewrite E3 in Hb3. simpl in Hb3. rewrite Hb3.
    pose proof (incr_bytes (urr_volume u) d D_ul len) as H1.
    pose proof (incr_bytes v1 d D_dl len) as H2.
    destruct is_ul, is_dl; (try rewrite E1 in H1); (try rewrite E2 in H2); simplify_eq;
      simpl in *; destruct d; simpl in *; congruence. }
  destruct (flag (Z.lor (Z.lor r1 r2) r3) URR_QUOTA_EXHAUSTED); simpl;
    (split; [done|]); (split; [done|]); (split; [|split; [|done]]); try done.
  - by apply (flag_lor_bit _ 0 1).
  - intros _. by apply (flag_lor_same _ 0).
Qed.

Section Accounting.
Context {P : VppPool}.

Lemma start_of_traffic_spec now p is_dl is_ul u st u' st' :
  urr_start_of_traffic now p is_dl is_ul u st = Ok (u', st') ->
  same_rule u u' /\ urr_status u' = urr_status u /\ urr_volume u' = urr_volume u
  /\ urr_usage_before_monitoring_time u' = urr_usage_before_monitoring_time u
  /\ ul_next st' = ul_next st
  /\ (flag (ul_status st) URR_DROP_SESSION = true -> flag (ul_status st') URR_DROP_SESSION = true).
Proof.
  unfold urr_start_of_traffic. destruct (_ && _ && _); [done|].
  destruct (urr_traffic_by_ue u ≫= _) as [i|].
  - destruct (pool_elt _ _) as [t|]; [|done]. destruct (f64_ltb _ _); intros [= <- <-];
      repeat split; simpl; auto using flag_lor_l.
  - destruct (pool_get _ _) as [i tr]. intros [= <- <-]. repeat split; simpl; auto using flag_lor_l.
Qed.

(** what the loop body does to a rule it counts *)
Definition counted (is_dl is_ul : bool) (p : packet) (u u' : upf_urr_t) : Prop :=
  same_rule u u'
  /\ (flag (urr_status u) URR_OVER_QUOTA = true -> flag (urr_status u') URR_OVER_QUOTA = true)
  /\ forall d, wrap 64 (accounted d u') = wrap 64 (accounted d u + contribution d is_dl is_ul p u).

Definition loop_grows (st st' : urr_loop) : Prop :=
  (flag (ul_status st) URR_DROP_SESSION = true -> flag (ul_status st') URR_DROP_SESSION = true)
  /\ (ul_next st = UPF_FORWARD_NEXT_DROP -> ul_next st' = UPF_FORWARD_NEXT_DROP).

Lemma count_volume_counted is_dl is_ul p u :
  flag (urr_methods u) PFCP_URR_VOLUME = true ->
  counted is_dl is_ul p u (snd (urr_count_volume is_dl is_ul (pk_len p) u)).
Proof.
  intros Hm. destruct (count_volume_spec is_dl is_ul (pk_len p) u) as (Hs & Hb & Ha & Ho & Hv).
  split; [done|]. split; [done|]. intros d. unfold accounted, contribution.
  rewrite Ha, Hb, Hv, Hm. cbv zeta. simpl andb.
  destruct (match d with D_ul => is_ul | D_dl => is_dl | D_total => true end).
  - unfold wrap. rewrite Zplus_mod_idemp_r. f_equal. lia.
  - by rewrite Z.add_0_r.
Qed.

Lemma counted_id is_dl is_ul p u u' :
  flag (urr_methods u) PFCP_URR_VOLUME = false -> same_rule u u' ->
  urr_status u' = urr_status u -> urr_volume u' = urr_volume u ->
  urr_usage_before_monitoring_time u' = urr_usage_before_monitoring_time u ->
  counted is_dl is_ul p u u'.
Proof.
  intros Hm Hs Hst Hv Hb. split; [done|]. split; [by rewrite Hst|].
  intros d. unfold accounted, contribution. by rewrite Hst, Hv, Hb, Hm, Z.add_0_r.
Qed.

(** changes that keep the counters *)
Lemma counted_keep is_dl is_ul p u v w :
  counted is_dl is_ul p u v -> same_rule v w -> urr_status w = urr_status v ->
  urr_volume w = urr_volume v ->
  urr_usage_before_monitoring_time w = urr_usage_before_monitoring_time v ->
  counted is_dl is_ul p u w.
Proof.
  intros ((H1 & H2 & H3) & Ho & Ha) (K1 & K2 & K3) Hst Hv Hb.
  split; [unfold same_rule; repeat split; congruence|]. split; [by rewrite Hst|].
  intros d. rewrite <- (Ha d). unfold accounted. by rewrite Hst, Hv, Hb.
Qed.

Lemma urr_count_spec now p is_dl is_ul u st u' st' :
  urr_count now p is_dl is_ul u st = Ok (u', st') ->
  counted is_dl is_ul p u u' /\ loop_grows st st'
  /\ (flag (urr_status u') URR_OVER_QUOTA = true -> ul_next st' = UPF_FORWARD_NEXT_DROP).
Proof.
  unfold urr_count. cbv zeta.
  set (u0 := urr_set_times u (urr_start_time u) _ now).
  change (urr_methods u) with (urr_methods u0) in *.
  destruct (if flag (urr_methods u0) PFCP_URR_VOLUME then _ else _) as [r u1] eqn:E1.
  assert (counted is_dl is_ul p u u1) as Hc.
  { destruct (flag (urr_methods u0) PFCP_URR_VOLUME) eqn:Em.
    - replace u1 with (snd (urr_count_volume is_dl is_ul (pk_len p) u0)) by (by rewrite E1).
      pose proof (count_volume_counted is_dl is_ul p u0 Em) as H. exact H.
    - injection E1 as <- <-. by apply counted_id. }
  destruct (if _ && _ then _ else _) as [[u2 st2]|c|f] eqn:E2; [|done..]. cbn [obind].
  intros [= <- <-].
  assert (same_rule u1 u2 /\ urr_status u2 = urr_status u1 /\ urr_volume u2 = urr_volume u1
    /\ urr_usage_before_monitoring_time u2 = urr_usage_before_monitoring_time u1
    /\ ul_next st2 = ul_next st
    /\ (flag (ul_status st) URR_DROP_SESSION = true -> flag (ul_status st2) URR_DROP_SESSION = true))
    as (H1 & H2 & H3 & H4 & H5 & H6).
  { destruct (_ && _); [by apply start_of_traffic_spec in E2|]. injection E2 as <- <-.
    by repeat split. }
  split; [by apply (counted_keep is_dl is_ul p u u1 u2)|]. simpl. split.
  - split; simpl; [auto using flag_lor_l|]. intros Hn. by destruct (flag (urr_status u2) URR_OVER_QUOTA); [|congruence].
  - by intros ->.
Qed.

Lemma split_accounted now d u :
  flag (urr_status u) URR_AFTER_MONITORING_TIME = false ->
  accounted d (urr_split_monitoring_time now u) = accounted d u.
Proof.
  intros Ha. unfold accounted. rewrite Ha. unfold urr_split_monitoring_time. simpl.
  rewrite (flag_lor_same _ 1) by done. destruct d; simpl; lia.
Qed.

Lemma process_urr_spec now p is_dl is_ul u st u' st' break :
  process_urr now p is_dl is_ul u st = Ok (u', st', break) ->
  same_rule u u' /\ loop_grows st st'
  /\ if break : bool then flag (ul_status st') URR_DROP_SESSION = true
     else counted is_dl is_ul p u u'
          /\ (flag (urr_status u') URR_OVER_QUOTA = true -> ul_next st' = UPF_FORWARD_NEXT_DROP).
Proof.
  unfold process_urr. destruct (f64_ltb _ _).
  - destruct (flag (urr_status u) URR_AFTER_MONITORING_TIME) eqn:Ea.
    + intros [= <- <- <-]. split; [done|]. split; [split; simpl; auto using flag_lor_l|].
      by apply (flag_lor_same _ 3).
    + destruct (urr_count _ _ _ _ _ _) as [[v st1]|c|f] eqn:E; [|done..]. intros [= <- <- <-].
      apply urr_count_spec in E as (((H1 & H2 & H3) & Ho & Ha) & Hg & Hd).
      split; [done|]. split; [done|]. split; [|done]. split; [done|]. split.
      * intros Hq. apply Ho. simpl. by rewrite (flag_lor_bit _ 1 0).
      * intros d. rewrite Ha, split_accounted by done. done.
  - destruct (urr_count _ _ _ _ _ _) as [[v st1]|c|f] eqn:E; [|done..]. intros [= <- <- <-].
    apply urr_count_spec in E as (Hc & Hg & Hd). split; [apply Hc|]. by split.
Qed.
End Accounting.

Section Loop.
Context {P : VppPool}.

(** how often the PDR names the rule *)
Definition uses (ids : list Z) (u : upf_urr_t) : Z := Zlen (filter (fun i => i = urr_id u) ids).

Lemma uses_cons id ids u :
  uses (id :: ids) u = (if id =? urr_id u then 1 else 0) + uses ids u.
Proof.
  unfold uses. rewrite filter_cons. destruct (decide _) as [->|Hne].
  - by rewrite Z.eqb_refl, Zlen_cons.
  - by apply Z.eqb_neq in Hne as ->.
Qed.

Lemma uses_nonneg ids u : 0 <= uses ids u.
Proof. apply Zlen_nonneg. Qed.

Lemma uses_same ids u u' : urr_id u' = urr_id u -> uses ids u' = uses ids u.
Proof. intros E. unfold uses. by rewrite E. Qed.

(** the rules after the loop: in place, with the same ids, and those the PDR
    names counted *)
Definition all_counted (is_dl is_ul : bool) (p : packet) (ids : list Z) (next : Z)
  (urrs urrs' : list upf_urr_t) : Prop :=
  forall i u, urrs !! i = Some u -> exists u', urrs' !! i = Some u' /\ same_rule u u'
  /\ (uses ids u = 0 -> u' = u)
  /\ (flag (urr_status u) URR_OVER_QUOTA = true -> flag (urr_status u') URR_OVER_QUOTA = true)
  /\ (0 < uses ids u -> flag (urr_status u') URR_OVER_QUOTA = true ->
      next = UPF_FORWARD_NEXT_DROP)
  /\ forall d, wrap 64 (accounted d u')
       = wrap 64 (accounted d u + uses ids u * contribution d is_dl is_ul p u).

Lemma contribution_same d is_dl is_ul p u u' :
  same_rule u u' -> contribution d is_dl is_ul p u' = contribution d is_dl is_ul p u.
Proof. intros (_ & H & _). unfold contribution. by rewrite H. Qed.

Lemma same_rule_trans u v w : same_rule u v -> same_rule v w -> same_rule u w.
Proof. unfold same_rule. intuition congruence. Qed.

Lemma process_urr_ids_grows now p is_dl is_ul ids urrs st urrs' st' :
  process_urr_ids now p is_dl is_ul ids urrs st = Ok (urrs', st') -> loop_grows st st'.
Proof.
  revert urrs st. induction ids as [|id ids IH]; intros urrs st; simpl.
  { intros [= <- <-]. by split. }
  destruct (_ ≫= _) as [[i u]|]; [|apply IH].
  destruct (process_urr _ _ _ _ _ _) as [[[u1 st1] break]|c|f] eqn:E; [|done..]. cbn [obind].
  apply process_urr_spec in E as (_ & [Hg1 Hg2] & _).
  destruct break; [intros [= <- <-]; by split|]. intros [Hg3 Hg4]%IH. split; auto.
Qed.

Lemma find_urr urrs id i u :
  sorted_by_id urr_id urrs ->
  (pfcp_get_urr_by_id urrs id ≫= fun i => (i,.) <$> urrs !! i) = Some (i, u)
  <-> urrs !! i = Some u /\ urr_id u = id.
Proof.
  intros Hs. pose proof (bsearch_by_id urr_id urrs id) as H. unfold pfcp_get_urr_by_id.
  split.
  - intros (j & Hj & Hu)%bind_Some. apply H in Hj as (x & Hx & E); [|done].
    rewrite Hx in Hu. injection Hu as <- <-. done.
  - intros (Hu & E). apply bind_Some. exists i. split; [apply H; eauto|]. by rewrite Hu.
Qed.

Lemma sorted_update urrs i u u' :
  urrs !! i = Some u -> urr_id u' = urr_id u -> sorted_by_id urr_id urrs ->
  sorted_by_id urr_id (<[i := u']> urrs).
Proof.
  intros Hu E Hs. unfold sorted_by_id. rewrite list_fmap_insert, E.
  rewrite list_insert_id; [done|]. by rewrite list_lookup_fmap, Hu.
Qed.

Lemma process_urr_ids_spec now p is_dl is_ul ids urrs st urrs' st' :
  sorted_by_id urr_id urrs ->
  process_urr_ids now p is_dl is_ul ids urrs st = Ok (urrs', st') ->
  flag (ul_status st') URR_DROP_SESSION = false ->
  length urrs' = length urrs /\ all_counted is_dl is_ul p ids (ul_next st') urrs urrs'.
Proof.
  revert urrs st. induction ids as [|id ids IH]; intros urrs st Hs; cbn [process_urr_ids].
  { intros [= <- <-] _. split; [done|]. intros i u Hu. exists u. split; [done|].
    change (uses [] u) with 0. repeat split; auto; [lia|]. intros d. f_equal. lia. }
  destruct (_ ≫= _) as [[i u]|] eqn:Ef.
  - apply find_urr in Ef as (Hi & Hid); [|done].
    destruct (process_urr _ _ _ _ _ _) as [[[u1 st1] break]|c|f] eqn:E; [|done..]. cbn [obind].
    apply process_urr_spec in E as (Hsame & Hg & Hb).
    destruct break.
    { intros [= <- <-] Hnd. congruence. }
    intros Hrun Hnd. pose proof (process_urr_ids_grows _ _ _ _ _ _ _ _ _ Hrun) as [_ Hnext].
    destruct Hb as ((_ & Ho1 & Ha1) & Hd1). pose proof Hsame as (Hid1 & _ & _).
    apply IH in Hrun as [Hlen Hall]; [|by eapply sorted_update|done].
    rewrite length_insert in Hlen. split; [done|]. intros j v Hj.
    rewrite uses_cons. destruct (Nat.eq_dec i j) as [<-|Hij].
    + replace v with u in * by congruence. rewrite (proj2 (Z.eqb_eq id (urr_id u))) by done.
      destruct (Hall i u1) as (u' & Hu' & Hs' & H0' & Ho' & Hd' & Ha').
      { rewrite list_lookup_insert_eq; [done|]. by eapply lookup_lt_Some. }
      exists u'. split; [done|]. split; [by apply (same_rule_trans u u1 u')|].
      pose proof (uses_nonneg ids u). pose proof (uses_nonneg ids u1).
      split; [lia|]. split; [auto|]. split.
      * intros _ Hq. destruct (Z.eq_dec (uses ids u1) 0) as [E0|].
        -- apply Hnext, Hd1. by rewrite <- (H0' E0).
        -- apply Hd'; [lia|done].
      * intros d. rewrite Ha'. unfold wrap in *. rewrite <- Zplus_mod_idemp_l, (Ha1 d).
        rewrite Zplus_mod_idemp_l, (uses_same ids u u1) by done.
        rewrite (contribution_same d _ _ _ u u1) by done. f_equal. ring.
    + assert (id <> urr_id v) as Hne.
      { intros ->. apply Hij. eapply (sorted_by_id_inj urr_id urrs); eauto. }
      rewrite (proj2 (Z.eqb_neq _ _) Hne), Z.add_0_l. apply Hall.
      by rewrite list_lookup_insert_ne.
  - intros Hrun Hnd. apply IH in Hrun as [Hlen Hall]; [|done|done]. split; [done|].
    intros j v Hj. rewrite uses_cons. assert (id <> urr_id v) as Hne.
    { intros ->. pose proof (proj2 (find_urr urrs (urr_id v) j v Hs) (conj Hj eq_refl)). congruence. }
    rewrite (proj2 (Z.eqb_neq _ _) Hne), Z.add_0_l. by apply Hall.
Qed.

(** the table of a rule only holds indices of its pool *)
Definition traffic_ok (u : upf_urr_t) : Prop :=
  forall ip i, urr_traffic_by_ue u ≫= lookup ip = Some i -> is_Some (pool_elt (urr_traffic u) i).

Definition ip_packet (p : packet) : bool :=
  let v := Z.land (ip_version_and_header_length p) 0xF0 in (v =? 0x40) || (v =? 0x60).

Lemma start_of_traffic_total now p is_dl is_ul u st :
  ip_packet p = true -> traffic_ok u ->
  exists u' st', urr_start_of_traffic now p is_dl is_ul u st = Ok (u', st') /\ traffic_ok u'.
Proof.
  intros Hp Hu. unfold urr_start_of_traffic. unfold ip_packet in Hp.
  replace (_ && _ && _) with false
    by (destruct (_ =? 0x40); simpl in *; rewrite ?Hp, ?andb_false_r; done).
  set (ip := if bool_decide _ then _ else _).
  destruct (urr_traffic_by_ue u ≫= lookup ip) as [i|] eqn:E.
  - destruct (Hu ip i E) as [t Ht]. rewrite Ht.
    destruct (f64_ltb _ _); do 2 eexists; (split; [reflexivity|]); [|done].
    intros ip' j Hj. simpl in *. specialize (Hu ip' j Hj). unfold pool_elt, pool_set in *. simpl.
    destruct (decide (i = j)) as [->|]; [by rewrite lookup_insert_eq|by rewrite lookup_insert_ne].
  - destruct (pool_get (urr_traffic u) _) as [i tr] eqn:Eg. do 2 eexists. split; [reflexivity|].
    injection Eg as Ei Etr. set (k := pool_pick _ _) in *. subst i tr.
    intros ip' j Hj. simpl in *. unfold pool_elt. simpl.
    destruct (decide (k = j)) as [->|]; [by rewrite lookup_insert_eq|].
    rewrite lookup_insert_ne by done. apply (Hu ip').
    destruct (decide (ip = ip')) as [->|]; [rewrite lookup_insert_eq in Hj; congruence|].
    rewrite lookup_insert_ne in Hj by done. by destruct (urr_traffic_by_ue u).
Qed.

Lemma count_volume_traffic is_dl is_ul len u :
  let u' := snd (urr_count_volume is_dl is_ul len u) in
  urr_traffic u' = urr_traffic u /\ urr_traffic_by_ue u' = urr_traffic_by_ue u.
Proof.
  unfold urr_count_volume. destruct (if is_ul then _ else _) as [r1 v1].
  destruct (if is_dl then _ else _) as [r2 v2]. destruct (urr_incr_and_check v2 D_total len).
  simpl. by destruct (flag _ _).
Qed.

Lemma urr_count_total now p is_dl is_ul u st :
  ip_packet p = true -> traffic_ok u ->
  exists u' st', urr_count now p is_dl is_ul u st = Ok (u', st') /\ traffic_ok u'.
Proof.
  intros Hp Hu. unfold urr_count. cbv zeta. set (u0 := urr_set_times u _ _ _).
  destruct (if flag (urr_methods u0) PFCP_URR_VOLUME then _ else _) as [r u1] eqn:E1.
  assert (traffic_ok u1) as Hu1.
  { destruct (flag (urr_methods u0) PFCP_URR_VOLUME); [|by injection E1 as <- <-].
    pose proof (count_volume_traffic is_dl is_ul (pk_len p) u0) as H. rewrite E1 in H.
    simpl in H. destruct H as [H1 H2]. unfold traffic_ok. by rewrite H1, H2. }
  destruct (_ && _).
  - destruct (start_of_traffic_total now p is_dl is_ul u1 st Hp Hu1) as (u' & st' & -> & Hu').
    cbn [obind]. by do 2 eexists.
  - cbn [obind]. by do 2 eexists.
Qed.

Lemma process_urr_total now p is_dl is_ul u st :
  ip_packet p = true -> traffic_ok u ->
  exists u' st' b, process_urr now p is_dl is_ul u st = Ok (u', st', b) /\ traffic_ok u'.
Proof.
  intros Hp Hu. unfold process_urr. destruct (f64_ltb _ _); [destruct (flag _ _)|].
  - by do 3 eexists.
  - destruct (urr_count_total now p is_dl is_ul (urr_split_monitoring_time now u) st Hp)
      as (u' & st' & -> & Hu'); [done|]. by do 3 eexists.
  - destruct (urr_count_total now p is_dl is_ul u st Hp Hu) as (u' & st' & -> & Hu').
    by do 3 eexists.
Qed.

Lemma process_urr_ids_total now p is_dl is_ul ids urrs st :
  ip_packet p = true -> Forall traffic_ok urrs ->
  exists urrs' st', process_urr_ids now p is_dl is_ul ids urrs st = Ok (urrs', st')
                    /\ Forall traffic_ok urrs'.
Proof.
  intros Hp. revert urrs st. induction ids as [|id ids IH]; intros urrs st Hu; cbn [process_urr_ids];
    [by do 2 eexists|].
  destruct (_ ≫= _) as [[i u]|] eqn:Ef; [|by apply IH].
  apply bind_Some in Ef as (j & _ & Hj). destruct (urrs !! j) as [u1|] eqn:Eu; [|done].
  injection Hj as -> ->. pose proof (proj1 (Forall_lookup _ _) Hu _ _ Eu) as Hok.
  destruct (process_urr_total now p is_dl is_ul u st Hp Hok) as (u' & st' & b & -> & Hu').
  cbn [obind]. assert (Forall traffic_ok (<[i := u']> urrs)) by (by apply Forall_insert).
  destruct b; [by do 2 eexists|by apply IH].
Qed.

End Loop.

(** the session is to be dropped: a second monitoring time has passed *)
Definition session_dropped (ev : option urr_report_event) : bool :=
  match ev with Some e => flag (re_status e) URR_DROP_SESSION | None => false end.

(** C18. Every packet is counted: on an IPv4 or IPv6 packet process_urrs returns,
    and unless the session has to be dropped, each rule the PDR names has the
    length of the packet added, in the direction and in total, once per time it
    is named (usage set aside at the monitoring time included, modulo 2^64),
    every other rule is untouched, a rule over its quota stays over its quota,
    and if the PDR names a rule that is over its quota the packet is dropped. *)
Theorem process_urrs_counts {P : VppPool} now idx sess active pdr b is_dl is_ul next :
  ip_packet b = true -> sorted_by_id urr_id (vec_elts (r_urr active)) ->
  Forall traffic_ok (vec_elts (r_urr active)) ->
  exists sess' active' ev next',
  process_urrs now idx sess active pdr b is_dl is_ul next = Ok (sess', active', ev, next')
  /\ Forall traffic_ok (vec_elts (r_urr active'))
  /\ (session_dropped ev = false ->
      all_counted is_dl is_ul b (vec_elts (pdr_urr_ids pdr)) next'
        (vec_elts (r_urr active)) (vec_elts (r_urr active'))).
Proof.
  intros Hp Hs Ht. unfold process_urrs.
  set (st0 := mk_loop _ _ _ _). set (ids := vec_elts (pdr_urr_ids pdr)).
  destruct (process_urr_ids_total now b is_dl is_ul ids _ st0 Hp Ht) as (urrs' & st' & E & Ht').
  rewrite E. cbn [obind]. do 4 eexists. split; [reflexivity|].
  destruct (r_urr active) as [urrs|] eqn:Eu; simpl in *.
  - split; [done|]. intros Hd.
    apply (process_urr_ids_spec now b is_dl is_ul ids urrs st0 urrs' st' Hs E).
    destruct (Z.eqb_spec (ul_status st') URR_OK) as [->|]; [done|exact Hd].
  - rewrite Eu. split; [done|]. intros Hd i u Hu. by rewrite lookup_nil in Hu.
Qed.

(** a volume rule as Create URR makes it, with a quota of [quota] bytes in total *)
Definition new_volume_urr (id quota : Z) : upf_urr_t :=
  let t := mk_urr_time f64_zero 0 f64_zero u32_none in
  mk_urr id PFCP_URR_VOLUME 0 0 0 0 (f64_of_Z 1000) INFINITY INFINITY
    (mk_volume measure_zero counter_zero (mk_counter 0 0 quota)) t t t t t
    (mk_abs_time f64_zero INFINITY) (mk_usage f64_zero f64_zero f64_zero measure_zero)
    pool_empty None t None None.
Definition pdr_with_urrs (ids : list Z) : upf_pdr_t :=
  {| pdr_id := 1; pdr_precedence := 0;
     pdr_pdi := {| pdi_src_intf := 0; pdi_nwi_index := u32_none; pdi_fields := 0;
       pdi_teid := Build_pfcp_f_teid_t 0 0 ip4_zero ip6_zero 0;
       pdi_ue_addr := Build_pfcp_ue_ip_address_t 0 ip4_zero ip6_zero 0 0; pdi_acl := None;
       pdi_adr := {| adr_application_id := u32_none; adr_db_id := u32_none; adr_flags := 0 |} |};
     pdr_outer_header_removal := 0; pdr_far_id := 0; pdr_urr_ids := Some ids; pdr_qer_ids := None |}.
Definition a_session : upf_session_t :=
  mk_session f64_zero ip6_zero 7 ip6_zero (mk_assoc 0 u32_none u32_none) 0 0 rules_zero rules_zero
    f64_zero 0.

Lemma process_urrs_counts_witness :
  let active := set_r_urr rules_zero (Some [new_volume_urr 1 2000; new_volume_urr 4 0]) in
  let b := mk_packet 1500 [0x45] in
  exists sess' active' ev next',
  @process_urrs pool_lifo (f64_of_Z 1005) 0 a_session active (pdr_with_urrs [4; 9]) b false true 3
  = Ok (sess', active', ev, next')
  /\ Forall traffic_ok (vec_elts (r_urr active'))
  /\ (session_dropped ev = false ->
      all_counted false true b [4; 9] next' (vec_elts (r_urr active)) (vec_elts (r_urr active'))).
Proof.
  apply (@process_urrs_counts pool_lifo).
  - reflexivity.
  - repeat constructor.
  - repeat constructor; intros ip i; discriminate.
Defined.

(** ** What was counted is reported *)

(** the bytes of a list of reports *)
Definition vm_dir (d : dir) (v : pfcp_volume_measurement_t) : Z :=
  match d with D_ul => vm_volume_ul v | D_dl => vm_volume_dl v | D_total => vm_volume_total v end.
Definition reported (d : dir) (rs : list pfcp_usage_report_t) : Z :=
  sum ((fun r => match ur_volume_measurement r with Some v => vm_dir d v | None => 0 end) <$> rs).

Lemma sum_app l k : sum (l ++ k) = sum l + sum k.
Proof. induction l as [|x l IH]; [done|]. change (x + sum (l ++ k) = x + sum l + sum k). lia. Qed.

Lemma reported_app d rs ss : reported d (rs ++ ss) = reported d rs + reported d ss.
Proof. unfold reported. by rewrite fmap_app, sum_app. Qed.

Lemma reported_single d r :
  reported d [r] = match ur_volume_measurement r with Some v => vm_dir d v | None => 0 end.
Proof. unfold reported. simpl. lia. Qed.

Lemma vm_dir_measure d m : vm_dir d (volume_measurement m) = get_dir d (um_bytes m).
Proof. by destruct d. Qed.

Lemma flag_lnot a i : 0 <= i -> flag (Z.land a (Z.lnot (BIT i))) (BIT i) = false.
Proof.
  intros Hi. rewrite flag_BIT, Z.land_spec, Z.lnot_spec by done. unfold BIT.
  rewrite Z.shiftl_1_l, Z.pow2_bits_true by done. apply andb_false_r.
Qed.

Lemma take_volume_spec now u m u' d :
  take_volume now u = (m, u') ->
  urr_id u' = urr_id u /\ urr_seq_no u' = urr_seq_no u
  /\ get_dir d (um_bytes (uv_measure (urr_volume u'))) = 0
  /\ (if flag (urr_status u') URR_AFTER_MONITORING_TIME
      then get_dir d (um_bytes (uu_volume (urr_usage_before_monitoring_time u'))) else 0)
     + get_dir d (um_bytes m) = accounted d u.
Proof.
  unfold take_volume, accounted. destruct (_ && _ && _) eqn:E; intros [= <- <-]; simpl.
  - btest. simpl in H. rewrite (flag_lor_same _ 1), H by done. repeat split; destruct d; simpl; lia.
  - repeat split. by destruct d.
Qed.

Lemma fill_times_volume r t s du now vnow f l ts te :
  let r' := fill_times r t s du now vnow f l ts te in
  ur_volume_measurement r' = ur_volume_measurement r /\ ur_seqn r' = ur_seqn r.
Proof. unfold fill_times. by destruct (traffic_trigger t). Qed.

(** the last report of report_usage_ev and the rule it leaves *)
Lemma report_usage_ev_spec vnow ue u trigger now out u' out' :
  report_usage_ev vnow ue u trigger now out = (u', out') ->
  exists rs, out' = out ++ rs
  /\ (forall d, accounted d u' = 0)
  /\ (flag trigger USAGE_REPORT_TRIGGER_START_OF_TRAFFIC = false ->
      forall d, reported d rs = accounted d u).
Proof.
  unfold report_usage_ev. destruct (take_volume now u) as [m u1] eqn:Et.
  pose proof (fun d => take_volume_spec now u m u1 d Et) as Hv.
  destruct (if flag (urr_status u1) URR_AFTER_MONITORING_TIME then _ else _) as [u2 out2] eqn:E2.
  assert (exists rs, out2 = out ++ rs /\ urr_volume u2 = urr_volume u1
    /\ forall d, reported d rs
       = if flag (urr_status u1) URR_AFTER_MONITORING_TIME
         then get_dir d (um_bytes (uu_volume (urr_usage_before_monitoring_time u1))) else 0)
    as (rs & -> & Hu2 & Hrs).
  { destruct (flag (urr_status u1) URR_AFTER_MONITORING_TIME).
    - injection E2 as <- <-. eexists. split; [reflexivity|]. split; [done|].
      intros d. rewrite reported_single. simpl. by rewrite vm_dir_measure.
    - injection E2 as <- <-. exists []. by rewrite app_nil_r. }
  cbn [init_usage_report]. cbv zeta. intros [= <- <-].
  match goal with |- context [(out ++ rs) ++ [?r]] => exists (rs ++ [r]) end.
  split; [by rewrite app_assoc|]. split.
  - intros d. destruct (Hv d) as (_ & _ & H0 & _). rewrite <- Hu2 in H0.
    destruct (f64_eqb _ _); unfold accounted; simpl; rewrite (flag_lnot _ 1) by done; lia.
  - intros Htr d. destruct (Hv d) as (_ & _ & _ & <-). rewrite reported_app, Hrs, reported_single, Htr.
    simpl. by rewrite vm_dir_measure.
Qed.

(** all that a session has counted and not yet reported *)
Definition unreported (d : dir) (urrs : list upf_urr_t) : Z := sum (accounted d <$> urrs).

(** a report is due on the rule at [i] *)
Definition is_due (idx : Z) (events : list usage_report_ev) (liusa : gset Z) (i : nat) : Prop :=
  exists ev, events !! i = Some ev /\ (rv_triggers ev <> 0 \/ idx + Z.of_nat i ∈ liusa).

Definition no_start_of_traffic (events : list usage_report_ev) : Prop :=
  Forall (fun ev => flag (rv_triggers ev) USAGE_REPORT_TRIGGER_START_OF_TRAFFIC = false) events.

Lemma unreported_cons d u urrs : unreported d (u :: urrs) = accounted d u + unreported d urrs.
Proof. reflexivity. Qed.

Lemma is_due_cons idx ev events liusa i :
  is_due idx (ev :: events) liusa (S i) <-> is_due (idx + 1) events liusa i.
Proof. unfold is_due. simpl. by replace (idx + Z.of_nat (S i)) with (idx + 1 + Z.of_nat i) by lia. Qed.

Lemma report_build_spec vnow ue idx urrs now events liusa out :
  (length events <= length urrs)%nat ->
  exists urrs' out', usage_report_build_from vnow ue idx urrs now events liusa out = Ok (urrs', out')
  /\ length urrs' = length urrs
  /\ (forall i u, urrs !! i = Some u -> exists u', urrs' !! i = Some u'
      /\ (is_due idx events liusa i -> forall d, accounted d u' = 0)
      /\ (~ is_due idx events liusa i -> u' = u))
  /\ (no_start_of_traffic events -> forall d,
      reported d out' + unreported d urrs' = reported d out + unreported d urrs).
Proof.
  revert idx urrs out. induction events as [|ev events IH]; intros idx urrs out Hl.
  { exists urrs, out. repeat split; try done. intros i u Hu. exists u.
    split; [done|]. split; [intros (e & He & _); by rewrite lookup_nil in He|done]. }
  destruct urrs as [|u urrs]; [simpl in Hl; lia|]. cbn [usage_report_build_from tail].
  destruct ((rv_triggers ev =? 0) && negb (bool_decide (idx ∈ liusa))) eqn:E.
  - destruct (IH (idx + 1) urrs out) as (us & out' & -> & Hlen & Hall & Hsum); [simpl in Hl; lia|].
    cbn [obind]. exists (u :: us), out'. split; [done|]. split; [by simpl; f_equal|]. split.
    + intros [|i] v Hv; simpl in Hv.
      * injection Hv as ->. exists v. split; [done|]. split; [|done]. btest.
        intros (e & [= <-] & [?|Hin]); [done|]. by rewrite Z.add_0_r in Hin.
      * setoid_rewrite is_due_cons. by apply Hall.
    + intros Hns d. apply Forall_cons in Hns as [_ Hns]. rewrite !unreported_cons.
      specialize (Hsum Hns d). lia.
  - destruct (if rv_triggers ev =? 0 then _ else _) as [u1 out1] eqn:E1.
    destruct (IH (idx + 1) urrs out1) as (us & out' & -> & Hlen & Hall & Hsum); [simpl in Hl; lia|].
    cbn [obind]. exists (u1 :: us), out'. split; [done|]. split; [by simpl; f_equal|].
    assert (exists rs, out1 = out ++ rs /\ (forall d, accounted d u1 = 0)
      /\ (flag (rv_triggers ev) USAGE_REPORT_TRIGGER_START_OF_TRAFFIC = false ->
          forall d, reported d rs = accounted d u)) as (rs & -> & H0 & Hrs).
    { destruct (Z.eqb_spec (rv_triggers ev) 0) as [E0|]; apply report_usage_ev_spec in E1;
        [|done]. destruct E1 as (rs & -> & H0 & Hrs). exists rs. split; [done|]. split; [done|].
      intros _. by apply Hrs. }
    split.
    + intros [|i] v Hv; simpl in Hv.
      * exists u1. split; [done|]. split; [done|]. intros Hnd. destruct Hnd. exists ev.
        split; [done|]. rewrite Z.add_0_r. apply andb_false_iff in E as [E|E]; btest; [by left|].
        by right.
      * setoid_rewrite is_due_cons. by apply Hall.
    + intros Hns d. apply Forall_cons in Hns as [Hn Hns]. rewrite !unreported_cons.
      specialize (Hsum Hns d). rewrite reported_app, (Hrs Hn d) in Hsum. rewrite (H0 d). lia.
Qed.


(** a rule that has counted [bytes] downlink bytes *)
Definition used_urr (id bytes : Z) : upf_urr_t :=
  urr_set_volume (new_volume_urr id 0)
    (mk_volume (mk_measure (mk_counter 0 1 1) (mk_counter 0 bytes bytes) (mk_counter 0 bytes bytes))
       counter_zero counter_zero).


(** A report triggered by the start of traffic loses the usage: it carries no
    volume, but the counters of the rule are cleared all the same, so the bytes
    counted since the last report are never reported. *)
Theorem start_of_traffic_loses_usage vnow ue u now :
  flag (urr_status u) URR_AFTER_MONITORING_TIME = false ->
  f64_eqb (at_vlib_time (urr_monitoring_time u)) INFINITY = true ->
  exists u' r,
  report_usage_ev vnow ue u USAGE_REPORT_TRIGGER_START_OF_TRAFFIC now [] = (u', [r])
  /\ ur_volume_measurement r = None /\ forall d, accounted d u' = 0.
Proof.
  intros Ha Hm. destruct (report_usage_ev vnow ue u USAGE_REPORT_TRIGGER_START_OF_TRAFFIC now [])
    as [u' out] eqn:E. exists u'.
  pose proof (report_usage_ev_spec _ _ _ _ _ _ _ _ E) as (rs & -> & H0 & _).
  revert E. unfold report_usage_ev, take_volume. simpl. rewrite Ha, Hm. simpl. rewrite Ha.
  intros [= _ <-]. eexists. split; [reflexivity|]. split; [|done]. by destruct ue.
Qed.

Lemma start_of_traffic_loses_usage_witness :
  accounted D_dl (used_urr 3 900) = 900 /\
  exists u' r,
  report_usage_ev (f64_of_Z 50) None (used_urr 3 900) USAGE_REPORT_TRIGGER_START_OF_TRAFFIC
    (f64_of_Z 1010) [] = (u', [r])
  /\ ur_volume_measurement r = None /\ forall d, accounted d u' = 0.
Proof. split; [reflexivity|]. apply start_of_traffic_loses_usage; reflexivity. Defined.
