(* ===== verification/UpfRules.v ===== *)
(** * Rule vectors of a session

    A session has two sets of rules, the active one and the pending one that a
    request prepares. This file models the copy of the active rules into the
    pending set (pfcp_make_pending_x), the functions the macro
    pfcp_rule_vector_fns generates for PDRs, FARs, URRs and QERs, and the
    release of rules with the reference counts it touches, all of
    src/upf/upf_pfcp.c. The macro becomes a class with four instances. *)

From Stdlib Require Import ZArith Lia Sorting.Sorted.
From stdpp Require Import base list list_numbers option numbers decidable gmap.
From S2P Require Import Prelude PfcpIo PfcpIe UpfTypes UpfVec UpfUrr.

(** ** Global state the rules refer to *)

(** an upf_qer_policer_t: the configured rates and the references *)
Record upf_qer_policer_t := mk_policer { qp_cir_ul : Z; qp_cir_dl : Z; qp_ref_cnt : Z }.

(** of upf_main_t and the application database: the policers, their table, and
    the reference counts of the application database entries *)
Record rule_main := mk_main {
  gm_qer_policers : pool upf_qer_policer_t; gm_qer_by_id : gmap Z Z; gm_adf_ref_cnt : gmap Z Z }.

Definition upf_adf_put_adr_db (gm : rule_main) (db_index : Z) : outcome rule_main :=
  if db_index =? u32_none then Ok gm
  else
    match gm_adf_ref_cnt gm !! db_index with
    | None => Fault BadIndex
    | Some n => Ok (mk_main (gm_qer_policers gm) (gm_qer_by_id gm)
                      (<[db_index := wrap 32 (n - 1)]> (gm_adf_ref_cnt gm)))
    end.

(** ~0 as the u64 value or key of a policer *)
Definition u64_none : Z := 2 ^ 64 - 1.

Section Policer.
Context {P : VppPool}.

Definition set_policer (q : upf_qer_t) (p : bihash_kv) : upf_qer_t :=
  mk_qer (qer_id q) (qer_flags q) (qer_gate_status_ul q) (qer_gate_status_dl q) (qer_mbr q) p.

(** the rule with the index of its new policer, and the global state *)
Definition init_qer_policer (gm : rule_main) (q : upf_qer_t) : upf_qer_t * rule_main :=
  let '(i, pols) := pool_get (gm_qer_policers gm)
                      (mk_policer (br_ul (qer_mbr q)) (br_dl (qer_mbr q)) 0) in
  (set_policer q (mk_kv (kv_key (qer_policer q)) i),
   mk_main pols (<[kv_key (qer_policer q) := i]> (gm_qer_by_id gm)) (gm_adf_ref_cnt gm)).

Definition policer_add (gm : rule_main) (i n : Z) : outcome (Z * rule_main) :=
  match pool_elt (gm_qer_policers gm) i with
  | None => Fault BadIndex
  | Some p =>
      let r := wrap 64 (qp_ref_cnt p + n) in
      Ok (r, mk_main (pool_set (gm_qer_policers gm) i (mk_policer (qp_cir_ul p) (qp_cir_dl p) r))
               (gm_qer_by_id gm) (gm_adf_ref_cnt gm))
  end.

Definition attach_qer_policer (gm : rule_main) (q : upf_qer_t) : outcome (upf_qer_t * rule_main) :=
  if (kv_key (qer_policer q) =? u64_none) || negb (flag (qer_flags q) PFCP_QER_MBR) then Ok (q, gm)
  else
    let '(q, gm) :=
      match gm_qer_by_id gm !! kv_key (qer_policer q) with
      | None => init_qer_policer gm q
      | Some i => (set_policer q (mk_kv (kv_key (qer_policer q)) i), gm)
      end in
    obind (policer_add gm (kv_value (qer_policer q)) 1) (fun '(_, gm) => Ok (q, gm)).

Definition detach_qer_policer (gm : rule_main) (q : upf_qer_t) : outcome rule_main :=
  if kv_value (qer_policer q) =? u64_none then Ok gm
  else
    obind (policer_add gm (kv_value (qer_policer q)) (-1)) (fun '(r, gm) =>
    if r =? 0 then
      Ok (mk_main (pool_put (gm_qer_policers gm) (kv_value (qer_policer q)))
            (delete (kv_key (qer_policer q)) (gm_qer_by_id gm)) (gm_adf_ref_cnt gm))
    else Ok gm).
End Policer.

(** ** Releasing a rule; the vectors it owns are memory only *)

Definition pfcp_free_pdr (gm : rule_main) (p : upf_pdr_t) : outcome rule_main :=
  upf_adf_put_adr_db gm (adr_db_id (pdi_adr (pdr_pdi p))).
Definition pfcp_free_far (gm : rule_main) (_ : upf_far_t) : outcome rule_main := Ok gm.
Definition pfcp_free_urr (gm : rule_main) (_ : upf_urr_t) : outcome rule_main := Ok gm.
Definition pfcp_free_qer (gm : rule_main) (q : upf_qer_t) : outcome rule_main :=
  detach_qer_policer gm q.

(** ** The two sets of rules *)

Definition pfcp_get_rules (sx : upf_session_t) (r : Z) : rules :=
  if Z.lxor (sx_active sx) r =? 0 then sx_rules0 sx else sx_rules1 sx.
Definition set_rules (sx : upf_session_t) (r : Z) (x : rules) : upf_session_t :=
  let z := Z.lxor (sx_active sx) r =? 0 in
  mk_session (sx_last_ul_traffic sx) (sx_up_address sx) (sx_cp_seid sx) (sx_cp_address sx)
    (sx_assoc_ sx) (sx_flags sx) (sx_active sx) (if z then x else sx_rules0 sx)
    (if z then sx_rules1 sx else x) (sx_unix_time_start sx) (sx_generation sx).

Definition set_r_pdr (r : rules) (x : vec upf_pdr_t) : rules :=
  mk_rules x (r_far r) (r_urr r) (r_qer r) (r_flags r) (r_proxy_precedence r)
    (r_proxy_pdr_idx r) (r_v4_acls r) (r_v6_acls r) (r_ue_src_ip r) (r_ue_dst_ip r)
    (r_v4_teid r) (r_v6_teid r) (r_send_end_marker r) (r_inactivity_timer r).
Definition set_r_far (r : rules) (x : vec upf_far_t) : rules :=
  mk_rules (r_pdr r) x (r_urr r) (r_qer r) (r_flags r) (r_proxy_precedence r)
    (r_proxy_pdr_idx r) (r_v4_acls r) (r_v6_acls r) (r_ue_src_ip r) (r_ue_dst_ip r)
    (r_v4_teid r) (r_v6_teid r) (r_send_end_marker r) (r_inactivity_timer r).
Definition set_r_qer (r : rules) (x : vec upf_qer_t) : rules :=
  mk_rules (r_pdr r) (r_far r) (r_urr r) x (r_flags r) (r_proxy_precedence r)
    (r_proxy_pdr_idx r) (r_v4_acls r) (r_v6_acls r) (r_ue_src_ip r) (r_ue_dst_ip r)
    (r_v4_teid r) (r_v6_teid r) (r_send_end_marker r) (r_inactivity_timer r).

(** ** What pfcp_make_pending_x changes in a copied rule *)

(** its vectors are duplicated *)
Definition pending_pdr (p : upf_pdr_t) : upf_pdr_t := p.

Definition redirect_zero : pfcp_redirect_information_t :=
  {| ri_type := 0; ri_ip := ip6_zero; ri_other_ip := ip6_zero; ri_uri := None |}.
Definition set_forward (f : upf_far_forward_t) (ri : pfcp_redirect_information_t) (rw : vec Z)
  : upf_far_forward_t :=
  {| ff_flags := ff_flags f; ff_dst_intf := ff_dst_intf f;
     ff_dst_sw_if_index := ff_dst_sw_if_index f; ff_nwi_index := ff_nwi_index f;
     ff_redirect_information := ri; ff_outer_header_creation := ff_outer_header_creation f;
     ff_peer_idx := ff_peer_idx f; ff_rewrite := rw |}.
Definition pending_far (a : upf_far_t) : upf_far_t :=
  let f := far_forward a in
  let new :=
    if negb (flag (far_apply_action a) FAR_FORWARD) then set_forward f redirect_zero None
    else set_forward f (if flag (ff_flags f) FAR_F_REDIRECT_INFORMATION
                        then ff_redirect_information f else redirect_zero) (ff_rewrite f) in
  {| far_id := far_id a; far_apply_action := far_apply_action a; far_forward := new |}.

Definition pending_urr (u : upf_urr_t) : upf_urr_t :=
  mk_urr (urr_id u) (urr_methods u) (urr_triggers u) (urr_status u) 0 (urr_seq_no u)
    (urr_start_time u) (urr_time_of_first_packet u) (urr_time_of_last_packet u)
    (mk_volume measure_zero (uv_threshold (urr_volume u)) (uv_quota (urr_volume u)))
    (urr_measurement_period u) (urr_time_threshold u) (urr_time_quota u)
    (urr_quota_holding_time u) (urr_quota_validity_time u) (urr_monitoring_time u)
    (urr_usage_before_monitoring_time u) pool_empty None (urr_traffic_timer u)
    (urr_linked_urr_ids u) None.

Definition pending_qer (q : upf_qer_t) : upf_qer_t :=
  set_policer q (mk_kv (kv_key (qer_policer q)) u64_none).

(** ** The functions of pfcp_rule_vector_fns *)

Class RuleKind (T : Type) := {
  rule_id : T -> Z;
  rule_id_width : Z;
  rules_get : rules -> vec T;
  rules_set : rules -> vec T -> rules;
  rule_pending : T -> T;
  rule_free : rule_main -> T -> outcome rule_main
}.

(** what the vector functions rely on *)
Class RuleKindOk (T : Type) `{R : RuleKind T} := {
  rules_get_set r v : rules_get (rules_set r v) = v;
  rule_pending_id t : rule_id (rule_pending t) = rule_id t
}.

#[export] Instance pdr_kind : RuleKind upf_pdr_t := {|
  rule_id := pdr_id; rule_id_width := 32; rules_get := r_pdr; rules_set := set_r_pdr;
  rule_pending := pending_pdr; rule_free := pfcp_free_pdr |}.
#[export] Instance far_kind : RuleKind upf_far_t := {|
  rule_id := far_id; rule_id_width := 16; rules_get := r_far; rules_set := set_r_far;
  rule_pending := pending_far; rule_free := pfcp_free_far |}.
#[export] Instance urr_kind : RuleKind upf_urr_t := {|
  rule_id := urr_id; rule_id_width := 16; rules_get := r_urr; rules_set := set_r_urr;
  rule_pending := pending_urr; rule_free := pfcp_free_urr |}.
#[export] Instance qer_kind : RuleKind upf_qer_t := {|
  rule_id := qer_id; rule_id_width := 32; rules_get := r_qer; rules_set := set_r_qer;
  rule_pending := pending_qer; rule_free := pfcp_free_qer |}.

#[export] Instance pdr_kind_ok : RuleKindOk upf_pdr_t. Proof. by split. Qed.
#[export] Instance far_kind_ok : RuleKindOk upf_far_t. Proof. by split. Qed.
#[export] Instance urr_kind_ok : RuleKindOk upf_urr_t. Proof. by split. Qed.
#[export] Instance qer_kind_ok : RuleKindOk upf_qer_t. Proof. by split. Qed.

Section RuleFns.
Context {T : Type} `{R : RuleKind T}.

(** pfcp_make_pending_x, which always returns 0 *)
Definition pfcp_make_pending (sx : upf_session_t) : upf_session_t :=
  let pending := pfcp_get_rules sx PFCP_PENDING in
  let active := pfcp_get_rules sx PFCP_ACTIVE in
  match rules_get pending, rules_get active with
  | None, Some v => set_rules sx PFCP_PENDING (rules_set pending (Some (rule_pending <$> v)))
  | _, _ => sx
  end.

(** pfcp_x_id_compare of the rule { .id = id } and another *)
Definition rule_id_compare (id : Z) (t : T) : Z := intcmp (wrap rule_id_width id) (rule_id t).

(** pfcp_get_x_by_id: the index of the rule *)
Definition pfcp_get_by_id (r : rules) (id : Z) : option nat :=
  vec_bsearch (rule_id_compare id) (vec_elts (rules_get r)).

(** pfcp_get_x *)
Definition pfcp_get (sx : upf_session_t) (rule id : Z) : upf_session_t * option nat :=
  let sx := if rule =? PFCP_PENDING then pfcp_make_pending sx else sx in
  (sx, pfcp_get_by_id (pfcp_get_rules sx rule) id).

(** pfcp_sort_xs *)
Definition pfcp_sort `{VecSort} (r : rules) : rules :=
  rules_set r (option_map (vec_sort_with_function (fun a b : T => intcmp (rule_id a) (rule_id b)))
                 (rules_get r)).

(** pfcp_delete_x: 0, or -1 with the session that was prepared *)
Definition pfcp_delete (gm : rule_main) (sx : upf_session_t) (id : Z)
  : outcome (Z * upf_session_t * rule_main) :=
  let sx := pfcp_make_pending sx in
  let pending := pfcp_get_rules sx PFCP_PENDING in
  match pfcp_get_by_id pending id with
  | None => Ok (-1, sx, gm)
  | Some i =>
      match vec_elts (rules_get pending) !! i with
      | None => Fault BadIndex
      | Some t =>
          obind (rule_free gm t) (fun gm =>
          Ok (0, set_rules sx PFCP_PENDING
                   (rules_set pending (option_map (fun v => vec_delete v i) (rules_get pending))), gm))
      end
  end.
End RuleFns.

Section RuleFacts.
Context {T : Type} `{R : RuleKind T} {ROk : RuleKindOk T}.

(** the rules of a kind as the next update would leave them: the pending ones,
    or the copies of the active ones *)
Definition pending_view (sx : upf_session_t) : list T :=
  vec_elts (rules_get (pfcp_get_rules (pfcp_make_pending (T := T) sx) PFCP_PENDING)).

Definition active_flag (sx : upf_session_t) : bool := (sx_active sx =? 0) || (sx_active sx =? 1).

Lemma get_set_rules sx r x :
  pfcp_get_rules (set_rules sx r x) r = x.
Proof. unfold pfcp_get_rules, set_rules. simpl. by destruct (_ =? 0). Qed.

Lemma get_set_rules_other sx x :
  active_flag sx = true ->
  pfcp_get_rules (set_rules sx PFCP_PENDING x) PFCP_ACTIVE = pfcp_get_rules sx PFCP_ACTIVE.
Proof.
  intros H. apply orb_true_iff in H as [H|H]; apply Z.eqb_eq in H;
    unfold pfcp_get_rules, set_rules; simpl; by rewrite H.
Qed.

Lemma set_rules_active sx r x : sx_active (set_rules sx r x) = sx_active sx.
Proof. reflexivity. Qed.

Lemma make_pending_active sx :
  active_flag sx = true ->
  pfcp_get_rules (pfcp_make_pending (T := T) sx) PFCP_ACTIVE = pfcp_get_rules sx PFCP_ACTIVE
  /\ sx_active (pfcp_make_pending (T := T) sx) = sx_active sx.
Proof.
  intros H. unfold pfcp_make_pending.
  destruct (rules_get (pfcp_get_rules sx PFCP_PENDING)) as [|]; [done|].
  destruct (rules_get (pfcp_get_rules sx PFCP_ACTIVE)) as [|]; [|done].
  by rewrite get_set_rules_other.
Qed.

(** preparing the pending rules a second time changes nothing *)
Lemma make_pending_idem sx :
  pfcp_make_pending (T := T) (pfcp_make_pending (T := T) sx) = pfcp_make_pending (T := T) sx.
Proof.
  unfold pfcp_make_pending at 2 3.
  destruct (rules_get (pfcp_get_rules sx PFCP_PENDING)) as [v|] eqn:Ep.
  { unfold pfcp_make_pending. by rewrite Ep. }
  destruct (rules_get (pfcp_get_rules sx PFCP_ACTIVE)) as [v|] eqn:Ea.
  - unfold pfcp_make_pending. by rewrite get_set_rules, rules_get_set.
  - unfold pfcp_make_pending. by rewrite Ep, Ea.
Qed.

Lemma filter_all (v : list T) (Q : T -> Prop) `{forall x, Decision (Q x)} :
  Forall Q v -> filter Q v = v.
Proof. induction 1; [done|]. rewrite filter_cons_True by done. by f_equal. Qed.

Lemma delete_filter_id (v : list T) i t :
  sorted_by_id rule_id v -> v !! i = Some t ->
  vec_delete v i = filter (fun x => rule_id x <> rule_id t) v.
Proof.
  unfold vec_delete. revert i. induction v as [|x v IH]; intros i Hs Hi; [done|].
  unfold sorted_by_id in Hs. rewrite fmap_cons in Hs. apply StronglySorted_inv in Hs as [Hs' Hall].
  rewrite Forall_fmap in Hall. destruct i as [|i]; simpl in Hi.
  - injection Hi as ->. simpl. rewrite filter_cons_False by congruence.
    rewrite filter_all; [done|]. eapply Forall_impl; [exact Hall|]. simpl. lia.
  - simpl. rewrite filter_cons_True.
    + f_equal. by apply IH.
    + apply list_elem_of_lookup_2 in Hi. rewrite Forall_forall in Hall. specialize (Hall _ Hi).
      simpl in Hall. lia.
Qed.

Lemma sorted_filter (v : list T) (Q : T -> Prop) `{forall x, Decision (Q x)} :
  sorted_by_id rule_id v -> sorted_by_id rule_id (filter Q v).
Proof.
  unfold sorted_by_id. induction v as [|x v IH]; intros Hs; [constructor|].
  rewrite fmap_cons in Hs. apply StronglySorted_inv in Hs as [Hs' Hall]. rewrite filter_cons.
  destruct (decide (Q x)); [|auto]. rewrite fmap_cons. constructor; [auto|].
  rewrite Forall_fmap, Forall_forall in *. intros y [_ Hy]%list_elem_of_filter. by apply Hall.
Qed.

(** a vector that was deleted from is there, so it is not copied again *)
Lemma pending_view_some sx v :
  rules_get (pfcp_get_rules sx PFCP_PENDING) = Some v -> pending_view sx = v.
Proof. intros E. unfold pending_view, pfcp_make_pending. by rewrite E, E. Qed.

Lemma pending_view_idem sx : pending_view (pfcp_make_pending (T := T) sx) = pending_view sx.
Proof. unfold pending_view. by rewrite make_pending_idem. Qed.

Lemma get_by_id_found r id i :
  sorted_by_id rule_id (vec_elts (rules_get (T := T) r)) ->
  pfcp_get_by_id (T := T) r id = Some i
  <-> exists t : T, vec_elts (rules_get r) !! i = Some t /\ rule_id t = wrap rule_id_width id.
Proof. apply bsearch_by_id. Qed.
End RuleFacts.

(** Removing a rule: pfcp_delete_x, on rules sorted by distinct ids, removes
    from the pending rules exactly the rule with the id (as far as the id type
    of the kind keeps it), returns 0 if there was one and -1 with the rules as
    they were otherwise, leaves the rest sorted for the next search, and never
    touches the active rules the data path reads. *)
Theorem pfcp_delete_spec (T : Type) `{ROk : RuleKindOk T} gm sx id :
  active_flag sx = true -> sorted_by_id rule_id (pending_view (T := T) sx) ->
  (forall t : T, t ∈ pending_view sx -> is_ok (rule_free gm t) = true) ->
  exists r sx' gm',
  pfcp_delete (T := T) gm sx id = Ok (r, sx', gm')
  /\ pending_view sx' = filter (fun t : T => rule_id t <> wrap rule_id_width id) (pending_view sx)
  /\ sorted_by_id rule_id (pending_view (T := T) sx')
  /\ pfcp_get_rules sx' PFCP_ACTIVE = pfcp_get_rules sx PFCP_ACTIVE
  /\ r = if bool_decide (wrap rule_id_width id ∈ rule_id <$> pending_view (T := T) sx) then 0 else -1.
Proof.
  intros Ha Hs Hf. unfold pfcp_delete. destruct (make_pending_active (T := T) sx Ha) as [Hact Hfl].
  set (sx1 := pfcp_make_pending sx) in *. set (pending := pfcp_get_rules sx1 PFCP_PENDING).
  assert (pending_view (T := T) sx = vec_elts (rules_get pending)) as Hv by done.
  destruct (pfcp_get_by_id pending id) as [i|] eqn:Eg.
  - apply get_by_id_found in Eg as (t & Ht & Eid); [|by rewrite <- Hv].
    rewrite Ht. rewrite <- Hv in Ht. pose proof (list_elem_of_lookup_2 _ _ _ Ht) as Hin.
    specialize (Hf t Hin). destruct (rule_free gm t) as [gm'|c|f]; [|done..]. cbn [obind].
    do 3 eexists. split; [reflexivity|].
    destruct (rules_get pending) as [v|] eqn:Ep; [|by rewrite Hv in Ht]. simpl in *.
    assert (pending_view (T := T) (set_rules sx1 PFCP_PENDING
      (rules_set pending (Some (vec_delete v i)))) = vec_delete v i) as ->.
    { apply pending_view_some. by rewrite get_set_rules, rules_get_set. }
    rewrite Hv in *. rewrite (delete_filter_id v i t), Eid by done.
    split; [done|]. split; [by apply sorted_filter|].
    split; [rewrite get_set_rules_other; [done|]; unfold active_flag; by rewrite Hfl|].
    rewrite bool_decide_true; [done|]. rewrite <- Eid. by apply list_elem_of_fmap_2.
  - do 3 eexists. split; [reflexivity|]. unfold sx1. rewrite pending_view_idem.
    assert (wrap rule_id_width id ∉ rule_id <$> pending_view (T := T) sx) as Hni.
    { rewrite Hv. intros (t & Et & Hin)%list_elem_of_fmap.
      apply list_elem_of_lookup in Hin as [i Hi].
      pose proof (proj2 (get_by_id_found pending id i ltac:(by rewrite <- Hv))
        (ex_intro _ t (conj Hi (eq_sym Et)))). congruence. }
    split; [|split; [done|]]; [|split; [done|by rewrite bool_decide_false]].
    rewrite filter_all; [done|]. apply Forall_forall. intros t Hin E. apply Hni.
    rewrite <- E. by apply list_elem_of_fmap_2.
Qed.

(** a session with three active FARs and nothing pending *)
Definition a_far (id : Z) : upf_far_t :=
  {| far_id := id; far_apply_action := FAR_FORWARD;
     far_forward := {| ff_flags := 0; ff_dst_intf := 1; ff_dst_sw_if_index := u32_none;
       ff_nwi_index := u32_none; ff_redirect_information := redirect_zero;
       ff_outer_header_creation := Build_pfcp_outer_header_creation_t 0 0 ip6_zero 0 0 0;
       ff_peer_idx := 0; ff_rewrite := None |} |}.
Definition far_session : upf_session_t :=
  mk_session f64_zero ip6_zero 7 ip6_zero (mk_assoc 0 u32_none u32_none) 0 0
    (set_r_far rules_zero (Some [a_far 1; a_far 5; a_far 9])) rules_zero f64_zero 0.
Definition no_main : rule_main := mk_main pool_empty ∅ ∅.

Lemma pfcp_delete_spec_witness :
  exists r sx' gm',
  pfcp_delete (T := upf_far_t) no_main far_session 5 = Ok (r, sx', gm')
  /\ pending_view sx'
     = filter (fun t : upf_far_t => rule_id t <> wrap (rule_id_width (T := upf_far_t)) 5)
         (pending_view far_session)
  /\ sorted_by_id rule_id (pending_view (T := upf_far_t) sx')
  /\ pfcp_get_rules sx' PFCP_ACTIVE = pfcp_get_rules far_session PFCP_ACTIVE
  /\ r = if bool_decide
              (wrap (rule_id_width (T := upf_far_t)) 5 ∈ rule_id <$> pending_view (T := upf_far_t) far_session)
         then 0 else -1.
Proof.
  apply (pfcp_delete_spec upf_far_t no_main far_session 5); [reflexivity| |done].
  repeat constructor.
Defined.

(** Rules are found after they were added: pfcp_sort_xs keeps the rules, and
    afterwards the binary search of pfcp_get_x_by_id returns, for every rule with
    its own id, an index that holds this very rule, however the vector was
    filled. *)
Theorem pfcp_sort_get (T : Type) `{ROk : RuleKindOk T} `{SOk : VecSortOk} r :
  NoDup (rule_id <$> vec_elts (rules_get (T := T) r)) ->
  Forall (fun t : T => in_range rule_id_width (rule_id t) = true) (vec_elts (rules_get r)) ->
  let r' := pfcp_sort (T := T) r in
  Permutation (vec_elts (rules_get (T := T) r')) (vec_elts (rules_get r)) /\
  forall t : T, t ∈ vec_elts (rules_get r) ->
  exists i, pfcp_get_by_id (T := T) r' (rule_id t) = Some i /\ vec_elts (rules_get r') !! i = Some t.
Proof.
  intros Hnd Hr r'. set (c := fun a b : T => intcmp (rule_id a) (rule_id b)).
  assert (vec_elts (rules_get (T := T) r') = vec_elts (option_map (vec_sort_with_function c) (rules_get r)))
    as Hv by (unfold r', pfcp_sort; by rewrite rules_get_set).
  assert (Permutation (vec_elts (rules_get (T := T) r')) (vec_elts (rules_get r))) as Hp.
  { rewrite Hv. destruct (rules_get r); [apply vec_sort_perm|done]. }
  split; [done|]. intros t Ht.
  assert (sorted_by_id rule_id (vec_elts (rules_get (T := T) r'))) as Hs.
  { assert (StronglySorted (fun x y => c x y <= 0) (vec_elts (rules_get (T := T) r'))) as Hs.
    { rewrite Hv. destruct (rules_get r); [|constructor].
      apply vec_sort_sorted. exact (intcmp_compar rule_id). }
    assert (NoDup (rule_id <$> vec_elts (rules_get (T := T) r'))) as Hnd' by (by rewrite Hp).
    revert Hs Hnd'. generalize (vec_elts (rules_get (T := T) r')). unfold sorted_by_id.
    induction 1 as [|x l Hs IH Hall]; [constructor|]. rewrite fmap_cons, NoDup_cons.
    intros [Hx Hl]. constructor; [auto|]. rewrite Forall_fmap. apply Forall_forall. intros y Hy.
    rewrite Forall_forall in Hall. specialize (Hall y Hy). unfold c in Hall. simpl in *.
    apply (proj1 (intcmp_le _ _)) in Hall.
    assert (rule_id x <> rule_id y); [|lia]. intros E. apply Hx. rewrite E. by apply list_elem_of_fmap_2. }
  assert (t ∈ vec_elts (rules_get r')) as Ht' by (by rewrite Hp).
  apply list_elem_of_lookup in Ht' as [i Hi]. exists i. split; [|done].
  apply get_by_id_found; [done|]. exists t. split; [done|].
  rewrite Forall_forall in Hr. by rewrite wrap_small by (by apply Hr).
Qed.

Lemma pfcp_sort_get_witness :
  let r := set_r_far rules_zero (Some [a_far 9; a_far 1; a_far 5]) in
  let r' := pfcp_sort (T := upf_far_t) (H := insertion_sort) r in
  Permutation (vec_elts (rules_get (T := upf_far_t) r')) (vec_elts (rules_get r)) /\
  forall t : upf_far_t, t ∈ vec_elts (rules_get r) ->
  exists i, pfcp_get_by_id (T := upf_far_t) r' (rule_id t) = Some i
            /\ vec_elts (rules_get r') !! i = Some t.
Proof.
  apply (pfcp_sort_get upf_far_t (SOk := insertion_sort_ok)); [by_eval|by repeat constructor].
Defined.

(** ** References to policers *)

(** the table of policers is sound: an entry names a policer that is in use and
    referenced *)
Definition policers_ok (gm : rule_main) : Prop :=
  forall key i, gm_qer_by_id gm !! key = Some i ->
  0 <= i < u32_none /\
  exists p, pool_elt (gm_qer_policers gm) i = Some p /\ 0 < qp_ref_cnt p < 2 ^ 64 - 1.

(** the global state up to the order in which a pool reuses indices *)
Definition same_main (a b : rule_main) : Prop :=
  pool_elts (gm_qer_policers a) = pool_elts (gm_qer_policers b)
  /\ gm_qer_by_id a = gm_qer_by_id b /\ gm_adf_ref_cnt a = gm_adf_ref_cnt b.

#[export] Instance same_main_equiv : Equivalence same_main.
Proof. split; unfold same_main; repeat intro; intuition congruence. Qed.

(** the part after the policer is known, whatever it was *)
Lemma policer_add_spec gm i p n :
  pool_elt (gm_qer_policers gm) i = Some p -> 0 <= qp_ref_cnt p + n < 2 ^ 64 ->
  policer_add gm i n
  = Ok (qp_ref_cnt p + n,
        mk_main (pool_set (gm_qer_policers gm) i
                   (mk_policer (qp_cir_ul p) (qp_cir_dl p) (qp_ref_cnt p + n)))
          (gm_qer_by_id gm) (gm_adf_ref_cnt gm)).
Proof.
  intros E Hr. unfold policer_add. rewrite E. unfold wrap. by rewrite Z.mod_small by lia.
Qed.

(** References to policers balance: attaching a QER with a rate limit to the
    policer of its key, creating the policer if there is none, and detaching it
    again succeeds and leaves the policers and their table as they were: no
    policer is leaked, and none that others refer to is freed. *)
Theorem policer_attach_detach {P : VppPool} {POk : VppPoolOk P} gm q :
  policers_ok gm -> pool_room (gm_qer_policers gm) ->
  kv_key (qer_policer q) <> u64_none -> flag (qer_flags q) PFCP_QER_MBR = true ->
  exists q' gm1 gm2,
  attach_qer_policer gm q = Ok (q', gm1) /\ detach_qer_policer gm1 q' = Ok gm2 /\ same_main gm2 gm.
Proof.
  intros Hok Hroom Hkey Hmbr. unfold attach_qer_policer.
  rewrite (proj2 (Z.eqb_neq _ _) Hkey), Hmbr. cbn [negb orb].
  destruct (gm_qer_by_id gm !! _) as [i|] eqn:Ei.
  - destruct (Hok _ _ Ei) as (Hi & p & Hp & Href). cbn [set_policer qer_policer kv_value].
    rewrite (policer_add_spec gm i p 1) by (done || lia). cbn [obind]. do 3 eexists.
    split; [reflexivity|]. unfold detach_qer_policer. cbn [set_policer qer_policer kv_value].
    destruct (Z.eqb_spec i u64_none); [unfold u32_none, u64_none in *; lia|].
    erewrite policer_add_spec; [|by apply lookup_insert_eq|simpl; lia]. cbn [obind qp_ref_cnt].
    destruct (Z.eqb_spec (qp_ref_cnt p + 1 + -1) 0); [lia|]. split; [reflexivity|].
    split; [|done]. simpl. rewrite insert_insert_eq. apply insert_id. unfold pool_elt in Hp. rewrite Hp.
    f_equal. destruct p; simpl. f_equal. lia.
  - destruct (pool_pick_free (gm_qer_policers gm).(pool_elts) (pool_free (gm_qer_policers gm)) Hroom)
      as [Hfree Hi].
    unfold init_qer_policer, pool_get. set (i := pool_pick _ _) in *.
    cbn [set_policer qer_policer kv_value kv_key].
    erewrite policer_add_spec; [|by apply lookup_insert_eq|simpl; lia]. cbn [obind]. do 3 eexists.
    split; [reflexivity|]. unfold detach_qer_policer. cbn [set_policer qer_policer kv_value kv_key].
    destruct (Z.eqb_spec i u64_none); [unfold u32_none, u64_none in *; lia|].
    erewrite policer_add_spec; [|by apply lookup_insert_eq|simpl; lia]. cbn [obind qp_ref_cnt].
    split; [reflexivity|]. split; [|split; [|done]]; simpl.
    + rewrite !insert_insert_eq. by apply delete_insert_id.
    + by apply delete_insert_id.
Qed.

Lemma policer_attach_detach_witness :
  let q := mk_qer 1 PFCP_QER_MBR 0 0 (Build_pfcp_bit_rate_t 1000 2000) (mk_kv 17 u64_none) in
  exists q' gm1 gm2,
  @attach_qer_policer pool_lifo no_main q = Ok (q', gm1)
  /\ detach_qer_policer gm1 q' = Ok gm2 /\ same_main gm2 no_main.
Proof.
  apply (@policer_attach_detach pool_lifo pool_lifo_ok).
  - intros key i H. cbn in H. by rewrite lookup_empty in H.
  - reflexivity.
  - discriminate.
  - reflexivity.
Defined.
