(* ===== verification/UpfTeid.v ===== *)
(** * Tunnel endpoints

    A session registers the TEIDs of its rules in the table the GTP-U input
    looks packets up in. rules_add_v4_teid and rules_add_v6_teid collect the
    endpoints of a rule set, vec_diff compares them with those of the previous
    set, and pfcp_add_del_v4_teid and pfcp_add_del_v6_teid change the table
    (src/upf/upf_pfcp.c). *)

From Stdlib Require Import ZArith Lia Sorting.Sorted.
From stdpp Require Import base list list_numbers option numbers decidable gmap.
From S2P Require Import Prelude PfcpIo PfcpIe UpfTypes UpfVec.

(** the octets of a key in memory *)
Definition e4_key (e : gtpu4_endp_rule_t) : list Z := le 4 (e4_dst e) ++ le 4 (e4_teid e).
Definition e6_key (e : gtpu6_endp_rule_t) : list Z := le 16 (e6_dst e) ++ le 4 (e6_teid e).

Definition v4_teid_cmp (a b : gtpu4_endp_rule_t) : Z := memcmp (e4_key a) (e4_key b).
Definition v6_teid_cmp (a b : gtpu6_endp_rule_t) : Z := memcmp (e6_key a) (e6_key b).

(** the search for an entry with the key of [endp], and what is done when it is
    found: the rule index of a TEID used twice is ~0 *)
Section Add.
Context {A : Type} (key : A -> list Z) (dup : A -> A).
Fixpoint add_endp (l : list A) (endp : A) : list A :=
  match l with
  | [] => [endp]
  | e :: l => if bool_decide (key e = key endp) then dup e :: l else e :: add_endp l endp
  end.
End Add.

Definition dup4 (e : gtpu4_endp_rule_t) : gtpu4_endp_rule_t := mk_endp4 (e4_dst e) (e4_teid e) u32_none.
Definition dup6 (e : gtpu6_endp_rule_t) : gtpu6_endp_rule_t := mk_endp6 (e6_dst e) (e6_teid e) u32_none.

Definition rules_add_v4_teid (v : vec gtpu4_endp_rule_t) (addr teid rule_index : Z)
  : vec gtpu4_endp_rule_t :=
  Some (add_endp e4_key dup4 (vec_elts v) (mk_endp4 addr teid rule_index)).
Definition rules_add_v6_teid (v : vec gtpu6_endp_rule_t) (addr teid rule_index : Z)
  : vec gtpu6_endp_rule_t :=
  Some (add_endp e6_key dup6 (vec_elts v) (mk_endp6 addr teid rule_index)).

(** the value of an endpoint of session [si] in the table *)
Definition e4_value (si : Z) (e : gtpu4_endp_rule_t) : Z :=
  Z.lor (wrap 64 (Z.shiftl (e4_rule_index e) 32)) si.
Definition e6_value (si : Z) (e : gtpu6_endp_rule_t) : Z :=
  Z.lor (wrap 64 (Z.shiftl (e6_rule_index e) 32)) si.

Definition pfcp_add_del_v4_teid (si : Z) (t : gmap (list Z) Z) (e : gtpu4_endp_rule_t)
  (is_add : bool) : gmap (list Z) Z := add_del e4_key (e4_value si) t (e, is_add).
Definition pfcp_add_del_v6_teid (si : Z) (t : gmap (list Z) Z) (e : gtpu6_endp_rule_t)
  (is_add : bool) : gmap (list Z) Z := add_del e6_key (e6_value si) t (e, is_add).

(** vec_diff (pending->v4_teid, active->v4_teid, v4_teid_cmp,
    pfcp_add_del_v4_teid, sx) on the table; the same for v6 *)
Definition update_v4_teids `{VecSort} (si : Z) (t : gmap (list Z) Z)
  (pending active : vec gtpu4_endp_rule_t) : gmap (list Z) Z :=
  foldl (fun t call => pfcp_add_del_v4_teid si t (fst call) (snd call)) t
    (fst (fst (vec_diff v4_teid_cmp pending active))).
Definition update_v6_teids `{VecSort} (si : Z) (t : gmap (list Z) Z)
  (pending active : vec gtpu6_endp_rule_t) : gmap (list Z) Z :=
  foldl (fun t call => pfcp_add_del_v6_teid si t (fst call) (snd call)) t
    (fst (fst (vec_diff v6_teid_cmp pending active))).

(** ** The endpoints of a rule set *)

(** the vector after a sequence of rules_add_v4_teid *)
Definition v4_teids (l : list (Z * Z * Z)) : vec gtpu4_endp_rule_t :=
  foldl (fun v '(addr, teid, i) => rules_add_v4_teid v addr teid i) None l.

Lemma e4_key_length e : length (e4_key e) = 8%nat.
Proof. unfold e4_key. by rewrite length_app, !length_le. Qed.

#[export] Instance v4_teid_compar : Compar v4_teid_cmp.
Proof. exact (memcmp_compar 8 e4_key e4_key_length). Qed.

Lemma v4_teid_cmp_key a b : v4_teid_cmp a b = 0 <-> e4_key a = e4_key b.
Proof. apply memcmp_eq_iff. by rewrite !e4_key_length. Qed.

Section AddFacts.
Context {A : Type} (key : A -> list Z) (dup : A -> A) (Hdup : forall a, key (dup a) = key a).

Lemma add_endp_keys l e k :
  k ∈ key <$> add_endp key dup l e <-> k ∈ key <$> l \/ k = key e.
Proof using Hdup.
  induction l as [|x l IH].
  - simpl add_endp. rewrite fmap_cons, elem_of_cons. tauto.
  - cbn [add_endp]. case_bool_decide as E; rewrite !fmap_cons, !elem_of_cons.
    + rewrite Hdup, <- E. tauto.
    + rewrite IH. tauto.
Qed.

Lemma add_endp_nodup l e : NoDup (key <$> l) -> NoDup (key <$> add_endp key dup l e).
Proof using Hdup.
  induction l as [|x l IH]; [by intros; apply NoDup_singleton|].
  cbn [add_endp]. rewrite fmap_cons, NoDup_cons. intros [Hx Hl].
  case_bool_decide as E; rewrite fmap_cons, NoDup_cons.
  - by rewrite Hdup.
  - split; [|auto]. rewrite add_endp_keys. intros [?|?]; congruence.
Qed.
End AddFacts.

Lemma v4_teids_snoc l x :
  v4_teids (l ++ [x])
  = let '(addr, teid, i) := x in rules_add_v4_teid (v4_teids l) addr teid i.
Proof. unfold v4_teids. rewrite foldl_app. by destruct x as [[? ?] ?]. Qed.

(** no key is collected twice, and the keys are those of the rules *)
Lemma v4_teids_nodup l : NoDup (e4_key <$> vec_elts (v4_teids l)).
Proof.
  induction l as [|[[addr teid] i] l IH] using rev_ind; [constructor|].
  rewrite v4_teids_snoc. by apply add_endp_nodup.
Qed.

Definition v4_rule_key (r : Z * Z * Z) : list Z := let '(addr, teid, _) := r in le 4 addr ++ le 4 teid.

Lemma v4_teids_keys l k :
  k ∈ e4_key <$> vec_elts (v4_teids l) <-> k ∈ v4_rule_key <$> l.
Proof.
  induction l as [|[[addr teid] i] l IH] using rev_ind; [done|].
  rewrite v4_teids_snoc, fmap_app, elem_of_app. cbv beta zeta iota.
  unfold rules_add_v4_teid. simpl vec_elts. rewrite add_endp_keys by done. rewrite IH.
  simpl. rewrite list_elem_of_singleton. done.
Qed.

(** what the table holds after the update of a session *)
Lemma update_v4_teids_lookup `{SOk : VecSortOk} si t (pending active : vec gtpu4_endp_rule_t) k :
  NoDup (e4_key <$> vec_elts pending) -> NoDup (e4_key <$> vec_elts active) ->
  update_v4_teids si t pending active !! k
  = match find_key e4_key k (vec_elts (vec_sort_with_function v4_teid_cmp <$> pending)),
          find_key e4_key k (vec_elts (vec_sort_with_function v4_teid_cmp <$> active)) with
    | Some n, None => Some (e4_value si n)
    | None, Some _ => None
    | _, _ => t !! k
    end.
Proof.
  intros Hp Ha. unfold update_v4_teids, vec_diff. simpl fst.
  assert (forall v : vec gtpu4_endp_rule_t, Permutation
    (vec_elts (vec_sort_with_function v4_teid_cmp <$> v)) (vec_elts v)) as Hperm
    by (intros [l|]; [apply vec_sort_perm|done]).
  rewrite <- (diff_loop_table e4_key (e4_value si) v4_teid_cmp v4_teid_cmp_key _ _).
  - reflexivity.
  - destruct pending; [by apply vec_sort_sorted; apply _|constructor].
  - destruct active; [by apply vec_sort_sorted; apply _|constructor].
  - by rewrite Hperm.
  - by rewrite Hperm.
Qed.

Lemma find_key_elem {A} (key : A -> list Z) k l :
  (exists x, find_key key k l = Some x) <-> k ∈ key <$> l.
Proof.
  rewrite list_elem_of_fmap. split.
  - intros (x & [? ?]%find_key_Some). eauto.
  - intros (x & -> & Hx). destruct (find_key key (key x) l) as [y|] eqn:E; [eauto|].
    by destruct (find_key_None key _ _ E x Hx).
Qed.

Lemma find_sorted_key `{SOk : VecSortOk} l k :
  match find_key e4_key k (vec_elts (vec_sort_with_function v4_teid_cmp <$> v4_teids l)) with
  | Some _ => k ∈ v4_rule_key <$> l
  | None => k ∉ v4_rule_key <$> l
  end.
Proof.
  assert (Permutation (vec_elts (vec_sort_with_function v4_teid_cmp <$> v4_teids l))
            (vec_elts (v4_teids l))) as Hp
    by (destruct (v4_teids l); [apply vec_sort_perm|done]).
  destruct (find_key _ _ _) as [x|] eqn:E; rewrite <- v4_teids_keys, <- Hp.
  - apply find_key_elem. eauto.
  - intros [x Hx]%find_key_elem. congruence.
Qed.



(** A TEID that stays keeps a stale rule index: vec_diff compares keys only,
    so an endpoint that the old and the new rules have in common is not
    written again, and the table still holds the index its rule had in the old
    vector, although removing another rule has moved it. *)
Theorem teid_rule_index_stale `{SOk : VecSortOk} si t new old r :
  r ∈ new -> v4_rule_key r ∈ v4_rule_key <$> old ->
  update_v4_teids si t (v4_teids new) (v4_teids old) !! v4_rule_key r = t !! v4_rule_key r.
Proof.
  intros Hr Ho. rewrite update_v4_teids_lookup by apply v4_teids_nodup.
  pose proof (find_sorted_key new (v4_rule_key r)) as Hn.
  pose proof (find_sorted_key old (v4_rule_key r)) as Ho'.
  pose proof (list_elem_of_fmap_2 v4_rule_key _ _ Hr).
  do 2 destruct (find_key _ _ _); naive_solver.
Qed.

(** the second of two rules keeps the index 1 when the first is removed *)
Lemma teid_rule_index_stale_witness :
  let old := [(1, 100, 0); (1, 200, 1)] in
  let t := update_v4_teids (H := insertion_sort) 5 ∅ (v4_teids old) None in
  update_v4_teids (H := insertion_sort) 5 t (v4_teids [(1, 200, 0)]) (v4_teids old)
    !! v4_rule_key (1, 200, 0) = t !! v4_rule_key (1, 200, 0)
  /\ t !! v4_rule_key (1, 200, 0) = Some (Z.lor (Z.shiftl 1 32) 5).
Proof.
  split; [|vm_compute; reflexivity].
  apply (teid_rule_index_stale (SOk := insertion_sort_ok)); [by left|].
  apply list_elem_of_In. simpl. auto.
Defined.
