(* ===== verification/UpfAssoc.v ===== *)
(** * Associations and their sessions

    A control plane node is an association in a pool, found by address or by
    name; its sessions form a doubly linked list threaded through the session
    pool by index (src/upf/upf_pfcp.c, pfcp_get_association to
    pfcp_create_session, and pfcp_lookup). The list is shown to behave like a
    mathematical list. *)

From Stdlib Require Import ZArith Lia.
From stdpp Require Import base list list_numbers option numbers decidable gmap.
From S2P Require Import Prelude PfcpIo PfcpIe UpfTypes.

(** the members of upf_main_t these functions use, and two counters *)
Record assoc_main := mk_amain {
  am_nodes : pool upf_node_assoc_t;
  am_node_index_by_ip : gmap (list Z) Z;
  am_node_index_by_fqdn : gmap (list Z) Z;
  am_sessions : pool upf_session_t;
  am_session_by_id : gmap Z Z;
  am_assoc_counter : Z;
  am_sessions_counter : Z }.

Definition am_set_nodes (am : assoc_main) (x : pool upf_node_assoc_t) : assoc_main :=
  mk_amain x (am_node_index_by_ip am) (am_node_index_by_fqdn am) (am_sessions am)
    (am_session_by_id am) (am_assoc_counter am) (am_sessions_counter am).
Definition am_set_sessions (am : assoc_main) (x : pool upf_session_t) : assoc_main :=
  mk_amain (am_nodes am) (am_node_index_by_ip am) (am_node_index_by_fqdn am) x
    (am_session_by_id am) (am_assoc_counter am) (am_sessions_counter am).

Definition set_assoc (sx : upf_session_t) (a : sx_assoc) : upf_session_t :=
  mk_session (sx_last_ul_traffic sx) (sx_up_address sx) (sx_cp_seid sx) (sx_cp_address sx) a
    (sx_flags sx) (sx_active sx) (sx_rules0 sx) (sx_rules1 sx) (sx_unix_time_start sx)
    (sx_generation sx).
Definition set_na_sessions (n : upf_node_assoc_t) (x : Z) : upf_node_assoc_t :=
  mk_node (na_node_id n) (na_recovery_time_stamp n) (na_session_handle n) (na_rmt_addr n)
    (na_lcl_addr n) x (na_heartbeat_handle n).

(** ** Associations *)

(** the index of the association *)
Definition pfcp_get_association (am : assoc_main) (node_id : pfcp_node_id_t) : option Z :=
  if (nid_type node_id =? NID_IPv4) || (nid_type node_id =? NID_IPv6)
  then am_node_index_by_ip am !! nid_ip node_id
  else if nid_type node_id =? NID_FQDN
  then am_node_index_by_fqdn am !! vec_elts (nid_fqdn node_id)
  else None.

Definition pfcp_new_association `{VppPool} (am : assoc_main) (session_handle : Z)
  (lcl_addr rmt_addr : list Z) (node_id : pfcp_node_id_t) : Z * assoc_main :=
  let '(i, nodes) := pool_get (am_nodes am)
                       (mk_node node_id 0 session_handle rmt_addr lcl_addr u32_none 0) in
  let is_ip := (nid_type node_id =? NID_IPv4) || (nid_type node_id =? NID_IPv6) in
  let is_fqdn := nid_type node_id =? NID_FQDN in
  (i, mk_amain nodes
        (if is_ip then <[nid_ip node_id := i]> (am_node_index_by_ip am)
         else am_node_index_by_ip am)
        (if negb is_ip && is_fqdn
         then <[vec_elts (nid_fqdn node_id) := i]> (am_node_index_by_fqdn am)
         else am_node_index_by_fqdn am)
        (am_sessions am) (am_session_by_id am) (am_assoc_counter am + 1) (am_sessions_counter am)).

(** ** The list of sessions of an association *)

Definition get_session (am : assoc_main) (i : Z) : outcome upf_session_t :=
  match pool_elt (am_sessions am) i with Some sx => Ok sx | None => Fault BadIndex end.
Definition get_node (am : assoc_main) (i : Z) : outcome upf_node_assoc_t :=
  match pool_elt (am_nodes am) i with Some n => Ok n | None => Fault BadIndex end.
Definition put_session (am : assoc_main) (i : Z) (sx : upf_session_t) : assoc_main :=
  am_set_sessions am (pool_set (am_sessions am) i sx).
Definition put_node (am : assoc_main) (i : Z) (n : upf_node_assoc_t) : assoc_main :=
  am_set_nodes am (pool_set (am_nodes am) i n).

Definition set_next (sx : upf_session_t) (x : Z) : upf_session_t :=
  set_assoc sx (mk_assoc (as_node (sx_assoc_ sx)) x (as_prev (sx_assoc_ sx))).
Definition set_prev (sx : upf_session_t) (x : Z) : upf_session_t :=
  set_assoc sx (mk_assoc (as_node (sx_assoc_ sx)) (as_next (sx_assoc_ sx)) x).

(** the association at [n], the session at [i] *)
Definition node_assoc_attach_session (am : assoc_main) (n i : Z) : outcome assoc_main :=
  obind (get_node am n) (fun node =>
  obind (get_session am i) (fun sx =>
  let am := put_session am i (set_assoc sx (mk_assoc n (as_next (sx_assoc_ sx)) u32_none)) in
  obind
    (if na_sessions node =? u32_none then Ok am
     else
       obind (get_session am (na_sessions node)) (fun prev =>
       assert (as_prev (sx_assoc_ prev) =? u32_none)
      (assert (as_node (sx_assoc_ prev) =? n)
      (Ok (put_session am (na_sessions node) (set_prev prev i))))))
    (fun am =>
     obind (get_session am i) (fun sx =>
     let am := put_session am i (set_next sx (na_sessions node)) in
     Ok (put_node am n (set_na_sessions node i)))))).

(** node_assoc_detach_session, first part: what points to the session from the
    front, the previous session or the association, points to the next one *)
Definition detach_from_prev (am : assoc_main) (a : sx_assoc) : outcome assoc_main :=
  if as_prev a =? u32_none then
    obind (get_node am (as_node a)) (fun n =>
    assert (negb (na_sessions n =? u32_none))
   (Ok (put_node am (as_node a) (set_na_sessions n (as_next a)))))
  else
    obind (get_session am (as_prev a)) (fun prev =>
    assert (as_node (sx_assoc_ prev) =? as_node a)
   (Ok (put_session am (as_prev a) (set_next prev (as_next a))))).

(** second part: the next session, if any, points back to the previous one *)
Definition detach_from_next (am : assoc_main) (a : sx_assoc) : outcome assoc_main :=
  if as_next a =? u32_none then Ok am
  else
    obind (get_session am (as_next a)) (fun next =>
    assert (as_node (sx_assoc_ next) =? as_node a)
   (Ok (put_session am (as_next a) (set_prev next (as_prev a))))).

Definition node_assoc_detach_session (am : assoc_main) (i : Z) : outcome assoc_main :=
  obind (get_session am i) (fun sx =>
  let a := sx_assoc_ sx in
  assert (negb (as_node a =? u32_none))
 (assert (negb (pool_is_free_index (am_nodes am) (as_node a)))
 (obind (detach_from_prev am a) (fun am =>
  obind (detach_from_next am a) (fun am =>
  obind (get_session am i) (fun sx =>
  Ok (put_session am i (set_assoc sx (mk_assoc u32_none u32_none u32_none))))))))).

(** ** Sessions *)

Definition pfcp_create_session `{VppPool} (am : assoc_main) (assoc : Z) (up_address : list Z)
  (cp_seid : Z) (cp_address : list Z) (vlib_now now : f64) : outcome (Z * assoc_main) :=
  let rules_new := mk_rules None None None None 0 0 0 None None None None None None None
                     (mk_urr_time f64_zero 0 f64_zero u32_none) in
  let '(i, sessions) := pool_get (am_sessions am)
    (mk_session vlib_now up_address cp_seid cp_address (mk_assoc 0 0 0) 0 0 rules_new rules_new
       now 0) in
  obind (node_assoc_attach_session (am_set_sessions am sessions) assoc i) (fun am =>
  Ok (i, mk_amain (am_nodes am) (am_node_index_by_ip am) (am_node_index_by_fqdn am)
           (am_sessions am) (<[cp_seid := i]> (am_session_by_id am)) (am_assoc_counter am)
           (am_sessions_counter am + 1))).

(** the session, with its index *)
Definition pfcp_lookup (am : assoc_main) (sess_id : Z) : outcome (option (Z * upf_session_t)) :=
  match am_session_by_id am !! sess_id with
  | None => Ok None
  | Some i => obind (get_session am i) (fun sx => Ok (Some (i, sx)))
  end.

(** ** The list as a mathematical list *)

(** the sessions [l] of association [n], chained from [first] with the first
    one's prev [prev], ending in the session [last], whose next is [next] *)
Fixpoint chain (m : gmap Z upf_session_t) (n prev first : Z) (l : list Z) (last next : Z) : Prop :=
  match l with
  | [] => first = next /\ last = prev
  | i :: l =>
      first = i /\ i <> u32_none /\
      exists sx, m !! i = Some sx /\ as_node (sx_assoc_ sx) = n /\ as_prev (sx_assoc_ sx) = prev
                 /\ chain m n i (as_next (sx_assoc_ sx)) l last next
  end.

(** the sessions of association [n] are the list [l] *)
Definition assoc_list (am : assoc_main) (n : Z) (l : list Z) : Prop :=
  NoDup l /\ exists node last, pool_elts (am_nodes am) !! n = Some node
  /\ chain (pool_elts (am_sessions am)) n u32_none (na_sessions node) l last u32_none.

Section Chain.
Context (n : Z).

Lemma chain_frame m m' prev first l last next :
  (forall i, i ∈ l -> m' !! i = m !! i) -> chain m n prev first l last next ->
  chain m' n prev first l last next.
Proof.
  revert prev first. induction l as [|i l IH]; intros prev first Hm; [done|].
  intros (-> & Hi & sx & Hsx & H1 & H2 & H3). split; [done|]. split; [done|]. exists sx.
  rewrite Hm by (by left). repeat split; try done. apply IH; [|done]. intros j Hj. apply Hm. by right.
Qed.

Lemma chain_app m prev first l k last next :
  chain m n prev first (l ++ k) last next
  <-> exists a b, chain m n prev first l a b /\ chain m n a b k last next.
Proof.
  revert prev first. induction l as [|i l IH]; intros prev first; simpl.
  - split; [eauto|]. intros (a & b & [-> ->] & ?). done.
  - split.
    + intros (-> & Hi & sx & Hsx & H1 & H2 & (a & b & Ha & Hb)%IH).
      exists a, b. split; [|done]. split; [done|]. split; [done|]. exists sx. done.
    + intros (a & b & (-> & Hi & sx & Hsx & H1 & H2 & Ha) & Hb).
      split; [done|]. split; [done|]. exists sx. repeat split; try done. apply IH. eauto.
Qed.

Lemma chain_elem m prev first l last next i :
  chain m n prev first l last next -> i ∈ l ->
  i <> u32_none /\ exists sx, m !! i = Some sx /\ as_node (sx_assoc_ sx) = n.
Proof.
  revert prev first. induction l as [|j l IH]; intros prev first; simpl;
    [by intros _ ?%elem_of_nil|].
  intros (-> & Hi & sx & Hsx & H1 & H2 & H3) [->|Hin]%elem_of_cons; eauto.
Qed.

(** give the first session another prev *)
Lemma chain_set_prev m prev prev' i l last next sx :
  NoDup (i :: l) -> m !! i = Some sx -> chain m n prev i (i :: l) last next ->
  chain (<[i := set_prev sx prev']> m) n prev' i (i :: l) last next.
Proof.
  intros [Hi _]%NoDup_cons Hsx (_ & Hne & sx' & Hsx' & H1 & H2 & H3).
  replace sx' with sx in * by congruence. split; [done|]. split; [done|].
  exists (set_prev sx prev'). rewrite lookup_insert_eq. split; [done|]. split; [done|].
  split; [done|]. eapply chain_frame; [|exact H3]. intros j Hj. rewrite lookup_insert_ne; [done|].
  intros ->. done.
Qed.

(** give the last session another next *)
Lemma chain_set_next m prev first l i next next' sx :
  NoDup (l ++ [i]) -> m !! i = Some sx -> chain m n prev first (l ++ [i]) i next ->
  chain (<[i := set_next sx next']> m) n prev first (l ++ [i]) i next'.
Proof.
  intros Hnd Hsx (a & b & Ha & Hb)%chain_app. apply chain_app. exists a, b.
  apply NoDup_app in Hnd as (_ & Hni & _). split.
  - eapply chain_frame; [|exact Ha]. intros j Hj. rewrite lookup_insert_ne; [done|].
    intros <-. apply (Hni i Hj). by left.
  - destruct Hb as (-> & Hne & sx' & Hsx' & H1 & H2 & H3). replace sx' with sx in * by congruence.
    split; [done|]. split; [done|]. exists (set_next sx next'). by rewrite lookup_insert_eq.
Qed.

(** the last session of a chain is [last] *)
Lemma chain_last m prev first l i last next :
  chain m n prev first (l ++ [i]) last next -> last = i.
Proof. intros (a & b & _ & (_ & _ & sx & _ & _ & _ & _ & E))%chain_app. done. Qed.
End Chain.

Lemma assoc_list_frame am am' n l :
  pool_elts (am_nodes am') !! n = pool_elts (am_nodes am) !! n ->
  (forall k, k ∈ l -> pool_elts (am_sessions am') !! k = pool_elts (am_sessions am) !! k) ->
  assoc_list am n l -> assoc_list am' n l.
Proof.
  intros Hn Hs (Hnd & node & last & Hnode & Hch). split; [done|]. exists node, last.
  rewrite Hn. split; [done|]. by eapply chain_frame.
Qed.

(** a session that is not in the list does not matter to it *)
Lemma assoc_list_put_session am n l k sx :
  k ∉ l -> assoc_list am n l -> assoc_list (put_session am k sx) n l.
Proof.
  intros Hk. apply assoc_list_frame; [done|]. intros j Hj. simpl. apply lookup_insert_ne.
  by intros <-.
Qed.

(** a session is in the list of one association only *)
Lemma assoc_list_disjoint am n l n' l' k :
  assoc_list am n l -> assoc_list am n' l' -> n <> n' -> k ∈ l -> k ∉ l'.
Proof.
  intros (_ & node & last & _ & Hch) (_ & node' & last' & _ & Hch') Hn Hk Hk'.
  destruct (chain_elem _ _ _ _ _ _ _ _ Hch Hk) as (_ & sx & Hsx & E).
  destruct (chain_elem _ _ _ _ _ _ _ _ Hch' Hk') as (_ & sx' & Hsx' & E'). congruence.
Qed.

Lemma attach_session_aux am n i l :
  assoc_list am n l -> i <> u32_none -> is_Some (pool_elts (am_sessions am) !! i) -> i ∉ l ->
  exists am', node_assoc_attach_session am n i = Ok am' /\ assoc_list am' n (i :: l) /\
  forall n' l', n' <> n -> i ∉ l' -> assoc_list am n' l' -> assoc_list am' n' l'.
Proof.
  intros Hl Hi [sx Hsx] Hni. pose proof Hl as (Hnd & node & last & Hnode & Hch).
  unfold node_assoc_attach_session, get_node, get_session, pool_elt. rewrite Hnode, Hsx.
  cbn [obind]. set (sx1 := set_assoc sx _). simpl.
  assert (NoDup (i :: l)) as Hnd' by (by constructor). destruct l as [|j l].
  - destruct Hch as [-> ->]. rewrite Z.eqb_refl. cbn [obind]. simpl. rewrite lookup_insert_eq.
    cbn [obind]. eexists. split; [reflexivity|]. split.
    + split; [done|]. exists (set_na_sessions node i), i. simpl.
      rewrite !lookup_insert_eq. repeat (split; [done|]). by eexists.
    + intros n' l' Hn Hi'. apply assoc_list_frame; simpl; [by rewrite lookup_insert_ne|].
      intros k Hk. rewrite !lookup_insert_ne; [done|..]; by intros <-.
  - pose proof Hch as (E & Hj & sj & Hsj & Hnj & Hpj & Hch2). rewrite E in *.
    assert (i <> j) as Hij by (intros ->; apply Hni; by left).
    destruct (Z.eqb_spec j u32_none); [done|]. rewrite lookup_insert_ne, Hsj by done. cbn [obind].
    unfold assert. rewrite Hpj, Hnj, !Z.eqb_refl. cbn [obind]. simpl.
    rewrite lookup_insert_ne, lookup_insert_eq by done. cbn [obind].
    eexists. split; [reflexivity|]. split.
    + split; [done|]. exists (set_na_sessions node i), last. simpl. rewrite lookup_insert_eq.
      split; [done|]. split; [done|]. split; [done|]. rewrite lookup_insert_eq. eexists.
      do 3 (split; [done|]).
      match goal with |- context [chain ?m' n j _ l last _] =>
        cut (chain m' n i j (j :: l) last u32_none); [intros H; exact H|] end.
      apply (chain_frame n (<[j := set_prev sj i]> (pool_elts (am_sessions am)))).
      * intros k Hk. assert (i <> k) by (intros ->; done). rewrite lookup_insert_ne by done.
        destruct (decide (j = k)) as [->|]; [by rewrite !lookup_insert_eq|].
        by rewrite !lookup_insert_ne.
      * by eapply (chain_set_prev n (pool_elts (am_sessions am)) u32_none i j).
    + intros n' l' Hn Hi' Hl'. assert (j ∉ l') as Hj'
        by (eapply (assoc_list_disjoint am n); eauto; by left).
      revert Hl'. apply assoc_list_frame; simpl; [by rewrite lookup_insert_ne|].
      intros k Hk. rewrite !lookup_insert_ne; [done|..]; by intros <-.
Qed.

(** Attaching a session puts it at the head of the list of its association:
    no assertion fails, and the lists of the other associations stay as they
    are. *)
Theorem attach_session_spec am n i l :
  assoc_list am n l -> i <> u32_none -> is_Some (pool_elts (am_sessions am) !! i) -> i ∉ l ->
  exists am', node_assoc_attach_session am n i = Ok am' /\ assoc_list am' n (i :: l) /\
  forall n' l', n' <> n -> i ∉ l' -> assoc_list am n' l' -> assoc_list am' n' l'.
Proof. apply attach_session_aux. Qed.

Section Detach.
Context (n : Z).

(** what the first part leaves: the chain before the session now leads to the
    one after it *)
Lemma detach_from_prev_spec am node first l1 a i nx :
  pool_elts (am_nodes am) !! n = Some node -> na_sessions node = first -> i <> u32_none ->
  NoDup l1 -> chain (pool_elts (am_sessions am)) n u32_none first l1 a i ->
  exists am' node', detach_from_prev am (mk_assoc n nx a) = Ok am'
  /\ pool_elts (am_nodes am') = <[n := node']> (pool_elts (am_nodes am))
  /\ chain (pool_elts (am_sessions am')) n u32_none (na_sessions node') l1 a nx
  /\ forall k, k ∉ l1 -> pool_elts (am_sessions am') !! k = pool_elts (am_sessions am) !! k.
Proof.
  intros Hnode Hfirst Hi Hnd Hch. unfold detach_from_prev. simpl.
  destruct l1 as [|b l1 _] using rev_ind.
  - destruct Hch as [Hfi ->]. rewrite Z.eqb_refl. unfold get_node, pool_elt. rewrite Hnode.
    cbn [obind]. destruct (Z.eqb_spec (na_sessions node) u32_none); [congruence|].
    unfold assert. simpl. eexists _, (set_na_sessions node nx). by repeat split.
  - pose proof (chain_last _ _ _ _ _ _ _ _ Hch) as ->.
    destruct (chain_elem _ _ _ _ _ _ _ b Hch) as (Hb & sb & Hsb & Hnb);
      [apply elem_of_app; right; by left|].
    destruct (Z.eqb_spec b u32_none); [done|]. unfold get_session, pool_elt. rewrite Hsb.
    cbn [obind]. unfold assert. rewrite Hnb, Z.eqb_refl. exists (put_session am b (set_next sb nx)), node.
    split; [done|]. split; [simpl; by rewrite insert_id|]. simpl. split.
    + rewrite Hfirst. by eapply chain_set_next.
    + intros k Hk. rewrite lookup_insert_ne; [done|]. intros <-. apply Hk, elem_of_app. right. by left.
Qed.

(** what the second part leaves *)
Lemma detach_from_next_spec am l2 a i nx last :
  NoDup l2 -> chain (pool_elts (am_sessions am)) n i nx l2 last u32_none ->
  exists am' last', detach_from_next am (mk_assoc n nx a) = Ok am'
  /\ am_nodes am' = am_nodes am
  /\ chain (pool_elts (am_sessions am')) n a nx l2 last' u32_none
  /\ forall k, k ∉ l2 -> pool_elts (am_sessions am') !! k = pool_elts (am_sessions am) !! k.
Proof.
  intros Hnd Hch. unfold detach_from_next. simpl. destruct l2 as [|j l2].
  - destruct Hch as [-> ->]. rewrite Z.eqb_refl. exists am, a. by repeat split.
  - pose proof Hch as (-> & Hj & sj & Hsj & Hnj & _). destruct (Z.eqb_spec j u32_none); [done|].
    unfold get_session, pool_elt. rewrite Hsj. cbn [obind]. unfold assert. rewrite Hnj, Z.eqb_refl.
    eexists _, last. split; [reflexivity|]. split; [done|]. split.
    + by eapply chain_set_prev.
    + intros k Hk. simpl. rewrite lookup_insert_ne; [done|]. intros <-. apply Hk. by left.
Qed.
End Detach.

Lemma detach_session_aux am n i l1 l2 :
  assoc_list am n (l1 ++ i :: l2) -> n <> u32_none ->
  exists am', node_assoc_detach_session am i = Ok am' /\ assoc_list am' n (l1 ++ l2) /\
  (forall n' l', n' <> n -> assoc_list am n' l' -> assoc_list am' n' l') /\
  exists sx, pool_elts (am_sessions am') !! i = Some sx
             /\ sx_assoc_ sx = mk_assoc u32_none u32_none u32_none.
Proof.
  intros Hl Hn. pose proof Hl as (Hnd & node & last & Hnode & Hch).
  apply chain_app in Hch as (a & b & H1 & (-> & Hi & sx & Hsx & Hnsx & Hpsx & H2)).
  apply NoDup_app in Hnd as (Hnd1 & Hdis & [Hi2 Hnd2]%NoDup_cons).
  assert (i ∉ l1) as Hi1 by (intros Hin; apply (Hdis i Hin); by left).
  unfold node_assoc_detach_session. unfold get_session at 1, pool_elt. rewrite Hsx. cbn [obind].
  unfold assert at 1 2, pool_is_free_index. rewrite Hnsx, Hnode, bool_decide_false by done.
  destruct (Z.eqb_spec n u32_none); [done|]. cbn [negb].
  assert (sx_assoc_ sx = mk_assoc n (as_next (sx_assoc_ sx)) a) as ->
    by (destruct (sx_assoc_ sx); simpl in *; congruence).
  set (nx := as_next (sx_assoc_ sx)) in *.
  destruct (detach_from_prev_spec n am node _ l1 a i nx Hnode eq_refl Hi Hnd1 H1)
    as (am1 & node' & -> & Hn1 & Hc1 & Hf1). cbn [obind].
  assert (chain (pool_elts (am_sessions am1)) n i nx l2 last u32_none) as H2'.
  { eapply chain_frame; [|exact H2]. intros k Hk. apply Hf1. intros Hk1. apply (Hdis k Hk1). by right. }
  destruct (detach_from_next_spec n am1 l2 a i nx last Hnd2 H2') as (am2 & last' & -> & Hn2 & Hc2 & Hf2).
  cbn [obind]. unfold get_session, pool_elt. rewrite Hf2, Hf1, Hsx by done. cbn [obind].
  eexists. split; [reflexivity|]. split; [|split].
  - split; [apply NoDup_app; split; [done|]; split; [|done]; intros k Hk Hk2; apply (Hdis k Hk); by right|].
    exists node', last'. simpl. rewrite Hn2, Hn1, lookup_insert_eq. split; [done|].
    apply chain_app. exists a, nx. split.
    + eapply chain_frame; [|exact Hc1]. intros k Hk. rewrite lookup_insert_ne by (by intros <-).
      apply Hf2. intros Hk2. apply (Hdis k Hk). by right.
    + eapply chain_frame; [|exact Hc2]. intros k Hk. by rewrite lookup_insert_ne by (by intros <-).
  - intros n' l' Hn' Hl'. assert (forall k, k ∈ l' -> k ∉ l1 ++ i :: l2) as Hd
      by (intros k Hk Hk'; by apply (assoc_list_disjoint am n (l1 ++ i :: l2) n' l' k)).
    revert Hl'. apply assoc_list_frame; simpl; [by rewrite Hn2, Hn1, lookup_insert_ne|].
    intros k Hk. specialize (Hd k Hk). rewrite elem_of_app, elem_of_cons in Hd.
    rewrite lookup_insert_ne by (intros <-; tauto). rewrite Hf2, Hf1 by tauto. done.
  - eexists. simpl. by rewrite lookup_insert_eq.
Qed.

(** Detaching a session takes it out of the list of its association, at the
    head, in the middle or at the end, and keeps the order of the others: no
    assertion fails, the session belongs to no association any more, and the
    lists of the other associations stay as they are. *)
Theorem detach_session_spec am n i l1 l2 :
  assoc_list am n (l1 ++ i :: l2) -> n <> u32_none ->
  exists am', node_assoc_detach_session am i = Ok am' /\ assoc_list am' n (l1 ++ l2) /\
  (forall n' l', n' <> n -> assoc_list am n' l' -> assoc_list am' n' l') /\
  exists sx, pool_elts (am_sessions am') !! i = Some sx
             /\ sx_assoc_ sx = mk_assoc u32_none u32_none u32_none.
Proof. apply detach_session_aux. Qed.

(** the sessions keep their SEIDs *)
Definition keeps_seids (am am' : assoc_main) : Prop :=
  forall k sx, pool_elts (am_sessions am) !! k = Some sx ->
  exists sx', pool_elts (am_sessions am') !! k = Some sx' /\ sx_cp_seid sx' = sx_cp_seid sx.

Lemma put_session_keeps am i sx a :
  pool_elts (am_sessions am) !! i = Some sx -> keeps_seids am (put_session am i (set_assoc sx a)).
Proof.
  intros E k sk Hk. simpl. destruct (decide (i = k)) as [->|].
  - rewrite lookup_insert_eq. eexists. split; [done|]. simpl. congruence.
  - rewrite lookup_insert_ne by done. eauto.
Qed.

Lemma keeps_seids_trans am1 am2 am3 :
  keeps_seids am1 am2 -> keeps_seids am2 am3 -> keeps_seids am1 am3.
Proof. intros H1 H2 k sx (sx' & (sx2 & ? & ?)%H2 & ?)%H1. exists sx2. split; [done|congruence]. Qed.

Lemma attach_keeps am n i am' :
  node_assoc_attach_session am n i = Ok am' -> keeps_seids am am'
  /\ am_session_by_id am' = am_session_by_id am.
Proof.
  unfold node_assoc_attach_session, get_node, get_session, pool_elt.
  destruct (pool_elts (am_nodes am) !! n) as [node|]; [|done]. cbn [obind].
  destruct (pool_elts (am_sessions am) !! i) as [sx|] eqn:E1; [|done]. cbn [obind].
  set (am1 := put_session am i _).
  assert (keeps_seids am am1) as H1 by (by apply put_session_keeps).
  destruct (if na_sessions node =? u32_none then _ else _) as [am2|c|f] eqn:E2; [|done..].
  assert (keeps_seids am1 am2 /\ am_session_by_id am2 = am_session_by_id am1) as [H2 Hid].
  { destruct (na_sessions node =? u32_none); [injection E2 as <-; split; [|done]; intros k sk; eauto|].
    destruct (pool_elts (am_sessions am1) !! na_sessions node) as [sp|] eqn:Ep; [|done].
    revert E2. cbn [obind]. unfold assert. do 2 (destruct (_ =? _); [|done]). intros [= <-].
    split; [by apply put_session_keeps|done]. }
  cbn [obind]. destruct (pool_elts (am_sessions am2) !! i) as [sx2|] eqn:E3; [|done]. cbn [obind].
  intros [= <-]. split; [|exact Hid].
  eapply keeps_seids_trans; [exact H1|]. eapply keeps_seids_trans; [exact H2|].
  exact (put_session_keeps am2 i sx2 _ E3).
Qed.

(** Creating a session: it gets an unused index, is found by its SEID
    afterwards and starts the list of its association; the entries of other
    SEIDs and the lists of other associations are not disturbed. *)
Theorem create_session_spec {P : VppPool} {POk : VppPoolOk P} am n l up_address seid cp_address t now :
  assoc_list am n l -> pool_room (am_sessions am) ->
  exists i am',
  pfcp_create_session am n up_address seid cp_address t now = Ok (i, am')
  /\ pool_elts (am_sessions am) !! i = None /\ assoc_list am' n (i :: l)
  /\ (exists sx, pfcp_lookup am' seid = Ok (Some (i, sx)) /\ sx_cp_seid sx = seid)
  /\ (forall k, k <> seid -> am_session_by_id am' !! k = am_session_by_id am !! k)
  /\ forall n' l', n' <> n -> assoc_list am n' l' -> assoc_list am' n' l'.
Proof.
  intros Hl Hroom. destruct (pool_pick_free _ (pool_free (am_sessions am)) Hroom) as [Hfree Hi].
  unfold pfcp_create_session, pool_get. set (i := pool_pick _ _) in *.
  set (sx0 := mk_session _ _ _ _ _ _ _ _ _ _ _). set (am1 := am_set_sessions am _).
  assert (forall n' l', assoc_list am n' l' -> (i ∉ l') /\ assoc_list am1 n' l') as Hframe.
  { intros n' l' Hl'. assert (i ∉ l') as Hni.
    { intros Hin. destruct Hl' as (_ & node & last & _ & Hch).
      destruct (chain_elem _ _ _ _ _ _ _ i Hch Hin) as (_ & sx & Hsx & _). congruence. }
    split; [done|]. revert Hl'. apply assoc_list_frame; [done|].
    intros k Hk. simpl. rewrite lookup_insert_ne; [done|]. by intros <-. }
  destruct (Hframe n l Hl) as [Hni Hl1].
  assert (pool_elts (am_sessions am1) !! i = Some sx0) as Hi1 by apply lookup_insert_eq.
  destruct (attach_session_aux am1 n i l Hl1) as (am2 & E & Hl2 & Hoth); [lia|by eexists|done|].
  rewrite E. cbn [obind]. apply attach_keeps in E as [Hk Hid].
  do 2 eexists. split; [reflexivity|]. split; [done|]. split; [exact Hl2|].
  split; [|split].
  - destruct (Hk _ _ Hi1) as (sx & Hsx & Hseid). exists sx. split; [|done].
    unfold pfcp_lookup, get_session, pool_elt. simpl. by rewrite lookup_insert_eq, Hsx.
  - intros k Hks. simpl. rewrite lookup_insert_ne, Hid by done. done.
  - intros n' l' Hn' Hl'. destruct (Hframe n' l' Hl'). exact (Hoth n' l' Hn' ltac:(done) ltac:(done)).
Qed.

(** ** An association with two sessions *)

Definition a_node_id : pfcp_node_id_t :=
  {| nid_type := NID_IPv4; nid_ip := ip46_address_set_ip4 [10; 0; 0; 1]; nid_fqdn := None |}.

Definition am_empty : assoc_main := mk_amain pool_empty ∅ ∅ pool_empty ∅ 0 0.
Definition am_one : assoc_main :=
  snd (@pfcp_new_association pool_lifo am_empty 3 ip6_zero ip6_zero a_node_id).
Definition create_session (am : assoc_main) (seid : Z) : assoc_main :=
  match @pfcp_create_session pool_lifo am 0 ip6_zero seid ip6_zero f64_zero f64_zero with
  | Ok (_, am) => am
  | _ => am
  end.
Definition am_two : assoc_main := create_session (create_session am_one 100) 200.

Lemma am_two_list : assoc_list am_two 0 [1; 0].
Proof.
  split; [by_eval|]. eexists _, 0. split; [vm_compute; reflexivity|].
  split; [reflexivity|]. split; [discriminate|]. eexists. split; [vm_compute; reflexivity|].
  split; [reflexivity|]. split; [reflexivity|]. split; [reflexivity|]. split; [discriminate|].
  eexists. split; [vm_compute; reflexivity|]. split; [reflexivity|]. split; [reflexivity|].
  split; reflexivity.
Qed.

(** a third session, not yet attached *)
Definition am_three : assoc_main :=
  put_session am_two 7 (mk_session f64_zero ip6_zero 300 ip6_zero (mk_assoc 0 0 0) 0 0
    rules_zero rules_zero f64_zero 0).

Lemma am_three_list : assoc_list am_three 0 [1; 0].
Proof. apply assoc_list_put_session; [by_eval|exact am_two_list]. Qed.

Lemma attach_session_spec_witness :
  exists am', node_assoc_attach_session am_three 0 7 = Ok am' /\ assoc_list am' 0 [7; 1; 0] /\
  forall n' l', n' <> 0 -> 7 ∉ l' -> assoc_list am_three n' l' -> assoc_list am' n' l'.
Proof.
  apply (attach_session_spec am_three 0 7 [1; 0] am_three_list); [discriminate| |by_eval].
  eexists. unfold am_three, put_session. cbn [am_set_sessions am_sessions pool_set pool_elts].
  apply lookup_insert_eq.
Defined.

Lemma detach_session_spec_witness :
  exists am', node_assoc_detach_session am_two 0 = Ok am' /\ assoc_list am' 0 ([1] ++ []) /\
  (forall n' l', n' <> 0 -> assoc_list am_two n' l' -> assoc_list am' n' l') /\
  exists sx, pool_elts (am_sessions am') !! 0 = Some sx
             /\ sx_assoc_ sx = mk_assoc u32_none u32_none u32_none.
Proof. apply (detach_session_spec am_two 0 0 [1] []); [exact am_two_list|discriminate]. Defined.

Lemma create_session_spec_witness :
  exists i am',
  @pfcp_create_session pool_lifo am_two 0 ip6_zero 300 ip6_zero f64_zero f64_zero = Ok (i, am')
  /\ pool_elts (am_sessions am_two) !! i = None /\ assoc_list am' 0 [i; 1; 0]
  /\ (exists sx, pfcp_lookup am' 300 = Ok (Some (i, sx)) /\ sx_cp_seid sx = 300)
  /\ (forall k, k <> 300 -> am_session_by_id am' !! k = am_session_by_id am_two !! k)
  /\ forall n' l', n' <> 0 -> assoc_list am_two n' l' -> assoc_list am' n' l'.
Proof.
  apply (@create_session_spec pool_lifo pool_lifo_ok am_two 0 [1; 0]);
    [exact am_two_list|vm_compute; reflexivity].
Defined.
