(* ===== verification/FlowTcp.v ===== *)
(** * The TCP state of a flow (src/upf/flowtable_tcp.h)

    The flow table follows the TCP connection of a flow through the flags of its
    packets; the state decides how long an idle flow is kept. The table of
    transitions is followed here for every sequence of segments. *)

From Stdlib Require Import ZArith Lia.
From stdpp Require Import base list list_numbers option numbers decidable relations.
From S2P Require Import Prelude.

Inductive tcp_f_state :=
| TCP_F_STATE_START
| TCP_F_STATE_SYN
| TCP_F_STATE_SYNACK
| TCP_F_STATE_ESTABLISHED
| TCP_F_STATE_FIN
| TCP_F_STATE_FINACK
| TCP_F_STATE_RST.

Inductive tcp_ev :=
| TCP_EV_NONE
| TCP_EV_SYN
| TCP_EV_SYNACK
| TCP_EV_FIN
| TCP_EV_FINACK
| TCP_EV_RST
| TCP_EV_PSHACK.

#[export] Instance tcp_f_state_eq_dec : EqDecision tcp_f_state.
Proof. solve_decision. Defined.
#[export] Instance tcp_ev_eq_dec : EqDecision tcp_ev.
Proof. solve_decision. Defined.

(** flow lifetime in seconds; the entry of the start state is not given *)
Definition tcp_lifetime (s : tcp_f_state) : Z :=
  match s with
  | TCP_F_STATE_START => 0
  | TCP_F_STATE_SYN => 15
  | TCP_F_STATE_SYNACK => 60
  | TCP_F_STATE_ESTABLISHED => 299
  | TCP_F_STATE_FIN => 15
  | TCP_F_STATE_FINACK => 3
  | TCP_F_STATE_RST => 6
  end.

(** an entry that is not given is 0, the start state *)
Definition tcp_trans (s : tcp_f_state) (e : tcp_ev) : tcp_f_state :=
  match s, e with
  | TCP_F_STATE_START, TCP_EV_SYN => TCP_F_STATE_SYN
  | TCP_F_STATE_START, TCP_EV_SYNACK => TCP_F_STATE_SYNACK
  | TCP_F_STATE_START, TCP_EV_FIN => TCP_F_STATE_FIN
  | TCP_F_STATE_START, TCP_EV_FINACK => TCP_F_STATE_FINACK
  | TCP_F_STATE_START, TCP_EV_RST => TCP_F_STATE_RST
  | TCP_F_STATE_START, TCP_EV_NONE => TCP_F_STATE_ESTABLISHED
  | TCP_F_STATE_SYN, TCP_EV_SYNACK => TCP_F_STATE_SYNACK
  | TCP_F_STATE_SYN, TCP_EV_PSHACK => TCP_F_STATE_ESTABLISHED
  | TCP_F_STATE_SYN, TCP_EV_FIN => TCP_F_STATE_FIN
  | TCP_F_STATE_SYN, TCP_EV_FINACK => TCP_F_STATE_FINACK
  | TCP_F_STATE_SYN, TCP_EV_RST => TCP_F_STATE_RST
  | TCP_F_STATE_SYNACK, TCP_EV_PSHACK => TCP_F_STATE_ESTABLISHED
  | TCP_F_STATE_SYNACK, TCP_EV_FIN => TCP_F_STATE_FIN
  | TCP_F_STATE_SYNACK, TCP_EV_FINACK => TCP_F_STATE_FINACK
  | TCP_F_STATE_SYNACK, TCP_EV_RST => TCP_F_STATE_RST
  | TCP_F_STATE_ESTABLISHED, TCP_EV_FIN => TCP_F_STATE_FIN
  | TCP_F_STATE_ESTABLISHED, TCP_EV_FINACK => TCP_F_STATE_FINACK
  | TCP_F_STATE_ESTABLISHED, TCP_EV_RST => TCP_F_STATE_RST
  | TCP_F_STATE_FIN, TCP_EV_FINACK => TCP_F_STATE_FINACK
  | TCP_F_STATE_FIN, TCP_EV_RST => TCP_F_STATE_RST
  | TCP_F_STATE_FINACK, TCP_EV_RST => TCP_F_STATE_RST
  | _, _ => TCP_F_STATE_START
  end.

(** the flags octet of a TCP header (RFC 9293) *)
Definition TCP_FLAG_FIN : Z := 0x01.
Definition TCP_FLAG_SYN : Z := 0x02.
Definition TCP_FLAG_RST : Z := 0x04.
Definition TCP_FLAG_ACK : Z := 0x10.

Definition tcp_event (flags : Z) : tcp_ev :=
  if flag flags TCP_FLAG_SYN && flag flags TCP_FLAG_ACK then TCP_EV_SYNACK
  else if flag flags TCP_FLAG_SYN then TCP_EV_SYN
  else if flag flags TCP_FLAG_FIN && flag flags TCP_FLAG_ACK then TCP_EV_FINACK
  else if flag flags TCP_FLAG_FIN then TCP_EV_FIN
  else if flag flags TCP_FLAG_RST then TCP_EV_RST
  else TCP_EV_PSHACK.

(** the test [new_state && old_state != new_state] of flow_tcp_update_lifetime:
    the state a segment with these flags moves the flow to, if it does *)
Definition tcp_next (s : tcp_f_state) (flags : Z) : option tcp_f_state :=
  let new := tcp_trans s (tcp_event flags) in
  if bool_decide (new <> TCP_F_STATE_START) && bool_decide (s <> new) then Some new else None.

(** ** Runs of segments *)

Inductive tcp_step : tcp_f_state -> tcp_f_state -> Prop :=
| tcp_step_seg s flags s' : tcp_next s flags = Some s' -> tcp_step s s'.

(** how far the connection has come *)
Definition tcp_rank (s : tcp_f_state) : nat :=
  match s with
  | TCP_F_STATE_START => 0
  | TCP_F_STATE_SYN => 1
  | TCP_F_STATE_SYNACK => 2
  | TCP_F_STATE_ESTABLISHED => 3
  | TCP_F_STATE_FIN => 4
  | TCP_F_STATE_FINACK => 5
  | TCP_F_STATE_RST => 6
  end.

Lemma tcp_next_event s flags s' :
  tcp_next s flags = Some s' ->
  exists e, e <> TCP_EV_NONE /\ s' = tcp_trans s e /\ s' <> TCP_F_STATE_START /\ s <> s'.
Proof.
  unfold tcp_next. case_test; [|done]. intros [= <-]. btest.
  exists (tcp_event flags). repeat split; try done. unfold tcp_event. by repeat case_match.
Qed.

Lemma tcp_step_rank s s' : tcp_step s s' -> (tcp_rank s < tcp_rank s')%nat.
Proof.
  destruct 1 as [s flags s' (e & He & -> & Hs & Hne)%tcp_next_event].
  destruct s, e; simpl in *; try done; lia.
Qed.

Lemma tcp_nsteps_rank n s s' : nsteps tcp_step n s s' -> (tcp_rank s + n <= tcp_rank s')%nat.
Proof.
  induction 1 as [|n s1 s2 s3 H1 _ IH]; [lia|]. apply tcp_step_rank in H1. lia.
Qed.

(** every segment that gives the flow a lifetime gives it a positive one *)
Lemma tcp_next_lifetime s flags s' :
  tcp_next s flags = Some s' -> 3 <= tcp_lifetime s' <= 299.
Proof.
  intros (e & _ & _ & Hs & _)%tcp_next_event. destruct s'; simpl; try done; lia.
Qed.

(** from START no segment leads to ESTABLISHED directly *)
Lemma tcp_start_next flags s :
  tcp_next TCP_F_STATE_START flags = Some s -> s <> TCP_F_STATE_ESTABLISHED.
Proof. intros (e & He & -> & _ & _)%tcp_next_event. by destruct e. Qed.

(** The TCP state of a flow only moves forward: whatever flags arrive, a
    flow changes its state at most six times, no state comes back, every state
    entered has a lifetime of 3 to 299 seconds, and after a reset nothing
    changes any more. *)
Theorem tcp_state_progress n s s' :
  nsteps tcp_step n s s' ->
  (n <= 6)%nat /\ (n <> O -> s' <> s) /\ (n <> O -> 3 <= tcp_lifetime s' <= 299)
  /\ (s = TCP_F_STATE_RST -> n = O).
Proof.
  intros H. pose proof (tcp_nsteps_rank _ _ _ H) as Hr.
  assert (tcp_rank s' <= 6)%nat by (destruct s'; simpl; lia).
  split; [lia|]. split; [intros ? ->; lia|]. split.
  - intros Hn. destruct n as [|n]; [done|]. apply nsteps_inv_r in H as (s2 & _ & H).
    destruct H as [s2 flags s' E]. by apply tcp_next_lifetime in E.
  - intros ->. simpl in Hr. lia.
Qed.

(** a handshake, data, a close and a reset *)
Lemma tcp_state_progress_witness :
  nsteps tcp_step 6 TCP_F_STATE_START TCP_F_STATE_RST
  /\ (6 <= 6)%nat /\ (6%nat <> O -> TCP_F_STATE_RST <> TCP_F_STATE_START)
  /\ (6%nat <> O -> 3 <= tcp_lifetime TCP_F_STATE_RST <= 299)
  /\ (TCP_F_STATE_START = TCP_F_STATE_RST -> 6%nat = O).
Proof.
  assert (nsteps tcp_step 6 TCP_F_STATE_START TCP_F_STATE_RST) as H.
  { apply nsteps_l with TCP_F_STATE_SYN; [by apply (tcp_step_seg _ 0x02)|].
    apply nsteps_l with TCP_F_STATE_SYNACK; [by apply (tcp_step_seg _ 0x12)|].
    apply nsteps_l with TCP_F_STATE_ESTABLISHED; [by apply (tcp_step_seg _ 0x10)|].
    apply nsteps_l with TCP_F_STATE_FIN; [by apply (tcp_step_seg _ 0x01)|].
    apply nsteps_l with TCP_F_STATE_FINACK; [by apply (tcp_step_seg _ 0x11)|].
    apply nsteps_once. by apply (tcp_step_seg _ 0x04). }
  split; [exact H|]. exact (tcp_state_progress 6 _ _ H).
Defined.

(** A flow whose first segment seen carries data, the connection being older
    than the flow, stays in the start state until it closes: the transition
    from START to ESTABLISHED asks for an event no segment raises. *)
Theorem tcp_midstream_unestablished flags :
  tcp_event flags = TCP_EV_PSHACK -> tcp_next TCP_F_STATE_START flags = None.
Proof. intros E. unfold tcp_next. by rewrite E. Qed.
