(* ===== verification/FlowKey.v ===== *)
(** * Keys of flows (src/upf/flowtable.h, parse_packet_protocol to flow_mk_key)

    The key of a flow is made from the headers of any of its packets so that
    both directions of a connection give the same key; which direction a packet
    has is returned beside it. *)

From Stdlib Require Import ZArith Lia.
From stdpp Require Import base list list_numbers option numbers decidable gmap.
From S2P Require Import Prelude PfcpIo PfcpIe UpfVec UpfUrr.

(** ** Arrays of FT_ORDER_MAX entries *)

Inductive flow_direction_t := FT_ORIGIN | FT_REVERSE.
#[export] Instance flow_direction_eq_dec : EqDecision flow_direction_t.
Proof. solve_decision. Defined.

(** [a ^ b] on directions, 0 and 1 *)
Definition dir_xor (a b : flow_direction_t) : flow_direction_t :=
  match a with
  | FT_ORIGIN => b
  | FT_REVERSE => match b with FT_ORIGIN => FT_REVERSE | FT_REVERSE => FT_ORIGIN end
  end.

Record order (A : Type) := mk_order { o_origin : A; o_reverse : A }.
Arguments mk_order {A} o_origin o_reverse.
Arguments o_origin {A} o.
Arguments o_reverse {A} o.
#[export] Instance order_eq_dec {A} `{EqDecision A} : EqDecision (order A).
Proof. solve_decision. Defined.

Definition order_get {A} (o : order A) (d : flow_direction_t) : A :=
  match d with FT_ORIGIN => o_origin o | FT_REVERSE => o_reverse o end.
Definition order_set {A} (o : order A) (d : flow_direction_t) (x : A) : order A :=
  match d with
  | FT_ORIGIN => mk_order x (o_reverse o)
  | FT_REVERSE => mk_order (o_origin o) x
  end.

(** ** Keys *)

Record flow_key_t := mk_flow_key {
  fk_seid : Z; fk_ip : order (list Z); fk_port : order Z; fk_proto : Z }.
#[export] Instance flow_key_eq_dec : EqDecision flow_key_t.
Proof. solve_decision. Defined.
#[export] Instance flow_key_countable : Countable flow_key_t.
Proof.
  refine (inj_countable'
    (fun k => (fk_seid k, (o_origin (fk_ip k), o_reverse (fk_ip k)),
               (o_origin (fk_port k), o_reverse (fk_port k)), fk_proto k))
    (fun '(s, (a, b), (p, q), r) => mk_flow_key s (mk_order a b) (mk_order p q) r) _).
  by intros [s [a b] [p q] r].
Defined.

Definition IP_PROTOCOL_ICMP : Z := 1.
Definition IP_PROTOCOL_TCP : Z := 6.
Definition IP_PROTOCOL_UDP : Z := 17.

(** the comparison of addresses belongs to VPP; the keys rely on the sign
    changing when the addresses are exchanged *)
Class IpCompare := {
  ip4_address_compare : list Z -> list Z -> Z;
  ip6_address_compare : list Z -> list Z -> Z
}.
Class IpCompareOk (I : IpCompare) := {
  ip4_compare_flip a b :
    length a = length b -> a <> b -> (ip4_address_compare a b <? 0) = negb (ip4_address_compare b a <? 0);
  ip6_compare_flip a b :
    length a = length b -> a <> b -> (ip6_address_compare a b <? 0) = negb (ip6_address_compare b a <? 0)
}.

(** an instance: the order of the octets *)
Definition memcmp_compare : IpCompare := {| ip4_address_compare := memcmp; ip6_address_compare := memcmp |}.
#[export] Instance memcmp_compare_ok : IpCompareOk memcmp_compare.
Proof.
  assert (forall a b : list Z, length a = length b -> a <> b ->
    (memcmp a b <? 0) = negb (memcmp b a <? 0)) as H; [|by split; apply H].
  intros a b Hl Hne. pose proof (memcmp_flip a b Hl) as Hf.
  pose proof (memcmp_eq_iff a b Hl) as He.
  destruct (Z.ltb_spec (memcmp a b) 0), (Z.ltb_spec (memcmp b a) 0);
    destruct (memcmp a b), (memcmp b a); simpl in *; try lia; tauto.
Qed.

(** a u16 in network byte order, as the code keeps it *)
Definition load_u16 (l : list Z) (off : Z) : Z := de_le (take 2 (drop (Z.to_nat off) l)).

(** ip4_next_header and ip6_next_header: where the transport header starts *)
Definition l4_offset (p : packet) (is_ip4 : bool) : Z :=
  if is_ip4 then 4 * Z.land (ip_version_and_header_length p) 0x0f else 40.

Definition has_ports (proto : Z) : bool := (proto =? IP_PROTOCOL_UDP) || (proto =? IP_PROTOCOL_TCP).

Definition key_zero : flow_key_t :=
  mk_flow_key 0 (mk_order ip6_zero ip6_zero) (mk_order 0 0) 0.

Section Keys.
Context {I : IpCompare}.

Definition parse_packet_protocol (udp : Z * Z) (is_reverse : flow_direction_t) (key : flow_key_t)
  : flow_key_t :=
  let port :=
    if has_ports (fk_proto key) then
      order_set (order_set (fk_port key) (dir_xor FT_ORIGIN is_reverse) (fst udp))
        (dir_xor FT_REVERSE is_reverse) (snd udp)
    else mk_order 0 0 in
  mk_flow_key (fk_seid key) (fk_ip key) port (fk_proto key).

(** the source and destination port, which TCP and UDP have at the same offset *)
Definition udp_ports (p : packet) (is_ip4 : bool) : Z * Z :=
  (load_u16 (pk_l3 p) (l4_offset p is_ip4), load_u16 (pk_l3 p) (l4_offset p is_ip4 + 2)).

Definition set_ips (key : flow_key_t) (proto : Z) (is_reverse : flow_direction_t) (src dst : list Z)
  : flow_key_t :=
  mk_flow_key (fk_seid key)
    (order_set (order_set (fk_ip key) (dir_xor FT_ORIGIN is_reverse) src)
       (dir_xor FT_REVERSE is_reverse) dst)
    (fk_port key) proto.

Definition parse_ip4_packet (p : packet) (key : flow_key_t) : flow_direction_t * flow_key_t :=
  let src := ip4_src_address p in
  let dst := ip4_dst_address p in
  let is_reverse := if ip4_address_compare src dst <? 0 then FT_REVERSE else FT_ORIGIN in
  let key := set_ips key (nth 9 (pk_l3 p) 0) is_reverse (ip46_address_set_ip4 src)
               (ip46_address_set_ip4 dst) in
  (is_reverse, parse_packet_protocol (udp_ports p true) is_reverse key).

Definition parse_ip6_packet (p : packet) (key : flow_key_t) : flow_direction_t * flow_key_t :=
  let src := ip6_src_address p in
  let dst := ip6_dst_address p in
  let is_reverse := if ip6_address_compare src dst <? 0 then FT_REVERSE else FT_ORIGIN in
  let key := set_ips key (nth 6 (pk_l3 p) 0) is_reverse src dst in
  (is_reverse, parse_packet_protocol (udp_ports p false) is_reverse key).

(** the direction of the packet and the key, cleared first *)
Definition flow_mk_key (seid : Z) (p : packet) (is_ip4 : bool) : flow_direction_t * flow_key_t :=
  let key := mk_flow_key seid (fk_ip key_zero) (fk_port key_zero) (fk_proto key_zero) in
  if is_ip4 then parse_ip4_packet p key else parse_ip6_packet p key.

(** ** Connections *)

Definition pkt_proto (p : packet) (is_ip4 : bool) : Z := nth (if is_ip4 then 9 else 6)%nat (pk_l3 p) 0.
Definition pkt_src (p : packet) (is_ip4 : bool) : list Z :=
  if is_ip4 then ip4_src_address p else ip6_src_address p.
Definition pkt_dst (p : packet) (is_ip4 : bool) : list Z :=
  if is_ip4 then ip4_dst_address p else ip6_dst_address p.

(** the two ends of the connection a packet belongs to: address and port *)
Definition src_end (p : packet) (is_ip4 : bool) : list Z * Z :=
  (pkt_src p is_ip4, if has_ports (pkt_proto p is_ip4) then fst (udp_ports p is_ip4) else 0).
Definition dst_end (p : packet) (is_ip4 : bool) : list Z * Z :=
  (pkt_dst p is_ip4, if has_ports (pkt_proto p is_ip4) then snd (udp_ports p is_ip4) else 0).

Definition pkt_dir (p : packet) (is_ip4 : bool) : flow_direction_t :=
  let c := if is_ip4 then ip4_address_compare else ip6_address_compare in
  if c (pkt_src p is_ip4) (pkt_dst p is_ip4) <? 0 then FT_REVERSE else FT_ORIGIN.

Definition ip46_of (is_ip4 : bool) (a : list Z) : list Z := if is_ip4 then ip46_address_set_ip4 a else a.

(** source and destination in the order of the key *)
Definition place {A} (d : flow_direction_t) (src dst : A) : order A :=
  match d with FT_ORIGIN => mk_order src dst | FT_REVERSE => mk_order dst src end.

Lemma flow_mk_key_eq seid p is_ip4 :
  flow_mk_key seid p is_ip4
  = (pkt_dir p is_ip4,
     mk_flow_key seid
       (place (pkt_dir p is_ip4) (ip46_of is_ip4 (pkt_src p is_ip4)) (ip46_of is_ip4 (pkt_dst p is_ip4)))
       (place (pkt_dir p is_ip4) (snd (src_end p is_ip4)) (snd (dst_end p is_ip4)))
       (pkt_proto p is_ip4)).
Proof.
  unfold flow_mk_key, pkt_dir, src_end, dst_end, pkt_proto, pkt_src, pkt_dst, ip46_of. destruct is_ip4;
    unfold parse_ip4_packet, parse_ip6_packet, parse_packet_protocol, set_ips; cbn [fk_proto fk_seid fk_ip fk_port];
    destruct (_ <? 0), (has_ports _); reflexivity.
Qed.
End Keys.

(** the headers are all there *)
Definition has_ip_header (p : packet) (is_ip4 : bool) : bool :=
  (if is_ip4 then 20 else 40) <=? Zlen (pk_l3 p).

Lemma pkt_addr_len p is_ip4 :
  has_ip_header p is_ip4 = true ->
  length (pkt_src p is_ip4) = (if is_ip4 then 4 else 16)%nat
  /\ length (pkt_dst p is_ip4) = (if is_ip4 then 4 else 16)%nat.
Proof.
  unfold has_ip_header, Zlen. intros H%Z.leb_le.
  destruct is_ip4; unfold pkt_src, pkt_dst, ip4_src_address, ip4_dst_address, ip6_src_address,
    ip6_dst_address; rewrite !length_take, !length_drop; lia.
Qed.

Lemma ip46_of_inj is_ip4 a b : ip46_of is_ip4 a = ip46_of is_ip4 b -> a = b.
Proof. destruct is_ip4; [|done]. apply (app_inv_head ip46_pad). Qed.

Section Connections.
Context `{IOk : IpCompareOk}.

Lemma pkt_dir_swap p q is_ip4 :
  has_ip_header p is_ip4 = true -> pkt_src p is_ip4 <> pkt_dst p is_ip4 ->
  pkt_src p is_ip4 = pkt_dst q is_ip4 -> pkt_dst p is_ip4 = pkt_src q is_ip4 ->
  pkt_dir q is_ip4 <> pkt_dir p is_ip4.
Proof using IOk.
  intros [Hs Hd]%pkt_addr_len Hne E1 E2. unfold pkt_dir. rewrite <- E1, <- E2.
  destruct is_ip4; [rewrite (ip4_compare_flip (pkt_dst p true) (pkt_src p true)) by congruence
    |rewrite (ip6_compare_flip (pkt_dst p false) (pkt_src p false)) by congruence];
    by destruct (_ <? 0).
Qed.

End Connections.

(** ** A DNS exchange *)

Definition dns_query : packet :=
  mk_packet 28 ([0x45; 0; 0; 28; 0; 0; 0; 0; 64; 17; 0; 0; 10; 0; 0; 1; 8; 8; 8; 8]
                ++ [0x30; 0x39; 0; 53; 0; 8; 0; 0]).
Definition dns_reply : packet :=
  mk_packet 28 ([0x45; 0; 0; 28; 0; 0; 0; 0; 64; 17; 0; 0; 8; 8; 8; 8; 10; 0; 0; 1]
                ++ [0; 53; 0x30; 0x39; 0; 8; 0; 0]).


Lemma dns_exchange_one_flow :
  snd (@flow_mk_key memcmp_compare 7 dns_query true) = snd (@flow_mk_key memcmp_compare 7 dns_reply true)
  /\ fst (@flow_mk_key memcmp_compare 7 dns_query true) = FT_ORIGIN
  /\ fst (@flow_mk_key memcmp_compare 7 dns_reply true) = FT_REVERSE.
Proof. by_eval. Qed.
