(* ===== verification/FlowTable.v ===== *)
(** * The flow table (src/upf/flowtable.h, flowtable.c, flowtable_init.c)

    Flows are entries of a pool, found by key in a hash table and by age in a
    timer wheel: a slot per second modulo the largest lifetime, each a list of
    timers. Unused entries wait in a cache of the thread. The model follows one
    worker thread: its part of flowtable_main_per_cpu_t and the shared
    flowtable_main_t. The packet side is upf_flow_process of upf_flow_node.c.
    The containers of vppinfra are a finite map (bihash), [pool] and lists
    (vectors and dlists). *)

From Stdlib Require Import ZArith Lia.
From stdpp Require Import base list list_numbers option numbers decidable gmap fin_maps.
From S2P Require Import Prelude PfcpIo PfcpIe UpfTypes UpfUrr UpfRules FlowTcp FlowKey.

(** ** Flows *)

Record flow_stats_t := mk_stats { fs_pkts : Z; fs_bytes : Z }.
Record flow_tc_t := mk_tc { tc_conn_index : Z; tc_thread_index : Z }.

Record flow_entry_t := mk_flow {
  fe_key : flow_key_t; fe_session_index : Z; fe_is_reverse : flow_direction_t;
  fe_is_redirect : bool; fe_is_l3_proxy : bool; fe_is_spliced : bool; fe_spliced_dirty : bool;
  fe_dont_splice : bool; fe_app_detection_done : bool; fe_tcp_state : tcp_f_state; fe_ps_index : Z;
  fe_stats : order flow_stats_t; fe_active : Z; fe_lifetime : Z; fe_timer_index : Z;
  fe_application_id : Z; fe_pdr_id : order Z; fe_teid : order Z; fe_next : order Z;
  fe_tc : order flow_tc_t; fe_seq_offs : order Z; fe_tsval_offs : order Z; fe_app_uri : vec Z;
  fe_generation : Z }.

(** memset 0 *)
Definition both {A} (x : A) : order A := mk_order x x.
Definition flow_zero : flow_entry_t :=
  mk_flow key_zero 0 FT_ORIGIN false false false false false false TCP_F_STATE_START 0
    (both (mk_stats 0 0)) 0 0 0 0 (both 0) (both 0) (both 0) (both (mk_tc 0 0)) (both 0) (both 0)
    None 0.

(** flow_member: the entry of a direction relative to the first packet *)
Definition flow_member {A} (f : flow_entry_t) (o : order A) (d : flow_direction_t) : A :=
  order_get o (dir_xor d (fe_is_reverse f)).
Definition flow_next (f : flow_entry_t) (d : flow_direction_t) : Z := flow_member f (fe_next f) d.
Definition flow_pdr_id (f : flow_entry_t) (d : flow_direction_t) : Z := flow_member f (fe_pdr_id f) d.
(** the same as the target of an assignment *)
Definition flow_member_set {A} (f : flow_entry_t) (o : order A) (d : flow_direction_t) (x : A) : order A :=
  order_set o (dir_xor d (fe_is_reverse f)) x.

Section Setters.
Context (f : flow_entry_t).
(** the members of timers and TCP *)
Definition fe_set_timing (s : tcp_f_state) (active lifetime timer : Z) : flow_entry_t :=
  mk_flow (fe_key f) (fe_session_index f) (fe_is_reverse f) (fe_is_redirect f) (fe_is_l3_proxy f)
    (fe_is_spliced f) (fe_spliced_dirty f) (fe_dont_splice f) (fe_app_detection_done f) s
    (fe_ps_index f) (fe_stats f) active lifetime timer (fe_application_id f) (fe_pdr_id f) (fe_teid f)
    (fe_next f) (fe_tc f) (fe_seq_offs f) (fe_tsval_offs f) (fe_app_uri f) (fe_generation f).
Definition fe_set_active (x : Z) : flow_entry_t :=
  fe_set_timing (fe_tcp_state f) x (fe_lifetime f) (fe_timer_index f).
Definition fe_set_session_index (x : Z) : flow_entry_t :=
  mk_flow (fe_key f) x (fe_is_reverse f) (fe_is_redirect f) (fe_is_l3_proxy f)
    (fe_is_spliced f) (fe_spliced_dirty f) (fe_dont_splice f) (fe_app_detection_done f)
    (fe_tcp_state f) (fe_ps_index f) (fe_stats f) (fe_active f) (fe_lifetime f) (fe_timer_index f)
    (fe_application_id f) (fe_pdr_id f) (fe_teid f) (fe_next f) (fe_tc f) (fe_seq_offs f)
    (fe_tsval_offs f) (fe_app_uri f) (fe_generation f).
Definition fe_set_stats (x : order flow_stats_t) : flow_entry_t :=
  mk_flow (fe_key f) (fe_session_index f) (fe_is_reverse f) (fe_is_redirect f) (fe_is_l3_proxy f)
    (fe_is_spliced f) (fe_spliced_dirty f) (fe_dont_splice f) (fe_app_detection_done f)
    (fe_tcp_state f) (fe_ps_index f) x (fe_active f) (fe_lifetime f) (fe_timer_index f)
    (fe_application_id f) (fe_pdr_id f) (fe_teid f) (fe_next f) (fe_tc f) (fe_seq_offs f)
    (fe_tsval_offs f) (fe_app_uri f) (fe_generation f).
(** what a change of the rules resets *)
Definition fe_set_class (app generation : Z) (pdr next : order Z) : flow_entry_t :=
  mk_flow (fe_key f) (fe_session_index f) (fe_is_reverse f) (fe_is_redirect f) (fe_is_l3_proxy f)
    (fe_is_spliced f) (fe_spliced_dirty f) (fe_dont_splice f) (fe_app_detection_done f)
    (fe_tcp_state f) (fe_ps_index f) (fe_stats f) (fe_active f) (fe_lifetime f) (fe_timer_index f)
    app pdr (fe_teid f) next (fe_tc f) (fe_seq_offs f) (fe_tsval_offs f) (fe_app_uri f) generation.
Definition fe_free_uri : flow_entry_t :=
  mk_flow (fe_key f) (fe_session_index f) (fe_is_reverse f) (fe_is_redirect f) (fe_is_l3_proxy f)
    (fe_is_spliced f) (fe_spliced_dirty f) (fe_dont_splice f) (fe_app_detection_done f)
    (fe_tcp_state f) (fe_ps_index f) (fe_stats f) (fe_active f) (fe_lifetime f) (fe_timer_index f)
    (fe_application_id f) (fe_pdr_id f) (fe_teid f) (fe_next f) (fe_tc f) (fe_seq_offs f)
    (fe_tsval_offs f) None (fe_generation f).
End Setters.

(** ** Timers

    A pool of list elements: the heads of the slots and an element per flow. *)

Record timers_t := mk_timers { tm_pool : pool Z; tm_list : gmap Z (list Z) }.

Definition clib_dlist_init (ts : timers_t) (head : Z) : timers_t :=
  mk_timers (pool_set (tm_pool ts) head u32_none) (<[head := []]> (tm_list ts)).
Definition dlist_get (ts : timers_t) (head : Z) : outcome (list Z) :=
  match tm_list ts !! head with Some l => Ok l | None => Fault BadIndex end.
Definition clib_dlist_addtail (ts : timers_t) (head x : Z) : outcome timers_t :=
  obind (dlist_get ts head) (fun l => Ok (mk_timers (tm_pool ts) (<[head := l ++ [x]]> (tm_list ts)))).
(** an element that is in no list has no neighbours to relink *)
Definition clib_dlist_remove (ts : timers_t) (x : Z) : outcome timers_t :=
  if bool_decide (map_Exists (fun _ l => x ∈ l) (tm_list ts))
  then Ok (mk_timers (tm_pool ts) (filter (fun y => y <> x) <$> tm_list ts))
  else Fault BadIndex.
(** the next member of [x] in the list of [head], which is the head after the last *)
Fixpoint next_in (l : list Z) (head x : Z) : Z :=
  match l with
  | [] => head
  | y :: l => if y =? x then match l with z :: _ => z | [] => head end else next_in l head x
  end.

(** ** State *)

Inductive flowtable_timeout_type_t :=
| FT_TIMEOUT_TYPE_UNKNOWN | FT_TIMEOUT_TYPE_IPV4 | FT_TIMEOUT_TYPE_IPV6 | FT_TIMEOUT_TYPE_ICMP
| FT_TIMEOUT_TYPE_UDP | FT_TIMEOUT_TYPE_TCP.
#[export] Instance timeout_type_eq_dec : EqDecision flowtable_timeout_type_t.
Proof. solve_decision. Defined.

Definition TIMER_DEFAULT_LIFETIME : Z := 60.
Definition TIMER_MAX_LIFETIME : Z := 600.
Definition TIMER_MAX_EXPIRE : Z := Z.shiftl 1 8.
Definition FLOW_CACHE_SZ : Z := 256.
Definition FM_POOL_COUNT : Z := Z.shiftl 1 22.

Definition FT_NEXT_DROP : Z := 0.
Definition FT_NEXT_CLASSIFY : Z := 1.
Definition FT_NEXT_PROCESS : Z := 2.
Definition FT_NEXT_PROXY : Z := 3.

(** the counters of upf_simple_counters the table keeps *)
Record flow_counters := mk_counters { c_flows : Z; c_stitched : Z; c_dirty : Z }.

Record flowtable := mk_ft {
  fm_flows_max : Z; fm_flows : pool flow_entry_t; fm_flows_cpt : Z;
  fm_timer_lifetime : flowtable_timeout_type_t -> Z; fm_timer_max_lifetime : Z;
  fmt_flows_ht : gmap flow_key_t Z; fmt_timers : timers_t; fmt_time_index : Z; fmt_next_check : Z;
  fmt_flow_cache : list Z; ft_counters : flow_counters }.

Section SetState.
Context (st : flowtable).
Definition set_flow (i : Z) (f : flow_entry_t) : flowtable :=
  mk_ft (fm_flows_max st) (pool_set (fm_flows st) i f) (fm_flows_cpt st) (fm_timer_lifetime st)
    (fm_timer_max_lifetime st) (fmt_flows_ht st) (fmt_timers st) (fmt_time_index st)
    (fmt_next_check st) (fmt_flow_cache st) (ft_counters st).
Definition set_timers (x : timers_t) : flowtable :=
  mk_ft (fm_flows_max st) (fm_flows st) (fm_flows_cpt st) (fm_timer_lifetime st)
    (fm_timer_max_lifetime st) (fmt_flows_ht st) x (fmt_time_index st)
    (fmt_next_check st) (fmt_flow_cache st) (ft_counters st).
Definition set_time (index next : Z) : flowtable :=
  mk_ft (fm_flows_max st) (fm_flows st) (fm_flows_cpt st) (fm_timer_lifetime st)
    (fm_timer_max_lifetime st) (fmt_flows_ht st) (fmt_timers st) index next (fmt_flow_cache st)
    (ft_counters st).
Definition set_ht (x : gmap flow_key_t Z) : flowtable :=
  mk_ft (fm_flows_max st) (fm_flows st) (fm_flows_cpt st) (fm_timer_lifetime st)
    (fm_timer_max_lifetime st) x (fmt_timers st) (fmt_time_index st)
    (fmt_next_check st) (fmt_flow_cache st) (ft_counters st).
Definition set_counters (x : flow_counters) : flowtable :=
  mk_ft (fm_flows_max st) (fm_flows st) (fm_flows_cpt st) (fm_timer_lifetime st)
    (fm_timer_max_lifetime st) (fmt_flows_ht st) (fmt_timers st) (fmt_time_index st)
    (fmt_next_check st) (fmt_flow_cache st) x.
(** pool, count and cache *)
Definition set_pool (flows : pool flow_entry_t) (cpt : Z) (cache : list Z) : flowtable :=
  mk_ft (fm_flows_max st) flows cpt (fm_timer_lifetime st) (fm_timer_max_lifetime st)
    (fmt_flows_ht st) (fmt_timers st) (fmt_time_index st) (fmt_next_check st) cache (ft_counters st).
Definition set_lifetimes (x : flowtable_timeout_type_t -> Z) (max : Z) : flowtable :=
  mk_ft (fm_flows_max st) (fm_flows st) (fm_flows_cpt st) x max (fmt_flows_ht st) (fmt_timers st)
    (fmt_time_index st) (fmt_next_check st) (fmt_flow_cache st) (ft_counters st).
End SetState.

Definition flowtable_get_flow (st : flowtable) (i : Z) : outcome flow_entry_t :=
  match pool_elt (fm_flows st) i with Some f => Ok f | None => Fault BadIndex end.

(** ** Configuration: flowtable_init.c *)

(** [inr] is an error; a type outside the enumeration is one too *)
Definition flowtable_lifetime_update (st : flowtable) (type : flowtable_timeout_type_t) (value : Z)
  : flowtable + Z :=
  if fm_timer_max_lifetime st <? value then inr (-1)
  else inl (set_lifetimes st (fun t => if bool_decide (t = type) then value else fm_timer_lifetime st t)
              (fm_timer_max_lifetime st)).
Definition flowtable_max_lifetime_update (st : flowtable) (value : Z) : flowtable :=
  set_lifetimes st (fm_timer_lifetime st) value.

(** The frames a node hands on to the next nodes belong to vlib. [nf_get n] is
    the number of places in the frame vlib_get_next_frame gives, never none,
    when [n] packets are left, and [nf_enqueue n] the places left after a packet
    is enqueued, which may go to another frame. *)
Class NextFrames := { nf_get : nat -> positive; nf_enqueue : nat -> nat }.

(** frames of 256 places, all packets to the same next node *)
Definition frames_256 (n : nat) : NextFrames := {| nf_get := fun _ => 256%positive; nf_enqueue := fun k => (256 - (n - k))%nat |}.

Section Table.
Context {P : VppPool}.

(** ** Entries and their cache *)

Fixpoint cache_get (n : nat) (flows : pool flow_entry_t) (cache : list Z) : pool flow_entry_t * list Z :=
  match n with
  | O => (flows, cache)
  | S n => let '(i, flows) := pool_get flows flow_zero in cache_get n flows (cache ++ [i])
  end.
Definition flow_entry_cache_fill (st : flowtable) : flowtable :=
  if fm_flows_max st <? fm_flows_cpt st then st
  else
    let '(flows, cache) := cache_get (Z.to_nat FLOW_CACHE_SZ) (fm_flows st) (fmt_flow_cache st) in
    set_pool st flows (wrap 64 (fm_flows_cpt st + FLOW_CACHE_SZ)) cache.

(** vec_pop and pool_put_index, [n] times *)
Fixpoint cache_put (n : nat) (flows : pool flow_entry_t) (cache : list Z) : pool flow_entry_t * list Z :=
  match n with
  | O => (flows, cache)
  | S n =>
      match last cache with
      | Some i => cache_put n (pool_put flows i) (take (length cache - 1) cache)
      | None => (flows, cache)
      end
  end.
Definition flow_entry_cache_empty (st : flowtable) : flowtable :=
  let '(flows, cache) := cache_put (Z.to_nat (Zlen (fmt_flow_cache st) - 1 - FLOW_CACHE_SZ))
                           (fm_flows st) (fmt_flow_cache st) in
  set_pool st flows (wrap 64 (fm_flows_cpt st - FLOW_CACHE_SZ)) cache.

Definition flow_entry_alloc (st : flowtable) : option Z * flowtable :=
  let st := match fmt_flow_cache st with [] => flow_entry_cache_fill st | _ => st end in
  match last (fmt_flow_cache st) with
  | None => (None, st)
  | Some i => (Some i, set_pool st (fm_flows st) (fm_flows_cpt st)
                         (take (length (fmt_flow_cache st) - 1) (fmt_flow_cache st)))
  end.

Definition flow_entry_free (st : flowtable) (i : Z) (f : flow_entry_t) : flowtable :=
  let st := set_flow st i (fe_free_uri f) in
  let st := set_pool st (fm_flows st) (fm_flows_cpt st) (fmt_flow_cache st ++ [i]) in
  if 2 * FLOW_CACHE_SZ <? Zlen (fmt_flow_cache st) then flow_entry_cache_empty st else st.

Definition flowtable_entry_remove (st : flowtable) (f : flow_entry_t) : flowtable :=
  set_ht st (delete (fe_key f) (fmt_flows_ht st)).

(** ** Timer wheel *)

(** active + lifetime in 32 bits *)
Definition flow_expires (f : flow_entry_t) : Z := wrap 32 (fe_active f + fe_lifetime f).

(** clib_dlist_remove and clib_dlist_addtail *)
Definition reschedule (st : flowtable) (slot x : Z) : outcome flowtable :=
  obind (clib_dlist_remove (fmt_timers st) x) (fun ts =>
  obind (clib_dlist_addtail ts slot x) (fun ts => Ok (set_timers st ts))).

Definition timer_wheel_insert_flow (st : flowtable) (f : flow_entry_t) : outcome flowtable :=
  let slot := wrap 32 (fmt_time_index st + fe_lifetime f) mod fm_timer_max_lifetime st in
  obind (clib_dlist_addtail (fmt_timers st) slot (fe_timer_index f)) (fun ts => Ok (set_timers st ts)).

Definition timer_wheel_index_update (st : flowtable) (now : Z) : flowtable :=
  set_time st (now mod fm_timer_max_lifetime st) (fmt_next_check st).

(** the hook of the proxy that may hold a flow back: true is a result other than 0 *)
Context (flow_expiration_hook : flow_entry_t -> bool).

(** the removal of a flow that expired, [i] its index and [e] its timer *)
Definition expire_remove (st : flowtable) (i : Z) (f : flow_entry_t) (e : Z) : outcome flowtable :=
  obind (clib_dlist_remove (fmt_timers st) e) (fun ts =>
  let st := set_timers st (mk_timers (pool_put (tm_pool ts) e) (tm_list ts)) in
  let st := flowtable_entry_remove st f in
  let c := ft_counters st in
  let st := set_counters st
    (mk_counters (wrap 64 (c_flows c - 1))
       (if fe_is_spliced f then wrap 64 (c_stitched c - 1) else c_stitched c)
       (if fe_spliced_dirty f then wrap 64 (c_dirty c - 1) else c_dirty c)) in
  Ok (flow_entry_free st i f)).

Definition expire_single_flow (st : flowtable) (i : Z) (f : flow_entry_t) (e now : Z)
  : outcome (bool * flowtable) :=
  let keep := now <? flow_expires f in
  assert (fe_timer_index f =? e)
 (assert (fe_active f <=? now)
 (let blocked := negb keep && flow_expiration_hook f in
  let f := if blocked then fe_set_active f (flow_expires f) else f in
  let st := set_flow st i f in
  if keep || blocked then
    let slot := flow_expires f mod fm_timer_max_lifetime st in
    if negb (slot =? fe_timer_index f) then
      obind (reschedule st slot (fe_timer_index f)) (fun st => Ok (true, st))
    else Ok (false, st)
  else obind (expire_remove st i f e) (fun st => Ok (true, st)))).

(** the element [index] of the timer pool and its flow *)
Definition timer_flow (st : flowtable) (index : Z) : outcome (Z * flow_entry_t) :=
  match pool_elt (tm_pool (fmt_timers st)) index with
  | None => Fault BadIndex
  | Some i => obind (flowtable_get_flow st i) (fun f => Ok (i, f))
  end.

(** the inner loop of flowtable_timer_expire *)
Fixpoint expire_slot (fuel : nat) (now slot index : Z) (st : flowtable) (cpt : Z)
  : outcome (flowtable * Z) :=
  if (index =? slot) || negb (cpt <? TIMER_MAX_EXPIRE) then Ok (st, cpt)
  else
    match fuel with
    | O => Fault NoFuel
    | S fuel =>
        obind (timer_flow st index) (fun '(i, f) =>
        obind (dlist_get (fmt_timers st) slot) (fun l =>
        let next := next_in l slot index in
        obind (expire_single_flow st i f index now) (fun '(r, st) =>
        expire_slot fuel now slot next st (if r : bool then cpt + 1 else cpt))))
    end.

(** a call of the inner loop ends after at most this many turns *)
Definition slot_fuel : nat := Z.to_nat (TIMER_MAX_EXPIRE + 1).

(** the outer loop: the second it stopped at *)
Fixpoint expire_seconds (fuel : nat) (now t : Z) (st : flowtable) (cpt : Z)
  : outcome (flowtable * Z * Z) :=
  if now <? t then Ok (st, t, cpt)
  else
    match fuel with
    | O => Fault NoFuel
    | S fuel =>
        let slot := t mod fm_timer_max_lifetime st in
        obind (dlist_get (fmt_timers st) slot) (fun l =>
        obind (match l with [] => Ok (st, cpt) | x :: _ => expire_slot slot_fuel now slot x st cpt end)
          (fun '(st, cpt) =>
           if cpt =? TIMER_MAX_EXPIRE then Ok (st, t, cpt)
           else expire_seconds fuel now (wrap 32 (t + 1)) st cpt))
    end.

(** the number of flows handled *)
Definition flowtable_timer_expire (st : flowtable) (now : Z) : outcome (Z * flowtable) :=
  assert (now mod fm_timer_max_lifetime st =? fmt_time_index st)
 (if negb (fmt_next_check st =? u32_none) && (now <? fmt_next_check st) then Ok (0, st)
  else
    let t := if negb (fmt_next_check st =? u32_none) then fmt_next_check st else now in
    obind (expire_seconds (Z.to_nat (now - t + 1)) now t st 0) (fun '(st, t, cpt) =>
    Ok (cpt, set_time st (fmt_time_index st) t))).

(** ** Lookup and creation *)

Definition flowtable_lifetime_calculate (st : flowtable) (key : flow_key_t) : Z :=
  if fk_proto key =? IP_PROTOCOL_ICMP then fm_timer_lifetime st FT_TIMEOUT_TYPE_ICMP
  else if fk_proto key =? IP_PROTOCOL_UDP then fm_timer_lifetime st FT_TIMEOUT_TYPE_UDP
  else if fk_proto key =? IP_PROTOCOL_TCP then fm_timer_lifetime st FT_TIMEOUT_TYPE_TCP
  else if ip46_address_is_ip4 (o_origin (fk_ip key)) then fm_timer_lifetime st FT_TIMEOUT_TYPE_IPV4
  else fm_timer_lifetime st FT_TIMEOUT_TYPE_IPV6.

(** the loop of recycle_flow, from slot [next] on; what follows it is a log
    message *)
Fixpoint recycle_flow_loop (fuel : nat) (now next : Z) (st : flowtable) : outcome flowtable :=
  if next =? now then Ok st
  else
    match fuel with
    | O => Fault NoFuel
    | S fuel =>
        obind (dlist_get (fmt_timers st) next) (fun l =>
        match l with
        | [] => recycle_flow_loop fuel now (wrap 32 (next + 1) mod fm_timer_max_lifetime st) st
        | e :: _ =>
            obind (timer_flow st e) (fun '(i, f) =>
            obind (expire_single_flow st i f e now) (fun '(_, st) =>
            recycle_flow_loop fuel now next st))
        end)
    end.
Definition recycle_flow (fuel : nat) (st : flowtable) (now : Z) : outcome flowtable :=
  recycle_flow_loop fuel now (wrap 32 (now + 1) mod fm_timer_max_lifetime st) st.

(** the entry of a new flow *)
Definition new_flow (st : flowtable) (key : flow_key_t) (now : Z) (is_reverse : flow_direction_t)
  (generation : Z) : flow_entry_t :=
  mk_flow key 0 is_reverse false false false false false false TCP_F_STATE_START u32_none
    (both (mk_stats 0 0)) now (flowtable_lifetime_calculate st key) 0 u32_none (both u32_none)
    (both u32_none) (both FT_NEXT_CLASSIFY) (both (mk_tc u32_none u32_none)) (both 0) (both 0)
    None generation.

(** the creation once entry [i] is there *)
Definition flow_create (st : flowtable) (i : Z) (key : flow_key_t) (now : Z)
  (is_reverse : flow_direction_t) (generation : Z) : outcome flowtable :=
  let f := new_flow st key now is_reverse generation in
  let '(x, tp) := pool_get (tm_pool (fmt_timers st)) i in
  let f := fe_set_timing f (fe_tcp_state f) (fe_active f) (fe_lifetime f) x in
  let st := set_timers (set_flow st i f) (mk_timers tp (tm_list (fmt_timers st))) in
  obind (timer_wheel_insert_flow st f) (fun st =>
  let c := ft_counters st in
  let st := set_counters st (mk_counters (wrap 64 (c_flows c + 1)) (c_stitched c) (c_dirty c)) in
  Ok (set_ht st (<[key := i]> (fmt_flows_ht st)))).

(** the index of the flow, or ~0, and whether it was created *)
Definition flowtable_entry_lookup_create (fuel : nat) (st : flowtable) (key : flow_key_t) (now : Z)
  (is_reverse : flow_direction_t) (generation : Z) : outcome (Z * bool * flowtable) :=
  match fmt_flows_ht st !! key with
  | Some i => Ok (i, false, st)
  | None =>
      let '(i, st) := flow_entry_alloc st in
      obind (match i with
             | Some i => Ok (Some i, st)
             | None => obind (recycle_flow fuel st now) (fun st => Ok (flow_entry_alloc st))
             end)
        (fun '(i, st) =>
         match i with
         | None => Ok (u32_none, false, st)
         | Some i =>
             obind (flow_create st i key now is_reverse generation) (fun st => Ok (i, true, st))
         end)
  end.

(** ** Packets of a flow *)

Definition flow_update_active (st : flowtable) (i : Z) (now : Z) : outcome flowtable :=
  obind (flowtable_get_flow st i) (fun f =>
  assert (fe_active f <=? now) (Ok (set_flow st i (fe_set_active f now)))).

(** 1 when the state changed *)
Definition flow_tcp_update_lifetime (st : flowtable) (i : Z) (flags : Z) : outcome (Z * flowtable) :=
  obind (flowtable_get_flow st i) (fun f =>
  match tcp_next (fe_tcp_state f) flags with
  | None => Ok (0, st)
  | Some new =>
      assert ((fmt_next_check st =? u32_none) || (fmt_next_check st <=? flow_expires f))
     (let f := fe_set_timing f new (fe_active f) (tcp_lifetime new) (fe_timer_index f) in
      obind (reschedule (set_flow st i f) (flow_expires f mod fm_timer_max_lifetime st) (fe_timer_index f))
        (fun st => Ok (1, st)))
  end).

(** the flags octet of the TCP header *)
Definition tcp_flags (p : packet) (is_ip4 : bool) : Z :=
  nth (Z.to_nat (l4_offset p is_ip4 + 13)) (pk_l3 p) 0.

Definition flow_update_lifetime (st : flowtable) (i : Z) (p : packet) (is_ip4 : bool)
  : outcome (Z * flowtable) :=
  obind (flowtable_get_flow st i) (fun f =>
  if fk_proto (fe_key f) =? IP_PROTOCOL_TCP
  then flow_tcp_update_lifetime st i (tcp_flags p is_ip4) else Ok (0, st)).

(** stats[is_reverse].pkts++ and bytes += current_length *)
Definition flow_count_packet (f : flow_entry_t) (d : flow_direction_t) (len : Z) : flow_entry_t :=
  let s := order_get (fe_stats f) d in
  fe_set_stats f (order_set (fe_stats f) d
    (mk_stats (wrap 32 (fs_pkts s + 1)) (wrap 64 (fs_bytes s + len)))).

(** the index of the PDR of a direction in the rules, or ~0 (upf_pfcp.h) *)
Definition flow_pdr_idx (f : flow_entry_t) (d : flow_direction_t) (r : rules) : Z :=
  let id := flow_pdr_id f d in
  if id =? u32_none then u32_none
  else match pfcp_get_by_id (T := upf_pdr_t) r id with Some n => Z.of_nat n | None => u32_none end.

(** what is stored for the packet: is_reverse, flow_id, pdr_idx and next *)
Record flow_info := mk_info { fi_is_reverse : flow_direction_t; fi_flow_id : Z; fi_pdr_idx : Z; fi_next : Z }.

Definition load_gtpu_flow_info (i : Z) (f : flow_entry_t) (r : rules) (is_reverse : flow_direction_t)
  (generation : Z) : flow_entry_t * flow_info :=
  let direction := if bool_decide (fe_is_reverse f = is_reverse) then FT_ORIGIN else FT_REVERSE in
  if negb (fe_generation f =? generation) then
    let f := fe_set_class f u32_none generation
               (flow_member_set f (flow_member_set f (fe_pdr_id f) FT_ORIGIN u32_none) FT_REVERSE u32_none)
               (flow_member_set f (flow_member_set f (fe_next f) FT_ORIGIN FT_NEXT_CLASSIFY) FT_REVERSE
                  FT_NEXT_CLASSIFY) in
    (f, mk_info is_reverse i u32_none (flow_next f direction))
  else (f, mk_info is_reverse i (flow_pdr_idx f direction r) (flow_next f direction)).

(** ** The node: upf_flow_process *)

(** what the node reads of a buffer: the session index and the packet *)
Record flow_buf := mk_buf { fb_session_index : Z; fb_packet : packet; fb_length : Z }.

Context {I : IpCompare}.

(** the lines of the loops that store to a flow *)
Definition flow_set_session (st : flowtable) (i : Z) (session_index : Z) : outcome flowtable :=
  obind (flowtable_get_flow st i) (fun f => Ok (set_flow st i (fe_set_session_index f session_index))).
Definition flow_add_stats (st : flowtable) (i : Z) (d : flow_direction_t) (len : Z) : outcome flowtable :=
  obind (flowtable_get_flow st i) (fun f => Ok (set_flow st i (flow_count_packet f d len))).
Definition flow_load_info (st : flowtable) (i : Z) (active : rules) (is_reverse : flow_direction_t)
  (generation : Z) : outcome (flow_info * flowtable) :=
  obind (flowtable_get_flow st i) (fun f =>
  let '(f, info) := load_gtpu_flow_info i f active is_reverse generation in
  Ok (info, set_flow st i f)).

(** the part of the single loop after the lookup *)
Definition flow_touch (st : flowtable) (i : Z) (b : flow_buf) (is_ip4 : bool) (now : Z)
  (is_reverse : flow_direction_t) (active : rules) (generation : Z) : outcome (flow_info * flowtable) :=
  obind (flow_set_session st i (fb_session_index b)) (fun st =>
  obind (flow_update_active st i now) (fun st =>
  obind (flow_update_lifetime st i (fb_packet b) is_ip4) (fun '(_, st) =>
  obind (flow_add_stats st i is_reverse (fb_length b)) (fun st =>
  flow_load_info st i active is_reverse generation)))).

(** one packet of the single loop; a packet whose session or flow is missing is
    dropped, with no flow. At the end of the turn the session of a packet with
    data is loaded once more, also when it was found missing before. *)
Definition flow_packet (fuel : nat) (sessions : pool upf_session_t) (is_ip4 : bool) (now : Z)
  (st : flowtable) (b : flow_buf) : outcome (option flow_info * flowtable) :=
  match pool_elt sessions (fb_session_index b) with
  | None => assert (negb (0 <? fb_length b)) (Ok (None, st))
  | Some sx =>
      let '(is_reverse, key) := flow_mk_key (sx_cp_seid sx) (fb_packet b) is_ip4 in
      obind (flowtable_entry_lookup_create fuel st key now is_reverse (sx_generation sx))
        (fun '(i, _, st) =>
         if i =? u32_none then Ok (None, st)
         else
           obind (flow_touch st i b is_ip4 now is_reverse (pfcp_get_rules sx PFCP_ACTIVE)
                    (sx_generation sx)) (fun '(info, st) => Ok (Some info, st)))
  end.

(** two packets of the dual loop, whose flows may be the same: [None] when the
    loop is left for the single loop to handle them, with the flows found or
    created so far *)
Definition flow_packet2 (fuel : nat) (sessions : pool upf_session_t) (is_ip4 : bool) (now : Z)
  (st : flowtable) (b0 b1 : flow_buf) : outcome (option (flow_info * flow_info) * flowtable) :=
  match pool_elt sessions (fb_session_index b0), pool_elt sessions (fb_session_index b1) with
  | Some sx0, Some sx1 =>
      let '(is_reverse0, key0) := flow_mk_key (sx_cp_seid sx0) (fb_packet b0) is_ip4 in
      let '(is_reverse1, key1) := flow_mk_key (sx_cp_seid sx1) (fb_packet b1) is_ip4 in
      obind (flowtable_entry_lookup_create fuel st key0 now is_reverse0 (sx_generation sx0)) (fun '(i0, _, st) =>
      obind (flowtable_entry_lookup_create fuel st key1 now is_reverse1 (sx_generation sx0)) (fun '(i1, _, st) =>
      if (i0 =? u32_none) || (i1 =? u32_none) then Ok (None, st)
      else
        obind (flow_set_session st i0 (fb_session_index b0)) (fun st =>
        obind (flow_set_session st i1 (fb_session_index b1)) (fun st =>
        obind (flow_update_active st i0 now) (fun st =>
        obind (flow_update_active st i1 now) (fun st =>
        obind (flow_update_lifetime st i0 (fb_packet b0) is_ip4) (fun '(_, st) =>
        obind (flow_update_lifetime st i1 (fb_packet b1) is_ip4) (fun '(_, st) =>
        obind (flow_add_stats st i0 is_reverse0 (fb_length b0)) (fun st =>
        obind (flow_add_stats st i1 is_reverse1 (fb_length b1)) (fun st =>
        obind (flow_load_info st i0 (pfcp_get_rules sx0 PFCP_ACTIVE) is_reverse0 (sx_generation sx0))
          (fun '(info0, st) =>
        obind (flow_load_info st i1 (pfcp_get_rules sx1 PFCP_ACTIVE) is_reverse1 (sx_generation sx1))
          (fun '(info1, st) => Ok (Some (info0, info1), st)))))))))))))
  | _, _ => Ok (None, st)
  end.

(** the loops over a frame, with [room] places left in the next frame, in the
    dual or the single loop. A full next frame is put back and another taken,
    which leads to the dual loop again. *)
Context {N : NextFrames}.
Fixpoint flow_loop (fuel : nat) (sessions : pool upf_session_t) (is_ip4 : bool) (now : Z)
  (dual : bool) (room : nat) (st : flowtable) (bs : list flow_buf)
  : outcome (list (option flow_info) * flowtable) :=
  match bs with
  | [] => Ok ([], st)
  | b0 :: rest =>
      let '(dual, room) := match room with
                           | O => (true, Pos.to_nat (nf_get (length bs)))
                           | _ => (dual, room)
                           end in
      let single st :=
        obind (flow_packet fuel sessions is_ip4 now st b0) (fun '(o, st) =>
        obind (flow_loop fuel sessions is_ip4 now false (nf_enqueue (length rest)) st rest)
          (fun '(os, st) => Ok (o :: os, st))) in
      if dual && (4 <=? length bs)%nat && (2 <=? room)%nat then
        match rest with
        | [] => single st
        | b1 :: rest =>
            obind (flow_packet2 fuel sessions is_ip4 now st b0 b1) (fun '(o, st) =>
            match o with
            | None => single st
            | Some (info0, info1) =>
                obind (flow_loop fuel sessions is_ip4 now true (nf_enqueue (length rest)) st rest)
                  (fun '(os, st) => Ok (Some info0 :: Some info1 :: os, st))
            end)
        end
      else single st
  end.

(** a frame through the loops, and the expirations at its end *)
Definition upf_flow_process (fuel : nat) (sessions : pool upf_session_t) (is_ip4 : bool) (now : Z)
  (st : flowtable) (bs : list flow_buf) : outcome (list (option flow_info) * Z * flowtable) :=
  obind (flow_loop fuel sessions is_ip4 now true 0 (timer_wheel_index_update st now) bs)
    (fun '(infos, st) =>
     obind (flowtable_timer_expire st now) (fun '(cpt, st) => Ok (infos, cpt, st))).
End Table.

(** ** Initialisation *)

Section Init.
Context {P : VppPool}.
(** the heads of the slots 0 to n - 1 *)
Definition init_slots (n : nat) : timers_t :=
  foldl clib_dlist_init (mk_timers pool_empty ∅) (seqZ 0 (Z.of_nat n)).
(** flowtable_init and flowtable_init_cpu with one thread *)
Definition flowtable_init : flowtable :=
  let '(flows, cache) := cache_get (Z.to_nat FLOW_CACHE_SZ) pool_empty [] in
  mk_ft FM_POOL_COUNT flows FLOW_CACHE_SZ (fun _ => TIMER_DEFAULT_LIFETIME) TIMER_MAX_LIFETIME
    ∅ (init_slots (Z.to_nat TIMER_MAX_LIFETIME)) u32_none u32_none cache (mk_counters 0 0 0).
End Init.
