(* ===== verification/FlowTableInv.v ===== *)
(** * The flow table keeps its structure

    The invariant of [FlowTable]: hash table, timer wheel, pool and cache agree,
    and the operations never fail on a table that satisfies it. *)

From Stdlib Require Import ZArith Lia.
From stdpp Require Import base list list_numbers option numbers decidable gmap fin_maps.
From S2P Require Import Prelude PfcpIo PfcpIe UpfTypes UpfUrr UpfRules FlowTcp FlowKey FlowTable.

(** ** Lists of timers *)

(** timer [x] is in the list of slot [h] *)
Definition in_slot (m : gmap Z (list Z)) (h x : Z) : Prop := exists l, m !! h = Some l /\ x ∈ l.

(** a list for every slot, and every timer in one list only, once *)
Record lists_ok (max : Z) (m : gmap Z (list Z)) : Prop := {
  lists_slots h : is_Some (m !! h) <-> 0 <= h < max;
  lists_nodup h l : m !! h = Some l -> NoDup l;
  lists_disj h h' x : in_slot m h x -> in_slot m h' x -> h = h'
}.

Definition list_remove (m : gmap Z (list Z)) (x : Z) : gmap Z (list Z) :=
  filter (fun y => y <> x) <$> m.

Lemma in_slot_lookup m h l x : m !! h = Some l -> in_slot m h x <-> x ∈ l.
Proof. intros E. split; [intros (l' & E' & H); congruence|]. intros H. by exists l. Qed.

Lemma in_slot_remove m x h y : in_slot (list_remove m x) h y <-> in_slot m h y /\ y <> x.
Proof.
  unfold in_slot, list_remove. setoid_rewrite lookup_fmap_Some. split.
  - intros (l & (l0 & <- & Hl) & [Hne Hy]%list_elem_of_filter). eauto.
  - intros ((l & Hl & Hy) & Hne). eexists. split; [by exists l|]. by apply list_elem_of_filter.
Qed.

Lemma in_slot_insert m h l x h' y :
  m !! h = Some l ->
  in_slot (<[h := l ++ [x]]> m) h' y <-> in_slot m h' y \/ h' = h /\ y = x.
Proof.
  intros Hl. unfold in_slot. destruct (decide (h = h')) as [<-|Hne].
  - setoid_rewrite lookup_insert_eq. split.
    + intros (l' & [= <-] & [Hy|Hy]%elem_of_app); [eauto|]. apply list_elem_of_singleton in Hy. auto.
    + intros [(l' & E & Hy)|[_ ->]]; eexists; (split; [done|]); apply elem_of_app.
      * left. congruence.
      * right. by left.
  - setoid_rewrite lookup_insert_ne; [|done]. split; [by left|]. intros [?|[? _]]; [done|congruence].
Qed.

Lemma lists_ok_remove max m x : lists_ok max m -> lists_ok max (list_remove m x).
Proof.
  intros [Hs Hn Hd]. split.
  - intros h. rewrite <- Hs. unfold list_remove. by rewrite lookup_fmap, fmap_is_Some.
  - intros h l. unfold list_remove. rewrite lookup_fmap_Some. intros (l0 & <- & Hl).
    apply NoDup_filter. eauto.
  - intros h h' y [H1 _]%in_slot_remove [H2 _]%in_slot_remove. eauto.
Qed.

Lemma lists_ok_add max m h l x :
  lists_ok max m -> m !! h = Some l -> (forall h', ~ in_slot m h' x) ->
  lists_ok max (<[h := l ++ [x]]> m).
Proof.
  intros [Hs Hn Hd] Hl Hx. split.
  - intros h'. rewrite <- Hs. destruct (decide (h = h')) as [<-|].
    + rewrite lookup_insert_eq, Hl. by split.
    + by rewrite lookup_insert_ne.
  - intros h' l' E. destruct (decide (h = h')) as [<-|].
    + rewrite lookup_insert_eq in E. injection E as <-. apply NoDup_app. split; [eauto|].
      split; [|apply NoDup_singleton]. intros y Hy ->%list_elem_of_singleton.
      apply (Hx h). by exists l.
    + rewrite lookup_insert_ne in E by done. eauto.
  - intros h1 h2 y H1%(in_slot_insert m h l x) H2%(in_slot_insert m h l x); [|done..].
    destruct H1 as [H1|[-> ->]], H2 as [H2|[? ?]]; subst; eauto; exfalso; eapply Hx; eauto.
Qed.

Lemma dlist_remove_ok ts h x :
  in_slot (tm_list ts) h x ->
  clib_dlist_remove ts x = Ok (mk_timers (tm_pool ts) (list_remove (tm_list ts) x)).
Proof.
  intros (l & Hl & Hx). unfold clib_dlist_remove. rewrite bool_decide_true; [done|].
  exists h, l. done.
Qed.

Lemma filter_head_nodup (l : list Z) x : NoDup (x :: l) -> filter (fun y => y <> x) (x :: l) = l.
Proof.
  intros [Hx _]%NoDup_cons. rewrite filter_cons_False by tauto.
  induction l as [|y l IH]; [done|]. apply not_elem_of_cons in Hx as [Hne Hx].
  rewrite filter_cons_True by done. by rewrite IH.
Qed.

(** ** The invariant *)

(** entry [i] holds the flow [f] that the hash table finds *)
Definition live (st : flowtable) (i : Z) (f : flow_entry_t) : Prop :=
  pool_elts (fm_flows st) !! i = Some f /\ fmt_flows_ht st !! fe_key f = Some i.

(** the invariant, with at most [n] entries in the cache *)
Section Invariant.
Context {n : nat}.
Record ft_ok_upto (st : flowtable) : Prop := {
  ok_max : 0 < fm_timer_max_lifetime st < 2 ^ 16;
  ok_lists : lists_ok (fm_timer_max_lifetime st) (tm_list (fmt_timers st));
  ok_heads h : 0 <= h < fm_timer_max_lifetime st ->
    pool_elts (tm_pool (fmt_timers st)) !! h = Some u32_none;
  ok_ht k i : fmt_flows_ht st !! k = Some i ->
    exists f, pool_elts (fm_flows st) !! i = Some f /\ fe_key f = k
    /\ pool_elts (tm_pool (fmt_timers st)) !! fe_timer_index f = Some i
    /\ exists h, in_slot (tm_list (fmt_timers st)) h (fe_timer_index f);
  ok_timer h x : in_slot (tm_list (fmt_timers st)) h x ->
    exists i f, pool_elts (tm_pool (fmt_timers st)) !! x = Some i /\ live st i f
    /\ fe_timer_index f = x;
  ok_cache : NoDup (fmt_flow_cache st);
  ok_cached i : i ∈ fmt_flow_cache st ->
    is_Some (pool_elts (fm_flows st) !! i) /\ forall k, fmt_flows_ht st !! k <> Some i;
  ok_index i f : pool_elts (fm_flows st) !! i = Some f -> 0 <= i < u32_none;
  ok_cache_len : (length (fmt_flow_cache st) <= n)%nat;
  ok_size : size (pool_elts (fm_flows st))
            = (length (fmt_flow_cache st) + size (fmt_flows_ht st))%nat;
  ok_cpt : fm_flows_cpt st = Z.of_nat (size (pool_elts (fm_flows st)));
  ok_cpt_max : fm_flows_cpt st <= fm_flows_max st + FLOW_CACHE_SZ /\ 0 <= fm_flows_max st < 2 ^ 31
               /\ fm_flows_max st = FM_POOL_COUNT;
  ok_timers_size : Z.of_nat (size (pool_elts (tm_pool (fmt_timers st))))
            = fm_timer_max_lifetime st + Z.of_nat (size (fmt_flows_ht st));
  ok_counter : c_flows (ft_counters st) = Z.of_nat (size (fmt_flows_ht st))
}.
End Invariant.
Abbreviation ft_ok := (@ft_ok_upto 512).

(** the settings the operations leave alone *)
Definition same_cfg (st st' : flowtable) : Prop :=
  fm_timer_max_lifetime st' = fm_timer_max_lifetime st /\ fm_timer_lifetime st' = fm_timer_lifetime st
  /\ fmt_time_index st' = fmt_time_index st /\ fmt_next_check st' = fmt_next_check st
  /\ fm_flows_max st' = fm_flows_max st.

Lemma same_cfg_refl st : same_cfg st st.
Proof. by repeat split. Qed.
Lemma same_cfg_trans a b c : same_cfg a b -> same_cfg b c -> same_cfg a c.
Proof. unfold same_cfg. intuition congruence. Qed.
#[export] Hint Resolve same_cfg_refl : upf.

Section Facts.
Context (st : flowtable) (Hok : ft_ok st).

Lemma live_inj i j f g : live st i f -> live st j g -> fe_timer_index f = fe_timer_index g -> i = j.
Proof using Hok.
  intros [Hf1 Hf2] [Hg1 Hg2] E. apply (ok_ht _ Hok) in Hf2 as (f' & ? & _ & Ht & _).
  apply (ok_ht _ Hok) in Hg2 as (g' & ? & _ & Ht' & _). congruence.
Qed.

Lemma live_slot i f : live st i f -> exists h, in_slot (tm_list (fmt_timers st)) h (fe_timer_index f).
Proof using Hok.
  intros [Hf1 Hf2]. apply (ok_ht _ Hok) in Hf2 as (f' & Hf' & _ & _ & Hs).
  by replace f with f' by congruence.
Qed.

Lemma live_pool i f : live st i f -> pool_elts (tm_pool (fmt_timers st)) !! fe_timer_index f = Some i.
Proof using Hok.
  intros [Hf1 Hf2]. apply (ok_ht _ Hok) in Hf2 as (f' & Hf' & _ & Ht & _). congruence.
Qed.

Lemma live_key i f k : pool_elts (fm_flows st) !! i = Some f -> fmt_flows_ht st !! k = Some i ->
  fe_key f = k.
Proof using Hok. intros Hf (f' & Hf' & E & _)%(ok_ht _ Hok). congruence. Qed.

(** the head of a slot is not a timer *)
Lemma timer_not_head i f h : live st i f -> 0 <= h < fm_timer_max_lifetime st -> fe_timer_index f <> h.
Proof using Hok.
  intros Hl Hh <-. pose proof (live_pool _ _ Hl) as Hp. rewrite (ok_heads _ Hok) in Hp by done.
  injection Hp as <-. destruct Hl as [Hf _]. apply (ok_index _ Hok) in Hf. lia.
Qed.

Lemma ht_size_bound : Z.of_nat (size (fmt_flows_ht st)) <= 2 ^ 31 + FLOW_CACHE_SZ.
Proof using Hok.
  pose proof (ok_size _ Hok). pose proof (ok_cpt _ Hok). pose proof (ok_cpt_max _ Hok). lia.
Qed.
End Facts.

(** ** Changing an entry *)

Lemma live_set_flow st i f f' j g :
  ft_ok st -> pool_elts (fm_flows st) !! i = Some f -> fe_key f' = fe_key f ->
  live (set_flow st i f') j g <-> (j = i /\ g = f' /\ live st i f) \/ (j <> i /\ live st j g).
Proof.
  intros Hok Hf Hk. unfold live, set_flow. simpl. destruct (decide (i = j)) as [<-|Hne].
  - rewrite lookup_insert_eq, Hf. split.
    + intros [[= <-] H]. rewrite Hk in H. auto.
    + intros [(_ & -> & _ & H)|[? _]]; [|done]. rewrite Hk. auto.
  - rewrite lookup_insert_ne by done. split; [intros; right; auto|]. intros [(-> & _)|[_ ?]]; done.
Qed.

Lemma ft_ok_set_flow st i f f' :
  ft_ok st -> pool_elts (fm_flows st) !! i = Some f -> fe_key f' = fe_key f ->
  fe_timer_index f' = fe_timer_index f -> ft_ok (set_flow st i f').
Proof.
  intros Hok Hf Hk Ht. assert (size (<[i := f']> (pool_elts (fm_flows st))) = size (pool_elts (fm_flows st))) as Hsz
    by (rewrite map_size_insert_Some; eauto).
  destruct Hok. split; simpl; try done.
  - intros k j Hj. destruct (ok_ht0 k j Hj) as (g & Hg & Hgk & Htp & Hs).
    destruct (decide (i = j)) as [<-|Hne].
    + exists f'. rewrite lookup_insert_eq. replace g with f in * by congruence.
      rewrite Hk, Ht. auto.
    + exists g. rewrite lookup_insert_ne by done. auto.
  - intros h x Hx. destruct (ok_timer0 h x Hx) as (j & g & Hp & [Hg1 Hg2] & Hgt). exists j.
    unfold live. simpl. destruct (decide (i = j)) as [<-|Hne].
    + exists f'. rewrite lookup_insert_eq. replace g with f in * by congruence.
      rewrite Hk, Ht. auto.
    + exists g. rewrite lookup_insert_ne by done. auto.
  - intros j Hj. destruct (ok_cached0 j Hj) as [H1 H2]. split; [|done].
    destruct (decide (i = j)) as [<-|Hne]; [rewrite lookup_insert_eq; eauto|by rewrite lookup_insert_ne].
  - intros j g. destruct (decide (i = j)) as [<-|Hne]; [eauto|]. rewrite lookup_insert_ne by done. eauto.
  - congruence.
  - congruence.
Qed.

(** ** Moving a timer to another slot *)

Definition relist (m : gmap Z (list Z)) (slot x : Z) : gmap Z (list Z) :=
  match list_remove m x !! slot with
  | Some l => <[slot := l ++ [x]]> (list_remove m x)
  | None => list_remove m x
  end.

Lemma in_slot_relist max m slot x h y :
  lists_ok max m -> 0 <= slot < max ->
  in_slot (relist m slot x) h y <-> in_slot m h y /\ y <> x \/ h = slot /\ y = x.
Proof.
  intros Hok Hs. unfold relist.
  destruct (proj2 (lists_slots _ _ (lists_ok_remove _ _ x Hok) slot) Hs) as [l Hl].
  rewrite Hl, in_slot_insert by done. by rewrite in_slot_remove.
Qed.

Lemma lists_ok_relist max m slot x :
  lists_ok max m -> 0 <= slot < max -> lists_ok max (relist m slot x).
Proof.
  intros Hok Hs. unfold relist.
  destruct (proj2 (lists_slots _ _ (lists_ok_remove _ _ x Hok) slot) Hs) as [l Hl].
  rewrite Hl. apply lists_ok_add; [by apply lists_ok_remove|done|].
  intros h' [_ H]%in_slot_remove. done.
Qed.

(** the timers of a table with [x] in slot [slot] *)
Definition move_timer (st : flowtable) (slot x : Z) : flowtable :=
  set_timers st (mk_timers (tm_pool (fmt_timers st)) (relist (tm_list (fmt_timers st)) slot x)).

Lemma reschedule_eq st slot h x :
  lists_ok (fm_timer_max_lifetime st) (tm_list (fmt_timers st)) ->
  in_slot (tm_list (fmt_timers st)) h x -> 0 <= slot < fm_timer_max_lifetime st ->
  reschedule st slot x = Ok (move_timer st slot x).
Proof.
  intros Hok Hx Hs. unfold reschedule. rewrite (dlist_remove_ok _ h) by done. cbn [obind].
  unfold clib_dlist_addtail, dlist_get, move_timer, relist. simpl.
  destruct (proj2 (lists_slots _ _ (lists_ok_remove _ _ x Hok) slot) Hs) as [l Hl].
  by rewrite Hl.
Qed.

Lemma ft_ok_move_timer st slot h x :
  ft_ok st -> in_slot (tm_list (fmt_timers st)) h x -> 0 <= slot < fm_timer_max_lifetime st ->
  ft_ok (move_timer st slot x).
Proof.
  intros Hok Hx Hs.
  pose proof (fun h y => in_slot_relist _ _ slot x h y (ok_lists _ Hok) Hs) as Hin. destruct Hok. split; simpl; try done.
  - by apply lists_ok_relist.
  - intros k i Hi. destruct (ok_ht0 k i Hi) as (f & Hf & Hk & Hp & h' & Hh). exists f.
    repeat (split; [done|]). destruct (decide (fe_timer_index f = x)) as [->|Hne].
    + exists slot. apply Hin. auto.
    + exists h'. apply Hin. auto.
  - intros h' y Hy. apply Hin in Hy. destruct Hy as [[Hy _]|[-> ->]]; [exact (ok_timer0 _ _ Hy)|exact (ok_timer0 _ _ Hx)].
Qed.

Lemma live_move_timer st slot x i f : live (move_timer st slot x) i f <-> live st i f.
Proof. done. Qed.

(** ** The cache of entries *)

Section Cache.
Context {P : VppPool} {POk : VppPoolOk P}.

(** what filling the cache does: new entries, none of them used before *)
Lemma cache_get_spec n flows cache flows' cache' :
  cache_get n flows cache = (flows', cache') ->
  Z.of_nat (size (pool_elts flows)) + Z.of_nat n < u32_none ->
  exists new, cache' = cache ++ new /\ length new = n /\ NoDup new
  /\ (forall i, i ∈ new -> pool_elts flows !! i = None /\ 0 <= i < u32_none
                            /\ is_Some (pool_elts flows' !! i))
  /\ (forall i, i ∉ new -> pool_elts flows' !! i = pool_elts flows !! i)
  /\ size (pool_elts flows') = (size (pool_elts flows) + n)%nat.
Proof using POk.
  revert flows cache. induction n as [|n IH]; intros flows cache E Hsz.
  { injection E as <- <-. exists []. rewrite app_nil_r. do 2 (split; [done|]).
    split; [constructor|]. split; [by intros i ?%elem_of_nil|]. split; [done|]. lia. }
  cbn [cache_get] in E. unfold pool_get in E. set (i := pool_pick _ _) in E.
  destruct (pool_pick_free (pool_elts flows) (pool_free flows)) as [Hi Hr]; [lia|]. fold i in Hi, Hr.
  apply IH in E as (new & -> & <- & Hnd & Hnew & Hold & Hs); simpl in *;
    [|rewrite map_size_insert_None by done; lia].
  assert (i ∉ new) as Hni.
  { intros Hin. destruct (Hnew i Hin) as [Hn _]. by rewrite lookup_insert_eq in Hn. }
  exists (i :: new). rewrite <- app_assoc. split; [done|]. split; [done|]. split; [by constructor|].
  rewrite map_size_insert_None in Hs by done. split; [|split; [|lia]].
  - intros j [->|Hj]%elem_of_cons.
    + split; [done|]. split; [done|]. rewrite Hold by done. rewrite lookup_insert_eq. eauto.
    + destruct (Hnew j Hj) as (Hn & Hb & Hsome). rewrite lookup_insert_ne in Hn by (intros ->; done).
      auto.
  - intros j [Hne Hj]%not_elem_of_cons. rewrite Hold by done. by rewrite lookup_insert_ne.
Qed.

(** the cache with its last [n] entries released *)
Lemma cache_put_spec n flows cache :
  (n <= length cache)%nat -> NoDup cache -> (forall i, i ∈ cache -> is_Some (pool_elts flows !! i)) ->
  exists flows', cache_put n flows cache = (flows', take (length cache - n) cache)
  /\ (forall i, i ∈ drop (length cache - n) cache -> pool_elts flows' !! i = None)
  /\ (forall i, i ∉ drop (length cache - n) cache -> pool_elts flows' !! i = pool_elts flows !! i)
  /\ size (pool_elts flows) = (size (pool_elts flows') + n)%nat.
Proof.
  revert flows cache. induction n as [|n IH]; intros flows cache Hn Hnd Hin.
  { exists flows. rewrite Nat.sub_0_r, take_ge, drop_ge by lia. simpl.
    split; [done|]. split; [by intros i ?%elem_of_nil|]. split; [done|]. lia. }
  destruct cache as [|i cache _] using rev_ind; [simpl in Hn; lia|].
  cbn [cache_put]. rewrite last_snoc. rewrite length_app in *. simpl length in *.
  replace (length cache + 1 - 1)%nat with (length cache) by lia. rewrite take_app_length.
  apply NoDup_app in Hnd as (Hnd & Hdis & _).
  assert (i ∉ cache) as Hi by (intros H; apply (Hdis i H); by left).
  destruct (IH (pool_put flows i) cache) as (flows' & -> & Hgone & Hkeep & Hsz); [lia|done| |].
  { intros j Hj. simpl. rewrite lookup_delete_ne by (intros ->; done). apply Hin, elem_of_app. by left. }
  replace (length cache + 1 - S n)%nat with (length cache - n)%nat by lia.
  exists flows'. rewrite take_app_le, drop_app_le by lia. split; [done|].
  assert (is_Some (pool_elts flows !! i)) as Hsome by (apply Hin, elem_of_app; right; by left).
  simpl in *. destruct Hsome as [f Hf]. rewrite map_size_delete_Some in Hsz by eauto.
  assert (size (pool_elts flows) <> O) as Hne
    by (intros E%map_size_empty_inv; rewrite E, lookup_empty in Hf; done).
  split; [|split; [|lia]].
  - intros j [Hj|Hj]%elem_of_app; [auto|]. apply list_elem_of_singleton in Hj as ->.
    rewrite Hkeep; [apply lookup_delete_eq|]. intros H. apply Hi. revert H. apply subseteq_drop.
  - intros j Hj. rewrite elem_of_app, list_elem_of_singleton in Hj.
    rewrite Hkeep by tauto. rewrite lookup_delete_ne; [done|]. intros ->. tauto.
Qed.
End Cache.

(** ** Taking an entry *)

(** a table whose cache is filled differs in unused entries only *)
Definition refilled (st st' : flowtable) : Prop :=
  same_cfg st st' /\ fmt_flows_ht st' = fmt_flows_ht st /\ fmt_timers st' = fmt_timers st
  /\ ft_counters st' = ft_counters st
  /\ forall i f, pool_elts (fm_flows st) !! i = Some f -> pool_elts (fm_flows st') !! i = Some f.

Section Alloc.
Context {P : VppPool} {POk : VppPoolOk P}.

Lemma cache_fill_ok st :
  ft_ok st -> fmt_flow_cache st = [] -> ft_ok (flow_entry_cache_fill st)
  /\ refilled st (flow_entry_cache_fill st).
Proof using POk.
  intros Hok Hc. unfold flow_entry_cache_fill. case_test.
  { split; [done|]. split; auto with upf. }
  btest. destruct (cache_get _ _ _) as [flows cache] eqn:E. rewrite Hc in E.
  assert (Z.of_nat (size (pool_elts (fm_flows st))) < 2 ^ 31) as Hsz.
  { rewrite <- (ok_cpt _ Hok). pose proof (ok_cpt_max _ Hok). lia. }
  apply cache_get_spec in E as (new & -> & Hlen & Hnd & Hnew & Hold & Hs);
    [|change (Z.to_nat FLOW_CACHE_SZ) with 256%nat; unfold u32_none; lia].
  change (Z.to_nat FLOW_CACHE_SZ) with 256%nat in *. simpl app.
  assert (forall i f, pool_elts (fm_flows st) !! i = Some f -> pool_elts flows !! i = Some f) as Hkeep.
  { intros i f Hi. rewrite Hold; [done|]. intros Hin. destruct (Hnew i Hin) as [? _]. congruence. }
  split; [|split; [by repeat split|by repeat split]].
  pose proof (ok_cpt _ Hok) as Hcpt. pose proof (ok_size _ Hok) as Hsize. rewrite Hc in Hsize.
  destruct Hok. split; simpl; try done.
  - intros k i Hi. destruct (ok_ht0 k i Hi) as (f & Hf & ?). exists f. auto.
  - intros h x Hx. destruct (ok_timer0 h x Hx) as (i & f & Hp & [Hf Hh] & Htm). exists i, f.
    repeat split; auto.
  - intros i Hi. destruct (Hnew i Hi) as (Hn & _ & Hsome). split; [done|]. intros k Hk.
    destruct (ok_ht0 k i Hk) as (f & Hf & _). congruence.
  - intros i f Hf. destruct (decide (i ∈ new)) as [Hin|Hin]; [by apply Hnew|].
    rewrite Hold in Hf by done. eauto.
  - lia.
  - simpl in *. lia.
  - rewrite Hs. unfold wrap, FLOW_CACHE_SZ in *. rewrite Z.mod_small; lia.
  - unfold wrap, FLOW_CACHE_SZ in *. rewrite Z.mod_small; lia.
Qed.

(** an entry is taken off a refilled cache, or there is none and the pool is
    used up *)
Lemma flow_entry_alloc_spec st :
  ft_ok st -> exists st0, ft_ok st0 /\ refilled st st0 /\
  ((exists c i, fmt_flow_cache st0 = c ++ [i]
      /\ flow_entry_alloc st = (Some i, set_pool st0 (fm_flows st0) (fm_flows_cpt st0) c))
   \/ fmt_flow_cache st0 = [] /\ fmt_flow_cache st = [] /\ flow_entry_alloc st = (None, st0)
      /\ fm_flows_max st < fm_flows_cpt st).
Proof using POk.
  intros Hok. unfold flow_entry_alloc. set (st0 := match fmt_flow_cache st with [] => _ | _ => _ end).
  assert (ft_ok st0 /\ refilled st st0) as [Hok0 Hr0].
  { subst st0. destruct (fmt_flow_cache st) eqn:E; [by apply cache_fill_ok|].
    split; [done|]. split; auto with upf. }
  exists st0. split; [done|]. split; [done|].
  destruct (fmt_flow_cache st0) as [|i c _] eqn:E using rev_ind.
  - right. split; [done|]. subst st0. revert E.
    destruct (fmt_flow_cache st) eqn:Ec; [|congruence]. intros E. split; [done|].
    split; [done|]. revert E. unfold flow_entry_cache_fill.
    case_test; [by btest|]. destruct (cache_get _ _ _) as [flows cache] eqn:Eg. simpl. intros ->.
    apply cache_get_spec in Eg as (new & Hn & Hl & _).
    + rewrite Ec in Hn. destruct new; [done|]. done.
    + btest. pose proof (ok_cpt _ Hok). pose proof (ok_cpt_max _ Hok).
      change (Z.of_nat (Z.to_nat FLOW_CACHE_SZ)) with 256. unfold u32_none, FLOW_CACHE_SZ in *. lia.
  - left. exists c, i. split; [done|]. rewrite last_snoc, length_app. simpl length.
    by rewrite Nat.add_sub, take_app_length.
Qed.

(** ** Creating a flow *)

Lemma flow_create_ok st0 c i key now d gen :
  ft_ok st0 -> fmt_flow_cache st0 = c ++ [i] -> fmt_flows_ht st0 !! key = None ->
  exists st' f, flow_create (set_pool st0 (fm_flows st0) (fm_flows_cpt st0) c) i key now d gen = Ok st'
  /\ ft_ok st' /\ same_cfg st0 st' /\ live st' i f
  /\ f = fe_set_timing (new_flow st0 key now d gen) TCP_F_STATE_START now
           (flowtable_lifetime_calculate st0 key) (fe_timer_index f)
  /\ in_slot (tm_list (fmt_timers st'))
       (wrap 32 (fmt_time_index st0 + fe_lifetime f) mod fm_timer_max_lifetime st0) (fe_timer_index f)
  /\ fmt_flows_ht st' = <[key := i]> (fmt_flows_ht st0)
  /\ (forall j, j <> i -> pool_elts (fm_flows st') !! j = pool_elts (fm_flows st0) !! j)
  /\ forall h x, x <> fe_timer_index f ->
       in_slot (tm_list (fmt_timers st')) h x <-> in_slot (tm_list (fmt_timers st0)) h x.
Proof using POk.
  intros Hok Hc Hk. unfold flow_create, pool_get. cbn [fmt_timers set_pool].
  destruct (pool_pick_free (pool_elts (tm_pool (fmt_timers st0))) (pool_free (tm_pool (fmt_timers st0))))
    as [Hx Hxr].
  { rewrite (ok_timers_size _ Hok). pose proof (ok_max _ Hok). pose proof (ht_size_bound _ Hok).
    unfold u32_none, FLOW_CACHE_SZ in *. lia. }
  set (x := pool_pick _ _) in *. set (f := fe_set_timing _ _ _ _ x).
  set (slot := wrap 32 (fmt_time_index st0 + fe_lifetime f) mod fm_timer_max_lifetime st0).
  assert (0 <= slot < fm_timer_max_lifetime st0) as Hslot
    by (apply Z.mod_pos_bound; pose proof (ok_max _ Hok); lia).
  assert (forall h, ~ in_slot (tm_list (fmt_timers st0)) h x) as Hnx.
  { intros h Hin. destruct (ok_timer _ Hok h x Hin) as (j & g & Hp & _). congruence. }
  destruct (proj2 (lists_slots _ _ (ok_lists _ Hok) slot) Hslot) as [l Hl].
  unfold timer_wheel_insert_flow, clib_dlist_addtail, dlist_get.
  cbn [fmt_timers set_timers fm_timer_max_lifetime set_flow set_pool fmt_time_index tm_list].
  change (fe_timer_index f) with x. fold slot. rewrite Hl. cbn [obind].
  eexists _, f. split; [reflexivity|].
  assert (i ∈ fmt_flow_cache st0) as Hi by (rewrite Hc; apply elem_of_app; right; by left).
  destruct (ok_cached _ Hok i Hi) as [[f0 Hf0] Hnoht].
  assert (i ∉ c) as Hic.
  { pose proof (ok_cache _ Hok) as Hnd. rewrite Hc in Hnd. apply NoDup_app in Hnd as (_ & Hd & _).
    intros H. apply (Hd i H). by left. }
  assert (forall h y, in_slot (<[slot := l ++ [x]]> (tm_list (fmt_timers st0))) h y
    <-> in_slot (tm_list (fmt_timers st0)) h y \/ h = slot /\ y = x) as Hin
    by (intros; by apply in_slot_insert).
  split; [|split; [by repeat split|split; [|split; [done|split; [|split; [done|split]]]]]].
  - pose proof (ok_size _ Hok) as Hsize. rewrite Hc, length_app in Hsize.
    pose proof (ok_cache_len _ Hok) as Hcl. rewrite Hc, length_app in Hcl. simpl in Hsize, Hcl.
    assert (size (<[i := f]> (pool_elts (fm_flows st0))) = size (pool_elts (fm_flows st0))) as Hsz
      by (rewrite map_size_insert_Some; eauto).
    pose proof (ht_size_bound _ Hok). destruct Hok. split; simpl; try done.
    + by apply lists_ok_add.
    + intros h Hh. rewrite lookup_insert_ne; [eauto|]. intros ->. rewrite ok_heads0 in Hx by done. done.
    + intros k j Hj. destruct (decide (key = k)) as [<-|Hne].
      * rewrite lookup_insert_eq in Hj. injection Hj as <-. exists f. rewrite !lookup_insert_eq.
        repeat split; try done. exists slot. apply Hin. auto.
      * rewrite lookup_insert_ne in Hj by done. assert (i <> j) by (intros ->; by apply (Hnoht k)).
        destruct (ok_ht0 k j Hj) as (g & Hg & Hgk & Hgp & h & Hh). exists g.
        rewrite lookup_insert_ne by done. split; [done|]. split; [done|]. split.
        -- rewrite lookup_insert_ne; [done|]. intros E. rewrite E in Hx. congruence.
        -- exists h. apply Hin. auto.
    + intros h y [Hy|[-> ->]]%Hin.
      * destruct (ok_timer0 h y Hy) as (j & g & Hp & [Hg1 Hg2] & Ht).
        assert (i <> j) by (intros ->; by apply (Hnoht (fe_key g))).
        exists j, g. rewrite lookup_insert_ne by (intros ->; congruence). unfold live. simpl.
        rewrite lookup_insert_ne by done. repeat split; try done.
        rewrite lookup_insert_ne; [done|]. intros E. rewrite E in Hk. congruence.
      * exists i, f. rewrite lookup_insert_eq. unfold live. simpl. by rewrite !lookup_insert_eq.
    + rewrite Hc in ok_cache0. by apply NoDup_app in ok_cache0 as [? _].
    + intros j Hj. assert (i <> j) by (intros ->; done).
      destruct (ok_cached0 j) as [H1 H2]; [rewrite Hc; apply elem_of_app; by left|].
      rewrite lookup_insert_ne by done. split; [done|]. intros k.
      destruct (decide (key = k)) as [<-|]; [rewrite lookup_insert_eq; congruence|by rewrite lookup_insert_ne].
    + intros j g. destruct (decide (i = j)) as [<-|]; [intros _; eauto|]. rewrite lookup_insert_ne by done. eauto.
    + lia.
    + rewrite Hsz, map_size_insert_None by done. lia.
    + congruence.
    + rewrite !map_size_insert_None by done. lia.
    + rewrite map_size_insert_None, ok_counter0 by done. unfold wrap, FLOW_CACHE_SZ in *. rewrite Z.mod_small; lia.
  - unfold live. simpl. by rewrite !lookup_insert_eq.
  - apply Hin. auto.
  - intros j Hj. simpl. by rewrite lookup_insert_ne.
  - intros h y Hy. simpl. rewrite Hin. split; [intros [?|[_ ->]]; [done|by destruct Hy]|auto].
Qed.
End Alloc.

(** ** Removing a flow *)

Section Remove.
Context {P : VppPool} {POk : VppPoolOk P}.

Lemma cache_empty_ok st :
  @ft_ok_upto 513 st -> length (fmt_flow_cache st) = 513%nat ->
  ft_ok (flow_entry_cache_empty st) /\ same_cfg st (flow_entry_cache_empty st)
  /\ fmt_flows_ht (flow_entry_cache_empty st) = fmt_flows_ht st
  /\ fmt_timers (flow_entry_cache_empty st) = fmt_timers st
  /\ forall i f, live st i f -> live (flow_entry_cache_empty st) i f.
Proof.
  intros Hok Hlen. unfold flow_entry_cache_empty, Zlen. rewrite Hlen.
  change (Z.to_nat (Z.of_nat 513 - 1 - FLOW_CACHE_SZ)) with 256%nat.
  destruct (cache_put_spec 256 (fm_flows st) (fmt_flow_cache st)) as (flows & -> & Hgone & Hkeep & Hsz);
    [lia|apply (ok_cache _ Hok)|intros i Hi; by apply (ok_cached _ Hok)|].
  rewrite Hlen in *. change (513 - 256)%nat with 257%nat in *.
  assert (forall i k, fmt_flows_ht st !! k = Some i -> pool_elts flows !! i = pool_elts (fm_flows st) !! i)
    as Hlive.
  { intros i k Hi. apply Hkeep. intros Hd%subseteq_drop. by apply (ok_cached _ Hok i Hd) in Hi. }
  pose proof (ok_cpt _ Hok) as Hcpt. pose proof (ok_size _ Hok) as Hsize. rewrite Hlen in Hsize.
  split; [|split; [by repeat split|split; [done|split; [done|]]]].
  - destruct Hok. split; simpl; try done.
    + intros k i Hi. rewrite (Hlive i k Hi). eauto.
    + intros h x Hx. destruct (ok_timer0 h x Hx) as (i & f & Hp & [Hf Hh] & Htm). exists i, f.
      split; [done|]. split; [|done]. split; [|done]. simpl. by rewrite (Hlive _ _ Hh).
    + apply (sublist_NoDup _ _ ok_cache0), sublist_take.
    + intros i Hi. assert (i ∈ fmt_flow_cache st) as Hi' by (revert Hi; apply subseteq_take).
      destruct (ok_cached0 i Hi') as [H1 H2].
      split; [|done]. rewrite Hkeep; [done|]. intros Hd. rewrite <- (take_drop 257 (fmt_flow_cache st)) in ok_cache0.
      apply NoDup_app in ok_cache0 as (_ & Hdis & _). by apply (Hdis i).
    + intros i f Hf. destruct (decide (i ∈ drop 257 (fmt_flow_cache st))) as [Hd|Hd];
        [rewrite Hgone in Hf by done; done|]. rewrite Hkeep in Hf by done. eauto.
    + rewrite length_take. lia.
    + rewrite length_take. lia.
    + unfold wrap, FLOW_CACHE_SZ in *. rewrite Z.mod_small; lia.
    + unfold wrap, FLOW_CACHE_SZ in *. rewrite Z.mod_small; lia.
  - intros i f [Hf Hh]. split; [|done]. simpl. by rewrite (Hlive _ _ Hh).
Qed.

Lemma live_weaken (n : nat) st : @ft_ok_upto n st -> (length (fmt_flow_cache st) <= 512)%nat -> ft_ok st.
Proof. intros [] H. by split. Qed.

Lemma expire_remove_ok st i f h :
  ft_ok st -> live st i f -> in_slot (tm_list (fmt_timers st)) h (fe_timer_index f) ->
  exists st', expire_remove st i f (fe_timer_index f) = Ok st' /\ ft_ok st' /\ same_cfg st st'
  /\ fmt_flows_ht st' = delete (fe_key f) (fmt_flows_ht st)
  /\ tm_list (fmt_timers st') = list_remove (tm_list (fmt_timers st)) (fe_timer_index f)
  /\ forall j g, live st' j g <-> j <> i /\ live st j g.
Proof.
  intros Hok Hl Hx. unfold expire_remove. rewrite (dlist_remove_ok _ h) by done. cbn [obind].
  eexists. split; [reflexivity|]. unfold flow_entry_free.
  set (st1 := set_pool _ _ _ _).
  pose proof Hl as [Hf Hh].
  assert (forall j g, live st1 j g <-> j <> i /\ live st j g) as Hlive.
  { intros j g. unfold live, st1. simpl. destruct (decide (i = j)) as [<-|Hne].
    - rewrite lookup_insert_eq. split; [|by intros [? _]]. intros [[= <-] H].
      by rewrite lookup_delete_eq in H.
    - rewrite lookup_insert_ne by done. destruct (decide (fe_key f = fe_key g)) as [E|E].
      + rewrite E, lookup_delete_eq. split; [by intros [_ ?]|]. intros (_ & _ & H). rewrite E in Hh. congruence.
      + rewrite lookup_delete_ne by done. split; [auto|by intros [_ ?]]. }
  assert (@ft_ok_upto 513 st1) as Hok1.
  { assert (i ∉ fmt_flow_cache st) as Hni
      by (intros Hi; by apply (ok_cached _ Hok i Hi) in Hh).
    pose proof (live_pool _ Hok _ _ Hl) as Hp.
    assert (forall k j, delete (fe_key f) (fmt_flows_ht st) !! k = Some j -> j <> i /\ fmt_flows_ht st !! k = Some j) as Hdel.
    { intros k j Hj. apply lookup_delete_Some in Hj as [Hne Hj]. split; [|done]. intros ->.
      apply Hne. by apply (live_key _ Hok i f k). }
    pose proof (ok_size _ Hok) as Hsize. pose proof (ok_cache_len _ Hok). pose proof (ht_size_bound _ Hok).
    assert (size (fmt_flows_ht st) <> O) as Hnz
      by (intros E%map_size_empty_inv; rewrite E, lookup_empty in Hh; done).
    assert (size (delete (fe_key f) (fmt_flows_ht st)) = (size (fmt_flows_ht st) - 1)%nat) as Hs1
      by (rewrite map_size_delete_Some; eauto; lia).
    assert (size (<[i := fe_free_uri f]> (pool_elts (fm_flows st))) = size (pool_elts (fm_flows st))) as Hs2
      by (rewrite map_size_insert_Some; eauto).
    pose proof (live_inj _ Hok) as Hinj. pose proof (timer_not_head _ Hok i f) as Hhead.
    assert (forall h' x, in_slot (list_remove (tm_list (fmt_timers st)) (fe_timer_index f)) h' x ->
      exists j g, pool_elts (tm_pool (fmt_timers st)) !! x = Some j /\ live st1 j g /\ fe_timer_index g = x) as Htimer.
    { intros h' x [Hx' Hne]%in_slot_remove.
      destruct (ok_timer _ Hok h' x Hx') as (j & g & Hpj & Hlj & Htm). exists j, g. split; [done|].
      split; [|done]. apply Hlive. split; [|done]. intros ->. destruct Hlj as [Hg _].
      replace g with f in * by congruence. done. }
    destruct Hok. split; simpl; try done.
    - by apply lists_ok_remove.
    - intros h' Hh'. rewrite lookup_delete_ne; [eauto|]. by apply Hhead.
    - intros k j [Hne Hj]%Hdel. destruct (ok_ht0 k j Hj) as (g & Hg & Hgk & Hgp & h' & Hgs). exists g.
      assert (fe_timer_index g <> fe_timer_index f) as Hnt.
      { intros E. apply Hne. apply (Hinj j i g f); [by split; [|rewrite Hgk]|done|done]. }
      rewrite lookup_insert_ne by done. split; [done|]. split; [done|].
      rewrite lookup_delete_ne by done. split; [done|]. exists h'. by apply in_slot_remove.
    - intros h' x Hx'. pose proof Hx' as [_ Hne]%in_slot_remove.
      destruct (Htimer h' x Hx') as (j & g & Hpj & Hlj & Htm). exists j, g.
      by rewrite lookup_delete_ne.
    - apply NoDup_app. split; [done|]. split; [|apply NoDup_singleton].
      intros j Hj ->%list_elem_of_singleton. done.
    - intros j [Hj|Hj]%elem_of_app.
      + assert (i <> j) by (intros ->; done). rewrite lookup_insert_ne by done.
        destruct (ok_cached0 j Hj) as [Hc1 Hc2]. split; [done|]. intros k [_ Hk]%Hdel. by apply (Hc2 k).
      + apply list_elem_of_singleton in Hj as ->. rewrite lookup_insert_eq. split; [eauto|].
        intros k [? _]%Hdel. done.
    - intros j g. destruct (decide (i = j)) as [<-|]; [intros _; eauto|]. rewrite lookup_insert_ne by done. eauto.
    - rewrite length_app. simpl. lia.
    - rewrite length_app, Hs1, Hs2. simpl. lia.
    - congruence.
    - rewrite map_size_delete_Some, Hs1 by eauto. lia.
    - rewrite ok_counter0, Hs1. unfold wrap, FLOW_CACHE_SZ in *. rewrite Z.mod_small; lia. }
  assert (same_cfg st st1) as Hcfg by (by repeat split).
  case_test; btest.
  - assert (length (fmt_flow_cache st1) = 513%nat) as Hlen.
    { pose proof (ok_cache_len _ Hok1). unfold Zlen, FLOW_CACHE_SZ in *. lia. }
    destruct (cache_empty_ok st1 Hok1 Hlen) as (H1 & H2 & H3 & H4 & H5).
    split; [done|]. split; [by eapply same_cfg_trans|]. split; [by rewrite H3|]. split; [by rewrite H4|].
    intros j g. rewrite <- Hlive. split; [|apply H5]. intros [Hg1 Hg2]. rewrite H3 in Hg2.
    destruct (ok_ht _ Hok1 _ _ Hg2) as (g' & Hg' & Hk & _).
    assert (live st1 j g') as Hl' by (split; [done|]; by rewrite Hk).
    destruct (H5 _ _ Hl') as [Hg'' _]. by replace g with g' by congruence.
  - split; [|done]. apply (live_weaken 513); [done|]. unfold Zlen, FLOW_CACHE_SZ in *. lia.
Qed.
End Remove.
