(* ===== verification/FlowExpire.v ===== *)
(** * Expiry of flows

    The timer wheel of [FlowTable]: every flow is in the slot of a second not
    later than the end of its lifetime, so that a pass over the seconds that have
    gone by finds every idle flow, and only removes those. *)

From Stdlib Require Import ZArith Lia.
From stdpp Require Import base list list_numbers option numbers decidable gmap fin_maps.
From S2P Require Import Prelude PfcpIo PfcpIe UpfTypes UpfUrr UpfRules FlowTcp FlowKey FlowTable FlowTableInv.

(** time stamps that leave room for a lifetime *)
Definition clock_ok (now : Z) : Prop := 0 <= now < 2 ^ 32 - 2 ^ 17.

Definition timing_ok (now : Z) (st : flowtable) : Prop :=
  forall i f, live st i f -> 0 <= fe_active f <= now /\ 1 <= fe_lifetime f < 2 ^ 16.

(** the flow waits in the slot of a second from [t] on, before it expires *)
Definition waits (t : Z) (st : flowtable) (f : flow_entry_t) : Prop :=
  exists s, in_slot (tm_list (fmt_timers st)) (s mod fm_timer_max_lifetime st) (fe_timer_index f)
            /\ t <= s <= flow_expires f.
Definition sched (t : Z) (st : flowtable) : Prop := forall i f, live st i f -> waits t st f.

Lemma flow_expires_eq now f :
  clock_ok now -> 0 <= fe_active f <= now -> 0 <= fe_lifetime f < 2 ^ 16 ->
  flow_expires f = fe_active f + fe_lifetime f.
Proof. intros Hn Ha Hl. unfold flow_expires, clock_ok in *. apply wrap_small, in_range_spec. lia. Qed.

Lemma waits_weaken t t' st f : t <= t' -> waits t' st f -> waits t st f.
Proof. intros Ht (s & H1 & H2). exists s. split; [done|lia]. Qed.

Section Expire.
Context {P : VppPool} {POk : VppPoolOk P}.
Context (hook : flow_entry_t -> bool) (now : Z) (Hnow : clock_ok now).

(** what a part of a pass may change: flows that are idle are removed, or kept
    by the hook with a later activity *)
Record aged (st st' : flowtable) : Prop := {
  aged_live i g' : live st' i g' -> exists g, live st i g /\ g' = fe_set_active g (fe_active g')
    /\ (now < flow_expires g \/ (forall x, hook x = false) -> g' = g);
  aged_gone i g : live st i g -> (exists g', live st' i g') \/ flow_expires g <= now
}.

Lemma fe_set_active_id f : fe_set_active f (fe_active f) = f.
Proof. by destruct f. Qed.

Lemma aged_refl st : aged st st.
Proof. split; [|eauto]. intros i g Hg. exists g. by rewrite fe_set_active_id. Qed.

Lemma aged_trans a b c : aged a b -> aged b c -> aged a c.
Proof.
  intros [H1 H2] [H3 H4]. split.
  - intros i g'' (g' & (g & Hg & E1 & I1)%H1 & E2 & I2)%H3. exists g. split; [done|]. split.
    + rewrite E2, E1 at 1. done.
    + intros I. specialize (I1 I). subst g'. apply I2. done.
  - intros i g Hg. destruct (H2 i g Hg) as [[g' Hg']|?]; [|by right].
    destruct (H4 i g' Hg') as [?|Hle]; [by left|]. right.
    destruct (H1 i g' Hg') as (g0 & Hg0 & E & I). replace g0 with g in * by (destruct Hg, Hg0; congruence).
    destruct (Z.le_gt_cases (flow_expires g) now); [done|]. rewrite I in Hle by (left; lia). lia.
Qed.

(** one flow, at the second [t] of the pass *)
Section Single.
Context (st : flowtable) (Hok : ft_ok st) (Ht : timing_ok now st).
Context (i : Z) (f : flow_entry_t) (Hl : live st i f).
Context (t : Z) (Htn : t <= now) (Hte : t <= flow_expires f).

Lemma expire_keep_ok f' :
  f' = fe_set_active f (fe_active f') -> fe_active f <= fe_active f' <= now ->
  now < flow_expires f' \/ flow_expires f + fe_lifetime f <= flow_expires f' ->
  (now < flow_expires f \/ (forall x, hook x = false) -> f' = f) ->
  let st' := move_timer (set_flow st i f') (flow_expires f' mod fm_timer_max_lifetime st) (fe_timer_index f) in
  reschedule (set_flow st i f') (flow_expires f' mod fm_timer_max_lifetime st) (fe_timer_index f) = Ok st'
  /\ ft_ok st' /\ same_cfg st st' /\ timing_ok now st' /\ aged st st' /\ waits (t + 1) st' f' /\ live st' i f'
  /\ (forall j g, live st' j g -> j <> i -> live st j g).
Proof using Hok Ht Hl Htn Hte.
  intros Ef Ha Hexp Hid st'. pose proof Hl as [Hf Hh]. destruct (Ht i f Hl) as [Hfa Hfl].
  destruct (live_slot _ Hok i f Hl) as [h Hs]. pose proof (ok_max _ Hok) as Hmax.
  assert (fe_key f' = fe_key f /\ fe_timer_index f' = fe_timer_index f /\ fe_lifetime f' = fe_lifetime f)
    as (Hk & Hti & Hli) by (rewrite Ef; done).
  pose proof (ft_ok_set_flow _ _ _ f' Hok Hf Hk Hti) as Hok1.
  assert (0 <= flow_expires f' mod fm_timer_max_lifetime st < fm_timer_max_lifetime st) as Hslot
    by (apply Z.mod_pos_bound; lia).
  assert (forall j g, live st' j g <-> (j = i /\ g = f') \/ (j <> i /\ live st j g)) as Hlive.
  { intros j g. unfold st'. rewrite live_move_timer, (live_set_flow st i f) by done. tauto. }
  split; [exact (reschedule_eq (set_flow st i f') _ h _ (ok_lists _ Hok1) Hs Hslot)|].
  split; [exact (ft_ok_move_timer (set_flow st i f') _ h _ Hok1 Hs Hslot)|]. split; [done|].
  split; [|split; [|split; [|split]]].
  - intros j g [[-> ->]|[_ Hg]]%Hlive; [|eauto]. rewrite Hli. lia.
  - split.
    + intros j g' [[-> ->]|[_ Hg]]%Hlive; [exists f; auto|].
      exists g'. by rewrite fe_set_active_id.
    + intros j g Hg. left. destruct (decide (j = i)) as [->|]; [exists f'|exists g]; apply Hlive; auto.
  - exists (flow_expires f'). split; [|destruct Hexp; lia]. rewrite Hti.
    apply (in_slot_relist _ _ _ _ _ _ (ok_lists _ Hok1) Hslot). by right.
  - apply Hlive. auto.
  - intros j g [[-> _]|[_ ?]]%Hlive Hj; done.
Qed.

(** the list of slot [h] after the flow moved *)
Definition moved (st' : flowtable) : Prop :=
  (forall h x, x <> fe_timer_index f ->
    in_slot (tm_list (fmt_timers st')) h x <-> in_slot (tm_list (fmt_timers st)) h x)
  /\ (forall h l, tm_list (fmt_timers st) !! h = Some (fe_timer_index f :: l) ->
      exists l', tm_list (fmt_timers st') !! h = Some (l ++ l') /\ (l' = [] \/ l' = [fe_timer_index f])).

Lemma moved_remove st' :
  tm_list (fmt_timers st') = list_remove (tm_list (fmt_timers st)) (fe_timer_index f) -> moved st'.
Proof using Hok.
  intros E. split.
  - intros h x Hx. rewrite E, in_slot_remove. split; [by intros [? _]|auto].
  - intros h l Hh. exists []. split; [|by left]. rewrite E, app_nil_r. unfold list_remove.
    rewrite lookup_fmap, Hh. simpl. f_equal. apply (filter_head_nodup l).
    exact (lists_nodup _ _ (ok_lists _ Hok) _ _ Hh).
Qed.

Lemma moved_relist st' slot :
  tm_list (fmt_timers st') = relist (tm_list (fmt_timers st)) slot (fe_timer_index f) ->
  0 <= slot < fm_timer_max_lifetime st -> moved st'.
Proof using Hok.
  intros E Hs. split.
  - intros h x Hx. rewrite E, (in_slot_relist _ _ _ _ _ _ (ok_lists _ Hok) Hs).
    split; [by intros [[? _]|[_ ?]]|auto].
  - intros h l Hh. rewrite E. unfold relist.
    assert (list_remove (tm_list (fmt_timers st)) (fe_timer_index f) !! h = Some l) as Hl'.
    { unfold list_remove. rewrite lookup_fmap, Hh. simpl. f_equal. apply (filter_head_nodup l).
      exact (lists_nodup _ _ (ok_lists _ Hok) _ _ Hh). }
    destruct (decide (slot = h)) as [->|Hne].
    + rewrite Hl', lookup_insert_eq. exists [fe_timer_index f]. auto.
    + exists []. rewrite app_nil_r. split; [|by left].
      destruct (list_remove _ _ !! slot); [by rewrite lookup_insert_ne|done].
Qed.

Lemma expire_single_ok :
  exists st', expire_single_flow hook st i f (fe_timer_index f) now = Ok (true, st')
  /\ ft_ok st' /\ same_cfg st st' /\ timing_ok now st' /\ aged st st' /\ moved st'
  /\ (forall j g, live st' j g -> j = i -> waits (t + 1) st' g)
  /\ (forall j g, live st' j g -> j <> i -> live st j g).
Proof using Hok Ht Hl Htn Hte Hnow.
  destruct (Ht i f Hl) as [Hfa Hfl]. pose proof (ok_max _ Hok) as Hmax. pose proof Hl as [Hf Hh].
  pose proof (flow_expires_eq now f Hnow Hfa ltac:(lia)) as Hexp.
  destruct (live_slot _ Hok i f Hl) as [h Hs].
  assert (forall x, 0 <= x mod fm_timer_max_lifetime st < fm_timer_max_lifetime st) as Hmod
    by (intros; apply Z.mod_pos_bound; lia).
  assert (forall x, (x mod fm_timer_max_lifetime st =? fe_timer_index f) = false) as Hne.
  { intros x. apply Z.eqb_neq. intros E. by apply (timer_not_head _ Hok i f _ Hl (Hmod x)). }
  unfold expire_single_flow, assert. rewrite Z.eqb_refl, (proj2 (Z.leb_le _ _)) by lia.
  destruct (Z.ltb_spec now (flow_expires f)) as [Hk|Hk]; cbn [negb andb orb].
  - destruct (expire_keep_ok f) as (E & H1 & H2 & H3 & H4 & H5 & H6 & H7);
      [by rewrite fe_set_active_id|lia|lia|done|].
    cbn [set_flow fm_timer_max_lifetime]. rewrite Hne. cbn [negb]. fold (set_flow st i f).
    rewrite E. cbn [obind]. eexists. split; [reflexivity|]. do 4 (split; [done|]).
    split; [by apply (moved_relist _ (flow_expires f mod fm_timer_max_lifetime st))|]. split; [|done].
    intros j g Hg ->. by replace g with f by (destruct Hg, H6; congruence).
  - destruct (hook f) eqn:Hhk; cbn [orb].
    + set (f' := fe_set_active f (flow_expires f)).
      assert (flow_expires f' = flow_expires f + fe_lifetime f) as Hexp'
        by (apply (flow_expires_eq now f' Hnow); simpl; lia).
      destruct (expire_keep_ok f') as (E & H1 & H2 & H3 & H4 & H5 & H6 & H7);
        [done|simpl; lia|lia|intros [?|Hno]; [lia|by rewrite Hno in Hhk]|].
      cbn [set_flow fm_timer_max_lifetime]. rewrite Hne. cbn [negb]. fold (set_flow st i f').
      change (fe_timer_index f') with (fe_timer_index f). rewrite E. cbn [obind].
      eexists. split; [reflexivity|]. do 4 (split; [done|]).
      split; [by apply (moved_relist _ (flow_expires f' mod fm_timer_max_lifetime st))|]. split; [|done].
      intros j g Hg ->. by replace g with f' by (destruct Hg, H6; congruence).
    + replace (set_flow st i f) with st
        by (destruct st; unfold set_flow, pool_set; simpl in *; rewrite insert_id by done;
            by match goal with |- context [mk_pool _ (pool_free ?p)] => destruct p end).
      destruct (expire_remove_ok st i f h Hok Hl Hs) as (st' & -> & H1 & H2 & H3 & H4 & H5).
      cbn [obind]. eexists. split; [reflexivity|]. split; [done|]. split; [done|].
      split; [intros j g [_ Hg]%H5; eauto|]. split; [|split; [by apply moved_remove|]].
      * split.
        -- intros j g [_ Hg]%H5. exists g. by rewrite fe_set_active_id.
        -- intros j g Hg. destruct (decide (j = i)) as [->|]; [|left; exists g; by apply H5].
           right. by replace g with f by (destruct Hg; congruence).
      * split; intros j g [? ?]%H5; done.
Qed.
End Single.

(** ** A slot *)

(** a flow whose timer did not move keeps its slot *)
Lemma waits_moved st f st' t g :
  moved st f st' -> same_cfg st st' -> fe_timer_index g <> fe_timer_index f ->
  waits t st g -> waits t st' g.
Proof.
  intros [Hm _] (Hmax & _) Hne (s & Hs & Hr). exists s. rewrite Hmax. split; [|done].
  by apply Hm.
Qed.

(** every flow outside slot [slot] waits for a later second than [t] *)
Definition outside (t slot : Z) (st : flowtable) : Prop :=
  forall i f, live st i f -> ~ in_slot (tm_list (fmt_timers st)) slot (fe_timer_index f) ->
  waits (t + 1) st f.

Lemma sched_outside t st :
  sched t st -> outside t (t mod fm_timer_max_lifetime st) st.
Proof.
  intros H i f Hl Hn. destruct (H i f Hl) as (s & Hs & Hr). exists s. split; [done|].
  destruct (decide (s = t)) as [->|]; [done|lia].
Qed.

(** the next timer of the walk is the first of what is left of the list *)
Definition walk_at (st : flowtable) (slot index : Z) : Prop :=
  index = slot \/ exists l, tm_list (fmt_timers st) !! slot = Some (index :: l).

Lemma expire_slot_ok t fuel st cpt index :
  let slot := t mod fm_timer_max_lifetime st in
  ft_ok st -> timing_ok now st -> sched t st -> t <= now -> walk_at st slot index ->
  outside t slot st -> (index = slot -> sched (t + 1) st) ->
  0 <= cpt <= TIMER_MAX_EXPIRE -> TIMER_MAX_EXPIRE - cpt < Z.of_nat fuel ->
  exists st' cpt', expire_slot hook fuel now slot index st cpt = Ok (st', cpt')
  /\ ft_ok st' /\ same_cfg st st' /\ timing_ok now st' /\ sched t st' /\ aged st st'
  /\ cpt <= cpt' <= TIMER_MAX_EXPIRE /\ (cpt' < TIMER_MAX_EXPIRE -> sched (t + 1) st').
Proof using Hnow.
  intros slot. unfold slot; clear slot.
  revert st cpt index. induction fuel as [|fuel IH]; intros st cpt index Hok Ht Hsch Htn Hw Hout Hend Hc Hfuel.
  { lia. }
  set (slot := t mod fm_timer_max_lifetime st) in *.
  assert (0 <= slot < fm_timer_max_lifetime st) as Hslot
    by (apply Z.mod_pos_bound; pose proof (ok_max _ Hok); lia).
  cbn [expire_slot]. destruct (Z.eqb_spec index slot) as [->|Hne]; cbn [orb].
  { exists st, cpt. repeat (split; [done|]). split; [apply aged_refl|]. split; [lia|auto]. }
  destruct (Z.ltb_spec cpt TIMER_MAX_EXPIRE) as [Hlt|Hge]; cbn [negb]; cycle 1.
  { exists st, cpt. repeat (split; [done|]). split; [apply aged_refl|]. split; [lia|lia]. }
  destruct Hw as [?|[l Hlist]]; [done|].
  assert (in_slot (tm_list (fmt_timers st)) slot index) as Hin by (exists (index :: l); split; [done|by left]).
  destruct (ok_timer _ Hok slot index Hin) as (i & f & Hp & Hl & Hti).
  unfold timer_flow, pool_elt, flowtable_get_flow, pool_elt, dlist_get.
  rewrite Hp, (proj1 Hl), Hlist. cbn [obind next_in]. rewrite Z.eqb_refl.
  assert (t <= flow_expires f) as Hte by (destruct (Hsch i f Hl) as (s & _ & Hs); lia).
  rewrite <- Hti in *.
  destruct (expire_single_ok st Hok Ht i f Hl t Htn Hte)
    as (st1 & -> & Hok1 & Hcfg & Ht1 & Hag & Hmv & Hself & Hoth). cbn [obind].
  assert (fm_timer_max_lifetime st1 = fm_timer_max_lifetime st) as Hmax by apply Hcfg.
  assert (forall u j g, live st1 j g -> j <> i -> waits u st g -> waits u st1 g) as Hmove.
  { intros u j g Hg Hj. apply (waits_moved st f); [done..|]. intros E. apply Hj.
    by apply (live_inj _ Hok j i g f (Hoth _ _ Hg Hj) Hl). }
  destruct Hmv as [Hmv1 Hmv2]. destruct (Hmv2 _ _ Hlist) as (l' & Hl1 & Hl').
  set (next := match l with [] => slot | z :: _ => z end).
  assert (next = slot -> l = []) as Hnext.
  { subst next. destruct l as [|z l]; [done|]. intros ->. exfalso.
    assert (in_slot (tm_list (fmt_timers st)) slot slot) as Hbad
      by (eexists; split; [exact Hlist|]; right; left).
    destruct (ok_timer _ Hok _ _ Hbad) as (j & g & _ & Hg & Hgt).
    by apply (timer_not_head _ Hok j g slot Hg Hslot). }
  destruct (IH st1 (cpt + 1) next) as (st' & cpt' & E & H1 & H2 & H3 & H4 & H5 & H6 & H7);
    rewrite ?Hmax; fold slot; [done|done| |done| | | |lia|lia|].
  - intros j g Hg. destruct (decide (j = i)) as [Hj|Hj].
    + eapply waits_weaken; [|exact (Hself _ _ Hg Hj)]. lia.
    + apply (Hmove t j g Hg Hj). apply (Hsch j). exact (Hoth _ _ Hg Hj).
  - unfold walk_at, next. destruct l as [|z l]; [by left|]. right. exists (l ++ l'). exact Hl1.
  - intros j g Hg Hns. destruct (decide (j = i)) as [Hj|Hj]; [exact (Hself _ _ Hg Hj)|].
    apply (Hmove _ j g Hg Hj), (Hout j); [exact (Hoth _ _ Hg Hj)|]. intros Hin'. apply Hns, Hmv1; [|done].
    intros E. apply Hj. by apply (live_inj _ Hok j i g f (Hoth _ _ Hg Hj) Hl).
  - intros Hn j g Hg. destruct (decide (j = i)) as [Hj|Hj]; [exact (Hself _ _ Hg Hj)|].
    apply (Hmove _ j g Hg Hj), (Hout j); [exact (Hoth _ _ Hg Hj)|].
    intros (l2 & Hl2 & Hin2). rewrite Hlist, (Hnext Hn) in Hl2. injection Hl2 as <-.
    apply list_elem_of_singleton in Hin2. apply Hj.
    by apply (live_inj _ Hok j i g f (Hoth _ _ Hg Hj) Hl).
  - rewrite Hmax in E. fold slot in E. exists st', cpt'. split; [exact E|]. split; [done|].
    split; [by eapply same_cfg_trans|]. split; [done|]. split; [done|].
    split; [by eapply aged_trans|]. split; [lia|done].
Qed.

(** ** A pass *)

Lemma expire_seconds_ok fuel t st cpt :
  ft_ok st -> timing_ok now st -> sched t st -> 0 <= t <= now + 1 -> 0 <= cpt < TIMER_MAX_EXPIRE ->
  now - t < Z.of_nat fuel ->
  exists st' t' cpt', expire_seconds hook fuel now t st cpt = Ok (st', t', cpt')
  /\ ft_ok st' /\ same_cfg st st' /\ timing_ok now st' /\ sched t' st' /\ aged st st'
  /\ t <= t' <= now + 1 /\ 0 <= cpt' <= TIMER_MAX_EXPIRE /\ (cpt' < TIMER_MAX_EXPIRE -> t' = now + 1).
Proof using Hnow.
  revert t st cpt. induction fuel as [|fuel IH]; intros t st cpt Hok Ht Hsch Htn Hc Hfuel; cbn [expire_seconds];
    destruct (Z.ltb_spec now t).
  1,3: exists st, t, cpt; repeat (split; [done|]); split; [apply aged_refl|]; repeat split; lia.
  { lia. }
  set (slot := t mod fm_timer_max_lifetime st) in *.
  assert (0 <= slot < fm_timer_max_lifetime st) as Hslot
    by (apply Z.mod_pos_bound; pose proof (ok_max _ Hok); lia).
  destruct (proj2 (lists_slots _ _ (ok_lists _ Hok) slot) Hslot) as [l Hl].
  unfold dlist_get. rewrite Hl. cbn [obind].
  pose proof (sched_outside t st Hsch) as Hout. fold slot in Hout.
  set (index := match l with [] => slot | x :: _ => x end).
  assert (index = slot -> sched (t + 1) st) as Hend.
  { subst index. destruct l as [|x l].
    - intros _ j g Hg. apply (Hout j g Hg). intros (l' & Hl' & Hin). rewrite Hl in Hl'.
      injection Hl' as <-. by apply elem_of_nil in Hin.
    - intros ->. exfalso. assert (in_slot (tm_list (fmt_timers st)) slot slot) as Hbad
        by (eexists; split; [exact Hl|]; left).
      destruct (ok_timer _ Hok _ _ Hbad) as (j & g & _ & Hg & Hgt).
      by apply (timer_not_head _ Hok j g slot Hg Hslot). }
  assert (walk_at st slot index) as Hw.
  { unfold walk_at, index. destruct l as [|x l]; [by left|]. right. by exists l. }
  destruct (expire_slot_ok t slot_fuel st cpt index Hok Ht Hsch ltac:(lia) Hw Hout Hend ltac:(lia))
    as (st1 & c1 & E & H1 & H2 & H3 & H4 & H5 & H6 & H7).
  { unfold slot_fuel. rewrite Z2Nat.id by (vm_compute; discriminate). lia. }
  assert (match l with [] => Ok (st, cpt) | x :: _ => expire_slot hook slot_fuel now slot x st cpt end
          = Ok (st1, c1)) as ->.
  { revert E. fold slot. subst index. destruct l as [|x l]; [|done]. unfold slot_fuel.
    destruct (Z.to_nat (TIMER_MAX_EXPIRE + 1)); cbn [expire_slot]; rewrite Z.eqb_refl; done. }
  cbn [obind]. destruct (Z.eqb_spec c1 TIMER_MAX_EXPIRE) as [->|Hne].
  - exists st1, t, TIMER_MAX_EXPIRE. repeat (split; [done|]). repeat split; try done; lia.
  - assert (wrap 32 (t + 1) = t + 1) as ->
      by (apply wrap_small, in_range_spec; unfold clock_ok in Hnow; lia).
    destruct (IH (t + 1) st1 c1) as (st' & t' & c' & -> & G1 & G2 & G3 & G4 & G5 & G6 & G7 & G8);
      [done|done|apply H7; lia|lia|lia|lia|].
    exists st', t', c'. split; [done|]. split; [done|]. split; [by eapply same_cfg_trans|].
    split; [done|]. split; [done|]. split; [by eapply aged_trans|]. split; [lia|]. split; [lia|done].
Qed.

(** the first second of a pass at [now] *)
Definition first_second (st : flowtable) : Z :=
  if fmt_next_check st =? u32_none then now else fmt_next_check st.

Lemma timer_expire_ok st :
  ft_ok st -> timing_ok now st -> sched (first_second st) st -> 0 <= first_second st ->
  fmt_time_index st = now mod fm_timer_max_lifetime st ->
  exists cpt st', flowtable_timer_expire hook st now = Ok (cpt, st')
  /\ ft_ok st' /\ timing_ok now st' /\ aged st st' /\ 0 <= cpt <= TIMER_MAX_EXPIRE
  /\ fm_timer_max_lifetime st' = fm_timer_max_lifetime st /\ fm_timer_lifetime st' = fm_timer_lifetime st
  /\ sched (fmt_next_check st') st' /\ 0 <= fmt_next_check st' /\ fmt_next_check st' <> u32_none
  /\ (now < first_second st /\ st' = st
      \/ first_second st <= fmt_next_check st' <= now + 1
         /\ (cpt < TIMER_MAX_EXPIRE -> fmt_next_check st' = now + 1)).
Proof using Hnow.
  intros Hok Ht Hsch Hpos Hidx. unfold flowtable_timer_expire, assert. rewrite Hidx, Z.eqb_refl.
  unfold first_second in *. assert (now + 1 < u32_none) as Hu by (unfold clock_ok, u32_none in *; lia).
  destruct (Z.eqb_spec (fmt_next_check st) u32_none) as [Hn|Hn]; cbn [negb andb].
  2: destruct (Z.ltb_spec now (fmt_next_check st)).
  2: { exists 0, st. split; [done|]. do 2 (split; [done|]). split; [apply aged_refl|].
       split; [by vm_compute|]. do 4 (split; [done|]). split; [done|]. left. split; [lia|done]. }
  all: match goal with |- context [expire_seconds _ ?n _ ?t0 _ _] =>
         destruct (expire_seconds_ok n t0 st 0) as (st' & t' & cpt & -> & H1 & H2 & H3 & H4 & H5 & H6 & H7 & H8);
           [done|done|done|lia|by vm_compute|lia|] end; cbn [obind];
    eexists _, _; (split; [reflexivity|]); cbn [fmt_time_index set_time];
    (split; [by destruct H1; split|]); (split; [done|]); (split; [by destruct H5|]); (split; [lia|]);
    (split; [apply H2|]); (split; [apply H2|]); (split; [done|]); simpl;
    (split; [lia|]); (split; [lia|]); right; split; [lia|auto].
Qed.
End Expire.
