(* ===== verification/FlowNode.v ===== *)
(** * The flow table under traffic

    Frames of packets run against the table of [FlowTable]: the invariant holds
    in every state the node can reach, no assertion or index fails, a packet
    finds the flow of its connection, and a pass of the timer wheel removes
    exactly the idle flows. *)

From Stdlib Require Import ZArith Lia.
From stdpp Require Import base list list_numbers option numbers decidable gmap fin_maps relations.
From S2P Require Import Prelude PfcpIo PfcpIe UpfTypes UpfUrr UpfRules FlowTcp FlowKey FlowTable FlowTableInv FlowExpire.

Definition lifetimes_ok (st : flowtable) : Prop :=
  forall ty, 1 <= fm_timer_lifetime st ty < 2 ^ 16.

(** the table while a frame is handled at [now]; the wheel is handled up to [lo] *)
Record busy (lo now : Z) (st : flowtable) : Prop := {
  busy_ok : ft_ok st;
  busy_timing : timing_ok now st;
  busy_sched : sched lo st;
  busy_lo : 0 <= lo <= now + 1;
  busy_first : first_second now st = lo;
  busy_index : fmt_time_index st = now mod fm_timer_max_lifetime st;
  busy_lifetimes : lifetimes_ok st
}.

Lemma busy_cfg lo now st st' :
  busy lo now st -> same_cfg st st' -> ft_ok st' -> timing_ok now st' -> sched lo st' -> busy lo now st'.
Proof.
  intros [] (C1 & C2 & C3 & C4 & C5) ? ? ?. split; try done.
  - unfold first_second. by rewrite C4.
  - by rewrite C3, C1.
  - intros ty. by rewrite C2.
Qed.

Section Node.
Context {P : VppPool} {POk : VppPoolOk P} {I : IpCompare} {N : NextFrames}.
Context (hook : flow_entry_t -> bool) (now : Z) (Hnow : clock_ok now) (lo : Z).

(** ** Updating a flow *)

(** the table with another entry for flow [i] *)
Lemma busy_set_flow st i f f' :
  busy lo now st -> live st i f -> fe_key f' = fe_key f -> fe_timer_index f' = fe_timer_index f ->
  fe_active f <= fe_active f' <= now -> fe_lifetime f' = fe_lifetime f ->
  busy lo now (set_flow st i f').
Proof using Hnow.
  intros Hb Hl Hk Ht Ha Hli. pose proof Hb as [Hok Htm Hsch _ _ _ _]. pose proof Hl as [Hf _].
  destruct (Htm i f Hl) as [Hfa Hfl].
  assert (flow_expires f <= flow_expires f') as Hexp.
  { rewrite (flow_expires_eq now f), (flow_expires_eq now f'); auto; lia. }
  apply (busy_cfg lo now st); [done|by repeat split|by eapply ft_ok_set_flow| |].
  - intros j g Hg. apply (live_set_flow st i f) in Hg; [|done..].
    destruct Hg as [(-> & -> & _)|[_ Hg]]; [lia|eauto].
  - intros j g Hg. apply (live_set_flow st i f) in Hg; [|done..].
    destruct Hg as [(-> & -> & _)|[_ Hg]]; [|exact (Hsch j g Hg)].
    destruct (Hsch i f Hl) as (s & Hs & Hr). exists s. rewrite Ht. split; [exact Hs|lia].
Qed.

(** what an operation on flow [i] leaves: [i] with entry [f'], the others as they were *)
Definition upd (i : Z) (f' : flow_entry_t) (st st' : flowtable) : Prop :=
  busy lo now st' /\ live st' i f' /\ fmt_flows_ht st' = fmt_flows_ht st
  /\ forall j g, j <> i -> live st' j g <-> live st j g.

Lemma upd_refl st i f : busy lo now st -> live st i f -> upd i f st st.
Proof. intros Hb Hl. split; [done|]. split; [done|]. split; [done|]. done. Qed.

Lemma upd_trans st i f1 st1 f2 st2 : upd i f1 st st1 -> upd i f2 st1 st2 -> upd i f2 st st2.
Proof.
  intros (_ & _ & H1 & O1) (Hb & Hl & H2 & O2). split; [done|]. split; [done|]. split; [congruence|].
  intros j g Hj. by rewrite O2, O1.
Qed.

Lemma live_after_set st i f f' :
  busy lo now st -> live st i f -> fe_key f' = fe_key f ->
  live (set_flow st i f') i f' /\ forall j g, j <> i -> live (set_flow st i f') j g <-> live st j g.
Proof.
  intros Hb Hl Hk. split; [apply (live_set_flow st i f); [apply Hb|apply Hl|done|auto]|]. intros j g Hj.
  rewrite (live_set_flow st i f); [|apply Hb|apply Hl|done]. split; [intros [(? & _)|[_ ?]]; done|auto].
Qed.

Lemma upd_set_flow st i f f' :
  busy lo now st -> live st i f -> fe_key f' = fe_key f -> fe_timer_index f' = fe_timer_index f ->
  fe_active f <= fe_active f' <= now -> fe_lifetime f' = fe_lifetime f ->
  upd i f' st (set_flow st i f').
Proof using Hnow.
  intros Hb Hl Hk Ht Ha Hli. destruct (live_after_set st i f f' Hb Hl Hk).
  split; [by apply (busy_set_flow st i f)|by split].
Qed.

Lemma get_live st i f : live st i f -> flowtable_get_flow st i = Ok f.
Proof. intros [H _]. unfold flowtable_get_flow, pool_elt. by rewrite H. Qed.

(** moving flow [i] to the slot of the end of its lifetime *)
Lemma busy_move st i f f' :
  busy lo now st -> live st i f -> fe_key f' = fe_key f -> fe_timer_index f' = fe_timer_index f ->
  fe_active f' = now -> 1 <= fe_lifetime f' < 2 ^ 16 ->
  let slot := flow_expires f' mod fm_timer_max_lifetime st in
  reschedule (set_flow st i f') slot (fe_timer_index f') = Ok (move_timer (set_flow st i f') slot (fe_timer_index f'))
  /\ busy lo now (move_timer (set_flow st i f') slot (fe_timer_index f')).
Proof using Hnow.
  intros Hb Hl Hk Ht Ha Hli slot. pose proof Hb as [Hok Htm Hsch Hlo _ _ _]. pose proof Hl as [Hf _].
  pose proof (ft_ok_set_flow _ _ _ f' Hok Hf Hk Ht) as Hok1.
  assert (0 <= slot < fm_timer_max_lifetime st) as Hslot
    by (apply Z.mod_pos_bound; pose proof (ok_max _ Hok); lia).
  destruct (live_slot _ Hok i f Hl) as [h Hs]. rewrite <- Ht in Hs.
  split; [exact (reschedule_eq (set_flow st i f') slot h _ (ok_lists _ Hok1) Hs Hslot)|].
  assert (0 <= now) as Hn0 by (unfold clock_ok in Hnow; lia).
  assert (flow_expires f' = now + fe_lifetime f') as Hexp
    by (rewrite (flow_expires_eq now f'); auto; lia).
  apply (busy_cfg lo now st); [done|by repeat split|exact (ft_ok_move_timer (set_flow st i f') slot h _ Hok1 Hs Hslot)| |].
  - intros j g Hg. apply live_move_timer, (live_set_flow st i f) in Hg; [|done..].
    destruct Hg as [(-> & -> & _)|[_ Hg]]; [lia|eauto].
  - intros j g Hg. apply live_move_timer, (live_set_flow st i f) in Hg; [|done..].
    destruct Hg as [(-> & -> & _)|[Hj Hg]].
    + exists (flow_expires f'). split; [|lia].
      apply (in_slot_relist _ _ _ _ _ _ (ok_lists _ Hok1) Hslot). by right.
    + destruct (Hsch j g Hg) as (s & Hs' & Hr). exists s. split; [|done].
      apply (in_slot_relist _ _ _ _ _ _ (ok_lists _ Hok1) Hslot). left. split; [exact Hs'|].
      intros E. apply Hj. apply (live_inj _ Hok j i g f Hg Hl). by rewrite <- Ht.
Qed.

(** the update of the TCP state *)
Lemma flow_update_lifetime_ok st i f p is_ip4 :
  busy lo now st -> live st i f -> fe_active f = now ->
  exists r st' f', flow_update_lifetime st i p is_ip4 = Ok (r, st') /\ upd i f' st st'
  /\ fe_key f' = fe_key f /\ fe_active f' = now
  /\ fe_is_reverse f' = fe_is_reverse f /\ fe_stats f' = fe_stats f /\ fe_generation f' = fe_generation f.
Proof using Hnow.
  intros Hb Hl Ha. unfold flow_update_lifetime. rewrite (get_live _ _ _ Hl). cbn [obind].
  assert (exists r st' f', Ok (0, st) = Ok (r, st') /\ upd i f' st st'
    /\ fe_key f' = fe_key f /\ fe_active f' = now
    /\ fe_is_reverse f' = fe_is_reverse f /\ fe_stats f' = fe_stats f /\ fe_generation f' = fe_generation f)
    as Hsame by (exists 0, st, f; split; [done|]; by split; [apply upd_refl|]).
  case_test; [|exact Hsame].
  unfold flow_tcp_update_lifetime. rewrite (get_live _ _ _ Hl). cbn [obind].
  destruct (tcp_next _ _) as [new|] eqn:En; [|exact Hsame].
  assert ((fmt_next_check st =? u32_none) || (fmt_next_check st <=? flow_expires f) = true) as ->.
  { pose proof (busy_first _ _ _ Hb) as Hfs. unfold first_second in Hfs.
    destruct (Z.eqb_spec (fmt_next_check st) u32_none); [done|]. simpl. apply Z.leb_le.
    destruct (busy_sched _ _ _ Hb i f Hl) as (s & _ & Hr). lia. }
  unfold assert. set (f' := fe_set_timing f new _ _ _).
  destruct (busy_move st i f f' Hb Hl) as [E Hb']; [done|done|done| |].
  { apply tcp_next_lifetime in En. simpl. lia. }
  destruct (live_after_set st i f f' Hb Hl eq_refl) as [Hl' Ho].
  rewrite E. cbn [obind]. eexists _, _, f'. split; [reflexivity|]. split; [|done].
  split; [exact Hb'|]. split; [by apply live_move_timer|]. split; [done|].
  intros j g Hj. by rewrite live_move_timer, Ho.
Qed.

(** ** Handling a packet of a flow that was found *)

Lemma flow_set_session_ok st i f x :
  busy lo now st -> live st i f ->
  exists st', flow_set_session st i x = Ok st' /\ upd i (fe_set_session_index f x) st st'.
Proof using Hnow.
  intros Hb Hl. destruct (busy_timing _ _ _ Hb i f Hl). unfold flow_set_session.
  rewrite (get_live _ _ _ Hl). cbn [obind]. eexists. split; [done|]. apply (upd_set_flow st i f); done || (simpl; lia).
Qed.

Lemma flow_update_active_ok st i f :
  busy lo now st -> live st i f ->
  exists st', flow_update_active st i now = Ok st' /\ upd i (fe_set_active f now) st st'.
Proof using Hnow.
  intros Hb Hl. destruct (busy_timing _ _ _ Hb i f Hl). unfold flow_update_active.
  rewrite (get_live _ _ _ Hl). cbn [obind]. unfold assert. rewrite (proj2 (Z.leb_le _ _)) by lia.
  eexists. split; [done|]. apply (upd_set_flow st i f); done || (simpl; lia).
Qed.

Lemma flow_add_stats_ok st i f d len :
  busy lo now st -> live st i f ->
  exists st', flow_add_stats st i d len = Ok st' /\ upd i (flow_count_packet f d len) st st'.
Proof using Hnow.
  intros Hb Hl. destruct (busy_timing _ _ _ Hb i f Hl). unfold flow_add_stats.
  rewrite (get_live _ _ _ Hl). cbn [obind]. eexists. split; [done|]. apply (upd_set_flow st i f); done || (simpl; lia).
Qed.

Lemma flow_load_info_ok st i f active d gen :
  busy lo now st -> live st i f ->
  exists info st' f', flow_load_info st i active d gen = Ok (info, st') /\ upd i f' st st'
  /\ fe_key f' = fe_key f /\ fe_active f' = fe_active f /\ fe_stats f' = fe_stats f /\ fe_generation f' = gen
  /\ fi_flow_id info = i /\ fi_is_reverse info = d.
Proof using Hnow.
  intros Hb Hl. destruct (busy_timing _ _ _ Hb i f Hl). unfold flow_load_info.
  rewrite (get_live _ _ _ Hl). cbn [obind].
  destruct (load_gtpu_flow_info _ _ _ _ _) as [f' info] eqn:E.
  assert (fe_key f' = fe_key f /\ fe_timer_index f' = fe_timer_index f /\ fe_active f' = fe_active f
    /\ fe_lifetime f' = fe_lifetime f /\ fe_stats f' = fe_stats f
    /\ fe_generation f' = gen /\ fi_flow_id info = i /\ fi_is_reverse info = d)
    as (H1 & H2 & H3 & H4 & H5 & H6 & H7 & H8).
  { unfold load_gtpu_flow_info in E. destruct (Z.eqb_spec (fe_generation f) gen) as [Eg|];
      cbn [negb] in E; injection E as <- <-; by repeat split. }
  exists info, (set_flow st i f'), f'. split; [done|]. split; [|done].
  apply (upd_set_flow st i f); done || lia.
Qed.

Lemma flow_touch_ok st i f b is_ip4 d active gen :
  busy lo now st -> live st i f ->
  exists info st' f', flow_touch st i b is_ip4 now d active gen = Ok (info, st') /\ upd i f' st st'
  /\ fe_key f' = fe_key f /\ fe_active f' = now
  /\ fe_stats f' = fe_stats (flow_count_packet f d (fb_length b)) /\ fe_generation f' = gen
  /\ fi_flow_id info = i /\ fi_is_reverse info = d.
Proof using Hnow.
  intros Hb Hl. unfold flow_touch.
  destruct (flow_set_session_ok st i f (fb_session_index b) Hb Hl) as (st1 & -> & U1). cbn [obind].
  destruct (flow_update_active_ok st1 i _ (proj1 U1) (proj1 (proj2 U1))) as (st2 & -> & U2). cbn [obind].
  destruct (flow_update_lifetime_ok st2 i _ (fb_packet b) is_ip4 (proj1 U2) (proj1 (proj2 U2)) eq_refl)
    as (r & st3 & f3 & -> & U3 & Hk3 & Ha3 & _ & Hs3 & _). cbn [obind].
  destruct (flow_add_stats_ok st3 i f3 d (fb_length b) (proj1 U3) (proj1 (proj2 U3))) as (st4 & -> & U4). cbn [obind].
  destruct (flow_load_info_ok st4 i _ active d gen (proj1 U4) (proj1 (proj2 U4)))
    as (info & st5 & f5 & -> & U5 & Hk5 & Ha5 & Hs5 & Hg5 & Hi5 & Hd5).
  exists info, st5, f5. split; [done|].
  split; [exact (upd_trans _ _ _ _ _ _ (upd_trans _ _ _ _ _ _ (upd_trans _ _ _ _ _ _ (upd_trans _ _ _ _ _ _ U1 U2) U3) U4) U5)|].
  split; [rewrite Hk5; exact Hk3|]. split; [rewrite Ha5; exact Ha3|].
  split; [rewrite Hs5; unfold flow_count_packet; cbn [fe_stats fe_set_stats]; by rewrite Hs3|done].
Qed.

(** ** Handling two packets, whose flows may be the same *)

Definition keeps (st st' : flowtable) : Prop :=
  busy lo now st' /\ fmt_flows_ht st' = fmt_flows_ht st
  /\ forall j g, live st j g -> exists g', live st' j g' /\ fe_key g' = fe_key g /\ fe_active g <= fe_active g'.

Lemma keeps_upd st i f f' st' :
  live st i f -> upd i f' st st' -> fe_key f' = fe_key f -> fe_active f <= fe_active f' -> keeps st st'.
Proof.
  intros Hl (Hb & Hl' & Hh & Ho) Hk Ha. split; [done|]. split; [done|]. intros j g Hg.
  destruct (decide (j = i)) as [->|Hj].
  - assert (g = f) as -> by (destruct Hg, Hl; congruence). eauto.
  - exists g. split; [by apply Ho|]. split; [done|lia].
Qed.

Lemma keeps_refl st : busy lo now st -> keeps st st.
Proof. intros Hb. split; [done|]. split; [done|]. intros j g Hg. exists g. split; [done|]. split; [done|lia]. Qed.

Lemma keeps_trans st st1 st2 : keeps st st1 -> keeps st1 st2 -> keeps st st2.
Proof.
  intros (_ & H1 & K1) (Hb & H2 & K2). split; [done|]. split; [congruence|]. intros j g Hg.
  destruct (K1 j g Hg) as (g1 & Hg1 & ? & ?). destruct (K2 j g1 Hg1) as (g2 & Hg2 & ? & ?).
  exists g2. split; [done|]. split; [congruence|lia].
Qed.

(** a flow that is active now stays so *)
Lemma keeps_active st st' i f :
  keeps st st' -> live st i f -> fe_active f = now ->
  exists f', live st' i f' /\ fe_key f' = fe_key f /\ fe_active f' = now.
Proof.
  intros (Hb & _ & K) Hl Ha. destruct (K i f Hl) as (f' & Hl' & Hk & Ha').
  exists f'. split; [done|]. split; [done|]. destruct (busy_timing _ _ _ Hb i f' Hl'). lia.
Qed.

(** the steps of the dual loop on one of the two flows *)
Lemma set_session_keeps st i f x :
  busy lo now st -> live st i f -> exists st', flow_set_session st i x = Ok st' /\ keeps st st'.
Proof using Hnow.
  intros Hb Hl. destruct (flow_set_session_ok st i f x Hb Hl) as (st' & E & U).
  exists st'. split; [done|]. apply (keeps_upd st i f _ st' Hl U); [done|simpl; lia].
Qed.

Lemma update_active_keeps st i f :
  busy lo now st -> live st i f ->
  exists st' f', flow_update_active st i now = Ok st' /\ keeps st st' /\ live st' i f' /\ fe_active f' = now.
Proof using Hnow.
  intros Hb Hl. destruct (flow_update_active_ok st i f Hb Hl) as (st' & E & U).
  exists st', (fe_set_active f now). split; [done|]. split; [|split; [exact (proj1 (proj2 U))|done]].
  destruct (busy_timing _ _ _ Hb i f Hl). apply (keeps_upd st i f _ st' Hl U); [done|simpl; lia].
Qed.

Lemma update_lifetime_keeps st i f p is_ip4 :
  busy lo now st -> live st i f -> fe_active f = now ->
  exists r st', flow_update_lifetime st i p is_ip4 = Ok (r, st') /\ keeps st st'.
Proof using Hnow.
  intros Hb Hl Ha. destruct (flow_update_lifetime_ok st i f p is_ip4 Hb Hl Ha) as (r & st' & f' & E & U & Hk & Ha' & _).
  exists r, st'. split; [done|]. apply (keeps_upd st i f _ st' Hl U); [done|lia].
Qed.

Lemma add_stats_keeps st i f d len :
  busy lo now st -> live st i f -> exists st', flow_add_stats st i d len = Ok st' /\ keeps st st'.
Proof using Hnow.
  intros Hb Hl. destruct (flow_add_stats_ok st i f d len Hb Hl) as (st' & E & U).
  exists st'. split; [done|]. apply (keeps_upd st i f _ st' Hl U); [done|simpl; lia].
Qed.

Lemma load_info_keeps st i f active d gen :
  busy lo now st -> live st i f ->
  exists info st', flow_load_info st i active d gen = Ok (info, st') /\ keeps st st'
  /\ fi_flow_id info = i /\ fi_is_reverse info = d.
Proof using Hnow.
  intros Hb Hl. destruct (flow_load_info_ok st i f active d gen Hb Hl) as (info & st' & f' & E & U & Hk & Ha & _ & _ & Hi & Hd).
  exists info, st'. split; [done|]. split; [|done]. apply (keeps_upd st i f _ st' Hl U); [done|lia].
Qed.

(** ** Finding or creating the flow of a packet *)

Lemma refilled_live st st0 i f : ft_ok st -> refilled st st0 -> live st0 i f <-> live st i f.
Proof.
  intros Hok (_ & Hh & _ & _ & Hkeep). unfold live. rewrite Hh. split.
  - intros [Hf Hk]. destruct (ok_ht _ Hok _ _ Hk) as (g & Hg & _). pose proof (Hkeep _ _ Hg).
    split; [congruence|done].
  - intros [Hf Hk]. auto.
Qed.

Lemma busy_refilled st st0 : busy lo now st -> ft_ok st0 -> refilled st st0 -> busy lo now st0.
Proof.
  intros Hb Hok0 Hr. pose proof (refilled_live st st0) as Hlive.
  pose proof Hr as (Hcfg & Hh & Ht & _). apply (busy_cfg lo now st); [done..| |].
  - intros i f Hl%Hlive; [|apply Hb|done]. by apply (busy_timing _ _ _ Hb i).
  - intros i f Hl%Hlive; [|apply Hb|done]. destruct (busy_sched _ _ _ Hb i f Hl) as (s & Hs & Hr').
    exists s. rewrite Ht. by replace (fm_timer_max_lifetime st0) with (fm_timer_max_lifetime st) by (symmetry; apply Hcfg).
Qed.

Lemma flow_create_busy st0 c i key d gen :
  busy lo now st0 -> fmt_flow_cache st0 = c ++ [i] -> fmt_flows_ht st0 !! key = None ->
  exists st' f, flow_create (set_pool st0 (fm_flows st0) (fm_flows_cpt st0) c) i key now d gen = Ok st'
  /\ busy lo now st' /\ live st' i f /\ fe_key f = key /\ fe_active f = now /\ fe_is_reverse f = d
  /\ fe_generation f = gen /\ fe_stats f = both (mk_stats 0 0)
  /\ fmt_flows_ht st' = <[key := i]> (fmt_flows_ht st0)
  /\ forall j g, j <> i -> live st' j g <-> live st0 j g.
Proof using Hnow POk.
  intros Hb Hc Hk. pose proof Hb as [Hok Htm Hsch Hlo _ Hidx Hlt].
  destruct (flow_create_ok st0 c i key now d gen Hok Hc Hk)
    as (st' & f & E & Hok' & Hcfg & Hl & Hf & Hs & Hht & Hother & Hslots).
  assert (1 <= fe_lifetime f < 2 ^ 16) as Hlf.
  { rewrite Hf. simpl. unfold flowtable_lifetime_calculate.
    repeat match goal with |- context [if ?c then _ else _] => destruct c end; apply Hlt. }
  assert (fe_key f = key /\ fe_active f = now /\ fe_is_reverse f = d /\ fe_generation f = gen
    /\ fe_stats f = both (mk_stats 0 0)) as (H1 & H2 & H3 & H4 & H5) by (rewrite Hf; done).
  assert (flow_expires f = now + fe_lifetime f) as Hexp.
  { unfold clock_ok in Hnow. rewrite (flow_expires_eq now f); auto; lia. }
  assert (i ∈ fmt_flow_cache st0) as Hic by (rewrite Hc; apply elem_of_app; right; by left).
  destruct (ok_cached _ Hok i Hic) as [_ Hnoht].
  assert (forall j g, j <> i -> live st' j g <-> live st0 j g) as Ho.
  { intros j g Hj. unfold live. rewrite Hother, Hht by done. split; intros [Hg Hgk]; (split; [done|]).
    - apply lookup_insert_Some in Hgk as [[_ ?]|[_ ?]]; [congruence|done].
    - rewrite lookup_insert_ne; [done|]. intros ?. congruence. }
  exists st', f. split; [done|]. split; [|by auto 10].
  apply (busy_cfg lo now st0); [done..| |]; intros j g Hg; destruct (decide (j = i)) as [->|Hj].
  - replace g with f by (destruct Hg, Hl; congruence). unfold clock_ok in Hnow. lia.
  - apply (Htm j), Ho; done.
  - replace g with f by (destruct Hg, Hl; congruence). exists (flow_expires f). split; [|lia].
    replace (fm_timer_max_lifetime st') with (fm_timer_max_lifetime st0) by (symmetry; apply Hcfg).
    revert Hs. rewrite Hidx, Hexp. unfold wrap.
    pose proof (ok_max _ Hok) as Hmax.
    rewrite (Z.mod_small (_ + _) (2 ^ 32)), Zplus_mod_idemp_l; [done|].
    pose proof (Z.mod_pos_bound now (fm_timer_max_lifetime st0)). lia.
  - assert (live st0 j g) as Hg0 by (by apply Ho). destruct (Hsch j g Hg0) as (s & Hss & Hr).
    exists s. split; [|done].
    replace (fm_timer_max_lifetime st') with (fm_timer_max_lifetime st0) by (symmetry; apply Hcfg).
    apply Hslots; [|done]. intros E'. apply Hj. exact (live_inj _ Hok' j i g f Hg Hl E').
Qed.

(** with room for another flow, the packet of an unknown connection creates one *)
Lemma lookup_create_new fuel st key d gen :
  busy lo now st -> fmt_flows_ht st !! key = None ->
  Z.of_nat (size (fmt_flows_ht st)) <= fm_flows_max st ->
  exists i st' f, flowtable_entry_lookup_create hook fuel st key now d gen = Ok (i, true, st')
  /\ busy lo now st' /\ live st' i f /\ fe_key f = key /\ fe_is_reverse f = d /\ fe_stats f = both (mk_stats 0 0)
  /\ fmt_flows_ht st' = <[key := i]> (fmt_flows_ht st)
  /\ (forall k, fmt_flows_ht st !! k <> Some i)
  /\ forall j g, j <> i -> live st' j g <-> live st j g.
Proof using Hnow POk.
  intros Hb Hk Hroom. pose proof (busy_ok _ _ _ Hb) as Hok.
  unfold flowtable_entry_lookup_create. rewrite Hk.
  destruct (flow_entry_alloc_spec st Hok) as (st0 & Hok0 & Hr & [(c & i & Hc & ->)|(_ & Hc & _ & Hfull)]).
  2: { exfalso. pose proof (ok_cpt _ Hok) as Hcpt. pose proof (ok_size _ Hok) as Hsz.
       rewrite Hc in Hsz. simpl in Hsz. lia. }
  cbn [obind]. pose proof (busy_refilled st st0 Hb Hok0 Hr) as Hb0.
  assert (fmt_flows_ht st0 = fmt_flows_ht st) as Hh by apply Hr.
  rewrite <- Hh in Hk.
  destruct (flow_create_busy st0 c i key d gen Hb0 Hc Hk)
    as (st' & f & -> & Hb' & Hl & H1 & _ & H3 & _ & H5 & H6 & H7). cbn [obind].
  exists i, st', f. rewrite <- Hh. do 7 (split; [done|]). split.
  - assert (i ∈ fmt_flow_cache st0) as Hi by (rewrite Hc; apply elem_of_app; right; by left).
    by apply (ok_cached _ Hok0).
  - intros j g Hj. rewrite H7 by done. by apply refilled_live.
Qed.

(** ** Making room *)

(** one turn of recycle_flow *)
Lemma recycle_turn_ok st slot x l :
  busy lo now st -> tm_list (fmt_timers st) !! slot = Some (x :: l) ->
  exists i f st', timer_flow st x = Ok (i, f) /\ expire_single_flow hook st i f x now = Ok (true, st')
  /\ busy lo now st' /\ aged hook now st st' /\ same_cfg st st'.
Proof using Hnow.
  intros Hb Hl. pose proof (busy_ok _ _ _ Hb) as Hok.
  assert (in_slot (tm_list (fmt_timers st)) slot x) as Hin by (eexists; split; [exact Hl|]; left).
  destruct (ok_timer _ Hok slot x Hin) as (i & f & Hp & Hlf & <-).
  destruct (busy_sched _ _ _ Hb i f Hlf) as (s & _ & Hs). pose proof (busy_lo _ _ _ Hb) as Hlo.
  destruct (expire_single_ok hook now Hnow st Hok (busy_timing _ _ _ Hb) i f Hlf (Z.min lo now))
    as (st' & E & H1 & H2 & H3 & H4 & H5 & H6 & H7); [lia|lia|].
  exists i, f, st'. split.
  { unfold timer_flow, flowtable_get_flow, pool_elt. by rewrite Hp, (proj1 Hlf). }
  split; [exact E|]. split; [|by split]. apply (busy_cfg lo now st); [done..|].
  intros j g Hg. destruct (decide (j = i)) as [Hj|Hj].
  - eapply waits_weaken; [|exact (H6 _ _ Hg Hj)]. lia.
  - pose proof (H7 _ _ Hg Hj) as Hg0. apply (waits_moved st f); [done|done| |by apply (busy_sched _ _ _ Hb j)].
    intros E'. apply Hj. exact (live_inj _ Hok j i g f Hg0 Hlf E').
Qed.

Lemma recycle_start st :
  busy lo now st -> 0 <= wrap 32 (now + 1) mod fm_timer_max_lifetime st < fm_timer_max_lifetime st.
Proof. intros Hb. apply Z.mod_pos_bound. pose proof (ok_max _ (busy_ok _ _ _ Hb)). lia. Qed.

(** ** Packets when there is room *)

(** what a packet that belongs to a session leaves behind *)
Definition packet_done (sx : upf_session_t) (is_ip4 : bool) (b : flow_buf) (st st' : flowtable)
  (o : option flow_info) : Prop :=
  let '(d, key) := flow_mk_key (sx_cp_seid sx) (fb_packet b) is_ip4 in
  exists info f, o = Some info /\ fi_is_reverse info = d
  /\ fmt_flows_ht st' !! key = Some (fi_flow_id info) /\ live st' (fi_flow_id info) f
  /\ fe_key f = key /\ fe_active f = now /\ fe_generation f = sx_generation sx
  /\ (forall k i, k <> key -> fmt_flows_ht st' !! k = Some i <-> fmt_flows_ht st !! k = Some i)
  /\ forall j g, j <> fi_flow_id info -> live st' j g <-> live st j g.

(** the lookup, with room for a flow more *)
Lemma lookup_create_ok fuel st key d gen :
  busy lo now st -> Z.of_nat (size (fmt_flows_ht st)) <= fm_flows_max st ->
  exists i c st1 f, flowtable_entry_lookup_create hook fuel st key now d gen = Ok (i, c, st1)
  /\ busy lo now st1 /\ live st1 i f /\ fe_key f = key /\ (i =? u32_none) = false
  /\ Z.of_nat (size (fmt_flows_ht st1)) = Z.of_nat (size (fmt_flows_ht st)) + Z.b2z c
  /\ (forall k j, k <> key -> fmt_flows_ht st1 !! k = Some j <-> fmt_flows_ht st !! k = Some j)
  /\ (forall j g, j <> i -> live st1 j g <-> live st j g)
  /\ forall j g, live st j g -> live st1 j g.
Proof using Hnow POk.
  intros Hb Hroom.
  assert (forall s j g, busy lo now s -> live s j g -> (j =? u32_none) = false) as Hidx.
  { intros s j g Hs [Hg _]. apply Z.eqb_neq. pose proof (ok_index _ (busy_ok _ _ _ Hs) j g Hg). lia. }
  destruct (fmt_flows_ht st !! key) as [j|] eqn:Hk.
  - destruct (ok_ht _ (busy_ok _ _ _ Hb) _ _ Hk) as (f & Hf & Hfk & _).
    assert (live st j f) as Hl by (split; [done|]; by rewrite Hfk).
    exists j, false, st, f. unfold flowtable_entry_lookup_create. rewrite Hk. split; [done|].
    split; [done|]. split; [done|]. split; [done|]. split; [by eapply Hidx|]. split; [simpl; lia|]. done.
  - destruct (lookup_create_new fuel st key d gen Hb Hk Hroom)
      as (i & st1 & f & E & Hb1 & Hl & Hfk & _ & _ & Hht & Hfresh & Ho).
    exists i, true, st1, f. do 4 (split; [done|]). split; [by eapply Hidx|]. rewrite Hht.
    split; [rewrite map_size_insert_None by done; simpl; lia|].
    split; [intros k j Hne; by rewrite lookup_insert_ne|]. split; [done|].
    intros j g Hg. apply Ho; [|done]. intros ->. destruct Hg as [_ Hg]. by apply Hfresh in Hg.
Qed.

(** the flows gained *)
Definition grown (n : Z) (st st' : flowtable) : Prop :=
  Z.of_nat (size (fmt_flows_ht st')) <= Z.of_nat (size (fmt_flows_ht st)) + n.

Lemma flow_packet_ok fuel sessions is_ip4 st b sx :
  busy lo now st -> Z.of_nat (size (fmt_flows_ht st)) <= fm_flows_max st ->
  pool_elt sessions (fb_session_index b) = Some sx ->
  exists o st', flow_packet hook fuel sessions is_ip4 now st b = Ok (o, st') /\ busy lo now st'
  /\ grown 1 st st' /\ packet_done sx is_ip4 b st st' o.
Proof using Hnow POk.
  intros Hb Hroom Hsx. unfold flow_packet, packet_done, grown. rewrite Hsx.
  destruct (flow_mk_key _ _ _) as [d key].
  destruct (lookup_create_ok fuel st key d (sx_generation sx) Hb Hroom)
    as (i & c & st1 & f & -> & Hb1 & Hl & Hfk & Hi & Hsz & Hht & Ho & _). cbn [obind]. rewrite Hi.
  destruct (flow_touch_ok st1 i f b is_ip4 d (pfcp_get_rules sx PFCP_ACTIVE) (sx_generation sx) Hb1 Hl)
    as (info & st2 & f2 & -> & (Hb2 & Hl2 & Hh2 & Ho2) & Hk2 & Ha2 & _ & Hg2 & Hid & Hrev). cbn [obind].
  exists (Some info), st2. split; [done|]. split; [done|]. rewrite Hh2. split; [destruct c; simpl in *; lia|].
  exists info, f2. rewrite Hid. split; [done|]. split; [done|].
  split; [rewrite <- Hfk; apply Hl|]. split; [done|]. split; [congruence|]. split; [done|]. split; [done|].
  split; [done|]. intros j g Hj. by rewrite Ho2, Ho.
Qed.

(** two packets of the dual loop *)
Lemma flow_packet2_ok fuel sessions is_ip4 st b0 b1 :
  busy lo now st -> Z.of_nat (size (fmt_flows_ht st)) < fm_flows_max st ->
  exists o st', flow_packet2 hook fuel sessions is_ip4 now st b0 b1 = Ok (o, st') /\ busy lo now st'
  /\ match o with None => st' = st | Some _ => grown 2 st st' end.
Proof using Hnow POk.
  intros Hb Hroom. unfold flow_packet2, grown.
  destruct (pool_elt sessions (fb_session_index b0)) as [sx0|]; [|by exists None, st].
  destruct (pool_elt sessions (fb_session_index b1)) as [sx1|]; [|by exists None, st].
  destruct (flow_mk_key _ _ _) as [d0 key0], (flow_mk_key _ _ _) as [d1 key1].
  pose proof (ok_cpt_max _ (busy_ok _ _ _ Hb)) as Hm.
  destruct (lookup_create_ok fuel st key0 d0 (sx_generation sx0) Hb ltac:(lia))
    as (i0 & c0 & sa & f0 & -> & Ba & L0 & _ & Hi0 & Hsa & _). cbn [obind].
  pose proof (ok_cpt_max _ (busy_ok _ _ _ Ba)) as Hma.
  destruct (lookup_create_ok fuel sa key1 d1 (sx_generation sx0) Ba ltac:(destruct c0; simpl in *; lia))
    as (i1 & c1 & sb & f1 & -> & Bb & L1 & _ & Hi1 & Hsb & _ & _ & Hkeep). cbn [obind].
  apply Hkeep in L0. clear Hkeep. rewrite Hi0, Hi1. cbn [orb].
  destruct (set_session_keeps sb i0 f0 (fb_session_index b0) Bb L0) as (s1 & -> & K1). cbn [obind].
  destruct (proj2 (proj2 K1) _ _ L1) as (f11 & L11 & _).
  destruct (set_session_keeps s1 i1 f11 (fb_session_index b1) (proj1 K1) L11) as (s2 & -> & K2'). cbn [obind].
  pose proof (keeps_trans _ _ _ K1 K2') as K2. destruct (proj2 (proj2 K2) _ _ L0) as (f02 & L02 & _).
  destruct (update_active_keeps s2 i0 f02 (proj1 K2) L02) as (s3 & f03 & -> & K3' & L03 & A03). cbn [obind].
  pose proof (keeps_trans _ _ _ K2 K3') as K3. destruct (proj2 (proj2 K3) _ _ L1) as (f13 & L13 & _).
  destruct (update_active_keeps s3 i1 f13 (proj1 K3) L13) as (s4 & f14 & -> & K4' & L14 & A14). cbn [obind].
  pose proof (keeps_trans _ _ _ K3 K4') as K4. destruct (keeps_active _ _ _ _ K4' L03 A03) as (f04 & L04 & _ & A04).
  destruct (update_lifetime_keeps s4 i0 f04 (fb_packet b0) is_ip4 (proj1 K4) L04 A04) as (r0 & s5 & -> & K5'). cbn [obind].
  pose proof (keeps_trans _ _ _ K4 K5') as K5. destruct (keeps_active _ _ _ _ K5' L14 A14) as (f15 & L15 & _ & A15).
  destruct (update_lifetime_keeps s5 i1 f15 (fb_packet b1) is_ip4 (proj1 K5) L15 A15) as (r1 & s6 & -> & K6'). cbn [obind].
  pose proof (keeps_trans _ _ _ K5 K6') as K6. destruct (proj2 (proj2 K6) _ _ L0) as (f06 & L06 & _).
  destruct (add_stats_keeps s6 i0 f06 d0 (fb_length b0) (proj1 K6) L06) as (s7 & -> & K7'). cbn [obind].
  pose proof (keeps_trans _ _ _ K6 K7') as K7. destruct (proj2 (proj2 K7) _ _ L1) as (f17 & L17 & _).
  destruct (add_stats_keeps s7 i1 f17 d1 (fb_length b1) (proj1 K7) L17) as (s8 & -> & K8'). cbn [obind].
  pose proof (keeps_trans _ _ _ K7 K8') as K8. destruct (proj2 (proj2 K8) _ _ L0) as (f08 & L08 & _).
  destruct (load_info_keeps s8 i0 f08 (pfcp_get_rules sx0 PFCP_ACTIVE) d0 (sx_generation sx0) (proj1 K8) L08)
    as (info0 & s9 & -> & K9' & _). cbn [obind].
  pose proof (keeps_trans _ _ _ K8 K9') as K9. destruct (proj2 (proj2 K9) _ _ L1) as (f19 & L19 & _).
  destruct (load_info_keeps s9 i1 f19 (pfcp_get_rules sx1 PFCP_ACTIVE) d1 (sx_generation sx1) (proj1 K9) L19)
    as (info1 & s10 & -> & K10' & _). cbn [obind].
  pose proof (keeps_trans _ _ _ K9 K10') as (B10 & Hh10 & _).
  exists (Some (info0, info1)), s10. split; [done|]. split; [done|]. rewrite Hh10.
  destruct c0, c1; simpl in *; lia.
Qed.

(** the session of a packet with data is there *)
Definition session_known (sessions : pool upf_session_t) (b : flow_buf) : Prop :=
  is_Some (pool_elt sessions (fb_session_index b)) \/ fb_length b <= 0.

Lemma flow_packet_known fuel sessions is_ip4 st b :
  busy lo now st -> Z.of_nat (size (fmt_flows_ht st)) <= fm_flows_max st -> session_known sessions b ->
  exists o st', flow_packet hook fuel sessions is_ip4 now st b = Ok (o, st') /\ busy lo now st' /\ grown 1 st st'.
Proof using Hnow POk.
  intros Hb Hroom Hkn. destruct (pool_elt sessions (fb_session_index b)) as [sx|] eqn:Esx.
  - destruct (flow_packet_ok fuel sessions is_ip4 st b sx Hb Hroom Esx) as (o & st1 & E & Hb1 & Hsz & _). eauto.
  - exists None, st. unfold flow_packet. rewrite Esx. split; [|by split; [|unfold grown; lia]].
    destruct Hkn as [[sx Hsx]|Hlen]; [congruence|]. unfold assert.
    by rewrite (proj2 (Z.ltb_ge _ _)) by lia.
Qed.

Lemma flow_loop_ok fuel sessions is_ip4 n bs : length bs = n ->
  forall dual room st,
  busy lo now st -> Z.of_nat (size (fmt_flows_ht st)) + Zlen bs <= FM_POOL_COUNT + 1 ->
  Forall (session_known sessions) bs ->
  exists os st', flow_loop hook fuel sessions is_ip4 now dual room st bs = Ok (os, st') /\ busy lo now st'
  /\ length os = length bs.
Proof using Hnow POk.
  revert bs. induction n as [n IH] using lt_wf_ind. intros [|b0 rest] Hn dual room st Hb Hroom Hkn; cbn [flow_loop].
  { by exists [], st. }
  apply Forall_cons in Hkn as [Hk0 Hkr]. rewrite Zlen_cons in Hroom. pose proof (Zlen_nonneg rest) as Hz.
  pose proof (ok_cpt_max _ (busy_ok _ _ _ Hb)) as Hmx.
  destruct (match room with O => _ | S _ => _ end) as [dual' room'].
  assert (exists os st', obind (flow_packet hook fuel sessions is_ip4 now st b0) (fun '(o, st) =>
        obind (flow_loop hook fuel sessions is_ip4 now false (nf_enqueue (length rest)) st rest)
          (fun '(os, st) => Ok (o :: os, st))) = Ok (os, st') /\ busy lo now st'
      /\ length os = length (b0 :: rest)) as Hsingle.
  { destruct (flow_packet_known fuel sessions is_ip4 st b0 Hb ltac:(lia) Hk0) as (o & st1 & -> & Hb1 & Hg).
    unfold grown in Hg. cbn [obind].
    destruct (IH (length rest) ltac:(simpl in Hn; lia) rest eq_refl false (nf_enqueue (length rest)) st1 Hb1 ltac:(lia) Hkr)
      as (os & st2 & -> & Hb2 & Hl). cbn [obind]. exists (o :: os), st2. simpl. by rewrite Hl. }
  destruct (dual' && _ && _); [|exact Hsingle]. destruct rest as [|b1 rest]; [exact Hsingle|].
  rewrite Zlen_cons in Hroom. pose proof (Zlen_nonneg rest).
  destruct (flow_packet2_ok fuel sessions is_ip4 st b0 b1 Hb ltac:(lia)) as (o & st1 & -> & Hb1 & Ho). cbn [obind].
  destruct o as [[info0 info1]|]; [|by rewrite Ho].
  apply Forall_cons in Hkr as [_ Hkr]. unfold grown in Ho.
  destruct (IH (length rest) ltac:(simpl in Hn; lia) rest eq_refl true (nf_enqueue (length rest)) st1 Hb1 ltac:(lia) Hkr)
    as (os & st2 & -> & Hb2 & Hl). cbn [obind]. exists (Some info0 :: Some info1 :: os), st2. simpl. by rewrite Hl.
Qed.
End Node.

(** ** Between frames *)

(** the table after a frame, the last one at [last] *)
Record flowtable_inv (last : Z) (st : flowtable) : Prop := {
  inv_last : 0 <= last;
  inv_ok : ft_ok st;
  inv_timing : timing_ok last st;
  inv_lifetimes : lifetimes_ok st;
  inv_fresh : fmt_next_check st = u32_none -> fmt_flows_ht st = ∅;
  inv_sched : fmt_next_check st <> u32_none -> 0 <= fmt_next_check st <= last + 1 /\ sched (fmt_next_check st) st
}.

Section Frames.
Context {P : VppPool} {POk : VppPoolOk P} {I : IpCompare} {N : NextFrames}.
Context (hook : flow_entry_t -> bool).

Lemma frame_start last now st :
  flowtable_inv last st -> last <= now -> busy (first_second now st) now (timer_wheel_index_update st now).
Proof.
  intros [Hlast Hok Htm Hlt Hfr Hsc] Hle.
  assert (timing_ok now st) as Htm' by (intros i f Hl; destruct (Htm i f Hl); lia).
  assert (sched (first_second now st) st /\ 0 <= first_second now st <= now + 1) as [Hs Hlo].
  { unfold first_second. destruct (Z.eqb_spec (fmt_next_check st) u32_none) as [E|E].
    - split; [|lia]. intros i f [_ Hk]. by rewrite (Hfr E), lookup_empty in Hk.
    - destruct (Hsc E). split; [done|lia]. }
  split; try done. by destruct Hok; split.
Qed.

Lemma frame_end lo now st cpt st' :
  clock_ok now -> busy lo now st -> flowtable_timer_expire hook st now = Ok (cpt, st') -> flowtable_inv now st'.
Proof.
  intros Hnow [Hok Htm Hsch Hlo Hfs Hidx Hlt] E.
  destruct (timer_expire_ok hook now Hnow st) as (c & s & E' & H1 & H2 & _ & _ & H5 & H6 & H7 & H8 & H9 & H10);
    [done|done|by rewrite Hfs|lia|done|].
  rewrite E in E'. injection E' as <- <-. split; try done.
  - unfold clock_ok in Hnow. lia.
  - intros ty. by rewrite H6.
  - intros _. split; [|done]. unfold first_second in *.
    destruct H10 as [[? ->]|[? _]]; [|lia]. destruct (Z.eqb_spec (fmt_next_check st) u32_none); lia.
Qed.

Lemma flow_frame_ok fuel sessions is_ip4 last now st bs :
  flowtable_inv last st -> last <= now -> clock_ok now -> Forall (session_known sessions) bs ->
  Z.of_nat (size (fmt_flows_ht st)) + Zlen bs <= FM_POOL_COUNT + 1 ->
  exists os cpt st', upf_flow_process hook fuel sessions is_ip4 now st bs = Ok (os, cpt, st')
  /\ length os = length bs /\ 0 <= cpt <= TIMER_MAX_EXPIRE /\ flowtable_inv now st'.
Proof using POk.
  intros Hinv Hle Hnow Hkn Hroom. pose proof (frame_start last now st Hinv Hle) as Hb.
  destruct (flow_loop_ok hook now Hnow _ fuel sessions is_ip4 _ bs eq_refl true 0%nat _ Hb Hroom Hkn)
    as (os & st1 & E & Hb1 & Hl).
  pose proof Hb1 as [Hok Htm Hsch Hlo Hfs Hidx Hlt].
  destruct (timer_expire_ok hook now Hnow st1) as (cpt & st2 & E2 & _ & _ & _ & Hc & _);
    [done|done|by rewrite Hfs|lia|done|].
  exists os, cpt, st2. unfold upf_flow_process. rewrite E. cbn [obind]. rewrite E2. cbn [obind].
  split; [done|]. split; [done|]. split; [done|]. by eapply frame_end.
Qed.

(** what changes the table: a frame while there is room for the flows it may
    create, or a new lifetime from the configuration *)
Inductive ft_step : Z * flowtable -> Z * flowtable -> Prop :=
| step_frame fuel sessions is_ip4 last now st bs os cpt st' :
    last <= now -> clock_ok now -> Forall (session_known sessions) bs ->
    Z.of_nat (size (fmt_flows_ht st)) + Zlen bs <= FM_POOL_COUNT + 1 ->
    upf_flow_process hook fuel sessions is_ip4 now st bs = Ok (os, cpt, st') ->
    ft_step (last, st) (now, st')
| step_lifetime last st type value st' :
    1 <= value -> flowtable_lifetime_update st type value = inl st' -> ft_step (last, st) (last, st').

Lemma ft_step_frame_inv fuel sessions is_ip4 last now st bs os cpt st' :
  flowtable_inv last st -> last <= now -> clock_ok now -> Forall (session_known sessions) bs ->
  Z.of_nat (size (fmt_flows_ht st)) + Zlen bs <= FM_POOL_COUNT + 1 ->
  upf_flow_process hook fuel sessions is_ip4 now st bs = Ok (os, cpt, st') -> flowtable_inv now st'.
Proof using POk.
  intros Hinv Hle Hnow Hkn Hroom E.
  destruct (flow_frame_ok fuel sessions is_ip4 last now st bs Hinv Hle Hnow Hkn Hroom)
    as (os' & cpt' & st1 & E' & _ & _ & H). rewrite E in E'. by injection E' as _ _ <-.
Qed.

Lemma lifetime_update_inv last st type value st' :
  flowtable_inv last st -> 1 <= value -> flowtable_lifetime_update st type value = inl st' ->
  flowtable_inv last st'.
Proof.
  intros [Hlast Hok Htm Hlt Hfr Hsc] Hv. unfold flowtable_lifetime_update. case_test; [done|].
  intros [= <-]. pose proof (ok_max _ Hok). btest. split; try done.
  - by destruct Hok; split.
  - intros ty. simpl. destruct (bool_decide _); [lia|apply Hlt].
Qed.

(** *** The empty table *)

Lemma init_slots_spec n :
  let ts := init_slots n in
  (forall h, tm_list ts !! h = if bool_decide (0 <= h < Z.of_nat n) then Some [] else None)
  /\ (forall h, pool_elts (tm_pool ts) !! h = if bool_decide (0 <= h < Z.of_nat n) then Some u32_none else None)
  /\ size (pool_elts (tm_pool ts)) = n.
Proof.
  unfold init_slots. induction n as [|n IH].
  { split; [|split; [|done]]; intros h; rewrite bool_decide_false by lia; apply lookup_empty. }
  rewrite seqZ_S, foldl_app. simpl foldl. destruct IH as (H1 & H2 & H3).
  set (ts := foldl _ _ _) in *. unfold clib_dlist_init. cbn [tm_list tm_pool pool_set pool_elts].
  rewrite Z.add_0_l. split; [|split].
  - intros h. destruct (decide (h = Z.of_nat n)) as [->|Hne].
    + rewrite lookup_insert_eq, bool_decide_true by lia. done.
    + rewrite lookup_insert_ne, H1 by done. erewrite bool_decide_ext; [done|lia].
  - intros h. destruct (decide (h = Z.of_nat n)) as [->|Hne].
    + rewrite lookup_insert_eq, bool_decide_true by lia. done.
    + rewrite lookup_insert_ne, H2 by done. erewrite bool_decide_ext; [done|lia].
  - rewrite map_size_insert_None, H3; [done|]. rewrite H2, bool_decide_false by lia. done.
Qed.

Lemma flowtable_init_inv : flowtable_inv 0 flowtable_init.
Proof using POk.
  unfold flowtable_init. destruct (cache_get _ _ _) as [flows cache] eqn:E.
  apply cache_get_spec in E as (new & -> & Hlen & Hnd & Hnew & Hold & Hs); [|by vm_compute].
  destruct (init_slots_spec (Z.to_nat TIMER_MAX_LIFETIME)) as (Hl & Hp & Hsz).
  change (Z.of_nat (Z.to_nat TIMER_MAX_LIFETIME)) with 600 in *.
  revert Hl Hp Hsz. generalize (init_slots (Z.to_nat TIMER_MAX_LIFETIME)) as ts. intros ts Hl Hp Hsz.
  assert (forall h x, ~ in_slot (tm_list ts) h x) as Hno.
  { intros h x (l & E & Hin). rewrite Hl in E. destruct (bool_decide _); [|done]. injection E as <-.
    by apply elem_of_nil in Hin. }
  change (Z.to_nat FLOW_CACHE_SZ) with 256%nat in *. change (Z.to_nat TIMER_MAX_LIFETIME) with 600%nat in *.
  change (pool_elts pool_empty) with (∅ : gmap Z flow_entry_t) in Hs. rewrite map_size_empty in Hs.
  split; [done| | | |done|by intros []].
  - split; cbn [fm_timer_max_lifetime fmt_timers fmt_flows_ht fm_flows fmt_flow_cache fm_flows_cpt
      fm_flows_max ft_counters app c_flows].
    + by vm_compute.
    + split.
      * intros h. rewrite Hl. case_bool_decide; [by split|]. split; [by intros [? ?]|done].
      * intros h l. rewrite Hl. case_bool_decide; [|done]. intros [= <-]. constructor.
      * intros h h' x H. by apply Hno in H.
    + intros h Hh. by rewrite Hp, bool_decide_true.
    + intros k i. by rewrite lookup_empty.
    + intros h x H. by apply Hno in H.
    + done.
    + intros i Hi. destruct (Hnew i Hi) as (_ & _ & Hsome). split; [done|]. intros k. by rewrite lookup_empty.
    + intros i f Hf. destruct (decide (i ∈ new)) as [Hin|Hin]; [by apply Hnew|].
      rewrite Hold in Hf by done. simpl in Hf. by rewrite lookup_empty in Hf.
    + rewrite Hlen. lia.
    + rewrite Hs, map_size_empty, Hlen. lia.
    + rewrite Hs. reflexivity.
    + repeat split; vm_compute; congruence.
    + rewrite Hsz, map_size_empty. reflexivity.
    + by rewrite map_size_empty.
  - intros i f [_ Hk]. cbn [fmt_flows_ht] in Hk. by rewrite lookup_empty in Hk.
  - intros ty. by vm_compute.
Qed.

(** C2. In every state the flow table can reach, by any frames of packets at
    non-decreasing times, handled in the dual or the single loop while the table
    is not full, and by any change of the lifetimes, hash table, timer
    wheel, entry pool and cache agree: every key found leads to an entry with
    that key, which is in exactly one slot, of a second within its lifetime;
    cached entries are not in use; and the counters count the flows. *)
Theorem flow_table_reachable now st :
  rtc ft_step (0, flowtable_init) (now, st) -> flowtable_inv now st.
Proof using POk.
  assert (forall a b, rtc ft_step a b -> flowtable_inv (fst a) (snd a) -> flowtable_inv (fst b) (snd b)) as H.
  { induction 1 as [|a b c Hstep _ IH]; [done|]. intros Ha. apply IH.
    destruct Hstep; simpl in *; [by eapply ft_step_frame_inv|by eapply lifetime_update_inv]. }
  intros Hr. apply (H _ _ Hr). exact flowtable_init_inv.
Qed.

(** C27. A frame is always handled to its end when there is room for the flows it
    may create and the sessions of its packets are there: no assertion fails, no
    index is out of range, the loops of the timer wheel end, every packet gets
    its answer, in the dual or the single loop, and the invariant holds again. *)
Theorem flow_frame_returns fuel sessions is_ip4 last now st bs :
  flowtable_inv last st -> last <= now -> clock_ok now -> Forall (session_known sessions) bs ->
  Z.of_nat (size (fmt_flows_ht st)) + Zlen bs <= FM_POOL_COUNT + 1 ->
  exists os cpt st', upf_flow_process hook fuel sessions is_ip4 now st bs = Ok (os, cpt, st')
  /\ length os = length bs /\ 0 <= cpt <= TIMER_MAX_EXPIRE /\ flowtable_inv now st'.
Proof using POk. exact (flow_frame_ok fuel sessions is_ip4 last now st bs). Qed.

(** A packet leads to the flow of its connection: it is found or created
    under the key of the packet, marked active now, and the next packet with
    the same key, such as the reply, gets the same flow, while the flows of
    other connections stay as they are. *)
Theorem flow_packet_finds lo now fuel sessions is_ip4 st b1 b2 sx :
  clock_ok now -> busy lo now st -> Z.of_nat (size (fmt_flows_ht st)) < FM_POOL_COUNT ->
  pool_elt sessions (fb_session_index b1) = Some sx -> pool_elt sessions (fb_session_index b2) = Some sx ->
  snd (flow_mk_key (sx_cp_seid sx) (fb_packet b1) is_ip4)
  = snd (flow_mk_key (sx_cp_seid sx) (fb_packet b2) is_ip4) ->
  exists o1 st1 o2 st2 info1 info2,
  flow_packet hook fuel sessions is_ip4 now st b1 = Ok (o1, st1) /\ o1 = Some info1
  /\ packet_done now sx is_ip4 b1 st st1 o1
  /\ flow_packet hook fuel sessions is_ip4 now st1 b2 = Ok (o2, st2) /\ o2 = Some info2
  /\ fi_flow_id info2 = fi_flow_id info1 /\ busy lo now st2.
Proof using POk.
  intros Hnow Hb Hroom H1 H2 Hk.
  pose proof (ok_cpt_max _ (busy_ok _ _ _ Hb)) as Hm.
  destruct (flow_packet_ok hook now Hnow lo fuel sessions is_ip4 st b1 sx Hb ltac:(lia) H1)
    as (o1 & st1 & E1 & Hb1 & Hs1 & Hd1).
  pose proof (ok_cpt_max _ (busy_ok _ _ _ Hb1)) as Hm1. unfold grown in Hs1.
  destruct (flow_packet_ok hook now Hnow lo fuel sessions is_ip4 st1 b2 sx Hb1 ltac:(lia) H2)
    as (o2 & st2 & E2 & Hb2 & Hs2 & Hd2).
  pose proof Hd1 as Hd1'. unfold packet_done in Hd1', Hd2.
  destruct (flow_mk_key _ (fb_packet b1) _) as [d1 k1], (flow_mk_key _ (fb_packet b2) _) as [d2 k2].
  simpl in Hk. subst k2.
  destruct Hd1' as (i1 & f1 & Ho1 & _ & Hh1 & Hl1 & Hk1 & _).
  destruct Hd2 as (i2 & f2 & Ho2 & _ & Hh2 & Hl2 & Hk2 & _ & _ & _ & Hoth).
  exists o1, st1, o2, st2, i1, i2. do 5 (split; [done|]). split; [|done].
  destruct (decide (fi_flow_id i1 = fi_flow_id i2)) as [->|Hne]; [done|]. exfalso.
  apply (Hoth _ f1 Hne) in Hl1. destruct Hl1 as [_ Hl1]. rewrite Hk1 in Hl1. congruence.
Qed.

(** C28. A pass of the timer wheel that is not cut short by its limit of 256
    leaves exactly the flows that are not idle: those whose last activity is
    less than their lifetime ago. None is removed early and none is forgotten,
    however long ago the last pass was. *)
Theorem flow_expiry_exact last now st :
  flowtable_inv last st -> last <= now -> clock_ok now -> (forall f, hook f = false) ->
  exists cpt st', flowtable_timer_expire hook (timer_wheel_index_update st now) now = Ok (cpt, st')
  /\ (cpt < TIMER_MAX_EXPIRE ->
      forall k i, fmt_flows_ht st' !! k = Some i <->
        fmt_flows_ht st !! k = Some i /\
        exists f, pool_elts (fm_flows st) !! i = Some f /\ now < fe_active f + fe_lifetime f).
Proof.
  intros Hinv Hle Hnow Hhook. pose proof (frame_start last now st Hinv Hle) as [Hok Htm Hsch Hlo Hfs Hidx Hlt].
  set (st0 := timer_wheel_index_update st now) in *.
  destruct (timer_expire_ok hook now Hnow st0) as (cpt & st' & E & Hok' & Htm' & Hag & _ & _ & _ & Hs' & _ & _ & Hend);
    [done|done|by rewrite Hfs|lia|done|].
  exists cpt, st'. split; [done|]. intros Hc k i.
  assert (forall s j g, timing_ok now s -> live s j g -> flow_expires g = fe_active g + fe_lifetime g) as Hexp.
  { intros s j g Hs Hg. destruct (Hs j g Hg). apply (flow_expires_eq now); auto. lia. }
  assert (forall j g, live st' j g -> now < flow_expires g) as Hall.
  { intros j g Hg. destruct (Hs' j g Hg) as (s & _ & Hr).
    destruct Hend as [[Hn ->]|[_ Hn]]; [|rewrite (Hn Hc) in Hr; lia].
    unfold first_second in Hn. destruct (Z.eqb_spec (fmt_next_check st0) u32_none); lia. }
  split.
  - intros Hi. destruct (ok_ht _ Hok' _ _ Hi) as (g & Hg & <- & _).
    assert (live st' i g) as Hl by done. destruct (aged_live _ _ _ _ Hag i g Hl) as (g0 & Hl0 & _ & Hid).
    rewrite Hid in * by auto. split; [apply Hl0|]. exists g0. split; [apply Hl0|].
    rewrite <- (Hexp st0 i g0 Htm Hl0). by apply (Hall i).
  - intros [Hi (f & Hf & Hlate)]. assert (live st0 i f) as Hl.
    { destruct (ok_ht _ Hok _ _ Hi) as (g & Hg & <- & _). split; [done|]. simpl in *. congruence. }
    rewrite <- (Hexp st0 i f Htm Hl) in Hlate.
    destruct (aged_gone _ _ _ _ Hag i f Hl) as [[g Hg]|?]; [|lia].
    destruct (aged_live _ _ _ _ Hag i g Hg) as (g0 & Hl0 & _ & Hid).
    assert (g0 = f) as -> by (destruct Hl0, Hl; congruence). rewrite Hid in Hg by auto.
    destruct Hg as [_ Hg]. by rewrite (live_key _ Hok i f k) in Hg.
Qed.

(** recycle_flow, the last resort when the table is full, never returns once
    the clock has passed the number of slots: the loop ends when the slot number
    equals the time, but slot numbers are taken modulo the number of slots and
    the time is not. *)
Theorem recycle_never_returns lo now fuel st :
  clock_ok now -> busy lo now st -> fm_timer_max_lifetime st <= now ->
  recycle_flow hook fuel st now = Fault NoFuel.
Proof.
  intros Hnow Hb Hmax. unfold recycle_flow. pose proof (recycle_start now lo st Hb) as Hstart.
  revert Hstart. generalize (wrap 32 (now + 1) mod fm_timer_max_lifetime st) as next. revert st Hb Hmax.
  induction fuel as [|fuel IH]; intros st Hb Hmax next Hn; cbn [recycle_flow_loop];
    destruct (Z.eqb_spec next now); try lia; [done|].
  pose proof (busy_ok _ _ _ Hb) as Hok. unfold dlist_get.
  destruct (proj2 (lists_slots _ _ (ok_lists _ Hok) next) Hn) as [l Hl]. rewrite Hl. cbn [obind].
  destruct l as [|x l].
  - apply IH; [done..|]. apply Z.mod_pos_bound. lia.
  - destruct (recycle_turn_ok hook now Hnow lo st next x l Hb Hl) as (i & f & st1 & -> & E & Hb1 & _ & Hc1).
    cbn [obind]. rewrite E. cbn [obind].
    assert (fm_timer_max_lifetime st1 = fm_timer_max_lifetime st) as Em by apply Hc1.
    apply IH; rewrite ?Em; done.
Qed.
End Frames.

(** ** A session with one flow *)

Definition flow_session : upf_session_t :=
  mk_session f64_zero ip6_zero 7 ip6_zero (mk_assoc 0 u32_none u32_none) 0 0 rules_zero rules_zero
    f64_zero 0.
Definition flow_sessions : pool upf_session_t := mk_pool {[0 := flow_session]} [].
Definition no_hook : flow_entry_t -> bool := fun _ => false.
Definition query_buf : flow_buf := mk_buf 0 dns_query 28.
Definition reply_buf : flow_buf := mk_buf 0 dns_reply 28.

(** a query at second 1000 and what the table is then *)
Definition first_frame : outcome (list (option flow_info) * Z * flowtable) :=
  @upf_flow_process pool_lifo no_hook memcmp_compare (frames_256 1) 0 flow_sessions true 1000
    (@flowtable_init pool_lifo) [query_buf].
Definition table_one : flowtable :=
  match first_frame with Ok (_, _, st) => st | _ => @flowtable_init pool_lifo end.

Lemma first_frame_eq : exists os cpt, first_frame = Ok (os, cpt, table_one).
Proof.
  assert (is_ok first_frame = true) as H by (vm_compute; reflexivity). unfold table_one.
  destruct first_frame as [[[os cpt] st]| |]; [eauto|done..].
Qed.

Lemma clock_1000 : clock_ok 1000.
Proof. unfold clock_ok. lia. Qed.

Lemma bufs_known n : Forall (session_known flow_sessions) (repeat query_buf n ++ repeat reply_buf n).
Proof.
  assert (session_known flow_sessions query_buf /\ session_known flow_sessions reply_buf) as [H1 H2]
    by (split; left; by eexists).
  apply Forall_app. split; (induction n; [constructor|by constructor]).
Qed.

Lemma query_known : Forall (session_known flow_sessions) [query_buf].
Proof. constructor; [left; by eexists|constructor]. Qed.

Lemma init_room : Z.of_nat (size (fmt_flows_ht (@flowtable_init pool_lifo))) + 1 <= FM_POOL_COUNT + 1.
Proof. vm_compute. discriminate. Qed.

Lemma table_one_inv : flowtable_inv 1000 table_one.
Proof.
  destruct first_frame_eq as (os & cpt & E).
  exact (@ft_step_frame_inv pool_lifo pool_lifo_ok memcmp_compare (frames_256 1) no_hook 0 flow_sessions true 0 1000
    (@flowtable_init pool_lifo) [query_buf] os cpt table_one flowtable_init_inv ltac:(lia) clock_1000 query_known
    init_room E).
Qed.

Lemma flow_table_reachable_witness :
  rtc (@ft_step pool_lifo memcmp_compare (frames_256 1) no_hook) (0, @flowtable_init pool_lifo) (1000, table_one)
  /\ flowtable_inv 1000 table_one /\ size (fmt_flows_ht table_one) = 1%nat.
Proof.
  assert (rtc (@ft_step pool_lifo memcmp_compare (frames_256 1) no_hook) (0, @flowtable_init pool_lifo) (1000, table_one)) as H.
  { destruct first_frame_eq as (os & cpt & E). apply rtc_once.
    exact (@step_frame pool_lifo memcmp_compare (frames_256 1) no_hook 0 flow_sessions true 0 1000 _ [query_buf] os cpt
      table_one ltac:(lia) clock_1000 query_known init_room E). }
  split; [exact H|]. split; [|vm_compute; reflexivity].
  exact (@flow_table_reachable pool_lifo pool_lifo_ok memcmp_compare (frames_256 1) no_hook 1000 table_one H).
Defined.

(** three queries and three replies: two turns of the dual loop, then the single one *)
Lemma flow_frame_returns_witness :
  exists os cpt st', @upf_flow_process pool_lifo no_hook memcmp_compare (frames_256 6) 0 flow_sessions true 1030 table_one
    (repeat query_buf 3 ++ repeat reply_buf 3) = Ok (os, cpt, st')
  /\ length os = 6%nat /\ 0 <= cpt <= TIMER_MAX_EXPIRE /\ flowtable_inv 1030 st'.
Proof.
  apply (@flow_frame_returns pool_lifo pool_lifo_ok memcmp_compare (frames_256 6) no_hook 0 flow_sessions true 1000 1030
    table_one (repeat query_buf 3 ++ repeat reply_buf 3) table_one_inv);
    [lia|unfold clock_ok; lia|apply bufs_known|vm_compute; discriminate].
Defined.

(** the frame at second 1000 while its packets are handled *)
Lemma table_one_busy now : 1000 <= now -> busy (first_second now table_one) now (timer_wheel_index_update table_one now).
Proof. apply frame_start, table_one_inv. Qed.

Lemma flow_packet_finds_witness :
  exists o1 st1 o2 st2 info1 info2,
  @flow_packet pool_lifo no_hook memcmp_compare 0 flow_sessions true 1001 (timer_wheel_index_update table_one 1001)
    reply_buf = Ok (o1, st1) /\ o1 = Some info1
  /\ @packet_done memcmp_compare 1001 flow_session true reply_buf (timer_wheel_index_update table_one 1001) st1 o1
  /\ @flow_packet pool_lifo no_hook memcmp_compare 0 flow_sessions true 1001 st1 query_buf = Ok (o2, st2)
  /\ o2 = Some info2 /\ fi_flow_id info2 = fi_flow_id info1 /\ busy (first_second 1001 table_one) 1001 st2.
Proof.
  apply (@flow_packet_finds pool_lifo pool_lifo_ok memcmp_compare no_hook (first_second 1001 table_one) 1001 0
    flow_sessions true (timer_wheel_index_update table_one 1001) reply_buf query_buf flow_session);
    [unfold clock_ok; lia|apply table_one_busy; lia|vm_compute; reflexivity|reflexivity|reflexivity|
     vm_compute; reflexivity].
Defined.

(** after a minute the flow is gone *)
Lemma flow_expiry_exact_witness :
  exists cpt st', flowtable_timer_expire no_hook (timer_wheel_index_update table_one 1060) 1060
    = Ok (cpt, st')
  /\ (cpt < TIMER_MAX_EXPIRE ->
      forall k i, fmt_flows_ht st' !! k = Some i <->
        fmt_flows_ht table_one !! k = Some i /\
        exists f, pool_elts (fm_flows table_one) !! i = Some f /\ 1060 < fe_active f + fe_lifetime f).
Proof.
  apply (flow_expiry_exact no_hook 1000 1060 table_one table_one_inv);
    [lia|unfold clock_ok; lia|reflexivity].
Defined.

Lemma recycle_never_returns_witness :
  recycle_flow no_hook 5000 (timer_wheel_index_update table_one 1060) 1060 = Fault NoFuel.
Proof.
  apply (recycle_never_returns no_hook (first_second 1060 table_one) 1060 5000);
    [unfold clock_ok; lia|apply table_one_busy; lia|vm_compute; discriminate].
Defined.
