(* ===== verification/UpfAcl.v ===== *)
(** * Compiling packet filters

    The rules of a session are compiled into ACLs before they are used: the
    filters of every PDR, its TEID and its UE address become masks and values
    (compile_pdi and what it calls, build_pfcp_rules, build_urr_link_map in
    src/upf/upf_pfcp.c). The ACLs are sorted by their octets (upf_acl_cmp)
    before the classifier walks them. *)

From Stdlib Require Import ZArith Lia Sorting.Sorted.
From stdpp Require Import base list list_numbers option numbers decidable gmap.
From S2P Require Import Prelude PfcpIo PfcpIe UpfTypes UpfVec UpfUrr UpfRules UpfTeid FlowTable.

(** ** Addresses *)

(** as_u64[i] of an ip46_address_t *)
Definition as_u64 (a : list Z) (i : Z) : Z := de_le (take 8 (drop (Z.to_nat (8 * i)) a)).

Definition acl_addr_is_any (a : ipfilter_address_t) : bool :=
  (as_u64 (fa_address a) 0 =? u64_none) && (as_u64 (fa_address a) 1 =? u64_none) && (fa_mask a =? 0).
Definition acl_addr_is_assigned (a : ipfilter_address_t) : bool :=
  (as_u64 (fa_address a) 0 =? u64_none) && (as_u64 (fa_address a) 1 =? u64_none) && (fa_mask a =? 255).

(** the body of the loop: bit [i] of the address, most significant first *)
Definition mask_set_bit (a : list Z) (i : Z) : list Z :=
  alter (fun o => Z.lor o (Z.shiftl 1 (7 - Z.land i 7))) (Z.to_nat (i / 8)) a.
Definition ip4_address_mask_from_width (width : Z) : outcome (list Z) :=
  assert (width <=? 32) (Ok (foldl mask_set_bit (replicate 4 0) (seqZ 0 width))).

(** The masks of vnet: ip6_address_mask_from_width, and the table
    ip6_main.fib_masks of the masks of all widths *)
Class IpMasks := { ip6_mask_from_width : Z -> list Z; ip6_fib_masks : Z -> list Z }.

(** bit [k] of an address, most significant first *)
Definition addr_bit (a : list Z) (k : Z) : bool := Z.testbit (nth (Z.to_nat (k / 8)) a 0) (7 - k mod 8).

(** a mask of [n] octets with exactly its first [w] bits set *)
Record is_mask (n : nat) (w : Z) (m : list Z) : Prop := {
  mask_length : length m = n;
  mask_bytes : Forall is_byte m;
  mask_bits k : 0 <= k < 8 * Z.of_nat n -> addr_bit m k = (k <? w)
}.
Class IpMasksOk (M : IpMasks) := {
  ip6_mask_ok w : 0 <= w <= 128 -> is_mask 16 w (ip6_mask_from_width w);
  ip6_fib_masks_ok w : 0 <= w <= 128 -> is_mask 16 w (ip6_fib_masks w)
}.

(** ** Fields of an ACL *)

Inductive acl_field := FIELD_SRC | FIELD_DST.

Definition t5_address (t : upf_acl_5tuple_t) (f : acl_field) : list Z :=
  match f with FIELD_SRC => t5_src t | FIELD_DST => t5_dst t end.
Definition t5_port (t : upf_acl_5tuple_t) (f : acl_field) : Z :=
  match f with FIELD_SRC => t5_src_port t | FIELD_DST => t5_dst_port t end.
Definition t5_set_protocol (t : upf_acl_5tuple_t) (x : Z) : upf_acl_5tuple_t :=
  {| t5_protocol := x; t5_src := t5_src t; t5_dst := t5_dst t; t5_src_port := t5_src_port t;
     t5_dst_port := t5_dst_port t |}.
Definition t5_set_address (t : upf_acl_5tuple_t) (f : acl_field) (a : list Z) : upf_acl_5tuple_t :=
  {| t5_protocol := t5_protocol t;
     t5_src := match f with FIELD_SRC => a | FIELD_DST => t5_src t end;
     t5_dst := match f with FIELD_SRC => t5_dst t | FIELD_DST => a end;
     t5_src_port := t5_src_port t; t5_dst_port := t5_dst_port t |}.
Definition t5_set_port (t : upf_acl_5tuple_t) (f : acl_field) (p : Z) : upf_acl_5tuple_t :=
  {| t5_protocol := t5_protocol t; t5_src := t5_src t; t5_dst := t5_dst t;
     t5_src_port := match f with FIELD_SRC => p | FIELD_DST => t5_src_port t end;
     t5_dst_port := match f with FIELD_SRC => t5_dst_port t | FIELD_DST => p end |}.
Definition t5_zero : upf_acl_5tuple_t :=
  {| t5_protocol := 0; t5_src := ip6_zero; t5_dst := ip6_zero; t5_src_port := 0; t5_dst_port := 0 |}.

Section SetAcl.
Variable a : upf_acl_t.
Definition acl_set_teid (x : Z) : upf_acl_t :=
  {| acl_precedence := acl_precedence a; acl_is_ip4 := acl_is_ip4 a; acl_match_teid := true;
     acl_match_ue_ip := acl_match_ue_ip a; acl_match_sdf := acl_match_sdf a;
     acl_match_ip_app := acl_match_ip_app a; acl_fib_index := acl_fib_index a; acl_teid := x;
     acl_ue_ip := acl_ue_ip a; acl_mask := acl_mask a; acl_match := acl_match a; acl_pdr_idx := acl_pdr_idx a |}.
Definition acl_set_ue (x : Z) (ip : list Z) : upf_acl_t :=
  {| acl_precedence := acl_precedence a; acl_is_ip4 := acl_is_ip4 a; acl_match_teid := acl_match_teid a;
     acl_match_ue_ip := x; acl_match_sdf := acl_match_sdf a;
     acl_match_ip_app := acl_match_ip_app a; acl_fib_index := acl_fib_index a; acl_teid := acl_teid a;
     acl_ue_ip := ip; acl_mask := acl_mask a; acl_match := acl_match a; acl_pdr_idx := acl_pdr_idx a |}.
Definition acl_set_ip_app : upf_acl_t :=
  {| acl_precedence := acl_precedence a; acl_is_ip4 := acl_is_ip4 a; acl_match_teid := acl_match_teid a;
     acl_match_ue_ip := acl_match_ue_ip a; acl_match_sdf := acl_match_sdf a;
     acl_match_ip_app := true; acl_fib_index := acl_fib_index a; acl_teid := acl_teid a;
     acl_ue_ip := acl_ue_ip a; acl_mask := acl_mask a; acl_match := acl_match a; acl_pdr_idx := acl_pdr_idx a |}.
Definition acl_set_sdf (sdf : bool) (mask match_ : upf_acl_5tuple_t) : upf_acl_t :=
  {| acl_precedence := acl_precedence a; acl_is_ip4 := acl_is_ip4 a; acl_match_teid := acl_match_teid a;
     acl_match_ue_ip := acl_match_ue_ip a; acl_match_sdf := sdf;
     acl_match_ip_app := acl_match_ip_app a; acl_fib_index := acl_fib_index a; acl_teid := acl_teid a;
     acl_ue_ip := acl_ue_ip a; acl_mask := mask; acl_match := match_; acl_pdr_idx := acl_pdr_idx a |}.
End SetAcl.

Definition rule_address (r : acl_rule_t) (f : acl_field) : ipfilter_address_t :=
  match f with FIELD_SRC => ar_src r | FIELD_DST => ar_dst r end.
Definition rule_port (r : acl_rule_t) (f : acl_field) : ipfilter_port_t :=
  match f with FIELD_SRC => ar_src_port r | FIELD_DST => ar_dst_port r end.

Definition UPF_ACL_UL : Z := 1.
Definition UPF_ACL_DL : Z := 2.
Definition SRC_INTF_ACCESS : Z := 0.
Definition UPF_ADR_PROXY : Z := BIT 0.
Definition UPF_ADR_IP_RULES : Z := BIT 1.

Section Compile.
Context {M : IpMasks}.

(** ** compile_pdi *)

Definition compile_teid (pdr : upf_pdr_t) (acl : upf_acl_t) : upf_acl_t :=
  if negb (flag (pdi_fields (pdr_pdi pdr)) F_PDI_LOCAL_F_TEID) then acl
  else acl_set_teid acl (ft_teid (pdi_teid (pdr_pdi pdr))).

Definition compile_ue_ip (is_ip4 : bool) (pdr : upf_pdr_t) (acl : upf_acl_t) : upf_acl_t :=
  let pdi := pdr_pdi pdr in
  let ue := pdi_ue_addr pdi in
  let dir := if pdi_src_intf pdi =? SRC_INTF_ACCESS then UPF_ACL_UL else UPF_ACL_DL in
  if negb (flag (pdi_fields pdi) F_PDI_UE_IP_ADDR) then acl
  else if is_ip4 && flag (ue_flags ue) IE_UE_IP_ADDRESS_V4 then
    acl_set_ue acl dir (ip46_address_set_ip4 (ue_ip4 ue))
  else if negb is_ip4 && flag (ue_flags ue) IE_UE_IP_ADDRESS_V6 then acl_set_ue acl dir (ue_ip6 ue)
  else acl.

(** ip6_address_mask_from_width with its assertion *)
Definition ip6_mask (width : Z) : outcome (list Z) :=
  assert (width <=? 128) (Ok (ip6_mask_from_width width)).

(** the address and the mask of the UE, or those given *)
Definition acl_set_ue_ip (ip mask : list Z) (is_ip4 : bool) (pdr : upf_pdr_t) : outcome (list Z * list Z) :=
  let ue := pdi_ue_addr (pdr_pdi pdr) in
  if negb (flag (pdi_fields (pdr_pdi pdr)) F_PDI_UE_IP_ADDR) then Ok (ip, mask)
  else if is_ip4 && flag (ue_flags ue) IE_UE_IP_ADDRESS_V4 then
    obind (ip4_address_mask_from_width 32) (fun m =>
    Ok (ip46_address_set_ip4 (ue_ip4 ue), ip46_address_set_ip4 m))
  else if negb is_ip4 && flag (ue_flags ue) IE_UE_IP_ADDRESS_V6 then
    obind (ip6_mask 64) (fun m => Ok (ue_ip6 ue, m))
  else Ok (ip, mask).

Definition ip_assign_address (dst src : acl_field) (is_ip4 : bool) (pdr : upf_pdr_t) (rule : acl_rule_t)
  (acl : upf_acl_t) : outcome upf_acl_t :=
  let mask := t5_address (acl_mask acl) dst in
  let ip := t5_address (acl_match acl) dst in
  let addr := rule_address rule src in
  obind (if acl_addr_is_any addr then Ok (ip, mask)
         else if acl_addr_is_assigned addr then acl_set_ue_ip ip mask is_ip4 pdr
         else if is_ip4 then
           obind (ip4_address_mask_from_width (fa_mask addr)) (fun m => Ok (fa_address addr, ip46_address_set_ip4 m))
         else obind (ip6_mask (fa_mask addr)) (fun m => Ok (fa_address addr, m)))
    (fun '(ip, mask) =>
     Ok (acl_set_sdf acl (acl_match_sdf acl) (t5_set_address (acl_mask acl) dst mask)
           (t5_set_address (acl_match acl) dst ip))).

(** the range of ports is kept in the ports of the mask and of the match *)
Definition ip_assign_port (dst src : acl_field) (rule : acl_rule_t) (acl : upf_acl_t) : upf_acl_t :=
  let port := rule_port rule src in
  acl_set_sdf acl (acl_match_sdf acl) (t5_set_port (acl_mask acl) dst (fp_min port))
    (t5_set_port (acl_match acl) dst (fp_max port)).

(** a filter describes downlink packets, so for the uplink source and
    destination are swapped *)
Definition compile_sdf (is_ip4 : bool) (pdr : upf_pdr_t) (rule : acl_rule_t) (acl : upf_acl_t) : outcome upf_acl_t :=
  assert (flag (pdi_fields (pdr_pdi pdr)) F_PDI_SDF_FILTER)
 (let acl := acl_set_sdf acl true (acl_mask acl) (acl_match acl) in
  let acl := if ar_proto rule =? 255 then acl
             else acl_set_sdf acl true (t5_set_protocol (acl_mask acl) 255)
                    (t5_set_protocol (acl_match acl) (ar_proto rule)) in
  if pdi_src_intf (pdr_pdi pdr) =? SRC_INTF_ACCESS then
    obind (ip_assign_address FIELD_DST FIELD_SRC is_ip4 pdr rule acl) (fun acl =>
    obind (ip_assign_address FIELD_SRC FIELD_DST is_ip4 pdr rule acl) (fun acl =>
    Ok (ip_assign_port FIELD_SRC FIELD_DST rule (ip_assign_port FIELD_DST FIELD_SRC rule acl))))
  else
    obind (ip_assign_address FIELD_SRC FIELD_SRC is_ip4 pdr rule acl) (fun acl =>
    obind (ip_assign_address FIELD_DST FIELD_DST is_ip4 pdr rule acl) (fun acl =>
    Ok (ip_assign_port FIELD_DST FIELD_DST rule (ip_assign_port FIELD_SRC FIELD_SRC rule acl))))).

(** What the compiler reads of upf_main, ip4_main and ip6_main: the interfaces
    of the network instances, the tables of the TDF and the FIB of every
    interface *)
Record acl_main := mk_acl_main {
  am_nwis : pool Z; am_tdf_ul_table : bool -> list Z; am_fib_index_by_sw_if_index : bool -> list Z }.

Definition vec_elt (v : list Z) (i : Z) : outcome Z :=
  if (0 <=? i) && (i <? Zlen v) then Ok (nth (Z.to_nat i) v 0) else Fault BadIndex.
Definition upf_fib_index_by_sw_if_index (gm : acl_main) (sw_if_index : Z) (is_ip4 : bool) : outcome Z :=
  vec_elt (am_fib_index_by_sw_if_index gm is_ip4) sw_if_index.

(** memset, then the fields that do not depend on the filter *)
Definition acl_start (is_ip4 : bool) (pdr : upf_pdr_t) (pdr_idx fib_index : Z) : upf_acl_t :=
  {| acl_precedence := pdr_precedence pdr; acl_is_ip4 := is_ip4; acl_match_teid := false; acl_match_ue_ip := 0;
     acl_match_sdf := false; acl_match_ip_app := false; acl_fib_index := fib_index; acl_teid := 0;
     acl_ue_ip := ip6_zero; acl_mask := t5_zero; acl_match := t5_zero; acl_pdr_idx := pdr_idx |}.

Definition ip_app_rules (pdr : upf_pdr_t) : bool :=
  flag (pdi_fields (pdr_pdi pdr)) F_PDI_APPLICATION_ID && flag (adr_flags (pdi_adr (pdr_pdi pdr))) UPF_ADR_IP_RULES.

Definition compile_pdi (gm : acl_main) (is_ip4 : bool) (pdr : upf_pdr_t) (rule : acl_rule_t)
  (pdr_idx sw_if_index : Z) : outcome upf_acl_t :=
  obind (upf_fib_index_by_sw_if_index gm sw_if_index is_ip4) (fun fib_index =>
  obind (compile_sdf is_ip4 pdr rule (compile_teid pdr (acl_start is_ip4 pdr pdr_idx fib_index))) (fun acl =>
  let acl := compile_ue_ip is_ip4 pdr acl in
  Ok (if ip_app_rules pdr then acl_set_ip_app acl else acl))).

(** ** build_pfcp_rules *)

Definition set_r_acls (r : rules) (v4 v6 : vec upf_acl_t) : rules :=
  mk_rules (r_pdr r) (r_far r) (r_urr r) (r_qer r) (r_flags r) (r_proxy_precedence r)
    (r_proxy_pdr_idx r) v4 v6 (r_ue_src_ip r) (r_ue_dst_ip r)
    (r_v4_teid r) (r_v6_teid r) (r_send_end_marker r) (r_inactivity_timer r).
Definition set_r_ue_ip (r : rules) (src dst : vec ue_ip_t) : rules :=
  mk_rules (r_pdr r) (r_far r) (r_urr r) (r_qer r) (r_flags r) (r_proxy_precedence r)
    (r_proxy_pdr_idx r) (r_v4_acls r) (r_v6_acls r) src dst
    (r_v4_teid r) (r_v6_teid r) (r_send_end_marker r) (r_inactivity_timer r).
Definition set_r_teid (r : rules) (v4 : vec gtpu4_endp_rule_t) (v6 : vec gtpu6_endp_rule_t) : rules :=
  mk_rules (r_pdr r) (r_far r) (r_urr r) (r_qer r) (r_flags r) (r_proxy_precedence r)
    (r_proxy_pdr_idx r) (r_v4_acls r) (r_v6_acls r) (r_ue_src_ip r) (r_ue_dst_ip r)
    v4 v6 (r_send_end_marker r) (r_inactivity_timer r).
Definition set_r_proxy (r : rules) (precedence pdr_idx flags : Z) : rules :=
  mk_rules (r_pdr r) (r_far r) (r_urr r) (r_qer r) flags precedence
    pdr_idx (r_v4_acls r) (r_v6_acls r) (r_ue_src_ip r) (r_ue_dst_ip r)
    (r_v4_teid r) (r_v6_teid r) (r_send_end_marker r) (r_inactivity_timer r).

Definition rules_add_ue_ip (gm : acl_main) (r : rules) (is_ip4 : bool) (ue_ip : ue_ip_t) (is_dst : bool) : rules :=
  if is_dst then set_r_ue_ip r (r_ue_src_ip r) (vec_add (r_ue_dst_ip r) [ue_ip])
  else
    let tdf := am_tdf_ul_table gm is_ip4 in
    let fib_index := if ui_fib_index ue_ip <? Zlen tdf then nth (Z.to_nat (ui_fib_index ue_ip)) tdf 0 else u32_none in
    if fib_index =? u32_none then r
    else set_r_ue_ip r (vec_add (r_ue_src_ip r) [mk_ue_ip (ui_addr ue_ip) fib_index (ui_sw_if_index ue_ip)])
           (r_ue_dst_ip r).

(** the interface of the network instance, or ~0 *)
Definition pdr_sw_if_index (gm : acl_main) (pdr : upf_pdr_t) : outcome Z :=
  if pdi_nwi_index (pdr_pdi pdr) =? u32_none then Ok u32_none
  else match pool_elt (am_nwis gm) (pdi_nwi_index (pdr_pdi pdr)) with
       | Some sw_if_index => Ok sw_if_index
       | None => Fault BadIndex
       end.

(** the UE addresses of a PDR without F-TEID *)
Definition build_ue_ips (gm : acl_main) (sw_if_index : Z) (pdr : upf_pdr_t) (r : rules) : outcome rules :=
  let pdi := pdr_pdi pdr in
  let ue := pdi_ue_addr pdi in
  let is_dst := flag (ue_flags ue) IE_UE_IP_ADDRESS_SD in
  if negb (flag (pdi_fields pdi) F_PDI_LOCAL_F_TEID) && flag (pdi_fields pdi) F_PDI_UE_IP_ADDR then
    obind (if flag (ue_flags ue) IE_UE_IP_ADDRESS_V4 then
             obind (upf_fib_index_by_sw_if_index gm sw_if_index true) (fun fib =>
             Ok (rules_add_ue_ip gm r true (mk_ue_ip (ip46_address_set_ip4 (ue_ip4 ue)) fib sw_if_index) is_dst))
           else Ok r) (fun r =>
    if flag (ue_flags ue) IE_UE_IP_ADDRESS_V6 then
      obind (upf_fib_index_by_sw_if_index gm sw_if_index false) (fun fib =>
      Ok (rules_add_ue_ip gm r false (mk_ue_ip (ue_ip6 ue) fib sw_if_index) is_dst))
    else Ok r)
  else Ok r.

Definition build_teids (idx : Z) (pdr : upf_pdr_t) (r : rules) : rules :=
  let pdi := pdr_pdi pdr in
  let ft := pdi_teid pdi in
  if flag (pdi_fields pdi) F_PDI_LOCAL_F_TEID then
    set_r_teid r
      (if flag (ft_flags ft) F_TEID_V4 then rules_add_v4_teid (r_v4_teid r) (de_le (ft_ip4 ft)) (ft_teid ft) idx
       else r_v4_teid r)
      (if flag (ft_flags ft) F_TEID_V6 then rules_add_v6_teid (r_v6_teid r) (de_le (ft_ip6 ft)) (ft_teid ft) idx
       else r_v6_teid r)
  else r.

(** the ACLs of one filter, for one of the families or for both *)
Definition rule_has_family (rule : acl_rule_t) (is_ip4 : bool) : bool :=
  match ar_type rule, is_ip4 with
  | IPFILTER_WILDCARD, _ | IPFILTER_IPV4, true | IPFILTER_IPV6, false => true
  | _, _ => false
  end.
Definition build_acl (gm : acl_main) (sw_if_index idx : Z) (pdr : upf_pdr_t) (r : rules) (rule : acl_rule_t)
  : outcome rules :=
  obind (if rule_has_family rule true then
           obind (compile_pdi gm true pdr rule idx sw_if_index) (fun acl =>
           let acl := if ip_app_rules pdr then acl_set_ip_app acl else acl in
           Ok (set_r_acls r (vec_add (r_v4_acls r) [acl]) (r_v6_acls r)))
         else Ok r) (fun r =>
  if rule_has_family rule false then
    obind (compile_pdi gm false pdr rule idx sw_if_index) (fun acl =>
    Ok (set_r_acls r (r_v4_acls r) (vec_add (r_v6_acls r) [acl])))
  else Ok r).
Fixpoint build_acls (gm : acl_main) (sw_if_index idx : Z) (pdr : upf_pdr_t) (r : rules) (l : list acl_rule_t)
  : outcome rules :=
  match l with
  | [] => Ok r
  | rule :: l => obind (build_acl gm sw_if_index idx pdr r rule) (fun r => build_acls gm sw_if_index idx pdr r l)
  end.

Definition build_proxy (idx : Z) (pdr : upf_pdr_t) (r : rules) : rules :=
  if flag (pdi_fields (pdr_pdi pdr)) F_PDI_APPLICATION_ID
     && flag (adr_flags (pdi_adr (pdr_pdi pdr))) UPF_ADR_PROXY && (pdr_precedence pdr <? r_proxy_precedence r)
  then set_r_proxy r (pdr_precedence pdr) idx (Z.lor (r_flags r) PFCP_ADR) else r.

(** one PDR *)
Definition build_pdr (gm : acl_main) (idx : Z) (pdr : upf_pdr_t) (r : rules) : outcome rules :=
  obind (pdr_sw_if_index gm pdr) (fun sw_if_index =>
  obind (build_ue_ips gm sw_if_index pdr r) (fun r =>
  let r := build_teids idx pdr r in
  obind (match vec_elts (pdi_acl (pdr_pdi pdr)) with
         | [] => Ok r
         | l => assert (flag (pdi_fields (pdr_pdi pdr)) F_PDI_SDF_FILTER) (build_acls gm sw_if_index idx pdr r l)
         end) (fun r =>
  Ok (build_proxy idx pdr r)))).
Fixpoint build_pdrs (gm : acl_main) (idx : Z) (l : list upf_pdr_t) (r : rules) : outcome rules :=
  match l with
  | [] => Ok r
  | pdr :: l => obind (build_pdr gm idx pdr r) (build_pdrs gm (idx + 1) l)
  end.

(** on the pending rules *)
Definition build_pfcp_rules (gm : acl_main) (pending : rules) : outcome rules :=
  obind (build_pdrs gm 0 (vec_elts (r_pdr pending)) (set_r_proxy pending u32_none u32_none (r_flags pending)))
    (fun r =>
     let has {A} (v : vec A) := negb (vec_len v =? 0) in
     Ok (if has (r_ue_src_ip r) || has (r_ue_dst_ip r) || has (r_v4_acls r) || has (r_v6_acls r)
         then set_r_proxy r (r_proxy_precedence r) (r_proxy_pdr_idx r) (Z.lor (r_flags r) PFCP_CLASSIFY) else r)).
End Compile.

(** ** upf_acl_cmp

    The octets of an upf_acl_t before pdr_idx. The bit fields are one octet of
    an int; the addresses, of 16 octets, are packed, so the ports are at an even
    offset. *)

Definition ip_octets (a : list Z) : list Z := resize 16 0 a.
Definition t5_bytes (t : upf_acl_5tuple_t) : list Z :=
  [t5_protocol t] ++ ip_octets (t5_src t) ++ ip_octets (t5_dst t) ++ [0] ++ le 2 (t5_src_port t) ++ le 2 (t5_dst_port t).
Definition acl_flags (a : upf_acl_t) : Z :=
  Z.b2z (acl_is_ip4 a) + 2 * Z.b2z (acl_match_teid a) + 4 * acl_match_ue_ip a + 32 * Z.b2z (acl_match_sdf a)
  + 64 * Z.b2z (acl_match_ip_app a).
Definition acl_bytes (a : upf_acl_t) : list Z :=
  le 4 (acl_precedence a) ++ [acl_flags a; 0; 0; 0] ++ le 4 (acl_fib_index a) ++ le 4 (acl_teid a) ++ ip_octets (acl_ue_ip a)
  ++ t5_bytes (acl_mask a) ++ t5_bytes (acl_match a).
Definition upf_acl_cmp (a b : upf_acl_t) : Z := memcmp (acl_bytes a) (acl_bytes b).

(** ** build_urr_link_map *)

Definition set_liusa (u : upf_urr_t) (x : option (gset Z)) : upf_urr_t :=
  mk_urr (urr_id u) (urr_methods u) (urr_triggers u) (urr_status u) (urr_update_flags u) (urr_seq_no u)
    (urr_start_time u) (urr_time_of_first_packet u) (urr_time_of_last_packet u) (urr_volume u)
    (urr_measurement_period u) (urr_time_threshold u) (urr_time_quota u)
    (urr_quota_holding_time u) (urr_quota_validity_time u) (urr_monitoring_time u)
    (urr_usage_before_monitoring_time u) (urr_traffic u) (urr_traffic_by_ue u) (urr_traffic_timer u)
    (urr_linked_urr_ids u) x.

(** clib_bitmap_set on the bitmap of the linked rule *)
Definition link_urr (idx : Z) (l : list upf_urr_t) (id : Z) : list upf_urr_t :=
  match pfcp_get_urr_by_id l id with
  | None => l
  | Some i => alter (fun u => set_liusa u (Some (default ∅ (urr_liusa_bitmap u) ∪ {[idx]}))) i l
  end.
Definition build_urr_link_map (l : list upf_urr_t) : list upf_urr_t :=
  foldl (fun l idx =>
    match l !! idx with
    | None => l
    | Some urr => foldl (link_urr (Z.of_nat idx)) l (vec_elts (urr_linked_urr_ids urr))
    end) l (seq 0 (length l)).

(** ** Bits of addresses *)

Lemma de_le_cons b l : de_le (b :: l) = b + 256 * de_le l.
Proof. unfold de_le, de_be. simpl. rewrite fold_left_app. simpl. lia. Qed.

(** bit [i] of a little-endian integer is in octet i / 8 *)
Lemma testbit_de_le l i :
  Forall is_byte l -> 0 <= i -> Z.testbit (de_le l) i = Z.testbit (nth (Z.to_nat (i / 8)) l 0) (i mod 8).
Proof.
  intros Hl. revert i. induction Hl as [|b l Hb Hl IH]; intros i Hi.
  - change (de_le []) with 0. rewrite Z.bits_0. by destruct (Z.to_nat (i / 8)); rewrite Z.bits_0.
  - unfold is_byte in Hb. rewrite de_le_cons, Z.add_comm, (Z.mul_comm 256).
    change 256 with (2 ^ 8). rewrite <- lor_shiftl_add, Z.lor_spec by lia.
    destruct (Z.lt_ge_cases i 8) as [Hlt|Hge].
    + rewrite Z.shiftl_spec_low, Z.div_small, Z.mod_small by lia. done.
    + rewrite (testbit_small 8 b i), orb_false_r, Z.shiftl_spec, IH by lia.
      replace (i / 8) with ((i - 8) / 8 + 1) by (rewrite <- Z.div_add by lia; f_equal; lia).
      assert (0 <= (i - 8) / 8) by (apply Z.div_pos; lia).
      replace (i mod 8) with ((i - 8) mod 8) by (rewrite <- (Z.mod_add _ 1 8) by lia; f_equal; lia).
      rewrite Z2Nat.inj_add by lia. by rewrite Nat.add_1_r.
Qed.

(** address bit [k] is a bit of word k / 64 *)
Lemma addr_bit_as_u64 a j i :
  length a = 16%nat -> Forall is_byte a -> (j = 0 \/ j = 1) -> 0 <= i < 64 ->
  Z.testbit (as_u64 a j) i = addr_bit a (8 * (8 * j + i / 8) + (7 - i mod 8)).
Proof.
  intros Hl Hb Hj Hi. unfold as_u64, addr_bit.
  pose proof (Z.mod_pos_bound i 8). assert (0 <= i / 8 < 8) by (split; [apply Z.div_pos|apply Z.div_lt_upper_bound]; lia).
  rewrite testbit_de_le by (try lia; apply Forall_take, Forall_drop; done).
  replace ((8 * (8 * j + i / 8) + (7 - i mod 8)) / 8) with (8 * j + i / 8)
    by (symmetry; rewrite Z.mul_comm, Z.div_add_l, (Z.div_small (7 - _)) by lia; lia).
  replace ((8 * (8 * j + i / 8) + (7 - i mod 8)) mod 8) with (7 - i mod 8)
    by (symmetry; rewrite Z.mul_comm, Z.add_comm, Z.mod_add, Z.mod_small by lia; lia).
  replace (7 - (7 - i mod 8)) with (i mod 8) by lia. f_equal.
  rewrite !nth_lookup, lookup_take, decide_True, lookup_drop by lia.
  by replace (Z.to_nat (8 * j) + Z.to_nat (i / 8))%nat with (Z.to_nat (8 * j + i / 8)) by lia.
Qed.

(** every bit position of a 16-octet address is one of these *)
Lemma addr_bit_position k :
  0 <= k < 128 -> exists j i, (j = 0 \/ j = 1) /\ 0 <= i < 64 /\ k = 8 * (8 * j + i / 8) + (7 - i mod 8).
Proof.
  intros Hk. pose proof (Z.div_mod k 8). pose proof (Z.mod_pos_bound k 8).
  pose proof (Z.div_mod (k / 8) 8). pose proof (Z.mod_pos_bound (k / 8) 8).
  assert (0 <= k / 8 / 8 < 2) by lia.
  exists (k / 8 / 8), (8 * (k / 8 mod 8) + (7 - k mod 8)). split; [lia|]. split; [lia|].
  replace ((8 * (k / 8 mod 8) + (7 - k mod 8)) / 8) with (k / 8 mod 8)
    by (symmetry; rewrite Z.mul_comm, Z.div_add_l, (Z.div_small (7 - _)) by lia; lia).
  replace ((8 * (k / 8 mod 8) + (7 - k mod 8)) mod 8) with (7 - k mod 8)
    by (symmetry; rewrite Z.mul_comm, Z.add_comm, Z.mod_add, Z.mod_small by lia; lia).
  lia.
Qed.

Definition ip_bytes (a : list Z) : Prop := length a = 16%nat /\ Forall is_byte a.

Lemma as_u64_bound a j : ip_bytes a -> (j = 0 \/ j = 1) -> 0 <= as_u64 a j < 2 ^ 64.
Proof.
  intros [Hl Hb] Hj. unfold as_u64.
  assert (length (take 8 (drop (Z.to_nat (8 * j)) a)) = 8%nat) as Hlen
    by (rewrite length_take, length_drop; destruct Hj as [-> | ->]; lia).
  pose proof (de_le_bound (take 8 (drop (Z.to_nat (8 * j)) a))) as H. rewrite Hlen in H.
  change (256 ^ Z.of_nat 8) with (2 ^ 64) in H. apply H. by apply Forall_take, Forall_drop.
Qed.

(** two addresses under a mask are equal word by word iff they agree on the
    bits of the mask *)
Lemma masked_words_iff a b m :
  ip_bytes a -> ip_bytes b -> ip_bytes m ->
  (forall j, j = 0 \/ j = 1 -> Z.land (as_u64 a j) (as_u64 m j) = Z.land (as_u64 b j) (as_u64 m j))
  <-> forall k, 0 <= k < 128 -> addr_bit m k = true -> addr_bit a k = addr_bit b k.
Proof.
  intros Ha Hb Hm. pose proof Ha as [La Ba]. pose proof Hb as [Lb Bb]. pose proof Hm as [Lm Bm]. split.
  - intros H k Hk Hbit. destruct (addr_bit_position k Hk) as (j & i & Hj & Hi & ->).
    pose proof (f_equal (fun z => Z.testbit z i) (H j Hj)) as E. cbv beta in E.
    rewrite !Z.land_spec, !addr_bit_as_u64, Hbit, !andb_true_r in E by done. exact E.
  - intros H j Hj. apply Z.bits_inj'. intros i Hi. rewrite !Z.land_spec.
    destruct (Z.lt_ge_cases i 64) as [Hlt|Hge].
    + rewrite !addr_bit_as_u64 by done. set (k := 8 * _ + _).
      destruct (addr_bit m k) eqn:E; [|by rewrite !andb_false_r]. f_equal. apply H; [|done].
      unfold k. pose proof (Z.mod_pos_bound i 8).
      assert (0 <= i / 8 < 8) by (split; [apply Z.div_pos|apply Z.div_lt_upper_bound]; lia). lia.
    + rewrite (testbit_small 64 (as_u64 m j) i) by (try lia; by apply as_u64_bound). by rewrite !andb_false_r.
Qed.

(** *** Masks *)

Definition is_mask_b (n : nat) (w : Z) (m : list Z) : bool :=
  (length m =? n)%nat && forallb (in_range 8) m
  && forallb (fun k => Bool.eqb (addr_bit m k) (k <? w)) (seqZ 0 (8 * Z.of_nat n)).

Lemma is_mask_check n w m : is_mask_b n w m = true -> is_mask n w m.
Proof.
  unfold is_mask_b. rewrite !andb_true_iff, Nat.eqb_eq. intros [[Hl Hb] Hk]. split; [done|by apply bytes_check|].
  intros k Hr. apply eqb_prop. rewrite forallb_forall in Hk. apply Hk.
  apply list_elem_of_In, elem_of_seqZ. lia.
Qed.

Lemma ip4_mask_ok w :
  0 <= w <= 32 -> exists m, ip4_address_mask_from_width w = Ok m /\ is_mask 4 w m.
Proof.
  intros Hw. assert (forallb (fun w => match ip4_address_mask_from_width w with Ok m => is_mask_b 4 w m | _ => false end)
    (seqZ 0 33) = true) as H by (vm_compute; reflexivity).
  rewrite forallb_forall in H. specialize (H w ltac:(apply list_elem_of_In, elem_of_seqZ; lia)).
  destruct (ip4_address_mask_from_width w) as [m| |]; [|done..]. exists m. split; [done|by apply is_mask_check].
Qed.

(** an instance: the loop of ip6_address_mask_from_width in vnet *)
Definition mask_loop (w : Z) : list Z := foldl mask_set_bit (replicate 16 0) (seqZ 0 w).
Definition loop_masks : IpMasks := {| ip6_mask_from_width := mask_loop; ip6_fib_masks := mask_loop |}.
#[export] Instance loop_masks_ok : IpMasksOk loop_masks.
Proof.
  assert (forallb (fun w => is_mask_b 16 w (mask_loop w)) (seqZ 0 129) = true) as H by (vm_compute; reflexivity).
  rewrite forallb_forall in H.
  split; intros w Hw; apply is_mask_check, H, list_elem_of_In, elem_of_seqZ; lia.
Qed.
