(* ===== verification/UpfAppDpo.v ===== *)
(** * Application rules by address

    An application may be given by filters "permit out ip from X to assigned"
    (src/upf/upf_app_dpo.c). The server address X is looked up in a FIB of the
    application; what it finds is a chain of filters, whose other fields are
    compared one by one. The FIB is part of vnet and a parameter here. *)

From Stdlib Require Import ZArith Lia.
From stdpp Require Import base list list_numbers option numbers decidable gmap.
From S2P Require Import Prelude PfcpIo PfcpIe UpfTypes UpfRules FlowKey FlowTable UpfAcl.

(** upf_app_dpo_t and upf_adf_entry_t, as far as the match uses them *)
Record upf_app_dpo_t := mk_app_dpo { ad_rule_index : Z; ad_next : Z }.
Record upf_adf_entry_t := mk_adf_entry {
  ae_acl : vec acl_rule_t; ae_app_dpos : vec upf_app_dpo_t; ae_fib_index_ip4 : Z; ae_fib_index_ip6 : Z }.

Definition INDEX_INVALID : Z := u32_none.

(** the index of the DPO the FIB has for an address, or INDEX_INVALID *)
Class AppFib := upf_app_dpo_lookup : upf_adf_entry_t -> list Z -> Z.

(** C leaves a shift by the width of the type undefined *)
Definition shr (w x n : Z) : outcome Z := if (0 <=? n) && (n <? w) then Ok (Z.shiftr x n) else Fault BadShift.

Definition equal_shifted (w a1 a2 shift : Z) : outcome bool :=
  obind (shr w a1 shift) (fun x => obind (shr w a2 shift) (fun y => Ok (x =? y))).

(** the addresses are loaded as little-endian integers *)
Definition ip4_equal_with_prefix_len (a1 a2 : list Z) (len : Z) : outcome bool :=
  equal_shifted 32 (de_le a1) (de_le a2) (32 - len).

Definition ip6_equal_with_prefix_len (a1 a2 : list Z) (len : Z) : outcome bool :=
  if 64 <? len then
    if negb (as_u64 a1 0 =? as_u64 a2 0) then Ok false
    else equal_shifted 64 (as_u64 a1 1) (as_u64 a2 1) (128 - len)
  else equal_shifted 64 (as_u64 a1 0) (as_u64 a2 0) (64 - len).

(** the IPv4 address in an ip46_address_t *)
Definition ip46_ip4 (a : list Z) : list Z := drop 12 a.
Definition ip_equal_with_prefix_len (a1 a2 : list Z) (len : Z) : outcome bool :=
  if ip46_address_is_ip4 a1 then ip4_equal_with_prefix_len (ip46_ip4 a1) (ip46_ip4 a2) len
  else ip6_equal_with_prefix_len a1 a2 len.

Definition acl_rule_port_in_range (port : Z) (rule : acl_rule_t) (field : acl_field) : bool :=
  (fp_min (rule_port rule field) <=? port) && (port <=? fp_max (rule_port rule field)).

(** the destination of a filter against an address *)
Definition app_dst_matches (rule : acl_rule_t) (dst assigned : list Z) : outcome bool :=
  let addr := ar_dst rule in
  if acl_addr_is_any addr then Ok true
  else if acl_addr_is_assigned addr
       then ip_equal_with_prefix_len dst assigned (if ip46_address_is_ip4 dst then 32 else 128)
       else ip_equal_with_prefix_len dst (fa_address addr) (fa_mask addr).

(** the chain of DPOs from [dpo_index] on *)
Fixpoint app_dpo_chain (fuel : nat) (e : upf_adf_entry_t) (dpo_index sport : Z) (dst : list Z) (dport : Z)
  (assigned : list Z) : outcome bool :=
  if dpo_index =? INDEX_INVALID then Ok false
  else
    match fuel with
    | O => Fault NoFuel
    | S fuel =>
        match vec_elts (ae_app_dpos e) !! Z.to_nat dpo_index with
        | None => Fault BadIndex
        | Some dpo =>
            match vec_elts (ae_acl e) !! Z.to_nat (ad_rule_index dpo) with
            | None => Fault BadIndex
            | Some rule =>
                obind (app_dst_matches rule dst assigned) (fun ok =>
                if ok && acl_rule_port_in_range sport rule FIELD_SRC && acl_rule_port_in_range dport rule FIELD_DST
                then Ok true
                else app_dpo_chain fuel e (ad_next dpo) sport dst dport assigned)
            end
        end
    end.

Section Match.
Context {F : AppFib}.

(** a chain without a cycle is no longer than the vector *)
Definition upf_do_ip_rule_match (e : upf_adf_entry_t) (src : list Z) (sport : Z) (dst : list Z) (dport : Z)
  (assigned : list Z) : outcome bool :=
  app_dpo_chain (S (length (vec_elts (ae_app_dpos e)))) e (upf_app_dpo_lookup e src) sport dst dport assigned.

(** clib_net_to_host_u16 *)
Definition net_to_host_u16 (x : Z) : Z := de_be (le 2 x).

(** a packet to the server: its destination is the source of the filter *)
Definition upf_app_dpo_match (e : upf_adf_entry_t) (flow : flow_entry_t) (assigned : list Z) : outcome bool :=
  if ae_fib_index_ip4 e =? u32_none then Ok false
  else
    let ip d := order_get (fk_ip (fe_key flow)) (dir_xor d (fe_is_reverse flow)) in
    let port d := net_to_host_u16 (order_get (fk_port (fe_key flow)) (dir_xor d (fe_is_reverse flow))) in
    upf_do_ip_rule_match e (ip FT_REVERSE) (port FT_REVERSE) (ip FT_ORIGIN) (port FT_ORIGIN) assigned.

(** upf_app_ip_rule_match of upf_app_db.c on the pool upf_adf_db *)
Definition upf_app_ip_rule_match (db : pool upf_adf_entry_t) (db_index : Z) (flow : flow_entry_t)
  (assigned : list Z) : outcome bool :=
  match pool_elt db db_index with
  | None => Fault BadIndex
  | Some e => match ae_app_dpos e with None => Ok false | Some _ => upf_app_dpo_match e flow assigned end
  end.
End Match.

(** ** What a prefix of an IPv4 destination compares *)

Lemma de_le_shiftr n l :
  Forall is_byte l -> Z.shiftr (de_le l) (8 * Z.of_nat n) = de_le (drop n l).
Proof.
  intros Hl. revert l Hl. induction n as [|n IH]; intros l Hl.
  - by rewrite Z.mul_0_r, Z.shiftr_0_r.
  - destruct Hl as [|b l Hb Hl]; [by rewrite drop_nil, Z.shiftr_0_l|].
    rewrite de_le_cons, Nat2Z.inj_succ. cbn [drop].
    replace (8 * Z.succ (Z.of_nat n)) with (8 + 8 * Z.of_nat n) by lia. rewrite <- Z.shiftr_shiftr by lia.
    assert (Z.shiftr (b + 256 * de_le l) 8 = de_le l) as ->.
    { rewrite Z.shiftr_div_pow2 by lia. change (2 ^ 8) with 256.
      rewrite (Z.mul_comm 256), Z.div_add, (Z.div_small b) by (unfold is_byte in Hb; lia). lia. }
    by apply IH.
Qed.

Lemma de_le_inj l k : Forall is_byte l -> Forall is_byte k -> length l = length k -> de_le l = de_le k -> l = k.
Proof.
  intros Hl. revert k. induction Hl as [|b l Hb Hl IH]; intros k Hk Hlen E; [by destruct k|].
  destruct Hk as [|c k Hc Hk]; [done|]. rewrite !de_le_cons in E. unfold is_byte in *.
  assert (b = c /\ de_le l = de_le k) as [-> E'] by lia. f_equal. apply IH; auto.
Qed.

(** A filter for an application with an IPv4 destination a.b.c.d/n, n a
    multiple of 8, is compared with the last n / 8 octets of the address, not
    with the first: the shift drops the low octets of an integer in network
    byte order, which are the first of the address. *)
Theorem app_ip4_prefix_compares_suffix a1 a2 n :
  Forall is_byte a1 -> Forall is_byte a2 -> length a1 = 4%nat -> length a2 = 4%nat -> (1 <= n <= 4)%nat ->
  ip4_equal_with_prefix_len a1 a2 (8 * Z.of_nat n) = Ok (bool_decide (drop (4 - n) a1 = drop (4 - n) a2)).
Proof.
  intros H1 H2 L1 L2 Hn. unfold ip4_equal_with_prefix_len, equal_shifted, shr.
  replace (32 - 8 * Z.of_nat n) with (8 * Z.of_nat (4 - n)) by lia.
  rewrite (proj2 (Z.leb_le _ _)), (proj2 (Z.ltb_lt _ _)) by lia. cbn [andb obind].
  rewrite !de_le_shiftr by done. f_equal.
  destruct (Z.eqb_spec (de_le (drop (4 - n) a1)) (de_le (drop (4 - n) a2))) as [E|E]; symmetry.
  - apply bool_decide_eq_true, de_le_inj; [by apply Forall_drop..| |done]. rewrite !length_drop. congruence.
  - apply bool_decide_eq_false. congruence.
Qed.

(** 10.1.2.3/8 does not match 10.9.9.9 and matches 200.1.2.3 *)
Lemma app_ip4_prefix_compares_suffix_witness :
  ip4_equal_with_prefix_len [10; 1; 2; 3] [10; 9; 9; 9] 8 = Ok false
  /\ ip4_equal_with_prefix_len [10; 1; 2; 3] [200; 1; 2; 3] 8 = Ok true.
Proof.
  split.
  - apply (app_ip4_prefix_compares_suffix [10; 1; 2; 3] [10; 9; 9; 9] 1);
      [by apply bytes_check; vm_compute|by apply bytes_check; vm_compute|done|done|lia].
  - apply (app_ip4_prefix_compares_suffix [10; 1; 2; 3] [200; 1; 2; 3] 1);
      [by apply bytes_check; vm_compute|by apply bytes_check; vm_compute|done|done|lia].
Defined.
