(* ===== verification/AppDetect.v ===== *)
(** * Application detection

    The proxy hands the first octets of a TCP connection to
    upf_application_detection (src/upf/upf_adf.c), which finds the server name
    of a TLS Client Hello or the Host of an HTTP request, makes a URI of it and
    looks for the PDR of an application whose expressions match the URI. The
    octets come from the UE. The regular expression engine is Hyperscan, a
    parameter here. *)

From Stdlib Require Import ZArith Lia Btauto Strings.Ascii Strings.String.
From stdpp Require Import base list list_numbers option numbers decidable gmap.
From S2P Require Import Prelude PfcpIo PfcpIe UpfTypes UpfVec UpfRules FlowKey FlowTable UpfAcl UpfAppDpo.

Inductive adr_result_t := ADR_NEED_MORE_DATA | ADR_FAIL | ADR_OK (uri : list Z).

(** ** Loads from the received vector *)

Definition ld8 (l : list Z) (off : Z) : outcome Z :=
  if (0 <=? off) && (off <? Zlen l) then Ok (nth (Z.to_nat off) l 0) else Fault OobRead.
Definition ld16 (l : list Z) (off : Z) : outcome Z :=
  obind (ld8 l off) (fun a => obind (ld8 l (off + 1)) (fun b => Ok (a * 256 + b))).
Definition ldn (n : Z) (l : list Z) (off : Z) : outcome (list Z) :=
  if (0 <=? off) && (off + n <=? Zlen l) then Ok (take (Z.to_nat n) (drop (Z.to_nat off) l)) else Fault OobRead.

(** format "%u" *)
Fixpoint digits (fuel : nat) (x : Z) (acc : list Z) : list Z :=
  match fuel with
  | O => acc
  | S fuel => let acc := (48 + x mod 10) :: acc in if x <? 10 then acc else digits fuel (x / 10) acc
  end.
Definition format_u16 (x : Z) : list Z := digits 5 x [].

(** ** upf_adr_try_tls *)

Definition TLS_HANDSHAKE : Z := 22.
Definition TLS_CLIENT_HELLO : Z := 1.
Definition TLS_EXT_SNI : Z := 0.

Definition text_https : list Z := [104; 116; 116; 112; 115; 58; 47; 47].
Definition https_uri (port : Z) (name : list Z) : list Z :=
  text_https ++ name ++ (if port =? 443 then [] else 58 :: format_u16 port) ++ [47].

(** a server name extension of [ext_len] octets at [data], [None] to skip it *)
Definition tls_sni (p : list Z) (data ext_len len : Z) : outcome (option (list Z)) :=
  if (ext_len <? 5) || (len <? ext_len + 4) then Ok None
  else
    obind (ld16 p (data + 4)) (fun sni_len =>
    if negb (sni_len =? ext_len - 2) then Ok None
    else
      obind (ld8 p (data + 6)) (fun name_type =>
      if negb (name_type =? 0) then Ok None
      else
        obind (ld16 p (data + 7)) (fun name_len =>
        if negb (name_len =? sni_len - 3) then Ok None
        else obind (ldn name_len p (data + 9)) (fun name => Ok (Some name))))).

(** the loop over the extensions *)
Fixpoint tls_extensions (fuel : nat) (port : Z) (p : list Z) (data len : Z) : outcome adr_result_t :=
  if 4 <? len then
    match fuel with
    | O => Fault NoFuel
    | S fuel =>
        obind (ld16 p data) (fun ext_type =>
        obind (ld16 p (data + 2)) (fun ext_len =>
        obind (if negb (ext_type =? TLS_EXT_SNI) then Ok None else tls_sni p data ext_len len) (fun name =>
        match name with
        | Some name => Ok (ADR_OK (https_uri port name))
        | None => tls_extensions fuel port p (data + (ext_len + 4)) (len - (ext_len + 4))
        end)))
    end
  else Ok ADR_FAIL.

(** a field with a length in front: what is left and where it goes on, [None]
    when it is longer than what is left *)
Definition tls_skip8 (p : list Z) (data len : Z) : outcome (option (Z * Z)) :=
  obind (ld8 p data) (fun n => Ok (if len <? n + 1 then None else Some (data + (n + 1), len - (n + 1)))).
Definition tls_skip16 (p : list Z) (data len : Z) : outcome (option (Z * Z)) :=
  obind (ld16 p data) (fun n => Ok (if len <? n + 2 then None else Some (data + (n + 2), len - (n + 2)))).
Definition tls_field (x : outcome (option (Z * Z))) (k : Z -> Z -> outcome adr_result_t) : outcome adr_result_t :=
  obind x (fun o => match o with None => Ok ADR_NEED_MORE_DATA | Some (data, len) => k data len end).

(** what follows the header of the hello *)
Definition tls_hello_body (port : Z) (p : list Z) (data len : Z) : outcome adr_result_t :=
  tls_field (tls_skip8 p data len) (fun data len =>   (** session id *)
  tls_field (tls_skip16 p data len) (fun data len =>  (** cipher suites *)
  tls_field (tls_skip8 p data len) (fun data len =>   (** compression methods *)
  obind (ld16 p data) (fun n =>
  if len <? n + 2 then Ok ADR_NEED_MORE_DATA
  else tls_extensions (Z.to_nat n) port p (data + 2) n)))).

Definition tls_version_ok (major minor : Z) : bool := (major =? 3) && (1 <=? minor) && (minor <=? 3).

Definition upf_adr_try_tls (port : Z) (p : list Z) : outcome adr_result_t :=
  let length := Zlen p in
  if length <? 5 then Ok ADR_NEED_MORE_DATA
  else
    obind (ld8 p 0) (fun type =>
    if negb (type =? TLS_HANDSHAKE) then Ok ADR_FAIL
    else
      obind (ld8 p 1) (fun major => obind (ld8 p 2) (fun minor =>
      if negb (tls_version_ok major minor) then Ok ADR_FAIL
      else
        obind (ld16 p 3) (fun frgmt_len =>
        if length - 5 <? frgmt_len then Ok ADR_NEED_MORE_DATA
        else
          obind (ld8 p 5) (fun hsk_type =>
          obind (ldn 3 p 6) (fun l3 =>
          let hsk_len := de_be l3 in
          if hsk_len + 4 <? frgmt_len then Ok ADR_NEED_MORE_DATA
          else if negb (hsk_type =? TLS_CLIENT_HELLO) then Ok ADR_FAIL
          else
            obind (ld8 p 9) (fun major => obind (ld8 p 10) (fun minor =>
            if negb (tls_version_ok major minor) then Ok ADR_FAIL
            else tls_hello_body port p 43 (hsk_len - 34)))))))))
.

(** ** upf_adr_try_http *)

(** the octets of a string constant *)
Definition ascii (s : string) : list Z := map (fun c => Z.of_N (N_of_ascii c)) (list_ascii_of_string s).

(** memchr over the [n] octets at [off]: the offset found *)
Definition memchr (p : list Z) (off c n : Z) : option Z :=
  (fun x => off + Z.of_nat (fst x)) <$> list_find (fun o => o = c) (take (Z.to_nat n) (drop (Z.to_nat off) p)).

(** the offset after the method *)
Inductive http_request := HttpNeedMore | HttpFail | HttpAt (off : Z).

Definition starts (d : list Z) (word : string) : bool := bool_decide (take (length (ascii word)) d = ascii word).

(** the first eight octets are loaded before the length is checked *)
Definition is_http_request (p : list Z) : outcome http_request :=
  obind (ldn 8 p 0) (fun d =>
  if Zlen p <? 10 then Ok HttpNeedMore
  else if starts d "GET " || starts d "PUT " then Ok (HttpAt 4)
  else if (starts d "HEAD" || starts d "POST" || starts d "COPY" || starts d "MOVE" || starts d "LOCK")
          && (nth 4 d 0 =? 32) then Ok (HttpAt 5)
  else if starts d "MKCOL " || starts d "TRACE " || starts d "PATCH " then Ok (HttpAt 6)
  else if starts d "DELETE " || starts d "UNLOCK " then Ok (HttpAt 7)
  else if starts d "CONNECT " || starts d "OPTIONS " then Ok (HttpAt 8)
  else if starts d "PROP" then
    obind (ldn 8 p 4) (fun d =>
    Ok (if starts d "FIND " then HttpAt 9 else if starts d "PATCH " then HttpAt 10 else HttpFail))
  else Ok HttpFail).

(** the first offset from [s] on that is not white space, at most [eol] *)
Fixpoint skip_ows (n : nat) (p : list Z) (s eol : Z) : outcome Z :=
  match n with
  | O => Ok s
  | S n => if s <? eol then obind (ld8 p s) (fun o => if o <=? 32 then skip_ows n p (s + 1) eol else Ok s) else Ok s
  end.
(** the last offset back from [eol] that is not white space, at least [s] *)
Fixpoint skip_ows_back (n : nat) (p : list Z) (s eol : Z) : outcome Z :=
  match n with
  | O => Ok eol
  | S n => if s <? eol then obind (ld8 p eol) (fun o => if o <=? 32 then skip_ows_back n p s (eol - 1) else Ok eol)
           else Ok eol
  end.

Definition is_host (d : list Z) : bool :=
  bool_decide (map (fun o => Z.land o 0xdf) (take 4 d) = ascii "HOST") && (nth 4 d 0 =? 58).

Definition http_uri (port : Z) (host path : list Z) : list Z :=
  ascii "http://" ++ host ++ (if port =? 80 then [] else 58 :: format_u16 port) ++ path.

(** the value of a Host header whose value starts at [s] *)
Definition http_host (port : Z) (p path : list Z) (s eol : Z) : outcome adr_result_t :=
  obind (skip_ows (Z.to_nat (eol - s)) p s eol) (fun s =>
  obind (skip_ows_back (Z.to_nat (eol - s)) p s eol) (fun eol =>
  if eol =? s then Ok ADR_FAIL
  else obind (ldn (eol - s + 1) p s) (fun host => Ok (ADR_OK (http_uri port host path))))).

(** the loop over the headers *)
Fixpoint http_headers (fuel : nat) (port : Z) (p path : list Z) (s len : Z) : outcome adr_result_t :=
  if 0 <? len then
    match fuel with
    | O => Fault NoFuel
    | S fuel =>
        obind (ldn 8 p s) (fun d =>
        match memchr p s 10 len with
        | None => Ok ADR_NEED_MORE_DATA
        | Some eol =>
            let ll := eol - s in
            if (ll =? 0) || ((ll =? 1) && (nth 0 d 0 =? 13)) then Ok ADR_FAIL
            else if is_host d then http_host port p path (s + 5) eol
            else http_headers fuel port p path (eol + 1) (len - (ll + 1))
        end)
    end
  else Ok ADR_NEED_MORE_DATA.

Definition upf_adr_try_http (port : Z) (p : list Z) : outcome adr_result_t :=
  obind (is_http_request p) (fun r =>
  match r with
  | HttpNeedMore => Ok ADR_NEED_MORE_DATA
  | HttpFail => Ok ADR_FAIL
  | HttpAt off =>
      let len := Zlen p - off in
      match memchr p off 10 len with
      | None => Ok ADR_NEED_MORE_DATA
      | Some eol =>
          match memchr p off 32 (eol - off) with
          | None => Ok ADR_FAIL
          | Some s =>
              obind (ldn 8 p (s + 1)) (fun d =>
              if negb (starts d "HTTP/1.0") && negb (starts d "HTTP/1.1") then Ok ADR_FAIL
              else
                let path := take (Z.to_nat (s - off)) (drop (Z.to_nat off) p) in
                http_headers (Z.to_nat len) port p path (eol + 1) (len - (eol - off + 1)))
          end
      end
  end).

(** ** app_scan_for_uri *)

(** upf_adf_lookup: whether the expressions of a database match *)
Class AdfLookup := upf_adf_match : Z -> list Z -> bool.

Section Detect.
Context {H : AdfLookup} {M : IpMasks}.

(** the length is a uint16_t *)
Definition upf_adf_lookup (db_index : Z) (str : list Z) : bool :=
  negb (db_index =? u32_none) && upf_adf_match db_index (take (Z.to_nat (wrap 16 (Zlen str))) str).

Definition flow_teid (f : flow_entry_t) (d : flow_direction_t) : Z := flow_member f (fe_teid f) d.

(** ip6_address_is_equal_masked of vnet, and the loop of upf_classify.c *)
Definition ip46_address_is_equal_masked (a b mask : list Z) : bool :=
  forallb (fun i => Z.land (as_u64 a i) (as_u64 mask i) =? Z.land (as_u64 b i) (as_u64 mask i)) [0; 1].

(** the UE address of a PDR against that of the flow *)
Definition scan_ue_ip (flow : flow_entry_t) (direction : flow_direction_t) (pdr : upf_pdr_t) : bool :=
  let ue := pdi_ue_addr (pdr_pdi pdr) in
  if flag (pdi_fields (pdr_pdi pdr)) F_PDI_UE_IP_ADDR then
    let sd := if flag (ue_flags ue) IE_UE_IP_ADDRESS_SD then FT_REVERSE else FT_ORIGIN in
    let addr := order_get (fk_ip (fe_key flow)) (dir_xor (dir_xor direction (fe_is_reverse flow)) sd) in
    if ip46_address_is_ip4 addr
    then flag (ue_flags ue) IE_UE_IP_ADDRESS_V4 && bool_decide (ue_ip4 ue = ip46_ip4 addr)
    else flag (ue_flags ue) IE_UE_IP_ADDRESS_V6
         && ip46_address_is_equal_masked (ue_ip6 ue) addr (ip6_fib_masks 64)
  else true.

(** whether a PDR takes the place of the best one so far *)
Definition scan_pdr (uri : list Z) (flow : flow_entry_t) (direction : flow_direction_t)
  (adr : option upf_pdr_t) (pdr : upf_pdr_t) : bool :=
  let pdi := pdr_pdi pdr in
  flag (pdi_fields pdi) F_PDI_APPLICATION_ID
  && match adr with Some best => pdr_precedence pdr <=? pdr_precedence best | None => true end
  && scan_ue_ip flow direction pdr
  && negb (flag (pdi_fields pdi) F_PDI_LOCAL_F_TEID && negb (flow_teid flow direction =? ft_teid (pdi_teid pdi)))
  && upf_adf_lookup (adr_db_id (pdi_adr pdi)) uri.

Definition app_scan_for_uri (uri : list Z) (flow : flow_entry_t) (active : rules)
  (direction : flow_direction_t) (adr : option upf_pdr_t) : option upf_pdr_t :=
  foldl (fun adr pdr => if scan_pdr uri flow direction adr pdr then Some pdr else adr) adr
    (vec_elts (r_pdr active)).

(** ** upf_application_detection *)

Section SetFlow.
Variable f : flow_entry_t.
(** the members the classification and the detection store to *)
Definition fe_set_app (redirect l3_proxy done : bool) (app : Z) (pdr teid next : order Z) (uri : vec Z) : flow_entry_t :=
  mk_flow (fe_key f) (fe_session_index f) (fe_is_reverse f) redirect l3_proxy
    (fe_is_spliced f) (fe_spliced_dirty f) (fe_dont_splice f) done
    (fe_tcp_state f) (fe_ps_index f) (fe_stats f) (fe_active f) (fe_lifetime f) (fe_timer_index f)
    app pdr teid next (fe_tc f) (fe_seq_offs f) (fe_tsval_offs f) uri (fe_generation f).
Definition fe_set_redirect (x : bool) : flow_entry_t :=
  fe_set_app x (fe_is_l3_proxy f) (fe_app_detection_done f) (fe_application_id f) (fe_pdr_id f) (fe_teid f)
    (fe_next f) (fe_app_uri f).
Definition fe_set_l3_proxy (x : bool) : flow_entry_t :=
  fe_set_app (fe_is_redirect f) x (fe_app_detection_done f) (fe_application_id f) (fe_pdr_id f) (fe_teid f)
    (fe_next f) (fe_app_uri f).
Definition fe_set_detection_done : flow_entry_t :=
  fe_set_app (fe_is_redirect f) (fe_is_l3_proxy f) true (fe_application_id f) (fe_pdr_id f) (fe_teid f)
    (fe_next f) (fe_app_uri f).
Definition fe_set_application_id (x : Z) : flow_entry_t :=
  fe_set_app (fe_is_redirect f) (fe_is_l3_proxy f) (fe_app_detection_done f) x (fe_pdr_id f) (fe_teid f)
    (fe_next f) (fe_app_uri f).
Definition set_flow_pdr_id (d : flow_direction_t) (x : Z) : flow_entry_t :=
  fe_set_app (fe_is_redirect f) (fe_is_l3_proxy f) (fe_app_detection_done f) (fe_application_id f)
    (flow_member_set f (fe_pdr_id f) d x) (fe_teid f) (fe_next f) (fe_app_uri f).
Definition set_flow_teid (d : flow_direction_t) (x : Z) : flow_entry_t :=
  fe_set_app (fe_is_redirect f) (fe_is_l3_proxy f) (fe_app_detection_done f) (fe_application_id f)
    (fe_pdr_id f) (flow_member_set f (fe_teid f) d x) (fe_next f) (fe_app_uri f).
Definition set_flow_next (d : flow_direction_t) (x : Z) : flow_entry_t :=
  fe_set_app (fe_is_redirect f) (fe_is_l3_proxy f) (fe_app_detection_done f) (fe_application_id f)
    (fe_pdr_id f) (fe_teid f) (flow_member_set f (fe_next f) d x) (fe_app_uri f).
Definition fe_set_uri (x : vec Z) : flow_entry_t :=
  fe_set_app (fe_is_redirect f) (fe_is_l3_proxy f) (fe_app_detection_done f) (fe_application_id f)
    (fe_pdr_id f) (fe_teid f) (fe_next f) x.
End SetFlow.

(** pfcp_get_pdr_by_id and pfcp_get_far_by_id as elements *)
Definition pdr_by_id (r : rules) (id : Z) : option upf_pdr_t :=
  pfcp_get_by_id (T := upf_pdr_t) r id ≫= fun i => vec_elts (r_pdr r) !! i.
Definition far_by_id (r : rules) (id : Z) : option upf_far_t :=
  pfcp_get_by_id (T := upf_far_t) r id ≫= fun i => vec_elts (r_far r) !! i.
Definition far_redirects (r : rules) (pdr : upf_pdr_t) : bool :=
  match far_by_id r (pdr_far_id pdr) with
  | Some far => flag (ff_flags (far_forward far)) FAR_F_REDIRECT_INFORMATION
  | None => false
  end.

(** what is done once the PDRs are known, from the label out on *)
Definition detection_out (flow : flow_entry_t) (origin reverse : option upf_pdr_t) : bool * flow_entry_t :=
  match origin with
  | None => (false, flow)
  | Some origin =>
      let flow := set_flow_pdr_id (fe_set_detection_done flow) FT_ORIGIN (pdr_id origin) in
      let flow := if flag (pdi_fields (pdr_pdi origin)) F_PDI_APPLICATION_ID
                  then fe_set_application_id flow (adr_application_id (pdi_adr (pdr_pdi origin))) else flow in
      let flow := match reverse with
                  | Some reverse => set_flow_next (set_flow_pdr_id flow FT_REVERSE (pdr_id reverse)) FT_REVERSE FT_NEXT_PROXY
                  | None => set_flow_next flow FT_REVERSE FT_NEXT_CLASSIFY
                  end in
      (true, set_flow_next flow FT_ORIGIN FT_NEXT_PROXY)
  end.

(** the scan for the URI of the flow *)
Definition detection_scan (uri : list Z) (flow : flow_entry_t) (active : rules) (origin reverse : option upf_pdr_t)
  : bool * flow_entry_t :=
  let origin := app_scan_for_uri uri flow active FT_ORIGIN origin in
  let flow := match origin with
              | Some o => fe_set_redirect flow (far_redirects active o)
              | None => flow
              end in
  let reverse := if fe_is_redirect flow then origin else app_scan_for_uri uri flow active FT_REVERSE reverse in
  detection_out flow origin reverse.

(** [p] is [None] when only the saved URI is used again. The result is ADR_OK
    ([inr true]), ADR_FAIL ([inr false]) or ADR_NEED_MORE_DATA ([inl]). *)
Definition upf_application_detection (p : option (list Z)) (flow : flow_entry_t) (active : rules)
  : outcome (unit + bool * flow_entry_t) :=
  let origin := if negb (flow_pdr_id flow FT_ORIGIN =? 0) then pdr_by_id active (flow_pdr_id flow FT_ORIGIN) else None in
  let reverse := if negb (flow_pdr_id flow FT_REVERSE =? u32_none) then pdr_by_id active (flow_pdr_id flow FT_REVERSE)
                 else None in
  match origin, reverse with
  | None, None => Ok (inr (false, flow))
  | _, _ =>
      if fe_app_detection_done flow then
        match fe_app_uri flow with
        | None => Ok (inr (detection_out flow origin reverse))
        | Some uri => Ok (inr (detection_scan uri flow active origin reverse))
        end
      else
        match p with
        | None => Fault Assertion
        | Some p =>
            let port := net_to_host_u16 (order_get (fk_port (fe_key flow)) (dir_xor FT_REVERSE (fe_is_reverse flow))) in
            obind (ld8 p 0) (fun c =>
            obind (if c =? TLS_HANDSHAKE then upf_adr_try_tls port p else upf_adr_try_http port p) (fun r =>
            match r with
            | ADR_NEED_MORE_DATA => Ok (inl tt)
            | ADR_FAIL => Ok (inr (detection_out flow origin reverse))
            | ADR_OK uri => Ok (inr (detection_scan uri (fe_set_uri flow (Some uri)) active origin reverse))
            end))
        end
  end.
End Detect.

(** ** Loads of what is there *)

(** the octets [q] are in [p] at [off] *)
Definition at_off (p : list Z) (off : Z) (q : list Z) : Prop := 0 <= off /\ q `prefix_of` drop (Z.to_nat off) p.

Lemma at_off_app p off a b : at_off p off (a ++ b) -> at_off p off a /\ at_off p (off + Zlen a) b.
Proof.
  intros [Ho [post E]]. split; (split; [pose proof (Zlen_nonneg a); lia|]).
  - exists (b ++ post). by rewrite app_assoc.
  - exists post. unfold Zlen. rewrite Z2Nat.inj_add, Nat2Z.id by lia.
    rewrite <- drop_drop, E, <- app_assoc, drop_app_length. done.
Qed.

Lemma at_off_cons p off x q : at_off p off (x :: q) -> at_off p off [x] /\ at_off p (off + 1) q.
Proof. exact (at_off_app p off [x] q). Qed.

Lemma at_off_fits p off q : at_off p off q -> q <> [] -> off + Zlen q <= Zlen p.
Proof.
  intros [Ho [post E]] Hq. apply (f_equal length) in E. rewrite length_drop, length_app in E.
  unfold Zlen. destruct q; [done|]. simpl in *. lia.
Qed.

Lemma ld8_at p off x q : at_off p off (x :: q) -> ld8 p off = Ok x.
Proof.
  intros H. pose proof (at_off_fits _ _ _ H ltac:(done)) as Hf. destruct H as [Ho [post E]]. unfold ld8.
  rewrite Zlen_cons in Hf. pose proof (Zlen_nonneg q).
  rewrite (proj2 (Z.leb_le _ _)), (proj2 (Z.ltb_lt _ _)) by lia. cbn [andb]. f_equal.
  rewrite nth_lookup. rewrite <- (Nat.add_0_r (Z.to_nat off)), <- lookup_drop, E. done.
Qed.

Lemma ld16_at p off x q : in_range 16 x = true -> at_off p off (be 2 x ++ q) -> ld16 p off = Ok x.
Proof.
  intros Hx%in_range_spec H. unfold ld16. change (be 2 x ++ q) with ((x / 256 ^ 1) mod 256 :: (x / 256 ^ 0) mod 256 :: q) in H.
  rewrite (ld8_at _ _ _ _ H). cbn [obind]. apply at_off_cons in H as [_ H]. rewrite (ld8_at _ _ _ _ H). cbn [obind].
  f_equal. change (256 ^ 1) with 256. change (256 ^ 0) with 1. rewrite Z.div_1_r.
  assert (0 <= x / 256 < 256) by (split; [apply Z.div_pos|apply Z.div_lt_upper_bound]; lia).
  rewrite (Z.mod_small (x / 256)) by lia. rewrite (Z.div_mod x 256) at 3 by lia. lia.
Qed.

Lemma ldn_at p off a q n : at_off p off (a ++ q) -> n = Zlen a -> off + n <= Zlen p -> ldn n p off = Ok a.
Proof.
  intros [Ho [post E]] -> Hf. unfold ldn. rewrite !(proj2 (Z.leb_le _ _)) by lia. cbn [andb]. f_equal.
  rewrite E. unfold Zlen. rewrite Nat2Z.id, <- app_assoc. apply take_app_length.
Qed.

(** loads inside the vector *)
Lemma ld8_in p off : 0 <= off < Zlen p -> exists x, ld8 p off = Ok x.
Proof. intros H. unfold ld8. rewrite (proj2 (Z.leb_le _ _)), (proj2 (Z.ltb_lt _ _)) by lia. eauto. Qed.

Lemma ld8_byte p off x : Forall is_byte p -> ld8 p off = Ok x -> 0 <= x < 256.
Proof.
  intros Hp. unfold ld8. case_test; [|done]. intros [= <-]. btest. rewrite nth_lookup.
  destruct (p !! Z.to_nat off) as [y|] eqn:E; [|simpl; lia]. by apply (Forall_lookup_1 _ _ _ _ Hp E).
Qed.

Lemma ld16_in p off :
  Forall is_byte p -> 0 <= off -> off + 2 <= Zlen p -> exists x, ld16 p off = Ok x /\ 0 <= x < 65536.
Proof.
  intros Hp Ho Hl. unfold ld16. destruct (ld8_in p off) as [a Ea]; [lia|].
  destruct (ld8_in p (off + 1)) as [b Eb]; [lia|]. rewrite Ea, Eb. cbn [obind]. eexists. split; [done|].
  apply ld8_byte in Ea, Eb; [lia|done..].
Qed.

Lemma ldn_in n p off : 0 <= off -> off + n <= Zlen p -> exists x, ldn n p off = Ok x.
Proof. intros Ho Hl. unfold ldn. rewrite !(proj2 (Z.leb_le _ _)) by lia. eauto. Qed.

(** ** A TLS Client Hello, as RFC 5246 and RFC 6066 write it *)

Definition tls_ext (type : Z) (body : list Z) : list Z := be 2 type ++ be 2 (Zlen body) ++ body.
Definition sni_body (name : list Z) : list Z := be 2 (Zlen name + 3) ++ [0] ++ be 2 (Zlen name) ++ name.
Definition tls_exts (l : list (Z * list Z)) : list Z := concat (map (fun e => tls_ext (fst e) (snd e)) l).
Definition client_hello (minor : Z) (random session_id ciphers compression exts : list Z) : list Z :=
  [3; minor] ++ random ++ (Zlen session_id :: session_id) ++ (be 2 (Zlen ciphers) ++ ciphers)
  ++ (Zlen compression :: compression) ++ be 2 (Zlen exts) ++ exts.
Definition tls_record (minor : Z) (hello : list Z) : list Z :=
  [22; 3; minor] ++ be 2 (Zlen hello + 4) ++ [1] ++ be 3 (Zlen hello) ++ hello.

Lemma tls_sni_at p data name len :
  in_range 16 (Zlen name + 5) = true -> Zlen name + 9 <= len ->
  at_off p data (tls_ext TLS_EXT_SNI (sni_body name)) ->
  tls_sni p data (Zlen (sni_body name)) len = Ok (Some name).
Proof.
  intros Hn%in_range_spec Hlen H. pose proof (Zlen_nonneg name).
  assert (Zlen (sni_body name) = Zlen name + 5) as Hl by (unfold sni_body; autorewrite with upf_len; lia).
  pose proof (at_off_fits _ _ _ H ltac:(done)) as Hfit. revert Hfit. unfold tls_ext. rewrite !Zlen_app, !Zlen_be, Hl.
  intros Hfit. unfold tls_sni.
  rewrite (proj2 (Z.ltb_ge _ _)), (proj2 (Z.ltb_ge len _)) by lia. cbn [orb].
  unfold tls_ext in H. apply at_off_app in H as [_ H]. apply at_off_app in H as [_ H].
  rewrite !Zlen_be in H. unfold sni_body in H. replace (data + Z.of_nat 2 + Z.of_nat 2) with (data + 4) in H by lia.
  rewrite (ld16_at p (data + 4) (Zlen name + 3) _ ltac:(apply in_range_spec; lia) H). cbn [obind].
  rewrite (proj2 (Z.eqb_eq _ _)) by lia. cbn [negb].
  apply at_off_app in H as [_ H]. rewrite Zlen_be in H. replace (data + 4 + Z.of_nat 2) with (data + 6) in H by lia.
  rewrite (ld8_at p (data + 6) 0 _ H). cbn [obind negb]. rewrite Z.eqb_refl. cbn [negb].
  apply at_off_cons in H as [_ H]. replace (data + 6 + 1) with (data + 7) in H by lia.
  rewrite (ld16_at p (data + 7) (Zlen name) _ ltac:(apply in_range_spec; lia) H). cbn [obind].
  rewrite (proj2 (Z.eqb_eq _ _)) by lia. cbn [negb].
  apply at_off_app in H as [_ H]. rewrite Zlen_be in H. replace (data + 7 + Z.of_nat 2) with (data + 9) in H by lia.
  rewrite (ldn_at p (data + 9) name [] (Zlen name)); [done|by rewrite app_nil_r|done|lia].
Qed.

(** extensions of other types are skipped, the server name is found *)
Lemma tls_extensions_find port p pre name post fuel data :
  Forall (fun e => fst e <> TLS_EXT_SNI /\ in_range 16 (fst e) = true /\ in_range 16 (Zlen (snd e)) = true) pre ->
  in_range 16 (Zlen name + 5) = true ->
  (length pre < fuel)%nat ->
  at_off p data (tls_exts pre ++ tls_ext TLS_EXT_SNI (sni_body name) ++ post) ->
  tls_extensions fuel port p data (Zlen (tls_exts pre ++ tls_ext TLS_EXT_SNI (sni_body name) ++ post))
  = Ok (ADR_OK (https_uri port name)).
Proof.
  intros Hpre Hn. revert fuel data. pose proof (Zlen_nonneg name) as Hz1. pose proof (Zlen_nonneg post) as Hz2.
  assert (Zlen (sni_body name) = Zlen name + 5) as Hl by (unfold sni_body; autorewrite with upf_len; lia).
  induction Hpre as [|[t body] pre (Ht & Htr & Hb) Hpre IH]; intros fuel data Hf H; destruct fuel as [|fuel]; [simpl in Hf; lia| |simpl in Hf; lia|];
    cbn [tls_extensions].
  - change (tls_exts []) with (@nil Z) in *. rewrite app_nil_l in *. apply at_off_app in H as [H _].
    assert (Zlen (tls_ext TLS_EXT_SNI (sni_body name) ++ post) = Zlen name + 9 + Zlen post) as ->
      by (unfold tls_ext; autorewrite with upf_len; lia).
    rewrite (proj2 (Z.ltb_lt _ _)) by lia. pose proof H as H'. unfold tls_ext in H'.
    rewrite (ld16_at p data TLS_EXT_SNI _ eq_refl H'). cbn [obind].
    apply at_off_app in H' as [_ H']. rewrite Zlen_be in H'. replace (data + Z.of_nat 2) with (data + 2) in H' by lia.
    rewrite (ld16_at p (data + 2) (Zlen (sni_body name)) _ ltac:(rewrite Hl; exact Hn) H'). cbn [obind]. rewrite Z.eqb_refl. cbn [negb].
    rewrite tls_sni_at; [done|done|lia|done].
  - assert (tls_exts ((t, body) :: pre) = be 2 t ++ be 2 (Zlen body) ++ body ++ tls_exts pre) as E
      by (unfold tls_exts, tls_ext; cbn [map concat fst snd]; by rewrite <- !app_assoc).
    rewrite E in *. rewrite <- !app_assoc in *. cbn [fst snd] in *.
    set (rest := tls_exts pre ++ _) in *. pose proof (Zlen_nonneg body). pose proof (Zlen_nonneg rest).
    autorewrite with upf_len in *. assert (4 < Zlen rest).
    { unfold rest, tls_ext. autorewrite with upf_len. rewrite ?Hl. pose proof (Zlen_nonneg (tls_exts pre)). lia. }
    rewrite (proj2 (Z.ltb_lt _ _)) by lia.
    rewrite (ld16_at p data t _ Htr H). cbn [obind].
    apply at_off_app in H as [_ H]. rewrite Zlen_be in H. replace (data + Z.of_nat 2) with (data + 2) in H by lia.
    rewrite (ld16_at p (data + 2) _ _ Hb H). cbn [obind]. rewrite (proj2 (Z.eqb_neq _ _)) by done. cbn [negb obind].
    apply at_off_app in H as [_ H]. rewrite Zlen_be in H. apply at_off_app in H as [_ H].
    replace (data + 2 + Z.of_nat 2 + Zlen body) with (data + (Zlen body + 4)) in H by lia.
    replace (Z.of_nat 2 + (Z.of_nat 2 + (Zlen body + Zlen rest)) - (Zlen body + 4)) with (Zlen rest) by lia.
    apply IH; [simpl in Hf; lia|exact H].
Qed.

Lemma tls_field_at8 p data len a q k :
  in_range 8 (Zlen a) = true -> Zlen a + 1 <= len -> at_off p data ((Zlen a :: a) ++ q) ->
  tls_field (tls_skip8 p data len) k = k (data + (Zlen a + 1)) (len - (Zlen a + 1))
  /\ at_off p (data + (Zlen a + 1)) q.
Proof.
  intros Ha Hlen H. unfold tls_field, tls_skip8. rewrite (ld8_at p data (Zlen a) (a ++ q) H). cbn [obind].
  rewrite (proj2 (Z.ltb_ge _ _)) by lia. split; [done|]. apply at_off_app in H as [_ H].
  rewrite Zlen_cons in H. by replace (data + (Zlen a + 1)) with (data + (1 + Zlen a)) by lia.
Qed.

Lemma tls_field_at16 p data len a q k :
  in_range 16 (Zlen a) = true -> Zlen a + 2 <= len -> at_off p data ((be 2 (Zlen a) ++ a) ++ q) ->
  tls_field (tls_skip16 p data len) k = k (data + (Zlen a + 2)) (len - (Zlen a + 2))
  /\ at_off p (data + (Zlen a + 2)) q.
Proof.
  intros Ha Hlen H. unfold tls_field, tls_skip16.
  rewrite (ld16_at p data (Zlen a) (a ++ q) Ha) by (by rewrite app_assoc). cbn [obind].
  rewrite (proj2 (Z.ltb_ge _ _)) by lia. split; [done|]. apply at_off_app in H as [_ H].
  rewrite Zlen_app, Zlen_be in H. by replace (data + (Zlen a + 2)) with (data + (Z.of_nat 2 + Zlen a)) by lia.
Qed.

(** the hello and its header are in place *)
Lemma try_tls_at port minor hello tail hminor rest :
  1 <= minor <= 3 -> 1 <= hminor <= 3 -> hello = [3; hminor] ++ rest -> in_range 16 (Zlen hello + 4) = true ->
  upf_adr_try_tls port (tls_record minor hello ++ tail)
  = tls_hello_body port (tls_record minor hello ++ tail) 43 (Zlen hello - 34)
  /\ at_off (tls_record minor hello ++ tail) 9 hello.
Proof.
  intros Hm Hhm Eh Hh. set (p := tls_record minor hello ++ tail).
  assert (at_off p 0 ([22; 3; minor] ++ be 2 (Zlen hello + 4) ++ [1] ++ be 3 (Zlen hello) ++ hello)) as H
    by (split; [lia|]; exists tail; done).
  pose proof (Zlen_nonneg hello) as Hz. pose proof (Zlen_nonneg tail).
  assert (Zlen p = Zlen hello + 9 + Zlen tail) as Hp.
  { unfold p, tls_record. rewrite !Zlen_app, !Zlen_be. change (Zlen [22; 3; minor]) with 3. change (Zlen [1]) with 1. lia. }
  unfold upf_adr_try_tls. rewrite (proj2 (Z.ltb_ge _ _)) by lia.
  rewrite (ld8_at _ _ _ _ H). cbn [obind]. change (negb (22 =? TLS_HANDSHAKE)) with false. cbn match.
  apply at_off_cons in H as [_ H]. change (0 + 1) with 1 in H. rewrite (ld8_at _ _ _ _ H). cbn [obind].
  apply at_off_cons in H as [_ H]. change (1 + 1) with 2 in H. rewrite (ld8_at _ _ _ _ H). cbn [obind].
  assert (forall m, 1 <= m <= 3 -> tls_version_ok 3 m = true) as Hv.
  { intros m Hr. unfold tls_version_ok. rewrite Z.eqb_refl, !(proj2 (Z.leb_le _ _)) by lia. done. }
  rewrite Hv by done. cbn [negb]. apply at_off_cons in H as [_ H]. change (2 + 1) with 3 in H.
  rewrite (ld16_at _ _ _ _ Hh H). cbn [obind]. rewrite (proj2 (Z.ltb_ge _ _)) by lia.
  apply at_off_app in H as [_ H]. rewrite Zlen_be in H. change (3 + Z.of_nat 2) with 5 in H.
  rewrite (ld8_at _ _ _ _ H). cbn [obind]. apply at_off_cons in H as [_ H]. change (5 + 1) with 6 in H.
  rewrite (ldn_at p 6 (be 3 (Zlen hello)) hello 3 H) by (rewrite ?Zlen_be; lia || done). cbn [obind].
  rewrite de_be_be_small by (apply in_range_spec in Hh; change (256 ^ Z.of_nat 3) with 16777216; lia).
  rewrite Z.ltb_irrefl. change (negb (1 =? TLS_CLIENT_HELLO)) with false. cbn match.
  apply at_off_app in H as [_ H]. rewrite Zlen_be in H. change (6 + Z.of_nat 3) with 9 in H.
  pose proof H as H9. rewrite Eh in H. rewrite (ld8_at _ _ _ _ H). cbn [obind].
  apply at_off_cons in H as [_ H]. change (9 + 1) with 10 in H. rewrite (ld8_at _ _ _ _ H). cbn [obind].
  rewrite Hv by done. done.
Qed.

(** C39. From a TLS record with a Client Hello that carries a server name, among
    any other extensions, the detection makes the URI of that name, whatever
    follows the record. *)
Theorem tls_server_name_found port minor hminor random sid ciphers comp pre name post tail :
  1 <= minor <= 3 -> 1 <= hminor <= 3 -> Zlen random = 32 -> in_range 8 (Zlen sid) = true ->
  in_range 16 (Zlen ciphers) = true -> in_range 8 (Zlen comp) = true ->
  Forall (fun e => fst e <> TLS_EXT_SNI /\ in_range 16 (fst e) = true /\ in_range 16 (Zlen (snd e)) = true) pre ->
  in_range 16 (Zlen name + 5) = true ->
  let exts := tls_exts pre ++ tls_ext TLS_EXT_SNI (sni_body name) ++ post in
  let hello := client_hello hminor random sid ciphers comp exts in
  in_range 16 (Zlen exts) = true -> in_range 16 (Zlen hello + 4) = true ->
  upf_adr_try_tls port (tls_record minor hello ++ tail) = Ok (ADR_OK (https_uri port name)).
Proof.
  intros Hm Hhm Hr Hs Hc Hcm Hpre Hn exts hello He Hh.
  destruct (try_tls_at port minor hello tail hminor
    (random ++ (Zlen sid :: sid) ++ (be 2 (Zlen ciphers) ++ ciphers) ++ (Zlen comp :: comp) ++ be 2 (Zlen exts) ++ exts)
    Hm Hhm eq_refl Hh) as [-> H].
  set (p := tls_record minor hello ++ tail) in *. pose proof (Zlen_nonneg exts) as Hze.
  pose proof (Zlen_nonneg sid) as Hz1. pose proof (Zlen_nonneg ciphers) as Hz2. pose proof (Zlen_nonneg comp) as Hz3.
  assert (Zlen hello = 34 + (Zlen sid + 1) + (Zlen ciphers + 2) + (Zlen comp + 1) + 2 + Zlen exts) as Hl.
  { unfold hello, client_hello. rewrite !Zlen_app, !Zlen_be, Hr, !Zlen_cons. change (Zlen [hminor]) with 1.
    change (Zlen (@nil Z)) with 0. lia. }
  unfold hello, client_hello in H. do 2 apply at_off_app in H as [_ H]. rewrite Hr in H. change (9 + Zlen [3; hminor] + 32) with 43 in H.
  unfold tls_hello_body.
  destruct (tls_field_at8 p 43 (Zlen hello - 34) sid _ (fun data len =>
    tls_field (tls_skip16 p data len) (fun data len =>
    tls_field (tls_skip8 p data len) (fun data len =>
    obind (ld16 p data) (fun n => if len <? n + 2 then Ok ADR_NEED_MORE_DATA
      else tls_extensions (Z.to_nat n) port p (data + 2) n)))) Hs ltac:(lia) H) as [-> H1].
  destruct (tls_field_at16 p _ (Zlen hello - 34 - (Zlen sid + 1)) ciphers _ (fun data len =>
    tls_field (tls_skip8 p data len) (fun data len =>
    obind (ld16 p data) (fun n => if len <? n + 2 then Ok ADR_NEED_MORE_DATA
      else tls_extensions (Z.to_nat n) port p (data + 2) n))) Hc ltac:(lia) H1) as [-> H2].
  destruct (tls_field_at8 p _ (Zlen hello - 34 - (Zlen sid + 1) - (Zlen ciphers + 2)) comp _ (fun data len =>
    obind (ld16 p data) (fun n => if len <? n + 2 then Ok ADR_NEED_MORE_DATA
      else tls_extensions (Z.to_nat n) port p (data + 2) n)) Hcm ltac:(lia) H2) as [-> H3].
  rewrite (ld16_at _ _ _ _ He H3). cbn [obind]. rewrite (proj2 (Z.ltb_ge _ _)) by lia.
  apply at_off_app in H3 as [_ H3]. rewrite Zlen_be in H3. change (Z.of_nat 2) with 2 in H3.
  apply tls_extensions_find; [done|done| |exact H3].
  assert (Z.of_nat (length pre) < Zlen exts) as Hcount; [|unfold Zlen in *; lia].
  unfold exts. rewrite Zlen_app, (Zlen_app (tls_ext _ _)).
  assert (0 < Zlen (tls_ext TLS_EXT_SNI (sni_body name))) by (unfold tls_ext; rewrite !Zlen_app, !Zlen_be; pose proof (Zlen_nonneg (sni_body name)); lia).
  assert (Z.of_nat (length pre) <= Zlen (tls_exts pre)); [|pose proof (Zlen_nonneg post); lia].
  clear. induction pre as [|[t b] pre IH]; [done|]. unfold tls_exts in *. cbn [map concat length fst snd].
  rewrite Zlen_app. unfold tls_ext at 1. rewrite !Zlen_app, !Zlen_be. pose proof (Zlen_nonneg b). lia.
Qed.

(** *** Where the loads are *)

Lemma tls_sni_in p data ext_len len :
  Forall is_byte p -> 0 <= data -> data + len <= Zlen p -> exists o, tls_sni p data ext_len len = Ok o.
Proof.
  intros Hp Hd Hl. unfold tls_sni. case_test; [by eauto|]. btest.
  destruct (ld16_in p (data + 4)) as (sni & -> & _); [done|lia..|]. cbn [obind]. case_test; [by eauto|]. btest.
  destruct (ld8_in p (data + 6)) as (nt & ->); [lia|]. cbn [obind]. case_test; [by eauto|].
  destruct (ld16_in p (data + 7)) as (nl & -> & _); [done|lia..|]. cbn [obind]. case_test; [by eauto|]. btest.
  destruct (ldn_in nl p (data + 9)) as (name & ->); [lia..|]. cbn [obind]. eauto.
Qed.

Lemma tls_extensions_in fuel port p data len :
  Forall is_byte p -> 0 <= data -> data + len <= Zlen p -> len <= Z.of_nat fuel ->
  exists r, tls_extensions fuel port p data len = Ok r.
Proof.
  intros Hp. revert data len. induction fuel as [|fuel IH]; intros data len Hd Hl Hf; cbn [tls_extensions];
    (case_test; [|by eauto]); btest; [lia|].
  destruct (ld16_in p data) as (ty & -> & _); [done|lia..|]. cbn [obind].
  destruct (ld16_in p (data + 2)) as (el & -> & Hel); [done|lia..|]. cbn [obind].
  assert (exists o, (if negb (ty =? TLS_EXT_SNI) then Ok None else tls_sni p data el len) = Ok o) as [o ->]
    by (case_test; [by eauto|by apply tls_sni_in]).
  cbn [obind]. destruct o; [by eauto|]. apply IH; lia.
Qed.

Lemma tls_field_in8 p data len k :
  Forall is_byte p -> 0 <= data < Zlen p ->
  (forall data' len', data' + len' = data + len -> 0 <= len' -> data <= data' -> exists r, k data' len' = Ok r) ->
  exists r, tls_field (tls_skip8 p data len) k = Ok r.
Proof.
  intros Hp Hd Hk. unfold tls_field, tls_skip8. destruct (ld8_in p data Hd) as [n En].
  apply ld8_byte in En as Hn; [|done]. rewrite En. cbn [obind]. case_test; [by eauto|]. btest. apply Hk; lia.
Qed.

Lemma tls_field_in16 p data len k :
  Forall is_byte p -> 0 <= data -> data + 2 <= Zlen p ->
  (forall data' len', data' + len' = data + len -> 0 <= len' -> data <= data' -> exists r, k data' len' = Ok r) ->
  exists r, tls_field (tls_skip16 p data len) k = Ok r.
Proof.
  intros Hp Hd Hl Hk. unfold tls_field, tls_skip16. destruct (ld16_in p data Hp Hd Hl) as (n & -> & Hn).
  cbn [obind]. case_test; [by eauto|]. btest. apply Hk; lia.
Qed.

(** the length in the header of the hello *)
Definition hello_len (p : list Z) : Z := de_be (take 3 (drop 6 p)).


(** The test for a hello longer than its record is the wrong way round. A
    record that ends after the header of a hello of any length is parsed past
    its end, and a record with a hello and another message after it is never
    complete. *)
Theorem tls_length_check_inverted port minor l hello tail :
  1 <= minor <= 3 -> in_range 24 l = true ->
  in_range 16 (Zlen hello + 4 + Zlen tail) = true -> tail <> [] ->
  upf_adr_try_tls port ([22; 3; minor; 0; 4; 1] ++ be 3 l) = Fault OobRead
  /\ upf_adr_try_tls port ([22; 3; minor] ++ be 2 (Zlen hello + 4 + Zlen tail) ++ [1] ++ be 3 (Zlen hello) ++ hello ++ tail)
     = Ok ADR_NEED_MORE_DATA.
Proof.
  intros Hm Hl%in_range_spec Hr Ht.
  assert (tls_version_ok 3 minor = true) as Hv.
  { unfold tls_version_ok. by rewrite Z.eqb_refl, !(proj2 (Z.leb_le _ _)) by lia. }
  split.
  - assert (de_be (be 3 l) = l) as El by (apply de_be_be_small; change (256 ^ Z.of_nat 3) with (2 ^ 24); lia).
    change (be 3 l) with [(l / 256 ^ 2) mod 256; (l / 256 ^ 1) mod 256; (l / 256 ^ 0) mod 256] in *.
    set (a := (l / 256 ^ 2) mod 256) in *. set (b := (l / 256 ^ 1) mod 256) in *. set (c := (l / 256 ^ 0) mod 256) in *.
    unfold upf_adr_try_tls. change (Zlen _) with 9. cbn match.
    change (ld8 _ 0) with (@Ok Z 22). cbn [obind]. change (negb (22 =? TLS_HANDSHAKE)) with false. cbn match.
    change (ld8 _ 1) with (@Ok Z 3). change (ld8 _ 2) with (Ok minor). cbn [obind]. rewrite Hv. cbn [negb].
    change (ld16 _ 3) with (@Ok Z 4). cbn [obind]. change (9 - 5 <? 4) with false. cbn match.
    change (ld8 _ 5) with (@Ok Z 1). cbn [obind]. change (ldn 3 _ 6) with (Ok [a; b; c]). cbn [obind]. rewrite El.
    replace (l + 4 <? 4) with false by (symmetry; apply Z.ltb_ge; lia). change (negb (1 =? TLS_CLIENT_HELLO)) with false. cbn match.
    change (ld8 _ 9) with (@Fault Z OobRead). done.
  - set (p := [22; 3; minor] ++ _). pose proof (Zlen_nonneg hello) as Hz1. apply in_range_spec in Hr as Hr'.
    assert (0 < Zlen tail) as Hz2 by (destruct tail; [done|rewrite Zlen_cons; pose proof (Zlen_nonneg tail); lia]).
    assert (at_off p 0 p) as H0 by (split; [lia|]; exists []; by rewrite app_nil_r).
    assert (Zlen p = Zlen hello + 9 + Zlen tail) as Hp.
    { unfold p. rewrite !Zlen_app, !Zlen_be. change (Zlen [22; 3; minor]) with 3. change (Zlen [1]) with 1. lia. }
    unfold p in H0 at 2. unfold upf_adr_try_tls. rewrite (proj2 (Z.ltb_ge _ _)) by lia.
    rewrite (ld8_at _ _ _ _ H0). cbn [obind]. change (negb (22 =? TLS_HANDSHAKE)) with false. cbn match.
    apply at_off_cons in H0 as [_ H1]. change (0 + 1) with 1 in H1. rewrite (ld8_at _ _ _ _ H1). cbn [obind].
    apply at_off_cons in H1 as [_ H1]. change (1 + 1) with 2 in H1. rewrite (ld8_at _ _ _ _ H1). cbn [obind].
    rewrite Hv. cbn [negb]. apply at_off_cons in H1 as [_ H1]. change (2 + 1) with 3 in H1.
    rewrite (ld16_at _ _ _ _ Hr H1). cbn [obind]. rewrite (proj2 (Z.ltb_ge _ _)) by lia.
    apply at_off_app in H1 as [_ H1]. rewrite Zlen_be in H1. change (3 + Z.of_nat 2) with 5 in H1.
    rewrite (ld8_at _ _ _ _ H1). cbn [obind]. apply at_off_cons in H1 as [_ H1]. change (5 + 1) with 6 in H1.
    rewrite (ldn_at p 6 (be 3 (Zlen hello)) _ 3 H1) by (rewrite ?Zlen_be; lia || done). cbn [obind].
    rewrite de_be_be_small by (change (256 ^ Z.of_nat 3) with 16777216; lia).
    by rewrite (proj2 (Z.ltb_lt _ _)) by lia.
Qed.

(** ** An HTTP request *)

Lemma memchr_at p off a c q n :
  at_off p off (a ++ c :: q) -> c ∉ a -> Zlen a < n -> memchr p off c n = Some (off + Zlen a).
Proof.
  intros [Ho [post E]] Hc Hn. unfold memchr. rewrite E. unfold Zlen in *.
  assert (list_find (fun o => o = c) (take (Z.to_nat n) ((a ++ c :: q) ++ post)) = Some (length a, c)) as ->; [|done].
  rewrite <- app_assoc. apply list_find_Some. split; [|split; [done|]].
  - rewrite lookup_take, decide_True by lia. by rewrite lookup_app_r, Nat.sub_diag by lia.
  - intros j y Hy Hj ->. rewrite lookup_take, decide_True in Hy by lia.
    rewrite lookup_app_l in Hy by lia. apply Hc. by eapply list_elem_of_lookup_2.
Qed.

Lemma ldn8_at p off q :
  at_off p off q -> 8 <= Zlen q -> ldn 8 p off = Ok (take 8 q).
Proof.
  intros H Hq. pose proof (at_off_fits _ _ _ H ltac:(intros ->; done)) as Hf.
  apply (ldn_at p off (take 8 q) (drop 8 q)); [by rewrite take_drop| |lia].
  change 8%nat with (Z.to_nat 8). by rewrite Zlen_take by lia.
Qed.

Lemma is_host_take d : is_host (take 8 d) = is_host d.
Proof. unfold is_host. rewrite take_take, !nth_lookup, lookup_take, decide_True by lia. done. Qed.

(** a header line that is neither the end of the headers nor the Host *)
Definition other_header (h : list Z) : Prop :=
  (10 ∉ h) /\ h <> [] /\ h <> [13] /\ forall q, is_host (h ++ 10 :: q) = false.

Definition header_lines (l : list (list Z)) : list Z := concat (map (fun h => h ++ [10]) l).
Definition host_line (host : list Z) : list Z := ascii "Host: " ++ host ++ [13; 10].

(** a host name of at least two octets, without white space at its ends *)
Inductive host_name : list Z -> Prop :=
| host_name_intro a m b : 32 < a -> 32 < b -> 10 ∉ a :: m ++ [b] -> host_name (a :: m ++ [b]).

Lemma http_host_at port p path host tail s :
  host_name host -> at_off p s (host_line host ++ tail) ->
  http_host port p path (s + 5) (s + Zlen host + 7) = Ok (ADR_OK (http_uri port host path)).
Proof.
  intros Hh H. pose proof (at_off_fits _ _ _ H ltac:(done)) as Hfit. destruct Hh as [a m b Ha Hb _].
  set (host := a :: m ++ [b]) in *.
  assert (Zlen host = Zlen m + 2) as Hl by (unfold host; rewrite Zlen_cons, Zlen_app; change (Zlen [b]) with 1; lia).
  pose proof (Zlen_nonneg m) as Hm. pose proof (Zlen_nonneg tail) as Ht.
  assert (Zlen (host_line host ++ tail) = Zlen host + 8 + Zlen tail) as Hz
    by (unfold host_line; rewrite !Zlen_app; change (Zlen (ascii "Host: ")) with 6; change (Zlen [13; 10]) with 2; lia).
  rewrite Hz in Hfit.
  assert (at_off p (s + 5) ([32] ++ host ++ [13; 10] ++ tail)) as H5.
  { change (host_line host) with (ascii "Host:" ++ [32] ++ host ++ [13; 10]) in H. rewrite <- app_assoc in H.
    apply at_off_app in H as [_ H]. change (Zlen (ascii "Host:")) with 5 in H. by rewrite <- !app_assoc in H. }
  pose proof H5 as H6. apply at_off_app in H6 as [_ H6]. change (Zlen [32]) with 1 in H6.
  replace (s + 5 + 1) with (s + 6) in H6 by lia.
  assert (at_off p (s + 6 + Zlen (a :: m)) ([b] ++ [13; 10] ++ tail)) as Hbk.
  { apply (at_off_app p (s + 6) (a :: m)). unfold host in H6. simpl app in *. by rewrite <- app_assoc in H6. }
  rewrite Zlen_cons in Hbk. unfold http_host.
  destruct (Z.to_nat (s + Zlen host + 7 - (s + 5))) as [|[|n]] eqn:En; [lia|lia|]. cbn [skip_ows].
  rewrite (proj2 (Z.ltb_lt (s + 5) _)) by lia. rewrite (ld8_at _ _ _ _ H5). cbn [obind]. change (32 <=? 32) with true. cbn match.
  replace (s + 5 + 1) with (s + 6) by lia.
  rewrite (proj2 (Z.ltb_lt (s + 6) _)) by lia. rewrite (ld8_at _ _ _ _ H6). cbn [obind].
  rewrite (proj2 (Z.leb_gt a 32)) by lia. cbn [obind].
  destruct (Z.to_nat (s + Zlen host + 7 - (s + 6))) as [|[|[|n']]] eqn:En'; [lia|lia|lia|]. cbn [skip_ows_back].
  pose proof Hbk as H13. apply at_off_app in H13 as [_ H13]. change (Zlen [b]) with 1 in H13.
  pose proof H13 as H10. apply at_off_cons in H10 as [_ H10].
  rewrite (proj2 (Z.ltb_lt (s + 6) _)) by lia.
  replace (s + Zlen host + 7) with (s + 6 + (1 + Zlen m) + 1 + 1) at 1 by lia. rewrite (ld8_at _ _ _ _ H10). cbn [obind].
  change (10 <=? 32) with true. cbn match. rewrite (proj2 (Z.ltb_lt (s + 6) _)) by lia.
  replace (s + Zlen host + 7 - 1) with (s + 6 + (1 + Zlen m) + 1) at 1 by lia. rewrite (ld8_at _ _ _ _ H13). cbn [obind].
  change (13 <=? 32) with true. cbn match. rewrite (proj2 (Z.ltb_lt (s + 6) _)) by lia.
  replace (s + Zlen host + 7 - 1 - 1) with (s + 6 + (1 + Zlen m)) by lia. rewrite (ld8_at _ _ _ _ Hbk). cbn [obind].
  rewrite (proj2 (Z.leb_gt b 32)) by lia. cbn [obind]. rewrite (proj2 (Z.eqb_neq _ _)) by lia.
  rewrite (ldn_at p (s + 6) host ([13; 10] ++ tail)); [done|done|lia|lia].
Qed.

(** the Host is found behind any other headers *)
Lemma http_headers_find port p path pre host tail fuel s :
  Forall other_header pre -> host_name host -> (length pre < fuel)%nat ->
  at_off p s (header_lines pre ++ host_line host ++ tail) ->
  http_headers fuel port p path s (Zlen (header_lines pre ++ host_line host ++ tail))
  = Ok (ADR_OK (http_uri port host path)).
Proof.
  intros Hpre Hh. pose proof (Zlen_nonneg tail) as Ht. pose proof (Zlen_nonneg host) as Hho.
  assert (2 <= Zlen host) as H2.
  { destruct Hh as [a m b]. rewrite Zlen_cons, Zlen_app. change (Zlen [b]) with 1. pose proof (Zlen_nonneg m). lia. }
  assert (Zlen (host_line host ++ tail) = Zlen host + 8 + Zlen tail) as Hz
    by (unfold host_line; rewrite !Zlen_app; change (Zlen (ascii "Host: ")) with 6; change (Zlen [13; 10]) with 2; lia).
  revert fuel s. induction Hpre as [|h pre (Hnl & Hne & Hcr & Hnh) Hpre IH]; intros fuel s Hf H;
    (destruct fuel as [|fuel]; [simpl in Hf; lia|]); cbn [http_headers].
  - change (header_lines []) with (@nil Z) in *. rewrite app_nil_l in *. rewrite Hz.
    rewrite (proj2 (Z.ltb_lt _ _)) by lia. rewrite (ldn8_at _ _ _ H) by lia. cbn [obind].
    rewrite (memchr_at p s (ascii "Host: " ++ host ++ [13]) 10 tail).
    + rewrite !Zlen_app. change (Zlen (ascii "Host: ")) with 6. change (Zlen [13]) with 1.
      rewrite !(proj2 (Z.eqb_neq _ _)) by lia. cbn [orb andb]. change (is_host _) with true. cbn match.
      replace (s + (6 + (Zlen host + 1))) with (s + Zlen host + 7) by lia. by apply (http_host_at port p path host tail).
    + unfold host_line in H. by rewrite <- !app_assoc in *.
    + intros Hin. apply elem_of_app in Hin as [Hin|Hin]; [revert Hin; by_eval|].
      apply elem_of_app in Hin as [Hin|Hin]; [|revert Hin; by_eval]. by destruct Hh.
    + rewrite !Zlen_app. change (Zlen (ascii "Host: ")) with 6. change (Zlen [13]) with 1. lia.
  - assert (header_lines (h :: pre) = h ++ 10 :: header_lines pre) as E
      by (unfold header_lines; cbn [map concat]; by rewrite <- app_assoc).
    rewrite E in *. rewrite <- !app_assoc in *. cbn [app] in *.
    set (rest := header_lines pre ++ host_line host ++ tail) in *.
    assert (Zlen host + 8 <= Zlen rest) as Hr by (unfold rest; rewrite Zlen_app, Hz; pose proof (Zlen_nonneg (header_lines pre)); lia).
    rewrite Zlen_app, Zlen_cons. pose proof (Zlen_nonneg h) as Hzh. rewrite (proj2 (Z.ltb_lt _ _)) by lia.
    rewrite (ldn8_at _ _ _ H) by (rewrite Zlen_app, Zlen_cons; lia). cbn [obind].
    rewrite (memchr_at p s h 10 rest _ H Hnl) by lia. replace (s + Zlen h - s) with (Zlen h) by lia.
    rewrite is_host_take, Hnh.
    assert ((Zlen h =? 0) || (Zlen h =? 1) && (nth 0 (take 8 (h ++ 10 :: rest)) 0 =? 13) = false) as ->.
    { destruct h as [|x [|y h]]; [done| |rewrite !Zlen_cons; pose proof (Zlen_nonneg h);
        by rewrite !(proj2 (Z.eqb_neq _ _)) by lia].
      change (Zlen [x]) with 1. cbn. apply Z.eqb_neq. congruence. }
    apply at_off_app in H as [_ H]. apply at_off_cons in H as [_ H].
    replace (Zlen h + (1 + Zlen rest) - (Zlen h + 1)) with (Zlen rest) by lia.
    apply IH; [simpl in Hf; lia|exact H].
Qed.

(** From a GET request the detection makes the URI of the Host header and the
    path, whatever headers come before and whatever follows. *)
Theorem http_host_found port path pre host tail :
  10 ∉ path -> 32 ∉ path -> Forall other_header pre -> host_name host ->
  upf_adr_try_http port
    (ascii "GET " ++ path ++ ascii " HTTP/1.1" ++ [13; 10] ++ header_lines pre ++ host_line host ++ tail)
  = Ok (ADR_OK (http_uri port host path)).
Proof.
  intros Hp1 Hp2 Hpre Hh. set (rest := header_lines pre ++ host_line host ++ tail).
  set (p := ascii "GET " ++ path ++ _). pose proof (Zlen_nonneg path) as Hzp. pose proof (Zlen_nonneg rest) as Hzr.
  assert (Zlen p = 15 + Zlen path + Zlen rest) as Hlen.
  { unfold p. rewrite !Zlen_app. change (Zlen (ascii "GET ")) with 4. change (Zlen (ascii " HTTP/1.1")) with 9.
    change (Zlen [13; 10]) with 2. lia. }
  assert (at_off p 0 (ascii "GET " ++ path ++ ascii " HTTP/1.1" ++ [13; 10] ++ rest)) as H0
    by (split; [lia|]; exists []; by rewrite app_nil_r).
  assert (is_http_request p = Ok (HttpAt 4)) as Hreq.
  { unfold is_http_request. rewrite (ldn8_at _ _ _ H0) by (fold p; lia). cbn [obind].
    rewrite (proj2 (Z.ltb_ge _ _)) by lia. reflexivity. }
  unfold upf_adr_try_http. rewrite Hreq. cbn [obind].
  apply at_off_app in H0 as [_ H4]. change (0 + Zlen (ascii "GET ")) with 4 in H4.
  rewrite (memchr_at p 4 (path ++ ascii " HTTP/1.1" ++ [13]) 10 rest).
  2: { rewrite <- !app_assoc. exact H4. }
  2: { rewrite !elem_of_app. intros [?|[Hin|Hin]]; [done|revert Hin; by_eval..]. }
  2: { rewrite !Zlen_app. change (Zlen (ascii " HTTP/1.1")) with 9. change (Zlen [13]) with 1. lia. }
  rewrite !Zlen_app. change (Zlen (ascii " HTTP/1.1")) with 9. change (Zlen [13]) with 1.
  rewrite (memchr_at p 4 path 32 (ascii "HTTP/1.1" ++ [13; 10] ++ rest)) by (done || lia).
  pose proof H4 as H5. apply at_off_app in H5 as [_ H5].
  change (ascii " HTTP/1.1" ++ [13; 10] ++ rest) with (32 :: ascii "HTTP/1.1" ++ [13; 10] ++ rest) in H5.
  apply at_off_cons in H5 as [_ H5]. pose proof H5 as H6. apply at_off_app in H5 as [H5 _].
  rewrite (ldn8_at _ _ _ H5) by done. cbn [obind].
  change (negb (starts (take 8 (ascii "HTTP/1.1")) "HTTP/1.0") && negb (starts (take 8 (ascii "HTTP/1.1")) "HTTP/1.1"))
    with false. cbn match.
  assert (take (Z.to_nat (4 + Zlen path - 4)) (drop (Z.to_nat 4) p) = path) as ->.
  { replace (4 + Zlen path - 4) with (Zlen path) by lia. unfold Zlen. rewrite Nat2Z.id.
    change (drop (Z.to_nat 4) p) with (path ++ ascii " HTTP/1.1" ++ [13; 10] ++ rest). apply take_app_length. }
  apply at_off_app in H6 as [_ H6]. apply at_off_app in H6 as [_ H6].
  change (Zlen (ascii "HTTP/1.1")) with 8 in H6. change (Zlen [13; 10]) with 2 in H6.
  replace (4 + (Zlen path + (9 + 1)) + 1) with (4 + Zlen path + 1 + 8 + 2) by lia.
  replace (Zlen p - 4 - (4 + (Zlen path + (9 + 1)) - 4 + 1)) with (Zlen rest) by lia.
  apply http_headers_find; [done|done| |exact H6].
  assert (Z.of_nat (length pre) <= Zlen rest) as Hcount; [|lia].
  unfold rest. rewrite Zlen_app. pose proof (Zlen_nonneg (host_line host ++ tail)).
  assert (Z.of_nat (length pre) <= Zlen (header_lines pre)); [|lia].
  clear. induction pre as [|h pre IH]; [done|]. unfold header_lines in *. cbn [map concat length].
  rewrite !Zlen_app. change (Zlen [10]) with 1. pose proof (Zlen_nonneg h). lia.
Qed.

(** The loads of is_http_request come before its test of the length: a
    connection that starts with fewer than eight octets, not those of TLS, is
    read past the end of what was received. *)
Theorem http_short_overrun port p :
  Zlen p < 8 -> upf_adr_try_http port p = Fault OobRead.
Proof.
  intros Hp. unfold upf_adr_try_http, is_http_request, ldn.
  by rewrite (proj2 (Z.leb_gt (0 + 8) (Zlen p))) by lia.
Qed.

(** ** The PDR of an application *)

Section Scan.
Context {H : AdfLookup} {M : IpMasks}.

(** a PDR whose application, UE address and tunnel match the flow *)
Definition app_matches (uri : list Z) (flow : flow_entry_t) (direction : flow_direction_t) (pdr : upf_pdr_t) : bool :=
  scan_pdr uri flow direction None pdr.

Lemma scan_pdr_some uri flow d best pdr :
  scan_pdr uri flow d (Some best) pdr
  = (pdr_precedence pdr <=? pdr_precedence best) && app_matches uri flow d pdr.
Proof. unfold app_matches, scan_pdr. rewrite andb_true_r. btauto. Qed.

(** The scan for a URI returns the PDR of the best precedence among the one
    it is given and those whose application, UE address and tunnel match, and
    returns none only when there is none. *)
Theorem scan_finds_best uri flow active d adr :
  let pdrs := vec_elts (r_pdr active) in
  let r := app_scan_for_uri uri flow active d adr in
  (forall best, r = Some best ->
     adr = Some best \/ (best ∈ pdrs /\ app_matches uri flow d best = true))
  /\ (forall a, adr = Some a -> exists best, r = Some best /\ pdr_precedence best <= pdr_precedence a)
  /\ (forall pdr, pdr ∈ pdrs -> app_matches uri flow d pdr = true ->
        exists best, r = Some best /\ pdr_precedence best <= pdr_precedence pdr).
Proof.
  unfold app_scan_for_uri. generalize (vec_elts (r_pdr active)) as l. intros l. revert adr.
  induction l as [|p l IH]; intros adr; cbn zeta; cbn [foldl].
  { split; [by left|]. split; [intros a ->; exists a; split; [done|lia]|]. intros pdr Hin. by apply elem_of_nil in Hin. }
  destruct (IH (if scan_pdr uri flow d adr p then Some p else adr)) as (H1 & H2 & H3).
  set (r := foldl _ _ l) in *. clearbody r.
  assert (scan_pdr uri flow d adr p = true -> app_matches uri flow d p = true
    /\ forall a, adr = Some a -> pdr_precedence p <= pdr_precedence a) as Hs.
  { destruct adr as [a|]; [|intros Ht; split; [exact Ht|done]]. rewrite scan_pdr_some. intros Ht. btest. split; [done|]. intros ? [= <-]. done. }
  split; [|split].
  - intros best E. destruct (H1 best E) as [E'|[? ?]]; [|right; split; [by right|done]].
    destruct (scan_pdr uri flow d adr p); [|by left]. injection E' as <-. right. split; [by left|]. by apply Hs.
  - intros a ->. destruct (scan_pdr uri flow d (Some a) p) eqn:Es; [|by apply H2].
    destruct (H2 p eq_refl) as (best & E & Hle). exists best. split; [done|]. destruct (Hs eq_refl) as [_ Hp]. specialize (Hp a eq_refl). lia.
  - intros pdr [->|Hin]%elem_of_cons Hm; [|by apply H3].
    destruct (scan_pdr uri flow d adr p) eqn:Es; [by apply H2|].
    destruct adr as [a|]; [|unfold app_matches in Hm; congruence].
    rewrite scan_pdr_some, Hm, andb_true_r in Es. btest. destruct (H2 a eq_refl) as (best & E & Hle).
    exists best. split; [done|lia].
Qed.
End Scan.

(** ** Examples *)

(** a hello with a supported-versions extension in front of the name "a.example" *)
Lemma tls_server_name_found_witness :
  upf_adr_try_tls 8443 (tls_record 1 (client_hello 3 (repeat 7 32) [1; 2] [0; 47] [0]
    (tls_exts [(43, [2; 3; 4])] ++ tls_ext TLS_EXT_SNI (sni_body (ascii "a.example")) ++ [])) ++ [9])
  = Ok (ADR_OK (https_uri 8443 (ascii "a.example")))
  /\ https_uri 8443 (ascii "a.example") = ascii "https://a.example:8443/".
Proof.
  split; [|reflexivity].
  apply (tls_server_name_found 8443 1 3 (repeat 7 32) [1; 2] [0; 47] [0] [(43, [2; 3; 4])] (ascii "a.example") [] [9]);
    try reflexivity; try lia.
  constructor; [|constructor]. split; [discriminate|]. split; reflexivity.
Defined.


Lemma tls_length_check_inverted_witness :
  upf_adr_try_tls 443 ([22; 3; 1; 0; 4; 1] ++ be 3 512) = Fault OobRead
  /\ upf_adr_try_tls 443 ([22; 3; 1] ++ be 2 (40 + 4 + 4) ++ [1] ++ be 3 40 ++ repeat 3 40 ++ [14; 0; 0; 0])
     = Ok ADR_NEED_MORE_DATA.
Proof.
  apply (tls_length_check_inverted 443 1 512 (repeat 3 40) [14; 0; 0; 0]); [lia|reflexivity|reflexivity|discriminate].
Defined.

Lemma other_header_agent : other_header (ascii "User-Agent: x" ++ [13]).
Proof.
  split; [by_eval|]. split; [discriminate|]. split; [discriminate|]. intros q. reflexivity.
Qed.

Lemma host_name_example : host_name (ascii "b.example").
Proof. apply (host_name_intro 98 (ascii ".exampl") 101); [lia|lia|by_eval]. Qed.

Lemma http_host_found_witness :
  upf_adr_try_http 80 (ascii "GET " ++ ascii "/index" ++ ascii " HTTP/1.1" ++ [13; 10]
    ++ header_lines [ascii "User-Agent: x" ++ [13]] ++ host_line (ascii "b.example") ++ [13; 10])
  = Ok (ADR_OK (http_uri 80 (ascii "b.example") (ascii "/index")))
  /\ http_uri 80 (ascii "b.example") (ascii "/index") = ascii "http://b.example/index".
Proof.
  split; [|reflexivity].
  apply (http_host_found 80 (ascii "/index") [ascii "User-Agent: x" ++ [13]] (ascii "b.example") [13; 10]);
    [by_eval|by_eval|constructor; [exact other_header_agent|constructor]|exact host_name_example].
Defined.

Lemma http_short_overrun_witness : upf_adr_try_http 80 (ascii "GET /") = Fault OobRead.
Proof. apply http_short_overrun. reflexivity. Defined.
