(* ===== verification/UpfClassify.v ===== *)
(** * Packet classification

    A packet of a flow that is not classified yet is compared with the ACLs of
    its session (src/upf/upf_classify.c): the first that matches gives the PDR
    of the flow in that direction, and the next node. The filters the ACLs are
    compiled from are those of [UpfAcl]. *)

From Stdlib Require Import ZArith Lia Btauto Sorting.Sorted.
From stdpp Require Import base list list_numbers option numbers decidable gmap.
From S2P Require Import Prelude PfcpIo PfcpIe UpfTypes UpfVec UpfUrr UpfRules UpfTeid FlowTcp FlowKey FlowTable UpfAcl UpfAppDpo AppDetect.

Definition UPF_CLASSIFY_NEXT_DROP : Z := 0.
Definition UPF_CLASSIFY_NEXT_PROCESS : Z := 1.
Definition UPF_CLASSIFY_NEXT_FORWARD : Z := 2.
Definition UPF_CLASSIFY_NEXT_PROXY : Z := 3.

Definition upf_classify_flow_next (next : Z) : outcome Z :=
  if next =? FT_NEXT_DROP then Ok UPF_CLASSIFY_NEXT_DROP
  else if next =? FT_NEXT_CLASSIFY then Ok UPF_CLASSIFY_NEXT_DROP
  else if next =? FT_NEXT_PROCESS then Ok UPF_CLASSIFY_NEXT_PROCESS
  else if next =? FT_NEXT_PROXY then Ok UPF_CLASSIFY_NEXT_PROXY
  else Fault BadIndex.

(** what an ACL compares of a flow seen from direction [is_reverse] *)
Definition flow_ip (flow : flow_entry_t) (is_reverse d : flow_direction_t) : list Z :=
  order_get (fk_ip (fe_key flow)) (dir_xor d is_reverse).
Definition flow_port (flow : flow_entry_t) (is_reverse d : flow_direction_t) : Z :=
  net_to_host_u16 (order_get (fk_port (fe_key flow)) (dir_xor d is_reverse)).

Definition acl_ip46_is_equal_masked (ip : list Z) (acl : upf_acl_t) (field : acl_field) : bool :=
  ip46_address_is_equal_masked ip (t5_address (acl_match acl) field) (t5_address (acl_mask acl) field).
Definition acl_port_in_range (port : Z) (acl : upf_acl_t) (field : acl_field) : bool :=
  (t5_port (acl_mask acl) field <=? port) && (port <=? t5_port (acl_match acl) field).

Definition pdr_at (r : rules) (idx : Z) : outcome upf_pdr_t :=
  match vec_elts (r_pdr r) !! Z.to_nat idx with Some pdr => Ok pdr | None => Fault BadIndex end.

Section Classify.
Context {F : AppFib} {M : IpMasks} {H : AdfLookup} (db : pool upf_adf_entry_t).

(** the test of the UE address: the mask is one of IPv6 for IPv4 too *)
Definition acl_ue_ip_matches (acl : upf_acl_t) (flow : flow_entry_t) (is_reverse : flow_direction_t) (is_ip4 : bool) : bool :=
  let mask := ip6_fib_masks (if is_ip4 then 32 else 64) in
  if acl_match_ue_ip acl =? UPF_ACL_UL then
    ip46_address_is_equal_masked (acl_ue_ip acl) (flow_ip flow is_reverse FT_ORIGIN) mask
  else if acl_match_ue_ip acl =? UPF_ACL_DL then
    ip46_address_is_equal_masked (acl_ue_ip acl) (flow_ip flow is_reverse FT_REVERSE) mask
  else true.

Definition acl_ip_app_matches (acl : upf_acl_t) (flow : flow_entry_t) (active : rules) : outcome bool :=
  if negb (acl_match_ip_app acl) then Ok true
  else if acl_match_ue_ip acl =? 0 then Ok false
  else obind (pdr_at active (acl_pdr_idx acl)) (fun pdr =>
       upf_app_ip_rule_match db (adr_db_id (pdi_adr (pdr_pdi pdr))) flow (acl_ue_ip acl)).

(** the protocol, the addresses and the ports *)
Definition acl_5tuple_matches (acl : upf_acl_t) (flow : flow_entry_t) (is_reverse : flow_direction_t) : bool :=
  (Z.land (fk_proto (fe_key flow)) (t5_protocol (acl_mask acl))
   =? Z.land (t5_protocol (acl_match acl)) (t5_protocol (acl_mask acl)))
  && acl_ip46_is_equal_masked (flow_ip flow is_reverse FT_ORIGIN) acl FIELD_SRC
  && acl_ip46_is_equal_masked (flow_ip flow is_reverse FT_REVERSE) acl FIELD_DST
  && acl_port_in_range (flow_port flow is_reverse FT_ORIGIN) acl FIELD_SRC
  && acl_port_in_range (flow_port flow is_reverse FT_REVERSE) acl FIELD_DST.

Definition upf_acl_classify_one (teid : Z) (flow : flow_entry_t) (is_reverse : flow_direction_t)
  (is_ip4 : bool) (acl : upf_acl_t) (active : rules) : outcome bool :=
  if negb (Bool.eqb is_ip4 (acl_is_ip4 acl)) then Ok false
  else if acl_match_teid acl && negb (teid =? acl_teid acl) then Ok false
  else if negb (acl_ue_ip_matches acl flow is_reverse is_ip4) then Ok false
  else obind (acl_ip_app_matches acl flow active) (fun ok =>
       if negb ok then Ok false else Ok (acl_5tuple_matches acl flow is_reverse)).

(** the loops over the ACLs: the first that matches *)
Fixpoint first_acl (teid : Z) (flow : flow_entry_t) (is_reverse : flow_direction_t) (is_ip4 : bool)
  (active : rules) (acls : list upf_acl_t) : outcome (option upf_acl_t) :=
  match acls with
  | [] => Ok None
  | acl :: acls =>
      obind (upf_acl_classify_one teid flow is_reverse is_ip4 acl active) (fun ok =>
      if ok then Ok (Some acl) else first_acl teid flow is_reverse is_ip4 active acls)
  end.
Definition acl_vec (active : rules) (is_ip4 : bool) : list upf_acl_t :=
  vec_elts (if is_ip4 then r_v4_acls active else r_v6_acls active).

(** the TEID of a direction, stored with the flow when the packet has one *)
Definition flow_use_teid (flow : flow_entry_t) (d : flow_direction_t) (teid : Z) : flow_entry_t * Z :=
  if negb (teid =? 0) then (set_flow_teid flow d teid, teid) else (flow, flow_teid flow d).
Definition flow_use_app (flow : flow_entry_t) (pdr : upf_pdr_t) : flow_entry_t :=
  if flag (pdi_fields (pdr_pdi pdr)) F_PDI_APPLICATION_ID
  then fe_set_application_id flow (adr_application_id (pdi_adr (pdr_pdi pdr))) else flow.

(** flow_next of both directions *)
Definition set_flow_nexts (flow : flow_entry_t) (origin reverse : Z) : flow_entry_t :=
  set_flow_next (set_flow_next flow FT_ORIGIN origin) FT_REVERSE reverse.

Definition is_tcp (flow : flow_entry_t) : bool := fk_proto (fe_key flow) =? IP_PROTOCOL_TCP.

(** The results are the next node, the PDR index of the packet, if one is
    stored, and the flow. *)
Definition upf_acl_classify_forward (teid : Z) (flow : flow_entry_t) (active : rules) (is_ip4 : bool)
  : outcome (Z * option Z * flow_entry_t) :=
  let reclassifying_proxy_flow := fe_is_l3_proxy flow in
  let '(flow, teid) := flow_use_teid flow FT_ORIGIN teid in
  let '(flow, next) :=
    if is_tcp flow && negb (r_proxy_pdr_idx active =? u32_none)
    then (set_flow_nexts (fe_set_l3_proxy flow true) FT_NEXT_PROXY FT_NEXT_CLASSIFY, UPF_CLASSIFY_NEXT_PROXY)
    else (set_flow_nexts (fe_set_l3_proxy flow false) FT_NEXT_DROP FT_NEXT_DROP, UPF_CLASSIFY_NEXT_DROP) in
  obind (first_acl teid flow (dir_xor FT_ORIGIN (fe_is_reverse flow)) is_ip4 active (acl_vec active is_ip4)) (fun o =>
  match o with
  | None => Ok (next, Some u32_none, flow)
  | Some acl =>
      obind (pdr_at active (acl_pdr_idx acl)) (fun pdr =>
      let flow := set_flow_pdr_id flow FT_ORIGIN (pdr_id pdr) in
      if negb (fe_is_l3_proxy flow) || (acl_precedence acl <=? r_proxy_precedence active) then
        let '(flow, next) :=
          if is_tcp flow && far_redirects active pdr then
            (set_flow_pdr_id (set_flow_nexts (fe_set_redirect (fe_set_l3_proxy flow true) true)
               FT_NEXT_PROXY FT_NEXT_CLASSIFY) FT_REVERSE (pdr_id pdr), UPF_CLASSIFY_NEXT_PROXY)
          else if reclassifying_proxy_flow then
            (set_flow_nexts (fe_set_l3_proxy flow true) FT_NEXT_PROXY FT_NEXT_CLASSIFY, UPF_CLASSIFY_NEXT_PROXY)
          else
            (set_flow_nexts (fe_set_l3_proxy flow false) FT_NEXT_PROCESS FT_NEXT_CLASSIFY, UPF_CLASSIFY_NEXT_PROCESS) in
        Ok (next, Some (acl_pdr_idx acl), flow_use_app flow pdr)
      else Ok (next, Some u32_none, flow))
  end).

Definition upf_acl_classify_proxied (teid : Z) (flow : flow_entry_t) (active : rules) (is_ip4 : bool)
  : outcome (Z * option Z * flow_entry_t) :=
  let '(flow, teid) := flow_use_teid flow FT_REVERSE teid in
  obind (first_acl teid flow (dir_xor FT_REVERSE (fe_is_reverse flow)) is_ip4 active (acl_vec active is_ip4)) (fun o =>
  match o with
  | None => Ok (UPF_CLASSIFY_NEXT_DROP, None, flow)
  | Some acl =>
      obind (pdr_at active (acl_pdr_idx acl)) (fun pdr =>
      let flow := if flow_pdr_id flow FT_REVERSE =? u32_none then set_flow_pdr_id flow FT_REVERSE (pdr_id pdr) else flow in
      Ok (UPF_CLASSIFY_NEXT_FORWARD, Some (acl_pdr_idx acl), flow_use_app flow pdr))
  end).

Definition upf_acl_classify_return (teid : Z) (flow : flow_entry_t) (active : rules) (is_ip4 : bool)
  : outcome (Z * option Z * flow_entry_t) :=
  let '(flow, teid) := flow_use_teid flow FT_REVERSE teid in
  obind (first_acl teid flow (dir_xor FT_REVERSE (fe_is_reverse flow)) is_ip4 active (acl_vec active is_ip4)) (fun o =>
  match o with
  | None => Ok (UPF_CLASSIFY_NEXT_DROP, None, flow)
  | Some acl =>
      obind (pdr_at active (acl_pdr_idx acl)) (fun pdr =>
      let flow := set_flow_pdr_id flow FT_REVERSE (pdr_id pdr) in
      let '(flow, next) :=
        if fe_is_l3_proxy flow then (set_flow_next flow FT_REVERSE FT_NEXT_PROXY, UPF_CLASSIFY_NEXT_PROXY)
        else (set_flow_next flow FT_REVERSE FT_NEXT_PROCESS, UPF_CLASSIFY_NEXT_PROCESS) in
      Ok (next, Some (acl_pdr_idx acl), flow_use_app flow pdr))
  end).

(** ** upf_classify_fn *)

(** what the node reads of a buffer *)
Record class_buf := mk_class_buf {
  cb_session_index : Z; cb_flow_id : Z; cb_is_reverse : flow_direction_t; cb_teid : Z; cb_is_proxied : bool;
  cb_pdr_idx : Z }.

(** the classification of a direction of the flow, the PDR index kept if none is stored *)
Definition classify_direction (is_ip4 : bool) (active : rules) (b : class_buf) (flow : flow_entry_t)
  (direction : flow_direction_t) : outcome (Z * Z * flow_entry_t) :=
  let reclassify_proxy_flow := fe_is_l3_proxy flow in
  let reverse teid flow := if cb_is_proxied b then upf_acl_classify_proxied teid flow active is_ip4
                           else upf_acl_classify_return teid flow active is_ip4 in
  match direction with
  | FT_ORIGIN =>
      obind (upf_acl_classify_forward (cb_teid b) flow active is_ip4) (fun '(next, idx, flow) =>
      obind (if reclassify_proxy_flow then obind (reverse 0 flow) (fun '(_, _, flow) => Ok flow) else Ok flow)
        (fun flow => Ok (next, default (cb_pdr_idx b) idx, flow)))
  | FT_REVERSE =>
      obind (if reclassify_proxy_flow
             then obind (upf_acl_classify_forward 0 flow active is_ip4) (fun '(_, _, flow) => Ok flow) else Ok flow)
        (fun flow => obind (reverse (cb_teid b) flow) (fun '(next, idx, flow) =>
                     Ok (next, default (cb_pdr_idx b) idx, flow)))
  end.

(** the assertions at the end of a turn *)
Definition proxy_has_pdr (flow : flow_entry_t) (d : flow_direction_t) : bool :=
  negb (flow_next flow d =? FT_NEXT_PROXY) || negb (flow_pdr_id flow d =? u32_none).

(** one packet of the loop, on its flow: the next node, the PDR index, the flow *)
Definition classify_flow (is_ip4 : bool) (active : rules) (b : class_buf) (flow : flow_entry_t)
  : outcome (Z * Z * flow_entry_t) :=
  let direction := if bool_decide (cb_is_reverse b = fe_is_reverse flow) then FT_ORIGIN else FT_REVERSE in
  obind (if negb (flow_next flow direction =? FT_NEXT_CLASSIFY)
         then obind (upf_classify_flow_next (flow_next flow direction)) (fun next =>
              Ok (next, flow_pdr_idx flow direction active, flow))
         else classify_direction is_ip4 active b flow direction) (fun '(next, idx, flow) =>
  obind (if fe_app_detection_done flow then
           obind (upf_application_detection None flow active) (fun r =>
           match r with
           | inr (true, flow) => Ok (flow_pdr_idx flow direction active, flow)
           | _ => Fault Assertion
           end)
         else Ok (idx, flow)) (fun '(idx, flow) =>
  assert (proxy_has_pdr flow FT_ORIGIN && proxy_has_pdr flow FT_REVERSE) (Ok (next, idx, flow)))).

(** the loop over a frame: the next node and the PDR index of every packet *)
Fixpoint upf_classify_fn (is_ip4 : bool) (sessions : pool upf_session_t) (flows : pool flow_entry_t)
  (bs : list class_buf) : outcome (list (Z * Z) * pool flow_entry_t) :=
  match bs with
  | [] => Ok ([], flows)
  | b :: bs =>
      match pool_elt sessions (cb_session_index b), pool_elt flows (cb_flow_id b) with
      | Some sess, Some flow =>
          obind (classify_flow is_ip4 (pfcp_get_rules sess PFCP_ACTIVE) b flow) (fun '(next, idx, flow) =>
          obind (upf_classify_fn is_ip4 sessions (pool_set flows (cb_flow_id b) flow) bs) (fun '(os, flows) =>
          Ok ((next, idx) :: os, flows)))
      | _, _ => Fault BadIndex
      end
  end.
End Classify.

(** ** What a filter means

    The reference: prefixes compared bit by bit, ranges of ports, and source
    and destination of the filter swapped for uplink packets. *)

Definition same_prefix (w : Z) (a b : list Z) : bool :=
  forallb (fun k => Bool.eqb (addr_bit a k) (addr_bit b k)) (seqZ 0 w).

Lemma same_prefix_iff w a b :
  same_prefix w a b = true <-> forall k, 0 <= k < w -> addr_bit a k = addr_bit b k.
Proof.
  unfold same_prefix. rewrite forallb_forall. split.
  - intros Hk k Hr. apply eqb_prop, Hk, list_elem_of_In, elem_of_seqZ. lia.
  - intros Hk k Hin%list_elem_of_In%elem_of_seqZ. rewrite Hk by lia. apply eqb_reflx.
Qed.

Definition filter_address_matches (is_ip4 : bool) (pdr : upf_pdr_t) (addr : ipfilter_address_t) (ip : list Z) : bool :=
  let ue := pdi_ue_addr (pdr_pdi pdr) in
  if acl_addr_is_any addr then true
  else if acl_addr_is_assigned addr then
    if negb (flag (pdi_fields (pdr_pdi pdr)) F_PDI_UE_IP_ADDR) then true
    else if is_ip4 then negb (flag (ue_flags ue) IE_UE_IP_ADDRESS_V4) || same_prefix 32 (ip46_ip4 ip) (ue_ip4 ue)
    else negb (flag (ue_flags ue) IE_UE_IP_ADDRESS_V6) || same_prefix 64 ip (ue_ip6 ue)
  else if is_ip4 then same_prefix (fa_mask addr) (ip46_ip4 ip) (ip46_ip4 (fa_address addr))
  else same_prefix (fa_mask addr) ip (fa_address addr).

Definition filter_port_matches (p : ipfilter_port_t) (port : Z) : bool := (fp_min p <=? port) && (port <=? fp_max p).

Definition is_uplink (pdr : upf_pdr_t) : bool := pdi_src_intf (pdr_pdi pdr) =? SRC_INTF_ACCESS.

(** a filter against a packet from [src] to [dst] *)
Definition filter_matches (is_ip4 : bool) (pdr : upf_pdr_t) (rule : acl_rule_t) (proto : Z)
  (src : list Z) (sport : Z) (dst : list Z) (dport : Z) : bool :=
  ((ar_proto rule =? 255) || (proto =? ar_proto rule))
  && (if is_uplink pdr
      then filter_address_matches is_ip4 pdr (ar_src rule) dst && filter_address_matches is_ip4 pdr (ar_dst rule) src
           && filter_port_matches (ar_src_port rule) dport && filter_port_matches (ar_dst_port rule) sport
      else filter_address_matches is_ip4 pdr (ar_src rule) src && filter_address_matches is_ip4 pdr (ar_dst rule) dst
           && filter_port_matches (ar_src_port rule) sport && filter_port_matches (ar_dst_port rule) dport).

(** *** Masks and prefixes *)

Lemma equal_masked_iff a b m :
  ip_bytes a -> ip_bytes b -> ip_bytes m ->
  ip46_address_is_equal_masked a b m = true
  <-> forall k, 0 <= k < 128 -> addr_bit m k = true -> addr_bit a k = addr_bit b k.
Proof.
  intros Ha Hb Hm. rewrite <- (masked_words_iff a b m Ha Hb Hm). unfold ip46_address_is_equal_masked. simpl.
  rewrite andb_true_r, andb_true_iff, !Z.eqb_eq. split.
  - intros [H0 H1] j [-> | ->]; done.
  - intros Hj. split; apply Hj; auto.
Qed.

Lemma equal_masked_prefix w a b m :
  0 <= w <= 128 -> is_mask 16 w m -> ip_bytes a -> ip_bytes b ->
  ip46_address_is_equal_masked a b m = same_prefix w a b.
Proof.
  intros Hw [Hl Hb Hk] Ha Hb'. apply eq_bool_prop_intro. rewrite !Is_true_true.
  rewrite equal_masked_iff, same_prefix_iff; [|done|done|by split]. split.
  - intros E k Hr. apply E; [lia|]. rewrite Hk by lia. apply Z.ltb_lt. lia.
  - intros E k Hr Hbit. rewrite Hk in Hbit by lia. btest. apply E. lia.
Qed.

Lemma set_ip4_bytes m : length m = 4%nat -> Forall is_byte m -> ip_bytes (ip46_address_set_ip4 m).
Proof.
  intros Hl Hb. unfold ip46_address_set_ip4. split; [by rewrite length_app, Hl|].
  apply Forall_app. split; [by apply bytes_check|done].
Qed.

Lemma addr_bit_ip4 a k : 96 <= k -> addr_bit a k = addr_bit (ip46_ip4 a) (k - 96).
Proof.
  intros Hk. unfold addr_bit, ip46_ip4. rewrite !nth_lookup, lookup_drop.
  assert ((k - 96) / 8 = k / 8 - 12) as -> by (replace (k - 96) with (k + (-12) * 8) by lia; rewrite Z.div_add by lia; lia).
  assert ((k - 96) mod 8 = k mod 8) as -> by (replace (k - 96) with (k + (-12) * 8) by lia; by rewrite Z.mod_add by lia).
  assert (12 <= k / 8) by (apply Z.div_le_lower_bound; lia).
  replace (12 + Z.to_nat (k / 8 - 12))%nat with (Z.to_nat (k / 8)) by lia. done.
Qed.

Lemma set_ip4_ip4 m : ip46_ip4 (ip46_address_set_ip4 m) = m.
Proof. done. Qed.

Lemma set_ip4_low_bit m k : 0 <= k < 96 -> addr_bit (ip46_address_set_ip4 m) k = false.
Proof.
  intros Hk. unfold addr_bit, ip46_address_set_ip4.
  assert (0 <= k / 8 < 12) by (split; [apply Z.div_pos|apply Z.div_lt_upper_bound]; lia).
  rewrite nth_lookup, lookup_app_l by (simpl; lia).
  assert (forall n, (n < 12)%nat -> default 0 ([0; 0; 0; 0; 0; 0; 0; 0; 0; 0; 0; 0] !! n) = 0) as Hz
    by (intros n Hn; do 12 (destruct n as [|n]; [done|]); lia).
  rewrite Hz by lia. apply Z.bits_0.
Qed.

Lemma equal_masked_prefix4 w a b m :
  0 <= w <= 32 -> is_mask 4 w m -> ip_bytes a -> ip_bytes b ->
  ip46_address_is_equal_masked a b (ip46_address_set_ip4 m) = same_prefix w (ip46_ip4 a) (ip46_ip4 b).
Proof.
  intros Hw [Hl Hb Hk] Ha Hb'. apply eq_bool_prop_intro. rewrite !Is_true_true.
  rewrite equal_masked_iff, same_prefix_iff; [|done|done|by apply set_ip4_bytes]. split.
  - intros E k Hr. specialize (E (k + 96) ltac:(lia)). rewrite (addr_bit_ip4 a), (addr_bit_ip4 b), (addr_bit_ip4 (ip46_address_set_ip4 m)), set_ip4_ip4 in E by lia.
    replace (k + 96 - 96) with k in E by lia. apply E. rewrite Hk by lia. apply Z.ltb_lt. lia.
  - intros E k Hr Hbit. destruct (Z.lt_ge_cases k 96) as [Hlt|Hge]; [by rewrite set_ip4_low_bit in Hbit by lia|].
    rewrite addr_bit_ip4, set_ip4_ip4, Hk in Hbit by lia. btest. rewrite (addr_bit_ip4 a), (addr_bit_ip4 b) by lia. apply E. lia.
Qed.

(** *** Compiling a filter *)

Definition addr_ok (is_ip4 : bool) (a : ipfilter_address_t) : Prop :=
  ip_bytes (fa_address a) /\ 0 <= fa_mask a
  /\ (acl_addr_is_any a || acl_addr_is_assigned a || (fa_mask a <=? if is_ip4 then 32 else 128)) = true.
Definition rule_ok (is_ip4 : bool) (rule : acl_rule_t) : Prop :=
  addr_ok is_ip4 (ar_src rule) /\ addr_ok is_ip4 (ar_dst rule) /\ in_range 8 (ar_proto rule) = true.
Definition ue_ok (pdr : upf_pdr_t) : Prop :=
  let ue := pdi_ue_addr (pdr_pdi pdr) in
  length (ue_ip4 ue) = 4%nat /\ Forall is_byte (ue_ip4 ue) /\ ip_bytes (ue_ip6 ue).

Lemma rule_ok_address is_ip4 rule f : rule_ok is_ip4 rule -> addr_ok is_ip4 (rule_address rule f).
Proof. intros (H1 & H2 & _). by destruct f. Qed.

Lemma ip6_zero_bytes : ip_bytes ip6_zero.
Proof. split; [done|by apply bytes_check]. Qed.

Lemma equal_masked_zero a : ip_bytes a -> ip46_address_is_equal_masked a ip6_zero ip6_zero = true.
Proof.
  intros Ha. apply equal_masked_iff; [done|apply ip6_zero_bytes..|]. intros k Hk Hb. exfalso.
  revert Hb. unfold addr_bit. rewrite nth_lookup.
  assert (0 <= k / 8 < 16) by (split; [apply Z.div_pos|apply Z.div_lt_upper_bound]; lia).
  unfold ip6_zero. rewrite lookup_replicate_2 by lia. simpl. by rewrite Z.bits_0.
Qed.

Section CompileOk.
Context {M : IpMasks} {MOk : IpMasksOk M}.

Lemma ip6_mask_eq w : 0 <= w <= 128 -> ip6_mask w = Ok (ip6_mask_from_width w).
Proof. intros Hw. unfold ip6_mask, assert. by rewrite (proj2 (Z.leb_le _ _)) by lia. Qed.

(** one address of a filter becomes a value and a mask that mean the same *)
Lemma ip_assign_address_ok dst src is_ip4 pdr rule acl :
  addr_ok is_ip4 (rule_address rule src) -> ue_ok pdr ->
  t5_address (acl_match acl) dst = ip6_zero -> t5_address (acl_mask acl) dst = ip6_zero ->
  exists ip mask, ip_assign_address dst src is_ip4 pdr rule acl
    = Ok (acl_set_sdf acl (acl_match_sdf acl) (t5_set_address (acl_mask acl) dst mask)
            (t5_set_address (acl_match acl) dst ip))
  /\ forall a, ip_bytes a ->
       ip46_address_is_equal_masked a ip mask = filter_address_matches is_ip4 pdr (rule_address rule src) a.
Proof using MOk.
  intros (Hb & Hm0 & Hm) (Hu4 & Hu4b & Hu6) E1 E2. unfold ip_assign_address. rewrite E1, E2.
  set (addr := rule_address rule src) in *. unfold filter_address_matches.
  destruct (acl_addr_is_any addr).
  { exists ip6_zero, ip6_zero. split; [done|]. apply equal_masked_zero. }
  destruct (acl_addr_is_assigned addr).
  { unfold acl_set_ue_ip. destruct (flag (pdi_fields (pdr_pdi pdr)) F_PDI_UE_IP_ADDR); cbn [negb].
    2: { exists ip6_zero, ip6_zero. split; [done|]. apply equal_masked_zero. }
    destruct is_ip4; cbn [andb negb].
    - destruct (flag (ue_flags _) IE_UE_IP_ADDRESS_V4); cbn [andb negb orb].
      2: { exists ip6_zero, ip6_zero. split; [done|]. apply equal_masked_zero. }
      destruct (ip4_mask_ok 32) as (m & -> & Hmask); [lia|]. cbn [obind]. eexists _, _. split; [done|].
      intros a Ha. rewrite (equal_masked_prefix4 32); [done|lia|done|done|by apply set_ip4_bytes].
    - destruct (flag (ue_flags _) IE_UE_IP_ADDRESS_V6); cbn [andb negb orb].
      2: { exists ip6_zero, ip6_zero. split; [done|]. apply equal_masked_zero. }
      rewrite ip6_mask_eq by lia. cbn [obind]. eexists _, _. split; [done|].
      intros a Ha. apply equal_masked_prefix; [lia|by apply ip6_mask_ok|done..]. }
  cbn [orb] in Hm. destruct is_ip4; apply Z.leb_le in Hm.
  - destruct (ip4_mask_ok (fa_mask addr)) as (m & -> & Hmask); [lia|]. cbn [obind]. eexists _, _. split; [done|].
    intros a Ha. by apply equal_masked_prefix4.
  - rewrite ip6_mask_eq by lia. cbn [obind]. eexists _, _. split; [done|].
    intros a Ha. apply equal_masked_prefix; [lia|apply ip6_mask_ok; lia|done..].
Qed.

(** what is compared of a flow *)
Definition flow_ok (flow : flow_entry_t) : Prop :=
  in_range 8 (fk_proto (fe_key flow)) = true /\ forall d, ip_bytes (order_get (fk_ip (fe_key flow)) d).

Definition compile_fields (acl acl' : upf_acl_t) : Prop :=
  acl_precedence acl' = acl_precedence acl /\ acl_is_ip4 acl' = acl_is_ip4 acl
  /\ acl_match_teid acl' = acl_match_teid acl /\ acl_match_ue_ip acl' = acl_match_ue_ip acl
  /\ acl_match_ip_app acl' = acl_match_ip_app acl /\ acl_teid acl' = acl_teid acl
  /\ acl_ue_ip acl' = acl_ue_ip acl /\ acl_pdr_idx acl' = acl_pdr_idx acl.

Lemma proto_masked p r :
  in_range 8 p = true -> in_range 8 r = true -> (Z.land p 255 =? Z.land r 255) = (p =? r).
Proof. intros Hp Hr. by rewrite !(land_mask_small 8 _ 255) by done. Qed.

Lemma compile_sdf_ok is_ip4 pdr rule acl :
  rule_ok is_ip4 rule -> ue_ok pdr -> flag (pdi_fields (pdr_pdi pdr)) F_PDI_SDF_FILTER = true ->
  acl_mask acl = t5_zero -> acl_match acl = t5_zero ->
  exists acl', compile_sdf is_ip4 pdr rule acl = Ok acl' /\ compile_fields acl acl'
  /\ forall flow rev, flow_ok flow ->
       acl_5tuple_matches acl' flow rev
       = filter_matches is_ip4 pdr rule (fk_proto (fe_key flow)) (flow_ip flow rev FT_ORIGIN)
           (flow_port flow rev FT_ORIGIN) (flow_ip flow rev FT_REVERSE) (flow_port flow rev FT_REVERSE).
Proof using MOk.
  intros Hr Hu Hf E1 E2. pose proof Hr as (_ & _ & Hp). unfold compile_sdf, assert. rewrite Hf, E1, E2.
  set (acl1 := if ar_proto rule =? 255 then _ else _).
  assert (compile_fields acl acl1 /\ t5_src (acl_mask acl1) = ip6_zero /\ t5_dst (acl_mask acl1) = ip6_zero
    /\ t5_src (acl_match acl1) = ip6_zero /\ t5_dst (acl_match acl1) = ip6_zero
    /\ forall p, in_range 8 p = true ->
       (Z.land p (t5_protocol (acl_mask acl1)) =? Z.land (t5_protocol (acl_match acl1)) (t5_protocol (acl_mask acl1)))
       = ((ar_proto rule =? 255) || (p =? ar_proto rule))) as (Hc & M1 & M2 & A1 & A2 & Hpr).
  { unfold acl1. destruct (Z.eqb_spec (ar_proto rule) 255) as [Ep|Ep]; (split; [by repeat split|]); repeat (split; [done|]);
      intros p Hpp; cbn [acl_mask acl_match acl_set_sdf t5_protocol t5_set_protocol t5_zero orb].
    - by rewrite !Z.land_0_r.
    - by apply proto_masked. }
  clearbody acl1. unfold filter_matches, is_uplink.
  destruct (pdi_src_intf (pdr_pdi pdr) =? SRC_INTF_ACCESS).
  - destruct (ip_assign_address_ok FIELD_DST FIELD_SRC is_ip4 pdr rule acl1) as (ip1 & mask1 & -> & Hm1);
      [by apply rule_ok_address|done..|]. cbn [obind].
    destruct (ip_assign_address_ok FIELD_SRC FIELD_DST is_ip4 pdr rule
      (acl_set_sdf acl1 (acl_match_sdf acl1) (t5_set_address (acl_mask acl1) FIELD_DST mask1)
         (t5_set_address (acl_match acl1) FIELD_DST ip1))) as (ip2 & mask2 & -> & Hm2);
      [by apply rule_ok_address|done..|]. cbn [obind].
    eexists. split; [done|]. split; [done|]. intros flow rev (Hfp & Hfi).
    unfold acl_5tuple_matches, acl_ip46_is_equal_masked, acl_port_in_range, ip_assign_port, filter_port_matches.
    cbn [acl_mask acl_match acl_set_sdf t5_protocol t5_set_address t5_set_port t5_address t5_src t5_dst t5_port
         t5_src_port t5_dst_port rule_port].
    rewrite Hpr, Hm1, Hm2 by (done || apply Hfi). cbn [rule_address]. btauto.
  - destruct (ip_assign_address_ok FIELD_SRC FIELD_SRC is_ip4 pdr rule acl1) as (ip1 & mask1 & -> & Hm1);
      [by apply rule_ok_address|done..|]. cbn [obind].
    destruct (ip_assign_address_ok FIELD_DST FIELD_DST is_ip4 pdr rule
      (acl_set_sdf acl1 (acl_match_sdf acl1) (t5_set_address (acl_mask acl1) FIELD_SRC mask1)
         (t5_set_address (acl_match acl1) FIELD_SRC ip1))) as (ip2 & mask2 & -> & Hm2);
      [by apply rule_ok_address|done..|]. cbn [obind].
    eexists. split; [done|]. split; [done|]. intros flow rev (Hfp & Hfi).
    unfold acl_5tuple_matches, acl_ip46_is_equal_masked, acl_port_in_range, ip_assign_port, filter_port_matches.
    cbn [acl_mask acl_match acl_set_sdf t5_protocol t5_set_address t5_set_port t5_address t5_src t5_dst t5_port
         t5_src_port t5_dst_port rule_port].
    rewrite Hpr, Hm1, Hm2 by (done || apply Hfi). cbn [rule_address]. btauto.
Qed.
End CompileOk.

(** ** Compiled filters *)

(** the addresses of an IPv4 flow are IPv4 addresses *)
Definition flow_family (is_ip4 : bool) (flow : flow_entry_t) : Prop :=
  is_ip4 = true -> forall d, order_get (fk_ip (fe_key flow)) d
                             = ip46_address_set_ip4 (ip46_ip4 (order_get (fk_ip (fe_key flow)) d)).

Definition teid_matches (pdr : upf_pdr_t) (teid : Z) : bool :=
  negb (flag (pdi_fields (pdr_pdi pdr)) F_PDI_LOCAL_F_TEID) || (teid =? ft_teid (pdi_teid (pdr_pdi pdr))).

(** the first 64 bits of the UE address, for IPv6 only *)
Definition ue_matches (is_ip4 : bool) (pdr : upf_pdr_t) (flow : flow_entry_t) (rev : flow_direction_t) : bool :=
  let ue := pdi_ue_addr (pdr_pdi pdr) in
  if flag (pdi_fields (pdr_pdi pdr)) F_PDI_UE_IP_ADDR && negb is_ip4 && flag (ue_flags ue) IE_UE_IP_ADDRESS_V6
  then same_prefix 64 (ue_ip6 ue) (flow_ip flow rev (if is_uplink pdr then FT_ORIGIN else FT_REVERSE))
  else true.

Section Compiled.
Context {F : AppFib} {M : IpMasks} {MOk : IpMasksOk M} (db : pool upf_adf_entry_t).

(** two IPv4 addresses are equal under the first 32 bits of an IPv6 mask *)
Lemma equal_masked_ip4_any a b :
  length a = 4%nat -> Forall is_byte a -> length b = 4%nat -> Forall is_byte b ->
  ip46_address_is_equal_masked (ip46_address_set_ip4 a) (ip46_address_set_ip4 b) (ip6_fib_masks 32) = true.
Proof using MOk.
  intros La Ba Lb Bb. rewrite (equal_masked_prefix 32); [|lia|by apply ip6_fib_masks_ok|by apply set_ip4_bytes..].
  apply same_prefix_iff. intros k Hk. by rewrite !set_ip4_low_bit by lia.
Qed.

Lemma ip_bytes_ip4 a : ip_bytes a -> length (ip46_ip4 a) = 4%nat /\ Forall is_byte (ip46_ip4 a).
Proof. intros [Hl Hb]. unfold ip46_ip4. split; [by rewrite length_drop, Hl|by apply Forall_drop]. Qed.

Lemma ue_ip_test_ip4 acl flow rev a :
  flow_ok flow -> flow_family true flow -> length a = 4%nat -> Forall is_byte a ->
  acl_ue_ip acl = ip46_address_set_ip4 a -> acl_ue_ip_matches acl flow rev true = true.
Proof using MOk.
  intros [_ Hi] Hfam La Ba E. unfold acl_ue_ip_matches, flow_ip. rewrite E.
  repeat case_test; try done; rewrite (Hfam eq_refl); apply equal_masked_ip4_any; try done; by apply ip_bytes_ip4.
Qed.


(** For IPv4 the UE address of a PDR is not compared: the mask is the IPv6
    mask of 32 bits, which covers the padding in front of an IPv4 address and
    none of its octets, so an ACL matches the same flows whatever its UE
    address is. *)
Theorem ue_ip4_not_compared teid flow rev acl active dir a b :
  flow_ok flow -> flow_family true flow -> acl_match_ip_app acl = false ->
  length a = 4%nat -> Forall is_byte a -> length b = 4%nat -> Forall is_byte b ->
  upf_acl_classify_one db teid flow rev true (acl_set_ue acl dir (ip46_address_set_ip4 a)) active
  = upf_acl_classify_one db teid flow rev true (acl_set_ue acl dir (ip46_address_set_ip4 b)) active.
Proof using MOk.
  intros Hfl Hfam Happ La Ba Lb Bb. unfold upf_acl_classify_one, acl_ip_app_matches.
  rewrite (ue_ip_test_ip4 (acl_set_ue acl dir (ip46_address_set_ip4 a)) flow rev a Hfl Hfam La Ba eq_refl),
    (ue_ip_test_ip4 (acl_set_ue acl dir (ip46_address_set_ip4 b)) flow rev b Hfl Hfam Lb Bb eq_refl).
  cbn [acl_is_ip4 acl_match_teid acl_teid acl_match_ip_app acl_set_ue]. by rewrite Happ.
Qed.
End Compiled.

(** ** The order of the ACLs *)

Lemma acl_bytes_length a : length (acl_bytes a) = 108%nat.
Proof.
  unfold acl_bytes, t5_bytes, ip_octets. rewrite !length_app, !length_le, !length_resize. reflexivity.
Qed.

#[export] Instance upf_acl_cmp_compar : Compar upf_acl_cmp.
Proof. exact (memcmp_compar 108 acl_bytes acl_bytes_length). Qed.

(** the first octet compared is the least significant one of the precedence *)
Lemma upf_acl_cmp_first a b :
  acl_precedence a mod 256 <> acl_precedence b mod 256 ->
  upf_acl_cmp a b = intcmp (acl_precedence a mod 256) (acl_precedence b mod 256).
Proof.
  intros Hne. unfold upf_acl_cmp, acl_bytes.
  assert (forall p, exists l, le 4 p = p mod 256 :: l) as Hle.
  { intros p. exists [(p / 256 ^ 1) mod 256; (p / 256 ^ 2) mod 256; (p / 256 ^ 3) mod 256].
    change (le 4 p) with [(p / 256 ^ 0) mod 256; (p / 256 ^ 1) mod 256; (p / 256 ^ 2) mod 256; (p / 256 ^ 3) mod 256].
    change (256 ^ 0) with 1. by rewrite Z.div_1_r. }
  destruct (Hle (acl_precedence a)) as [la ->], (Hle (acl_precedence b)) as [lb ->]. cbn [app memcmp].
  by rewrite (proj2 (Z.eqb_neq _ _) Hne).
Qed.

Definition small_precedence (a : upf_acl_t) : Prop := 0 <= acl_precedence a < 256.

Lemma upf_acl_cmp_small a b :
  small_precedence a -> small_precedence b -> upf_acl_cmp a b <= 0 -> acl_precedence a <= acl_precedence b.
Proof.
  unfold small_precedence. intros Ha Hb Hle. destruct (Z.eq_dec (acl_precedence a) (acl_precedence b)); [lia|].
  rewrite upf_acl_cmp_first in Hle; rewrite (Z.mod_small (acl_precedence a)), (Z.mod_small (acl_precedence b)) in * by lia; [|done].
  by apply intcmp_le.
Qed.

Section Best.
Context {F : AppFib} {M : IpMasks} (db : pool upf_adf_entry_t).
Context (teid : Z) (flow : flow_entry_t) (rev : flow_direction_t) (is_ip4 : bool) (active : rules).

Definition acl_hits (acl : upf_acl_t) : Prop := upf_acl_classify_one db teid flow rev is_ip4 acl active = Ok true.

Lemma first_acl_Some l acl :
  first_acl db teid flow rev is_ip4 active l = Ok (Some acl) ->
  exists l1 l2, l = l1 ++ acl :: l2 /\ acl_hits acl /\ Forall (fun a => ~ acl_hits a) l1.
Proof.
  unfold acl_hits. induction l as [|a l IH]; cbn [first_acl]; [done|].
  destruct (upf_acl_classify_one db teid flow rev is_ip4 a active) as [[]| |] eqn:E; cbn [obind]; [| |done..].
  - intros [= <-]. exists [], l. by repeat split.
  - intros Hl. destruct (IH Hl) as (l1 & l2 & -> & Hh & Hn). exists (a :: l1), l2. split; [done|]. split; [done|].
    constructor; [congruence|done].
Qed.

Lemma first_acl_None l :
  first_acl db teid flow rev is_ip4 active l = Ok None -> Forall (fun a => ~ acl_hits a) l.
Proof.
  unfold acl_hits. induction l as [|a l IH]; cbn [first_acl]; [by constructor|].
  destruct (upf_acl_classify_one db teid flow rev is_ip4 a active) as [[]| |] eqn:E; cbn [obind]; [done| |done..].
  intros Hl. constructor; [congruence|by apply IH].
Qed.

(** C37. When the precedences of a session are below 256, the classifier picks,
    of all ACLs that match a packet, one with the best precedence, in whatever
    order the PDRs were created, and picks none only when none matches. *)
Theorem classify_best_precedence {S : VecSort} {SOk : VecSortOk S} acls o :
  Forall small_precedence acls ->
  first_acl db teid flow rev is_ip4 active (vec_sort_with_function upf_acl_cmp acls) = Ok o ->
  match o with
  | Some acl => acl ∈ acls /\ acl_hits acl
                /\ forall acl', acl' ∈ acls -> acl_hits acl' -> acl_precedence acl <= acl_precedence acl'
  | None => forall acl', acl' ∈ acls -> ~ acl_hits acl'
  end.
Proof.
  intros Hs Hf. pose proof (vec_sort_perm upf_acl_cmp acls) as Hp.
  pose proof (vec_sort_sorted upf_acl_cmp acls _) as Hsort. set (l := vec_sort_with_function _ _) in *. clearbody l.
  destruct o as [acl|].
  - destruct (first_acl_Some _ _ Hf) as (l1 & l2 & -> & Hh & Hn).
    split; [rewrite <- Hp; apply elem_of_app; right; by left|]. split; [done|].
    intros acl' Hin Hh'. rewrite <- Hp in Hin, Hs. apply elem_of_app in Hin as [Hin|[->|Hin]%elem_of_cons]; [|lia|].
    + rewrite Forall_forall in Hn. by apply Hn in Hin.
    + apply Forall_app in Hs as [_ [Ha Hr]%Forall_cons]. rewrite Forall_forall in Hr.
      apply upf_acl_cmp_small; [done|by apply Hr|]. clear Hf Hp Hn. induction l1 as [|x l1 IH]; simpl in Hsort.
      * apply StronglySorted_inv in Hsort as [_ Hall]. rewrite Forall_forall in Hall. by apply Hall.
      * apply StronglySorted_inv in Hsort as [Hsort _]. by apply IH.
  - apply first_acl_None in Hf. intros acl' Hin. rewrite <- Hp in Hin. rewrite Forall_forall in Hf. by apply Hf.
Qed.
End Best.

(** Above 255 the order of the ACLs is not that of the precedences: the
    comparison is by the octets of a little-endian integer, so every precedence
    that is a multiple of 256 comes before every one from 1 to 255. *)
Theorem precedence_order_by_octets a b :
  acl_precedence a mod 256 = 0 -> 0 < acl_precedence b < 256 -> upf_acl_cmp a b < 0.
Proof.
  intros Ha Hb. rewrite upf_acl_cmp_first; rewrite Ha, Z.mod_small by lia; [|lia].
  unfold intcmp. by rewrite (proj2 (Z.ltb_lt _ _)) by lia.
Qed.

(** ** Classifying a flow *)

Lemma flow_next_nexts f a b d :
  flow_next (set_flow_nexts f a b) d = match d with FT_ORIGIN => a | FT_REVERSE => b end.
Proof. destruct f as [? ? [] ? ? ? ? ? ? ? ? ? ? ? ? ? ? ? ? ? ? ? ? ?], d; reflexivity. Qed.

Lemma flow_pdr_id_set f d x d' :
  flow_pdr_id (set_flow_pdr_id f d x) d' = if bool_decide (d = d') then x else flow_pdr_id f d'.
Proof. destruct f as [? ? [] ? ? ? ? ? ? ? ? ? ? ? ? ? ? ? ? ? ? ? ? ?], d, d'; reflexivity. Qed.

Lemma use_app_flow f pdr :
  (forall d, flow_next (flow_use_app f pdr) d = flow_next f d)
  /\ (forall d, flow_pdr_id (flow_use_app f pdr) d = flow_pdr_id f d)
  /\ fe_is_reverse (flow_use_app f pdr) = fe_is_reverse f
  /\ fe_app_detection_done (flow_use_app f pdr) = fe_app_detection_done f.
Proof. unfold flow_use_app. destruct (flag _ _); repeat split. Qed.

Section Stable.
Context {F : AppFib} {M : IpMasks} {H : AdfLookup} (db : pool upf_adf_entry_t).

(** the members of the flow that an ACL is compared with are not stored to *)
Lemma first_acl_key teid f f' rev is_ip4 active l :
  fe_key f' = fe_key f -> fe_is_reverse f' = fe_is_reverse f ->
  first_acl db teid f' rev is_ip4 active l = first_acl db teid f rev is_ip4 active l.
Proof.
  intros Hk Hr. induction l as [|a l IH]; cbn [first_acl]; [done|]. rewrite IH. f_equal.
  unfold upf_acl_classify_one, acl_ue_ip_matches, acl_ip_app_matches, acl_5tuple_matches, flow_ip, flow_port,
    upf_app_ip_rule_match, upf_app_dpo_match. by rewrite Hk, Hr.
Qed.

(** the index of a PDR that is found by its id *)
Lemma flow_pdr_idx_found active f d pdr idx :
  sorted_by_id pdr_id (vec_elts (r_pdr active)) -> pdr_at active idx = Ok pdr -> 0 <= idx ->
  0 <= pdr_id pdr < u32_none -> flow_pdr_id f d = pdr_id pdr -> flow_pdr_idx f d active = idx.
Proof.
  intros Hs Hp Hi Hid E. unfold flow_pdr_idx. rewrite E. rewrite (proj2 (Z.eqb_neq _ _)) by lia.
  unfold pdr_at in Hp. destruct (vec_elts (r_pdr active) !! Z.to_nat idx) as [p|] eqn:El; [|done].
  injection Hp as ->.
  assert (pfcp_get_by_id (T := upf_pdr_t) active (pdr_id pdr) = Some (Z.to_nat idx)) as ->; [|lia].
  apply (get_by_id_found (T := upf_pdr_t)); [exact Hs|]. exists pdr. split; [done|]. symmetry.
  apply wrap_small, in_range_spec. unfold u32_none in Hid. simpl. lia.
Qed.

(** what a forward classification without a proxy leaves *)
Lemma classify_forward_cases teid flow active is_ip4 next o flow' :
  fe_is_l3_proxy flow = false -> r_proxy_pdr_idx active = u32_none -> flow_pdr_id flow FT_ORIGIN = u32_none ->
  upf_acl_classify_forward db teid flow active is_ip4 = Ok (next, o, flow') ->
  fe_is_reverse flow' = fe_is_reverse flow /\ fe_app_detection_done flow' = fe_app_detection_done flow
  /\ ((o = Some u32_none /\ next = UPF_CLASSIFY_NEXT_DROP /\ flow_next flow' FT_ORIGIN = FT_NEXT_DROP
       /\ flow_pdr_id flow' FT_ORIGIN = u32_none)
      \/ exists acl pdr, acl ∈ acl_vec active is_ip4 /\ pdr_at active (acl_pdr_idx acl) = Ok pdr
         /\ o = Some (acl_pdr_idx acl) /\ flow_pdr_id flow' FT_ORIGIN = pdr_id pdr
         /\ (next = UPF_CLASSIFY_NEXT_PROXY /\ flow_next flow' FT_ORIGIN = FT_NEXT_PROXY
             \/ next = UPF_CLASSIFY_NEXT_PROCESS /\ flow_next flow' FT_ORIGIN = FT_NEXT_PROCESS)).
Proof.
  intros Hl3 Hpx Hid. unfold upf_acl_classify_forward. rewrite Hl3, Hpx, Z.eqb_refl. change (negb true) with false.
  destruct (flow_use_teid flow FT_ORIGIN teid) as [f1 t1] eqn:Et. rewrite andb_false_r.
  assert (fe_is_reverse f1 = fe_is_reverse flow /\ fe_app_detection_done f1 = fe_app_detection_done flow
    /\ flow_pdr_id f1 FT_ORIGIN = u32_none) as (R1 & R2 & R3).
  { unfold flow_use_teid in Et. destruct (negb (teid =? 0)); injection Et as <- _; by repeat split. }
  clear Et Hid Hl3. cbv iota. set (f2 := set_flow_nexts (fe_set_l3_proxy f1 false) FT_NEXT_DROP FT_NEXT_DROP).
  destruct (first_acl _ _ _ _ _ _ _) as [[acl|]| |] eqn:Ef; cbn [obind]; [| |done..].
  - destruct (first_acl_Some _ _ _ _ _ _ _ _ Ef) as (l1 & l2 & El & _).
    destruct (pdr_at active (acl_pdr_idx acl)) as [pdr| |] eqn:Ep; cbn [obind]; [|done..].
    change (fe_is_l3_proxy (set_flow_pdr_id f2 FT_ORIGIN (pdr_id pdr))) with false. cbn [negb orb].
    assert (acl ∈ acl_vec active is_ip4) as Hin by (rewrite El; apply elem_of_app; right; by left).
    destruct (is_tcp _ && far_redirects active pdr); intros [= <- <- <-];
      match goal with |- context [flow_use_app ?f ?p] => destruct (use_app_flow f p) as (U1 & U2 & U3 & U4) end;
      rewrite U3, U4; (split; [exact R1|]); (split; [exact R2|]); right; exists acl, pdr; (split; [done|]); (split; [done|]);
      (split; [done|]); rewrite U1, U2;
      (split; [transitivity (flow_pdr_id (set_flow_pdr_id f2 FT_ORIGIN (pdr_id pdr)) FT_ORIGIN);
               [first [reflexivity|by rewrite flow_pdr_id_set]|by rewrite flow_pdr_id_set]|]).
    + left. split; [done|]. exact (flow_next_nexts _ _ _ FT_ORIGIN).
    + right. split; [done|]. exact (flow_next_nexts _ _ _ FT_ORIGIN).
  - intros [= <- <- <-]. split; [exact R1|]. split; [exact R2|]. left. split; [done|]. split; [done|].
    split; [exact (flow_next_nexts _ _ _ FT_ORIGIN)|exact R3].
Qed.

(** Classification is done once per flow: the next packet of the direction
    gets the same next node and the same PDR as the packet that was classified,
    and leaves the flow as it is. *)
Theorem classification_stable is_ip4 active b b' flow next idx flow' :
  cb_is_reverse b = fe_is_reverse flow -> cb_is_reverse b' = cb_is_reverse b ->
  flow_next flow FT_ORIGIN = FT_NEXT_CLASSIFY -> flow_pdr_id flow FT_ORIGIN = u32_none ->
  fe_is_l3_proxy flow = false -> fe_app_detection_done flow = false -> r_proxy_pdr_idx active = u32_none ->
  sorted_by_id pdr_id (vec_elts (r_pdr active)) ->
  Forall (fun pdr => 0 <= pdr_id pdr < u32_none) (vec_elts (r_pdr active)) ->
  Forall (fun acl => 0 <= acl_pdr_idx acl) (acl_vec active is_ip4) ->
  classify_flow db is_ip4 active b flow = Ok (next, idx, flow') ->
  classify_flow db is_ip4 active b' flow' = Ok (next, idx, flow').
Proof.
  intros Hb Hb' Hn Hid Hl3 Hd Hpx Hs Hids Hacl. unfold classify_flow at 1.
  rewrite Hb, bool_decide_true by done. rewrite Hn, Z.eqb_refl. cbn [negb classify_direction]. rewrite Hl3.
  destruct (upf_acl_classify_forward db (cb_teid b) flow active is_ip4) as [[[n o] f]| |] eqn:Ef; cbn [obind]; [|done..].
  destruct (classify_forward_cases _ _ _ _ _ _ _ Hl3 Hpx Hid Ef) as (R1 & R2 & Hcases). rewrite R2, Hd. cbn [obind].
  unfold assert at 1. destruct (proxy_has_pdr f FT_ORIGIN && proxy_has_pdr f FT_REVERSE) eqn:Epx; [|done].
  intros [= <- <- <-]. unfold classify_flow. rewrite Hb', Hb, R1, bool_decide_true by done.
  assert (negb (flow_next f FT_ORIGIN =? FT_NEXT_CLASSIFY) = true /\ upf_classify_flow_next (flow_next f FT_ORIGIN) = Ok n
    /\ flow_pdr_idx f FT_ORIGIN active = default (cb_pdr_idx b) o) as (-> & -> & ->).
  { destruct Hcases as [(-> & -> & -> & E)|(acl & pdr & Hin & Ep & -> & E & Hnx)].
    - split; [done|]. split; [done|]. unfold flow_pdr_idx. by rewrite E.
    - assert (pdr ∈ vec_elts (r_pdr active)) as Hpin.
      { unfold pdr_at in Ep. destruct (_ !! _) eqn:El; [|done]. injection Ep as ->. by eapply list_elem_of_lookup_2. }
      pose proof (proj1 (Forall_forall _ _) Hids) as Hids'. pose proof (proj1 (Forall_forall _ _) Hacl) as Hacl'.
      assert (flow_pdr_idx f FT_ORIGIN active = acl_pdr_idx acl) as ->
        by (eapply flow_pdr_idx_found; [done|exact Ep|by apply Hacl'|by apply Hids'|exact E]).
      by destruct Hnx as [[-> ->]|[-> ->]]. }
  cbn [obind]. rewrite R2, Hd. cbn [obind]. unfold assert. by rewrite Epx.
Qed.

(** A session with an application for the proxy, but with no filter that
    matches a new TCP flow, fails an assertion of the classifier: the flow is
    sent to the proxy without a PDR. *)
Theorem proxy_without_filter_asserts is_ip4 active b flow :
  cb_is_reverse b = fe_is_reverse flow -> cb_teid b = 0 ->
  flow_next flow FT_ORIGIN = FT_NEXT_CLASSIFY -> flow_pdr_id flow FT_ORIGIN = u32_none ->
  fe_is_l3_proxy flow = false -> fe_app_detection_done flow = false ->
  fk_proto (fe_key flow) = IP_PROTOCOL_TCP -> r_proxy_pdr_idx active <> u32_none ->
  first_acl db (flow_teid flow FT_ORIGIN) flow (fe_is_reverse flow) is_ip4 active (acl_vec active is_ip4) = Ok None ->
  classify_flow db is_ip4 active b flow = Fault Assertion.
Proof.
  intros Hb Ht Hn Hid Hl3 Hd Hp Hpx Hf. unfold classify_flow.
  rewrite Hb, bool_decide_true by done. rewrite Hn, Z.eqb_refl. cbn [negb classify_direction]. rewrite Hl3, Ht.
  unfold upf_acl_classify_forward, flow_use_teid, is_tcp. rewrite Z.eqb_refl. cbn [negb].
  rewrite Hp, Z.eqb_refl, (proj2 (Z.eqb_neq _ _) Hpx). cbn [negb andb].
  set (f := set_flow_nexts (fe_set_l3_proxy flow true) FT_NEXT_PROXY FT_NEXT_CLASSIFY).
  rewrite (first_acl_key _ flow f) by done.
  replace (dir_xor FT_ORIGIN (fe_is_reverse f)) with (fe_is_reverse flow) by (unfold f; simpl; by destruct (fe_is_reverse flow)).
  rewrite Hf. cbn [obind]. change (fe_app_detection_done f) with (fe_app_detection_done flow). rewrite Hd. cbn [obind].
  assert (proxy_has_pdr f FT_ORIGIN = false) as ->; [|done].
  unfold proxy_has_pdr. change (flow_pdr_id f FT_ORIGIN) with (flow_pdr_id flow FT_ORIGIN). rewrite Hid.
  unfold f. by rewrite flow_next_nexts.
Qed.
End Stable.

(** ** The theorems at concrete inputs *)

Section Examples.
Definition no_app_fib : AppFib := fun _ _ => INDEX_INVALID.
Definition no_adf : AdfLookup := fun _ _ => false.

(** from 10.0.0.0/8 port 80 to the assigned address, TCP *)
Definition ex_filter : acl_rule_t :=
  {| ar_type := IPFILTER_IPV4; ar_action := ACL_PERMIT; ar_direction := ACL_OUT; ar_proto := 6;
     ar_src := {| fa_address := ip46_address_set_ip4 [10; 0; 0; 0]; fa_mask := 8 |};
     ar_dst := {| fa_address := ip46_address_set_ip4 [192; 0; 2; 5]; fa_mask := 32 |};
     ar_src_port := {| fp_min := 80; fp_max := 80 |}; ar_dst_port := {| fp_min := 0; fp_max := 65535 |} |}.

Definition ex_pdr : upf_pdr_t :=
  {| pdr_id := 7; pdr_precedence := 100;
     pdr_pdi := {| pdi_src_intf := SRC_INTF_ACCESS; pdi_nwi_index := 0; pdi_fields := F_PDI_SDF_FILTER;
                   pdi_teid := {| ft_flags := 0; ft_teid := 0; ft_ip4 := []; ft_ip6 := []; ft_choose_id := 0 |};
                   pdi_ue_addr := {| ue_flags := 0; ue_ip4 := [192; 0; 2; 5]; ue_ip6 := ip6_zero;
                                     ue_prefix_delegation_length := 0; ue_prefix_length := 0 |};
                   pdi_acl := Some [ex_filter];
                   pdi_adr := {| adr_application_id := u32_none; adr_db_id := 0; adr_flags := 0 |} |};
     pdr_outer_header_removal := 0; pdr_far_id := 1; pdr_urr_ids := None; pdr_qer_ids := None |}.

(** a packet from 192.0.2.5 port 4000 to 10.1.2.3 port 80 *)
Definition ex_flow : flow_entry_t :=
  mk_flow (mk_flow_key 1 (mk_order (ip46_address_set_ip4 [192; 0; 2; 5]) (ip46_address_set_ip4 [10; 1; 2; 3]))
             (mk_order (net_to_host_u16 4000) (net_to_host_u16 80)) 6)
    0 FT_ORIGIN false false false false false false TCP_F_STATE_START 0 (both (mk_stats 0 0)) 0 0 0 u32_none
    (both u32_none) (both 0) (both FT_NEXT_CLASSIFY) (both (mk_tc 0 0)) (both 0) (both 0) None 0.

Definition ex_main : acl_main := mk_acl_main pool_empty (fun _ => []) (fun _ => [0; 0]).

Lemma ex_flow_ok : flow_ok ex_flow /\ flow_family true ex_flow.
Proof.
  split; [|intros _ d; by destruct d]. split; [done|].
  intros []; (split; [done|]); apply bytes_check; reflexivity.
Qed.
Lemma ex_filter_ok : rule_ok true ex_filter /\ ue_ok ex_pdr.
Proof.
  repeat split; try done; try (apply bytes_check; reflexivity); try (vm_compute; congruence).
Qed.


Definition ex_acl : upf_acl_t :=
  match compile_pdi (M := loop_masks) ex_main true ex_pdr ex_filter 0 1 with Ok acl => acl | _ => acl_start true ex_pdr 0 0 end.
Lemma ue_ip4_not_compared_witness :
  upf_acl_classify_one (F := no_app_fib) (M := loop_masks) pool_empty 0 ex_flow FT_ORIGIN true
    (acl_set_ue ex_acl UPF_ACL_UL (ip46_address_set_ip4 [192; 0; 2; 5])) rules_zero = Ok true
  /\ upf_acl_classify_one (F := no_app_fib) (M := loop_masks) pool_empty 0 ex_flow FT_ORIGIN true
       (acl_set_ue ex_acl UPF_ACL_UL (ip46_address_set_ip4 [192; 0; 2; 77])) rules_zero = Ok true.
Proof.
  assert (upf_acl_classify_one (F := no_app_fib) (M := loop_masks) pool_empty 0 ex_flow FT_ORIGIN true
    (acl_set_ue ex_acl UPF_ACL_UL (ip46_address_set_ip4 [192; 0; 2; 5])) rules_zero = Ok true) as E by (vm_compute; reflexivity).
  split; [exact E|]. rewrite <- E.
  apply (ue_ip4_not_compared (F := no_app_fib) (M := loop_masks) pool_empty 0 ex_flow FT_ORIGIN ex_acl rules_zero UPF_ACL_UL);
    first [apply ex_flow_ok|reflexivity|apply bytes_check; reflexivity].
Defined.

Definition ex_acl_prec (p idx : Z) : upf_acl_t :=
  let a := ex_acl in
  {| acl_precedence := p; acl_is_ip4 := true; acl_match_teid := false; acl_match_ue_ip := 0; acl_match_sdf := false;
     acl_match_ip_app := false; acl_fib_index := 0; acl_teid := 0; acl_ue_ip := acl_ue_ip a;
     acl_mask := acl_mask a; acl_match := acl_match a; acl_pdr_idx := idx |}.
Lemma classify_best_precedence_witness :
  acl_hits (F := no_app_fib) (M := loop_masks) pool_empty 0 ex_flow FT_ORIGIN true rules_zero (ex_acl_prec 20 1)
  /\ forall acl', acl' ∈ [ex_acl_prec 200 0; ex_acl_prec 20 1] ->
     acl_hits (F := no_app_fib) (M := loop_masks) pool_empty 0 ex_flow FT_ORIGIN true rules_zero acl' ->
     20 <= acl_precedence acl'.
Proof.
  apply (classify_best_precedence (F := no_app_fib) (M := loop_masks) pool_empty 0 ex_flow FT_ORIGIN true rules_zero
           (S := insertion_sort) (SOk := insertion_sort_ok) [ex_acl_prec 200 0; ex_acl_prec 20 1] (Some (ex_acl_prec 20 1))).
  - repeat constructor; vm_compute; congruence.
  - vm_compute. reflexivity.
Defined.

Lemma precedence_order_by_octets_witness : upf_acl_cmp (ex_acl_prec 512 0) (ex_acl_prec 1 1) < 0.
Proof. apply precedence_order_by_octets; [reflexivity|split; reflexivity]. Defined.

Definition ex_rules (proxy_idx : Z) (acls : list upf_acl_t) : rules :=
  mk_rules (Some [ex_pdr]) None None None 0 0 proxy_idx (Some acls) None None None None None None urr_time_zero.
Definition ex_buf : class_buf := mk_class_buf 0 0 FT_ORIGIN 0 false u32_none.
Lemma classification_stable_witness :
  exists flow', classify_flow (F := no_app_fib) (M := loop_masks) (H := no_adf) pool_empty true
                  (ex_rules u32_none [ex_acl]) ex_buf ex_flow = Ok (UPF_CLASSIFY_NEXT_PROCESS, 0, flow')
  /\ classify_flow (F := no_app_fib) (M := loop_masks) (H := no_adf) pool_empty true
       (ex_rules u32_none [ex_acl]) ex_buf flow' = Ok (UPF_CLASSIFY_NEXT_PROCESS, 0, flow').
Proof.
  eexists. split; [vm_compute; reflexivity|].
  apply (classification_stable (F := no_app_fib) (M := loop_masks) (H := no_adf) pool_empty true
           (ex_rules u32_none [ex_acl]) ex_buf ex_buf ex_flow); try reflexivity.
  - repeat constructor.
  - repeat constructor; vm_compute; congruence.
  - repeat constructor; vm_compute; congruence.
Defined.

Lemma proxy_without_filter_asserts_witness :
  classify_flow (F := no_app_fib) (M := loop_masks) (H := no_adf) pool_empty true (ex_rules 0 []) ex_buf ex_flow
  = Fault Assertion.
Proof.
  apply (proxy_without_filter_asserts (F := no_app_fib) (M := loop_masks) (H := no_adf)); first [reflexivity|discriminate].
Defined.
End Examples.
