(* ===== verification/PfcpServer.v ===== *)
(** * The PFCP server

    Requests and responses over UDP (src/upf/upf_pfcp_server.c and .h): a
    request of the UPF is sent again until it is answered or given up, the
    response to a request of the peer is kept for a while so that a repeated
    request gets the same octets again. The messages live in a pool, found by
    sequence number or by the key of the request; a timer wheel of vppinfra
    ends both. The process that handles events and timers, pfcp_process, is
    modelled turn by turn; what it calls in the rest of the plugin is an
    interface, [PfcpApp]. *)

From Stdlib Require Import ZArith Lia.
From stdpp Require Import base list list_numbers option numbers decidable gmap fin_map_dom sorting.
From S2P Require Import Prelude PfcpIo PfcpIe PfcpLeaf PfcpTables PfcpCodec UpfTypes UpfVec UpfUrr.

(** ** Messages *)

Definition endpoint : Type := list Z * Z.

(** without pool_put_loc; [request_key] is the union's other view of [m_rmt],
    [m_seq_no] and [m_session_handle] *)
Record pfcp_msg_t := mk_msg {
  m_rmt : endpoint; m_seq_no : Z; m_session_handle : Z; m_lcl : endpoint; m_node : Z;
  m_session_index : Z; m_expires_at : f64; m_timer : Z; m_n1 : Z; m_t1 : Z;
  m_is_valid_pool_item : bool; m_data : vec Z }.

Definition key_t : Type := endpoint * Z * Z.
Definition request_key (m : pfcp_msg_t) : key_t := (m_rmt m, m_seq_no m, m_session_handle m).

(** memset 0 *)
Definition msg_zero : pfcp_msg_t :=
  mk_msg (ip6_zero, 0) 0 0 (ip6_zero, 0) 0 0 f64_zero 0 0 0 false None.

Section SetMsg.
Context (m : pfcp_msg_t).
Definition msg_set_valid (v : bool) : pfcp_msg_t :=
  mk_msg (m_rmt m) (m_seq_no m) (m_session_handle m) (m_lcl m) (m_node m) (m_session_index m)
    (m_expires_at m) (m_timer m) (m_n1 m) (m_t1 m) v (m_data m).
Definition msg_set_timer (timer : Z) (expires_at : f64) : pfcp_msg_t :=
  mk_msg (m_rmt m) (m_seq_no m) (m_session_handle m) (m_lcl m) (m_node m) (m_session_index m)
    expires_at timer (m_n1 m) (m_t1 m) (m_is_valid_pool_item m) (m_data m).
Definition msg_set_retries (n1 t1 : Z) : pfcp_msg_t :=
  mk_msg (m_rmt m) (m_seq_no m) (m_session_handle m) (m_lcl m) (m_node m) (m_session_index m)
    (m_expires_at m) (m_timer m) n1 t1 (m_is_valid_pool_item m) (m_data m).
Definition msg_set_data (data : vec Z) : pfcp_msg_t :=
  mk_msg (m_rmt m) (m_seq_no m) (m_session_handle m) (m_lcl m) (m_node m) (m_session_index m)
    (m_expires_at m) (m_timer m) (m_n1 m) (m_t1 m) (m_is_valid_pool_item m) data.
Definition msg_set_node (node : Z) : pfcp_msg_t :=
  mk_msg (m_rmt m) (m_seq_no m) (m_session_handle m) (m_lcl m) node (m_session_index m)
    (m_expires_at m) (m_timer m) (m_n1 m) (m_t1 m) (m_is_valid_pool_item m) (m_data m).
Definition msg_set_seq_no (seq_no : Z) : pfcp_msg_t :=
  mk_msg (m_rmt m) seq_no (m_session_handle m) (m_lcl m) (m_node m) (m_session_index m)
    (m_expires_at m) (m_timer m) (m_n1 m) (m_t1 m) (m_is_valid_pool_item m) (m_data m).
End SetMsg.

Definition init_pfcp_msg (m : pfcp_msg_t) : pfcp_msg_t :=
  msg_set_node (msg_set_valid msg_zero (m_is_valid_pool_item m)) u32_none.

(** what is read of the header before a message is decoded; the length is
    checked before *)
Definition octet (data : list Z) (i : nat) : Z := nth i data 0.
Definition pfcp_msg_version (data : list Z) : Z := Z.shiftr (octet data 0) 5.
Definition pfcp_msg_s_flag (data : list Z) : bool := Z.testbit (octet data 0) 0.
Definition pfcp_msg_type (data : list Z) : Z := octet data 1.
Definition pfcp_msg_length (data : list Z) : Z := de_be [octet data 2; octet data 3].
Definition pfcp_msg_enough_len (data : list Z) (len : Z) : bool :=
  (pfcp_msg_length data + 4 <=? len)
  && ((if pfcp_msg_s_flag data then SESSION_MSG_HDR_LEN else NODE_MSG_HDR_LEN) <=? len).
Definition pfcp_msg_seq (data : list Z) : Z :=
  let i := if pfcp_msg_s_flag data then 12%nat else 4%nat in
  de_be [octet data i; octet data (i + 1); octet data (i + 2)].

(** ** What the server calls

    A function of the rest of the plugin, seen from the server: it calls the
    server any number of times and returns the new state of the plugin, or ends
    in a fault of its own. The
    association of a session is looked up by the caller, [None] if the index is
    not in use. *)
Inductive upcall (A : Type) :=
| Return (a : A)
| Stop
| SendResponse (dmsg : pfcp_decoded_msg_t) (k : Z -> upcall A)
| SendSessionRequest (si : Z) (sx : upf_session_t) (n : option upf_node_assoc_t) (dmsg : pfcp_decoded_msg_t)
    (k : upcall A)
| SendNodeRequest (ni : Z) (n : upf_node_assoc_t) (dmsg : pfcp_decoded_msg_t) (k : upcall A)
| FreeMsgsByNode (node : Z) (k : upcall A).
Arguments Return {A}.
Arguments Stop {A}.
Arguments SendResponse {A}.
Arguments SendSessionRequest {A}.
Arguments SendNodeRequest {A}.
Arguments FreeMsgsByNode {A}.

(** upf_pfcp_handle_msg, pfcp_release_association, upf_pfcp_session_urr_timer and
    the two reactions to an event of the data path, a usage report and the end
    of the session *)
Class PfcpApp (A : Type) := {
  app_nodes : A -> pool upf_node_assoc_t;
  app_sessions : A -> pool upf_session_t;
  upf_pfcp_handle_msg : A -> pfcp_msg_t -> upcall A;
  pfcp_release_association : A -> Z -> upcall A;
  upf_pfcp_session_urr_timer : A -> Z -> f64 -> upcall A;
  upf_pfcp_session_usage_report : A -> Z -> urr_report_event -> f64 -> upcall A;
  drop_session : A -> Z -> upcall A
}.

(** ** The state of the server *)

(** a datagram handed to the session layer *)
Record datagram := mk_datagram { dg_handle : Z; dg_lcl : endpoint; dg_rmt : endpoint; dg_data : list Z }.

(** The timer wheel holds the timers of the messages, each the id it was started
    with and the tick it expires at; timers of other parts of the plugin are
    inputs of a turn. [sv_sent] is what was sent so far. *)
Record server := mk_server {
  sv_seq_no : Z; sv_start_time : Z; sv_now : f64; sv_tick : Z; sv_timer : pool (Z * Z);
  sv_msg_pool : pool pfcp_msg_t; sv_msg_pool_cache : list Z; sv_msg_pool_free : list Z;
  sv_request_q : gmap Z Z; sv_response_q : gmap key_t Z; sv_free_msgs_by_node : gset Z;
  sv_expired : list Z; sv_sent : list datagram }.

Section SetServer.
Context (st : server).
Definition set_sv_seq_no (x : Z) : server :=
  mk_server x (sv_start_time st) (sv_now st) (sv_tick st) (sv_timer st) (sv_msg_pool st) (sv_msg_pool_cache st)
    (sv_msg_pool_free st) (sv_request_q st) (sv_response_q st) (sv_free_msgs_by_node st) (sv_expired st) (sv_sent st).
Definition set_sv_clock (now : f64) (tick : Z) : server :=
  mk_server (sv_seq_no st) (sv_start_time st) now tick (sv_timer st) (sv_msg_pool st) (sv_msg_pool_cache st)
    (sv_msg_pool_free st) (sv_request_q st) (sv_response_q st) (sv_free_msgs_by_node st) (sv_expired st) (sv_sent st).
Definition set_sv_timers (timer : pool (Z * Z)) (expired : list Z) : server :=
  mk_server (sv_seq_no st) (sv_start_time st) (sv_now st) (sv_tick st) timer (sv_msg_pool st) (sv_msg_pool_cache st)
    (sv_msg_pool_free st) (sv_request_q st) (sv_response_q st) (sv_free_msgs_by_node st) expired (sv_sent st).
Definition set_sv_pool (p : pool pfcp_msg_t) (cache free : list Z) : server :=
  mk_server (sv_seq_no st) (sv_start_time st) (sv_now st) (sv_tick st) (sv_timer st) p cache free (sv_request_q st)
    (sv_response_q st) (sv_free_msgs_by_node st) (sv_expired st) (sv_sent st).
Definition set_sv_msg (i : Z) (m : pfcp_msg_t) : server :=
  set_sv_pool (pool_set (sv_msg_pool st) i m) (sv_msg_pool_cache st) (sv_msg_pool_free st).
Definition set_sv_queues (request_q : gmap Z Z) (response_q : gmap key_t Z) : server :=
  mk_server (sv_seq_no st) (sv_start_time st) (sv_now st) (sv_tick st) (sv_timer st) (sv_msg_pool st)
    (sv_msg_pool_cache st) (sv_msg_pool_free st) request_q response_q (sv_free_msgs_by_node st) (sv_expired st) (sv_sent st).
Definition set_sv_free_msgs (x : gset Z) : server :=
  mk_server (sv_seq_no st) (sv_start_time st) (sv_now st) (sv_tick st) (sv_timer st) (sv_msg_pool st)
    (sv_msg_pool_cache st) (sv_msg_pool_free st) (sv_request_q st) (sv_response_q st) x (sv_expired st) (sv_sent st).
Definition set_sv_sent (x : list datagram) : server :=
  mk_server (sv_seq_no st) (sv_start_time st) (sv_now st) (sv_tick st) (sv_timer st) (sv_msg_pool st)
    (sv_msg_pool_cache st) (sv_msg_pool_free st) (sv_request_q st) (sv_response_q st) (sv_free_msgs_by_node st)
    (sv_expired st) x.
End SetServer.

Definition RESPONSE_TIMEOUT : Z := 30.
Definition TW_CLOCKS_PER_SECOND : Z := 100.
Definition PFCP_SERVER_HB_TIMER : Z := 0.
Definition PFCP_SERVER_T1 : Z := 1.
Definition PFCP_SERVER_RESPONSE : Z := 2.
Definition UDP_DST_PORT_PFCP : Z := 8805.
(** clib_host_to_net_u16 *)
Definition pfcp_port : Z := de_be (le 2 UDP_DST_PORT_PFCP).

Definition server_timer_id (type id : Z) : Z := Z.lor (Z.shiftl (Z.lor 0x80 type) 24) id.

Definition pfcp_server_main_init (start_time : Z) : server :=
  mk_server 0 start_time f64_zero 0 pool_empty pool_empty [] [] ∅ ∅ ∅ [] [].

(** *** The pool of messages: freed messages stay allocated until the next turn *)

Section Server.
Context {V : Vppinfra} {P : VppPool} (session_valid : Z -> bool).

(** moved from [free] to [cache], the last one first, until 128 are there *)
Fixpoint refill (n : nat) (cache free : list Z) : list Z * list Z :=
  match n, free with
  | S n, i :: free => if Zlen cache <? 128 then refill n (i :: cache) free else (cache, i :: free)
  | _, _ => (cache, free)
  end.
Definition pfcp_msg_pool_loop_start (st : server) : server :=
  let '(cache, free) := refill (length (sv_msg_pool_free st)) (sv_msg_pool_cache st) (sv_msg_pool_free st) in
  set_sv_pool st (foldl pool_put (sv_msg_pool st) (rev free)) cache [].

Definition pfcp_msg_pool_elt_at_index (st : server) (i : Z) : outcome pfcp_msg_t :=
  match pool_elt (sv_msg_pool st) i with
  | Some m => assert (m_is_valid_pool_item m) (Ok m)
  | None => Fault Assertion
  end.

Definition pfcp_msg_pool_get (st : server) : outcome (Z * server) :=
  match sv_msg_pool_cache st with
  | i :: cache =>
      match pool_elt (sv_msg_pool st) i with
      | None => Fault Assertion
      | Some m =>
          Ok (i, set_sv_pool st (pool_set (sv_msg_pool st) i (msg_set_valid (init_pfcp_msg m) true)) cache
                   (sv_msg_pool_free st))
      end
  | [] =>
      let '(i, p) := pool_get (sv_msg_pool st) (msg_set_valid msg_zero true) in
      Ok (i, set_sv_pool st p [] (sv_msg_pool_free st))
  end.

Definition pfcp_msg_pool_add (st : server) (m : pfcp_msg_t) : outcome (Z * server) :=
  obind (pfcp_msg_pool_get st) (fun '(i, st) => Ok (i, set_sv_msg st i (msg_set_valid m true))).

Definition pfcp_msg_pool_put (st : server) (i : Z) : outcome server :=
  obind (pfcp_msg_pool_elt_at_index st i) (fun m =>
  Ok (set_sv_pool st (pool_set (sv_msg_pool st) i (msg_set_valid (msg_set_data m None) false))
        (sv_msg_pool_cache st) (i :: sv_msg_pool_free st))).

(** *** Timers *)

Definition tw_timer_start (st : server) (id ticks : Z) : Z * server :=
  let '(h, p) := pool_get (sv_timer st) (id, sv_tick st + ticks) in (h, set_sv_timers st p (sv_expired st)).
Definition tw_timer_stop (st : server) (h : Z) : outcome server :=
  match pool_elt (sv_timer st) h with
  | None => Fault Assertion
  | Some _ => Ok (set_sv_timers st (pool_put (sv_timer st) h) (sv_expired st))
  end.

Definition upf_pfcp_server_start_timer (st : server) (type id seconds : Z) : outcome (Z * server) :=
  let interval := seconds * TW_CLOCKS_PER_SECOND in
  assert (type <? 8)
 (assert (Z.land id 0xff000000 =? 0)
 (Ok (tw_timer_start st (server_timer_id type id) interval))).

(** an expiry of the turn that is not handled yet is cancelled *)
Definition upf_pfcp_server_stop_msg_timer (st : server) (i : Z) : outcome server :=
  obind (pfcp_msg_pool_elt_at_index st i) (fun msg =>
  if m_timer msg =? u32_none then Ok st
  else
    let id_t1 := server_timer_id PFCP_SERVER_T1 (m_seq_no msg) in
    let id_resp := server_timer_id PFCP_SERVER_RESPONSE i in
    let hit e := (e =? id_t1) || (e =? id_resp) in
    let expired := map (fun e => if hit e then u32_none else e) (sv_expired st) in
    let found := existsb hit (sv_expired st) in
    let st := set_sv_timers st (sv_timer st) expired in
    obind (if found then Ok st else tw_timer_stop st (m_timer msg)) (fun st =>
    Ok (set_sv_msg st i (msg_set_timer msg u32_none (m_expires_at msg))))).

(** the timer of a message, and when it expires by the clock *)
Definition start_msg_timer (st : server) (i : Z) (msg : pfcp_msg_t) (type id seconds : Z) : outcome server :=
  obind (upf_pfcp_server_start_timer st type id seconds) (fun '(h, st) =>
  Ok (set_sv_msg st i (msg_set_timer msg h (f64_add (sv_now st) (f64_of_Z seconds))))).

(** *** Sending *)

(** _vec_len, unlike vec_len, does not expect a null vector *)
Definition upf_pfcp_send_data (st : server) (msg : pfcp_msg_t) : outcome server :=
  if negb (session_valid (m_session_handle msg)) then Ok st
  else
    match m_data msg with
    | None => Fault NullDeref
    | Some data => Ok (set_sv_sent st (sv_sent st ++ [mk_datagram (m_session_handle msg) (m_lcl msg) (m_rmt msg) data]))
    end.

Definition next_seq_no (st : server) : Z * server :=
  let x := wrap 32 (sv_seq_no st + 1) in (x mod 0x1000000, set_sv_seq_no st x).

Definition dmsg_set (dmsg : pfcp_decoded_msg_t) (seq_no seid : Z) : pfcp_decoded_msg_t :=
  mk_dmsg (dm_type dmsg) seq_no seid (dm_grp dmsg).

(** The message to send, from the session and the association it belongs to.
    The node index is looked up by the caller: [None] if it is not in use. *)
Definition encode_pfcp_session_msg (st : server) (si : Z) (sx : upf_session_t) (n : option upf_node_assoc_t)
  (dmsg : pfcp_decoded_msg_t) (msg : pfcp_msg_t) : outcome (option pfcp_msg_t * server) :=
  match n with
  | None => Fault BadIndex
  | Some n =>
      let '(seq_no, st) := next_seq_no st in
      match pfcp_encode_msg (dmsg_set dmsg seq_no (sx_cp_seid sx)) with
      | Err _ => Ok (None, st)
      | Fault f => Fault f
      | Ok data =>
          Ok (Some (mk_msg (sx_cp_address sx, pfcp_port) seq_no (na_session_handle n) (sx_up_address sx, pfcp_port)
                      (as_node (sx_assoc_ sx)) si f64_zero 0 0 0 (m_is_valid_pool_item msg) (Some data)), st)
      end
  end.

Definition encode_pfcp_node_msg (st : server) (ni : Z) (n : upf_node_assoc_t) (dmsg : pfcp_decoded_msg_t)
  (msg : pfcp_msg_t) : outcome (option pfcp_msg_t * server) :=
  let '(seq_no, st) := next_seq_no st in
  match pfcp_encode_msg (dmsg_set dmsg seq_no (dm_seid dmsg)) with
  | Err _ => Ok (None, st)
  | Fault f => Fault f
  | Ok data =>
      Ok (Some (mk_msg (na_rmt_addr n, pfcp_port) seq_no (na_session_handle n) (na_lcl_addr n, pfcp_port)
                  ni 0 f64_zero 0 0 0 (m_is_valid_pool_item msg) (Some data)), st)
  end.

(** build_pfcp_session_msg and build_pfcp_node_msg, for [encode] one of the above *)
Definition build_pfcp_msg (encode : server -> pfcp_msg_t -> outcome (option pfcp_msg_t * server)) (st : server)
  : outcome (option Z * server) :=
  obind (pfcp_msg_pool_get st) (fun '(i, st) =>
  obind (pfcp_msg_pool_elt_at_index st i) (fun msg =>
  obind (encode st msg) (fun '(r, st) =>
  match r with
  | None => obind (pfcp_msg_pool_put st i) (fun st => Ok (None, st))
  | Some msg => Ok (Some i, set_sv_msg st i msg)
  end))).

Definition enqueue_request (st : server) (i n1 t1 : Z) : outcome server :=
  obind (pfcp_msg_pool_elt_at_index st i) (fun msg =>
  let msg := msg_set_retries msg n1 t1 in
  let st := set_sv_queues st (<[m_seq_no msg := i]> (sv_request_q st)) (sv_response_q st) in
  start_msg_timer st i msg PFCP_SERVER_T1 (m_seq_no msg) t1).

Definition upf_pfcp_server_send_request (st : server) (i : Z) : outcome server :=
  obind (enqueue_request st i 3 10) (fun st =>
  obind (pfcp_msg_pool_elt_at_index st i) (upf_pfcp_send_data st)).

(** upf_pfcp_server_send_session_request and upf_pfcp_server_send_node_request *)
Definition send_built_request (encode : server -> pfcp_msg_t -> outcome (option pfcp_msg_t * server)) (st : server)
  : outcome server :=
  obind (build_pfcp_msg encode st) (fun '(r, st) =>
  match r with Some i => upf_pfcp_server_send_request st i | None => Ok st end).

Definition restart_response_timer (st : server) (i : Z) : outcome server :=
  obind (upf_pfcp_server_stop_msg_timer st i) (fun st =>
  obind (pfcp_msg_pool_elt_at_index st i) (fun msg =>
  start_msg_timer st i msg PFCP_SERVER_RESPONSE i RESPONSE_TIMEOUT)).

Definition enqueue_response (st : server) (i : Z) : outcome server :=
  obind (pfcp_msg_pool_elt_at_index st i) (fun msg =>
  let st := set_sv_queues st (sv_request_q st) (<[request_key msg := i]> (sv_response_q st)) in
  start_msg_timer st i msg PFCP_SERVER_RESPONSE i RESPONSE_TIMEOUT).

Definition upf_pfcp_make_response (resp req : pfcp_msg_t) : pfcp_msg_t :=
  mk_msg (m_rmt req) (m_seq_no req) (m_session_handle req) (m_lcl req) (m_node resp) (m_session_index resp)
    (m_expires_at resp) u32_none (m_n1 resp) (m_t1 resp) (m_is_valid_pool_item resp) None.

(** the result is 0 or the error of the encoder *)
Definition upf_pfcp_send_response (st : server) (req : pfcp_msg_t) (dmsg : pfcp_decoded_msg_t) : outcome (Z * server) :=
  obind (pfcp_msg_pool_get st) (fun '(i, st) =>
  obind (pfcp_msg_pool_elt_at_index st i) (fun resp =>
  let resp := upf_pfcp_make_response resp req in
  match pfcp_encode_msg (dmsg_set dmsg (pfcp_msg_seq (vec_elts (m_data req))) (dm_seid dmsg)) with
  | Fault f => Fault f
  | Err r => obind (pfcp_msg_pool_put (set_sv_msg st i resp) i) (fun st => Ok (r, st))
  | Ok data =>
      let resp := msg_set_data resp (Some data) in
      obind (upf_pfcp_send_data (set_sv_msg st i resp) resp) (fun st =>
      obind (enqueue_response st i) (fun st => Ok (0, st)))
  end)).

Definition upf_pfcp_server_deferred_free_msgs_by_node (st : server) (node : Z) : server :=
  set_sv_free_msgs st ({[ node ]} ∪ sv_free_msgs_by_node st).
(** *** Receiving *)

(** the calls of [p], made while the message [req] is handled *)
Fixpoint run_upcall {A} (req : pfcp_msg_t) (p : upcall A) (st : server) : outcome (A * server) :=
  match p with
  | Return a => Ok (a, st)
  | Stop => Fault Callback
  | SendResponse dmsg k => obind (upf_pfcp_send_response st req dmsg) (fun '(r, st) => run_upcall req (k r) st)
  | SendSessionRequest si sx n dmsg k =>
      obind (send_built_request (fun st => encode_pfcp_session_msg st si sx n dmsg) st) (run_upcall req k)
  | SendNodeRequest ni n dmsg k =>
      obind (send_built_request (fun st => encode_pfcp_node_msg st ni n dmsg) st) (run_upcall req k)
  | FreeMsgsByNode node k => run_upcall req k (upf_pfcp_server_deferred_free_msgs_by_node st node)
  end.

Definition request_types : list Z :=
  [PFCP_HEARTBEAT_REQUEST; PFCP_PFD_MANAGEMENT_REQUEST; PFCP_ASSOCIATION_SETUP_REQUEST;
   PFCP_ASSOCIATION_UPDATE_REQUEST; PFCP_ASSOCIATION_RELEASE_REQUEST; PFCP_NODE_REPORT_REQUEST;
   PFCP_SESSION_SET_DELETION_REQUEST; PFCP_SESSION_ESTABLISHMENT_REQUEST; PFCP_SESSION_MODIFICATION_REQUEST;
   PFCP_SESSION_DELETION_REQUEST; PFCP_SESSION_REPORT_REQUEST].
Definition PFCP_PFD_MANAGEMENT_RESPONSE : Z := 4.
Definition response_types : list Z :=
  [PFCP_HEARTBEAT_RESPONSE; PFCP_PFD_MANAGEMENT_RESPONSE; PFCP_ASSOCIATION_SETUP_RESPONSE;
   PFCP_ASSOCIATION_UPDATE_RESPONSE; PFCP_ASSOCIATION_RELEASE_RESPONSE; PFCP_VERSION_NOT_SUPPORTED_RESPONSE;
   PFCP_NODE_REPORT_RESPONSE; PFCP_SESSION_SET_DELETION_RESPONSE; PFCP_SESSION_ESTABLISHMENT_RESPONSE;
   PFCP_SESSION_MODIFICATION_RESPONSE; PFCP_SESSION_DELETION_RESPONSE; PFCP_SESSION_REPORT_RESPONSE].

Context {A : Type} {App : PfcpApp A}.

(** a request of the peer *)
Definition rx_request (a : A) (st : server) (msg : pfcp_msg_t) : outcome (A * server) :=
  match sv_response_q st !! request_key msg with
  | None => run_upcall msg (upf_pfcp_handle_msg a msg) st
  | Some i =>
      obind (pfcp_msg_pool_elt_at_index st i) (fun resp =>
      obind (upf_pfcp_send_data st resp) (fun st =>
      obind (restart_response_timer st i) (fun st => Ok (a, st))))
  end.

(** a response to a request of the UPF *)
Definition rx_response (a : A) (st : server) (msg : pfcp_msg_t) : outcome (A * server) :=
  match sv_request_q st !! m_seq_no msg with
  | None => Ok (a, st)
  | Some i =>
      obind (pfcp_msg_pool_elt_at_index st i) (fun req =>
      let st := set_sv_queues st (delete (m_seq_no msg) (sv_request_q st)) (sv_response_q st) in
      obind (upf_pfcp_server_stop_msg_timer st i) (fun st =>
      let msg := msg_set_node msg (m_node req) in
      obind (pfcp_msg_pool_put st i) (fun st => run_upcall msg (upf_pfcp_handle_msg a msg) st)))
  end.

(** the response to a message of another version is encoded over the message
    received, so the response that is sent has no vector *)
Definition upf_pfcp_server_rx_msg (a : A) (st : server) (msg : pfcp_msg_t) : outcome (A * server) :=
  let data := vec_elts (m_data msg) in
  if Zlen data <? 4 then Ok (a, st)
  else if negb (pfcp_msg_version data =? 1)
       then obind (upf_pfcp_send_data st (upf_pfcp_make_response msg_zero msg)) (fun st => Ok (a, st))
  else if negb (pfcp_msg_enough_len data (Zlen data)) then Ok (a, st)
  else
    let msg := msg_set_seq_no (msg_set_node msg u32_none) (pfcp_msg_seq data) in
    if bool_decide (pfcp_msg_type data ∈ request_types) then rx_request a st msg
    else if bool_decide (pfcp_msg_type data ∈ response_types) then rx_response a st msg
    else Ok (a, st).

(** *** Expired timers *)

Definition request_t1_expired (a : A) (st : server) (seq_no : Z) : outcome (A * server) :=
  match sv_request_q st !! seq_no with
  | None => Ok (a, st)
  | Some i =>
      obind (pfcp_msg_pool_elt_at_index st i) (fun msg =>
      let msg := msg_set_retries msg (wrap 32 (m_n1 msg - 1)) (m_t1 msg) in
      if negb (m_n1 msg =? 0) then
        obind (start_msg_timer st i msg PFCP_SERVER_T1 (m_seq_no msg) (m_t1 msg)) (fun st =>
        obind (pfcp_msg_pool_elt_at_index st i) (fun msg =>
        obind (upf_pfcp_send_data st msg) (fun st => Ok (a, st))))
      else
        let type := pfcp_msg_type (vec_elts (m_data msg)) in
        let st := set_sv_queues (set_sv_msg st i msg) (delete (m_seq_no msg) (sv_request_q st)) (sv_response_q st) in
        obind (pfcp_msg_pool_put st i) (fun st =>
        if (type =? PFCP_HEARTBEAT_REQUEST) && negb (pool_is_free_index (app_nodes a) (m_node msg))
        then run_upcall msg (pfcp_release_association a (m_node msg)) st
        else Ok (a, st)))
  end.

Definition response_expired (st : server) (i : Z) : outcome server :=
  obind (pfcp_msg_pool_elt_at_index st i) (fun msg =>
  pfcp_msg_pool_put (set_sv_queues st (sv_request_q st) (delete (request_key msg) (sv_response_q st))) i).

(** the recovery time stamp is the only element of a heartbeat *)
Definition heartbeat_dmsg (st : server) : pfcp_decoded_msg_t :=
  mk_dmsg PFCP_HEARTBEAT_REQUEST 0 0 (VGroup (SET_BIT 0 0) [[VLeaf K_time_stamp_ie (sv_start_time st)]] []).

Definition upf_server_send_heartbeat (a : A) (st : server) (ni : Z) : outcome server :=
  match pool_elt (app_nodes a) ni with
  | None => Fault BadIndex
  | Some n => send_built_request (fun st => encode_pfcp_node_msg st ni n (heartbeat_dmsg st)) st
  end.

(** one entry of the vector of expired timers; [last] is last_expired *)
Definition handle_expired (a : A) (st : server) (last e : Z) : outcome (A * server * Z) :=
  let type := Z.shiftr e 24 in
  let id := Z.land e 0x00FFFFFF in
  if e =? u32_none then Ok (a, st, last)
  else if (0 <=? type) && (type <=? 0x7f) then
    if last =? e then Ok (a, st, last)
    else
      let si := Z.land e 0x7FFFFFFF in
      if pool_is_free_index (app_sessions a) si then Ok (a, st, e)
      else obind (run_upcall msg_zero (upf_pfcp_session_urr_timer a si (sv_now st)) st) (fun '(a, st) => Ok (a, st, e))
  else if type =? Z.lor 0x80 PFCP_SERVER_HB_TIMER then
    obind (upf_server_send_heartbeat a st id) (fun st => Ok (a, st, last))
  else if type =? Z.lor 0x80 PFCP_SERVER_T1 then
    obind (request_t1_expired a st id) (fun '(a, st) => Ok (a, st, last))
  else if type =? Z.lor 0x80 PFCP_SERVER_RESPONSE then
    obind (response_expired st id) (fun st => Ok (a, st, last))
  else Ok (a, st, last).

(** the loop over the vector, which the handlers may change behind [k] *)
Fixpoint expired_loop (n k : nat) (a : A) (st : server) (last : Z) : outcome (A * server) :=
  match n with
  | O => Ok (a, st)
  | S n =>
      match sv_expired st !! k with
      | None => Ok (a, st)
      | Some e => obind (handle_expired a st last e) (fun '(a, st, last) => expired_loop n (S k) a st last)
      end
  end.

(** *** Messages freed after the loop *)

Definition must_free (st : server) (msg : pfcp_msg_t) : bool :=
  bool_decide (m_node msg ∈ sv_free_msgs_by_node st)
  || f64_ltb (f64_add (m_expires_at msg) (f64_of_Z 1)) (sv_now st).

Definition free_msg (st : server) (i : Z) : outcome server :=
  match pool_elt (sv_msg_pool st) i with
  | None => Ok st
  | Some msg =>
      if negb (m_is_valid_pool_item msg) then Ok st
      else
        assert (negb (f64_eqb (m_expires_at msg) f64_zero))
       (if must_free st msg then
          let st := set_sv_queues st (delete (m_seq_no msg) (sv_request_q st))
                      (delete (request_key msg) (sv_response_q st)) in
          obind (upf_pfcp_server_stop_msg_timer st i) (fun st => pfcp_msg_pool_put st i)
        else Ok st)
  end.

Fixpoint free_msgs (l : list Z) (st : server) : outcome server :=
  match l with
  | [] => Ok st
  | i :: l => obind (free_msg st i) (free_msgs l)
  end.

(** *** A turn of pfcp_process *)

Inductive event :=
| EVENT_TIMEOUT
| EVENT_RX (msgs : list pfcp_msg_t)
| EVENT_TX (msgs : list pfcp_msg_t)
| EVENT_URR (uevs : list urr_report_event)
| EVENT_PACK (msgs : list (Z * pfcp_decoded_msg_t)).

Definition event_rx (a : A) (st : server) (msg : pfcp_msg_t) : outcome (A * server) :=
  upf_pfcp_server_rx_msg a st msg.

Definition event_tx (a : A) (st : server) (tx : pfcp_msg_t) : outcome (A * server) :=
  if pool_is_free_index (app_nodes a) (m_node tx) then Ok (a, st)
  else
    obind (pfcp_msg_pool_add st tx) (fun '(i, st) =>
    obind (upf_pfcp_server_send_request st i) (fun st => Ok (a, st))).

Definition event_urr (a : A) (st : server) (uev : urr_report_event) : outcome (A * server) :=
  match pool_elt (app_sessions a) (re_session_idx uev) with
  | None => Ok (a, st)
  | Some sx =>
      if negb (sx_cp_seid sx =? re_cp_seid uev) then Ok (a, st)
      else if negb (flag (re_status uev) URR_DROP_SESSION)
           then run_upcall msg_zero (upf_pfcp_session_usage_report a (re_session_idx uev) uev (sv_now st)) st
           else run_upcall msg_zero (drop_session a (re_session_idx uev)) st
  end.

(** a session that is gone is a null pointer here *)
Definition event_pack (a : A) (st : server) (ev : Z * pfcp_decoded_msg_t) : outcome (A * server) :=
  match pool_elt (app_sessions a) (fst ev) with
  | None => Fault NullDeref
  | Some sx =>
      obind (send_built_request
               (fun st => encode_pfcp_session_msg st (fst ev) sx (pool_elt (app_nodes a) (as_node (sx_assoc_ sx))) (snd ev)) st)
        (fun st => Ok (a, st))
  end.

Fixpoint each {E} (f : A -> server -> E -> outcome (A * server)) (l : list E) (a : A) (st : server)
  : outcome (A * server) :=
  match l with
  | [] => Ok (a, st)
  | e :: l => obind (f a st e) (fun '(a, st) => each f l a st)
  end.
Definition handle_event (a : A) (st : server) (ev : event) : outcome (A * server) :=
  match ev with
  | EVENT_TIMEOUT => Ok (a, st)
  | EVENT_RX l => each event_rx l a st
  | EVENT_TX l => each event_tx l a st
  | EVENT_URR l => each event_urr l a st
  | EVENT_PACK l => each event_pack l a st
  end.

(** the timers of messages that are due at [tick] are taken from the wheel; [ids]
    are the timers of heartbeats and sessions that expire with them *)
Definition due (tick : Z) (t : Z * Z) : bool := snd t <=? tick.
Definition tw_timer_expire_timers_vec (st : server) (now : f64) (tick : Z) (ids : list Z) : server :=
  let st := set_sv_clock st now tick in
  let gone := filter (fun kt => due tick (snd kt) = true) (map_to_list (pool_elts (sv_timer st))) in
  set_sv_timers st
    (mk_pool (filter (fun kt => due tick (snd kt) = false) (pool_elts (sv_timer st)))
       (map fst gone ++ pool_free (sv_timer st)))
    (sv_expired st ++ map (fun kt => fst (snd kt)) gone ++ ids).

Definition timer_id_cmp (a b : Z) : Z := if a <? b then -1 else if a =? b then 0 else 1.

Definition pfcp_turn {S : VecSort} (a : A) (st : server) (now : f64) (tick : Z) (ids : list Z) (ev : event)
  : outcome (A * server) :=
  let st := tw_timer_expire_timers_vec (pfcp_msg_pool_loop_start st) now tick ids in
  obind (handle_event a st ev) (fun '(a, st) =>
  let st := set_sv_timers st (sv_timer st) (vec_sort_with_function timer_id_cmp (sv_expired st)) in
  obind (expired_loop (length (sv_expired st)) 0 a st u32_none) (fun '(a, st) =>
  obind (free_msgs (merge_sort Z.le (map fst (map_to_list (pool_elts (sv_msg_pool st))))) st) (fun st =>
  Ok (a, set_sv_free_msgs (set_sv_timers st (sv_timer st) []) ∅)))).
End Server.
