(* ===== verification/PfcpServerInv.v ===== *)
(** * The PFCP server keeps its messages apart

    The invariant of [PfcpServer]: the queues, the pool of messages and the
    timers agree, so that no message is freed twice, no timer is stopped that
    is not running, and every message in a queue has a timer that will end it. *)

From Stdlib Require Import ZArith Lia.
From stdpp Require Import base list list_numbers option numbers decidable gmap fin_map_dom sorting.
From S2P Require Import Prelude PfcpIo PfcpIe PfcpLeaf PfcpTables PfcpCodec UpfTypes UpfVec UpfUrr PfcpServer.

(** ** Ids of timers *)

Definition T1 (s : Z) : Z := server_timer_id PFCP_SERVER_T1 s.
Definition RESP (i : Z) : Z := server_timer_id PFCP_SERVER_RESPONSE i.
Definition id24 (x : Z) : Prop := 0 <= x < 2 ^ 24.

Lemma timer_id_sum t x : 0 <= t < 8 -> id24 x -> server_timer_id t x = (128 + t) * 2 ^ 24 + x.
Proof.
  intros Ht Hx. unfold server_timer_id.
  assert (Z.lor 128 t = 128 + t) as -> by (assert (t ∈ seqZ 0 8) as Hin by (apply elem_of_seqZ; lia);
    revert t Hin Ht; apply (Forall_forall (fun t => 0 <= t < 8 -> Z.lor 128 t = 128 + t) (seqZ 0 8)); by repeat constructor).
  rewrite Z.shiftl_mul_pow2 by lia. pose proof (Z.add_lor_land ((128 + t) * 2 ^ 24) x) as E.
  enough (Z.land ((128 + t) * 2 ^ 24) x = 0) by lia.
  apply Z.bits_inj_0. intros n. rewrite Z.land_spec. destruct (Z_lt_le_dec n 24).
  - destruct (Z_lt_le_dec n 0); [by rewrite Z.testbit_neg_r|]. by rewrite Z.mul_pow2_bits_low.
  - rewrite (Z.bits_above_log2 x n), andb_false_r; [done|unfold id24 in Hx; lia|].
    destruct (decide (x = 0)) as [->|]; [simpl; lia|]. apply Z.log2_lt_pow2; [unfold id24 in Hx; lia|].
    unfold id24 in Hx. apply Z.lt_le_trans with (2 ^ 24); [lia|]. apply Z.pow_le_mono_r; lia.
Qed.
Lemma T1_sum s : id24 s -> T1 s = 129 * 2 ^ 24 + s.
Proof. intros. unfold T1. by rewrite timer_id_sum. Qed.
Lemma RESP_sum i : id24 i -> RESP i = 130 * 2 ^ 24 + i.
Proof. intros. unfold RESP. by rewrite timer_id_sum. Qed.
Ltac ids := unfold id24 in *; rewrite ?T1_sum, ?RESP_sum in * by (unfold id24; lia); unfold u32_none in *; lia.

Lemma RESP_T1 i s : id24 i -> id24 s -> RESP i = T1 s -> False.
Proof. intros. ids. Qed.
Lemma RESP_inj i j : id24 i -> id24 j -> RESP i = RESP j -> i = j.
Proof. intros. ids. Qed.

Lemma id24_land id : id24 id -> Z.land id 0xff000000 = 0.
Proof.
  intros Hid. apply Z.bits_inj_0. intros b. rewrite Z.land_spec. destruct (Z_lt_le_dec b 24).
  - destruct (Z_lt_le_dec b 0); [by rewrite Z.testbit_neg_r|]. replace 0xff000000 with (255 * 2 ^ 24) by done.
    rewrite Z.mul_pow2_bits_low by lia. apply andb_false_r.
  - unfold id24 in Hid. rewrite (Z.bits_above_log2 id b); [done|lia|].
    destruct (decide (id = 0)) as [->|]; [simpl; lia|]. apply Z.log2_lt_pow2; [lia|].
    apply Z.lt_le_trans with (2 ^ 24); [lia|]. apply Z.pow_le_mono_r; lia.
Qed.

(** an id of another part of the plugin, or a cancelled entry *)
Definition other_id (e : Z) : Prop := e = u32_none \/ 0 <= e < 129 * 2 ^ 24.
Lemma RESP_other i : id24 i -> ~ other_id (RESP i).
Proof. intros Hi [E|E]; ids. Qed.

(** ** The pool hands out small indices as long as it is small *)

Class VppPoolDense (P : VppPool) := {
  pool_pick_below {A} (m : gmap Z A) free (B : Z) :
    Forall (fun i => 0 <= i < B) free -> Z.of_nat (size m) < B -> B <= u32_none ->
    m !! pool_pick m free = None /\ 0 <= pool_pick m free < B
}.

#[export] Instance pool_lifo_dense : VppPoolDense pool_lifo.
Proof.
  split. intros A m free B Hf Hs HB. destruct (first_unused_free m) as [H1 H2].
  unfold pool_pick, pool_lifo. destruct Hf as [|i free Hi Hf]; [split; [done|lia]|].
  case_test; [|split; [done|lia]]. btest. split; [done|lia].
Qed.

(** ** The invariant *)

Section Inv.
Context (own : Z -> bool).
#[local] Abbreviation W st := (pool_elts (sv_timer st)).
#[local] Abbreviation M st := (pool_elts (sv_msg_pool st)).

(** [k] entries of the vector of expired timers are handled *)
Definition pend (k : nat) (st : server) : list Z := drop k (sv_expired st).

(** a message that may be sent again and checked for its age *)
Definition sendable (m : pfcp_msg_t) : Prop :=
  m_is_valid_pool_item m = true /\ f64_eqb (m_expires_at m) f64_zero = false /\ is_Some (m_data m).

Definition armed_req (k : nat) (st : server) (m : pfcp_msg_t) : Prop :=
  m_timer m <> u32_none /\ id24 (m_seq_no m) /\ own (m_seq_no m) = true /\ m_t1 m = 10
  /\ ((exists d, W st !! m_timer m = Some (T1 (m_seq_no m), d)) \/ T1 (m_seq_no m) ∈ pend k st).
Definition armed_resp (k : nat) (st : server) (i : Z) (m : pfcp_msg_t) : Prop :=
  m_timer m <> u32_none /\ id24 (m_seq_no m) /\ own (m_seq_no m) = false
  /\ ((exists d, W st !! m_timer m = Some (RESP i, d)) /\ RESP i ∉ sv_expired st
      \/ RESP i ∈ pend k st /\ forall h d, W st !! h <> Some (RESP i, d)).

(** [hand] is a message a function has got hold of: its place in the queues and
    its timer are left open; [n] more messages can be sent *)
Record sv_inv (n k : nat) (hand : option Z) (st : server) : Prop := {
  si_index : forall i m, M st !! i = Some m -> id24 i;
  si_unused : Forall id24 (pool_free (sv_msg_pool st));
  si_lists : NoDup (sv_msg_pool_cache st ++ sv_msg_pool_free st);
  si_idle : forall i, i ∈ sv_msg_pool_cache st ++ sv_msg_pool_free st <->
                      exists m, M st !! i = Some m /\ m_is_valid_pool_item m = false;
  si_hand : forall i, hand = Some i -> exists m, M st !! i = Some m /\ m_is_valid_pool_item m = true;
  si_req : forall s i, sv_request_q st !! s = Some i -> hand <> Some i ->
           exists m, M st !! i = Some m /\ sendable m /\ m_seq_no m = s /\ armed_req k st m;
  si_resp : forall key i, sv_response_q st !! key = Some i -> hand <> Some i ->
            exists m, M st !! i = Some m /\ sendable m /\ request_key m = key /\ armed_resp k st i m;
  si_valid : forall i m, M st !! i = Some m -> m_is_valid_pool_item m = true -> hand <> Some i ->
             sv_request_q st !! m_seq_no m = Some i \/ sv_response_q st !! request_key m = Some i;
  si_wheel : forall h id d, W st !! h = Some (id, d) ->
             (exists s, id24 s /\ own s = true /\ id = T1 s)
             \/ exists i m, id = RESP i /\ M st !! i = Some m /\ m_is_valid_pool_item m = true
                /\ (hand <> Some i -> m_timer m = h /\ sv_response_q st !! request_key m = Some i);
  si_pend : forall e, e ∈ pend k st ->
            other_id e \/ (exists s, id24 s /\ own s = true /\ e = T1 s)
            \/ exists i m, e = RESP i /\ M st !! i = Some m /\ m_is_valid_pool_item m = true
               /\ (hand <> Some i -> sv_response_q st !! request_key m = Some i);
  si_once : forall i, id24 i -> (count_occ Z.eq_dec (pend k st) (RESP i) <= 1)%nat;
  si_stale : forall e, e ∈ take k (sv_expired st) ->
             other_id e \/ (exists s, id24 s /\ own s = true /\ e = T1 s)
             \/ exists i, id24 i /\ e = RESP i /\ (hand = Some i \/ i ∈ sv_msg_pool_free st);
  si_room : Z.of_nat (size (M st)) + Z.of_nat n <= 2 ^ 24;
  si_timer_room : Z.of_nat (size (W st)) + Z.of_nat n + Zlen (pend k st) < u32_none;
  si_fresh : forall j : Z, 1 <= j <= Z.of_nat n ->
             let s := (sv_seq_no st + j) mod 2 ^ 24 in own s = true /\ sv_request_q st !! s = None;
  si_clock : forall t, t = 10 \/ t = 30 -> f64_eqb (f64_add (sv_now st) (f64_of_Z t)) f64_zero = false }.

(** no timer of the response [i] is running or waits to be handled *)
Definition quiet (i : Z) (st : server) : Prop := (forall h d, W st !! h <> Some (RESP i, d)) /\ RESP i ∉ sv_expired st.

Definition unqueued (i : Z) (st : server) : Prop :=
  (forall s, sv_request_q st !! s <> Some i) /\ (forall key, sv_response_q st !! key <> Some i).

Lemma pend_in e k st : e ∈ pend k st -> e ∈ sv_expired st.
Proof. intros He. unfold pend in He. rewrite <- (take_drop k (sv_expired st)). apply elem_of_app. by right. Qed.

(** *** Taking and releasing a message *)

Lemma inv_take n k i m st :
  sv_inv n k None st -> M st !! i = Some m -> m_is_valid_pool_item m = true -> sv_inv n k (Some i) st.
Proof.
  intros [] Hm Hv. split; try done.
  - intros ? [= <-]. eauto.
  - intros s j Hj _. by apply si_req0.
  - intros s j Hj _. by apply si_resp0.
  - intros j mj Hj Hvj _. by apply si_valid0.
  - intros h id d Hh. destruct (si_wheel0 _ _ _ Hh) as [?|(j & mj & ? & ? & ? & Hr)]; [by left|right].
    exists j, mj. repeat (split; [done|]). intros _. by apply Hr.
  - intros e He. destruct (si_pend0 _ He) as [?|[?|(j & mj & ? & ? & ? & Hr)]]; [by left|by right; left|right; right].
    exists j, mj. repeat (split; [done|]). intros _. by apply Hr.
  - intros e He. destruct (si_stale0 _ He) as [?|[?|(j & ? & ? & [?|?])]]; [by left|by right; left|done|right; right].
    exists j. auto.
Qed.

Definition is_request (k : nat) (i : Z) (m : pfcp_msg_t) (st : server) : Prop :=
  sv_request_q st !! m_seq_no m = Some i /\ armed_req k st m /\ quiet i st
  /\ (forall s, sv_request_q st !! s = Some i -> s = m_seq_no m) /\ (forall key, sv_response_q st !! key <> Some i).
Definition is_response (k : nat) (i : Z) (m : pfcp_msg_t) (st : server) : Prop :=
  sv_response_q st !! request_key m = Some i /\ armed_resp k st i m
  /\ (forall h d, W st !! h = Some (RESP i, d) -> h = m_timer m)
  /\ (forall key, sv_response_q st !! key = Some i -> key = request_key m) /\ (forall s, sv_request_q st !! s <> Some i)
  /\ RESP i ∉ take k (sv_expired st).

Lemma inv_release n k i m st :
  sv_inv n k (Some i) st -> M st !! i = Some m -> sendable m ->
  is_request k i m st \/ is_response k i m st -> sv_inv n k None st.
Proof.
  intros [] Hm Hs Hrole. split; try done.
  - intros s j Hj _. destruct (decide (i = j)) as [<-|Hij]; [|apply si_req0; [done|congruence]].
    destruct Hrole as [(? & ? & ? & Hu & ?)|(? & ? & ? & ? & Hu & _)]; [|by apply Hu in Hj].
    exists m. rewrite (Hu _ Hj). by split_and!.
  - intros key j Hj _. destruct (decide (i = j)) as [<-|Hij]; [|apply si_resp0; [done|congruence]].
    destruct Hrole as [(? & ? & ? & ? & Hu)|(? & ? & ? & Hu & ? & ?)]; [by apply Hu in Hj|].
    exists m. rewrite (Hu _ Hj). by split_and!.
  - intros j mj Hj Hvj _. destruct (decide (i = j)) as [<-|Hij]; [|apply si_valid0; [done..|congruence]].
    simplify_eq. destruct Hrole as [(? & _)|(? & _)]; [by left|by right].
  - intros h id d Hh. destruct (si_wheel0 _ _ _ Hh) as [?|(j & mj & -> & Hj & ? & Hr)]; [by left|right].
    exists j, mj. repeat (split; [done|]). intros _. destruct (decide (i = j)) as [<-|Hij]; [|apply Hr; congruence].
    simplify_eq. destruct Hrole as [(? & ? & [Hq _] & _)|(? & ? & Hq & _)]; [by apply Hq in Hh|].
    by rewrite (Hq _ _ Hh).
  - intros e He. destruct (si_pend0 _ He) as [?|[?|(j & mj & -> & Hj & ? & Hr)]]; [by left|by right; left|right; right].
    exists j, mj. repeat (split; [done|]). intros _. destruct (decide (i = j)) as [<-|Hij]; [|apply Hr; congruence].
    simplify_eq. destruct Hrole as [(? & ? & [_ Hq] & _)|(? & _)]; [|done]. by apply pend_in in He.
  - intros e He. destruct (si_stale0 _ He) as [?|[?|(j & ? & -> & [Hj|?])]]; [by left|by right; left| |right; right].
    + injection Hj as <-. exfalso. destruct Hrole as [(? & ? & [_ Hq] & _)|(? & ? & ? & ? & ? & Hq)]; [|done].
      apply Hq. rewrite <- (take_drop k (sv_expired st)). apply elem_of_app. by left.
    + exists j. auto.
Qed.

(** *** Changing the message in hand *)

Lemma inv_set_msg n k i m st :
  sv_inv n k (Some i) st -> m_is_valid_pool_item m = true -> sv_inv n k (Some i) (set_sv_msg st i m).
Proof.
  intros [] Hv. destruct (si_hand0 i eq_refl) as (m0 & Hm0 & Hv0).
  assert (forall j, Some i <> Some j -> <[i:=m]> (M st) !! j = M st !! j) as Hne
    by (intros j Hj; apply lookup_insert_ne; congruence).
  split; simpl; try done.
  - intros j mj Hj. destruct (decide (i = j)) as [<-|Hij]; [by eapply si_index0|].
    rewrite lookup_insert_ne in Hj by done. by eapply si_index0.
  - intros j. rewrite si_idle0. destruct (decide (i = j)) as [<-|Hij]; [|by rewrite lookup_insert_ne].
    rewrite lookup_insert_eq, Hm0. split; intros (? & [= <-] & ?); congruence.
  - intros ? [= <-]. exists m. by rewrite lookup_insert_eq.
  - intros s j Hj Hij. rewrite Hne by done. by apply si_req0.
  - intros s j Hj Hij. rewrite Hne by done. by apply si_resp0.
  - intros j mj Hj Hvj Hij. rewrite Hne in Hj by done. by apply si_valid0.
  - intros h id d Hh. destruct (si_wheel0 _ _ _ Hh) as [?|(j & mj & ? & Hj & ? & Hr)]; [by left|right].
    destruct (decide (i = j)) as [<-|Hij]; [exists i, m; rewrite lookup_insert_eq; by repeat (split; [done|])|].
    exists j, mj. rewrite lookup_insert_ne by done. by repeat (split; [done|]).
  - intros e He. destruct (si_pend0 _ He) as [?|[?|(j & mj & ? & Hj & ? & Hr)]]; [by left|by right; left|right; right].
    destruct (decide (i = j)) as [<-|Hij]; [exists i, m; rewrite lookup_insert_eq; by repeat (split; [done|])|].
    exists j, mj. rewrite lookup_insert_ne by done. by repeat (split; [done|]).
  - by rewrite map_size_insert_Some by eauto.
Qed.

(** *** Queues *)

Lemma inv_del_req n k i s st :
  sv_inv n k (Some i) st -> (forall j, sv_request_q st !! s = Some j -> j = i) ->
  sv_inv n k (Some i) (set_sv_queues st (delete s (sv_request_q st)) (sv_response_q st)).
Proof.
  intros [] Hs. split; simpl; try done.
  - intros s' j Hj Hij. apply lookup_delete_Some in Hj as [_ Hj]. by apply si_req0.
  - intros j mj Hj Hvj Hij. destruct (si_valid0 _ _ Hj Hvj Hij) as [Hq|?]; [|by right].
    left. rewrite lookup_delete_ne; [done|]. intros ->. apply Hs in Hq. congruence.
  - intros j Hj. split; [by apply si_fresh0|]. apply lookup_delete_None. right. by apply si_fresh0.
Qed.

Lemma inv_del_resp n k i key st :
  sv_inv n k (Some i) st -> (forall j, sv_response_q st !! key = Some j -> j = i) ->
  sv_inv n k (Some i) (set_sv_queues st (sv_request_q st) (delete key (sv_response_q st))).
Proof.
  intros [] Hk. split; simpl; try done.
  - intros key' j Hj Hij. apply lookup_delete_Some in Hj as [_ Hj]. by apply si_resp0.
  - intros j mj Hj Hvj Hij. destruct (si_valid0 _ _ Hj Hvj Hij) as [?|Hq]; [by left|].
    right. rewrite lookup_delete_ne; [done|]. intros ->. apply Hk in Hq. congruence.
  - intros h id d Hh. destruct (si_wheel0 _ _ _ Hh) as [?|(j & mj & -> & Hj & ? & Hr)]; [by left|right].
    exists j, mj. repeat (split; [done|]). intros Hij. destruct (Hr Hij) as [? Hq]. split; [done|].
    rewrite lookup_delete_ne; [done|]. intros ->. apply Hk in Hq. congruence.
  - intros e He. destruct (si_pend0 _ He) as [?|[?|(j & mj & -> & Hj & ? & Hr)]]; [by left|by right; left|right; right].
    exists j, mj. repeat (split; [done|]). intros Hij. pose proof (Hr Hij) as Hq.
    rewrite lookup_delete_ne; [done|]. intros ->. apply Hk in Hq. congruence.
Qed.

Lemma inv_put_req n k i s st :
  sv_inv n k (Some i) st -> sv_request_q st !! s = None ->
  (forall j : Z, 1 <= j <= Z.of_nat n -> (sv_seq_no st + j) mod 2 ^ 24 <> s) ->
  sv_inv n k (Some i) (set_sv_queues st (<[s := i]> (sv_request_q st)) (sv_response_q st)).
Proof.
  intros [] Hs Hf. split; simpl; try done.
  - intros s' j Hj Hij. apply lookup_insert_Some in Hj as [[-> ->]|[_ Hj]]; [congruence|]. by apply si_req0.
  - intros j mj Hj Hvj Hij. destruct (si_valid0 _ _ Hj Hvj Hij) as [Hq|?]; [|by right].
    left. rewrite lookup_insert_ne; [done|]. intros ->. congruence.
  - intros j Hj. destruct (si_fresh0 j Hj) as [? Hn]. split; [done|]. rewrite lookup_insert_ne; [done|]. intros E.
    by apply (Hf j Hj).
Qed.

Lemma inv_put_resp n k i key st :
  sv_inv n k (Some i) st -> sv_response_q st !! key = None ->
  sv_inv n k (Some i) (set_sv_queues st (sv_request_q st) (<[key := i]> (sv_response_q st))).
Proof.
  intros [] Hk. split; simpl; try done.
  - intros key' j Hj Hij. apply lookup_insert_Some in Hj as [[-> ->]|[_ Hj]]; [congruence|]. by apply si_resp0.
  - intros j mj Hj Hvj Hij. destruct (si_valid0 _ _ Hj Hvj Hij) as [?|Hq]; [by left|].
    right. rewrite lookup_insert_ne; [done|]. intros ->. congruence.
  - intros h id d Hh. destruct (si_wheel0 _ _ _ Hh) as [?|(j & mj & -> & Hj & ? & Hr)]; [by left|right].
    exists j, mj. repeat (split; [done|]). intros Hij. destruct (Hr Hij) as [? Hq]. split; [done|].
    rewrite lookup_insert_ne; [done|]. intros ->. congruence.
  - intros e He. destruct (si_pend0 _ He) as [?|[?|(j & mj & -> & Hj & ? & Hr)]]; [by left|by right; left|right; right].
    exists j, mj. repeat (split; [done|]). intros Hij. pose proof (Hr Hij) as Hq.
    rewrite lookup_insert_ne; [done|]. intros ->. congruence.
Qed.

(** *** The pool *)

Lemma inv_put n k i st :
  sv_inv n k (Some i) st -> (forall h d, W st !! h <> Some (RESP i, d)) -> RESP i ∉ pend k st -> unqueued i st ->
  exists st', pfcp_msg_pool_put st i = Ok st' /\ sv_inv n k None st'.
Proof.
  intros [] Hqw Hqe [Hur Hus]. destruct (si_hand0 i eq_refl) as (m & Hm & Hv).
  unfold pfcp_msg_pool_put, pfcp_msg_pool_elt_at_index, pool_elt. rewrite Hm. unfold assert. rewrite Hv. cbn [obind].
  eexists. split; [reflexivity|]. set (m' := msg_set_valid _ _).
  assert (i ∉ sv_msg_pool_cache st ++ sv_msg_pool_free st) as Hi.
  { intros Hin. apply si_idle0 in Hin as (? & ? & ?). congruence. }
  assert (forall j, Some i <> Some j -> <[i:=m']> (M st) !! j = M st !! j) as Hne
    by (intros j Hj; apply lookup_insert_ne; congruence).
  split; simpl; try done.
  - intros j mj Hj. destruct (decide (i = j)) as [<-|Hij]; [by eapply si_index0|].
    rewrite lookup_insert_ne in Hj by done. by eapply si_index0.
  - apply NoDup_app in si_lists0 as (Hc & Hcf & Hf). apply NoDup_app. split_and!; [done| |].
    + intros j Hj. rewrite elem_of_cons. intros [->|Hj']; [apply Hi, elem_of_app; by left|by eapply Hcf].
    + constructor; [|done]. intros Hin. apply Hi, elem_of_app. by right.
  - intros j. rewrite elem_of_app, elem_of_cons. destruct (decide (i = j)) as [<-|Hij].
    + rewrite lookup_insert_eq. split; [intros _; by exists m'|intros _; right; by left].
    + rewrite lookup_insert_ne by done. rewrite <- si_idle0, elem_of_app. split; [intros [?|[?|?]]|intros [?|?]]; auto.
      congruence.
  - intros s j Hj _. assert (Some i <> Some j) by (intros [= <-]; by apply Hur in Hj). rewrite Hne by done. by apply si_req0.
  - intros s j Hj _. assert (Some i <> Some j) by (intros [= <-]; by apply Hus in Hj). rewrite Hne by done. by apply si_resp0.
  - intros j mj Hj Hvj _. destruct (decide (i = j)) as [<-|Hij].
    + rewrite lookup_insert_eq in Hj. by injection Hj as <-.
    + rewrite lookup_insert_ne in Hj by done. apply si_valid0; congruence.
  - intros h id d Hh. destruct (si_wheel0 _ _ _ Hh) as [?|(j & mj & -> & Hj & ? & Hr)]; [by left|right].
    assert (Some i <> Some j) as Hij by (intros [= <-]; by apply Hqw in Hh).
    exists j, mj. rewrite Hne by done. repeat (split; [done|]). intros _. by apply Hr.
  - intros e He. destruct (si_pend0 _ He) as [?|[?|(j & mj & -> & Hj & ? & Hr)]]; [by left|by right; left|right; right].
    assert (Some i <> Some j) as Hij by (intros [= <-]; done).
    exists j, mj. rewrite Hne by done. repeat (split; [done|]). intros _. by apply Hr.
  - intros e He. destruct (si_stale0 _ He) as [?|[?|(j & ? & ? & Hj)]]; [by left|by right; left|right; right].
    exists j. rewrite elem_of_cons. split_and!; [done..|]. right. destruct Hj as [[= ->]|?]; auto.
  - by rewrite map_size_insert_Some by eauto.
Qed.

(** what getting a message leaves as it is *)
Definition same_but_pool (st st' : server) : Prop :=
  sv_request_q st' = sv_request_q st /\ sv_response_q st' = sv_response_q st /\ sv_timer st' = sv_timer st
  /\ sv_expired st' = sv_expired st /\ sv_seq_no st' = sv_seq_no st /\ sv_now st' = sv_now st
  /\ sv_sent st' = sv_sent st /\ sv_start_time st' = sv_start_time st.

(** a message that was idle, or did not exist, is neither queued nor has a timer *)
Lemma idle_quiet n k i st :
  sv_inv n k None st -> id24 i -> (forall m, M st !! i = Some m -> m_is_valid_pool_item m = false) ->
  i ∉ sv_msg_pool_free st -> quiet i st /\ unqueued i st.
Proof.
  intros [] Hi Hidle Hf.
  assert (forall m, M st !! i = Some m -> m_is_valid_pool_item m = true -> False) as Hno
    by (intros m Hm Hv; apply Hidle in Hm; congruence).
  assert (forall j mj, RESP j = RESP i -> M st !! j = Some mj -> j = i) as Hinj
    by (intros j mj E Hj; pose proof (si_index0 _ _ Hj); ids).
  split; split.
  - intros h d Hh. destruct (si_wheel0 _ _ _ Hh) as [(s & Hs & _ & E)|(j & mj & E & Hj & Hvj & _)]; [ids|].
    symmetry in E. rewrite (Hinj _ _ E Hj) in Hj. by eapply Hno.
  - rewrite <- (take_drop k (sv_expired st)). rewrite elem_of_app. intros [He|He].
    + destruct (si_stale0 _ He) as [Ho|[(s & Hs & _ & E)|(j & Hj & E & [?|Hin])]]; [destruct Ho; ids|ids|done|].
      assert (j = i) as -> by ids. done.
    + destruct (si_pend0 _ He) as [Ho|[(s & Hs & _ & E)|(j & mj & E & Hj & Hvj & _)]]; [destruct Ho; ids|ids|].
      symmetry in E. rewrite (Hinj _ _ E Hj) in Hj. by eapply Hno.
  - intros s Hs. destruct (si_req0 _ _ Hs) as (m & Hm & (Hv & _) & _); [done|]. by eapply Hno.
  - intros key Hs. destruct (si_resp0 _ _ Hs) as (m & Hm & (Hv & _) & _); [done|]. by eapply Hno.
Qed.

Lemma inv_activate n k i m p cache st :
  sv_inv (S n) k None st -> id24 i -> m_is_valid_pool_item m = true -> quiet i st -> unqueued i st ->
  pool_elts p = <[i := m]> (M st) -> Forall id24 (pool_free p) ->
  NoDup (cache ++ sv_msg_pool_free st) ->
  (forall j, j ∈ cache ++ sv_msg_pool_free st <-> j ∈ sv_msg_pool_cache st ++ sv_msg_pool_free st /\ j <> i) ->
  sv_inv n k (Some i) (set_sv_pool st p cache (sv_msg_pool_free st)).
Proof.
  intros [] Hi Hv [Hqw Hqe] [Hur Hus] Hp Hpf Hnd Hl. split; simpl; rewrite ?Hp; try done.
  - intros j mj Hj. apply lookup_insert_Some in Hj as [[<- _]|[_ Hj]]; [done|by eapply si_index0].
  - intros j. rewrite Hl, si_idle0. destruct (decide (i = j)) as [<-|Hij].
    + rewrite lookup_insert_eq. split; [by intros []|intros (? & [= <-] & ?); congruence].
    + rewrite lookup_insert_ne by done. split; [by intros []|done].
  - intros ? [= <-]. exists m. by rewrite lookup_insert_eq.
  - intros s j Hj Hij. rewrite lookup_insert_ne by congruence. by apply si_req0.
  - intros s j Hj Hij. rewrite lookup_insert_ne by congruence. by apply si_resp0.
  - intros j mj Hj Hvj Hij. rewrite lookup_insert_ne in Hj by congruence. by apply si_valid0.
  - intros h id d Hh. destruct (si_wheel0 _ _ _ Hh) as [?|(j & mj & -> & Hj & ? & Hr)]; [by left|right].
    assert (i <> j) as Hij by (intros <-; by apply Hqw in Hh).
    exists j, mj. rewrite lookup_insert_ne by done. repeat (split; [done|]). intros _. by apply Hr.
  - intros e He. destruct (si_pend0 _ He) as [?|[?|(j & mj & -> & Hj & ? & Hr)]]; [by left|by right; left|right; right].
    assert (i <> j) as Hij by (intros <-; by apply pend_in in He).
    exists j, mj. rewrite lookup_insert_ne by done. repeat (split; [done|]). intros _. by apply Hr.
  - intros e He. destruct (si_stale0 _ He) as [?|[?|(j & ? & ? & [?|?])]]; [by left|by right; left|done|right; right].
    exists j. auto.
  - assert (size (<[i:=m]> (M st)) <= S (size (M st)))%nat; [|lia].
    destruct (M st !! i) eqn:E; [rewrite map_size_insert_Some by eauto; lia|rewrite map_size_insert_None by done; lia].
  - unfold pend in *. simpl in *. lia.
  - intros j Hj. apply si_fresh0. lia.
Qed.

Lemma inv_get {P : VppPool} {PD : VppPoolDense P} n k st :
  sv_inv (S n) k None st ->
  exists i st', pfcp_msg_pool_get st = Ok (i, st') /\ sv_inv n k (Some i) st' /\ quiet i st' /\ unqueued i st'
  /\ same_but_pool st st'.
Proof.
  intros HI. pose proof HI as []. unfold pfcp_msg_pool_get. destruct (sv_msg_pool_cache st) as [|i cache] eqn:Ec.
  - destruct (pool_pick_below (M st) (pool_free (sv_msg_pool st)) (2 ^ 24)) as [Hn Hi];
      [exact si_unused0|lia|unfold u32_none; lia|].
    cbn [pool_get]. set (i := pool_pick _ _) in *.
    assert (i ∉ sv_msg_pool_free st) as Hif.
    { intros Hin. destruct (proj1 (si_idle0 i)) as (m & Hm & _); [apply elem_of_app; by right|]. congruence. }
    destruct (idle_quiet _ _ i _ HI) as [Hq Hu]; [done|by rewrite Hn|done|].
    eexists i, _. split; [reflexivity|]. split_and!; [|done|done|by repeat split].
    apply (inv_activate n k i (msg_set_valid msg_zero true)); [exact HI|done|done|done|done|reflexivity|..].
    + simpl. apply Forall_forall. intros j Hj. apply list_elem_of_filter in Hj as [_ Hj]. by eapply Forall_forall in si_unused0.
    + done.
    + intros j. rewrite Ec. simpl. split; [|by intros []]. intros Hj. split; [done|]. by intros ->.
  - destruct (proj1 (si_idle0 i)) as (m & Hm & Hv); [by left|]. unfold pool_elt. rewrite Hm.
    simpl in si_lists0. apply NoDup_cons in si_lists0 as [Hi Hnd].
    assert (i ∉ sv_msg_pool_free st) as Hif by (intros ?; apply Hi, elem_of_app; by right).
    destruct (idle_quiet _ _ i _ HI) as [Hq Hu]; [by eapply si_index0|by intros ? ?; simplify_eq|done|].
    eexists i, _. split; [reflexivity|]. split_and!; [|done|done|by repeat split].
    apply (inv_activate n k i (msg_set_valid (init_pfcp_msg m) true)); [exact HI|by eapply si_index0|done|done|done|reflexivity|done|done|].
    intros j. rewrite Ec. cbn [app]. rewrite elem_of_cons. split; [|by intros [[->|?] ?]].
    intros Hj. split; [by right|]. by intros ->.
Qed.

(** *** Timers *)

Lemma Zlen_map_pend k st f p : Zlen (pend k (set_sv_timers st p (map f (sv_expired st)))) = Zlen (pend k st).
Proof. unfold pend, Zlen. simpl. by rewrite !length_drop, length_map. Qed.

(** a timer of the message in hand *)
Definition timer_of (i : Z) (m : pfcp_msg_t) (id : Z) : Prop :=
  id = T1 (m_seq_no m) /\ id24 (m_seq_no m) /\ own (m_seq_no m) = true \/ id = RESP i.

Lemma inv_wheel_add n k i m h id d p st :
  sv_inv n k (Some i) st -> M st !! i = Some m -> timer_of i m id -> W st !! h = None ->
  pool_elts p = <[h := (id, d)]> (W st) ->
  Z.of_nat (size (W st)) + 1 + Z.of_nat n + Zlen (pend k st) < u32_none ->
  sv_inv n k (Some i) (set_sv_timers st p (sv_expired st)).
Proof.
  intros [] Hm Ht Hh Hp Hroom. destruct (si_hand0 i eq_refl) as (m' & Hm' & Hv). simplify_eq.
  split; simpl; rewrite ?Hp; try done.
  - intros s j Hj Hij. destruct (si_req0 _ _ Hj Hij) as (mj & ? & ? & ? & ? & ? & ? & ? & Ha). exists mj.
    repeat (split; [done|]). destruct Ha as [[d' Ha]|Ha]; [left|by right].
    exists d'. simpl. rewrite Hp, lookup_insert_ne; [done|congruence].
  - assert (id24 i) by (by eapply si_index0).
    intros s j Hj Hij. destruct (si_resp0 _ _ Hj Hij) as (mj & Hmj & ? & ? & ? & ? & ? & Ha). exists mj.
    repeat (split; [done|]). destruct Ha as [[[d' Ha] ?]|[Ha Hw]]; [left|right].
    + split; [|done]. exists d'. simpl. rewrite Hp, lookup_insert_ne; [done|congruence].
    + split; [done|]. intros h' d'. simpl. rewrite Hp. intros [[_ E]|[_ Hh']]%lookup_insert_Some; [|by apply Hw in Hh'].
      injection E as E _. pose proof (si_index0 _ _ Hmj). destruct Ht as [(E' & ? & ?)|E']; [ids|]. assert (j = i) by ids. congruence.
  - intros h' id' d' Hh'. apply lookup_insert_Some in Hh' as [[<- E]|[_ Hh']]; [injection E as <- <-|by eapply si_wheel0].
    destruct Ht as [(-> & ? & ?)| ->]; [left; eauto|right]. exists i, m. repeat (split; [done|]). done.
  - rewrite map_size_insert_None by done. unfold pend in *. simpl. lia.
Qed.

Lemma inv_wheel_del n k i m h id d p st :
  sv_inv n k (Some i) st -> M st !! i = Some m -> timer_of i m id -> W st !! h = Some (id, d) ->
  (forall s, sv_request_q st !! s = Some i -> False) ->
  pool_elts p = delete h (W st) ->
  (id = T1 (m_seq_no m) -> sv_request_q st !! m_seq_no m = None) ->
  sv_inv n k (Some i) (set_sv_timers st p (sv_expired st)).
Proof.
  intros [] Hm Ht Hh Hu Hp Hreq. destruct (si_hand0 i eq_refl) as (m' & Hm' & Hv). simplify_eq.
  assert (id24 i) as Hi by (by eapply si_index0).
  split; simpl; rewrite ?Hp; try done.
  - intros s j Hj Hij. destruct (si_req0 _ _ Hj Hij) as (mj & ? & ? & Es & ? & ? & ? & ? & Ha). exists mj.
    repeat (split; [done|]). destruct Ha as [[d' Ha]|Ha]; [left|by right].
    exists d'. simpl. rewrite Hp, lookup_delete_ne; [done|]. intros ->. rewrite Ha in Hh. injection Hh as <- <-.
    destruct Ht as [(E & ? & ?)|E]; [|ids]. assert (m_seq_no mj = m_seq_no m) as E' by ids.
    pose proof (Hreq E). congruence.
  - intros s j Hj Hij. destruct (si_resp0 _ _ Hj Hij) as (mj & Hmj & ? & ? & ? & ? & ? & Ha). exists mj.
    repeat (split; [done|]). destruct Ha as [[[d' Ha] ?]|[Ha Hw]]; [left|right].
    2: { split; [done|]. intros h' d'. simpl. rewrite Hp. intros [_ Hh']%lookup_delete_Some. by apply Hw in Hh'. }
    split; [|done]. exists d'. simpl. rewrite Hp, lookup_delete_ne; [done|]. intros ->. rewrite Ha in Hh. injection Hh as <- <-.
    pose proof (si_index0 _ _ Hmj). destruct Ht as [(E & ? & ?)|E]; [ids|]. assert (j = i) by ids. congruence.
  - intros h' id' d' Hh'. apply lookup_delete_Some in Hh' as [_ Hh']. by eapply si_wheel0.
  - rewrite map_size_delete_Some by eauto. unfold pend in *. simpl. lia.
Qed.

Lemma count_occ_cancel f x l :
  (forall e, f e = x -> e = x) -> (count_occ Z.eq_dec (map f l) x <= count_occ Z.eq_dec l x)%nat.
Proof.
  intros Hf. induction l as [|e l IH]; [done|]. simpl.
  destruct (Z.eq_dec (f e) x) as [E|]; [apply Hf in E as ->; destruct (Z.eq_dec x x); [lia|done]|].
  destruct (Z.eq_dec e x); lia.
Qed.

Definition hit (i : Z) (m : pfcp_msg_t) (e : Z) : bool := (e =? T1 (m_seq_no m)) || (e =? RESP i).
Definition cancel (i : Z) (m : pfcp_msg_t) (e : Z) : Z := if hit i m e then u32_none else e.

Lemma cancel_keeps i m e : hit i m e = false -> cancel i m e = e.
Proof. unfold cancel. by intros ->. Qed.
Lemma hit_false i m e : e <> T1 (m_seq_no m) -> e <> RESP i -> hit i m e = false.
Proof. intros. unfold hit. by rewrite !(proj2 (Z.eqb_neq _ _)). Qed.
Lemma cancel_in i m e l : e ∈ map (cancel i m) l -> e = u32_none \/ e ∈ l.
Proof. intros (x & -> & Hx)%list_elem_of_fmap. unfold cancel. case_test; auto. Qed.
Lemma cancel_stays i m e l : hit i m e = false -> e ∈ l -> e ∈ map (cancel i m) l.
Proof. intros He Hin. apply list_elem_of_fmap. exists e. by rewrite cancel_keeps. Qed.

Lemma inv_cancel n k i m st :
  sv_inv n k (Some i) st -> M st !! i = Some m -> id24 (m_seq_no m) ->
  (own (m_seq_no m) = true -> sv_request_q st !! m_seq_no m = None) ->
  sv_inv n k (Some i) (set_sv_timers st (sv_timer st) (map (cancel i m) (sv_expired st))).
Proof.
  intros [] Hm Hs Hreq. assert (id24 i) as Hi by (by eapply si_index0).
  assert (forall p, pend k (set_sv_timers st p (map (cancel i m) (sv_expired st))) = map (cancel i m) (pend k st)) as Hpend
    by (intros p; unfold pend; simpl; apply skipn_map).
  split; simpl; try done.
  - intros s j Hj Hij. destruct (si_req0 _ _ Hj Hij) as (mj & ? & ? & Es & ? & ? & ? & ? & Ha). exists mj.
    repeat (split; [done|]). destruct Ha as [Ha|Ha]; [by left|right]. rewrite Hpend. apply cancel_stays; [|done].
    apply hit_false; [|ids]. intros E. assert (m_seq_no mj = m_seq_no m) as E' by ids.
    assert (own (m_seq_no m) = true) as Ho by congruence. pose proof (Hreq Ho). congruence.
  - intros s j Hj Hij. destruct (si_resp0 _ _ Hj Hij) as (mj & Hmj & ? & ? & ? & ? & ? & Ha). exists mj.
    pose proof (si_index0 _ _ Hmj) as Hj24. repeat (split; [done|]). destruct Ha as [[? Ha]|Ha]; [left|right].
    + split; [done|]. intros [E|?]%cancel_in; [ids|done].
    + destruct Ha as [Ha Hw]. split; [|done]. rewrite Hpend. apply cancel_stays; [|done]. apply hit_false; [ids|].
      intros E. assert (j = i) by ids. congruence.
  - intros e He. rewrite Hpend in He. apply cancel_in in He as [->|He]; [left; by left|by apply si_pend0].
  - intros j Hj. rewrite Hpend. etransitivity; [|by apply si_once0]. apply count_occ_cancel. intros e. unfold cancel.
    case_test; [intros E; ids|done].
  - intros e He. rewrite firstn_map in He. apply cancel_in in He as [->|He]; [left; by left|by apply si_stale0].
  - rewrite Hpend. unfold Zlen in *. by rewrite length_map.
Qed.

Definition same_queues (st st' : server) : Prop :=
  sv_request_q st' = sv_request_q st /\ sv_response_q st' = sv_response_q st /\ sv_seq_no st' = sv_seq_no st
  /\ sv_now st' = sv_now st /\ sv_sent st' = sv_sent st /\ sv_tick st' = sv_tick st.

(** stopping the timer of a message in hand, a request that is in no queue any
    more or a response *)
Lemma stop_ok n k i m st :
  sv_inv n k (Some i) st -> M st !! i = Some m -> (forall s, sv_request_q st !! s <> Some i) ->
  armed_req k st m /\ quiet i st /\ sv_request_q st !! m_seq_no m = None
  \/ armed_resp k st i m /\ (forall h d, W st !! h = Some (RESP i, d) -> h = m_timer m) ->
  exists st', upf_pfcp_server_stop_msg_timer st i = Ok st' /\ sv_inv n k (Some i) st' /\ quiet i st'
  /\ M st' !! i = Some (msg_set_timer m u32_none (m_expires_at m)) /\ same_queues st st'.
Proof.
  intros HI Hm Hu Hcase. pose proof HI as [].
  destruct (si_hand0 i eq_refl) as (m' & Hm' & Hv). rewrite Hm in Hm'. injection Hm' as <-.
  assert (id24 i) as Hi by (by eapply si_index0).
  assert (m_timer m <> u32_none /\ id24 (m_seq_no m)
    /\ (own (m_seq_no m) = true -> sv_request_q st !! m_seq_no m = None)) as (Ht & Hs & Hreq).
  { destruct Hcase as [((? & ? & ? & _) & _ & ?)|((? & ? & E & _) & _)]; [done|]. split_and!; [done..|congruence]. }
  unfold upf_pfcp_server_stop_msg_timer, pfcp_msg_pool_elt_at_index, pool_elt. rewrite Hm. unfold assert. rewrite Hv.
  cbn [obind]. rewrite (proj2 (Z.eqb_neq _ _) Ht). fold (T1 (m_seq_no m)). fold (RESP i).
  change (fun e => (e =? T1 (m_seq_no m)) || (e =? RESP i)) with (hit i m).
  change (fun e => if (e =? T1 (m_seq_no m)) || (e =? RESP i) then u32_none else e) with (cancel i m).
  pose proof (inv_cancel _ _ _ _ _ HI Hm Hs Hreq) as HI1. set (st1 := set_sv_timers st _ _) in *.
  assert (RESP i ∉ sv_expired st1) as Hq1.
  { simpl. intros (e & E & He)%list_elem_of_fmap. unfold cancel in E. destruct (hit i m e) eqn:Eh; [ids|].
    subst e. unfold hit in Eh. by rewrite Z.eqb_refl, orb_true_r in Eh. }
  assert (forall st2, sv_inv n k (Some i) st2 -> quiet i st2 -> M st2 = M st -> same_queues st st2 ->
    exists st', Ok (set_sv_msg st2 i (msg_set_timer m u32_none (m_expires_at m))) = Ok st' /\ sv_inv n k (Some i) st'
    /\ quiet i st' /\ M st' !! i = Some (msg_set_timer m u32_none (m_expires_at m)) /\ same_queues st st') as Hfin.
  { intros st2 HI2 Hq2 _ Hsame. eexists. split; [reflexivity|]. split; [by apply inv_set_msg|]. split; [done|].
    split; [apply lookup_insert_eq|done]. }
  destruct (existsb (hit i m) (sv_expired st)) eqn:Ef; cbn [obind].
  - apply Hfin; [done| |done|by repeat split]. split; [|done]. intros h d Hh. simpl in Hh.
    destruct Hcase as [(_ & [Hq _] & _)|[Ha Huq]]; [by apply Hq in Hh|].
    destruct Ha as (_ & _ & Ho & [[_ Ha]|Ha]).
    + apply existsb_exists in Ef as (e & He%list_elem_of_In & [E|E]%orb_true_iff);
        apply Z.eqb_eq in E; subst e; [|done].
      rewrite <- (take_drop k (sv_expired st)) in He. apply elem_of_app in He as [He|He].
      * destruct (si_stale0 _ He) as [Hx|[(s & ? & ? & E)|(j & ? & E & _)]]; [destruct Hx; ids| |ids].
        assert (m_seq_no m = s) by ids. congruence.
      * destruct (si_pend0 _ He) as [Hx|[(s & ? & ? & E)|(j & mj & E & Hj & _)]]; [destruct Hx; ids| |].
        -- assert (m_seq_no m = s) by ids. congruence.
        -- pose proof (si_index0 _ _ Hj). ids.
    + by apply (proj2 Ha) in Hh.
  - assert (forall e, hit i m e = true -> e ∉ sv_expired st) as Hno.
    { intros e He Hin. apply not_true_iff_false in Ef. apply Ef, existsb_exists. exists e. by rewrite <- list_elem_of_In. }
    assert (exists id d, W st !! m_timer m = Some (id, d) /\ timer_of i m id
      /\ (id = T1 (m_seq_no m) -> sv_request_q st !! m_seq_no m = None)
      /\ (forall h d', W st !! h = Some (RESP i, d') -> h = m_timer m)) as (id & d & Hw & Hto & Hrq & Huq).
    { destruct Hcase as [((_ & _ & Ho & _ & [[d Ha]|Ha]) & [Hq _] & Hn)|[(_ & _ & Ho & [[[d Ha] _]|[Ha _]]) Huq]].
      - exists (T1 (m_seq_no m)), d. split_and!; [done|by left|done|]. intros h d' Hh. by apply Hq in Hh.
      - exfalso. apply pend_in in Ha. eapply (Hno (T1 (m_seq_no m))); [|done]. unfold hit. by rewrite Z.eqb_refl.
      - exists (RESP i), d. split_and!; [done|by right|intros E; ids|done].
      - exfalso. apply pend_in in Ha. eapply (Hno (RESP i)); [|done]. unfold hit. by rewrite Z.eqb_refl, orb_true_r. }
    unfold tw_timer_stop, pool_elt. change (sv_timer st1) with (sv_timer st). rewrite Hw. cbn [obind].
    apply Hfin; [|split; [|done]|done|by repeat split].
    + by eapply (inv_wheel_del _ _ i m (m_timer m) id d).
    + intros h d' Hh. simpl in Hh. apply lookup_delete_Some in Hh as [Hne Hh]. by apply Huq in Hh.
Qed.

Lemma inv_advance n k hand e st :
  sv_inv n k hand st -> sv_expired st !! k = Some e ->
  (forall s i, sv_request_q st !! s = Some i -> hand <> Some i -> e <> T1 s) ->
  (forall key i, sv_response_q st !! key = Some i -> hand <> Some i -> e <> RESP i) ->
  (other_id e \/ (exists s, id24 s /\ own s = true /\ e = T1 s)
   \/ exists i, id24 i /\ e = RESP i /\ (hand = Some i \/ i ∈ sv_msg_pool_free st)) ->
  sv_inv n (S k) hand st.
Proof.
  intros [] He Hr Hp Hok. assert (pend k st = e :: pend (S k) st) as Ep by (by apply drop_S).
  assert (forall x, x ∈ pend k st -> x <> e -> x ∈ pend (S k) st) as Hin
    by (intros x; rewrite Ep, elem_of_cons; tauto).
  split; try done.
  - intros s i Hi Hh. destruct (si_req0 _ _ Hi Hh) as (m & ? & ? & <- & ? & ? & ? & ? & Ha). exists m.
    repeat (split; [done|]). destruct Ha as [?|Ha]; [by left|right]. apply Hin; [done|]. symmetry. by eapply Hr.
  - intros key i Hi Hh. destruct (si_resp0 _ _ Hi Hh) as (m & ? & ? & ? & ? & ? & ? & Ha). exists m.
    repeat (split; [done|]). destruct Ha as [?|[Ha ?]]; [by left|right]. split; [|done]. apply Hin; [done|].
    symmetry. by eapply Hp.
  - intros x Hx. apply si_pend0. rewrite Ep. by right.
  - intros i Hi. etransitivity; [|by apply (si_once0 i)]. rewrite Ep. simpl. destruct (Z.eq_dec _ _); lia.
  - intros x Hx. rewrite (take_S_r _ _ e) in Hx by done. apply elem_of_app in Hx as [Hx|Hx]; [by apply si_stale0|].
    apply list_elem_of_singleton in Hx as ->. done.
  - rewrite Ep, Zlen_cons in si_timer_room0. lia.
Qed.

Lemma inv_weaken n k hand st : sv_inv (S n) k hand st -> sv_inv n k hand st.
Proof. intros []. split; try done; [lia|lia|]. intros j Hj. apply si_fresh0. lia. Qed.

(** starting the timer of the message in hand *)
Lemma start_ok {P : VppPool} {POk : VppPoolOk P} n k i m0 m type id secs st :
  sv_inv n k (Some i) st -> M st !! i = Some m0 -> m_seq_no m = m_seq_no m0 -> m_is_valid_pool_item m = true ->
  0 <= type < 8 -> id24 id -> timer_of i m0 (server_timer_id type id) ->
  Z.of_nat (size (W st)) + 1 + Z.of_nat n + Zlen (pend k st) < u32_none ->
  exists h d st', start_msg_timer st i m type id secs = Ok st' /\ sv_inv n k (Some i) st'
  /\ h <> u32_none /\ W st' = <[h := (server_timer_id type id, d)]> (W st) /\ W st !! h = None
  /\ M st' !! i = Some (msg_set_timer m h (f64_add (sv_now st) (f64_of_Z secs)))
  /\ same_queues st st' /\ sv_expired st' = sv_expired st.
Proof.
  intros HI Hm Hseq Hv Hty Hid Hto Hroom. unfold start_msg_timer, upf_pfcp_server_start_timer, assert.
  rewrite (proj2 (Z.ltb_lt _ _)) by lia.
  rewrite id24_land by done.
  cbn [Z.eqb obind tw_timer_start pool_get]. set (h := pool_pick _ _).
  destruct (pool_pick_free (W st) (pool_free (sv_timer st))) as [Hn Hh]; [unfold Zlen in Hroom; lia|]. fold h in Hn, Hh.
  eexists h, _, _. split; [reflexivity|]. split_and!; [|lia|reflexivity|done|apply lookup_insert_eq|by repeat split|done].
  apply inv_set_msg; [|done]. by eapply (inv_wheel_add n k i m0 h _ _ _ st).
Qed.

(** *** Operations

    What may stop the server is not its own doing: an index of an association
    or a session that is not in use, a null pointer, or a fault of the encoder. *)

Section Ops.
Context {V : Vppinfra} {P : VppPool} {POk : VppPoolOk P} {PD : VppPoolDense P} (session_valid : Z -> bool).

Definition allowed (f : fault) : Prop :=
  f = BadIndex \/ f = NullDeref \/ f = Callback \/ exists dmsg, pfcp_encode_msg dmsg = Fault f.
Definition safe {X} (Q : X -> Prop) (o : outcome X) : Prop :=
  match o with Ok x => Q x | Err _ => False | Fault f => allowed f end.

Lemma safe_obind {X Y} (Q : X -> Prop) (R : Y -> Prop) o (f : X -> outcome Y) :
  safe Q o -> (forall x, Q x -> safe R (f x)) -> safe R (obind o f).
Proof. destruct o; simpl; [|done|done]. intros Hq Hf. by apply Hf. Qed.
Lemma safe_mono {X} (Q R : X -> Prop) o : safe Q o -> (forall x, Q x -> R x) -> safe R o.
Proof. destruct o; simpl; auto. Qed.
Lemma safe_ok {X} (Q : X -> Prop) o x : o = Ok x -> Q x -> safe Q o.
Proof. by intros ->. Qed.

Lemma elt_ok st i m : M st !! i = Some m -> m_is_valid_pool_item m = true -> pfcp_msg_pool_elt_at_index st i = Ok m.
Proof. intros Hm Hv. unfold pfcp_msg_pool_elt_at_index, pool_elt, assert. by rewrite Hm, Hv. Qed.

Lemma inv_sent n k hand st x : sv_inv n k hand st -> sv_inv n k hand (set_sv_sent st x).
Proof. intros []. by split. Qed.
Lemma inv_free_msgs n k hand st x : sv_inv n k hand st -> sv_inv n k hand (set_sv_free_msgs st x).
Proof. intros []. by split. Qed.

Lemma send_data_ok n k hand st m :
  sv_inv n k hand st -> is_Some (m_data m) ->
  exists x, upf_pfcp_send_data session_valid st m = Ok (set_sv_sent st x) /\ sv_inv n k hand (set_sv_sent st x).
Proof.
  intros HI [d Hd]. unfold upf_pfcp_send_data. rewrite Hd. destruct (session_valid _); cbn [negb].
  - eexists. split; [reflexivity|by apply inv_sent].
  - exists (sv_sent st). split; [by destruct st|by apply inv_sent].
Qed.

Lemma next_seq_ok n k hand st :
  sv_inv (S n) k hand st ->
  exists s, next_seq_no st = (s, set_sv_seq_no st (wrap 32 (sv_seq_no st + 1)))
  /\ sv_inv n k hand (set_sv_seq_no st (wrap 32 (sv_seq_no st + 1))) /\ id24 s /\ own s = true
  /\ sv_request_q st !! s = None
  /\ forall j : Z, 1 <= j <= Z.of_nat n -> (wrap 32 (sv_seq_no st + 1) + j) mod 2 ^ 24 <> s.
Proof.
  intros HI. pose proof HI as []. set (x := wrap 32 (sv_seq_no st + 1)).
  assert (forall j, (x + j) mod 2 ^ 24 = (sv_seq_no st + 1 + j) mod 2 ^ 24) as Hx.
  { intros j. unfold x, wrap. rewrite <- (Z.mod_mod_divide _ (2 ^ 32) (2 ^ 24)) by (exists 256; done).
    rewrite Z.add_mod_idemp_l by done. rewrite Z.mod_mod_divide by (exists 256; done). done. }
  exists (x mod 2 ^ 24). pose proof (Hx 0) as Hx0. rewrite !Z.add_0_r in Hx0.
  destruct (si_fresh0 1) as [Ho Hn]; [lia|]. rewrite <- Hx0 in Ho, Hn.
  split; [done|]. split_and!; [|apply Z.mod_pos_bound; lia|done|done|].
  - destruct (inv_weaken _ _ _ _ HI). split; try done. intros j Hj. simpl. fold x. rewrite Hx.
    replace (sv_seq_no st + 1 + j) with (sv_seq_no st + (1 + j)) by lia. apply si_fresh0. lia.
  - intros j Hj E. rewrite Hx, Hx0 in E.
    assert (0 <= j < 2 ^ 24) by lia.
    assert (j mod 2 ^ 24 = 0) as E'; [|rewrite Z.mod_small in E' by lia; lia].
    replace j with (sv_seq_no st + 1 + j - (sv_seq_no st + 1)) by lia. rewrite Zminus_mod, E, Z.sub_diag. done.
Qed.

Lemma enqueue_request_ok n k i m st :
  sv_inv (S n) k (Some i) st -> M st !! i = Some m -> m_is_valid_pool_item m = true -> is_Some (m_data m) ->
  quiet i st -> unqueued i st -> id24 (m_seq_no m) -> own (m_seq_no m) = true ->
  sv_request_q st !! m_seq_no m = None ->
  (forall j : Z, 1 <= j <= Z.of_nat n -> (sv_seq_no st + j) mod 2 ^ 24 <> m_seq_no m) ->
  exists st' h, enqueue_request st i 3 10 = Ok st' /\ sv_inv n k None st'
  /\ M st' !! i = Some (msg_set_timer (msg_set_retries m 3 10) h (f64_add (sv_now st) (f64_of_Z 10)))
  /\ sv_response_q st' = sv_response_q st /\ sv_seq_no st' = sv_seq_no st /\ sv_expired st' = sv_expired st
  /\ sv_msg_pool_free st' = sv_msg_pool_free st.
Proof.
  intros HI Hm Hv Hd [Hqw Hqe] [Hur Hus] Hs Ho Hn Hf. unfold enqueue_request. rewrite (elt_ok _ _ _ Hm Hv). cbn [obind].
  change (m_seq_no (msg_set_retries m 3 10)) with (m_seq_no m). set (st1 := set_sv_queues _ _ _).
  pose proof (si_timer_room _ _ _ _ HI) as Hroom. pose proof (si_clock _ _ _ _ HI 10 (or_introl eq_refl)) as Hcl.
  assert (sv_inv n k (Some i) st1) as HI1 by (apply inv_put_req; [by apply inv_weaken|done|done]).
  destruct (start_ok n k i m (msg_set_retries m 3 10) PFCP_SERVER_T1 (m_seq_no m) 10 st1)
    as (h & d & st' & E & HI' & Hh & HW & HWn & HM & (Hq1 & Hq2 & Hq3 & Hq4 & Hq5 & Hq6) & Hexp);
    [done|done|done|done|done|done|by left|unfold pend in *; simpl; lia|].
  exists st', h. split; [exact E|]. split_and!; [|exact HM|done|done|done|].
  - apply (inv_release n k i _ st' HI' HM); [done|]. left. split_and!.
    + rewrite Hq1. apply lookup_insert_eq.
    + split_and!; [done|done|done|done|]. left. exists d. simpl. rewrite HW. apply lookup_insert_eq.
    + split; [|by rewrite Hexp]. intros h' d'. rewrite HW. intros [[_ E']|[_ Hh']]%lookup_insert_Some; [|by apply Hqw in Hh'].
      injection E' as E' _. pose proof (si_index _ _ _ _ HI' _ _ HM). fold (T1 (m_seq_no m)) in E'. ids.
    + intros s'. rewrite Hq1. unfold st1. simpl. intros [[<- _]|[_ Hs']]%lookup_insert_Some; [done|]. by apply Hur in Hs'.
    + intros key. rewrite Hq2. apply Hus.
  - revert E. unfold start_msg_timer, upf_pfcp_server_start_timer, assert. do 2 (case_match; [|done]). by intros [= <-].
Qed.

Lemma inv_weaken_le n n' k hand st : (n <= n')%nat -> sv_inv n' k hand st -> sv_inv n k hand st.
Proof. intros Hle. induction Hle as [|n' _ IH]; [done|]. intros HI. by apply IH, inv_weaken. Qed.

Lemma enqueue_response_ok n k i m st :
  sv_inv (S n) k (Some i) st -> M st !! i = Some m -> m_is_valid_pool_item m = true -> is_Some (m_data m) ->
  quiet i st -> unqueued i st -> id24 (m_seq_no m) -> own (m_seq_no m) = false ->
  sv_response_q st !! request_key m = None ->
  exists st', enqueue_response st i = Ok st' /\ sv_inv n k None st' /\ sv_expired st' = sv_expired st
  /\ sv_sent st' = sv_sent st.
Proof.
  intros HI Hm Hv Hd [Hqw Hqe] [Hur Hus] Hs Ho Hn. unfold enqueue_response. rewrite (elt_ok _ _ _ Hm Hv). cbn [obind].
  set (st1 := set_sv_queues _ _ _).
  pose proof (si_timer_room _ _ _ _ HI) as Hroom. pose proof (si_clock _ _ _ _ HI 30 (or_intror eq_refl)) as Hcl.
  assert (id24 i) as Hi by (by eapply (si_index _ _ _ _ HI)).
  assert (sv_inv n k (Some i) st1) as HI1 by (apply inv_put_resp; [by apply inv_weaken|done]).
  destruct (start_ok n k i m m PFCP_SERVER_RESPONSE i RESPONSE_TIMEOUT st1)
    as (h & d & st' & E & HI' & Hh & HW & HWn & HM & (Hq1 & Hq2 & Hq3 & Hq4 & Hq5 & Hq6) & Hexp);
    [done|done|done|done|done|done|by right|unfold pend in *; simpl; lia|].
  fold (RESP i) in HW. exists st'. split; [exact E|]. split_and!; [|done|done].
  apply (inv_release n k i _ st' HI' HM); [done|]. right. split_and!.
  - rewrite Hq2. apply lookup_insert_eq.
  - split_and!; [done|done|done|]. left. split; [|by rewrite Hexp]. exists d. simpl. rewrite HW. apply lookup_insert_eq.
  - intros h' d'. rewrite HW. intros [[<- _]|[_ Hh']]%lookup_insert_Some; [done|]. by apply Hqw in Hh'.
  - intros key. rewrite Hq2. unfold st1. simpl. intros [[<- _]|[_ Hs']]%lookup_insert_Some; [done|]. by apply Hus in Hs'.
  - intros s. rewrite Hq1. apply Hur.
  - rewrite Hexp. intros Hin. apply Hqe. rewrite <- (take_drop k (sv_expired st)). apply elem_of_app. by left.
Qed.

(** a request of the peer that is being handled *)
Definition peer_msg (req : pfcp_msg_t) : Prop := id24 (m_seq_no req) /\ own (m_seq_no req) = false.

(** what an operation of the rest of the plugin leaves behind *)
Definition done_with (n k : nat) (st st' : server) : Prop :=
  sv_inv n k None st' /\ sv_expired st' = sv_expired st.

Lemma send_response_ok n k st req dmsg :
  sv_inv (3 + n) k None st -> peer_msg req -> sv_response_q st !! request_key req = None ->
  safe (fun '(_, st') => done_with n k st st') (upf_pfcp_send_response session_valid st req dmsg).
Proof.
  intros HI [Hs Ho] Hn. unfold upf_pfcp_send_response.
  destruct (inv_get (2 + n) k st HI) as (i & st1 & -> & HI1 & Hq & Hu & (E1 & E2 & E3 & E4 & E5 & E6 & _)). cbn [obind].
  destruct (si_hand _ _ _ _ HI1 i eq_refl) as (m & Hm & Hv). rewrite (elt_ok _ _ _ Hm Hv). cbn [obind].
  set (resp := upf_pfcp_make_response m req). destruct (pfcp_encode_msg _) as [data|r|f] eqn:Ee; [| |right; right; right; eauto].
  - set (resp' := msg_set_data resp (Some data)).
    assert (sv_inv (2 + n) k (Some i) (set_sv_msg st1 i resp')) as HI2 by (by apply inv_set_msg).
    destruct (send_data_ok _ _ _ _ resp' HI2) as (x & -> & HI3); [by eexists|]. cbn [obind].
    set (st3 := set_sv_sent _ _) in *.
    destruct (enqueue_response_ok n k i resp' st3) as (st4 & -> & HI4 & E & _);
      [by apply inv_weaken|apply lookup_insert_eq|done|by eexists|done|done|done|done| |].
    { change (sv_response_q st3) with (sv_response_q st1). by rewrite E2. }
    simpl. split; [done|]. rewrite E. exact E4.
  - destruct (inv_put (2 + n) k i (set_sv_msg st1 i resp)) as (st2 & Ep & HI2);
      [by apply inv_set_msg|apply Hq|intros ?%pend_in; by apply Hq|done|].
    rewrite Ep. simpl. split; [by eapply inv_weaken_le; [|done]; lia|].
    revert Ep. unfold pfcp_msg_pool_put. destruct (pfcp_msg_pool_elt_at_index _ _); [|done..]. intros [= <-]. exact E4.
Qed.

(** a message ready to be sent *)
Definition ready (s : Z) (m : pfcp_msg_t) : Prop :=
  m_is_valid_pool_item m = true /\ is_Some (m_data m) /\ m_seq_no m = s.

Lemma send_built_ok n k st encode :
  sv_inv (3 + n) k None st ->
  (forall st m, safe (fun '(r, st') => st' = snd (next_seq_no st) /\
     forall m', r = Some m' -> m_is_valid_pool_item m' = m_is_valid_pool_item m /\ is_Some (m_data m')
                               /\ m_seq_no m' = fst (next_seq_no st)) (encode st m)) ->
  safe (fun st' => done_with n k st st' /\ sv_response_q st' = sv_response_q st)
    (send_built_request session_valid encode st).
Proof.
  intros HI Henc. unfold send_built_request, build_pfcp_msg.
  destruct (inv_get (2 + n) k st HI) as (i & st1 & -> & HI1 & Hq & Hu & (E1 & E2 & E3 & E4 & E5 & E6 & _)). cbn [obind].
  destruct (si_hand _ _ _ _ HI1 i eq_refl) as (m & Hm & Hv). rewrite (elt_ok _ _ _ Hm Hv). cbn [obind].
  pose proof (Henc st1 m) as He. destruct (encode st1 m) as [[r st2]| |f]; [|done|exact He]. cbn [obind].
  destruct He as [-> Hr]. destruct (next_seq_ok (1 + n) k (Some i) st1 HI1) as (s & Es & HI2 & Hs & Ho & Hn & Hf).
  rewrite Es in Hr |- *. cbn [fst snd] in Hr |- *. set (st2 := set_sv_seq_no _ _) in *. destruct r as [m'|].
  - destruct (Hr m' eq_refl) as (Hv' & Hd & Hseq). rewrite Hv in Hv'. subst s. cbn [obind].
    unfold upf_pfcp_server_send_request.
    destruct (enqueue_request_ok n k i m' (set_sv_msg st2 i m')) as (st3 & h & -> & HI3 & HM & Hr3 & _ & Hx3 & _);
      [by apply inv_set_msg|apply lookup_insert_eq|done|done|done|done|done|done|done| |].
    { intros j Hj. apply Hf. lia. }
    cbn [obind]. rewrite (elt_ok _ _ _ HM Hv'). cbn [obind].
    destruct (send_data_ok _ _ _ _ (msg_set_timer (msg_set_retries m' 3 10) h (f64_add (sv_now (set_sv_msg st2 i m')) (f64_of_Z 10))) HI3)
      as (x & -> & HI4); [done|].
    split; [split; [done|]|]; [exact (eq_trans Hx3 E4)|exact (eq_trans Hr3 E2)].
  - destruct (inv_put (1 + n) k i st2) as (st3 & Ep & HI3); [done|apply Hq|intros ?%pend_in; by apply Hq|done|].
    rewrite Ep. cbn [obind]. simpl. revert Ep. unfold pfcp_msg_pool_put.
    destruct (pfcp_msg_pool_elt_at_index _ _); [|done..]. intros [= <-].
    split; [split; [by eapply inv_weaken_le; [|done]; lia|exact E4]|exact E2].
Qed.

Lemma encode_session_safe si sx nd dmsg st m :
  safe (fun '(r, st') => st' = snd (next_seq_no st) /\
     forall m', r = Some m' -> m_is_valid_pool_item m' = m_is_valid_pool_item m /\ is_Some (m_data m')
                               /\ m_seq_no m' = fst (next_seq_no st)) (encode_pfcp_session_msg st si sx nd dmsg m).
Proof.
  unfold encode_pfcp_session_msg. destruct nd as [nd|]; [|by left]. destruct (next_seq_no st) as [s st'].
  destruct (pfcp_encode_msg _) eqn:E; simpl; [|done|right; right; right; eauto]. split; [done|]. intros m' [= <-]. eauto.
Qed.
Lemma encode_node_safe ni nd dmsg st m :
  safe (fun '(r, st') => st' = snd (next_seq_no st) /\
     forall m', r = Some m' -> m_is_valid_pool_item m' = m_is_valid_pool_item m /\ is_Some (m_data m')
                               /\ m_seq_no m' = fst (next_seq_no st)) (encode_pfcp_node_msg st ni nd dmsg m).
Proof.
  unfold encode_pfcp_node_msg. destruct (next_seq_no st) as [s st'].
  destruct (pfcp_encode_msg _) eqn:E; simpl; [|done|right; right; right; eauto]. split; [done|]. intros m' [= <-]. eauto.
Qed.

(** Calls of the plugin that send at most [c] / 3 messages, among them at most
    one response, and none at all unless [r] *)
Inductive behaves {A} : bool -> nat -> upcall A -> Prop :=
| behaves_return r c a : behaves r c (Return a)
| behaves_stop r c : behaves r c Stop
| behaves_response c dmsg f : (forall z, behaves false c (f z)) -> behaves true (3 + c) (SendResponse dmsg f)
| behaves_session r c si sx nd dmsg p : behaves r c p -> behaves r (3 + c) (SendSessionRequest si sx nd dmsg p)
| behaves_node r c ni nd dmsg p : behaves r c p -> behaves r (3 + c) (SendNodeRequest ni nd dmsg p)
| behaves_free r c node p : behaves r c p -> behaves r c (FreeMsgsByNode node p).

Lemma run_upcall_ok {A} n k r c req (p : upcall A) st :
  behaves r c p -> sv_inv (c + n) k None st ->
  (r = true -> peer_msg req /\ sv_response_q st !! request_key req = None) ->
  safe (fun '(_, st') => done_with n k st st') (run_upcall session_valid req p st).
Proof.
  intros Hb. revert st. induction Hb as [r c a|r c|c dmsg f Hf IH|r c si sx nd dmsg p Hp IH|r c ni nd dmsg p Hp IH|r c node p Hp IH];
    intros st HI Hreq; cbn [run_upcall].
  - split; [by eapply inv_weaken_le; [|done]; lia|done].
  - by right; right; left.
  - destruct (Hreq eq_refl) as [Hpm Hn]. eapply safe_obind; [by apply (send_response_ok (c + n) k)|].
    intros [z st1] [HI1 E1]. pose proof (IH z st1 HI1 ltac:(done)) as H. revert H.
    unfold safe. destruct (run_upcall _ _ _ _) as [[a st2]| |]; [|done..]. intros [? E]. split; [done|congruence].
  - eapply safe_obind; [apply (send_built_ok (c + n) k); [done|intros; apply encode_session_safe]|].
    intros st1 [[HI1 E1] E2]. assert (safe (fun '(_, st') => done_with n k st1 st') (run_upcall session_valid req p st1)) as H.
    { apply IH; [done|]. by rewrite E2. }
    revert H. unfold safe. destruct (run_upcall _ _ _ _) as [[a st2]| |]; [|done..]. intros [? E]. split; [done|congruence].
  - eapply safe_obind; [apply (send_built_ok (c + n) k); [done|intros; apply encode_node_safe]|].
    intros st1 [[HI1 E1] E2]. assert (safe (fun '(_, st') => done_with n k st1 st') (run_upcall session_valid req p st1)) as H.
    { apply IH; [done|]. by rewrite E2. }
    revert H. unfold safe. destruct (run_upcall _ _ _ _) as [[a st2]| |]; [|done..]. intros [? E]. split; [done|congruence].
  - by apply (IH (upf_pfcp_server_deferred_free_msgs_by_node st node)); [apply inv_free_msgs|].
Qed.

(** *** Messages in the queues *)

Lemma queued_request n k st s i :
  sv_inv n k None st -> sv_request_q st !! s = Some i ->
  exists m, M st !! i = Some m /\ sendable m /\ m_seq_no m = s /\ is_request k i m st.
Proof.
  intros HI Hs. pose proof HI as []. destruct (si_req0 _ _ Hs) as (m & Hm & Hsend & <- & Ha); [done|].
  assert (id24 i) as Hi by (by eapply si_index0). pose proof Ha as (? & ? & Ho & _).
  assert (forall key, sv_response_q st !! key <> Some i) as Hnr.
  { intros key Hk. destruct (si_resp0 _ _ Hk) as (m' & ? & _ & _ & _ & _ & ? & _); [done|]. simplify_eq. congruence. }
  exists m. split_and!; try done. split_and!; try done.
  - split.
    + intros h d Hh. destruct (si_wheel0 _ _ _ Hh) as [(x & ? & _ & E)|(j & mj & E & Hj & _ & Hr)]; [ids|].
      pose proof (si_index0 _ _ Hj). assert (j = i) as -> by ids. destruct Hr as [_ Hr]; [done|]. by apply Hnr in Hr.
    + rewrite <- (take_drop k (sv_expired st)), elem_of_app. intros [He|He].
      * destruct (si_stale0 _ He) as [Hx|[(x & ? & _ & E)|(j & ? & E & [?|Hj])]]; [destruct Hx; ids|ids|done|].
        assert (j = i) as -> by ids. destruct (proj1 (si_idle0 i)) as (m' & ? & Hf); [apply elem_of_app; by right|].
        destruct Hsend as [Hv _]. congruence.
      * destruct (si_pend0 _ He) as [Hx|[(x & ? & _ & E)|(j & mj & E & Hj & _ & Hr)]]; [destruct Hx; ids|ids|].
        pose proof (si_index0 _ _ Hj). assert (j = i) as -> by ids. apply (Hnr (request_key mj)). by apply Hr.
  - intros s' Hs'. destruct (si_req0 _ _ Hs') as (m' & ? & _ & <- & _); [done|]. by simplify_eq.
Qed.

Lemma queued_response n k st key i :
  sv_inv n k None st -> sv_response_q st !! key = Some i ->
  exists m, M st !! i = Some m /\ sendable m /\ request_key m = key /\ is_response k i m st.
Proof.
  intros HI Hs. pose proof HI as []. destruct (si_resp0 _ _ Hs) as (m & Hm & Hsend & <- & Ha); [done|].
  assert (id24 i) as Hi by (by eapply si_index0).
  exists m. split_and!; try done. split_and!; try done.
  - intros h d Hh. destruct (si_wheel0 _ _ _ Hh) as [(x & ? & _ & E)|(j & mj & E & Hj & _ & Hr)]; [ids|].
    pose proof (si_index0 _ _ Hj). assert (j = i) as -> by ids. simplify_eq. symmetry. by apply Hr.
  - intros key' Hk. destruct (si_resp0 _ _ Hk) as (m' & ? & _ & <- & _); [done|]. by simplify_eq.
  - intros s Hs'. destruct (si_req0 _ _ Hs') as (m' & ? & _ & _ & _ & _ & ? & _); [done|].
    destruct Ha as (_ & _ & ? & _). simplify_eq. congruence.
  - intros He. destruct (si_stale0 _ He) as [Hx|[(x & ? & _ & E)|(j & ? & E & [?|Hj])]]; [destruct Hx; ids|ids|done|].
    assert (j = i) as -> by ids. destruct (proj1 (si_idle0 i)) as (m' & ? & Hf); [apply elem_of_app; by right|].
    destruct Hsend as [Hv _]. congruence.
Qed.

Lemma stop_length st i st' : upf_pfcp_server_stop_msg_timer st i = Ok st' -> length (sv_expired st') = length (sv_expired st).
Proof.
  unfold upf_pfcp_server_stop_msg_timer. destruct (pfcp_msg_pool_elt_at_index st i) as [m| |]; cbn [obind]; [|done..].
  case_test; [by intros [= <-]|]. destruct (existsb _ _); cbn [obind].
  - intros [= <-]. simpl. apply length_map.
  - unfold tw_timer_stop. destruct (pool_elt _ _); cbn [obind]; [|done]. intros [= <-]. simpl. apply length_map.
Qed.

Lemma put_expired st i st' : pfcp_msg_pool_put st i = Ok st' -> sv_expired st' = sv_expired st.
Proof. unfold pfcp_msg_pool_put. destruct (pfcp_msg_pool_elt_at_index _ _); [|done..]. by intros [= <-]. Qed.

Lemma restart_ok n k st key i :
  sv_inv (S n) k None st -> sv_response_q st !! key = Some i ->
  exists st', restart_response_timer st i = Ok st' /\ sv_inv n k None st' /\ sv_sent st' = sv_sent st
  /\ sv_response_q st' = sv_response_q st /\ length (sv_expired st') = length (sv_expired st).
Proof.
  intros HI Hk. destruct (queued_response _ _ _ _ _ HI Hk) as (m & Hm & (Hv & He & Hd) & <- & Hq & Ha & Hw & Huk & Hur & Hst).
  unfold restart_response_timer.
  destruct (stop_ok (S n) k i m st) as (st1 & Est & HI1 & [Hq1 Hq1'] & Hm1 & (E1 & E2 & _ & E4 & E5 & _));
    [by eapply inv_take|done|done|by right|].
  rewrite Est. apply stop_length in Est. cbn [obind]. rewrite (elt_ok _ _ _ Hm1 Hv). cbn [obind].
  assert (id24 i) as Hi by (by eapply (si_index _ _ _ _ HI)).
  pose proof (si_timer_room _ _ _ _ HI1) as Hroom. pose proof (si_clock _ _ _ _ HI1 30 (or_intror eq_refl)) as Hcl.
  destruct (start_ok n k i (msg_set_timer m u32_none (m_expires_at m)) (msg_set_timer m u32_none (m_expires_at m))
    PFCP_SERVER_RESPONSE i RESPONSE_TIMEOUT st1)
    as (h & d & st' & E & HI' & Hh & HW & HWn & HM & (Q1 & Q2 & _ & _ & Q5 & _) & Hexp);
    [by apply inv_weaken|done|done|done|done|done|by right|lia|].
  fold (RESP i) in HW. exists st'. split; [exact E|]. split_and!; [|congruence|congruence|by rewrite Hexp].
  apply (inv_release n k i _ st' HI' HM); [done|]. right. destruct Ha as (_ & ? & ? & _). split_and!.
  - rewrite Q2, E2. exact Hq.
  - split_and!; [done|done|done|]. left. split; [|by rewrite Hexp]. exists d. simpl. rewrite HW. apply lookup_insert_eq.
  - intros h' d'. rewrite HW. intros [[<- _]|[_ Hh']]%lookup_insert_Some; [done|]. by apply Hq1 in Hh'.
  - intros key. rewrite Q2, E2. apply Huk.
  - intros s. rewrite Q1, E1. apply Hur.
  - rewrite Hexp. intros Hin. apply Hq1'. rewrite <- (take_drop k (sv_expired st1)). apply elem_of_app. by left.
Qed.

(** taking a request out of its queue and freeing it *)
Lemma drop_request_ok n k st s i :
  sv_inv n k None st -> sv_request_q st !! s = Some i ->
  exists st1 st2,
    upf_pfcp_server_stop_msg_timer (set_sv_queues st (delete s (sv_request_q st)) (sv_response_q st)) i = Ok st1
    /\ pfcp_msg_pool_put st1 i = Ok st2 /\ sv_inv n k None st2 /\ length (sv_expired st2) = length (sv_expired st).
Proof.
  intros HI Hs. destruct (queued_request _ _ _ _ _ HI Hs) as (m & Hm & (Hv & _) & <- & Hq & Ha & Hqu & Hu & Hn).
  set (st0 := set_sv_queues _ _ _).
  assert (sv_inv n k (Some i) st0) as HI0 by (apply inv_del_req; [by eapply inv_take|intros j; congruence]).
  assert (forall s, sv_request_q st0 !! s <> Some i) as Hur
    by (intros s; simpl; intros [? ?%Hu]%lookup_delete_Some; congruence).
  destruct (stop_ok n k i m st0) as (st1 & E & HI1 & [Hq1 Hq1'] & Hm1 & (E1 & E2 & _));
    [done|done|done|left; split_and!; [done|done|apply lookup_delete_eq]|].
  destruct (inv_put n k i st1) as (st2 & Ep & HI2); [done|done|by intros ?%pend_in|split|].
  3: { exists st1, st2. split_and!; [done..|]. by rewrite (put_expired _ _ _ Ep), (stop_length _ _ _ E). }
  - intros s. rewrite E1. apply Hur.
  - intros key. rewrite E2. apply Hn.
Qed.
End Ops.
End Inv.
