(* ===== verification/PfcpServerSafe.v ===== *)
(** * The PFCP server turn by turn

    A turn of pfcp_process keeps the invariant of [PfcpServerInv] and stops, if
    it does, for no fault of the server's own; a repeated request is answered
    with the same octets and handled once; a request is sent at most three
    times; and the cases in which the server does fail. *)

From Stdlib Require Import ZArith Lia.
From stdpp Require Import base list list_numbers option numbers decidable gmap fin_map_dom sorting relations.
From S2P Require Import Prelude PfcpIo PfcpIe PfcpLeaf PfcpTables PfcpCodec UpfTypes UpfVec UpfUrr PfcpServer PfcpServerInv.

#[local] Abbreviation W st := (pool_elts (sv_timer st)).
#[local] Abbreviation M st := (pool_elts (sv_msg_pool st)).

(** ** The parts of a timer id *)

Lemma timer_id_type t x : 0 <= t < 8 -> id24 x -> Z.shiftr (server_timer_id t x) 24 = 128 + t.
Proof.
  intros Ht Hx. rewrite timer_id_sum by done. rewrite Z.shiftr_div_pow2 by lia.
  rewrite Z.div_add_l by lia. rewrite Z.div_small by (unfold id24 in Hx; lia). lia.
Qed.
Lemma timer_id_id t x : 0 <= t < 8 -> id24 x -> Z.land (server_timer_id t x) 0x00FFFFFF = x.
Proof.
  intros Ht Hx. rewrite timer_id_sum by done. change 0x00FFFFFF with (Z.ones 24). rewrite Z.land_ones by lia.
  rewrite Z.add_comm, Z.mod_add by lia. apply Z.mod_small. exact Hx.
Qed.

Section Turn.
Context (own : Z -> bool) {V : Vppinfra} {P : VppPool} {POk : VppPoolOk P} {PD : VppPoolDense P}.
Context (session_valid : Z -> bool) {A : Type} {App : PfcpApp A}.
#[local] Abbreviation inv := (sv_inv own).

(** What the server relies on: a call sends at most [app_burst] / 3 messages, and
    a response only to the request it handles, at most once. *)
Class PfcpAppOk := {
  app_burst : nat;
  handle_behaves a msg :
    behaves (bool_decide (pfcp_msg_type (vec_elts (m_data msg)) ∈ request_types)) app_burst (upf_pfcp_handle_msg a msg);
  release_behaves a node : behaves false app_burst (pfcp_release_association a node);
  urr_timer_behaves a si now : behaves false app_burst (upf_pfcp_session_urr_timer a si now);
  usage_report_behaves a si uev now : behaves false app_burst (upf_pfcp_session_usage_report a si uev now);
  drop_behaves a si : behaves false app_burst (drop_session a si)
}.
Context {AOk : PfcpAppOk}.

(** the budget of an event or of an expired timer *)
Definition cost : nat := 3 + app_burst.

(** ** Received messages *)

(** the sequence number of a request of the peer is not one of our own *)
Definition rx_ok (msg : pfcp_msg_t) : Prop :=
  let data := vec_elts (m_data msg) in
  pfcp_msg_type data ∈ request_types -> id24 (pfcp_msg_seq data) /\ own (pfcp_msg_seq data) = false.

(** what is left for the rest of the turn *)
Definition kept (n k : nat) (st st' : server) : Prop :=
  inv n k None st' /\ length (sv_expired st') = length (sv_expired st).

Lemma kept_refl n n' k st : (n' <= n)%nat -> inv n k None st -> kept n' k st st.
Proof. intros Hn HI. split; [by eapply inv_weaken_le|done]. Qed.
Lemma done_kept n k {B} msg (p : upcall B) st :
  safe (fun '(_, st') => done_with own n k st st') (run_upcall session_valid msg p st) ->
  safe (fun '(_, st') => kept n k st st') (run_upcall session_valid msg p st).
Proof. unfold safe. destruct (run_upcall _ _ _ _) as [[a' st']| |]; [|done..]. intros [? E]. split; [done|by rewrite E]. Qed.

Lemma rx_request_ok n k a st msg :
  inv (cost + n) k None st -> peer_msg own msg -> pfcp_msg_type (vec_elts (m_data msg)) ∈ request_types ->
  safe (fun '(_, st') => kept n k st st') (rx_request session_valid a st msg).
Proof.
  intros HI Hp Hty. unfold rx_request. destruct (sv_response_q st !! request_key msg) as [i|] eqn:Ek.
  - destruct (queued_response own _ _ _ _ _ HI Ek) as (m & Hm & (Hv & _ & Hd) & _).
    rewrite (elt_ok _ _ _ Hm Hv). cbn [obind].
    destruct (send_data_ok own session_valid _ _ _ _ m HI Hd) as (x & -> & HI1). cbn [obind].
    destruct (restart_ok own (2 + app_burst + n) k (set_sv_sent st x) (request_key msg) i HI1 Ek) as (st2 & -> & HI2 & _ & _ & E).
    split; [eapply inv_weaken_le; [|done]; lia|exact E].
  - pose proof (handle_behaves a msg) as Hb. rewrite bool_decide_true in Hb by done.
    assert (inv (app_burst + n) k None st) as HI1 by (eapply inv_weaken_le; [|done]; unfold cost; lia).
    exact (done_kept n k _ _ _ (run_upcall_ok own session_valid n k true app_burst msg _ st Hb HI1 (fun _ => conj Hp Ek))).
Qed.

Lemma rx_response_ok n k a st msg :
  inv (cost + n) k None st -> pfcp_msg_type (vec_elts (m_data msg)) ∉ request_types ->
  safe (fun '(_, st') => kept n k st st') (rx_response session_valid a st msg).
Proof.
  intros HI Hty. unfold rx_response. destruct (sv_request_q st !! m_seq_no msg) as [i|] eqn:Es.
  - destruct (queued_request own _ _ _ _ _ HI Es) as (m & Hm & (Hv & _) & _). rewrite (elt_ok _ _ _ Hm Hv). cbn [obind].
    destruct (drop_request_ok own _ _ _ _ _ HI Es) as (st1 & st2 & -> & E2 & HI2 & El). cbn [obind]. rewrite E2. cbn [obind].
    set (msg' := msg_set_node msg (m_node m)). pose proof (handle_behaves a msg') as Hb. rewrite bool_decide_false in Hb by done.
    assert (inv (app_burst + n) k None st2) as HI3 by (eapply inv_weaken_le; [|done]; unfold cost; lia).
    eapply safe_mono; [exact (done_kept n k _ _ _ (run_upcall_ok own session_valid n k false app_burst msg' _ st2 Hb HI3 ltac:(done)))|].
    intros [a' st'] [? E]. split; [done|congruence].
  - eapply kept_refl; [|done]; lia.
Qed.

Lemma rx_msg_ok n k a st msg :
  inv (cost + n) k None st -> rx_ok msg ->
  safe (fun '(_, st') => kept n k st st') (upf_pfcp_server_rx_msg session_valid a st msg).
Proof.
  intros HI Hrx. assert (kept n k st st) as HI' by (eapply kept_refl; [|done]; lia).
  unfold upf_pfcp_server_rx_msg. case_test; [done|]. case_test.
  { unfold upf_pfcp_send_data. simpl. destruct (session_valid _); simpl; [by right; left|done]. }
  case_test; [done|]. case_bool_decide as Hq; [|case_bool_decide; [|done]].
  - apply rx_request_ok; [done|by apply Hrx|done].
  - by apply rx_response_ok.
Qed.

(** ** Expired timers *)

(** the next entry is handled *)
Definition stepped (n k : nat) (st st' : server) : Prop := inv n (S k) None st' /\ sv_expired st' = sv_expired st.

Lemma upcall_stepped n k c {B} (p : upcall B) msg st :
  behaves false c p -> inv (c + n) (S k) None st ->
  safe (fun '(_, st') => stepped n k st st') (run_upcall session_valid msg p st).
Proof. intros Hb HI. exact (run_upcall_ok own session_valid n (S k) false c msg p st Hb HI ltac:(done)). Qed.

Lemma own_index n k st s i : inv n k None st -> sv_request_q st !! s = Some i -> id24 s.
Proof. intros HI Hs. destruct (queued_request own _ _ _ _ _ HI Hs) as (m & _ & _ & <- & _ & (_ & ? & _) & _). done. Qed.

Lemma t1_expired_ok n k a st s :
  inv (cost + n) k None st -> sv_expired st !! k = Some (T1 s) -> id24 s -> own s = true ->
  safe (fun '(_, st') => stepped n k st st') (request_t1_expired session_valid a st s).
Proof.
  intros HI He Hs Ho. unfold request_t1_expired. destruct (sv_request_q st !! s) as [i|] eqn:Es.
  2: { split; [|done]. eapply inv_weaken_le; [|eapply inv_advance; [done|done|..]]; [lia| | |eauto 6].
    - intros s' j Hj _ E. pose proof (own_index _ _ _ _ _ HI Hj). assert (s = s') by ids. congruence.
    - intros key j Hj _ E. destruct (queued_response own _ _ _ _ _ HI Hj) as (m & Hm & _).
      pose proof (si_index own _ _ _ _ HI _ _ Hm). ids. }
  destruct (queued_request own _ _ _ _ _ HI Es) as (m & Hm & (Hv & Hx & Hd) & <- & Hq & Ha & Hqu & Hu & Hn).
  assert (id24 i) as Hi by (by eapply (si_index own _ _ _ _ HI)).
  rewrite (elt_ok _ _ _ Hm Hv). cbn [obind]. set (m' := msg_set_retries m _ _).
  assert (inv (cost + n) (S k) (Some i) st) as HI1.
  { eapply inv_advance; [by eapply inv_take|done| | |eauto 6].
    - intros s' j Hj Hij E. pose proof (own_index _ _ _ _ _ HI Hj). assert (m_seq_no m = s') by ids. congruence.
    - intros key j Hj _ E. destruct (queued_response own _ _ _ _ _ HI Hj) as (mj & Hmj & _).
      pose proof (si_index own _ _ _ _ HI _ _ Hmj). ids. }
  destruct Ha as (Ht & _ & _ & H10 & _).
  destruct (negb (m_n1 m' =? 0)).
  - change (m_t1 m') with (m_t1 m). rewrite H10. pose proof (si_timer_room own _ _ _ _ HI) as Hroom.
    assert (pend k st = T1 (m_seq_no m) :: pend (S k) st) as Ep by (by apply drop_S).
    rewrite Ep, Zlen_cons in Hroom. pose proof (si_clock own _ _ _ _ HI 10 (or_introl eq_refl)) as Hcl.
    destruct (start_ok own (cost + n) (S k) i m m' PFCP_SERVER_T1 (m_seq_no m) 10 st)
      as (h & d & st2 & E & HI2 & Hh & HW & HWn & HM & (Q1 & Q2 & _) & Hexp);
      [done|done|done|done|done|done|by left|unfold cost in *; lia|].
    change (m_seq_no m') with (m_seq_no m). rewrite E. cbn [obind].
    assert (inv (cost + n) (S k) None st2) as HI3.
    { apply (inv_release own _ _ i _ st2 HI2 HM); [done|]. left. split_and!.
      - rewrite Q1. exact Hq.
      - split_and!; [done|done|done|done|]. left. exists d. simpl. rewrite HW. apply lookup_insert_eq.
      - destruct Hqu as [Hqw Hqe]. split; [|by rewrite Hexp]. intros h' d'. rewrite HW.
        intros [[_ E']|[_ Hh']]%lookup_insert_Some; [|by apply Hqw in Hh']. injection E' as E' _.
        fold (T1 (m_seq_no m)) in E'. ids.
      - intros s'. rewrite Q1. apply Hu.
      - intros key. rewrite Q2. apply Hn. }
    rewrite (elt_ok _ _ _ HM Hv). cbn [obind].
    destruct (send_data_ok own session_valid _ _ _ _ (msg_set_timer m' h (f64_add (sv_now st) (f64_of_Z 10))) HI3)
      as (x & -> & HI4); [done|].
    split; [eapply inv_weaken_le; [|done]; lia|exact Hexp].
  - change (m_seq_no m') with (m_seq_no m). set (st1 := set_sv_queues _ _ _).
    assert (inv (cost + n) (S k) (Some i) st1) as HI2.
    { apply (inv_del_req own _ _ i _ (set_sv_msg st i m')); [by apply inv_set_msg|]. intros j. simpl. congruence. }
    destruct (inv_put own (cost + n) (S k) i st1) as (st2 & Ep & HI3); [done|apply Hqu| |split|].
    + intros Hin. apply Hqu. by eapply pend_in.
    + intros s'. simpl. intros [? ?%Hu]%lookup_delete_Some. congruence.
    + intros key. apply Hn.
    + assert (sv_expired st2 = sv_expired st) as Hexp.
      { revert Ep. unfold pfcp_msg_pool_put. destruct (pfcp_msg_pool_elt_at_index _ _); [|done..]. by intros [= <-]. }
      rewrite Ep. cbn [obind]. destruct (_ && _).
      * assert (inv (app_burst + n) (S k) None st2) as HI4 by (eapply inv_weaken_le; [|done]; unfold cost; lia).
        pose proof (upcall_stepped n k app_burst (pfcp_release_association a (m_node m')) m' st2 (release_behaves _ _) HI4) as H.
        revert H. unfold safe. destruct (run_upcall _ _ _ _) as [[a' st']| |]; [|done..]. intros [? E]. split; [done|congruence].
      * split; [eapply inv_weaken_le; [|done]; lia|done].
Qed.

Lemma response_expired_ok n k st i :
  inv (cost + n) k None st -> sv_expired st !! k = Some (RESP i) -> id24 i ->
  safe (stepped n k st) (response_expired st i).
Proof.
  intros HI He Hi. assert (pend k st = RESP i :: pend (S k) st) as Ep by (by apply drop_S).
  assert (RESP i ∈ pend k st) as Hin by (rewrite Ep; by left).
  destruct (si_pend own _ _ _ _ HI _ Hin) as [Hx|[(s & ? & _ & E)|(j & mj & E & Hj & Hvj & Hr)]]; [destruct Hx; ids|ids|].
  pose proof (si_index own _ _ _ _ HI _ _ Hj). assert (j = i) as -> by ids. clear E. pose proof (Hr ltac:(done)) as Hk.
  destruct (queued_response own _ _ _ _ _ HI Hk) as (m & Hm & _ & Hkey & Hq & Ha & Hw & Huk & Hur & Hst).
  rewrite Hm in Hj. injection Hj as <-.
  unfold response_expired. rewrite (elt_ok _ _ _ Hm Hvj). cbn [obind]. set (st1 := set_sv_queues _ _ _).
  assert (inv (cost + n) (S k) (Some i) st) as HI1.
  { eapply inv_advance; [by eapply inv_take|done| | |].
    - intros s j Hj' _ E. pose proof (own_index _ _ _ _ _ HI Hj'). ids.
    - intros key j Hj' Hij E. destruct (queued_response own _ _ _ _ _ HI Hj') as (mj & Hmj & _).
      pose proof (si_index own _ _ _ _ HI _ _ Hmj). assert (i = j) by ids. congruence.
    - right; right. exists i. auto. }
  assert (inv (cost + n) (S k) (Some i) st1) as HI2 by (apply inv_del_resp; [done|intros j; congruence]).
  destruct (inv_put own (cost + n) (S k) i st1) as (st2 & Epu & HI3); [done| | |split|].
  - intros h d Hh. destruct Ha as (_ & _ & _ & [[_ Hno]|[_ Hno]]); [|by apply Hno in Hh]. by apply Hno, (pend_in _ k).
  - intros Hin'. pose proof (si_once own _ _ _ _ HI i Hi) as Hc. rewrite Ep in Hc. simpl in Hc.
    destruct (Z.eq_dec (RESP i) (RESP i)); [|done]. apply list_elem_of_In, (count_occ_In Z.eq_dec) in Hin'.
    change (pend (S k) st1) with (pend (S k) st) in Hin'. lia.
  - intros s. apply Hur.
  - intros key. simpl. intros [? ?%Huk]%lookup_delete_Some. congruence.
  - rewrite Epu. revert Epu. unfold pfcp_msg_pool_put. destruct (pfcp_msg_pool_elt_at_index _ _); [|done..]. intros [= <-].
    split; [eapply inv_weaken_le; [|done]; lia|done].
Qed.

Lemma heartbeat_ok n k a st ni :
  inv (cost + n) (S k) None st -> safe (stepped n k st) (upf_server_send_heartbeat session_valid a st ni).
Proof.
  intros HI. unfold upf_server_send_heartbeat. destruct (pool_elt _ _) as [nd|]; [|by left].
  assert (inv (3 + n) (S k) None st) as HI1 by (eapply inv_weaken_le; [|done]; unfold cost; lia).
  pose proof (send_built_ok own session_valid n (S k) st
    (fun st => encode_pfcp_node_msg st ni nd (heartbeat_dmsg st)) HI1) as H.
  assert (forall st m, safe (fun '(r, st') => st' = snd (next_seq_no st) /\
     forall m', r = Some m' -> m_is_valid_pool_item m' = m_is_valid_pool_item m /\ is_Some (m_data m')
                               /\ m_seq_no m' = fst (next_seq_no st)) (encode_pfcp_node_msg st ni nd (heartbeat_dmsg st) m)) as Hs
    by (intros; apply encode_node_safe).
  apply H in Hs. revert Hs. unfold safe. destruct (send_built_request _ _ _); [|done..]. by intros [? _].
Qed.

Lemma advance_other n k e st :
  inv n k None st -> sv_expired st !! k = Some e -> other_id e -> inv n (S k) None st.
Proof.
  intros HI He Ho. eapply inv_advance; [done|done| | |by left].
  - intros s i Hs _ ->. pose proof (own_index _ _ _ _ _ HI Hs). destruct Ho; ids.
  - intros key i Hk _ ->. destruct (queued_response own _ _ _ _ _ HI Hk) as (m & Hm & _).
    pose proof (si_index own _ _ _ _ HI _ _ Hm). destruct Ho; ids.
Qed.

Lemma other_type e : 0 <= e < 129 * 2 ^ 24 -> 0 <= Z.shiftr e 24 <= 128.
Proof.
  intros He. rewrite Z.shiftr_div_pow2 by lia. split; [apply Z.div_pos; lia|].
  assert (e / 2 ^ 24 < 129); [apply Z.div_lt_upper_bound; lia|lia].
Qed.

Lemma handle_expired_ok n k a st last e :
  inv (cost + n) k None st -> sv_expired st !! k = Some e ->
  safe (fun '(_, st', _) => stepped n k st st') (handle_expired session_valid a st last e).
Proof.
  intros HI He. assert (e ∈ pend k st) as Hin.
  { unfold pend. rewrite (drop_S _ _ _ He). by left. }
  unfold handle_expired.
  destruct (si_pend own _ _ _ _ HI _ Hin) as [Ho|[(s & Hs & Hos & ->)|(i & m & -> & Hm & Hv & _)]].
  - pose proof (advance_other _ _ _ _ HI He Ho) as HI1.
    assert (inv n (S k) None st) as HI2 by (eapply inv_weaken_le; [|done]; lia).
    destruct (Z.eqb_spec e u32_none) as [->|Hne]; [done|]. destruct Ho as [Ho|Ho]; [by destruct (Hne Ho)|].
    pose proof (other_type _ Ho) as Hty. rewrite (proj2 (Z.leb_le 0 _)) by lia. cbn [andb].
    destruct (Z.leb_spec (Z.shiftr e 24) 0x7f).
    { case_test; [done|]. destruct (pool_is_free_index _ _); [done|].
      assert (inv (app_burst + n) (S k) None st) as HI3 by (eapply inv_weaken_le; [|exact HI1]; unfold cost; lia).
      eapply safe_obind; [apply (upcall_stepped n k app_burst); [apply urr_timer_behaves|exact HI3]|]. by intros [a' st'] ?. }
    assert (Z.shiftr e 24 = 128) as -> by lia. change (Z.lor 128 PFCP_SERVER_HB_TIMER) with 128.
    rewrite Z.eqb_refl. eapply safe_obind; [by apply (heartbeat_ok n k)|]. done.
  - destruct (Z.eqb_spec (T1 s) u32_none) as [E|_]; [ids|]. unfold T1 in *.
    rewrite (timer_id_type PFCP_SERVER_T1 s) by done. rewrite (timer_id_id PFCP_SERVER_T1 s) by done.
    change ((0 <=? 128 + PFCP_SERVER_T1) && (128 + PFCP_SERVER_T1 <=? 0x7f)) with false.
    change (128 + PFCP_SERVER_T1 =? Z.lor 0x80 PFCP_SERVER_HB_TIMER) with false.
    change (128 + PFCP_SERVER_T1 =? Z.lor 0x80 PFCP_SERVER_T1) with true. cbv iota. eapply safe_obind; [by apply (t1_expired_ok n k)|]. by intros [a' st'] ?.
  - pose proof (si_index own _ _ _ _ HI _ _ Hm) as Hi.
    destruct (Z.eqb_spec (RESP i) u32_none) as [E|_]; [ids|]. unfold RESP in *.
    rewrite (timer_id_type PFCP_SERVER_RESPONSE i) by done. rewrite (timer_id_id PFCP_SERVER_RESPONSE i) by done.
    change ((0 <=? 128 + PFCP_SERVER_RESPONSE) && (128 + PFCP_SERVER_RESPONSE <=? 0x7f)) with false.
    change (128 + PFCP_SERVER_RESPONSE =? Z.lor 0x80 PFCP_SERVER_HB_TIMER) with false.
    change (128 + PFCP_SERVER_RESPONSE =? Z.lor 0x80 PFCP_SERVER_T1) with false.
    change (128 + PFCP_SERVER_RESPONSE =? Z.lor 0x80 PFCP_SERVER_RESPONSE) with true. cbv iota. eapply safe_obind; [by apply (response_expired_ok n k)|]. done.
Qed.

Lemma expired_loop_ok n j k a st last :
  inv (j * cost + n) k None st -> (k + j)%nat = length (sv_expired st) ->
  safe (fun '(_, st') => inv n (length (sv_expired st')) None st') (expired_loop session_valid j k a st last).
Proof.
  revert k a st last. induction j as [|j IH]; intros k a st last HI Hl; cbn [expired_loop].
  { simpl in HI |- *. replace (length (sv_expired st)) with k by lia. exact HI. }
  destruct (lookup_lt_is_Some_2 (sv_expired st) k) as [e He]; [lia|]. rewrite He.
  eapply safe_obind.
  - apply (handle_expired_ok (j * cost + n) k); [|done]. replace (cost + (j * cost + n))%nat with (S j * cost + n)%nat by lia. done.
  - intros [[a' st'] last'] [HI' E]. apply IH; [done|]. rewrite E. lia.
Qed.

(** ** Messages freed after the loop *)

Lemma drop_response_ok n k st key i :
  inv n k None st -> sv_response_q st !! key = Some i ->
  exists st1 st2,
    upf_pfcp_server_stop_msg_timer (set_sv_queues st (sv_request_q st) (delete key (sv_response_q st))) i = Ok st1
    /\ pfcp_msg_pool_put st1 i = Ok st2 /\ inv n k None st2 /\ sv_expired st2 = sv_expired st1.
Proof.
  intros HI Hs. destruct (queued_response own _ _ _ _ _ HI Hs) as (m & Hm & (Hv & _) & <- & Hq & Ha & Hw & Hu & Hn & Hst).
  set (st0 := set_sv_queues _ _ _).
  assert (inv n k (Some i) st0) as HI0 by (apply inv_del_resp; [by eapply inv_take|intros j; congruence]).
  destruct (stop_ok own n k i m st0) as (st1 & E & HI1 & [Hq1 Hq1'] & Hm1 & (E1 & E2 & _)); [done|done|apply Hn|by right|].
  destruct (inv_put own n k i st1) as (st2 & Ep & HI2); [done|done|by intros ?%pend_in|split|].
  - intros s. rewrite E1. apply Hn.
  - intros key. rewrite E2. simpl. intros [? ?%Hu]%lookup_delete_Some. congruence.
  - exists st1, st2. split_and!; [done|done|done|]. revert Ep. unfold pfcp_msg_pool_put.
    destruct (pfcp_msg_pool_elt_at_index _ _); [|done..]. by intros [= <-].
Qed.

Lemma free_msg_ok n st i :
  inv n (length (sv_expired st)) None st ->
  safe (fun st' => inv n (length (sv_expired st')) None st') (free_msg st i).
Proof.
  intros HI. unfold free_msg, pool_elt. destruct (M st !! i) as [m|] eqn:Hm; [|done].
  destruct (m_is_valid_pool_item m) eqn:Hv; [|done]. cbn [negb].
  set (k := length (sv_expired st)) in *.
  assert (forall st1 st2, upf_pfcp_server_stop_msg_timer
      (set_sv_queues st (delete (m_seq_no m) (sv_request_q st)) (delete (request_key m) (sv_response_q st))) i = Ok st1 ->
    pfcp_msg_pool_put st1 i = Ok st2 -> inv n k None st2 ->
    safe (fun st' => inv n (length (sv_expired st')) None st')
      (obind (upf_pfcp_server_stop_msg_timer
        (set_sv_queues st (delete (m_seq_no m) (sv_request_q st)) (delete (request_key m) (sv_response_q st))) i)
        (fun st => pfcp_msg_pool_put st i))) as Hfin.
  { intros st1 st2 E1 E2 HI2. rewrite E1. cbn [obind]. rewrite E2. simpl.
    assert (length (sv_expired st2) = k) as ->; [|done]. etransitivity; [|exact (stop_length _ _ _ E1)]. revert E2. unfold pfcp_msg_pool_put.
    destruct (pfcp_msg_pool_elt_at_index _ _); [|done..]. by intros [= <-]. }
  destruct (si_valid own _ _ _ _ HI _ _ Hm Hv) as [Hq|Hq]; [done| |].
  - destruct (queued_request own _ _ _ _ _ HI Hq) as (m' & Hm' & (_ & Hx & _) & _ & _ & (_ & _ & Ho & _) & _).
    rewrite Hm in Hm'. injection Hm' as <-. rewrite Hx. cbn [negb assert]. destruct (must_free st m); [|done].
    destruct (drop_request_ok own _ _ _ _ _ HI Hq) as (st1 & st2 & E1 & E2 & HI2 & _). eapply Hfin; [|done|done].
    rewrite (delete_id (sv_response_q st)); [done|]. destruct (sv_response_q st !! request_key m) as [j|] eqn:Ej; [|done].
    destruct (queued_response own _ _ _ _ _ HI Ej) as (mj & _ & _ & Hkey & _ & (_ & _ & Hoj & _) & _).
    injection Hkey as _ Hseq _. congruence.
  - destruct (queued_response own _ _ _ _ _ HI Hq) as (m' & Hm' & (_ & Hx & _) & _ & _ & (_ & _ & Ho & _) & _).
    rewrite Hm in Hm'. injection Hm' as <-. rewrite Hx. cbn [negb assert]. destruct (must_free st m); [|done].
    destruct (drop_response_ok _ _ _ _ _ HI Hq) as (st1 & st2 & E1 & E2 & HI2 & _). eapply Hfin; [|done|done].
    rewrite (delete_id (sv_request_q st)); [done|]. destruct (sv_request_q st !! m_seq_no m) as [j|] eqn:Ej; [|done].
    destruct (queued_request own _ _ _ _ _ HI Ej) as (mj & _ & _ & Hseq & _ & (_ & _ & Hoj & _) & _). congruence.
Qed.

Lemma free_msgs_ok n l st :
  inv n (length (sv_expired st)) None st ->
  safe (fun st' => inv n (length (sv_expired st')) None st') (free_msgs l st).
Proof.
  revert st. induction l as [|i l IH]; intros st HI; [done|]. cbn [free_msgs].
  eapply safe_obind; [by apply free_msg_ok|]. intros st' HI'. by apply IH.
Qed.

(** ** The start of a turn *)

Lemma refill_perm n cache free c f : refill n cache free = (c, f) -> cache ++ free ≡ₚ c ++ f.
Proof.
  revert cache free. induction n as [|n IH]; intros cache free; cbn [refill]; [by intros [= <- <-]|].
  destruct free as [|i free]; [by intros [= <- <-]|]. case_test; [|by intros [= <- <-]].
  intros E%IH. rewrite <- E. simpl. by rewrite Permutation_middle.
Qed.

Lemma puts_lookup {B} (p : pool B) l i :
  pool_elts (foldl pool_put p l) !! i = if bool_decide (i ∈ l) then None else pool_elts p !! i.
Proof.
  revert p. induction l as [|j l IH]; intros p; [done|]. cbn [foldl]. rewrite IH. simpl.
  destruct (bool_decide (i ∈ l)) eqn:E; [rewrite bool_decide_true; [done|apply bool_decide_eq_true in E; by right]|].
  apply bool_decide_eq_false in E. destruct (decide (i = j)) as [->|Hij].
  - rewrite lookup_delete_eq, bool_decide_true; [done|by left].
  - rewrite lookup_delete_ne by done. rewrite bool_decide_false; [done|]. rewrite elem_of_cons. tauto.
Qed.
Lemma puts_size {B} (p : pool B) l : (size (pool_elts (foldl pool_put p l)) <= size (pool_elts p))%nat.
Proof.
  revert p. induction l as [|j l IH]; intros p; [done|]. cbn [foldl]. etransitivity; [apply IH|]. simpl.
  rewrite map_size_delete. destruct (_ !! _); simpl; lia.
Qed.
Lemma puts_free {B} (p : pool B) l : pool_free (foldl pool_put p l) ≡ₚ l ++ pool_free p.
Proof.
  revert p. induction l as [|j l IH]; intros p; [done|]. cbn [foldl]. rewrite IH. simpl. by rewrite Permutation_middle.
Qed.

Lemma elem_rev (i : Z) l : i ∈ rev l <-> i ∈ l.
Proof. rewrite !list_elem_of_In. symmetry. apply in_rev. Qed.

Lemma loop_start_ok n st :
  inv n 0 None st -> sv_expired st = [] -> inv n 0 None (pfcp_msg_pool_loop_start st).
Proof.
  intros [] Hexp. unfold pfcp_msg_pool_loop_start. destruct (refill _ _ _) as [c f] eqn:Er.
  pose proof (refill_perm _ _ _ _ _ Er) as Hp. pose proof si_lists as Hnd. rewrite Hp in Hnd.
  assert (forall i, i ∈ c \/ i ∈ f <-> exists m, M st !! i = Some m /\ m_is_valid_pool_item m = false) as Hidle
    by (intros i; by rewrite <- si_idle, Hp, elem_of_app).
  apply NoDup_app in Hnd as (Hc & Hcf & Hf).
  assert (forall i m, M st !! i = Some m -> m_is_valid_pool_item m = true ->
    pool_elts (foldl pool_put (sv_msg_pool st) (rev f)) !! i = Some m) as Hkeep.
  { intros i m Hm Hv. rewrite puts_lookup, bool_decide_false; [done|]. rewrite elem_rev. intros Hi.
    destruct (proj1 (Hidle i)) as (m' & Hm' & Hv'); [by right|]. congruence. }
  assert (forall i m, pool_elts (foldl pool_put (sv_msg_pool st) (rev f)) !! i = Some m -> M st !! i = Some m /\ i ∉ f) as Hback.
  { intros i m. rewrite puts_lookup. case_bool_decide as Hi; [done|]. rewrite elem_rev in Hi. done. }
  split; simpl; try done.
  - intros i m Hm. destruct (Hback _ _ Hm) as [? _]. by eapply si_index.
  - rewrite puts_free. apply Forall_app. split; [|done]. apply Forall_forall. intros i Hi. rewrite elem_rev in Hi.
    destruct (proj1 (Hidle i)) as (m & Hm & _); [by right|]. by eapply si_index.
  - by rewrite app_nil_r.
  - intros i. rewrite app_nil_r. split.
    + intros Hi. destruct (proj1 (Hidle i)) as (m & Hm & Hv); [by left|]. exists m. split; [|done].
      rewrite puts_lookup, bool_decide_false; [done|]. rewrite elem_rev. by apply Hcf.
    + intros (m & Hm & Hv). destruct (Hback _ _ Hm) as [Hm' Hi]. destruct (proj2 (Hidle i)); [by eauto|done|done].
  - intros s i Hi _. destruct (si_req _ _ Hi) as (m & Hm & Hs & ? & ?); [done|]. exists m. split_and!; [|done..].
    apply Hkeep; [done|apply Hs].
  - intros s i Hi _. destruct (si_resp _ _ Hi) as (m & Hm & Hs & ? & ?); [done|]. exists m. split_and!; [|done..].
    apply Hkeep; [done|apply Hs].
  - intros i m Hm Hv _. destruct (Hback _ _ Hm) as [? _]. by apply si_valid.
  - intros h id d Hh. destruct (si_wheel _ _ _ Hh) as [?|(i & m & ? & Hm & Hv & ?)]; [by left|right].
    exists i, m. split_and!; [done|by apply Hkeep|done|done].
  - intros e He. unfold pend in He. simpl in He. rewrite Hexp in He. by apply not_elem_of_nil in He.
  - intros e He. by apply not_elem_of_nil in He.
  - pose proof (puts_size (sv_msg_pool st) (rev f)). lia.
Qed.

Definition clock_ok (now : f64) : Prop :=
  forall t, t = 10 \/ t = 30 -> f64_eqb (f64_add now (f64_of_Z t)) f64_zero = false.

Lemma count_occ_unique {B} (f : B -> Z) x l :
  NoDup l -> (forall a b, a ∈ l -> b ∈ l -> f a = x -> f b = x -> a = b) -> (count_occ Z.eq_dec (map f l) x <= 1)%nat.
Proof.
  intros Hnd. induction Hnd as [|a l Ha Hnd IH]; intros Hu; [simpl; lia|]. simpl. destruct (Z.eq_dec (f a) x) as [E|E].
  - enough (count_occ Z.eq_dec (map f l) x = 0%nat) by lia. apply count_occ_not_In. intros (b & Eb & Hb)%in_map_iff.
    apply list_elem_of_In in Hb. apply Ha. rewrite (Hu a b); [done|by left|by right|done|done].
  - apply IH. intros b c Hb Hc. apply Hu; by right.
Qed.

Lemma size_split {B} (m : gmap Z B) (f : B -> bool) :
  (size (filter (fun kt => f (snd kt) = false) m)
   + length (filter (fun kt => f (snd kt) = true) (map_to_list m)) = size m)%nat.
Proof.
  induction m as [|i x m Hi IH] using map_ind; [by rewrite map_filter_empty, map_to_list_empty|].
  rewrite (Permutation_length (filter_Permutation _ _ _ (map_to_list_insert m i x Hi))). rewrite map_size_insert_None by done.
  rewrite filter_cons. simpl. destruct (f x) eqn:Ex.
  - rewrite map_filter_insert_False by (simpl; congruence). rewrite delete_id by done. simpl. lia.
  - rewrite map_filter_insert_True by done. simpl.
    rewrite map_size_insert_None by (apply map_lookup_filter_None; by left). lia.
Qed.

Lemma expire_ok n st now tick ids :
  inv (length ids + n) 0 None st -> sv_expired st = [] -> clock_ok now -> Forall other_id ids ->
  inv n 0 None (tw_timer_expire_timers_vec st now tick ids)
  /\ (length (sv_expired (tw_timer_expire_timers_vec st now tick ids)) <= size (W st) + length ids)%nat.
Proof.
  intros HI Hexp Hnow Hids. pose proof (size_split (W st) (due tick)) as Hsize.
  set (gone := filter (fun kt => due tick (snd kt) = true) (map_to_list (W st))) in *.
  set (st' := tw_timer_expire_timers_vec st now tick ids).
  assert (sv_expired st' = map (fun kt => fst (snd kt)) gone ++ ids) as Ee by (unfold st'; simpl; by rewrite Hexp).
  assert (forall h t, (h, t) ∈ gone <-> W st !! h = Some t /\ due tick t = true) as Hgone
    by (intros h t; unfold gone; rewrite list_elem_of_filter, elem_of_map_to_list; simpl; tauto).
  assert (forall h t, W st' !! h = Some t <-> W st !! h = Some t /\ due tick t = false) as HW
    by (intros h t; unfold st'; simpl; apply map_lookup_filter_Some).
  assert (forall e, e ∈ sv_expired st' <-> (exists h d, W st !! h = Some (e, d) /\ due tick (e, d) = true) \/ e ∈ ids) as Hin.
  { intros e. rewrite Ee, elem_of_app, list_elem_of_fmap. split; (intros [H|?]; [left|by right]).
    - destruct H as ([h [e' d]] & -> & Hg%Hgone). eauto.
    - destruct H as (h & d & Hg). exists (h, (e, d)). split; [done|by apply Hgone]. }
  assert (pend 0 st' = sv_expired st') as Ep by done.
  assert (forall i m h d, M st !! i = Some m -> W st !! h = Some (RESP i, d) -> m_timer m = h) as Huniq.
  { intros i m h d Hm Hh. pose proof (si_index own _ _ _ _ HI _ _ Hm) as Hi.
    destruct (si_wheel own _ _ _ _ HI _ _ _ Hh) as [(s & ? & _ & E)|(j & mj & E & Hj & _ & Hr)]; [by destruct (RESP_T1 i s)|].
    pose proof (si_index own _ _ _ _ HI _ _ Hj). apply RESP_inj in E; [|done..]. subst j. simplify_eq. by apply Hr. }
  assert (forall i, id24 i -> RESP i ∉ ids) as Hnid.
  { intros i Hi Hin'. eapply Forall_forall in Hids; [|done]. by apply (RESP_other i). }
  destruct HI as []. split.
  2: { rewrite Ee, length_app, length_map. lia. }
  split; try done.
  - intros s i Hs Hh. destruct (si_req _ _ Hs Hh) as (m & Hm & ? & <- & ? & ? & ? & ? & Ha). exists m.
    repeat (split; [done|]). destruct Ha as [[d Ha]|Ha]; [|unfold pend in Ha; rewrite Hexp in Ha; by apply not_elem_of_nil in Ha].
    destruct (due tick (T1 (m_seq_no m), d)) eqn:Ed; [right; rewrite Ep; apply Hin; eauto|left]. exists d. by apply HW.
  - intros key i Hs Hh. destruct (si_resp _ _ Hs Hh) as (m & Hm & ? & ? & ? & ? & ? & Ha). exists m.
    pose proof (si_index _ _ Hm) as Hi. repeat (split; [done|]).
    destruct Ha as [[[d Ha] _]|[Ha _]]; [|unfold pend in Ha; rewrite Hexp in Ha; by apply not_elem_of_nil in Ha].
    destruct (due tick (RESP i, d)) eqn:Ed; [right|left]; (split; [|]).
    + rewrite Ep. apply Hin. eauto.
    + intros h d' Hw. apply HW in Hw as [Hw Hd]. pose proof (Huniq _ _ _ _ Hm Hw). simplify_eq. congruence.
    + exists d. by apply HW.
    + intros [(h & d' & Hw & Hd)|?]%Hin; [|by eapply Hnid]. pose proof (Huniq _ _ _ _ Hm Hw). simplify_eq. congruence.
  - intros h id d Hh. apply HW in Hh as [Hh _]. by apply (si_wheel _ _ _ Hh).
  - intros e He. rewrite Ep in He. apply Hin in He as [(h & d & Hw & _)|He].
    + destruct (si_wheel _ _ _ Hw) as [?|(i & m & ? & ? & ? & Hr)]; [by right; left|right; right].
      exists i, m. split_and!; [done..|]. intros. by apply Hr.
    + left. by eapply Forall_forall in Hids.
  - intros i Hi. rewrite Ep, Ee, count_occ_app.
    assert (count_occ Z.eq_dec ids (RESP i) = 0%nat) as ->.
    { apply count_occ_not_In. rewrite <- list_elem_of_In. by apply Hnid. }
    rewrite Nat.add_0_r. apply count_occ_unique.
    + apply NoDup_filter, NoDup_map_to_list.
    + intros [h [e d]] [h' [e' d']] [Hg _]%Hgone [Hg' _]%Hgone. cbn [fst snd]. intros -> ->.
      destruct (si_wheel _ _ _ Hg) as [(s & ? & _ & E)|(j & m & E & Hm & _)]; [by destruct (RESP_T1 i s)|].
      pose proof (si_index _ _ Hm). apply RESP_inj in E; [|done..]. subst j.
      pose proof (Huniq _ _ _ _ Hm Hg) as <-. pose proof (Huniq _ _ _ _ Hm Hg') as <-. congruence.
  - simpl. lia.
  - rewrite Ep, Ee. unfold Zlen in *. rewrite length_app, length_map. unfold st', pend in *. simpl.
    rewrite Hexp in si_timer_room. simpl in si_timer_room. lia.
  - intros j Hj. apply si_fresh. lia.
Qed.

(** ** Events *)

(** requests prepared by other threads, with sequence numbers of their own *)
Fixpoint txs_ok (n : nat) (st : server) (l : list pfcp_msg_t) : Prop :=
  match l with
  | [] => True
  | tx :: l =>
      id24 (m_seq_no tx) /\ own (m_seq_no tx) = true /\ is_Some (m_data tx) /\ sv_request_q st !! m_seq_no tx = None
      /\ (forall j : Z, 1 <= j <= Z.of_nat n -> (sv_seq_no st + j) mod 2 ^ 24 <> m_seq_no tx)
      /\ Forall (fun tx' => m_seq_no tx' <> m_seq_no tx) l /\ txs_ok n st l
  end.

Lemma txs_ok_frame n n' st st' l :
  (n' <= n)%nat -> sv_seq_no st' = sv_seq_no st ->
  (forall tx, tx ∈ l -> sv_request_q st !! m_seq_no tx = None -> sv_request_q st' !! m_seq_no tx = None) ->
  txs_ok n st l -> txs_ok n' st' l.
Proof.
  intros Hn Hs. induction l as [|tx l IH]; intros Hf; [done|]. cbn [txs_ok]. rewrite Hs.
  intros (? & ? & ? & ? & Hj & ? & Hl). split_and!; try done.
  - by apply Hf; [left|].
  - intros j ?. apply Hj. lia.
  - apply IH; [|done]. intros tx' Htx'. apply Hf. by right.
Qed.

Lemma event_tx_ok n a st tx l :
  inv (cost + n) 0 None st -> txs_ok (cost + n) st (tx :: l) ->
  safe (fun '(_, st') => kept n 0 st st' /\ txs_ok n st' l) (event_tx session_valid a st tx).
Proof.
  intros HI (Hs & Ho & Hd & Hn & Hf & Hdist & Hl). unfold event_tx. destruct (pool_is_free_index _ _).
  { split; [eapply kept_refl; [|done]; lia|]. eapply (txs_ok_frame (cost + n)); [lia|done|auto|done]. }
  unfold pfcp_msg_pool_add.
  destruct (inv_get own (2 + app_burst + n) 0 st HI) as (i & st1 & -> & HI1 & Hq & Hu & (E1 & E2 & E3 & E4 & E5 & E6 & _)).
  cbn [obind]. set (tx' := msg_set_valid tx true). set (st2 := set_sv_msg st1 i tx').
  unfold upf_pfcp_server_send_request.
  destruct (enqueue_request_ok own (1 + app_burst + n) 0 i tx' st2) as (st3 & h & Een & HI3 & HM & _ & Hseq3 & Hexp3 & _);
    [by apply inv_set_msg|apply lookup_insert_eq|done|done|done|done|done|done| | |].
  { unfold st2. simpl. by rewrite E1. }
  { unfold st2. simpl. rewrite E5. intros j Hj. apply Hf. unfold cost. lia. }
  rewrite Een. cbn [obind]. rewrite (elt_ok _ _ _ HM eq_refl). cbn [obind].
  destruct (send_data_ok own session_valid _ _ _ _ (msg_set_timer (msg_set_retries tx' 3 10) h (f64_add (sv_now st2) (f64_of_Z 10))) HI3)
    as (x & -> & HI4); [done|].
  split; [split; [eapply inv_weaken_le; [|done]; lia|simpl; rewrite Hexp3; unfold st2; simpl; by rewrite E4]|].
  eapply (txs_ok_frame (cost + n)); [lia|simpl; rewrite Hseq3; exact E5| |done].
  intros tx0 Htx0 Hn0. simpl. revert Een. unfold enqueue_request.
  rewrite (elt_ok st2 i tx' (lookup_insert_eq _ _ _) eq_refl). cbn [obind].
  unfold start_msg_timer, upf_pfcp_server_start_timer, assert. do 2 (case_match; [|done]). intros [= <-]. simpl.
  rewrite E1, lookup_insert_ne; [done|]. eapply Forall_forall in Hdist; [|done]. congruence.
Qed.

Definition each_ok {E} (Q : list E -> nat -> server -> Prop) (f : A -> server -> E -> outcome (A * server)) : Prop :=
  forall n a st e l, Q (e :: l) (cost + n)%nat st -> safe (fun '(_, st') => Q l n st') (f a st e).

Lemma each_safe {E} (Q : list E -> nat -> server -> Prop) f n a st l :
  each_ok Q f -> Q l (length l * cost + n)%nat st -> safe (fun '(_, st') => Q [] n st') (each f l a st).
Proof.
  intros Hf. revert a st. induction l as [|e l IH]; intros a st HQ; [done|]. cbn [each]. eapply safe_obind.
  - apply Hf. replace (cost + (length l * cost + n))%nat with (length (e :: l) * cost + n)%nat by (simpl; lia). done.
  - intros [a' st'] HQ'. by apply IH.
Qed.

Definition event_size (ev : event) : nat :=
  match ev with
  | EVENT_TIMEOUT => 0 | EVENT_RX l => length l | EVENT_TX l => length l | EVENT_URR l => length l | EVENT_PACK l => length l
  end.
Definition event_ok (n : nat) (st : server) (ev : event) : Prop :=
  match ev with
  | EVENT_RX l => Forall rx_ok l
  | EVENT_TX l => txs_ok n st l
  | _ => True
  end.

Lemma event_urr_ok n a st uev :
  inv (cost + n) 0 None st -> safe (fun '(_, st') => kept n 0 st st') (event_urr session_valid a st uev).
Proof.
  intros HI. assert (kept n 0 st st) as HI' by (eapply kept_refl; [|done]; lia).
  assert (inv (app_burst + n) 0 None st) as HI1 by (eapply inv_weaken_le; [|exact HI]; unfold cost; lia).
  unfold event_urr. destruct (pool_elt _ _) as [sx|]; [|done]. case_test; [done|].
  assert (forall p : upcall A, behaves false app_burst p ->
    safe (fun '(_, st') => kept n 0 st st') (run_upcall session_valid msg_zero p st)) as Hup.
  { intros p Hb. exact (done_kept n 0 _ _ _ (run_upcall_ok own session_valid n 0 false app_burst msg_zero p st Hb HI1 ltac:(done))). }
  case_test; apply Hup; [apply usage_report_behaves|apply drop_behaves].
Qed.

Lemma event_pack_ok n a st ev :
  inv (cost + n) 0 None st -> safe (fun '(_, st') => kept n 0 st st') (event_pack session_valid a st ev).
Proof.
  intros HI. unfold event_pack. destruct (pool_elt _ _) as [sx|]; [|by right; left].
  assert (inv (3 + n) 0 None st) as HI1 by (eapply inv_weaken_le; [|exact HI]; unfold cost; lia).
  eapply safe_obind; [apply (send_built_ok own session_valid n 0); [done|intros; apply encode_session_safe]|].
  intros st' [[? E] _]. split; [done|by rewrite E].
Qed.

Lemma each_inv {E} (ok : E -> Prop) (f : A -> server -> E -> outcome (A * server)) n a st l :
  (forall n a st e, inv (cost + n) 0 None st -> ok e -> safe (fun '(_, st') => kept n 0 st st') (f a st e)) ->
  Forall ok l -> inv (length l * cost + n) 0 None st -> safe (fun '(_, st') => kept n 0 st st') (each f l a st).
Proof.
  intros Hf Hl HI. eapply safe_mono.
  - apply (each_safe (fun l n st' => kept n 0 st st' /\ Forall ok l) f n a st l); [|exact (conj (conj HI eq_refl) Hl)].
    intros n' a' st' e l' [[HI' E'] [He Hl']%Forall_cons]. eapply safe_mono; [by apply Hf|].
    intros [? ?] [? ?]. split; [split; [done|congruence]|done].
  - by intros [? ?] [? _].
Qed.

Lemma Forall_any {E} (l : list E) : Forall (fun _ => True) l.
Proof. by apply Forall_forall. Qed.

Lemma handle_event_ok n a st ev :
  inv (event_size ev * cost + n) 0 None st -> event_ok (event_size ev * cost + n) st ev ->
  safe (fun '(_, st') => kept n 0 st st') (handle_event session_valid a st ev).
Proof.
  intros HI Hev. destruct ev as [|l|l|l|l]; cbn [handle_event event_size event_ok] in *; [split; [eapply inv_weaken_le; [|exact HI]; lia|done]| | | |].
  - apply (each_inv rx_ok); [|done|done]. intros. by apply rx_msg_ok.
  - eapply safe_mono.
    + apply (each_safe (fun l n st' => kept n 0 st st' /\ txs_ok n st' l) (event_tx session_valid) n a st l);
        [|exact (conj (conj HI eq_refl) Hev)].
      intros n' a' st' e l' [[HI' E'] Hl']. eapply safe_mono; [by apply event_tx_ok|].
      intros [? ?] [[? ?] ?]. split; [split; [done|congruence]|done].
    + by intros [? ?] [? _].
  - apply (each_inv (fun _ => True)); [|apply Forall_any|done]. intros. by apply event_urr_ok.
  - apply (each_inv (fun _ => True)); [|apply Forall_any|done]. intros. by apply event_pack_ok.
Qed.

Lemma sort_ok n st l :
  inv n 0 None st -> l ≡ₚ sv_expired st -> inv n 0 None (set_sv_timers st (sv_timer st) l).
Proof.
  intros [] Hp. assert (forall e, e ∈ l <-> e ∈ sv_expired st) as Hin by (intros e; by rewrite Hp).
  assert (forall e, e ∈ pend 0 st <-> e ∈ pend 0 (set_sv_timers st (sv_timer st) l)) as Hpend
    by (intros e; unfold pend; simpl; by rewrite !drop_0).
  split; try done.
  - intros s i Hs Hh. destruct (si_req _ _ Hs Hh) as (m & ? & ? & ? & ? & ? & ? & ? & Ha). exists m.
    repeat (split; [done|]). destruct Ha as [?|Ha]; [by left|right]. by apply Hpend.
  - intros s i Hs Hh. destruct (si_resp _ _ Hs Hh) as (m & ? & ? & ? & ? & ? & ? & Ha). exists m.
    repeat (split; [done|]). destruct Ha as [[? Ha]|[Ha ?]]; [left|right].
    + split; [done|]. simpl. by rewrite Hin.
    + split; [by apply Hpend|done].
  - intros e He. by apply si_pend, Hpend.
  - intros i Hi. unfold pend in *. simpl. rewrite !drop_0 in *.
    etransitivity; [|by apply (si_once i)]. apply Nat.eq_le_incl. by apply Permutation_count_occ.
  - unfold pend, Zlen in *. simpl in *. by rewrite Hp.
Qed.

Lemma reset_ok n st :
  inv n (length (sv_expired st)) None st ->
  inv n 0 None (set_sv_free_msgs (set_sv_timers st (sv_timer st) []) ∅).
Proof.
  intros []. assert (pend (length (sv_expired st)) st = []) as Ep by (unfold pend; by apply drop_ge).
  split; try done.
  - intros s i Hs Hh. destruct (si_req _ _ Hs Hh) as (m & ? & ? & ? & ? & ? & ? & ? & Ha). exists m.
    repeat (split; [done|]). left. destruct Ha as [?|Ha]; [done|]. rewrite Ep in Ha. by apply not_elem_of_nil in Ha.
  - intros s i Hs Hh. destruct (si_resp _ _ Hs Hh) as (m & ? & ? & ? & ? & ? & ? & Ha). exists m.
    repeat (split; [done|]). left. destruct Ha as [[? _]|[Ha _]]; [|rewrite Ep in Ha; by apply not_elem_of_nil in Ha].
    split; [done|apply not_elem_of_nil].
  - intros e He. by apply not_elem_of_nil in He.
  - intros i Hi. simpl. lia.
  - intros e He. by apply not_elem_of_nil in He.
  - rewrite Ep in si_timer_room. exact si_timer_room.
Qed.

(** ** A turn *)

(** between two turns *)
Definition sv_ok (st : server) : Prop := inv 0 0 None st /\ sv_expired st = [].

(** room for [n] / 3 more messages, with sequence numbers that are not in use *)
Definition room (n : nat) (st : server) : Prop :=
  Z.of_nat (size (M st)) + Z.of_nat n <= 2 ^ 24 /\ Z.of_nat (size (W st)) + Z.of_nat n < u32_none
  /\ forall j : Z, 1 <= j <= Z.of_nat n ->
     let s := (sv_seq_no st + j) mod 2 ^ 24 in own s = true /\ sv_request_q st !! s = None.

Definition turn_size (st : server) (ids : list Z) (ev : event) : nat :=
  (event_size ev + (size (W st) + length ids)) * cost + length ids.

Lemma ok_room n st : sv_ok st -> room n st -> inv n 0 None st.
Proof.
  intros [[] Hexp] (Hr1 & Hr2 & Hr3). split; try done. unfold pend. rewrite Hexp. unfold Zlen. simpl. lia.
Qed.

(** what a turn is given: the time, the timers of other parts, and events *)
Definition turn_ok (st : server) (now : f64) (ids : list Z) (ev : event) : Prop :=
  clock_ok now /\ Forall other_id ids /\ room (turn_size st ids ev) st /\ event_ok (turn_size st ids ev) st ev.

Lemma loop_start_timer st : sv_timer (pfcp_msg_pool_loop_start st) = sv_timer st /\ sv_expired (pfcp_msg_pool_loop_start st) = sv_expired st
  /\ sv_seq_no (pfcp_msg_pool_loop_start st) = sv_seq_no st /\ sv_request_q (pfcp_msg_pool_loop_start st) = sv_request_q st.
Proof. unfold pfcp_msg_pool_loop_start. by destruct (refill _ _ _). Qed.

Lemma turn_safe {S : VecSort} {SOk : VecSortOk S} a st now tick ids ev :
  sv_ok st -> turn_ok st now ids ev ->
  safe (fun '(_, st') => sv_ok st') (pfcp_turn session_valid a st now tick ids ev).
Proof.
  intros Hok (Hnow & Hids & Hroom & Hev). pose proof (ok_room _ _ Hok Hroom) as HI. destruct Hok as [_ Hexp].
  pose proof (loop_start_ok _ _ HI Hexp) as HI1. destruct (loop_start_timer st) as (L1 & L2 & L3 & L4).
  set (T := (size (W st) + length ids)%nat) in *. set (n1 := ((event_size ev + T) * cost)%nat) in *.
  unfold turn_size in *. fold T in HI1, Hev. fold n1 in HI1, Hev. unfold pfcp_turn.
  destruct (expire_ok n1 (pfcp_msg_pool_loop_start st) now tick ids) as [HI2 Hlen];
    [by rewrite Nat.add_comm|by rewrite L2|done|done|].
  rewrite L1 in Hlen. fold T in Hlen. set (st2 := tw_timer_expire_timers_vec _ _ _ _) in *.
  eapply safe_obind; [apply (handle_event_ok (T * cost)); unfold n1 in *; rewrite <- Nat.mul_add_distr_r|].
  { exact HI2. }
  { destruct ev; try done. eapply txs_ok_frame; [| | |exact Hev]; [lia|unfold st2; simpl; exact L3|].
    intros tx _. unfold st2. simpl. by rewrite L4. }
  intros [a' st3] [HI3 El]. set (st4 := set_sv_timers st3 _ _).
  assert (sv_expired st4 ≡ₚ sv_expired st3) as Hp by apply vec_sort_perm.
  assert (length (sv_expired st4) <= T)%nat as Hl4 by (rewrite Hp; lia).
  eapply safe_obind; [apply (expired_loop_ok 0 _ 0); [|done]|].
  { eapply inv_weaken_le; [|by apply sort_ok]. rewrite Nat.add_0_r. by apply Nat.mul_le_mono_r. }
  intros [a'' st5] HI5. eapply safe_obind; [by apply free_msgs_ok|]. intros st6 HI6. split; [by apply reset_ok|done].
Qed.
End Turn.
