(* ===== verification/PfcpServerRun.v ===== *)
(** * Runs of the PFCP server

    The states the server reaches; a repeated request of the peer is answered
    with the same octets and handled once; a request of the UPF is sent three
    times and then given up; and runs in which the server fails: a message of
    another version, and a peer that uses the sequence number of one of the
    UPF's own requests. *)

From Stdlib Require Import ZArith Lia.
From stdpp Require Import base list list_numbers option numbers decidable gmap fin_map_dom sorting relations.
From S2P Require Import Prelude PfcpIo PfcpIe PfcpLeaf PfcpTables PfcpCodec UpfTypes UpfVec UpfUrr PfcpServer PfcpServerInv PfcpServerSafe.

(** ** An application to run: it answers heartbeats *)

Definition heartbeat_response : pfcp_decoded_msg_t :=
  mk_dmsg PFCP_HEARTBEAT_RESPONSE 0 0 (VGroup (SET_BIT 0 3) [[]; []; []; [VLeaf K_time_stamp_ie 1549107584]] []).

(** the state is the associations and the number of messages handled *)
Definition demo : Type := pool upf_node_assoc_t * nat.
#[export] Instance demo_app : PfcpApp demo := {
  app_nodes := fst;
  app_sessions _ := pool_empty;
  upf_pfcp_handle_msg a msg :=
    let a := (fst a, S (snd a)) in
    if pfcp_msg_type (vec_elts (m_data msg)) =? PFCP_HEARTBEAT_REQUEST
    then SendResponse heartbeat_response (fun _ => Return a) else Return a;
  pfcp_release_association a _ := Return a;
  upf_pfcp_session_urr_timer a _ _ := Return a;
  upf_pfcp_session_usage_report a _ _ _ := Return a;
  drop_session a _ := Return a
}.

Definition demo_node : upf_node_assoc_t := mk_node {| nid_type := 2; nid_ip := []; nid_fqdn := Some [1; 117] |} 0 5 ip6_zero ip6_zero 0 u32_none.
Definition demo_nodes : pool upf_node_assoc_t := mk_pool {[ 0 := demo_node ]} [].

(** a heartbeat request with sequence number [s], received or to be sent *)
Definition heartbeat_octets (s : Z) : list Z := [0x20; 1; 0; 12] ++ be 3 s ++ [0; 0; 96; 0; 4; 0xe0; 0; 0; 0].
Definition heartbeat_from (s node : Z) : pfcp_msg_t :=
  mk_msg (ip6_zero, pfcp_port) s 5 (ip6_zero, pfcp_port) node 0 f64_zero 0 0 0 false (Some (heartbeat_octets s)).

Definition demo_turn (a : demo) (st : server) (seconds : Z) (ev : event) : outcome (demo * server) :=
  @pfcp_turn vpp_exact pool_lifo (fun _ => true) demo demo_app insertion_sort a st (f64_of_Z seconds)
    (seconds * TW_CLOCKS_PER_SECOND) [] ev.
Definition demo_run (l : list (Z * event)) (a : demo) (st : server) : outcome (demo * server) :=
  foldl (fun o '(t, ev) => obind o (fun '(a, st) => demo_turn a st t ev)) (Ok (a, st)) l.

Lemma demo_app_ok : PfcpAppOk (A := demo).
Proof.
  refine {| app_burst := 3 |}; intros; try constructor.
  cbn [upf_pfcp_handle_msg demo_app]. case_test; [|constructor]. btest.
  rewrite bool_decide_true by (replace (pfcp_msg_type _) with PFCP_HEARTBEAT_REQUEST by lia; left).
  apply (behaves_response 0). intros. constructor.
Defined.

(** ** Reachable states *)

Section Run.
Context (own : Z -> bool) {V : Vppinfra} {P : VppPool} {POk : VppPoolOk P} {PD : VppPoolDense P}.
Context {VS : VecSort} {VSOk : VecSortOk VS} (session_valid : Z -> bool) {A : Type} {App : PfcpApp A} {AOk : PfcpAppOk (A := A)}.
#[local] Abbreviation W st := (pool_elts (sv_timer st)).
#[local] Abbreviation M st := (pool_elts (sv_msg_pool st)).

(** from the start of the server by turns that have room and whose events are in order *)
Inductive sv_reach (a0 : A) (start_time : Z) : A -> server -> Prop :=
| reach_init : sv_reach a0 start_time a0 (pfcp_server_main_init start_time)
| reach_turn a st now tick ids ev a' st' :
    sv_reach a0 start_time a st -> turn_ok own st now ids ev ->
    pfcp_turn session_valid a st now tick ids ev = Ok (a', st') -> sv_reach a0 start_time a' st'.

Lemma init_ok start_time : sv_ok own (pfcp_server_main_init start_time).
Proof.
  split; [|done]. split; simpl; try done; try (intros *; rewrite lookup_empty; done).
  - constructor.
  - intros i. split; [by intros ?%not_elem_of_nil|]. intros (m & Hm & _). by rewrite lookup_empty in Hm.
  - intros e He. by apply not_elem_of_nil in He.
  - intros i Hi. lia.
  - intros e He. by apply not_elem_of_nil in He.
  - intros j Hj. lia.
  - by intros t [-> | ->].
Qed.

Lemma reach_ok a0 start_time a st : sv_reach a0 start_time a st -> sv_ok own st.
Proof.
  induction 1 as [|a st now tick ids ev a' st' _ IH Ht E]; [apply init_ok|].
  pose proof (turn_safe own session_valid a st now tick ids ev IH Ht) as Hs. by rewrite E in Hs.
Qed.


(** ** Requests of the peer *)

Definition received (msg : pfcp_msg_t) : pfcp_msg_t :=
  msg_set_seq_no (msg_set_node msg u32_none) (pfcp_msg_seq (vec_elts (m_data msg))).
Definition is_request_msg (data : list Z) : bool :=
  (4 <=? Zlen data) && (pfcp_msg_version data =? 1) && pfcp_msg_enough_len data (Zlen data)
  && bool_decide (pfcp_msg_type data ∈ request_types).
(** the datagram that answers a message *)
Definition reply (msg : pfcp_msg_t) (data : list Z) : datagram :=
  mk_datagram (m_session_handle msg) (m_lcl msg) (m_rmt msg) data.

Lemma rx_is_request a st msg :
  is_request_msg (vec_elts (m_data msg)) = true ->
  upf_pfcp_server_rx_msg session_valid a st msg = rx_request session_valid a st (received msg).
Proof.
  unfold is_request_msg, upf_pfcp_server_rx_msg. intros [[[H1 H2]%andb_true_iff H3]%andb_true_iff H4]%andb_true_iff.
  apply Z.leb_le in H1. rewrite (proj2 (Z.ltb_ge _ _)) by lia. rewrite H2, H3, H4. done.
Qed.

(** the response to [msg] is kept *)
Definition kept_reply (st : server) (msg : pfcp_msg_t) (data : list Z) : Prop :=
  exists i m, sv_response_q st !! request_key msg = Some i /\ M st !! i = Some m
  /\ m_data m = Some data /\ m_rmt m = m_rmt msg /\ m_lcl m = m_lcl msg /\ m_session_handle m = m_session_handle msg.

Lemma start_timer_msgs st i msg type id secs :
  0 <= type < 8 -> id24 id ->
  exists st' h x, start_msg_timer st i msg type id secs = Ok st'
  /\ sv_sent st' = sv_sent st /\ sv_request_q st' = sv_request_q st /\ sv_response_q st' = sv_response_q st
  /\ sv_msg_pool_free st' = sv_msg_pool_free st /\ M st' = <[i := msg_set_timer msg h x]> (M st)
  /\ W st' = <[h := (server_timer_id type id, sv_tick st + secs * TW_CLOCKS_PER_SECOND)]> (W st).
Proof.
  intros Hty Hid. unfold start_msg_timer, upf_pfcp_server_start_timer, assert.
  rewrite (proj2 (Z.ltb_lt _ _)), id24_land by (done || lia). cbn [Z.eqb obind tw_timer_start pool_get].
  eexists _, _, _. split; [reflexivity|]. simpl. by split_and!.
Qed.

Lemma stop_msgs st i st' m :
  M st !! i = Some m -> upf_pfcp_server_stop_msg_timer st i = Ok st' ->
  sv_sent st' = sv_sent st /\ sv_response_q st' = sv_response_q st /\ exists h, M st' !! i = Some (msg_set_timer m h (m_expires_at m)).
Proof.
  intros Hm. unfold upf_pfcp_server_stop_msg_timer, pfcp_msg_pool_elt_at_index, pool_elt. rewrite Hm. unfold assert.
  destruct (m_is_valid_pool_item m); [|done]. cbn [obind]. case_test.
  { intros [= <-]. repeat (split; [done|]). exists (m_timer m). rewrite Hm. by destruct m. }
  destruct (existsb _ _); cbn [obind]; [|unfold tw_timer_stop; destruct (pool_elt _ _); cbn [obind]; [|done]];
    intros [= <-]; simpl; (repeat (split; [done|])); exists u32_none; apply lookup_insert_eq.
Qed.

Lemma restart_keeps n k st msg data :
  sv_inv own (1 + n) k None st -> kept_reply st msg data -> session_valid (m_session_handle msg) = true ->
  forall a, exists st', rx_request session_valid a st msg = Ok (a, st') /\ sv_inv own n k None st'
  /\ sv_sent st' = sv_sent st ++ [reply msg data] /\ sv_response_q st' = sv_response_q st /\ kept_reply st' msg data.
Proof.
  intros HI (i & m & Hk & Hm & Hd & Hr & Hl & Hh) Hv a. unfold rx_request. rewrite Hk.
  destruct (queued_response own _ _ _ _ _ HI Hk) as (m' & Hm' & (Hval & _) & _). simplify_eq.
  rewrite (elt_ok _ _ _ Hm Hval). cbn [obind]. unfold upf_pfcp_send_data. rewrite Hh, Hv, Hd. cbn [negb obind].
  set (st1 := set_sv_sent st _).
  destruct (restart_ok own n k st1 (request_key msg) i) as (st2 & E & HI2 & Es & Eq & _); [by apply inv_sent|done|].
  rewrite E. cbn [obind]. exists st2. split_and!; [done|done|by rewrite Es; unfold st1, reply; rewrite Hr, Hl|done|].
  revert E. unfold restart_response_timer. destruct (upf_pfcp_server_stop_msg_timer st1 i) as [st3| |] eqn:E3; cbn [obind]; [|done..].
  destruct (stop_msgs _ _ _ _ (Hm : M st1 !! i = Some m) E3) as (_ & _ & h & Hm3).
  rewrite (elt_ok _ _ _ Hm3 Hval). cbn [obind].
  destruct (start_timer_msgs st3 i (msg_set_timer m h (m_expires_at m)) PFCP_SERVER_RESPONSE i RESPONSE_TIMEOUT)
    as (st4 & h' & x & -> & _ & _ & _ & _ & HM & _); [done|by eapply (si_index own _ _ _ _ HI)|]. intros [= ->].
  eexists i, _. rewrite HM, Eq. split_and!; [done|apply lookup_insert_eq|done..].
Qed.

Lemma response_kept n k st req dmsg data :
  sv_inv own (3 + n) k None st -> peer_msg own req -> sv_response_q st !! request_key req = None ->
  session_valid (m_session_handle req) = true ->
  pfcp_encode_msg (dmsg_set dmsg (pfcp_msg_seq (vec_elts (m_data req))) (dm_seid dmsg)) = Ok data ->
  exists st', upf_pfcp_send_response session_valid st req dmsg = Ok (0, st') /\ sv_inv own n k None st'
  /\ sv_sent st' = sv_sent st ++ [reply req data] /\ kept_reply st' req data.
Proof.
  intros HI Hp Hn Hv He. pose proof (send_response_ok own session_valid n k st req dmsg HI Hp Hn) as Hs. revert Hs.
  unfold upf_pfcp_send_response, safe.
  destruct (inv_get own (2 + n) k st HI) as (i & st1 & -> & HI1 & Hq & Hu & (E1 & E2 & E3 & E4 & E5 & E6 & E7)). cbn [obind].
  destruct (si_hand _ _ _ _ _ HI1 i eq_refl) as (m & Hm & Hval). rewrite (elt_ok _ _ _ Hm Hval). cbn [obind]. rewrite He.
  unfold upf_pfcp_send_data. cbn [m_session_handle msg_set_data upf_pfcp_make_response]. rewrite Hv. cbn [negb m_data msg_set_data obind].
  unfold enqueue_response. set (resp := msg_set_data (upf_pfcp_make_response m req) (Some data)). set (st2 := set_sv_sent _ _).
  rewrite (elt_ok st2 i resp (lookup_insert_eq _ _ _) Hval). cbn [obind].
  destruct (start_timer_msgs (set_sv_queues st2 (sv_request_q st2) (<[request_key resp := i]> (sv_response_q st2)))
    i resp PFCP_SERVER_RESPONSE i RESPONSE_TIMEOUT) as (st3 & h & x & -> & Es & _ & Eq & _ & HM & _);
    [done|by eapply (si_index own _ _ _ _ HI1)|].
  cbn [obind]. intros [HI3 _]. exists st3. split_and!; [done|done| |].
  - rewrite Es. unfold st2. simpl. by rewrite (proj1 E7).
  - eexists i, _. rewrite Eq, HM. simpl. split_and!; [apply lookup_insert_eq|apply lookup_insert_eq|done..].
Qed.

Lemma repeats_ok n k a st msg data r :
  is_request_msg (vec_elts (m_data msg)) = true -> session_valid (m_session_handle msg) = true ->
  sv_inv own (r + n) k None st -> kept_reply st (received msg) data ->
  exists st', each (event_rx session_valid) (replicate r msg) a st = Ok (a, st')
  /\ sv_inv own n k None st' /\ sv_sent st' = sv_sent st ++ replicate r (reply msg data).
Proof.
  intros Hreq Hv. revert st. induction r as [|r IH]; intros st HI Hk; [exists st; by rewrite app_nil_r|].
  cbn [each replicate]. unfold event_rx at 1. rewrite rx_is_request by done.
  destruct (restart_keeps (r + n) k st (received msg) data HI Hk Hv a) as (st1 & -> & HI1 & Es & _ & Hk1). cbn [obind].
  destruct (IH st1 HI1 Hk1) as (st2 & -> & HI2 & Es2). exists st2. split_and!; [done|done|].
  rewrite Es2, Es, <- app_assoc. done.
Qed.


(** ** Requests of the UPF *)

(** the retransmission timer of the request [s] expires [n] times *)
Fixpoint t1_expires (n : nat) (a : A) (st : server) (s : Z) : outcome (A * server) :=
  match n with
  | O => Ok (a, st)
  | S n => obind (request_t1_expired session_valid a st s) (fun '(a, st) => t1_expires n a st s)
  end.

(** a request in the queue: what is sent, and how often its timer may still expire *)
Definition waits (st : server) (i s : Z) (m : pfcp_msg_t) (data : list Z) (n1 : Z) : Prop :=
  exists q, sv_request_q st = <[s := i]> q /\ q !! s = None
  /\ M st !! i = Some m /\ m_is_valid_pool_item m = true /\ m_data m = Some data /\ m_seq_no m = s /\ m_n1 m = n1.

Lemma t1_again a st i s m data n1 :
  waits st i s m data n1 -> id24 s -> session_valid (m_session_handle m) = true -> 1 < n1 < 2 ^ 32 ->
  exists st' m', request_t1_expired session_valid a st s = Ok (a, st') /\ waits st' i s m' data (n1 - 1)
  /\ reply m' data = reply m data /\ m_node m' = m_node m /\ sv_sent st' = sv_sent st ++ [reply m data]
  /\ sv_request_q st' = sv_request_q st /\ sv_msg_pool_free st' = sv_msg_pool_free st
  /\ exists h, W st' = <[h := (server_timer_id PFCP_SERVER_T1 s, sv_tick st + m_t1 m * TW_CLOCKS_PER_SECOND)]> (W st).
Proof.
  intros (q & Hq & Hqn & Hm & Hv & Hd & Hs & Hn) Hid Hsv Hn1. unfold request_t1_expired. rewrite Hq, lookup_insert_eq.
  rewrite (elt_ok _ _ _ Hm Hv). cbn [obind]. assert (wrap 32 (m_n1 m - 1) = n1 - 1) as -> by (rewrite Hn; apply Z.mod_small; lia).
  set (m1 := msg_set_retries m (n1 - 1) (m_t1 m)). change (m_n1 m1) with (n1 - 1).
  rewrite (proj2 (Z.eqb_neq (n1 - 1) 0)) by lia. cbn [negb]. change (m_seq_no m1) with (m_seq_no m). rewrite Hs.
  destruct (start_timer_msgs st i m1 PFCP_SERVER_T1 s (m_t1 m1)) as (st1 & h & x & -> & E1 & E2 & E3 & E4 & HM & HW); [done|done|].
  cbn [obind]. assert (M st1 !! i = Some (msg_set_timer m1 h x)) as Hm1 by (rewrite HM; apply lookup_insert_eq).
  rewrite (elt_ok _ _ _ Hm1 Hv). cbn [obind]. unfold upf_pfcp_send_data. simpl. rewrite Hsv, Hd. simpl.
  eexists _, (msg_set_timer m1 h x). split; [reflexivity|]. split_and!; [|done|done|by simpl; rewrite E1|simpl; congruence|exact E4|].
  - exists q. simpl. rewrite E2. by split_and!.
  - exists h. exact HW.
Qed.

(** the last expiry: the request is dropped *)
Lemma t1_last a st i s m data :
  waits st i s m data 1 ->
  pfcp_msg_type data <> PFCP_HEARTBEAT_REQUEST \/ pool_is_free_index (app_nodes a) (m_node m) = true ->
  exists st', request_t1_expired session_valid a st s = Ok (a, st') /\ sv_request_q st' = delete s (sv_request_q st)
  /\ sv_sent st' = sv_sent st /\ W st' = W st /\ sv_msg_pool_free st' = i :: sv_msg_pool_free st
  /\ exists m', M st' !! i = Some m' /\ m_is_valid_pool_item m' = false.
Proof.
  intros (q & Hq & Hqn & Hm & Hv & Hd & Hs & Hn) Hhb. unfold request_t1_expired. rewrite Hq, lookup_insert_eq.
  rewrite (elt_ok _ _ _ Hm Hv). cbn [obind]. rewrite Hn. change (wrap 32 (1 - 1)) with 0. simpl. rewrite Hs, Hd. simpl.
  unfold pfcp_msg_pool_put. set (st1 := set_sv_queues _ _ _).
  rewrite (elt_ok st1 i (msg_set_retries m 0 (m_t1 m)) (lookup_insert_eq _ _ _) Hv). cbn [obind].
  assert ((pfcp_msg_type data =? PFCP_HEARTBEAT_REQUEST) && negb (pool_is_free_index (app_nodes a) (m_node m)) = false) as ->.
  { destruct Hhb as [H|H]; [by rewrite (proj2 (Z.eqb_neq _ _) H)|]. rewrite H. apply andb_false_r. }
  eexists. split; [reflexivity|]. simpl. split_and!; [done..|]. eexists. split; [apply lookup_insert_eq|done].
Qed.

Lemma send_request_waits st i m data :
  M st !! i = Some m -> m_is_valid_pool_item m = true -> m_data m = Some data -> id24 (m_seq_no m) ->
  session_valid (m_session_handle m) = true -> sv_request_q st !! m_seq_no m = None ->
  exists st' m', upf_pfcp_server_send_request session_valid st i = Ok st' /\ waits st' i (m_seq_no m) m' data 3
  /\ reply m' data = reply m data /\ m_node m' = m_node m /\ sv_sent st' = sv_sent st ++ [reply m data]
  /\ sv_request_q st' = <[m_seq_no m := i]> (sv_request_q st) /\ sv_msg_pool_free st' = sv_msg_pool_free st
  /\ exists h, W st' = <[h := (server_timer_id PFCP_SERVER_T1 (m_seq_no m), sv_tick st + 10 * TW_CLOCKS_PER_SECOND)]> (W st).
Proof.
  intros Hm Hv Hd Hid Hsv Hq. unfold upf_pfcp_server_send_request, enqueue_request.
  rewrite (elt_ok _ _ _ Hm Hv). cbn [obind]. set (m1 := msg_set_retries m 3 10). set (st0 := set_sv_queues _ _ _).
  destruct (start_timer_msgs st0 i m1 PFCP_SERVER_T1 (m_seq_no m1) 10) as (st1 & h & x & -> & E1 & E2 & E3 & E4 & HM & HW); [done|done|].
  cbn [obind]. assert (M st1 !! i = Some (msg_set_timer m1 h x)) as Hm1 by (rewrite HM; apply lookup_insert_eq).
  rewrite (elt_ok _ _ _ Hm1 Hv). cbn [obind]. unfold upf_pfcp_send_data. simpl. rewrite Hsv, Hd. simpl.
  eexists _, (msg_set_timer m1 h x). split; [reflexivity|]. split_and!; [|done|done|by simpl; rewrite E1|exact E2|exact E4|].
  - exists (sv_request_q st). simpl. rewrite E2. by split_and!.
  - exists h. exact HW.
Qed.


Definition other_version (data : list Z) : bool := (4 <=? Zlen data) && negb (pfcp_msg_version data =? 1).

(** A message whose version is not 1 is answered from a vector that was never
    allocated: its length is read through a null pointer. *)
Theorem other_version_null a st msg :
  other_version (vec_elts (m_data msg)) = true -> session_valid (m_session_handle msg) = true ->
  upf_pfcp_server_rx_msg session_valid a st msg = Fault NullDeref.
Proof.
  intros [Hl Hver]%andb_true_iff Hv. unfold upf_pfcp_server_rx_msg. apply Z.leb_le in Hl.
  rewrite (proj2 (Z.ltb_ge _ _)) by lia. rewrite Hver. unfold upf_pfcp_send_data. simpl. by rewrite Hv.
Qed.
End Run.

(** Peer and UPF choose their sequence numbers independently, but a timer is
    found by the number alone: a repeated request of the peer with the number of
    a request of the UPF, in the turn in which that request's timer expires,
    cancels the wrong expiry and leaves a second timer on the response, and the
    response is released twice. *)
Theorem sequence_clash_asserts :
  demo_run
    [(1, EVENT_TX [heartbeat_from 9 0]); (5, EVENT_RX [heartbeat_from 9 u32_none]);
     (11, EVENT_RX [heartbeat_from 20 u32_none; heartbeat_from 9 u32_none]);
     (22, EVENT_TIMEOUT); (35, EVENT_TIMEOUT); (41, EVENT_TIMEOUT)]
    (demo_nodes, 0%nat) (pfcp_server_main_init 0) = Fault Assertion.
Proof. vm_compute. reflexivity. Qed.

(** ** The theorems on the demonstration *)

Definition demo_own (s : Z) : bool := s <? 8.
Definition demo_start : demo := (demo_nodes, 0%nat).
Definition demo_rx : event := EVENT_RX [heartbeat_from 9 u32_none].
Definition demo_state : server :=
  match demo_turn demo_start (pfcp_server_main_init 0) 1 demo_rx with Ok (_, st) => st | _ => pfcp_server_main_init 0 end.

Lemma demo_turn_ok :
  turn_ok demo_own (AOk := demo_app_ok) (pfcp_server_main_init 0) (f64_of_Z 1) [] demo_rx.
Proof.
  split; [by intros t [-> | ->]|]. split; [constructor|]. split.
  - split; [done|]. split; [done|]. intros j Hj. change (1 <= j <= 6) in Hj. cbn [sv_seq_no sv_request_q pfcp_server_main_init].
    rewrite Z.mod_small by lia. split; [unfold demo_own; lia|apply lookup_empty].
  - apply Forall_singleton. intros _. by repeat split.
Qed.



(** an association setup request, without its elements *)
Definition demo_request : pfcp_msg_t :=
  mk_msg (ip6_zero, pfcp_port) 7 5 (ip6_zero, pfcp_port) 0 0 f64_zero 0 0 0 true (Some [0x20; 5; 0; 4; 0; 0; 7; 0]).
Definition demo_queue : server :=
  set_sv_pool (pfcp_server_main_init 0) (mk_pool {[ 0 := demo_request ]} []) [] [].


(** version 2, sent to the port of the server *)
Lemma other_version_null_witness :
  @upf_pfcp_server_rx_msg vpp_exact pool_lifo (fun _ => true) demo demo_app demo_start (pfcp_server_main_init 0)
    (mk_msg (ip6_zero, pfcp_port) 0 5 (ip6_zero, pfcp_port) u32_none 0 f64_zero 0 0 0 false (Some [0x40; 1; 0; 0])) = Fault NullDeref.
Proof.
  apply (@other_version_null vpp_exact pool_lifo (fun _ => true) demo demo_app demo_start (pfcp_server_main_init 0));
    vm_compute; reflexivity.
Defined.
