(* ===== verification/UrrTimer.v ===== *)
(** * Timers of usage reporting rules

    A session has timers for its rules (measurement period, time threshold, time
    quota, quota validity, traffic) and one for inactivity, all in the timer
    wheel of the PFCP server under the index of the session. When one expires,
    upf_pfcp_session_urr_timer looks through all rules for what is due, rearms
    what is periodic and sends a report (src/upf/upf_pfcp_server.c). The reports
    on events of the data path and on the end of a session are here too. *)

From Stdlib Require Import ZArith Lia Floats.SpecFloat.
From stdpp Require Import base list list_numbers option numbers decidable gmap fin_map_dom sorting.
From S2P Require Import Prelude PfcpIo PfcpIe PfcpLeaf PfcpTables PfcpCodec UpfTypes UpfVec UpfUrr UpfRules.

(** ** The timer wheel

    A running timer is a user id and the tick it expires at; [wh_last_run] is
    the time of the current tick. *)
Record wheel := mk_wheel { wh_timers : pool (Z * Z); wh_tick : Z; wh_last_run : f64 }.

Definition ticks_per_second : f64 := f64_of_Z 100.
Definition f64_to_i64 (x : f64) : Z := to_signed 64 (wrap 64 (f64_trunc x)).
Definition clib_min (a b : f64) : f64 := if f64_ltb a b then a else b.

Definition wheel_stop (w : wheel) (h : Z) : outcome wheel :=
  match pool_elt (wh_timers w) h with
  | None => Fault Assertion
  | Some _ => Ok (mk_wheel (pool_put (wh_timers w) h) (wh_tick w) (wh_last_run w))
  end.

Section Timers.
Context {P : VppPool}.

Definition wheel_start (w : wheel) (si interval : Z) : Z * wheel :=
  let '(h, p) := pool_get (wh_timers w) (si, wh_tick w + interval) in (h, mk_wheel p (wh_tick w) (wh_last_run w)).

(** ** Starting and stopping *)

Definition upf_pfcp_session_stop_urr_time (w : wheel) (t : urr_time_t) (now : f64) : outcome (wheel * urr_time_t) :=
  obind (if negb (ut_handle t =? u32_none) && f64_ltb now (ut_expected t) then wheel_stop w (ut_handle t) else Ok w)
    (fun w => Ok (w, mk_urr_time (ut_base t) (ut_period t) f64_zero u32_none)).

Definition upf_pfcp_session_start_stop_urr_time (w : wheel) (si : Z) (t : urr_time_t) (start_it : bool)
  : outcome (wheel * urr_time_t) :=
  let now := wh_last_run w in
  obind (if negb (ut_handle t =? u32_none) then upf_pfcp_session_stop_urr_time w t now else Ok (w, t)) (fun '(w, t) =>
  if negb (ut_period t =? 0) && start_it then
    let expected := f64_add (ut_base t) (f64_of_Z (ut_period t)) in
    let interval := f64_to_i64 (f64_add (f64_mul ticks_per_second (f64_sub expected now)) (f64_of_Z 1)) in
    let '(h, w) := wheel_start w si (Z.max interval 1) in
    Ok (w, mk_urr_time (ut_base t) (ut_period t) expected h)
  else Ok (w, t)).

(** [vnow] is vlib_time_now, which does not move during a call *)
Definition upf_pfcp_session_stop_up_inactivity_timer (w : wheel) (vnow : f64) (t : urr_time_t) : outcome (wheel * urr_time_t) :=
  obind (if negb (ut_handle t =? u32_none) && f64_ltb vnow (ut_expected t) then wheel_stop w (ut_handle t) else Ok w)
    (fun w => Ok (w, mk_urr_time (ut_base t) (ut_period t) f64_zero u32_none)).

Definition upf_pfcp_session_start_up_inactivity_timer (w : wheel) (si : Z) (vnow last : f64) (t : urr_time_t)
  : wheel * urr_time_t :=
  if negb (ut_handle t =? u32_none) || (ut_period t =? 0) then (w, t)
  else
    let period := f64_sub (f64_of_Z (ut_period t)) (trunc (f64_sub vnow last)) in
    let expected := f64_add vnow period in
    let interval := f64_to_i64 (f64_mul ticks_per_second period) in
    let '(h, w) := wheel_start w si (Z.max interval 1) in
    (w, mk_urr_time (ut_base t) (ut_period t) expected h).

(** ** One rule *)

(** the macro urr_check *)
Definition urr_check (t : urr_time_t) (now : f64) : bool :=
  negb (f64_eqb (ut_base t) f64_zero) && negb (ut_period t =? 0) && negb (f64_eqb (ut_expected t) f64_zero)
  && f64_ltb (ut_expected t) now.

Definition REPORTING_TRIGGER_PERIODIC_REPORTING : Z := BIT 0.
Definition REPORTING_TRIGGER_TIME_THRESHOLD : Z := BIT 2.
Definition REPORTING_TRIGGER_TIME_QUOTA : Z := BIT 9.
Definition REPORTING_TRIGGER_QUOTA_VALIDITY_TIME : Z := BIT 15.
Definition USAGE_REPORT_TRIGGER_PERIODIC_REPORTING : Z := BIT 0.
Definition USAGE_REPORT_TRIGGER_TIME_THRESHOLD : Z := BIT 2.
Definition USAGE_REPORT_TRIGGER_TIME_QUOTA : Z := BIT 9.
Definition USAGE_REPORT_TRIGGER_TERMINATION_BY_UP_FUNCTION_REPORT : Z := BIT 17.
Definition USAGE_REPORT_TRIGGER_QUOTA_VALIDITY_TIME : Z := BIT 19.

(** the triggers and the five timers of a rule *)
Definition urr_set_timers (u : upf_urr_t) (triggers : Z) (period threshold quota validity traffic : urr_time_t) : upf_urr_t :=
  mk_urr (urr_id u) (urr_methods u) triggers (urr_status u) (urr_update_flags u) (urr_seq_no u)
    (urr_start_time u) (urr_time_of_first_packet u) (urr_time_of_last_packet u) (urr_volume u)
    period threshold quota (urr_quota_holding_time u) validity (urr_monitoring_time u)
    (urr_usage_before_monitoring_time u) (urr_traffic u) (urr_traffic_by_ue u)
    traffic (urr_linked_urr_ids u) (urr_liusa_bitmap u).
Definition urr_set_period (u : upf_urr_t) (t : urr_time_t) : upf_urr_t :=
  urr_set_timers u (urr_triggers u) t (urr_time_threshold u) (urr_time_quota u) (urr_quota_validity_time u) (urr_traffic_timer u).
Definition urr_set_threshold (u : upf_urr_t) (t : urr_time_t) : upf_urr_t :=
  urr_set_timers u (urr_triggers u) (urr_measurement_period u) t (urr_time_quota u) (urr_quota_validity_time u) (urr_traffic_timer u).
Definition urr_set_quota (u : upf_urr_t) (t : urr_time_t) : upf_urr_t :=
  urr_set_timers u (urr_triggers u) (urr_measurement_period u) (urr_time_threshold u) t (urr_quota_validity_time u) (urr_traffic_timer u).
Definition urr_set_validity (u : upf_urr_t) (t : urr_time_t) : upf_urr_t :=
  urr_set_timers u (urr_triggers u) (urr_measurement_period u) (urr_time_threshold u) (urr_time_quota u) t (urr_traffic_timer u).
Definition urr_set_traffic_timer (u : upf_urr_t) (t : urr_time_t) : upf_urr_t :=
  urr_set_timers u (urr_triggers u) (urr_measurement_period u) (urr_time_threshold u) (urr_time_quota u) (urr_quota_validity_time u) t.
Definition urr_set_triggers (u : upf_urr_t) (x : Z) : upf_urr_t :=
  urr_set_timers u x (urr_measurement_period u) (urr_time_threshold u) (urr_time_quota u) (urr_quota_validity_time u) (urr_traffic_timer u).

(** the local variables of the loop: the wheel, the rule, trigger, trigger_now *)
Record urr_turn := mk_turn { tn_wheel : wheel; tn_urr : upf_urr_t; tn_trigger : Z; tn_now : f64 }.

(** a due timer [t] is reported if the rule asks for it *)
Definition turn_report (s : urr_turn) (reporting usage : Z) (t : urr_time_t) : Z * f64 :=
  if flag (urr_triggers (tn_urr s)) reporting
  then (Z.lor (tn_trigger s) usage, clib_min (tn_now s) (ut_expected t))
  else (tn_trigger s, tn_now s).

(** the loop that moves a late base on, up to 2^[d] steps at a time; [inr] if it
    has not come to its end *)
Fixpoint catch_up (d : nat) (now base period : f64) : f64 + f64 :=
  match d with
  | O => if f64_ltb (f64_add base period) now then inr (f64_add base period) else inl base
  | S d =>
      match catch_up d now base period with
      | inl base => inl base
      | inr base => catch_up d now base period
      end
  end.

Definition check_measurement_period (now : f64) (si : Z) (s : urr_turn) : outcome urr_turn :=
  let t := urr_measurement_period (tn_urr s) in
  if negb (urr_check t now) then Ok s
  else
    let '(trigger, tnow) := turn_report s REPORTING_TRIGGER_PERIODIC_REPORTING USAGE_REPORT_TRIGGER_PERIODIC_REPORTING t in
    let period := f64_of_Z (ut_period t) in
    match catch_up 64 now (f64_add (ut_base t) period) period with
    | inr _ => Fault NoFuel
    | inl base =>
        obind (upf_pfcp_session_start_stop_urr_time (tn_wheel s) si
                 (mk_urr_time base (ut_period t) (ut_expected t) (ut_handle t)) true) (fun '(w, t) =>
        Ok (mk_turn w (urr_set_period (tn_urr s) t) trigger tnow))
    end.

Definition check_time_threshold (now : f64) (s : urr_turn) : outcome urr_turn :=
  let t := urr_time_threshold (tn_urr s) in
  if negb (urr_check t now) then Ok s
  else
    let '(trigger, tnow) := turn_report s REPORTING_TRIGGER_TIME_THRESHOLD USAGE_REPORT_TRIGGER_TIME_THRESHOLD t in
    obind (upf_pfcp_session_stop_urr_time (tn_wheel s) t now) (fun '(w, t) =>
    Ok (mk_turn w (urr_set_threshold (tn_urr s) t) trigger tnow)).

Definition period_zero (t : urr_time_t) : urr_time_t := mk_urr_time (ut_base t) 0 (ut_expected t) (ut_handle t).
Definition over_quota (u : upf_urr_t) : upf_urr_t := urr_set_status u (Z.lor (urr_status u) URR_OVER_QUOTA).

Definition check_time_quota (now : f64) (s : urr_turn) : outcome urr_turn :=
  let t := urr_time_quota (tn_urr s) in
  if negb (urr_check t now) then Ok s
  else
    let '(trigger, tnow) := turn_report s REPORTING_TRIGGER_TIME_QUOTA USAGE_REPORT_TRIGGER_TIME_QUOTA t in
    obind (upf_pfcp_session_stop_urr_time (tn_wheel s) t now) (fun '(w, t) =>
    Ok (mk_turn w (over_quota (urr_set_quota (tn_urr s) (period_zero t))) trigger tnow)).

Definition check_quota_validity_time (now : f64) (s : urr_turn) : outcome urr_turn :=
  let t := urr_quota_validity_time (tn_urr s) in
  if negb (urr_check t now) then Ok s
  else
    let '(trigger, tnow) :=
      turn_report s REPORTING_TRIGGER_QUOTA_VALIDITY_TIME USAGE_REPORT_TRIGGER_QUOTA_VALIDITY_TIME t in
    obind (upf_pfcp_session_stop_urr_time (tn_wheel s) t now) (fun '(w, t) =>
    Ok (mk_turn w (over_quota (urr_set_validity (tn_urr s) (period_zero t))) trigger tnow)).

(** UEs not seen for 60 seconds, by index *)
Definition traffic_expired (now : f64) (u : upf_urr_t) : list Z :=
  merge_sort Z.le
    (map fst (filter (fun it => f64_ltb (f64_add (tt_first_seen (snd it)) (f64_of_Z 60)) now = true)
                (map_to_list (pool_elts (urr_traffic u))))).
Definition forget_traffic (u : upf_urr_t) (i : Z) : upf_urr_t :=
  match pool_elt (urr_traffic u) i with
  | None => u
  | Some t => urr_set_traffic u (pool_put (urr_traffic u) i) (delete (tt_ip t) <$> urr_traffic_by_ue u)
  end.

Definition check_traffic_timer (now : f64) (si : Z) (s : urr_turn) : outcome urr_turn :=
  if negb (urr_check (urr_traffic_timer (tn_urr s)) now) then Ok s
  else
    let u := foldl forget_traffic (tn_urr s) (traffic_expired now (tn_urr s)) in
    if bool_decide (pool_elts (urr_traffic u) = ∅) then Ok (mk_turn (tn_wheel s) u (tn_trigger s) (tn_now s))
    else
      obind (upf_pfcp_session_start_stop_urr_time (tn_wheel s) si (urr_traffic_timer u) true) (fun '(w, t) =>
      Ok (mk_turn w (urr_set_traffic_timer u t) (tn_trigger s) (tn_now s))).

(** the five checks *)
Definition urr_timer_checks (now : f64) (si : Z) (w : wheel) (u : upf_urr_t) : outcome urr_turn :=
  obind (check_measurement_period now si (mk_turn w u 0 now)) (fun s =>
  obind (check_time_threshold now s) (fun s =>
  obind (check_time_quota now s) (fun s =>
  obind (check_quota_validity_time now s) (check_traffic_timer now si)))).

(** time based triggers stay off until an update sets them again *)
Definition clear_time_triggers (u : upf_urr_t) : upf_urr_t :=
  urr_set_triggers u (Z.land (urr_triggers u)
    (Z.lnot (Z.lor (Z.lor REPORTING_TRIGGER_TIME_THRESHOLD REPORTING_TRIGGER_TIME_QUOTA)
               REPORTING_TRIGGER_QUOTA_VALIDITY_TIME))).

(** ** All rules of a session *)

Definition REPORT_TYPE_USAR : Z := BIT 1.
Definition REPORT_TYPE_UPIR : Z := BIT 3.
Definition REPORT_TYPE_UISR : Z := BIT 6.
Definition PFCPSRREQ_PSDBU : Z := BIT 0.

(** the rules, the report and whether a rule has one to make *)
Fixpoint urr_timer_rules (now : f64) (si : Z) (idx : nat) (w : wheel) (urrs : list upf_urr_t) (rp : upf_usage_report_t)
  : outcome (wheel * list upf_urr_t * upf_usage_report_t * bool) :=
  match urrs with
  | [] => Ok (w, [], rp, false)
  | u :: urrs =>
      obind (urr_timer_checks now si w u) (fun s =>
      let u := tn_urr s in
      let due := negb (tn_trigger s =? 0) in
      let rp := if due then upf_usage_report_trigger rp idx (tn_trigger s) (urr_liusa_bitmap u) (tn_now s) else rp in
      let u := if due then clear_time_triggers u else u in
      obind (urr_timer_rules now si (S idx) (tn_wheel s) urrs rp) (fun '(w, us, rp, any) =>
      Ok (w, u :: us, rp, due || any)))
  end.

Definition set_inactivity (r : rules) (t : urr_time_t) : rules :=
  mk_rules (r_pdr r) (r_far r) (r_urr r) (r_qer r) (r_flags r) (r_proxy_precedence r)
    (r_proxy_pdr_idx r) (r_v4_acls r) (r_v6_acls r) (r_ue_src_ip r) (r_ue_dst_ip r)
    (r_v4_teid r) (r_v6_teid r) (r_send_end_marker r) t.

(** ** The report message *)

(** a member that is present or not *)
Definition opt_leaf (k : leaf) (x : option (leaf_ty k)) : list val := match x with Some x => [VLeaf k x] | None => [] end.
(** the presence bits that go with the members *)
Definition present (members : list (list val)) : Z :=
  BITS (map fst (filter (fun im => snd im <> []) (zip (seqZ 0 (Zlen members)) members))).

(** a pfcp_usage_report_t as the group the codec encodes *)
Definition usage_report_val (r : pfcp_usage_report_t) : val :=
  let tp f := opt_leaf K_sntp_time_stamp_ie (f <$> ur_tp r) in
  let members :=
    [[VLeaf K_u32_ie (ur_urr_id r)]; [VLeaf K_u32_ie (ur_seqn r)]; [VLeaf K_usage_report_trigger (ur_trigger r)];
     opt_leaf K_time_stamp_ie (ur_start_time r); opt_leaf K_time_stamp_ie (ur_end_time r);
     opt_leaf K_volume_measurement (ur_volume_measurement r); opt_leaf K_u32_ie (ur_duration_measurement r);
     []; opt_leaf K_ue_ip_address (ur_ue_ip_address r); [];
     opt_leaf K_time_stamp_ie (ur_time_of_first_packet r); opt_leaf K_time_stamp_ie (ur_time_of_last_packet r);
     opt_leaf K_u8_ie (ur_usage_information r); []; []; [];
     tp (fun x => fst (fst x)); tp (fun x => snd (fst x)); tp snd] in
  VGroup (present members) members [].

Definition session_report_request (report_type : Z) (usage : option (list pfcp_usage_report_t)) (flags : option Z)
  : pfcp_decoded_msg_t :=
  let fields := SET_BIT 0 0 in
  let fields := match usage with Some _ => SET_BIT fields 2 | None => fields end in
  let fields := match flags with Some _ => SET_BIT fields 8 | None => fields end in
  mk_dmsg PFCP_SESSION_REPORT_REQUEST 0 0
    (VGroup fields [[VLeaf K_u8_ie report_type]; []; map usage_report_val (default [] usage); []; []; []; []; [];
                    opt_leaf K_u8_ie flags] []).

Definition set_urrs (r : rules) (urrs : list upf_urr_t) : rules :=
  match r_urr r with Some _ => set_r_urr r (Some urrs) | None => r end.

Definition ceil (x : f64) : f64 :=
  match x with
  | S754_finite _ _ _ =>
      let z := f64_trunc x in if f64_ltb (f64_of_Z z) x then f64_of_Z (z + 1) else f64_of_Z z
  | _ => x
  end.

(** the inactivity timer: the wheel, the timer and the report type *)
Definition check_inactivity (vnow : f64) (si : Z) (w : wheel) (last : f64) (t : urr_time_t)
  : outcome (wheel * urr_time_t * Z) :=
  if negb (ut_handle t =? u32_none) && negb (ut_period t =? 0) then
    if f64_ge (ceil (f64_sub vnow last)) (f64_of_Z (ut_period t))
    then Ok (w, mk_urr_time (ut_base t) (ut_period t) (ut_expected t) u32_none, REPORT_TYPE_UPIR)
    else
      obind (upf_pfcp_session_stop_up_inactivity_timer w vnow t) (fun '(w, t) =>
      let '(w, t) := upf_pfcp_session_start_up_inactivity_timer w si vnow last t in Ok (w, t, 0))
  else Ok (w, t, 0).

(** the session with its active rules, and the message if one is sent *)
Definition upf_pfcp_session_urr_timer (now vnow : f64) (si : Z) (w : wheel) (sx : upf_session_t)
  : outcome (wheel * upf_session_t * option pfcp_decoded_msg_t) :=
  let active := pfcp_get_rules sx PFCP_ACTIVE in
  obind (check_inactivity vnow si w (sx_last_ul_traffic sx) (r_inactivity_timer active)) (fun '(w, t, upir) =>
  let active := set_inactivity active t in
  let urrs := vec_elts (r_urr active) in
  obind (urr_timer_rules now si 0 w urrs (upf_usage_report_init (length urrs))) (fun '(w, urrs, rp, usar) =>
  let report_type := Z.lor upir (if usar then REPORT_TYPE_USAR else 0) in
  if negb (report_type =? 0) then
    obind (upf_usage_report_build vnow None urrs now rp []) (fun '(urrs, out) =>
    Ok (w, set_rules sx PFCP_ACTIVE (set_urrs active urrs),
        Some (session_report_request report_type (if usar then Some out else None) None)))
  else Ok (w, set_rules sx PFCP_ACTIVE (set_urrs active urrs), None))).

(** ** Events of the data path *)

(** the first loop of upf_pfcp_session_usage_report *)
Fixpoint usage_report_starts (now : f64) (si : Z) (uev : list urr_event) (w : wheel) (urrs : list upf_urr_t)
  (rp : upf_usage_report_t) (send : bool) : outcome (wheel * list upf_urr_t * upf_usage_report_t * bool) :=
  match uev with
  | [] => Ok (w, urrs, rp, send)
  | ev :: uev =>
      match pfcp_get_urr_by_id urrs (ev_urr_id ev) ≫= fun i => (i,.) <$> urrs !! i with
      | None => usage_report_starts now si uev w urrs rp send
      | Some (i, u) =>
          if flag (ev_trigger ev) URR_START_OF_TRAFFIC then
            let rp := upf_usage_report_trigger rp i USAGE_REPORT_TRIGGER_START_OF_TRAFFIC (urr_liusa_bitmap u) now in
            obind (if ut_handle (urr_traffic_timer u) =? u32_none
                   then obind (upf_pfcp_session_start_stop_urr_time w si (urr_traffic_timer u) true)
                          (fun '(w, t) => Ok (w, <[i := urr_set_traffic_timer u t]> urrs))
                   else Ok (w, urrs)) (fun '(w, urrs) =>
            usage_report_starts now si uev w urrs rp true)
          else usage_report_starts now si uev w urrs rp send
      end
  end.

Definition upf_pfcp_session_usage_report (now vnow : f64) (si : Z) (w : wheel) (sx : upf_session_t) (ue : list Z)
  (uev : list urr_event) : outcome (wheel * upf_session_t * option pfcp_decoded_msg_t) :=
  let active := pfcp_get_rules sx PFCP_ACTIVE in
  let urrs := vec_elts (r_urr active) in
  match urrs with
  | [] => Ok (w, sx, None)
  | _ =>
      obind (usage_report_starts now si uev w urrs (upf_usage_report_init (length urrs)) false) (fun '(w, urrs, rp, send) =>
      let '(urrs, rp, send) := usage_report_volumes now 0 urrs rp send in
      if send : bool then
        obind (upf_usage_report_build vnow (Some ue) urrs now rp []) (fun '(urrs, out) =>
        Ok (w, set_rules sx PFCP_ACTIVE (set_urrs active urrs),
            Some (session_report_request REPORT_TYPE_USAR (Some out) None)))
      else Ok (w, set_rules sx PFCP_ACTIVE (set_urrs active urrs), None))
  end.

Definition upf_pfcp_session_up_deletion_report (now vnow : f64) (sx : upf_session_t)
  : outcome (upf_session_t * pfcp_decoded_msg_t) :=
  let active := pfcp_get_rules sx PFCP_ACTIVE in
  let urrs := vec_elts (r_urr active) in
  match urrs with
  | [] => Ok (sx, session_report_request REPORT_TYPE_UISR None (Some PFCPSRREQ_PSDBU))
  | _ =>
      let rp := upf_usage_report_set (upf_usage_report_init (length urrs))
                  USAGE_REPORT_TRIGGER_TERMINATION_BY_UP_FUNCTION_REPORT now in
      obind (upf_usage_report_build vnow None urrs now rp []) (fun '(urrs, out) =>
      Ok (set_rules sx PFCP_ACTIVE (set_urrs active urrs),
          session_report_request REPORT_TYPE_USAR (Some out) (Some PFCPSRREQ_PSDBU)))
  end.
End Timers.

(** ** Doubles *)

Lemma f64_compare_swap x y : SFcompare y x = CompOpp <$> SFcompare x y.
Proof.
  destruct x as [s1|s1| |s1 m1 e1], y as [s2|s2| |s2 m2 e2]; try destruct s1; try destruct s2; try done; simpl; f_equal;
    rewrite (Z.compare_antisym e1 e2); destruct (e1 ?= e2); simpl; try done;
    change (Pos.compare_cont Eq m2 m1) with (m2 ?= m1)%positive; change (Pos.compare_cont Eq m1 m2) with (m1 ?= m2)%positive;
    rewrite (Pos.compare_antisym m1 m2); by destruct (m1 ?= m2)%positive.
Qed.
Lemma f64_ltb_asym x y : f64_ltb x y = true -> f64_ltb y x = false.
Proof. unfold f64_ltb, SFltb. rewrite (f64_compare_swap x y). by destruct (SFcompare x y) as [[]|]. Qed.

(** ** What a pass over a rule leaves *)

Section Spec.
Context {P : VppPool}.

(** no time lies between the current tick and [now] *)
Definition up_to_date (w : wheel) (now : f64) : Prop := forall x, f64_ltb x now = true -> f64_ltb (wh_last_run w) x = false.
(** the measurement period is late by less than another period *)
Definition on_time (now : f64) (u : upf_urr_t) : Prop :=
  let t := urr_measurement_period u in let p := f64_of_Z (ut_period t) in
  urr_check t now = true -> f64_ltb (f64_add (f64_add (ut_base t) p) p) now = false.

Lemma urr_check_lt t now : urr_check t now = true -> f64_ltb (ut_expected t) now = true.
Proof. unfold urr_check. by intros [_ ?]%andb_true_iff. Qed.

Lemma stop_due w t now :
  urr_check t now = true -> upf_pfcp_session_stop_urr_time w t now = Ok (w, mk_urr_time (ut_base t) (ut_period t) f64_zero u32_none).
Proof.
  intros Hd%urr_check_lt%f64_ltb_asym. unfold upf_pfcp_session_stop_urr_time. rewrite Hd, andb_false_r. done.
Qed.

Lemma urr_check_zero b p h now : urr_check (mk_urr_time b p f64_zero h) now = false.
Proof. unfold urr_check. simpl. by rewrite andb_false_r. Qed.
Lemma urr_check_off t now : ut_period t = 0 -> urr_check t now = false.
Proof. intros E. unfold urr_check. rewrite E. simpl. by rewrite andb_false_r. Qed.

(** restarting a timer that was due *)
Lemma restart_due w si t now :
  up_to_date w now -> f64_ltb (ut_expected t) now = true -> ut_period t <> 0 ->
  exists w' h, upf_pfcp_session_start_stop_urr_time w si t true
     = Ok (w', mk_urr_time (ut_base t) (ut_period t) (f64_add (ut_base t) (f64_of_Z (ut_period t))) h)
  /\ wh_last_run w' = wh_last_run w.
Proof.
  intros Hup Hd Hp. unfold upf_pfcp_session_start_stop_urr_time, upf_pfcp_session_stop_urr_time.
  rewrite (Hup _ Hd), andb_false_r. destruct (negb (ut_handle t =? u32_none)); cbn [obind ut_period ut_base];
    rewrite (proj2 (Z.eqb_neq _ _) Hp); cbn [negb andb wheel_start pool_get]; by eexists _, _.
Qed.

(** what the rule asks to be told of *)
Definition due_trigger (now : f64) (u : upf_urr_t) (t : urr_time_t) (reporting usage : Z) : Z :=
  if urr_check t now && flag (urr_triggers u) reporting then usage else 0.
Definition due_triggers (now : f64) (u : upf_urr_t) : Z :=
  Z.lor (Z.lor (Z.lor
    (due_trigger now u (urr_measurement_period u) REPORTING_TRIGGER_PERIODIC_REPORTING USAGE_REPORT_TRIGGER_PERIODIC_REPORTING)
    (due_trigger now u (urr_time_threshold u) REPORTING_TRIGGER_TIME_THRESHOLD USAGE_REPORT_TRIGGER_TIME_THRESHOLD))
    (due_trigger now u (urr_time_quota u) REPORTING_TRIGGER_TIME_QUOTA USAGE_REPORT_TRIGGER_TIME_QUOTA))
    (due_trigger now u (urr_quota_validity_time u) REPORTING_TRIGGER_QUOTA_VALIDITY_TIME USAGE_REPORT_TRIGGER_QUOTA_VALIDITY_TIME).

(** a check that leaves everything but its own timer and the status alone *)
Record checked (now : f64) (s s' : urr_turn) (t : urr_time_t) (reporting usage : Z) : Prop := {
  ck_trigger : tn_trigger s' = Z.lor (tn_trigger s) (due_trigger now (tn_urr s) t reporting usage);
  ck_triggers : urr_triggers (tn_urr s') = urr_triggers (tn_urr s);
  ck_id : urr_id (tn_urr s') = urr_id (tn_urr s);
  ck_volume : urr_volume (tn_urr s') = urr_volume (tn_urr s);
  ck_last_run : wh_last_run (tn_wheel s') = wh_last_run (tn_wheel s) }.

Lemma turn_report_trigger s reporting usage t now :
  urr_check t now = true ->
  fst (turn_report s reporting usage t) = Z.lor (tn_trigger s) (due_trigger now (tn_urr s) t reporting usage).
Proof.
  intros Hd. unfold turn_report, due_trigger. rewrite Hd. destruct (flag _ _); simpl; [done|]. by rewrite Z.lor_0_r.
Qed.
Lemma not_due now u t reporting usage z : urr_check t now = false -> z = Z.lor z (due_trigger now u t reporting usage).
Proof. intros Hd. unfold due_trigger. rewrite Hd. by rewrite Z.lor_0_r. Qed.

Lemma catch_up_on_time d now base period : f64_ltb (f64_add base period) now = false -> catch_up d now base period = inl base.
Proof. intros Hf. induction d as [|d IH]; cbn [catch_up]; [by rewrite Hf|by rewrite IH]. Qed.

Lemma check_period_ok now si s :
  up_to_date (tn_wheel s) now -> on_time now (tn_urr s) ->
  exists s', check_measurement_period now si s = Ok s'
  /\ checked now s s' (urr_measurement_period (tn_urr s)) REPORTING_TRIGGER_PERIODIC_REPORTING USAGE_REPORT_TRIGGER_PERIODIC_REPORTING
  /\ urr_check (urr_measurement_period (tn_urr s')) now = false
  /\ exists t, tn_urr s' = urr_set_period (tn_urr s) t.
Proof.
  intros Hup Hot. unfold check_measurement_period. set (t := urr_measurement_period (tn_urr s)).
  destruct (urr_check t now) eqn:Hd; cbn [negb].
  2: { exists s. split; [done|]. split; [split; try done; by apply not_due|]. split; [done|]. exists t. by destruct s as [? []]. }
  pose proof (Hot Hd) as Hlate. fold t in Hlate. pose proof (turn_report_trigger s REPORTING_TRIGGER_PERIODIC_REPORTING
    USAGE_REPORT_TRIGGER_PERIODIC_REPORTING t now Hd) as Htr. destruct (turn_report _ _ _ _) as [trigger tnow]. simpl in Htr.
  rewrite catch_up_on_time by done. set (t' := mk_urr_time _ _ _ _).
  destruct (restart_due (tn_wheel s) si t' now) as (w & h & -> & Hw); [done|exact (urr_check_lt t now Hd)| |].
  { intros Hz. by rewrite (urr_check_off t now Hz) in Hd. }
  cbn [obind]. eexists. split; [done|]. split; [by split|]. split; [|by eexists].
  unfold urr_check. simpl. rewrite Hlate. by rewrite andb_false_r.
Qed.

(** the three timers that are stopped when they are due *)
Lemma check_threshold_ok now s :
  exists s', check_time_threshold now s = Ok s'
  /\ checked now s s' (urr_time_threshold (tn_urr s)) REPORTING_TRIGGER_TIME_THRESHOLD USAGE_REPORT_TRIGGER_TIME_THRESHOLD
  /\ urr_check (urr_time_threshold (tn_urr s')) now = false
  /\ exists t, tn_urr s' = urr_set_threshold (tn_urr s) t.
Proof.
  unfold check_time_threshold. set (t := urr_time_threshold (tn_urr s)). destruct (urr_check t now) eqn:Hd; cbn [negb].
  2: { exists s. split; [done|]. split; [split; try done; by apply not_due|]. split; [done|]. exists t. by destruct s as [? []]. }
  pose proof (turn_report_trigger s REPORTING_TRIGGER_TIME_THRESHOLD USAGE_REPORT_TRIGGER_TIME_THRESHOLD t now Hd) as Htr.
  destruct (turn_report _ _ _ _) as [trigger tnow]. rewrite stop_due by done. cbn [obind].
  eexists. split; [done|]. split; [by split|]. split; [apply urr_check_zero|by eexists].
Qed.

(** a rule whose quota, or the validity of it, has run out *)
Definition quota_spent (now : f64) (t : urr_time_t) (u : upf_urr_t) : upf_urr_t :=
  if urr_check t now then over_quota u else u.

Lemma spent_status now t u :
  urr_status (quota_spent now t u) = if urr_check t now then Z.lor (urr_status u) URR_OVER_QUOTA else urr_status u.
Proof. unfold quota_spent. by destruct (urr_check t now). Qed.

Lemma check_quota_ok now s :
  exists s' t, check_time_quota now s = Ok s'
  /\ checked now s s' (urr_time_quota (tn_urr s)) REPORTING_TRIGGER_TIME_QUOTA USAGE_REPORT_TRIGGER_TIME_QUOTA
  /\ urr_check (urr_time_quota (tn_urr s')) now = false
  /\ tn_urr s' = quota_spent now (urr_time_quota (tn_urr s)) (urr_set_quota (tn_urr s) t).
Proof.
  unfold check_time_quota, quota_spent. set (t := urr_time_quota (tn_urr s)). destruct (urr_check t now) eqn:Hd; cbn [negb].
  2: { exists s, t. split; [done|]. split; [split; try done; by apply not_due|]. split; [done|]. by destruct s as [? []]. }
  pose proof (turn_report_trigger s REPORTING_TRIGGER_TIME_QUOTA USAGE_REPORT_TRIGGER_TIME_QUOTA t now Hd) as Htr.
  destruct (turn_report _ _ _ _) as [trigger tnow]. rewrite stop_due by done. cbn [obind].
  eexists _, _. split; [done|]. split; [by split|]. split; [by apply urr_check_off|done].
Qed.

Lemma check_validity_ok now s :
  exists s' t, check_quota_validity_time now s = Ok s'
  /\ checked now s s' (urr_quota_validity_time (tn_urr s)) REPORTING_TRIGGER_QUOTA_VALIDITY_TIME USAGE_REPORT_TRIGGER_QUOTA_VALIDITY_TIME
  /\ urr_check (urr_quota_validity_time (tn_urr s')) now = false
  /\ tn_urr s' = quota_spent now (urr_quota_validity_time (tn_urr s)) (urr_set_validity (tn_urr s) t).
Proof.
  unfold check_quota_validity_time, quota_spent. set (t := urr_quota_validity_time (tn_urr s)).
  destruct (urr_check t now) eqn:Hd; cbn [negb].
  2: { exists s, t. split; [done|]. split; [split; try done; by apply not_due|]. split; [done|]. by destruct s as [? []]. }
  pose proof (turn_report_trigger s REPORTING_TRIGGER_QUOTA_VALIDITY_TIME USAGE_REPORT_TRIGGER_QUOTA_VALIDITY_TIME t now Hd) as Htr.
  destruct (turn_report _ _ _ _) as [trigger tnow]. rewrite stop_due by done. cbn [obind].
  eexists _, _. split; [done|]. split; [by split|]. split; [by apply urr_check_off|done].
Qed.

(** ** Traffic of UEs *)

Lemma intcmp_refl k : intcmp k k = 0.
Proof. unfold intcmp. by rewrite Z.ltb_irrefl. Qed.

Lemma forget_elts u i : pool_elts (urr_traffic (forget_traffic u i)) = delete i (pool_elts (urr_traffic u)).
Proof.
  unfold forget_traffic, pool_elt. destruct (pool_elts (urr_traffic u) !! i) eqn:E; [done|]. by rewrite delete_id.
Qed.
Lemma forget_all u l i :
  pool_elts (urr_traffic (foldl forget_traffic u l)) !! i
  = if bool_decide (i ∈ l) then None else pool_elts (urr_traffic u) !! i.
Proof.
  revert u. induction l as [|j l IH]; intros u; [done|]. cbn [foldl]. rewrite IH, forget_elts.
  case_bool_decide as H1; case_bool_decide as H2; try done; [by destruct H2; right| |].
  - destruct (decide (i = j)) as [->|Hij]; [by rewrite lookup_delete_eq|]. apply elem_of_cons in H2 as [?|?]; done.
  - rewrite lookup_delete_ne; [done|]. intros ->. apply H2. by left.
Qed.
Lemma elem_traffic_expired now u i :
  i ∈ traffic_expired now u <->
  exists t, pool_elts (urr_traffic u) !! i = Some t /\ f64_ltb (f64_add (tt_first_seen t) (f64_of_Z 60)) now = true.
Proof.
  unfold traffic_expired. rewrite merge_sort_Permutation, list_elem_of_fmap. split.
  - intros ([j t] & -> & [Ht Hin%elem_of_map_to_list]%list_elem_of_filter). by exists t.
  - intros (t & Hi & Ht). exists (i, t). split; [done|]. apply list_elem_of_filter. split; [done|]. by apply elem_of_map_to_list.
Qed.

(** a rule but for its traffic *)
Definition same_but_traffic (u u' : upf_urr_t) : Prop :=
  exists tr by_ue t, u' = urr_set_traffic_timer (urr_set_traffic u tr by_ue) t.
Lemma forget_same u l : exists tr by_ue, foldl forget_traffic u l = urr_set_traffic u tr by_ue.
Proof.
  revert u. induction l as [|i l IH]; intros u; [exists (urr_traffic u), (urr_traffic_by_ue u); by destruct u|].
  cbn [foldl]. destruct (IH (forget_traffic u i)) as (tr & by_ue & ->). exists tr, by_ue.
  unfold forget_traffic. by destruct (pool_elt _ _).
Qed.

Lemma check_traffic_ok now si s :
  up_to_date (tn_wheel s) now ->
  exists s', check_traffic_timer now si s = Ok s' /\ same_but_traffic (tn_urr s) (tn_urr s')
  /\ tn_trigger s' = tn_trigger s /\ wh_last_run (tn_wheel s') = wh_last_run (tn_wheel s).
Proof.
  intros Hup. unfold check_traffic_timer. destruct (urr_check (urr_traffic_timer (tn_urr s)) now) eqn:Hd; cbn [negb].
  2: { exists s. split; [done|]. split; [|done]. destruct s as [? [] ? ?]. by eexists _, _, _. }
  destruct (forget_same (tn_urr s) (traffic_expired now (tn_urr s))) as (tr & by_ue & E). rewrite E.
  case_bool_decide.
  { eexists. split; [done|]. split; [|done]. simpl. exists tr, by_ue, (urr_traffic_timer (tn_urr s)). done. }
  destruct (restart_due (tn_wheel s) si (urr_traffic_timer (tn_urr s)) now) as (w & h & Er & Hw); [done|by apply urr_check_lt| |].
  { intros Hz. by rewrite (urr_check_off _ now Hz) in Hd. }
  change (urr_traffic_timer (urr_set_traffic (tn_urr s) tr by_ue)) with (urr_traffic_timer (tn_urr s)). rewrite Er. cbn [obind].
  eexists. split; [done|]. split; [|done]. by eexists _, _, _.
Qed.

(** ** A pass over the rules *)

(** nothing of the rule is due any more *)
Definition settled (now : f64) (u : upf_urr_t) : Prop :=
  urr_check (urr_measurement_period u) now = false /\ urr_check (urr_time_threshold u) now = false
  /\ urr_check (urr_time_quota u) now = false /\ urr_check (urr_quota_validity_time u) now = false.

Lemma settled_quiet now u : settled now u -> due_triggers now u = 0.
Proof. intros (H1 & H2 & H3 & H4). unfold due_triggers, due_trigger. by rewrite H1, H2, H3, H4. Qed.
Lemma settled_on_time now u : settled now u -> on_time now u.
Proof. intros (H1 & _) H. congruence. Qed.

Lemma urr_checks_ok now si w u :
  up_to_date w now -> on_time now u ->
  exists s, urr_timer_checks now si w u = Ok s
  /\ tn_trigger s = due_triggers now u /\ settled now (tn_urr s) /\ wh_last_run (tn_wheel s) = wh_last_run w
  /\ urr_status (tn_urr s) = (if urr_check (urr_time_quota u) now || urr_check (urr_quota_validity_time u) now
                             then Z.lor (urr_status u) URR_OVER_QUOTA else urr_status u)
  /\ urr_id (tn_urr s) = urr_id u /\ urr_volume (tn_urr s) = urr_volume u /\ urr_triggers (tn_urr s) = urr_triggers u.
Proof.
  intros Hup Hot. unfold urr_timer_checks.
  destruct (check_period_ok now si (mk_turn w u 0 now) Hup Hot) as (s1 & -> & [A1 A2 A3 A4 A5] & N1 & t1 & U1). cbn [obind].
  destruct (check_threshold_ok now s1) as (s2 & -> & [B1 B2 B3 B4 B5] & N2 & t2 & U2). cbn [obind].
  destruct (check_quota_ok now s2) as (s3 & t3 & -> & [C1 C2 C3 C4 C5] & N3 & U3). cbn [obind].
  destruct (check_validity_ok now s3) as (s4 & t4 & -> & [D1 D2 D3 D4 D5] & N4 & U4). cbn [obind].
  destruct (check_traffic_ok now si s4) as (s5 & -> & (tr & by_ue & t5 & U5) & E1 & E2);
    [intros x; rewrite D5, C5, B5, A5; apply Hup|].
  exists s5. split; [done|].
  assert (urr_measurement_period (tn_urr s4) = urr_measurement_period (tn_urr s1)
    /\ urr_time_threshold (tn_urr s4) = urr_time_threshold (tn_urr s2) /\ urr_time_quota (tn_urr s4) = urr_time_quota (tn_urr s3)
    /\ urr_quota_validity_time (tn_urr s3) = urr_quota_validity_time u /\ urr_time_quota (tn_urr s2) = urr_time_quota u
    /\ urr_time_threshold (tn_urr s1) = urr_time_threshold u) as (M1 & M2 & M3 & M4 & M5 & M6).
  { rewrite U4, U3, U2, U1. unfold quota_spent. split_and!; repeat case_match; done. }
  split_and!.
  - rewrite E1, D1, C1, B1, A1. cbn [tn_trigger tn_urr]. rewrite M4, M5, M6. unfold due_triggers, due_trigger. simpl in A2.
    rewrite C2, B2, A2, Z.lor_0_l. done.
  - rewrite U5. unfold settled. simpl. by rewrite M1, M2, M3.
  - rewrite E2, D5, C5, B5, A5. done.
  - rewrite U5. cbn [urr_status urr_set_traffic_timer urr_set_traffic urr_set_timers]. rewrite U4, M4, spent_status.
    cbn [urr_status urr_set_validity urr_set_timers]. rewrite U3, M5, spent_status, U2, U1. simpl.
    destruct (urr_check (urr_time_quota u) now), (urr_check (urr_quota_validity_time u) now); simpl; try done.
    by rewrite <- Z.lor_assoc, Z.lor_diag.
  - rewrite U5. simpl. by rewrite D3, C3, B3, A3.
  - rewrite U5. simpl. by rewrite D4, C4, B4, A4.
  - rewrite U5. simpl. by rewrite D2, C2, B2, A2.
Qed.

Definition rule_due (now : f64) (u : upf_urr_t) : bool := negb (due_triggers now u =? 0).

Lemma urr_rules_ok now si idx w urrs rp :
  up_to_date w now -> Forall (on_time now) urrs ->
  exists w' us rp', urr_timer_rules now si idx w urrs rp = Ok (w', us, rp', existsb (rule_due now) urrs)
  /\ wh_last_run w' = wh_last_run w /\ length us = length urrs /\ Forall (settled now) us
  /\ length (rp_events rp') = length (rp_events rp)
  /\ (Forall (settled now) urrs -> rp' = rp).
Proof.
  revert idx w rp. induction urrs as [|u urrs IH]; intros idx w rp Hup Hot; [by eexists _, _, _|].
  apply Forall_cons in Hot as [Hu Hot]. cbn [urr_timer_rules].
  destruct (urr_checks_ok now si w u Hup Hu) as (s & -> & Ht & Hs & Hl & _). cbn [obind]. rewrite Ht. fold (rule_due now u).
  set (rp1 := if rule_due now u then _ else rp).
  destruct (IH (S idx) (tn_wheel s) rp1) as (w' & us & rp' & -> & Hl' & Hlen & Hset & Hev & Hq); [intros x; rewrite Hl; apply Hup|done|].
  cbn [obind]. eexists _, _, _. split; [done|]. split_and!; [congruence|simpl; by rewrite Hlen| | |].
  - apply Forall_cons. split; [|done]. by destruct (rule_due now u).
  - rewrite Hev. unfold rp1. destruct (rule_due now u); [|done]. simpl. apply length_insert.
  - intros [Hq1 Hq2]%Forall_cons. rewrite (Hq Hq2). unfold rp1, rule_due. by rewrite (settled_quiet now u Hq1).
Qed.

(** a report leaves the timers of a rule as they are, but for the base of the threshold *)
Lemma report_settled now vnow ue u trigger t out :
  settled now u -> settled now (fst (report_usage_ev vnow ue u trigger t out)).
Proof.
  intros (H1 & H2 & H3 & H4). unfold settled.
  assert (exists u', urr_measurement_period u' = urr_measurement_period u /\ urr_time_threshold u' = urr_time_threshold u
    /\ urr_time_quota u' = urr_time_quota u /\ urr_quota_validity_time u' = urr_quota_validity_time u
    /\ fst (report_usage_ev vnow ue u trigger t out)
       = (if f64_eqb (ut_base (urr_time_threshold u')) f64_zero then u'
          else urr_set_time_threshold u' (mk_urr_time (urr_start_time u') (ut_period (urr_time_threshold u'))
                 (ut_expected (urr_time_threshold u')) (ut_handle (urr_time_threshold u'))))) as (u' & E1 & E2 & E3 & E4 & ->).
  { unfold report_usage_ev, take_volume. destruct (_ && f64_ltb _ _);
      (destruct (flag (urr_status _) URR_AFTER_MONITORING_TIME); eexists; (split_and!; [..|reflexivity]); reflexivity). }
  destruct (f64_eqb (ut_base (urr_time_threshold u')) f64_zero) eqn:Eb; [by rewrite E1, E2, E3, E4|].
  simpl. rewrite E1, E3, E4. split_and!; try done. revert H2. rewrite <- E2. unfold urr_check. simpl. rewrite Eb. simpl.
  intros H2. by destruct (f64_eqb (urr_start_time u') f64_zero).
Qed.

Lemma build_settled now vnow ue t idx urrs events liusa out :
  Forall (settled now) urrs -> length events = length urrs ->
  exists us out', usage_report_build_from vnow ue idx urrs t events liusa out = Ok (us, out')
  /\ Forall (settled now) us /\ length us = length urrs.
Proof.
  revert idx urrs out. induction events as [|ev events IH]; intros idx urrs out Hs Hl.
  { exists urrs, out. done. }
  destruct urrs as [|u urrs]; [done|]. apply Forall_cons in Hs as [Hu Hs]. simpl in Hl. injection Hl as Hl.
  cbn [usage_report_build_from]. case_test.
  - destruct (IH (idx + 1) urrs out Hs Hl) as (us & out' & E & Hus & Hlen). simpl tail. rewrite E. cbn [obind].
    eexists _, _. split; [done|]. simpl. split; [by constructor|by rewrite Hlen].
  - set (tr := if rv_triggers ev =? 0 then _ else _).
    assert (settled now (fst tr)) as Htr by (unfold tr; case_test; by apply report_settled).
    destruct tr as [u' out1]. destruct (IH (idx + 1) urrs out1 Hs Hl) as (us & out' & E & Hus & Hlen). rewrite E. cbn [obind].
    eexists _, _. split; [done|]. simpl. split; [by constructor|by rewrite Hlen].
Qed.

Lemma active_set sx r : pfcp_get_rules (set_rules sx PFCP_ACTIVE r) PFCP_ACTIVE = r.
Proof. apply get_set_rules. Qed.
Lemma urrs_set r urrs : length urrs = length (vec_elts (r_urr r)) -> vec_elts (r_urr (set_urrs r urrs)) = urrs.
Proof. unfold set_urrs. destruct (r_urr r) eqn:E; [done|]. rewrite E. by destruct urrs. Qed.

(** a session without a running inactivity timer *)
Definition ready_session (now : f64) (sx : upf_session_t) : Prop :=
  let active := pfcp_get_rules sx PFCP_ACTIVE in
  Forall (on_time now) (vec_elts (r_urr active)) /\ ut_handle (r_inactivity_timer active) = u32_none.
Definition session_due (now : f64) (sx : upf_session_t) : bool :=
  existsb (rule_due now) (vec_elts (r_urr (pfcp_get_rules sx PFCP_ACTIVE))).

Lemma session_timer_ok now vnow si w sx :
  up_to_date w now -> ready_session now sx ->
  exists w' sx' m, upf_pfcp_session_urr_timer now vnow si w sx = Ok (w', sx', m)
  /\ wh_last_run w' = wh_last_run w /\ ready_session now sx'
  /\ Forall (settled now) (vec_elts (r_urr (pfcp_get_rules sx' PFCP_ACTIVE)))
  /\ (if session_due now sx then exists out, m = Some (session_report_request REPORT_TYPE_USAR (Some out) None) else m = None).
Proof.
  intros Hup [Hot Hina]. unfold upf_pfcp_session_urr_timer, check_inactivity, session_due. rewrite Hina, Z.eqb_refl.
  cbn [negb andb obind]. set (active := pfcp_get_rules sx PFCP_ACTIVE) in *. set (r := set_inactivity active _).
  change (r_urr r) with (r_urr active). set (urrs := vec_elts (r_urr active)) in *.
  destruct (urr_rules_ok now si 0 w urrs (upf_usage_report_init (length urrs)) Hup Hot)
    as (w' & us & rp & -> & Hl & Hlen & Hset & Hev & _). cbn [obind]. rewrite Z.lor_0_l.
  assert (forall us', length us' = length urrs -> Forall (settled now) us' ->
    let sx' := set_rules sx PFCP_ACTIVE (set_urrs r us') in
    ready_session now sx' /\ Forall (settled now) (vec_elts (r_urr (pfcp_get_rules sx' PFCP_ACTIVE)))) as Hfin.
  { intros us' Hl' Hs'. unfold ready_session. cbv zeta. rewrite active_set, urrs_set by done. split; [|done]. split.
    - eapply Forall_impl; [done|apply settled_on_time].
    - unfold set_urrs, r. simpl. by destruct (r_urr active). }
  destruct (existsb (rule_due now) urrs).
  - change (negb (REPORT_TYPE_USAR =? 0)) with true. cbv iota. unfold upf_usage_report_build.
    destruct (build_settled now vnow None now 0 us (rp_events rp) (rp_liusa rp) [] Hset) as (us' & out & -> & Hset' & Hlen').
    { rewrite Hev, Hlen. simpl. apply length_replicate. }
    cbn [obind]. eexists _, _, _. split; [done|]. split; [done|]. destruct (Hfin us') as [? ?]; [congruence|done|].
    split; [done|]. split; [done|]. by eexists.
  - simpl. eexists _, _, _. split; [done|]. split; [done|]. destruct (Hfin us) as [? ?]; [done|done|]. done.
Qed.

(** When a timer of a session expires, a report is sent exactly if a rule has
    something due that it asks to be told of, and once: all that was due is
    rearmed or stopped, so that a second expiry at the same time sends nothing. *)
Theorem urr_expiry_reported_once now vnow si w sx :
  up_to_date w now -> ready_session now sx ->
  exists w' sx' m,
    upf_pfcp_session_urr_timer now vnow si w sx = Ok (w', sx', m)
    /\ (session_due now sx = true <-> exists out, m = Some (session_report_request REPORT_TYPE_USAR (Some out) None))
    /\ (session_due now sx = false <-> m = None)
    /\ exists w'' sx'', upf_pfcp_session_urr_timer now vnow si w' sx' = Ok (w'', sx'', None).
Proof.
  intros Hup Hr. destruct (session_timer_ok now vnow si w sx Hup Hr) as (w' & sx' & m & E & Hl & Hr' & Hs & Hm).
  destruct (session_timer_ok now vnow si w' sx') as (w'' & sx'' & m' & E' & _ & _ & _ & Hm'); [intros x; rewrite Hl; apply Hup|done|].
  assert (session_due now sx' = false) as Hq.
  { unfold session_due. apply not_true_iff_false. intros (u & Hu & Hd)%existsb_exists. apply list_elem_of_In in Hu.
    eapply Forall_forall in Hs; [|done]. unfold rule_due in Hd. by rewrite (settled_quiet now u Hs) in Hd. }
  rewrite Hq in Hm'. subst m'. exists w', sx', m. split_and!; [done| | |by exists w'', sx''].
  - destruct (session_due now sx); [done|]. subst m. split; [done|]. by intros [? ?].
  - destruct (session_due now sx); [|done]. destruct Hm as [out ->]. done.
Qed.

(** What a rule is told of: the measurement period, the time threshold, the
    time quota and the validity of the quota, each if it is due and its trigger
    set. A quota that has run out by time blocks the rule; volume and triggers
    stay as they are. *)
Theorem urr_due_reported now si w u :
  up_to_date w now -> on_time now u ->
  exists s, urr_timer_checks now si w u = Ok s
  /\ tn_trigger s = due_triggers now u
  /\ urr_status (tn_urr s) = (if urr_check (urr_time_quota u) now || urr_check (urr_quota_validity_time u) now
                             then Z.lor (urr_status u) URR_OVER_QUOTA else urr_status u)
  /\ urr_volume (tn_urr s) = urr_volume u /\ urr_triggers (tn_urr s) = urr_triggers u /\ settled now (tn_urr s).
Proof.
  intros Hup Hot. destruct (urr_checks_ok now si w u Hup Hot) as (s & ? & ? & ? & _ & ? & _ & ? & ?). by exists s.
Qed.

(** When the traffic timer of a rule expires and no UE is left, the handle of
    the expired timer stays: the next start of traffic is reported, but no timer
    is started for it, so the UE is never forgotten. *)
Theorem traffic_timer_not_rearmed now now' si s rp ev :
  urr_check (urr_traffic_timer (tn_urr s)) now = true -> ut_handle (urr_traffic_timer (tn_urr s)) <> u32_none ->
  (forall i t, pool_elts (urr_traffic (tn_urr s)) !! i = Some t -> f64_ltb (f64_add (tt_first_seen t) (f64_of_Z 60)) now = true) ->
  ev_urr_id ev = urr_id (tn_urr s) -> flag (ev_trigger ev) URR_START_OF_TRAFFIC = true ->
  exists s', check_traffic_timer now si s = Ok s' /\ pool_elts (urr_traffic (tn_urr s')) = ∅
  /\ exists rp', usage_report_starts now' si [ev] (tn_wheel s') [tn_urr s'] rp false = Ok (tn_wheel s', [tn_urr s'], rp', true).
Proof.
  intros Hd Hh Hold Hid Hst. unfold check_traffic_timer. rewrite Hd. cbn [negb].
  destruct (forget_same (tn_urr s) (traffic_expired now (tn_urr s))) as (tr & by_ue & E).
  assert (pool_elts (urr_traffic (foldl forget_traffic (tn_urr s) (traffic_expired now (tn_urr s)))) = ∅) as He.
  { apply map_eq. intros i. rewrite forget_all, lookup_empty. case_bool_decide as Hi; [done|].
    destruct (_ !! i) as [t|] eqn:Ei; [|done]. destruct Hi. apply elem_traffic_expired. eauto. }
  rewrite bool_decide_true by done. eexists. split; [done|]. split; [done|]. cbn [tn_urr tn_wheel]. rewrite E.
  cbn [usage_report_starts]. unfold pfcp_get_urr_by_id, vec_bsearch. cbn [length bsearch_loop Nat.ltb Nat.leb].
  change ((0 + 1) / 2)%nat with 0%nat. cbn [lookup list_lookup]. rewrite Hid.
  change (urr_id (urr_set_traffic (tn_urr s) tr by_ue)) with (urr_id (tn_urr s)). rewrite intcmp_refl. simpl. rewrite Hst.
  rewrite (proj2 (Z.eqb_neq _ _) Hh). by eexists.
Qed.
End Spec.

(** ** Examples *)

(** a rule with a measurement period of 60 seconds that started at 1000, and a
    time quota that is spent at 1050 *)
Definition ex_rule : upf_urr_t :=
  mk_urr 3 PFCP_URR_TIME (Z.lor REPORTING_TRIGGER_PERIODIC_REPORTING REPORTING_TRIGGER_TIME_QUOTA) 0 0 0
    (f64_of_Z 1000) INFINITY INFINITY (mk_volume measure_zero counter_zero counter_zero)
    (mk_urr_time (f64_of_Z 1000) 60 (f64_of_Z 1060) 0) (mk_urr_time f64_zero 0 f64_zero u32_none)
    (mk_urr_time (f64_of_Z 1000) 50 (f64_of_Z 1050) 1) urr_time_zero (mk_urr_time f64_zero 0 f64_zero u32_none)
    (mk_abs_time INFINITY INFINITY) (mk_usage f64_zero f64_zero f64_zero measure_zero)
    pool_empty None (mk_urr_time f64_zero 0 f64_zero u32_none) None None.
Definition ex_session : upf_session_t :=
  mk_session (f64_of_Z 0) ip6_zero 7 ip6_zero (mk_assoc 0 u32_none u32_none) 0 0
    (set_inactivity (set_r_urr rules_zero (Some [ex_rule])) (mk_urr_time f64_zero 0 f64_zero u32_none)) rules_zero f64_zero 0.
Definition ex_wheel (now : Z) : wheel := mk_wheel pool_empty (now * 100) (f64_of_Z now).

Lemma ex_up_to_date now : up_to_date (ex_wheel now) (f64_of_Z now).
Proof. intros x Hx. by apply f64_ltb_asym. Qed.

Lemma urr_expiry_reported_once_witness :
  session_due (f64_of_Z 1061) ex_session = true
  /\ exists w' sx' m,
    @upf_pfcp_session_urr_timer pool_lifo (f64_of_Z 1061) (f64_of_Z 61) 5 (ex_wheel 1061) ex_session = Ok (w', sx', m)
    /\ (session_due (f64_of_Z 1061) ex_session = true
        <-> exists out, m = Some (session_report_request REPORT_TYPE_USAR (Some out) None))
    /\ (session_due (f64_of_Z 1061) ex_session = false <-> m = None)
    /\ exists w'' sx'', @upf_pfcp_session_urr_timer pool_lifo (f64_of_Z 1061) (f64_of_Z 61) 5 w' sx' = Ok (w'', sx'', None).
Proof.
  split; [vm_compute; reflexivity|].
  apply (@urr_expiry_reported_once pool_lifo); [apply ex_up_to_date|].
  split; [|vm_compute; reflexivity]. apply Forall_singleton. intros _. vm_compute. reflexivity.
Defined.

Lemma urr_due_reported_witness :
  exists s, @urr_timer_checks pool_lifo (f64_of_Z 1061) 5 (ex_wheel 1061) ex_rule = Ok s
  /\ tn_trigger s = Z.lor USAGE_REPORT_TRIGGER_PERIODIC_REPORTING USAGE_REPORT_TRIGGER_TIME_QUOTA
  /\ urr_status (tn_urr s) = URR_OVER_QUOTA
  /\ urr_volume (tn_urr s) = urr_volume ex_rule /\ urr_triggers (tn_urr s) = urr_triggers ex_rule
  /\ settled (f64_of_Z 1061) (tn_urr s).
Proof.
  apply (@urr_due_reported pool_lifo (f64_of_Z 1061) 5 (ex_wheel 1061) ex_rule); [apply ex_up_to_date|].
  intros _. vm_compute. reflexivity.
Defined.

(** a UE seen at 5 by the clock of VPP; the timer expires at 1060 of the wall clock *)
Definition ex_traffic : urr_turn :=
  mk_turn (ex_wheel 1061)
    (urr_set_traffic_timer
       (urr_set_traffic ex_rule (mk_pool {[ 0 := mk_traffic ip6_zero (f64_of_Z 5) ]} []) (Some {[ ip6_zero := 0 ]}))
       (mk_urr_time (f64_of_Z 1000) 60 (f64_of_Z 1060) 2)) 0 (f64_of_Z 1061).

Lemma traffic_timer_not_rearmed_witness :
  exists s', @check_traffic_timer pool_lifo (f64_of_Z 1061) 5 ex_traffic = Ok s' /\ pool_elts (urr_traffic (tn_urr s')) = ∅
  /\ exists rp', @usage_report_starts pool_lifo (f64_of_Z 1062) 5 [mk_event 3 URR_START_OF_TRAFFIC] (tn_wheel s') [tn_urr s']
       (upf_usage_report_init 1) false = Ok (tn_wheel s', [tn_urr s'], rp', true).
Proof.
  apply (@traffic_timer_not_rearmed pool_lifo (f64_of_Z 1061) (f64_of_Z 1062) 5 ex_traffic (upf_usage_report_init 1)
           (mk_event 3 URR_START_OF_TRAFFIC)); [vm_compute; reflexivity|vm_compute; congruence| |reflexivity..].
  intros i t Ht. change (({[ 0 := mk_traffic ip6_zero (f64_of_Z 5) ]} : gmap Z upf_urr_traffic_t) !! i = Some t) in Ht.
  apply lookup_singleton_Some in Ht as [<- <-]. vm_compute. reflexivity.
Defined.
