(* ===== verification/UpfIpfilter.v ===== *)
(** * IP filter rules

    The filters of service data flows, "permit out ip from any to assigned" and
    the like: the parser unformat_ipfilter and the printer format_ipfilter of
    src/upf/upf_ipfilter.c. The tokens they read and write are those of
    vppinfra's unformat and format. Integers are stored with 32 bits through
    pointers to 8 and 16 bit members, so where the other octets go is modelled
    too. *)

From Stdlib Require Import ZArith Lia String.
From stdpp Require Import base list list_numbers option numbers decidable strings.
From S2P Require Import Prelude PfcpIo PfcpIe UpfTypes UpfAcl.

(** ** vppinfra *)

(** unformat of a literal, of "%d" or "%u" (32 bits) and of an address, each
    with the input that is left, and format of the last two *)
Class VppUnformat := {
  unf_end : list Z -> bool;
  unf_word : string -> list Z -> option (list Z);
  unf_int : list Z -> option (Z * list Z);
  unf_ip46 : list Z -> option (list Z * list Z);
  fmt_word : string -> list Z;
  fmt_int : Z -> list Z;
  fmt_ip46 : list Z -> list Z
}.

(** ** Members *)

Definition set_ar_type (a : acl_rule_t) (x : ipfilter_type) : acl_rule_t :=
  {| ar_type := x; ar_action := ar_action a; ar_direction := ar_direction a; ar_proto := ar_proto a; ar_src := ar_src a;
     ar_dst := ar_dst a; ar_src_port := ar_src_port a; ar_dst_port := ar_dst_port a |}.
Definition set_ar_action (a : acl_rule_t) (x : acl_action) : acl_rule_t :=
  {| ar_type := ar_type a; ar_action := x; ar_direction := ar_direction a; ar_proto := ar_proto a; ar_src := ar_src a;
     ar_dst := ar_dst a; ar_src_port := ar_src_port a; ar_dst_port := ar_dst_port a |}.
Definition set_ar_direction (a : acl_rule_t) (x : acl_direction) : acl_rule_t :=
  {| ar_type := ar_type a; ar_action := ar_action a; ar_direction := x; ar_proto := ar_proto a; ar_src := ar_src a;
     ar_dst := ar_dst a; ar_src_port := ar_src_port a; ar_dst_port := ar_dst_port a |}.
Definition set_ar_proto (a : acl_rule_t) (x : Z) : acl_rule_t :=
  {| ar_type := ar_type a; ar_action := ar_action a; ar_direction := ar_direction a; ar_proto := x; ar_src := ar_src a;
     ar_dst := ar_dst a; ar_src_port := ar_src_port a; ar_dst_port := ar_dst_port a |}.
(** [field]: the source ([false]) or the destination *)
Definition ar_address (a : acl_rule_t) (field : bool) : ipfilter_address_t := if field then ar_dst a else ar_src a.
Definition ar_port (a : acl_rule_t) (field : bool) : ipfilter_port_t := if field then ar_dst_port a else ar_src_port a.
Definition set_ar_address (a : acl_rule_t) (field : bool) (x : ipfilter_address_t) : acl_rule_t :=
  {| ar_type := ar_type a; ar_action := ar_action a; ar_direction := ar_direction a; ar_proto := ar_proto a;
     ar_src := if field then ar_src a else x; ar_dst := if field then x else ar_dst a;
     ar_src_port := ar_src_port a; ar_dst_port := ar_dst_port a |}.
Definition set_ar_port (a : acl_rule_t) (field : bool) (x : ipfilter_port_t) : acl_rule_t :=
  {| ar_type := ar_type a; ar_action := ar_action a; ar_direction := ar_direction a; ar_proto := ar_proto a;
     ar_src := ar_src a; ar_dst := ar_dst a;
     ar_src_port := if field then ar_src_port a else x; ar_dst_port := if field then x else ar_dst_port a |}.

Definition ACL_ADDR_ANY : ipfilter_address_t := {| fa_address := replicate 16 255; fa_mask := 0 |}.
Definition ACL_ADDR_ASSIGNED : ipfilter_address_t := {| fa_address := replicate 16 255; fa_mask := 255 |}.
Section Ipfilter.
Context {U : VppUnformat}.

(** ** The parser *)

(** a 32 bit store at [&port->min] *)
Definition store_min (a : acl_rule_t) (field : bool) (x : Z) : acl_rule_t :=
  set_ar_port a field {| fp_min := wrap 16 x; fp_max := wrap 16 (Z.shiftr x 16) |}.
(** a 32 bit store at [&port->max]: after the ports of the source are those of
    the destination, after those nothing, the octets are stored past the rule *)
Definition store_max (a : acl_rule_t) (field : bool) (x : Z) : acl_rule_t * option Z :=
  let a := set_ar_port a field {| fp_min := fp_min (ar_port a field); fp_max := wrap 16 x |} in
  let spill := wrap 16 (Z.shiftr x 16) in
  if field then (a, Some spill)
  else (set_ar_port a true {| fp_min := spill; fp_max := fp_max (ar_port a true) |}, None).

(** [unformat (i, "%d-%d", &port->min, &port->max)], else [unformat (i, "%d", &port->min)] *)
Definition unformat_ports (i : list Z) (a : acl_rule_t) (field : bool) : list Z * acl_rule_t * option Z :=
  match unf_int i with
  | None => (i, a, None)
  | Some (x, i1) =>
      let a := store_min a field x in
      match unf_word "-" i1 ≫= unf_int with
      | Some (y, i2) => let '(a, spill) := store_max a field y in (i2, a, spill)
      | None => (i1, set_ar_port a field {| fp_min := wrap 16 x; fp_max := wrap 16 x |}, None)
      end
  end.

(** the address: [None] is return 0 *)
Definition unformat_address (i : list Z) (a : acl_rule_t) (field : bool) : option (list Z) * acl_rule_t :=
  match unf_word "any" i with
  | Some i => (Some i, set_ar_address a field ACL_ADDR_ANY)
  | None =>
      match unf_word "assigned" i with
      | Some i => (Some i, set_ar_address a field ACL_ADDR_ASSIGNED)
      | None =>
          match unf_ip46 i with
          | None => (None, a)
          | Some (ip, i) =>
              let is_ip4 := ip46_address_is_ip4 ip in
              let a := set_ar_type a (if is_ip4 then IPFILTER_IPV4 else IPFILTER_IPV6) in
              let width := if is_ip4 then 32 else 128 in
              if unf_end i then (Some i, set_ar_address a field {| fa_address := ip; fa_mask := width |})
              else
                match unf_word "/" i ≫= unf_int with
                | Some (m, i) => (Some i, set_ar_address a field {| fa_address := ip; fa_mask := wrap 8 m |})
                | None => (Some i, set_ar_address a field {| fa_address := ip; fa_mask := width |})
                end
          end
      end
  end.

Definition unformat_ipfilter_address_port (i : list Z) (a : acl_rule_t) (field : bool)
  : option (list Z) * acl_rule_t * option Z :=
  let a := set_ar_address a field {| fa_address := fa_address (ar_address a field); fa_mask := 255 |} in
  let a := set_ar_port a field {| fp_min := 0; fp_max := 2 ^ 16 - 1 |} in
  if unf_end i then (None, a, None)
  else
    match unformat_address i a field with
    | (None, a) => (None, a, None)
    | (Some i, a) =>
        if unf_end i then (Some i, a, None)
        else let '(i, a, spill) := unformat_ports i a field in (Some i, a, spill)
    end.

(** one step; the two octets stored past the rule, if any *)
Definition ipfilter_step (step : Z) (i : list Z) (a : acl_rule_t) : option (list Z) * acl_rule_t * option Z :=
  let alt (s1 s2 : string) (f1 f2 : acl_rule_t -> acl_rule_t) :=
    match unf_word s1 i with
    | Some i => (Some i, f1 a, None)
    | None => match unf_word s2 i with Some i => (Some i, f2 a, None) | None => (None, a, None) end
    end in
  let side (s : string) (field : bool) :=
    match unf_word s i with
    | Some i => unformat_ipfilter_address_port i a field
    | None => (None, a, None)
    end in
  if step =? 0 then alt "permit" "deny" (fun a => set_ar_action a ACL_PERMIT) (fun a => set_ar_action a ACL_DENY)
  else if step =? 1 then alt "in" "out" (fun a => set_ar_direction a ACL_IN) (fun a => set_ar_direction a ACL_OUT)
  else if step =? 2 then
    match unf_word "ip" i with
    | Some i => (Some i, set_ar_proto a 255, None)
    | None => match unf_int i with Some (x, i) => (Some i, set_ar_proto a (wrap 8 x), None) | None => (None, a, None) end
    end
  else if step =? 3 then side "from "%string false
  else side "to "%string true.

(** the loop over the steps from [step] on *)
Fixpoint ipfilter_steps (n : nat) (step : Z) (i : list Z) (a : acl_rule_t) : bool * acl_rule_t * option Z :=
  match n with
  | O => (true, a, None)
  | S n =>
      if unf_end i then (true, a, None)
      else
        match ipfilter_step step i a with
        | (None, a, spill) => (false, a, spill)
        | (Some i, a, spill) =>
            let '(r, a, spill') := ipfilter_steps n (step + 1) i a in
            (r, a, match spill' with Some _ => spill' | None => spill end)
        end
  end.

(** whether the rule was read, the rule and what was stored past it; [a] is the
    memory of the rule before *)
Definition unformat_ipfilter (i : list Z) (a : acl_rule_t) : bool * acl_rule_t * option Z :=
  ipfilter_steps 5 0 i (set_ar_type a IPFILTER_WILDCARD).

(** ** The printer *)

Definition format_ipfilter_address_port (a : acl_rule_t) (field : bool) : list Z :=
  let ip := ar_address a field in
  let port := ar_port a field in
  (if acl_addr_is_any ip then fmt_word "any"
   else if acl_addr_is_assigned ip then fmt_word "assigned"
   else fmt_ip46 (fa_address ip)
        ++ (if fa_mask ip =? (if ip46_address_is_ip4 (fa_address ip) then 32 else 128) then []
            else fmt_word "/" ++ fmt_int (fa_mask ip)))
  ++ (if negb (fp_min port =? 0) || negb (fp_max port =? 2 ^ 16 - 1)
      then fmt_word " " ++ fmt_int (fp_min port)
           ++ (if negb (fp_min port =? fp_max port) then fmt_word "-" ++ fmt_int (fp_max port) else [])
      else []).

Definition format_ipfilter (a : acl_rule_t) : list Z :=
  fmt_word (match ar_action a with ACL_PERMIT => "permit " | ACL_DENY => "deny " end)
  ++ fmt_word (match ar_direction a with ACL_IN => "in " | ACL_OUT => "out " end)
  ++ (if ar_proto a =? 255 then fmt_word "ip " else fmt_int (ar_proto a) ++ fmt_word " ")
  ++ fmt_word "from " ++ format_ipfilter_address_port a false ++ fmt_word " "
  ++ fmt_word "to " ++ format_ipfilter_address_port a true ++ fmt_word " ".
End Ipfilter.
