(* ===== verification/UpfIpfilterRt.v ===== *)
(** * Filters as text

    The filter printed by format_ipfilter is read back by unformat_ipfilter as
    the same filter, except that a port range of the destination makes the parser
    store two octets past the rule. [VppUnformatOk] is what is used of format and
    unformat of vppinfra; [text_unformat] has it. *)

From Stdlib Require Import ZArith Lia ZifyBool String Ascii.
From stdpp Require Import base list list_numbers option numbers decidable strings.
From S2P Require Import Prelude PfcpIo PfcpIe UpfTypes UpfRules UpfAcl UpfAppDpo UpfIpfilter.

(** ** Text *)

Definition octets (s : string) : list Z := map (fun c => Z.of_N (N_of_ascii c)) (list_ascii_of_string s).
Definition white (c : Z) : bool := (c =? 32) || (c =? 9) || (c =? 10) || (c =? 13).
Fixpoint skip_white (i : list Z) : list Z := match i with c :: i' => if white c then skip_white i' else i | [] => [] end.
Definition digit (c : Z) : bool := (48 <=? c) && (c <=? 57).
Definition letter (c : Z) : bool := (97 <=? c) && (c <=? 122).
Definition ip_char (c : Z) : bool := digit c || ((97 <=? c) && (c <=? 102)) || (c =? 46) || (c =? 58).
Definition starts_with (p : Z -> bool) (i : list Z) : bool := match i with c :: _ => p c | [] => false end.

(** the input leaves the word at a character that is not white space, or ends *)
Fixpoint mismatch (w i : list Z) : bool :=
  match w, i with
  | [], _ => false
  | _, [] => true
  | c :: w, d :: i => if c =? d then mismatch w i else negb (white d)
  end.
(** a word that ends in a letter is matched up to white space *)
Definition word_ends (w rest : list Z) : bool :=
  match last w, rest with Some c, d :: _ => negb (letter c) || white d | _, _ => true end.

Class VppUnformatOk (U : VppUnformat) := {
  uf_end i : unf_end i = bool_decide (skip_white i = []);
  uf_word w i rest :
    skip_white i = octets w ++ rest -> word_ends (octets w) rest = true ->
    exists r, unf_word w i = Some r /\ skip_white r = skip_white rest;
  uf_word_not w i : mismatch (octets w) (skip_white i) = true -> unf_word w i = None;
  uf_int i x rest :
    skip_white i = fmt_int x ++ rest -> 0 <= x < 2 ^ 32 -> starts_with digit rest = false ->
    exists r, unf_int i = Some (x, r) /\ skip_white r = skip_white rest;
  uf_int_not i : starts_with digit (skip_white i) = false -> starts_with (Z.eqb 45) (skip_white i) = false -> unf_int i = None;
  uf_ip46 i a rest :
    skip_white i = fmt_ip46 a ++ rest -> length a = 16%nat -> Forall is_byte a ->
    starts_with (fun c => negb (white c) && negb (c =? 47)) rest = false ->
    exists r, unf_ip46 i = Some (a, r) /\ skip_white r = skip_white rest;
  ff_word w : fmt_word w = octets w;
  ff_int x : 0 <= x -> Forall (fun c => digit c = true) (fmt_int x) /\ fmt_int x <> [];
  ff_ip46 a : length a = 16%nat -> Forall is_byte a -> Forall (fun c => ip_char c = true) (fmt_ip46 a) /\ (1 < length (fmt_ip46 a))%nat
}.

(** ** Filters that can be printed *)

Definition wf_address (ip : ipfilter_address_t) : bool :=
  bool_decide (length (fa_address ip) = 16%nat) && forallb (in_range 8) (fa_address ip) && in_range 8 (fa_mask ip).
Definition wf_port (p : ipfilter_port_t) : bool := in_range 16 (fp_min p) && in_range 16 (fp_max p).
Definition named (ip : ipfilter_address_t) : bool := acl_addr_is_any ip || acl_addr_is_assigned ip.
(** the type the parser gives: the family of the last address *)
Definition address_type (ip : ipfilter_address_t) (t : ipfilter_type) : ipfilter_type :=
  if named ip then t else if ip46_address_is_ip4 (fa_address ip) then IPFILTER_IPV4 else IPFILTER_IPV6.
Definition filter_type (a : acl_rule_t) : ipfilter_type := address_type (ar_dst a) (address_type (ar_src a) IPFILTER_WILDCARD).
Record wf_filter (a : acl_rule_t) : Prop := {
  wf_type : ar_type a = filter_type a;
  wf_proto : in_range 8 (ar_proto a) = true;
  wf_addresses field : wf_address (ar_address a field) = true;
  wf_ports field : wf_port (ar_port a field) = true
}.

(** whether both ends of a port range are printed *)
Definition port_range (p : ipfilter_port_t) : bool :=
  (negb (fp_min p =? 0) || negb (fp_max p =? 2 ^ 16 - 1)) && negb (fp_min p =? fp_max p).

(** ** Lemmas on text *)

Lemma skip_white_idem i : skip_white (skip_white i) = skip_white i.
Proof. induction i as [|c i IH]; [done|]. simpl. destruct (white c) eqn:E; [done|]. simpl. by rewrite E. Qed.
Lemma skip_white_no c i : white c = false -> skip_white (c :: i) = c :: i.
Proof. simpl. by intros ->. Qed.
Lemma skip_white_head l i : starts_with white l = false -> l <> [] -> skip_white (l ++ i) = l ++ i.
Proof. destruct l as [|c l]; [done|]. intros H _. by apply skip_white_no. Qed.

Section Roundtrip.
Context {U : VppUnformat} {UOk : VppUnformatOk U}.

(** the input is the text, up to white space *)
Definition reads (i text : list Z) : Prop := skip_white i = skip_white text.

Lemma reads_skip r rest : skip_white r = skip_white rest -> reads r rest.
Proof. done. Qed.
Lemma reads_word w i rest :
  reads i (octets w ++ rest) -> skip_white (octets w ++ rest) = octets w ++ rest -> word_ends (octets w) rest = true ->
  exists r, unf_word w i = Some r /\ reads r rest.
Proof. intros H Hs He. apply (uf_word w i rest); [congruence|done]. Qed.
Lemma reads_word_not w i text : reads i text -> mismatch (octets w) (skip_white text) = true -> unf_word w i = None.
Proof. intros H Hm. apply uf_word_not. by rewrite H. Qed.
Lemma int_head x rest : 0 <= x -> exists d t, fmt_int x ++ rest = d :: t /\ digit d = true.
Proof.
  intros Hx. destruct (ff_int x Hx) as [Hd Hn]. destruct (fmt_int x) as [|d l]; [done|].
  exists d, (l ++ rest). split; [done|by inversion Hd].
Qed.
Lemma digit_not c : digit c = true -> white c = false /\ (forall l, letter l = true -> l <> c) /\ 47 <> c /\ 45 <> c.
Proof. unfold digit, white, letter. intros H. split; [lia|]. split; [intros l Hl; lia|]. lia. Qed.
Lemma reads_int i x rest :
  reads i (fmt_int x ++ rest) -> 0 <= x < 2 ^ 32 -> starts_with digit rest = false ->
  exists r, unf_int i = Some (x, r) /\ reads r rest.
Proof.
  intros H Hx Hr. apply (uf_int i x rest); [|done..]. rewrite H. destruct (int_head x rest) as (d & t & -> & Hd); [lia|].
  apply skip_white_no. by apply digit_not in Hd as [].
Qed.
Lemma ends_space w rest : last w = Some 32 -> word_ends w rest = true.
Proof. unfold word_ends. intros ->. by destruct rest. Qed.
Lemma reads_end i text : reads i text -> unf_end i = bool_decide (skip_white text = []).
Proof. intros H. by rewrite uf_end, H. Qed.

(** ** One side of a filter *)

(** what follows a side: white space, then the end or a letter *)
Definition follows (rest : list Z) : Prop :=
  starts_with white rest = true /\ (skip_white rest = [] \/ starts_with letter (skip_white rest) = true).
Lemma follows_not rest : follows rest ->
  starts_with digit (skip_white rest) = false /\ starts_with (Z.eqb 45) (skip_white rest) = false
  /\ mismatch (octets "/") (skip_white rest) = true /\ mismatch (octets "-") (skip_white rest) = true.
Proof.
  intros [_ [->|H]]; [done|]. destruct (skip_white rest) as [|c l] eqn:E; [done|]. simpl in H.
  assert (white c = false) as Hw by (unfold letter, white in *; lia).
  unfold letter, digit in *. cbn [starts_with]. split; [lia|]. split; [lia|].
  split; unfold octets; cbn [mismatch map list_ascii_of_string].
  - destruct (Z.eqb_spec (Z.of_N (N_of_ascii "/")) c) as [F|_]; [simpl in F; lia|by rewrite Hw].
  - destruct (Z.eqb_spec (Z.of_N (N_of_ascii "-")) c) as [F|_]; [simpl in F; lia|by rewrite Hw].
Qed.

Definition ports_text (p : ipfilter_port_t) : list Z :=
  if negb (fp_min p =? 0) || negb (fp_max p =? 2 ^ 16 - 1)
  then fmt_word " " ++ fmt_int (fp_min p) ++ (if negb (fp_min p =? fp_max p) then fmt_word "-" ++ fmt_int (fp_max p) else [])
  else [].
Lemma follows_digit rest : follows rest -> starts_with digit rest = false.
Proof. intros [H _]. destruct rest as [|c l]; [done|]. simpl in *. unfold white, digit in *. lia. Qed.

(** the other members are left alone, and the other port of the destination *)
Record same_but (field : bool) (a a' : acl_rule_t) : Prop := {
  sb_type : ar_type a' = ar_type a; sb_action : ar_action a' = ar_action a; sb_direction : ar_direction a' = ar_direction a;
  sb_proto : ar_proto a' = ar_proto a; sb_address : ar_address a' (negb field) = ar_address a (negb field);
  sb_port : field = true -> ar_port a' false = ar_port a false
}.

Lemma ports_read i a field p rest :
  reads i (ports_text p ++ rest) -> follows rest -> wf_port p = true -> ar_port a field = Build_ipfilter_port_t 0 (2 ^ 16 - 1) ->
  exists r a', (if unf_end i then (Some i, a, None) else let '(i, a, spill) := unformat_ports i a field in (Some i, a, spill))
      = (Some r, a', if field && port_range p then Some 0 else None)
  /\ reads r rest /\ ar_port a' field = p /\ ar_address a' field = ar_address a field /\ same_but field a a'.
Proof.
  intros Hi Hf Hp Ha. unfold wf_port in Hp. apply andb_true_iff in Hp as [Hmin Hmax].
  pose proof (wrap_small _ _ Hmin) as Wmin. pose proof (wrap_small _ _ Hmax) as Wmax. apply in_range_spec in Hmin, Hmax.
  destruct (follows_not _ Hf) as (Hd & Hm & _ & Hdash).
  unfold ports_text, port_range in *. destruct (negb (fp_min p =? 0) || negb (fp_max p =? 2 ^ 16 - 1)) eqn:E.
  2:{ assert (p = Build_ipfilter_port_t 0 (2 ^ 16 - 1)) as -> by (destruct p; simpl in *; f_equal; lia).
      exists i, a. rewrite andb_false_r. split; [|by repeat split].
      destruct (unf_end i); [done|]. unfold unformat_ports. rewrite uf_int_not; [done|by rewrite Hi..]. }
  rewrite ff_word, <- !app_assoc in Hi. change (octets " ") with [32] in Hi.
  set (tail := (if negb (fp_min p =? fp_max p) then fmt_word "-" ++ fmt_int (fp_max p) else []) ++ rest) in *.
  assert (reads i (fmt_int (fp_min p) ++ tail)) as Hi' by exact Hi.
  assert (starts_with digit tail = false) as Htail.
  { unfold tail. case_match; [by rewrite ff_word|]. by apply follows_digit. }
  destruct (reads_int i (fp_min p) tail Hi' ltac:(lia) Htail) as (r & Hr & Hrr).
  replace (unf_end i) with false.
  2:{ rewrite (reads_end _ _ Hi'). destruct (int_head (fp_min p) tail) as (d & t & -> & Hdd); [lia|].
      rewrite skip_white_no by (by apply digit_not in Hdd as []). done. }
  unfold unformat_ports. rewrite Hr. unfold tail in *. destruct (fp_min p =? fp_max p) eqn:Eq; cbn [negb] in *.
  - rewrite app_nil_l in Hrr. rewrite (reads_word_not "-" r rest Hrr Hdash). cbn [mbind option_bind].
    exists r, (set_ar_port (store_min a field (fp_min p)) field {| fp_min := wrap 16 (fp_min p); fp_max := wrap 16 (fp_min p) |}).
    rewrite andb_false_r. split; [done|]. split; [done|].
    unfold store_min. rewrite Wmin. assert (fp_min p = fp_max p) as Hq by lia. destruct p as [mn mx]; simpl in *. subst mx.
    destruct a, field; by repeat split.
  - rewrite ff_word, <- app_assoc in Hrr.
    destruct (reads_word "-" r (fmt_int (fp_max p) ++ rest) Hrr) as (r1 & Hr1 & Hrr1); [done| |].
    { destruct (int_head (fp_max p) rest) as (d & t & -> & _); [lia|done]. }
    destruct (reads_int r1 (fp_max p) rest Hrr1 ltac:(lia) (follows_digit _ Hf)) as (r2 & Hr2 & Hrr2).
    rewrite Hr1. cbn [mbind option_bind]. rewrite Hr2. unfold store_max.
    replace (wrap 16 (Z.shiftr (fp_max p) 16)) with 0 by (rewrite Z.shiftr_div_pow2, Z.div_small by lia; done).
    destruct field.
    + eexists r2, _. split; [done|]. split; [done|]. unfold store_min. rewrite Wmin, Wmax. destruct a, p; by repeat split.
    + eexists r2, _. split; [done|]. split; [done|]. unfold store_min. rewrite Wmin, Wmax. destruct a, p; by repeat split.
Qed.

Definition address_text (ip : ipfilter_address_t) : list Z :=
  if acl_addr_is_any ip then fmt_word "any"
  else if acl_addr_is_assigned ip then fmt_word "assigned"
  else fmt_ip46 (fa_address ip)
       ++ (if fa_mask ip =? (if ip46_address_is_ip4 (fa_address ip) then 32 else 128) then []
           else fmt_word "/" ++ fmt_int (fa_mask ip)).
Lemma format_side a field : format_ipfilter_address_port a field = address_text (ar_address a field) ++ ports_text (ar_port a field).
Proof. done. Qed.

(** an address, then ports or what follows *)
Definition after_address (rest : list Z) : Prop :=
  starts_with white rest = true
  /\ (skip_white rest = [] \/ starts_with (fun c => letter c || digit c) (skip_white rest) = true).
Lemma after_ports p rest : wf_port p = true -> follows rest -> after_address (ports_text p ++ rest).
Proof.
  intros Hp [Hw Hr]. unfold wf_port in Hp. apply andb_true_iff in Hp as [Hmin _]. apply in_range_spec in Hmin.
  unfold ports_text. case_match.
  - rewrite ff_word, <- !app_assoc. split; [done|]. right. change (octets " ") with [32]. simpl.
    destruct (int_head (fp_min p) ((if negb (fp_min p =? fp_max p) then fmt_word "-" ++ fmt_int (fp_max p) else []) ++ rest))
      as (d & t & E & Hd); [lia|]. rewrite E, skip_white_no by (by apply digit_not in Hd as []). simpl. by rewrite Hd, orb_true_r.
  - rewrite app_nil_l. split; [done|]. destruct Hr as [Hr|Hr]; [by left|right]. destruct (skip_white rest) as [|c l]; [done|].
    cbn [starts_with] in *. by rewrite Hr.
Qed.

Lemma mismatch_ip (w : string) a rest :
  length a = 16%nat -> Forall is_byte a -> (w = "any" \/ w = "assigned")%string ->
  mismatch (octets w) (fmt_ip46 a ++ rest) = true.
Proof.
  intros Hl Hb Hw. destruct (ff_ip46 a Hl Hb) as [Hc Hn]. destruct (fmt_ip46 a) as [|c [|d l]]; [simpl in Hn; lia..|].
  inversion Hc as [|? ? H1 Hc']; subst. inversion Hc' as [|? ? H2 _]; subst.
  assert (white c = false /\ white d = false /\ 110 <> d /\ 115 <> d) as (W1 & W2 & N1 & N2) by (unfold ip_char, digit, white in *; lia).
  destruct Hw as [-> | ->]; unfold octets; cbn [map list_ascii_of_string app mismatch];
    (destruct (Z.eqb_spec (Z.of_N (N_of_ascii "a")) c); [|by rewrite W1]).
  - destruct (Z.eqb_spec (Z.of_N (N_of_ascii "n")) d) as [F|]; [simpl in F; lia|by rewrite W2].
  - destruct (Z.eqb_spec (Z.of_N (N_of_ascii "s")) d) as [F|]; [simpl in F; lia|by rewrite W2].
Qed.

Lemma ones_address a : length a = 16%nat -> Forall is_byte a ->
  as_u64 a 0 = u64_none -> as_u64 a 1 = u64_none -> a = replicate 16 255.
Proof.
  intros Hl Hb H0 H1. rewrite <- (take_drop 8 a). change (replicate 16 255) with (replicate 8 255 ++ replicate 8 255). f_equal.
  - apply de_le_inj; [by apply Forall_take|by apply (bytes_check (replicate 8 255))|by rewrite length_take, Hl|].
    unfold as_u64 in H0. change (Z.to_nat (8 * 0)) with 0%nat in H0. by rewrite drop_0 in H0.
  - apply de_le_inj; [by apply Forall_drop|by apply (bytes_check (replicate 8 255))|by rewrite length_drop, Hl|].
    unfold as_u64 in H1. change (Z.to_nat (8 * 1)) with 8%nat in H1. by rewrite take_ge in H1 by (rewrite length_drop; lia).
Qed.
Lemma wf_address_spec ip : wf_address ip = true ->
  length (fa_address ip) = 16%nat /\ Forall is_byte (fa_address ip) /\ 0 <= fa_mask ip < 2 ^ 8.
Proof.
  unfold wf_address. intros H. apply andb_true_iff in H as [[Hl Hb]%andb_true_iff Hm].
  apply bool_decide_eq_true in Hl. apply in_range_spec in Hm. split; [done|]. split; [by apply bytes_check|done].
Qed.
Lemma any_address ip : wf_address ip = true -> acl_addr_is_any ip = true -> ip = ACL_ADDR_ANY.
Proof.
  intros (Hl & Hb & _)%wf_address_spec H. unfold acl_addr_is_any in H. btest.
  destruct ip as [a m]; simpl in *. unfold ACL_ADDR_ANY. f_equal; [apply ones_address; [done..|lia|lia]|lia].
Qed.
Lemma assigned_address ip : wf_address ip = true -> acl_addr_is_assigned ip = true -> ip = ACL_ADDR_ASSIGNED.
Proof.
  intros (Hl & Hb & _)%wf_address_spec H. unfold acl_addr_is_assigned in H. btest.
  destruct ip as [a m]; simpl in *. unfold ACL_ADDR_ASSIGNED. f_equal; [apply ones_address; [done..|lia|lia]|lia].
Qed.

Lemma after_slash rest : after_address rest -> mismatch (octets "/") (skip_white rest) = true.
Proof.
  intros [_ [->|H]]; [done|]. destruct (skip_white rest) as [|c l]; [done|]. cbn [starts_with] in H.
  unfold octets; cbn [mismatch map list_ascii_of_string].
  destruct (Z.eqb_spec (Z.of_N (N_of_ascii "/")) c) as [F|_]; [simpl in F; unfold letter, digit in H; lia|].
  unfold letter, digit, white in *. lia.
Qed.

Lemma address_read i a field ip rest :
  reads i (address_text ip ++ rest) -> after_address rest -> wf_address ip = true ->
  exists r, unformat_address i a field = (Some r, set_ar_address (set_ar_type a (address_type ip (ar_type a))) field ip)
  /\ reads r rest.
Proof.
  intros Hi Hr Hwf. pose proof Hr as [Hw _]. unfold address_text, unformat_address, address_type, named in *.
  assert (forall w, last (octets w) <> None -> word_ends (octets w) rest = true) as Hends.
  { intros w _. unfold word_ends. destruct (last (octets w)), rest; try done. simpl in Hw. by rewrite Hw, orb_true_r. }
  destruct (acl_addr_is_any ip) eqn:Ea.
  { rewrite (any_address ip Hwf Ea). rewrite ff_word in Hi.
    destruct (reads_word "any" i rest Hi eq_refl) as (r & -> & Hrr); [by apply Hends|]. exists r. split; [by destruct a|done]. }
  destruct (acl_addr_is_assigned ip) eqn:Es.
  { rewrite (assigned_address ip Hwf Es). rewrite ff_word in Hi.
    rewrite (reads_word_not "any" i _ Hi) by done.
    destruct (reads_word "assigned" i rest Hi eq_refl) as (r & -> & Hrr); [by apply Hends|].
    exists r. split; [by destruct a|done]. }
  destruct (wf_address_spec ip Hwf) as (Hl & Hb & Hm). destruct (ff_ip46 _ Hl Hb) as [Hc Hn].
  rewrite <- app_assoc in Hi. set (tail := (if _ =? _ then _ else _) ++ rest) in *.
  assert (skip_white (fmt_ip46 (fa_address ip) ++ tail) = fmt_ip46 (fa_address ip) ++ tail) as Hs.
  { apply skip_white_head; [|intros E; by rewrite E in Hn; simpl in Hn; lia].
    destruct (fmt_ip46 _) as [|c l]; [done|]. inversion Hc; subst. simpl. unfold ip_char, digit, white in *. lia. }
  rewrite (reads_word_not "any" i _ Hi), (reads_word_not "assigned" i _ Hi) by (rewrite Hs; apply mismatch_ip; auto).
  destruct (uf_ip46 i (fa_address ip) tail) as (r & -> & Hrr); [congruence|done..| |].
  { unfold tail. case_match; [|by rewrite ff_word]. rewrite app_nil_l. destruct rest; [done|]. simpl in *. by rewrite Hw. }
  apply reads_skip in Hrr. cbn [orb]. set (width := if ip46_address_is_ip4 (fa_address ip) then 32 else 128) in *.
  destruct (fa_mask ip =? width) eqn:Em; unfold tail in *.
  - rewrite app_nil_l in Hrr. exists r. split; [|done].
    rewrite (reads_word_not "/" r rest Hrr (after_slash _ Hr)). cbn [mbind option_bind].
    assert (ip = {| fa_address := fa_address ip; fa_mask := width |}) as Hip by (destruct ip; simpl in *; f_equal; lia).
    rewrite <- Hip. by destruct (unf_end r).
  - rewrite ff_word, <- app_assoc in Hrr.
    destruct (reads_word "/" r (fmt_int (fa_mask ip) ++ rest) Hrr) as (r1 & Hr1 & Hrr1); [done| |].
    { destruct (int_head (fa_mask ip) rest) as (d & t & -> & _); [lia|done]. }
    destruct (reads_int r1 (fa_mask ip) rest Hrr1 ltac:(lia)) as (r2 & Hr2 & Hrr2).
    { destruct rest as [|c l]; [done|]. cbn [starts_with] in *. unfold white, digit in *. lia. }
    rewrite (reads_end _ _ Hrr). change (octets "/") with [47]. cbn [app skip_white]. change (white 47) with false. cbn iota.
    rewrite bool_decide_false by done. rewrite Hr1. cbn [mbind option_bind]. rewrite Hr2, wrap_small by (by apply in_range_spec).
    exists r2. split; [|done]. by destruct ip.
Qed.

(** ** The whole filter *)

Lemma address_head ip : wf_address ip = true -> exists c t, address_text ip = c :: t /\ white c = false.
Proof.
  intros (Hl & Hb & _)%wf_address_spec. destruct (ff_ip46 _ Hl Hb) as [Hc Hn]. unfold address_text.
  destruct (acl_addr_is_any ip); [rewrite ff_word; by eexists _, _|].
  destruct (acl_addr_is_assigned ip); [rewrite ff_word; by eexists _, _|].
  destruct (fmt_ip46 _) as [|c l]; [simpl in Hn; lia|]. inversion Hc; subst. eexists c, _. split; [done|].
  unfold ip_char, digit, white in *. lia.
Qed.
Lemma side_read i a field b rest :
  reads i (format_ipfilter_address_port b field ++ rest) -> follows rest ->
  wf_address (ar_address b field) = true -> wf_port (ar_port b field) = true ->
  exists r a', unformat_ipfilter_address_port i a field
      = (Some r, a', if field && port_range (ar_port b field) then Some 0 else None)
  /\ reads r rest /\ ar_port a' field = ar_port b field /\ ar_address a' field = ar_address b field
  /\ same_but field (set_ar_type a (address_type (ar_address b field) (ar_type a))) a'.
Proof.
  intros Hi Hf Ha Hp. rewrite format_side, <- app_assoc in Hi. unfold unformat_ipfilter_address_port.
  set (a1 := set_ar_port _ _ _).
  destruct (address_read i a1 field (ar_address b field) _ Hi (after_ports _ _ Hp Hf) Ha) as (r & Hr & Hrr).
  replace (unf_end i) with false.
  2:{ rewrite (reads_end _ _ Hi). destruct (address_head _ Ha) as (c & t & -> & Hc). simpl. by rewrite Hc. }
  rewrite Hr. set (a2 := set_ar_address _ _ _).
  destruct (ports_read r a2 field (ar_port b field) rest Hrr Hf Hp) as (r' & a' & -> & Hrr' & Hp' & Ha' & Hs).
  { unfold a2, a1. by destruct a, field. }
  exists r', a'. split; [done|]. split; [done|]. split; [done|]. split.
  - rewrite Ha'. unfold a2. by destruct field.
  - destruct Hs as [S1 S2 S3 S4 S5 S6]. unfold a2, a1 in *.
    split; [etrans; [eassumption|]; by destruct a, field..|].
    intros Hfield. rewrite (S6 Hfield). subst field. by destruct a.
Qed.

(** a word of the text that is one of two alternatives *)
Lemma reads_step n step next i a r a' spill :
  step + 1 = next -> unf_end i = false -> ipfilter_step step i a = (Some r, a', spill) ->
  ipfilter_steps (S n) step i a
  = let '(b, a'', spill') := ipfilter_steps n next r a' in (b, a'', match spill' with Some _ => spill' | None => spill end).
Proof. intros <- H1 H2. simpl. by rewrite H1, H2. Qed.

Lemma action_read i a x rest : reads i (octets (match x with ACL_PERMIT => "permit " | ACL_DENY => "deny " end) ++ rest) ->
  unf_end i = false /\ exists r, ipfilter_step 0 i a = (Some r, set_ar_action a x, None) /\ reads r (32 :: rest).
Proof.
  intros Hi. split; [rewrite (reads_end _ _ Hi); by destruct x|]. unfold ipfilter_step. cbn [Z.eqb].
  destruct x.
  - destruct (reads_word "permit" i (32 :: rest) Hi eq_refl eq_refl) as (r & -> & Hr). eauto.
  - rewrite (reads_word_not "permit" i _ Hi) by done.
    destruct (reads_word "deny" i (32 :: rest) Hi eq_refl eq_refl) as (r & -> & Hr). eauto.
Qed.
Lemma direction_read i a x rest : reads i (octets (match x with ACL_IN => "in " | ACL_OUT => "out " end) ++ rest) ->
  unf_end i = false /\ exists r, ipfilter_step 1 i a = (Some r, set_ar_direction a x, None) /\ reads r (32 :: rest).
Proof.
  intros Hi. split; [rewrite (reads_end _ _ Hi); by destruct x|]. unfold ipfilter_step. cbn [Z.eqb Pos.eqb].
  destruct x.
  - destruct (reads_word "in" i (32 :: rest) Hi eq_refl eq_refl) as (r & -> & Hr). eauto.
  - rewrite (reads_word_not "in" i _ Hi) by done.
    destruct (reads_word "out" i (32 :: rest) Hi eq_refl eq_refl) as (r & -> & Hr). eauto.
Qed.
Lemma proto_read i a x rest : in_range 8 x = true -> reads i ((if x =? 255 then octets "ip " else fmt_int x ++ octets " ") ++ rest) ->
  unf_end i = false /\ exists r, ipfilter_step 2 i a = (Some r, set_ar_proto a x, None) /\ reads r (32 :: rest).
Proof.
  intros Hx Hi. pose proof (wrap_small _ _ Hx) as Hw. apply in_range_spec in Hx. unfold ipfilter_step. cbn [Z.eqb Pos.eqb].
  destruct (Z.eqb_spec x 255) as [->|Hne].
  - split; [by rewrite (reads_end _ _ Hi)|].
    destruct (reads_word "ip" i (32 :: rest) Hi eq_refl eq_refl) as (r & -> & Hr). eauto.
  - rewrite <- app_assoc in Hi. change (octets " " ++ rest) with (32 :: rest) in Hi.
    destruct (reads_int i x (32 :: rest) Hi ltac:(lia) eq_refl) as (r & Hr & Hrr).
    destruct (int_head x (32 :: rest)) as (d & t & E & Hd); [lia|].
    assert (skip_white (d :: t) = d :: t) as Hs by (apply skip_white_no; by apply digit_not in Hd as []).
    split; [rewrite (reads_end _ _ Hi), E, Hs; done|].
    rewrite (reads_word_not "ip" i _ Hi).
    + rewrite Hr, Hw. eauto.
    + rewrite E, Hs. unfold octets; cbn [mismatch map list_ascii_of_string].
      destruct (Z.eqb_spec (Z.of_N (N_of_ascii "i")) d) as [F|_]; [simpl in F; unfold digit in Hd; lia|].
      unfold digit, white in *. lia.
Qed.

Lemma ipfilter_read a mem : wf_filter a ->
  unformat_ipfilter (format_ipfilter a) mem = (true, a, if port_range (ar_dst_port a) then Some 0 else None).
Proof.
  intros [Ht Hpr Hadr Hport]. unfold unformat_ipfilter, format_ipfilter. rewrite !ff_word.
  set (to := octets "to " ++ format_ipfilter_address_port a true ++ octets " ").
  set (from := octets "from " ++ format_ipfilter_address_port a false ++ octets " " ++ to).
  set (m0 := set_ar_type mem IPFILTER_WILDCARD).
  destruct (action_read (octets (match ar_action a with ACL_PERMIT => "permit " | ACL_DENY => "deny " end)
     ++ octets (match ar_direction a with ACL_IN => "in " | ACL_OUT => "out " end)
     ++ (if ar_proto a =? 255 then octets "ip " else fmt_int (ar_proto a) ++ octets " ") ++ from) m0 (ar_action a) _ eq_refl)
    as (E0 & r0 & S0 & R0).
  rewrite (reads_step 4 0 1 _ _ _ _ _ eq_refl E0 S0).
  destruct (direction_read r0 (set_ar_action m0 (ar_action a)) (ar_direction a) _ R0) as (E1 & r1 & S1 & R1).
  rewrite (reads_step 3 1 2 _ _ _ _ _ eq_refl E1 S1).
  destruct (proto_read r1 (set_ar_direction (set_ar_action m0 (ar_action a)) (ar_direction a)) (ar_proto a) _ Hpr R1)
    as (E2 & r2 & S2 & R2).
  rewrite (reads_step 2 2 3 _ _ _ _ _ eq_refl E2 S2). set (m3 := set_ar_proto _ _) in *.
  destruct (reads_word "from " r2 (format_ipfilter_address_port a false ++ octets " " ++ to) R2 eq_refl (ends_space (octets "from ") _ eq_refl)) as (r3 & W3 & R3).
  destruct (side_read r3 m3 false a _ R3) as (r4 & a4 & S3 & R4 & P4 & A4 & B4); [by split; [|right]|done..|].
  rewrite (reads_step 1 3 4 r2 m3 r4 a4 None); [|done|by rewrite (reads_end _ _ R2)|cbn; by rewrite W3].
  destruct (reads_word "to " r4 (format_ipfilter_address_port a true ++ octets " ") R4 eq_refl (ends_space (octets "to ") _ eq_refl)) as (r5 & W5 & R5).
  destruct (side_read r5 a4 true a _ R5) as (r6 & a6 & S4 & R6 & P6 & A6 & B6); [by split; [|left]|done..|].
  rewrite (reads_step 0 4 5 r4 a4 r6 a6 (if port_range (ar_dst_port a) then Some 0 else None));
    [|done|by rewrite (reads_end _ _ R4)|cbn; by rewrite W5].
  cbn [ipfilter_steps]. assert (a6 = a) as ->.
  { destruct B4 as [Q1 Q2 Q3 Q4 Q5 _], B6 as [T1 T2 T3 T4 T5 T6]. specialize (T6 eq_refl).
    unfold filter_type in Ht. clear -Ht A4 P4 A6 P6 Q1 Q2 Q3 Q4 T1 T2 T3 T4 T5 T6.
    destruct a as [ty ac di pr sa da sp dp], a6; simpl in *. f_equal; congruence. }
  simpl. by destruct (port_range (ar_dst_port a)).
Qed.
End Roundtrip.

(** ** A parser and printer that satisfies the laws

    Words and decimal numbers as they are, addresses in hexadecimal. *)

Fixpoint strip_word (w i : list Z) : option (list Z) :=
  match w, i with
  | [], _ => Some i
  | c :: w, d :: i => if c =? d then strip_word w i else None
  | _, [] => None
  end.
Fixpoint decimal (fuel : nat) (x : Z) : list Z :=
  match fuel with
  | O => [48 + x mod 10]
  | S fuel => (if x <? 10 then [] else decimal fuel (x / 10)) ++ [48 + x mod 10]
  end.
Fixpoint read_decimal (acc : Z) (i : list Z) : Z * list Z :=
  match i with
  | c :: i' => if digit c then read_decimal (10 * acc + (c - 48)) i' else (acc, i)
  | [] => (acc, [])
  end.
Definition hex (x : Z) : Z := if x <? 10 then 48 + x else 87 + x.
Definition unhex (c : Z) : Z := if c <? 58 then c - 48 else c - 87.
Fixpoint read_hex (n : nat) (i : list Z) : option (list Z * list Z) :=
  match n, i with
  | O, _ => Some ([], i)
  | S n, c :: d :: i => (fun '(a, r) => (16 * unhex c + unhex d :: a, r)) <$> read_hex n i
  | _, _ => None
  end.

#[export] Instance text_unformat : VppUnformat := {|
  unf_end i := bool_decide (skip_white i = []);
  unf_word w i := strip_word (octets w) (skip_white i);
  unf_int i := if starts_with digit (skip_white i) then Some (read_decimal 0 (skip_white i)) else None;
  unf_ip46 i := read_hex 16 (skip_white i);
  fmt_word := octets;
  fmt_int := decimal 10;
  fmt_ip46 a := flat_map (fun b => [hex (b / 16); hex (b mod 16)]) a
|}.

Lemma strip_word_app w i : strip_word w (w ++ i) = Some i.
Proof. induction w as [|c w IH]; simpl; [done|]. by rewrite Z.eqb_refl. Qed.
Lemma strip_word_mismatch w i : mismatch w i = true -> strip_word w i = None.
Proof. revert i. induction w as [|c w IH]; intros [|d i]; simpl; try done. destruct (c =? d); [apply IH|done]. Qed.

Lemma decimal_digits n x : Forall (fun c => digit c = true) (decimal n x) /\ decimal n x <> [].
Proof.
  assert (forall y, digit (48 + y mod 10) = true) as Hd.
  { intros y. pose proof (Z.mod_pos_bound y 10). unfold digit. lia. }
  revert x. induction n as [|n IH]; intros x; simpl; [split; [by repeat constructor|done]|]. split.
  - apply Forall_app. split; [|by repeat constructor]. destruct (x <? 10); [constructor|apply IH].
  - intros H%app_eq_nil. by destruct H.
Qed.
Definition decimal_value (acc : Z) (l : list Z) : Z := fold_left (fun a c => 10 * a + (c - 48)) l acc.
Lemma read_decimal_app l rest acc :
  Forall (fun c => digit c = true) l -> starts_with digit rest = false ->
  read_decimal acc (l ++ rest) = (decimal_value acc l, rest).
Proof.
  intros Hl Hr. revert acc. induction Hl as [|c l Hc _ IH]; intros acc; simpl.
  - destruct rest as [|c r]; [done|]. simpl in *. by rewrite Hr.
  - by rewrite Hc, IH.
Qed.
Lemma decimal_value_decimal n x : 0 <= x < 10 ^ (Z.of_nat n + 1) -> decimal_value 0 (decimal n x) = x.
Proof.
  revert x. induction n as [|n IH]; intros x Hx; cbn [decimal].
  - change (10 ^ (Z.of_nat 0 + 1)) with 10 in Hx. unfold decimal_value. simpl. rewrite Z.mod_small by lia. lia.
  - unfold decimal_value. rewrite fold_left_app. cbn [fold_left]. fold (decimal_value 0 (if x <? 10 then [] else decimal n (x / 10))).
    destruct (Z.ltb_spec x 10).
    + cbn. rewrite Z.mod_small by lia. lia.
    + rewrite IH; [pose proof (Z.div_mod x 10); lia|].
      replace (Z.of_nat (S n) + 1) with (Z.succ (Z.of_nat n + 1)) in Hx by lia. rewrite Z.pow_succ_r in Hx by lia.
      split; [apply Z.div_pos; lia|apply Z.div_lt_upper_bound; lia].
Qed.
Lemma unhex_hex x : 0 <= x < 16 -> unhex (hex x) = x.
Proof. intros H. unfold unhex, hex. destruct (Z.ltb_spec x 10); case_match; lia. Qed.
Lemma read_hex_app a rest :
  Forall is_byte a -> read_hex (length a) (flat_map (fun b => [hex (b / 16); hex (b mod 16)]) a ++ rest) = Some (a, rest).
Proof.
  induction 1 as [|b a Hb _ IH]; simpl; [done|]. rewrite IH. simpl. unfold is_byte in Hb.
  pose proof (Z.div_mod b 16). pose proof (Z.mod_pos_bound b 16).
  rewrite !unhex_hex by lia. do 3 f_equal. lia.
Qed.
Lemma hex_char x : 0 <= x < 16 -> ip_char (hex x) = true.
Proof. intros H. unfold hex, ip_char, digit. destruct (Z.ltb_spec x 10); lia. Qed.

#[export] Instance text_unformat_ok : VppUnformatOk text_unformat.
Proof.
  split; cbn [unf_end unf_word unf_int unf_ip46 fmt_word fmt_int fmt_ip46 text_unformat].
  - done.
  - intros w i rest -> _. exists rest. by rewrite strip_word_app.
  - intros w i. apply strip_word_mismatch.
  - intros i x rest -> Hx Hr. destruct (decimal_digits 10 x) as [Hd Hn].
    exists rest. rewrite read_decimal_app by done. rewrite decimal_value_decimal by lia.
    destruct (decimal 10 x) as [|c l]; [done|]. inversion Hd as [|? ? Hc _]; subst. simpl. by rewrite Hc.
  - intros i -> _. done.
  - intros i a rest -> Hl Hb _. exists rest. rewrite <- Hl. by rewrite read_hex_app.
  - done.
  - intros x _. apply decimal_digits.
  - intros a Hl Hb. split.
    + clear Hl. induction Hb as [|b a Hb _ IH]; simpl; [constructor|]. unfold is_byte in Hb.
      repeat constructor; [apply hex_char|apply hex_char|exact IH].
      * split; [apply Z.div_pos|apply Z.div_lt_upper_bound]; lia.
      * apply Z.mod_pos_bound. lia.
    + destruct a as [|b a]; [done|]. simpl. lia.
Qed.

(** C16. A filter that is printed is read back as the same filter, whatever the
    memory of the rule held before: action, direction, protocol, both addresses
    with their prefix lengths, both port ranges, and the type, which is the family
    of the addresses. If the ports of the destination are a range, two octets of
    zero are stored past the end of the rule. *)
Theorem ipfilter_roundtrip {U : VppUnformat} {UOk : VppUnformatOk U} a mem :
  wf_filter a ->
  unformat_ipfilter (format_ipfilter a) mem = (true, a, if port_range (ar_dst_port a) then Some 0 else None).
Proof. apply ipfilter_read. Qed.

(** permit in 17 from 10.0.0.0/8 1000-2000 to assigned 53 *)
Definition demo_filter : acl_rule_t :=
  {| ar_type := IPFILTER_IPV4; ar_action := ACL_PERMIT; ar_direction := ACL_IN; ar_proto := 17;
     ar_src := {| fa_address := replicate 12 0 ++ [10; 0; 0; 0]; fa_mask := 8 |}; ar_dst := ACL_ADDR_ASSIGNED;
     ar_src_port := {| fp_min := 1000; fp_max := 2000 |}; ar_dst_port := {| fp_min := 53; fp_max := 53 |} |}.
Lemma ipfilter_roundtrip_witness :
  format_ipfilter demo_filter
    = octets "permit in 17 from 0000000000000000000000000a000000/8 1000-2000 to assigned 53 "
  /\ forall mem, unformat_ipfilter (format_ipfilter demo_filter) mem = (true, demo_filter, None).
Proof.
  split; [vm_compute; reflexivity|]. intros mem. apply (ipfilter_roundtrip demo_filter mem).
  split; [reflexivity|reflexivity|intros []; reflexivity..].
Defined.

(** the range of the destination spills: the store of the upper end is four octets
    wide and the rule ends after the second *)
Theorem destination_range_spills :
  exists i, forall mem, snd (unformat_ipfilter i mem) = Some 0.
Proof.
  exists (octets "permit out ip from any to any 80-90"). intros mem. vm_compute. reflexivity.
Qed.
