(* ===== verification/ApiMsg.v ===== *)
(** * PFCP messages as the handlers see them

    The members of the decoded groups the handlers of src/upf/upf_pfcp_api.c
    read, by the enumerators of src/upf/pfcp.h, and the responses they build:
    pfcp_session_procedure_response_t with its presence bits, set apart from its
    members as the code does, and its translation to a group for the encoder. *)

From Stdlib Require Import ZArith Lia String.
From stdpp Require Import base list list_numbers option numbers decidable strings.
From S2P Require Import Prelude PfcpIo PfcpIe PfcpLeaf PfcpTables PfcpCodec UpfTypes UpfVec UpfUrr UpfRules UrrTimer.

(** ** Positions of the members (enumerators of pfcp.h) *)

Definition CREATE_PDR_PDR_ID : Z := 0.
Definition CREATE_PDR_PRECEDENCE : Z := 1.
Definition CREATE_PDR_PDI : Z := 2.
Definition CREATE_PDR_OUTER_HEADER_REMOVAL : Z := 3.
Definition CREATE_PDR_FAR_ID : Z := 4.
Definition CREATE_PDR_URR_ID : Z := 5.
Definition CREATE_PDR_QER_ID : Z := 6.
Definition UPDATE_PDR_PDR_ID : Z := 0.
Definition UPDATE_PDR_OUTER_HEADER_REMOVAL : Z := 1.
Definition UPDATE_PDR_PRECEDENCE : Z := 2.
Definition UPDATE_PDR_PDI : Z := 3.
Definition UPDATE_PDR_FAR_ID : Z := 4.
Definition UPDATE_PDR_URR_ID : Z := 5.
Definition UPDATE_PDR_QER_ID : Z := 6.
Definition REMOVE_PDR_PDR_ID : Z := 0.
Definition PDI_SOURCE_INTERFACE : Z := 0.
Definition PDI_F_TEID : Z := 1.
Definition PDI_NETWORK_INSTANCE : Z := 2.
Definition PDI_UE_IP_ADDRESS : Z := 3.
Definition PDI_SDF_FILTER : Z := 4.
Definition PDI_APPLICATION_ID : Z := 5.
Definition CREATED_PDR_PDR_ID : Z := 0.
Definition CREATED_PDR_F_TEID : Z := 1.
Definition CREATE_FAR_FAR_ID : Z := 0.
Definition CREATE_FAR_APPLY_ACTION : Z := 1.
Definition CREATE_FAR_FORWARDING_PARAMETERS : Z := 2.
Definition UPDATE_FAR_FAR_ID : Z := 0.
Definition UPDATE_FAR_APPLY_ACTION : Z := 1.
Definition UPDATE_FAR_UPDATE_FORWARDING_PARAMETERS : Z := 2.
Definition REMOVE_FAR_FAR_ID : Z := 0.
Definition FORWARDING_PARAMETERS_DESTINATION_INTERFACE : Z := 0.
Definition FORWARDING_PARAMETERS_NETWORK_INSTANCE : Z := 1.
Definition FORWARDING_PARAMETERS_REDIRECT_INFORMATION : Z := 2.
Definition FORWARDING_PARAMETERS_OUTER_HEADER_CREATION : Z := 3.
Definition FORWARDING_PARAMETERS_BBF_APPLY_ACTION : Z := 10.
Definition FORWARDING_PARAMETERS_BBF_NAT_PORT_BLOCK : Z := 11.
Definition UPDATE_FORWARDING_PARAMETERS_DESTINATION_INTERFACE : Z := 0.
Definition UPDATE_FORWARDING_PARAMETERS_NETWORK_INSTANCE : Z := 1.
Definition UPDATE_FORWARDING_PARAMETERS_REDIRECT_INFORMATION : Z := 2.
Definition UPDATE_FORWARDING_PARAMETERS_OUTER_HEADER_CREATION : Z := 3.
Definition UPDATE_FORWARDING_PARAMETERS_PFCPSMREQ_FLAGS : Z := 7.
Definition CREATE_URR_URR_ID : Z := 0.
Definition CREATE_URR_MEASUREMENT_METHOD : Z := 1.
Definition CREATE_URR_REPORTING_TRIGGERS : Z := 2.
Definition CREATE_URR_MEASUREMENT_PERIOD : Z := 3.
Definition CREATE_URR_VOLUME_THRESHOLD : Z := 4.
Definition CREATE_URR_VOLUME_QUOTA : Z := 5.
Definition CREATE_URR_TIME_THRESHOLD : Z := 6.
Definition CREATE_URR_TIME_QUOTA : Z := 7.
Definition CREATE_URR_QUOTA_VALIDITY_TIME : Z := 10.
Definition CREATE_URR_MONITORING_TIME : Z := 11.
Definition CREATE_URR_LINKED_URR_ID : Z := 15.
Definition UPDATE_URR_URR_ID : Z := 0.
Definition UPDATE_URR_MEASUREMENT_METHOD : Z := 1.
Definition UPDATE_URR_REPORTING_TRIGGERS : Z := 2.
Definition UPDATE_URR_MEASUREMENT_PERIOD : Z := 3.
Definition UPDATE_URR_VOLUME_THRESHOLD : Z := 4.
Definition UPDATE_URR_VOLUME_QUOTA : Z := 5.
Definition UPDATE_URR_TIME_THRESHOLD : Z := 6.
Definition UPDATE_URR_TIME_QUOTA : Z := 7.
Definition UPDATE_URR_QUOTA_VALIDITY_TIME : Z := 10.
Definition UPDATE_URR_MONITORING_TIME : Z := 11.
Definition UPDATE_URR_LINKED_URR_ID : Z := 15.
Definition REMOVE_URR_URR_ID : Z := 0.
Definition CREATE_QER_QER_ID : Z := 0.
Definition CREATE_QER_QER_CORRELATION_ID : Z := 1.
Definition CREATE_QER_GATE_STATUS : Z := 2.
Definition CREATE_QER_MBR : Z := 3.
Definition UPDATE_QER_QER_ID : Z := 0.
Definition UPDATE_QER_QER_CORRELATION_ID : Z := 1.
Definition UPDATE_QER_GATE_STATUS : Z := 2.
Definition UPDATE_QER_MBR : Z := 3.
Definition REMOVE_QER_QER_ID : Z := 0.
Definition QUERY_URR_URR_ID : Z := 0.
Definition SESSION_PROCEDURE_RESPONSE_NODE_ID : Z := 0.
Definition SESSION_PROCEDURE_RESPONSE_CAUSE : Z := 1.
Definition SESSION_PROCEDURE_RESPONSE_TP_ERROR_REPORT : Z := 3.
Definition SESSION_PROCEDURE_RESPONSE_UP_F_SEID : Z := 4.
Definition SESSION_PROCEDURE_RESPONSE_CREATED_PDR : Z := 5.
Definition SESSION_PROCEDURE_RESPONSE_USAGE_REPORT : Z := 8.
Definition SESSION_PROCEDURE_RESPONSE_FAILED_RULE_ID : Z := 10.
Definition SESSION_PROCEDURE_RESPONSE_TP_CREATED_BINDING : Z := 13.
Definition TP_ERROR_REPORT_TP_ERROR_MESSAGE : Z := 0.
Definition TP_CREATED_BINDING_NAT_PORT_BLOCK : Z := 0.
Definition TP_CREATED_BINDING_NAT_OUTSIDE_ADDRESS : Z := 1.
Definition TP_CREATED_BINDING_NAT_EXTERNAL_PORT_RANGE : Z := 2.
Definition SESSION_ESTABLISHMENT_REQUEST_NODE_ID : Z := 0.
Definition SESSION_ESTABLISHMENT_REQUEST_F_SEID : Z := 1.
Definition SESSION_ESTABLISHMENT_REQUEST_CREATE_PDR : Z := 2.
Definition SESSION_ESTABLISHMENT_REQUEST_CREATE_FAR : Z := 3.
Definition SESSION_ESTABLISHMENT_REQUEST_CREATE_URR : Z := 4.
Definition SESSION_ESTABLISHMENT_REQUEST_USER_PLANE_INACTIVITY_TIMER : Z := 10.
Definition SESSION_MODIFICATION_REQUEST_REMOVE_PDR : Z := 1.
Definition SESSION_MODIFICATION_REQUEST_REMOVE_FAR : Z := 2.
Definition SESSION_MODIFICATION_REQUEST_REMOVE_URR : Z := 3.
Definition SESSION_MODIFICATION_REQUEST_REMOVE_QER : Z := 4.
Definition SESSION_MODIFICATION_REQUEST_REMOVE_BAR : Z := 5.
Definition SESSION_MODIFICATION_REQUEST_CREATE_PDR : Z := 7.
Definition SESSION_MODIFICATION_REQUEST_CREATE_FAR : Z := 8.
Definition SESSION_MODIFICATION_REQUEST_CREATE_URR : Z := 9.
Definition SESSION_MODIFICATION_REQUEST_CREATE_QER : Z := 10.
Definition SESSION_MODIFICATION_REQUEST_CREATE_BAR : Z := 11.
Definition SESSION_MODIFICATION_REQUEST_UPDATE_PDR : Z := 13.
Definition SESSION_MODIFICATION_REQUEST_UPDATE_FAR : Z := 14.
Definition SESSION_MODIFICATION_REQUEST_UPDATE_URR : Z := 15.
Definition SESSION_MODIFICATION_REQUEST_UPDATE_QER : Z := 16.
Definition SESSION_MODIFICATION_REQUEST_UPDATE_BAR : Z := 17.
Definition SESSION_MODIFICATION_REQUEST_PFCPSMREQ_FLAGS : Z := 19.
Definition SESSION_MODIFICATION_REQUEST_QUERY_URR : Z := 20.
Definition SESSION_MODIFICATION_REQUEST_USER_PLANE_INACTIVITY_TIMER : Z := 22.
Definition PFCP_RESPONSE_NODE_ID : Z := 0.
Definition PFCP_RESPONSE_CAUSE : Z := 1.
Definition PFCP_RESPONSE_OFFENDING_IE : Z := 2.
Definition PFCP_RESPONSE_RECOVERY_TIME_STAMP : Z := 3.
Definition ASSOCIATION_SETUP_REQUEST_NODE_ID : Z := 0.
Definition ASSOCIATION_SETUP_REQUEST_RECOVERY_TIME_STAMP : Z := 1.
Definition ASSOCIATION_PROCEDURE_RESPONSE_NODE_ID : Z := 0.
Definition ASSOCIATION_PROCEDURE_RESPONSE_CAUSE : Z := 1.
Definition ASSOCIATION_PROCEDURE_RESPONSE_RECOVERY_TIME_STAMP : Z := 2.
Definition ASSOCIATION_PROCEDURE_RESPONSE_UP_FUNCTION_FEATURES : Z := 3.
Definition ASSOCIATION_PROCEDURE_RESPONSE_TP_BUILD_ID : Z := 9.
Definition ASSOCIATION_PROCEDURE_RESPONSE_UE_IP_ADDRESS_POOL_INFORMATION : Z := 6.
Definition ASSOCIATION_PROCEDURE_RESPONSE_BBF_UP_FUNCTION_FEATURES : Z := 5.
Definition ASSOCIATION_PROCEDURE_RESPONSE_USER_PLANE_IP_RESOURCE_INFORMATION : Z := 7.
Definition UE_IP_ADDRESS_POOL_INFORMATION_POOL_IDENTIFY : Z := 0.
Definition UE_IP_ADDRESS_POOL_INFORMATION_NETWORK_INSTANCE : Z := 1.
Definition UE_IP_ADDRESS_POOL_INFORMATION_BBF_NAT_PORT_BLOCK : Z := 3.
Definition SESSION_REPORT_REQUEST_REPORT_TYPE : Z := 0.
Definition SESSION_REPORT_REQUEST_ERROR_INDICATION_REPORT : Z := 3.
Definition ERROR_INDICATION_REPORT_F_TEID : Z := 0.

(** ** Reading a decoded group

    What was not received is zeroed memory: no bit, 0 or NULL. *)

Definition grp_fields (v : val) : Z := match v with VGroup fields _ _ => fields | VLeaf _ _ => 0 end.
Definition member (v : val) (i : Z) : list val :=
  match v with VGroup _ ms _ => nth (Z.to_nat i) ms [] | VLeaf _ _ => [] end.
Definition as_leaf (k : leaf) (v : val) : leaf_ty k :=
  match v with
  | VLeaf k' x => match decide (k' = k) with left e => eq_rect k' leaf_ty x k e | right _ => leaf_zero k end
  | VGroup _ _ _ => leaf_zero k
  end.
(** a member, a vector of members, a group, a vector of groups, and its bit *)
Definition leaf_of (k : leaf) (v : val) (i : Z) : leaf_ty k :=
  match member v i with x :: _ => as_leaf k x | [] => leaf_zero k end.
Definition leaves_of (k : leaf) (v : val) (i : Z) : list (leaf_ty k) := as_leaf k <$> member v i.
Definition group_of (v : val) (i : Z) : val :=
  match member v i with x :: _ => x | [] => VGroup 0 [] [] end.
Definition isset (v : val) (i : Z) : bool := ISSET_BIT (grp_fields v) i.
(** the macro OPT *)
Definition OPT {A} (v : val) (i : Z) (value default : A) : A := if isset v i then value else default.

(** the members of the rules, with the codec the tables give them *)
Definition create_pdr_id (v : val) : Z := leaf_of K_u16_ie v CREATE_PDR_PDR_ID.
Definition update_pdr_id (v : val) : Z := leaf_of K_u16_ie v UPDATE_PDR_PDR_ID.
Definition remove_pdr_id (v : val) : Z := leaf_of K_u16_ie v REMOVE_PDR_PDR_ID.
Definition create_far_id (v : val) : Z := leaf_of K_u32_ie v CREATE_FAR_FAR_ID.
Definition update_far_id (v : val) : Z := leaf_of K_u32_ie v UPDATE_FAR_FAR_ID.
Definition remove_far_id (v : val) : Z := leaf_of K_u32_ie v REMOVE_FAR_FAR_ID.
Definition create_urr_id (v : val) : Z := leaf_of K_u32_ie v CREATE_URR_URR_ID.
Definition update_urr_id (v : val) : Z := leaf_of K_u32_ie v UPDATE_URR_URR_ID.
Definition remove_urr_id (v : val) : Z := leaf_of K_u32_ie v REMOVE_URR_URR_ID.
Definition create_qer_id (v : val) : Z := leaf_of K_u32_ie v CREATE_QER_QER_ID.
Definition update_qer_id (v : val) : Z := leaf_of K_u32_ie v UPDATE_QER_QER_ID.
Definition remove_qer_id (v : val) : Z := leaf_of K_u32_ie v REMOVE_QER_QER_ID.

(** ** The response of a session procedure *)

Definition PFCP_CAUSE_REQUEST_ACCEPTED : Z := 1.
Definition PFCP_CAUSE_SESSION_CONTEXT_NOT_FOUND : Z := 65.
Definition PFCP_CAUSE_NO_ESTABLISHED_PFCP_ASSOCIATION : Z := 72.
Definition PFCP_CAUSE_RULE_CREATION_MODIFICATION_FAILURE : Z := 73.

(** the text of an error report before it is formatted *)
Inductive fmt_arg := FInt (x : Z) | FIp (a : list Z).
Definition tp_message : Type := string * list fmt_arg.

(** va_format of vppinfra *)
Class VppFormat := va_format : string -> list fmt_arg -> list Z.

Record created_pdr_t := mk_created_pdr { cp_pdr_id : Z; cp_f_teid : pfcp_f_teid_t }.
(** the presence bits, the block, the outside address, the ports *)
Record created_binding_t := mk_binding {
  cb_fields : Z; cb_block : vec Z; cb_outside_addr : list Z; cb_start_port : Z; cb_end_port : Z }.

(** the members the handlers set; the error report with its own presence bits *)
Record session_response := mk_sresp {
  sr_fields : Z; sr_node_id : pfcp_node_id_t; sr_cause : Z; 
  sr_tp_error_report : Z * option tp_message; sr_up_f_seid : pfcp_f_seid_t; 
  sr_created_pdr : list created_pdr_t; sr_usage_report : list pfcp_usage_report_t; sr_failed_rule_id : pfcp_failed_rule_id_t; sr_created_binding : created_binding_t }.

Definition set_sr_fields (r : session_response) (x : Z) : session_response :=
  mk_sresp x (sr_node_id r) (sr_cause r) (sr_tp_error_report r) (sr_up_f_seid r) (sr_created_pdr r) (sr_usage_report r) (sr_failed_rule_id r) (sr_created_binding r).
Definition set_sr_node_id (r : session_response) (x : pfcp_node_id_t) : session_response :=
  mk_sresp (sr_fields r) x (sr_cause r) (sr_tp_error_report r) (sr_up_f_seid r) (sr_created_pdr r) (sr_usage_report r) (sr_failed_rule_id r) (sr_created_binding r).
Definition set_sr_cause (r : session_response) (x : Z) : session_response :=
  mk_sresp (sr_fields r) (sr_node_id r) x (sr_tp_error_report r) (sr_up_f_seid r) (sr_created_pdr r) (sr_usage_report r) (sr_failed_rule_id r) (sr_created_binding r).
Definition set_sr_tp_error_report (r : session_response) (x : Z * option tp_message) : session_response :=
  mk_sresp (sr_fields r) (sr_node_id r) (sr_cause r) x (sr_up_f_seid r) (sr_created_pdr r) (sr_usage_report r) (sr_failed_rule_id r) (sr_created_binding r).
Definition set_sr_up_f_seid (r : session_response) (x : pfcp_f_seid_t) : session_response :=
  mk_sresp (sr_fields r) (sr_node_id r) (sr_cause r) (sr_tp_error_report r) x (sr_created_pdr r) (sr_usage_report r) (sr_failed_rule_id r) (sr_created_binding r).
Definition set_sr_created_pdr (r : session_response) (x : list created_pdr_t) : session_response :=
  mk_sresp (sr_fields r) (sr_node_id r) (sr_cause r) (sr_tp_error_report r) (sr_up_f_seid r) x (sr_usage_report r) (sr_failed_rule_id r) (sr_created_binding r).
Definition set_sr_usage_report (r : session_response) (x : list pfcp_usage_report_t) : session_response :=
  mk_sresp (sr_fields r) (sr_node_id r) (sr_cause r) (sr_tp_error_report r) (sr_up_f_seid r) (sr_created_pdr r) x (sr_failed_rule_id r) (sr_created_binding r).
Definition set_sr_failed_rule_id (r : session_response) (x : pfcp_failed_rule_id_t) : session_response :=
  mk_sresp (sr_fields r) (sr_node_id r) (sr_cause r) (sr_tp_error_report r) (sr_up_f_seid r) (sr_created_pdr r) (sr_usage_report r) x (sr_created_binding r).
Definition set_sr_created_binding (r : session_response) (x : created_binding_t) : session_response :=
  mk_sresp (sr_fields r) (sr_node_id r) (sr_cause r) (sr_tp_error_report r) (sr_up_f_seid r) (sr_created_pdr r) (sr_usage_report r) (sr_failed_rule_id r) x.

Definition set_resp_bit (r : session_response) (i : Z) : session_response := set_sr_fields r (SET_BIT (sr_fields r) i).

(** memset 0 *)
Definition sresp_zero : session_response :=
  mk_sresp 0 (leaf_zero K_node_id) 0 (0, None) (leaf_zero K_f_seid) [] [] (leaf_zero K_failed_rule_id)
    (mk_binding 0 None ip4_zero 0 0).

(** tp_session_error_report; the file name and the line are for debug builds *)
Definition init_tp_error_report (r : Z * option tp_message) (fmt : string) (args : list fmt_arg) : Z * option tp_message :=
  (SET_BIT (fst r) TP_ERROR_REPORT_TP_ERROR_MESSAGE, Some (fmt, args)).
Definition tp_session_error_report (r : session_response) (fmt : string) (args : list fmt_arg) : session_response :=
  let r := set_resp_bit r SESSION_PROCEDURE_RESPONSE_TP_ERROR_REPORT in
  set_sr_tp_error_report r (init_tp_error_report (sr_tp_error_report r) fmt args).

Section Val.
Context {F : VppFormat}.

Definition tp_error_report_val (r : Z * option tp_message) : val :=
  VGroup (fst r) [match snd r with Some (fmt, args) => [VLeaf K_simple_vec_ie (Some (va_format fmt args))] | None => [] end; []; []] [].
Definition created_pdr_val (c : created_pdr_t) : val :=
  VGroup (SET_BIT (SET_BIT 0 CREATED_PDR_PDR_ID) CREATED_PDR_F_TEID)
    [[VLeaf K_u16_ie (cp_pdr_id c)]; [VLeaf K_f_teid (cp_f_teid c)]; []] [].
Definition created_binding_val (c : created_binding_t) : val :=
  VGroup (cb_fields c)
    [[VLeaf K_simple_vec_ie (cb_block c)]; [VLeaf K_bbf_nat_outside_address (cb_outside_addr c)];
     [VLeaf K_bbf_nat_external_port_range (Build_pfcp_bbf_nat_external_port_range_t (cb_start_port c) (cb_end_port c))]] [].

(** the struct as the group the encoder walks *)
Definition session_response_val (r : session_response) : val :=
  VGroup (sr_fields r)
    [[VLeaf K_node_id (sr_node_id r)]; [VLeaf K_u8_ie (sr_cause r)]; []; [tp_error_report_val (sr_tp_error_report r)];
     [VLeaf K_f_seid (sr_up_f_seid r)]; created_pdr_val <$> sr_created_pdr r; []; []; usage_report_val <$> sr_usage_report r;
     []; [VLeaf K_failed_rule_id (sr_failed_rule_id r)]; []; []; [created_binding_val (sr_created_binding r)]] [].
End Val.
