(* ===== verification/UpfMain.v ===== *)
(** * The state of the plugin

    upf_main_t and pfcp_server_main_t as the message handlers and the session
    functions use them: what is configured, which they only read, what they
    change, and what they send. The parts of VPP they call, the FIB, the
    interfaces, the NAT plugin and the random numbers, are a class over an
    abstract state. *)

From Stdlib Require Import ZArith Lia.
From stdpp Require Import base list list_numbers option numbers decidable gmap sorting.
From S2P Require Import Prelude PfcpIo PfcpIe PfcpLeaf PfcpTables PfcpCodec UpfTypes UpfVec UpfUrr UpfRules UpfAssoc UpfTeid UpfAcl UrrTimer.

(** the rest of a function after a call that may fault *)
Notation "'let*' x := m 'in' k" := (obind m (fun x => k))
  (at level 10, x pattern, m at level 100, k at level 200) : upf_scope.

(** ** Structs of upf.h *)

(** [fib_index] for IPv4 and IPv6 *)
Record upf_nwi_t := mk_nwi { nwi_name : list Z; nwi_fib_index4 : Z; nwi_fib_index6 : Z; nwi_sw_if_index : Z }.
Record upf_upip_res_t := mk_upip_res {
  ures_ip4 : list Z; ures_ip6 : list Z; ures_nwi_index : Z; ures_intf : Z; ures_teid : Z; ures_mask : Z }.
Record upf_nat_addr_t := mk_nat_addr { nad_ext_addr : list Z; nad_used_blocks : Z }.
Record upf_nat_pool_t := mk_nat_pool {
  np_name : list Z; np_addresses : list upf_nat_addr_t; np_port_block_size : Z; np_min_port : Z; np_max_port : Z;
  np_max_blocks_per_addr : Z; np_network_instance : list Z }.
Record upf_ue_ip_pool_info_t := mk_ueip_pool { uip_identity : list Z; uip_nwi_name : list Z }.
(** without what only VPP uses: forw_type, encap_index, the FIB node and entry *)
Record upf_peer_t := mk_peer { pe_ref_cnt : Z; pe_encap_fib_index : Z; pe_is_ip4 : bool }.
(** of an upf_adf_app_t *)
Record upf_adf_app_t := mk_adf_app { app_flags : Z; app_db_index : Z }.

Definition INTF_INVALID : Z := 255.

(** ** VPP *)

(** a FIB prefix: IPv4, the address, the length *)
Record fib_prefix_t := mk_prefix { fp_ip4 : bool; fp_addr : list Z; fp_len : Z }.

Class VppNet := {
  net_state : Type;
  (** the number, and the seed it leaves *)
  random_u32 : Z -> Z * Z;
  (** add or remove the special entry of a prefix, towards a session *)
  fib_table_entry_special_dpo_add : net_state -> Z -> fib_prefix_t -> Z -> net_state;
  fib_table_entry_special_remove : net_state -> Z -> fib_prefix_t -> net_state;
  (** the DPO of the exact prefix or its buckets, if it is one of a session *)
  fib_session_dpo : net_state -> Z -> fib_prefix_t -> option Z;
  fib_entry_get_resolving_interface : net_state -> Z -> list Z -> bool -> Z;
  fib_table_id : net_state -> Z -> bool -> Z;
  (** the interface an address of a FIB is configured on *)
  address_to_if_address : net_state -> list Z -> Z -> bool -> option Z;
  ip_interface_get_first_ip : net_state -> Z -> bool -> option (list Z);
  ip_fib_table_get_index_for_sw_if_index : net_state -> Z -> bool -> Z;
  ip4_header_checksum : list Z -> Z;
  ip_mask_to_preflen : list Z -> bool -> Z;
  (** a peer follows the FIB entry of its address; the DPO it is stacked on *)
  fib_entry_track : net_state -> Z -> list Z -> Z -> net_state;
  fib_entry_untrack : net_state -> Z -> net_state;
  peer_next_dpo : net_state -> Z -> Z;
  (** the first port of the binding, 0 if there is none *)
  nat_create_binding : net_state -> list Z -> list Z -> Z -> Z -> Z * net_state;
  nat_del_binding : net_state -> list Z -> net_state
}.

Section Main.
Context {N : VppNet}.

(** ** What is configured *)

Record upf_config := mk_config {
  cf_node_id : pfcp_node_id_t; cf_pfcp_spec_version : Z; cf_start_time : Z; cf_version_string : list Z;
  cf_nwis : pool upf_nwi_t; cf_nwi_index_by_name : gmap (list Z) Z;
  cf_upip_res : list upf_upip_res_t;  (** in the order of the pool *)
  cf_ueip_pools : list upf_ue_ip_pool_info_t;
  cf_nat_pool_index_by_name : gmap (list Z) Z;
  cf_apps : pool upf_adf_app_t; cf_app_by_name : gmap (list Z) Z;
  cf_tdf_ul_table : bool -> list Z; cf_fib_index_by_sw_if_index : bool -> list Z }.

(** what the ACL compiler reads of it *)
Definition acl_config (c : upf_config) : acl_main :=
  mk_acl_main (mk_pool (nwi_sw_if_index <$> pool_elts (cf_nwis c)) (pool_free (cf_nwis c)))
    (cf_tdf_ul_table c) (cf_fib_index_by_sw_if_index c).

(** ** What changes *)

(** the members of an upf_session_t that only the handlers use: the TEID of each
    choose id, the NAT address (pool and position) and the address of the UE *)
Record session_ext := mk_ext {
  se_teid_by_chid : gmap Z Z; se_nat_addr : option (Z * nat); se_user_addr : list Z }.
Definition set_se_teid_by_chid (u : session_ext) (x : gmap Z Z) : session_ext :=
  mk_ext x (se_nat_addr u) (se_user_addr u).
Definition set_se_nat_addr (u : session_ext) (x : option (Z * nat)) : session_ext :=
  mk_ext (se_teid_by_chid u) x (se_user_addr u).
Definition set_se_user_addr (u : session_ext) (x : list Z) : session_ext :=
  mk_ext (se_teid_by_chid u) (se_nat_addr u) x.
Definition ext_zero : session_ext := mk_ext ∅ None ip4_zero.

(** what leaves the handlers: a response, a request on a session, with the session
    and its association at the time of the call, the messages of an association
    to be dropped, an end marker packet *)
Inductive output :=
| OutResponse (dmsg : pfcp_decoded_msg_t)
| OutSessionRequest (si : Z) (sx : upf_session_t) (n : option upf_node_assoc_t) (dmsg : pfcp_decoded_msg_t)
| OutFreeMsgs (node : Z)
| OutEndMarker (fib_index dpoi_index : Z) (rewrite : vec Z) (is_ip4 : bool).

Record upf_main_t := mk_umain {
  um_assoc : assoc_main;
  um_rules : rule_main;
  um_wheel : wheel;
  um_v4_tunnel : gmap (list Z) Z;
  um_v6_tunnel : gmap (list Z) Z;
  um_rand_base : Z;
  um_nat_pools : pool upf_nat_pool_t;
  um_peers : pool upf_peer_t;
  um_peer_index_by_ip : gmap (list Z * Z) Z;
  um_net : net_state;
  um_ext : gmap Z session_ext;
  um_out : list output }.
Definition set_um_assoc (u : upf_main_t) (x : assoc_main) : upf_main_t :=
  mk_umain x (um_rules u) (um_wheel u) (um_v4_tunnel u) (um_v6_tunnel u) (um_rand_base u) (um_nat_pools u) (um_peers u) (um_peer_index_by_ip u) (um_net u) (um_ext u) (um_out u).
Definition set_um_rules (u : upf_main_t) (x : rule_main) : upf_main_t :=
  mk_umain (um_assoc u) x (um_wheel u) (um_v4_tunnel u) (um_v6_tunnel u) (um_rand_base u) (um_nat_pools u) (um_peers u) (um_peer_index_by_ip u) (um_net u) (um_ext u) (um_out u).
Definition set_um_wheel (u : upf_main_t) (x : wheel) : upf_main_t :=
  mk_umain (um_assoc u) (um_rules u) x (um_v4_tunnel u) (um_v6_tunnel u) (um_rand_base u) (um_nat_pools u) (um_peers u) (um_peer_index_by_ip u) (um_net u) (um_ext u) (um_out u).
Definition set_um_v4_tunnel (u : upf_main_t) (x : gmap (list Z) Z) : upf_main_t :=
  mk_umain (um_assoc u) (um_rules u) (um_wheel u) x (um_v6_tunnel u) (um_rand_base u) (um_nat_pools u) (um_peers u) (um_peer_index_by_ip u) (um_net u) (um_ext u) (um_out u).
Definition set_um_v6_tunnel (u : upf_main_t) (x : gmap (list Z) Z) : upf_main_t :=
  mk_umain (um_assoc u) (um_rules u) (um_wheel u) (um_v4_tunnel u) x (um_rand_base u) (um_nat_pools u) (um_peers u) (um_peer_index_by_ip u) (um_net u) (um_ext u) (um_out u).
Definition set_um_rand_base (u : upf_main_t) (x : Z) : upf_main_t :=
  mk_umain (um_assoc u) (um_rules u) (um_wheel u) (um_v4_tunnel u) (um_v6_tunnel u) x (um_nat_pools u) (um_peers u) (um_peer_index_by_ip u) (um_net u) (um_ext u) (um_out u).
Definition set_um_nat_pools (u : upf_main_t) (x : pool upf_nat_pool_t) : upf_main_t :=
  mk_umain (um_assoc u) (um_rules u) (um_wheel u) (um_v4_tunnel u) (um_v6_tunnel u) (um_rand_base u) x (um_peers u) (um_peer_index_by_ip u) (um_net u) (um_ext u) (um_out u).
Definition set_um_peers (u : upf_main_t) (x : pool upf_peer_t) : upf_main_t :=
  mk_umain (um_assoc u) (um_rules u) (um_wheel u) (um_v4_tunnel u) (um_v6_tunnel u) (um_rand_base u) (um_nat_pools u) x (um_peer_index_by_ip u) (um_net u) (um_ext u) (um_out u).
Definition set_um_peer_index_by_ip (u : upf_main_t) (x : gmap (list Z * Z) Z) : upf_main_t :=
  mk_umain (um_assoc u) (um_rules u) (um_wheel u) (um_v4_tunnel u) (um_v6_tunnel u) (um_rand_base u) (um_nat_pools u) (um_peers u) x (um_net u) (um_ext u) (um_out u).
Definition set_um_net (u : upf_main_t) (x : net_state) : upf_main_t :=
  mk_umain (um_assoc u) (um_rules u) (um_wheel u) (um_v4_tunnel u) (um_v6_tunnel u) (um_rand_base u) (um_nat_pools u) (um_peers u) (um_peer_index_by_ip u) x (um_ext u) (um_out u).
Definition set_um_ext (u : upf_main_t) (x : gmap Z session_ext) : upf_main_t :=
  mk_umain (um_assoc u) (um_rules u) (um_wheel u) (um_v4_tunnel u) (um_v6_tunnel u) (um_rand_base u) (um_nat_pools u) (um_peers u) (um_peer_index_by_ip u) (um_net u) x (um_out u).
Definition set_um_out (u : upf_main_t) (x : list output) : upf_main_t :=
  mk_umain (um_assoc u) (um_rules u) (um_wheel u) (um_v4_tunnel u) (um_v6_tunnel u) (um_rand_base u) (um_nat_pools u) (um_peers u) (um_peer_index_by_ip u) (um_net u) (um_ext u) x.

Definition emit (u : upf_main_t) (o : output) : upf_main_t := set_um_out u (um_out u ++ [o]).

Definition get_sx (u : upf_main_t) (si : Z) : outcome upf_session_t := get_session (um_assoc u) si.
Definition put_sx (u : upf_main_t) (si : Z) (sx : upf_session_t) : upf_main_t :=
  set_um_assoc u (put_session (um_assoc u) si sx).
Definition get_ext (u : upf_main_t) (si : Z) : session_ext := default ext_zero (um_ext u !! si).
Definition put_ext (u : upf_main_t) (si : Z) (x : session_ext) : upf_main_t := set_um_ext u (<[si := x]> (um_ext u)).

(** ** Lookups *)

(** the index and the instance; [name] is not NULL *)
Definition lookup_nwi (c : upf_config) (name : vec Z) : outcome (option (Z * upf_nwi_t)) :=
  match name with
  | None => Fault Assertion
  | Some name =>
      if bool_decide (pool_elts (cf_nwis c) = ∅) then Ok None
      else
        match cf_nwi_index_by_name c !! name with
        | None => Ok None
        | Some i => match pool_elt (cf_nwis c) i with Some n => Ok (Some (i, n)) | None => Fault BadIndex end
        end
  end.

Definition upf_nwi_fib_index (c : upf_config) (is_ip4 : bool) (nwi_index : Z) : Z :=
  match pool_elt (cf_nwis c) nwi_index with
  | Some n => if is_ip4 then nwi_fib_index4 n else nwi_fib_index6 n
  | None => u32_none
  end.

Definition get_nat_pool_by_name (c : upf_config) (u : upf_main_t) (name : vec Z) : outcome (option (Z * upf_nat_pool_t)) :=
  match cf_nat_pool_index_by_name c !! vec_elts name with
  | None => Ok None
  | Some i => match pool_elt (um_nat_pools u) i with Some n => Ok (Some (i, n)) | None => Fault BadIndex end
  end.

(** the database of the application, with one more reference *)
Definition upf_adf_get_adr_db (c : upf_config) (gm : rule_main) (application_id : Z) : outcome (Z * rule_main) :=
  if application_id =? u32_none then Ok (u32_none, gm)
  else
    match pool_elt (cf_apps c) application_id with
    | None => Fault BadIndex
    | Some app =>
        let db := app_db_index app in
        Ok (db, match gm_adf_ref_cnt gm !! db with
                | Some n => if db =? u32_none then gm
                            else mk_main (gm_qer_policers gm) (gm_qer_by_id gm) (<[db := wrap 32 (n + 1)]> (gm_adf_ref_cnt gm))
                | None => gm
                end)
    end.

(** the pool elements in the order of pool_foreach *)
Definition pool_foreach {A} (p : pool A) : list A :=
  omap (fun i => pool_elts p !! i) (merge_sort Z.le (elements (dom (pool_elts p)))).
End Main.
