(* ===== verification/UpfSession.v ===== *)
(** * Applying and releasing the rules of a session

    What happens to a session after its pending rules are prepared:
    pfcp_update_apply makes them the active ones, with the tunnels, routes,
    peers, policers and timers they need, pfcp_update_finish releases the old
    ones, and pfcp_disable_session, pfcp_free_session and
    pfcp_release_association end sessions and associations
    (src/upf/upf_pfcp.c). *)

From Stdlib Require Import ZArith Lia.
From stdpp Require Import base list list_numbers option numbers decidable gmap.
From S2P Require Import Prelude PfcpIo PfcpIe PfcpLeaf PfcpTables PfcpCodec UpfTypes UpfVec UpfUrr UpfRules UpfAssoc UpfTeid UpfAcl UrrTimer UpfMain.

(** ** Members of a session and of its rules *)

Definition set_sx_flags (sx : upf_session_t) (x : Z) : upf_session_t :=
  mk_session (sx_last_ul_traffic sx) (sx_up_address sx) (sx_cp_seid sx) (sx_cp_address sx) (sx_assoc_ sx) x
    (sx_active sx) (sx_rules0 sx) (sx_rules1 sx) (sx_unix_time_start sx) (sx_generation sx).
Definition set_sx_active (sx : upf_session_t) (x : Z) : upf_session_t :=
  mk_session (sx_last_ul_traffic sx) (sx_up_address sx) (sx_cp_seid sx) (sx_cp_address sx) (sx_assoc_ sx) (sx_flags sx)
    x (sx_rules0 sx) (sx_rules1 sx) (sx_unix_time_start sx) (sx_generation sx).
Definition set_sx_generation (sx : upf_session_t) (x : Z) : upf_session_t :=
  mk_session (sx_last_ul_traffic sx) (sx_up_address sx) (sx_cp_seid sx) (sx_cp_address sx) (sx_assoc_ sx) (sx_flags sx)
    (sx_active sx) (sx_rules0 sx) (sx_rules1 sx) (sx_unix_time_start sx) x.
Definition set_r_end_marker (r : rules) (x : vec send_end_marker_t) : rules :=
  mk_rules (r_pdr r) (r_far r) (r_urr r) (r_qer r) (r_flags r) (r_proxy_precedence r)
    (r_proxy_pdr_idx r) (r_v4_acls r) (r_v6_acls r) (r_ue_src_ip r) (r_ue_dst_ip r)
    (r_v4_teid r) (r_v6_teid r) x (r_inactivity_timer r).

Section Session.
Context {N : VppNet} {P : VppPool} {V : VecSort} {M : IpMasks}.
Context (cf : upf_config) (now vnow : f64).

Definition pfcp_update_session (sx : upf_session_t) : upf_session_t :=
  let active := pfcp_get_rules sx PFCP_ACTIVE in
  let pending := pfcp_get_rules sx PFCP_PENDING in
  if negb (ut_period (r_inactivity_timer active) =? 0)
  then set_rules sx PFCP_PENDING (set_inactivity pending (r_inactivity_timer active)) else sx.

(** ** Peers *)

Definition ohc_is_ip4 (ohc : pfcp_outer_header_creation_t) : bool := flag (ohc_description ohc) OUTER_HEADER_CREATION_ANY_IP4.
Definition peer_key (u : upf_main_t) (fwd : upf_far_forward_t) : list Z * Z :=
  (ohc_ip (ff_outer_header_creation fwd),
   ip_fib_table_get_index_for_sw_if_index (um_net u) (ff_dst_sw_if_index fwd) (ohc_is_ip4 (ff_outer_header_creation fwd))).

Definition peer_addr_ref (u : upf_main_t) (fwd : upf_far_forward_t) : outcome (Z * upf_main_t) :=
  let key := peer_key u fwd in
  match um_peer_index_by_ip u !! key with
  | Some i =>
      match pool_elt (um_peers u) i with
      | None => Fault BadIndex
      | Some p => Ok (i, set_um_peers u (pool_set (um_peers u) i
                                           (mk_peer (wrap 64 (pe_ref_cnt p + 1)) (pe_encap_fib_index p) (pe_is_ip4 p))))
      end
  | None =>
      let '(i, peers) := pool_get (um_peers u) (mk_peer 1 (snd key) (ohc_is_ip4 (ff_outer_header_creation fwd))) in
      let u := set_um_peer_index_by_ip (set_um_peers u peers) (<[key := i]> (um_peer_index_by_ip u)) in
      Ok (i, set_um_net u (fib_entry_track (um_net u) (snd key) (fst key) i))
  end.

Definition peer_addr_unref (u : upf_main_t) (fwd : upf_far_forward_t) : outcome upf_main_t :=
  let key := peer_key u fwd in
  match um_peer_index_by_ip u !! key with
  | None => Fault Assertion
  | Some i =>
      match pool_elt (um_peers u) i with
      | None => Fault BadIndex
      | Some p =>
          let n := wrap 64 (pe_ref_cnt p - 1) in
          if n =? 0 then
            let u := set_um_peer_index_by_ip u (delete key (um_peer_index_by_ip u)) in
            let u := set_um_net u (fib_entry_untrack (um_net u) i) in
            Ok (set_um_peers u (pool_put (um_peers u) i))
          else Ok (set_um_peers u (pool_set (um_peers u) i (mk_peer n (pe_encap_fib_index p) (pe_is_ip4 p))))
      end
  end.

(** ** Routes *)

Definition ue_ip_prefix (e : ue_ip_t) : fib_prefix_t :=
  if ip46_address_is_ip4 (ui_addr e) then mk_prefix true (ip46_ip4 (ui_addr e)) 32
  else mk_prefix false (ui_addr e) 64.
Definition pfcp_add_del_ue_ip (si : Z) (u : upf_main_t) (e : ue_ip_t) (is_add : bool) : upf_main_t :=
  set_um_net u
    (if is_add then fib_table_entry_special_dpo_add (um_net u) (ui_fib_index e) (ue_ip_prefix e) si
     else fib_table_entry_special_remove (um_net u) (ui_fib_index e) (ue_ip_prefix e)).

Definition pfcp_add_del_tdf (is_ip4 : bool) (si : Z) (u : upf_main_t) (acl : upf_acl_t) (is_add : bool) : upf_main_t :=
  let tdf := cf_tdf_ul_table cf is_ip4 in
  if acl_match_ip_app acl then u
  else if Zlen tdf <=? acl_fib_index acl then u
  else
    let fib_index := nth (Z.to_nat (acl_fib_index acl)) tdf 0 in
    if fib_index =? u32_none then u
    else
      let pfx := mk_prefix is_ip4 (t5_src (acl_match acl)) (ip_mask_to_preflen (t5_src (acl_mask acl)) is_ip4) in
      set_um_net u
        (if is_add then fib_table_entry_special_dpo_add (um_net u) fib_index pfx si
         else fib_table_entry_special_remove (um_net u) fib_index pfx).

(** on ue_ip_t, whose first members are an ip46_address_fib_t *)
Definition ip46_address_fib_cmp (a b : ue_ip_t) : Z :=
  let r := intcmp (ui_fib_index a) (ui_fib_index b) in
  if r =? 0 then memcmp (ui_addr a) (ui_addr b) else r.

Definition add_del_v4_teid (si : Z) (u : upf_main_t) (e : gtpu4_endp_rule_t) (is_add : bool) : upf_main_t :=
  set_um_v4_tunnel u (pfcp_add_del_v4_teid si (um_v4_tunnel u) e is_add).
Definition add_del_v6_teid (si : Z) (u : upf_main_t) (e : gtpu6_endp_rule_t) (is_add : bool) : upf_main_t :=
  set_um_v6_tunnel u (pfcp_add_del_v6_teid si (um_v6_tunnel u) e is_add).

(** ** Ending a session *)

(** the rules of a kind, in order *)
Fixpoint free_each {T} (free : rule_main -> T -> outcome rule_main) (gm : rule_main) (l : list T) : outcome rule_main :=
  match l with [] => Ok gm | t :: l => let* gm := free gm t in free_each free gm l end.

Definition pfcp_free_rules (gm : rule_main) (sx : upf_session_t) (rule : Z) : outcome (rule_main * upf_session_t) :=
  let r := pfcp_get_rules sx rule in
  let* gm := free_each pfcp_free_pdr gm (vec_elts (r_pdr r)) in
  let* gm := free_each pfcp_free_far gm (vec_elts (r_far r)) in
  let* gm := free_each pfcp_free_urr gm (vec_elts (r_urr r)) in
  let* gm := free_each pfcp_free_qer gm (vec_elts (r_qer r)) in
  Ok (gm, set_rules sx rule rules_zero).

(** all timers of a rule *)
Definition stop_urr_timers (w : wheel) (u : upf_urr_t) (t : f64) : outcome (wheel * upf_urr_t) :=
  let* (w, a) := upf_pfcp_session_stop_urr_time w (urr_measurement_period u) t in
  let* (w, b) := upf_pfcp_session_stop_urr_time w (urr_time_threshold u) t in
  let* (w, c) := upf_pfcp_session_stop_urr_time w (urr_time_quota u) t in
  let* (w, d) := upf_pfcp_session_stop_urr_time w (urr_quota_validity_time u) t in
  let* (w, e) := upf_pfcp_session_stop_urr_time w (urr_traffic_timer u) t in
  Ok (w, urr_set_timers u (urr_triggers u) a b c d e).
Fixpoint stop_all_timers (w : wheel) (l : list upf_urr_t) (t : f64) : outcome (wheel * list upf_urr_t) :=
  match l with
  | [] => Ok (w, [])
  | u :: l => let* (w, u) := stop_urr_timers w u t in let* (w, l) := stop_all_timers w l t in Ok (w, u :: l)
  end.

Definition am_unset_session_id (am : assoc_main) (seid : Z) : assoc_main :=
  mk_amain (am_nodes am) (am_node_index_by_ip am) (am_node_index_by_fqdn am) (am_sessions am)
    (delete seid (am_session_by_id am)) (am_assoc_counter am) (am_sessions_counter am).
Definition am_count_sessions (am : assoc_main) (n : Z) : assoc_main :=
  mk_amain (am_nodes am) (am_node_index_by_ip am) (am_node_index_by_fqdn am) (am_sessions am)
    (am_session_by_id am) (am_assoc_counter am) (am_sessions_counter am + n).

(** what the active rules have in the tables of the data path *)
Definition withdraw_rules (si : Z) (u : upf_main_t) (r : rules) : upf_main_t :=
  let u := foldl (fun u e => add_del_v4_teid si u e false) u (vec_elts (r_v4_teid r)) in
  let u := foldl (fun u e => add_del_v6_teid si u e false) u (vec_elts (r_v6_teid r)) in
  let u := foldl (fun u e => pfcp_add_del_ue_ip si u e false) u (vec_elts (r_ue_dst_ip r)) in
  let u := foldl (fun u e => pfcp_add_del_ue_ip si u e false) u (vec_elts (r_ue_src_ip r)) in
  let u := foldl (fun u e => pfcp_add_del_tdf true si u e false) u (vec_elts (r_v4_acls r)) in
  foldl (fun u e => pfcp_add_del_tdf false si u e false) u (vec_elts (r_v6_acls r)).

Definition pfcp_disable_session (u : upf_main_t) (si : Z) : outcome upf_main_t :=
  let* sx := get_sx u si in
  let active := pfcp_get_rules sx PFCP_ACTIVE in
  let t := wh_last_run (um_wheel u) in
  let u := set_um_assoc u (am_unset_session_id (um_assoc u) (sx_cp_seid sx)) in
  let u := withdraw_rules si u active in
  let* am := node_assoc_detach_session (um_assoc u) si in
  let u := set_um_assoc u am in
  let* sx := get_sx u si in
  let* (w, urrs) := stop_all_timers (um_wheel u) (vec_elts (r_urr active)) t in
  let* (w, inact) := upf_pfcp_session_stop_up_inactivity_timer w vnow (r_inactivity_timer active) in
  let u := put_sx (set_um_wheel u w) si (set_rules sx PFCP_ACTIVE (set_inactivity (set_urrs active urrs) inact)) in
  Ok (set_um_assoc u (am_count_sessions (um_assoc u) (-1))).

Definition upf_delete_nat_binding (u : upf_main_t) (np : Z) (i : nat) (user_addr : list Z) : outcome upf_main_t :=
  match pool_elt (um_nat_pools u) np with
  | None => Fault BadIndex
  | Some p =>
      match np_addresses p !! i with
      | None => Fault BadIndex
      | Some a =>
          assert (0 <? nad_used_blocks a)
         (let a := mk_nat_addr (nad_ext_addr a) (nad_used_blocks a - 1) in
          let p := mk_nat_pool (np_name p) (<[i := a]> (np_addresses p)) (np_port_block_size p) (np_min_port p)
                     (np_max_port p) (np_max_blocks_per_addr p) (np_network_instance p) in
          Ok (set_um_net (set_um_nat_pools u (pool_set (um_nat_pools u) np p)) (nat_del_binding (um_net u) user_addr)))
      end
  end.

(** [pfcp_free_rules (sx, i)] for i = 0, 1 releases the active and the pending
    rules, relative to the active set *)
Definition pfcp_free_session (u : upf_main_t) (si : Z) : outcome upf_main_t :=
  let* sx := get_sx u si in
  let* (gm, sx) := pfcp_free_rules (um_rules u) sx 0 in
  let* (gm, sx) := pfcp_free_rules gm sx 1 in
  let u := put_sx (set_um_rules u gm) si sx in
  let x := get_ext u si in
  let* u := match se_nat_addr x with
            | Some (np, i) => upf_delete_nat_binding u np i (se_user_addr x)
            | None => Ok u
            end in
  let am := um_assoc u in
  Ok (set_um_ext (set_um_assoc u (am_set_sessions am (pool_put (am_sessions am) si))) (delete si (um_ext u))).

(** the loop over the sessions of an association; the bound is never reached
    while they form a list *)
Fixpoint release_sessions (fuel : nat) (u : upf_main_t) (node_id idx : Z) : outcome upf_main_t :=
  if idx =? u32_none then Ok u
  else
    match fuel with
    | O => Fault NoFuel
    | S fuel =>
        let* sx := get_sx u idx in
        assert (as_node (sx_assoc_ sx) =? node_id)
       (let next := as_next (sx_assoc_ sx) in
        let* u := pfcp_disable_session u idx in
        let* u := pfcp_free_session u idx in
        release_sessions fuel u node_id next)
    end.

Definition unset_node_index (am : assoc_main) (id : pfcp_node_id_t) : assoc_main :=
  let is_ip := (nid_type id =? NID_IPv4) || (nid_type id =? NID_IPv6) in
  mk_amain (am_nodes am)
    (if is_ip then delete (nid_ip id) (am_node_index_by_ip am) else am_node_index_by_ip am)
    (if negb is_ip && (nid_type id =? NID_FQDN) then delete (vec_elts (nid_fqdn id)) (am_node_index_by_fqdn am)
     else am_node_index_by_fqdn am)
    (am_sessions am) (am_session_by_id am) (am_assoc_counter am) (am_sessions_counter am).
Definition free_node (am : assoc_main) (node_id : Z) : assoc_main :=
  mk_amain (pool_put (am_nodes am) node_id) (am_node_index_by_ip am) (am_node_index_by_fqdn am)
    (am_sessions am) (am_session_by_id am) (am_assoc_counter am - 1) (am_sessions_counter am).

Definition pfcp_release_association (u : upf_main_t) (node_id : Z) : outcome upf_main_t :=
  let* n := get_node (um_assoc u) node_id in
  let u := set_um_assoc u (unset_node_index (um_assoc u) (na_node_id n)) in
  let* u := release_sessions (size (pool_elts (am_sessions (um_assoc u)))) u node_id (na_sessions n) in
  let* n := get_node (um_assoc u) node_id in
  assert (na_sessions n =? u32_none)
 (let u := emit u (OutFreeMsgs node_id) in
  Ok (set_um_assoc u (free_node (um_assoc u) node_id))).

(** ** Applying the pending rules *)

Definition pfcp_send_end_marker (u : upf_main_t) (sx : upf_session_t) (far_id : Z) : outcome upf_session_t :=
  let active := pfcp_get_rules sx PFCP_ACTIVE in
  let pending := pfcp_get_rules sx PFCP_PENDING in
  match pfcp_get_by_id (T := upf_far_t) active far_id with
  | None => Ok sx
  | Some i =>
      match vec_elts (r_far active) !! i with
      | None => Fault BadIndex
      | Some f =>
          match pool_elt (um_peers u) (ff_peer_idx (far_forward f)) with
          | None => Fault BadIndex
          | Some p =>
              let em := mk_send_em (wrap 16 far_id) (pe_encap_fib_index p)
                          (peer_next_dpo (um_net u) (ff_peer_idx (far_forward f))) in
              Ok (set_rules sx PFCP_PENDING (set_r_end_marker pending (vec_add (r_send_end_marker pending) [em])))
          end
      end
  end.

(** without new PDRs: the old ones, with what was compiled from them *)
Definition keep_pdrs (pending active : rules) : rules :=
  mk_rules (r_pdr active) (r_far pending) (r_urr pending) (r_qer pending) (r_flags active) (r_proxy_precedence active)
    (r_proxy_pdr_idx active) (r_v4_acls active) (r_v6_acls active) (r_ue_src_ip active) (r_ue_dst_ip active)
    (r_v4_teid active) (r_v6_teid active) (r_send_end_marker pending) (r_inactivity_timer pending).
Definition give_pdrs (active : rules) : rules :=
  mk_rules (r_pdr active) (r_far active) (r_urr active) (r_qer active) (r_flags active) (r_proxy_precedence active)
    (r_proxy_pdr_idx active) None None None None None None (r_send_end_marker active) (r_inactivity_timer active).

Definition set_peer_idx (f : upf_far_t) (i : Z) : upf_far_t :=
  let w := far_forward f in
  {| far_id := far_id f; far_apply_action := far_apply_action f;
     far_forward := {| ff_flags := ff_flags w; ff_dst_intf := ff_dst_intf w; ff_dst_sw_if_index := ff_dst_sw_if_index w;
                       ff_nwi_index := ff_nwi_index w; ff_redirect_information := ff_redirect_information w;
                       ff_outer_header_creation := ff_outer_header_creation w; ff_peer_idx := i;
                       ff_rewrite := ff_rewrite w |} |}.
Definition far_ohc (f : upf_far_t) : pfcp_outer_header_creation_t := ff_outer_header_creation (far_forward f).

(** a new FAR: its peer, and its TEID among those of the rules *)
Definition apply_far (u : upf_main_t) (r : rules) (f : upf_far_t) : outcome (upf_main_t * rules * upf_far_t) :=
  let d := ohc_description (far_ohc f) in
  if d =? 0 then Ok (u, r, f)
  else
    let* (i, u) := peer_addr_ref u (far_forward f) in
    let v4 := if flag d OUTER_HEADER_CREATION_GTP_IP4
              then rules_add_v4_teid (r_v4_teid r) (de_le (ip46_ip4 (ohc_ip (far_ohc f)))) (ohc_teid (far_ohc f)) (far_id f)
              else r_v4_teid r in
    let v6 := if negb (flag d OUTER_HEADER_CREATION_GTP_IP4) && flag d OUTER_HEADER_CREATION_GTP_IP6
              then rules_add_v6_teid (r_v6_teid r) (de_le (ohc_ip (far_ohc f))) (ohc_teid (far_ohc f)) (far_id f)
              else r_v6_teid r in
    Ok (u, set_r_teid r v4 v6, set_peer_idx f i).
Fixpoint apply_fars (u : upf_main_t) (r : rules) (l : list upf_far_t) : outcome (upf_main_t * rules * list upf_far_t) :=
  match l with
  | [] => Ok (u, r, [])
  | f :: l =>
      let* (u, r, f) := apply_far u r f in
      let* (u, r, l) := apply_fars u r l in Ok (u, r, f :: l)
  end.

Fixpoint attach_policers (gm : rule_main) (l : list upf_qer_t) : outcome (list upf_qer_t * rule_main) :=
  match l with
  | [] => Ok ([], gm)
  | q :: l =>
      let* (q, gm) := attach_qer_policer gm q in
      let* (l, gm) := attach_policers gm l in Ok (q :: l, gm)
  end.

(** the tables of the data path, from the old rules to the new ones; the sorted
    vectors are kept *)
Definition run_diff {A} (add_del : upf_main_t -> A -> bool -> upf_main_t) (u : upf_main_t) (calls : list (A * bool)) : upf_main_t :=
  foldl (fun u call => add_del u (fst call) (snd call)) u calls.
Definition update_tables (si : Z) (u : upf_main_t) (pending active : rules) : upf_main_t * rules * rules :=
  let '(c1, pd, ad) := vec_diff ip46_address_fib_cmp (r_ue_dst_ip pending) (r_ue_dst_ip active) in
  let u := run_diff (pfcp_add_del_ue_ip si) u c1 in
  let '(c2, p4, a4) := vec_diff v4_teid_cmp (r_v4_teid pending) (r_v4_teid active) in
  let u := run_diff (add_del_v4_teid si) u c2 in
  let '(c3, p6, a6) := vec_diff v6_teid_cmp (r_v6_teid pending) (r_v6_teid active) in
  let u := run_diff (add_del_v6_teid si) u c3 in
  let '(c4, ps, as_) := vec_diff ip46_address_fib_cmp (r_ue_src_ip pending) (r_ue_src_ip active) in
  let u := run_diff (pfcp_add_del_ue_ip si) u c4 in
  let '(c5, pa4, aa4) := vec_diff upf_acl_cmp (r_v4_acls pending) (r_v4_acls active) in
  let u := run_diff (pfcp_add_del_tdf true si) u c5 in
  let '(c6, pa6, aa6) := vec_diff upf_acl_cmp (r_v6_acls pending) (r_v6_acls active) in
  let u := run_diff (pfcp_add_del_tdf false si) u c6 in
  (u, set_r_acls (set_r_teid (set_r_ue_ip pending ps pd) p4 p6) pa4 pa6,
   set_r_acls (set_r_teid (set_r_ue_ip active as_ ad) a4 a6) aa4 aa6).

Fixpoint unref_fars (u : upf_main_t) (l : list upf_far_t) : outcome upf_main_t :=
  match l with
  | [] => Ok u
  | f :: l =>
      let* u := if ohc_description (far_ohc f) =? 0 then Ok u else peer_addr_unref u (far_forward f) in
      unref_fars u l
  end.

(** upf_gtpu_end_marker and upf_ip_lookup_tx for every marker *)
Fixpoint send_end_markers (u : upf_main_t) (old : rules) (l : list send_end_marker_t) : outcome upf_main_t :=
  match l with
  | [] => Ok u
  | em :: l =>
      match pfcp_get_by_id (T := upf_far_t) old (sem_far_id em) with
      | None => send_end_markers u old l
      | Some i =>
          match vec_elts (r_far old) !! i with
          | None => Fault BadIndex
          | Some f =>
              send_end_markers (emit u (OutEndMarker (sem_fib_index em) (sem_dpoi_index em) (ff_rewrite (far_forward f))
                                          (ohc_is_ip4 (far_ohc f)))) old l
          end
      end
  end.

Definition set_base (t : urr_time_t) (b : f64) : urr_time_t := mk_urr_time b (ut_period t) (ut_expected t) (ut_handle t).

(** the timers of a rule that was changed *)
Definition start_urr_timers (w : wheel) (si : Z) (u : upf_urr_t) : outcome (wheel * upf_urr_t) :=
  let up := flag (urr_update_flags u) in
  let* (w, u) := if up PFCP_URR_UPDATE_MEASUREMENT_PERIOD
                 then let* (w, t) := upf_pfcp_session_start_stop_urr_time w si (urr_measurement_period u)
                                       (flag (urr_triggers u) REPORTING_TRIGGER_PERIODIC_REPORTING) in
                      Ok (w, urr_set_period u t) else Ok (w, u) in
  let* (w, u) :=
    if flag (urr_methods u) PFCP_URR_TIME then
      let* (w, u) := if up PFCP_URR_UPDATE_TIME_THRESHOLD
                     then let* (w, t) := upf_pfcp_session_start_stop_urr_time w si (urr_time_threshold u)
                                           (flag (urr_triggers u) REPORTING_TRIGGER_TIME_THRESHOLD) in
                          Ok (w, urr_set_threshold u t) else Ok (w, u) in
      if up PFCP_URR_UPDATE_TIME_QUOTA
      then
        let base := if negb (f64_eqb (ut_base (urr_time_threshold u)) f64_zero) then ut_base (urr_time_threshold u) else now in
        let* (w, t) := upf_pfcp_session_start_stop_urr_time w si (set_base (urr_time_quota u) base)
                         (flag (urr_triggers u) REPORTING_TRIGGER_TIME_QUOTA) in
        Ok (w, urr_set_quota u t)
      else Ok (w, u)
    else Ok (w, u) in
  if up PFCP_URR_UPDATE_QUOTA_VALIDITY_TIME
  then let* (w, t) := upf_pfcp_session_start_stop_urr_time w si (set_base (urr_quota_validity_time u) now)
                        (flag (urr_triggers u) REPORTING_TRIGGER_QUOTA_VALIDITY_TIME) in
       Ok (w, urr_set_validity u t) else Ok (w, u).
Fixpoint start_all_timers (w : wheel) (si : Z) (l : list upf_urr_t) : outcome (wheel * list upf_urr_t) :=
  match l with
  | [] => Ok (w, [])
  | u :: l => let* (w, u) := start_urr_timers w si u in let* (w, l) := start_all_timers w si l in Ok (w, u :: l)
  end.

(** combine_volume *)
Definition counter_plus (a b : urr_counter_t) : urr_counter_t :=
  mk_counter (wrap 64 (uc_ul a + uc_ul b)) (wrap 64 (uc_dl a + uc_dl b)) (wrap 64 (uc_total a + uc_total b)).
Definition urr_set_usage (u : upf_urr_t) (m : urr_measure_t) (traffic : pool upf_urr_traffic_t)
  (by_ue : option (gmap (list Z) Z)) : upf_urr_t :=
  mk_urr (urr_id u) (urr_methods u) (urr_triggers u) (urr_status u) (urr_update_flags u) (urr_seq_no u)
    (urr_start_time u) (urr_time_of_first_packet u) (urr_time_of_last_packet u)
    (mk_volume m (uv_threshold (urr_volume u)) (uv_quota (urr_volume u)))
    (urr_measurement_period u) (urr_time_threshold u) (urr_time_quota u) (urr_quota_holding_time u)
    (urr_quota_validity_time u) (urr_monitoring_time u) (urr_usage_before_monitoring_time u) traffic by_ue
    (urr_traffic_timer u) (urr_linked_urr_ids u) (urr_liusa_bitmap u).
Definition carry_usage (new old : upf_urr_t) : upf_urr_t :=
  let n := uv_measure (urr_volume new) in
  let o := uv_measure (urr_volume old) in
  let m :=
    if flag (urr_methods new) PFCP_URR_VOLUME then
      let packets := counter_plus (um_packets n) (um_packets o) in
      let bytes := counter_plus (um_bytes n) (um_bytes o) in
      mk_measure packets bytes
        (if flag (urr_update_flags new) PFCP_URR_UPDATE_VOLUME_QUOTA then bytes
         else counter_plus (um_consumed n) (um_consumed o))
    else n in
  urr_set_usage new m (urr_traffic old) (urr_traffic_by_ue old).

(** the usage of the old rules goes to the new ones with their ids; the timers of
    the others are stopped *)
Fixpoint carry_usages (w : wheel) (new old : list upf_urr_t) : outcome (wheel * list upf_urr_t * list upf_urr_t) :=
  match old with
  | [] => Ok (w, new, [])
  | o :: old =>
      match pfcp_get_urr_by_id new (urr_id o) ≫= fun i => (i,.) <$> new !! i with
      | None =>
          let* (w, o) := stop_urr_timers w o now in
          let* (w, new, old) := carry_usages w new old in Ok (w, new, o :: old)
      | Some (i, n) =>
          let* (w, new, old) := carry_usages w (<[i := carry_usage n o]> new) old in
          Ok (w, new, urr_set_usage o (uv_measure (urr_volume o)) pool_empty None :: old)
      end
  end.

Definition is_set {A} (v : vec A) : bool := match v with Some _ => true | None => false end.

(** before the switch: the rule sets to switch between *)
Definition apply_prepare (u : upf_main_t) (si : Z) (pending active : rules) : outcome (upf_main_t * rules * rules) :=
  let pending_pdr := is_set (r_pdr pending) in
  let* pending' := if pending_pdr then build_pfcp_rules (acl_config cf) pending else Ok (keep_pdrs pending active) in
  let active := if pending_pdr then active else give_pdrs active in
  let pending := pending' in
  let* (u, pending) :=
    match r_far pending with
    | Some l => let* (u, r, l) := apply_fars u pending l in Ok (u, set_r_far r (Some l))
    | None => Ok (u, set_r_far pending (r_far active))
    end in
  let pending :=
    match r_urr pending with
    | Some l => set_r_urr pending (Some (build_urr_link_map l))
    | None => set_r_urr pending (r_urr active)
    end in
  let* (u, pending) :=
    match r_qer pending with
    | Some l => let* (l, gm) := attach_policers (um_rules u) l in Ok (set_um_rules u gm, set_r_qer pending (Some l))
    | None => Ok (u, set_r_qer pending (r_qer active))
    end in
  if pending_pdr then Ok (update_tables si u pending active) else Ok (u, pending, active).

(** after the switch: the new rules and the old ones *)
Definition apply_timers (u : upf_main_t) (si : Z) (last : f64) (new old : rules) : outcome (upf_main_t * rules * rules) :=
  let* (w, old) :=
    if negb (ut_handle (r_inactivity_timer new) =? ut_handle (r_inactivity_timer old))
    then let* (w, t) := upf_pfcp_session_stop_up_inactivity_timer (um_wheel u) vnow (r_inactivity_timer old) in
         Ok (w, set_inactivity old t)
    else Ok (um_wheel u, old) in
  let '(w, t) := upf_pfcp_session_start_up_inactivity_timer w si vnow last (r_inactivity_timer new) in
  Ok (set_um_wheel u w, set_inactivity new t, old).

Definition apply_finish (u : upf_main_t) (si : Z) (pending_pdr pending_far pending_urr pending_qer : bool) (new old : rules)
  : outcome (upf_main_t * rules * rules) :=
  let* u := if pending_far then unref_fars u (vec_elts (r_far old)) else Ok u in
  let* u := send_end_markers u old (vec_elts (r_send_end_marker new)) in
  let new := set_r_end_marker new None in
  let* (w, urrs) := start_all_timers (um_wheel u) si (vec_elts (r_urr new)) in
  let old := if pending_pdr then old else set_r_pdr old None in
  let old := if pending_far then old else set_r_far old None in
  let* (w, urrs, olds) := if pending_urr then carry_usages w urrs (vec_elts (r_urr old)) else Ok (w, urrs, vec_elts (r_urr old)) in
  let old := if pending_urr then set_urrs old olds else set_r_urr old None in
  let old := if pending_qer then old else set_r_qer old None in
  Ok (set_um_wheel u w, set_urrs new urrs, old).

(** the session after the flip of [active], with its new and old rules *)
Definition flip_rules (sx : upf_session_t) (new old : rules) : upf_session_t :=
  let sx := set_sx_flags (set_sx_active sx (Z.lxor (sx_active sx) PFCP_PENDING)) (Z.land (sx_flags sx) (Z.lnot PFCP_UPDATING)) in
  set_rules (set_rules sx PFCP_ACTIVE new) PFCP_PENDING old.

(** returns 0 on every path *)
Definition pfcp_update_apply (u : upf_main_t) (si : Z) : outcome upf_main_t :=
  let* sx := get_sx u si in
  let pending := pfcp_get_rules sx PFCP_PENDING in
  let active := pfcp_get_rules sx PFCP_ACTIVE in
  let pp := is_set (r_pdr pending) in let pf := is_set (r_far pending) in
  let pu := is_set (r_urr pending) in let pq := is_set (r_qer pending) in
  if negb (pp || pf || pu || pq) then Ok u
  else
    let* (u, new, old) := apply_prepare u si pending active in
    let* (u, new, old) := apply_timers u si (sx_last_ul_traffic sx) new old in
    let* (u, new, old) := apply_finish u si pp pf pu pq new old in
    Ok (put_sx u si (flip_rules sx new old)).

Definition pfcp_update_finish (u : upf_main_t) (si : Z) : outcome upf_main_t :=
  let* sx := get_sx u si in
  let* (gm, sx) := pfcp_free_rules (um_rules u) sx PFCP_PENDING in
  Ok (put_sx (set_um_rules u gm) si sx).
End Session.
