(* ===== verification/ApiRules.v ===== *)
(** * Handlers of FARs, URRs and QERs

    A request to establish or modify a session carries vectors of rules to
    create, update and remove. Each has a handler in src/upf/upf_pfcp_api.c that
    changes the pending rules of the session and, at the first rule it cannot
    handle, leaves with an error report in the response. The handlers are written
    in a small error and state monad, where the state survives an error as it
    does in the code. *)

From Stdlib Require Import ZArith Lia String Floats.SpecFloat.
From stdpp Require Import base list list_numbers option numbers decidable strings gmap.
From S2P Require Import Prelude PfcpIo PfcpIe PfcpLeaf PfcpTables PfcpCodec UpfTypes UpfVec UpfUrr UpfRules UpfAssoc UpfTeid UpfAcl UrrTimer ApiMsg UpfMain UpfSession.

(** ** Members of the rules *)

Definition set_pdi_src_intf (r : upf_pdi_t) (x : Z) : upf_pdi_t :=
  {| pdi_src_intf := x; pdi_nwi_index := pdi_nwi_index r; pdi_fields := pdi_fields r; pdi_teid := pdi_teid r; pdi_ue_addr := pdi_ue_addr r; pdi_acl := pdi_acl r; pdi_adr := pdi_adr r |}.
Definition set_pdi_nwi_index (r : upf_pdi_t) (x : Z) : upf_pdi_t :=
  {| pdi_src_intf := pdi_src_intf r; pdi_nwi_index := x; pdi_fields := pdi_fields r; pdi_teid := pdi_teid r; pdi_ue_addr := pdi_ue_addr r; pdi_acl := pdi_acl r; pdi_adr := pdi_adr r |}.
Definition set_pdi_fields (r : upf_pdi_t) (x : Z) : upf_pdi_t :=
  {| pdi_src_intf := pdi_src_intf r; pdi_nwi_index := pdi_nwi_index r; pdi_fields := x; pdi_teid := pdi_teid r; pdi_ue_addr := pdi_ue_addr r; pdi_acl := pdi_acl r; pdi_adr := pdi_adr r |}.
Definition set_pdi_teid (r : upf_pdi_t) (x : pfcp_f_teid_t) : upf_pdi_t :=
  {| pdi_src_intf := pdi_src_intf r; pdi_nwi_index := pdi_nwi_index r; pdi_fields := pdi_fields r; pdi_teid := x; pdi_ue_addr := pdi_ue_addr r; pdi_acl := pdi_acl r; pdi_adr := pdi_adr r |}.
Definition set_pdi_ue_addr (r : upf_pdi_t) (x : pfcp_ue_ip_address_t) : upf_pdi_t :=
  {| pdi_src_intf := pdi_src_intf r; pdi_nwi_index := pdi_nwi_index r; pdi_fields := pdi_fields r; pdi_teid := pdi_teid r; pdi_ue_addr := x; pdi_acl := pdi_acl r; pdi_adr := pdi_adr r |}.
Definition set_pdi_acl (r : upf_pdi_t) (x : vec acl_rule_t) : upf_pdi_t :=
  {| pdi_src_intf := pdi_src_intf r; pdi_nwi_index := pdi_nwi_index r; pdi_fields := pdi_fields r; pdi_teid := pdi_teid r; pdi_ue_addr := pdi_ue_addr r; pdi_acl := x; pdi_adr := pdi_adr r |}.
Definition set_pdi_adr (r : upf_pdi_t) (x : adr_rule_t) : upf_pdi_t :=
  {| pdi_src_intf := pdi_src_intf r; pdi_nwi_index := pdi_nwi_index r; pdi_fields := pdi_fields r; pdi_teid := pdi_teid r; pdi_ue_addr := pdi_ue_addr r; pdi_acl := pdi_acl r; pdi_adr := x |}.
Definition set_pdr_precedence (r : upf_pdr_t) (x : Z) : upf_pdr_t :=
  {| pdr_id := pdr_id r; pdr_precedence := x; pdr_pdi := pdr_pdi r; pdr_outer_header_removal := pdr_outer_header_removal r; pdr_far_id := pdr_far_id r; pdr_urr_ids := pdr_urr_ids r; pdr_qer_ids := pdr_qer_ids r |}.
Definition set_pdr_pdi (r : upf_pdr_t) (x : upf_pdi_t) : upf_pdr_t :=
  {| pdr_id := pdr_id r; pdr_precedence := pdr_precedence r; pdr_pdi := x; pdr_outer_header_removal := pdr_outer_header_removal r; pdr_far_id := pdr_far_id r; pdr_urr_ids := pdr_urr_ids r; pdr_qer_ids := pdr_qer_ids r |}.
Definition set_pdr_outer_header_removal (r : upf_pdr_t) (x : Z) : upf_pdr_t :=
  {| pdr_id := pdr_id r; pdr_precedence := pdr_precedence r; pdr_pdi := pdr_pdi r; pdr_outer_header_removal := x; pdr_far_id := pdr_far_id r; pdr_urr_ids := pdr_urr_ids r; pdr_qer_ids := pdr_qer_ids r |}.
Definition set_pdr_far_id (r : upf_pdr_t) (x : Z) : upf_pdr_t :=
  {| pdr_id := pdr_id r; pdr_precedence := pdr_precedence r; pdr_pdi := pdr_pdi r; pdr_outer_header_removal := pdr_outer_header_removal r; pdr_far_id := x; pdr_urr_ids := pdr_urr_ids r; pdr_qer_ids := pdr_qer_ids r |}.
Definition set_pdr_urr_ids (r : upf_pdr_t) (x : vec Z) : upf_pdr_t :=
  {| pdr_id := pdr_id r; pdr_precedence := pdr_precedence r; pdr_pdi := pdr_pdi r; pdr_outer_header_removal := pdr_outer_header_removal r; pdr_far_id := pdr_far_id r; pdr_urr_ids := x; pdr_qer_ids := pdr_qer_ids r |}.
Definition set_pdr_qer_ids (r : upf_pdr_t) (x : vec Z) : upf_pdr_t :=
  {| pdr_id := pdr_id r; pdr_precedence := pdr_precedence r; pdr_pdi := pdr_pdi r; pdr_outer_header_removal := pdr_outer_header_removal r; pdr_far_id := pdr_far_id r; pdr_urr_ids := pdr_urr_ids r; pdr_qer_ids := x |}.
Definition set_ff_flags (r : upf_far_forward_t) (x : Z) : upf_far_forward_t :=
  {| ff_flags := x; ff_dst_intf := ff_dst_intf r; ff_dst_sw_if_index := ff_dst_sw_if_index r; ff_nwi_index := ff_nwi_index r; ff_redirect_information := ff_redirect_information r; ff_outer_header_creation := ff_outer_header_creation r; ff_peer_idx := ff_peer_idx r; ff_rewrite := ff_rewrite r |}.
Definition set_ff_dst_intf (r : upf_far_forward_t) (x : Z) : upf_far_forward_t :=
  {| ff_flags := ff_flags r; ff_dst_intf := x; ff_dst_sw_if_index := ff_dst_sw_if_index r; ff_nwi_index := ff_nwi_index r; ff_redirect_information := ff_redirect_information r; ff_outer_header_creation := ff_outer_header_creation r; ff_peer_idx := ff_peer_idx r; ff_rewrite := ff_rewrite r |}.
Definition set_ff_dst_sw_if_index (r : upf_far_forward_t) (x : Z) : upf_far_forward_t :=
  {| ff_flags := ff_flags r; ff_dst_intf := ff_dst_intf r; ff_dst_sw_if_index := x; ff_nwi_index := ff_nwi_index r; ff_redirect_information := ff_redirect_information r; ff_outer_header_creation := ff_outer_header_creation r; ff_peer_idx := ff_peer_idx r; ff_rewrite := ff_rewrite r |}.
Definition set_ff_nwi_index (r : upf_far_forward_t) (x : Z) : upf_far_forward_t :=
  {| ff_flags := ff_flags r; ff_dst_intf := ff_dst_intf r; ff_dst_sw_if_index := ff_dst_sw_if_index r; ff_nwi_index := x; ff_redirect_information := ff_redirect_information r; ff_outer_header_creation := ff_outer_header_creation r; ff_peer_idx := ff_peer_idx r; ff_rewrite := ff_rewrite r |}.
Definition set_ff_redirect_information (r : upf_far_forward_t) (x : pfcp_redirect_information_t) : upf_far_forward_t :=
  {| ff_flags := ff_flags r; ff_dst_intf := ff_dst_intf r; ff_dst_sw_if_index := ff_dst_sw_if_index r; ff_nwi_index := ff_nwi_index r; ff_redirect_information := x; ff_outer_header_creation := ff_outer_header_creation r; ff_peer_idx := ff_peer_idx r; ff_rewrite := ff_rewrite r |}.
Definition set_ff_outer_header_creation (r : upf_far_forward_t) (x : pfcp_outer_header_creation_t) : upf_far_forward_t :=
  {| ff_flags := ff_flags r; ff_dst_intf := ff_dst_intf r; ff_dst_sw_if_index := ff_dst_sw_if_index r; ff_nwi_index := ff_nwi_index r; ff_redirect_information := ff_redirect_information r; ff_outer_header_creation := x; ff_peer_idx := ff_peer_idx r; ff_rewrite := ff_rewrite r |}.
Definition set_ff_rewrite (r : upf_far_forward_t) (x : vec Z) : upf_far_forward_t :=
  {| ff_flags := ff_flags r; ff_dst_intf := ff_dst_intf r; ff_dst_sw_if_index := ff_dst_sw_if_index r; ff_nwi_index := ff_nwi_index r; ff_redirect_information := ff_redirect_information r; ff_outer_header_creation := ff_outer_header_creation r; ff_peer_idx := ff_peer_idx r; ff_rewrite := x |}.
Definition set_far_apply_action (r : upf_far_t) (x : Z) : upf_far_t :=
  {| far_id := far_id r; far_apply_action := x; far_forward := far_forward r |}.
Definition set_far_forward (r : upf_far_t) (x : upf_far_forward_t) : upf_far_t :=
  {| far_id := far_id r; far_apply_action := far_apply_action r; far_forward := x |}.
Definition set_urr_methods (r : upf_urr_t) (x : Z) : upf_urr_t :=
  {| urr_id := urr_id r; urr_methods := x; urr_triggers := urr_triggers r; urr_status := urr_status r; urr_update_flags := urr_update_flags r; urr_seq_no := urr_seq_no r; urr_start_time := urr_start_time r; urr_time_of_first_packet := urr_time_of_first_packet r; urr_time_of_last_packet := urr_time_of_last_packet r; urr_volume := urr_volume r; urr_measurement_period := urr_measurement_period r; urr_time_threshold := urr_time_threshold r; urr_time_quota := urr_time_quota r; urr_quota_holding_time := urr_quota_holding_time r; urr_quota_validity_time := urr_quota_validity_time r; urr_monitoring_time := urr_monitoring_time r; urr_usage_before_monitoring_time := urr_usage_before_monitoring_time r; urr_traffic := urr_traffic r; urr_traffic_by_ue := urr_traffic_by_ue r; urr_traffic_timer := urr_traffic_timer r; urr_linked_urr_ids := urr_linked_urr_ids r; urr_liusa_bitmap := urr_liusa_bitmap r |}.
Definition set_urr_triggers (r : upf_urr_t) (x : Z) : upf_urr_t :=
  {| urr_id := urr_id r; urr_methods := urr_methods r; urr_triggers := x; urr_status := urr_status r; urr_update_flags := urr_update_flags r; urr_seq_no := urr_seq_no r; urr_start_time := urr_start_time r; urr_time_of_first_packet := urr_time_of_first_packet r; urr_time_of_last_packet := urr_time_of_last_packet r; urr_volume := urr_volume r; urr_measurement_period := urr_measurement_period r; urr_time_threshold := urr_time_threshold r; urr_time_quota := urr_time_quota r; urr_quota_holding_time := urr_quota_holding_time r; urr_quota_validity_time := urr_quota_validity_time r; urr_monitoring_time := urr_monitoring_time r; urr_usage_before_monitoring_time := urr_usage_before_monitoring_time r; urr_traffic := urr_traffic r; urr_traffic_by_ue := urr_traffic_by_ue r; urr_traffic_timer := urr_traffic_timer r; urr_linked_urr_ids := urr_linked_urr_ids r; urr_liusa_bitmap := urr_liusa_bitmap r |}.
Definition set_urr_status (r : upf_urr_t) (x : Z) : upf_urr_t :=
  {| urr_id := urr_id r; urr_methods := urr_methods r; urr_triggers := urr_triggers r; urr_status := x; urr_update_flags := urr_update_flags r; urr_seq_no := urr_seq_no r; urr_start_time := urr_start_time r; urr_time_of_first_packet := urr_time_of_first_packet r; urr_time_of_last_packet := urr_time_of_last_packet r; urr_volume := urr_volume r; urr_measurement_period := urr_measurement_period r; urr_time_threshold := urr_time_threshold r; urr_time_quota := urr_time_quota r; urr_quota_holding_time := urr_quota_holding_time r; urr_quota_validity_time := urr_quota_validity_time r; urr_monitoring_time := urr_monitoring_time r; urr_usage_before_monitoring_time := urr_usage_before_monitoring_time r; urr_traffic := urr_traffic r; urr_traffic_by_ue := urr_traffic_by_ue r; urr_traffic_timer := urr_traffic_timer r; urr_linked_urr_ids := urr_linked_urr_ids r; urr_liusa_bitmap := urr_liusa_bitmap r |}.
Definition set_urr_update_flags (r : upf_urr_t) (x : Z) : upf_urr_t :=
  {| urr_id := urr_id r; urr_methods := urr_methods r; urr_triggers := urr_triggers r; urr_status := urr_status r; urr_update_flags := x; urr_seq_no := urr_seq_no r; urr_start_time := urr_start_time r; urr_time_of_first_packet := urr_time_of_first_packet r; urr_time_of_last_packet := urr_time_of_last_packet r; urr_volume := urr_volume r; urr_measurement_period := urr_measurement_period r; urr_time_threshold := urr_time_threshold r; urr_time_quota := urr_time_quota r; urr_quota_holding_time := urr_quota_holding_time r; urr_quota_validity_time := urr_quota_validity_time r; urr_monitoring_time := urr_monitoring_time r; urr_usage_before_monitoring_time := urr_usage_before_monitoring_time r; urr_traffic := urr_traffic r; urr_traffic_by_ue := urr_traffic_by_ue r; urr_traffic_timer := urr_traffic_timer r; urr_linked_urr_ids := urr_linked_urr_ids r; urr_liusa_bitmap := urr_liusa_bitmap r |}.
Definition set_urr_volume (r : upf_urr_t) (x : urr_volume_t) : upf_urr_t :=
  {| urr_id := urr_id r; urr_methods := urr_methods r; urr_triggers := urr_triggers r; urr_status := urr_status r; urr_update_flags := urr_update_flags r; urr_seq_no := urr_seq_no r; urr_start_time := urr_start_time r; urr_time_of_first_packet := urr_time_of_first_packet r; urr_time_of_last_packet := urr_time_of_last_packet r; urr_volume := x; urr_measurement_period := urr_measurement_period r; urr_time_threshold := urr_time_threshold r; urr_time_quota := urr_time_quota r; urr_quota_holding_time := urr_quota_holding_time r; urr_quota_validity_time := urr_quota_validity_time r; urr_monitoring_time := urr_monitoring_time r; urr_usage_before_monitoring_time := urr_usage_before_monitoring_time r; urr_traffic := urr_traffic r; urr_traffic_by_ue := urr_traffic_by_ue r; urr_traffic_timer := urr_traffic_timer r; urr_linked_urr_ids := urr_linked_urr_ids r; urr_liusa_bitmap := urr_liusa_bitmap r |}.
Definition set_urr_monitoring_time (r : upf_urr_t) (x : urr_abs_time_t) : upf_urr_t :=
  {| urr_id := urr_id r; urr_methods := urr_methods r; urr_triggers := urr_triggers r; urr_status := urr_status r; urr_update_flags := urr_update_flags r; urr_seq_no := urr_seq_no r; urr_start_time := urr_start_time r; urr_time_of_first_packet := urr_time_of_first_packet r; urr_time_of_last_packet := urr_time_of_last_packet r; urr_volume := urr_volume r; urr_measurement_period := urr_measurement_period r; urr_time_threshold := urr_time_threshold r; urr_time_quota := urr_time_quota r; urr_quota_holding_time := urr_quota_holding_time r; urr_quota_validity_time := urr_quota_validity_time r; urr_monitoring_time := x; urr_usage_before_monitoring_time := urr_usage_before_monitoring_time r; urr_traffic := urr_traffic r; urr_traffic_by_ue := urr_traffic_by_ue r; urr_traffic_timer := urr_traffic_timer r; urr_linked_urr_ids := urr_linked_urr_ids r; urr_liusa_bitmap := urr_liusa_bitmap r |}.
Definition set_urr_linked_urr_ids (r : upf_urr_t) (x : vec Z) : upf_urr_t :=
  {| urr_id := urr_id r; urr_methods := urr_methods r; urr_triggers := urr_triggers r; urr_status := urr_status r; urr_update_flags := urr_update_flags r; urr_seq_no := urr_seq_no r; urr_start_time := urr_start_time r; urr_time_of_first_packet := urr_time_of_first_packet r; urr_time_of_last_packet := urr_time_of_last_packet r; urr_volume := urr_volume r; urr_measurement_period := urr_measurement_period r; urr_time_threshold := urr_time_threshold r; urr_time_quota := urr_time_quota r; urr_quota_holding_time := urr_quota_holding_time r; urr_quota_validity_time := urr_quota_validity_time r; urr_monitoring_time := urr_monitoring_time r; urr_usage_before_monitoring_time := urr_usage_before_monitoring_time r; urr_traffic := urr_traffic r; urr_traffic_by_ue := urr_traffic_by_ue r; urr_traffic_timer := urr_traffic_timer r; urr_linked_urr_ids := x; urr_liusa_bitmap := urr_liusa_bitmap r |}.

(** ** Errors and state

    [None] is a jump to out_error. *)

Definition E (S A : Type) := S -> outcome (option A * S).
Definition ret {S A} (a : A) : E S A := fun s => Ok (Some a, s).
Definition ebind {S A B} (m : E S A) (k : A -> E S B) : E S B := fun s =>
  match m s with
  | Ok (Some a, s) => k a s
  | Ok (None, s) => Ok (None, s)
  | Err c => Err c
  | Fault f => Fault f
  end.
Notation "'let!' x := m 'in' k" := (ebind m (fun x => k))
  (at level 10, x pattern, m at level 100, k at level 200) : upf_scope.
Notation "'do!' m ; k" := (ebind m (fun _ => k)) (at level 10, m at level 100, k at level 200) : upf_scope.
Definition goto_error {S A} : E S A := fun s => Ok (None, s).
Definition gets {S A} (f : S -> A) : E S A := fun s => Ok (Some (f s), s).
Definition modify {S} (f : S -> S) : E S unit := fun s => Ok (Some tt, f s).
Definition lift {S A} (m : outcome A) : E S A := fun s => let* a := m in Ok (Some a, s).
Definition when {S} (b : bool) (m : E S unit) : E S unit := if b then m else ret tt.
Fixpoint foreach {S A} (f : A -> E S unit) (l : list A) : E S unit :=
  match l with [] => ret tt | x :: l => do! f x ; foreach f l end.

Section Api.
Context {N : VppNet} {P : VppPool} {V : VecSort}.
Context (cf : upf_config) (now vnow : f64).

(** the plugin and the response that is built *)
Record hstate := mk_hs { h_um : upf_main_t; h_resp : session_response }.
Definition set_h_um (s : hstate) (u : upf_main_t) : hstate := mk_hs u (h_resp s).
Definition set_h_resp (s : hstate) (r : session_response) : hstate := mk_hs (h_um s) r.
Definition with_um {A} (f : upf_main_t -> outcome (A * upf_main_t)) : E hstate A := fun s =>
  let* (a, u) := f (h_um s) in Ok (Some a, set_h_um s u).

(** the session at [si] *)
Definition read_sx (si : Z) : E hstate upf_session_t := fun s => let* sx := get_sx (h_um s) si in Ok (Some sx, s).
Definition modify_sx (si : Z) (f : upf_session_t -> upf_session_t) : E hstate unit := fun s =>
  let* sx := get_sx (h_um s) si in Ok (Some tt, set_h_um s (put_sx (h_um s) si (f sx))).
Definition modify_pending (si : Z) (f : rules -> rules) : E hstate unit :=
  modify_sx si (fun sx => set_rules sx PFCP_PENDING (f (pfcp_get_rules sx PFCP_PENDING))).

(** pdr_error, far_error, urr_error, qer_error; then goto out_error *)
Definition set_failed_id (r : session_response) (id : Z) : session_response :=
  set_sr_failed_rule_id r (Build_pfcp_failed_rule_id_t (fr_type (sr_failed_rule_id r)) id).
Definition rule_error_msg (id : Z) (fmt : string) (args : list fmt_arg) : E hstate unit :=
  modify (fun s => set_h_resp s (set_failed_id (tp_session_error_report (h_resp s) fmt (FInt id :: args)) id)).
Definition rule_error {A} (id : Z) (fmt : string) (args : list fmt_arg) : E hstate A :=
  do! rule_error_msg id fmt args ; goto_error.

(** the end of a handler: 0, or what follows out_error *)
Definition out_error (type : Z) (r : session_response) : session_response :=
  let r := set_sr_cause r PFCP_CAUSE_RULE_CREATION_MODIFICATION_FAILURE in
  let r := set_resp_bit r SESSION_PROCEDURE_RESPONSE_FAILED_RULE_ID in
  set_sr_failed_rule_id r (Build_pfcp_failed_rule_id_t type (fr_id (sr_failed_rule_id r))).
Definition handler (type : Z) (m : E hstate unit) (s : hstate) : outcome (Z * hstate) :=
  let* (r, s) := m s in
  match r with
  | Some _ => Ok (0, s)
  | None => Ok (-1, set_h_resp s (out_error type (h_resp s)))
  end.

(** *** Rules of one kind *)

Section Kind.
Context {T : Type} `{R : RuleKind T}.

(** pfcp_make_pending_x, which does not fail *)
Definition make_pending (si : Z) : E hstate unit := modify_sx si (pfcp_make_pending (T := T)).

(** vec_alloc: the vector is there afterwards *)
Definition vec_alloc {A} (v : vec A) : vec A := Some (vec_elts v).
Definition alloc_rules (si : Z) : E hstate unit := modify_pending si (fun r => rules_set r (vec_alloc (rules_get (T := T) r))).

(** a rule is added to the pending ones and then filled in; [body] works on
    the rule, and what it has done stays in the vector if it fails *)
Definition on_rule {A} (m : E hstate A) : E (hstate * T) A := fun '(s, t) =>
  let* (r, s) := m s in Ok (r, (s, t)).
Definition assign (f : T -> T) : E (hstate * T) unit := modify (fun '(s, t) => (s, f t)).
Definition finish_rule (r : option unit) (s : hstate) (m : E hstate unit) : outcome (option unit * hstate) :=
  let* (r', s) := m s in Ok (match r' with Some _ => r | None => None end, s).
Definition add_rule (si : Z) (zero : T) (body : E (hstate * T) unit) : E hstate unit := fun s =>
  let* (r, (s, t)) := body (s, zero) in
  finish_rule r s (modify_pending si (fun rs => rules_set rs (vec_add (rules_get rs) [t : T]))).
(** the rule at index [i] of the pending ones *)
Definition edit_rule (si : Z) (i : nat) (t : T) (body : E (hstate * T) unit) : E hstate unit := fun s =>
  let* (r, (s, t)) := body (s, t) in
  finish_rule r s (modify_pending si (fun rs => rules_set rs (option_map (fun l : list T => <[i := t]> l) (rules_get rs)))).
Definition sort_rules (si : Z) : E hstate unit := modify_pending si (pfcp_sort (T := T)).

(** pfcp_get_x (sx, PFCP_PENDING, id) *)
Definition get_rule (si id : Z) : E hstate (option (nat * T)) :=
  do! make_pending si ;
  let! sx := read_sx si in
  let r := pfcp_get_rules sx PFCP_PENDING in
  ret (pfcp_get_by_id (T := T) r id ≫= fun i => (i,.) <$> vec_elts (rules_get (T := T) r) !! i).

(** handle_remove_x *)
Definition remove_rule (si id : Z) (fmt : string) : E hstate unit :=
  let! sx := read_sx si in
  let! u := gets h_um in
  let! (r, sx, gm) := lift (pfcp_delete (T := T) (um_rules u) sx id) in
  do! modify (fun s => set_h_um s (put_sx (set_um_rules (h_um s) gm) si sx)) ;
  when (negb (r =? 0)) (rule_error id fmt []).
End Kind.

(** ** NAT bindings *)

(** the address with the fewest blocks in use, below the limit of the pool *)
Fixpoint get_nat_addr_from (max least : Z) (i : nat) (l : list upf_nat_addr_t) (addr : option nat) : option nat :=
  match l with
  | [] => addr
  | a :: l =>
      if (nad_used_blocks a <? least) && (nad_used_blocks a <? max)
      then get_nat_addr_from max (nad_used_blocks a) (S i) l (Some i)
      else get_nat_addr_from max least (S i) l addr
  end.
Definition get_nat_addr (np : upf_nat_pool_t) : option nat :=
  get_nat_addr_from (np_max_blocks_per_addr np) u32_none 0 (np_addresses np) None.

Definition upf_alloc_and_assign_nat_binding (u : upf_main_t) (pi : Z) (np : upf_nat_pool_t) (i : nat) (si : Z)
  (user_ip : list Z) (cb : created_binding_t) : outcome (Z * upf_main_t * created_binding_t) :=
  match np_addresses np !! i with
  | None => Fault BadIndex
  | Some a =>
      let '(port_start, net) := nat_create_binding (um_net u) user_ip (nad_ext_addr a) (np_min_port np) (np_port_block_size np) in
      let u := set_um_net u net in
      if port_start =? 0 then Ok (1, u, cb)
      else
        let port_end := wrap 16 (port_start + np_port_block_size np - 1) in
        let np := mk_nat_pool (np_name np)
                    (<[i := mk_nat_addr (nad_ext_addr a) (wrap 32 (nad_used_blocks a + 1))]> (np_addresses np))
                    (np_port_block_size np) (np_min_port np) (np_max_port np) (np_max_blocks_per_addr np)
                    (np_network_instance np) in
        let u := set_um_nat_pools u (pool_set (um_nat_pools u) pi np) in
        let u := put_ext u si (set_se_nat_addr (get_ext u si) (Some (pi, i))) in
        let fields := SET_BIT (SET_BIT (SET_BIT (cb_fields cb) TP_CREATED_BINDING_NAT_PORT_BLOCK)
                                 TP_CREATED_BINDING_NAT_OUTSIDE_ADDRESS) TP_CREATED_BINDING_NAT_EXTERNAL_PORT_RANGE in
        Ok (0, u, mk_binding fields (Some (np_name np)) (nad_ext_addr a) port_start port_end)
  end.

Definition is_zero_addr (a : list Z) : bool := bool_decide (Forall (fun x => x = 0) a).

(** the return value *)
Definition handle_nat_binding_creation (si : Z) (nat_pool_name : vec Z) : E hstate Z :=
  let! u := gets h_um in
  let x := get_ext u si in
  match se_nat_addr x with
  | Some _ => ret 0
  | None =>
      if is_zero_addr (se_user_addr x) then ret (-1)
      else
        let! p := lift (get_nat_pool_by_name cf u nat_pool_name) in
        match p with
        | None => ret (-1)
        | Some (pi, np) =>
            match get_nat_addr np with
            | None => ret (-1)
            | Some i =>
                let! resp := gets h_resp in
                let! (rc, u, cb) := lift (upf_alloc_and_assign_nat_binding u pi np i si (se_user_addr x) (sr_created_binding resp)) in
                do! modify (fun s => mk_hs u (set_resp_bit (set_sr_created_binding (h_resp s) cb)
                                                 SESSION_PROCEDURE_RESPONSE_TP_CREATED_BINDING)) ;
                ret rc
            end
        end
  end.

(** ** The header a FAR puts before packets *)

(** the address of a resource that is on the interface, or the first one there *)
Fixpoint upip_find (net : net_state) (ff : upf_far_forward_t) (fib_index : Z) (is_ip4 : bool) (l : list upf_upip_res_t)
  : option (list Z) :=
  match l with
  | [] => None
  | res :: l =>
      let ip := if is_ip4 then ures_ip4 res else ures_ip6 res in
      if is_zero_addr ip
         || (negb (ures_intf res =? INTF_INVALID) && negb (ff_dst_intf ff =? ures_intf res))
         || (negb (ures_nwi_index res =? u32_none) && negb (ff_nwi_index ff =? u32_none)
             && negb (ff_nwi_index ff =? ures_nwi_index res))
      then upip_find net ff fib_index is_ip4 l
      else
        match address_to_if_address net ip fib_index is_ip4 with
        | Some sw_if_index => if sw_if_index =? ff_dst_sw_if_index ff then Some ip else upip_find net ff fib_index is_ip4 l
        | None => upip_find net ff fib_index is_ip4 l
        end
  end.
Definition upip_ip_interface_ip (net : net_state) (ff : upf_far_forward_t) (fib_index : Z) (is_ip4 : bool) : option (list Z) :=
  match upip_find net ff fib_index is_ip4 (cf_upip_res cf) with
  | Some ip => Some ip
  | None => ip_interface_get_first_ip net (ff_dst_sw_if_index ff) is_ip4
  end.

Definition IP_PROTOCOL_UDP : Z := 17.
Definition GTPU_UDP_PORT : Z := 2152.
Definition GTPU_V1_VER : Z := Z.shiftl 1 5.
Definition GTPU_PT_GTP : Z := Z.shiftl 1 4.
Definition GTPU_TYPE_GTPU : Z := 255.

(** an IPv4 or IPv6, an UDP and a GTP-U header, without the last four octets *)
Definition ip4_octets (checksum : Z) (src dst : list Z) : list Z :=
  [0x45; 0; 0; 0; 0; 0; 0; 0; 254; IP_PROTOCOL_UDP] ++ le 2 checksum ++ src ++ dst.
Definition ip6_octets (src dst : list Z) : list Z :=
  be 4 (Z.shiftl 6 28) ++ [0; 0; IP_PROTOCOL_UDP; 255] ++ src ++ dst.
Definition gtpu_octets (teid : Z) : list Z :=
  be 2 GTPU_UDP_PORT ++ be 2 GTPU_UDP_PORT ++ [0; 0; 0; 0]
  ++ [Z.lor GTPU_V1_VER GTPU_PT_GTP; GTPU_TYPE_GTPU; 0; 0] ++ be 4 teid.
Definition ip_udp_gtpu_rewrite (net : net_state) (ff : upf_far_forward_t) (fib_index : Z) (is_ip4 : bool)
  : outcome (list Z) :=
  let ohc := ff_outer_header_creation ff in
  match upip_ip_interface_ip net ff fib_index is_ip4 with
  | None => Fault NullDeref
  | Some src =>
      Ok ((if is_ip4 then
             let dst := ip46_ip4 (ohc_ip ohc) in ip4_octets (ip4_header_checksum (ip4_octets 0 src dst)) src dst
           else ip6_octets src (ohc_ip ohc)) ++ gtpu_octets (ohc_teid ohc))
  end.

(** ** FARs *)

Definition assign_forward (f : upf_far_forward_t -> upf_far_forward_t) : E (hstate * upf_far_t) unit :=
  assign (fun t => set_far_forward t (f (far_forward t))).

Definition far_zero : upf_far_t :=
  {| far_id := 0; far_apply_action := 0;
     far_forward := {| ff_flags := 0; ff_dst_intf := 0; ff_dst_sw_if_index := 0; ff_nwi_index := 0;
                       ff_redirect_information := leaf_zero K_redirect_information;
                       ff_outer_header_creation := leaf_zero K_outer_header_creation; ff_peer_idx := 0; ff_rewrite := None |} |}.

(** cpy_redirect_information *)
Definition cpy_redirect_information (dst src : pfcp_redirect_information_t) : pfcp_redirect_information_t :=
  if (ri_type src =? REDIRECT_INFORMATION_IPv4) || (ri_type src =? REDIRECT_INFORMATION_IPv6)
  then {| ri_type := ri_type src; ri_ip := ri_ip src; ri_other_ip := ri_other_ip dst; ri_uri := ri_uri dst |}
  else if (ri_type src =? REDIRECT_INFORMATION_HTTP) || (ri_type src =? REDIRECT_INFORMATION_SIP)
  then {| ri_type := ri_type src; ri_ip := ri_ip dst; ri_other_ip := ri_other_ip dst; ri_uri := ri_uri src |}
  else {| ri_type := ri_type src; ri_ip := ri_ip dst; ri_other_ip := ri_other_ip dst; ri_uri := ri_uri dst |}.
(** the URI is freed, the addresses stay *)
Definition free_redirect_information (v : pfcp_redirect_information_t) : pfcp_redirect_information_t :=
  if (ri_type v =? REDIRECT_INFORMATION_HTTP) || (ri_type v =? REDIRECT_INFORMATION_SIP)
  then {| ri_type := ri_type v; ri_ip := ri_ip v; ri_other_ip := ri_other_ip v; ri_uri := None |} else v.
Definition far_redirect (ri : pfcp_redirect_information_t) : E (hstate * upf_far_t) unit :=
  assign_forward (fun f =>
    let f := set_ff_flags f (Z.lor (ff_flags f) FAR_F_REDIRECT_INFORMATION) in
    set_ff_redirect_information f (cpy_redirect_information (ff_redirect_information f) ri)).

(** the network instance of a FAR; an empty name, if allowed, is none *)
Definition far_network_instance (id : Z) (name : vec Z) : E (hstate * upf_far_t) unit :=
  let! n := lift (lookup_nwi cf name) in
  match n with
  | None => on_rule (rule_error id "FAR ID %u, unknown Network Instance" [])
  | Some (i, _) => assign_forward (fun f => set_ff_nwi_index f i)
  end.

Definition far_outer_header_creation (id : Z) (ohc : pfcp_outer_header_creation_t) : E (hstate * upf_far_t) unit :=
  let is_ip4 := ohc_is_ip4 ohc in
  do! assign_forward (fun f => set_ff_outer_header_creation (set_ff_flags f (Z.lor (ff_flags f) FAR_F_OUTER_HEADER_CREATION)) ohc) ;
  let! (s, t) := gets (fun s => s) in
  let net := um_net (h_um s) in
  let fib_index := upf_nwi_fib_index cf is_ip4 (ff_nwi_index (far_forward t)) in
  if fib_index =? u32_none
  then on_rule (rule_error id "FAR ID %u, Network Instance with invalid FIB index for IPv%d" [FInt (if is_ip4 then 4 else 6)])
  else
    let sw_if_index := fib_entry_get_resolving_interface net fib_index (ohc_ip ohc) is_ip4 in
    do! assign_forward (fun f => set_ff_dst_sw_if_index f sw_if_index) ;
    if sw_if_index =? u32_none
    then on_rule (rule_error id "FAR ID %u, no route to %U in FIB index %d" [FIp (ohc_ip ohc); FInt (fib_table_id net fib_index is_ip4)])
    else
      let! (_, t) := gets (fun s => s) in
      let! rw := lift (ip_udp_gtpu_rewrite net (far_forward t) fib_index is_ip4) in
      assign_forward (fun f => set_ff_rewrite f (Some rw)).

Definition BBF_APPLY_ACTION_NAT : Z := BIT 0.
Definition PFCPSMREQ_SNDEM : Z := BIT 1.
Definition PFCPSMREQ_QAURR : Z := BIT 2.

Definition create_far_forward (si id : Z) (fp : val) : E (hstate * upf_far_t) unit :=
  do! when (isset fp FORWARDING_PARAMETERS_NETWORK_INSTANCE)
    (far_network_instance id (leaf_of K_simple_vec_ie fp FORWARDING_PARAMETERS_NETWORK_INSTANCE)) ;
  do! assign_forward (fun f => set_ff_dst_intf f (leaf_of K_destination_interface fp FORWARDING_PARAMETERS_DESTINATION_INTERFACE)) ;
  do! when (isset fp FORWARDING_PARAMETERS_REDIRECT_INFORMATION)
    (far_redirect (leaf_of K_redirect_information fp FORWARDING_PARAMETERS_REDIRECT_INFORMATION)) ;
  do! when (isset fp FORWARDING_PARAMETERS_BBF_APPLY_ACTION
            && flag (leaf_of K_u8_ie fp FORWARDING_PARAMETERS_BBF_APPLY_ACTION) BBF_APPLY_ACTION_NAT
            && isset fp FORWARDING_PARAMETERS_BBF_NAT_PORT_BLOCK)
    (let! rc := on_rule (handle_nat_binding_creation si (leaf_of K_simple_vec_ie fp FORWARDING_PARAMETERS_BBF_NAT_PORT_BLOCK)) in
     when (negb (rc =? 0)) goto_error) ;
  when (isset fp FORWARDING_PARAMETERS_OUTER_HEADER_CREATION)
    (far_outer_header_creation id (leaf_of K_outer_header_creation fp FORWARDING_PARAMETERS_OUTER_HEADER_CREATION)).

Definition far_new (far : val) : upf_far_t :=
  {| far_id := wrap 16 (create_far_id far); far_apply_action := leaf_of K_u8_ie far CREATE_FAR_APPLY_ACTION;
     far_forward := set_ff_dst_sw_if_index (set_ff_nwi_index (far_forward far_zero) u32_none) u32_none |}.
Definition create_far (si : Z) (far : val) : E hstate unit :=
  add_rule si (far_new far)
    (when (flag (leaf_of K_u8_ie far CREATE_FAR_APPLY_ACTION) FAR_FORWARD && isset far CREATE_FAR_FORWARDING_PARAMETERS)
       (create_far_forward si (create_far_id far) (group_of far CREATE_FAR_FORWARDING_PARAMETERS))).

Definition handle_create_far (si : Z) (create_fars : list val) : hstate -> outcome (Z * hstate) :=
  handler FAILED_RULE_TYPE_FAR
    (do! make_pending (T := upf_far_t) si ;
     do! alloc_rules (T := upf_far_t) si ;
     do! foreach (create_far si) create_fars ;
     sort_rules (T := upf_far_t) si).

Definition update_far_forward (si id : Z) (fp : val) : E (hstate * upf_far_t) unit :=
  do! when (isset fp UPDATE_FORWARDING_PARAMETERS_NETWORK_INSTANCE)
    (let name := leaf_of K_simple_vec_ie fp UPDATE_FORWARDING_PARAMETERS_NETWORK_INSTANCE in
     if negb (vec_len name =? 0) then far_network_instance id name
     else assign_forward (fun f => set_ff_nwi_index f u32_none)) ;
  do! assign_forward (fun f => set_ff_dst_intf f (leaf_of K_destination_interface fp UPDATE_FORWARDING_PARAMETERS_DESTINATION_INTERFACE)) ;
  do! when (isset fp UPDATE_FORWARDING_PARAMETERS_REDIRECT_INFORMATION)
    (do! assign_forward (fun f => set_ff_redirect_information f (free_redirect_information (ff_redirect_information f))) ;
     far_redirect (leaf_of K_redirect_information fp UPDATE_FORWARDING_PARAMETERS_REDIRECT_INFORMATION)) ;
  when (isset fp UPDATE_FORWARDING_PARAMETERS_OUTER_HEADER_CREATION)
    (do! when (isset fp UPDATE_FORWARDING_PARAMETERS_PFCPSMREQ_FLAGS
               && flag (leaf_of K_u8_ie fp UPDATE_FORWARDING_PARAMETERS_PFCPSMREQ_FLAGS) PFCPSMREQ_SNDEM)
       (on_rule
          (let! u := gets h_um in
           let! sx := read_sx si in
           let! sx := lift (pfcp_send_end_marker u sx id) in
           modify_sx si (fun _ => sx))) ;
     far_outer_header_creation id (leaf_of K_outer_header_creation fp UPDATE_FORWARDING_PARAMETERS_OUTER_HEADER_CREATION)).

Definition update_far (si : Z) (far : val) : E hstate unit :=
  let id := update_far_id far in
  let! r := get_rule (T := upf_far_t) si id in
  match r with
  | None => rule_error id "FAR ID %u, not found" []
  | Some (i, t) =>
      edit_rule si i t
        (do! assign (fun t => set_far_apply_action t
                                (OPT far UPDATE_FAR_APPLY_ACTION (leaf_of K_u8_ie far UPDATE_FAR_APPLY_ACTION) (far_apply_action t))) ;
         let! (_, t) := gets (fun s => s) in
         when (flag (far_apply_action t) FAR_FORWARD && isset far UPDATE_FAR_UPDATE_FORWARDING_PARAMETERS)
           (update_far_forward si id (group_of far UPDATE_FAR_UPDATE_FORWARDING_PARAMETERS)))
  end.

Definition handle_update_far (si : Z) (update_fars : list val) : hstate -> outcome (Z * hstate) :=
  handler FAILED_RULE_TYPE_FAR (do! make_pending (T := upf_far_t) si ; foreach (update_far si) update_fars).

Definition handle_remove_far (si : Z) (remove_fars : list val) : hstate -> outcome (Z * hstate) :=
  handler FAILED_RULE_TYPE_FAR
    (do! make_pending (T := upf_far_t) si ;
     foreach (fun far => remove_rule (T := upf_far_t) si (remove_far_id far) "FAR ID %u, unable to remove") remove_fars).

(** ** URRs *)

Definition TRAFFIC_TIMER_PERIOD : Z := 60.
Definition REPORTING_TRIGGER_LINKED_USAGE_REPORTING : Z := BIT 7.

(** the fraction modf returns *)
Definition modf (x : f64) : f64 :=
  match x with
  | S754_finite _ _ _ => f64_sub x (trunc x)
  | S754_infinity s => S754_zero s
  | _ => x
  end.
Definition monitoring_time (unix_time_start : f64) (t : Z) : urr_abs_time_t :=
  let unix_time := f64_add (f64_of_Z t) (modf unix_time_start) in
  mk_abs_time unix_time (f64_add vnow (f64_sub unix_time now)).

Definition volume_counter (v : pfcp_volume_ie_t) : urr_counter_t := mk_counter (vol_ul v) (vol_dl v) (vol_total v).
Definition urr_or_flags (u : upf_urr_t) (f : Z) : upf_urr_t := set_urr_update_flags u (Z.lor (urr_update_flags u) f).

Definition time_new (handle : Z) : urr_time_t := mk_urr_time f64_zero 0 f64_zero handle.
Definition urr_new (id methods triggers : Z) : upf_urr_t :=
  mk_urr id methods triggers 0 0 0 now INFINITY INFINITY
    (mk_volume measure_zero counter_zero counter_zero)
    (time_new u32_none) (time_new u32_none) (time_new u32_none) (time_new 0) (time_new u32_none)
    (mk_abs_time f64_zero INFINITY) (mk_usage f64_zero f64_zero f64_zero measure_zero) pool_empty None
    (mk_urr_time now TRAFFIC_TIMER_PERIOD f64_zero u32_none) None None.

Definition set_period (t : urr_time_t) (period : Z) : urr_time_t := mk_urr_time (ut_base t) period (ut_expected t) (ut_handle t).
Definition ids_vec (l : list Z) : vec Z := match l with [] => None | _ => Some l end.

(** the optional members one after the other *)
Definition create_urr (unix_time_start : f64) (urr : val) : upf_urr_t :=
  let u := urr_new (wrap 16 (create_urr_id urr)) (leaf_of K_u8_ie urr CREATE_URR_MEASUREMENT_METHOD)
             (wrap 16 (OPT urr CREATE_URR_REPORTING_TRIGGERS (leaf_of K_u16_little_ie urr CREATE_URR_REPORTING_TRIGGERS) 0)) in
  let u := if isset urr CREATE_URR_MEASUREMENT_PERIOD then
             urr_set_period (urr_or_flags u PFCP_URR_UPDATE_MEASUREMENT_PERIOD)
               (set_base (set_period (urr_measurement_period u) (leaf_of K_u32_ie urr CREATE_URR_MEASUREMENT_PERIOD)) now) else u in
  let u := if isset urr CREATE_URR_VOLUME_THRESHOLD then
             set_urr_volume u (mk_volume (uv_measure (urr_volume u))
               (volume_counter (leaf_of K_volume_ie urr CREATE_URR_VOLUME_THRESHOLD)) (uv_quota (urr_volume u))) else u in
  let u := if isset urr CREATE_URR_VOLUME_QUOTA then
             set_urr_volume u (mk_volume (uv_measure (urr_volume u)) (uv_threshold (urr_volume u))
               (volume_counter (leaf_of K_volume_ie urr CREATE_URR_VOLUME_QUOTA))) else u in
  let u := if isset urr CREATE_URR_TIME_THRESHOLD then
             urr_set_threshold (urr_or_flags u PFCP_URR_UPDATE_TIME_THRESHOLD)
               (set_base (set_period (urr_time_threshold u) (leaf_of K_u32_ie urr CREATE_URR_TIME_THRESHOLD)) now) else u in
  let u := if isset urr CREATE_URR_TIME_QUOTA then
             urr_set_quota (urr_or_flags u PFCP_URR_UPDATE_TIME_QUOTA)
               (set_base (set_period (urr_time_quota u) (leaf_of K_u32_ie urr CREATE_URR_TIME_QUOTA)) now) else u in
  let u := if isset urr CREATE_URR_QUOTA_VALIDITY_TIME then
             urr_set_validity (urr_or_flags u PFCP_URR_UPDATE_QUOTA_VALIDITY_TIME)
               (set_base (set_period (urr_quota_validity_time u) (leaf_of K_u32_ie urr CREATE_URR_QUOTA_VALIDITY_TIME)) now) else u in
  let u := if isset urr CREATE_URR_MONITORING_TIME then
             set_urr_monitoring_time (urr_or_flags u PFCP_URR_UPDATE_MONITORING_TIME)
               (monitoring_time unix_time_start (leaf_of K_time_stamp_ie urr CREATE_URR_MONITORING_TIME)) else u in
  if isset urr CREATE_URR_LINKED_URR_ID && flag (urr_triggers u) REPORTING_TRIGGER_LINKED_USAGE_REPORTING
  then set_urr_linked_urr_ids u (ids_vec (leaves_of K_u32_ie urr CREATE_URR_LINKED_URR_ID)) else u.

Definition handle_create_urr (si : Z) (create_urrs : list val) : hstate -> outcome (Z * hstate) :=
  handler FAILED_RULE_TYPE_URR
    (do! make_pending (T := upf_urr_t) si ;
     do! alloc_rules (T := upf_urr_t) si ;
     do! foreach (fun urr => let! sx := read_sx si in add_rule si (create_urr (sx_unix_time_start sx) urr) (ret tt)) create_urrs ;
     sort_rules (T := upf_urr_t) si).

Definition update_urr (unix_time_start : f64) (urr : val) (u : upf_urr_t) : upf_urr_t :=
  let u := set_urr_methods u (leaf_of K_u8_ie urr UPDATE_URR_MEASUREMENT_METHOD) in
  let u := set_urr_triggers u (wrap 16 (OPT urr UPDATE_URR_REPORTING_TRIGGERS
                                          (leaf_of K_u16_little_ie urr UPDATE_URR_REPORTING_TRIGGERS) (urr_triggers u))) in
  let u := set_urr_status u (Z.land (urr_status u) (Z.lnot (Z.lor URR_OVER_QUOTA URR_REPORTED))) in
  let u := if isset urr UPDATE_URR_MEASUREMENT_PERIOD then
             urr_set_period (urr_or_flags u PFCP_URR_UPDATE_MEASUREMENT_PERIOD)
               (set_base (set_period (urr_measurement_period u) (leaf_of K_u32_ie urr UPDATE_URR_MEASUREMENT_PERIOD)) now) else u in
  let u := if isset urr UPDATE_URR_VOLUME_THRESHOLD then
             set_urr_volume u (mk_volume (uv_measure (urr_volume u))
               (volume_counter (leaf_of K_volume_ie urr UPDATE_URR_VOLUME_THRESHOLD)) (uv_quota (urr_volume u))) else u in
  let u := if isset urr UPDATE_URR_VOLUME_QUOTA then
             let m := uv_measure (urr_volume u) in
             set_urr_volume (urr_or_flags u PFCP_URR_UPDATE_VOLUME_QUOTA)
               (mk_volume (mk_measure (um_packets m) (um_bytes m) counter_zero) (uv_threshold (urr_volume u))
                  (volume_counter (leaf_of K_volume_ie urr UPDATE_URR_VOLUME_QUOTA))) else u in
  let u := if isset urr UPDATE_URR_TIME_THRESHOLD then
             urr_set_threshold (urr_or_flags u PFCP_URR_UPDATE_TIME_THRESHOLD)
               (set_period (urr_time_threshold u) (leaf_of K_u32_ie urr UPDATE_URR_TIME_THRESHOLD)) else u in
  let u := if isset urr UPDATE_URR_TIME_QUOTA then
             urr_set_quota (urr_or_flags u PFCP_URR_UPDATE_TIME_QUOTA)
               (set_base (set_period (urr_time_quota u) (leaf_of K_u32_ie urr UPDATE_URR_TIME_QUOTA)) (urr_start_time u)) else u in
  let u := if isset urr UPDATE_URR_QUOTA_VALIDITY_TIME then
             urr_set_validity (urr_or_flags u PFCP_URR_UPDATE_QUOTA_VALIDITY_TIME)
               (set_base (set_period (urr_quota_validity_time u) (leaf_of K_u32_ie urr UPDATE_URR_QUOTA_VALIDITY_TIME)) now) else u in
  let u := if isset urr UPDATE_URR_MONITORING_TIME then
             set_urr_monitoring_time (urr_or_flags u PFCP_URR_UPDATE_MONITORING_TIME)
               (monitoring_time unix_time_start (leaf_of K_time_stamp_ie urr UPDATE_URR_MONITORING_TIME)) else u in
  set_urr_linked_urr_ids u
    (if isset urr UPDATE_URR_LINKED_URR_ID && flag (urr_triggers u) REPORTING_TRIGGER_LINKED_USAGE_REPORTING
     then ids_vec (leaves_of K_u32_ie urr UPDATE_URR_LINKED_URR_ID) else None).

Definition edit_urr (si : Z) (urr : val) : E hstate unit :=
  let id := update_urr_id urr in
  let! r := get_rule (T := upf_urr_t) si id in
  match r with
  | None => rule_error id "URR ID %u, not found" []
  | Some (i, t) =>
      let! sx := read_sx si in
      edit_rule si i t (assign (update_urr (sx_unix_time_start sx) urr))
  end.
Definition handle_update_urr (si : Z) (update_urrs : list val) : hstate -> outcome (Z * hstate) :=
  handler FAILED_RULE_TYPE_URR (do! make_pending (T := upf_urr_t) si ; foreach (edit_urr si) update_urrs).

Definition handle_remove_urr (si : Z) (remove_urrs : list val) : hstate -> outcome (Z * hstate) :=
  handler FAILED_RULE_TYPE_URR
    (do! make_pending (T := upf_urr_t) si ;
     foreach (fun urr => remove_rule (T := upf_urr_t) si (remove_urr_id urr) "URR ID %u, unable to remove") remove_urrs).

(** ** QERs *)

(** the key of a policer that is not shared: the session and the rule *)
Definition own_policer_key (si id : Z) : Z := Z.lor (wrap 64 (Z.shiftl si 32)) id.

Definition create_qer (si : Z) (qer : val) : upf_qer_t :=
  let id := create_qer_id qer in
  let gates := leaf_of K_gate_status qer CREATE_QER_GATE_STATUS in
  let mbr := isset qer CREATE_QER_MBR in
  mk_qer id (if mbr then PFCP_QER_MBR else 0) (gs_ul gates) (gs_dl gates)
    (if mbr then leaf_of K_bit_rate qer CREATE_QER_MBR else leaf_zero K_bit_rate)
    (mk_kv (OPT qer CREATE_QER_QER_CORRELATION_ID (leaf_of K_u32_ie qer CREATE_QER_QER_CORRELATION_ID) (own_policer_key si id))
       u64_none).
Definition handle_create_qer (si : Z) (create_qers : list val) : hstate -> outcome (Z * hstate) :=
  handler FAILED_RULE_TYPE_QER
    (do! make_pending (T := upf_qer_t) si ;
     do! alloc_rules (T := upf_qer_t) si ;
     do! foreach (fun qer => add_rule si (create_qer si qer) (ret tt)) create_qers ;
     sort_rules (T := upf_qer_t) si).

Definition update_qer (si : Z) (qer : val) (q : upf_qer_t) : upf_qer_t :=
  let gates := leaf_of K_gate_status qer UPDATE_QER_GATE_STATUS in
  let has_gates := isset qer UPDATE_QER_GATE_STATUS in
  let mbr := isset qer UPDATE_QER_MBR in
  mk_qer (qer_id q) (if mbr then Z.lor (qer_flags q) PFCP_QER_MBR else qer_flags q)
    (if has_gates then gs_ul gates else qer_gate_status_ul q) (if has_gates then gs_dl gates else qer_gate_status_dl q)
    (if mbr then leaf_of K_bit_rate qer UPDATE_QER_MBR else qer_mbr q)
    (mk_kv (OPT qer UPDATE_QER_QER_CORRELATION_ID (leaf_of K_u32_ie qer UPDATE_QER_QER_CORRELATION_ID)
              (own_policer_key si (qer_id q))) u64_none).
Definition edit_qer (si : Z) (qer : val) : E hstate unit :=
  let id := update_qer_id qer in
  let! r := get_rule (T := upf_qer_t) si id in
  match r with
  | None => rule_error id "QER ID %u, not found" []
  | Some (i, t) => edit_rule si i t (assign (update_qer si qer))
  end.
Definition handle_update_qer (si : Z) (update_qers : list val) : hstate -> outcome (Z * hstate) :=
  handler FAILED_RULE_TYPE_QER (do! make_pending (T := upf_qer_t) si ; foreach (edit_qer si) update_qers).

Definition handle_remove_qer (si : Z) (remove_qers : list val) : hstate -> outcome (Z * hstate) :=
  handler FAILED_RULE_TYPE_QER
    (do! make_pending (T := upf_qer_t) si ;
     foreach (fun qer => remove_rule (T := upf_qer_t) si (remove_qer_id qer) "QER ID %u, unable to remove") remove_qers).
End Api.
