(* ===== verification/ApiPdr.v ===== *)
(** * Handlers of PDRs

    TEIDs for tunnels the control plane leaves to choose (process_teid_generation
    and handle_f_teid), UE addresses that another session already has
    (resolve_ue_ip_conflicts), and the handlers that create, update and remove
    PDRs (src/upf/upf_pfcp_api.c). *)

From Stdlib Require Import ZArith Lia String.
From stdpp Require Import base list list_numbers option numbers decidable strings gmap.
From S2P Require Import Prelude PfcpIo PfcpIe PfcpLeaf PfcpTables PfcpCodec UpfTypes UpfVec UpfUrr UpfRules UpfAssoc UpfTeid UpfAcl UrrTimer UpfIpfilter ApiMsg UpfMain UpfSession ApiRules.

Definition validate_teid (teid : Z) : bool := negb (teid =? 0) && negb (teid =? 0xffffffff).

(** the octets of the keys of the two tables *)
Definition teid_key4 (teid : Z) (ip4 : list Z) : list Z := e4_key (mk_endp4 (de_le ip4) teid 0).
Definition teid_key6 (teid : Z) (ip6 : list Z) : list Z := e6_key (mk_endp6 (de_le ip6) teid 0).

(** permit out ip from any to assigned *)
Definition wildcard_acl : acl_rule_t :=
  {| ar_type := IPFILTER_WILDCARD; ar_action := ACL_PERMIT; ar_direction := ACL_OUT; ar_proto := 255;
     ar_src := ACL_ADDR_ANY; ar_dst := ACL_ADDR_ASSIGNED;
     ar_src_port := {| fp_min := 0; fp_max := 2 ^ 16 - 1 |}; ar_dst_port := {| fp_min := 0; fp_max := 2 ^ 16 - 1 |} |}.

(** what the memory of a new rule of a vector holds *)
Class VppMemory := acl_memory : acl_rule_t.

Section Pdr.
Context {N : VppNet} {P : VppPool} {V : VecSort} {U : VppUnformat} {Mem : VppMemory}.
Context (cf : upf_config) (now vnow : f64).
(** a bound on the attempts at a TEID, which the code does not have *)
Context (attempts : nat).

(** ** TEIDs *)

(** the index of the session of a tunnel, or ~0 *)
Definition teid_v4_lookup_session_index (u : upf_main_t) (teid : Z) (ip4 : list Z) : Z :=
  match um_v4_tunnel u !! teid_key4 teid ip4 with Some v => wrap 32 v | None => u32_none end.
Definition teid_v6_lookup_session_index (u : upf_main_t) (teid : Z) (ip6 : list Z) : Z :=
  match um_v6_tunnel u !! teid_key6 teid ip6 with Some v => wrap 32 v | None => u32_none end.

Definition teid_unused (u : upf_main_t) (flags : Z) (res : upf_upip_res_t) (teid : Z) : bool :=
  (negb (flag flags F_TEID_V4) || (teid_v4_lookup_session_index u teid (ures_ip4 res) =? u32_none))
  && (negb (flag flags F_TEID_V6) || (teid_v6_lookup_session_index u teid (ures_ip6 res) =? u32_none)).

(** the loop: the TEID, if one was found, and rand_base *)
Fixpoint teid_loop (fuel : nat) (u : upf_main_t) (flags : Z) (res : upf_upip_res_t) (retry_cnt rand_base : Z)
  : outcome (option Z * Z) :=
  match fuel with
  | O => Fault NoFuel
  | S fuel =>
      let '(x, rand_base) := random_u32 rand_base in
      let teid := Z.land x (wrap 32 (Z.lnot (ures_mask res))) in
      let '(ok, retry_cnt, rand_base) :=
        if validate_teid teid then (teid_unused u flags res teid, retry_cnt, teid)
        else (false, retry_cnt - 1, rand_base) in
      if ok : bool then Ok (Some teid, rand_base)
      else if 0 <? retry_cnt then teid_loop fuel u flags res retry_cnt rand_base
      else Ok (None, rand_base)
  end.

Definition process_teid_generation (u : upf_main_t) (chid flags : Z) (res : upf_upip_res_t) (si : Z) : outcome (Z * upf_main_t) :=
  let* (teid, rand_base) := teid_loop attempts u flags res 10 (um_rand_base u) in
  let u := set_um_rand_base u rand_base in
  match teid with
  | None => Ok (0, u)
  | Some teid =>
      let x := get_ext u si in
      Ok (teid, if flag flags F_TEID_CHID then put_ext u si (set_se_teid_by_chid x (<[chid := teid]> (se_teid_by_chid x))) else u)
  end.

Definition set_ft_teid (t : pfcp_f_teid_t) (x : Z) : pfcp_f_teid_t :=
  Build_pfcp_f_teid_t (ft_flags t) x (ft_ip4 t) (ft_ip6 t) (ft_choose_id t).
Definition set_ft_ip4 (t : pfcp_f_teid_t) (x : list Z) : pfcp_f_teid_t :=
  Build_pfcp_f_teid_t (Z.lor (ft_flags t) F_TEID_V4) (ft_teid t) x (ft_ip6 t) (ft_choose_id t).
Definition set_ft_ip6 (t : pfcp_f_teid_t) (x : list Z) : pfcp_f_teid_t :=
  Build_pfcp_f_teid_t (Z.lor (ft_flags t) F_TEID_V6) (ft_teid t) (ft_ip4 t) x (ft_choose_id t).

Definition assign_pdi (f : upf_pdi_t -> upf_pdi_t) : E (hstate * upf_pdr_t) unit :=
  assign (fun t => set_pdr_pdi t (f (pdr_pdi t))).
Definition or_pdi_fields (f : Z) : E (hstate * upf_pdr_t) unit :=
  assign_pdi (fun p => set_pdi_fields p (Z.lor (pdi_fields p) f)).

(** the TEID that is kept for the choose id, 0 if there is none *)
Definition kept_teid (u : upf_main_t) (si : Z) (ft : pfcp_f_teid_t) : Z :=
  if flag (ft_flags ft) F_TEID_CHID then default 0 (se_teid_by_chid (get_ext u si) !! ft_choose_id ft) else 0.

(** CH: a TEID is chosen *)
Definition choose_f_teid (si : Z) (ft : pfcp_f_teid_t) (res : upf_upip_res_t) (create : bool) : E (hstate * upf_pdr_t) Z :=
  let! (s, _) := gets (fun s => s) in
  let kept := kept_teid (h_um s) si ft in
  let! teid :=
    if negb (kept =? 0) then ret kept
    else if negb create then ret 0
    else on_rule (with_um (fun u => process_teid_generation u (ft_choose_id ft) (ft_flags ft) res si)) in
  if teid =? 0 then ret (-1)
  else
    do! assign_pdi (fun p =>
      let t := set_ft_teid (pdi_teid p) teid in
      let t := if negb (is_zero_addr (ures_ip4 res)) && flag (ft_flags ft) F_TEID_V4 then set_ft_ip4 t (ures_ip4 res) else t in
      let t := if negb (is_zero_addr (ures_ip6 res)) && flag (ft_flags ft) F_TEID_V6 then set_ft_ip6 t (ures_ip6 res) else t in
      set_pdi_teid p t) ;
    let! (_, t) := gets (fun s => s) in
    do! when create
      (on_rule (modify (fun s => set_h_resp s (set_sr_created_pdr (h_resp s)
         (sr_created_pdr (h_resp s) ++ [mk_created_pdr (wrap 16 (pdr_id t)) (pdi_teid (pdr_pdi t))]))))) ;
    ret 0.

(** CH is 0: the TEID of the request, unless another session has it *)
Definition given_f_teid (si : Z) (ft : pfcp_f_teid_t) : E (hstate * upf_pdr_t) Z :=
  let! (s, _) := gets (fun s => s) in
  let sidx :=
    if flag (ft_flags ft) F_TEID_V4 then teid_v4_lookup_session_index (h_um s) (ft_teid ft) (ft_ip4 ft)
    else if flag (ft_flags ft) F_TEID_V6 then teid_v6_lookup_session_index (h_um s) (ft_teid ft) (ft_ip6 ft)
    else u32_none in
  if negb (sidx =? u32_none) && negb (sidx =? si) then ret (-1)
  else do! assign_pdi (fun p => set_pdi_teid p ft) ; ret 0.

Definition handle_f_teid (si : Z) (ft : pfcp_f_teid_t) (res : option upf_upip_res_t) (create : bool)
  : E (hstate * upf_pdr_t) Z :=
  do! or_pdi_fields F_PDI_LOCAL_F_TEID ;
  if flag (ft_flags ft) F_TEID_CH then
    match res with None => ret (-1) | Some res => choose_f_teid si ft res create end
  else given_f_teid si ft.

(** ** UE addresses *)

(** upf_pfcp_session_up_deletion_report sends its message *)
Definition send_deletion_report (u : upf_main_t) (si : Z) : outcome upf_main_t :=
  let* sx := get_sx u si in
  let* (sx, m) := upf_pfcp_session_up_deletion_report now vnow sx in
  let u := put_sx u si sx in
  Ok (emit u (OutSessionRequest si sx (pool_elt (am_nodes (um_assoc u)) (as_node (sx_assoc_ sx))) m)).

(** the old session, at [old], goes unless it belongs to another association *)
Definition purge_conflicting_session (u : upf_main_t) (old si : Z) : outcome upf_main_t :=
  let* sx_old := get_sx u old in
  let* sx_new := get_sx u si in
  if negb (as_node (sx_assoc_ sx_old) =? as_node (sx_assoc_ sx_new)) then Ok u
  else
    let* u := send_deletion_report u old in
    let* u := pfcp_disable_session cf vnow u old in
    pfcp_free_session u old.

(** the session whose route the address has *)
Definition upf_get_session_dpo_ip4 (u : upf_main_t) (nwi : upf_nwi_t) (ip4 : list Z) : option Z :=
  fib_session_dpo (um_net u) (nwi_fib_index4 nwi) (mk_prefix true ip4 32).
Definition upf_get_session_dpo_ip6 (u : upf_main_t) (nwi : upf_nwi_t) (ip6 : list Z) : option Z :=
  fib_session_dpo (um_net u) (nwi_fib_index6 nwi) (mk_prefix false ip6 64).

(** one family: the return value so far *)
Definition resolve_conflict (si : Z) (dpo : option Z) (r : Z) (u : upf_main_t) : outcome (Z * upf_main_t) :=
  match dpo with
  | Some d => if d =? si then Ok (r, u) else let* u := purge_conflicting_session u d si in Ok (-1, u)
  | None => Ok (r, u)
  end.
Definition resolve_ue_ip_conflicts (u : upf_main_t) (si : Z) (nwi : upf_nwi_t) (ue : pfcp_ue_ip_address_t)
  : outcome (Z * upf_main_t) :=
  let* (r, u) :=
    if flag (ue_flags ue) IE_UE_IP_ADDRESS_V4
    then resolve_conflict si (upf_get_session_dpo_ip4 u nwi (ue_ip4 ue)) 0 u else Ok (0, u) in
  if flag (ue_flags ue) IE_UE_IP_ADDRESS_V6
  then resolve_conflict si (upf_get_session_dpo_ip6 u nwi (ue_ip6 ue)) r u else Ok (r, u).

(** ** The members of a PDR *)

(** the first resource of the network instance *)
Definition find_res (nwi_index : Z) : option upf_upip_res_t :=
  find (fun res => ures_nwi_index res =? nwi_index) (cf_upip_res cf).

(** the network instance, by its name *)
Definition pdr_network_instance (id : Z) (name : vec Z) : E (hstate * upf_pdr_t) upf_nwi_t :=
  let! n := lift (lookup_nwi cf name) in
  match n with
  | None => on_rule (rule_error id "PDR ID %u, unknown Network Instance" [])
  | Some (i, nwi) => do! assign_pdi (fun p => set_pdi_nwi_index p i) ; ret nwi
  end.

Definition pdr_f_teid (si id : Z) (pdi : val) (create : bool) : E (hstate * upf_pdr_t) unit :=
  when (isset pdi PDI_F_TEID)
    (let! (_, t) := gets (fun s => s) in
     let! r := handle_f_teid si (leaf_of K_f_teid pdi PDI_F_TEID) (find_res (pdi_nwi_index (pdr_pdi t))) create in
     when (negb (r =? 0)) (on_rule (rule_error id "PDR ID %u, can't handle F-TEID" []))).

(** the filters; a store past the last one is past the vector *)
Fixpoint pdr_sdf_filters (id : Z) (l : list pfcp_sdf_filter_t) : E (hstate * upf_pdr_t) unit :=
  match l with
  | [] => ret tt
  | sdf :: l =>
      let '(ok, acl, spill) := unformat_ipfilter (vec_elts (sdf_flow sdf)) acl_memory in
      do! assign_pdi (fun p => set_pdi_acl p (vec_add (pdi_acl p) [acl])) ;
      do! lift (match spill, l with Some _, [] => Fault HeapOverflow | _, _ => Ok tt end) ;
      if ok : bool then pdr_sdf_filters id l else on_rule (rule_error id "PDR ID %u, failed to parse SDF" [])
  end.

(** the application and its database *)
Definition pdr_application (id : Z) (name : vec Z) : E (hstate * upf_pdr_t) unit :=
  do! or_pdi_fields F_PDI_APPLICATION_ID ;
  match cf_app_by_name cf !! vec_elts name with
  | None => on_rule (rule_error id "PDR ID %u, unknown Application ID" [])
  | Some i =>
      let! app := lift (match pool_elt (cf_apps cf) i with Some a => Ok a | None => Fault Assertion end) in
      let! db := on_rule (with_um (fun u => let* (db, gm) := upf_adf_get_adr_db cf (um_rules u) i in Ok (db, set_um_rules u gm))) in
      assign_pdi (fun p => set_pdi_adr p {| adr_application_id := i; adr_db_id := db; adr_flags := app_flags app |})
  end.

Definition add_wildcard : E (hstate * upf_pdr_t) unit :=
  do! or_pdi_fields F_PDI_SDF_FILTER ; assign_pdi (fun p => set_pdi_acl p (vec_add (pdi_acl p) [wildcard_acl])).

(** the last step: no other session has the UE address *)
Definition pdr_conflicts (si id : Z) (nwi : option upf_nwi_t) : E (hstate * upf_pdr_t) unit :=
  let! (_, t) := gets (fun s => s) in
  match nwi with
  | Some nwi =>
      when (flag (pdi_fields (pdr_pdi t)) F_PDI_UE_IP_ADDR)
        (let! r := on_rule (with_um (fun u => resolve_ue_ip_conflicts u si nwi (pdi_ue_addr (pdr_pdi t)))) in
         when (negb (r =? 0)) (on_rule (rule_error id "PDR ID %u, duplicate UE IP" [])))
  | None => ret tt
  end.

(** ** Creating *)

Definition pdr_new (pdr : val) : upf_pdr_t :=
  {| pdr_id := create_pdr_id pdr; pdr_precedence := wrap 16 (leaf_of K_u32_ie pdr CREATE_PDR_PRECEDENCE);
     pdr_pdi := {| pdi_src_intf := 0; pdi_nwi_index := u32_none; pdi_fields := 0; pdi_teid := leaf_zero K_f_teid;
                   pdi_ue_addr := leaf_zero K_ue_ip_address; pdi_acl := None;
                   pdi_adr := {| adr_application_id := u32_none; adr_db_id := u32_none; adr_flags := 0 |} |};
     pdr_outer_header_removal := 0; pdr_far_id := 0; pdr_urr_ids := None; pdr_qer_ids := None |}.

Definition create_pdr_body (si : Z) (pdr : val) : E (hstate * upf_pdr_t) unit :=
  let id := create_pdr_id pdr in
  let pdi := group_of pdr CREATE_PDR_PDI in
  let! nwi :=
    if isset pdi PDI_NETWORK_INSTANCE
    then let! n := pdr_network_instance id (leaf_of K_simple_vec_ie pdi PDI_NETWORK_INSTANCE) in ret (Some n)
    else ret None in
  do! assign_pdi (fun p => set_pdi_src_intf p (leaf_of K_source_interface pdi PDI_SOURCE_INTERFACE)) ;
  do! pdr_f_teid si id pdi true ;
  do! when (isset pdi PDI_UE_IP_ADDRESS)
    (let ue := leaf_of K_ue_ip_address pdi PDI_UE_IP_ADDRESS in
     do! or_pdi_fields F_PDI_UE_IP_ADDR ;
     do! assign_pdi (fun p => set_pdi_ue_addr p ue) ;
     do! when (flag (ue_flags ue) IE_UE_IP_ADDRESS_V4)
       (on_rule (modify (fun s => set_h_um s (put_ext (h_um s) si (set_se_user_addr (get_ext (h_um s) si) (ue_ip4 ue)))))) ;
     when (negb (isset pdi PDI_SDF_FILTER) && negb (isset pdi PDI_APPLICATION_ID)) add_wildcard) ;
  do! when (isset pdi PDI_SDF_FILTER)
    (do! or_pdi_fields F_PDI_SDF_FILTER ;
     do! assign_pdi (fun p => set_pdi_acl p (vec_alloc (pdi_acl p))) ;
     pdr_sdf_filters id (leaves_of K_sdf_filter pdi PDI_SDF_FILTER)) ;
  do! when (isset pdi PDI_APPLICATION_ID)
    (do! pdr_application id (leaf_of K_simple_vec_ie pdi PDI_APPLICATION_ID) ;
     let! (_, t) := gets (fun s => s) in
     when (negb (isset pdi PDI_SDF_FILTER) && flag (adr_flags (pdi_adr (pdr_pdi t))) UPF_ADR_IP_RULES) add_wildcard) ;
  do! assign (fun t =>
    let t := set_pdr_outer_header_removal t
               (OPT pdr CREATE_PDR_OUTER_HEADER_REMOVAL (leaf_of K_u8_ie pdr CREATE_PDR_OUTER_HEADER_REMOVAL) 255) in
    let t := set_pdr_far_id t (wrap 16 (OPT pdr CREATE_PDR_FAR_ID (leaf_of K_u32_ie pdr CREATE_PDR_FAR_ID) u32_none)) in
    let t := if isset pdr CREATE_PDR_URR_ID
             then set_pdr_urr_ids t (Some (wrap 16 <$> leaves_of K_u32_ie pdr CREATE_PDR_URR_ID)) else t in
    if isset pdr CREATE_PDR_QER_ID then set_pdr_qer_ids t (Some (leaves_of K_u32_ie pdr CREATE_PDR_QER_ID)) else t) ;
  pdr_conflicts si id nwi.

Definition create_pdr (si : Z) (pdr : val) : E hstate unit := add_rule si (pdr_new pdr) (create_pdr_body si pdr).

Definition handle_create_pdr (si : Z) (create_pdrs : list val) : hstate -> outcome (Z * hstate) :=
  handler FAILED_RULE_TYPE_PDR
    (do! make_pending (T := upf_pdr_t) si ;
     do! alloc_rules (T := upf_pdr_t) si ;
     do! foreach (create_pdr si) create_pdrs ;
     sort_rules (T := upf_pdr_t) si).

(** ** Updating *)

Definition reset_acl : E (hstate * upf_pdr_t) unit :=
  assign_pdi (fun p => set_pdi_acl p (vec_reset_length (pdi_acl p))).

Definition update_pdr_body (si : Z) (pdr : val) : E (hstate * upf_pdr_t) unit :=
  let id := update_pdr_id pdr in
  let pdi := group_of pdr UPDATE_PDR_PDI in
  let! nwi :=
    if isset pdi PDI_NETWORK_INSTANCE then
      let name := leaf_of K_simple_vec_ie pdi PDI_NETWORK_INSTANCE in
      if negb (vec_len name =? 0) then let! n := pdr_network_instance id name in ret (Some n)
      else do! assign_pdi (fun p => set_pdi_nwi_index p u32_none) ; ret None
    else ret None in
  do! assign (fun t => set_pdr_precedence t (wrap 16 (leaf_of K_u32_ie pdr UPDATE_PDR_PRECEDENCE))) ;
  do! assign_pdi (fun p => set_pdi_src_intf p (leaf_of K_source_interface pdi PDI_SOURCE_INTERFACE)) ;
  do! pdr_f_teid si id pdi false ;
  do! when (isset pdi PDI_UE_IP_ADDRESS)
    (do! or_pdi_fields F_PDI_UE_IP_ADDR ;
     do! assign_pdi (fun p => set_pdi_ue_addr p (leaf_of K_ue_ip_address pdi PDI_UE_IP_ADDRESS)) ;
     when (negb (isset pdi PDI_SDF_FILTER) && negb (isset pdi PDI_APPLICATION_ID)) (do! reset_acl ; add_wildcard)) ;
  do! when (isset pdi PDI_SDF_FILTER)
    (do! or_pdi_fields F_PDI_SDF_FILTER ;
     do! reset_acl ;
     do! assign_pdi (fun p => set_pdi_acl p (vec_alloc (pdi_acl p))) ;
     pdr_sdf_filters id (leaves_of K_sdf_filter pdi PDI_SDF_FILTER)) ;
  do! when (isset pdi PDI_APPLICATION_ID)
    (do! pdr_application id (leaf_of K_simple_vec_ie pdi PDI_APPLICATION_ID) ;
     when (negb (isset pdi PDI_SDF_FILTER))
       (do! reset_acl ;
        let! (_, t) := gets (fun s => s) in
        when (flag (adr_flags (pdi_adr (pdr_pdi t))) UPF_ADR_IP_RULES) add_wildcard)) ;
  do! assign (fun t =>
    let t := set_pdr_outer_header_removal t
               (OPT pdr UPDATE_PDR_OUTER_HEADER_REMOVAL (leaf_of K_u8_ie pdr UPDATE_PDR_OUTER_HEADER_REMOVAL) 255) in
    let t := set_pdr_far_id t (wrap 16 (OPT pdr UPDATE_PDR_FAR_ID (leaf_of K_u32_ie pdr UPDATE_PDR_FAR_ID) u32_none)) in
    let t := if isset pdr UPDATE_PDR_URR_ID
             then set_pdr_urr_ids t (Some (wrap 16 <$> leaves_of K_u32_ie pdr UPDATE_PDR_URR_ID)) else t in
    if isset pdr UPDATE_PDR_QER_ID then set_pdr_qer_ids t (Some (leaves_of K_u32_ie pdr UPDATE_PDR_QER_ID)) else t) ;
  pdr_conflicts si id nwi.

Definition update_pdr (si : Z) (pdr : val) : E hstate unit :=
  let id := update_pdr_id pdr in
  let! r := get_rule (T := upf_pdr_t) si id in
  match r with
  | None => rule_error id "PDR ID %u, not found" []
  | Some (i, t) => edit_rule si i t (update_pdr_body si pdr)
  end.

Definition handle_update_pdr (si : Z) (update_pdrs : list val) : hstate -> outcome (Z * hstate) :=
  handler FAILED_RULE_TYPE_PDR (do! make_pending (T := upf_pdr_t) si ; foreach (update_pdr si) update_pdrs).

(** ** Removing *)

Definition handle_remove_pdr (si : Z) (remove_pdrs : list val) : hstate -> outcome (Z * hstate) :=
  handler FAILED_RULE_TYPE_PDR
    (do! make_pending (T := upf_pdr_t) si ;
     foreach (fun pdr => remove_rule (T := upf_pdr_t) si (remove_pdr_id pdr) "PDR ID %u, unable to remove") remove_pdrs).
End Pdr.
