(* ===== verification/ApiSession.v ===== *)
(** * Message handlers

    What the plugin does with a PFCP message: heartbeats, the setup of an
    association, the establishment, modification and deletion of a session, and
    upf_pfcp_handle_msg that decodes a message and calls its handler
    (src/upf/upf_pfcp_api.c). A handler returns its result and the new state of
    the plugin, what it sends is appended to [um_out]. *)

From Stdlib Require Import ZArith Lia String.
From stdpp Require Import base list list_numbers option numbers decidable strings gmap.
From S2P Require Import Prelude PfcpIo PfcpIe PfcpLeaf PfcpTables PfcpCodec UpfTypes UpfVec UpfUrr UpfRules UpfAssoc UpfTeid UpfAcl PfcpServer UrrTimer UpfIpfilter ApiMsg UpfMain UpfSession ApiRules ApiPdr.

Definition F_UPFF_FTUP : Z := BIT 4.
Definition F_UPFF_EMPU : Z := BIT 8.
Definition F_UPFF_VTIME : Z := BIT 26.
Definition BBF_UP_NAT : Z := BIT 6.
Definition PFCP_HB_INTERVAL : Z := 10.
Definition USAGE_REPORT_TRIGGER_IMMEDIATE_REPORT : Z := BIT 7.
Definition USAGE_REPORT_TRIGGER_TERMINATION_REPORT : Z := BIT 11.
Definition REPORT_TYPE_ERIR : Z := BIT 2.

Section Handlers.
Context {N : VppNet} {P : VppPool} {V : VecSort} {U : VppUnformat} {Mem : VppMemory} {M : IpMasks} {F : VppFormat} {I : Vppinfra}.
Context (cf : upf_config) (now vnow : f64) (attempts : nat).

(** upf_pfcp_server_start_timer, on the wheel *)
Definition start_server_timer (u : upf_main_t) (type id seconds : Z) : outcome (Z * upf_main_t) :=
  assert (type <? 8)
 (assert (Z.land id 0xff000000 =? 0)
 (let '(h, w) := wheel_start (um_wheel u) (server_timer_id type id) (seconds * TW_CLOCKS_PER_SECOND) in
  Ok (h, set_um_wheel u w))).

Definition set_na_recovery (n : upf_node_assoc_t) (x : Z) : upf_node_assoc_t :=
  mk_node (na_node_id n) x (na_session_handle n) (na_rmt_addr n) (na_lcl_addr n) (na_sessions n) (na_heartbeat_handle n).
Definition set_na_heartbeat (n : upf_node_assoc_t) (x : Z) : upf_node_assoc_t :=
  mk_node (na_node_id n) (na_recovery_time_stamp n) (na_session_handle n) (na_rmt_addr n) (na_lcl_addr n) (na_sessions n) x.

(** n->heartbeat_handle = upf_pfcp_server_start_timer (...) *)
Definition start_heartbeat (u : upf_main_t) (ni : Z) : outcome upf_main_t :=
  let* (h, u) := start_server_timer u PFCP_SERVER_HB_TIMER ni PFCP_HB_INTERVAL in
  let* n := get_node (um_assoc u) ni in
  Ok (set_um_assoc u (put_node (um_assoc u) ni (set_na_heartbeat n h))).

Definition upf_pfcp_send_response (u : upf_main_t) (dmsg : pfcp_decoded_msg_t) : upf_main_t := emit u (OutResponse dmsg).

(** the node id of the plugin *)
Definition init_response_node_id : pfcp_node_id_t := cf_node_id cf.

(** ** Heartbeats *)

(** a pfcp_simple_response_t: node id, cause, offending IE, recovery time stamp *)
Definition simple_response (node_id : option pfcp_node_id_t) (cause offending_ie recovery : option Z) : val :=
  let members := [opt_leaf K_node_id node_id; opt_leaf K_u8_ie cause; opt_leaf K_u16_ie offending_ie;
                  opt_leaf K_time_stamp_ie recovery; []] in
  VGroup (present members) members [].

Definition handle_heartbeat_request (u : upf_main_t) (msg : pfcp_msg_t) (dmsg : pfcp_decoded_msg_t) : outcome (Z * upf_main_t) :=
  Ok (0, upf_pfcp_send_response u
           (mk_dmsg PFCP_HEARTBEAT_RESPONSE 0 0 (simple_response None None None (Some (cf_start_time cf))))).

Definition handle_heartbeat_response (u : upf_main_t) (msg : pfcp_msg_t) (dmsg : pfcp_decoded_msg_t) : outcome (Z * upf_main_t) :=
  let ts := leaf_of K_time_stamp_ie (dm_grp dmsg) PFCP_RESPONSE_RECOVERY_TIME_STAMP in
  if (m_node msg =? u32_none) || pool_is_free_index (am_nodes (um_assoc u)) (m_node msg) then Ok (-1, u)
  else
    let* n := get_node (um_assoc u) (m_node msg) in
    if na_recovery_time_stamp n <? ts then
      let* u := pfcp_release_association cf vnow u (m_node msg) in Ok (0, u)
    else if ts <? na_recovery_time_stamp n then Ok (-1, u)
    else let* u := start_heartbeat u (m_node msg) in Ok (0, u).

(** ** Association setup *)

(** the NAT pools of the network instance of a pool of UE addresses *)
Definition build_ue_ip_address_information (u : upf_main_t) : list val :=
  map (fun ue_p =>
    let blocks := filter (fun np => np_network_instance np = uip_nwi_name ue_p) (pool_foreach (um_nat_pools u)) in
    let members := [[VLeaf K_ue_ip_address_pool_identity (Some (uip_identity ue_p))];
                    [VLeaf K_simple_vec_ie (Some (uip_nwi_name ue_p))]; [];
                    map (fun np => VLeaf K_simple_vec_ie (Some (np_name np))) blocks] in
    VGroup (present members) members []) (cf_ueip_pools cf).

Fixpoint popcount (n : nat) (x : Z) : Z :=
  match n with O => 0 | S n => Z.b2z (Z.testbit x (Z.of_nat n)) + popcount n x end.
Definition user_plane_ip_resource (res : upf_upip_res_t) : outcome pfcp_user_plane_ip_resource_information_t :=
  let* name :=
    if ures_nwi_index res =? u32_none then Ok None
    else match pool_elt (cf_nwis cf) (ures_nwi_index res) with Some n => Ok (Some (nwi_name n)) | None => Fault BadIndex end in
  let flags := match name with Some _ => USER_PLANE_IP_RESOURCE_INFORMATION_ASSONI | None => 0 end in
  let has_intf := negb (ures_intf res =? INTF_INVALID) in
  let flags := if has_intf then Z.lor flags USER_PLANE_IP_RESOURCE_INFORMATION_ASSOSI else flags in
  let v4 := negb (is_zero_addr (ures_ip4 res)) in
  let v6 := negb (is_zero_addr (ures_ip6 res)) in
  let flags := if v4 then Z.lor flags USER_PLANE_IP_RESOURCE_INFORMATION_V4 else flags in
  let flags := if v6 then Z.lor flags USER_PLANE_IP_RESOURCE_INFORMATION_V6 else flags in
  let masked := negb (ures_mask res =? 0) in
  Ok {| upr_flags := flags; upr_teid_range_indication := if masked then popcount 32 (ures_mask res) else 0;
        upr_teid_range := if masked then wrap 8 (Z.shiftr (ures_teid res) 24) else 0;
        upr_source_intf := if has_intf then ures_intf res else 0; upr_network_instance := name;
        upr_ip4 := if v4 then ures_ip4 res else ip4_zero; upr_ip6 := if v6 then ures_ip6 res else ip6_zero |}.
Fixpoint build_user_plane_ip_resource_information (l : list upf_upip_res_t) : outcome (list val) :=
  match l with
  | [] => Ok []
  | res :: l =>
      let* r := user_plane_ip_resource res in
      let* l := build_user_plane_ip_resource_information l in
      Ok (VLeaf K_user_plane_ip_resource_information r :: l)
  end.

(** the response with its features and resources *)
Definition association_setup_response (features : Z) (bbf : option Z) (ue_pools upips : list val) : val :=
  let members :=
    [[VLeaf K_node_id init_response_node_id]; [VLeaf K_u8_ie PFCP_CAUSE_REQUEST_ACCEPTED];
     [VLeaf K_time_stamp_ie (cf_start_time cf)]; [VLeaf K_up_function_features features]; [];
     opt_leaf K_bbf_up_function_features bbf; ue_pools; upips; []; [VLeaf K_simple_vec_ie (Some (cf_version_string cf))]] in
  VGroup (present members) members [].

Definition handle_association_setup_request (u : upf_main_t) (msg : pfcp_msg_t) (dmsg : pfcp_decoded_msg_t)
  : outcome (Z * upf_main_t) :=
  let req := dm_grp dmsg in
  let node_id := leaf_of K_node_id req ASSOCIATION_SETUP_REQUEST_NODE_ID in
  let* u := match pfcp_get_association (um_assoc u) node_id with
            | Some n => pfcp_release_association cf vnow u n
            | None => Ok u
            end in
  let '(ni, am) := pfcp_new_association (um_assoc u) (m_session_handle msg) (fst (m_lcl msg)) (fst (m_rmt msg)) node_id in
  let* n := get_node am ni in
  let u := set_um_assoc u (put_node am ni (set_na_recovery n (leaf_of K_time_stamp_ie req ASSOCIATION_SETUP_REQUEST_RECOVERY_TIME_STAMP))) in
  let* resp :=
    if 16 <=? cf_pfcp_spec_version cf
    then Ok (association_setup_response (Z.lor (Z.lor F_UPFF_EMPU F_UPFF_VTIME) F_UPFF_FTUP) (Some BBF_UP_NAT)
               (build_ue_ip_address_information u) [])
    else let* upips := build_user_plane_ip_resource_information (cf_upip_res cf) in
         Ok (association_setup_response F_UPFF_EMPU None [] upips) in
  let* u := start_heartbeat u ni in
  Ok (0, upf_pfcp_send_response u (mk_dmsg PFCP_ASSOCIATION_SETUP_RESPONSE 0 0 resp)).

(** ** Simple responses *)

Definition in_types (l : list Z) (t : Z) : bool := existsb (Z.eqb t) l.
Definition send_simple_response (u : upf_main_t) (seid type cause : Z) (err : list Z) : upf_main_t :=
  let no_node_id := in_types [PFCP_HEARTBEAT_RESPONSE; PFCP_PFD_MANAGEMENT_RESPONSE; PFCP_SESSION_MODIFICATION_RESPONSE;
                              PFCP_SESSION_DELETION_RESPONSE; PFCP_SESSION_REPORT_RESPONSE] type in
  let recovery := in_types [PFCP_HEARTBEAT_RESPONSE; PFCP_ASSOCIATION_SETUP_RESPONSE] type in
  upf_pfcp_send_response u
    (mk_dmsg type 0 seid
       (simple_response (if no_node_id then None else Some init_response_node_id) (Some cause) (head err)
          (if recovery then Some (cf_start_time cf) else None))).

(** ** Sessions *)

Definition set_inactivity_period (si period : Z) : E hstate unit :=
  modify_pending si (fun r => set_inactivity r (mk_urr_time (ut_base (r_inactivity_timer r)) period
                                                   (ut_expected (r_inactivity_timer r)) u32_none)).

(** one handler after the other until one fails *)
Fixpoint run_handlers (l : list (hstate -> outcome (Z * hstate))) (s : hstate) : outcome (Z * hstate) :=
  match l with
  | [] => Ok (0, s)
  | h :: l => let* (r, s) := h s in if r =? 0 then run_handlers l s else Ok (r, s)
  end.
(** if (vec_len (resp->created_pdr) > 0) SET_BIT (...) *)
Definition mark_created_pdrs (s : hstate) : outcome (Z * hstate) :=
  Ok (0, match sr_created_pdr (h_resp s) with
         | [] => s
         | _ => set_h_resp s (set_resp_bit (h_resp s) SESSION_PROCEDURE_RESPONSE_CREATED_PDR)
         end).

Definition send_session_response (u : upf_main_t) (type seid r : Z) (resp : session_response) : upf_main_t :=
  let resp := if r =? 0 then set_sr_cause resp PFCP_CAUSE_REQUEST_ACCEPTED else resp in
  upf_pfcp_send_response u (mk_dmsg type 0 seid (session_response_val resp)).

Definition session_response_start : session_response :=
  set_sr_cause (set_resp_bit sresp_zero SESSION_PROCEDURE_RESPONSE_CAUSE) PFCP_CAUSE_REQUEST_REJECTED.

(** the rules of the request *)
Definition establish_rules (si : Z) (req : val) (s : hstate) : outcome (Z * hstate) :=
  run_handlers
    [handle_create_pdr cf now vnow attempts si (member req SESSION_ESTABLISHMENT_REQUEST_CREATE_PDR);
     mark_created_pdrs;
     handle_create_far cf si (member req SESSION_ESTABLISHMENT_REQUEST_CREATE_FAR);
     handle_create_urr now vnow si (member req SESSION_ESTABLISHMENT_REQUEST_CREATE_URR)] s.

(** the new session: its rules are prepared and applied *)
Definition establish_session (u : upf_main_t) (si : Z) (req : val) (resp : session_response) : outcome (Z * hstate) :=
  let s := mk_hs u resp in
  let* (_, s) := when (isset req SESSION_ESTABLISHMENT_REQUEST_USER_PLANE_INACTIVITY_TIMER)
                   (set_inactivity_period si (leaf_of K_u32_ie req SESSION_ESTABLISHMENT_REQUEST_USER_PLANE_INACTIVITY_TIMER)) s in
  let* (r, s) := establish_rules si req s in
  if negb (r =? 0) then Ok (r, s)
  else
    let* u := pfcp_update_apply cf now vnow (h_um s) si in
    let* u := pfcp_update_finish u si in
    Ok (0, set_h_um s u).

Definition set_up_f_seid (r : session_response) (flags seid : Z) (ip4 ip6 : list Z) : session_response :=
  set_sr_up_f_seid r (Build_pfcp_f_seid_t flags seid ip4 ip6).

Definition handle_session_establishment_request (u : upf_main_t) (msg : pfcp_msg_t) (dmsg : pfcp_decoded_msg_t)
  : outcome (Z * upf_main_t) :=
  let req := dm_grp dmsg in
  let f_seid := leaf_of K_f_seid req SESSION_ESTABLISHMENT_REQUEST_F_SEID in
  let seid := fs_seid f_seid in
  let resp := set_sr_node_id (set_resp_bit session_response_start SESSION_PROCEDURE_RESPONSE_NODE_ID) init_response_node_id in
  let send u r resp := send_session_response u PFCP_SESSION_ESTABLISHMENT_RESPONSE seid r resp in
  match pfcp_get_association (um_assoc u) (leaf_of K_node_id req SESSION_ESTABLISHMENT_REQUEST_NODE_ID) with
  | None =>
      let resp := tp_session_error_report resp "no established PFCP association" [] in
      Ok (-1, send u (-1) (set_sr_cause resp PFCP_CAUSE_NO_ESTABLISHED_PFCP_ASSOCIATION))
  | Some assoc =>
      let resp := set_up_f_seid (set_resp_bit resp SESSION_PROCEDURE_RESPONSE_UP_F_SEID) 0 seid ip4_zero ip6_zero in
      let* old := pfcp_lookup (um_assoc u) seid in
      match old with
      | Some _ => Ok (-1, send u (-1) (tp_session_error_report resp "Duplicate SEID" []))
      | None =>
          let lcl := fst (m_lcl msg) in
          let '(resp, up_address, cp_address) :=
            if ip46_address_is_ip4 (fst (m_rmt msg))
            then (set_up_f_seid resp IE_F_SEID_IP_ADDRESS_V4 seid (ip46_ip4 lcl) ip6_zero,
                  ip46_address_set_ip4 (ip46_ip4 lcl), ip46_address_set_ip4 (fs_ip4 f_seid))
            else (set_up_f_seid resp IE_F_SEID_IP_ADDRESS_V6 seid ip4_zero lcl, lcl, fs_ip6 f_seid) in
          let* (si, am) := pfcp_create_session (um_assoc u) assoc up_address seid cp_address vnow now in
          let u := put_ext (set_um_assoc u am) si ext_zero in
          let* (r, s) := establish_session u si req resp in
          let u := send (h_um s) r (h_resp s) in
          if negb (r =? 0) then
            let* u := pfcp_disable_session cf vnow u si in
            let* u := pfcp_free_session u si in
            Ok (r, u)
          else Ok (r, u)
      end
  end.

(** the elements that start an update *)
Definition modification_bits : Z := BITS
  [SESSION_MODIFICATION_REQUEST_USER_PLANE_INACTIVITY_TIMER; SESSION_MODIFICATION_REQUEST_REMOVE_PDR;
   SESSION_MODIFICATION_REQUEST_REMOVE_FAR; SESSION_MODIFICATION_REQUEST_REMOVE_URR; SESSION_MODIFICATION_REQUEST_REMOVE_QER;
   SESSION_MODIFICATION_REQUEST_REMOVE_BAR; SESSION_MODIFICATION_REQUEST_CREATE_PDR; SESSION_MODIFICATION_REQUEST_CREATE_FAR;
   SESSION_MODIFICATION_REQUEST_CREATE_URR; SESSION_MODIFICATION_REQUEST_CREATE_QER; SESSION_MODIFICATION_REQUEST_CREATE_BAR;
   SESSION_MODIFICATION_REQUEST_UPDATE_PDR; SESSION_MODIFICATION_REQUEST_UPDATE_FAR; SESSION_MODIFICATION_REQUEST_UPDATE_URR;
   SESSION_MODIFICATION_REQUEST_UPDATE_QER; SESSION_MODIFICATION_REQUEST_UPDATE_BAR].

Definition modify_rules (si : Z) (req : val) (s : hstate) : outcome (Z * hstate) :=
  run_handlers
    [handle_create_pdr cf now vnow attempts si (member req SESSION_MODIFICATION_REQUEST_CREATE_PDR);
     mark_created_pdrs;
     handle_update_pdr cf now vnow attempts si (member req SESSION_MODIFICATION_REQUEST_UPDATE_PDR);
     handle_remove_pdr si (member req SESSION_MODIFICATION_REQUEST_REMOVE_PDR);
     handle_create_far cf si (member req SESSION_MODIFICATION_REQUEST_CREATE_FAR);
     handle_update_far cf si (member req SESSION_MODIFICATION_REQUEST_UPDATE_FAR);
     handle_remove_far si (member req SESSION_MODIFICATION_REQUEST_REMOVE_FAR);
     handle_create_urr now vnow si (member req SESSION_MODIFICATION_REQUEST_CREATE_URR);
     handle_update_urr now vnow si (member req SESSION_MODIFICATION_REQUEST_UPDATE_URR);
     handle_remove_urr si (member req SESSION_MODIFICATION_REQUEST_REMOVE_URR);
     handle_create_qer si (member req SESSION_MODIFICATION_REQUEST_CREATE_QER);
     handle_update_qer si (member req SESSION_MODIFICATION_REQUEST_UPDATE_QER);
     handle_remove_qer si (member req SESSION_MODIFICATION_REQUEST_REMOVE_QER)] s.

(** the update: on an error the pending rules stay as they are *)
Definition modify_session (si : Z) (req : val) (s : hstate) : outcome (Z * hstate) :=
  let* (_, s) := modify_sx si pfcp_update_session s in
  let* (_, s) := when (isset req SESSION_MODIFICATION_REQUEST_USER_PLANE_INACTIVITY_TIMER)
                   (set_inactivity_period si (leaf_of K_u32_ie req SESSION_MODIFICATION_REQUEST_USER_PLANE_INACTIVITY_TIMER)) s in
  let* (r, s) := modify_rules si req s in
  if negb (r =? 0) then Ok (r, s)
  else
    let* u := pfcp_update_apply cf now vnow (h_um s) si in
    let* sx := get_sx u si in
    Ok (0, set_h_um s (put_sx u si (set_sx_generation sx (wrap 16 (sx_generation sx + 1))))).

(** the rules a query asks for *)
Fixpoint query_urrs (urrs : list upf_urr_t) (l : list val) (rp : upf_usage_report_t) : upf_usage_report_t :=
  match l with
  | [] => rp
  | qry :: l =>
      match pfcp_get_urr_by_id urrs (wrap 16 (leaf_of K_u32_ie qry QUERY_URR_URR_ID)) ≫= fun i => (i,.) <$> urrs !! i with
      | None => query_urrs urrs l rp
      | Some (i, urr) =>
          query_urrs urrs l (upf_usage_report_trigger rp i USAGE_REPORT_TRIGGER_IMMEDIATE_REPORT (urr_liusa_bitmap urr) now)
      end
  end.

(** the usage reports of the response *)
Definition report_usage (si : Z) (req : val) (s : hstate) : outcome hstate :=
  let* sx := get_sx (h_um s) si in
  let active := pfcp_get_rules sx PFCP_ACTIVE in
  let urrs := vec_elts (r_urr active) in
  let rp := upf_usage_report_init (length urrs) in
  let queries := member req SESSION_MODIFICATION_REQUEST_QUERY_URR in
  let mark := set_resp_bit (h_resp s) SESSION_PROCEDURE_RESPONSE_USAGE_REPORT in
  let '(resp, rp) :=
    if isset req SESSION_MODIFICATION_REQUEST_QUERY_URR && negb (Zlen queries =? 0) then (mark, query_urrs urrs queries rp)
    else if isset req SESSION_MODIFICATION_REQUEST_PFCPSMREQ_FLAGS
            && flag (leaf_of K_u8_ie req SESSION_MODIFICATION_REQUEST_PFCPSMREQ_FLAGS) PFCPSMREQ_QAURR
            && negb (Zlen urrs =? 0)
    then (mark, upf_usage_report_set rp USAGE_REPORT_TRIGGER_IMMEDIATE_REPORT now)
    else (h_resp s, rp) in
  let* (urrs, out) := upf_usage_report_build vnow None urrs now rp [] in
  Ok (mk_hs (put_sx (h_um s) si (set_rules sx PFCP_ACTIVE (set_urrs active urrs))) (set_sr_usage_report resp out)).

Definition handle_session_modification_request (u : upf_main_t) (msg : pfcp_msg_t) (dmsg : pfcp_decoded_msg_t)
  : outcome (Z * upf_main_t) :=
  let req := dm_grp dmsg in
  let send u seid r resp := send_session_response u PFCP_SESSION_MODIFICATION_RESPONSE seid r resp in
  let* sess := pfcp_lookup (um_assoc u) (dm_seid dmsg) in
  match sess with
  | None => Ok (-1, send u 0 (-1) (set_sr_cause session_response_start PFCP_CAUSE_SESSION_CONTEXT_NOT_FOUND))
  | Some (si, sx) =>
      let s := mk_hs u session_response_start in
      let* (r, s) := if flag (grp_fields req) modification_bits then modify_session si req s else Ok (0, s) in
      if negb (r =? 0) then Ok (r, send (h_um s) (sx_cp_seid sx) r (h_resp s))
      else
        let* s := report_usage si req s in
        let* u := pfcp_update_finish (h_um s) si in
        Ok (0, send u (sx_cp_seid sx) 0 (h_resp s))
  end.

Definition handle_session_deletion_request (u : upf_main_t) (msg : pfcp_msg_t) (dmsg : pfcp_decoded_msg_t)
  : outcome (Z * upf_main_t) :=
  let send u seid r resp := send_session_response u PFCP_SESSION_DELETION_RESPONSE seid r resp in
  let* sess := pfcp_lookup (um_assoc u) (dm_seid dmsg) in
  match sess with
  | None => Ok (-1, send u 0 (-1) (set_sr_cause session_response_start PFCP_CAUSE_SESSION_CONTEXT_NOT_FOUND))
  | Some (si, sx) =>
      let* u := pfcp_disable_session cf vnow u si in
      let* sx' := get_sx u si in
      let active := pfcp_get_rules sx' PFCP_ACTIVE in
      let urrs := vec_elts (r_urr active) in
      let* (u, resp) :=
        match urrs with
        | [] => Ok (u, session_response_start)
        | _ =>
            let rp := upf_usage_report_set (upf_usage_report_init (length urrs)) USAGE_REPORT_TRIGGER_TERMINATION_REPORT now in
            let* (urrs, out) := upf_usage_report_build vnow None urrs now rp [] in
            Ok (put_sx u si (set_rules sx' PFCP_ACTIVE (set_urrs active urrs)),
                set_sr_usage_report (set_resp_bit session_response_start SESSION_PROCEDURE_RESPONSE_USAGE_REPORT) out)
        end in
      let* u := pfcp_free_session u si in
      Ok (0, send u (sx_cp_seid sx) 0 resp)
  end.

(** ** Error indications *)

(** the request upf_pfcp_error_report sends for a session *)
Definition upf_pfcp_error_report (teid : Z) (addr : list Z) : pfcp_decoded_msg_t :=
  let f_teid := if ip46_address_is_ip4 addr then Build_pfcp_f_teid_t F_TEID_V4 teid (ip46_ip4 addr) ip6_zero 0
                else Build_pfcp_f_teid_t F_TEID_V6 teid ip4_zero addr 0 in
  mk_dmsg PFCP_SESSION_REPORT_REQUEST 0 0
    (VGroup (SET_BIT (SET_BIT 0 SESSION_REPORT_REQUEST_REPORT_TYPE) SESSION_REPORT_REQUEST_ERROR_INDICATION_REPORT)
       [[VLeaf K_u8_ie REPORT_TYPE_ERIR]; []; [];
        [VGroup (SET_BIT 0 ERROR_INDICATION_REPORT_F_TEID) [[VLeaf K_f_teid f_teid]] []]; []; []; []; []; []] []).

(** ** Dispatch *)

(** handlers that only return -1 *)
Definition handle_unsupported (u : upf_main_t) (msg : pfcp_msg_t) (dmsg : pfcp_decoded_msg_t) : outcome (Z * upf_main_t) := Ok (-1, u).

Definition msg_handlers : list (Z * (upf_main_t -> pfcp_msg_t -> pfcp_decoded_msg_t -> outcome (Z * upf_main_t))) :=
  [(PFCP_HEARTBEAT_REQUEST, handle_heartbeat_request); (PFCP_HEARTBEAT_RESPONSE, handle_heartbeat_response);
   (PFCP_PFD_MANAGEMENT_REQUEST, handle_unsupported); (PFCP_PFD_MANAGEMENT_RESPONSE, handle_unsupported);
   (PFCP_ASSOCIATION_SETUP_REQUEST, handle_association_setup_request); (PFCP_ASSOCIATION_SETUP_RESPONSE, handle_unsupported);
   (PFCP_ASSOCIATION_UPDATE_REQUEST, handle_unsupported); (PFCP_ASSOCIATION_UPDATE_RESPONSE, handle_unsupported);
   (PFCP_ASSOCIATION_RELEASE_REQUEST, handle_unsupported); (PFCP_ASSOCIATION_RELEASE_RESPONSE, handle_unsupported);
   (PFCP_NODE_REPORT_REQUEST, handle_unsupported); (PFCP_NODE_REPORT_RESPONSE, handle_unsupported);
   (PFCP_SESSION_SET_DELETION_REQUEST, handle_unsupported); (PFCP_SESSION_SET_DELETION_RESPONSE, handle_unsupported);
   (PFCP_SESSION_ESTABLISHMENT_REQUEST, handle_session_establishment_request);
   (PFCP_SESSION_ESTABLISHMENT_RESPONSE, handle_unsupported);
   (PFCP_SESSION_MODIFICATION_REQUEST, handle_session_modification_request);
   (PFCP_SESSION_MODIFICATION_RESPONSE, handle_unsupported);
   (PFCP_SESSION_DELETION_REQUEST, handle_session_deletion_request); (PFCP_SESSION_DELETION_RESPONSE, handle_unsupported);
   (PFCP_SESSION_REPORT_REQUEST, handle_unsupported); (PFCP_SESSION_REPORT_RESPONSE, handle_unsupported)].

(** the requests a response is sent to when they cannot be decoded *)
Definition error_response_types : list Z :=
  [PFCP_HEARTBEAT_REQUEST; PFCP_PFD_MANAGEMENT_REQUEST; PFCP_ASSOCIATION_SETUP_REQUEST; PFCP_ASSOCIATION_UPDATE_REQUEST;
   PFCP_ASSOCIATION_RELEASE_REQUEST; PFCP_SESSION_SET_DELETION_REQUEST; PFCP_SESSION_ESTABLISHMENT_REQUEST;
   PFCP_SESSION_MODIFICATION_REQUEST; PFCP_SESSION_DELETION_REQUEST; PFCP_SESSION_REPORT_REQUEST].

Definition handle_msg (u : upf_main_t) (msg : pfcp_msg_t) : outcome (Z * upf_main_t) :=
  let data := vec_elts (m_data msg) in
  match spec_at msg_handlers (pfcp_msg_type data) with
  | None => Ok (-1, u)
  | Some h =>
      let* (r, dmsg, err) := pfcp_decode_msg data (Zlen data) in
      if r <? 0 then Ok (-1, u)
      else if negb (r =? 0) then
        Ok (r, if in_types error_response_types (dm_type dmsg) then send_simple_response u 0 (dm_type dmsg + 1) r err else u)
      else h u msg dmsg
  end.
End Handlers.
