(* ===== verification/ApiDemo.v ===== *)
(** * A small network

    Concrete functions for what the handlers take from VPP, a configuration and
    messages of a control plane, on which the theorems about the handlers are
    tried out. *)

From Stdlib Require Import ZArith Lia String.
From stdpp Require Import base list list_numbers option numbers decidable strings gmap.
From S2P Require Import Prelude PfcpIo PfcpIe PfcpLeaf PfcpTables PfcpCodec UpfTypes UpfVec UpfUrr UpfRules UpfAssoc UpfTeid UpfAcl PfcpServer UrrTimer UpfIpfilter UpfIpfilterRt ApiMsg UpfMain UpfSession ApiRules ApiPdr ApiSession.

(** ** VPP *)

(** the routes to sessions, by FIB and prefix; one interface with one address;
    the generator of vppinfra *)
Definition demo_routes : Type := gmap (Z * (bool * list Z * Z)) Z.
Definition prefix_key (fib : Z) (p : fib_prefix_t) : Z * (bool * list Z * Z) := (fib, (fp_ip4 p, fp_addr p, fp_len p)).
#[export] Instance demo_net : VppNet := {|
  net_state := demo_routes;
  random_u32 seed := let x := wrap 32 (1664525 * seed + 1013904223) in (x, x);
  fib_table_entry_special_dpo_add net fib p si := <[prefix_key fib p := si]> net;
  fib_table_entry_special_remove net fib p := delete (prefix_key fib p) net;
  fib_session_dpo net fib p := (net : demo_routes) !! prefix_key fib p;
  fib_entry_get_resolving_interface _ _ _ _ := 1;
  fib_table_id _ fib _ := fib;
  address_to_if_address _ _ _ _ := None;
  ip_interface_get_first_ip _ _ is_ip4 := Some (if is_ip4 : bool then [10; 0; 0; 2] else [32; 1] ++ replicate 13 0 ++ [2]);
  ip_fib_table_get_index_for_sw_if_index _ _ _ := 0;
  ip4_header_checksum _ := 0;
  ip_mask_to_preflen _ is_ip4 := if is_ip4 : bool then 32 else 128;
  fib_entry_track net _ _ _ := net;
  fib_entry_untrack net _ := net;
  peer_next_dpo _ i := i;
  nat_create_binding net _ _ min _ := (min, net);
  nat_del_binding net _ := net
|}.

#[export] Existing Instance pool_lifo.
#[export] Existing Instance insertion_sort.
#[export] Existing Instance loop_masks.
#[export] Existing Instance vpp_exact.
#[export] Existing Instance text_unformat.

(** the text of an error report is its format *)
#[export] Instance demo_format : VppFormat := fun fmt _ => map (fun a => Z.of_nat (Ascii.nat_of_ascii a)) (list_ascii_of_string fmt).
#[export] Instance demo_memory : VppMemory := wildcard_acl.

(** ** The plugin *)

Definition demo_node_id : pfcp_node_id_t := {| nid_type := NID_IPv4; nid_ip := ip46_address_set_ip4 [10; 0; 0; 2]; nid_fqdn := None |}.
Definition demo_cp_id : pfcp_node_id_t := {| nid_type := NID_IPv4; nid_ip := ip46_address_set_ip4 [10; 0; 0; 1]; nid_fqdn := None |}.

(** the network instance epc, with an address for tunnels *)
Definition epc : list Z := [3; 101; 112; 99].
Definition demo_config : upf_config :=
  mk_config demo_node_id 16 0 [] (mk_pool {[0 := mk_nwi epc 0 0 1]} []) {[epc := 0]}
    [mk_upip_res [10; 0; 0; 3] (replicate 16 0) 0 INTF_INVALID 0 0] [] ∅ pool_empty ∅
    (fun _ => []) (fun _ => [0; 0]).
Definition demo_main : upf_main_t :=
  mk_umain (mk_amain pool_empty ∅ ∅ pool_empty ∅ 0 0) (mk_main pool_empty ∅ ∅) (mk_wheel pool_empty 0 f64_zero)
    ∅ ∅ 1 pool_empty pool_empty ∅ ∅ ∅ [].

(** ** Messages *)

(** a group of the table with the members at the given places *)
Definition grp (table : list pfcp_group_ie_def) (l : list (Z * list val)) : val :=
  VGroup (foldr (fun m f => SET_BIT f (fst m)) 0 l)
    (map (fun i => match find (fun m => fst m =? Z.of_nat i) l with Some m => snd m | None => [] end) (seq 0 (length table))) [].
Definition leaf1 (k : leaf) (x : leaf_ty k) : list val := [VLeaf k x].

(** a message from the control plane *)
Definition cp_msg (dmsg : pfcp_decoded_msg_t) : pfcp_msg_t :=
  let peer := (ip46_address_set_ip4 [10; 0; 0; 1], pfcp_port) in
  let own := (ip46_address_set_ip4 [10; 0; 0; 2], pfcp_port) in
  mk_msg peer (dm_seq_no dmsg) 5 own u32_none 0 f64_zero 0 0 0 false
    (match pfcp_encode_msg dmsg with Ok l => Some l | _ => None end).

Definition demo_setup : pfcp_decoded_msg_t :=
  mk_dmsg PFCP_ASSOCIATION_SETUP_REQUEST 1 0
    (grp pfcp_association_setup_request_group
       [(ASSOCIATION_SETUP_REQUEST_NODE_ID, leaf1 K_node_id demo_cp_id);
        (ASSOCIATION_SETUP_REQUEST_RECOVERY_TIME_STAMP, leaf1 K_time_stamp_ie 4000000000)]).

(** the uplink of a UE, in a tunnel the plugin chooses, and its downlink *)
Definition demo_ue (sd : Z) (ue : list Z) : list val :=
  leaf1 K_ue_ip_address (Build_pfcp_ue_ip_address_t (Z.lor IE_UE_IP_ADDRESS_V4 sd) ue ip6_zero 0 0).
Definition demo_ul_pdr (id : Z) (ue : list Z) : val :=
  grp pfcp_create_pdr_group
    [(CREATE_PDR_PDR_ID, leaf1 K_u16_ie id); (CREATE_PDR_PRECEDENCE, leaf1 K_u32_ie 100);
     (CREATE_PDR_PDI,
      [grp pfcp_pdi_group
         [(PDI_SOURCE_INTERFACE, leaf1 K_source_interface 0);
          (PDI_F_TEID, leaf1 K_f_teid (Build_pfcp_f_teid_t (Z.lor F_TEID_CH F_TEID_V4) 0 ip4_zero ip6_zero 0));
          (PDI_NETWORK_INSTANCE, leaf1 K_simple_vec_ie (Some epc)); (PDI_UE_IP_ADDRESS, demo_ue 0 ue)]]);
     (CREATE_PDR_FAR_ID, leaf1 K_u32_ie 1); (CREATE_PDR_URR_ID, leaf1 K_u32_ie 1)].
Definition demo_dl_pdr (id : Z) (ue : list Z) : val :=
  grp pfcp_create_pdr_group
    [(CREATE_PDR_PDR_ID, leaf1 K_u16_ie id); (CREATE_PDR_PRECEDENCE, leaf1 K_u32_ie 100);
     (CREATE_PDR_PDI,
      [grp pfcp_pdi_group
         [(PDI_SOURCE_INTERFACE, leaf1 K_source_interface 1);
          (PDI_NETWORK_INSTANCE, leaf1 K_simple_vec_ie (Some epc)); (PDI_UE_IP_ADDRESS, demo_ue IE_UE_IP_ADDRESS_SD ue)]]);
     (CREATE_PDR_FAR_ID, leaf1 K_u32_ie 1); (CREATE_PDR_URR_ID, leaf1 K_u32_ie 1)].
(** towards the peer 10.0.0.9 *)
Definition demo_far (id : Z) : val :=
  grp pfcp_create_far_group
    [(CREATE_FAR_FAR_ID, leaf1 K_u32_ie id); (CREATE_FAR_APPLY_ACTION, leaf1 K_u8_ie FAR_FORWARD);
     (CREATE_FAR_FORWARDING_PARAMETERS,
      [grp pfcp_forwarding_parameters_group
         [(FORWARDING_PARAMETERS_DESTINATION_INTERFACE, leaf1 K_destination_interface 1);
          (FORWARDING_PARAMETERS_NETWORK_INSTANCE, leaf1 K_simple_vec_ie (Some epc));
          (FORWARDING_PARAMETERS_OUTER_HEADER_CREATION,
           leaf1 K_outer_header_creation
             (Build_pfcp_outer_header_creation_t OUTER_HEADER_CREATION_GTP_IP4 17 (ip46_address_set_ip4 [10; 0; 0; 9]) 0 0 0))]])].
Definition demo_urr (id : Z) : val :=
  grp pfcp_create_urr_group
    [(CREATE_URR_URR_ID, leaf1 K_u32_ie id); (CREATE_URR_MEASUREMENT_METHOD, leaf1 K_u8_ie 2);
     (CREATE_URR_REPORTING_TRIGGERS, leaf1 K_u16_little_ie 0)].
Definition demo_establish (seid : Z) (ue : list Z) : pfcp_decoded_msg_t :=
  mk_dmsg PFCP_SESSION_ESTABLISHMENT_REQUEST 2 0
    (grp pfcp_session_establishment_request_group
       [(SESSION_ESTABLISHMENT_REQUEST_NODE_ID, leaf1 K_node_id demo_cp_id);
        (SESSION_ESTABLISHMENT_REQUEST_F_SEID,
         leaf1 K_f_seid (Build_pfcp_f_seid_t IE_F_SEID_IP_ADDRESS_V4 seid [10; 0; 0; 1] ip6_zero));
        (SESSION_ESTABLISHMENT_REQUEST_CREATE_PDR, [demo_ul_pdr 1 ue; demo_dl_pdr 2 ue]);
        (SESSION_ESTABLISHMENT_REQUEST_CREATE_FAR, [demo_far 1]);
        (SESSION_ESTABLISHMENT_REQUEST_CREATE_URR, [demo_urr 1])]).

(** ** Runs *)

Definition demo_handle (u : upf_main_t) (dmsg : pfcp_decoded_msg_t) : outcome (Z * upf_main_t) :=
  handle_msg demo_config (f64_of_Z 1000) (f64_of_Z 10) 100 u (cp_msg dmsg).
(** the return value and the state; [code_result] takes a run apart without
    computing the state *)
Definition code {A} (o : outcome (Z * A)) : option Z := match o with Ok (r, _) => Some r | _ => None end.
Definition result {A} (d : A) (o : outcome (Z * A)) : A := match o with Ok (_, a) => a | _ => d end.
Lemma code_result {A} (d : A) o r : code o = Some r -> o = Ok (r, result d o).
Proof. destruct o as [[r' a]| |]; simpl; [|done..]. by intros [= ->]. Qed.
Definition after (o : outcome (Z * upf_main_t)) : upf_main_t := result demo_main o.
Lemma code_after o r : code o = Some r -> o = Ok (r, after o).
Proof. apply code_result. Qed.

Definition demo_associated : upf_main_t := after (demo_handle demo_main demo_setup).
Definition demo_session : upf_main_t := after (demo_handle demo_associated (demo_establish 7 [172; 16; 0; 1])).
