(* ===== verification/AssocInv.v ===== *)
(** * Associations and their sessions

    What holds between the tables of the control plane side: every session is in
    the list of exactly one association and is found by its SEID, every
    association is found by its node id, and nothing is found that is not there.
    Establishing and ending a session, setting up and releasing an association
    keep this, and releasing an association ends its sessions and no other. *)

From Stdlib Require Import ZArith Lia.
From stdpp Require Import base list list_numbers option numbers decidable gmap.
From S2P Require Import Prelude PfcpIo PfcpIe PfcpLeaf PfcpTables PfcpCodec UpfTypes UpfVec UpfUrr UpfRules UpfAssoc UpfTeid UpfAcl UrrTimer UpfMain UpfSession.

#[local] Abbreviation Ses am := (pool_elts (am_sessions am)).
#[local] Abbreviation Nod am := (pool_elts (am_nodes am)).

(** ** The invariant *)

(** [L] has the list of each association; the session [d], if any, is on its way
    out: it belongs to no list and has no SEID *)
Record listed (L : gmap Z (list Z)) (d : option Z) (am : assoc_main) : Prop := {
  ls_dom n : is_Some (L !! n) <-> is_Some (Nod am !! n);
  ls_list n l : L !! n = Some l -> n <> u32_none /\ assoc_list am n l;
  ls_cover i : is_Some (Ses am !! i) -> d <> Some i -> exists n l, L !! n = Some l /\ i ∈ l;
  ls_out i n l : d = Some i -> L !! n = Some l -> i ∉ l;
  ls_seid i sx : Ses am !! i = Some sx -> d <> Some i -> am_session_by_id am !! sx_cp_seid sx = Some i;
  ls_found seid i : am_session_by_id am !! seid = Some i ->
    d <> Some i /\ exists sx, Ses am !! i = Some sx /\ sx_cp_seid sx = seid
}.

(** the ids an association can be found by *)
Definition is_ip_id (id : pfcp_node_id_t) : bool := (nid_type id =? NID_IPv4) || (nid_type id =? NID_IPv6).
Definition is_fqdn_id (id : pfcp_node_id_t) : bool := negb (is_ip_id id) && (nid_type id =? NID_FQDN).

(** every association but [e] is found by its node id *)
Record indexed (e : option Z) (am : assoc_main) : Prop := {
  ix_ip n node : Nod am !! n = Some node -> e <> Some n -> is_ip_id (na_node_id node) = true ->
    am_node_index_by_ip am !! nid_ip (na_node_id node) = Some n;
  ix_fqdn n node : Nod am !! n = Some node -> e <> Some n -> is_fqdn_id (na_node_id node) = true ->
    am_node_index_by_fqdn am !! vec_elts (nid_fqdn (na_node_id node)) = Some n;
  ix_ip_found k n : am_node_index_by_ip am !! k = Some n ->
    e <> Some n /\ exists node, Nod am !! n = Some node /\ is_ip_id (na_node_id node) = true /\ nid_ip (na_node_id node) = k;
  ix_fqdn_found k n : am_node_index_by_fqdn am !! k = Some n ->
    e <> Some n /\ exists node, Nod am !! n = Some node /\ is_fqdn_id (na_node_id node) = true
                               /\ vec_elts (nid_fqdn (na_node_id node)) = k
}.

Definition assoc_ok (am : assoc_main) : Prop := (exists L, listed L None am) /\ indexed None am.

(** ** Lists that only look at the links *)

Lemma chain_links n m m' prev first l last next :
  (forall i, i ∈ l -> sx_assoc_ <$> m' !! i = sx_assoc_ <$> m !! i) ->
  chain m n prev first l last next -> chain m' n prev first l last next.
Proof.
  revert prev first. induction l as [|i l IH]; intros prev first Hm; simpl; [done|].
  intros (-> & Hi & sx & Hsx & Hn & Hp & Hc). split; [done|]. split; [done|].
  pose proof (Hm i (list_elem_of_here _ _)) as E. rewrite Hsx in E. destruct (m' !! i) as [sx'|]; [|done]. simpl in E.
  injection E as E. exists sx'. rewrite E. split_and!; [done..|]. apply IH; [|done]. intros j Hj. apply Hm. by right.
Qed.

Lemma assoc_list_links am am' n l :
  (forall node, Nod am !! n = Some node -> exists node', Nod am' !! n = Some node' /\ na_sessions node' = na_sessions node) ->
  (forall i, i ∈ l -> sx_assoc_ <$> Ses am' !! i = sx_assoc_ <$> Ses am !! i) ->
  assoc_list am n l -> assoc_list am' n l.
Proof.
  intros Hn Hs (Hnd & node & last & Hnode & Hc). split; [done|]. destruct (Hn node Hnode) as (node' & Hn' & E).
  exists node', last. split; [done|]. rewrite E. by eapply chain_links.
Qed.

Lemma assoc_list_session am n l i : assoc_list am n l -> i ∈ l ->
  exists sx, Ses am !! i = Some sx /\ as_node (sx_assoc_ sx) = n.
Proof. intros (_ & node & last & _ & Hc) Hi. destruct (chain_elem _ _ _ _ _ _ _ i Hc Hi) as (_ & ?). done. Qed.

(** the list of a session's association, as its links have it *)
Lemma listed_at L d am i sx : listed L d am -> Ses am !! i = Some sx -> d <> Some i ->
  exists l, L !! as_node (sx_assoc_ sx) = Some l /\ i ∈ l.
Proof.
  intros HL Hs Hd. destruct (ls_cover _ _ _ HL i) as (n & l & Hl & Hi); [by eexists|done|].
  destruct (ls_list _ _ _ HL n l Hl) as [_ Ha]. destruct (assoc_list_session _ _ _ _ Ha Hi) as (sx' & Hs' & <-).
  simplify_eq. eauto.
Qed.

(** ** Steps that keep the links *)

Lemma listed_same L d am am' :
  (forall n node, Nod am !! n = Some node -> exists node', Nod am' !! n = Some node' /\ na_sessions node' = na_sessions node) ->
  (forall n, is_Some (Nod am' !! n) -> is_Some (Nod am !! n)) ->
  (forall i, (fun sx => (sx_assoc_ sx, sx_cp_seid sx)) <$> Ses am' !! i = (fun sx => (sx_assoc_ sx, sx_cp_seid sx)) <$> Ses am !! i) ->
  am_session_by_id am' = am_session_by_id am ->
  listed L d am -> listed L d am'.
Proof.
  intros Hn Hn' Hs Hid [H1 H2 H3 H4 H5 H6]. split.
  - intros n. rewrite H1. split; [|apply Hn']. intros [node Hnode]. destruct (Hn n node Hnode) as (? & ? & _). eauto.
  - intros n l Hl. destruct (H2 n l Hl) as [Hne Ha]. split; [done|]. revert Ha. apply assoc_list_links; [apply Hn|].
    intros i _. specialize (Hs i). destruct (Ses am' !! i), (Ses am !! i); simplify_eq/=; congruence.
  - intros i Hi. apply H3. specialize (Hs i). destruct (Ses am' !! i), (Ses am !! i); done.
  - done.
  - intros i sx Hi Hd. specialize (Hs i). rewrite Hi in Hs. destruct (Ses am !! i) as [sx0|] eqn:E; [|done].
    injection Hs as Ha ->. rewrite Hid. by apply H5.
  - intros seid i. rewrite Hid. intros (Hd & sx & Hi & <-)%H6. split; [done|]. specialize (Hs i). rewrite Hi in Hs.
    destruct (Ses am' !! i) as [sx'|]; [|done]. injection Hs as Ha Hsd. eauto.
Qed.

Lemma listed_put L d am i sx sx' :
  Ses am !! i = Some sx -> sx_assoc_ sx' = sx_assoc_ sx -> sx_cp_seid sx' = sx_cp_seid sx ->
  listed L d am -> listed L d (put_session am i sx').
Proof.
  intros Hs Ha Hi. apply listed_same; simpl; [eauto|done| |done]. intros j. destruct (decide (j = i)) as [->|Hj].
  - rewrite lookup_insert_eq, Hs. simpl. by rewrite Ha, Hi.
  - by rewrite lookup_insert_ne.
Qed.

(** a session on its way out may be changed in any way *)
Lemma listed_put_out L d am sx : listed L (Some d) am -> listed L (Some d) (put_session am d sx).
Proof.
  intros [H1 H2 H3 H4 H5 H6]. split; simpl; try done.
  - intros n l Hl. destruct (H2 n l Hl) as [Hne Ha]. split; [done|]. apply assoc_list_put_session; [by eapply H4|done].
  - intros i Hi Hd. apply H3; [|done]. rewrite lookup_insert_ne in Hi by congruence. done.
  - intros i sx' Hi Hd. rewrite lookup_insert_ne in Hi by congruence. by apply H5.
  - intros seid i (Hd & sx' & Hi & <-)%H6. split; [done|]. exists sx'. rewrite lookup_insert_ne by congruence. done.
Qed.

Lemma listed_freed L d am : listed L (Some d) am -> listed L None (am_set_sessions am (pool_put (am_sessions am) d)).
Proof.
  intros [H1 H2 H3 H4 H5 H6]. split; simpl; try done.
  - intros n l Hl. destruct (H2 n l Hl) as [Hne Ha]. split; [done|]. revert Ha. apply assoc_list_frame; [done|].
    intros k Hk. simpl. apply lookup_delete_ne. intros <-. by eapply H4.
  - intros i [sx [Hd Hi]%lookup_delete_Some] _. apply H3; [eauto|congruence].
  - intros i sx [Hd Hi]%lookup_delete_Some _. apply H5; [done|congruence].
  - intros seid i (Hd & sx & Hi & <-)%H6. split; [done|]. exists sx. split; [|done]. apply lookup_delete_Some. split; congruence.
Qed.

(** ** Changing the links *)

(** only links are changed: of sessions, and from associations to sessions *)
Record relinks (am am' : assoc_main) : Prop := {
  rl_seid i : sx_cp_seid <$> Ses am' !! i = sx_cp_seid <$> Ses am !! i;
  rl_node n : na_node_id <$> Nod am' !! n = na_node_id <$> Nod am !! n;
  rl_by_id : am_session_by_id am' = am_session_by_id am;
  rl_by_ip : am_node_index_by_ip am' = am_node_index_by_ip am;
  rl_by_fqdn : am_node_index_by_fqdn am' = am_node_index_by_fqdn am
}.
#[local] Instance relinks_preorder : PreOrder relinks.
Proof.
  split; [done|]. intros a b c [A1 A2 A3 A4 A5] [B1 B2 B3 B4 B5].
  split; [intros i; by rewrite B1|intros n; by rewrite B2|congruence..].
Qed.
Lemma relinks_session am i sx a : get_session am i = Ok sx -> relinks am (put_session am i (set_assoc sx a)).
Proof.
  unfold get_session, pool_elt. intros H. split; try done. intros j. simpl.
  destruct (decide (j = i)) as [->|Hj]; [|by rewrite lookup_insert_ne].
  rewrite lookup_insert_eq. destruct (Ses am !! i); [|done]. by injection H as ->.
Qed.
Lemma relinks_node am n node x : get_node am n = Ok node -> relinks am (put_node am n (set_na_sessions node x)).
Proof.
  unfold get_node, pool_elt. intros H. split; try done. intros j. simpl.
  destruct (decide (j = n)) as [->|Hj]; [|by rewrite lookup_insert_ne].
  rewrite lookup_insert_eq. destruct (Nod am !! n); [|done]. by injection H as ->.
Qed.

Lemma obind_Ok {A B} (m : outcome A) (k : A -> outcome B) b : obind m k = Ok b -> exists a, m = Ok a /\ k a = Ok b.
Proof. destruct m; simpl; [eauto|done..]. Qed.
Lemma assert_Ok {A} (c : bool) (m : outcome A) a : assert c m = Ok a -> m = Ok a.
Proof. unfold assert. by destruct c. Qed.

Lemma detach_relinks am i am' : node_assoc_detach_session am i = Ok am' -> relinks am am'.
Proof.
  unfold node_assoc_detach_session. intros (sx & _ & H)%obind_Ok. apply assert_Ok, assert_Ok in H.
  apply obind_Ok in H as (am1 & E1 & (am2 & E2 & (sx2 & E3 & [= <-])%obind_Ok)%obind_Ok).
  transitivity am1; [|transitivity am2; [|by apply relinks_session]].
  - revert E1. unfold detach_from_prev. destruct (_ =? _).
    + intros (n & Hn & [= <-]%assert_Ok)%obind_Ok. by apply relinks_node.
    + intros (s & Hs & [= <-]%assert_Ok)%obind_Ok. by apply relinks_session.
  - revert E2. unfold detach_from_next. destruct (_ =? _); [by intros [= <-]|].
    intros (s & Hs & [= <-]%assert_Ok)%obind_Ok. by apply relinks_session.
Qed.
Lemma attach_relinks am n i am' : node_assoc_attach_session am n i = Ok am' -> relinks am am'.
Proof.
  unfold node_assoc_attach_session. intros (node & Hn & (sx & Hs & (am1 & E & (sx1 & Hs1 & [= <-])%obind_Ok)%obind_Ok)%obind_Ok)%obind_Ok.
  assert (relinks am am1) as H1.
  { etrans; [by apply (relinks_session am i sx)|]. revert E. destruct (_ =? _); [by intros [= <-]|].
    intros (s & Hp & [= <-]%assert_Ok%assert_Ok)%obind_Ok. by apply relinks_session. }
  assert (Nod am1 !! n = Some node) as Hn1.
  { assert (am_nodes am1 = am_nodes am) as ->; [|revert Hn; unfold get_node, pool_elt; destruct (Nod am !! n); by intros [= ->]].
    revert E. destruct (_ =? _); [by intros [= <-]|]. by intros (s & Hp & [= <-]%assert_Ok%assert_Ok)%obind_Ok. }
  etrans; [exact H1|]. etrans; [by apply (relinks_session am1 i sx1)|]. apply relinks_node.
  unfold get_node, pool_elt. simpl. by rewrite Hn1.
Qed.

Lemma indexed_nodes e am am' :
  (forall n, na_node_id <$> Nod am' !! n = na_node_id <$> Nod am !! n) ->
  am_node_index_by_ip am' = am_node_index_by_ip am -> am_node_index_by_fqdn am' = am_node_index_by_fqdn am ->
  indexed e am -> indexed e am'.
Proof.
  intros Hn Hip Hfq [H1 H2 H3 H4].
  assert (forall n node', Nod am' !! n = Some node' -> exists node, Nod am !! n = Some node /\ na_node_id node = na_node_id node') as Hb.
  { intros n node' Hn'. specialize (Hn n). rewrite Hn' in Hn. destruct (Nod am !! n) as [node|]; [|done]. injection Hn as Hn. eauto. }
  assert (forall n node, Nod am !! n = Some node -> exists node', Nod am' !! n = Some node' /\ na_node_id node' = na_node_id node) as Hf.
  { intros n node Hn'. specialize (Hn n). rewrite Hn' in Hn. destruct (Nod am' !! n) as [node'|]; [|done]. injection Hn as Hn. eauto. }
  split; rewrite ?Hip, ?Hfq.
  - intros n node' (node & Hnd & <-)%Hb. by apply H1.
  - intros n node' (node & Hnd & <-)%Hb. by apply H2.
  - intros k n (He & node & (node' & Hnd & E)%Hf & Hk)%H3. split; [done|]. exists node'. by rewrite E.
  - intros k n (He & node & (node' & Hnd & E)%Hf & Hk)%H4. split; [done|]. exists node'. by rewrite E.
Qed.
Lemma indexed_relinks e am am' : relinks am am' -> indexed e am -> indexed e am'.
Proof. intros []. by apply indexed_nodes. Qed.

(** ** Ending a session *)

Lemma assoc_list_unset am seid n l : assoc_list am n l -> assoc_list (am_unset_session_id am seid) n l.
Proof. by apply assoc_list_frame. Qed.

Lemma detach_listed L am d sx am' :
  listed L None am -> Ses am !! d = Some sx ->
  node_assoc_detach_session (am_unset_session_id am (sx_cp_seid sx)) d = Ok am' ->
  exists l1 l2, L !! as_node (sx_assoc_ sx) = Some (l1 ++ d :: l2)
  /\ listed (<[as_node (sx_assoc_ sx) := l1 ++ l2]> L) (Some d) am' /\ relinks (am_unset_session_id am (sx_cp_seid sx)) am'.
Proof.
  intros HL Hs E. destruct (listed_at _ _ _ _ _ HL Hs) as (l & Hl & Hd); [done|].
  apply list_elem_of_split in Hd as (l1 & l2 & ->). exists l1, l2. split; [done|]. set (n := as_node (sx_assoc_ sx)) in *.
  destruct (ls_list _ _ _ HL _ _ Hl) as [Hne Ha]. set (am0 := am_unset_session_id am (sx_cp_seid sx)) in *.
  destruct (detach_session_aux am0 n d l1 l2) as (am1 & E1 & Ha1 & Hoth & _); [by apply assoc_list_unset|done|].
  rewrite E in E1. injection E1 as <-. apply detach_relinks in E. split; [|done].
  assert (NoDup (l1 ++ d :: l2)) as [_ [Hd1 [Hd2 _]%NoDup_cons]]%NoDup_app by apply Ha. destruct E as [Hseid Hnode Hid _ _].
  assert (forall i, is_Some (Ses am' !! i) <-> is_Some (Ses am !! i)) as Hdom.
  { intros i. specialize (Hseid i). simpl in Hseid. destruct (Ses am' !! i), (Ses am !! i); done. }
  split.
  - intros m. destruct (decide (m = n)) as [->|Hm].
    + rewrite lookup_insert_eq. split; [|eauto]. intros _. destruct Ha1 as (_ & node & _ & ? & _). eauto.
    + rewrite lookup_insert_ne, (ls_dom _ _ _ HL) by done. specialize (Hnode m). simpl in Hnode.
      destruct (Nod am' !! m), (Nod am !! m); done.
  - intros m l. destruct (decide (m = n)) as [->|Hm]; [rewrite lookup_insert_eq; by intros [= <-]|].
    rewrite lookup_insert_ne by done. intros Hm'. destruct (ls_list _ _ _ HL _ _ Hm') as [? Ham]. split; [done|].
    apply Hoth; [done|by apply assoc_list_unset].
  - intros i Hi Hdi. apply Hdom in Hi. destruct (ls_cover _ _ _ HL i Hi) as (m & l & Hm & Hin); [done|].
    destruct (decide (m = n)) as [->|Hmn]; [|exists m, l; by rewrite lookup_insert_ne].
    exists n, (l1 ++ l2). rewrite lookup_insert_eq. split; [done|]. simplify_eq.
    rewrite elem_of_app, elem_of_cons in Hin. rewrite elem_of_app. destruct Hin as [?|[->|?]]; [by left|done|by right].
  - intros i m l [= <-]. destruct (decide (m = n)) as [->|Hm].
    + rewrite lookup_insert_eq. intros [= <-]. rewrite elem_of_app. intros [Hin|?]; [|done]. apply (Hd1 d Hin). by left.
    + rewrite lookup_insert_ne by done. intros Hm'. destruct (ls_list _ _ _ HL _ _ Hm') as [_ Ham].
      apply (assoc_list_disjoint am n (l1 ++ d :: l2) m l); [done..|]. apply elem_of_app. right. by left.
  - intros i sx' Hi Hdi. rewrite Hid. specialize (Hseid i). simpl in Hseid. rewrite Hi in Hseid.
    destruct (Ses am !! i) as [sx0|] eqn:E0; [|done]. injection Hseid as ->. simpl.
    pose proof (ls_seid _ _ _ HL i sx0 E0 ltac:(done)) as H1. rewrite lookup_delete_ne; [done|].
    intros Heq. rewrite <- Heq, (ls_seid _ _ _ HL d sx Hs ltac:(done)) in H1. congruence.
  - intros seid i. rewrite Hid. simpl. intros [Hne' Hi]%lookup_delete_Some.
    destruct (ls_found _ _ _ HL _ _ Hi) as (_ & sx0 & E0 & <-). split; [intros [= <-]; congruence|].
    specialize (Hseid i). simpl in Hseid. rewrite E0 in Hseid. destruct (Ses am' !! i) as [sx'|]; [|done].
    injection Hseid as Hseid. eauto.
Qed.

Section Sessions.
Context {N : VppNet} {P : VppPool} {V : VecSort} {M : IpMasks}.
Context (cf : upf_config) (vnow : f64).
Abbreviation am_of u := (um_assoc u).

Lemma foldl_assoc {A} (f : upf_main_t -> A -> upf_main_t) l u : (forall v a, am_of (f v a) = am_of v) -> am_of (foldl f u l) = am_of u.
Proof. intros Hf. revert u. induction l as [|a l IH]; intros u; simpl; [done|]. by rewrite IH, Hf. Qed.
Lemma tdf_assoc is_ip4 si u acl b : am_of (pfcp_add_del_tdf cf is_ip4 si u acl b) = am_of u.
Proof. unfold pfcp_add_del_tdf. by repeat case_match. Qed.
Lemma withdraw_assoc si u r : am_of (withdraw_rules cf si u r) = am_of u.
Proof. unfold withdraw_rules. rewrite !foldl_assoc; try done; intros v a; apply tdf_assoc. Qed.

Lemma get_sx_lookup u i sx : get_sx u i = Ok sx <-> Ses (am_of u) !! i = Some sx.
Proof. unfold get_sx, get_session, pool_elt. destruct (Ses _ !! i); split; congruence. Qed.

(** the session leaves the list of its association and the table of SEIDs *)
Lemma disable_listed u d u' L :
  listed L None (am_of u) -> pfcp_disable_session cf vnow u d = Ok u' ->
  exists sx l1 l2, Ses (am_of u) !! d = Some sx /\ L !! as_node (sx_assoc_ sx) = Some (l1 ++ d :: l2)
  /\ listed (<[as_node (sx_assoc_ sx) := l1 ++ l2]> L) (Some d) (am_of u')
  /\ relinks (am_unset_session_id (am_of u) (sx_cp_seid sx)) (am_of u').
Proof.
  intros HL. unfold pfcp_disable_session.
  intros (sx & Hs%get_sx_lookup & (am & E & (sx1 & Hs1%get_sx_lookup & ([w urrs] & _ & ([w' t] & _ & [= <-])%obind_Ok)%obind_Ok)%obind_Ok)%obind_Ok)%obind_Ok.
  rewrite withdraw_assoc in E. simpl in Hs1, E.
  destruct (detach_listed _ _ _ _ _ HL Hs E) as (l1 & l2 & Hl & HL' & Hr). exists sx, l1, l2. split; [done|]. split; [done|].
  split.
  - apply (listed_put_out _ _ _ (set_rules sx1 PFCP_ACTIVE (set_inactivity (set_urrs (pfcp_get_rules sx PFCP_ACTIVE) urrs) t))) in HL'.
    revert HL'. by apply listed_same; simpl; eauto.
  - etrans; [exact Hr|]. split; try done. intros i. simpl. destruct (decide (i = d)) as [->|Hi].
    + by rewrite lookup_insert_eq, Hs1.
    + by rewrite lookup_insert_ne.
Qed.

(** and the pool *)
Lemma free_listed u d u' L :
  listed L (Some d) (am_of u) -> pfcp_free_session u d = Ok u' ->
  listed L None (am_of u') /\ Nod (am_of u') = Nod (am_of u) /\ Ses (am_of u') = delete d (Ses (am_of u))
  /\ am_session_by_id (am_of u') = am_session_by_id (am_of u)
  /\ am_node_index_by_ip (am_of u') = am_node_index_by_ip (am_of u)
  /\ am_node_index_by_fqdn (am_of u') = am_node_index_by_fqdn (am_of u).
Proof.
  intros HL. unfold pfcp_free_session. intros (sx & _ & ([gm sx1] & _ & ([gm' sx2] & _ & (u1 & E & [= <-])%obind_Ok)%obind_Ok)%obind_Ok)%obind_Ok.
  assert (am_of u1 = put_session (am_of u) d sx2) as Ea.
  { revert E. destruct (se_nat_addr _) as [[np i]|]; [|by intros [= <-]]. unfold upf_delete_nat_binding.
    destruct (pool_elt _ _); [|done]. destruct (_ !! i); [|done]. by intros [= <-]%assert_Ok. }
  simpl. rewrite Ea. split; [by apply listed_freed, listed_put_out|]. simpl. split_and!; try done.
  by rewrite delete_insert_eq.
Qed.

(** what ending the session [d] does to the tables *)
Record ended (d : Z) (am am' : assoc_main) : Prop := {
  en_gone : Ses am' !! d = None;
  en_others i : i <> d -> sx_cp_seid <$> Ses am' !! i = sx_cp_seid <$> Ses am !! i;
  en_node n : na_node_id <$> Nod am' !! n = na_node_id <$> Nod am !! n;
  en_by_id : exists sx, Ses am !! d = Some sx /\ am_session_by_id am' = delete (sx_cp_seid sx) (am_session_by_id am);
  en_by_ip : am_node_index_by_ip am' = am_node_index_by_ip am;
  en_by_fqdn : am_node_index_by_fqdn am' = am_node_index_by_fqdn am
}.
Lemma end_listed u d u1 u' L :
  listed L None (am_of u) -> pfcp_disable_session cf vnow u d = Ok u1 -> pfcp_free_session u1 d = Ok u' ->
  exists sx l1 l2, Ses (am_of u) !! d = Some sx /\ L !! as_node (sx_assoc_ sx) = Some (l1 ++ d :: l2)
  /\ listed (<[as_node (sx_assoc_ sx) := l1 ++ l2]> L) None (am_of u') /\ ended d (am_of u) (am_of u').
Proof.
  intros HL (sx & l1 & l2 & Hs & Hl & HL1 & [R1 R2 R3 R4 R5])%(fun H => disable_listed _ _ _ _ HL H).
  intros (HL2 & F1 & F2 & F3 & F4 & F5)%(fun H => free_listed _ _ _ _ HL1 H). exists sx, l1, l2. split_and!; [done..|].
  split; [by rewrite F2, lookup_delete_eq|intros i Hi; by rewrite F2, lookup_delete_ne, R1|intros n; by rewrite F1, R2| |by rewrite F4, R4|by rewrite F5, R5].
  exists sx. split; [done|]. by rewrite F3, R3.
Qed.
Lemma end_indexed e d am am' : ended d am am' -> indexed e am -> indexed e am'.
Proof. intros []. by apply indexed_nodes. Qed.
Lemma end_ok u d u1 u' :
  assoc_ok (am_of u) -> pfcp_disable_session cf vnow u d = Ok u1 -> pfcp_free_session u1 d = Ok u' -> assoc_ok (am_of u').
Proof.
  intros [[L HL] Hi] H1 H2. destruct (end_listed _ _ _ _ _ HL H1 H2) as (sx & l1 & l2 & _ & _ & HL' & He).
  split; [eauto|by eapply end_indexed].
Qed.

(** ** Releasing an association *)

(** the sessions of [l] are gone, the others are there with their SEIDs *)
Record without (l : list Z) (am am' : assoc_main) : Prop := {
  wo_gone i : i ∈ l -> Ses am' !! i = None;
  wo_others i : i ∉ l -> sx_cp_seid <$> Ses am' !! i = sx_cp_seid <$> Ses am !! i;
  wo_node n : na_node_id <$> Nod am' !! n = na_node_id <$> Nod am !! n;
  wo_by_ip : am_node_index_by_ip am' = am_node_index_by_ip am;
  wo_by_fqdn : am_node_index_by_fqdn am' = am_node_index_by_fqdn am
}.
Lemma without_nil am : without [] am am.
Proof. split; try done. by intros i ?%not_elem_of_nil. Qed.
Lemma without_cons i l am am1 am' : ended i am am1 -> without l am1 am' -> i ∉ l -> without (i :: l) am am'.
Proof.
  intros [E1 E2 E3 _ E5 E6] [W1 W2 W3 W4 W5] Hi. split; [| |by intros; rewrite W3|congruence..].
  - intros j [->|Hj]%elem_of_cons; [|by apply W1]. specialize (W2 i Hi). rewrite E1 in W2. by destruct (Ses am' !! i).
  - intros j [Hj Hl]%not_elem_of_cons. by rewrite W2, E2.
Qed.

Lemma chain_first n m prev first l last : chain m n prev first l last u32_none -> first = List.hd u32_none l.
Proof. destruct l; simpl; [tauto|]. by intros (-> & _). Qed.
Lemma nodup_middle {A} (i : A) l l1 l2 : NoDup (i :: l) -> i :: l = l1 ++ i :: l2 -> l1 = [] /\ l2 = l.
Proof.
  intros [Hi _]%NoDup_cons. destruct l1 as [|j l1]; simpl; [by intros [= ->]|]. intros [= <- ->]. destruct Hi.
  apply elem_of_app. right. by left.
Qed.

(** the fault that stands for a loop that does not end *)
Definition ends {A} (o : outcome A) : Prop := o <> Fault NoFuel.
Lemma ends_obind {A B} (m : outcome A) (k : A -> outcome B) : ends m -> (forall a, m = Ok a -> ends (k a)) -> ends (obind m k).
Proof. unfold ends. destruct m as [a|c|f]; simpl; [auto|done|]. intros H _ [= ->]. by apply H. Qed.
Lemma ends_assert {A} c (m : outcome A) : ends m -> ends (assert c m).
Proof. unfold assert. by destruct c. Qed.
Lemma ends_Ok {A} (a : A) : ends (Ok a).
Proof. done. Qed.
End Sessions.
Create HintDb ends.
#[export] Hint Resolve ends_assert ends_Ok : ends.
Ltac ends_tac :=
  repeat first [ progress cbv beta iota zeta | done | solve [auto with ends] | apply ends_assert
               | apply ends_obind; [|intros ? _] | match goal with |- ends (match ?x with _ => _ end) => destruct x end ].
Section Ends.
Context {N : VppNet} {P : VppPool} {V : VecSort} {M : IpMasks}.
Context (cf : upf_config) (vnow : f64).

Lemma ends_get_session am i : ends (get_session am i).
Proof. unfold get_session. ends_tac. Qed.
Lemma ends_get_node am n : ends (get_node am n).
Proof. unfold get_node. ends_tac. Qed.
Lemma ends_get_sx u i : ends (get_sx u i).
Proof. apply ends_get_session. Qed.
Hint Resolve ends_get_session ends_get_node ends_get_sx : ends.
Lemma ends_detach am i : ends (node_assoc_detach_session am i).
Proof. unfold node_assoc_detach_session, detach_from_prev, detach_from_next. ends_tac. Qed.
Lemma ends_stop w t now : ends (upf_pfcp_session_stop_urr_time w t now).
Proof. unfold upf_pfcp_session_stop_urr_time, wheel_stop. ends_tac. Qed.
Lemma ends_stop_inactivity w t now : ends (upf_pfcp_session_stop_up_inactivity_timer w t now).
Proof. unfold upf_pfcp_session_stop_up_inactivity_timer, wheel_stop. ends_tac. Qed.
Hint Resolve ends_detach ends_stop ends_stop_inactivity : ends.
Lemma ends_stop_all w l t : ends (stop_all_timers w l t).
Proof. revert w. induction l as [|u l IH]; intros w; simpl; unfold stop_urr_timers; ends_tac. Qed.
Hint Resolve ends_stop_all : ends.
Lemma ends_disable u d : ends (pfcp_disable_session cf vnow u d).
Proof. unfold pfcp_disable_session. ends_tac. Qed.
Hint Resolve ends_disable : ends.
Lemma ends_free_each {T} (free : rule_main -> T -> outcome rule_main) gm l :
  (forall gm t, ends (free gm t)) -> ends (free_each free gm l).
Proof. intros H. revert gm. induction l as [|t l IH]; intros gm; simpl; ends_tac. Qed.
Lemma ends_free_rules gm sx r : ends (pfcp_free_rules gm sx r).
Proof.
  unfold pfcp_free_rules. repeat (apply ends_obind; [apply ends_free_each; intros|intros ? _]); [..|done]; try done.
  - unfold pfcp_free_pdr, upf_adf_put_adr_db. ends_tac.
  - unfold pfcp_free_qer, detach_qer_policer, policer_add. ends_tac.
Qed.
Hint Resolve ends_free_rules : ends.
Lemma ends_free u d : ends (pfcp_free_session u d).
Proof. unfold pfcp_free_session, upf_delete_nat_binding. ends_tac. Qed.

(** the loop ends the sessions of the list, and comes to its end *)
Lemma release_sessions_ok fuel u n l L :
  listed L None (um_assoc u) -> L !! n = Some l -> (length l <= fuel)%nat ->
  let o := release_sessions cf vnow fuel u n (List.hd u32_none l) in
  ends o /\ forall u', o = Ok u' -> listed (<[n := []]> L) None (um_assoc u') /\ without l (um_assoc u) (um_assoc u').
Proof.
  revert u l L. induction fuel as [|fuel IH]; intros u l L HL Hl Hf.
  { destruct l; [|simpl in Hf; lia]. simpl. split; [done|]. intros u' [= <-]. rewrite insert_id by done.
    split; [done|apply without_nil]. }
  destruct l as [|i l]; simpl.
  { split; [done|]. intros u' [= <-]. rewrite insert_id by done. split; [done|apply without_nil]. }
  destruct (ls_list _ _ _ HL n _ Hl) as [Hn (Hnd & node & last & Hnode & Hc)]. destruct Hc as (_ & Hi & sx & Hs & Hns & _ & Hc).
  rewrite (proj2 (Z.eqb_neq i u32_none)) by done. rewrite (proj2 (get_sx_lookup u i sx) Hs). simpl. rewrite Hns, Z.eqb_refl.
  unfold assert. rewrite (chain_first _ _ _ _ _ _ Hc).
  destruct (pfcp_disable_session cf vnow u i) as [u1|c|f] eqn:E1; simpl;
    [|done|split; [|done]; intros [= ->]; by apply (ends_disable u i)].
  destruct (pfcp_free_session u1 i) as [u2|c|f] eqn:E2; simpl;
    [|done|split; [|done]; intros [= ->]; by apply (ends_free u1 i)].
  destruct (end_listed cf vnow _ _ _ _ _ HL E1 E2) as (sx' & l1 & l2 & Hs' & Hl' & HL' & He). simplify_eq.
  match goal with H : _ ++ i :: _ = _ |- _ => destruct (nodup_middle _ _ _ _ Hnd (eq_sym H)) as [-> ->] end.
  destruct (IH u2 l (<[as_node (sx_assoc_ sx) := l]> L)) as [Hend Hok]; [done|by rewrite lookup_insert_eq|simpl in Hf; lia|].
  split; [done|]. intros u' Hu. destruct (Hok u' Hu) as [HL2 Hw]. rewrite insert_insert_eq in HL2. split; [done|].
  eapply without_cons; [done|done|]. by apply NoDup_cons in Hnd as [? _].
Qed.

Lemma listed_length L d am n l : listed L d am -> L !! n = Some l -> (length l <= size (Ses am))%nat.
Proof.
  intros HL Hl. destruct (ls_list _ _ _ HL n l Hl) as [_ Ha]. pose proof (proj1 Ha) as Hnd.
  rewrite <- (size_list_to_set (C := gset Z) l Hnd), <- size_dom. apply subseteq_size. intros i Hi%elem_of_list_to_set.
  destruct (assoc_list_session _ _ _ _ Ha Hi) as (sx & Hs & _). by apply elem_of_dom.
Qed.

Lemma indexed_unset am n node : Nod am !! n = Some node -> indexed None am -> indexed (Some n) (unset_node_index am (na_node_id node)).
Proof.
  intros Hn [H1 H2 H3 H4]. unfold unset_node_index. fold (is_ip_id (na_node_id node)). fold (is_fqdn_id (na_node_id node)).
  assert (forall k m, am_node_index_by_ip am !! k = Some m -> (is_ip_id (na_node_id node) = true -> k <> nid_ip (na_node_id node)) -> m <> n) as A1.
  { intros k m (_ & node' & Hn' & Hip & <-)%H3 Hk ->. simplify_eq. by apply Hk. }
  assert (forall k m, am_node_index_by_fqdn am !! k = Some m ->
            (is_fqdn_id (na_node_id node) = true -> k <> vec_elts (nid_fqdn (na_node_id node))) -> m <> n) as A2.
  { intros k m (_ & node' & Hn' & Hip & <-)%H4 Hk ->. simplify_eq. by apply Hk. }
  split; cbn [am_nodes am_node_index_by_ip am_node_index_by_fqdn].
  - intros m node' Hm He Hip. pose proof (H1 m node' Hm ltac:(done) Hip) as Hk. destruct (is_ip_id (na_node_id node)) eqn:Eid; [|done].
    rewrite lookup_delete_ne; [done|]. intros Heq. pose proof (H1 n node Hn ltac:(done) Eid). congruence.
  - intros m node' Hm He Hip. pose proof (H2 m node' Hm ltac:(done) Hip) as Hk. destruct (is_fqdn_id (na_node_id node)) eqn:Eid; [|done].
    rewrite lookup_delete_ne; [done|]. intros Heq. pose proof (H2 n node Hn ltac:(done) Eid). congruence.
  - intros k m Hk. assert (am_node_index_by_ip am !! k = Some m /\ (is_ip_id (na_node_id node) = true -> k <> nid_ip (na_node_id node))) as [Hk' Hne].
    { destruct (is_ip_id (na_node_id node)); [apply lookup_delete_Some in Hk as [? ?]|]; split; congruence. }
    split; [intros [= ->]; by apply (A1 _ _ Hk' Hne)|]. destruct (H3 k m Hk') as (_ & ?). done.
  - intros k m Hk. assert (am_node_index_by_fqdn am !! k = Some m /\ (is_fqdn_id (na_node_id node) = true -> k <> vec_elts (nid_fqdn (na_node_id node)))) as [Hk' Hne].
    { destruct (is_fqdn_id (na_node_id node)); [apply lookup_delete_Some in Hk as [? ?]|]; split; congruence. }
    split; [intros [= ->]; by apply (A2 _ _ Hk' Hne)|]. destruct (H4 k m Hk') as (_ & ?). done.
Qed.

Lemma indexed_freed am n : indexed (Some n) am -> indexed None (free_node am n).
Proof.
  intros [H1 H2 H3 H4]. split; simpl.
  - intros m node [Hm Hn]%lookup_delete_Some _. apply H1; [done|congruence].
  - intros m node [Hm Hn]%lookup_delete_Some _. apply H2; [done|congruence].
  - intros k m (Hm & node & Hn & Hk)%H3. split; [done|]. exists node. split; [|done]. apply lookup_delete_Some. split; congruence.
  - intros k m (Hm & node & Hn & Hk)%H4. split; [done|]. exists node. split; [|done]. apply lookup_delete_Some. split; congruence.
Qed.
Lemma listed_freed_node L am n : listed L None am -> L !! n = Some [] -> listed (delete n L) None (free_node am n).
Proof.
  intros [H1 H2 H3 H4 H5 H6] Hn. split; simpl; try done.
  - intros m. destruct (decide (m = n)) as [->|Hm]; [by rewrite !lookup_delete_eq|by rewrite !lookup_delete_ne].
  - intros m l [Hm Hl]%lookup_delete_Some. destruct (H2 m l Hl) as [? Ha]. split; [done|]. revert Ha.
    apply assoc_list_frame; [|done]. simpl. by rewrite lookup_delete_ne.
  - intros i Hi Hd. destruct (H3 i Hi Hd) as (m & l & Hl & Hin). exists m, l. split; [|done]. apply lookup_delete_Some.
    split; [|done]. intros <-. simplify_eq. by apply not_elem_of_nil in Hin.
Qed.

Lemma unset_listed L am id : listed L None am -> listed L None (unset_node_index am id).
Proof. apply listed_same; simpl; eauto. Qed.

(** what is left when the association [n] has been released *)
Record released (n : Z) (am am' : assoc_main) : Prop := {
  rs_ok : assoc_ok am';
  rs_node : Nod am' !! n = None;
  rs_nodes m : m <> n -> na_node_id <$> Nod am' !! m = na_node_id <$> Nod am !! m;
  rs_ended i sx : Ses am !! i = Some sx -> as_node (sx_assoc_ sx) = n ->
    Ses am' !! i = None /\ am_session_by_id am' !! sx_cp_seid sx = None;
  rs_others i sx : Ses am !! i = Some sx -> as_node (sx_assoc_ sx) <> n ->
    am_session_by_id am' !! sx_cp_seid sx = Some i /\ exists sx', Ses am' !! i = Some sx' /\ sx_cp_seid sx' = sx_cp_seid sx;
  rs_new i : is_Some (Ses am' !! i) -> is_Some (Ses am !! i);
  rs_index : exists node, Nod am !! n = Some node
    /\ am_node_index_by_ip am' = am_node_index_by_ip (unset_node_index am (na_node_id node))
    /\ am_node_index_by_fqdn am' = am_node_index_by_fqdn (unset_node_index am (na_node_id node))
}.

Lemma release_ok u n :
  assoc_ok (um_assoc u) -> is_Some (Nod (um_assoc u) !! n) ->
  ends (UpfSession.pfcp_release_association cf vnow u n)
  /\ forall u', UpfSession.pfcp_release_association cf vnow u n = Ok u' -> released n (um_assoc u) (um_assoc u').
Proof.
  intros [[L HL] Hix] [node Hn]. unfold UpfSession.pfcp_release_association.
  assert (get_node (um_assoc u) n = Ok node) as -> by (unfold get_node, pool_elt; by rewrite Hn). cbn [obind].
  destruct (proj2 (ls_dom _ _ _ HL n)) as [l Hl]; [by eexists|]. destruct (ls_list _ _ _ HL n l Hl) as [Hnn Ha].
  set (u0 := set_um_assoc u _). pose proof (unset_listed _ _ (na_node_id node) HL : listed L None (um_assoc u0)) as HL0.
  assert (na_sessions node = List.hd u32_none l) as ->.
  { destruct Ha as (_ & node' & last & Hn' & Hc). rewrite Hn in Hn'. injection Hn' as <-. by eapply chain_first. }
  destruct (release_sessions_ok (size (Ses (um_assoc u0))) u0 n l L HL0 Hl) as [Hend Hok]; [exact (listed_length _ _ _ _ _ HL0 Hl)|].
  split.
  { apply ends_obind; [done|]. intros u1 _. apply ends_obind; [apply ends_get_node|]. intros. by apply ends_assert. }
  intros u' (u1 & E & (n1 & _ & [= <-]%assert_Ok)%obind_Ok)%obind_Ok. destruct (Hok u1 E) as [HL1 [W1 W2 W3 W4 W5]]. simpl.
  assert (indexed (Some n) (um_assoc u1)) as Hix1 by (eapply indexed_nodes; [..|exact (indexed_unset _ _ _ Hn Hix)]; done).
  assert (listed (delete n L) None (free_node (um_assoc u1) n)) as HLf.
  { rewrite <- (delete_insert_eq L n []). apply listed_freed_node; [done|apply lookup_insert_eq]. }
  assert (forall i sx, Ses (um_assoc u) !! i = Some sx -> i ∈ l <-> as_node (sx_assoc_ sx) = n) as Hin.
  { intros i sx Hs. split.
    - intros Hi. destruct (assoc_list_session _ _ _ _ Ha Hi) as (sx' & Hs' & <-). congruence.
    - intros <-. destruct (listed_at _ _ _ _ _ HL Hs) as (l' & Hl' & Hi'); [done|]. congruence. }
  split; [split; [eauto|by apply indexed_freed]|..]; simpl.
  - apply lookup_delete_eq.
  - intros m Hm. by rewrite lookup_delete_ne, W3.
  - intros i sx Hs Hi%(Hin i sx Hs). split; [by apply W1|].
    destruct (am_session_by_id (um_assoc u1) !! sx_cp_seid sx) as [j|] eqn:Ej; [|done].
    destruct (ls_found _ _ _ HL1 _ _ Ej) as (_ & sxj & Hj & Hseid). exfalso.
    assert (j <> i) as Hji by (intros ->; by rewrite (W1 i Hi) in Hj).
    destruct (decide (j ∈ l)) as [Hjl|Hjl]; [by rewrite (W1 j Hjl) in Hj|]. specialize (W2 j Hjl). rewrite Hj in W2. simpl in W2.
    destruct (Ses (um_assoc u) !! j) as [sxj0|] eqn:Ej0; [|done]. injection W2 as W2.
    pose proof (ls_seid _ _ _ HL j sxj0 Ej0 ltac:(done)). pose proof (ls_seid _ _ _ HL i sx Hs ltac:(done)). congruence.
  - intros i sx Hs Hne. assert (i ∉ l) as Hi by (by rewrite (Hin i sx Hs)). specialize (W2 i Hi). simpl in W2. rewrite Hs in W2.
    destruct (Ses (um_assoc u1) !! i) as [sx'|] eqn:E1; [|done]. injection W2 as W2. split; [|eauto].
    rewrite <- W2. by apply (ls_seid _ _ _ HL1).
  - intros i Hi. destruct (decide (i ∈ l)) as [Hl'|Hl']; [by rewrite (W1 i Hl') in Hi; destruct Hi|].
    specialize (W2 i Hl'). simpl in W2. destruct (Ses (um_assoc u1) !! i), (Ses (um_assoc u) !! i); done.
  - by exists node.
Qed.
End Ends.

(** ** Setting up an association *)

Lemma put_node_ok am n node node' :
  Nod am !! n = Some node -> na_node_id node' = na_node_id node -> na_sessions node' = na_sessions node ->
  assoc_ok am -> assoc_ok (put_node am n node').
Proof.
  intros Hn Hid Hs [[L HL] Hix]. split.
  - exists L. revert HL. apply listed_same; simpl; [| |done|done].
    + intros m x Hm. destruct (decide (m = n)) as [->|]; [|rewrite lookup_insert_ne by done; eauto].
      rewrite lookup_insert_eq. exists node'. split; [done|]. congruence.
    + intros m. destruct (decide (m = n)) as [->|]; [eauto|by rewrite lookup_insert_ne].
  - revert Hix. apply indexed_nodes; [|done|done]. intros m. simpl. destruct (decide (m = n)) as [->|]; [|by rewrite lookup_insert_ne].
    rewrite lookup_insert_eq, Hn. simpl. by rewrite Hid.
Qed.

Lemma not_found am id : pfcp_get_association am id = None ->
  (is_ip_id id = true -> am_node_index_by_ip am !! nid_ip id = None)
  /\ (is_fqdn_id id = true -> am_node_index_by_fqdn am !! vec_elts (nid_fqdn id) = None).
Proof.
  unfold pfcp_get_association, is_fqdn_id. fold (is_ip_id id). destruct (is_ip_id id); [done|]. simpl. split; [done|].
  intros H1. rewrite H1 in H. done.
Qed.
Section New.
Context {P : VppPool} {POk : VppPoolOk P}.

Lemma new_association_ok am h lcl rmt id i am' :
  assoc_ok am -> pool_room (am_nodes am) -> pfcp_get_association am id = None ->
  pfcp_new_association am h lcl rmt id = (i, am') ->
  assoc_ok am' /\ Nod am !! i = None /\ exists node, Nod am' !! i = Some node /\ na_node_id node = id.
Proof.
  intros [[L HL] Hix] Hroom [Hip Hfq]%not_found. unfold pfcp_new_association, pool_get. fold (is_ip_id id). fold (is_fqdn_id id).
  destruct (pool_pick_free (Nod am) (pool_free (am_nodes am)) Hroom) as [Hfree Hi]. set (j := pool_pick _ _) in *.
  intros [= <- <-]. cbn [am_nodes pool_elts]. split; [|split; [done|eexists; split; [apply lookup_insert_eq|done]]]. split.
  - exists (<[j := []]> L). destruct HL as [H1 H2 H3 H4 H5 H6].
    assert (L !! j = None) as HLj by (apply eq_None_not_Some; rewrite H1, Hfree; by intros []).
    split; simpl; try done.
    + intros n. destruct (decide (n = j)) as [->|]; [rewrite !lookup_insert_eq; split; eauto|by rewrite !lookup_insert_ne].
    + intros n l. destruct (decide (n = j)) as [->|Hn].
      * rewrite lookup_insert_eq. intros [= <-]. split; [lia|]. split; [constructor|]. eexists _, u32_none. simpl.
        rewrite lookup_insert_eq. done.
      * rewrite lookup_insert_ne by done. intros Hl. destruct (H2 n l Hl) as [? Ha]. split; [done|]. revert Ha.
        apply assoc_list_frame; [|done]. simpl. by rewrite lookup_insert_ne.
    + intros k Hk Hd. destruct (H3 k Hk Hd) as (n & l & Hl & Hin). exists n, l. rewrite lookup_insert_ne by congruence. done.
  - destruct Hix as [H1 H2 H3 H4]. split; cbn [am_nodes am_node_index_by_ip am_node_index_by_fqdn pool_elts].
    + intros n node Hn _ Hid. destruct (decide (n = j)) as [->|Hnj].
      * rewrite lookup_insert_eq in Hn. injection Hn as <-. simpl in Hid. rewrite Hid. apply lookup_insert_eq.
      * rewrite lookup_insert_ne in Hn by done. pose proof (H1 n node Hn ltac:(done) Hid) as Hk.
        destruct (is_ip_id id) eqn:E; [|done]. rewrite lookup_insert_ne; [done|]. intros Heq. specialize (Hip eq_refl). congruence.
    + intros n node Hn _ Hid. destruct (decide (n = j)) as [->|Hnj].
      * rewrite lookup_insert_eq in Hn. injection Hn as <-. simpl in Hid. rewrite Hid. apply lookup_insert_eq.
      * rewrite lookup_insert_ne in Hn by done. pose proof (H2 n node Hn ltac:(done) Hid) as Hk.
        destruct (is_fqdn_id id) eqn:E; [|done]. rewrite lookup_insert_ne; [done|]. intros Heq. specialize (Hfq eq_refl). congruence.
    + intros k n. destruct (is_ip_id id) eqn:E; [intros [[<- <-]|[Hk Hn]]%lookup_insert_Some|intros Hn].
      * split; [done|]. eexists. rewrite lookup_insert_eq. split; [done|]. by simpl.
      * destruct (H3 k n Hn) as (_ & node & Hnd & ?). split; [done|]. exists node. rewrite lookup_insert_ne by congruence. done.
      * destruct (H3 k n Hn) as (_ & node & Hnd & ?). split; [done|]. exists node. rewrite lookup_insert_ne by congruence. done.
    + intros k n. destruct (is_fqdn_id id) eqn:E; [intros [[<- <-]|[Hk Hn]]%lookup_insert_Some|intros Hn].
      * split; [done|]. eexists. rewrite lookup_insert_eq. split; [done|]. by simpl.
      * destruct (H4 k n Hn) as (_ & node & Hnd & ?). split; [done|]. exists node. rewrite lookup_insert_ne by congruence. done.
      * destruct (H4 k n Hn) as (_ & node & Hnd & ?). split; [done|]. exists node. rewrite lookup_insert_ne by congruence. done.
Qed.

(** ** Establishing a session *)

Lemma create_ok am n up seid cp t now i am' :
  assoc_ok am -> is_Some (Nod am !! n) -> pool_room (am_sessions am) -> am_session_by_id am !! seid = None ->
  pfcp_create_session am n up seid cp t now = Ok (i, am') ->
  assoc_ok am' /\ Ses am !! i = None
  /\ (exists sx, Ses am' !! i = Some sx /\ sx_cp_seid sx = seid /\ as_node (sx_assoc_ sx) = n)
  /\ am_session_by_id am' = <[seid := i]> (am_session_by_id am)
  /\ (forall j, j <> i -> sx_cp_seid <$> Ses am' !! j = sx_cp_seid <$> Ses am !! j)
  /\ (forall m, na_node_id <$> Nod am' !! m = na_node_id <$> Nod am !! m).
Proof.
  intros [[L HL] Hix] Hn Hroom Hseid E. destruct (proj2 (ls_dom _ _ _ HL n) Hn) as [l Hl].
  destruct (ls_list _ _ _ HL n l Hl) as [Hnn Ha].
  destruct (create_session_spec am n l up seid cp t now Ha Hroom) as (i' & am1 & E1 & Hfree & Ha1 & _ & _ & Hoth).
  rewrite E in E1. injection E1 as <- <-. revert E. unfold pfcp_create_session, pool_get.
  set (j := pool_pick _ _). set (sx0 := mk_session _ _ _ _ _ _ _ _ _ _ _). set (am0 := am_set_sessions am _).
  intros (am2 & Er%attach_relinks & E)%obind_Ok. assert (i = j) as -> by congruence.
  assert (am' = mk_amain (am_nodes am2) (am_node_index_by_ip am2) (am_node_index_by_fqdn am2) (am_sessions am2)
            (<[seid := j]> (am_session_by_id am2)) (am_assoc_counter am2) (am_sessions_counter am2 + 1)) as -> by congruence.
  destruct Er as [Rs Rn Ri Rip Rfq]. simpl in Rs, Rn, Ri, Rip, Rfq.
  assert (forall k, k <> j -> sx_cp_seid <$> Ses am2 !! k = sx_cp_seid <$> Ses am !! k) as Hk
    by (intros k Hkj; by rewrite Rs, lookup_insert_ne).
  destruct (assoc_list_session _ _ _ j Ha1) as (sxj & Hj & Hjn); [by left|]. simpl in Hj.
  assert (sx_cp_seid sxj = seid) as Hjs.
  { specialize (Rs j). rewrite Hj, lookup_insert_eq in Rs. by injection Rs. }
  split; [split|].
  - exists (<[n := j :: l]> L). destruct HL as [H1 H2 H3 H4 H5 H6].
    split; cbn [am_nodes am_sessions am_session_by_id]; rewrite ?Ri; try done.
    + intros m. destruct (decide (m = n)) as [->|Hm].
      * rewrite lookup_insert_eq. specialize (Rn n). destruct Hn as [node Hn]. rewrite Hn in Rn. destruct (Nod am2 !! n); [|done]. split; eauto.
      * rewrite lookup_insert_ne, H1 by done. specialize (Rn m). destruct (Nod am2 !! m), (Nod am !! m); done.
    + intros m lm. destruct (decide (m = n)) as [->|Hm]; [rewrite lookup_insert_eq; by intros [= <-]|].
      rewrite lookup_insert_ne by done. intros Hlm. destruct (H2 m lm Hlm) as [? Ham]. split; [done|]. by apply Hoth.
    + intros k Hks _. destruct (decide (k = j)) as [->|Hkj]; [exists n, (j :: l); rewrite lookup_insert_eq; split; [done|by left]|].
      destruct (H3 k) as (m & lm & Hlm & Hin); [|done|].
      { specialize (Hk k Hkj). destruct (Ses am2 !! k), (Ses am !! k); done. }
      destruct (decide (m = n)) as [->|Hm]; [|exists m, lm; by rewrite lookup_insert_ne].
      exists n, (j :: l). rewrite lookup_insert_eq. simplify_eq. split; [done|by right].
    + intros k sx Hks _. destruct (decide (k = j)) as [->|Hkj]; [simplify_eq; apply lookup_insert_eq|].
      specialize (Hk k Hkj). rewrite Hks in Hk. destruct (Ses am !! k) as [sx0'|] eqn:E0; [|done]. injection Hk as Hk.
      rewrite Hk, lookup_insert_ne; [by apply H5|]. intros Heq. pose proof (H5 k sx0' E0 ltac:(done)). congruence.
    + intros s k [[<- <-]|[Hs (_ & sx & Hks & <-)%H6]]%lookup_insert_Some; split; try done; [eauto|].
      assert (k <> j) as Hkj by congruence. specialize (Hk k Hkj). rewrite Hks in Hk. destruct (Ses am2 !! k) as [sx'|]; [|done].
      injection Hk as Hk. eauto.
  - revert Hix. by apply indexed_nodes.
  - split_and!; [done|by exists sxj|by simpl; rewrite Ri|done|done].
Qed.
End New.
