(* ===== verification/ApiInv.v ===== *)
(** * What the rule handlers leave alone

    The handlers of rules only prepare: whatever a request carries, and whether
    its handling succeeds or fails, the rules the data path works with stay as
    they are, in the session of the request and in all others. The proof follows
    the structure of the handlers: a relation between the states before and
    after that is a preorder is shown for the operations on the state and carried
    through the monad. *)

From Stdlib Require Import ZArith Lia String.
From stdpp Require Import base list list_numbers option numbers decidable strings gmap.
From S2P Require Import Prelude PfcpIo PfcpIe PfcpLeaf PfcpTables PfcpCodec UpfTypes UpfVec UpfUrr UpfRules UpfAssoc UpfTeid UpfAcl UrrTimer UpfIpfilter ApiMsg UpfMain UpfSession ApiRules ApiPdr ApiSession ApiDemo AssocInv.

(** ** Relations through the monad

    The relation may depend on whether an operation succeeds. *)

Create HintDb safe.

Class ErrRel {X} (R : bool -> X -> X -> Prop) := {
  er_refl a : R true a a;
  er_before ok a b c : R true a b -> R ok b c -> R ok a c;
  er_after ok a b c : R ok a b -> R true b c -> R ok a c;
  er_fail a b : R true a b -> R false a b
}.

Section Safe.
Context {S X : Type} (um : S -> X) (R : bool -> X -> X -> Prop) `{HR : !ErrRel R}.

Definition returned {A} (r : option A) : bool := match r with Some _ => true | None => false end.
Definition safe {A} (m : E S A) : Prop := forall s r s', m s = Ok (r, s') -> R (returned r) (um s) (um s').

Lemma safe_return {A} (a : A) : safe (ret a).
Proof using HR. intros s r s' [= <- <-]. apply er_refl. Qed.
Lemma safe_error {A} : safe (goto_error (A := A)).
Proof using HR. intros s r s' [= <- <-]. apply er_fail, er_refl. Qed.
Lemma safe_gets {A} (f : S -> A) : safe (gets f).
Proof using HR. intros s r s' [= <- <-]. apply er_refl. Qed.
Lemma safe_lift {A} (m : outcome A) : safe (lift m).
Proof using HR. intros s r s' H. unfold lift in H. destruct m; simpl in H; [|done..]. injection H as <- <-. apply er_refl. Qed.
Lemma safe_modify f : (forall s, R true (um s) (um (f s))) -> safe (modify f).
Proof using. intros H s r s' [= <- <-]. apply H. Qed.
Lemma safe_ebind {A B} (m : E S A) (k : A -> E S B) : safe m -> (forall a, safe (k a)) -> safe (ebind m k).
Proof using HR.
  intros Hm Hk s r s' H. unfold ebind in H. destruct (m s) as [[[a|] s1]|?|?] eqn:E; [|..|done|done].
  - eapply er_before; [exact (Hm _ _ _ E)|exact (Hk a _ _ _ H)].
  - injection H as <- <-. exact (Hm _ _ _ E).
Qed.
Lemma safe_when b m : safe m -> safe (when b m).
Proof using HR. intros H. destruct b; [exact H|apply safe_return]. Qed.
Lemma safe_if {A} (b : bool) (m1 m2 : E S A) : safe m1 -> safe m2 -> safe (if b then m1 else m2).
Proof using. by destruct b. Qed.
Lemma safe_foreach {A} (f : A -> E S unit) l : (forall x, safe (f x)) -> safe (foreach f l).
Proof using HR.
  intros Hf. induction l as [|x l IH]; [apply safe_return|]. apply safe_ebind; [apply Hf|intros _; exact IH].
Qed.
End Safe.

#[export] Hint Resolve safe_return safe_error safe_gets safe_lift safe_ebind safe_when safe_if safe_foreach : safe.

(** ** Sparing the sessions *)

Section Spares.
Context {N : VppNet}.

Definition sess (u : upf_main_t) (j : Z) : option upf_session_t := pool_elt (am_sessions (um_assoc u)) j.

(** what is sent to the control plane: responses, and requests on sessions *)
Definition is_msg (o : output) : bool := match o with OutResponse _ | OutSessionRequest _ _ _ _ => true | _ => false end.
Definition is_request (o : output) : bool := match o with OutSessionRequest _ _ _ _ => true | _ => false end.
Definition msgs (u : upf_main_t) : list output := filter (fun o => is_msg o = true) (um_out u).

(** at most [n] requests are sent, and no response *)
Definition sends (n : nat) (u u' : upf_main_t) : Prop :=
  exists l, msgs u' = msgs u ++ l /\ Forall (fun o => is_request o = true) l /\ (length l <= n)%nat.

Lemma sends_out n (u u' : upf_main_t) : um_out u' = um_out u -> sends n u u'.
Proof. intros H. exists []. unfold msgs. rewrite H, app_nil_r. repeat split; [constructor|simpl; lia]. Qed.
Lemma sends_le n m u u' : sends n u u' -> (n <= m)%nat -> sends m u u'.
Proof. intros (l & H1 & H2 & H3) H. exists l. repeat split; [done..|lia]. Qed.
Lemma sends_trans n m k a b c : sends n a b -> sends m b c -> (n + m <= k)%nat -> sends k a c.
Proof.
  intros (l & H1 & H2 & H3) (l' & H1' & H2' & H3') H. exists (l ++ l').
  rewrite H1', H1, length_app, app_assoc. repeat split; [by apply Forall_app|lia].
Qed.
Lemma sends_emit u si sx n dmsg : sends 1 u (emit u (OutSessionRequest si sx n dmsg)).
Proof.
  exists [OutSessionRequest si sx n dmsg]. unfold msgs, emit. simpl.
  rewrite filter_app, filter_cons_True by done. repeat split; [by repeat constructor|simpl; lia].
Qed.

(** the session of the request keeps its active rules, another one all of its
    rules *)
Record kept (own : bool) (sx sx' : upf_session_t) : Prop := {
  kp_active : sx_active sx' = sx_active sx;
  kp_seid : sx_cp_seid sx' = sx_cp_seid sx;
  kp_rules : active_flag sx = true -> pfcp_get_rules sx' PFCP_ACTIVE = pfcp_get_rules sx PFCP_ACTIVE;
  kp_pending : own = false -> sx_rules0 sx' = sx_rules0 sx /\ sx_rules1 sx' = sx_rules1 sx
}.

(** every session there is afterwards was there before and is kept, the session
    of the request is still there, and sessions and associations stay in order *)
Record spares (si : Z) (u u' : upf_main_t) : Prop := {
  sp_kept j sx' : sess u' j = Some sx' -> exists sx, sess u j = Some sx /\ kept (bool_decide (j = si)) sx sx';
  sp_own : is_Some (sess u si) -> is_Some (sess u' si);
  sp_assoc : assoc_ok (um_assoc u) -> assoc_ok (um_assoc u')
}.

Lemma kept_same own sx : kept own sx sx.
Proof. by split. Qed.
Lemma kept_trans own a b c : kept own a b -> kept own b c -> kept own a c.
Proof.
  intros [Ha Hs Hr Hp] [Ha' Hs' Hr' Hp']. split; [congruence..| |].
  - intros Hf. rewrite Hr', Hr; [done..|]. unfold active_flag in *. by rewrite Ha.
  - intros Ho. destruct (Hp Ho), (Hp' Ho). split; congruence.
Qed.

#[export] Instance spares_preorder si : PreOrder (spares si).
Proof.
  split.
  - intros u. split; [|done..]. intros j sx H. exists sx. split; [done|apply kept_same].
  - intros a b c [Ha Oa Wa] [Hb Ob Wb]. split; [|auto..].
    intros j sx H. destruct (Hb j sx H) as (sx1 & H1 & K1). destruct (Ha j sx1 H1) as (sx0 & H0 & K0).
    exists sx0. split; [done|exact (kept_trans _ _ _ _ K0 K1)].
Qed.

(** what leaves the sessions as they are *)
Lemma spares_same si (u u' : upf_main_t) : um_assoc u' = um_assoc u -> spares si u u'.
Proof.
  intros Hs. split; [|by unfold sess; rewrite Hs|by rewrite Hs]. intros j sx. unfold sess. rewrite Hs. intros H.
  exists sx. split; [done|apply kept_same].
Qed.

Lemma sess_put_sx u si sx j : sess (put_sx u si sx) j = if bool_decide (j = si) then Some sx else sess u j.
Proof.
  unfold sess, put_sx, pool_elt. simpl. case_bool_decide as E; [subst; by rewrite lookup_insert_eq|].
  by rewrite lookup_insert_ne.
Qed.

(** the session of the request keeps its place in the list of its association *)
Definition kept_own (sx sx' : upf_session_t) : Prop := kept true sx sx' /\ sx_assoc_ sx' = sx_assoc_ sx.
Lemma kept_own_same sx : kept_own sx sx.
Proof. split; [apply kept_same|done]. Qed.
Lemma kept_own_trans a b c : kept_own a b -> kept_own b c -> kept_own a c.
Proof. intros [Ha Ea] [Hb Eb]. split; [by eapply kept_trans|congruence]. Qed.

Lemma put_assoc_ok am si sx sx' :
  pool_elt (am_sessions am) si = Some sx -> sx_assoc_ sx' = sx_assoc_ sx -> sx_cp_seid sx' = sx_cp_seid sx ->
  assoc_ok am -> assoc_ok (put_session am si sx').
Proof.
  intros Hs Ha Hi [[L HL] Hix]. split; [exists L; by eapply listed_put|]. revert Hix. by apply indexed_nodes.
Qed.
Lemma spares_put si u sx sx' : sess u si = Some sx -> kept_own sx sx' -> spares si u (put_sx u si sx').
Proof.
  intros Hs [Hk Ha]. split; [| |by eapply put_assoc_ok; [exact Hs|exact Ha|apply (kp_seid _ _ _ Hk)]].
  - intros j y. rewrite sess_put_sx. case_bool_decide as E.
    + intros [= <-]. exists sx. subst. split; [done|exact Hk].
    + intros H. exists y. split; [done|apply kept_same].
  - intros _. rewrite sess_put_sx, bool_decide_true by done. eauto.
Qed.

Lemma kept_pending sx r : kept_own sx (set_rules sx PFCP_PENDING r).
Proof. split; [|done]. split; [done..| |done]. intros H. by apply get_set_rules_other. Qed.

Lemma kept_make_pending (T : Type) `{R : RuleKind T} sx : kept_own sx (pfcp_make_pending (T := T) sx).
Proof.
  unfold pfcp_make_pending. destruct (rules_get _); [apply kept_own_same|].
  destruct (rules_get _); [apply kept_pending|apply kept_own_same].
Qed.

Lemma get_sx_Ok u si sx : get_sx u si = Ok sx -> sess u si = Some sx.
Proof. unfold get_sx, get_session, sess. destruct (pool_elt _ _); by intros [= ->]. Qed.
End Spares.
#[export] Existing Instance spares_preorder.

(** ** Ending another session *)

Section Ending.
Context {N : VppNet} {P : VppPool} {V : VecSort}.
Context (cf : upf_config) (now vnow : f64).

(** all sessions but the one at [d] keep their rules, and none appears or goes *)
Record others (d : Z) (u u' : upf_main_t) : Prop := {
  ot_kept j : j <> d -> option_Forall2 (kept false) (sess u j) (sess u' j);
  ot_out : um_out u' = um_out u
}.

#[local] Instance kept_preorder own : PreOrder (kept own).
Proof. split; [intros sx; apply kept_same|intros a b c; apply kept_trans]. Qed.
#[local] Instance others_preorder d : PreOrder (others d).
Proof.
  split.
  - intros u. split; [|done]. intros j _. reflexivity.
  - intros a b c [Ha Qa] [Hb Qb]. split; [|congruence]. intros j Hj. etrans; eauto.
Qed.

Lemma kept_set_assoc own sx a : kept own sx (set_assoc sx a).
Proof. by split. Qed.

(** the list of an association is changed by changing links *)
Definition links (am am' : assoc_main) : Prop :=
  forall j, option_Forall2 (kept false) (pool_elt (am_sessions am) j) (pool_elt (am_sessions am') j).
#[local] Instance links_preorder : PreOrder links.
Proof. split; [intros a j; reflexivity|intros a b c H1 H2 j; etrans; [apply H1|apply H2]]. Qed.

Lemma links_put am i sx sx' : get_session am i = Ok sx -> kept false sx sx' -> links am (put_session am i sx').
Proof.
  unfold get_session. intros H Hk j. destruct (pool_elt (am_sessions am) i) as [y|] eqn:E; [|done]. injection H as ->.
  unfold put_session, pool_elt in *. simpl. destruct (decide (i = j)) as [->|Hne].
  - rewrite lookup_insert_eq, E. by constructor.
  - rewrite lookup_insert_ne by done. reflexivity.
Qed.

Lemma detach_links am i am' : node_assoc_detach_session am i = Ok am' -> links am am'.
Proof.
  unfold node_assoc_detach_session, assert. destruct (get_session am i) as [sx|?|?] eqn:E; [|done..]. simpl.
  case_match; [|done]. case_match; [|done].
  destruct (detach_from_prev am (sx_assoc_ sx)) as [am1|?|?] eqn:E1; [|done..]. simpl.
  destruct (detach_from_next am1 (sx_assoc_ sx)) as [am2|?|?] eqn:E2; [|done..]. simpl.
  destruct (get_session am2 i) as [sx2|?|?] eqn:E3; [|done..]. simpl. intros [= <-].
  transitivity am1; [|transitivity am2].
  - revert E1. unfold detach_from_prev, assert. case_match.
    + destruct (get_node _ _); [|done..]. simpl. case_match; [|done]. intros [= <-]. intros j. reflexivity.
    + destruct (get_session am (as_prev (sx_assoc_ sx))) as [pr|?|?] eqn:G; [|done..]. simpl. case_match; [|done]. intros [= <-].
      exact (links_put _ _ _ _ G (kept_set_assoc _ _ _)).
  - revert E2. unfold detach_from_next, assert. case_match; [intros [= <-]; reflexivity|].
    destruct (get_session am1 (as_next (sx_assoc_ sx))) as [nx|?|?] eqn:G; [|done..]. simpl. case_match; [|done]. intros [= <-].
    exact (links_put _ _ _ _ G (kept_set_assoc _ _ _)).
  - exact (links_put _ _ _ _ E3 (kept_set_assoc _ _ _)).
Qed.

Lemma others_assoc d (u : upf_main_t) am : links (um_assoc u) am -> others d u (set_um_assoc u am).
Proof. intros H. split; [|done]. intros j _. apply H. Qed.
Lemma others_same d (u u' : upf_main_t) : um_assoc u' = um_assoc u -> um_out u' = um_out u -> others d u u'.
Proof. intros H Hr. split; [|done]. intros j _. unfold sess. by rewrite H. Qed.
Lemma others_put d u sx : others d u (put_sx u d sx).
Proof. split; [|done]. intros j Hj. rewrite sess_put_sx, bool_decide_false by done. reflexivity. Qed.

(** steps that leave the sessions and the output as they are *)
Definition tables_only (u u' : upf_main_t) : Prop := um_assoc u' = um_assoc u /\ um_out u' = um_out u /\ um_wheel u' = um_wheel u.
#[local] Instance tables_only_preorder : PreOrder tables_only.
Proof. split; [done|]. intros a b c (?&?&?) (?&?&?). repeat split; congruence. Qed.
Lemma foldl_tables {A} (f : upf_main_t -> A -> upf_main_t) l u u' :
  tables_only u u' -> (forall v a, tables_only v (f v a)) -> tables_only u (foldl f u' l).
Proof. intros H Hf. revert u' H. induction l as [|a l IH]; intros u' H; simpl; [done|]. apply IH. etrans; eauto. Qed.
Lemma add_del_tdf_tables is_ip4 si u acl b : tables_only u (pfcp_add_del_tdf cf is_ip4 si u acl b).
Proof. unfold pfcp_add_del_tdf. repeat case_match; done. Qed.
Lemma withdraw_tables si u r : tables_only u (withdraw_rules cf si u r).
Proof.
  unfold withdraw_rules. repeat (apply foldl_tables; [|intros ? ?; first [apply add_del_tdf_tables|done]]). reflexivity.
Qed.

Lemma disable_others d u u' : pfcp_disable_session cf vnow u d = Ok u' -> others d u u'.
Proof.
  unfold pfcp_disable_session. destruct (get_sx u d) as [sx|?|?]; [|done..]. simpl.
  pose proof (withdraw_tables d (set_um_assoc u (am_unset_session_id (um_assoc u) (sx_cp_seid sx)))
                (pfcp_get_rules sx PFCP_ACTIVE)) as (Ha & Ho & _).
  set (u1 := withdraw_rules _ _ _ _) in *.
  assert (others d u u1) as H1.
  { split; [|by rewrite Ho]. intros j _. unfold sess. rewrite Ha. reflexivity. }
  destruct (node_assoc_detach_session (um_assoc u1) d) as [am|?|?] eqn:D; [|done..]. simpl.
  apply detach_links, (others_assoc d) in D.
  destruct (get_sx _ d) as [sx1|?|?]; [|done..]. simpl.
  destruct (stop_all_timers _ _ _) as [[w urrs]|?|?]; [|done..]. simpl.
  destruct (upf_pfcp_session_stop_up_inactivity_timer _ _ _) as [[w' t]|?|?]; [|done..]. simpl. intros [= <-].
  etrans; [exact H1|]. etrans; [exact D|].
  match goal with |- others _ _ (set_um_assoc ?v _) => etrans; [|apply (others_assoc d v); intros j; reflexivity] end.
  match goal with |- others _ _ (put_sx ?v _ _) => etrans; [|apply (others_put d v)] end.
  by apply others_same.
Qed.

Lemma free_others d u u' : pfcp_free_session u d = Ok u' -> others d u u' /\ sess u' d = None.
Proof.
  unfold pfcp_free_session. destruct (get_sx u d) as [sx|?|?]; [|done..]. simpl.
  destruct (pfcp_free_rules _ _ _) as [[gm sx1]|?|?]; [|done..]. simpl.
  destruct (pfcp_free_rules _ _ _) as [[gm' sx2]|?|?]; [|done..]. simpl.
  set (u1 := put_sx _ _ _).
  assert (others d u u1) as H1 by (etrans; [|apply others_put]; by apply others_same).
  match goal with |- context [obind ?m _] => destruct m as [u2|?|?] eqn:E; [|done..] end. simpl. intros [= <-].
  assert (others d u1 u2) as H2.
  { revert E. destruct (se_nat_addr _) as [[np i]|]; [|by intros [= <-]]. unfold upf_delete_nat_binding, assert.
    repeat (case_match; [|done]). intros [= <-]. by apply others_same. }
  split.
  - etrans; [exact H1|]. etrans; [exact H2|]. split; [|done]. intros j Hj.
    unfold sess, pool_elt. simpl. rewrite lookup_delete_ne by done. reflexivity.
  - unfold sess, pool_elt. simpl. apply lookup_delete_eq.
Qed.

Lemma deletion_report_keeps sx sx' m :
  upf_pfcp_session_up_deletion_report now vnow sx = Ok (sx', m) -> sx_assoc_ sx' = sx_assoc_ sx /\ sx_cp_seid sx' = sx_cp_seid sx.
Proof. unfold upf_pfcp_session_up_deletion_report. case_match; [by intros [= <- _]|]. by intros ([urrs out] & _ & [= <- _])%obind_Ok. Qed.

Lemma purge_spares u d si u' :
  d <> si -> purge_conflicting_session cf now vnow u d si = Ok u' -> spares si u u' /\ sends 1 u u'.
Proof.
  intros Hne. unfold purge_conflicting_session, send_deletion_report.
  destruct (get_sx u d) as [sxo|?|?] eqn:Eo; [|done..]. simpl. destruct (get_sx u si) as [sxn|?|?]; [|done..]. simpl.
  case_match; [intros [= <-]; split; [reflexivity|by apply sends_out]|].
  destruct (upf_pfcp_session_up_deletion_report _ _ _) as [[sx m]|?|?] eqn:Er; [|done..]. simpl.
  set (u1 := emit _ _).
  destruct (pfcp_disable_session _ _ _ _) as [u2|?|?] eqn:E2; [|done..]. simpl. intros E3.
  destruct (free_others _ _ _ E3) as [[K3 O3] Hd]. destruct (disable_others _ _ _ E2) as [K2 O2].
  assert (forall j, j <> d -> option_Forall2 (kept false) (sess u j) (sess u' j)) as Hk.
  { intros j Hj. etrans; [exact (ot_kept _ _ _ (others_put d u sx) j Hj)|]. etrans; [exact (K2 j Hj)|exact (K3 j Hj)]. }
  split; [split|].
  - intros j sx' Hj. assert (j <> d) as Hjd by congruence. specialize (Hk j Hjd). rewrite Hj in Hk.
    inversion Hk as [a b K Ea Eb|]; subst. exists a. split; [done|]. destruct K as [K1 K4 K5 K6]. split; [done..|].
    intros _. by apply K6.
  - intros [x Hx]. specialize (Hk si (not_eq_sym Hne)). rewrite Hx in Hk. inversion Hk; eauto.
  - intros Hok. destruct (deletion_report_keeps _ _ _ Er). eapply end_ok; [|exact E2|exact E3].
    eapply (put_assoc_ok (um_assoc u)); [exact (get_sx_Ok _ _ _ Eo)|done..].
  - eapply (sends_trans 1 0 1 _ u1); [apply (sends_emit (put_sx u d sx))|apply sends_out; congruence|done].
Qed.

Lemma conflict_spares si dpo c v c' v' :
  resolve_conflict cf now vnow si dpo c v = Ok (c', v') ->
  spares si v v' /\ ((c' = c /\ v' = v) \/ (c' = -1 /\ sends 1 v v')).
Proof.
  destruct dpo as [d|]; unfold resolve_conflict; [|intros [= <- <-]; split; [reflexivity|by left]].
  destruct (Z.eqb_spec d si) as [->|Hne]; [intros [= <- <-]; split; [reflexivity|by left]|].
  destruct (purge_conflicting_session _ _ _ _ _ _) as [v1|?|?] eqn:E; [|done..]. intros [= <- <-].
  destruct (purge_spares _ _ _ _ Hne E). split; [done|by right].
Qed.
Lemma conflicts_spares u si nwi ue r u' :
  resolve_ue_ip_conflicts cf now vnow u si nwi ue = Ok (r, u') ->
  spares si u u' /\ ((r = 0 /\ u' = u) \/ (r = -1 /\ sends 2 u u')).
Proof.
  unfold resolve_ue_ip_conflicts. intros H.
  assert (exists r1 u1, (if flag (ue_flags ue) IE_UE_IP_ADDRESS_V4
            then resolve_conflict cf now vnow si (upf_get_session_dpo_ip4 u nwi (ue_ip4 ue)) 0 u else Ok (0, u)) = Ok (r1, u1)
          /\ spares si u u1 /\ ((r1 = 0 /\ u1 = u) \/ (r1 = -1 /\ sends 1 u u1))) as (r1 & u1 & E1 & H1 & S1).
  { case_match; [|exists 0, u; split; [done|split; [reflexivity|by left]]].
    destruct (resolve_conflict _ _ _ _ _ 0 u) as [[r1 u1]|?|?] eqn:E1; [|done..]. apply conflict_spares in E1. eauto. }
  rewrite E1 in H. simpl in H. destruct (flag (ue_flags ue) IE_UE_IP_ADDRESS_V6).
  - destruct (conflict_spares _ _ _ _ _ _ H) as [H2 S2]. split; [by etrans|].
    destruct S1 as [[-> ->]|[-> S1]], S2 as [[-> ->]|[-> S2]]; [by left|right|right|right]; (split; [done|]).
    + by eapply sends_le; [|apply le_S, le_n].
    + by eapply sends_le; [|apply le_S, le_n].
    + by eapply sends_trans.
  - injection H as <- <-. split; [done|]. destruct S1 as [[-> ->]|[-> S1]]; [by left|right]. split; [done|].
    by eapply sends_le; [|apply le_S, le_n].
Qed.
End Ending.

(** ** The rule handlers *)

Section Prepares.
Context {N : VppNet} (si : Z).

(** the same, with the response, whose cause is left to the end of a handler;
    requests are sent only on the way to an error, two at most *)
Definition prepares (ok : bool) (s s' : hstate) : Prop :=
  spares si (h_um s) (h_um s') /\ sr_cause (h_resp s') = sr_cause (h_resp s)
  /\ sends (if ok then 0 else 2) (h_um s) (h_um s').
Lemma prepares_rel : ErrRel prepares.
Proof.
  split.
  - intros a. split; [reflexivity|]. split; [done|by apply sends_out].
  - intros ok a b c (? & ? & ?) (? & ? & ?). split; [by etrans|]. split; [congruence|].
    eapply sends_trans; [done..|]. by destruct ok.
  - intros ok a b c (? & ? & ?) (? & ? & ?). split; [by etrans|]. split; [congruence|].
    eapply sends_trans; [done..|]. by destruct ok.
  - intros a b (? & ? & ?). split; [done|]. split; [done|]. eapply sends_le; [done|lia].
Qed.
Lemma prepares_um s u : spares si (h_um s) u -> um_out u = um_out (h_um s) -> prepares true s (set_h_um s u).
Proof. split; [done|]. split; [done|by apply sends_out]. Qed.
End Prepares.
#[export] Existing Instance prepares_rel.

Ltac safe_step :=
  first [ assumption | apply prepares_rel | solve [auto with safe] | apply safe_ebind | apply safe_when | apply safe_foreach
        | match goal with |- forall _, _ => intro end | case_match | progress cbv beta iota ].
Ltac safe_tac := repeat safe_step.

Section Handlers.
Context {N : VppNet} {P : VppPool} {V : VecSort} {U : VppUnformat} {Mem : VppMemory}.
Context (cf : upf_config) (now vnow : f64) (attempts : nat) (si : Z).

Abbreviation safe_h := (safe (fun s : hstate => s) (prepares si)).
Abbreviation um_of T := (fun st : hstate * T => fst st).
Abbreviation safe_t T := (safe (um_of T) (prepares si)).

Lemma safe_modify_sx f : (forall sx, kept_own sx (f sx)) -> safe_h (modify_sx si f).
Proof.
  intros Hf s r s' H. unfold modify_sx in H. destruct (get_sx (h_um s) si) as [sx|?|?] eqn:E; [|done..].
  simpl in H. injection H as <- <-. apply prepares_um; [|done]. eapply spares_put; [exact (get_sx_Ok _ _ _ E)|apply Hf].
Qed.
Lemma safe_modify_pending f : safe_h (modify_pending si f).
Proof. apply safe_modify_sx. intros sx. apply kept_pending. Qed.
Lemma safe_read_sx : safe_h (read_sx si).
Proof.
  intros s r s' H. unfold read_sx in H. destruct (get_sx _ _); [|done..]. simpl in H. injection H as <- <-. apply er_refl.
Qed.
Lemma safe_resp (f : session_response -> session_response) :
  (forall r, sr_cause (f r) = sr_cause r) -> safe_h (modify (fun s => set_h_resp s (f (h_resp s)))).
Proof. intros H. apply safe_modify. intros s. split; [reflexivity|]. split; [apply H|by apply sends_out]. Qed.
Lemma safe_rule_error {A} id fmt args : safe_h (rule_error (A := A) id fmt args).
Proof.
  unfold rule_error, rule_error_msg. apply safe_ebind; [apply prepares_rel| |intros _; apply safe_error, prepares_rel].
  apply (safe_resp (fun r => set_failed_id (tp_session_error_report r fmt (FInt id :: args)) id)). done.
Qed.
Lemma safe_with_um {A} (f : upf_main_t -> outcome (A * upf_main_t)) :
  (forall u a u', f u = Ok (a, u') -> spares si u u' /\ um_out u' = um_out u) -> safe_h (with_um f).
Proof.
  intros Hf s r s' H. unfold with_um in H. destruct (f (h_um s)) as [[a u]|?|?] eqn:E; [|done..].
  simpl in H. injection H as <- <-. destruct (Hf _ _ _ E). by apply prepares_um.
Qed.

Lemma safe_on_rule {T A} (m : E hstate A) : safe_h m -> safe_t T (on_rule m).
Proof.
  intros Hm [s t] r [s' t'] H. unfold on_rule in H. destruct (m s) as [[a s1]|?|?] eqn:E; [|done..].
  simpl in H. injection H as <- <- <-. exact (Hm _ _ _ E).
Qed.
Lemma safe_assign {T} (f : T -> T) : safe_t T (assign f).
Proof. apply safe_modify. intros [s t]. apply er_refl. Qed.

Section Kind.
Context {T : Type} `{R : RuleKind T}.

Lemma safe_make_pending : safe_h (make_pending (T := T) si).
Proof. apply safe_modify_sx. intros sx. apply kept_make_pending. Qed.
Lemma safe_alloc_rules : safe_h (alloc_rules (T := T) si).
Proof. apply safe_modify_pending. Qed.
Lemma safe_sort_rules : safe_h (sort_rules (T := T) si).
Proof. apply safe_modify_pending. Qed.

Lemma finish_rule_prepares r r' s s' f :
  finish_rule r s (modify_pending si f) = Ok (r', s') -> r' = r /\ prepares si true s s'.
Proof.
  unfold finish_rule. destruct (modify_pending si f s) as [[r1 s1]|?|?] eqn:E; [|done..].
  pose proof (safe_modify_pending f _ _ _ E) as Hp. unfold modify_pending, modify_sx in E.
  destruct (get_sx _ _); [|done..]. injection E as <- <-. intros [= <- <-]. done.
Qed.
Lemma safe_add_rule zero body : safe_t T body -> safe_h (add_rule si zero body).
Proof.
  intros Hb s r s' H. unfold add_rule in H. destruct (body (s, zero)) as [[r1 [s1 t]]|?|?] eqn:E; [|done..].
  simpl in H. apply finish_rule_prepares in H as [-> H]. eapply er_after; [exact (Hb _ _ _ E)|exact H].
Qed.
Lemma safe_edit_rule i t body : safe_t T body -> safe_h (edit_rule si i t body).
Proof.
  intros Hb s r s' H. unfold edit_rule in H. destruct (body (s, t)) as [[r1 [s1 t1]]|?|?] eqn:E; [|done..].
  simpl in H. apply finish_rule_prepares in H as [-> H]. eapply er_after; [exact (Hb _ _ _ E)|exact H].
Qed.
Lemma safe_get_rule id : safe_h (get_rule (T := T) si id).
Proof.
  apply safe_ebind; [typeclasses eauto|apply safe_make_pending|intros _].
  apply safe_ebind; [typeclasses eauto|apply safe_read_sx|intros sx]. apply safe_return, _.
Qed.

Lemma delete_kept gm sx id r sx' gm' : pfcp_delete (T := T) gm sx id = Ok (r, sx', gm') -> kept_own sx sx'.
Proof.
  unfold pfcp_delete. destruct (pfcp_get_by_id _ _) as [i|].
  - destruct (vec_elts _ !! i) as [t|]; [|done]. destruct (rule_free gm t); [|done..]. intros [= _ <- _].
    eapply kept_own_trans; [apply kept_make_pending|apply kept_pending].
  - intros [= _ <- _]. apply kept_make_pending.
Qed.
Lemma safe_remove_rule id fmt : safe_h (remove_rule (T := T) si id fmt).
Proof.
  intros s r s' H. unfold remove_rule, read_sx, gets, lift, ebind in H.
  destruct (get_sx (h_um s) si) as [sx|?|?] eqn:E; [|done..]. simpl in H.
  destruct (pfcp_delete _ sx id) as [[[c sx'] gm]|?|?] eqn:D; [|done..]. simpl in H.
  assert (spares si (h_um s) (put_sx (set_um_rules (h_um s) gm) si sx')) as H1.
  { change (put_sx (set_um_rules (h_um s) gm) si sx') with (set_um_rules (put_sx (h_um s) si sx') gm).
    etrans; [exact (spares_put _ _ _ _ (get_sx_Ok _ _ _ E) (delete_kept _ _ _ _ _ _ D))|by apply spares_same]. }
  eapply er_before; [exact (prepares_um si _ _ H1 eq_refl)|].
  exact (safe_when _ (prepares si) _ _ (safe_rule_error id fmt []) _ _ _ H).
Qed.
End Kind.

Hint Resolve safe_modify_pending safe_read_sx safe_resp safe_rule_error safe_on_rule safe_assign safe_make_pending
  safe_alloc_rules safe_sort_rules safe_add_rule safe_edit_rule safe_get_rule safe_remove_rule prepares_rel : safe.

(** *** FARs *)

Lemma alloc_binding_spares u pi np i user cb c u' cb' :
  upf_alloc_and_assign_nat_binding u pi np i si user cb = Ok (c, u', cb') -> spares si u u' /\ um_out u' = um_out u.
Proof.
  unfold upf_alloc_and_assign_nat_binding. destruct (np_addresses np !! i) as [a|]; [|done].
  destruct (nat_create_binding _ _ _ _ _) as [port net]. destruct (port =? 0); intros [= _ <- _]; split; try done; by apply spares_same.
Qed.
Lemma safe_nat_binding name : safe_h (handle_nat_binding_creation cf si name).
Proof.
  intros s r s' H. unfold handle_nat_binding_creation, gets, lift, ebind in H.
  destruct (se_nat_addr _); [injection H as <- <-; apply er_refl|]. destruct (is_zero_addr _); [injection H as <- <-; apply er_refl|].
  destruct (get_nat_pool_by_name _ _ _) as [[[pi np]|]|?|?]; [|injection H as <- <-; apply er_refl|done..]. simpl in H.
  destruct (get_nat_addr np) as [i|]; [|injection H as <- <-; apply er_refl].
  destruct (upf_alloc_and_assign_nat_binding _ _ _ _ _ _ _) as [[[c u] cb]|?|?] eqn:E; [|done..].
  injection H as <- <-. destruct (alloc_binding_spares _ _ _ _ _ _ _ _ _ E). split; [done|]. split; [done|by apply sends_out].
Qed.
Hint Resolve safe_nat_binding : safe.

Lemma safe_assign_forward f : safe_t upf_far_t (assign_forward f).
Proof. apply safe_assign. Qed.
Hint Resolve safe_assign_forward : safe.

Lemma safe_far_network_instance id name : safe_t upf_far_t (far_network_instance cf id name).
Proof. unfold far_network_instance. safe_tac. Qed.
Lemma safe_far_outer_header id ohc : safe_t upf_far_t (far_outer_header_creation cf id ohc).
Proof. unfold far_outer_header_creation. safe_tac. Qed.
Hint Resolve safe_far_network_instance safe_far_outer_header : safe.

Lemma end_marker_kept u sx id sx' : pfcp_send_end_marker u sx id = Ok sx' -> kept_own sx sx'.
Proof.
  unfold pfcp_send_end_marker. destruct (pfcp_get_by_id _ _) as [i|]; [|intros [= <-]; apply kept_own_same].
  destruct (vec_elts _ !! i) as [f|]; [|done]. destruct (pool_elt _ _); [|done]. intros [= <-]. apply kept_pending.
Qed.
Lemma safe_end_marker id :
  safe_h (let! u := gets h_um in let! sx := read_sx si in
          let! sx := lift (pfcp_send_end_marker u sx id) in modify_sx si (fun _ => sx)).
Proof.
  intros s r s' H. unfold gets, read_sx, lift, modify_sx, ebind in H.
  destruct (get_sx (h_um s) si) as [sx|?|?] eqn:E; [|done..]. simpl in H.
  destruct (pfcp_send_end_marker _ _ _) as [sx'|?|?] eqn:M; [|done..]. simpl in H. rewrite E in H. injection H as <- <-.
  exact (prepares_um si _ _ (spares_put _ _ _ _ (get_sx_Ok _ _ _ E) (end_marker_kept _ _ _ _ M)) eq_refl).
Qed.
Hint Resolve safe_end_marker : safe.

Lemma safe_create_far_forward id fp : safe_t upf_far_t (create_far_forward cf si id fp).
Proof. unfold create_far_forward, far_redirect. safe_tac. Qed.
Lemma safe_update_far_forward id fp : safe_t upf_far_t (update_far_forward cf si id fp).
Proof. unfold update_far_forward, far_redirect. safe_tac. Qed.
Hint Resolve safe_create_far_forward safe_update_far_forward : safe.

Lemma safe_create_far far : safe_h (create_far cf si far).
Proof. unfold create_far. safe_tac. Qed.
Lemma safe_update_far far : safe_h (update_far cf si far).
Proof. unfold update_far. safe_tac. apply safe_edit_rule. safe_tac. Qed.

Hint Resolve safe_create_far safe_update_far : safe.

(** *** URRs and QERs *)

Lemma safe_edit_urr urr : safe_h (edit_urr now vnow si urr).
Proof. unfold edit_urr. safe_tac. Qed.
Lemma safe_edit_qer qer : safe_h (edit_qer si qer).
Proof. unfold edit_qer. safe_tac. Qed.
Hint Resolve safe_edit_urr safe_edit_qer : safe.

(** *** PDRs *)

Lemma teid_generation_spares u chid flags res t u' :
  process_teid_generation attempts u chid flags res si = Ok (t, u') -> spares si u u' /\ um_out u' = um_out u.
Proof.
  unfold process_teid_generation. destruct (teid_loop _ _ _ _ _ _) as [[[teid|] rb]|?|?]; [..|done|done]; simpl; intros [= _ <-].
  - destruct (flag flags F_TEID_CHID); split; try done; by apply spares_same.
  - split; [by apply spares_same|done].
Qed.
Lemma safe_assign_pdi f : safe_t upf_pdr_t (assign_pdi f).
Proof. apply safe_assign. Qed.
Lemma safe_or_pdi_fields f : safe_t upf_pdr_t (or_pdi_fields f).
Proof. apply safe_assign. Qed.
Hint Resolve safe_assign_pdi safe_or_pdi_fields : safe.

Lemma safe_teid_generation chid flags res :
  safe_h (with_um (fun u => process_teid_generation attempts u chid flags res si)).
Proof. apply safe_with_um. intros u t u'. apply teid_generation_spares. Qed.
Hint Resolve safe_teid_generation : safe.

Lemma safe_created_pdr c :
  safe_h (modify (fun s => set_h_resp s (set_sr_created_pdr (h_resp s) (sr_created_pdr (h_resp s) ++ [c])))).
Proof. apply (safe_resp (fun r => set_sr_created_pdr r (sr_created_pdr r ++ [c]))). done. Qed.
Hint Resolve safe_created_pdr : safe.
Lemma safe_handle_f_teid ft res create : safe_t upf_pdr_t (handle_f_teid attempts si ft res create).
Proof. unfold handle_f_teid, choose_f_teid, given_f_teid. safe_tac. Qed.
Hint Resolve safe_handle_f_teid : safe.

Lemma safe_pdr_f_teid id pdi create : safe_t upf_pdr_t (pdr_f_teid cf attempts si id pdi create).
Proof. unfold pdr_f_teid. safe_tac. Qed.
Lemma safe_pdr_network_instance id name : safe_t upf_pdr_t (pdr_network_instance cf id name).
Proof. unfold pdr_network_instance. safe_tac. Qed.
Lemma safe_sdf_filters id l : safe_t upf_pdr_t (pdr_sdf_filters id l).
Proof. induction l as [|sdf l IH]; simpl; safe_tac. Qed.
Lemma safe_add_wildcard : safe_t upf_pdr_t add_wildcard.
Proof. unfold add_wildcard. safe_tac. Qed.
Lemma safe_reset_acl : safe_t upf_pdr_t reset_acl.
Proof. apply safe_assign. Qed.
Lemma safe_adr_db i :
  safe_h (with_um (fun u => let* (db, gm) := upf_adf_get_adr_db cf (um_rules u) i in Ok (db, set_um_rules u gm))).
Proof.
  apply safe_with_um. intros u a u'. destruct (upf_adf_get_adr_db _ _ _) as [[db gm]|?|?]; [|done..].
  intros [= _ <-]. split; [by apply spares_same|done].
Qed.
Hint Resolve safe_pdr_f_teid safe_pdr_network_instance safe_sdf_filters safe_add_wildcard safe_reset_acl safe_adr_db : safe.
Lemma safe_pdr_application id name : safe_t upf_pdr_t (pdr_application cf id name).
Proof. unfold pdr_application. safe_tac. Qed.
Hint Resolve safe_pdr_application : safe.

Lemma safe_user_addr ip4 :
  safe_h (modify (fun s => set_h_um s (put_ext (h_um s) si (set_se_user_addr (get_ext (h_um s) si) ip4)))).
Proof. apply safe_modify. intros s. apply prepares_um; [by apply spares_same|done]. Qed.
Hint Resolve safe_user_addr : safe.
(** a conflict is an error, after the reports on the sessions it ends *)
Lemma safe_pdr_conflicts id nwi : safe_t upf_pdr_t (pdr_conflicts cf now vnow si id nwi).
Proof.
  intros [s t] r [s' t']. unfold pdr_conflicts. cbn [ebind gets]. destruct nwi as [nwi|]; [|intros [= <- <- <-]; apply er_refl].
  destruct (flag _ F_PDI_UE_IP_ADDR); [|intros [= <- <- <-]; apply er_refl]. cbn [when].
  unfold ebind, on_rule, with_um. cbn [h_um fst].
  destruct (resolve_ue_ip_conflicts _ _ _ _ _ _ _) as [[c u]|?|?] eqn:E; [|done..]. cbn [obind].
  destruct (conflicts_spares _ _ _ _ _ _ _ _ _ E) as [Hs [[-> ->]|[-> Hn]]]; cbn.
  - intros [= <- <- <-]. destruct s. exact (er_refl (R := prepares si) _).
  - intros [= <- <- <-]. split; [done|]. split; [done|]. exact Hn.
Qed.
Hint Resolve safe_pdr_conflicts : safe.

Lemma safe_create_pdr pdr : safe_h (create_pdr cf now vnow attempts si pdr).
Proof. unfold create_pdr, create_pdr_body. apply safe_add_rule. safe_tac. Qed.
Lemma safe_update_pdr_body pdr : safe_t upf_pdr_t (update_pdr_body cf now vnow attempts si pdr).
Proof. unfold update_pdr_body. safe_tac. Qed.
Hint Resolve safe_update_pdr_body : safe.
Lemma safe_update_pdr pdr : safe_h (update_pdr cf now vnow attempts si pdr).
Proof. unfold update_pdr. safe_tac. Qed.
Hint Resolve safe_create_pdr safe_update_pdr : safe.

(** *** All handlers *)

(** the handlers with the type of rule they report *)
Definition rule_handlers : list (Z * (list val -> hstate -> outcome (Z * hstate))) :=
  [(FAILED_RULE_TYPE_PDR, handle_create_pdr cf now vnow attempts si);
   (FAILED_RULE_TYPE_PDR, handle_update_pdr cf now vnow attempts si); (FAILED_RULE_TYPE_PDR, handle_remove_pdr si);
   (FAILED_RULE_TYPE_FAR, handle_create_far cf si); (FAILED_RULE_TYPE_FAR, handle_update_far cf si);
   (FAILED_RULE_TYPE_FAR, handle_remove_far si);
   (FAILED_RULE_TYPE_URR, handle_create_urr now vnow si); (FAILED_RULE_TYPE_URR, handle_update_urr now vnow si);
   (FAILED_RULE_TYPE_URR, handle_remove_urr si);
   (FAILED_RULE_TYPE_QER, handle_create_qer si); (FAILED_RULE_TYPE_QER, handle_update_qer si);
   (FAILED_RULE_TYPE_QER, handle_remove_qer si)].

(** how a response refuses a rule *)
Record refuses (type : Z) (r : session_response) : Prop := {
  rf_cause : sr_cause r = PFCP_CAUSE_RULE_CREATION_MODIFICATION_FAILURE;
  rf_bit : ISSET_BIT (sr_fields r) SESSION_PROCEDURE_RESPONSE_FAILED_RULE_ID = true;
  rf_type : fr_type (sr_failed_rule_id r) = type
}.

Lemma isset_set_bit m n : 0 <= n -> ISSET_BIT (SET_BIT m n) n = true.
Proof.
  intros Hn. unfold ISSET_BIT, SET_BIT, flag, BIT. apply negb_true_iff, Z.eqb_neq. intros H.
  apply (f_equal (fun x => Z.testbit x n)) in H.
  rewrite Z.land_spec, Z.lor_spec, Z.shiftl_1_l, Z.pow2_bits_true, orb_true_r, Z.bits_0 in H by done. done.
Qed.
Lemma out_error_refuses type r : refuses type (out_error type r).
Proof. split; [done| |done]. simpl. by apply isset_set_bit. Qed.

(** what the end of a handler makes of its body *)
Lemma handler_spec type m s r s' :
  safe_h m -> handler type m s = Ok (r, s') ->
  spares si (h_um s) (h_um s')
  /\ ((r = 0 /\ sr_cause (h_resp s') = sr_cause (h_resp s) /\ sends 0 (h_um s) (h_um s'))
      \/ (r = -1 /\ refuses type (h_resp s') /\ sends 2 (h_um s) (h_um s'))).
Proof.
  intros Hm. unfold handler. destruct (m s) as [[a s1]|?|?] eqn:E; [|done..]. simpl.
  destruct (Hm _ _ _ E) as (Hs & Hc & Hn). destruct a; intros [= <- <-]; (split; [done|]).
  - by left.
  - right. split; [done|]. split; [apply out_error_refuses|exact Hn].
Qed.

Lemma rule_handlers_safe type h l s r s' :
  (type, h) ∈ rule_handlers -> h l s = Ok (r, s') ->
  spares si (h_um s) (h_um s')
  /\ ((r = 0 /\ sr_cause (h_resp s') = sr_cause (h_resp s) /\ sends 0 (h_um s) (h_um s'))
      \/ (r = -1 /\ refuses type (h_resp s') /\ sends 2 (h_um s) (h_um s'))).
Proof.
  unfold rule_handlers. rewrite !elem_of_cons, elem_of_nil.
  intros H; repeat (destruct H as [H|H]; [injection H as -> ->; apply handler_spec; safe_tac|]); done.
Qed.

End Handlers.

(** a second session for the address of the first: the first one ends *)
Definition conflict_main : upf_main_t := after (demo_handle demo_session (demo_establish 8 [172; 16; 0; 2])).
Definition conflict_run : outcome (Z * hstate) :=
  handle_create_pdr demo_config (f64_of_Z 1000) (f64_of_Z 10) 100 1 [demo_dl_pdr 3 [172; 16; 0; 1]] (mk_hs conflict_main sresp_zero).
Definition conflict_state : hstate := result (mk_hs demo_main sresp_zero) conflict_run.
Lemma conflict_refused : conflict_run = Ok (-1, conflict_state).
Proof. apply code_result. vm_cast_no_check (eq_refl (Some (-1))). Qed.
#[local] Opaque conflict_main conflict_state.
