(* ===== verification/ApiReply.v ===== *)
(** * Responses

    What the handling of a message sends: one response for each request the
    plugin supports, whatever happens to the sessions meanwhile, after reports on
    at most two sessions that had to end, and nothing for anything else that
    could be decoded. *)

From Stdlib Require Import ZArith Lia String.
From stdpp Require Import base list list_numbers option numbers decidable strings gmap.
From S2P Require Import Prelude PfcpIo PfcpIe PfcpLeaf PfcpTables PfcpCodec UpfTypes UpfVec UpfUrr UpfRules UpfAssoc UpfTeid UpfAcl PfcpServer UrrTimer UpfIpfilter ApiMsg UpfMain UpfSession ApiRules ApiPdr ApiSession ApiDemo ApiInv.

Create HintDb quiet.

(** take a call of a sequence apart *)
Ltac ocase := match goal with |- context [obind ?m _] => destruct m as [?|?|?] eqn:?; [cbn [obind]|done..] end.
Ltac gcase := match goal with |- match ?x with _ => _ end = _ -> _ => destruct x eqn:? end.
Ltac opairs := repeat match goal with x : prod _ _ |- _ => destruct x end.

(** the place of an element in a list that is written out *)
Ltac find_handler := first [apply list_elem_of_here | apply list_elem_of_further; find_handler].

Section Quiet.
Context {N : VppNet} {P : VppPool} {V : VecSort} {U : VppUnformat} {Mem : VppMemory} {M : IpMasks} {F : VppFormat} {I : Vppinfra}.
Context (cf : upf_config) (now vnow : f64) (attempts : nat).

(** nothing is sent to the control plane *)
Definition quiet (u u' : upf_main_t) : Prop := msgs u' = msgs u.
#[local] Instance quiet_preorder : PreOrder quiet.
Proof. split; [done|]. intros a b c. unfold quiet. congruence. Qed.
Lemma quiet_out (u u' : upf_main_t) : um_out u' = um_out u -> quiet u u'.
Proof. unfold quiet, msgs. by intros ->. Qed.
Lemma quiet_emit u o : is_msg o = false -> quiet u (emit u o).
Proof.
  intros H. unfold quiet, msgs, emit. simpl. rewrite filter_app, filter_cons_False by congruence. by rewrite app_nil_r.
Qed.
Lemma sends_quiet u u' : sends 0 u u' -> quiet u u'.
Proof. intros ([|o l] & H & _ & Hl); [by rewrite app_nil_r in H|simpl in Hl; lia]. Qed.
Lemma quiet_sends n u u' : quiet u u' -> sends n u u'.
Proof. intros H. exists []. rewrite app_nil_r. repeat split; [done|constructor|simpl; lia]. Qed.
Lemma quiet_before n a b c : quiet a b -> sends n b c -> sends n a c.
Proof. unfold quiet, sends. by intros ->. Qed.
Lemma quiet_after n a b c : sends n a b -> quiet b c -> sends n a c.
Proof. unfold quiet, sends. by intros H ->. Qed.

Lemma disable_quiet u d u' : pfcp_disable_session cf vnow u d = Ok u' -> quiet u u'.
Proof. intros H. by apply disable_others in H as [_ ?%quiet_out]. Qed.
Lemma free_quiet u d u' : pfcp_free_session u d = Ok u' -> quiet u u'.
Proof. intros H. by apply free_others in H as [[_ ?%quiet_out] _]. Qed.

Lemma release_sessions_quiet n u ni idx u' : release_sessions cf vnow n u ni idx = Ok u' -> quiet u u'.
Proof.
  revert u idx. induction n as [|n IH]; intros u idx; simpl; (case_match; [by intros [= <-]|]); [done|].
  ocase. unfold assert. case_match; [|done]. ocase. ocase. intros H1.
  etrans; [eapply disable_quiet; eassumption|]. etrans; [eapply free_quiet; eassumption|]. by eapply IH.
Qed.
Lemma release_quiet u ni u' : pfcp_release_association cf vnow u ni = Ok u' -> quiet u u'.
Proof.
  unfold pfcp_release_association. ocase. ocase. ocase. unfold assert. case_match; [|done]. intros [= <-].
  etrans; [|etrans; [eapply release_sessions_quiet; eassumption|]].
  - by apply quiet_out.
  - etrans; [|apply quiet_out; reflexivity]. by apply quiet_emit.
Qed.

Lemma peer_ref_quiet u f i u' : peer_addr_ref u f = Ok (i, u') -> um_out u' = um_out u.
Proof. unfold peer_addr_ref. case_match; [case_match; [|done]|case_match]; by intros [= _ <-]. Qed.
Lemma peer_unref_quiet u f u' : peer_addr_unref u f = Ok u' -> um_out u' = um_out u.
Proof. unfold peer_addr_unref. case_match; [|done]. case_match; [|done]. case_match; by intros [= <-]. Qed.
Lemma apply_fars_quiet u r l u' r' l' : apply_fars u r l = Ok (u', r', l') -> um_out u' = um_out u.
Proof.
  revert u r u' r' l'. induction l as [|f l IH]; intros u r u' r' l'; simpl; [by intros [= <- _ _]|].
  ocase. opairs. ocase. opairs. intros [= <- _ _]. erewrite IH by eassumption.
  match goal with H : apply_far _ _ _ = _ |- _ => revert H end. unfold apply_far. case_match; [by intros [= <- _ _]|].
  ocase. opairs. intros [= <- _ _]. eapply peer_ref_quiet. eassumption.
Qed.
Lemma unref_fars_quiet u l u' : unref_fars u l = Ok u' -> um_out u' = um_out u.
Proof.
  revert u. induction l as [|f l IH]; intros u; simpl; [by intros [= <-]|]. ocase. intros H1.
  rewrite (IH _ H1). match goal with H : (if _ then _ else _) = Ok _ |- _ => revert H end.
  gcase; [by intros [= <-]|]. apply peer_unref_quiet.
Qed.
Lemma end_markers_quiet u old l u' : send_end_markers u old l = Ok u' -> quiet u u'.
Proof.
  revert u. induction l as [|em l IH]; intros u; simpl; [by intros [= <-]|]. case_match; [|apply IH].
  case_match; [|done]. intros H1. etrans; [|exact (IH _ H1)]. by apply quiet_emit.
Qed.

Lemma run_diff_out {A} (f : upf_main_t -> A -> bool -> upf_main_t) u l :
  (forall u a b, um_out (f u a b) = um_out u) -> um_out (run_diff f u l) = um_out u.
Proof. intros H. unfold run_diff. revert u. induction l as [|a l IH]; intros u; simpl; [done|]. by rewrite IH, H. Qed.
Lemma update_tables_out si u p a : um_out (fst (fst (update_tables cf si u p a))) = um_out u.
Proof.
  unfold update_tables. repeat case_match. simpl. rewrite !run_diff_out; try done;
    intros ? ? ?; try done; apply (add_del_tdf_tables cf _ _ _ _ _).
Qed.

Lemma prepare_quiet u si p a u' p' a' : apply_prepare cf u si p a = Ok (u', p', a') -> um_out u' = um_out u.
Proof.
  unfold apply_prepare. ocase. ocase. opairs.
  assert (um_out u0 = um_out u) as H1.
  { match goal with H : match r_far _ with _ => _ end = Ok _ |- _ => revert H end. gcase.
    - ocase. opairs. intros [= <- _]. eapply apply_fars_quiet. eassumption.
    - by intros [= <- _]. }
  ocase. opairs.
  assert (um_out u1 = um_out u0) as H2.
  { match goal with H : match r_qer _ with _ => _ end = Ok _ |- _ => revert H end. gcase.
    - ocase. opairs. by intros [= <- _].
    - by intros [= <- _]. }
  gcase.
  - intros E. assert (update_tables cf si u1 r0 a = (u', p', a')) as H by congruence.
    pose proof (update_tables_out si u1 r0 a) as Ht. rewrite H in Ht. simpl in Ht. congruence.
  - intros [= <- _ _]. congruence.
Qed.

Lemma timers_quiet u si last new old u' new' old' :
  apply_timers vnow u si last new old = Ok (u', new', old') -> um_out u' = um_out u.
Proof.
  unfold apply_timers. ocase. opairs. destruct (upf_pfcp_session_start_up_inactivity_timer _ _ _ _ _) as [? ?].
  by intros [= <- _ _].
Qed.
Lemma apply_finish_quiet u si pp pf pu pq new old u' new' old' :
  apply_finish now u si pp pf pu pq new old = Ok (u', new', old') -> quiet u u'.
Proof.
  unfold apply_finish. ocase. ocase. ocase. opairs. ocase. opairs. intros [= <- _ _].
  match goal with H : send_end_markers ?u1 _ _ = Ok ?u2, H' : (if _ then unref_fars _ _ else _) = Ok _ |- _ =>
    apply end_markers_quiet in H; transitivity u2; [|by apply quiet_out]; transitivity u1; [|exact H]; revert H' end.
  gcase; [intros H1; apply quiet_out; exact (unref_fars_quiet _ _ _ H1)|by intros [= <-]].
Qed.
Lemma apply_quiet u si u' : pfcp_update_apply cf now vnow u si = Ok u' -> quiet u u'.
Proof.
  unfold pfcp_update_apply. ocase. gcase; [by intros [= <-]|]. ocase. opairs. ocase. opairs. ocase. opairs. intros [= <-].
  match goal with H1 : apply_prepare _ _ _ _ _ = Ok (?a, _, _), H2 : apply_timers _ _ _ _ _ _ = Ok (?b, _, _),
    H3 : apply_finish _ _ _ _ _ _ _ _ _ = Ok (?c, _, _) |- _ =>
    transitivity a; [apply quiet_out; exact (prepare_quiet _ _ _ _ _ _ _ H1)|];
    transitivity b; [apply quiet_out; exact (timers_quiet _ _ _ _ _ _ _ _ H2)|];
    transitivity c; [exact (apply_finish_quiet _ _ _ _ _ _ _ _ _ _ _ H3)|] end.
  by apply quiet_out.
Qed.
Lemma finish_quiet u si u' : pfcp_update_finish u si = Ok u' -> quiet u u'.
Proof. unfold pfcp_update_finish. ocase. ocase. opairs. intros [= <-]. by apply quiet_out. Qed.

(** ** One response *)

(** the last message is a response of the given type, the others are requests,
    two at most *)
Definition replies (type : Z) (u u' : upf_main_t) : Prop :=
  exists l dmsg, msgs u' = msgs u ++ l ++ [OutResponse dmsg] /\ dm_type dmsg = type
  /\ Forall (fun o => is_request o = true) l /\ (length l <= 2)%nat.

Lemma replies_send type u dmsg : dm_type dmsg = type -> replies type u (upf_pfcp_send_response u dmsg).
Proof.
  intros H. exists [], dmsg. split; [|repeat split; [done|constructor|simpl; lia]].
  unfold upf_pfcp_send_response, msgs, emit. simpl. by rewrite filter_app, filter_cons_True.
Qed.
(** a response as the last step, or before steps that send nothing *)
Lemma replies_between type u v u' dmsg :
  sends 2 u v -> dm_type dmsg = type -> quiet (upf_pfcp_send_response v dmsg) u' -> replies type u u'.
Proof.
  intros (l & H1 & Hf & Hn) Hd Hq. exists l, dmsg. split; [|done]. rewrite Hq, app_assoc, <- H1.
  unfold upf_pfcp_send_response, msgs, emit. simpl. by rewrite filter_app, filter_cons_True.
Qed.
Lemma replies_last type u u' dmsg : sends 2 u u' -> dm_type dmsg = type -> replies type u (upf_pfcp_send_response u' dmsg).
Proof. intros H Hd. by eapply replies_between. Qed.

Lemma start_heartbeat_quiet u ni u' : start_heartbeat u ni = Ok u' -> quiet u u'.
Proof.
  unfold start_heartbeat, start_server_timer, assert. repeat case_match; try done. simpl. ocase. intros [= <-]. by apply quiet_out.
Qed.

Lemma setup_replies u msg dmsg r u' :
  handle_association_setup_request cf vnow u msg dmsg = Ok (r, u') -> replies PFCP_ASSOCIATION_SETUP_RESPONSE u u'.
Proof.
  unfold handle_association_setup_request. ocase.
  destruct (pfcp_new_association _ _ _ _ _) as [ni am]. ocase. ocase. ocase. intros [= _ <-].
  apply replies_last; [apply quiet_sends|done].
  match goal with H : match pfcp_get_association _ _ with _ => _ end = Ok ?v, H' : start_heartbeat _ _ = Ok _ |- _ =>
    apply start_heartbeat_quiet in H'; transitivity v; [revert H|etrans; [|exact H']; by apply quiet_out] end.
  gcase; [apply release_quiet|by intros [= <-]].
Qed.

(** the handlers of a request for a session one after the other: what they send
    is on the way to an error *)
Definition budget (r : Z) : nat := if r =? 0 then 0 else 2.
Definition quiet_handler (h : hstate -> outcome (Z * hstate)) : Prop :=
  forall s r s', h s = Ok (r, s') -> sends (budget r) (h_um s) (h_um s').
Lemma run_handlers_quiet l : Forall quiet_handler l -> quiet_handler (run_handlers l).
Proof.
  induction 1 as [|h l Hh _ IH]; intros s r s'; simpl; [intros [= <- <-]; by apply sends_out|]. ocase. opairs.
  match goal with H : h s = Ok (?z, _) |- _ => apply Hh in H; unfold budget in H; destruct (Z.eqb_spec z 0) as [->|Hz] end.
  - intros H1. eapply quiet_before; [by apply sends_quiet|exact (IH _ _ _ H1)].
  - intros [= <- <-]. unfold budget. by rewrite (proj2 (Z.eqb_neq _ _) Hz).
Qed.
Lemma rule_handler_quiet si type h l : (type, h) ∈ rule_handlers cf now vnow attempts si -> quiet_handler (h l).
Proof.
  intros Hin s r s' H. by destruct (rule_handlers_safe _ _ _ _ _ _ _ _ _ _ _ Hin H) as [_ [(-> & _ & Hn)|(-> & _ & Hn)]].
Qed.
Lemma mark_created_quiet : quiet_handler mark_created_pdrs.
Proof. intros s r s'. unfold mark_created_pdrs. intros [= <- <-]. case_match; by apply sends_out. Qed.

Ltac rule_quiet := repeat (apply Forall_cons; split; [first [exact mark_created_quiet
  | match goal with |- quiet_handler (?h ?l) => eapply (rule_handler_quiet _ _ h l); unfold rule_handlers; find_handler end]|]);
  by apply Forall_nil.
Lemma establish_rules_quiet si req : quiet_handler (establish_rules cf now vnow attempts si req).
Proof. unfold establish_rules. apply run_handlers_quiet. rule_quiet. Qed.
Lemma modify_rules_quiet si req : quiet_handler (modify_rules cf now vnow attempts si req).
Proof. unfold modify_rules. apply run_handlers_quiet. rule_quiet. Qed.

Lemma modify_sx_quiet si f s r s' : modify_sx si f s = Ok (r, s') -> quiet (h_um s) (h_um s').
Proof. unfold modify_sx. ocase. intros [= _ <-]. by apply quiet_out. Qed.
Lemma inactivity_quiet b si x s r s' : when b (set_inactivity_period si x) s = Ok (r, s') -> quiet (h_um s) (h_um s').
Proof. destruct b; [apply modify_sx_quiet|by intros [= _ <-]]. Qed.

Lemma establish_quiet u si req resp r s' :
  establish_session cf now vnow attempts u si req resp = Ok (r, s') -> sends (budget r) u (h_um s').
Proof.
  unfold establish_session. ocase. opairs. ocase. opairs.
  match goal with H : when _ _ _ = Ok _, H' : establish_rules _ _ _ _ _ _ _ = Ok (?z, _) |- _ =>
    apply inactivity_quiet in H; apply establish_rules_quiet in H'; pose proof (quiet_before _ _ _ _ H H') as Hs;
    unfold budget in Hs; destruct (Z.eqb_spec z 0) as [->|Hz] end; cbn [negb].
  - ocase. ocase. intros [= <- <-].
    match goal with H : pfcp_update_apply _ _ _ _ _ = Ok _, H' : pfcp_update_finish _ _ = Ok _ |- _ =>
      apply apply_quiet in H; apply finish_quiet in H'; exact (quiet_after _ _ _ _ Hs (transitivity H H')) end.
  - intros [= <- <-]. unfold budget. by rewrite (proj2 (Z.eqb_neq _ _) Hz).
Qed.
Lemma budget_le r u u' : sends (budget r) u u' -> sends 2 u u'.
Proof. intros H. eapply sends_le; [done|]. unfold budget. case_match; lia. Qed.

Lemma establishment_replies u msg dmsg r u' :
  handle_session_establishment_request cf now vnow attempts u msg dmsg = Ok (r, u') ->
  replies PFCP_SESSION_ESTABLISHMENT_RESPONSE u u'.
Proof.
  unfold handle_session_establishment_request, send_session_response.
  gcase; [|intros [= _ <-]; by apply replies_send]. ocase. gcase; [intros [= _ <-]; by apply replies_send|].
  set (addrs := if ip46_address_is_ip4 _ then _ else _). destruct addrs as [[resp up] cp]. ocase. opairs. ocase. opairs.
  match goal with H : establish_session _ _ _ _ _ _ _ _ = Ok _ |- _ => apply establish_quiet in H; rename H into Hq end.
  gcase.
  - ocase. ocase. intros [= _ <-].
    match goal with H : pfcp_disable_session _ _ _ _ = Ok _, H' : pfcp_free_session _ _ = Ok _ |- _ =>
      apply disable_quiet in H; apply free_quiet in H'; pose proof (transitivity H H') as Hd end.
    refine (replies_between _ _ _ _ _ _ _ Hd); [|done]. eapply quiet_before; [|exact (budget_le _ _ _ Hq)]. by apply quiet_out.
  - intros [= _ <-]. apply replies_last; [|done]. eapply quiet_before; [|exact (budget_le _ _ _ Hq)]. by apply quiet_out.
Qed.

Lemma modify_session_quiet si req s r s' :
  modify_session cf now vnow attempts si req s = Ok (r, s') -> sends (budget r) (h_um s) (h_um s').
Proof.
  unfold modify_session. ocase. opairs. ocase. opairs. ocase. opairs.
  match goal with H : when _ _ _ = Ok _, H1 : modify_sx _ _ _ = Ok _, H' : modify_rules _ _ _ _ _ _ _ = Ok (?z, _) |- _ =>
    apply inactivity_quiet in H; apply modify_sx_quiet in H1; apply modify_rules_quiet in H';
    pose proof (quiet_before _ _ _ _ (transitivity H1 H) H') as Hs; unfold budget in Hs; destruct (Z.eqb_spec z 0) as [->|Hz] end;
    cbn [negb].
  - ocase. ocase. intros [= <- <-]. match goal with H : pfcp_update_apply _ _ _ _ _ = Ok _ |- _ => apply apply_quiet in H;
      exact (quiet_after _ _ _ _ Hs (transitivity H (quiet_out _ _ eq_refl))) end.
  - intros [= <- <-]. unfold budget. by rewrite (proj2 (Z.eqb_neq _ _) Hz).
Qed.
Lemma report_usage_quiet si req s s' : report_usage now vnow si req s = Ok s' -> quiet (h_um s) (h_um s').
Proof.
  unfold report_usage. ocase. set (choice := if _ && _ then _ else _). destruct choice as [resp rp]. ocase. opairs.
  intros [= <-]. by apply quiet_out.
Qed.

Lemma modification_replies u msg dmsg r u' :
  handle_session_modification_request cf now vnow attempts u msg dmsg = Ok (r, u') ->
  replies PFCP_SESSION_MODIFICATION_RESPONSE u u'.
Proof.
  unfold handle_session_modification_request, send_session_response. ocase.
  gcase; [|intros [= _ <-]; by apply replies_send]. opairs. ocase. opairs.
  assert (sends 2 u (h_um h)) as Hm.
  { match goal with H : (if _ then modify_session _ _ _ _ _ _ _ else _) = Ok _ |- _ => revert H end.
    gcase; [intros H; exact (budget_le _ _ _ (modify_session_quiet _ _ _ _ _ H))|intros [= _ <-]; by apply sends_out]. }
  gcase; [intros [= _ <-]; by apply replies_last|]. ocase. ocase. intros [= _ <-]. apply replies_last; [|done].
  match goal with H : report_usage _ _ _ _ _ = Ok _, H' : pfcp_update_finish _ _ = Ok _ |- _ =>
    apply report_usage_quiet in H; apply finish_quiet in H'; exact (quiet_after _ _ _ _ Hm (transitivity H H')) end.
Qed.

Lemma deletion_replies u msg dmsg r u' :
  handle_session_deletion_request cf now vnow u msg dmsg = Ok (r, u') -> replies PFCP_SESSION_DELETION_RESPONSE u u'.
Proof.
  unfold handle_session_deletion_request, send_session_response. ocase.
  gcase; [|intros [= _ <-]; by apply replies_send]. opairs. ocase. ocase. ocase. opairs. ocase. intros [= _ <-].
  apply replies_last; [apply quiet_sends|done].
  match goal with H : pfcp_disable_session _ _ _ _ = Ok ?a, H' : pfcp_free_session ?b _ = Ok _,
    H1 : match vec_elts _ with _ => _ end = Ok _ |- _ =>
    apply disable_quiet in H; apply free_quiet in H'; transitivity a; [exact H|]; transitivity b; [revert H1|exact H'] end.
  gcase; [by intros [= <- _]|]. ocase. opairs. intros [= <- _]. by apply quiet_out.
Qed.
End Quiet.

(** ** Dispatch *)

(** the requests the plugin does something about *)
Definition supported_requests : list Z :=
  [PFCP_HEARTBEAT_REQUEST; PFCP_ASSOCIATION_SETUP_REQUEST; PFCP_SESSION_ESTABLISHMENT_REQUEST;
   PFCP_SESSION_MODIFICATION_REQUEST; PFCP_SESSION_DELETION_REQUEST].

Section Dispatch.
Context {N : VppNet} {P : VppPool} {V : VecSort} {U : VppUnformat} {Mem : VppMemory} {M : IpMasks} {F : VppFormat} {I : Vppinfra}.
Context (cf : upf_config) (now vnow : f64) (attempts : nat).

Lemma heartbeat_response_quiet u msg dmsg r u' :
  handle_heartbeat_response cf vnow u msg dmsg = Ok (r, u') -> quiet u u'.
Proof.
  unfold handle_heartbeat_response. gcase; [by intros [= _ <-]|]. ocase. gcase; [|gcase; [by intros [= _ <-]|]].
  - ocase. intros [= _ <-]. eapply release_quiet. eassumption.
  - ocase. intros [= _ <-]. eapply start_heartbeat_quiet. eassumption.
Qed.

Lemma spec_at_elem {A} (tbl : list (Z * A)) i e : spec_at tbl i = Some e -> (i, e) ∈ tbl.
Proof.
  unfold spec_at. induction tbl as [|[j x] tbl IH] using rev_ind; [done|]. rewrite fold_left_app. simpl.
  rewrite elem_of_app, list_elem_of_singleton. destruct (Z.eqb_spec j i) as [->|_]; [intros [= ->]|]; auto.
Qed.

(** the handler of a type: a response if the type is supported, none otherwise *)
Lemma handler_reply t h u msg dmsg r u' :
  spec_at (msg_handlers cf now vnow attempts) t = Some h -> h u msg dmsg = Ok (r, u') ->
  if in_types supported_requests t then replies (t + 1) u u' else quiet u u'.
Proof.
  intros H Hh. apply spec_at_elem in H. unfold msg_handlers in H. rewrite !elem_of_cons, elem_of_nil in H.
  repeat (destruct H as [H|H]; [injection H as -> ->; cbn -[msgs]|]); [..|done];
  first [by eapply deletion_replies | by eapply modification_replies | by eapply establishment_replies
        | by eapply setup_replies | by eapply heartbeat_response_quiet
        | unfold handle_unsupported, handle_heartbeat_request in Hh; injection Hh as _ <-; first [done | by apply replies_send]].
Qed.

(** ** Messages *)

Lemma load_type data t : load data 1 1 = Ok t -> de_be t = pfcp_msg_type data.
Proof.
  unfold load. destruct (Z.ltb_spec (Zlen data) (1 + 1)) as [_|H]; [done|]. intros [= <-].
  destruct data as [|a [|b data]]; [done| |done]. unfold Zlen in H. simpl in H. lia.
Qed.

(** the type of a message that could be decoded is the one in its header *)
Lemma decode_type data c dmsg err :
  pfcp_decode_msg data (Zlen data) = Ok (c, dmsg, err) -> 0 <= c -> dm_type dmsg = pfcp_msg_type data.
Proof.
  unfold pfcp_decode_msg. destruct (_ =? 0); [intros [= <- _ _]; lia|].
  destruct (load data 1 1) as [t| |] eqn:Et; [|done..]. apply load_type in Et. cbn [obind]. rewrite Et. cbn zeta.
  destruct (_ <? _); [intros [= <- _ _]; lia|]. destruct (_ <=? _); [intros [= <- _ _]; lia|].
  destruct (load _ _ _); [|done..]. cbn [obind]. destruct (_ <? _); [by intros [= _ <- _]|].
  destruct (negb _); [by intros [= _ <- _]|].
  destruct (msg_spec _) as [mandatory group]. destruct (decode_group _ _ _ _ _ _) as [[[r v] e]|?|?]; [|done..].
  by intros [= _ <- _].
Qed.

(** whether a message gets a response: a supported request that could be decoded,
    or a request that could not, but whose header could *)
Definition answered (data : list Z) : bool :=
  match pfcp_decode_msg data (Zlen data) with
  | Ok (c, _, _) => if c =? 0 then in_types supported_requests (pfcp_msg_type data)
                    else (0 <? c) && in_types error_response_types (pfcp_msg_type data)
  | _ => false
  end.

Lemma handled_types t : in_types supported_requests t || in_types error_response_types t = true ->
  is_Some (spec_at (msg_handlers cf now vnow attempts) t).
Proof.
  unfold in_types. rewrite orb_true_iff, !existsb_exists.
  intros [(x & Hx & ->%Z.eqb_eq)|(x & Hx & ->%Z.eqb_eq)]; simpl in Hx;
    repeat (destruct Hx as [<-|Hx]; [by eexists|]); done.
Qed.

Lemma handle_msg_reply u msg r u' :
  handle_msg cf now vnow attempts u msg = Ok (r, u') ->
  let data := vec_elts (m_data msg) in
  if answered data then replies (pfcp_msg_type data + 1) u u' else quiet u u'.
Proof.
  unfold handle_msg, answered. set (data := vec_elts (m_data msg)). set (t := pfcp_msg_type data).
  destruct (spec_at _ t) as [h|] eqn:Eh; cbn zeta.
  2:{ intros [= _ <-]. destruct (in_types supported_requests t || in_types error_response_types t) eqn:E.
      - apply handled_types in E as [h E]. congruence.
      - apply orb_false_iff in E as [-> ->]. destruct (pfcp_decode_msg _ _) as [[[c ?] ?]|?|?]; [|done..].
        rewrite andb_false_r. by destruct (c =? 0). }
  destruct (pfcp_decode_msg data (Zlen data)) as [[[c dmsg] err]|?|?] eqn:Ed; [|done..]. cbn [obind].
  destruct (Z.ltb_spec c 0).
  { intros [= _ <-]. rewrite (proj2 (Z.eqb_neq c 0)) by lia. rewrite (proj2 (Z.ltb_ge 0 c)) by lia. reflexivity. }
  rewrite (decode_type _ _ _ _ Ed) by lia. fold t. destruct (Z.eqb_spec c 0) as [->|Hc]; cbn [negb].
  - by apply handler_reply.
  - rewrite (proj2 (Z.ltb_lt 0 c)) by lia. cbn [andb].
    destruct (in_types error_response_types t); intros [= _ <-]; [by apply replies_send|reflexivity].
Qed.

(** C7. A message of the control plane gets one response, of the type that follows
    its own, if it is one of the five supported requests and could be decoded, or
    one of the ten requests whose header, but not whose elements, could be read:
    exactly one, as the last message that is sent, after reports on at most two
    sessions that had to end. Any other message gets none, and nothing else is
    sent to the control plane. *)
Theorem request_answered_once u msg r u' :
  handle_msg cf now vnow attempts u msg = Ok (r, u') ->
  let data := vec_elts (m_data msg) in
  if answered data then replies (pfcp_msg_type data + 1) u u' else quiet u u'.
Proof. apply handle_msg_reply. Qed.
End Dispatch.

Definition demo_request : pfcp_msg_t := cp_msg (demo_establish 7 [172; 16; 0; 1]).
Definition demo_request_handle (u : upf_main_t) : outcome (Z * upf_main_t) :=
  handle_msg demo_config (f64_of_Z 1000) (f64_of_Z 10) 100 u demo_request.
Definition demo_request_first : upf_main_t := after (demo_request_handle demo_associated).
Definition demo_request_again : upf_main_t := after (demo_request_handle demo_request_first).

Lemma demo_request_answered : answered (vec_elts (m_data demo_request)) = true.
Proof. vm_cast_no_check (eq_refl true). Qed.
Lemma demo_request_type : pfcp_msg_type (vec_elts (m_data demo_request)) + 1 = PFCP_SESSION_ESTABLISHMENT_RESPONSE.
Proof. vm_cast_no_check (eq_refl 51). Qed.
Lemma demo_request_accepted : demo_request_handle demo_associated = Ok (0, demo_request_first).
Proof. apply code_after. vm_cast_no_check (eq_refl (Some 0)). Qed.
Lemma demo_request_refused : demo_request_handle demo_request_first = Ok (-1, demo_request_again).
Proof. apply code_after. vm_cast_no_check (eq_refl (Some (-1))). Qed.
#[local] Opaque demo_associated demo_request_first demo_request_again demo_request.

(** the session is established, and asked for again *)
Lemma request_answered_once_witness :
  replies PFCP_SESSION_ESTABLISHMENT_RESPONSE demo_associated demo_request_first
  /\ replies PFCP_SESSION_ESTABLISHMENT_RESPONSE demo_request_first demo_request_again.
Proof.
  rewrite <- demo_request_type.
  pose proof (request_answered_once _ _ _ _ _ _ _ _ demo_request_accepted) as R.
  pose proof (request_answered_once _ _ _ _ _ _ _ _ demo_request_refused) as R'.
  cbv zeta in R, R'. rewrite demo_request_answered in R, R'.
  split; [exact R|exact R'].
Defined.
