(* ===== verification/UpfProcess.v ===== *)
(** * The PFCP process

    The server of [PfcpServer] with the plugin that it serves: pfcp_process with
    the message handlers, the release of associations, the timers of usage
    reporting rules and the reports on events of the data path in place of the
    interface [PfcpApp]. What the server relies on in its callers, [PfcpAppOk],
    is proved of the plugin, so the theorems on the server hold of the process
    as a whole. *)

From Stdlib Require Import ZArith Lia String.
From stdpp Require Import base list list_numbers option numbers decidable strings gmap.
From S2P Require Import Prelude PfcpIo PfcpIe PfcpLeaf PfcpTables PfcpCodec UpfTypes UpfVec UpfUrr UpfRules UpfAssoc UpfTeid UpfAcl PfcpServer PfcpServerInv PfcpServerSafe PfcpServerRun UrrTimer UpfIpfilter ApiMsg UpfMain UpfSession ApiRules ApiPdr ApiSession ApiDemo ApiInv ApiReply.

Section Process.
Context {N : VppNet} {P : VppPool} {V : VecSort} {U : VppUnformat} {Mem : VppMemory} {M : IpMasks} {F : VppFormat} {I : Vppinfra}.
Context (cf : upf_config) (attempts : nat).

(** ** The plugin as the server sees it *)

(** what is sent while a function runs, in its order; end markers leave through
    the data path *)
Fixpoint calls (l : list output) (u : upf_main_t) : upcall upf_main_t :=
  match l with
  | [] => Return u
  | OutResponse dmsg :: l => SendResponse dmsg (fun _ => calls l u)
  | OutSessionRequest si sx n dmsg :: l => SendSessionRequest si sx n dmsg (calls l u)
  | OutFreeMsgs node :: l => FreeMsgsByNode node (calls l u)
  | OutEndMarker _ _ _ _ :: l => calls l u
  end.
Definition is_end_marker (o : output) : bool := match o with OutEndMarker _ _ _ _ => true | _ => false end.
Definition upcall_of (u : upf_main_t) (f : upf_main_t -> outcome upf_main_t) : upcall upf_main_t :=
  match f (set_um_out u []) with
  | Ok u' => calls (um_out u') (set_um_out u' (um_out u ++ filter (fun o => is_end_marker o = true) (um_out u')))
  | _ => Stop
  end.

(** a report on a session, sent if there is one *)
Definition put_report (u : upf_main_t) (si : Z) (r : wheel * upf_session_t * option pfcp_decoded_msg_t) : upf_main_t :=
  let '(w, sx, dmsg) := r in
  let u := put_sx (set_um_wheel u w) si sx in
  match dmsg with
  | Some dmsg => emit u (OutSessionRequest si sx (pool_elt (am_nodes (um_assoc u)) (as_node (sx_assoc_ sx))) dmsg)
  | None => u
  end.
Definition session_urr_timer (now vnow : f64) (si : Z) (u : upf_main_t) : outcome upf_main_t :=
  let* sx := get_sx u si in
  let* r := UrrTimer.upf_pfcp_session_urr_timer now vnow si (um_wheel u) sx in
  Ok (put_report u si r).
Definition session_usage_report (now vnow : f64) (si : Z) (uev : urr_report_event) (u : upf_main_t) : outcome upf_main_t :=
  let* sx := get_sx u si in
  let* r := UrrTimer.upf_pfcp_session_usage_report now vnow si (um_wheel u) sx (re_ue uev) (re_uev uev) in
  Ok (put_report u si r).
(** the end of a session whose reports cannot be made *)
Definition fatal_session (now vnow : f64) (si : Z) (u : upf_main_t) : outcome upf_main_t :=
  let* u := send_deletion_report now vnow u si in
  let* u := pfcp_disable_session cf vnow u si in
  pfcp_free_session u si.

(** [now] is psm->now, [vnow] vlib_time_now, neither of which moves in a turn *)
Definition upf_app (now vnow : f64) : PfcpApp upf_main_t := {|
  app_nodes u := am_nodes (um_assoc u);
  app_sessions u := am_sessions (um_assoc u);
  upf_pfcp_handle_msg u msg :=
    upcall_of u (fun u => let* (_, u) := handle_msg cf now vnow attempts u msg in Ok u);
  PfcpServer.pfcp_release_association u node := upcall_of u (fun u => UpfSession.pfcp_release_association cf vnow u node);
  PfcpServer.upf_pfcp_session_urr_timer u si t := upcall_of u (session_urr_timer t vnow si);
  PfcpServer.upf_pfcp_session_usage_report u si uev t := upcall_of u (session_usage_report t vnow si uev);
  drop_session u si := upcall_of u (fatal_session now vnow si)
|}.

(** ** A turn of the process *)

(** the timers of sessions and heartbeats that are due at [tick] are taken from
    the wheel; [run] is the time of the tick *)
Definition wheel_due (tick : Z) (w : wheel) : list (Z * (Z * Z)) :=
  filter (fun kt => due tick (snd kt) = true) (map_to_list (pool_elts (wh_timers w))).
Definition wheel_expire (w : wheel) (tick : Z) (run : f64) : list Z * wheel :=
  let gone := wheel_due tick w in
  (map (fun kt => fst (snd kt)) gone,
   mk_wheel (mk_pool (filter (fun kt => due tick (snd kt) = false) (pool_elts (wh_timers w)))
               (map fst gone ++ pool_free (wh_timers w))) tick run).

Definition upf_turn (session_valid : Z -> bool) (u : upf_main_t) (st : server) (now vnow : f64) (tick : Z) (run : f64) (ev : event)
  : outcome (upf_main_t * server) :=
  let '(ids, w) := wheel_expire (um_wheel u) tick run in
  pfcp_turn (App := upf_app now vnow) session_valid (set_um_wheel u w) st now tick ids ev.

(** ** What the server relies on *)

Abbreviation filter_msgs l := (filter (fun o => is_msg o = true) l).

Lemma calls_requests r l u n :
  Forall (fun o => is_request o = true) (filter_msgs l) -> (length (filter_msgs l) <= n)%nat ->
  behaves r (3 * n) (calls l u).
Proof.
  revert n. induction l as [|o l IH]; intros n; [constructor|]. destruct o; cbn [calls].
  - rewrite filter_cons_True by done. by intros [? _]%Forall_cons.
  - rewrite filter_cons_True by done. intros [_ Hf]%Forall_cons Hn. cbn [length] in Hn. destruct n as [|n]; [lia|].
    replace (3 * S n)%nat with (3 + 3 * n)%nat by lia. constructor. apply IH; [done|lia].
  - rewrite filter_cons_False by done. intros Hf Hn. constructor. by apply IH.
  - rewrite filter_cons_False by done. apply IH.
Qed.

Lemma calls_reply l l' dmsg u n :
  filter_msgs l = l' ++ [OutResponse dmsg] -> Forall (fun o => is_request o = true) l' -> (length l' <= n)%nat ->
  behaves true (3 * S n) (calls l u).
Proof.
  revert n l'. induction l as [|o l IH]; intros n l'; [by destruct l'|]. destruct o; cbn [calls].
  - rewrite filter_cons_True by done. destruct l' as [|o' l']; [|by intros [= <- _] [? _]%Forall_cons].
    intros [= _ E] _ _. replace (3 * S n)%nat with (3 + 3 * n)%nat by lia. constructor. intros _.
    apply calls_requests; rewrite E; [constructor|simpl; lia].
  - rewrite filter_cons_True by done. destruct l' as [|o' l']; [done|]. intros [= _ E] [_ Hf]%Forall_cons Hn.
    cbn [length] in Hn. destruct n as [|n]; [lia|]. replace (3 * S (S n))%nat with (3 + 3 * S n)%nat by lia.
    constructor. eapply IH; [done|done|lia].
  - rewrite filter_cons_False by done. intros. constructor. by eapply IH.
  - rewrite filter_cons_False by done. apply IH.
Qed.

Lemma upcall_sends r u f n : (forall v v', f v = Ok v' -> sends n v v') -> behaves r (3 * n) (upcall_of u f).
Proof.
  intros Hf. unfold upcall_of. destruct (f _) as [u'| |] eqn:E; [|constructor..].
  destruct (Hf _ _ E) as (l & H1 & H2 & H3). unfold msgs in H1. simpl in H1. apply calls_requests; by rewrite H1.
Qed.

Lemma emit_sends u v si sx n dmsg : um_out v = um_out u -> sends 1 u (emit v (OutSessionRequest si sx n dmsg)).
Proof. intros H. eapply (quiet_before _ _ v); [by apply quiet_out|apply sends_emit]. Qed.
Lemma put_report_sends u si r : sends 1 u (put_report u si r).
Proof.
  destruct r as [[w sx] [dmsg|]]; simpl; [by apply emit_sends|by apply sends_out].
Qed.
Lemma urr_timer_sends now vnow si u u' : session_urr_timer now vnow si u = Ok u' -> sends 1 u u'.
Proof. unfold session_urr_timer. ocase. ocase. intros [= <-]. apply put_report_sends. Qed.
Lemma usage_report_sends now vnow si uev u u' : session_usage_report now vnow si uev u = Ok u' -> sends 1 u u'.
Proof. unfold session_usage_report. ocase. ocase. intros [= <-]. apply put_report_sends. Qed.
Lemma deletion_report_sends now vnow u si u' : send_deletion_report now vnow u si = Ok u' -> sends 1 u u'.
Proof.
  unfold send_deletion_report. ocase. ocase. opairs. intros [= <-]. by apply emit_sends.
Qed.
Lemma fatal_sends now vnow si u u' : fatal_session now vnow si u = Ok u' -> sends 1 u u'.
Proof.
  unfold fatal_session. ocase. ocase. intros H.
  match goal with H : send_deletion_report _ _ _ _ = _ |- _ => apply deletion_report_sends in H as H1 end.
  eapply quiet_after; [eapply quiet_after; [exact H1|eapply disable_quiet; eassumption]|by eapply free_quiet].
Qed.

(** a message that is answered is a request *)
Lemma answered_request data : answered data = true -> pfcp_msg_type data ∈ request_types.
Proof.
  unfold answered. destruct (pfcp_decode_msg _ _) as [[[c dmsg] err]| |]; [|done..].
  assert (forall l, l ⊆ request_types -> in_types l (pfcp_msg_type data) = true -> pfcp_msg_type data ∈ request_types) as H.
  { intros l Hl. unfold in_types. rewrite existsb_exists. intros (x & Hx & ->%Z.eqb_eq). apply Hl. by apply list_elem_of_In. }
  destruct (c =? 0); [|intros [_ E]%andb_true_iff; revert E]; apply H; intros x; unfold supported_requests, error_response_types, request_types;
    rewrite !elem_of_cons, elem_of_nil; tauto.
Qed.

(** three messages at most *)
Lemma upf_app_ok now vnow : PfcpAppOk (App := upf_app now vnow).
Proof.
  refine {| app_burst := 9 |}; intros.
  - cbn [PfcpServer.upf_pfcp_handle_msg upf_app]. unfold upcall_of.
    destruct (handle_msg _ _ _ _ _ _) as [[r u']| |] eqn:E; cbn [obind]; [|constructor..].
    apply handle_msg_reply in E. cbv zeta in E. destruct (answered _) eqn:Ea.
    + rewrite bool_decide_true by (by apply answered_request). destruct E as (l & dmsg & El & _ & Hf & Hl).
      unfold msgs in El. cbn [um_out set_um_out filter_nil app] in El. by apply (calls_reply _ l dmsg _ 2).
    + unfold quiet, msgs in E. simpl in E. apply (calls_requests _ _ _ 3); rewrite E; [constructor|simpl; lia].
  - apply (upcall_sends _ _ _ 3). intros v v' H. apply quiet_sends. by eapply release_quiet.
  - apply (upcall_sends _ _ _ 3). intros v v' H. eapply sends_le; [by eapply urr_timer_sends|lia].
  - apply (upcall_sends _ _ _ 3). intros v v' H. eapply sends_le; [by eapply usage_report_sends|lia].
  - apply (upcall_sends _ _ _ 3). intros v v' H. eapply sends_le; [by eapply fatal_sends|lia].
Defined.
End Process.

(** ** Reachable states *)

Section Reach.
Context (own : Z -> bool) {N : VppNet} {P : VppPool} {POk : VppPoolOk P} {PD : VppPoolDense P} {V : VecSort} {VOk : VecSortOk V}.
Context {U : VppUnformat} {Mem : VppMemory} {M : IpMasks} {F : VppFormat} {I : Vppinfra}.
Context (cf : upf_config) (attempts : nat) (session_valid : Z -> bool).

(** the turn has room, the timers that expire are those of sessions and
    heartbeats, and the sequence numbers of the peer are not the UPF's own *)
Definition process_ok (u : upf_main_t) (st : server) (now vnow : f64) (tick : Z) (ev : event) : Prop :=
  turn_ok own (App := upf_app cf attempts now vnow) (AOk := upf_app_ok cf attempts now vnow) st now
    (map (fun kt => fst (snd kt)) (wheel_due tick (um_wheel u))) ev.

(** from the plugin as it is configured and the start of the server, by turns *)
Inductive upf_reach (u0 : upf_main_t) (start_time : Z) : upf_main_t -> server -> Prop :=
| upf_reach_init : upf_reach u0 start_time u0 (pfcp_server_main_init start_time)
| upf_reach_turn u st now vnow tick run ev u' st' :
    upf_reach u0 start_time u st -> process_ok u st now vnow tick ev ->
    upf_turn cf attempts session_valid u st now vnow tick run ev = Ok (u', st') -> upf_reach u0 start_time u' st'.

Lemma upf_turn_safe u st now vnow tick run ev :
  sv_ok own st -> process_ok u st now vnow tick ev ->
  PfcpServerInv.safe (fun '(_, st') => sv_ok own st') (upf_turn cf attempts session_valid u st now vnow tick run ev).
Proof.
  intros Hok Ht. unfold upf_turn, wheel_expire.
  exact (turn_safe own (App := upf_app cf attempts now vnow) (AOk := upf_app_ok cf attempts now vnow) session_valid _ st now tick _ ev Hok Ht).
Qed.
Lemma upf_reach_ok u0 start_time u st : upf_reach u0 start_time u st -> sv_ok own st.
Proof.
  induction 1 as [|u st now vnow tick run ev u' st' _ IH Ht E]; [apply init_ok|].
  pose proof (upf_turn_safe u st now vnow tick run ev IH Ht) as Hs. by rewrite E in Hs.
Qed.

End Reach.

(** ** A run *)

(** [room] and the other conditions of a turn, decided *)
Definition turn_check (own : Z -> bool) (n : nat) (st : server) (now : f64) (ids : list Z) (ev : event) : bool :=
  forallb (fun t => negb (f64_eqb (f64_add now (f64_of_Z t)) f64_zero)) [10; 30]
  && forallb (fun e => (0 <=? e) && (e <? 129 * 2 ^ 24)) ids
  && (Z.of_nat (size (pool_elts (sv_msg_pool st))) + Z.of_nat n <=? 2 ^ 24)
  && (Z.of_nat (size (pool_elts (sv_timer st))) + Z.of_nat n <? u32_none)
  && forallb (fun j => let s := (sv_seq_no st + j) mod 2 ^ 24 in own s && bool_decide (sv_request_q st !! s = None))
       (seqZ 1 (Z.of_nat n))
  && match ev with
     | EVENT_RX l => forallb (fun msg => let s := pfcp_msg_seq (vec_elts (m_data msg)) in
                        negb (bool_decide (pfcp_msg_type (vec_elts (m_data msg)) ∈ request_types))
                        || (0 <=? s) && (s <? 2 ^ 24) && negb (own s)) l
     | EVENT_TX _ => false
     | _ => true
     end.
Lemma turn_check_ok own {A} (App : PfcpApp A) (AOk : PfcpAppOk (App := App)) st now ids ev :
  turn_check own (turn_size (AOk := AOk) st ids ev) st now ids ev = true -> turn_ok own (AOk := AOk) st now ids ev.
Proof.
  unfold turn_check. set (n := turn_size _ _ _).
  intros [[[[[H1 H2]%andb_true_iff H3]%andb_true_iff H4]%andb_true_iff H5]%andb_true_iff H6]%andb_true_iff.
  rewrite forallb_forall in H1, H2, H5. split_and!.
  - intros t Ht. apply negb_true_iff, H1. simpl. destruct Ht; auto.
  - apply Forall_forall. intros e He. right. apply list_elem_of_In in He. apply H2 in He. lia.
  - split; [by apply Z.leb_le|]. split; [by apply Z.ltb_lt|]. fold n. intros j Hj.
    assert (In j (seqZ 1 (Z.of_nat n))) as Hin by (apply list_elem_of_In, elem_of_seqZ; lia).
    apply H5, andb_true_iff in Hin as [? ?%bool_decide_eq_true]. done.
  - fold n. destruct ev as [|l|l|l|l]; try done. rewrite forallb_forall in H6. apply Forall_forall. intros msg Hm Hty.
    apply list_elem_of_In in Hm. apply H6 in Hm. rewrite bool_decide_true in Hm by done. apply andb_true_iff in Hm as [Hm ->%negb_true_iff].
    split; [unfold id24; lia|done].
Qed.

(** sequence numbers from 1000 on are the peer's *)
Definition demo_seqs (s : Z) : bool := s <? 1000.
Definition from_cp (dmsg : pfcp_decoded_msg_t) (s : Z) : event := EVENT_RX [cp_msg (dmsg_set dmsg s (dm_seid dmsg))].
Definition demo_upf_turn (u : upf_main_t) (st : server) (seconds : Z) (ev : event) : outcome (upf_main_t * server) :=
  upf_turn demo_config 100 (fun _ => true) u st (f64_of_Z seconds) (f64_of_Z seconds) (seconds * TW_CLOCKS_PER_SECOND) (f64_of_Z seconds) ev.
(** a turn if its conditions hold *)
Definition checked_turn (s : option (upf_main_t * server)) (t : Z * event) : option (upf_main_t * server) :=
  s ≫= fun '(u, st) =>
  let ids := map (fun kt => fst (snd kt)) (wheel_due (fst t * TW_CLOCKS_PER_SECOND) (um_wheel u)) in
  if turn_check demo_seqs ((event_size (snd t) + (size (pool_elts (sv_timer st)) + length ids)) * 12 + length ids) st
       (f64_of_Z (fst t)) ids (snd t)
  then match demo_upf_turn u st (fst t) (snd t) with Ok s => Some s | _ => None end else None.
Definition demo_upf_run (l : list (Z * event)) : option (upf_main_t * server) :=
  foldl checked_turn (Some (demo_main, pfcp_server_main_init 0)) l.

Lemma demo_run_reach l u st :
  demo_upf_run l = Some (u, st) -> upf_reach demo_seqs demo_config 100 (fun _ => true) demo_main 0 u st.
Proof.
  unfold demo_upf_run. revert u st. induction l as [|[t ev] l IH] using rev_ind; intros u st.
  { intros [= <- <-]. constructor. }
  rewrite foldl_app. cbn [foldl]. destruct (foldl _ _ l) as [[u1 st1]|]; [|done]. cbn [checked_turn mbind option_bind fst snd].
  destruct (turn_check _ _ _ _ _ _) eqn:E; [|done]. unfold demo_upf_turn. destruct (upf_turn _ _ _ _ _ _ _ _ _ _) eqn:E1; [|done..].
  intros [= ->]. eapply upf_reach_turn; [by apply IH| |exact E1]. by apply turn_check_ok.
Qed.

(** a rule that is to be reported on every five seconds *)
Definition demo_period_urr : val :=
  grp pfcp_create_urr_group
    [(CREATE_URR_URR_ID, leaf1 K_u32_ie 1); (CREATE_URR_MEASUREMENT_METHOD, leaf1 K_u8_ie 2);
     (CREATE_URR_REPORTING_TRIGGERS, leaf1 K_u16_little_ie REPORTING_TRIGGER_PERIODIC_REPORTING);
     (CREATE_URR_MEASUREMENT_PERIOD, leaf1 K_u32_ie 5)].
Definition demo_periodic : pfcp_decoded_msg_t :=
  mk_dmsg PFCP_SESSION_ESTABLISHMENT_REQUEST 2 0
    (grp pfcp_session_establishment_request_group
       [(SESSION_ESTABLISHMENT_REQUEST_NODE_ID, leaf1 K_node_id demo_cp_id);
        (SESSION_ESTABLISHMENT_REQUEST_F_SEID,
         leaf1 K_f_seid (Build_pfcp_f_seid_t IE_F_SEID_IP_ADDRESS_V4 7 [10; 0; 0; 1] ip6_zero));
        (SESSION_ESTABLISHMENT_REQUEST_CREATE_PDR, [demo_ul_pdr 1 [172; 16; 0; 1]; demo_dl_pdr 2 [172; 16; 0; 1]]);
        (SESSION_ESTABLISHMENT_REQUEST_CREATE_FAR, [demo_far 1]);
        (SESSION_ESTABLISHMENT_REQUEST_CREATE_URR, [demo_period_urr])]).
Definition demo_delete : pfcp_decoded_msg_t := mk_dmsg PFCP_SESSION_DELETION_REQUEST 3 7 (VGroup 0 [] []).
(** an association, a session, a silence with a heartbeat and a report, the end of
    the session, asked for twice *)
Definition demo_day : list (Z * event) :=
  [(1, from_cp demo_setup 1001); (2, from_cp demo_periodic 1002); (12, EVENT_TIMEOUT);
   (13, from_cp demo_delete 1003); (14, from_cp demo_delete 1003)].
(** where a run ends, and whether it does *)
Definition run_end (l : list (Z * event)) : upf_main_t * server := default (demo_main, pfcp_server_main_init 0) (demo_upf_run l).
Definition run_ends (l : list (Z * event)) : bool := match demo_upf_run l with Some _ => true | None => false end.
Lemma run_end_run l : run_ends l = true -> demo_upf_run l = Some (fst (run_end l), snd (run_end l)).
Proof. unfold run_ends, run_end. destruct (demo_upf_run l) as [[u st]|]; done. Qed.

Definition demo_evening : upf_main_t * server := run_end demo_day.
Lemma demo_day_runs : demo_upf_run demo_day = Some (fst demo_evening, snd demo_evening).
Proof. apply run_end_run. vm_cast_no_check (eq_refl true). Qed.
#[local] Opaque demo_evening.


(** An association that is set up again, and then released because a heartbeat
    response shows that the peer was restarted: the heartbeat timer of the first
    setup was not stopped, and the heartbeat is sent for an association that is
    not there. *)
Definition demo_restarted : pfcp_decoded_msg_t :=
  mk_dmsg PFCP_HEARTBEAT_RESPONSE 1 0
    (grp pfcp_simple_response_group [(PFCP_RESPONSE_RECOVERY_TIME_STAMP, leaf1 K_time_stamp_ie 4000000060)]).
Definition demo_setups : list (Z * event) :=
  [(1, from_cp demo_setup 1001); (6, from_cp demo_setup 1002); (12, EVENT_TIMEOUT); (13, EVENT_RX [cp_msg demo_restarted])].
Definition demo_released : upf_main_t * server := run_end demo_setups.
Definition is_bad_index {A} (o : outcome A) : bool := match o with Fault BadIndex => true | _ => false end.
Lemma bad_index {A} (o : outcome A) : is_bad_index o = true -> o = Fault BadIndex.
Proof. by destruct o as [| |[]]. Qed.

Theorem heartbeat_after_release :
  upf_reach demo_seqs demo_config 100 (fun _ => true) demo_main 0 (fst demo_released) (snd demo_released)
  /\ size (pool_elts (am_nodes (um_assoc (fst demo_released)))) = 0%nat
  /\ demo_upf_turn (fst demo_released) (snd demo_released) 17 EVENT_TIMEOUT = Fault BadIndex.
Proof.
  split; [|split; [vm_cast_no_check (eq_refl 0%nat)|apply bad_index; vm_cast_no_check (eq_refl true)]].
  apply (demo_run_reach demo_setups), run_end_run. vm_cast_no_check (eq_refl true).
Qed.
