(* ===== verification/PluginInv.v ===== *)
(** * Sessions and associations under the handlers

    The invariant of [AssocInv] through everything the PFCP process calls: in any
    order of messages, expired timers, reports and released associations, every
    session is in the list of its association and is found by its SEID, and what
    requests do to sessions is what they say: established or not there at all,
    deleted, modified in place. *)

From Stdlib Require Import ZArith Lia String.
From stdpp Require Import base list list_numbers option numbers decidable strings gmap.
From S2P Require Import Prelude PfcpIo PfcpIe PfcpLeaf PfcpTables PfcpCodec UpfTypes UpfVec UpfUrr UpfRules UpfAssoc UpfTeid UpfAcl PfcpServer UrrTimer UpfIpfilter ApiMsg UpfMain UpfSession ApiRules ApiPdr ApiSession ApiDemo AssocInv ApiInv ApiReply UpfProcess.

#[local] Abbreviation Ses u := (pool_elts (am_sessions (um_assoc u))).
#[local] Abbreviation Nod u := (pool_elts (am_nodes (um_assoc u))).
#[local] Abbreviation by_id u := (am_session_by_id (um_assoc u)).

Section Plugin.
Context {N : VppNet} {P : VppPool} {POk : VppPoolOk P} {V : VecSort} {U : VppUnformat} {Mem : VppMemory} {M : IpMasks} {F : VppFormat} {I : Vppinfra}.
Context (cf : upf_config) (now vnow : f64) (attempts : nat).

Definition plugin_ok (u : upf_main_t) : Prop := assoc_ok (um_assoc u).

(** ** Applying rules leaves the tables alone *)

Abbreviation same u u' := (um_assoc u' = um_assoc u).

Lemma peer_ref_same u f i u' : peer_addr_ref u f = Ok (i, u') -> same u u'.
Proof. unfold peer_addr_ref. case_match; [case_match; [|done]|case_match]; by intros [= _ <-]. Qed.
Lemma peer_unref_same u f u' : peer_addr_unref u f = Ok u' -> same u u'.
Proof. unfold peer_addr_unref. case_match; [|done]. case_match; [|done]. case_match; by intros [= <-]. Qed.
Lemma apply_fars_same u r l u' r' l' : apply_fars u r l = Ok (u', r', l') -> same u u'.
Proof.
  revert u r u' r' l'. induction l as [|f l IH]; intros u r u' r' l'; simpl; [by intros [= <- _ _]|].
  intros ([[u1 r1] f1] & E1 & ([[u2 r2] l2] & E2 & [= <- _ _])%obind_Ok)%obind_Ok. rewrite (IH _ _ _ _ _ E2).
  revert E1. unfold apply_far. case_match; [by intros [= <- _ _]|]. intros ([i u3] & E & [= <- _ _])%obind_Ok.
  by eapply peer_ref_same.
Qed.
Lemma unref_fars_same u l u' : unref_fars u l = Ok u' -> same u u'.
Proof.
  revert u. induction l as [|f l IH]; intros u; simpl; [by intros [= <-]|]. intros (u1 & E & H)%obind_Ok.
  rewrite (IH _ H). revert E. gcase; [by intros [= <-]|]. apply peer_unref_same.
Qed.
Lemma end_markers_same u old l u' : send_end_markers u old l = Ok u' -> same u u'.
Proof.
  revert u. induction l as [|em l IH]; intros u; simpl; [by intros [= <-]|]. case_match; [|apply IH].
  case_match; [|done]. intros H1. by rewrite (IH _ H1).
Qed.
Lemma run_diff_same {A} (f : upf_main_t -> A -> bool -> upf_main_t) u l :
  (forall u a b, same u (f u a b)) -> same u (run_diff f u l).
Proof. intros H. unfold run_diff. revert u. induction l as [|a l IH]; intros u; simpl; [done|]. by rewrite IH, H. Qed.
Lemma update_tables_same si u p a : same u (fst (fst (update_tables cf si u p a))).
Proof.
  unfold update_tables. repeat case_match. simpl. rewrite !run_diff_same; try done; intros ? ? ?; apply tdf_assoc.
Qed.
Lemma prepare_same u si p a u' p' a' : apply_prepare cf u si p a = Ok (u', p', a') -> same u u'.
Proof.
  unfold apply_prepare. intros (p1 & _ & ([u1 p2] & E1 & ([u2 p3] & E2 & H)%obind_Ok)%obind_Ok)%obind_Ok.
  assert (same u u1) as S1.
  { revert E1. gcase; [|by intros [= <- _]]. intros ([[v r] fars] & E & [= <- _])%obind_Ok. by eapply apply_fars_same. }
  assert (same u1 u2) as S2.
  { revert E2. gcase; [|by intros [= <- _]]. by intros ([v r] & E & [= <- _])%obind_Ok. }
  revert H. gcase; [|intros [= <- _ _]; congruence]. intros E.
  pose proof (update_tables_same si u2 p3 a) as Ht. replace (update_tables cf si u2 p3 a) with (u', p', a') in Ht by congruence.
  simpl in Ht. congruence.
Qed.
Lemma timers_same u si last new old u' new' old' : apply_timers vnow u si last new old = Ok (u', new', old') -> same u u'.
Proof.
  unfold apply_timers. intros ([w old1] & _ & H)%obind_Ok. revert H.
  destruct (upf_pfcp_session_start_up_inactivity_timer _ _ _ _ _) as [? ?]. by intros [= <- _ _].
Qed.
Lemma apply_finish_same u si pp pf pu pq new old u' new' old' :
  apply_finish now u si pp pf pu pq new old = Ok (u', new', old') -> same u u'.
Proof.
  unfold apply_finish. ocase. ocase. ocase. opairs. ocase. opairs. intros [= <- _ _]. simpl.
  match goal with H : send_end_markers ?u1 _ _ = Ok ?u2, H' : (if _ then unref_fars _ _ else _) = Ok _ |- _ =>
    apply end_markers_same in H; rewrite H; revert H' end.
  gcase; [apply unref_fars_same|by intros [= <-]].
Qed.

(** ** A session changed in place *)

(** only the session [si] is changed, but neither its links nor its SEID *)
Definition in_place (si : Z) (u u' : upf_main_t) : Prop :=
  exists sx sx', Ses u !! si = Some sx /\ sx_assoc_ sx' = sx_assoc_ sx /\ sx_cp_seid sx' = sx_cp_seid sx
  /\ um_assoc u' = put_session (um_assoc u) si sx'.

Lemma in_place_put si u v sx sx' :
  Ses u !! si = Some sx -> same u v -> sx_assoc_ sx' = sx_assoc_ sx -> sx_cp_seid sx' = sx_cp_seid sx -> in_place si u (put_sx v si sx').
Proof. intros Hs Hv Ha Hi. exists sx, sx'. split_and!; try done. unfold put_sx. simpl. by rewrite Hv. Qed.
Lemma in_place_refl si u u' sx : Ses u !! si = Some sx -> same u u' -> in_place si u u'.
Proof.
  intros Hs Hu. exists sx, sx. split_and!; try done. rewrite Hu. unfold put_session, am_set_sessions, pool_set. simpl.
  rewrite insert_id by done. by destruct (um_assoc u) as [? ? ? [? ?]].
Qed.
Lemma in_place_trans si a b c : in_place si a b -> in_place si b c -> in_place si a c.
Proof.
  intros (sx & sx1 & Hs & Ha & Hi & E) (sx1' & sx2 & Hs' & Ha' & Hi' & E'). rewrite E in Hs'. simpl in Hs'.
  rewrite lookup_insert_eq in Hs'. injection Hs' as <-. exists sx, sx2. split_and!; try congruence. rewrite E', E.
  unfold put_session, am_set_sessions, pool_set. simpl. by rewrite insert_insert_eq.
Qed.
Lemma in_place_ok si u u' : in_place si u u' -> plugin_ok u -> plugin_ok u'.
Proof. intros (sx & sx' & Hs & Ha & Hi & E). unfold plugin_ok. rewrite E. by eapply put_assoc_ok. Qed.
Lemma in_place_lookup si u u' : in_place si u u' ->
  by_id u' = by_id u /\ Nod u' = Nod u /\ forall i, sx_cp_seid <$> Ses u' !! i = sx_cp_seid <$> Ses u !! i.
Proof.
  intros (sx & sx' & Hs & Ha & Hi & E). rewrite E. split_and!; try done. intros i. simpl.
  destruct (decide (i = si)) as [->|]; [|by rewrite lookup_insert_ne]. rewrite lookup_insert_eq, Hs. simpl. by rewrite Hi.
Qed.

Lemma apply_in_place u si u' : pfcp_update_apply cf now vnow u si = Ok u' -> in_place si u u'.
Proof.
  unfold pfcp_update_apply. intros (sx & Hs%get_sx_lookup & H)%obind_Ok. revert H.
  gcase; [intros [= <-]; by eapply in_place_refl|].
  intros ([[u1 n1] o1] & E1%prepare_same & ([[u2 n2] o2] & E2%timers_same & ([[u3 n3] o3] & E3%apply_finish_same & [= <-])%obind_Ok)%obind_Ok)%obind_Ok.
  eapply in_place_put; [exact Hs|congruence|done|done].
Qed.
Lemma finish_in_place u si u' : pfcp_update_finish u si = Ok u' -> in_place si u u'.
Proof.
  unfold pfcp_update_finish. intros (sx & Hs%get_sx_lookup & ([gm sx'] & E & [= <-])%obind_Ok)%obind_Ok.
  assert (sx' = set_rules sx PFCP_PENDING rules_zero) as ->.
  { revert E. unfold pfcp_free_rules. by intros (g1 & _ & (g2 & _ & (g3 & _ & (g4 & _ & [= _ <-])%obind_Ok)%obind_Ok)%obind_Ok)%obind_Ok. }
  by eapply in_place_put.
Qed.
Lemma report_usage_in_place si req s s' : report_usage now vnow si req s = Ok s' -> in_place si (h_um s) (h_um s').
Proof.
  unfold report_usage. intros (sx & Hs%get_sx_lookup & H)%obind_Ok. revert H. set (choice := if _ && _ then _ else _).
  destruct choice as [resp rp]. intros ([urrs out] & _ & [= <-])%obind_Ok. simpl. by eapply in_place_put.
Qed.
Lemma modify_sx_in_place si f s r s' :
  (forall sx, sx_assoc_ (f sx) = sx_assoc_ sx /\ sx_cp_seid (f sx) = sx_cp_seid sx) ->
  modify_sx si f s = Ok (r, s') -> in_place si (h_um s) (h_um s').
Proof.
  intros Hf. unfold modify_sx. intros (sx & Hs%get_sx_lookup & [= _ <-])%obind_Ok. destruct (Hf sx). by eapply in_place_put.
Qed.

(** ** Sessions under the handlers of rules *)

(** in order, with the session [si], whose SEID is [seid] *)
Definition holds (si seid : Z) (u : upf_main_t) : Prop :=
  plugin_ok u /\ exists sx, Ses u !! si = Some sx /\ sx_cp_seid sx = seid.
(** no session comes up *)
Definition no_new (u u' : upf_main_t) : Prop := forall i, is_Some (Ses u' !! i) -> is_Some (Ses u !! i).

Lemma holds_found si seid u : holds si seid u -> by_id u !! seid = Some si.
Proof. intros [[[L HL] _] (sx & Hs & <-)]. by apply (ls_seid _ _ _ HL). Qed.
Lemma found_holds si seid u : plugin_ok u -> by_id u !! seid = Some si -> holds si seid u.
Proof. intros Hok Hs. split; [done|]. destruct Hok as [[L HL] _]. destruct (ls_found _ _ _ HL _ _ Hs) as (_ & ?). done. Qed.

Lemma spares_holds si seid u u' : spares si u u' -> holds si seid u -> holds si seid u'.
Proof.
  intros [Hk Ho Ha] [Hok (sx & Hs & Hi)]. split; [by apply Ha|]. destruct (Ho ltac:(by eexists)) as [sx' Hs'].
  exists sx'. split; [done|]. destruct (Hk si sx' Hs') as (sx0 & Hs0 & [_ -> _ _]). unfold sess, pool_elt in Hs0. congruence.
Qed.
Lemma spares_no_new si u u' : spares si u u' -> no_new u u'.
Proof. intros [Hk _ _] i [sx' Hs']. destruct (Hk i sx' Hs') as (sx & ? & _). by eexists. Qed.
Lemma in_place_holds si seid u u' : in_place si u u' -> holds si seid u -> holds si seid u'.
Proof.
  intros H [Hok (sx & Hs & Hi)]. split; [by eapply in_place_ok|]. destruct (in_place_lookup _ _ _ H) as (_ & _ & Hl).
  specialize (Hl si). rewrite Hs in Hl. destruct (Ses u' !! si) as [sx'|]; [|done]. injection Hl as Hl. exists sx'. split; [done|congruence].
Qed.
Lemma in_place_no_new si u u' : in_place si u u' -> no_new u u'.
Proof.
  intros H i Hi. destruct (in_place_lookup _ _ _ H) as (_ & _ & Hl). specialize (Hl i).
  destruct (Ses u' !! i), (Ses u !! i); done.
Qed.
Lemma no_new_trans a b c : no_new a b -> no_new b c -> no_new a c.
Proof. intros H1 H2 i Hi. by apply H1, H2. Qed.

Definition sparing (si : Z) (h : hstate -> outcome (Z * hstate)) : Prop :=
  forall s r s', h s = Ok (r, s') -> spares si (h_um s) (h_um s').
Lemma run_handlers_sparing si l : Forall (sparing si) l -> sparing si (run_handlers l).
Proof.
  induction 1 as [|h l Hh _ IH]; intros s r s'; simpl; [intros [= <- <-]; reflexivity|].
  intros ([z s1] & E & H)%obind_Ok. apply Hh in E. destruct (z =? 0); [|by injection H as _ <-].
  etrans; [exact E|exact (IH _ _ _ H)].
Qed.
Lemma rule_handler_sparing si type h l : (type, h) ∈ rule_handlers cf now vnow attempts si -> sparing si (h l).
Proof. intros Hin s r s' H. by destruct (rule_handlers_safe _ _ _ _ _ _ _ _ _ _ _ Hin H). Qed.
Lemma mark_created_sparing si : sparing si mark_created_pdrs.
Proof. intros s r s'. unfold mark_created_pdrs. intros [= <- <-]. case_match; by apply spares_same. Qed.
Ltac rules_sparing := apply run_handlers_sparing; repeat (apply Forall_cons; split; [first [apply mark_created_sparing
  | match goal with |- sparing _ (?h ?l) => eapply (rule_handler_sparing _ _ h l); unfold rule_handlers; find_handler end]|]);
  by apply Forall_nil.
Lemma establish_rules_sparing si req : sparing si (establish_rules cf now vnow attempts si req).
Proof. unfold establish_rules. rules_sparing. Qed.
Lemma modify_rules_sparing si req : sparing si (modify_rules cf now vnow attempts si req).
Proof. unfold modify_rules. rules_sparing. Qed.

(** a step that keeps the session of the request and brings up no other *)
Definition steady (si : Z) (u u' : upf_main_t) : Prop := (forall seid, holds si seid u -> holds si seid u') /\ no_new u u'.
Lemma steady_trans si a b c : steady si a b -> steady si b c -> steady si a c.
Proof. intros [H1 N1] [H2 N2]. split; [auto|by eapply no_new_trans]. Qed.
Lemma spares_steady si u u' : spares si u u' -> steady si u u'.
Proof. intros H. split; [intros seid; by apply spares_holds|by eapply spares_no_new]. Qed.
Lemma in_place_steady si u u' : in_place si u u' -> steady si u u'.
Proof. intros H. split; [intros seid; by apply in_place_holds|by eapply in_place_no_new]. Qed.
Lemma same_steady si u u' : same u u' -> steady si u u'.
Proof. intros H. split; [intros seid|]; unfold holds, plugin_ok, no_new; by rewrite H. Qed.

Lemma inactivity_steady b si x s r s' : when b (set_inactivity_period si x) s = Ok (r, s') -> steady si (h_um s) (h_um s').
Proof.
  destruct b; simpl; [|intros [= _ <-]; by apply same_steady]. intros H. apply in_place_steady.
  revert H. apply modify_sx_in_place. done.
Qed.

Lemma establish_steady u si req resp r s' :
  establish_session cf now vnow attempts u si req resp = Ok (r, s') -> steady si u (h_um s').
Proof.
  unfold establish_session. intros ([o s1] & E1%inactivity_steady & ([z s2] & E2%establish_rules_sparing%spares_steady & H)%obind_Ok)%obind_Ok.
  pose proof (steady_trans _ _ _ _ E1 E2) as E. simpl in E. destruct (negb _); [by injection H as _ <-|].
  apply obind_Ok in H as (u3 & E3%apply_in_place%in_place_steady & (u4 & E4%finish_in_place%in_place_steady & [= _ <-])%obind_Ok).
  simpl. by eapply steady_trans; [|eapply steady_trans].
Qed.
Lemma update_session_keeps sx :
  sx_assoc_ (pfcp_update_session sx) = sx_assoc_ sx /\ sx_cp_seid (pfcp_update_session sx) = sx_cp_seid sx.
Proof. unfold pfcp_update_session. by destruct (negb _). Qed.
Lemma modify_steady si req s r s' :
  modify_session cf now vnow attempts si req s = Ok (r, s') -> steady si (h_um s) (h_um s').
Proof.
  unfold modify_session. intros ([o0 s0] & E0 & ([o s1] & E1%inactivity_steady & ([z s2] & E2%modify_rules_sparing%spares_steady & H)%obind_Ok)%obind_Ok)%obind_Ok.
  assert (steady si (h_um s) (h_um s0)) as E0' by (apply in_place_steady; eapply modify_sx_in_place; [|exact E0]; apply update_session_keeps).
  pose proof (steady_trans _ _ _ _ E0' (steady_trans _ _ _ _ E1 E2)) as E. destruct (negb _); [by injection H as _ <-|].
  apply obind_Ok in H as (u3 & E3%apply_in_place%in_place_steady & (sx & Hs%get_sx_lookup & [= _ <-])%obind_Ok).
  simpl. eapply steady_trans; [exact E|]. eapply steady_trans; [exact E3|]. apply in_place_steady. by eapply in_place_put.
Qed.

(** ** Requests for sessions *)

Lemma lookup_found u seid si sx : pfcp_lookup (um_assoc u) seid = Ok (Some (si, sx)) -> by_id u !! seid = Some si /\ Ses u !! si = Some sx.
Proof.
  unfold pfcp_lookup. destruct (by_id u !! seid) as [i|]; [|done]. intros (sx' & Hs & [= -> ->])%obind_Ok. split; [done|].
  by apply get_sx_lookup.
Qed.
Lemma lookup_none u seid : pfcp_lookup (um_assoc u) seid = Ok None -> by_id u !! seid = None.
Proof. unfold pfcp_lookup. destruct (by_id u !! seid) as [i|]; [|done]. by intros (sx' & Hs & [=])%obind_Ok. Qed.

(** an established session is in order and found, a refused one leaves nothing *)
Definition establishes (seid r : Z) (u u' : upf_main_t) : Prop :=
  plugin_ok u'
  /\ (r = 0 -> by_id u !! seid = None /\ exists si sx, by_id u' !! seid = Some si /\ Ses u' !! si = Some sx /\ sx_cp_seid sx = seid)
  /\ (r <> 0 -> by_id u' !! seid = by_id u !! seid /\ no_new u u').

Lemma establishes_refused seid u u' : same u u' -> plugin_ok u -> establishes seid (-1) u u'.
Proof.
  intros Hu Hok. split; [by unfold plugin_ok; rewrite Hu|]. split; [done|]. intros _. unfold no_new. by rewrite Hu.
Qed.

Lemma association_found am id n : indexed None am -> pfcp_get_association am id = Some n -> is_Some (pool_elts (am_nodes am) !! n).
Proof.
  intros Hix. unfold pfcp_get_association. destruct (_ || _); [|destruct (_ =? _); [|done]].
  - intros (_ & node & Hn & _)%(ix_ip_found _ _ Hix). by eexists.
  - intros (_ & node & Hn & _)%(ix_fqdn_found _ _ Hix). by eexists.
Qed.

Lemma establishment_ok u msg dmsg r u' :
  plugin_ok u -> pool_room (am_sessions (um_assoc u)) ->
  handle_session_establishment_request cf now vnow attempts u msg dmsg = Ok (r, u') ->
  establishes (fs_seid (leaf_of K_f_seid (dm_grp dmsg) SESSION_ESTABLISHMENT_REQUEST_F_SEID)) r u u'.
Proof.
  intros Hok Hroom. unfold handle_session_establishment_request, send_session_response, ApiSession.upf_pfcp_send_response.
  set (seid := fs_seid _). destruct (pfcp_get_association _ _) as [ni|] eqn:En; [|intros [= <- <-]; by apply establishes_refused].
  intros (old & Eo & H)%obind_Ok. destruct old as [old|]; [injection H as <- <-; by apply establishes_refused|].
  apply lookup_none in Eo. revert H. set (addrs := if ip46_address_is_ip4 _ then _ else _). destruct addrs as [[resp up] cp].
  intros ([si am] & Ec & ([z s] & Es & H)%obind_Ok)%obind_Ok.
  apply create_ok in Ec as (Hok1 & Hfree & (sx & Hs & Hseid & _) & Hid & Hoth & _); [|done|by eapply association_found; [apply Hok|]|done|done].
  apply establish_steady in Es as [Hh Hnew].
  set (u1 := put_ext _ _ _) in *. assert (holds si seid u1) as Hh1 by (split; [exact Hok1|by exists sx]).
  specialize (Hh seid Hh1). destruct (Z.eqb_spec z 0) as [->|Hz]; cbn [negb] in H.
  - injection H as <- <-. split; [apply Hh|]. split; [|done]. intros _. split; [done|]. pose proof (holds_found _ _ _ Hh) as Hf.
    destruct Hh as [_ (sx' & Hs' & Hi)]. by exists si, sx'.
  - apply obind_Ok in H as (u2 & Ed & (u3 & Ef & [= <- <-])%obind_Ok). destruct Hh as [[[L HL] Hix] (sx' & Hs' & Hi)].
    destruct (end_listed cf vnow (emit (h_um s) _) _ _ _ L HL Ed Ef) as (sx2 & l1 & l2 & Hs2 & _ & HL' & He).
    split; [split; [eauto|exact (end_indexed _ _ _ _ He Hix)]|]. split; [done|]. intros _. destruct He as [G1 G2 _ (sx3 & Hs3 & Hd) _ _].
    simpl in Hs3. rewrite Hs' in Hs3. injection Hs3 as <-. rewrite Hd, Hi, lookup_delete_eq, Eo. split; [done|].
    intros i Hi'. assert (i <> si) as Hne by (intros ->; rewrite G1 in Hi'; by destruct Hi').
    specialize (G2 i Hne). simpl in G2. assert (is_Some (Ses u1 !! i)) as Hi1.
    { apply Hnew. destruct (Ses u3 !! i), (Ses (h_um s) !! i); done. }
    specialize (Hoth i Hne). unfold u1 in Hi1. simpl in Hi1. destruct (pool_elts (am_sessions am) !! i), (Ses u !! i); done.
Qed.

(** the session is gone, and no other *)
Definition deletes (seid r : Z) (u u' : upf_main_t) : Prop :=
  plugin_ok u' /\ (r = 0 <-> is_Some (by_id u !! seid)) /\ by_id u' = delete seid (by_id u)
  /\ forall i, by_id u !! seid <> Some i -> sx_cp_seid <$> Ses u' !! i = sx_cp_seid <$> Ses u !! i.

Lemma deletion_ok u msg dmsg r u' :
  plugin_ok u -> handle_session_deletion_request cf now vnow u msg dmsg = Ok (r, u') -> deletes (dm_seid dmsg) r u u'.
Proof.
  intros Hok. unfold handle_session_deletion_request, send_session_response, ApiSession.upf_pfcp_send_response.
  intros (o & Eo & H)%obind_Ok. destruct o as [[si sx]|].
  - apply lookup_found in Eo as [Hid Hs]. destruct Hok as [[L HL] Hix].
    apply obind_Ok in H as (u1 & Ed & (sx' & Hs'%get_sx_lookup & ([u2 resp] & E2 & (u3 & Ef & [= <- <-])%obind_Ok)%obind_Ok)%obind_Ok).
    destruct (disable_listed cf vnow _ _ _ _ HL Ed) as (sx1 & l1 & l2 & Hs1 & _ & HL1 & [R1 R2 R3 R4 R5]).
    rewrite Hs in Hs1. injection Hs1 as <-.
    assert (sx_cp_seid sx = dm_seid dmsg) as Hseid by (destruct (ls_found _ _ _ HL _ _ Hid) as (_ & y & Hy & ?); congruence).
    assert (exists y, um_assoc u2 = um_assoc u1 \/ um_assoc u2 = put_session (um_assoc u1) si y) as [y Hy].
    { revert E2. destruct (vec_elts _); [intros [= <- _]; exists sx; by left|]. intros ([urrs out] & _ & [= <- _])%obind_Ok.
      eexists. right. reflexivity. }
    assert (listed (<[as_node (sx_assoc_ sx) := l1 ++ l2]> L) (Some si) (um_assoc u2)) as HL2
      by (destruct Hy as [->| ->]; [done|by apply listed_put_out]).
    destruct (free_listed _ _ _ _ HL2 Ef) as (HL3 & F1 & F2 & F3 & F4 & F5).
    assert (Nod u2 = Nod u1 /\ by_id u2 = by_id u1 /\ am_node_index_by_ip (um_assoc u2) = am_node_index_by_ip (um_assoc u1)
            /\ am_node_index_by_fqdn (um_assoc u2) = am_node_index_by_fqdn (um_assoc u1)
            /\ forall i, i <> si -> Ses u2 !! i = Ses u1 !! i) as (G1 & G2 & G3 & G4 & G5).
    { destruct Hy as [->| ->]; [done|]. split_and!; try done. intros i Hi. simpl. by rewrite lookup_insert_ne. }
    split; [split; [eauto|]|].
    { revert Hix. apply indexed_nodes; [intros n; simpl; by rewrite F1, G1, R2|simpl; by rewrite F4, G3, R4|simpl; by rewrite F5, G4, R5]. }
    split; [by rewrite Hid; split; eauto|]. split; [simpl; by rewrite F3, G2, R3, <- Hseid|].
    intros i Hi. assert (i <> si) as Hne by congruence. simpl. by rewrite F2, lookup_delete_ne, G5, R1.
  - apply lookup_none in Eo. injection H as <- <-. split; [done|]. rewrite Eo. split; [by split; [|intros []]|].
    split; [simpl; by rewrite delete_id|done].
Qed.

(** ** The other messages *)

Lemma modification_ok u msg dmsg r u' :
  plugin_ok u -> handle_session_modification_request cf now vnow attempts u msg dmsg = Ok (r, u') ->
  plugin_ok u' /\ by_id u' !! dm_seid dmsg = by_id u !! dm_seid dmsg /\ no_new u u'.
Proof.
  intros Hok. unfold handle_session_modification_request, send_session_response, ApiSession.upf_pfcp_send_response.
  intros (o & Eo & H)%obind_Ok. destruct o as [[si sx]|]; [|injection H as _ <-; by split_and!; [| |intros i Hi]].
  apply lookup_found in Eo as [Hid _]. apply obind_Ok in H as ([z s] & E & H).
  assert (steady si u (h_um s)) as Hs.
  { revert E. destruct (flag _ _); [apply modify_steady|intros [= _ <-]; by apply same_steady]. }
  assert (steady si u u') as [Hh Hn].
  { eapply steady_trans; [exact Hs|]. destruct (negb _); [injection H as _ <-; by apply same_steady|].
    apply obind_Ok in H as (s2 & E2%report_usage_in_place%in_place_steady & (u3 & E3%finish_in_place%in_place_steady & [= _ <-])%obind_Ok).
    eapply steady_trans; [exact E2|]. eapply steady_trans; [exact E3|]. by apply same_steady. }
  pose proof (Hh _ (found_holds _ _ _ Hok Hid)) as Hh'. split; [apply Hh'|]. split; [|done]. by rewrite Hid, (holds_found _ _ _ Hh').
Qed.

Lemma start_heartbeat_ok u ni u' : start_heartbeat u ni = Ok u' -> plugin_ok u -> plugin_ok u'.
Proof.
  unfold start_heartbeat, start_server_timer. intros ([h u1] & E & (n & Hn & [= <-])%obind_Ok)%obind_Ok.
  apply assert_Ok, assert_Ok in E. revert E. destruct (wheel_start _ _ _) as [h' w]. intros [= <- <-]. simpl in Hn.
  unfold get_node, pool_elt in Hn. unfold plugin_ok. simpl. destruct (Nod u !! ni) as [n'|] eqn:En; [|done]. injection Hn as ->.
  by apply (put_node_ok _ _ n).
Qed.

(** the association for an id that is set up again is released before *)
Lemma released_not_found id n am am' :
  indexed None am -> pfcp_get_association am id = Some n -> released n am am' -> pfcp_get_association am' id = None.
Proof.
  intros Hix Hf [_ _ _ _ _ _ (node & Hn & Hip & Hfq)]. revert Hf. unfold pfcp_get_association. rewrite Hip, Hfq.
  unfold unset_node_index. cbn [am_node_index_by_ip am_node_index_by_fqdn]. fold (is_ip_id (na_node_id node)).
  fold (is_fqdn_id (na_node_id node)). destruct (_ || _); [|destruct (_ =? _); [|done]].
  - intros (_ & node' & Hn' & Hid & <-)%(ix_ip_found _ _ Hix). rewrite Hn in Hn'. injection Hn' as <-. rewrite Hid. apply lookup_delete_eq.
  - intros (_ & node' & Hn' & Hid & <-)%(ix_fqdn_found _ _ Hix). rewrite Hn in Hn'. injection Hn' as <-. rewrite Hid. apply lookup_delete_eq.
Qed.
Lemma released_room n am am' : released n am am' -> pool_room (am_nodes am) -> pool_room (am_nodes am').
Proof.
  intros [_ Hn Hm _ _ _ _] Hr. unfold pool_room in *. eapply Z.le_lt_trans; [|exact Hr]. apply Nat2Z.inj_le.
  rewrite <- !size_dom. apply subseteq_size. intros m. rewrite !elem_of_dom. destruct (decide (m = n)) as [->|Hne]; [by rewrite Hn; intros []|].
  specialize (Hm m Hne). destruct (_ !! m), (pool_elts (am_nodes am) !! m); done.
Qed.

Lemma setup_ok u msg dmsg r u' :
  plugin_ok u -> pool_room (am_nodes (um_assoc u)) ->
  handle_association_setup_request cf vnow u msg dmsg = Ok (r, u') -> plugin_ok u'.
Proof.
  intros Hok Hroom. unfold handle_association_setup_request, ApiSession.upf_pfcp_send_response. set (id := leaf_of _ _ _).
  intros (u1 & E1 & H)%obind_Ok.
  assert (plugin_ok u1 /\ pool_room (am_nodes (um_assoc u1)) /\ pfcp_get_association (um_assoc u1) id = None) as (Hok1 & Hroom1 & Hnf).
  { revert E1. destruct (pfcp_get_association (um_assoc u) id) as [n|] eqn:En; [|by intros [= <-]]. intros E1.
    pose proof (association_found _ _ _ (proj2 Hok) En) as Hn. apply (proj2 (release_ok cf vnow u n Hok Hn)) in E1.
    split; [apply (rs_ok _ _ _ E1)|]. split; [by eapply released_room|]. by eapply released_not_found; [apply Hok|..]. }
  revert H. destruct (pfcp_new_association _ _ _ _ _) as [ni am] eqn:Ea.
  destruct (new_association_ok _ _ _ _ _ _ _ Hok1 Hroom1 Hnf Ea) as (Hok2 & _ & node & Hnode & _).
  intros (n & Hn & (resp & _ & (u2 & Eh & [= _ <-])%obind_Ok)%obind_Ok)%obind_Ok.
  apply start_heartbeat_ok in Eh; [done|]. unfold get_node, pool_elt in Hn. rewrite Hnode in Hn. injection Hn as <-.
  unfold plugin_ok. simpl. by apply (put_node_ok _ _ node).
Qed.
Lemma heartbeat_response_ok u msg dmsg r u' :
  plugin_ok u -> handle_heartbeat_response cf vnow u msg dmsg = Ok (r, u') -> plugin_ok u'.
Proof.
  intros Hok. unfold handle_heartbeat_response. destruct (_ || _); [by intros [= _ <-]|].
  intros (n & Hn & H)%obind_Ok. revert H. destruct (_ <? _); [|destruct (_ <? _); [by intros [= _ <-]|]].
  - intros (u1 & E & [= _ <-])%obind_Ok. unfold get_node, pool_elt in Hn. eapply rs_ok, release_ok; [done| |exact E].
    destruct (_ !! m_node msg); [by eexists|done].
  - intros (u1 & E & [= _ <-])%obind_Ok. by eapply start_heartbeat_ok.
Qed.

(** room for one more session and one more association *)
Definition plugin_room (u : upf_main_t) : Prop := pool_room (am_sessions (um_assoc u)) /\ pool_room (am_nodes (um_assoc u)).

Lemma handle_msg_ok u msg r u' :
  plugin_ok u -> plugin_room u -> handle_msg cf now vnow attempts u msg = Ok (r, u') -> plugin_ok u'.
Proof.
  intros Hok [Hrs Hrn]. unfold handle_msg. destruct (spec_at _ _) as [h|] eqn:Eh; [|by intros [= _ <-]].
  intros ([[c dmsg] err] & _ & H)%obind_Ok. revert H. destruct (_ <? _); [by intros [= _ <-]|].
  destruct (negb _); [destruct (in_types error_response_types _); by intros [= _ <-]|]. intros H.
  apply spec_at_elem in Eh. unfold msg_handlers in Eh. rewrite !elem_of_cons, elem_of_nil in Eh.
  repeat (destruct Eh as [Eh|Eh]; [injection Eh as _ ->|]); [..|done];
    first [ by eapply establishment_ok | by eapply modification_ok | by eapply deletion_ok | by eapply setup_ok
          | by eapply heartbeat_response_ok | by injection H as _ <- ].
Qed.

(** ** Timers and reports *)

Lemma urr_timer_keeps si w sx w' sx' m : UrrTimer.upf_pfcp_session_urr_timer now vnow si w sx = Ok (w', sx', m) ->
  sx_assoc_ sx' = sx_assoc_ sx /\ sx_cp_seid sx' = sx_cp_seid sx.
Proof.
  unfold UrrTimer.upf_pfcp_session_urr_timer.
  intros ([[w1 t] upir] & _ & ([[[w2 urrs] rp] usar] & _ & H)%obind_Ok)%obind_Ok. revert H. destruct (negb _).
  - by intros ([urrs' out] & _ & [= _ <- _])%obind_Ok.
  - by intros [= _ <- _].
Qed.
Lemma usage_report_keeps si w sx ue uev w' sx' m :
  UrrTimer.upf_pfcp_session_usage_report now vnow si w sx ue uev = Ok (w', sx', m) ->
  sx_assoc_ sx' = sx_assoc_ sx /\ sx_cp_seid sx' = sx_cp_seid sx.
Proof.
  unfold UrrTimer.upf_pfcp_session_usage_report. destruct (vec_elts _); [by intros [= _ <- _]|].
  intros ([[[w1 urrs] rp] send] & _ & H)%obind_Ok. revert H. destruct (usage_report_volumes _ _ _ _ _) as [[urrs' rp'] send'].
  destruct send'; [by intros ([urrs2 out] & _ & [= _ <- _])%obind_Ok|by intros [= _ <- _]].
Qed.
Lemma put_report_ok u si sx w sx' m :
  Ses u !! si = Some sx -> sx_assoc_ sx' = sx_assoc_ sx -> sx_cp_seid sx' = sx_cp_seid sx ->
  plugin_ok u -> plugin_ok (put_report u si (w, sx', m)).
Proof. intros Hs Ha Hi Hok. destruct m; unfold plugin_ok; simpl; by eapply put_assoc_ok. Qed.

Lemma fatal_ok u si u' : plugin_ok u -> fatal_session cf now vnow si u = Ok u' -> plugin_ok u'.
Proof.
  intros Hok. unfold fatal_session, send_deletion_report.
  intros (u1 & (sx & Hs%get_sx_lookup & ([sx' m] & Er & [= <-])%obind_Ok)%obind_Ok & (u2 & Ed & Ef)%obind_Ok)%obind_Ok.
  destruct (deletion_report_keeps _ _ _ _ _ Er). eapply end_ok; [|exact Ed|exact Ef]. by eapply (put_assoc_ok (um_assoc u)).
Qed.
End Plugin.

(** ** Reachable states of the plugin *)

Section Reach.
Context {N : VppNet} {P : VppPool} {POk : VppPoolOk P} {V : VecSort} {U : VppUnformat} {Mem : VppMemory} {M : IpMasks} {F : VppFormat} {I : Vppinfra}.
Context (cf : upf_config) (attempts : nat).

(** what the PFCP process calls: a message, an expired timer of a session, a
    report on events, the end of a session that cannot be reported on, the
    release of an association whose peer does not answer *)
Inductive plugin_step : upf_main_t -> upf_main_t -> Prop :=
| step_msg now vnow u msg r u' :
    plugin_room u -> handle_msg cf now vnow attempts u msg = Ok (r, u') -> plugin_step u u'
| step_urr_timer now vnow u si u' : session_urr_timer now vnow si u = Ok u' -> plugin_step u u'
| step_usage_report now vnow u si uev u' : session_usage_report now vnow si uev u = Ok u' -> plugin_step u u'
| step_fatal now vnow u si u' : fatal_session cf now vnow si u = Ok u' -> plugin_step u u'
| step_release vnow u n u' :
    is_Some (Nod u !! n) -> UpfSession.pfcp_release_association cf vnow u n = Ok u' -> plugin_step u u'.

Lemma step_ok u u' : plugin_step u u' -> plugin_ok u -> plugin_ok u'.
Proof.
  intros [now vnow v msg r v' Hr E|now vnow v si v' E|now vnow v si uev v' E|now vnow v si v' E|vnow v n v' Hn E] Hok.
  - by eapply handle_msg_ok.
  - revert E. unfold session_urr_timer. intros (sx & Hs%get_sx_lookup & ([[w sx'] m] & [Ha Hi]%urr_timer_keeps & [= <-])%obind_Ok)%obind_Ok.
    by eapply put_report_ok.
  - revert E. unfold session_usage_report. intros (sx & Hs%get_sx_lookup & ([[w sx'] m] & [Ha Hi]%usage_report_keeps & [= <-])%obind_Ok)%obind_Ok.
    by eapply put_report_ok.
  - by eapply fatal_ok.
  - eapply rs_ok, release_ok; [done|done|exact E].
Qed.

(** no association and no session *)
Definition plugin_empty (u : upf_main_t) : Prop :=
  Nod u = ∅ /\ Ses u = ∅ /\ by_id u = ∅ /\ am_node_index_by_ip (um_assoc u) = ∅ /\ am_node_index_by_fqdn (um_assoc u) = ∅.
Lemma empty_ok u : plugin_empty u -> plugin_ok u.
Proof.
  intros (E1 & E2 & E3 & E4 & E5). split.
  - exists ∅. split; rewrite ?E1, ?E2, ?E3; try done; intros *; rewrite ?lookup_empty; done.
  - split; rewrite ?E1, ?E4, ?E5; intros *; by rewrite lookup_empty.
Qed.

(** C5. From a plugin with no association and no session, by any sequence of
    messages, timers, reports and releases: every session is in the list of
    exactly one association, the lists are proper (linked in both directions,
    without repetition, of sessions that name the association), a SEID is found
    exactly if a session has it, and every association is found by its node id
    and nothing else is. *)
Theorem plugin_reachable u0 u : plugin_empty u0 -> rtc plugin_step u0 u -> plugin_ok u.
Proof.
  intros H0 Hr. apply empty_ok in H0. induction Hr as [|a b c Hs _ IH]; [done|]. apply IH. by eapply step_ok.
Qed.

(** C8. A session establishment request, handled: if it returns 0 the SEID was
    not in use and the session is found by it now; otherwise nothing is left of
    the session, the SEID has the session it had before, if any, and no session
    has come up. The tables of sessions and associations are in order. *)
Theorem establishment_all_or_nothing now vnow u msg dmsg r u' :
  plugin_ok u -> plugin_room u -> handle_session_establishment_request cf now vnow attempts u msg dmsg = Ok (r, u') ->
  establishes (fs_seid (leaf_of K_f_seid (dm_grp dmsg) SESSION_ESTABLISHMENT_REQUEST_F_SEID)) r u u'.
Proof. intros Hok [Hr _]. by apply establishment_ok. Qed.

(** C11. A session deletion request, handled: it returns 0 exactly if there is a
    session of the SEID, that session is gone, and all others are there with
    their SEIDs. *)
Theorem deletion_removes_session now vnow u msg dmsg r u' :
  plugin_ok u -> handle_session_deletion_request cf now vnow u msg dmsg = Ok (r, u') -> deletes (dm_seid dmsg) r u u'.
Proof. apply deletion_ok. Qed.

(** C10. Releasing an association comes to an end, and when it returns the
    association and its sessions are gone with their SEIDs, those of other
    associations are there with theirs, and the tables are in order. *)
Theorem release_ends_sessions vnow u n :
  plugin_ok u -> is_Some (Nod u !! n) ->
  UpfSession.pfcp_release_association cf vnow u n <> Fault NoFuel
  /\ forall u', UpfSession.pfcp_release_association cf vnow u n = Ok u' -> released n (um_assoc u) (um_assoc u').
Proof. apply release_ok. Qed.
End Reach.

(** ** A small network *)

Definition demo_remove : pfcp_decoded_msg_t := mk_dmsg PFCP_SESSION_DELETION_REQUEST 3 7 (VGroup 0 [] []).
Definition demo_removed : upf_main_t :=
  after (handle_session_deletion_request demo_config (f64_of_Z 1000) (f64_of_Z 10) demo_session (cp_msg demo_remove) demo_remove).
Definition demo_left : upf_main_t :=
  after (obind (UpfSession.pfcp_release_association demo_config (f64_of_Z 10) demo_session 0) (fun u => Ok (0, u))).
Definition demo_again : pfcp_decoded_msg_t := demo_establish 7 [172; 16; 0; 9].
Definition demo_second : pfcp_decoded_msg_t := demo_establish 8 [172; 16; 0; 1].
Definition demo_new : pfcp_decoded_msg_t := demo_establish 8 [172; 16; 0; 2].
#[local] Abbreviation demo_est dmsg :=
  (handle_session_establishment_request demo_config (f64_of_Z 1000) (f64_of_Z 10) 100 demo_session (cp_msg dmsg) dmsg).
Definition demo_new_main : upf_main_t := after (demo_est demo_new).
Definition demo_again_main : upf_main_t := after (demo_est demo_again).
Definition demo_second_main : upf_main_t := after (demo_est demo_second).

Lemma demo_main_empty : plugin_empty demo_main.
Proof. by repeat split. Qed.
Lemma demo_setup_handled : demo_handle demo_main demo_setup = Ok (0, demo_associated).
Proof. apply code_after. vm_cast_no_check (eq_refl (Some 0)). Qed.
Lemma demo_establish_handled : demo_handle demo_associated (demo_establish 7 [172; 16; 0; 1]) = Ok (0, demo_session).
Proof. apply code_after. vm_cast_no_check (eq_refl (Some 0)). Qed.
Lemma demo_main_room : plugin_room demo_main.
Proof. split; vm_cast_no_check (eq_refl Lt). Qed.
Lemma demo_associated_room : plugin_room demo_associated.
Proof. split; vm_cast_no_check (eq_refl Lt). Qed.
Lemma demo_step u dmsg r u' :
  plugin_room u -> demo_handle u dmsg = Ok (r, u') -> plugin_step demo_config 100 u u'.
Proof. intros Hr H. unfold demo_handle in H. by eapply step_msg. Qed.
Lemma demo_session_reached : rtc (plugin_step demo_config 100) demo_main demo_session.
Proof.
  eapply rtc_l; [exact (demo_step _ _ _ _ demo_main_room demo_setup_handled)|].
  apply rtc_once. exact (demo_step _ _ _ _ demo_associated_room demo_establish_handled).
Qed.
Lemma demo_session_ok : plugin_ok demo_session.
Proof. eapply step_ok; [exact (demo_step _ _ _ _ demo_associated_room demo_establish_handled)|].
  eapply step_ok; [exact (demo_step _ _ _ _ demo_main_room demo_setup_handled)|]. by apply empty_ok, demo_main_empty. Qed.
Lemma demo_session_room : plugin_room demo_session.
Proof. split; vm_cast_no_check (eq_refl Lt). Qed.
Lemma demo_removed_handled :
  handle_session_deletion_request demo_config (f64_of_Z 1000) (f64_of_Z 10) demo_session (cp_msg demo_remove) demo_remove
  = Ok (0, demo_removed).
Proof. apply code_after. vm_cast_no_check (eq_refl (Some 0)). Qed.
Lemma with_zero (o : outcome upf_main_t) u : obind o (fun u => Ok (0, u)) = Ok (0, u) -> o = Ok u.
Proof. destruct o; simpl; [|done..]. by intros [= ->]. Qed.
Lemma demo_left_handled :
  UpfSession.pfcp_release_association demo_config (f64_of_Z 10) demo_session 0 = Ok demo_left.
Proof. apply with_zero, code_after. vm_cast_no_check (eq_refl (Some 0)). Qed.
(** a new SEID; one that is in use; the address of another session, which ends *)
Lemma demo_est_handled :
  demo_est demo_new = Ok (0, demo_new_main) /\ demo_est demo_again = Ok (-1, demo_again_main)
  /\ demo_est demo_second = Ok (-1, demo_second_main).
Proof.
  split; [|split].
  - apply code_after. vm_cast_no_check (eq_refl (Some 0)).
  - apply code_after. vm_cast_no_check (eq_refl (Some (-1))).
  - apply code_after. vm_cast_no_check (eq_refl (Some (-1))).
Qed.
Lemma demo_seids :
  let seid dmsg := fs_seid (leaf_of K_f_seid (dm_grp dmsg) SESSION_ESTABLISHMENT_REQUEST_F_SEID) in
  seid demo_new = 8 /\ seid demo_again = 7 /\ seid demo_second = 8.
Proof. vm_compute. done. Qed.
Lemma demo_node_used : is_Some (Nod demo_session !! 0).
Proof. apply (bool_decide_eq_true (is_Some (Nod demo_session !! 0))). vm_cast_no_check (eq_refl true). Qed.
#[local] Opaque demo_session demo_associated demo_removed demo_left demo_new demo_again demo_second demo_new_main demo_again_main demo_second_main.

Lemma plugin_reachable_witness : plugin_ok demo_session /\ by_id demo_session !! 7 = Some 0.
Proof.
  split; [|vm_cast_no_check (eq_refl (Some 0))].
  exact (plugin_reachable demo_config 100 demo_main demo_session demo_main_empty demo_session_reached).
Defined.

Lemma establishment_all_or_nothing_witness :
  establishes 8 0 demo_session demo_new_main /\ establishes 7 (-1) demo_session demo_again_main
  /\ establishes 8 (-1) demo_session demo_second_main.
Proof.
  destruct demo_est_handled as (H1 & H2 & H3). destruct demo_seids as (S1 & S2 & S3).
  pose proof (establishment_all_or_nothing demo_config 100 _ _ _ _ _ _ _ demo_session_ok demo_session_room H1) as R1.
  pose proof (establishment_all_or_nothing demo_config 100 _ _ _ _ _ _ _ demo_session_ok demo_session_room H2) as R2.
  pose proof (establishment_all_or_nothing demo_config 100 _ _ _ _ _ _ _ demo_session_ok demo_session_room H3) as R3.
  rewrite S1 in R1. rewrite S2 in R2. rewrite S3 in R3. exact (conj R1 (conj R2 R3)).
Defined.

Lemma deletion_removes_session_witness :
  deletes 7 0 demo_session demo_removed /\ is_Some (by_id demo_session !! 7).
Proof.
  pose proof (deletion_removes_session demo_config _ _ _ _ _ _ _ demo_session_ok demo_removed_handled) as H.
  split; [exact H|]. apply (proj1 (proj1 (proj2 H))). reflexivity.
Defined.

Lemma release_ends_sessions_witness :
  released 0 (um_assoc demo_session) (um_assoc demo_left) /\ Ses demo_session !! 0 <> None /\ by_id demo_left !! 7 = None.
Proof.
  split; [exact (proj2 (release_ends_sessions demo_config (f64_of_Z 10) demo_session 0 demo_session_ok demo_node_used)
                   demo_left demo_left_handled)|].
  split; [apply (bool_decide_eq_true (Ses demo_session !! 0 <> None)); vm_cast_no_check (eq_refl true)|].
  vm_cast_no_check (eq_refl (@None Z)).
Defined.
