(* ===== verification/GtpuBuf.v ===== *)
(** * Packet buffers and GTP-U headers

    What the packet functions of src/upf/upf_gtpu_decap.c and
    src/upf/upf_gtpu_encap.c use of a vlib_buffer_t: its memory, from the
    headroom on, the window of it that is the packet, and its metadata
    (upf_buffer_opaque_t of src/upf/upf.h). Headers are octets of the memory,
    read and written at the offsets of their fields; the checksum functions of
    VPP are parameters. *)

From Stdlib Require Import ZArith Lia.
From stdpp Require Import base list list_numbers option numbers decidable.
From S2P Require Import Prelude PfcpIo.

(** ** Memory *)

(** [n] octets at an address; a load or store outside the memory is a fault *)
Definition mem_load (m : list Z) (a n : Z) : outcome (list Z) :=
  if (0 <=? a) && (a + n <=? Zlen m) then Ok (take (Z.to_nat n) (drop (Z.to_nat a) m)) else Fault OobRead.
Definition mem_u8 (m : list Z) (a : Z) : outcome Z := obind (mem_load m a 1) (fun l => Ok (de_be l)).

(** the octets [l] in the place of those at [i] *)
Definition patch (i : nat) (l h : list Z) : list Z := take i h ++ l ++ drop (i + length l) h.
Definition mem_store (m : list Z) (a : Z) (l : list Z) : outcome (list Z) :=
  if (0 <=? a) && (a + Zlen l <=? Zlen m) then Ok (patch (Z.to_nat a) l m) else Fault HeapOverflow.

(** [n] octets of a header *)
Definition field (h : list Z) (i n : nat) : list Z := take n (drop i h).

(** ** Buffers *)

Record upf_buffer_opaque_t := mk_opaque {
  gtpu_teid : Z; gtpu_session_index : Z; gtpu_ext_hdr_len : Z; gtpu_data_offset : Z;
  gtpu_hdr_flags : Z; gtpu_flags : Z; gtpu_is_reverse : bool; gtpu_is_proxied : bool;
  gtpu_pdr_idx : Z; gtpu_flow_id : Z }.
Definition opaque_zero : upf_buffer_opaque_t := mk_opaque 0 0 0 0 0 0 false false 0 0.

(** [vb_mem] starts at b->pre_data; [vb_chain] is the length of the buffers that
    follow in a chain; [vb_error] an error of the node, if any *)
Record vlib_buffer_t := mk_vbuf {
  vb_mem : list Z; vb_current_data : Z; vb_current_length : Z; vb_chain : Z; vb_flags : Z;
  vb_error : option Z; vb_l3_hdr_offset : Z; vb_l4_hdr_offset : Z; vb_sw_if_index_rx : Z; vb_sw_if_index_tx : Z;
  vb_adj_index : Z; vb_flow_hash : Z; vb_opaque : upf_buffer_opaque_t }.

Definition set_vb_mem (b : vlib_buffer_t) (x : list Z) : vlib_buffer_t :=
  mk_vbuf x (vb_current_data b) (vb_current_length b) (vb_chain b) (vb_flags b) (vb_error b) (vb_l3_hdr_offset b) (vb_l4_hdr_offset b)
    (vb_sw_if_index_rx b) (vb_sw_if_index_tx b) (vb_adj_index b) (vb_flow_hash b) (vb_opaque b).
Definition set_vb_window (b : vlib_buffer_t) (d n : Z) : vlib_buffer_t :=
  mk_vbuf (vb_mem b) d n (vb_chain b) (vb_flags b) (vb_error b) (vb_l3_hdr_offset b) (vb_l4_hdr_offset b)
    (vb_sw_if_index_rx b) (vb_sw_if_index_tx b) (vb_adj_index b) (vb_flow_hash b) (vb_opaque b).
Definition set_vb_flags (b : vlib_buffer_t) (x : Z) : vlib_buffer_t :=
  mk_vbuf (vb_mem b) (vb_current_data b) (vb_current_length b) (vb_chain b) x (vb_error b) (vb_l3_hdr_offset b) (vb_l4_hdr_offset b)
    (vb_sw_if_index_rx b) (vb_sw_if_index_tx b) (vb_adj_index b) (vb_flow_hash b) (vb_opaque b).
Definition set_vb_error (b : vlib_buffer_t) (x : option Z) : vlib_buffer_t :=
  mk_vbuf (vb_mem b) (vb_current_data b) (vb_current_length b) (vb_chain b) (vb_flags b) x (vb_l3_hdr_offset b) (vb_l4_hdr_offset b)
    (vb_sw_if_index_rx b) (vb_sw_if_index_tx b) (vb_adj_index b) (vb_flow_hash b) (vb_opaque b).
Definition set_vb_l4_hdr_offset (b : vlib_buffer_t) (x : Z) : vlib_buffer_t :=
  mk_vbuf (vb_mem b) (vb_current_data b) (vb_current_length b) (vb_chain b) (vb_flags b) (vb_error b) (vb_l3_hdr_offset b) x
    (vb_sw_if_index_rx b) (vb_sw_if_index_tx b) (vb_adj_index b) (vb_flow_hash b) (vb_opaque b).
Definition set_vb_l3_hdr_offset (b : vlib_buffer_t) (x : Z) : vlib_buffer_t :=
  mk_vbuf (vb_mem b) (vb_current_data b) (vb_current_length b) (vb_chain b) (vb_flags b) (vb_error b) x (vb_l4_hdr_offset b)
    (vb_sw_if_index_rx b) (vb_sw_if_index_tx b) (vb_adj_index b) (vb_flow_hash b) (vb_opaque b).
Definition set_vb_sw_if_index (b : vlib_buffer_t) (rx tx : Z) : vlib_buffer_t :=
  mk_vbuf (vb_mem b) (vb_current_data b) (vb_current_length b) (vb_chain b) (vb_flags b) (vb_error b) (vb_l3_hdr_offset b) (vb_l4_hdr_offset b)
    rx tx (vb_adj_index b) (vb_flow_hash b) (vb_opaque b).
Definition set_vb_adj_index (b : vlib_buffer_t) (x : Z) : vlib_buffer_t :=
  mk_vbuf (vb_mem b) (vb_current_data b) (vb_current_length b) (vb_chain b) (vb_flags b) (vb_error b) (vb_l3_hdr_offset b) (vb_l4_hdr_offset b)
    (vb_sw_if_index_rx b) (vb_sw_if_index_tx b) x (vb_flow_hash b) (vb_opaque b).
Definition set_vb_flow_hash (b : vlib_buffer_t) (x : Z) : vlib_buffer_t :=
  mk_vbuf (vb_mem b) (vb_current_data b) (vb_current_length b) (vb_chain b) (vb_flags b) (vb_error b) (vb_l3_hdr_offset b) (vb_l4_hdr_offset b)
    (vb_sw_if_index_rx b) (vb_sw_if_index_tx b) (vb_adj_index b) x (vb_opaque b).
Definition set_vb_opaque (b : vlib_buffer_t) (x : upf_buffer_opaque_t) : vlib_buffer_t :=
  mk_vbuf (vb_mem b) (vb_current_data b) (vb_current_length b) (vb_chain b) (vb_flags b) (vb_error b) (vb_l3_hdr_offset b) (vb_l4_hdr_offset b)
    (vb_sw_if_index_rx b) (vb_sw_if_index_tx b) (vb_adj_index b) (vb_flow_hash b) x.

(** what VPP does with packets: the checksum update of RFC 1624 on the
    complement (of a field, by its offset and size), the UDP checksum of a packet
    by the address of its IP header, and the flow hash *)
Class VppPacket := {
  VLIB_BUFFER_PRE_DATA_SIZE : Z;
  VLIB_BUFFER_IS_TRACED : Z;
  VNET_BUFFER_F_LOCALLY_ORIGINATED : Z;
  VNET_BUFFER_F_L3_HDR_OFFSET_VALID : Z;
  VNET_BUFFER_F_L4_CHECKSUM_CORRECT : Z;
  VNET_BUFFER_F_L4_CHECKSUM_COMPUTED : Z;
  VNET_BUFFER_F_OFFLOAD_CKSUM : bool -> Z;  (** the offload flags of TCP and UDP, of IPv4 *)
  ip_csum_update : Z -> Z -> Z -> Z -> Z -> Z;
  ip_csum_fold : Z -> Z;
  ip4_tcp_udp_compute_checksum : vlib_buffer_t -> Z -> Z;
  ip6_tcp_udp_icmp_compute_checksum : vlib_buffer_t -> Z -> Z;
  ip4_tcp_udp_validate_checksum : vlib_buffer_t -> Z;
  ip6_tcp_udp_icmp_validate_checksum : vlib_buffer_t -> Z;
  vnet_l2_compute_flow_hash : vlib_buffer_t -> Z;
  host_config_ttl : bool -> Z;  (** of IPv4, of IPv6 *)
  (** the FIB of an interface, and the local interface *)
  ip_fib_index_by_sw_if_index : bool -> list Z;
  local_interface_sw_if_index : Z
}.

Section Buffers.
Context {P : VppPacket}.

Definition vlib_buffer_get_current (b : vlib_buffer_t) : Z := VLIB_BUFFER_PRE_DATA_SIZE + vb_current_data b.
Definition vlib_buffer_get_tail (b : vlib_buffer_t) : Z := vlib_buffer_get_current b + vb_current_length b.
(** current_length is a u16 *)
Definition vlib_buffer_advance (b : vlib_buffer_t) (l : Z) : vlib_buffer_t :=
  set_vb_window b (vb_current_data b + l) (wrap 16 (vb_current_length b - l)).
Definition vlib_buffer_reset (b : vlib_buffer_t) : vlib_buffer_t :=
  set_vb_window b 0 (wrap 16 (vb_current_length b + vb_current_data b)).
Definition vlib_buffer_length_in_chain (b : vlib_buffer_t) : Z := vb_current_length b + vb_chain b.

(** the header of [n] octets at an address is changed *)
Definition on_header (b : vlib_buffer_t) (a n : Z) (f : list Z -> list Z) : outcome vlib_buffer_t :=
  obind (mem_load (vb_mem b) a n) (fun h =>
  obind (mem_store (vb_mem b) a (f h)) (fun m => Ok (set_vb_mem b m))).
End Buffers.

(** ** GTP-U *)

Definition sizeof_gtpu_header : Z := 12.
Definition sizeof_udp_header : Z := 8.
Definition ip_hdr_len (is_ip4 : bool) : Z := if is_ip4 then 20 else 40.

Definition GTPU_V1_HDR_LEN : Z := 8.
Definition GTPU_VER_MASK : Z := Z.shiftl 7 5.
Definition GTPU_E_BIT : Z := Z.shiftl 1 2.
Definition GTPU_S_BIT : Z := Z.shiftl 1 1.
Definition GTPU_PN_BIT : Z := Z.shiftl 1 0.
Definition GTPU_E_S_PN_BIT : Z := Z.shiftl 7 0.
Definition GTPU_TYPE_ECHO_REQUEST : Z := 1.
Definition GTPU_TYPE_ECHO_RESPONSE : Z := 2.
Definition GTPU_TYPE_ERROR_IND : Z := 26.
Definition GTPU_TYPE_END_MARKER : Z := 254.
Definition GTPU_IE_RECOVERY : Z := 14.
Definition GTPU_IE_TEID_I : Z := 16.
Definition GTPU_IE_GSN_ADDRESS : Z := 133.
Definition GTPU_EXT_HEADER_UDP_PORT : Z := 0x40.
Definition GTPU_EXT_HEADER_NEXT_HEADER_NO_MORE : Z := 0.

(** offsets of the fields of a gtpu_header_t *)
Definition o_ver_flags : Z := 0.
Definition o_type : Z := 1.
Definition o_length : Z := 2.
Definition o_teid : Z := 4.
Definition o_next_ext_type : Z := 11.

Definition BUFFER_HAS_GTP_HDR : Z := Z.shiftl 1 4.
Definition BUFFER_HAS_UDP_HDR : Z := Z.shiftl 1 5.
Definition BUFFER_HAS_IP4_HDR : Z := Z.shiftl 1 6.
Definition BUFFER_HAS_IP6_HDR : Z := Z.shiftl 1 7.
Definition BUFFER_HDR_MASK : Z :=
  Z.lor (Z.lor BUFFER_HAS_GTP_HDR BUFFER_HAS_UDP_HDR) (Z.lor BUFFER_HAS_IP4_HDR BUFFER_HAS_IP6_HDR).
Definition BUFFER_GTP_UDP_IP4 : Z := Z.lor (Z.lor BUFFER_HAS_GTP_HDR BUFFER_HAS_UDP_HDR) BUFFER_HAS_IP4_HDR.
Definition BUFFER_GTP_UDP_IP6 : Z := Z.lor (Z.lor BUFFER_HAS_GTP_HDR BUFFER_HAS_UDP_HDR) BUFFER_HAS_IP6_HDR.

(** UPF_ENTER_SUBGRAPH of a release build *)
Definition UPF_ENTER_SUBGRAPH (b : vlib_buffer_t) (sidx : Z) (is_ip4 : bool) : vlib_buffer_t :=
  set_vb_opaque b (mk_opaque 0 sidx 0 0 0 (if is_ip4 then BUFFER_GTP_UDP_IP4 else BUFFER_GTP_UDP_IP6) false false 0 0).

(** the errors of upf_gtpu_error.def *)
Definition UPF_GTPU_ERROR_DECAPSULATED : Z := 0.
Definition UPF_GTPU_ERROR_NO_SUCH_TUNNEL : Z := 1.
Definition UPF_GTPU_ERROR_BAD_VER : Z := 2.
Definition UPF_GTPU_ERROR_BAD_FLAGS : Z := 3.
Definition UPF_GTPU_ERROR_LENGTH_ERROR : Z := 4.
Definition UPF_GTPU_ERROR_ECHO_RESPONSES_SENT : Z := 5.
Definition UPF_GTPU_ERROR_NO_ECHO_REQUEST_SEQ : Z := 6.

(** ** Facts *)

Lemma mem_load_app (l h r : list Z) (a n : Z) :
  a = Zlen l -> n = Zlen h -> mem_load (l ++ h ++ r) a n = Ok h.
Proof.
  intros -> ->. unfold mem_load. rewrite !Zlen_app.
  pose proof (Zlen_nonneg l). pose proof (Zlen_nonneg h). pose proof (Zlen_nonneg r).
  destruct (Z.leb_spec 0 (Zlen l)); [|lia]. destruct (Z.leb_spec (Zlen l + Zlen h) (Zlen l + (Zlen h + Zlen r))); [|lia].
  simpl. unfold Zlen. rewrite !Nat2Z.id, drop_app_length, take_app_length. reflexivity.
Qed.

Lemma mem_load_inv (m h : list Z) (a n : Z) :
  0 <= n -> mem_load m a n = Ok h ->
  exists l r, m = l ++ h ++ r /\ Zlen l = a /\ Zlen h = n.
Proof.
  unfold mem_load. intros Hn. destruct (Z.leb_spec 0 a); [|done]. destruct (Z.leb_spec (a + n) (Zlen m)) as [Hl|]; [|done].
  simpl. intros [= <-]. unfold Zlen in *. exists (take (Z.to_nat a) m), (drop (Z.to_nat n) (drop (Z.to_nat a) m)).
  rewrite take_drop, take_drop. rewrite !length_take, length_drop. repeat split; lia.
Qed.

(** addresses relative to the end of a prefix *)
Lemma mem_load_at (l w : list Z) (a k n : Z) :
  a = Zlen l + k -> 0 <= k -> 0 <= n -> k + n <= Zlen w ->
  mem_load (l ++ w) a n = Ok (field w (Z.to_nat k) (Z.to_nat n)).
Proof.
  intros -> Hk Hn Hw. pose proof (Zlen_nonneg l). unfold mem_load, field. rewrite Zlen_app.
  destruct (Z.leb_spec 0 (Zlen l + k)); [|lia]. destruct (Z.leb_spec (Zlen l + k + n) (Zlen l + Zlen w)); [|lia].
  simpl. rewrite drop_app_ge by (unfold Zlen in *; lia). repeat f_equal. unfold Zlen. lia.
Qed.

Lemma mem_u8_at (l w : list Z) (a k : Z) :
  a = Zlen l + k -> 0 <= k < Zlen w -> mem_u8 (l ++ w) a = Ok (nth (Z.to_nat k) w 0).
Proof.
  intros Ha Hk. unfold mem_u8. rewrite (mem_load_at l w a k 1) by lia. cbn [obind]. unfold field.
  assert (Z.to_nat k < length w)%nat as Hl by (unfold Zlen in *; lia).
  change (Z.to_nat 1) with 1%nat. revert Hl. generalize (Z.to_nat k) as i. clear. induction w as [|x w IH]; simpl; [lia|].
  intros [|i] Hl; simpl; [by rewrite take_0|]. apply IH. lia.
Qed.

Lemma mem_store_at (l w x : list Z) (a k : Z) :
  a = Zlen l + k -> 0 <= k -> k + Zlen x <= Zlen w ->
  mem_store (l ++ w) a x = Ok (l ++ patch (Z.to_nat k) x w).
Proof.
  intros -> Hk Hw. pose proof (Zlen_nonneg l). unfold mem_store. rewrite Zlen_app.
  destruct (Z.leb_spec 0 (Zlen l + k)); [|lia]. destruct (Z.leb_spec (Zlen l + k + Zlen x) (Zlen l + Zlen w)); [|lia].
  simpl. f_equal. unfold patch. unfold Zlen in *.
  replace (Z.to_nat (Z.of_nat (length l) + k)) with (length l + Z.to_nat k)%nat by lia.
  rewrite take_app_add, <- app_assoc. do 2 f_equal. f_equal. rewrite drop_app_ge by lia. f_equal. lia.
Qed.

Lemma patch_app (l h h' r : list Z) : length h' = length h -> patch (length l) h' (l ++ h ++ r) = l ++ h' ++ r.
Proof.
  intros E. unfold patch. rewrite take_app_length, <- drop_drop, drop_app_length, E, drop_app_length. reflexivity.
Qed.

Lemma mem_store_app (l h h' r : list Z) (a : Z) :
  a = Zlen l -> length h' = length h -> mem_store (l ++ h ++ r) a h' = Ok (l ++ h' ++ r).
Proof.
  intros -> E. unfold mem_store. rewrite !Zlen_app. unfold Zlen. rewrite E.
  destruct (Z.leb_spec 0 (Z.of_nat (length l))); [|lia].
  destruct (Z.leb_spec (Z.of_nat (length l) + Z.of_nat (length h))
    (Z.of_nat (length l) + (Z.of_nat (length h) + Z.of_nat (length r)))); [|lia].
  simpl. rewrite Nat2Z.id. by rewrite patch_app.
Qed.

Lemma length_patch i l h : (i + length l <= length h)%nat -> length (patch i l h) = length h.
Proof. intros H. unfold patch. rewrite !length_app, length_take, length_drop. lia. Qed.

Lemma on_header_at b (l w : list Z) a k n f :
  vb_mem b = l ++ w -> a = Zlen l + k -> 0 <= k -> 0 <= n -> k + n <= Zlen w ->
  (forall h, Zlen h = n -> Zlen (f h) = n) ->
  on_header b a n f = Ok (set_vb_mem b (l ++ patch (Z.to_nat k) (f (field w (Z.to_nat k) (Z.to_nat n))) w)).
Proof.
  intros Hm Ha Hk Hn Hw Hf. unfold on_header. rewrite Hm, (mem_load_at l w a k n) by done. cbn [obind].
  rewrite (mem_store_at l w _ a k); [done|done|done|]. rewrite Hf; [done|].
  unfold field, Zlen in *. rewrite length_take, length_drop. lia.
Qed.

Lemma on_header_app `{VppPacket} b (l h r : list Z) a n f :
  vb_mem b = l ++ h ++ r -> a = Zlen l -> n = Zlen h -> length (f h) = length h ->
  on_header b a n f = Ok (set_vb_mem b (l ++ f h ++ r)).
Proof.
  intros Hm -> -> E. unfold on_header. rewrite Hm, (mem_load_app l h r) by done. cbn [obind].
  by rewrite (mem_store_app l h (f h) r).
Qed.

(** ** The Internet checksum *)

(** the sum of the 16-bit words of a header in memory *)
Fixpoint sum16 (l : list Z) : Z :=
  match l with
  | a :: b :: l => a + 256 * b + sum16 l
  | [a] => a
  | [] => 0
  end.

(** what a receiver verifies *)
Definition csum_ok (h : list Z) : Prop := sum16 h mod 65535 = 0.
#[export] Instance csum_ok_dec h : Decision (csum_ok h).
Proof. unfold csum_ok. apply _. Defined.

(** ip_csum_update and ip_csum_fold keep the one's complement sum *)
Class VppPacketOk (P : VppPacket) := {
  csum_fold_range c : 0 <= ip_csum_fold c < 65536;
  csum_fold_mod c : ip_csum_fold c mod 65535 = c mod 65535;
  csum_update_mod c old new off n :
    ip_csum_update c old new off n mod 65535 = (c + (old - new) * 256 ^ (off * n mod 2)) mod 65535
}.

Lemma sum16_app (l r : list Z) : Nat.Even (length l) -> sum16 (l ++ r) = sum16 l + sum16 r.
Proof.
  remember (length l) as n eqn:Hn. revert l Hn. induction n as [n IH] using (well_founded_induction Nat.lt_wf_0).
  intros [|a [|b l]] Hn He; simpl in *; [lia|subst; destruct He; lia|].
  rewrite (IH (length l)); [lia| |done|]. { lia. }
  destruct He as [k Hk]. exists (k - 1)%nat. lia.
Qed.

(** congruence modulo 65535, the arithmetic of the checksum *)
Lemma mod_diff a b : a mod 65535 = b mod 65535 <-> exists k, a = b + 65535 * k.
Proof.
  split.
  - intros H. exists (a / 65535 - b / 65535). pose proof (Z.div_mod a 65535). pose proof (Z.div_mod b 65535). lia.
  - intros [k ->]. rewrite Z.mul_comm, Z.mod_add; lia.
Qed.

Lemma csum_ok_diff h : csum_ok h <-> exists k, sum16 h = 65535 * k.
Proof. unfold csum_ok. change 0 with (0 mod 65535). rewrite mod_diff. split; intros [k H]; exists k; lia. Qed.

Lemma sum16_le2 x : 0 <= x < 65536 -> sum16 (le 2 x) = x.
Proof.
  intros H. assert (le 2 x = [x mod 256; (x / 256) mod 256]) as -> by (unfold le; simpl; by rewrite Z.div_1_r).
  simpl. pose proof (Z.div_mod x 256). rewrite (Z.mod_small (x / 256)); [lia|].
  split; [apply Z.div_pos; lia|apply Z.div_lt_upper_bound; lia].
Qed.

Lemma length_field h i n : (i + n <= length h)%nat -> length (field h i n) = n.
Proof. intros H. unfold field. rewrite length_take, length_drop. lia. Qed.

Lemma field_split h i n : (i + n <= length h)%nat -> h = take i h ++ field h i n ++ drop (i + n) h.
Proof. intros H. unfold field. by rewrite <- drop_drop, take_drop, take_drop. Qed.

Lemma field_patch_same i l h : (i + length l <= length h)%nat -> field (patch i l h) i (length l) = l.
Proof.
  intros H. unfold field, patch. rewrite drop_app_ge by (rewrite length_take; lia).
  replace (i - length (take i h))%nat with 0%nat by (rewrite length_take; lia). by rewrite drop_0, take_app_length.
Qed.

Lemma field_patch_ne i l h j n :
  (i + length l <= length h)%nat -> (j + n <= i \/ i + length l <= j)%nat -> field (patch i l h) j n = field h j n.
Proof.
  intros H [Hj|Hj]; unfold field, patch.
  - rewrite drop_app_le by (rewrite length_take; lia). rewrite take_app_le by (rewrite length_drop, length_take; lia).
    rewrite skipn_firstn_comm, take_take. f_equal. lia.
  - rewrite drop_app_ge by (rewrite length_take; lia). rewrite drop_app_ge by (rewrite length_take; lia).
    rewrite drop_drop. f_equal. f_equal. rewrite length_take. lia.
Qed.

(** lengths and positions of headers that were patched *)
Ltac plen := repeat first [rewrite length_patch|rewrite length_be|rewrite length_le|rewrite length_field]; simpl; lia.

(** the sum of a header in which a word, or its first octet, is changed *)
Lemma sum16_patch2 i l h :
  Nat.Even i -> length l = 2%nat -> (i + 2 <= length h)%nat -> sum16 (patch i l h) = sum16 h - sum16 (field h i 2) + sum16 l.
Proof.
  intros Hi Hl H. assert (Nat.Even (length (take i h))) as He by (rewrite length_take; by replace (i `min` length h)%nat with i by lia).
  rewrite (field_split h i 2 H) at 2. unfold patch. rewrite !(sum16_app (take i h)) by done.
  rewrite (sum16_app l), (sum16_app (field h i 2)) by (rewrite ?Hl, ?length_field by done; by exists 1%nat). rewrite Hl. lia.
Qed.

Lemma sum16_patch1 i x h : Nat.Even i -> (i + 1 < length h)%nat -> sum16 (patch i [x] h) = sum16 h - nth i h 0 + x.
Proof.
  intros Hi H. assert (Nat.Even (length (take i h))) as He by (rewrite length_take; by replace (i `min` length h)%nat with i by lia).
  assert (exists a b r, drop i h = a :: b :: r /\ nth i h 0 = a) as (a & b & r & E & En).
  { destruct (drop i h) as [|a [|b r]] eqn:E; apply (f_equal length) in E as L; rewrite length_drop in L; simpl in L; try lia.
    exists a, b, r. split; [done|]. rewrite <- (take_drop i h), E, app_nth2 by (rewrite length_take; lia).
    by replace (i - length (take i h))%nat with 0%nat by (rewrite length_take; lia). }
  rewrite En. rewrite <- (take_drop i h) at 2. unfold patch. rewrite !(sum16_app (take i h)) by done.
  simpl length. rewrite <- drop_drop, E. simpl. lia.
Qed.

Lemma sum16_word l : length l = 2%nat -> sum16 l = de_le l.
Proof. destruct l as [|a [|b [|]]]; try discriminate. intros _. unfold de_le, de_be. simpl. lia. Qed.

(** ** The incremental update of a header

    [csum_with h c]: the checksum is correct when [c] is in its place *)
Definition csum_with (h : list Z) (c : Z) : Prop :=
  length h = 20%nat /\ exists k, sum16 h - sum16 (field h 10 2) + c = 65535 * k.

Section Update.
Context {P : VppPacket} {POk : VppPacketOk P}.

Lemma csum_with_start h : length h = 20%nat -> csum_ok h -> csum_with h (de_le (field h 10 2)).
Proof.
  intros Hh [k Hk]%csum_ok_diff. split; [done|]. exists k. rewrite <- sum16_word by (apply length_field; lia). lia.
Qed.

Lemma csum_with_ttl h c x : csum_with h c -> csum_with (patch 8 [x] h) (ip_csum_update c (nth 8 h 0) x 8 1).
Proof using POk.
  intros [Hh [k Hk]]. split; [by rewrite length_patch by (simpl; lia)|].
  rewrite sum16_patch1 by (first [by exists 4%nat|lia]). rewrite field_patch_ne by (simpl; lia).
  destruct (proj1 (mod_diff _ _) (csum_update_mod c (nth 8 h 0) x 8 1)) as [k' ->].
  change (256 ^ (8 * 1 mod 2)) with 1. exists (k + k'). lia.
Qed.

Lemma csum_with_word h c i l : Nat.Even i -> length l = 2%nat -> (i + 2 <= 10 \/ 12 <= i <= 18)%nat ->
  csum_with h c -> csum_with (patch i l h) (ip_csum_update c (de_le (field h i 2)) (de_le l) (Z.of_nat i) 2).
Proof using POk.
  intros Hi Hl Hi' [Hh [k Hk]]. split; [by rewrite length_patch by lia|].
  rewrite sum16_patch2 by (done || lia). rewrite field_patch_ne by lia.
  destruct (proj1 (mod_diff _ _) (csum_update_mod c (de_le (field h i 2)) (de_le l) (Z.of_nat i) 2)) as [k' ->].
  assert (Z.of_nat i * 2 mod 2 = 0) as -> by (apply Z.mod_mul; lia). rewrite Z.pow_0_r.
  rewrite (sum16_word l) by done. rewrite (sum16_word (field h i 2)) by (apply length_field; lia). exists (k + k'). lia.
Qed.

Lemma csum_with_end h c : csum_with h c -> csum_ok (patch 10 (le 2 (ip_csum_fold c)) h).
Proof using POk.
  intros [Hh [k Hk]]. apply csum_ok_diff. rewrite sum16_patch2 by (rewrite ?length_le; first [by exists 5%nat|done|lia]).
  rewrite sum16_le2 by apply csum_fold_range. destruct (proj1 (mod_diff _ _) (csum_fold_mod c)) as [k' ->]. exists (k + k'). lia.
Qed.
End Update.

(** ** A concrete machine

    128 octets of headroom; checksums by the equations of [VppPacketOk]; the
    flow hash is the length of the packet. *)
Definition demo_vpp : VppPacket := {|
  VLIB_BUFFER_PRE_DATA_SIZE := 128;
  VLIB_BUFFER_IS_TRACED := 4;
  VNET_BUFFER_F_LOCALLY_ORIGINATED := 16;
  VNET_BUFFER_F_L3_HDR_OFFSET_VALID := 32;
  VNET_BUFFER_F_L4_CHECKSUM_CORRECT := 64;
  VNET_BUFFER_F_L4_CHECKSUM_COMPUTED := 128;
  VNET_BUFFER_F_OFFLOAD_CKSUM is_ip4 := if is_ip4 : bool then 0x700 else 0x600;
  ip_csum_update c old new off n := c + (old - new) * 256 ^ (off * n mod 2);
  ip_csum_fold c := c mod 65535;
  ip4_tcp_udp_compute_checksum b ip := 65535 - sum16 (drop (Z.to_nat (ip + 20)) (vb_mem b)) mod 65535;
  ip6_tcp_udp_icmp_compute_checksum b ip := 65535 - sum16 (drop (Z.to_nat (ip + 40)) (vb_mem b)) mod 65535;
  ip4_tcp_udp_validate_checksum b := Z.lor (vb_flags b) 192;
  ip6_tcp_udp_icmp_validate_checksum b := Z.lor (vb_flags b) 192;
  vnet_l2_compute_flow_hash b := vb_current_length b;
  host_config_ttl _ := 64;
  ip_fib_index_by_sw_if_index _ := [0; 0; 0];
  local_interface_sw_if_index := 0
|}.
#[export] Instance demo_vpp_ok : VppPacketOk demo_vpp.
Proof.
  split; simpl.
  - intros c. pose proof (Z.mod_pos_bound c 65535). lia.
  - intros c. by rewrite Z.mod_mod.
  - done.
Qed.

(** a buffer with the octets [w] after the headroom, of which the last, [w'], are
    its packet, at [d]; the 128 octets after them are free *)
Definition demo_buffer (d : Z) (w w' : list Z) : vlib_buffer_t :=
  mk_vbuf (replicate 128 0 ++ w ++ replicate 128 238) d (Zlen w') 0 0 None 0 (Zlen w - Zlen w') 1 0 0 0 opaque_zero.
