(* ===== verification/GtpuError.v ===== *)
(** * GTP-U error indications

    A G-PDU for a tunnel that does not exist is answered with an error
    indication (upf_gtpu_error_ind of src/upf/upf_gtpu_encap.c); a received
    error indication is decoded and reported to the control plane for the
    session it concerns (upf_gtp_error_ind_node of
    src/upf/upf_gtpu_decap.c). *)

From Stdlib Require Import ZArith Lia.
From stdpp Require Import base list list_numbers option numbers decidable gmap.
From S2P Require Import Prelude PfcpIo PfcpIe PfcpLeaf PfcpCodec UpfTypes UpfVec UpfRules UpfAssoc UpfTeid UpfMain UpfSession ApiRules ApiPdr ApiSession GtpuBuf.
#[local] Open Scope upf_scope.

(** the address is an ip46_address_t; the TEID is in network order in the
    sender, as octets, and in host order in the receiver *)
Record gtp_error_ind_t := mk_error_ind { ei_teid : Z; ei_addr : list Z; ei_port : Z }.
Definition error_ind_zero : gtp_error_ind_t := mk_error_ind 0 ip6_zero 0.

Section Encode.
Context {P : VppPacket}.

(** ** Sending *)

(** a header of type [GTPU_EXT_HEADER_UDP_PORT], and the type of the next *)
Definition encode_ext_header_udp_port (b : vlib_buffer_t) (udp_port : list Z) : outcome (Z * vlib_buffer_t) :=
  let p := vlib_buffer_get_current b in
  let* m := mem_store (vb_mem b) p ([GTPU_EXT_HEADER_UDP_PORT; 1] ++ udp_port) in
  let* m := mem_store m (p + 4) [GTPU_EXT_HEADER_NEXT_HEADER_NO_MORE] in
  Ok (5, set_vb_window (set_vb_mem b m) (vb_current_data b) 5).

(** [teid] and [addr] are the octets of the received packet *)
Definition encode_error_indication (b : vlib_buffer_t) (teid addr : list Z) (is_ip4 : bool) : outcome (Z * vlib_buffer_t) :=
  let start := vlib_buffer_get_current b in
  let* m := mem_store (vb_mem b) start (GTPU_IE_TEID_I :: teid) in
  let p := start + 5 in
  let* m := mem_store m p [GTPU_IE_RECOVERY; 0] in
  let p := p + 2 in
  let len := if is_ip4 then 4 else 16 in
  let* m := mem_store m p ([GTPU_IE_GSN_ADDRESS] ++ be 2 len ++ addr) in
  let p := p + 3 + len in
  Ok (p - start, set_vb_window (set_vb_mem b m) (vb_current_data b) (p - start)).

(** the source and destination address of a header are exchanged *)
Definition swap_addresses (is_ip4 : bool) (h : list Z) : list Z :=
  if is_ip4 then patch 12 (field h 16 4) (patch 16 (field h 12 4) h)
  else patch 8 (field h 24 16) (patch 24 (field h 8 16) h).
Definition src_address (is_ip4 : bool) (h : list Z) : list Z := if is_ip4 then field h 12 4 else field h 8 16.
Definition dst_address (is_ip4 : bool) (h : list Z) : list Z := if is_ip4 then field h 16 4 else field h 24 16.

(** ip4_header_bytes; ip4_next_header and ip6_next_header *)
Definition ip4_header_bytes (h : list Z) : Z := 4 * Z.land (nth 0 h 0) 0x0f.
Definition ip_next_header (is_ip4 : bool) (h : list Z) : Z := if is_ip4 then ip4_header_bytes h else 40.

(** the new length and time to live with the checksum, then the fragment id
    which the checksum leaves out *)
Definition error_ind_ip4 (new_len : Z) (h : list Z) : list Z :=
  let sum := de_le (field h 10 2) in
  let sum := ip_csum_update sum (nth 8 h 0) (host_config_ttl true) 8 1 in
  let h := patch 8 [host_config_ttl true] h in
  let sum := ip_csum_update sum (de_le (field h 2 2)) (de_le (be 2 new_len)) 2 2 in
  let h := patch 2 (be 2 new_len) h in
  let h := patch 10 (le 2 (ip_csum_fold sum)) h in
  patch 4 (be 2 1) h.

Definition u16_or_ffff (x : Z) : Z := if x =? 0 then 0xffff else x.
Definition udp_checksum (is_ip4 : bool) (b : vlib_buffer_t) (ip : Z) : Z :=
  u16_or_ffff (if is_ip4 then ip4_tcp_udp_compute_checksum b ip else ip6_tcp_udp_icmp_compute_checksum b ip).

(** the IP header with the addresses exchanged, the ports, the GTP-U header, to
    which the buffer moves on *)
Definition error_ind_headers (p0 : vlib_buffer_t) (is_ip4 : bool) (h0 ports : list Z) : outcome vlib_buffer_t :=
  let n := ip_hdr_len is_ip4 in
  let ip1 := vlib_buffer_get_current p0 in
  let p0 := vlib_buffer_advance p0 n in
  let udp1 := vlib_buffer_get_current p0 in
  let p0 := vlib_buffer_advance p0 sizeof_udp_header in
  let gtpu1 := vlib_buffer_get_current p0 in
  let* p0 := on_header p0 ip1 n (fun _ => swap_addresses is_ip4 h0) in
  let* p0 := on_header p0 udp1 4 (fun _ => field ports 2 2 ++ be 2 GTPU_UDP_PORT) in
  let flags := Z.lor (Z.lor GTPU_V1_VER GTPU_PT_GTP) (Z.lor GTPU_S_BIT GTPU_E_BIT) in
  on_header p0 gtpu1 10 (fun g =>
    let g := patch 8 (be 2 0) (patch 0 [flags; GTPU_TYPE_ERROR_IND] g) in
    if is_ip4 then patch 4 (be 4 0) g else g).

(** the extension header and the elements, to which the buffer moves on *)
Definition error_ind_payload (p0 : vlib_buffer_t) (is_ip4 : bool) (h0 ports teid : list Z)
  : outcome (Z * Z * vlib_buffer_t) :=
  let p0 := vlib_buffer_advance p0 (sizeof_gtpu_header - 1) in
  let* (ext_header_len, p0) := encode_ext_header_udp_port p0 (field ports 0 2) in
  let p0 := vlib_buffer_advance p0 ext_header_len in
  let* (len_p1, p0) := encode_error_indication p0 teid (src_address is_ip4 h0) is_ip4 in
  Ok (ext_header_len, len_p1, p0).

(** the lengths and checksums of the headers, which start at [ip1] *)
Definition error_ind_finish (p0 : vlib_buffer_t) (is_ip4 : bool) (ip1 ext_header_len len_p1 : Z) : outcome vlib_buffer_t :=
  let n := ip_hdr_len is_ip4 in
  let udp1 := ip1 + n in
  let gtpu1 := udp1 + sizeof_udp_header in
  let gtp_len_encoded := sizeof_gtpu_header - 1 in
  let* p0 := on_header p0 gtpu1 4 (patch 2 (be 2 (len_p1 + (ext_header_len - 1) + (sizeof_gtpu_header - 8)))) in
  let udp_len := sizeof_udp_header + gtp_len_encoded + ext_header_len + len_p1 in
  let* p0 := on_header p0 ip1 n (fun h => if is_ip4 then error_ind_ip4 (ip4_header_bytes h + udp_len) h else patch 4 (be 2 udp_len) h) in
  let* p0 := on_header p0 udp1 8 (patch 4 (be 2 udp_len ++ [0; 0])) in
  let* p0 := on_header p0 udp1 8 (patch 6 (le 2 (udp_checksum is_ip4 p0 ip1))) in
  let p0 := set_vb_flags p0 (Z.lor (Z.lor (vb_flags p0) VNET_BUFFER_F_LOCALLY_ORIGINATED) VLIB_BUFFER_IS_TRACED) in
  Ok (vlib_buffer_advance p0 (- (n + sizeof_udp_header + gtp_len_encoded + ext_header_len))).

(** the received packet [b0], as it is afterwards, and the one that goes to the
    lookup of IP, unless there is no buffer *)
Definition upf_gtpu_error_ind (alloc : option vlib_buffer_t) (b0 : vlib_buffer_t) (is_ip4 : bool)
  : outcome (vlib_buffer_t * option vlib_buffer_t) :=
  match alloc with
  | None => Ok (b0, None)
  | Some p0 =>
      let n := ip_hdr_len is_ip4 in
      match ip_fib_index_by_sw_if_index is_ip4 !! Z.to_nat (vb_sw_if_index_rx b0) with
      | None => Fault BadIndex
      | Some fib_index =>
          let p0 := set_vb_sw_if_index p0 (vb_sw_if_index_rx p0) fib_index in
          let p0 := set_vb_window p0 (vb_current_data p0) (vb_current_length p0 + n + sizeof_udp_header + sizeof_gtpu_header) in
          let b0 := vlib_buffer_advance (vlib_buffer_reset b0) (vb_l4_hdr_offset b0) in
          let gtpu0 := vlib_buffer_get_current b0 in
          let b0 := vlib_buffer_advance b0 (- (n + sizeof_udp_header)) in
          let ip0 := vlib_buffer_get_current b0 in
          let* h0 := mem_load (vb_mem b0) ip0 n in
          let udp0 := ip0 + ip_next_header is_ip4 h0 in
          let* ports := mem_load (vb_mem b0) udp0 4 in
          let* teid := mem_load (vb_mem b0) (gtpu0 + o_teid) 4 in
          let ip1 := vlib_buffer_get_current p0 in
          let* p0 := error_ind_headers p0 is_ip4 h0 ports in
          let* (ext_header_len, len_p1, p0) := error_ind_payload p0 is_ip4 h0 ports teid in
          let* p0 := error_ind_finish p0 is_ip4 ip1 ext_header_len len_p1 in
          Ok (b0, Some p0)
      end
  end.
End Encode.

(** ** Receiving *)

Definition set_ei_port (e : gtp_error_ind_t) (x : Z) : gtp_error_ind_t := mk_error_ind (ei_teid e) (ei_addr e) x.
Definition set_ei_teid (e : gtp_error_ind_t) (x : Z) : gtp_error_ind_t := mk_error_ind x (ei_addr e) (ei_port e).
Definition set_ei_addr (e : gtp_error_ind_t) (x : list Z) : gtp_error_ind_t := mk_error_ind (ei_teid e) x (ei_port e).
Definition to_ip46 (is_ip6 : bool) (p : list Z) : list Z := if is_ip6 then p else ip46_address_set_ip4 p.

(** the loop over the extension headers: the position after them *)
Fixpoint error_ext_hdr_loop (fuel : nat) (m : list Z) (last p next_ext_type : Z) (error : gtp_error_ind_t)
  : outcome (Z * gtp_error_ind_t) :=
  if (next_ext_type =? 0) || (last <=? p) then Ok (p, error)
  else match fuel with
  | O => Fault NoFuel
  | S fuel =>
      let* n := mem_u8 m p in
      let length := wrap 16 (n * 4 - 2) in
      let p := p + 1 in
      if last - p <? length then Ok (p, error)
      else
        let* error :=
          if next_ext_type =? GTPU_EXT_HEADER_UDP_PORT
          then if length <? 2 then Ok error
               else let* port := mem_load m p 2 in Ok (set_ei_port error (de_be port))
          else Ok error in
        let p := p + length in
        let* next_ext_type := mem_u8 m p in
        error_ext_hdr_loop fuel m last (p + 1) next_ext_type error
  end.

(** the loop over the information elements; [None] is the return of -1 *)
Fixpoint error_ie_loop (fuel : nat) (m : list Z) (last p : Z) (flag : Z) (error : gtp_error_ind_t)
  : outcome (option gtp_error_ind_t) :=
  if last <=? p then Ok (if flag =? 3 then Some error else None)
  else match fuel with
  | O => Fault NoFuel
  | S fuel =>
      let* ie := mem_u8 m p in
      let p := p + 1 in
      if ie =? 14 then error_ie_loop fuel m last (p + 1) flag error
      else if ie =? 16 then
        if Z.testbit flag 0 || (last - p <? 4) then Ok None
        else
          let* teid := mem_load m p 4 in
          error_ie_loop fuel m last (p + 4) (Z.lor flag 1) (set_ei_teid error (de_be teid))
      else if ie =? 133 then
        if Z.testbit flag 1 || (last - p <? 2) then Ok None
        else
          let* l := mem_load m p 2 in
          let length := de_be l in
          let p := p + 2 in
          if last - p <? length then Ok None
          else if negb (length =? 4) && negb (length =? 16) then Ok None
          else
            let* a := mem_load m p length in
            error_ie_loop fuel m last (p + length) (Z.lor flag 2) (set_ei_addr error (to_ip46 (length =? 16) a))
      else Ok None
  end.

Section Decode.
Context {P : VppPacket}.

(** fuel: every header and element has an octet at least *)
Definition decode_error_indication_ext_hdr (b : vlib_buffer_t) (next_ext_type : Z) (error : gtp_error_ind_t)
  : outcome (vlib_buffer_t * gtp_error_ind_t) :=
  let start := vlib_buffer_get_current b in
  let last := vlib_buffer_get_tail b in
  let* (p, error) := error_ext_hdr_loop (Z.to_nat (vb_current_length b)) (vb_mem b) last start next_ext_type error in
  Ok (vlib_buffer_advance b (p - start), error).

Definition decode_error_indication (b : vlib_buffer_t) (error : gtp_error_ind_t) : outcome (option gtp_error_ind_t) :=
  error_ie_loop (Z.to_nat (vb_current_length b)) (vb_mem b) (vlib_buffer_get_tail b) (vlib_buffer_get_current b) 0 error.

(** from the start of the buffer to the GTP-U header, then what it says *)
Definition parse_error_ind (b : vlib_buffer_t) : outcome (option gtp_error_ind_t) :=
  let b := vlib_buffer_advance (vlib_buffer_reset b) (vb_l4_hdr_offset b) in
  let gtpu := vlib_buffer_get_current b in
  let* ver_flags := mem_u8 (vb_mem b) (gtpu + o_ver_flags) in
  let* next_ext_type := mem_u8 (vb_mem b) (gtpu + o_next_ext_type) in
  let* (b, error) :=
    if flag ver_flags GTPU_E_S_PN_BIT then
      let b := vlib_buffer_advance b sizeof_gtpu_header in
      if flag ver_flags GTPU_E_BIT then decode_error_indication_ext_hdr b next_ext_type error_ind_zero
      else Ok (b, error_ind_zero)
    else Ok (vlib_buffer_advance b (sizeof_gtpu_header - 4), error_ind_zero) in
  decode_error_indication b error.

Context {N : VppNet}.

(** the tunnel table of an address; the session of a value and its rule *)
Definition tunnel_table (u : upf_main_t) (is_ip4 : bool) : gmap (list Z) Z :=
  if is_ip4 then um_v4_tunnel u else um_v6_tunnel u.
Definition tunnel_key (addr : list Z) (teid : Z) : list Z := addr ++ le 4 teid.
Definition value_session (v : Z) : Z := Z.land v 0xffffffff.
Definition value_rule (v : Z) : Z := Z.shiftr v 32.

(** a packet of upf_gtp_error_ind_node, which then is freed: the session that
    upf_pfcp_error_report calls upf_pfcp_send_request for and its message, or
    the error of the trace *)
Definition upf_gtp_error_ind_packet (u : upf_main_t) (b : vlib_buffer_t)
  : outcome (Z + Z * upf_session_t * pfcp_decoded_msg_t) :=
  let* r := parse_error_ind b in
  match r with
  | None => Ok (inl UPF_GTPU_ERROR_NO_SUCH_TUNNEL)
  | Some error =>
      let is_ip4 := ip46_address_is_ip4 (ei_addr error) in
      let addr := if is_ip4 then ip46_ip4 (ei_addr error) else ei_addr error in
      match tunnel_table u is_ip4 !! tunnel_key addr (ei_teid error) with
      | None => Ok (inl UPF_GTPU_ERROR_NO_SUCH_TUNNEL)
      | Some v =>
          let session_index := value_session v in
          let* t := get_session (um_assoc u) session_index in
          Ok (inr (session_index, t, upf_pfcp_error_report (ei_teid error) (ei_addr error)))
      end
  end.

(** the requests of a frame *)
Fixpoint upf_gtp_error_ind_node (u : upf_main_t) (frame : list vlib_buffer_t)
  : outcome (list (Z * upf_session_t * pfcp_decoded_msg_t)) :=
  match frame with
  | [] => Ok []
  | b :: frame =>
      let* r := upf_gtp_error_ind_packet u b in
      let* l := upf_gtp_error_ind_node u frame in
      Ok (match r with inl _ => l | inr q => q :: l end)
  end.
End Decode.

(** ** The octets of an error indication *)

(** the extension header with the port, and the information elements *)
Definition error_ind_octets (is_ip4 : bool) (port teid addr : list Z) : list Z :=
  [GTPU_EXT_HEADER_UDP_PORT; 1] ++ port ++ [0] ++ [GTPU_IE_TEID_I] ++ teid ++ [GTPU_IE_RECOVERY; 0; GTPU_IE_GSN_ADDRESS]
  ++ be 2 (if is_ip4 then 4 else 16) ++ addr.
Definition addr_len (is_ip4 : bool) : nat := if is_ip4 then 4 else 16.

(** the elements of an error indication, and what a receiver makes of them: the
    flags of the ones it has and what they say, unless one comes twice *)
Inductive error_ie := IeRecovery (c : Z) | IeTeid (t : list Z) | IePeer (is_ip4 : bool) (a : list Z).
Definition ie_wf (ie : error_ie) : Prop :=
  match ie with IeRecovery _ => True | IeTeid t => length t = 4%nat | IePeer is_ip4 a => length a = addr_len is_ip4 end.
Definition ie_octets (ie : error_ie) : list Z :=
  match ie with
  | IeRecovery c => [14; c]
  | IeTeid t => 16 :: t
  | IePeer is_ip4 a => 133 :: be 2 (if is_ip4 then 4 else 16) ++ a
  end.
Definition take_ie (st : option (bool * bool * gtp_error_ind_t)) (ie : error_ie) : option (bool * bool * gtp_error_ind_t) :=
  match st, ie with
  | Some (t, a, e), IeRecovery _ => Some (t, a, e)
  | Some (false, a, e), IeTeid x => Some (true, a, set_ei_teid e (de_be x))
  | Some (t, false, e), IePeer is_ip4 x => Some (t, true, set_ei_addr e (to_ip46 (negb is_ip4) x))
  | _, _ => None
  end.
Definition ies_meaning (e : gtp_error_ind_t) (ies : list error_ie) : option gtp_error_ind_t :=
  match foldl take_ie (Some (false, false, e)) ies with
  | Some (true, true, e) => Some e
  | _ => None
  end.

Lemma take_ie_None ies : foldl take_ie None ies = None.
Proof. by induction ies. Qed.

Definition flag_bits (t a : bool) : Z := (if t then 1 else 0) + (if a then 2 else 0).

Ltac zlen := unfold Zlen in *; simpl length in *; rewrite ?length_app in *; simpl length in *; rewrite ?length_app in *; simpl length in *; lia.
(** the elements of a list of known length *)
Ltac explode l H := repeat (destruct l as [|? l]; simpl in H; [try discriminate H|try discriminate H]).

Ltac app_eq := repeat (progress (rewrite <- ?app_assoc; cbn [app])); reflexivity.

(** the conditions of a block of memory that a header is in *)
Ltac block_goal := solve [ cbn [vb_mem set_vb_mem set_vb_window vlib_buffer_advance]; by rewrite <- !app_assoc | rewrite ?Zlen_app; zlen | reflexivity ].

(** a comparison that is false *)
Ltac not_le x y := replace (x <=? y) with false by (symmetry; apply Z.leb_gt; first [lia|zlen]).
Ltac not_lt x y := replace (x <? y) with false by (symmetry; apply Z.ltb_ge; first [lia|zlen]).

(** a step of the loop for each element *)
Definition ie_step (ie : error_ie) : Prop := forall fuel (l r : list Z) last t a e,
  ie_wf ie -> Zlen l + Zlen (ie_octets ie) <= last ->
  error_ie_loop (S fuel) (l ++ ie_octets ie ++ r) last (Zlen l) (flag_bits t a) e
  = match take_ie (Some (t, a, e)) ie with
    | Some (t', a', e') => error_ie_loop fuel (l ++ ie_octets ie ++ r) last (Zlen l + Zlen (ie_octets ie)) (flag_bits t' a') e'
    | None => Ok None
    end.

Lemma ie_step_recovery c : ie_step (IeRecovery c).
Proof.
  intros fuel l r last t a e _ Hl. cbn [error_ie_loop ie_octets] in *. not_le last (Zlen l).
  rewrite (mem_u8_at l _ _ 0) by zlen. change (Z.to_nat 0) with 0%nat. cbn [obind app nth]. change (14 =? 14) with true. cbn iota.
  destruct t, a; cbn [take_ie]; f_equal; zlen.
Qed.

Lemma ie_step_teid x : ie_step (IeTeid x).
Proof.
  intros fuel l r last t a e Hx Hl. cbn [error_ie_loop ie_octets] in *. simpl in Hx. not_le last (Zlen l).
  rewrite (mem_u8_at l _ _ 0) by zlen. change (Z.to_nat 0) with 0%nat. cbn [obind app nth]. change (16 =? 14) with false. change (16 =? 16) with true.
  cbn iota. destruct t; [by destruct a|]. assert (Z.testbit (flag_bits false a) 0 = false) as -> by (by destruct a).
  cbn [orb take_ie]. not_lt (last - (Zlen l + 1)) 4. rewrite (mem_load_at l _ _ 1 4) by zlen. cbn [obind].
  replace (field _ _ _) with x; [|unfold field; change (Z.to_nat 1) with 1%nat; rewrite skipn_cons, drop_0; change (Z.to_nat 4) with 4%nat; by rewrite <- Hx, take_app_length].
  assert (Z.lor (flag_bits false a) 1 = flag_bits true a) as -> by (by destruct a). destruct a; f_equal; zlen.
Qed.

Lemma ie_step_peer is_ip4 x : ie_step (IePeer is_ip4 x).
Proof.
  intros fuel l r last t a e Hx Hl. cbn [error_ie_loop ie_octets] in *. simpl in Hx.
  set (n := if is_ip4 then 4 else 16) in *.
  assert (Zlen x = n) as Hn by (unfold Zlen; rewrite Hx; by destruct is_ip4).
  assert (length (be 2 n) = 2%nat) as H2 by apply length_be. pose proof (Zlen_be 2 n) as H2'.
  rewrite Zlen_cons, Zlen_app in Hl. pose proof (Zlen_nonneg r). assert (0 <= n) by (by destruct is_ip4).
  not_le last (Zlen l). rewrite (mem_u8_at l _ _ 0) by (rewrite ?Zlen_app, ?Zlen_cons; pose proof (Zlen_nonneg (be 2 n ++ x)); lia).
  change (Z.to_nat 0) with 0%nat. cbn [obind app nth]. change (133 =? 14) with false. change (133 =? 16) with false. change (133 =? 133) with true.
  cbn iota. destruct a; [by destruct t|]. assert (Z.testbit (flag_bits t false) 1 = false) as -> by (by destruct t).
  assert (Zlen (133 :: (be 2 n ++ x) ++ r) = 3 + n + Zlen r) as Hw by (rewrite Zlen_cons, !Zlen_app; lia).
  cbn [orb]. not_lt (last - (Zlen l + 1)) 2. rewrite (mem_load_at l _ _ 1 2) by lia. cbn [obind].
  change (field _ (Z.to_nat 1) (Z.to_nat 2)) with (be 2 n).
  assert (de_be (be 2 n) = n) as -> by (by destruct is_ip4). not_lt (last - (Zlen l + 1 + 2)) n.
  assert (negb (n =? 4) && negb (n =? 16) = false) as -> by (by destruct is_ip4).
  rewrite (mem_load_at l _ _ 3 n) by lia. cbn [obind].
  replace (field _ (Z.to_nat 3) _) with x.
  2: { unfold field. change (Z.to_nat 3) with 3%nat. replace (Z.to_nat n) with (length x) by (unfold Zlen in Hn; lia).
       rewrite skipn_cons. replace (drop 2 ((be 2 n ++ x) ++ r)) with (x ++ r); [by rewrite take_app_length|].
       rewrite <- app_assoc. by rewrite <- H2, drop_app_length. }
  assert (Z.lor (flag_bits t false) 2 = flag_bits t true) as -> by (by destruct t).
  assert ((n =? 16) = negb is_ip4) as -> by (by destruct is_ip4).
  destruct t; cbn [take_ie]; f_equal; rewrite Zlen_cons, Zlen_app; lia.
Qed.

Lemma ie_step_all ie : ie_step ie.
Proof. destruct ie; [apply ie_step_recovery|apply ie_step_teid|apply ie_step_peer]. Qed.

(** the loop over the elements of a packet *)
Lemma error_ie_loop_octets (ies : list error_ie) : forall fuel (l r : list Z) t a e,
  Forall ie_wf ies -> (length ies <= fuel)%nat ->
  let last := Zlen l + Zlen (concat (ie_octets <$> ies)) in
  error_ie_loop fuel (l ++ concat (ie_octets <$> ies) ++ r) last (Zlen l) (flag_bits t a) e
  = Ok (match foldl take_ie (Some (t, a, e)) ies with Some (true, true, e) => Some e | _ => None end).
Proof.
  induction ies as [|ie ies IH]; intros fuel l r t a e Hwf Hf; cbn zeta.
  - change (Zlen (concat _)) with 0. rewrite Z.add_0_r. destruct fuel; cbn [error_ie_loop]; rewrite Z.leb_refl; by destruct t, a.
  - apply Forall_cons in Hwf as [Hie Hwf]. destruct fuel as [|fuel]; [simpl in Hf; lia|].
    change (concat (ie_octets <$> ie :: ies)) with (ie_octets ie ++ concat (ie_octets <$> ies)).
    set (rest := concat (ie_octets <$> ies)) in *. rewrite Zlen_app, <- app_assoc.
    rewrite (ie_step_all ie) by (try done; pose proof (Zlen_nonneg rest); lia). cbn [foldl].
    destruct (take_ie (Some (t, a, e)) ie) as [[[t' a'] e']|]; [|by rewrite take_ie_None].
    specialize (IH fuel (l ++ ie_octets ie) r t' a' e' Hwf ltac:(simpl in Hf; lia)). cbn zeta in IH.
    rewrite <- app_assoc, Zlen_app, <- Z.add_assoc in IH. exact IH.
Qed.

(** an extension header with the port, the last one *)
Lemma error_ext_hdr_port fuel (l r port : list Z) last e :
  length port = 2%nat -> Zlen l + 4 <= last ->
  error_ext_hdr_loop (S fuel) (l ++ [1] ++ port ++ [0] ++ r) last (Zlen l) GTPU_EXT_HEADER_UDP_PORT e
  = Ok (Zlen l + 4, set_ei_port e (de_be port)).
Proof.
  intros Hp Hl. explode port Hp. cbn [error_ext_hdr_loop]. change (GTPU_EXT_HEADER_UDP_PORT =? 0) with false.
  cbn [orb]. not_le last (Zlen l). rewrite (mem_u8_at l _ _ 0) by zlen. change (Z.to_nat 0) with 0%nat. cbn [obind app nth]. change (wrap 16 (1 * 4 - 2)) with 2.
  not_lt (last - (Zlen l + 1)) 2. change (GTPU_EXT_HEADER_UDP_PORT =? GTPU_EXT_HEADER_UDP_PORT) with true. change (2 <? 2) with false. cbn iota.
  rewrite (mem_load_at l _ _ 1 2) by zlen. cbn [obind]. rewrite (mem_u8_at l _ _ 3) by zlen. cbn [obind].
  change (nth (Z.to_nat 3) _ 0) with 0. replace (Zlen l + 1 + 2 + 1) with (Zlen l + 4) by lia.
  destruct fuel; reflexivity.
Qed.

Section RoundTrip.
Context {P : VppPacket}.

Lemma adv_current b n : vlib_buffer_get_current (vlib_buffer_advance b n) = vlib_buffer_get_current b + n.
Proof. unfold vlib_buffer_get_current, vlib_buffer_advance. simpl. lia. Qed.

Lemma adv_length b n :
  0 <= vb_current_length b - n < 65536 -> vb_current_length (vlib_buffer_advance b n) = vb_current_length b - n.
Proof. intros H. simpl. apply wrap_small, in_range_spec. lia. Qed.

(** back to the start of the buffer, then to the transport header *)
Lemma to_l4_window b :
  0 <= vb_current_data b + vb_current_length b < 65536 -> 0 <= vb_l4_hdr_offset b <= vb_current_data b + vb_current_length b ->
  let b' := vlib_buffer_advance (vlib_buffer_reset b) (vb_l4_hdr_offset b) in
  vlib_buffer_get_current b' = VLIB_BUFFER_PRE_DATA_SIZE + vb_l4_hdr_offset b
  /\ vb_mem b' = vb_mem b
  /\ vb_current_length b' = vb_current_data b + vb_current_length b - vb_l4_hdr_offset b.
Proof.
  intros H1 H2. cbn zeta. assert (vb_current_length (vlib_buffer_reset b) = vb_current_data b + vb_current_length b) as E.
  { simpl. rewrite wrap_small by (apply in_range_spec; lia). lia. }
  rewrite adv_current, adv_length; rewrite ?E; [|lia]. unfold vlib_buffer_get_current. simpl. split; [lia|]. split; [done|lia].
Qed.

(** a packet is in a buffer, from the GTP-U header at its transport offset on *)
Definition gtpu_in (b : vlib_buffer_t) (w : list Z) : Prop :=
  exists l r, vb_mem b = l ++ w ++ r
  /\ VLIB_BUFFER_PRE_DATA_SIZE + vb_l4_hdr_offset b = Zlen l
  /\ vb_current_data b + vb_current_length b = vb_l4_hdr_offset b + Zlen w
  /\ 0 <= vb_l4_hdr_offset b /\ vb_current_data b + vb_current_length b < 65536.

(** an extension header with a port and any elements after it *)
Lemma parse_error_ind_octets (b : vlib_buffer_t) (g port : list Z) (ies : list error_ie) :
  gtpu_in b (g ++ [GTPU_EXT_HEADER_UDP_PORT; 1] ++ port ++ [0] ++ concat (ie_octets <$> ies)) ->
  length g = 11%nat -> flag (nth 0 g 0) GTPU_E_BIT = true -> length port = 2%nat -> Forall ie_wf ies ->
  parse_error_ind b = Ok (ies_meaning (set_ei_port error_ind_zero (de_be port)) ies).
Proof.
  intros (l & r & Hm & Hl & Htail & Hl4 & Hmax) Hg HE Hp Hwf.
  set (w := concat (ie_octets <$> ies)) in *.
  assert (flag (nth 0 g 0) GTPU_E_S_PN_BIT = true) as HESP.
  { change GTPU_E_S_PN_BIT with (Z.lor GTPU_E_BIT 3). by rewrite flag_lor, HE. }
  assert (Zlen (g ++ [GTPU_EXT_HEADER_UDP_PORT; 1] ++ port ++ [0] ++ w) = 16 + Zlen w) as Hw by (rewrite !Zlen_app; zlen).
  pose proof (Zlen_nonneg w). rewrite Hw in Htail.
  assert (length ies <= length w)%nat as Hies.
  { subst w. clear. induction ies as [|ie ies IH]; [simpl; lia|]. rewrite fmap_cons, concat_cons, length_app. simpl. destruct ie; simpl; lia. }
  unfold parse_error_ind. destruct (to_l4_window b) as (Hc & Hmem & Hn); [lia|lia|].
  set (b1 := vlib_buffer_advance (vlib_buffer_reset b) _) in *. cbn zeta. rewrite Hc, Hl, Hmem, Hm.
  pose proof (Zlen_nonneg r).
  rewrite (mem_u8_at l _ _ 0) by (unfold o_ver_flags; try rewrite Zlen_app, Hw; lia). cbn [obind].
  rewrite (mem_u8_at l _ _ 11) by (unfold o_next_ext_type; try rewrite Zlen_app, Hw; lia). cbn [obind].
  assert (nth (Z.to_nat 0) ((g ++ [GTPU_EXT_HEADER_UDP_PORT; 1] ++ port ++ [0] ++ w) ++ r) 0 = nth 0 g 0) as ->
    by (destruct g; [done|reflexivity]).
  assert (nth (Z.to_nat 11) ((g ++ [GTPU_EXT_HEADER_UDP_PORT; 1] ++ port ++ [0] ++ w) ++ r) 0 = GTPU_EXT_HEADER_UDP_PORT) as ->
    by (explode g Hg; reflexivity).
  rewrite HESP, HE. unfold decode_error_indication_ext_hdr, vlib_buffer_get_tail. rewrite adv_current, Hc, Hl.
  set (b2 := vlib_buffer_advance b1 sizeof_gtpu_header).
  assert (vb_current_length b2 = 4 + Zlen w) as Hn2.
  { subst b2. rewrite adv_length; rewrite Hn; unfold sizeof_gtpu_header; lia. }
  assert (vb_mem b2 = (l ++ g ++ [GTPU_EXT_HEADER_UDP_PORT]) ++ [1] ++ port ++ [0] ++ (w ++ r)) as Hm2.
  { change (vb_mem b2) with (vb_mem b1). rewrite Hmem, Hm. rewrite <- !app_assoc. reflexivity. }
  assert (Zlen (l ++ g ++ [GTPU_EXT_HEADER_UDP_PORT]) = Zlen l + 12) as Hl2 by (rewrite !Zlen_app; zlen).
  rewrite Hn2, Hm2. unfold sizeof_gtpu_header. rewrite <- Hl2.
  replace (Z.to_nat (4 + Zlen w)) with (S (3 + length w)) by (unfold Zlen; lia).
  rewrite error_ext_hdr_port by (done || lia). cbn [obind]. unfold decode_error_indication, vlib_buffer_get_tail.
  set (l2 := l ++ g ++ [GTPU_EXT_HEADER_UDP_PORT]) in *. replace (Zlen l2 + 4 - Zlen l2) with 4 by lia.
  assert (vlib_buffer_get_current b2 = Zlen l + sizeof_gtpu_header) as Hc2 by (unfold b2; rewrite adv_current, Hc; lia).
  rewrite adv_current, adv_length, Hc2 by lia.
  change (vb_mem (vlib_buffer_advance b2 4)) with (vb_mem b2). rewrite Hm2, Hn2.
  assert (Zlen l + sizeof_gtpu_header + 4 = Zlen (l2 ++ [1] ++ port ++ [0])) as -> by (unfold sizeof_gtpu_header; rewrite Zlen_app, Hl2; zlen).
  replace (l2 ++ [1] ++ port ++ [0] ++ w ++ r) with ((l2 ++ [1] ++ port ++ [0]) ++ w ++ r) by (by rewrite <- !app_assoc).
  replace (4 + Zlen w - 4) with (Zlen w) by lia. replace (Z.to_nat (Zlen w)) with (length w) by (unfold Zlen; lia).
  exact (error_ie_loop_octets ies (length w) (l2 ++ [1] ++ port ++ [0]) r false false _ Hwf Hies).
Qed.

(** the elements of the packet that is sent *)
Definition error_ies (is_ip4 : bool) (teid addr : list Z) : list error_ie :=
  [IeTeid teid; IeRecovery 0; IePeer is_ip4 addr].

Lemma encode_ext_header_app b (l e r port : list Z) :
  vb_mem b = l ++ e ++ r -> vlib_buffer_get_current b = Zlen l -> length e = 5%nat -> length port = 2%nat ->
  encode_ext_header_udp_port b port
  = Ok (5, set_vb_window (set_vb_mem b (l ++ ([GTPU_EXT_HEADER_UDP_PORT; 1] ++ port ++ [0]) ++ r)) (vb_current_data b) 5).
Proof.
  intros Hm Hc He Hp. explode e He. explode port Hp. unfold encode_ext_header_udp_port. rewrite Hm, Hc. cbn [app].
  rewrite (mem_store_at l _ _ _ 0) by zlen. cbn [obind]. rewrite (mem_store_at l _ _ _ 4) by (unfold patch; simpl; zlen).
  reflexivity.
Qed.

Lemma encode_error_indication_app b (l e r teid addr : list Z) is_ip4 :
  vb_mem b = l ++ e ++ r -> vlib_buffer_get_current b = Zlen l -> length e = (10 + addr_len is_ip4)%nat ->
  length teid = 4%nat -> length addr = addr_len is_ip4 ->
  encode_error_indication b teid addr is_ip4
  = let n := 10 + Z.of_nat (addr_len is_ip4) in
    Ok (n, set_vb_window (set_vb_mem b (l ++ concat (ie_octets <$> error_ies is_ip4 teid addr) ++ r)) (vb_current_data b) n).
Proof.
  intros Hm Hc He Ht Ha. unfold encode_error_indication. rewrite Hm, Hc. cbv zeta.
  destruct is_ip4; simpl addr_len in *; explode e He; explode teid Ht; explode addr Ha; cbn [app be];
    (rewrite (mem_store_at l _ _ _ 0) by zlen); cbn [obind];
    (rewrite (mem_store_at l _ _ _ 5) by (unfold patch; simpl; zlen)); cbn [obind];
    (rewrite (mem_store_at l _ _ _ 7) by (unfold patch; simpl; zlen)); cbn [obind];
    (replace (_ - Zlen l) with (10 + Z.of_nat 4) by lia) || (replace (_ - Zlen l) with (10 + Z.of_nat 16) by lia);
    reflexivity.
Qed.

(** a received G-PDU, whose IPv4 header has no options *)
Record gpdu_in (b : vlib_buffer_t) (is_ip4 : bool) (h ports teid : list Z) : Prop := {
  gp_mem : exists l x y r, vb_mem b = l ++ h ++ ports ++ x ++ y ++ teid ++ r
    /\ Zlen l = vlib_buffer_get_current b /\ length x = 4%nat /\ length y = 4%nat;
  gp_h : Zlen h = ip_hdr_len is_ip4;
  gp_ihl : is_ip4 = true -> ip4_header_bytes h = 20;
  gp_ports : length ports = 4%nat;
  gp_teid : length teid = 4%nat;
  gp_l4 : vb_l4_hdr_offset b = vb_current_data b + ip_hdr_len is_ip4 + 8;
  gp_len : ip_hdr_len is_ip4 + 8 <= vb_current_length b /\ 0 <= vb_current_data b /\ vb_current_data b + vb_current_length b < 65536
}.

(** a buffer with room for [w], which the function will write over *)
Definition room (p : vlib_buffer_t) (l w : list Z) : Prop :=
  (exists r, vb_mem p = l ++ w ++ r) /\ Zlen l = vlib_buffer_get_current p /\ vb_current_length p = 0.

Lemma gpdu_window b is_ip4 h ports teid :
  gpdu_in b is_ip4 h ports teid ->
  vlib_buffer_advance (vlib_buffer_advance (vlib_buffer_reset b) (vb_l4_hdr_offset b)) (- (ip_hdr_len is_ip4 + sizeof_udp_header)) = b.
Proof.
  intros [_ _ _ _ _ Hl4 Hlen]. assert (0 <= ip_hdr_len is_ip4) by (by destruct is_ip4).
  unfold vlib_buffer_advance, vlib_buffer_reset, set_vb_window, sizeof_udp_header. destruct b; simpl in *. f_equal; [lia|].
  unfold wrap. rewrite !Zminus_mod_idemp_l. change (2 ^ 16) with 65536. rewrite (Z.mod_small (_ + _)) by lia. rewrite Z.mod_small; lia.
Qed.

Lemma length_swap_addresses is_ip4 h : Zlen h = ip_hdr_len is_ip4 -> length (swap_addresses is_ip4 h) = length h.
Proof.
  intros Hh. unfold Zlen in Hh. assert (forall i n, (i + n <= length h)%nat -> length (field h i n) = n) as Hf.
  { intros i n Hi. unfold field. rewrite length_take, length_drop. lia. }
  destruct is_ip4; unfold swap_addresses, ip_hdr_len in *;
    repeat first [rewrite length_patch|rewrite Hf]; lia.
Qed.

Lemma length_src_address is_ip4 h : Zlen h = ip_hdr_len is_ip4 -> length (src_address is_ip4 h) = addr_len is_ip4.
Proof.
  intros Hh. unfold Zlen in Hh. destruct is_ip4; unfold src_address, field, ip_hdr_len in *; rewrite length_take, length_drop; unfold addr_len; lia.
Qed.

Lemma swap_header_bytes is_ip4 h : h <> [] -> ip4_header_bytes (swap_addresses is_ip4 h) = ip4_header_bytes h.
Proof. destruct h as [|x h]; [done|]. intros _. by destruct is_ip4. Qed.

Lemma length_error_ind_ip4 n h : length h = 20%nat -> length (error_ind_ip4 n h) = 20%nat.
Proof. intros Hh. unfold error_ind_ip4. repeat rewrite length_patch; rewrite ?length_be, ?length_le, ?length_patch; simpl; lia. Qed.

Lemma length_error_ind_ip is_ip4 h : Zlen h = ip_hdr_len is_ip4 ->
  length (if is_ip4 then error_ind_ip4 58 h else patch 4 (be 2 50) h) = length h.
Proof.
  unfold ip_hdr_len, Zlen. intros Hh. destruct is_ip4; [rewrite length_error_ind_ip4|rewrite length_patch]; rewrite ?length_be; lia.
Qed.

Lemma length_error_ies is_ip4 teid addr : length teid = 4%nat -> length addr = addr_len is_ip4 ->
  length (concat (ie_octets <$> error_ies is_ip4 teid addr)) = (10 + addr_len is_ip4)%nat.
Proof. intros Ht Ha. unfold error_ies. simpl. rewrite !length_app, Ht. simpl. rewrite length_app, Ha. simpl. lia. Qed.

Lemma split_len (w : list Z) a b : length w = (a + b)%nat -> exists x y, w = x ++ y /\ length x = a /\ length y = b.
Proof. intros H. exists (take a w), (drop a w). rewrite take_drop, length_take, length_drop. repeat split; lia. Qed.

(** what the packet is before the checksums: [ip] and [udp] are the headers *)
Definition error_ind_len (is_ip4 : bool) : Z := 34 + Z.of_nat (addr_len is_ip4).

Lemma error_ind_headers_app (p : vlib_buffer_t) is_ip4 h ports (l w r : list Z) :
  vb_mem p = l ++ w ++ r -> Zlen l = vlib_buffer_get_current p -> Zlen w = ip_hdr_len is_ip4 + 18 ->
  Zlen h = ip_hdr_len is_ip4 -> length ports = 4%nat ->
  exists q v a b k, error_ind_headers p is_ip4 h ports = Ok q
    /\ vb_mem q = l ++ (swap_addresses is_ip4 h ++ (field ports 2 2 ++ be 2 GTPU_UDP_PORT) ++ v ++ [0x36; GTPU_TYPE_ERROR_IND; a; b] ++ k) ++ r
    /\ length v = 4%nat /\ length k = 6%nat
    /\ vb_current_data q = vb_current_data p + ip_hdr_len is_ip4 + 8.
Proof.
  intros Hm Hl Hw Hh Hports.
  destruct (split_len w (length h) 18) as (ip & w1 & -> & Lip & Lw1); [unfold Zlen in *; lia|].
  destruct (split_len w1 4 14) as (u4 & w2 & -> & Lu & Lw2); [done|].
  destruct (split_len w2 4 10) as (v4 & g & -> & Lv & Lg); [done|].
  unfold error_ind_headers. set (n := ip_hdr_len is_ip4) in *. cbv zeta. rewrite !adv_current, <- Hl.
  set (p2 := vlib_buffer_advance _ _). set (ip1 := swap_addresses is_ip4 h).
  assert (length ip1 = length h) as Lip1 by (by apply length_swap_addresses).
  assert (vb_mem p2 = l ++ ip ++ (u4 ++ v4 ++ g ++ r)) as Hm2 by (cbn -[app]; rewrite Hm; by rewrite <- !app_assoc).
  rewrite (on_header_app p2 l ip _ _ _ _ Hm2) by (congruence || zlen). cbn [obind]. clear Hm2.
  explode ports Hports. cbn [field take drop app]. set (u1 := z1 :: z2 :: be 2 GTPU_UDP_PORT).
  assert (length u1 = 4%nat) as Lu1 by done. unfold sizeof_udp_header.
  rewrite (on_header_app _ (l ++ ip1) u4 (v4 ++ g ++ r)) by block_goal. cbn [obind].
  explode g Lg. set (f := fun g : list Z => _).
  assert (exists k, length k = 6%nat /\ f [z3; z4; z5; z6; z7; z8; z9; z10; z11; z12] = [0x36; GTPU_TYPE_ERROR_IND; z5; z6] ++ k)
    as (k & Lk & Ef) by (unfold f; destruct is_ip4; eexists; split; [|reflexivity|..|reflexivity]; reflexivity).
  rewrite (on_header_app _ (l ++ ip1 ++ u1 ++ v4) [z3; z4; z5; z6; z7; z8; z9; z10; z11; z12] r) by (rewrite ?Ef; block_goal).
  rewrite Ef. eexists _, v4, z5, z6, k. split; [reflexivity|]. cbn [vb_mem set_vb_mem vb_current_data]. split; [unfold u1; app_eq|].
  split; [done|]. split; [done|]. unfold p2. cbn. unfold sizeof_udp_header. lia.
Qed.

Lemma error_ind_payload_app (p : vlib_buffer_t) is_ip4 h ports teid (l e r : list Z) :
  vb_mem p = l ++ e ++ r -> Zlen l = vlib_buffer_get_current p + 11 -> length e = (15 + addr_len is_ip4)%nat ->
  Zlen h = ip_hdr_len is_ip4 -> length ports = 4%nat -> length teid = 4%nat ->
  let m := 10 + Z.of_nat (addr_len is_ip4) in
  exists q, error_ind_payload p is_ip4 h ports teid = Ok (5, m, q)
    /\ vb_mem q = l ++ ([GTPU_EXT_HEADER_UDP_PORT; 1] ++ field ports 0 2 ++ [0]
                   ++ concat (ie_octets <$> error_ies is_ip4 teid (src_address is_ip4 h))) ++ r
    /\ vb_current_data q = vb_current_data p + 16 /\ vb_current_length q = m.
Proof.
  intros Hm Hl He Hh Hports Ht m. destruct (split_len e 5 (10 + addr_len is_ip4)) as (x & i & -> & Lx & Li); [done|].
  unfold error_ind_payload. cbv zeta.
  rewrite (encode_ext_header_app _ l x (i ++ r)) by
    first [done|cbn -[app]; rewrite Hm; app_eq|rewrite adv_current; unfold sizeof_gtpu_header; lia|by explode ports Hports].
  cbn [obind]. set (q1 := vlib_buffer_advance _ 5). set (ext := [GTPU_EXT_HEADER_UDP_PORT; 1] ++ field ports 0 2 ++ [0]).
  assert (vb_mem q1 = (l ++ ext) ++ i ++ r) as Hm1 by (unfold q1, ext; cbn -[app]; app_eq).
  assert (vb_current_data q1 = vb_current_data p + 16) as Hd1 by (unfold q1; cbn; unfold sizeof_gtpu_header; lia).
  rewrite (encode_error_indication_app q1 (l ++ ext) i r teid _ is_ip4 Hm1) by
    first [done|by apply length_src_address|unfold vlib_buffer_get_current in *; rewrite Hd1, Zlen_app; explode ports Hports; zlen].
  cbn zeta. cbn [obind]. eexists. split; [reflexivity|]. cbn [vb_mem set_vb_mem vb_current_data vb_current_length set_vb_window].
  split; [unfold ext; app_eq|done].
Qed.

Lemma error_ind_finish_app (p : vlib_buffer_t) is_ip4 h (l u v k r : list Z) a b (m := 10 + Z.of_nat (addr_len is_ip4)) :
  vb_mem p = l ++ h ++ u ++ v ++ [0x36; GTPU_TYPE_ERROR_IND; a; b] ++ k ++ r ->
  Zlen h = ip_hdr_len is_ip4 -> (is_ip4 = true -> ip4_header_bytes h = 20) -> length u = 4%nat -> length v = 4%nat ->
  vb_current_length p = m ->
  exists q udp, error_ind_finish p is_ip4 (Zlen l) 5 m = Ok q
    /\ vb_mem q = l ++ (if is_ip4 then error_ind_ip4 58 h else patch 4 (be 2 50) h) ++ udp
                  ++ ([0x36; GTPU_TYPE_ERROR_IND] ++ be 2 (error_ind_len is_ip4 - 16)) ++ k ++ r
    /\ vb_current_data q = vb_current_data p - ip_hdr_len is_ip4 - 24
    /\ vb_current_length q = ip_hdr_len is_ip4 + error_ind_len is_ip4
    /\ field udp 0 6 = u ++ be 2 (error_ind_len is_ip4) /\ length udp = 8%nat.
Proof.
  intros Hm Hh Hihl Lu Lv Hlen. unfold error_ind_finish. set (n := ip_hdr_len is_ip4) in *. cbv zeta. unfold sizeof_udp_header.
  replace (m + (5 - 1) + (sizeof_gtpu_header - 8)) with (error_ind_len is_ip4 - 16) by (unfold error_ind_len, sizeof_gtpu_header, m; lia).
  replace (8 + (sizeof_gtpu_header - 1) + 5 + m) with (error_ind_len is_ip4) by (unfold error_ind_len, sizeof_gtpu_header, m; lia).
  set (g := [0x36; GTPU_TYPE_ERROR_IND] ++ be 2 (error_ind_len is_ip4 - 16)).
  rewrite (on_header_app _ (l ++ h ++ u ++ v) [0x36; GTPU_TYPE_ERROR_IND; a; b] (k ++ r)) by first [rewrite Hm; app_eq|block_goal].
  change (patch 2 _ [_; _; a; b]) with g. cbn [obind].
  set (ip2 := if is_ip4 then error_ind_ip4 58 h else patch 4 (be 2 50) h).
  assert (length ip2 = length h) as Lip2 by (by apply length_error_ind_ip).
  set (f := fun h0 => if is_ip4 then _ else _).
  assert (f h = ip2) as Ef by (unfold f, ip2; destruct is_ip4; [by rewrite Hihl|done]).
  rewrite (on_header_app _ l h (u ++ v ++ g ++ k ++ r)) by (rewrite ?Ef; block_goal). rewrite Ef. cbn [obind].
  explode u Lu. explode v Lv. set (u2 := [z; z0; z1; z2] ++ be 2 (error_ind_len is_ip4) ++ [0; 0]).
  rewrite (on_header_app _ (l ++ ip2) [z; z0; z1; z2; z3; z4; z5; z6] (g ++ k ++ r)) by block_goal.
  change (patch 4 _ [z; _; _; _; _; _; _; _]) with u2. cbn [obind].
  set (q2 := set_vb_mem _ ((l ++ ip2) ++ _)). set (c := le 2 _).
  rewrite (on_header_app q2 (l ++ ip2) u2 (g ++ k ++ r)) by block_goal.
  change (patch 6 c u2) with ([z; z0; z1; z2] ++ be 2 (error_ind_len is_ip4) ++ c). cbn [obind].
  eexists _, ([z; z0; z1; z2] ++ be 2 (error_ind_len is_ip4) ++ c). split; [reflexivity|].
  cbn [vb_mem vb_current_data vb_current_length set_vb_flags vlib_buffer_advance set_vb_window set_vb_mem].
  split; [app_eq|]. unfold q2, sizeof_gtpu_header. cbn [vb_current_data vb_current_length set_vb_mem]. split; [lia|].
  split; [|done]. rewrite Hlen. unfold error_ind_len. rewrite wrap_small; [unfold m; lia|].
  apply in_range_spec. unfold m, n, ip_hdr_len, addr_len. destruct is_ip4; lia.
Qed.

(** the octets of the packet in a buffer *)
Definition packet_of (b : vlib_buffer_t) : list Z :=
  take (Z.to_nat (vb_current_length b)) (drop (Z.to_nat (vlib_buffer_get_current b)) (vb_mem b)).

Lemma packet_of_app b l w r :
  vb_mem b = l ++ w ++ r -> Zlen l = vlib_buffer_get_current b -> Zlen w = vb_current_length b -> packet_of b = w.
Proof.
  intros Hm Hl Hw. unfold packet_of. rewrite Hm, <- Hl, <- Hw. unfold Zlen.
  by rewrite !Nat2Z.id, drop_app_length, take_app_length.
Qed.

(** the error indication of a G-PDU for an unknown tunnel *)
Lemma error_ind_sent (b p : vlib_buffer_t) is_ip4 h ports teid fib l w :
  gpdu_in b is_ip4 h ports teid -> ip_fib_index_by_sw_if_index is_ip4 !! Z.to_nat (vb_sw_if_index_rx b) = Some fib ->
  room p l w -> Zlen w = ip_hdr_len is_ip4 + error_ind_len is_ip4 ->
  exists q udp g, upf_gtpu_error_ind (Some p) b is_ip4 = Ok (b, Some q)
    /\ packet_of q = (if is_ip4 then error_ind_ip4 58 (swap_addresses is_ip4 h) else patch 4 (be 2 50) (swap_addresses is_ip4 h))
         ++ udp ++ g ++ [GTPU_EXT_HEADER_UDP_PORT; 1] ++ field ports 0 2 ++ [0]
         ++ concat (ie_octets <$> error_ies is_ip4 teid (src_address is_ip4 h))
    /\ vb_current_length q = ip_hdr_len is_ip4 + error_ind_len is_ip4
    /\ field udp 0 6 = field ports 2 2 ++ be 2 GTPU_UDP_PORT ++ be 2 (error_ind_len is_ip4) /\ length udp = 8%nat
    /\ length g = 11%nat /\ field g 0 4 = [0x36; GTPU_TYPE_ERROR_IND] ++ be 2 (error_ind_len is_ip4 - 16).
Proof.
  intros Hb Hf ((r & Hm) & Hl & H0) Hw. pose proof (gpdu_window _ _ _ _ _ Hb) as Hwin.
  destruct Hb as [(l0 & x & y & r0 & Hm0 & Hl0 & Hx & Hy) Hh Hihl Hports Hteid Hl4 Hlen].
  unfold upf_gtpu_error_ind. rewrite Hf. cbv zeta. rewrite Hwin, adv_current. set (n := ip_hdr_len is_ip4) in *.
  replace (vlib_buffer_get_current (vlib_buffer_reset b) + vb_l4_hdr_offset b) with (Zlen l0 + n + 8)
    by (unfold vlib_buffer_get_current in *; simpl; lia).
  rewrite Hm0, <- Hl0, (mem_load_app l0 h) by done. cbn [obind].
  replace (ip_next_header is_ip4 h) with n by (unfold n, ip_next_header; destruct is_ip4; [by rewrite Hihl|done]).
  replace (l0 ++ h ++ ports ++ x ++ y ++ teid ++ r0) with ((l0 ++ h) ++ ports ++ x ++ y ++ teid ++ r0) by app_eq.
  rewrite (mem_load_app (l0 ++ h) ports) by (rewrite ?Zlen_app; zlen). cbn [obind].
  replace ((l0 ++ h) ++ ports ++ x ++ y ++ teid ++ r0) with ((l0 ++ h ++ ports ++ x ++ y) ++ teid ++ r0) by app_eq.
  rewrite (mem_load_app (l0 ++ h ++ ports ++ x ++ y) teid) by (unfold o_teid; rewrite ?Zlen_app; zlen). cbn [obind].
  set (p1 := set_vb_window _ _ _).
  assert (exists w1 gc e, w = w1 ++ gc ++ e /\ Zlen w1 = n + 18 /\ length gc = 1%nat /\ length e = (15 + addr_len is_ip4)%nat)
    as (w1 & gc & e & -> & Lw1 & Lgc & Le).
  { assert (0 <= n) by (unfold n; by destruct is_ip4). unfold error_ind_len, Zlen in Hw.
    destruct (split_len w (Z.to_nat n + 18) (16 + addr_len is_ip4)) as (w1 & w2 & -> & ? & L2); [lia|].
    destruct (split_len w2 1 (15 + addr_len is_ip4)) as (gc & e & -> & ? & ?); [lia|].
    exists w1, gc, e. split; [done|]. unfold Zlen. split; [lia|done]. }
  destruct (error_ind_headers_app p1 is_ip4 h ports l w1 (gc ++ e ++ r)) as (q1 & v & a & c & k & -> & Hm1 & Lv & Lk & Hd1); try done.
  { unfold p1. cbn -[app]. rewrite Hm. app_eq. }
  cbn [obind]. set (ip1 := swap_addresses is_ip4 h) in *. assert (length ip1 = length h) as Lip1 by (by apply length_swap_addresses).
  destruct (error_ind_payload_app q1 is_ip4 h ports teid (l ++ ip1 ++ (field ports 2 2 ++ be 2 GTPU_UDP_PORT) ++ v ++ [0x36; GTPU_TYPE_ERROR_IND; a; c] ++ k ++ gc) e r) as (q2 & -> & Hm2 & Hd2 & Hn2); try done.
  { rewrite Hm1. app_eq. }
  { unfold vlib_buffer_get_current in *. rewrite Hd1. cbn [vb_current_data p1 set_vb_window set_vb_sw_if_index]. fold n.
    explode ports Hports. rewrite ?Zlen_app. zlen. }
  cbn [obind]. set (ext := [GTPU_EXT_HEADER_UDP_PORT; 1] ++ field ports 0 2 ++ _) in Hm2.
  destruct (error_ind_finish_app q2 is_ip4 ip1 l (field ports 2 2 ++ be 2 GTPU_UDP_PORT) v (k ++ gc) (ext ++ r) a c) as (q & udp & Hq & Hmq & Hdq & Hnq & Hudp & Ludp).
  { rewrite Hm2. app_eq. } { unfold Zlen in *. lia. } { intros ?. unfold ip1. rewrite swap_header_bytes; [by apply Hihl|intros ->; by destruct is_ip4]. }
  { by explode ports Hports. } { done. } { done. }
  assert (vlib_buffer_get_current p1 = Zlen l) as -> by (by rewrite Hl). rewrite Hq. cbn [obind].
  exists q, udp, (([0x36; GTPU_TYPE_ERROR_IND] ++ be 2 (error_ind_len is_ip4 - 16)) ++ k ++ gc). split; [done|].
  split; [|split; [done|split; [by rewrite Hudp, <- app_assoc|split; [done|]]]].
  2: { split; [rewrite !length_app; simpl; lia|reflexivity]. }
  apply (packet_of_app _ l _ r); [rewrite Hmq; unfold ext; app_eq| |].
  { rewrite Hl. unfold vlib_buffer_get_current. rewrite Hdq, Hd2, Hd1. unfold p1. cbn. lia. }
  rewrite Hnq. pose proof (length_error_ind_ip is_ip4 ip1 ltac:(unfold Zlen in *; lia)) as Lip2.
  pose proof (length_error_ies is_ip4 teid _ Hteid (length_src_address is_ip4 h Hh)) as Lies.
  unfold error_ind_len, Zlen in *. rewrite !length_app, Lip2, Lies, Ludp. fold n. explode ports Hports. simpl length. lia.
Qed.

(** C34. The error indication that answers a G-PDU for an unknown tunnel can be
    read back: when there is a buffer for it, upf_gtpu_error_ind sends a packet
    from which upf_gtp_error_ind_node takes the TEID of the G-PDU, the source
    port of its UDP header, and, as the address of the GTP-U peer, the source
    address of its IP header. *)
Theorem error_indication_roundtrip (b p c : vlib_buffer_t) is_ip4 h ports teid fib l w :
  gpdu_in b is_ip4 h ports teid -> ip_fib_index_by_sw_if_index is_ip4 !! Z.to_nat (vb_sw_if_index_rx b) = Some fib ->
  room p l w -> Zlen w = ip_hdr_len is_ip4 + error_ind_len is_ip4 ->
  exists q, upf_gtpu_error_ind (Some p) b is_ip4 = Ok (b, Some q)
    /\ vb_current_length q = ip_hdr_len is_ip4 + error_ind_len is_ip4
    /\ (gtpu_in c (drop (Z.to_nat (ip_hdr_len is_ip4 + 8)) (packet_of q)) ->
        parse_error_ind c
        = Ok (Some (mk_error_ind (de_be teid) (to_ip46 (negb is_ip4) (src_address is_ip4 h)) (de_be (field ports 0 2))))).
Proof.
  intros Hb Hf Hp Hw. destruct (error_ind_sent b p is_ip4 h ports teid fib l w Hb Hf Hp Hw) as (q & udp & g & Hq & Hpk & Hlen & _ & Ludp & Lg & Hg).
  exists q. split; [done|]. split; [done|]. destruct Hb as [_ Hh _ Hports Hteid _ _].
  pose proof (length_swap_addresses is_ip4 h Hh) as Ls.
  pose proof (length_error_ind_ip is_ip4 (swap_addresses is_ip4 h) ltac:(unfold Zlen in *; lia)) as Lip.
  rewrite Hpk, app_assoc, drop_app_ge by (rewrite length_app, Lip, Ls, Ludp; unfold Zlen in Hh; lia).
  replace (_ - _)%nat with 0%nat by (rewrite length_app, Lip, Ls, Ludp; unfold Zlen in Hh; lia). rewrite drop_0. intros Hc.
  rewrite (parse_error_ind_octets c g (field ports 0 2) _ Hc Lg).
  - done.
  - explode g Lg. by injection Hg as -> _.
  - by explode ports Hports.
  - repeat constructor; simpl; [done|by apply length_src_address].
Qed.
End RoundTrip.

(** ** The checksum of the IP header *)

Section Checksum.
Context {P : VppPacket} {POk : VppPacketOk P}.

Lemma swap_addresses_sum h : length h = 20%nat -> sum16 (swap_addresses true h) = sum16 h.
Proof. intros Hh. explode h Hh. cbn -[Z.mul Z.add]. lia. Qed.

Lemma swap_addresses_field h i n : length h = 20%nat -> (i + n <= 12)%nat -> field (swap_addresses true h) i n = field h i n.
Proof.
  intros Hh Hi. unfold swap_addresses.
  by rewrite !field_patch_ne by plen.
Qed.

(** The IPv4 header of an error indication has a wrong checksum: the
    fragment id is written after the checksum has been updated, so, for a
    received header with a correct checksum, the header that is sent has a
    correct one only if the fragment id already was 1. *)
Theorem error_ind_checksum n h :
  length h = 20%nat -> csum_ok h ->
  csum_ok (error_ind_ip4 n (swap_addresses true h))
  <-> sum16 (field h 4 2) mod 65535 = sum16 (be 2 1) mod 65535.
Proof using POk.
  intros Hh Hok. set (h1 := swap_addresses true h).
  assert (length h1 = 20%nat) as Hh1 by (unfold h1; rewrite length_swap_addresses; unfold Zlen; rewrite ?Hh; done).
  assert (csum_ok h1) as Hok1 by (unfold csum_ok, h1; by rewrite swap_addresses_sum).
  pose proof (csum_with_end _ _ (csum_with_word _ _ 2 (be 2 n) ltac:(by exists 1%nat) ltac:(done) ltac:(lia)
    (csum_with_ttl _ _ (host_config_ttl true) (csum_with_start h1 Hh1 Hok1)))) as He.
  apply csum_ok_diff in He as [k Hk]. unfold error_ind_ip4. cbv zeta. set (h2 := patch 10 _ _) in *.
  assert (length h2 = 20%nat) as Hh2 by (unfold h2; plen).
  rewrite csum_ok_diff, sum16_patch2 by (rewrite ?Hh2; first [by exists 2%nat|done|lia]). rewrite mod_diff.
  assert (field h2 4 2 = field h 4 2) as ->.
  { unfold h2. rewrite !field_patch_ne by plen. unfold h1. apply swap_addresses_field; lia. }
  split; intros [k' Hk']; [exists (k - k')|exists (k - k')]; lia.
Qed.
End Checksum.

(** ** The loops end *)

Lemma mem_load_not_fuel m a n : mem_load m a n <> Fault NoFuel.
Proof. unfold mem_load. by destruct (_ && _). Qed.
Lemma mem_u8_not_fuel m a : mem_u8 m a <> Fault NoFuel.
Proof. unfold mem_u8. pose proof (mem_load_not_fuel m a 1). by destruct (mem_load m a 1) as [| |[]]. Qed.
Lemma obind_not_fuel {A B} (m : outcome A) (k : A -> outcome B) :
  m <> Fault NoFuel -> (forall a, m = Ok a -> k a <> Fault NoFuel) -> obind m k <> Fault NoFuel.
Proof. destruct m as [a|c|f]; simpl; intros Hm Hk; [by apply Hk|done|congruence]. Qed.
Create HintDb gtpu.
#[export] Hint Resolve mem_load_not_fuel mem_u8_not_fuel : gtpu.
#[local] Hint Resolve mem_load_not_fuel mem_u8_not_fuel obind_not_fuel : core.

Lemma error_ie_loop_ends fuel m last p flag e :
  last - p <= Z.of_nat fuel -> (forall a l, mem_load m a 2 = Ok l -> 0 <= de_be l) ->
  error_ie_loop fuel m last p flag e <> Fault NoFuel.
Proof.
  intros Hf Hb. revert p flag e Hf. induction fuel as [|fuel IH]; intros p flag e Hf; cbn [error_ie_loop];
    destruct (Z.leb_spec last p); try done; [lia|].
  apply obind_not_fuel; [done|]. intros ie _. repeat case_match; try done; try (apply IH; lia).
  - apply obind_not_fuel; [done|]. intros ? _. apply IH. lia.
  - apply obind_not_fuel; [done|]. intros l Hl. apply Hb in Hl. repeat case_match; try done.
    apply obind_not_fuel; [done|]. intros ? _. apply IH. lia.
Qed.

Lemma error_ext_hdr_loop_ends fuel m last p next e :
  last - p <= Z.of_nat fuel -> error_ext_hdr_loop fuel m last p next e <> Fault NoFuel.
Proof.
  revert p next e. induction fuel as [|fuel IH]; intros p next e Hf; cbn [error_ext_hdr_loop];
    destruct (Z.eqb_spec next 0), (Z.leb_spec last p); simpl; try done; [lia|].
  apply obind_not_fuel; [done|]. intros len _. case_match; [done|].
  apply obind_not_fuel; [by repeat case_match; eauto|]. intros ? _.
  apply obind_not_fuel; [done|]. intros next' _. apply IH. pose proof (Z.mod_pos_bound (len * 4 - 2) 65536). unfold wrap in *.
  change (2 ^ 16) with 65536 in *. lia.
Qed.

Section Ends.
Context {P : VppPacket}.

Lemma mem_store_not_fuel m a l : mem_store m a l <> Fault NoFuel.
Proof. unfold mem_store. by destruct (_ && _). Qed.
#[local] Hint Resolve mem_store_not_fuel : core.
Lemma on_header_not_fuel b a n f : on_header b a n f <> Fault NoFuel.
Proof. unfold on_header. apply obind_not_fuel; [done|]. intros. by apply obind_not_fuel. Qed.
#[local] Hint Resolve on_header_not_fuel : core.

Lemma upf_gtpu_error_ind_not_fuel alloc b is_ip4 : upf_gtpu_error_ind alloc b is_ip4 <> Fault NoFuel.
Proof.
  destruct alloc as [p|]; [|done]. unfold upf_gtpu_error_ind. case_match; [|done].
  unfold error_ind_headers, error_ind_payload, error_ind_finish, encode_ext_header_udp_port, encode_error_indication. cbv zeta.
  repeat first [done|solve [auto using on_header_not_fuel, mem_store_not_fuel, mem_load_not_fuel]|apply obind_not_fuel|intros [? ?] _|intros ? _|case_match].
Qed.

(** The decoder of error indications ends on every packet: whatever octets
    the buffer holds, the loops over the extension headers and over the
    information elements go on by an octet at least in every round and stop
    within the length of the packet. *)
Theorem error_ind_terminates (b : vlib_buffer_t) :
  Forall is_byte (vb_mem b) -> parse_error_ind b <> Fault NoFuel.
Proof.
  intros Hb. unfold parse_error_ind. cbv zeta. set (b1 := vlib_buffer_advance _ _). change (vb_mem b) with (vb_mem b1) in Hb.
  apply obind_not_fuel; [done|]. intros v _. apply obind_not_fuel; [done|]. intros next _.
  assert (forall b e, Forall is_byte (vb_mem b) -> 0 <= vb_current_length b -> decode_error_indication b e <> Fault NoFuel) as Hie.
  { intros b' e Hb' Hl. unfold decode_error_indication, vlib_buffer_get_tail. apply error_ie_loop_ends; [lia|].
    unfold mem_load. intros a l. case_match; [|done]. intros [= <-]. apply de_be_bound. apply Forall_take, Forall_drop, Hb'. }
  assert (forall x, 0 <= wrap 16 x) as Hw by (intros x; unfold wrap; pose proof (Z.mod_pos_bound x 65536); change (2 ^ 16) with 65536; lia).
  apply obind_not_fuel.
  - repeat case_match; try done. unfold decode_error_indication_ext_hdr. apply obind_not_fuel; [|by intros []].
    apply error_ext_hdr_loop_ends. unfold vlib_buffer_get_tail. pose proof (Hw (vb_current_length b1 - sizeof_gtpu_header)). simpl in *. lia.
  - intros [b2 e] E. apply Hie.
    + repeat case_match; try (injection E as <- _; done). unfold decode_error_indication_ext_hdr in E.
      destruct (error_ext_hdr_loop _ _ _ _ _ _) as [[? ?]| |]; try discriminate E. simpl in E. by injection E as <- _.
    + repeat case_match; try (injection E as <- _; apply Hw). unfold decode_error_indication_ext_hdr in E.
      destruct (error_ext_hdr_loop _ _ _ _ _ _) as [[? ?]| |]; try discriminate E. simpl in E. injection E as <- _. apply Hw.
Qed.

(** An extension header that ends with the packet makes the decoder read
    past it: the octet after the packet is taken for the type of the next
    header, the buffer is advanced by one octet more than it has, its 16-bit
    length becomes 65535, and the information elements are then looked for in
    the 65535 octets of memory after the packet. *)
Theorem error_ext_hdr_overrun (b : vlib_buffer_t) next_ext_type n e :
  mem_u8 (vb_mem b) (vlib_buffer_get_current b) = Ok n -> 0 < n < 256 -> next_ext_type <> 0 ->
  vb_current_length b = n * 4 - 1 -> vlib_buffer_get_tail b < Zlen (vb_mem b) -> 0 <= vlib_buffer_get_current b ->
  exists b' e', decode_error_indication_ext_hdr b next_ext_type e = Ok (b', e')
    /\ vlib_buffer_get_current b' = vlib_buffer_get_tail b + 1 /\ vb_current_length b' = 65535.
Proof.
  intros Hn Hr Ht Hlen Hmem Hc. unfold decode_error_indication_ext_hdr, vlib_buffer_get_tail in *.
  set (p := vlib_buffer_get_current b) in *.
  assert (Z.to_nat (vb_current_length b) = S (Z.to_nat (vb_current_length b - 1))) as -> by lia. cbn [error_ext_hdr_loop].
  destruct (Z.eqb_spec next_ext_type 0); [done|]. cbn [orb]. not_le (p + vb_current_length b) p. rewrite Hn. cbn [obind].
  assert (wrap 16 (n * 4 - 2) = n * 4 - 2) as -> by (apply wrap_small, in_range_spec; lia).
  not_lt (p + vb_current_length b - (p + 1)) (n * 4 - 2).
  set (r := if next_ext_type =? GTPU_EXT_HEADER_UDP_PORT then _ else _).
  assert (exists e', r = Ok e') as [e' ->].
  { unfold r. repeat case_match; eauto. unfold mem_load. destruct (Z.leb_spec 0 (p + 1)); [|lia].
    destruct (Z.leb_spec (p + 1 + 2) (Zlen (vb_mem b))); [|lia]. simpl. eauto. }
  cbn [obind]. replace (p + 1 + (n * 4 - 2)) with (p + vb_current_length b) by lia.
  assert (exists x, mem_u8 (vb_mem b) (p + vb_current_length b) = Ok x) as [x ->].
  { unfold mem_u8, mem_load. destruct (Z.leb_spec 0 (p + vb_current_length b)); [|lia].
    destruct (Z.leb_spec (p + vb_current_length b + 1) (Zlen (vb_mem b))); [|lia]. simpl. eauto. }
  cbn [obind]. destruct (Z.to_nat _); cbn [error_ext_hdr_loop];
    (replace (p + vb_current_length b <=? p + vb_current_length b + 1) with true by (symmetry; apply Z.leb_le; lia));
    rewrite orb_true_r; cbn [obind]; do 2 eexists; (split; [reflexivity|]);
    rewrite adv_current; (split; [fold p; lia|]);
    cbn [vb_current_length vlib_buffer_advance set_vb_window]; by replace (vb_current_length b - (p + vb_current_length b + 1 - p)) with (-1) by lia.
Qed.
End Ends.

(** ** A packet *)

Section Demo.
#[local] Existing Instance demo_vpp.

(** from 10.0.0.9 to 10.0.0.3, of the tunnel 17, with a packet of 24 octets *)
Definition demo_ip4 : list Z := [0x45; 0; 0; 60; 0; 1; 0; 0; 64; 17; 0x66; 0xa5; 10; 0; 0; 9; 10; 0; 0; 3].
Definition demo_udp : list Z := [0x08; 0x68; 0x08; 0x68; 0; 40; 0; 0].
Definition demo_inner : list Z := [0x45; 0; 0; 24] ++ replicate 20 7.
Definition demo_gpdu : list Z := [0x30; 0xff; 0; 24; 0; 0; 0; 17] ++ demo_inner.
Definition demo_packet : list Z := demo_ip4 ++ demo_udp ++ demo_gpdu.
Definition demo_b : vlib_buffer_t := set_vb_l4_hdr_offset (demo_buffer 0 demo_packet demo_packet) 28.
Definition demo_alloc : vlib_buffer_t := demo_buffer 0 [] [].
(** the indication, received *)
Definition demo_sent : list Z :=
  match upf_gtpu_error_ind (Some demo_alloc) demo_b true with Ok (_, Some q) => drop 28 (packet_of q) | _ => [] end.
Definition demo_received : vlib_buffer_t := demo_buffer 0 demo_sent demo_sent.

Lemma error_indication_roundtrip_witness :
  parse_error_ind demo_received = Ok (Some (mk_error_ind 17 (to_ip46 false [10; 0; 0; 9]) 0x868)).
Proof.
  assert (gpdu_in demo_b true demo_ip4 [0x08; 0x68; 0x08; 0x68] [0; 0; 0; 17]) as Hb.
  { split; try done. exists (replicate 128 0), [0; 40; 0; 0], [0x30; 0xff; 0; 24], (demo_inner ++ replicate 128 238). done. }
  destruct (error_indication_roundtrip demo_b demo_alloc demo_received true demo_ip4 [0x08; 0x68; 0x08; 0x68] [0; 0; 0; 17] 0
    (replicate 128 0) (replicate 58 238) Hb) as (q & Hq & _ & Hr); [done| |done|].
  - split; [|done]. by exists (replicate 70 238).
  - vm_compute in Hq. injection Hq as <-. apply Hr. exists (replicate 128 0), (replicate 128 238).
    repeat split; try (vm_compute; done).
Defined.

Lemma error_ind_terminates_witness : parse_error_ind demo_received <> Fault NoFuel /\ is_Some (demo_sent !! 0%nat).
Proof.
  split; [|by vm_compute; eexists]. apply error_ind_terminates. apply bytes_check. vm_compute. reflexivity.
Defined.
End Demo.
