(* ===== verification/GtpuDecap.v ===== *)
(** * GTP-U input

    upf_gtpu_input of src/upf/upf_gtpu_decap.c: a frame of packets, each at its
    GTP-U header. Signalling messages go to their nodes; a G-PDU is looked up in
    the tunnel table, with a cache of the last key of the frame, its header is
    measured, and it goes on to the session's packet processing. *)

From Stdlib Require Import ZArith Lia.
From stdpp Require Import base list list_numbers option numbers decidable gmap.
From S2P Require Import Prelude PfcpIo PfcpIe PfcpLeaf PfcpCodec UpfTypes UpfVec UpfRules UpfAssoc UpfTeid UpfMain UpfSession ApiRules GtpuBuf GtpuError.
#[local] Open Scope upf_scope.

Inductive gtpu_input_next_t :=
| UPF_GTPU_INPUT_NEXT_DROP
| UPF_GTPU_INPUT_NEXT_IP4_FLOW_PROCESS
| UPF_GTPU_INPUT_NEXT_IP6_FLOW_PROCESS
| UPF_GTPU_INPUT_NEXT_IP4_PROCESS
| UPF_GTPU_INPUT_NEXT_IP6_PROCESS
| UPF_GTPU_INPUT_NEXT_ERROR_INDICATION
| UPF_GTPU_INPUT_NEXT_ECHO_REQUEST.
#[export] Instance gtpu_input_next_eq_dec : EqDecision gtpu_input_next_t.
Proof. solve_decision. Defined.

(** the next node of an echo message, and the error, 0 for none *)
Definition upf_gtpu_signalling_msg (ver_flags type : Z) : gtpu_input_next_t * Z :=
  if Z.land ver_flags GTPU_S_BIT =? 0 then (UPF_GTPU_INPUT_NEXT_DROP, UPF_GTPU_ERROR_NO_ECHO_REQUEST_SEQ)
  else if type =? GTPU_TYPE_ECHO_REQUEST then (UPF_GTPU_INPUT_NEXT_ECHO_REQUEST, 0)
  else (UPF_GTPU_INPUT_NEXT_DROP, 0).

(** last_key4 or last_key6, last_session_index and last_rule_index *)
Record tunnel_cache := mk_cache { tc_key : list Z; tc_session : Z; tc_rule : Z }.
Definition cache_start (is_ip4 : bool) : tunnel_cache := mk_cache (replicate (if is_ip4 then 8 else 24)%nat 255) u32_none u32_none.

(** the key of a packet: of IPv6, the TEID fills a u64 *)
Definition packet_key (is_ip4 : bool) (dst : list Z) (teid : Z) : list Z :=
  tunnel_key dst teid ++ (if is_ip4 then [] else [0; 0; 0; 0]).

(** the loop over the extension headers, from the octet with the type of the
    first: the length of the header, unless one has the length 0 *)
Fixpoint ext_hdr_walk (fuel : nat) (m : list Z) (last ext gtpu_hdr_len : Z) : outcome (option Z) :=
  if last <=? ext then Ok (Some gtpu_hdr_len)
  else match fuel with
  | O => Fault NoFuel
  | S fuel =>
      let* type := mem_u8 m ext in
      if type =? 0 then Ok (Some gtpu_hdr_len)
      else
        let* len := mem_u8 m (ext + 1) in
        if len =? 0 then Ok None
        else ext_hdr_walk fuel m last (ext + len * 4) (wrap 32 (gtpu_hdr_len + len * 4))
  end.

Section Input.
Context {P : VppPacket} {N : VppNet}.

(** the session and the rule of a key, from the cache or the table *)
Definition lookup_tunnel (u : upf_main_t) (is_ip4 : bool) (c : tunnel_cache) (dst : list Z) (teid : Z)
  : option (Z * Z * tunnel_cache) :=
  let key := packet_key is_ip4 dst teid in
  if bool_decide (key = tc_key c) then Some (tc_session c, tc_rule c, c)
  else match tunnel_table u is_ip4 !! tunnel_key dst teid with
  | None => None
  | Some v => let si := value_session v in let rule := value_rule v in Some (si, rule, mk_cache key si rule)
  end.

(** fuel: a header has four octets at least, and the walk stays in the packet *)
Definition gtpu_hdr_len (b : vlib_buffer_t) (gtpu ver_flags : Z) : outcome (option Z) :=
  if flag ver_flags GTPU_E_S_PN_BIT then
    if flag ver_flags GTPU_E_BIT
    then let last := vlib_buffer_get_tail b in
         ext_hdr_walk (Z.to_nat (vb_current_length b)) (vb_mem b) last (gtpu + o_next_ext_type) sizeof_gtpu_header
    else Ok (Some sizeof_gtpu_header)
  else Ok (Some (sizeof_gtpu_header - 4)).

(** a buffer that was at the GTP-U header is at the IP header *)
Definition input_prepare (is_ip4 : bool) (b : vlib_buffer_t) : vlib_buffer_t :=
  vlib_buffer_advance (set_vb_l4_hdr_offset b (vb_current_data b)) (- (sizeof_udp_header + ip_hdr_len is_ip4)).

(** from next0 on: the metadata and the next node of a G-PDU of a session *)
Definition input_gpdu (u : upf_main_t) (is_ip4 : bool) (b : vlib_buffer_t) (gtpu ver_flags teid si rule : Z)
  : outcome (gtpu_input_next_t * Z * vlib_buffer_t) :=
  let* t := get_session (um_assoc u) si in
  let* l := gtpu_hdr_len b gtpu ver_flags in
  match l with
  | None => Ok (UPF_GTPU_INPUT_NEXT_DROP, UPF_GTPU_ERROR_LENGTH_ERROR, b)
  | Some l =>
      let hdr_len := wrap 16 (ip_hdr_len is_ip4 + sizeof_udp_header + l) in
      let b := UPF_ENTER_SUBGRAPH b si is_ip4 in
      let pdr_idx := if flag (r_flags (pfcp_get_rules t PFCP_ACTIVE)) PFCP_CLASSIFY then u32_none else rule in
      let o := vb_opaque b in
      let b := set_vb_opaque b
        (mk_opaque teid (gtpu_session_index o) (wrap 16 (l - (sizeof_gtpu_header - 4))) hdr_len ver_flags (gtpu_flags o)
           (gtpu_is_reverse o) (gtpu_is_proxied o) pdr_idx u32_none) in
      if vlib_buffer_length_in_chain b <=? hdr_len + 20
      then Ok (UPF_GTPU_INPUT_NEXT_DROP, UPF_GTPU_ERROR_LENGTH_ERROR, b)
      else
        let* v := mem_u8 (vb_mem b) (vlib_buffer_get_current b + hdr_len) in
        Ok (if Z.land v 0xf0 =? 0x40
            then if pdr_idx =? u32_none then UPF_GTPU_INPUT_NEXT_IP4_FLOW_PROCESS else UPF_GTPU_INPUT_NEXT_IP4_PROCESS
            else if pdr_idx =? u32_none then UPF_GTPU_INPUT_NEXT_IP6_FLOW_PROCESS else UPF_GTPU_INPUT_NEXT_IP6_PROCESS,
            0, b)
  end.

(** what comes of a packet: its next node, itself, and the error indication *)
Record input_result := mk_input { in_next : gtpu_input_next_t; in_buffer : vlib_buffer_t; in_sent : option vlib_buffer_t }.

(** trace0: the error of the packet *)
Definition input_trace (next : gtpu_input_next_t) (error : Z) (b : vlib_buffer_t) (sent : option vlib_buffer_t) : input_result :=
  mk_input next (set_vb_error b (if error =? 0 then None else Some error)) sent.

(** a packet after [input_prepare]; [alloc] is the buffer vlib_buffer_alloc would give *)
Definition input_process (u : upf_main_t) (is_ip4 : bool) (c : tunnel_cache) (alloc : option vlib_buffer_t) (b : vlib_buffer_t)
  : outcome (tunnel_cache * input_result) :=
  let ip := vlib_buffer_get_current b in
  let gtpu := ip + ip_hdr_len is_ip4 + sizeof_udp_header in
  let* ver_flags := mem_u8 (vb_mem b) (gtpu + o_ver_flags) in
  let* type := mem_u8 (vb_mem b) (gtpu + o_type) in
  if negb (Z.land ver_flags GTPU_VER_MASK =? GTPU_V1_VER)
  then Ok (c, input_trace UPF_GTPU_INPUT_NEXT_DROP UPF_GTPU_ERROR_BAD_VER b None)
  else if negb (type =? GTPU_TYPE_GTPU) then
    if type =? GTPU_TYPE_ERROR_IND
    then Ok (c, input_trace UPF_GTPU_INPUT_NEXT_ERROR_INDICATION 0 (UPF_ENTER_SUBGRAPH b u32_none is_ip4) None)
    else if (type =? GTPU_TYPE_ECHO_REQUEST) || (type =? GTPU_TYPE_ECHO_RESPONSE)
    then let '(next, error) := upf_gtpu_signalling_msg ver_flags type in
         Ok (c, input_trace next error (UPF_ENTER_SUBGRAPH b u32_none is_ip4) None)
    else Ok (c, input_trace UPF_GTPU_INPUT_NEXT_DROP 0 b None)
  else
    let* h := mem_load (vb_mem b) ip (ip_hdr_len is_ip4) in
    let* t := mem_load (vb_mem b) (gtpu + o_teid) 4 in
    let teid := de_be t in
    match lookup_tunnel u is_ip4 c (dst_address is_ip4 h) teid with
    | None =>
        let* (b, sent) := upf_gtpu_error_ind alloc b is_ip4 in
        Ok (c, input_trace UPF_GTPU_INPUT_NEXT_DROP UPF_GTPU_ERROR_NO_SUCH_TUNNEL b sent)
    | Some (si, rule, c) =>
        let* (next, error, b) := input_gpdu u is_ip4 b gtpu ver_flags teid si rule in
        Ok (c, input_trace next error b None)
    end.

(** ** Frames *)

Definition packet_in : Type := option vlib_buffer_t * vlib_buffer_t.

(** an iteration of the single loop, and one of the dual loop *)
Definition input_single (u : upf_main_t) (is_ip4 : bool) (c : tunnel_cache) (p : packet_in)
  : outcome (tunnel_cache * input_result) :=
  input_process u is_ip4 c (fst p) (input_prepare is_ip4 (snd p)).
Definition input_dual (u : upf_main_t) (is_ip4 : bool) (c : tunnel_cache) (p0 p1 : packet_in)
  : outcome (tunnel_cache * input_result * input_result) :=
  let b0 := input_prepare is_ip4 (snd p0) in
  let b1 := input_prepare is_ip4 (snd p1) in
  let* (c, r0) := input_process u is_ip4 c (fst p0) b0 in
  let* (c, r1) := input_process u is_ip4 c (fst p1) b1 in
  Ok (c, r0, r1).

(** the loops of a frame; [space n] says whether the frame of the next node has
    room for two packets when [n] packets are left *)
Fixpoint upf_gtpu_input_loop (space : nat -> bool) (u : upf_main_t) (is_ip4 : bool) (c : tunnel_cache) (frame : list packet_in)
  : outcome (list input_result) :=
  match frame with
  | [] => Ok []
  | p0 :: rest =>
      match rest with
      | p1 :: rest2 =>
          if (4 <=? length frame)%nat && space (length frame) then
            let* (c, r0, r1) := input_dual u is_ip4 c p0 p1 in
            let* l := upf_gtpu_input_loop space u is_ip4 c rest2 in Ok (r0 :: r1 :: l)
          else
            let* (c, r0) := input_single u is_ip4 c p0 in
            let* l := upf_gtpu_input_loop space u is_ip4 c rest in Ok (r0 :: l)
      | [] => let* (c, r0) := input_single u is_ip4 c p0 in Ok [r0]
      end
  end.
Definition upf_gtpu_input (space : nat -> bool) (u : upf_main_t) (is_ip4 : bool) (frame : list packet_in)
  : outcome (list input_result) := upf_gtpu_input_loop space u is_ip4 (cache_start is_ip4) frame.

(** pkts_decapsulated *)
Definition decapsulated (l : list input_result) : nat :=
  length (filter (fun r => in_next r ∈ [UPF_GTPU_INPUT_NEXT_IP4_FLOW_PROCESS; UPF_GTPU_INPUT_NEXT_IP6_FLOW_PROCESS;
    UPF_GTPU_INPUT_NEXT_IP4_PROCESS; UPF_GTPU_INPUT_NEXT_IP6_PROCESS]) l).
End Input.

(** ** The cache of a frame *)

Section Cache.
Context {P : VppPacket} {N : VppNet}.

(** a packet by itself, without a cache *)
Definition input_alone (u : upf_main_t) (is_ip4 : bool) (p : packet_in) : outcome input_result :=
  let* (_, r) := input_single u is_ip4 (cache_start is_ip4) p in Ok r.

Fixpoint each {A B} (f : A -> outcome B) (l : list A) : outcome (list B) :=
  match l with
  | [] => Ok []
  | a :: l => let* b := f a in let* k := each f l in Ok (b :: k)
  end.

Lemma each_app {A B} (f : A -> outcome B) l1 l2 k : each f (l1 ++ l2) = Ok k ->
  exists k1 k2, each f l1 = Ok k1 /\ each f l2 = Ok k2 /\ k = k1 ++ k2.
Proof.
  revert k. induction l1 as [|a l1 IH]; intros k; cbn [each app]; [intros E; by exists [], k|].
  destruct (f a) as [x| |]; [|done..]. cbn [obind]. destruct (each f (l1 ++ l2)) as [k'| |]; [|done..]. cbn [obind]. intros [= <-].
  destruct (IH k' eq_refl) as (k1 & k2 & -> & E2 & ->). by exists (x :: k1), k2.
Qed.

(** the key of a packet is the one the cache starts with *)
Definition has_start_key (is_ip4 : bool) (b : vlib_buffer_t) : bool :=
  let b := input_prepare is_ip4 b in
  let ip := vlib_buffer_get_current b in
  match mem_load (vb_mem b) ip (ip_hdr_len is_ip4),
        mem_load (vb_mem b) (ip + ip_hdr_len is_ip4 + sizeof_udp_header + o_teid) 4 with
  | Ok h, Ok t => bool_decide (packet_key is_ip4 (dst_address is_ip4 h) (de_be t) = tc_key (cache_start is_ip4))
  | _, _ => false
  end.

(** the cache holds what the table holds *)
Definition cache_ok (u : upf_main_t) (is_ip4 : bool) (c : tunnel_cache) : Prop :=
  c = cache_start is_ip4 \/
  exists dst teid v, tc_key c = packet_key is_ip4 dst teid /\ tunnel_table u is_ip4 !! tunnel_key dst teid = Some v
    /\ tc_session c = value_session v /\ tc_rule c = value_rule v.

Lemma packet_key_inj is_ip4 dst teid dst' teid' :
  packet_key is_ip4 dst teid = packet_key is_ip4 dst' teid' -> tunnel_key dst teid = tunnel_key dst' teid'.
Proof. unfold packet_key. apply app_inj_2. done. Qed.

(** of IPv6, no key is the one the cache starts with *)
Lemma ip6_start_key b : has_start_key false b = false.
Proof.
  unfold has_start_key. cbv zeta. destruct (mem_load _ _ _) as [h| |]; [|done..]. destruct (mem_load _ _ 4) as [t| |]; [|done..].
  apply bool_decide_eq_false_2. intros E. unfold packet_key in E. apply (f_equal reverse) in E.
  rewrite reverse_app in E. by inversion E.
Qed.

Lemma lookup_cache u is_ip4 c dst teid :
  cache_ok u is_ip4 c -> packet_key is_ip4 dst teid <> tc_key (cache_start is_ip4) ->
  match lookup_tunnel u is_ip4 c dst teid with
  | Some (si, rule, c') => cache_ok u is_ip4 c' /\ exists c'', lookup_tunnel u is_ip4 (cache_start is_ip4) dst teid = Some (si, rule, c'')
  | None => lookup_tunnel u is_ip4 (cache_start is_ip4) dst teid = None
  end.
Proof.
  intros Hc Hk. unfold lookup_tunnel. rewrite (bool_decide_eq_false_2 (_ = tc_key (cache_start is_ip4))) by done.
  case_bool_decide as E.
  - split; [done|]. destruct Hc as [->|(dst' & teid' & v & Hk' & Hv & -> & ->)]; [done|].
    rewrite (packet_key_inj is_ip4 dst teid dst' teid') by congruence. rewrite Hv. eauto.
  - destruct (tunnel_table u is_ip4 !! tunnel_key dst teid) as [v|] eqn:Ev; [|done]. split; [|eauto].
    right. exists dst, teid, v. auto.
Qed.

Lemma input_process_cache u is_ip4 c p :
  cache_ok u is_ip4 c -> has_start_key is_ip4 (snd p) = false ->
  match input_single u is_ip4 c p with
  | Ok (c', r) => cache_ok u is_ip4 c' /\ input_alone u is_ip4 p = Ok r
  | Err e => input_alone u is_ip4 p = Err e
  | Fault f => input_alone u is_ip4 p = Fault f
  end.
Proof.
  intros Hc Hk. unfold input_alone, input_single, input_process. unfold has_start_key in Hk. cbv zeta in *.
  set (b := input_prepare is_ip4 (snd p)) in *.
  destruct (mem_u8 _ (_ + o_ver_flags)) as [ver_flags| |]; cbn [obind]; [|done..].
  destruct (mem_u8 _ (_ + o_type)) as [type| |]; cbn [obind]; [|done..].
  destruct (negb (Z.land ver_flags GTPU_VER_MASK =? _)); [done|]. destruct (negb (type =? GTPU_TYPE_GTPU)).
  { destruct (type =? GTPU_TYPE_ERROR_IND); [done|]. destruct (_ || _); [|done]. by destruct (upf_gtpu_signalling_msg ver_flags type). }
  destruct (mem_load _ _ (ip_hdr_len is_ip4)) as [h| |]; cbn [obind]; [|done..].
  destruct (mem_load _ _ 4) as [t| |]; cbn [obind]; [|done..]. apply bool_decide_eq_false in Hk.
  pose proof (lookup_cache u is_ip4 c (dst_address is_ip4 h) (de_be t) Hc Hk) as Hl.
  destruct (lookup_tunnel u is_ip4 c _ _) as [[[si rule] c']|].
  - destruct Hl as [Hc' [c'' ->]]. by destruct (input_gpdu _ _ _ _ _ _ _ _) as [[[next error] b']| |].
  - rewrite Hl. by destruct (upf_gtpu_error_ind _ _ _) as [[b' sent]| |].
Qed.

(** one packet, then the rest of the frame *)
Lemma input_loop_step u is_ip4 c p (k : tunnel_cache -> outcome (list input_result)) (j : outcome (list input_result)) :
  cache_ok u is_ip4 c -> has_start_key is_ip4 (snd p) = false -> (forall c', cache_ok u is_ip4 c' -> k c' = j) ->
  (let* (c, r) := input_single u is_ip4 c p in let* l := k c in Ok (r :: l))
  = (let* r := input_alone u is_ip4 p in let* l := j in Ok (r :: l)).
Proof.
  intros Hc Hk Hj. pose proof (input_process_cache u is_ip4 c p Hc Hk) as H.
  destruct (input_single u is_ip4 c p) as [[c' r]|e|f]; [destruct H as [Hc' ->]|by rewrite H|by rewrite H].
  cbn [obind]. by rewrite Hj.
Qed.

Lemma input_loop_each space u is_ip4 n : forall c frame, (length frame <= n)%nat ->
  cache_ok u is_ip4 c -> Forall (fun p => has_start_key is_ip4 (snd p) = false) frame ->
  upf_gtpu_input_loop space u is_ip4 c frame = each (input_alone u is_ip4) frame.
Proof.
  induction n as [|n IH]; intros c [|p0 [|p1 rest]] Hn Hc Hf; try done; try (simpl in Hn; lia).
  - apply Forall_cons in Hf as [H0 _]. pose proof (input_loop_step u is_ip4 c p0 (fun _ => Ok []) (Ok []) Hc H0 ltac:(done)) as E.
    simpl in *. rewrite <- E. by destruct (input_single _ _ _ _) as [[? ?]| |].
  - apply Forall_cons in Hf as [H0 Hf]. cbn [upf_gtpu_input_loop each]. destruct (_ && _).
    + apply Forall_cons in Hf as [H1 Hf]. cbn [each].
      rewrite <- (input_loop_step u is_ip4 c p0 (fun c => let* (c, r) := input_single u is_ip4 c p1 in let* l := upf_gtpu_input_loop space u is_ip4 c rest in Ok (r :: l))); [|done|done|].
      * unfold input_dual, input_single. destruct (input_process _ _ c _ _) as [[c' r0]| |]; [|done..]. cbn [obind].
        destruct (input_process _ _ c' _ _) as [[c'' r1]| |]; [|done..]. cbn [obind]. by destruct (upf_gtpu_input_loop _ _ _ _ _).
      * intros c' Hc'. apply input_loop_step; [done|done|]. intros c'' Hc''. apply IH; [simpl in Hn; lia|done|done].
    + apply (input_loop_step u is_ip4 c p0 (fun c => upf_gtpu_input_loop space u is_ip4 c (p1 :: rest))); [done|done|].
      intros c' Hc'. apply IH; [simpl in *; lia|done|done].
Qed.

(** C19. The frame loop of upf_gtpu_input does to every packet what it would do
    to the packet alone: neither the pairs the dual loop takes, which depend on
    the room of the next frame, nor the last tunnel kept between packets make a
    difference, unless an IPv4 packet has the key the cache starts with, the
    destination 255.255.255.255 and the TEID 0xffffffff. *)
Theorem input_frame_each space (u : upf_main_t) is_ip4 (frame : list packet_in) :
  (is_ip4 = true -> Forall (fun p => has_start_key is_ip4 (snd p) = false) frame) ->
  upf_gtpu_input space u is_ip4 frame = each (input_alone u is_ip4) frame.
Proof.
  intros Hf. unfold upf_gtpu_input. apply (input_loop_each space u is_ip4 (length frame)); [done|by left|].
  destruct is_ip4; [by apply Hf|]. apply Forall_true. intros p. apply ip6_start_key.
Qed.
End Cache.

(** ** The octets of a G-PDU *)

(** an extension header: its type and content, whose length is 2 modulo 4 *)
Definition ext_hdr : Type := Z * list Z.
Definition ext_hdr_wf (x : ext_hdr) : Prop := fst x <> 0 /\ exists k, 1 <= k /\ Zlen (snd x) = 4 * k - 2.
Definition ext_hdr_octets (x : ext_hdr) : list Z := fst x :: (Zlen (snd x) + 2) / 4 :: snd x.
(** from the type of the first to the type 0 after the last *)
Definition ext_octets (exts : list ext_hdr) : list Z := concat (ext_hdr_octets <$> exts) ++ [0].

(** what follows the TEID: nothing, or the sequence number and the N-PDU number,
    then an octet without meaning or the extension headers *)
Inductive gtpu_opt := NoOpt | SeqOpt (s : list Z) (x : Z) | ExtOpt (s : list Z) (exts : list ext_hdr).
Definition opt_octets (o : gtpu_opt) : list Z :=
  match o with NoOpt => [] | SeqOpt s x => s ++ [x] | ExtOpt s exts => s ++ ext_octets exts end.
Definition opt_wf (ver_flags : Z) (o : gtpu_opt) : Prop :=
  match o with
  | NoOpt => flag ver_flags GTPU_E_S_PN_BIT = false
  | SeqOpt s _ => flag ver_flags GTPU_E_S_PN_BIT = true /\ flag ver_flags GTPU_E_BIT = false /\ length s = 3%nat
  | ExtOpt s exts => flag ver_flags GTPU_E_BIT = true /\ length s = 3%nat /\ Forall ext_hdr_wf exts
  end.
Definition gpdu_octets (ver_flags : Z) (len teid : list Z) (o : gtpu_opt) (payload : list Z) : list Z :=
  [ver_flags; GTPU_TYPE_GTPU] ++ len ++ teid ++ opt_octets o ++ payload.

Lemma ext_octets_length exts : (length exts < length (ext_octets exts))%nat.
Proof.
  unfold ext_octets. rewrite length_app. simpl. induction exts as [|x exts IH]; [simpl; lia|].
  rewrite fmap_cons, concat_cons, length_app. unfold ext_hdr_octets at 1. simpl length. lia.
Qed.

Lemma ext_hdr_walk_octets (exts : list ext_hdr) : forall fuel (l r : list Z) last len,
  Forall ext_hdr_wf exts -> (length exts < fuel)%nat -> Zlen l + Zlen (ext_octets exts) <= last ->
  0 <= len -> len + Zlen (ext_octets exts) < 2 ^ 32 ->
  ext_hdr_walk fuel (l ++ ext_octets exts ++ r) last (Zlen l) len = Ok (Some (len + Zlen (ext_octets exts) - 1)).
Proof.
  induction exts as [|[t c] exts IH]; intros [|fuel] l r last len Hwf Hf Hl H0 Hmax; try (simpl in Hf; lia); cbn [ext_hdr_walk].
  - change (Zlen (ext_octets [])) with 1 in *. not_le last (Zlen l). change (ext_octets [] ++ r) with (0 :: r).
    rewrite (mem_u8_at l (0 :: r) _ 0) by zlen. cbn [obind]. simpl. do 2 f_equal. lia.
  - apply Forall_cons in Hwf as [[Ht (k & Hk & Hc)] Hwf]. simpl in Ht, Hc.
    assert (ext_octets (@cons ext_hdr (t, c) exts) = (t :: k :: c) ++ ext_octets exts) as Eo.
    { unfold ext_octets. rewrite fmap_cons, concat_cons, <- app_assoc. f_equal. unfold ext_hdr_octets. cbn [fst snd]. rewrite Hc.
      replace (4 * k - 2 + 2) with (k * 4) by lia. by rewrite Z.div_mul by lia. }
    rewrite Eo in *. rewrite Zlen_app in *. rewrite !Zlen_cons in *. pose proof (Zlen_nonneg (ext_octets exts)). pose proof (Zlen_nonneg r).
    not_le last (Zlen l). rewrite <- app_assoc.
    rewrite (mem_u8_at l _ _ 0) by (rewrite ?Zlen_app, ?Zlen_cons; lia). cbn [obind]. change (nth (Z.to_nat 0) _ 0) with t.
    destruct (Z.eqb_spec t 0); [done|].
    rewrite (mem_u8_at l _ _ 1) by (rewrite ?Zlen_app, ?Zlen_cons; lia). cbn [obind]. change (nth (Z.to_nat 1) _ 0) with k.
    destruct (Z.eqb_spec k 0); [lia|]. rewrite (wrap_small 32) by (apply in_range_spec; lia).
    replace (Zlen l + k * 4) with (Zlen (l ++ t :: k :: c)) by (rewrite Zlen_app, !Zlen_cons; lia).
    rewrite app_assoc, IH; [do 2 f_equal; lia|done|simpl in Hf; lia|rewrite Zlen_app, !Zlen_cons; lia|lia|lia].
Qed.

Section Deliver.
Context {P : VppPacket} {N : VppNet}.

(** a G-PDU in a buffer that is at its GTP-U header *)
Record gpdu_received (b : vlib_buffer_t) (is_ip4 : bool) (h udp : list Z) (ver_flags : Z) (len teid : list Z) (o : gtpu_opt) (payload : list Z)
  : Prop := {
  gr_mem : exists l r, vb_mem b = l ++ h ++ udp ++ gpdu_octets ver_flags len teid o payload ++ r
    /\ Zlen l + ip_hdr_len is_ip4 + 8 = vlib_buffer_get_current b;
  gr_h : Zlen h = ip_hdr_len is_ip4;
  gr_udp : length udp = 8%nat;
  gr_version : Z.land ver_flags GTPU_VER_MASK = GTPU_V1_VER;
  gr_len : length len = 2%nat;
  gr_teid : length teid = 4%nat;
  gr_opt : opt_wf ver_flags o;
  gr_window : vb_current_length b = Zlen (gpdu_octets ver_flags len teid o payload) /\ vb_current_length b < 65000 /\ vb_chain b = 0
}.

(** the metadata of a packet of session [si] *)
Definition gpdu_opaque (is_ip4 : bool) (ver_flags : Z) (teid : list Z) (o : gtpu_opt) (si pdr_idx : Z) : upf_buffer_opaque_t :=
  mk_opaque (de_be teid) si (Zlen (opt_octets o)) (ip_hdr_len is_ip4 + 16 + Zlen (opt_octets o)) ver_flags
    (if is_ip4 then BUFFER_GTP_UDP_IP4 else BUFFER_GTP_UDP_IP6) false false pdr_idx u32_none.

(** the node a packet goes to, by the version of the inner header and the rule *)
Definition gpdu_next (payload : list Z) (pdr_idx : Z) : gtpu_input_next_t :=
  if Z.land (nth 0 payload 0) 0xf0 =? 0x40
  then if pdr_idx =? u32_none then UPF_GTPU_INPUT_NEXT_IP4_FLOW_PROCESS else UPF_GTPU_INPUT_NEXT_IP4_PROCESS
  else if pdr_idx =? u32_none then UPF_GTPU_INPUT_NEXT_IP6_FLOW_PROCESS else UPF_GTPU_INPUT_NEXT_IP6_PROCESS.
Definition gpdu_pdr (t : upf_session_t) (rule : Z) : Z :=
  if flag (r_flags (pfcp_get_rules t PFCP_ACTIVE)) PFCP_CLASSIFY then u32_none else rule.

(** the length of the GTP-U header of a G-PDU *)
Lemma gtpu_hdr_len_octets (b : vlib_buffer_t) (l r : list Z) ver_flags len teid o payload :
  vb_mem b = l ++ gpdu_octets ver_flags len teid o payload ++ r -> opt_wf ver_flags o -> length len = 2%nat -> length teid = 4%nat ->
  vlib_buffer_get_tail b = Zlen l + Zlen (gpdu_octets ver_flags len teid o payload) -> Zlen (gpdu_octets ver_flags len teid o payload) <= vb_current_length b ->
  vb_current_length b < 65536 ->
  gtpu_hdr_len b (Zlen l) ver_flags = Ok (Some (8 + Zlen (opt_octets o))).
Proof.
  intros Hm Hwf Hlen Hteid Htail Hin Hmax. unfold gtpu_hdr_len, gpdu_octets in *. rewrite !Zlen_app in *.
  pose proof (Zlen_nonneg payload). change (Zlen [_; _]) with 2 in *.
  assert (Zlen len = 2) as Hlen' by (unfold Zlen; lia). assert (Zlen teid = 4) as Hteid' by (unfold Zlen; lia).
  destruct o as [|s x|s exts]; simpl in Hwf; [by rewrite Hwf|destruct Hwf as (-> & -> & Hs)|destruct Hwf as (HE & Hs & Hwf)].
  - cbn [opt_octets]. rewrite Zlen_app. unfold Zlen. rewrite Hs. reflexivity.
  - assert (flag ver_flags GTPU_E_S_PN_BIT = true) as ->.
    { change GTPU_E_S_PN_BIT with (Z.lor GTPU_E_BIT 3). by rewrite flag_lor, HE. }
    rewrite HE. cbn [opt_octets] in *. rewrite Zlen_app in *. assert (Zlen s = 3) as Hs' by (unfold Zlen; lia).
    pose proof (ext_octets_length exts). pose proof (Zlen_nonneg (ext_octets exts)).
    rewrite Hm. replace (l ++ ([ver_flags; GTPU_TYPE_GTPU] ++ len ++ teid ++ (s ++ ext_octets exts) ++ payload) ++ r)
      with ((l ++ [ver_flags; GTPU_TYPE_GTPU] ++ len ++ teid ++ s) ++ ext_octets exts ++ payload ++ r) by app_eq.
    set (l1 := l ++ [ver_flags; GTPU_TYPE_GTPU] ++ len ++ teid ++ s).
    assert (Zlen l1 = Zlen l + 11) as Hl1 by (unfold l1; rewrite !Zlen_app; change (Zlen [_; _]) with 2; lia).
    replace (Zlen l + o_next_ext_type) with (Zlen l1) by (unfold o_next_ext_type; lia).
    rewrite ext_hdr_walk_octets; [|done|unfold Zlen in *; lia|lia|done|unfold sizeof_gtpu_header; lia].
    do 2 f_equal. unfold sizeof_gtpu_header. lia.
Qed.

Lemma input_prepare_window is_ip4 b :
  0 <= vb_current_length b < 65000 ->
  vlib_buffer_get_current (input_prepare is_ip4 b) = vlib_buffer_get_current b - ip_hdr_len is_ip4 - 8
  /\ vb_current_length (input_prepare is_ip4 b) = vb_current_length b + ip_hdr_len is_ip4 + 8.
Proof.
  intros H. unfold input_prepare, sizeof_udp_header. rewrite adv_current. assert (0 <= ip_hdr_len is_ip4 <= 40) by (by destruct is_ip4).
  rewrite adv_length; simpl; unfold vlib_buffer_get_current; simpl; lia.
Qed.

Lemma gpdu_octets_length ver_flags len teid o payload : length len = 2%nat -> length teid = 4%nat ->
  Zlen (gpdu_octets ver_flags len teid o payload) = 8 + Zlen (opt_octets o) + Zlen payload.
Proof.
  intros Hlen Hteid. unfold gpdu_octets. rewrite !Zlen_app. change (Zlen [_; _]) with 2.
  assert (Zlen len = 2) as -> by (unfold Zlen; lia). assert (Zlen teid = 4) as -> by (unfold Zlen; lia). lia.
Qed.

(** the metadata and the next node of a G-PDU of a session *)
Lemma input_gpdu_octets (u : upf_main_t) is_ip4 b (l r : list Z) ver_flags len teid o payload si rule t :
  let g := gpdu_octets ver_flags len teid o payload in
  vb_mem b = l ++ g ++ r -> vlib_buffer_get_current b + ip_hdr_len is_ip4 + 8 = Zlen l ->
  vb_current_length b = ip_hdr_len is_ip4 + 8 + Zlen g -> vb_current_length b < 65536 -> vb_chain b = 0 ->
  opt_wf ver_flags o -> length len = 2%nat -> length teid = 4%nat -> get_session (um_assoc u) si = Ok t -> 20 < Zlen payload ->
  input_gpdu u is_ip4 b (Zlen l) ver_flags (de_be teid) si rule
  = Ok (gpdu_next payload (gpdu_pdr t rule), 0, set_vb_opaque b (gpdu_opaque is_ip4 ver_flags teid o si (gpdu_pdr t rule))).
Proof.
  intros g Hm Hc Hlen Hmax Hch Ho L2 L4 Ht Hpay. assert (0 <= ip_hdr_len is_ip4 <= 40) as Hn by (by destruct is_ip4).
  pose proof (gpdu_octets_length ver_flags len teid o payload L2 L4) as Hg. fold g in Hg. pose proof (Zlen_nonneg (opt_octets o)).
  unfold input_gpdu. rewrite Ht. cbn [obind].
  rewrite (gtpu_hdr_len_octets b l r ver_flags len teid o payload) by (fold g; unfold vlib_buffer_get_tail; done || lia). cbn [obind]. cbv zeta.
  unfold sizeof_udp_header, sizeof_gtpu_header. rewrite !wrap_small by (apply in_range_spec; lia).
  set (off := ip_hdr_len is_ip4 + 8 + (8 + Zlen (opt_octets o))). fold (gpdu_pdr t rule).
  replace (8 + Zlen (opt_octets o) - (12 - 4)) with (Zlen (opt_octets o)) by lia.
  set (b1 := set_vb_opaque _ _).
  assert (b1 = set_vb_opaque b (gpdu_opaque is_ip4 ver_flags teid o si (gpdu_pdr t rule))) as Eb.
  { unfold b1, gpdu_opaque, UPF_ENTER_SUBGRAPH. simpl. by replace off with (ip_hdr_len is_ip4 + 16 + Zlen (opt_octets o)) by lia. }
  unfold vlib_buffer_length_in_chain. change (vb_chain b1) with (vb_chain b). change (vb_current_length b1) with (vb_current_length b).
  rewrite Hch. not_le (vb_current_length b + 0) (off + 20).
  change (vb_mem b1) with (vb_mem b). change (vlib_buffer_get_current b1) with (vlib_buffer_get_current b). rewrite Hm.
  rewrite (mem_u8_at l _ _ (8 + Zlen (opt_octets o))) by (rewrite ?Zlen_app; pose proof (Zlen_nonneg r); unfold off; lia).
  cbn [obind]. rewrite Eb. unfold gpdu_next. do 3 f_equal.
  replace (nth (Z.to_nat (8 + Zlen (opt_octets o))) (g ++ r) 0) with (nth 0 payload 0); [done|].
  destruct payload as [|x payload]; [by exfalso|]. unfold g, gpdu_octets.
  replace (([ver_flags; GTPU_TYPE_GTPU] ++ len ++ teid ++ opt_octets o ++ x :: payload) ++ r)
    with (([ver_flags; GTPU_TYPE_GTPU] ++ len ++ teid ++ opt_octets o) ++ x :: payload ++ r) by app_eq.
  rewrite app_nth2; rewrite !length_app, L2, L4; simpl length; unfold Zlen; [|lia].
  by replace (_ - _)%nat with 0%nat by lia.
Qed.

(** a G-PDU of a tunnel by itself *)
Lemma gpdu_alone (u : upf_main_t) is_ip4 alloc b h udp ver_flags len teid o payload v t :
  gpdu_received b is_ip4 h udp ver_flags len teid o payload -> 20 < Zlen payload ->
  tunnel_table u is_ip4 !! tunnel_key (dst_address is_ip4 h) (de_be teid) = Some v -> has_start_key is_ip4 b = false ->
  get_session (um_assoc u) (value_session v) = Ok t ->
  exists b', input_alone u is_ip4 (alloc, b) = Ok (mk_input (gpdu_next payload (gpdu_pdr t (value_rule v))) b' None)
    /\ vb_opaque b' = gpdu_opaque is_ip4 ver_flags teid o (value_session v) (gpdu_pdr t (value_rule v))
    /\ packet_of b' = h ++ udp ++ gpdu_octets ver_flags len teid o payload
    /\ drop (Z.to_nat (gtpu_data_offset (vb_opaque b'))) (packet_of b') = payload
    /\ vb_mem b' = vb_mem b /\ vb_chain b' = 0
    /\ vlib_buffer_get_current b' = vlib_buffer_get_current b - ip_hdr_len is_ip4 - 8
    /\ vb_current_length b' = vb_current_length b + ip_hdr_len is_ip4 + 8.
Proof.
  intros [(l & r & Hm & Hl) Hh Hudp Hv Hlen Hteid Ho (Hw & Hmax & Hch)] Hpay Hkey Hstart Ht.
  pose proof (gpdu_octets_length ver_flags len teid o payload Hlen Hteid) as Hg. pose proof (Zlen_nonneg (opt_octets o)). pose proof (Zlen_nonneg r).
  set (g := gpdu_octets ver_flags len teid o payload) in *. assert (0 <= ip_hdr_len is_ip4 <= 40) as Hn by (by destruct is_ip4).
  destruct (input_prepare_window is_ip4 b ltac:(lia)) as [Hc Hpl]. unfold input_alone, input_single, has_start_key in *. cbn [fst snd] in *.
  change (vb_mem b) with (vb_mem (input_prepare is_ip4 b)) in Hm |- *.
  assert (vb_chain (input_prepare is_ip4 b) = 0) as Hch1 by done.
  set (b1 := input_prepare is_ip4 b) in *. clearbody b1. cbv zeta in *.
  assert (vb_mem b1 = (l ++ h ++ udp) ++ g ++ r) as Hm1 by (rewrite Hm; app_eq).
  assert (Zlen (l ++ h ++ udp) = Zlen l + ip_hdr_len is_ip4 + 8) as Hl1 by (rewrite !Zlen_app; zlen).
  assert (vlib_buffer_get_current b1 = Zlen l) as Hc1 by lia.
  assert (mem_load (vb_mem b1) (Zlen l) (ip_hdr_len is_ip4) = Ok h) as Lh by (rewrite Hm; by apply mem_load_app).
  assert (mem_load (vb_mem b1) (Zlen l + ip_hdr_len is_ip4 + sizeof_udp_header + o_teid) 4 = Ok teid) as Lt.
  { rewrite Hm1. replace ((l ++ h ++ udp) ++ g ++ r) with (((l ++ h ++ udp) ++ [ver_flags; GTPU_TYPE_GTPU] ++ len) ++ teid ++ (opt_octets o ++ payload) ++ r)
      by (unfold g, gpdu_octets; app_eq).
    apply mem_load_app; [rewrite Zlen_app, Hl1; unfold sizeof_udp_header, o_teid|]; zlen. }
  unfold input_process. cbv zeta. rewrite Hc1 in *. rewrite Lh, Lt in Hstart. apply bool_decide_eq_false in Hstart.
  rewrite Lh, Lt. unfold sizeof_udp_header in *. rewrite <- Hl1. rewrite Hm1.
  rewrite (mem_u8_at (l ++ h ++ udp) _ _ 0) by (unfold o_ver_flags; rewrite ?Zlen_app; lia). cbn [obind].
  rewrite (mem_u8_at (l ++ h ++ udp) _ _ 1) by (unfold o_type; rewrite ?Zlen_app; lia). cbn [obind].
  change (nth (Z.to_nat 0) (g ++ r) 0) with ver_flags. change (nth (Z.to_nat 1) (g ++ r) 0) with GTPU_TYPE_GTPU.
  rewrite Hv, !Z.eqb_refl. cbn [negb]. unfold lookup_tunnel. rewrite bool_decide_eq_false_2 by done. rewrite Hkey. cbv zeta.
  rewrite (input_gpdu_octets u is_ip4 b1 (l ++ h ++ udp) r ver_flags len teid o payload _ _ t) by (done || (fold g; lia)). cbn [obind].
  eexists. split; [reflexivity|]. split; [done|].
  assert (packet_of (set_vb_error (set_vb_opaque b1 (gpdu_opaque is_ip4 ver_flags teid o (value_session v) (gpdu_pdr t (value_rule v)))) None) = h ++ udp ++ g) as Hp.
  { apply (packet_of_app _ l _ r); [rewrite <- !app_assoc; exact Hm|done|]. rewrite !Zlen_app. simpl. zlen. }
  change (if 0 =? 0 then None else Some 0) with (@None Z). split; [exact Hp|].
  split; [|split; [done|split; [done|split; [|exact Hpl]]]].
  2: { rewrite <- Hc. exact Hc1. }
  rewrite Hp.
  change (gtpu_data_offset _) with (ip_hdr_len is_ip4 + 16 + Zlen (opt_octets o)).
  replace (h ++ udp ++ g) with ((h ++ udp ++ [ver_flags; GTPU_TYPE_GTPU] ++ len ++ teid ++ opt_octets o) ++ payload) by (unfold g, gpdu_octets; app_eq).
  rewrite drop_app_ge by (rewrite !length_app, Hudp, Hlen, Hteid; unfold Zlen in *; simpl length; lia).
  replace (_ - _)%nat with 0%nat by (rewrite !length_app, Hudp, Hlen, Hteid; unfold Zlen in *; simpl length; lia). by rewrite drop_0.
Qed.
End Deliver.

(** ** The tunnels of a session *)

Definition rule_endp (r : Z * Z * Z) : gtpu4_endp_rule_t := let '(addr, teid, i) := r in mk_endp4 addr teid i.

Lemma add_endp_new l e : e4_key e ∉ e4_key <$> l -> add_endp e4_key dup4 l e = l ++ [e].
Proof.
  induction l as [|x l IH]; intros H; [done|]. rewrite fmap_cons, not_elem_of_cons in H. destruct H as [H1 H2].
  cbn [add_endp]. rewrite bool_decide_eq_false_2 by congruence. by rewrite IH.
Qed.

(** rules with different keys are collected as they are *)
Lemma v4_teids_nodup_elts rules : NoDup (v4_rule_key <$> rules) -> vec_elts (v4_teids rules) = rule_endp <$> rules.
Proof.
  induction rules as [|[[addr teid] i] rules IH] using rev_ind; [done|].
  rewrite fmap_app, NoDup_app. intros (Hn & Hd & _). rewrite v4_teids_snoc. cbv beta zeta iota.
  unfold rules_add_v4_teid. cbn [vec_elts]. rewrite add_endp_new.
  - by rewrite IH, fmap_app.
  - rewrite v4_teids_keys. intros Hin. apply (Hd _ Hin). apply list_elem_of_singleton. done.
Qed.

(** the rule index of an endpoint is one of a rule, or ~0 *)
Lemma v4_teids_index rules e : e ∈ vec_elts (v4_teids rules) -> e4_rule_index e = u32_none \/ exists r, r ∈ rules /\ e4_rule_index e = snd r.
Proof.
  revert e. induction rules as [|[[addr teid] i] rules IH] using rev_ind; intros e; [by intros ?%elem_of_nil|].
  rewrite v4_teids_snoc. cbv beta zeta iota. unfold rules_add_v4_teid. cbn [vec_elts].
  assert (forall l, (forall e, e ∈ l -> e4_rule_index e = u32_none \/ exists r, r ∈ rules ++ [(addr, teid, i)] /\ e4_rule_index e = snd r) ->
    e ∈ add_endp e4_key dup4 l (mk_endp4 addr teid i) -> e4_rule_index e = u32_none \/ exists r, r ∈ rules ++ [(addr, teid, i)] /\ e4_rule_index e = snd r) as H.
  { intros l. induction l as [|x l IHl]; intros Hl; cbn [add_endp].
    - intros ->%list_elem_of_singleton. right. exists (addr, teid, i). split; [|done]. apply elem_of_app. right. by apply list_elem_of_singleton.
    - case_bool_decide; rewrite elem_of_cons; intros [->|Hin].
      + by left.
      + apply Hl, elem_of_cons. by right.
      + apply Hl, elem_of_cons. by left.
      + apply IHl; [|done]. intros e' He'. apply Hl, elem_of_cons. by right. }
  apply H. intros e' [?|(r & Hr & ?)]%IH; [by left|right]. exists r. split; [|done]. apply elem_of_app. by left.
Qed.

Lemma nodup_key_inj (rules : list (Z * Z * Z)) r r' :
  NoDup (v4_rule_key <$> rules) -> r ∈ rules -> r' ∈ rules -> v4_rule_key r = v4_rule_key r' -> r = r'.
Proof.
  intros Hn [i Hi]%list_elem_of_lookup [j Hj]%list_elem_of_lookup Hk.
  assert (i = j) as ->; [|congruence]. eapply (NoDup_lookup _ _ _ (v4_rule_key r) Hn); rewrite list_lookup_fmap.
  - by rewrite Hi.
  - by rewrite Hj, Hk.
Qed.

Lemma e4_value_parts si e : 0 <= si < 2 ^ 32 -> 0 <= e4_rule_index e < 2 ^ 32 ->
  value_session (e4_value si e) = si /\ value_rule (e4_value si e) = e4_rule_index e.
Proof.
  intros Hs Hi. unfold e4_value. rewrite wrap_small.
  2: { apply in_range_spec. rewrite Z.shiftl_mul_pow2 by lia. split; [lia|]. change (2 ^ 64) with (2 ^ 32 * 2 ^ 32). nia. }
  unfold value_session, value_rule. change 0xffffffff with (Z.ones 32). rewrite Z.land_ones by lia.
  rewrite (lor_shiftl_add 32) by lia. split.
  - rewrite Z.add_comm, Z.mod_add by lia. apply Z.mod_small. lia.
  - rewrite Z.shiftr_div_pow2, Z.add_comm, Z.div_add by lia. rewrite Z.div_small by lia. lia.
Qed.

Section Tunnels.
Context {P : VppPacket} {N : VppNet} `{SOk : VecSortOk}.

(** the entry of a new rule of a session *)
Lemma registered_endp si tbl new old r :
  r ∈ new -> v4_rule_key r ∉ v4_rule_key <$> old ->
  exists e, e ∈ vec_elts (v4_teids new) /\ e4_key e = v4_rule_key r
    /\ update_v4_teids si tbl (v4_teids new) (v4_teids old) !! v4_rule_key r = Some (e4_value si e).
Proof using SOk.
  intros Hr Ho. rewrite update_v4_teids_lookup by apply v4_teids_nodup.
  pose proof (find_sorted_key new (v4_rule_key r)) as Hn. pose proof (find_sorted_key old (v4_rule_key r)) as Ho'.
  pose proof (list_elem_of_fmap_2 v4_rule_key _ _ Hr) as Hr'.
  destruct (find_key e4_key (v4_rule_key r) (vec_elts (vec_sort_with_function v4_teid_cmp <$> v4_teids old))); [done|].
  destruct (find_key e4_key (v4_rule_key r) (vec_elts (vec_sort_with_function v4_teid_cmp <$> v4_teids new))) as [e|] eqn:E; [|done].
  apply find_key_Some in E as [He Hk]. exists e. split; [|done].
  destruct (v4_teids new) as [l|]; [|by apply elem_of_nil in He]. simpl in *. by rewrite vec_sort_perm in He.
Qed.

(** C13. A G-PDU reaches the session that has its tunnel: once the tunnel table
    has been brought to the new rules of session [si], an IPv4 packet to a new
    endpoint of these rules is found to be of that session whatever came before
    it in the frame; the offset it is given is where its inner packet starts,
    past all extension headers; it goes to the node of the inner IP version,
    to the classifier if the rules need one, and otherwise with the index of
    the endpoint's rule, which is the rule itself if no other has its endpoint. *)
Theorem gpdu_reaches_session (u : upf_main_t) (t : upf_session_t) si tbl new old addr tnum i alloc b h udp ver_flags len teid o payload :
  um_v4_tunnel u = update_v4_teids si tbl (v4_teids new) (v4_teids old) ->
  (addr, tnum, i) ∈ new -> v4_rule_key (addr, tnum, i) ∉ v4_rule_key <$> old -> Forall (fun r => 0 <= snd r < 2 ^ 32) new ->
  0 <= si < 2 ^ 32 -> get_session (um_assoc u) si = Ok t ->
  gpdu_received b true h udp ver_flags len teid o payload -> dst_address true h = le 4 addr -> de_be teid = tnum ->
  has_start_key true b = false -> 20 < Zlen payload ->
  exists rule b', input_alone u true (alloc, b) = Ok (mk_input (gpdu_next payload (gpdu_pdr t rule)) b' None)
    /\ vb_opaque b' = gpdu_opaque true ver_flags teid o si (gpdu_pdr t rule)
    /\ drop (Z.to_nat (gtpu_data_offset (vb_opaque b'))) (packet_of b') = payload
    /\ (NoDup (v4_rule_key <$> new) -> rule = i).
Proof using SOk.
  intros Hu Hr Ho Hi Hsi Ht Hb Hdst Hteid Hk Hpay.
  destruct (registered_endp si tbl new old _ Hr Ho) as (e & He & Hek & Hv). rewrite <- Hu in Hv.
  assert (0 <= e4_rule_index e < 2 ^ 32) as Hidx.
  { destruct (v4_teids_index new e He) as [->|(r & Hrn & ->)]; [done|]. rewrite Forall_forall in Hi. by apply Hi. }
  destruct (e4_value_parts si e Hsi Hidx) as [Es Er].
  destruct (gpdu_alone u true alloc b h udp ver_flags len teid o payload (e4_value si e) t Hb Hpay) as (b' & E & Eo & _ & Ed & _); [| |by rewrite Es|].
  - rewrite Hdst, Hteid. exact Hv.
  - done.
  - rewrite Es, Er in *. exists (e4_rule_index e), b'. split; [done|]. split; [done|]. split; [done|]. intros Hnd.
    rewrite v4_teids_nodup_elts in He by done. apply list_elem_of_fmap in He as ([[a' t'] i'] & -> & Hr').
    assert ((a', t', i') = (addr, tnum, i)) as E'; [|by injection E'].
    by apply (nodup_key_inj new).
Qed.
End Tunnels.

(** ** Every packet *)

Section Safe.
Context {P : VppPacket} {N : VppNet}.

Lemma mem_u8_nonneg m a x : Forall is_byte m -> mem_u8 m a = Ok x -> 0 <= x.
Proof.
  intros Hm. unfold mem_u8, mem_load. case_match; [|done]. intros [= <-]. apply de_be_bound, Forall_take, Forall_drop, Hm.
Qed.

Lemma ext_hdr_walk_ends fuel m last ext len :
  Forall is_byte m -> last - ext <= Z.of_nat fuel -> ext_hdr_walk fuel m last ext len <> Fault NoFuel.
Proof.
  intros Hm. revert ext len. induction fuel as [|fuel IH]; intros ext len Hf; cbn [ext_hdr_walk];
    destruct (Z.leb_spec last ext); try done; [lia|].
  apply obind_not_fuel; [auto with gtpu|]. intros type _. case_match; [done|].
  apply obind_not_fuel; [auto with gtpu|]. intros k Hk. apply mem_u8_nonneg in Hk; [|done].
  destruct (Z.eqb_spec k 0); [done|]. apply IH. lia.
Qed.

Definition is_decapsulated (n : gtpu_input_next_t) : bool :=
  match n with
  | UPF_GTPU_INPUT_NEXT_IP4_FLOW_PROCESS | UPF_GTPU_INPUT_NEXT_IP6_FLOW_PROCESS
  | UPF_GTPU_INPUT_NEXT_IP4_PROCESS | UPF_GTPU_INPUT_NEXT_IP6_PROCESS => true
  | _ => false
  end.

Lemma input_gpdu_safe (u : upf_main_t) is_ip4 b gtpu ver_flags teid si rule :
  Forall is_byte (vb_mem b) -> 0 <= vb_current_length b -> vlib_buffer_get_current b <= gtpu ->
  match input_gpdu u is_ip4 b gtpu ver_flags teid si rule with
  | Ok (next, error, b') => is_decapsulated next = true ->
      error = 0 /\ gtpu_session_index (vb_opaque b') = si
      /\ gtpu_data_offset (vb_opaque b') + 20 < vlib_buffer_length_in_chain b'
  | Err _ => True
  | Fault f => f <> NoFuel
  end.
Proof.
  intros Hm Hl Hg. unfold input_gpdu. cbv zeta. unfold get_session. destruct (pool_elt _ _) as [t|]; [|done]. cbn [obind].
  assert (gtpu_hdr_len b gtpu ver_flags <> Fault NoFuel) as Hf.
  { unfold gtpu_hdr_len. repeat case_match; try done. apply ext_hdr_walk_ends; [done|].
    unfold vlib_buffer_get_tail, o_next_ext_type. lia. }
  destruct (gtpu_hdr_len b gtpu ver_flags) as [[l|]|e|f]; cbn [obind]; [|done|done|congruence].
  match goal with |- context[if ?c <=? ?d then _ else _] => destruct (Z.leb_spec c d) as [?|Hlt] end; [done|].
  pose proof (mem_u8_not_fuel (vb_mem b) (vlib_buffer_get_current b + wrap 16 (ip_hdr_len is_ip4 + sizeof_udp_header + l))) as H8.
  change (vb_mem (set_vb_opaque _ _)) with (vb_mem b). change (vlib_buffer_get_current (set_vb_opaque _ _)) with (vlib_buffer_get_current b).
  destruct (mem_u8 (vb_mem b) _) as [v|e|f]; cbn [obind]; [|done|congruence]. intros _. split; [done|]. split; [done|]. exact Hlt.
Qed.

(** C20. upf_gtpu_input is safe on every packet, whatever octets it holds: the
    loop over the extension headers ends, and a packet that goes on to a
    session's processing has no error, and its inner packet starts at an offset
    that leaves more than the twenty octets of an IPv4 header in the packet. *)
Theorem input_safe (u : upf_main_t) is_ip4 c alloc b :
  Forall is_byte (vb_mem b) -> 0 <= vb_current_length b ->
  match input_process u is_ip4 c alloc b with
  | Ok (_, r) => is_decapsulated (in_next r) = true ->
      vb_error (in_buffer r) = None
      /\ gtpu_data_offset (vb_opaque (in_buffer r)) + 20 < vlib_buffer_length_in_chain (in_buffer r)
  | Err _ => True
  | Fault f => f <> NoFuel
  end.
Proof.
  intros Hm Hl. unfold input_process. cbv zeta. set (gtpu := _ + _ + sizeof_udp_header).
  pose proof (mem_u8_not_fuel (vb_mem b) (gtpu + o_ver_flags)). pose proof (mem_u8_not_fuel (vb_mem b) (gtpu + o_type)).
  destruct (mem_u8 _ (gtpu + o_ver_flags)) as [ver_flags| |f]; cbn [obind]; [|done|congruence].
  destruct (mem_u8 _ (gtpu + o_type)) as [type| |f]; cbn [obind]; [|done|congruence].
  destruct (negb _); [done|]. destruct (negb _).
  { destruct (_ =? _); [done|]. destruct (_ || _); [|done]. unfold upf_gtpu_signalling_msg.
    destruct (_ =? 0); [done|]. by destruct (type =? GTPU_TYPE_ECHO_REQUEST). }
  pose proof (mem_load_not_fuel (vb_mem b) (vlib_buffer_get_current b) (ip_hdr_len is_ip4)).
  pose proof (mem_load_not_fuel (vb_mem b) (gtpu + o_teid) 4).
  destruct (mem_load _ _ (ip_hdr_len is_ip4)) as [h| |f]; cbn [obind]; [|done|congruence].
  destruct (mem_load _ _ 4) as [t| |f]; cbn [obind]; [|done|congruence].
  destruct (lookup_tunnel _ _ _ _ _) as [[[si rule] c']|].
  - pose proof (input_gpdu_safe u is_ip4 b gtpu ver_flags (de_be t) si rule Hm Hl
      ltac:(unfold gtpu, sizeof_udp_header; destruct is_ip4; simpl; lia)) as Hs.
    destruct (input_gpdu _ _ _ _ _ _ _ _) as [[[next error] b']| |f]; [|done|done]. cbn [obind]. intros Hd.
    destruct (Hs Hd) as (-> & _ & Hb). done.
  - pose proof (upf_gtpu_error_ind_not_fuel alloc b is_ip4).
    destruct (upf_gtpu_error_ind _ _ _) as [[b' s]| |f]; [done|done|cbn; congruence].
Qed.

(** A packet with the key the cache of a frame starts with, the destination
    255.255.255.255 and the TEID 0xffffffff, is taken for a hit: the session
    index it gives, ~0, is not one of a session. *)
Theorem start_key_no_session (u : upf_main_t) (p : packet_in) gtpu ver_flags :
  gtpu = vlib_buffer_get_current (input_prepare true (snd p)) + 28 ->
  has_start_key true (snd p) = true -> pool_elt (am_sessions (um_assoc u)) u32_none = None ->
  mem_u8 (vb_mem (snd p)) gtpu = Ok ver_flags -> Z.land ver_flags GTPU_VER_MASK = GTPU_V1_VER ->
  mem_u8 (vb_mem (snd p)) (gtpu + 1) = Ok GTPU_TYPE_GTPU ->
  input_alone u true p = Fault BadIndex.
Proof.
  intros -> Hk Hs Hf Hv Ht. unfold input_alone, input_single, input_process, has_start_key in *. cbv zeta in *.
  set (b := input_prepare true (snd p)) in *. change (vb_mem (snd p)) with (vb_mem b) in *.
  change (ip_hdr_len true) with 20 in *. change sizeof_udp_header with 8 in *. unfold o_ver_flags, o_type.
  replace (vlib_buffer_get_current b + 20 + 8 + 0) with (vlib_buffer_get_current b + 28) by lia.
  replace (vlib_buffer_get_current b + 20 + 8 + 1) with (vlib_buffer_get_current b + 28 + 1) by lia.
  rewrite Hf, Ht. cbn [obind]. rewrite Hv, !Z.eqb_refl. cbn [negb].
  destruct (mem_load _ _ 20) as [h| |]; [|done..]. destruct (mem_load _ _ 4) as [t| |]; [|done..]. cbn [obind].
  unfold lookup_tunnel. rewrite Hk. unfold input_gpdu, get_session. cbn [tc_session cache_start]. by rewrite Hs.
Qed.
End Safe.

(** ** A session and a packet *)

From S2P Require Import ApiDemo.

Section Demo.
#[local] Existing Instance demo_vpp.

(** a session with the tunnel 17 of 10.0.0.3, which is of its rule 0, and a frame
    of three packets: a G-PDU of it with an extension header, one of an unknown
    tunnel and the first again *)
Definition demo_pdr : upf_pdr_t :=
  {| pdr_id := 1; pdr_precedence := 1;
     pdr_pdi := {| pdi_src_intf := 0; pdi_nwi_index := 0; pdi_fields := 0; pdi_teid := leaf_zero K_f_teid;
                   pdi_ue_addr := leaf_zero K_ue_ip_address; pdi_acl := None; pdi_adr := {| adr_application_id := 0; adr_db_id := 0; adr_flags := 0 |} |};
     pdr_outer_header_removal := 0; pdr_far_id := 1; pdr_urr_ids := None; pdr_qer_ids := None |}.
Definition demo_sx (r : rules) : upf_session_t :=
  mk_session f64_zero ip6_zero 7 ip6_zero (mk_assoc 0 u32_none u32_none) 0 0 r rules_zero f64_zero 0.
Definition demo_rules (l : list upf_pdr_t) (fars : list upf_far_t) : rules :=
  mk_rules (Some l) (Some fars) None None 0 0 0 None None None None None None None urr_time_zero.
Definition demo_addr : Z := de_le [10; 0; 0; 3].
Definition demo_tunnels (r : rules) (new old : list (Z * Z * Z)) : upf_main_t :=
  set_um_v4_tunnel (set_um_assoc demo_main (am_set_sessions (um_assoc demo_main) (mk_pool {[0 := demo_sx r]} [])))
    (update_v4_teids 0 (update_v4_teids 0 ∅ (v4_teids old) None) (v4_teids new) (v4_teids old)).
Definition demo_u : upf_main_t := demo_tunnels (demo_rules [demo_pdr] []) [(demo_addr, 17, 0)] [].

Definition demo_opt : gtpu_opt := ExtOpt [0; 5; 0] [(0x85, [16; 9])].
Definition demo_ext_packet (teid : list Z) : vlib_buffer_t :=
  let g := gpdu_octets 0x34 [0; 32] teid demo_opt demo_inner in demo_buffer 28 (demo_ip4 ++ demo_udp ++ g) g.
Definition demo_frame : list packet_in :=
  [(None, demo_ext_packet [0; 0; 0; 17]); (None, demo_ext_packet [0; 0; 0; 18]); (None, demo_ext_packet [0; 0; 0; 17])].

Lemma demo_ext_received teid : length teid = 4%nat -> gpdu_received (demo_ext_packet teid) true demo_ip4 demo_udp 0x34 [0; 32] teid demo_opt demo_inner.
Proof.
  intros Ht. split; try done.
  - exists (replicate 128 0), (replicate 128 238). split; [|done]. unfold demo_ext_packet, demo_buffer. cbv zeta. cbn [vb_mem]. app_eq.
  - repeat constructor; try done. exists 1. done.
  - split; [done|]. split; [|done]. unfold demo_ext_packet, demo_buffer. cbv zeta. cbn [vb_current_length].
    unfold gpdu_octets. rewrite !Zlen_app. unfold Zlen. rewrite Ht. done.
Qed.

Lemma input_frame_each_witness :
  exists l, upf_gtpu_input (fun _ => true) demo_u true (demo_frame ++ demo_frame) = Ok l
    /\ map in_next l = let f := [UPF_GTPU_INPUT_NEXT_IP4_PROCESS; UPF_GTPU_INPUT_NEXT_DROP; UPF_GTPU_INPUT_NEXT_IP4_PROCESS] in f ++ f.
Proof.
  rewrite (input_frame_each (fun _ => true) demo_u true (demo_frame ++ demo_frame)).
  - eexists. split; vm_compute; reflexivity.
  - intros _. repeat constructor; vm_compute; reflexivity.
Defined.

Lemma gpdu_reaches_session_witness :
  exists b', input_alone demo_u true (None, demo_ext_packet [0; 0; 0; 17]) = Ok (mk_input UPF_GTPU_INPUT_NEXT_IP4_PROCESS b' None)
    /\ gtpu_session_index (vb_opaque b') = 0 /\ drop (Z.to_nat (gtpu_data_offset (vb_opaque b'))) (packet_of b') = demo_inner.
Proof.
  destruct (gpdu_reaches_session (SOk := insertion_sort_ok) demo_u (demo_sx (demo_rules [demo_pdr] [])) 0 ∅ [(demo_addr, 17, 0)] [] demo_addr 17 0 None
    (demo_ext_packet [0; 0; 0; 17]) demo_ip4 demo_udp 0x34 [0; 32] [0; 0; 0; 17] demo_opt demo_inner) as (rule & b' & E & Eo & Ed & Er).
  - reflexivity.
  - by apply list_elem_of_singleton.
  - by apply not_elem_of_nil.
  - by repeat constructor.
  - lia.
  - reflexivity.
  - by apply demo_ext_received.
  - reflexivity.
  - reflexivity.
  - vm_compute. reflexivity.
  - reflexivity.
  - assert (rule = 0) as -> by (apply Er; repeat constructor; apply not_elem_of_nil). exists b'. split; [exact E|]. rewrite Eo in *. split; [reflexivity|exact Ed].
Defined.

Lemma input_safe_witness :
  match input_process demo_u true (cache_start true) None (input_prepare true (demo_ext_packet [0; 0; 0; 17])) with
  | Ok (_, r) => is_decapsulated (in_next r) = true -> vb_error (in_buffer r) = None
      /\ gtpu_data_offset (vb_opaque (in_buffer r)) + 20 < vlib_buffer_length_in_chain (in_buffer r)
  | Err _ => True
  | Fault f => f <> NoFuel
  end.
Proof.
  apply input_safe; [|vm_compute; discriminate]. apply bytes_check. vm_compute. reflexivity.
Defined.
End Demo.
