(* ===== verification/GtpuPath.v ===== *)
(** * The path of a packet through its session

    upf-ip4-input removes the outer headers of a packet the PDR says
    (src/upf/upf_input.c), upf-ip4-forward applies the FAR, QERs and URRs
    (src/upf/upf_forward.c and process_qers of src/upf/upf_pfcp.c), upf4-encap
    writes the new outer headers (src/upf/upf_gtpu_encap.c); the same for
    IPv6. upf_gtpu_end_marker writes the headers of an end marker. *)

From Stdlib Require Import ZArith Lia.
From stdpp Require Import base list list_numbers option numbers decidable gmap.
From S2P Require Import Prelude PfcpIo PfcpIe PfcpLeaf PfcpCodec UpfTypes UpfVec UpfUrr UpfRules UpfAssoc UpfTeid UpfAcl UpfMain UpfSession ApiRules GtpuBuf GtpuError GtpuDecap.
#[local] Open Scope upf_scope.

Definition OUTER_HEADER_REMOVAL_GTP_IP4 : Z := 0.
Definition OUTER_HEADER_REMOVAL_GTP_IP6 : Z := 1.
Definition OUTER_HEADER_REMOVAL_UDP_IP4 : Z := 2.
Definition OUTER_HEADER_REMOVAL_UDP_IP6 : Z := 3.
Definition OUTER_HEADER_REMOVAL_GTP : Z := 6.
Definition BUFFER_UDP_IP4 : Z := Z.lor BUFFER_HAS_UDP_HDR BUFFER_HAS_IP4_HDR.
Definition BUFFER_UDP_IP6 : Z := Z.lor BUFFER_HAS_UDP_HDR BUFFER_HAS_IP6_HDR.
Definition SRC_INTF_CORE : Z := 1.
Definition DST_INTF_ACCESS : Z := 0.
Definition DST_INTF_CORE : Z := 1.
Definition UPF_FORWARD_NEXT_GTP_IP4_ENCAP : Z := 1.
Definition UPF_FORWARD_NEXT_GTP_IP6_ENCAP : Z := 2.
Definition UPF_FORWARD_NEXT_IP_INPUT : Z := 3.

Inductive upf_input_next_t := UPF_INPUT_NEXT_DROP | UPF_INPUT_NEXT_UPF_FORWARD.
#[export] Instance upf_input_next_eq_dec : EqDecision upf_input_next_t.
Proof. solve_decision. Defined.

(** the PDR of a packet and its FAR: ~0 is no PDR, another index is used unchecked *)
Definition pdr_and_far (active : rules) (pdr_idx : Z) : outcome (option upf_pdr_t * option upf_far_t) :=
  if pdr_idx =? u32_none then Ok (None, None)
  else match vec_elts (r_pdr active) !! Z.to_nat pdr_idx with
  | None => Fault BadIndex
  | Some pdr =>
      Ok (Some pdr, pfcp_get_by_id (T := upf_far_t) active (pdr_far_id pdr) ≫= fun i => vec_elts (r_far active) !! i)
  end.

Section Path.
Context {P : VppPacket} {N : VppNet}.

(** ** upf_input *)

Definition upf_vnet_buffer_l3_hdr_offset_is_current (b : vlib_buffer_t) : vlib_buffer_t :=
  set_vb_flags (set_vb_l3_hdr_offset b (vb_current_data b)) (Z.lor (vb_flags b) VNET_BUFFER_F_L3_HDR_OFFSET_VALID).

(** the switch on pdr->outer_header_removal; [None] drops the packet *)
Definition outer_header_removal (ohr : Z) (b : vlib_buffer_t) : option vlib_buffer_t :=
  let hdr := Z.land (gtpu_flags (vb_opaque b)) BUFFER_HDR_MASK in
  let pop_gtp := Some (upf_vnet_buffer_l3_hdr_offset_is_current (vlib_buffer_advance b (gtpu_data_offset (vb_opaque b)))) in
  let pop_udp n := Some (vlib_buffer_advance (upf_vnet_buffer_l3_hdr_offset_is_current b) (n + sizeof_udp_header)) in
  if ohr =? OUTER_HEADER_REMOVAL_GTP_IP4 then if hdr =? BUFFER_GTP_UDP_IP4 then pop_gtp else None
  else if ohr =? OUTER_HEADER_REMOVAL_GTP_IP6 then if hdr =? BUFFER_GTP_UDP_IP6 then pop_gtp else None
  else if ohr =? OUTER_HEADER_REMOVAL_UDP_IP4 then if hdr =? BUFFER_UDP_IP4 then pop_udp 20 else None
  else if ohr =? OUTER_HEADER_REMOVAL_UDP_IP6 then if hdr =? BUFFER_UDP_IP6 then pop_udp 40 else None
  else if ohr =? OUTER_HEADER_REMOVAL_GTP
  then if (hdr =? BUFFER_GTP_UDP_IP4) || (hdr =? BUFFER_GTP_UDP_IP6) then pop_gtp else None
  else Some (upf_vnet_buffer_l3_hdr_offset_is_current b).

(** a packet of upf_input, without the interface counters *)
Definition upf_input_packet (u : upf_main_t) (b : vlib_buffer_t) : outcome (upf_input_next_t * vlib_buffer_t) :=
  let* sess := get_session (um_assoc u) (gtpu_session_index (vb_opaque b)) in
  let active := pfcp_get_rules sess PFCP_ACTIVE in
  let* (pdr, far) := pdr_and_far active (gtpu_pdr_idx (vb_opaque b)) in
  match pdr, far with
  | Some pdr, Some _ =>
      match outer_header_removal (pdr_outer_header_removal pdr) b with
      | None => Ok (UPF_INPUT_NEXT_DROP, set_vb_error b None)
      | Some b => Ok (UPF_INPUT_NEXT_UPF_FORWARD, set_vb_error b None)
      end
  | _, _ => Ok (UPF_INPUT_NEXT_UPF_FORWARD, set_vb_error b None)
  end.

(** the loop over a frame *)
Definition upf_input (u : upf_main_t) (frame : list vlib_buffer_t) : outcome (list (upf_input_next_t * vlib_buffer_t)) :=
  each (upf_input_packet u) frame.

(** ** upf_forward *)

(** vec_foreach (qer_id, pdr->qer_ids): the next node of the packet. The policer
    counts the packet, its verdict is not used *)
Fixpoint process_qer_ids (gm : rule_main) (r : rules) (is_dl : bool) (ids : list Z) (next : Z) : outcome Z :=
  match ids with
  | [] => Ok next
  | id :: ids =>
      match pfcp_get_by_id (T := upf_qer_t) r id ≫= fun i => vec_elts (r_qer r) !! i with
      | None => process_qer_ids gm r is_dl ids next
      | Some qer =>
          if negb (flag (qer_flags qer) PFCP_QER_MBR) then process_qer_ids gm r is_dl ids next
          else if negb ((if is_dl then qer_gate_status_dl qer else qer_gate_status_ul qer) =? 0) then Ok UPF_FORWARD_NEXT_DROP
          else match pool_elt (gm_qer_policers gm) (kv_value (qer_policer qer)) with
          | None => Fault BadIndex
          | Some _ => process_qer_ids gm r is_dl ids next
          end
      end
  end.
Definition process_qers (gm : rule_main) (r : rules) (pdr : upf_pdr_t) (is_dl is_ul : bool) (next : Z) : outcome Z :=
  if eqb is_ul is_dl then Ok next else process_qer_ids gm r is_dl (vec_elts (pdr_qer_ids pdr)) next.

Definition IS_DL (pdr : upf_pdr_t) (far : upf_far_t) : bool :=
  (pdi_src_intf (pdr_pdi pdr) =? SRC_INTF_CORE) || (ff_dst_intf (far_forward far) =? DST_INTF_ACCESS).
Definition IS_UL (pdr : upf_pdr_t) (far : upf_far_t) : bool :=
  (pdi_src_intf (pdr_pdi pdr) =? SRC_INTF_ACCESS) || (ff_dst_intf (far_forward far) =? DST_INTF_CORE).

(** the interface and the FIB of a network instance *)
Definition upf_nwi_if_and_fib_index (cf : upf_config) (is_ip4 : bool) (nwi_index : Z) : Z * Z :=
  match pool_elt (cf_nwis cf) nwi_index with
  | Some n => (nwi_sw_if_index n, if is_ip4 then nwi_fib_index4 n else nwi_fib_index6 n)
  | None => (local_interface_sw_if_index, u32_none)
  end.

(** what the FAR says; [true] goes straight to trace *)
Definition far_action (cf : upf_config) (is_ip4 : bool) (far : upf_far_t) (b : vlib_buffer_t) : bool * Z * vlib_buffer_t :=
  let fwd := far_forward far in
  if flag (far_apply_action far) FAR_FORWARD then
    if flag (ff_flags fwd) FAR_F_OUTER_HEADER_CREATION then
      let d := ohc_description (ff_outer_header_creation fwd) in
      if flag d OUTER_HEADER_CREATION_GTP_IP4 then (false, UPF_FORWARD_NEXT_GTP_IP4_ENCAP, b)
      else if flag d OUTER_HEADER_CREATION_GTP_IP6 then (false, UPF_FORWARD_NEXT_GTP_IP6_ENCAP, b)
      else if flag d OUTER_HEADER_CREATION_UDP_IP4 || flag d OUTER_HEADER_CREATION_UDP_IP6
      then (true, UPF_FORWARD_NEXT_DROP, b)
      else (false, UPF_FORWARD_NEXT_DROP, b)
    else
      let b := set_vb_flags b (Z.land (vb_flags b) (Z.lnot (VNET_BUFFER_F_OFFLOAD_CKSUM is_ip4))) in
      let '(rx, tx) := upf_nwi_if_and_fib_index cf is_ip4 (ff_nwi_index fwd) in
      (false, UPF_FORWARD_NEXT_IP_INPUT, set_vb_sw_if_index b rx tx)
  else (false, UPF_FORWARD_NEXT_DROP, b).

(** what process_urrs reads of a buffer *)
Definition urr_packet (b : vlib_buffer_t) : packet :=
  mk_packet (vlib_buffer_length_in_chain b) (drop (Z.to_nat (VLIB_BUFFER_PRE_DATA_SIZE + vb_l3_hdr_offset b)) (vb_mem b)).

Context {PL : VppPool}.

(** a packet of upf_forward: the plugin's state, the event of process_urrs, the
    next node and the packet *)
Definition upf_forward_packet (cf : upf_config) (now : f64) (u : upf_main_t) (is_ip4 : bool) (b : vlib_buffer_t)
  : outcome (upf_main_t * option urr_report_event * Z * vlib_buffer_t) :=
  let sidx := gtpu_session_index (vb_opaque b) in
  let* sess := get_session (um_assoc u) sidx in
  let active := pfcp_get_rules sess PFCP_ACTIVE in
  let* (pdr, far) := pdr_and_far active (gtpu_pdr_idx (vb_opaque b)) in
  match pdr, far with
  | Some pdr, Some far =>
      let '(trace, next, b) := far_action cf is_ip4 far b in
      if trace : bool then Ok (u, None, next, set_vb_error b None)
      else
        let* next := process_qers (um_rules u) active pdr (IS_DL pdr far) (IS_UL pdr far) next in
        let* (sess, active, event, next) := process_urrs now sidx sess active pdr (urr_packet b) (IS_DL pdr far) (IS_UL pdr far) next in
        Ok (put_sx u sidx (set_rules sess PFCP_ACTIVE active), event, next, set_vb_error b None)
  | _, _ => Ok (u, None, UPF_FORWARD_NEXT_DROP, set_vb_error b None)
  end.

(** the loop over a frame; the events are sent in the order of the packets *)
Fixpoint upf_forward (cf : upf_config) (now : f64) (u : upf_main_t) (is_ip4 : bool) (frame : list vlib_buffer_t)
  : outcome (upf_main_t * list (option urr_report_event * Z * vlib_buffer_t)) :=
  match frame with
  | [] => Ok (u, [])
  | b :: frame =>
      let* (u, event, next, b) := upf_forward_packet cf now u is_ip4 b in
      let* (u, l) := upf_forward cf now u is_ip4 frame in Ok (u, (event, next, b) :: l)
  end.

(** ** upf_encap_inline *)

(** the FAR of a packet and the DPO of its peer, which has the next node and its index *)
Definition encap_lookup (u : upf_main_t) (b : vlib_buffer_t) : outcome (upf_far_t * Z) :=
  let* s := get_session (um_assoc u) (gtpu_session_index (vb_opaque b)) in
  let r := pfcp_get_rules s PFCP_ACTIVE in
  let* pdr := match vec_elts (r_pdr r) !! Z.to_nat (gtpu_pdr_idx (vb_opaque b)) with Some x => Ok x | None => Fault BadIndex end in
  let* far := match pfcp_get_by_id (T := upf_far_t) r (pdr_far_id pdr) ≫= fun i => vec_elts (r_far r) !! i with
              | Some x => Ok x | None => Fault NullDeref end in
  let peer_idx := ff_peer_idx (far_forward far) in
  let* _ := match pool_elt (um_peers u) peer_idx with Some x => Ok x | None => Fault BadIndex end in
  Ok (far, peer_next_dpo (um_net u) peer_idx).

(** the fixed headers of a packet of [n] octets: IPv4, UDP and eight octets of GTP-U *)
Definition encap_ip4_header (n flow_hash hdr_flags : Z) (h : list Z) : list Z :=
  let new_l0 := be 2 n in
  let sum := ip_csum_update (de_le (field h 10 2)) 0 (de_le new_l0) 2 2 in
  let h := patch 10 (le 2 (ip_csum_fold sum)) h in
  let h := patch 2 new_l0 h in
  let h := patch 24 (be 2 (n - 20)) h in
  let h := patch 20 (le 2 flow_hash) h in
  let h := patch 30 (be 2 (n - 20 - sizeof_udp_header - GTPU_V1_HDR_LEN)) h in
  patch 28 [Z.lor (nth 28 h 0) (Z.land hdr_flags GTPU_E_S_PN_BIT)] h.
Definition encap_ip6_header (n flow_hash hdr_flags : Z) (h : list Z) : list Z :=
  let new_l0 := be 2 (n - 40) in
  let h := patch 4 new_l0 h in
  let h := patch 44 new_l0 h in
  let h := patch 40 (le 2 flow_hash) h in
  let h := patch 50 (be 2 (n - 40 - sizeof_udp_header - GTPU_V1_HDR_LEN)) h in
  patch 48 [Z.lor (nth 48 h 0) (Z.land hdr_flags GTPU_E_S_PN_BIT)] h.
Definition fixed_header_len (is_ip4 : bool) : Z := if is_ip4 then 36 else 56.

(** the packet is written; [flow_hash] is of the inner packet *)
Definition encap_write (is_ip4 : bool) (far : upf_far_t) (dpo flow_hash : Z) (b : vlib_buffer_t) : outcome (Z * vlib_buffer_t) :=
  let b := set_vb_adj_index b dpo in
  let hdr_flags := gtpu_hdr_flags (vb_opaque b) in
  let b := if flag hdr_flags GTPU_E_S_PN_BIT then vlib_buffer_advance b (- gtpu_ext_hdr_len (vb_opaque b)) else b in
  match ff_rewrite (far_forward far) with
  | None => Fault NullDeref
  | Some rewrite =>
      let b := vlib_buffer_advance b (- Zlen rewrite) in
      let ip := vlib_buffer_get_current b in
      let* fixed := mem_load rewrite 0 (fixed_header_len is_ip4) in
      let n := vlib_buffer_length_in_chain b in
      let* b := on_header b ip (fixed_header_len is_ip4)
        (fun _ => if is_ip4 then encap_ip4_header n flow_hash hdr_flags fixed else encap_ip6_header n flow_hash hdr_flags fixed) in
      let* b := if is_ip4 then Ok b else on_header b (ip + 40) 8 (patch 6 (le 2 (udp_checksum false b ip))) in
      let b := set_vb_flags b (Z.land (vb_flags b) (Z.lnot (VNET_BUFFER_F_OFFLOAD_CKSUM is_ip4))) in
      Ok (dpo, set_vb_flow_hash b flow_hash)
  end.

(** an iteration of the single loop; of the loop over four packets, which looks
    all of them up first *)
Definition encap_single (u : upf_main_t) (is_ip4 : bool) (b : vlib_buffer_t) : outcome (Z * vlib_buffer_t) :=
  let flow_hash := vnet_l2_compute_flow_hash b in
  let* (far, dpo) := encap_lookup u b in
  encap_write is_ip4 far dpo flow_hash b.
Definition encap_quad (u : upf_main_t) (is_ip4 : bool) (b0 b1 b2 b3 : vlib_buffer_t) : outcome (list (Z * vlib_buffer_t)) :=
  let* (far0, dpo0) := encap_lookup u b0 in
  let* (far1, dpo1) := encap_lookup u b1 in
  let* (far2, dpo2) := encap_lookup u b2 in
  let* (far3, dpo3) := encap_lookup u b3 in
  let* r0 := encap_write is_ip4 far0 dpo0 (vnet_l2_compute_flow_hash b0) b0 in
  let* r1 := encap_write is_ip4 far1 dpo1 (vnet_l2_compute_flow_hash b1) b1 in
  let* r2 := encap_write is_ip4 far2 dpo2 (vnet_l2_compute_flow_hash b2) b2 in
  let* r3 := encap_write is_ip4 far3 dpo3 (vnet_l2_compute_flow_hash b3) b3 in
  Ok [r0; r1; r2; r3].

(** the loops of a frame; [space n] says whether the frame of the next node has
    room for four packets when [n] packets are left *)
Fixpoint upf_encap_inline (space : nat -> bool) (u : upf_main_t) (is_ip4 : bool) (frame : list vlib_buffer_t)
  : outcome (list (Z * vlib_buffer_t)) :=
  match frame with
  | [] => Ok []
  | b0 :: rest =>
      match rest with
      | b1 :: b2 :: b3 :: rest4 =>
          if (8 <=? length frame)%nat && space (length frame) then
            let* l4 := encap_quad u is_ip4 b0 b1 b2 b3 in
            let* l := upf_encap_inline space u is_ip4 rest4 in Ok (l4 ++ l)
          else
            let* r := encap_single u is_ip4 b0 in
            let* l := upf_encap_inline space u is_ip4 rest in Ok (r :: l)
      | _ =>
          let* r := encap_single u is_ip4 b0 in
          let* l := upf_encap_inline space u is_ip4 rest in Ok (r :: l)
      end
  end.

(** ** upf_gtpu_end_marker *)

(** the packet, in a buffer; [None] is the index ~0 *)
Definition upf_gtpu_end_marker (alloc : option vlib_buffer_t) (fib_index dpoi_index : Z) (rewrite : list Z) (is_ip4 : bool)
  : outcome (option vlib_buffer_t) :=
  match alloc with
  | None => Ok None
  | Some p0 =>
      let n := ip_hdr_len is_ip4 in
      let p0 := set_vb_adj_index (set_vb_sw_if_index p0 (vb_sw_if_index_rx p0) fib_index) dpoi_index in
      let ip := vlib_buffer_get_current p0 in
      let p0 := set_vb_window p0 (vb_current_data p0) (n + sizeof_udp_header + sizeof_gtpu_header) in
      let* m := mem_store (vb_mem p0) ip rewrite in
      let p0 := set_vb_mem p0 m in
      let udp_len := sizeof_udp_header + sizeof_gtpu_header in
      let* p0 :=
        if is_ip4 then
          on_header p0 ip 20 (fun h =>
            let new_l0 := be 2 (vlib_buffer_length_in_chain p0) in
            let sum := ip_csum_update (de_le (field h 10 2)) 0 (de_le new_l0) 2 2 in
            patch 2 new_l0 (patch 10 (le 2 (ip_csum_fold sum)) h))
        else on_header p0 ip 40 (patch 4 (be 2 udp_len)) in
      let* p0 := on_header p0 (ip + n) 8 (patch 4 (be 2 udp_len)) in
      let* p0 := on_header p0 (ip + n) 8 (patch 0 (le 2 (vnet_l2_compute_flow_hash p0))) in
      let* p0 := if is_ip4 then Ok p0 else on_header p0 (ip + n) 8 (patch 6 (le 2 (udp_checksum false p0 ip))) in
      let* p0 := on_header p0 (ip + n + sizeof_udp_header) 4 (fun g => patch 2 [0; 0] (patch 1 [GTPU_TYPE_END_MARKER] g)) in
      Ok (Some p0)
  end.
End Path.

(** ** Encapsulation *)

Section Encap.
Context {P : VppPacket} {POk : VppPacketOk P} {N : VppNet} {PL : VppPool}.

(** the IPv4 header of a packet of [n] octets, from that of the rewrite *)
Definition encap_ip4 (n : Z) (h : list Z) : list Z :=
  patch 2 (be 2 n) (patch 10 (le 2 (ip_csum_fold (ip_csum_update (de_le (field h 10 2)) 0 (de_le (be 2 n)) 2 2))) h).
(** the UDP header *)
Definition encap_udp (n flow_hash : Z) : list Z := le 2 flow_hash ++ be 2 GTPU_UDP_PORT ++ be 2 n ++ [0; 0].
Definition encap_flags (hdr_flags : Z) : Z := Z.lor (Z.lor GTPU_V1_VER GTPU_PT_GTP) (Z.land hdr_flags GTPU_E_S_PN_BIT).

Lemma encap_ip4_header_octets n flow_hash hdr_flags h teid : length h = 20%nat ->
  encap_ip4_header n flow_hash hdr_flags (h ++ gtpu_octets teid)
  = encap_ip4 n h ++ encap_udp (n - 20) flow_hash ++ [encap_flags hdr_flags; GTPU_TYPE_GTPU] ++ be 2 (n - 36) ++ be 4 teid.
Proof.
  intros Hh. explode h Hh. unfold encap_ip4_header, encap_ip4, encap_udp, gtpu_octets, sizeof_udp_header, GTPU_V1_HDR_LEN.
  replace (n - 20 - 8 - 8) with (n - 36) by lia. reflexivity.
Qed.

Lemma patch_comm2 (a b h : list Z) : length h = 20%nat -> length a = 2%nat -> length b = 2%nat -> patch 2 a (patch 10 b h) = patch 10 b (patch 2 a h).
Proof. intros Hh Ha Hb. explode h Hh. explode a Ha. explode b Hb. reflexivity. Qed.

(** the checksum covers the new length *)
Lemma encap_ip4_csum n h : length h = 20%nat -> csum_ok h -> field h 2 2 = [0; 0] -> csum_ok (encap_ip4 n h).
Proof using POk.
  intros Hh Hok H2. unfold encap_ip4. rewrite patch_comm2 by done.
  pose proof (csum_with_end _ _ (csum_with_word h _ 2 (be 2 n) ltac:(by exists 1%nat) ltac:(done) ltac:(lia) (csum_with_start h Hh Hok))) as H.
  rewrite H2 in H. exact H.
Qed.

(** a packet that is to be encapsulated: at its payload, with the octets [o] of
    the GTP-U header it came with in front, and room for the new headers *)
Record to_encap (b : vlib_buffer_t) (is_ip4 : bool) (ver_flags : Z) (o : gtpu_opt) (payload : list Z) : Prop := {
  te_mem : exists l w r, vb_mem b = l ++ w ++ opt_octets o ++ payload ++ r
    /\ Zlen w = fixed_header_len is_ip4 /\ Zlen l + fixed_header_len is_ip4 + Zlen (opt_octets o) = vlib_buffer_get_current b;
  te_window : vb_current_length b = Zlen payload /\ vb_chain b = 0;
  te_max : Zlen (opt_octets o) + Zlen payload < 65000;
  te_opt : opt_wf ver_flags o;
  te_flags : gtpu_hdr_flags (vb_opaque b) = ver_flags;
  te_ext : gtpu_ext_hdr_len (vb_opaque b) = Zlen (opt_octets o)
}.

Lemma opt_advance b ver_flags o :
  opt_wf ver_flags o -> gtpu_ext_hdr_len (vb_opaque b) = Zlen (opt_octets o) -> 0 <= vb_current_length b < 65536 ->
  (if flag ver_flags GTPU_E_S_PN_BIT then vlib_buffer_advance b (- gtpu_ext_hdr_len (vb_opaque b)) else b)
  = vlib_buffer_advance b (- Zlen (opt_octets o)).
Proof.
  intros Ho -> Hl. destruct o as [|s x|s exts]; simpl in Ho.
  - rewrite Ho. change (Zlen (opt_octets NoOpt)) with 0. unfold vlib_buffer_advance, set_vb_window. destruct b; simpl in *. f_equal; [lia|].
    rewrite wrap_small by (apply in_range_spec; lia). lia.
  - by destruct Ho as (-> & _).
  - destruct Ho as (HE & _). change GTPU_E_S_PN_BIT with (Z.lor GTPU_E_BIT 3). by rewrite flag_lor, HE.
Qed.

(** the new packet over IPv4 *)
Lemma encap_write_ip4 far dpo flow_hash b ver_flags o payload h teid :
  to_encap b true ver_flags o payload -> ff_rewrite (far_forward far) = Some (h ++ gtpu_octets teid) -> length h = 20%nat ->
  let n := 36 + Zlen (opt_octets o) + Zlen payload in
  exists b', encap_write true far dpo flow_hash b = Ok (dpo, b')
    /\ packet_of b' = encap_ip4 n h ++ encap_udp (n - 20) flow_hash
         ++ gpdu_octets (encap_flags ver_flags) (be 2 (Zlen (opt_octets o) + Zlen payload)) (be 4 teid) o payload
    /\ vb_adj_index b' = dpo.
Proof.
  intros [(l & w & r & Hm & Hw & Hl) [Hlen Hch] Hmax Ho Hf He] Hrw Hh n. change (fixed_header_len true) with 36 in *.
  pose proof (Zlen_nonneg (opt_octets o)). pose proof (Zlen_nonneg payload).
  unfold encap_write. cbv zeta. change (vb_opaque b) with (vb_opaque (set_vb_adj_index b dpo)) in Hf, He. rewrite Hf, Hrw.
  rewrite (opt_advance (set_vb_adj_index b dpo) ver_flags o) by (done || (simpl; lia)).
  assert (Zlen (h ++ gtpu_octets teid) = 36) as L36 by (rewrite Zlen_app; unfold Zlen at 1; rewrite Hh; reflexivity).
  rewrite L36. set (b1 := vlib_buffer_advance (vlib_buffer_advance _ _) _).
  assert (vlib_buffer_get_current b1 = Zlen l) as Hc1.
  { unfold b1. rewrite !adv_current. change (vlib_buffer_get_current (set_vb_adj_index b dpo)) with (vlib_buffer_get_current b). lia. }
  assert (vb_current_length b1 = n) as Hn1.
  { assert (vb_current_length (vlib_buffer_advance (set_vb_adj_index b dpo) (- Zlen (opt_octets o))) = Zlen payload + Zlen (opt_octets o)) as E
      by (rewrite adv_length; cbn [vb_current_length set_vb_adj_index]; lia).
    unfold b1. rewrite adv_length; rewrite E; unfold n; lia. }
  assert (vlib_buffer_length_in_chain b1 = n) as Hch1 by (unfold vlib_buffer_length_in_chain; rewrite Hn1; change (vb_chain b1) with (vb_chain b); lia).
  change (vb_mem b) with (vb_mem b1) in Hm. change (fixed_header_len true) with 36. rewrite Hc1, Hch1.
  assert (vb_adj_index b1 = dpo) as Hadj by done. clearbody b1.
  assert (mem_load (h ++ gtpu_octets teid) 0 36 = Ok (h ++ gtpu_octets teid)) as ->.
  { pose proof (mem_load_app [] (h ++ gtpu_octets teid) [] 0 36 eq_refl (eq_sym L36)) as E. by rewrite app_nil_r in E. }
  cbn [obind]. rewrite encap_ip4_header_octets by done.
  set (hd := encap_ip4 n h ++ _).
  assert (Zlen hd = 36) as Lhd. { unfold hd, encap_ip4. rewrite !Zlen_app. unfold Zlen at 1. rewrite !length_patch, Hh; [reflexivity|plen|plen]. }
  rewrite (on_header_app b1 l w (opt_octets o ++ payload ++ r)); [|done|done|done|unfold Zlen in *; lia]. cbn [obind].
  eexists. split; [reflexivity|]. split; [|done].
  apply (packet_of_app _ l _ r); [|by rewrite <- Hc1|].
  - cbn [vb_mem set_vb_flow_hash set_vb_flags set_vb_mem]. unfold hd, gpdu_octets.
    replace (n - 36) with (Zlen (opt_octets o) + Zlen payload) by (unfold n; lia). app_eq.
  - cbn [vb_current_length set_vb_flow_hash set_vb_flags set_vb_mem]. rewrite Hn1.
    transitivity (Zlen (hd ++ opt_octets o ++ payload)).
    + f_equal. unfold hd, gpdu_octets. replace (n - 36) with (Zlen (opt_octets o) + Zlen payload) by (unfold n; lia). app_eq.
    + rewrite !Zlen_app, Lhd. unfold n. lia.
Qed.
End Encap.

(** ** From a tunnel to a tunnel *)

Section Forward.
Context {P : VppPacket} {POk : VppPacketOk P} {N : VppNet} {PL : VppPool}.

Lemma encap_flags_opt ver_flags o : opt_wf ver_flags o -> opt_wf (encap_flags ver_flags) o.
Proof.
  assert (forall m, Z.land GTPU_E_S_PN_BIT m = m -> flag (encap_flags ver_flags) m = flag ver_flags m) as H.
  { intros m Hm. unfold flag, encap_flags. rewrite Z.land_lor_distr_l, <- Z.land_assoc, Hm.
    rewrite <- Hm, Z.land_assoc. change (Z.land (Z.lor GTPU_V1_VER GTPU_PT_GTP) GTPU_E_S_PN_BIT) with 0. done. }
  destruct o; simpl; by rewrite ?H by done.
Qed.

Lemma encap_flags_version ver_flags : Z.land (encap_flags ver_flags) GTPU_VER_MASK = GTPU_V1_VER.
Proof.
  unfold encap_flags. rewrite Z.land_lor_distr_l, <- Z.land_assoc. change (Z.land GTPU_E_S_PN_BIT GTPU_VER_MASK) with 0.
  by rewrite Z.land_0_r.
Qed.

(** the parts of a packet that encapsulation reads *)
Definition same_packet (b b' : vlib_buffer_t) : Prop :=
  vb_opaque b' = vb_opaque b /\ vb_mem b' = vb_mem b /\ vb_current_data b' = vb_current_data b
  /\ vb_current_length b' = vb_current_length b /\ vb_chain b' = vb_chain b.

Lemma far_action_keeps cf is_ip4 far b trace next b' : far_action cf is_ip4 far b = (trace, next, b') -> same_packet b b'.
Proof. unfold far_action. repeat case_match; by intros [= <- <- <-]. Qed.

Lemma process_urrs_keeps now idx sess active pdr p is_dl is_ul next sess' active' ev next' :
  process_urrs now idx sess active pdr p is_dl is_ul next = Ok (sess', active', ev, next') ->
  r_pdr active' = r_pdr active /\ r_far active' = r_far active.
Proof.
  unfold process_urrs. destruct (process_urr_ids _ _ _ _ _ _ _) as [[urrs st]| |]; [|done..]. cbn [obind].
  intros [= _ <- _ _]. by destruct (r_urr active).
Qed.

(** upf_forward leaves what upf_encap_inline reads of the session *)
Lemma forward_lookup cf now (u u' : upf_main_t) is_ip4 b ev next b' :
  upf_forward_packet cf now u is_ip4 b = Ok (u', ev, next, b') -> same_packet b b' /\ encap_lookup u' b' = encap_lookup u b.
Proof.
  unfold upf_forward_packet. destruct (get_session _ _) as [sess| |] eqn:Es; [|done..]. cbn [obind].
  destruct (pdr_and_far _ _) as [[[pdr|] [far|]]| |]; try done; cbn [obind]; try (intros [= <- _ _ <-]; split; [done|reflexivity]).
  destruct (far_action cf is_ip4 far b) as [[trace next0] b1] eqn:Ef. apply far_action_keeps in Ef as Hk. destruct trace.
  { intros [= <- _ _ <-]. split; [exact Hk|]. unfold encap_lookup. change (vb_opaque (set_vb_error b1 None)) with (vb_opaque b1). by rewrite (proj1 Hk). }
  destruct (process_qers _ _ _ _ _ _) as [next1| |]; [|done..]. cbn [obind].
  destruct (process_urrs _ _ _ _ _ _ _ _ _) as [[[[sess' active'] ev'] next']| |] eqn:Eu; [|done..]. cbn [obind].
  apply process_urrs_keeps in Eu as [Ep Er]. intros [= <- _ _ <-]. split; [exact Hk|]. unfold encap_lookup.
  change (vb_opaque (set_vb_error b1 None)) with (vb_opaque b1). rewrite (proj1 Hk), Es.
  assert (get_session (um_assoc (put_sx u (gtpu_session_index (vb_opaque b)) (set_rules sess' PFCP_ACTIVE active'))) (gtpu_session_index (vb_opaque b))
    = Ok (set_rules sess' PFCP_ACTIVE active')) as ->.
  { unfold get_session, put_sx, pool_elt. simpl. by rewrite lookup_insert_eq. }
  cbn [obind]. rewrite get_set_rules. unfold pfcp_get_by_id. cbn [rules_get far_kind]. by rewrite Ep, Er.
Qed.

Lemma same_to_encap b b' is_ip4 ver_flags o payload : same_packet b b' -> to_encap b is_ip4 ver_flags o payload -> to_encap b' is_ip4 ver_flags o payload.
Proof.
  intros (Ho & Hm & Hd & Hl & Hc) []. split; unfold vlib_buffer_get_current in *; rewrite ?Ho, ?Hm, ?Hd, ?Hl, ?Hc; assumption.
Qed.

Lemma pdr_and_far_some active i pdr far : pdr_and_far active i = Ok (Some pdr, Some far) ->
  vec_elts (r_pdr active) !! Z.to_nat i = Some pdr
  /\ pfcp_get_by_id (T := upf_far_t) active (pdr_far_id pdr) ≫= (fun i => vec_elts (r_far active) !! i) = Some far.
Proof. unfold pdr_and_far. case_match; [done|]. destruct (_ !! _) as [p|]; [|done]. by intros [= -> ->]. Qed.

(** a G-PDU after upf-ip4-input: at its payload, ready for the next tunnel *)
Lemma gpdu_popped (u : upf_main_t) alloc b h udp ver_flags len teid o payload v t pdr far i :
  gpdu_received b true h udp ver_flags len teid o payload -> 20 < Zlen payload ->
  tunnel_table u true !! tunnel_key (dst_address true h) (de_be teid) = Some v -> has_start_key true b = false ->
  get_session (um_assoc u) (value_session v) = Ok t -> i = gpdu_pdr t (value_rule v) ->
  pdr_and_far (pfcp_get_rules t PFCP_ACTIVE) i = Ok (Some pdr, Some far) ->
  pdr_outer_header_removal pdr = OUTER_HEADER_REMOVAL_GTP_IP4 \/ pdr_outer_header_removal pdr = OUTER_HEADER_REMOVAL_GTP ->
  exists b1 b2, input_alone u true (alloc, b) = Ok (mk_input (gpdu_next payload i) b1 None)
    /\ upf_input_packet u b1 = Ok (UPF_INPUT_NEXT_UPF_FORWARD, b2)
    /\ to_encap b2 true ver_flags o payload /\ packet_of b2 = payload
    /\ gtpu_session_index (vb_opaque b2) = value_session v /\ gtpu_pdr_idx (vb_opaque b2) = i.
Proof.
  intros Hb Hpay Hkey Hs Ht -> Hpf Hohr.
  destruct (gpdu_alone u true alloc b h udp ver_flags len teid o payload v t Hb Hpay Hkey Hs Ht) as (b1 & E1 & Eo & Hp & Hd & Hm & Hch & Hc & Hl).
  set (i := gpdu_pdr t (value_rule v)) in *. destruct Hb as [(l & r & Hmb & Hlb) Hh Hudp _ Hlen Hteid Ho (Hw & Hmax & Hchb)].
  pose proof (gpdu_octets_length ver_flags len teid o payload Hlen Hteid) as Hg. pose proof (Zlen_nonneg (opt_octets o)).
  set (off := 36 + Zlen (opt_octets o)).
  set (b2 := set_vb_error (upf_vnet_buffer_l3_hdr_offset_is_current (vlib_buffer_advance b1 off)) None).
  exists b1, b2. split; [exact E1|].
  assert (upf_input_packet u b1 = Ok (UPF_INPUT_NEXT_UPF_FORWARD, b2)) as E2.
  { unfold upf_input_packet. rewrite Eo. cbn [gtpu_session_index gtpu_pdr_idx gpdu_opaque]. rewrite Ht. cbn [obind]. fold i. rewrite Hpf. cbn [obind].
    unfold outer_header_removal. rewrite Eo. by destruct Hohr as [-> | ->]. }
  split; [exact E2|].
  assert (vb_current_length b2 = Zlen payload) as Hl2.
  { change (vb_current_length b2) with (vb_current_length (vlib_buffer_advance b1 off)). change (ip_hdr_len true) with 20 in *. rewrite adv_length; unfold off; lia. }
  assert (vlib_buffer_get_current b2 = Zlen l + off) as Hc2.
  { change (vlib_buffer_get_current b2) with (vlib_buffer_get_current (vlib_buffer_advance b1 off)). rewrite adv_current, Hc. unfold off. lia. }
  assert (vb_mem b2 = l ++ (h ++ udp ++ [ver_flags; GTPU_TYPE_GTPU] ++ len ++ teid) ++ opt_octets o ++ payload ++ r) as Hm2.
  { change (vb_mem b2) with (vb_mem b1). rewrite Hm, Hmb. unfold gpdu_octets. app_eq. }
  assert (Zlen (h ++ udp ++ [ver_flags; GTPU_TYPE_GTPU] ++ len ++ teid) = 36) as L36.
  { rewrite !Zlen_app, Hh. unfold Zlen. rewrite Hudp, Hlen, Hteid. reflexivity. }
  split; [|split; [|by change (vb_opaque b2) with (vb_opaque b1); rewrite Eo]].
  - split; [|split; [exact Hl2|exact Hch]|lia|exact Ho|by change (vb_opaque b2) with (vb_opaque b1); rewrite Eo|by change (vb_opaque b2) with (vb_opaque b1); rewrite Eo].
    eexists l, _, r. split; [exact Hm2|]. split; [exact L36|]. rewrite Hc2. unfold off. change (fixed_header_len true) with 36. lia.
  - apply (packet_of_app _ (l ++ (h ++ udp ++ [ver_flags; GTPU_TYPE_GTPU] ++ len ++ teid) ++ opt_octets o) payload r).
    + rewrite Hm2. app_eq.
    + rewrite Hc2, Zlen_app, Zlen_app, L36. unfold off. lia.
    + by rewrite Hl2.
Qed.

(** C12. A G-PDU goes from tunnel to tunnel with its payload: a packet for a known
    IPv4 tunnel, whose PDR is known and removes the outer header, is at its inner
    packet after upf-ip4-input; if upf-ip4-forward then sends it to the next
    tunnel, the packet upf4-encap makes of it is the payload, with the sequence
    number, N-PDU number and extension headers it came with, behind a GTP-U
    header of the FAR's TEID whose length is that of what follows, a UDP header
    of the right length and the FAR's IPv4 header, with a correct length and a
    correct checksum. *)
Theorem gpdu_forwarded cf now (u u' : upf_main_t) alloc b h udp ver_flags len teid o payload v t pdr far is4 ev b3 h' teid' :
  gpdu_received b true h udp ver_flags len teid o payload -> 20 < Zlen payload ->
  tunnel_table u true !! tunnel_key (dst_address true h) (de_be teid) = Some v -> has_start_key true b = false ->
  get_session (um_assoc u) (value_session v) = Ok t ->
  pdr_and_far (pfcp_get_rules t PFCP_ACTIVE) (gpdu_pdr t (value_rule v)) = Ok (Some pdr, Some far) ->
  pdr_outer_header_removal pdr = OUTER_HEADER_REMOVAL_GTP_IP4 \/ pdr_outer_header_removal pdr = OUTER_HEADER_REMOVAL_GTP ->
  ff_rewrite (far_forward far) = Some (h' ++ gtpu_octets teid') -> length h' = 20%nat -> csum_ok h' -> field h' 2 2 = [0; 0] ->
  is_Some (pool_elt (um_peers u) (ff_peer_idx (far_forward far))) ->
  exists b1 b2, input_alone u true (alloc, b) = Ok (mk_input (gpdu_next payload (gpdu_pdr t (value_rule v))) b1 None)
    /\ upf_input_packet u b1 = Ok (UPF_INPUT_NEXT_UPF_FORWARD, b2) /\ packet_of b2 = payload
    /\ (upf_forward_packet cf now u is4 b2 = Ok (u', ev, UPF_FORWARD_NEXT_GTP_IP4_ENCAP, b3) ->
        let n := 36 + Zlen (opt_octets o) + Zlen payload in
        exists b4, encap_single u' true b3 = Ok (peer_next_dpo (um_net u) (ff_peer_idx (far_forward far)), b4)
          /\ packet_of b4 = encap_ip4 n h' ++ encap_udp (n - 20) (vnet_l2_compute_flow_hash b3)
               ++ gpdu_octets (encap_flags ver_flags) (be 2 (Zlen (opt_octets o) + Zlen payload)) (be 4 teid') o payload
          /\ csum_ok (encap_ip4 n h') /\ opt_wf (encap_flags ver_flags) o
          /\ Z.land (encap_flags ver_flags) GTPU_VER_MASK = GTPU_V1_VER).
Proof using POk.
  intros Hb Hpay Hkey Hs Ht Hpf Hohr Hrw Hh' Hok H2 [pe Hpe].
  destruct (gpdu_popped u alloc b h udp ver_flags len teid o payload v t pdr far _ Hb Hpay Hkey Hs Ht eq_refl Hpf Hohr)
    as (b1 & b2 & E1 & E2 & Hte & Hp & Hsi & Hpi).
  exists b1, b2. split; [exact E1|]. split; [exact E2|]. split; [exact Hp|]. intros Hf n.
  apply forward_lookup in Hf as [Hk Hl].
  assert (encap_lookup u b2 = Ok (far, peer_next_dpo (um_net u) (ff_peer_idx (far_forward far)))) as El.
  { apply pdr_and_far_some in Hpf as [Ep Ef]. unfold encap_lookup. rewrite Hsi, Ht, Hpi. cbn [obind]. rewrite Ep. cbn [obind]. rewrite Ef. cbn [obind].
    by rewrite Hpe. }
  unfold encap_single. rewrite Hl, El. cbn [obind].
  destruct (encap_write_ip4 far (peer_next_dpo (um_net u) (ff_peer_idx (far_forward far))) (vnet_l2_compute_flow_hash b3)
    b3 ver_flags o payload h' teid' (same_to_encap _ _ _ _ _ _ Hk Hte) Hrw Hh') as (b4 & E4 & Hp4 & _).
  exists b4. split; [exact E4|]. split; [exact Hp4|]. split; [by apply encap_ip4_csum|].
  split; [apply encap_flags_opt, Hte|apply encap_flags_version].
Qed.
End Forward.

(** ** What is forwarded *)

Section Only.
Context {P : VppPacket} {N : VppNet} {PL : VppPool}.

(** the QER of an id *)
Definition qer_of (r : rules) (id : Z) : option upf_qer_t :=
  pfcp_get_by_id (T := upf_qer_t) r id ≫= fun i => vec_elts (r_qer r) !! i.
(** the gates of the PDR's QERs are open in the direction of the packet, if it has one *)
Definition gates_open (r : rules) (pdr : upf_pdr_t) (is_dl is_ul : bool) : Prop :=
  is_ul <> is_dl -> forall id qer, id ∈ vec_elts (pdr_qer_ids pdr) -> qer_of r id = Some qer -> flag (qer_flags qer) PFCP_QER_MBR = true ->
    (if is_dl then qer_gate_status_dl qer else qer_gate_status_ul qer) = 0.

Lemma process_qer_ids_next gm r is_dl ids next next' : process_qer_ids gm r is_dl ids next = Ok next' -> next' <> UPF_FORWARD_NEXT_DROP ->
  next' = next /\ forall id qer, id ∈ ids -> qer_of r id = Some qer -> flag (qer_flags qer) PFCP_QER_MBR = true ->
    (if is_dl then qer_gate_status_dl qer else qer_gate_status_ul qer) = 0.
Proof.
  intros E Hd. induction ids as [|id ids IH]; cbn [process_qer_ids] in E; [injection E as <-; split; [done|by intros ? ? ?%elem_of_nil]|].
  fold (qer_of r id) in E. destruct (qer_of r id) as [q|] eqn:Eq.
  2: { destruct (IH E) as [-> IH']. split; [done|]. intros id' qer [->|Hin]%elem_of_cons; [congruence|eauto]. }
  destruct (flag (qer_flags q) PFCP_QER_MBR) eqn:Em; cbn [negb] in E.
  2: { destruct (IH E) as [-> IH']. split; [done|]. intros id' qer [->|Hin]%elem_of_cons; [congruence|eauto]. }
  destruct (Z.eqb_spec (if is_dl then qer_gate_status_dl q else qer_gate_status_ul q) 0) as [Hg|]; cbn [negb] in E; [|congruence].
  destruct (pool_elt _ _); [|done]. destruct (IH E) as [-> IH']. split; [done|]. intros id' qer [->|Hin]%elem_of_cons; [|eauto].
  rewrite Eq. by intros [= <-].
Qed.

Lemma process_qers_next gm r pdr is_dl is_ul next next' : process_qers gm r pdr is_dl is_ul next = Ok next' -> next' <> UPF_FORWARD_NEXT_DROP ->
  next' = next /\ gates_open r pdr is_dl is_ul.
Proof.
  unfold process_qers, gates_open. destruct (eqb is_ul is_dl) eqn:E.
  - intros [= ->]. split; [done|]. apply eqb_prop in E. done.
  - intros H Hd. destruct (process_qer_ids_next _ _ _ _ _ _ H Hd) as [-> Hg]. done.
Qed.

Lemma process_urr_next now p is_dl is_ul x st x' st' break : process_urr now p is_dl is_ul x st = Ok (x', st', break) ->
  ul_next st' = UPF_FORWARD_NEXT_DROP \/ ul_next st' = ul_next st.
Proof.
  assert (forall x x' st', urr_count now p is_dl is_ul x st = Ok (x', st') -> ul_next st' = UPF_FORWARD_NEXT_DROP \/ ul_next st' = ul_next st) as Hc.
  { clear. intros x x' st'. unfold urr_count. cbv zeta. destruct (if flag _ PFCP_URR_VOLUME then _ else _) as [r y].
    destruct (if _ && _ then _ else _) as [[z st1]| |] eqn:E; [|done..]. cbn [obind]. intros [= <- <-]. cbn [ul_next].
    destruct (flag (urr_status z) URR_OVER_QUOTA); [by left|]. right. destruct (_ && _); [|by injection E as _ <-]. unfold urr_start_of_traffic in E. cbv zeta in E.
    repeat case_match; try done; by injection E as _ <-. }
  unfold process_urr. case_match; [case_match; [intros [= _ <- _]; by right|]|];
    destruct (urr_count _ _ _ _ _ _) as [[? ?]| |] eqn:E; try done; intros [= _ <- _]; eauto.
Qed.

Lemma process_urr_ids_next now p is_dl is_ul ids : forall urrs st urrs' st',
  process_urr_ids now p is_dl is_ul ids urrs st = Ok (urrs', st') -> ul_next st' = UPF_FORWARD_NEXT_DROP \/ ul_next st' = ul_next st.
Proof.
  induction ids as [|id ids IH]; intros urrs st urrs' st'; cbn [process_urr_ids]; [intros [= _ <-]; by right|].
  destruct (pfcp_get_urr_by_id _ _ ≫= _) as [[i x]|]; [|eauto].
  destruct (process_urr _ _ _ _ _ _) as [[[x' st1] break]| |] eqn:E; [|done..]. cbn [obind]. apply process_urr_next in E.
  destruct break; [by intros [= _ <-]|]. intros H%IH. destruct E as [E|E]; rewrite E in H; tauto.
Qed.

Lemma process_urrs_next now idx sess active pdr p is_dl is_ul next sess' active' ev next' :
  process_urrs now idx sess active pdr p is_dl is_ul next = Ok (sess', active', ev, next') -> next' <> UPF_FORWARD_NEXT_DROP -> next' = next.
Proof.
  unfold process_urrs. destruct (process_urr_ids _ _ _ _ _ _ _) as [[urrs st]| |] eqn:E; [|done..]. cbn [obind].
  intros [= _ _ _ <-] Hd. by destruct (process_urr_ids_next _ _ _ _ _ _ _ _ _ E).
Qed.

(** where the FAR of a forwarded packet sends it *)
Definition far_next (far : upf_far_t) : Z :=
  if flag (ff_flags (far_forward far)) FAR_F_OUTER_HEADER_CREATION
  then if flag (ohc_description (ff_outer_header_creation (far_forward far))) OUTER_HEADER_CREATION_GTP_IP4
       then UPF_FORWARD_NEXT_GTP_IP4_ENCAP else UPF_FORWARD_NEXT_GTP_IP6_ENCAP
  else UPF_FORWARD_NEXT_IP_INPUT.

End Only.

(** ** Frames of encapsulated packets *)

Section Frame.
Context {P : VppPacket} {N : VppNet}.

Lemma encap_quad_each u is_ip4 b0 b1 b2 b3 l : each (encap_single u is_ip4) [b0; b1; b2; b3] = Ok l -> encap_quad u is_ip4 b0 b1 b2 b3 = Ok l.
Proof.
  cbn [each]. unfold encap_quad, encap_single.
  destruct (encap_lookup u b0) as [[? ?]| |]; [|done..]. cbn [obind]. destruct (encap_write _ _ _ _ b0); [|done..]. cbn [obind].
  destruct (encap_lookup u b1) as [[? ?]| |]; [|done..]. cbn [obind]. destruct (encap_write _ _ _ _ b1); [|done..]. cbn [obind].
  destruct (encap_lookup u b2) as [[? ?]| |]; [|done..]. cbn [obind]. destruct (encap_write _ _ _ _ b2); [|done..]. cbn [obind].
  destruct (encap_lookup u b3) as [[? ?]| |]; [|done..]. cbn [obind]. by destruct (encap_write _ _ _ _ b3).
Qed.

(** The loop of upf_encap_inline over four packets at a time, which looks all
    four up before it writes any, does to the packets of a frame what the loop
    over single packets does, wherever it is taken. *)
Theorem encap_frame_each space u is_ip4 frame l :
  each (encap_single u is_ip4) frame = Ok l -> upf_encap_inline space u is_ip4 frame = Ok l.
Proof.
  remember (length frame) as n eqn:Hn. revert frame l Hn.
  induction n as [n IH] using (well_founded_induction Nat.lt_wf_0). intros [|b0 rest] l Hn H; [done|].
  assert (forall k, each (encap_single u is_ip4) rest = Ok k -> upf_encap_inline space u is_ip4 rest = Ok k) as Hr
    by (intros k; apply (IH (length rest)); [simpl in Hn; lia|done]).
  assert ((let* r := encap_single u is_ip4 b0 in let* l := upf_encap_inline space u is_ip4 rest in Ok (r :: l)) = Ok l) as Hs.
  { cbn [each] in H. destruct (encap_single u is_ip4 b0); [|done..]. cbn [obind] in *.
    destruct (each (encap_single u is_ip4) rest) as [k| |]; [|done..]. by rewrite (Hr k). }
  destruct rest as [|b1 [|b2 [|b3 rest4]]]; try exact Hs.
  cbn [upf_encap_inline]. destruct (_ && _); [|exact Hs].
  destruct (each_app _ [b0; b1; b2; b3] rest4 l H) as (k1 & k2 & E1 & E2 & ->).
  rewrite (encap_quad_each _ _ _ _ _ _ _ E1). cbn [obind].
  by rewrite (IH (length rest4) ltac:(simpl in Hn; lia) rest4 k2 eq_refl E2).
Qed.
End Frame.

(** ** Stale rules *)

Section Stale.
Context {P : VppPacket} {N : VppNet} `{SOk : VecSortOk}.

(** The index a kept TEID still has in the tunnel table may be past the end of
    the new rules: upf_input then takes a PDR from behind the vector. *)
Theorem stale_rule_faults (u : upf_main_t) (t : upf_session_t) si tbl new old r v alloc b h udp ver_flags len teid o payload :
  um_v4_tunnel u = update_v4_teids si tbl (v4_teids new) (v4_teids old) -> r ∈ new -> v4_rule_key r ∈ v4_rule_key <$> old ->
  tbl !! v4_rule_key r = Some v -> tunnel_key (dst_address true h) (de_be teid) = v4_rule_key r ->
  get_session (um_assoc u) (value_session v) = Ok t ->
  flag (r_flags (pfcp_get_rules t PFCP_ACTIVE)) PFCP_CLASSIFY = false -> value_rule v <> u32_none ->
  (length (vec_elts (r_pdr (pfcp_get_rules t PFCP_ACTIVE))) <= Z.to_nat (value_rule v))%nat ->
  gpdu_received b true h udp ver_flags len teid o payload -> 20 < Zlen payload -> has_start_key true b = false ->
  exists b1, input_alone u true (alloc, b) = Ok (mk_input (gpdu_next payload (value_rule v)) b1 None)
    /\ upf_input_packet u b1 = Fault BadIndex.
Proof using SOk.
  intros Hu Hr Ho Hv Hk Ht Hc Hne Hlen Hb Hpay Hs.
  assert (tunnel_table u true !! tunnel_key (dst_address true h) (de_be teid) = Some v) as Hl.
  { rewrite Hk, <- Hv. change (tunnel_table u true) with (um_v4_tunnel u). rewrite Hu. by apply teid_rule_index_stale. }
  destruct (gpdu_alone u true alloc b h udp ver_flags len teid o payload v t Hb Hpay Hl Hs Ht) as (b1 & E1 & Eo & _).
  assert (gpdu_pdr t (value_rule v) = value_rule v) as Ei by (unfold gpdu_pdr; by rewrite Hc). rewrite Ei in *.
  exists b1. split; [exact E1|]. unfold upf_input_packet. rewrite Eo. cbn [gtpu_session_index gtpu_pdr_idx gpdu_opaque]. rewrite Ht. cbn [obind].
  unfold pdr_and_far. destruct (Z.eqb_spec (value_rule v) u32_none); [done|]. by rewrite lookup_ge_None_2.
Qed.
End Stale.

(** ** End markers *)

Section EndMarker.
Context {P : VppPacket} {POk : VppPacketOk P}.

(** An end marker over IPv4: the rewrite of the FAR with the type of an end
    marker and a correct checksum. The packet has room for the optional part of a
    GTP-U header, which the rewrite has not: its last four octets are those the
    buffer happened to hold. *)
Theorem end_marker_octets (p0 : vlib_buffer_t) fib_index dpoi_index (l w stale r h : list Z) teid :
  vb_mem p0 = l ++ w ++ stale ++ r -> Zlen l = vlib_buffer_get_current p0 -> length w = 36%nat -> length stale = 4%nat -> vb_chain p0 = 0 ->
  length h = 20%nat -> csum_ok h -> field h 2 2 = [0; 0] ->
  exists q hash, upf_gtpu_end_marker (Some p0) fib_index dpoi_index (h ++ gtpu_octets teid) true = Ok (Some q)
    /\ packet_of q = encap_ip4 40 h ++ encap_udp 20 hash ++ [Z.lor GTPU_V1_VER GTPU_PT_GTP; GTPU_TYPE_END_MARKER; 0; 0] ++ be 4 teid ++ stale
    /\ csum_ok (encap_ip4 40 h) /\ vb_sw_if_index_tx q = fib_index /\ vb_adj_index q = dpoi_index.
Proof using POk.
  intros Hm Hl Hw Hst Hch Hh Hok H2. unfold upf_gtpu_end_marker. cbv zeta.
  change (vlib_buffer_get_current (set_vb_adj_index _ _)) with (vlib_buffer_get_current p0). rewrite <- Hl.
  change (ip_hdr_len true) with 20. change (sizeof_udp_header) with 8. change (sizeof_gtpu_header) with 12. simpl (20 + 8 + 12).
  set (b := set_vb_window _ _ _). change (vb_mem b) with (vb_mem p0). rewrite Hm.
  rewrite (mem_store_app l w) by (first [done|rewrite length_app, Hh, Hw; reflexivity]). cbn [obind].
  rewrite <- app_assoc.
  rewrite (on_header_app _ l h (gtpu_octets teid ++ stale ++ r)); [|done|done|unfold Zlen; rewrite Hh; reflexivity|plen]. cbn [obind].
  change (vlib_buffer_length_in_chain _) with (40 + vb_chain p0). rewrite Hch. change (40 + 0) with 40.
  fold (encap_ip4 40 h).
  set (h4 := encap_ip4 40 h). assert (Zlen h4 = 20) as Lh4 by (unfold h4, encap_ip4, Zlen; rewrite !length_patch, Hh; [reflexivity|plen|plen]).
  set (u0 := be 2 GTPU_UDP_PORT ++ be 2 GTPU_UDP_PORT ++ [0; 0; 0; 0]). set (g0 := [Z.lor GTPU_V1_VER GTPU_PT_GTP; GTPU_TYPE_GTPU; 0; 0]).
  replace (gtpu_octets teid ++ stale ++ r) with (u0 ++ g0 ++ be 4 teid ++ stale ++ r) by (unfold u0, g0, gtpu_octets; app_eq).
  set (rest := be 4 teid ++ stale ++ r).
  rewrite (on_header_app _ (l ++ h4) u0 (g0 ++ rest)); [|cbn [vb_mem set_vb_mem]; app_eq|rewrite Zlen_app; lia|done|done]. cbn [obind].
  set (hash := vnet_l2_compute_flow_hash _).
  rewrite (on_header_app _ (l ++ h4) (patch 4 (be 2 (8 + 12)) u0) (g0 ++ rest)); [|done|rewrite Zlen_app; lia|done|done]. cbn [obind].
  set (u1 := patch 0 _ _). change u1 with (encap_udp 20 hash). clear u1.
  rewrite (on_header_app _ (l ++ h4 ++ encap_udp 20 hash) g0 rest); [|cbn [vb_mem set_vb_mem]; app_eq|rewrite !Zlen_app; change (Zlen (encap_udp 20 hash)) with 8; lia|done|done].
  cbn [obind]. exists (set_vb_mem (set_vb_mem (set_vb_mem (set_vb_mem (set_vb_mem b (l ++ h ++ u0 ++ g0 ++ rest)) (l ++ h4 ++ u0 ++ g0 ++ rest))
     ((l ++ h4) ++ patch 4 (be 2 (8 + 12)) u0 ++ g0 ++ rest)) ((l ++ h4) ++ encap_udp 20 hash ++ g0 ++ rest))
     ((l ++ h4 ++ encap_udp 20 hash) ++ patch 2 [0; 0] (patch 1 [GTPU_TYPE_END_MARKER] g0) ++ rest)), hash.
  split; [reflexivity|]. split; [|split; [by apply encap_ip4_csum|done]].
  apply (packet_of_app _ l _ r); [cbn [vb_mem set_vb_mem]; unfold rest; app_eq|done|].
  rewrite !Zlen_app, Lh4. unfold Zlen. rewrite Hst. reflexivity.
Qed.
End EndMarker.

(** ** A packet on its path *)

From S2P Require Import ApiDemo.

Section Demo.
#[local] Existing Instance demo_vpp.

(** the next tunnel, 33 of 10.0.0.9, from 10.0.0.3 *)
Definition demo_rewrite_ip4 : list Z := [0x45; 0; 0; 0; 0; 0; 0; 0; 254; 17; 0xa8; 0xe1; 10; 0; 0; 3; 10; 0; 0; 9].
Definition demo_tunnel_far : upf_far_t :=
  {| far_id := 1; far_apply_action := FAR_FORWARD;
     far_forward := {| ff_flags := FAR_F_OUTER_HEADER_CREATION; ff_dst_intf := 1; ff_dst_sw_if_index := 1; ff_nwi_index := 0;
                       ff_redirect_information := leaf_zero K_redirect_information;
                       ff_outer_header_creation := Build_pfcp_outer_header_creation_t OUTER_HEADER_CREATION_GTP_IP4 33 (ip46_address_set_ip4 [10; 0; 0; 9]) 0 0 0;
                       ff_peer_idx := 0; ff_rewrite := Some (demo_rewrite_ip4 ++ gtpu_octets 33) |} |}.
Definition demo_path : upf_main_t :=
  set_um_peers (demo_tunnels (demo_rules [demo_pdr] [demo_tunnel_far]) [(demo_addr, 17, 0)] []) (mk_pool {[0 := mk_peer 1 0 true]} []).
(** the packet after upf-ip4-input, and after upf-ip4-forward *)
Definition demo_payload : vlib_buffer_t :=
  match input_alone demo_path true (None, demo_ext_packet [0; 0; 0; 17]) with
  | Ok r => match upf_input_packet demo_path (in_buffer r) with Ok (_, b) => b | _ => demo_alloc end
  | _ => demo_alloc
  end.
Definition demo_forwarded := upf_forward_packet demo_config (f64_of_Z 10) demo_path true demo_payload.

Lemma demo_forwards : exists u' ev, demo_forwarded = Ok (u', ev, UPF_FORWARD_NEXT_GTP_IP4_ENCAP, set_vb_error demo_payload None).
Proof.
  assert (match demo_forwarded with Ok (_, _, n, b) => Some (n, b) | _ => None end = Some (UPF_FORWARD_NEXT_GTP_IP4_ENCAP, set_vb_error demo_payload None))
    as H by (vm_compute; reflexivity).
  destruct demo_forwarded as [[[[u' ev] n] b]| |]; [|done..]. injection H as -> ->. eauto.
Qed.

Lemma gpdu_forwarded_witness :
  exists u' ev b4, demo_forwarded = Ok (u', ev, UPF_FORWARD_NEXT_GTP_IP4_ENCAP, set_vb_error demo_payload None)
    /\ encap_single u' true (set_vb_error demo_payload None) = Ok (0, b4)
    /\ drop 28 (packet_of b4) = gpdu_octets 0x34 [0; 32] [0; 0; 0; 33] demo_opt demo_inner.
Proof.
  destruct demo_forwards as (u' & ev & Hf).
  destruct (gpdu_forwarded demo_config (f64_of_Z 10) demo_path u' None (demo_ext_packet [0; 0; 0; 17]) demo_ip4 demo_udp 0x34 [0; 32] [0; 0; 0; 17]
    demo_opt demo_inner 0 (demo_sx (demo_rules [demo_pdr] [demo_tunnel_far])) demo_pdr demo_tunnel_far true ev
    (set_vb_error demo_payload None) demo_rewrite_ip4 33) as (b1 & b2 & E1 & E2 & _ & E3).
  - by apply demo_ext_received.
  - reflexivity.
  - vm_compute. reflexivity.
  - vm_compute. reflexivity.
  - reflexivity.
  - reflexivity.
  - by left.
  - reflexivity.
  - reflexivity.
  - vm_compute. reflexivity.
  - reflexivity.
  - by eexists.
  - assert (demo_payload = b2) as Eb by (unfold demo_payload; rewrite E1; cbn [in_buffer]; by rewrite E2).
    destruct E3 as (b4 & E4 & Hp & _); [rewrite <- Eb; exact Hf|]. exists u', ev, b4. split; [exact Hf|]. split; [exact E4|].
    rewrite Hp. vm_compute. reflexivity.
Defined.


Lemma encap_frame_each_witness :
  exists l, upf_encap_inline (fun _ => true) demo_path true (replicate 9 demo_payload) = Ok l /\ map fst l = replicate 9 0.
Proof.
  eexists. split; [apply encap_frame_each; vm_compute; reflexivity|reflexivity].
Defined.

(** the second of two rules keeps its index when the first is removed *)
Definition demo_stale : upf_main_t :=
  demo_tunnels (demo_rules [demo_pdr] []) [(demo_addr, 17, 0)] [(demo_addr, 16, 0); (demo_addr, 17, 1)].
Lemma stale_rule_faults_witness :
  exists b1, input_alone demo_stale true (None, demo_ext_packet [0; 0; 0; 17]) = Ok (mk_input UPF_GTPU_INPUT_NEXT_IP4_PROCESS b1 None)
    /\ upf_input_packet demo_stale b1 = Fault BadIndex.
Proof.
  apply (stale_rule_faults (SOk := insertion_sort_ok) demo_stale (demo_sx (demo_rules [demo_pdr] [])) 0
    (update_v4_teids 0 ∅ (v4_teids [(demo_addr, 16, 0); (demo_addr, 17, 1)]) None) [(demo_addr, 17, 0)] [(demo_addr, 16, 0); (demo_addr, 17, 1)]
    (demo_addr, 17, 0) (Z.shiftl 1 32) None (demo_ext_packet [0; 0; 0; 17]) demo_ip4 demo_udp 0x34 [0; 32] [0; 0; 0; 17] demo_opt demo_inner);
  try done.
  - by apply list_elem_of_singleton.
  - apply elem_of_cons. right. by apply list_elem_of_singleton.
  - by apply demo_ext_received.
Defined.

Lemma end_marker_octets_witness :
  exists q, upf_gtpu_end_marker (Some demo_alloc) 5 6 (demo_rewrite_ip4 ++ gtpu_octets 33) true = Ok (Some q)
    /\ drop 28 (packet_of q) = [0x30; 254; 0; 0; 0; 0; 0; 33; 238; 238; 238; 238].
Proof.
  destruct (end_marker_octets demo_alloc 5 6 (replicate 128 0) (replicate 36 238) (replicate 4 238) (replicate 88 238) demo_rewrite_ip4 33)
    as (q & hash & Hq & Hp & _); try done.
  exists q. split; [exact Hq|]. rewrite Hp. reflexivity.
Defined.
End Demo.
