(* ===== verification/GtpuEcho.v ===== *)
(** * GTP-U packets from the IP graph, and echo requests

    ip4-gtpu-upf-bypass and ip6-gtpu-upf-bypass take the GTP-U packets out of
    the features of IP (ip_gtpu_upf_bypass_inline); upf-gtp-ip4-echo-request and
    upf-gtp-ip6-echo-request make a response of an echo request in place. Both
    are of src/upf/upf_gtpu_decap.c. *)

From Stdlib Require Import ZArith Lia.
From stdpp Require Import base list list_numbers option numbers decidable gmap.
From S2P Require Import Prelude PfcpIo PfcpIe PfcpLeaf PfcpCodec UpfTypes UpfVec UpfRules UpfAssoc UpfTeid UpfMain UpfSession ApiRules GtpuBuf GtpuError GtpuDecap.
#[local] Open Scope upf_scope.

(** ** Echo requests *)

Definition sizeof_gtpu_ie_recovery : Z := 2.
Inductive gtpu_echo_req_next_t := UPF_GTPU_ECHO_REQ_NEXT_DROP | UPF_GTPU_ECHO_REQ_NEXT_REPLY.

(** the GTP-U header and the recovery element behind it *)
Definition echo_gtpu (g : list Z) : list Z :=
  let ver_flags := Z.land (nth 0 g 0) (Z.lnot (Z.lor GTPU_E_BIT GTPU_PN_BIT)) in
  let g := patch 0 [ver_flags] g in
  let g := if flag ver_flags GTPU_S_BIT then g else patch 8 (be 2 0) (patch 0 [Z.lor ver_flags GTPU_S_BIT] g) in
  let g := patch 1 [GTPU_TYPE_ECHO_RESPONSE] g in
  let g := patch 2 (be 2 (sizeof_gtpu_ie_recovery + 4)) g in
  let g := patch 4 (be 4 0) g in
  let g := patch 10 [0] g in
  let g := patch 11 [0] g in
  patch 12 [GTPU_IE_RECOVERY; 0] g.

(** the ports exchanged, the length, and no checksum yet *)
Definition echo_udp (u : list Z) : list Z :=
  let u := patch 0 (field u 2 2 ++ field u 0 2) u in
  patch 4 (be 2 (sizeof_udp_header + sizeof_gtpu_header + sizeof_gtpu_ie_recovery) ++ [0; 0]) u.

Section Echo.
Context {P : VppPacket}.

(** time to live, fragment id and length, with the checksum *)
Definition echo_ip4 (fid : list Z) (new_len : Z) (h : list Z) : list Z :=
  let sum := de_le (field h 10 2) in
  let sum := ip_csum_update sum (nth 8 h 0) (host_config_ttl true) 8 1 in
  let h := patch 8 [host_config_ttl true] h in
  let sum := ip_csum_update sum (de_le (field h 4 2)) (de_le fid) 4 2 in
  let h := patch 4 fid h in
  let sum := ip_csum_update sum (de_le (field h 2 2)) (de_le (be 2 new_len)) 2 2 in
  let h := patch 2 (be 2 new_len) h in
  patch 10 (le 2 (ip_csum_fold sum)) h.

(** the UDP header at [udp], and what both versions do last *)
Definition echo_finish (p0 : vlib_buffer_t) (is_ip4 : bool) (ip udp : Z) : outcome vlib_buffer_t :=
  let* p0 := on_header p0 udp 8 echo_udp in
  let* p0 := on_header p0 udp 8 (patch 6 (le 2 (udp_checksum is_ip4 p0 ip))) in
  Ok (set_vb_flags p0 (Z.lor (vb_flags p0) VNET_BUFFER_F_LOCALLY_ORIGINATED)).

(** a request over IPv4, with a random fragment id, of a release build *)
Definition ip4_echo_req (fid : list Z) (p0 : vlib_buffer_t) : outcome vlib_buffer_t :=
  let ip := vlib_buffer_get_current p0 in
  let* h := mem_load (vb_mem p0) ip 20 in
  let udp := ip + ip4_header_bytes h in
  let* p0 := on_header p0 (udp + sizeof_udp_header) (sizeof_gtpu_header + sizeof_gtpu_ie_recovery) echo_gtpu in
  let p0 := set_vb_sw_if_index p0 local_interface_sw_if_index (vb_sw_if_index_tx p0) in
  let* p0 := on_header p0 ip 20 (swap_addresses true) in
  let* h := mem_load (vb_mem p0) ip 20 in
  let new_len := wrap 16 (ip4_header_bytes h + sizeof_udp_header + sizeof_gtpu_header + sizeof_gtpu_ie_recovery) in
  let p0 := set_vb_window p0 (vb_current_data p0) new_len in
  let* p0 := on_header p0 ip 20 (echo_ip4 fid new_len) in
  echo_finish p0 true ip udp.

(** over IPv6 *)
Definition ip6_echo_req (p0 : vlib_buffer_t) : outcome vlib_buffer_t :=
  let ip := vlib_buffer_get_current p0 in
  let udp := ip + 40 in
  let* p0 := on_header p0 (udp + sizeof_udp_header) (sizeof_gtpu_header + sizeof_gtpu_ie_recovery) echo_gtpu in
  match ip_fib_index_by_sw_if_index false !! Z.to_nat (vb_sw_if_index_rx p0) with
  | None => Fault BadIndex
  | Some fib_index =>
      let p0 := set_vb_sw_if_index p0 (vb_sw_if_index_rx p0) fib_index in
      let new_len := sizeof_udp_header + sizeof_gtpu_header + sizeof_gtpu_ie_recovery in
      let* p0 := on_header p0 ip 40 (fun h => patch 4 (be 2 new_len) (patch 7 [host_config_ttl false] (swap_addresses false h))) in
      let p0 := set_vb_window p0 (vb_current_data p0) (40 + new_len) in
      echo_finish p0 false ip udp
  end.

(** the frames; over IPv4 every packet takes a fragment id *)
Fixpoint upf_gtp_ip4_echo_req_node (fragment_ids : list (list Z)) (frame : list vlib_buffer_t)
  : outcome (list (gtpu_echo_req_next_t * vlib_buffer_t)) :=
  match frame with
  | [] => Ok []
  | p0 :: frame =>
      match fragment_ids with
      | [] => Fault OobRead
      | fid :: fragment_ids =>
          let* p0 := ip4_echo_req fid p0 in
          let* l := upf_gtp_ip4_echo_req_node fragment_ids frame in Ok ((UPF_GTPU_ECHO_REQ_NEXT_REPLY, p0) :: l)
      end
  end.
Definition upf_gtp_ip6_echo_req_node (frame : list vlib_buffer_t) : outcome (list (gtpu_echo_req_next_t * vlib_buffer_t)) :=
  each (fun p0 => let* p0 := ip6_echo_req p0 in Ok (UPF_GTPU_ECHO_REQ_NEXT_REPLY, p0)) frame.
End Echo.

(** ** Bypass *)

Definition UDP_DST_PORT_GTPU : Z := 2152.

(** [NextFeature] is the node vnet_feature_next gives *)
Inductive bypass_next := NextFeature (n : Z) | IP_GTPU_UPF_BYPASS_NEXT_DROP | IP_GTPU_UPF_BYPASS_NEXT_GTPU.
#[export] Instance bypass_next_eq_dec : EqDecision bypass_next.
Proof. solve_decision. Defined.

Definition ip4_is_fragment (h : list Z) : bool := flag (de_be (field h 6 2)) (Z.lor 0x1fff 0x2000).
(** the protocol of a packet; fragments have one of their own *)
Definition bypass_proto (is_ip4 : bool) (h : list Z) : Z :=
  if is_ip4 then if ip4_is_fragment h then 0xfe else nth 9 h 0 else nth 6 h 0.

Section Bypass.
Context {P : VppPacket}.
(** the next feature of a packet, and the errors of ip4-input and ip6-input *)
Context (vnet_feature_next : vlib_buffer_t -> Z) (IP_ERROR_UDP_CHECKSUM IP_ERROR_UDP_LENGTH : bool -> Z).

(** the flags of a packet after its checksum was verified if need be, and the verdict *)
Definition bypass_checksum (is_ip4 : bool) (b : vlib_buffer_t) (udp_csum : list Z) : Z * bool :=
  let flags := vb_flags b in
  let good := flag flags VNET_BUFFER_F_L4_CHECKSUM_CORRECT || (de_be udp_csum =? 0) in
  if negb good && negb (flag flags VNET_BUFFER_F_L4_CHECKSUM_COMPUTED) then
    let flags := if is_ip4 then ip4_tcp_udp_validate_checksum b else ip6_tcp_udp_icmp_validate_checksum b in
    (flags, flag flags VNET_BUFFER_F_L4_CHECKSUM_CORRECT)
  else (flags, good).

(** from the checks of a GTP-U packet on *)
Definition bypass_gtpu (is_ip4 : bool) (b : vlib_buffer_t) (h u : list Z) : bypass_next * vlib_buffer_t :=
  let '(flags, good) := bypass_checksum is_ip4 b (field u 6 2) in
  let ip_len := de_be (if is_ip4 then field h 2 2 else field h 4 2) in
  let udp_len := de_be (field u 4 2) in
  let error := if good then 0 else IP_ERROR_UDP_CHECKSUM is_ip4 in
  let error := if 0 <=? ip_len - udp_len then error else IP_ERROR_UDP_LENGTH is_ip4 in
  let b := set_vb_error (set_vb_flags b flags) (if error =? 0 then None else Some error) in
  (if error =? 0 then IP_GTPU_UPF_BYPASS_NEXT_GTPU else IP_GTPU_UPF_BYPASS_NEXT_DROP,
   vlib_buffer_advance b (ip_hdr_len is_ip4 + sizeof_udp_header)).

Definition bypass_packet (is_ip4 : bool) (b : vlib_buffer_t) : outcome (bypass_next * vlib_buffer_t) :=
  let ip := vlib_buffer_get_current b in
  let next := NextFeature (vnet_feature_next b) in
  let* h := mem_load (vb_mem b) ip (ip_hdr_len is_ip4) in
  if negb (bypass_proto is_ip4 h =? IP_PROTOCOL_UDP) then Ok (next, b)
  else
    let* u := mem_load (vb_mem b) (ip + ip_next_header is_ip4 h) 8 in
    if negb (de_be (field u 2 2) =? UDP_DST_PORT_GTPU) then Ok (next, b)
    else Ok (bypass_gtpu is_ip4 b h u).

(** an iteration of the dual loop: the IP headers of both packets are read first *)
Definition bypass_dual (is_ip4 : bool) (b0 b1 : vlib_buffer_t) : outcome (list (bypass_next * vlib_buffer_t)) :=
  let* _ := mem_load (vb_mem b0) (vlib_buffer_get_current b0) (ip_hdr_len is_ip4) in
  let* _ := mem_load (vb_mem b1) (vlib_buffer_get_current b1) (ip_hdr_len is_ip4) in
  let* r0 := bypass_packet is_ip4 b0 in
  let* r1 := bypass_packet is_ip4 b1 in
  Ok [r0; r1].

(** the loops of a frame; [space] as in upf_gtpu_input *)
Fixpoint ip_gtpu_upf_bypass_inline (space : nat -> bool) (is_ip4 : bool) (frame : list vlib_buffer_t)
  : outcome (list (bypass_next * vlib_buffer_t)) :=
  match frame with
  | [] => Ok []
  | b0 :: rest =>
      match rest with
      | b1 :: rest2 =>
          if (4 <=? length frame)%nat && space (length frame) then
            let* l2 := bypass_dual is_ip4 b0 b1 in
            let* l := ip_gtpu_upf_bypass_inline space is_ip4 rest2 in Ok (l2 ++ l)
          else
            let* r := bypass_packet is_ip4 b0 in
            let* l := ip_gtpu_upf_bypass_inline space is_ip4 rest in Ok (r :: l)
      | [] => let* r := bypass_packet is_ip4 b0 in Ok [r]
      end
  end.
End Bypass.

(** ** An echo request is answered *)

Section Answer.
Context {P : VppPacket} {POk : VppPacketOk P} {N : VppNet}.

(** the octets of an echo request from the GTP-U header on, of which the last two
    are of the elements, if it has any, or after the packet *)
Definition echo_request (ver_flags : Z) (len teid seq x : list Z) : list Z :=
  [ver_flags; GTPU_TYPE_ECHO_REQUEST] ++ len ++ teid ++ seq ++ x.
(** the response *)
Definition echo_response (ver_flags : Z) (seq : list Z) : list Z :=
  [Z.land ver_flags (Z.lnot (Z.lor GTPU_E_BIT GTPU_PN_BIT)); GTPU_TYPE_ECHO_RESPONSE] ++ be 2 6 ++ be 4 0 ++ seq ++ [0; 0; GTPU_IE_RECOVERY; 0].

Lemma flag_land_lnot f m k : Z.land m k = 0 -> flag (Z.land f (Z.lnot k)) m = flag f m.
Proof.
  intros H. unfold flag. f_equal. f_equal. rewrite <- Z.land_assoc. f_equal. apply Z.bits_inj. intros n.
  apply (f_equal (fun z => Z.testbit z n)) in H. destruct (Z.le_gt_cases 0 n); [|by rewrite !Z.testbit_neg_r by done].
  rewrite Z.land_spec, Z.bits_0 in H. rewrite Z.land_spec, Z.lnot_spec by done. destruct (Z.testbit k n), (Z.testbit m n); done.
Qed.

Lemma echo_gtpu_octets ver_flags len teid seq x :
  flag ver_flags GTPU_S_BIT = true -> length len = 2%nat -> length teid = 4%nat -> length seq = 2%nat -> length x = 4%nat ->
  echo_gtpu (echo_request ver_flags len teid seq x) = echo_response ver_flags seq.
Proof.
  intros HS Hl Ht Hs Hx. explode len Hl. explode teid Ht. explode seq Hs. explode x Hx.
  unfold echo_gtpu, echo_request, echo_response. cbv zeta. cbn [nth app]. rewrite flag_land_lnot by done. by rewrite HS.
Qed.

(** the headers of the response *)
Definition echo_ports (u : list Z) : list Z := field u 2 2 ++ field u 0 2.
Lemma echo_udp_octets u : length u = 8%nat -> echo_udp u = echo_ports u ++ be 2 22 ++ [0; 0].
Proof. intros Hu. explode u Hu. reflexivity. Qed.

Lemma echo_ip4_csum fid n h : length h = 20%nat -> csum_ok h -> length fid = 2%nat -> csum_ok (echo_ip4 fid n (swap_addresses true h)).
Proof using POk.
  intros Hh Hok Hf. set (h1 := swap_addresses true h).
  assert (length h1 = 20%nat) as Hh1 by (unfold h1; rewrite length_swap_addresses; unfold Zlen; rewrite ?Hh; done).
  assert (csum_ok h1) as Hok1 by (unfold csum_ok, h1; by rewrite swap_addresses_sum).
  exact (csum_with_end _ _ (csum_with_word _ _ 2 (be 2 n) ltac:(by exists 1%nat) ltac:(done) ltac:(lia)
    (csum_with_word _ _ 4 fid ltac:(by exists 2%nat) Hf ltac:(lia)
    (csum_with_ttl _ _ (host_config_ttl true) (csum_with_start h1 Hh1 Hok1))))).
Qed.

Lemma echo_ip4_addresses fid n h : length h = 20%nat -> length fid = 2%nat ->
  length (echo_ip4 fid n (swap_addresses true h)) = 20%nat
  /\ src_address true (echo_ip4 fid n (swap_addresses true h)) = dst_address true h
  /\ dst_address true (echo_ip4 fid n (swap_addresses true h)) = src_address true h.
Proof. intros Hh Hf. explode h Hh. explode fid Hf. done. Qed.

(** the request in a buffer that is at its IP header *)
Lemma ip4_echo_req_octets (p : vlib_buffer_t) (l h udp r : list Z) fid ver_flags len teid seq x :
  vb_mem p = l ++ h ++ udp ++ echo_request ver_flags len teid seq x ++ r -> Zlen l = vlib_buffer_get_current p ->
  length h = 20%nat -> ip4_header_bytes h = 20 -> length udp = 8%nat -> length fid = 2%nat ->
  flag ver_flags GTPU_S_BIT = true -> length len = 2%nat -> length teid = 4%nat -> length seq = 2%nat -> length x = 4%nat ->
  exists q csum, ip4_echo_req fid p = Ok q
    /\ packet_of q = echo_ip4 fid 42 (swap_addresses true h) ++ (echo_ports udp ++ be 2 22 ++ le 2 csum) ++ echo_response ver_flags seq
    /\ vb_sw_if_index_rx q = local_interface_sw_if_index.
Proof.
  intros Hm Hc Hh Hihl Hu Hf HS Hlen Hteid Hseq Hx. set (g := echo_request ver_flags len teid seq x) in *.
  assert (length g = 14%nat) as Lg by (unfold g, echo_request; rewrite !length_app, Hlen, Hteid, Hseq, Hx; done).
  assert (Zlen h = 20) as Zh by (unfold Zlen; by rewrite Hh). assert (Zlen udp = 8) as Zu by (unfold Zlen; by rewrite Hu).
  assert (Zlen g = 14) as Zg by (unfold Zlen; by rewrite Lg).
  unfold ip4_echo_req. cbv zeta. rewrite <- Hc, Hm, (mem_load_app l h) by done. cbn [obind]. rewrite Hihl.
  change (sizeof_gtpu_header + sizeof_gtpu_ie_recovery) with 14. change sizeof_udp_header with 8.
  rewrite (on_header_app p (l ++ h ++ udp) g r); [|rewrite Hm; app_eq|rewrite !Zlen_app; lia|lia|].
  2: { unfold g. rewrite echo_gtpu_octets by done. unfold echo_response. fold g. rewrite Lg, !length_app, Hseq. done. }
  cbn [obind]. unfold g at 1. rewrite echo_gtpu_octets by done. set (gr := echo_response ver_flags seq).
  pose proof (length_swap_addresses true h ltac:(done)) as Ls.
  rewrite (on_header_app _ l h (udp ++ gr ++ r)); [|cbn [vb_mem set_vb_mem set_vb_sw_if_index]; app_eq|done|done|done]. cbn [obind].
  cbn [vb_mem set_vb_mem set_vb_sw_if_index]. rewrite (mem_load_app l (swap_addresses true h)) by (unfold Zlen; rewrite ?Ls, ?Hh; done). cbn [obind].
  rewrite swap_header_bytes, Hihl by (by destruct h). change (wrap 16 (20 + 8 + sizeof_gtpu_header + sizeof_gtpu_ie_recovery)) with 42.
  destruct (echo_ip4_addresses fid 42 h Hh Hf) as (L4 & _). set (h4 := echo_ip4 fid 42 _) in *.
  rewrite (on_header_app _ l (swap_addresses true h) (udp ++ gr ++ r)); [|done|done|unfold Zlen; by rewrite Ls, Hh|fold h4; lia]. cbn [obind]. fold h4.
  unfold echo_finish.
  rewrite (on_header_app _ (l ++ h4) udp (gr ++ r)); [|cbn [vb_mem set_vb_mem]; app_eq|rewrite Zlen_app; unfold Zlen at 3; lia|lia|rewrite echo_udp_octets by done; explode udp Hu; done].
  cbn [obind]. rewrite echo_udp_octets by done. set (csum := udp_checksum _ _ _).
  assert (patch 6 (le 2 csum) (echo_ports udp ++ be 2 22 ++ [0; 0]) = echo_ports udp ++ be 2 22 ++ le 2 csum) as Ep
    by (clearbody csum; explode udp Hu; done).
  rewrite (on_header_app _ (l ++ h4) (echo_ports udp ++ be 2 22 ++ [0; 0]) (gr ++ r));
    [|done|rewrite Zlen_app; unfold Zlen at 3; lia|unfold Zlen; explode udp Hu; done|rewrite Ep; explode udp Hu; done].
  cbn [obind]. rewrite Ep. eexists _, csum. split; [reflexivity|]. split; [|done].
  apply (packet_of_app _ l _ r); [cbn [vb_mem set_vb_mem set_vb_flags]; app_eq|done|].
  cbn [vb_current_length set_vb_mem set_vb_flags set_vb_window]. unfold Zlen. rewrite !length_app, L4, length_le.
  unfold gr, echo_response, echo_ports. rewrite !length_app, !length_field, Hseq by lia. reflexivity.
Qed.
End Answer.

(** ** From the interface to the response *)

Section Chain.
Context {P : VppPacket} {POk : VppPacketOk P} {N : VppNet}.
Context (fn : vlib_buffer_t -> Z) (ce lenerr : bool -> Z).

(** a buffer at the IPv4 header of a packet to the port of GTP-U, with no options,
    not a fragment, with a UDP length that fits and a checksum that is right or
    absent *)
Record to_gtpu_port (b : vlib_buffer_t) (h udp rest : list Z) : Prop := {
  tp_mem : exists l, vb_mem b = l ++ h ++ udp ++ rest /\ Zlen l = vlib_buffer_get_current b;
  tp_h : length h = 20%nat;
  tp_ihl : ip4_header_bytes h = 20;
  tp_proto : ip4_is_fragment h = false /\ nth 9 h 0 = IP_PROTOCOL_UDP;
  tp_udp : length udp = 8%nat;
  tp_port : de_be (field udp 2 2) = UDP_DST_PORT_GTPU;
  tp_csum : snd (bypass_checksum true b (field udp 6 2)) = true;
  tp_len : de_be (field udp 4 2) <= de_be (field h 2 2);
  tp_window : 28 <= vb_current_length b < 65000
}.

Lemma bypass_to_gtpu b h udp rest : to_gtpu_port b h udp rest ->
  bypass_packet fn ce lenerr true b
  = Ok (IP_GTPU_UPF_BYPASS_NEXT_GTPU,
        vlib_buffer_advance (set_vb_error (set_vb_flags b (fst (bypass_checksum true b (field udp 6 2)))) None) 28).
Proof.
  intros [(l & Hm & Hl) Hh Hihl [Hfr Hp] Hu Hport Hcs Hlen _]. unfold bypass_packet. cbv zeta.
  change (ip_hdr_len true) with 20. rewrite <- Hl, Hm, (mem_load_app l h) by (unfold Zlen; rewrite ?Hh; done). cbn [obind].
  unfold bypass_proto. rewrite Hfr, Hp, Z.eqb_refl. cbn [negb]. change (ip_next_header true h) with (ip4_header_bytes h). rewrite Hihl, app_assoc.
  rewrite (mem_load_app (l ++ h) udp rest) by (rewrite ?Zlen_app; unfold Zlen; rewrite ?Hh, ?Hu; done). cbn [obind]. rewrite Hport, Z.eqb_refl. cbn [negb].
  unfold bypass_gtpu. destruct (bypass_checksum true b (field udp 6 2)) as [flags good]. simpl in Hcs. subst good.
  destruct (Z.leb_spec 0 (de_be (field h 2 2) - de_be (field udp 4 2))); [|lia]. done.
Qed.

(** C22. An echo request is answered: a GTP-U echo request with a sequence number
    that arrives at an IPv4 address of the plugin is taken out of the IP graph,
    recognised, and turned into an echo response of 42 octets in its own buffer:
    from the address and port it went to, to those it came from, with a correct
    IP header checksum, the TEID 0, the sequence number of the request and a
    recovery element; nothing of the rest of the request is sent back. *)
Theorem echo_answered (u : upf_main_t) alloc b h udp r fid ver_flags len teid seq x :
  to_gtpu_port b h udp (echo_request ver_flags len teid seq x ++ r) -> csum_ok h -> length fid = 2%nat ->
  Z.land ver_flags GTPU_VER_MASK = GTPU_V1_VER -> flag ver_flags GTPU_S_BIT = true ->
  length len = 2%nat -> length teid = 4%nat -> length seq = 2%nat -> length x = 4%nat ->
  exists b1 b2 q h' csum, bypass_packet fn ce lenerr true b = Ok (IP_GTPU_UPF_BYPASS_NEXT_GTPU, b1)
    /\ input_alone u true (alloc, b1) = Ok (mk_input UPF_GTPU_INPUT_NEXT_ECHO_REQUEST b2 None)
    /\ ip4_echo_req fid b2 = Ok q
    /\ packet_of q = h' ++ (field udp 2 2 ++ field udp 0 2 ++ be 2 22 ++ le 2 csum) ++ echo_response ver_flags seq
    /\ length h' = 20%nat /\ csum_ok h' /\ src_address true h' = dst_address true h /\ dst_address true h' = src_address true h.
Proof using POk.
  intros Hb Hok Hf Hv HS Hlen Hteid Hseq Hx. pose proof (bypass_to_gtpu _ _ _ _ Hb) as E1.
  destruct Hb as [(l & Hm & Hl) Hh Hihl _ Hu _ _ _ Hw]. set (b1 := vlib_buffer_advance _ 28) in *. set (g := echo_request ver_flags len teid seq x) in *.
  assert (vb_current_length b1 = vb_current_length b - 28) as Lb1
    by (unfold b1; rewrite adv_length; cbn [vb_current_length set_vb_error set_vb_flags]; lia).
  destruct (input_prepare_window true b1 ltac:(lia)) as [Hc2 _]. set (b2 := input_prepare true b1) in *.
  assert (vlib_buffer_get_current b2 = Zlen l) as Hcb2.
  { rewrite Hc2. unfold b1. rewrite adv_current. change (vlib_buffer_get_current (set_vb_error _ _)) with (vlib_buffer_get_current b).
    change (ip_hdr_len true) with 20. lia. }
  assert (vb_mem b2 = (l ++ h ++ udp) ++ g ++ r) as Hm2 by (change (vb_mem b2) with (vb_mem b); rewrite Hm; app_eq).
  assert (Zlen (l ++ h ++ udp) = Zlen l + 28) as Ll by (rewrite !Zlen_app; unfold Zlen; rewrite Hh, Hu; lia).
  assert (2 <= Zlen (g ++ r)) as Lg.
  { rewrite Zlen_app. pose proof (Zlen_nonneg r). unfold g, echo_request, Zlen. rewrite !length_app, Hx. simpl length. lia. }
  set (b3 := set_vb_error (UPF_ENTER_SUBGRAPH b2 u32_none true) None).
  assert (input_alone u true (alloc, b1) = Ok (mk_input UPF_GTPU_INPUT_NEXT_ECHO_REQUEST b3 None)) as E2.
  { unfold input_alone, input_single, input_process. cbv zeta. cbn [fst snd]. fold b2. rewrite Hcb2, Hm2.
    change (ip_hdr_len true) with 20. change sizeof_udp_header with 8. unfold o_ver_flags, o_type.
    rewrite (mem_u8_at (l ++ h ++ udp) _ _ 0) by lia. cbn [obind]. change (nth (Z.to_nat 0) (g ++ r) 0) with ver_flags.
    rewrite (mem_u8_at (l ++ h ++ udp) _ _ 1) by lia. cbn [obind]. change (nth (Z.to_nat 1) (g ++ r) 0) with GTPU_TYPE_ECHO_REQUEST.
    rewrite Hv, Z.eqb_refl. cbn [negb]. unfold upf_gtpu_signalling_msg, flag in *. apply negb_true_iff in HS. rewrite HS. done. }
  destruct (ip4_echo_req_octets b3 l h udp r fid ver_flags len teid seq x) as (q & csum & E3 & Hp & _); try done.
  destruct (echo_ip4_addresses fid 42 h Hh Hf) as (L4 & Hs & Hd).
  exists b1, b3, q, (echo_ip4 fid 42 (swap_addresses true h)), csum. split; [exact E1|]. split; [exact E2|]. split; [exact E3|].
  split; [rewrite Hp; unfold echo_ports; app_eq|]. split; [exact L4|]. split; [by apply echo_ip4_csum|]. done.
Qed.

(** ** Frames *)

(** The dual loop of ip_gtpu_upf_bypass_inline, which reads both IP headers
    first, does to the packets of a frame what the single loop does. *)
Lemma bypass_dual_each is_ip4 b0 b1 l :
  each (bypass_packet fn ce lenerr is_ip4) [b0; b1] = Ok l -> bypass_dual fn ce lenerr is_ip4 b0 b1 = Ok l.
Proof.
  cbn [each]. unfold bypass_dual. destruct (bypass_packet _ _ _ _ b0) as [r0| |] eqn:E0; [|done..]. cbn [obind].
  destruct (bypass_packet _ _ _ _ b1) as [r1| |] eqn:E1; [|done..]. cbn [obind]. intros [= <-].
  unfold bypass_packet in E0, E1. destruct (mem_load _ _ (ip_hdr_len is_ip4)); [|done..]. cbn [obind] in *.
  by destruct (mem_load (vb_mem b1) _ (ip_hdr_len is_ip4)).
Qed.

Theorem bypass_frame_each space is_ip4 frame : forall l,
  each (bypass_packet fn ce lenerr is_ip4) frame = Ok l -> ip_gtpu_upf_bypass_inline fn ce lenerr space is_ip4 frame = Ok l.
Proof.
  remember (length frame) as n eqn:Hn. revert frame Hn.
  induction n as [n IH] using (well_founded_induction Nat.lt_wf_0). intros [|b0 rest] Hn l H; [done|].
  assert (forall k, each (bypass_packet fn ce lenerr is_ip4) rest = Ok k -> ip_gtpu_upf_bypass_inline fn ce lenerr space is_ip4 rest = Ok k) as Hr
    by (intros k; apply (IH (length rest)); [simpl in Hn; lia|done]).
  assert ((let* r := bypass_packet fn ce lenerr is_ip4 b0 in let* l := ip_gtpu_upf_bypass_inline fn ce lenerr space is_ip4 rest in Ok (r :: l)) = Ok l) as Hs.
  { cbn [each] in H. destruct (bypass_packet fn ce lenerr is_ip4 b0); [|done..]. cbn [obind] in *.
    destruct (each (bypass_packet fn ce lenerr is_ip4) rest) as [k| |]; [|done..]. by rewrite (Hr k). }
  destruct rest as [|b1 rest2]; [exact Hs|]. cbn [ip_gtpu_upf_bypass_inline]. destruct (_ && _); [|exact Hs].
  destruct (each_app _ [b0; b1] rest2 l H) as (k1 & k2 & E1 & E2 & ->). rewrite (bypass_dual_each _ _ _ _ E1). cbn [obind].
  by rewrite (IH (length rest2) ltac:(simpl in Hn; lia) rest2 eq_refl k2 E2).
Qed.
End Chain.

(** ** A request *)

From S2P Require Import ApiDemo.

Section Demo.
#[local] Existing Instance demo_vpp.

(** with the sequence number 5, an N-PDU number flag and no elements; the buffer
    has room behind it *)
Definition demo_echo : vlib_buffer_t :=
  let w := demo_ip4 ++ demo_udp ++ [0x33; 1; 0; 4; 0; 0; 0; 0; 0; 5; 9; 9] in demo_buffer 0 w w.

Lemma echo_answered_witness :
  exists b1 b2 q, bypass_packet (fun _ => 3) (fun _ => 4) (fun _ => 5) true demo_echo = Ok (IP_GTPU_UPF_BYPASS_NEXT_GTPU, b1)
    /\ input_alone demo_main true (None, b1) = Ok (mk_input UPF_GTPU_INPUT_NEXT_ECHO_REQUEST b2 None)
    /\ ip4_echo_req [1; 2] b2 = Ok q /\ drop 28 (packet_of q) = [0x32; 2; 0; 6; 0; 0; 0; 0; 0; 5; 0; 0; 14; 0]
    /\ csum_ok (take 20 (packet_of q)).
Proof.
  destruct (echo_answered (fun _ => 3) (fun _ => 4) (fun _ => 5) demo_main None demo_echo demo_ip4 demo_udp (replicate 126 238) [1; 2] 0x33
    [0; 4] [0; 0; 0; 0] [0; 5] [9; 9; 238; 238]) as (b1 & b2 & q & h' & csum & E1 & E2 & E3 & Hp & Hl & Hok & _); try done.
  - split; try done. by exists (replicate 128 0).
  - exists b1, b2, q. split; [exact E1|]. split; [exact E2|]. split; [exact E3|]. rewrite Hp. split.
    + explode h' Hl. reflexivity.
    + rewrite take_app_le by lia. by rewrite take_ge by lia.
Defined.
End Demo.
