(* ===== verification/TcpSplice.v ===== *)
(** * Spliced TCP connections

    The proxy ends the TCP connections of a flow on both sides. Once nothing has
    to be looked at any more the two are spliced: splice_tcp_connection of
    src/upf/upf_proxy_input.c keeps the differences of their sequence numbers
    in the flow and removes both, and upf-tcp4-forward translates every segment
    that follows (src/upf/upf_tcp_forward.c). upf_proxy_input chooses between
    the two for a packet to the proxy; upf_proxy_output
    (src/upf/upf_proxy_output.c) takes the packets the proxy sends. The
    connections belong to VPP and are a parameter. *)

From Stdlib Require Import ZArith Lia.
From stdpp Require Import base list list_numbers option numbers decidable gmap.
From S2P Require Import Prelude PfcpIo PfcpIe PfcpLeaf PfcpCodec UpfTypes UpfVec UpfUrr UpfRules UpfAssoc UpfTeid UpfMain UpfSession FlowTcp FlowKey FlowTable GtpuBuf GtpuError GtpuDecap GtpuPath.
#[local] Open Scope upf_scope.

(** ** Flows and connections *)

Definition flow_tc (f : flow_entry_t) (d : flow_direction_t) : flow_tc_t := flow_member f (fe_tc f) d.
Definition flow_seq_offs (f : flow_entry_t) (d : flow_direction_t) : Z := flow_member f (fe_seq_offs f) d.
Definition flow_tsval_offs (f : flow_entry_t) (d : flow_direction_t) : Z := flow_member f (fe_tsval_offs f) d.

(** the members of the proxy *)
Definition fe_set_splice (f : flow_entry_t) (spliced dirty dont : bool) (seq tsval : order Z) : flow_entry_t :=
  mk_flow (fe_key f) (fe_session_index f) (fe_is_reverse f) (fe_is_redirect f) (fe_is_l3_proxy f)
    spliced dirty dont (fe_app_detection_done f) (fe_tcp_state f) (fe_ps_index f) (fe_stats f) (fe_active f) (fe_lifetime f) (fe_timer_index f)
    (fe_application_id f) (fe_pdr_id f) (fe_teid f) (fe_next f) (fe_tc f) seq tsval (fe_app_uri f) (fe_generation f).
Definition set_dont_splice (f : flow_entry_t) : flow_entry_t :=
  fe_set_splice f (fe_is_spliced f) (fe_spliced_dirty f) true (fe_seq_offs f) (fe_tsval_offs f).
Definition set_seq_offs (f : flow_entry_t) (d : flow_direction_t) (x : Z) : flow_entry_t :=
  fe_set_splice f (fe_is_spliced f) (fe_spliced_dirty f) (fe_dont_splice f) (flow_member_set f (fe_seq_offs f) d x) (fe_tsval_offs f).
Definition set_tsval_offs (f : flow_entry_t) (d : flow_direction_t) (x : Z) : flow_entry_t :=
  fe_set_splice f (fe_is_spliced f) (fe_spliced_dirty f) (fe_dont_splice f) (fe_seq_offs f) (flow_member_set f (fe_tsval_offs f) d x).
Definition set_spliced (f : flow_entry_t) (dirty : bool) : flow_entry_t :=
  fe_set_splice f true dirty (fe_dont_splice f) (fe_seq_offs f) (fe_tsval_offs f).

(** what the splice reads of a tcp_connection_t: an ip46_address_t and a port per side *)
Record tcp_connection_t := mk_conn {
  conn_rmt : list Z * Z; conn_lcl : list Z * Z; conn_snd_nxt : Z; conn_rcv_nxt : Z;
  conn_snd_mss : Z; conn_rcv_mss : Z; conn_tstamp : bool; conn_sack_permitted : bool }.

(** the connection of an index and a thread; the octets in the receive and
    transmit FIFOs of its session, if it has one; the timestamp of the options of
    a TCP header, if they can be read ([tcp_options_parse]); the clock *)
Class VppTcp := {
  transport_get_connection : Z -> Z -> option tcp_connection_t;
  session_fifos : Z -> Z -> option (Z * Z);
  tcp_options_tsval : list Z -> option Z;
  tcp_time_now : Z
}.

Definition tcp_flow_is_valid (tc : option tcp_connection_t) (f : flow_entry_t) (direction : flow_direction_t) : bool :=
  let origin := dir_xor direction (fe_is_reverse f) in
  let reverse := dir_xor (dir_xor direction FT_REVERSE) (fe_is_reverse f) in
  match tc with
  | None => true
  | Some tc =>
      bool_decide (order_get (fk_ip (fe_key f)) origin = fst (conn_rmt tc))
      && bool_decide (order_get (fk_ip (fe_key f)) reverse = fst (conn_lcl tc))
      && (order_get (fk_port (fe_key f)) origin =? snd (conn_rmt tc)) && (order_get (fk_port (fe_key f)) reverse =? snd (conn_lcl tc))
  end.

Definition UPF_PROXY_INPUT_NEXT_DROP : Z := 0.
Definition UPF_PROXY_INPUT_NEXT_TCP_INPUT : Z := 1.
Definition UPF_PROXY_INPUT_NEXT_TCP_INPUT_LOOKUP : Z := 2.
Definition UPF_PROXY_INPUT_NEXT_TCP_FORWARD : Z := 3.
Definition UPF_PROXY_INPUT_NEXT_PROXY_ACCEPT : Z := 4.

Section Splice.
Context {T : VppTcp}.

(** the next node, the flow, and the connections that were removed *)
Definition splice_tcp_connection (flow : flow_entry_t) (direction : flow_direction_t)
  : outcome (Z * flow_entry_t * list flow_tc_t) :=
  let origin := dir_xor FT_ORIGIN direction in
  let reverse := dir_xor FT_REVERSE direction in
  let rev := flow_tc flow reverse in
  let ftc := flow_tc flow origin in
  let stay f := Ok (UPF_PROXY_INPUT_NEXT_TCP_INPUT, f, []) in
  if tc_conn_index rev =? u32_none then stay flow
  else if fe_dont_splice flow then stay flow
  else match transport_get_connection (tc_conn_index ftc) (tc_thread_index ftc),
             session_fifos (tc_conn_index ftc) (tc_thread_index ftc) with
  | None, _ => stay flow
  | _, None => stay flow
  | Some rx, Some (rx_fifo, tx_fifo) =>
      let tx := transport_get_connection (tc_conn_index rev) (tc_thread_index rev) in
      if negb (tcp_flow_is_valid (Some rx) flow direction && tcp_flow_is_valid tx flow (dir_xor FT_REVERSE direction)) then Fault Assertion
      else match tx with
      | None => stay flow
      | Some tx =>
          if (conn_rcv_mss tx <? conn_snd_mss rx) || (conn_rcv_mss rx <? conn_snd_mss tx) then stay (set_dont_splice flow)
          else if negb (eqb (conn_tstamp tx) (conn_tstamp rx)) then stay (set_dont_splice flow)
          else if negb (eqb (conn_sack_permitted tx) (conn_sack_permitted rx)) then stay (set_dont_splice flow)
          else
            let is_origin := bool_decide (direction = FT_ORIGIN) in
            let flow :=
              if flow_seq_offs flow origin =? 0
              then set_seq_offs flow origin
                     (wrap 32 (if is_origin then conn_snd_nxt tx - conn_rcv_nxt rx else conn_rcv_nxt rx - conn_snd_nxt tx))
              else flow in
            let flow :=
              if flow_seq_offs flow reverse =? 0
              then set_seq_offs flow reverse
                     (wrap 32 (if is_origin then conn_rcv_nxt tx - conn_snd_nxt rx else conn_snd_nxt rx - conn_rcv_nxt tx))
              else flow in
            let dirty := negb (rx_fifo =? 0) || negb (tx_fifo =? 0) in
            Ok (UPF_PROXY_INPUT_NEXT_TCP_FORWARD, set_spliced flow (fe_spliced_dirty flow || dirty), [ftc; rev])
      end
  end.
End Splice.

(** ** Translation of segments *)

Definition TCP_OPTION_EOL : Z := 0.
Definition TCP_OPTION_NOOP : Z := 1.
Definition TCP_OPTION_SACK_BLOCK : Z := 5.
Definition TCP_OPTION_TIMESTAMP : Z := 8.
Definition TCP_OPTION_LEN_TIMESTAMP : Z := 10.
Definition TCP_OPTION_LEN_SACK_BLOCK : Z := 8.
Definition TCP_FLAG_SYN : Z := 0x02.
Definition TCP_FLAG_ACK : Z := 0x10.
Definition sizeof_tcp_header : Z := 20.

(** a u32 of the memory, in network order, is changed *)
Definition net_add (m : list Z) (data add : Z) : outcome (list Z) :=
  let* l := mem_load m data 4 in mem_store m data (be 4 (wrap 32 (de_be l + add))).
Definition net_sub (m : list Z) (data sub : Z) : outcome (list Z) :=
  let* l := mem_load m data 4 in mem_store m data (be 4 (wrap 32 (de_be l - sub))).

(** an edge of a SACK block *)
Definition sack_edge (flow : flow_entry_t) (direction : flow_direction_t) (m : list Z) (data : Z) : outcome (list Z) :=
  match direction with
  | FT_ORIGIN => net_add m data (flow_seq_offs flow FT_REVERSE)
  | FT_REVERSE => net_sub m data (flow_seq_offs flow FT_ORIGIN)
  end.
Fixpoint sack_blocks (blocks : nat) (flow : flow_entry_t) (direction : flow_direction_t) (m : list Z) (data : Z) : outcome (list Z) :=
  match blocks with
  | O => Ok m
  | S blocks =>
      let* m := sack_edge flow direction m data in
      let* m := sack_edge flow direction m (data + 4) in
      sack_blocks blocks flow direction m (data + 8)
  end.

(** an option of known length, at [data] *)
Definition tcp_option_mod (flow : flow_entry_t) (direction : flow_direction_t) (flags : Z) (m : list Z) (data kind opt_len : Z) : outcome (list Z) :=
  if kind =? TCP_OPTION_TIMESTAMP then
    if opt_len =? TCP_OPTION_LEN_TIMESTAMP then
      let* m := net_sub m (data + 2) (flow_tsval_offs flow direction) in
      if flag flags TCP_FLAG_ACK then net_add m (data + 6) (flow_tsval_offs flow (dir_xor FT_REVERSE direction)) else Ok m
    else Ok m
  else if kind =? TCP_OPTION_SACK_BLOCK then
    if flag flags TCP_FLAG_SYN then Ok m
    else if (opt_len <? 10) || negb ((opt_len - 2) mod TCP_OPTION_LEN_SACK_BLOCK =? 0) then Ok m
    else sack_blocks (Z.to_nat ((opt_len - 2) / TCP_OPTION_LEN_SACK_BLOCK)) flow direction m (data + 2)
  else Ok m.

(** the loop over the options; the boolean is the return of 0. Fuel: an option
    has an octet at least *)
Fixpoint tcp_options_loop (fuel : nat) (flow : flow_entry_t) (direction : flow_direction_t) (flags : Z) (m : list Z) (data opts_len : Z)
  : outcome (list Z * bool) :=
  if opts_len <=? 0 then Ok (m, true)
  else match fuel with
  | O => Fault NoFuel
  | S fuel =>
      let* kind := mem_u8 m data in
      if kind =? TCP_OPTION_EOL then Ok (m, true)
      else if kind =? TCP_OPTION_NOOP then tcp_options_loop fuel flow direction flags m (data + 1) (opts_len - 1)
      else if opts_len <? 2 then Ok (m, false)
      else
        let* opt_len := mem_u8 m (data + 1) in
        if (opt_len <? 2) || (opts_len <? opt_len) then Ok (m, false)
        else
          let* m := tcp_option_mod flow direction flags m data kind opt_len in
          tcp_options_loop fuel flow direction flags m (data + opt_len) (opts_len - opt_len)
  end.

(** opts_len is a u8 *)
Definition upf_tcp_tstamp_mod (m : list Z) (th : Z) (direction : flow_direction_t) (flow : flow_entry_t) : outcome (list Z * bool) :=
  let* doff := mem_u8 m (th + 12) in
  let* flags := mem_u8 m (th + 13) in
  let opts_len := wrap 8 (Z.shiftr (Z.land doff 0xf0) 4 * 4 - sizeof_tcp_header) in
  tcp_options_loop (Z.to_nat opts_len) flow direction flags m (th + sizeof_tcp_header) opts_len.

(** the sequence and the acknowledgement number *)
Definition tcp_seq_ack (flow : flow_entry_t) (direction : flow_direction_t) (seq ack : Z) : Z * Z :=
  match direction with
  | FT_ORIGIN => (wrap 32 (seq + flow_seq_offs flow FT_ORIGIN), wrap 32 (ack + flow_seq_offs flow FT_REVERSE))
  | FT_REVERSE => (wrap 32 (seq - flow_seq_offs flow FT_REVERSE), wrap 32 (ack - flow_seq_offs flow FT_ORIGIN))
  end.

Inductive upf_tcp_forward_next_t := UPF_TCP_FORWARD_NEXT_DROP | UPF_TCP_FORWARD_NEXT_FORWARD.
#[export] Instance tcp_forward_next_eq_dec : EqDecision upf_tcp_forward_next_t.
Proof. solve_decision. Defined.
Definition UPF_TCP_FORWARD_ERROR_INVALID_FLOW : Z := 1.

(** the direction of a packet of a flow *)
Definition dir_bit (d : flow_direction_t) : bool := match d with FT_ORIGIN => false | FT_REVERSE => true end.
Definition packet_direction (flow : flow_entry_t) (b : vlib_buffer_t) : flow_direction_t :=
  if eqb (dir_bit (fe_is_reverse flow)) (gtpu_is_reverse (vb_opaque b)) then FT_ORIGIN else FT_REVERSE.

Section Forward.
Context {P : VppPacket} {N : VppNet}.

(** the checksums of a packet whose IP header is at [ip], and no offload *)
Definition tcp_checksums (is_ip4 : bool) (b : vlib_buffer_t) (ip th : Z) : outcome vlib_buffer_t :=
  let* b :=
    if is_ip4 then
      let* h := mem_load (vb_mem b) ip 20 in
      let* h := mem_load (vb_mem b) ip (ip4_header_bytes h) in
      on_header b ip 20 (patch 10 (le 2 (ip4_header_checksum h)))
    else Ok b in
  let* b := on_header b th 20 (patch 16 [0; 0]) in
  let csum := if is_ip4 then ip4_tcp_udp_compute_checksum b ip else ip6_tcp_udp_icmp_compute_checksum b ip in
  let* b := on_header b th 20 (patch 16 (le 2 csum)) in
  Ok (set_vb_flags b (Z.land (vb_flags b) (Z.lnot (VNET_BUFFER_F_OFFLOAD_CKSUM true)))).

(** a segment of a spliced flow is translated *)
Definition tcp_translate (is_ip4 : bool) (flow : flow_entry_t) (direction : flow_direction_t) (b : vlib_buffer_t) : outcome vlib_buffer_t :=
  let ip := vlib_buffer_get_current b in
  let* h := mem_load (vb_mem b) ip (ip_hdr_len is_ip4) in
  let th := ip + ip_next_header is_ip4 h in
  let* t := mem_load (vb_mem b) th 20 in
  let '(seq, ack) := tcp_seq_ack flow direction (de_be (field t 4 4)) (de_be (field t 8 4)) in
  let* b := on_header b th 20 (fun t => patch 8 (be 4 ack) (patch 4 (be 4 seq) t)) in
  let* (m, _) := upf_tcp_tstamp_mod (vb_mem b) th direction flow in
  tcp_checksums is_ip4 (set_vb_mem b m) ip th.

(** a packet of upf_tcp_forward, of a release build *)
Definition upf_tcp_forward_packet (flows : pool flow_entry_t) (is_ip4 : bool) (b : vlib_buffer_t)
  : outcome (upf_tcp_forward_next_t * vlib_buffer_t) :=
  let flow_id := gtpu_flow_id (vb_opaque b) in
  match (if flow_id =? u32_none then None else pool_elt flows flow_id) with
  | None => Ok (UPF_TCP_FORWARD_NEXT_DROP, set_vb_error b (Some UPF_TCP_FORWARD_ERROR_INVALID_FLOW))
  | Some flow =>
      let* b := tcp_translate is_ip4 flow (packet_direction flow b) b in
      Ok (UPF_TCP_FORWARD_NEXT_FORWARD, set_vb_error b None)
  end.
Definition upf_tcp_forward (flows : pool flow_entry_t) (is_ip4 : bool) (frame : list vlib_buffer_t)
  : outcome (list (upf_tcp_forward_next_t * vlib_buffer_t)) := each (upf_tcp_forward_packet flows is_ip4) frame.
End Forward.

(** ** The proxy *)

(** the offset of the TCP header, [None] for the return of -1 *)
Definition upf_vnet_load_tcp_hdr_offset `{VppPacket} (b : vlib_buffer_t) : outcome (option Z) :=
  let* v := mem_u8 (vb_mem b) (vlib_buffer_get_current b) in
  if Z.land v 0xf0 =? 0x40 then
    let ip_hdr_bytes := 4 * Z.land v 0x0f in
    Ok (if vb_current_length b <? ip_hdr_bytes + sizeof_tcp_header then None else Some ip_hdr_bytes)
  else if Z.land v 0xf0 =? 0x60
  then Ok (if vb_current_length b <? 40 + sizeof_tcp_header then None else Some 40)
  else Ok None.

Section Proxy.
Context {P : VppPacket} {N : VppNet} {PL : VppPool} {T : VppTcp}.

Definition load_tstamp_offset (b : vlib_buffer_t) (direction : flow_direction_t) (flow : flow_entry_t) : outcome flow_entry_t :=
  if negb (flow_tsval_offs flow direction =? 0) then Ok flow
  else
    let* off := upf_vnet_load_tcp_hdr_offset b in
    match off with
    | None => Ok flow
    | Some off =>
        match tcp_options_tsval (drop (Z.to_nat (vlib_buffer_get_current b + off)) (vb_mem b)) with
        | None => Ok flow
        | Some tsval => Ok (set_tsval_offs flow direction (wrap 32 (tsval - tcp_time_now)))
        end
    end.

(** the headers a packet came with are removed *)
Definition proxy_header_removal (b : vlib_buffer_t) : vlib_buffer_t :=
  let hdr := Z.land (gtpu_flags (vb_opaque b)) BUFFER_HDR_MASK in
  if (hdr =? BUFFER_GTP_UDP_IP4) || (hdr =? BUFFER_GTP_UDP_IP6)
  then upf_vnet_buffer_l3_hdr_offset_is_current (vlib_buffer_advance b (gtpu_data_offset (vb_opaque b)))
  else if hdr =? BUFFER_UDP_IP4 then vlib_buffer_advance (upf_vnet_buffer_l3_hdr_offset_is_current b) (20 + sizeof_udp_header)
  else if hdr =? BUFFER_UDP_IP6 then vlib_buffer_advance (upf_vnet_buffer_l3_hdr_offset_is_current b) (40 + sizeof_udp_header)
  else upf_vnet_buffer_l3_hdr_offset_is_current b.

(** the next node of a packet, the flow, and the connections that were removed *)
Definition proxy_next (thread_index : Z) (b : vlib_buffer_t) (flow : flow_entry_t) (direction : flow_direction_t)
  : outcome (Z * flow_entry_t * list flow_tc_t) :=
  let ftc := flow_tc flow direction in
  if fe_is_spliced flow then Ok (UPF_PROXY_INPUT_NEXT_TCP_FORWARD, flow, [])
  else if negb (tc_conn_index ftc =? u32_none) then
    if negb (tc_thread_index ftc =? thread_index) then Fault Assertion else splice_tcp_connection flow direction
  else if negb (tc_thread_index ftc =? u32_none) then Ok (UPF_FORWARD_NEXT_DROP, flow, [])
  else
    let* flow := load_tstamp_offset b direction flow in
    Ok (match direction with FT_ORIGIN => UPF_PROXY_INPUT_NEXT_PROXY_ACCEPT | FT_REVERSE => UPF_PROXY_INPUT_NEXT_TCP_INPUT_LOOKUP end, flow, []).

(** what is counted here and not in upf_forward *)
Definition proxy_account (now : f64) (u : upf_main_t) (flow : flow_entry_t) (direction : flow_direction_t) (b : vlib_buffer_t) (next : Z)
  : outcome (upf_main_t * option urr_report_event * Z) :=
  let sidx := fe_session_index flow in
  let* sess := get_session (um_assoc u) sidx in
  let active := pfcp_get_rules sess PFCP_ACTIVE in
  match pfcp_get_by_id (T := upf_pdr_t) active (flow_pdr_id flow direction) ≫= fun i => vec_elts (r_pdr active) !! i with
  | None => Ok (u, None, UPF_FORWARD_NEXT_DROP)
  | Some pdr =>
      match pfcp_get_by_id (T := upf_far_t) active (pdr_far_id pdr) ≫= fun i => vec_elts (r_far active) !! i with
      | None => Ok (u, None, UPF_FORWARD_NEXT_DROP)
      | Some far =>
          let* next := process_qers (um_rules u) active pdr (IS_DL pdr far) (IS_UL pdr far) next in
          let* (sess, active, event, next) := process_urrs now sidx sess active pdr (urr_packet b) (IS_DL pdr far) (IS_UL pdr far) next in
          Ok (put_sx u sidx (set_rules sess PFCP_ACTIVE active), event, next)
      end
  end.

(** a packet of upf_proxy_input *)
Definition upf_proxy_input_packet (now : f64) (thread_index : Z) (u : upf_main_t) (flows : pool flow_entry_t) (b : vlib_buffer_t)
  : outcome (upf_main_t * pool flow_entry_t * list flow_tc_t * option urr_report_event * Z * vlib_buffer_t) :=
  let flow_id := gtpu_flow_id (vb_opaque b) in
  let b := proxy_header_removal b in
  match pool_elt flows flow_id with
  | None => Fault BadIndex
  | Some flow =>
      let direction := packet_direction flow b in
      let* (next, flow, killed) := proxy_next thread_index b flow direction in
      let flows := pool_set flows flow_id flow in
      let* (u, event, next) :=
        if bool_decide (direction = FT_ORIGIN) && negb (next =? UPF_PROXY_INPUT_NEXT_TCP_FORWARD)
        then proxy_account now u flow direction b next else Ok (u, None, next) in
      Ok (u, flows, killed, event, next, set_vb_error b None)
  end.

Definition UPF_PROXY_OUTPUT_NEXT_DROP : Z := 0.
Definition UPF_PROXY_OUTPUT_NEXT_CLASSIFY : Z := 1.
Definition UPF_PROXY_OUTPUT_NEXT_PROCESS : Z := 2.
Definition UPF_PROXY_OUTPUT_ERROR_INVALID_FLOW : Z := 1.
Definition UPF_PROXY_OUTPUT_ERROR_NO_SESSION : Z := 2.
Definition ft_next_map_next : list Z :=
  [UPF_PROXY_OUTPUT_NEXT_DROP; UPF_PROXY_OUTPUT_NEXT_CLASSIFY; UPF_PROXY_OUTPUT_NEXT_PROCESS; UPF_PROXY_OUTPUT_NEXT_PROCESS].

Definition set_pdr_idx (b : vlib_buffer_t) (i : Z) : vlib_buffer_t :=
  let o := vb_opaque b in
  set_vb_opaque b (mk_opaque (gtpu_teid o) (gtpu_session_index o) (gtpu_ext_hdr_len o) (gtpu_data_offset o) (gtpu_hdr_flags o) (gtpu_flags o)
    (gtpu_is_reverse o) (gtpu_is_proxied o) i (gtpu_flow_id o)).

(** a packet of upf_proxy_output, which the proxy sends for [flow_id] in a
    direction of the flow; of a release build *)
Definition upf_proxy_output_packet (u : upf_main_t) (flows : pool flow_entry_t) (direction : flow_direction_t) (is_ip4 : bool) (flow_id : Z) (b : vlib_buffer_t)
  : outcome (Z * vlib_buffer_t) :=
  let drop e := Ok (UPF_PROXY_OUTPUT_NEXT_DROP, set_vb_error b (Some e)) in
  match (if flow_id =? u32_none then None else pool_elt flows flow_id) with
  | None => drop UPF_PROXY_OUTPUT_ERROR_INVALID_FLOW
  | Some flow =>
      match pool_elt (am_sessions (um_assoc u)) (fe_session_index flow) with
      | None => drop UPF_PROXY_OUTPUT_ERROR_INVALID_FLOW
      | Some sx =>
          let b := UPF_ENTER_SUBGRAPH b (fe_session_index flow) is_ip4 in
          let o := vb_opaque b in
          let b := set_vb_opaque b (mk_opaque (gtpu_teid o) (gtpu_session_index o) (gtpu_ext_hdr_len o) (gtpu_data_offset o) (gtpu_hdr_flags o) (gtpu_flags o)
            (dir_bit (dir_xor direction (fe_is_reverse flow))) true (gtpu_pdr_idx o) flow_id) in
          let ip := vlib_buffer_get_current b in
          let* h := mem_load (vb_mem b) ip (ip_hdr_len is_ip4) in
          let* b := tcp_checksums is_ip4 b ip (ip + ip_next_header is_ip4 h) in
          match ft_next_map_next !! Z.to_nat (flow_next flow direction) with
          | None => Fault OobRead
          | Some next =>
              if next =? UPF_PROXY_OUTPUT_NEXT_PROCESS then
                let active := pfcp_get_rules sx PFCP_ACTIVE in
                match (if sx_generation sx =? fe_generation flow
                       then pfcp_get_by_id (T := upf_pdr_t) active (flow_pdr_id flow direction) else None) with
                | None => Ok (UPF_PROXY_OUTPUT_NEXT_DROP, set_vb_error b (Some UPF_PROXY_OUTPUT_ERROR_NO_SESSION))
                | Some i => Ok (next, set_vb_error (set_pdr_idx b (Z.of_nat i)) None)
                end
              else Ok (next, set_vb_error b None)
          end
      end
  end.
End Proxy.

(** ** Segments *)

(** the options of a segment; what follows the last, if anything, starts with an
    end of options *)
Inductive tcp_opt := Noop | Timestamp (tsval tsecr : Z) | Sack (blocks : list (Z * Z)) | OtherOpt (kind : Z) (content : list Z).
Definition is_u32 (x : Z) : Prop := 0 <= x < 2 ^ 32.
Definition opt_ok (o : tcp_opt) : Prop :=
  match o with
  | Noop => True
  | Timestamp v e => is_u32 v /\ is_u32 e
  | Sack bs => Forall (fun b => is_u32 (fst b) /\ is_u32 (snd b)) bs /\ 1 <= Zlen bs <= 31
  | OtherOpt k c => k <> TCP_OPTION_EOL /\ k <> TCP_OPTION_NOOP /\ k <> TCP_OPTION_TIMESTAMP /\ k <> TCP_OPTION_SACK_BLOCK /\ Zlen c <= 253
  end.
Definition block_octets (b : Z * Z) : list Z := be 4 (fst b) ++ be 4 (snd b).
Definition tcp_opt_octets (o : tcp_opt) : list Z :=
  match o with
  | Noop => [TCP_OPTION_NOOP]
  | Timestamp v e => [TCP_OPTION_TIMESTAMP; TCP_OPTION_LEN_TIMESTAMP] ++ be 4 v ++ be 4 e
  | Sack bs => [TCP_OPTION_SACK_BLOCK; 2 + 8 * Zlen bs] ++ concat (block_octets <$> bs)
  | OtherOpt k c => [k; 2 + Zlen c] ++ c
  end.
Definition tail_ok (tail : list Z) : Prop := tail = [] \/ exists l, tail = TCP_OPTION_EOL :: l.

(** what a segment has after the translation *)
Definition fwd_edge (flow : flow_entry_t) (d : flow_direction_t) (x : Z) : Z :=
  wrap 32 (match d with FT_ORIGIN => x + flow_seq_offs flow FT_REVERSE | FT_REVERSE => x - flow_seq_offs flow FT_ORIGIN end).
Definition fwd_tsval (flow : flow_entry_t) (d : flow_direction_t) (x : Z) : Z := wrap 32 (x - flow_tsval_offs flow d).
Definition fwd_tsecr (flow : flow_entry_t) (d : flow_direction_t) (x : Z) : Z := wrap 32 (x + flow_tsval_offs flow (dir_xor FT_REVERSE d)).
Definition fwd_opt (flow : flow_entry_t) (d : flow_direction_t) (flags : Z) (o : tcp_opt) : tcp_opt :=
  match o with
  | Timestamp v e => Timestamp (fwd_tsval flow d v) (if flag flags TCP_FLAG_ACK then fwd_tsecr flow d e else e)
  | Sack bs => if flag flags TCP_FLAG_SYN then Sack bs else Sack ((fun b => (fwd_edge flow d (fst b), fwd_edge flow d (snd b))) <$> bs)
  | o => o
  end.

Lemma de_be_be4 x : is_u32 x -> de_be (be 4 x) = x.
Proof. intros H. by apply de_be_be_small. Qed.

Lemma net_add_at (l r : list Z) a x d : a = Zlen l -> is_u32 x -> net_add (l ++ be 4 x ++ r) a d = Ok (l ++ be 4 (wrap 32 (x + d)) ++ r).
Proof.
  intros -> Hx. unfold net_add. rewrite (mem_load_app l (be 4 x) r) by done. cbn [obind]. rewrite de_be_be4 by done.
  by rewrite (mem_store_app l (be 4 x)).
Qed.
Lemma net_sub_at (l r : list Z) a x d : a = Zlen l -> is_u32 x -> net_sub (l ++ be 4 x ++ r) a d = Ok (l ++ be 4 (wrap 32 (x - d)) ++ r).
Proof.
  intros -> Hx. unfold net_sub. rewrite (mem_load_app l (be 4 x) r) by done. cbn [obind]. rewrite de_be_be4 by done.
  by rewrite (mem_store_app l (be 4 x)).
Qed.
Lemma sack_edge_at flow d (l r : list Z) a x : a = Zlen l -> is_u32 x -> sack_edge flow d (l ++ be 4 x ++ r) a = Ok (l ++ be 4 (fwd_edge flow d x) ++ r).
Proof. intros Ha Hx. unfold sack_edge, fwd_edge. destruct d; [by apply net_add_at|by apply net_sub_at]. Qed.

Lemma sack_blocks_at flow d bs : forall (l r : list Z) a, a = Zlen l -> Forall (fun b => is_u32 (fst b) /\ is_u32 (snd b)) bs ->
  sack_blocks (length bs) flow d (l ++ concat (block_octets <$> bs) ++ r) a
  = Ok (l ++ concat (block_octets <$> ((fun b => (fwd_edge flow d (fst b), fwd_edge flow d (snd b))) <$> bs)) ++ r).
Proof.
  induction bs as [|[x y] bs IH]; intros l r a -> Hb; [done|]. apply Forall_cons in Hb as [[Hx Hy] Hb]. simpl in Hx, Hy.
  cbn [length sack_blocks]. rewrite !fmap_cons, !concat_cons. unfold block_octets at 1. cbn [fst snd]. rewrite <- !app_assoc.
  rewrite (sack_edge_at flow d l _ _ x) by done. cbn [obind]. rewrite (app_assoc l).
  rewrite (sack_edge_at flow d (l ++ be 4 (fwd_edge flow d x)) _ _ y) by (rewrite ?Zlen_app; done). cbn [obind].
  rewrite (app_assoc _ (be 4 (fwd_edge flow d y))). rewrite IH; [|rewrite !Zlen_app; change (Zlen (be 4 _)) with 4; lia|done].
  unfold block_octets at 2. cbn [fst snd]. f_equal. app_eq.
Qed.

Lemma block_octets_length bs : Zlen (concat (block_octets <$> bs)) = 8 * Zlen bs.
Proof.
  induction bs as [|b bs IH]; [done|]. rewrite fmap_cons, concat_cons, Zlen_app, IH, Zlen_cons. change (Zlen (block_octets b)) with 8. lia.
Qed.

Lemma tcp_opt_length flow d flags o : Zlen (tcp_opt_octets (fwd_opt flow d flags o)) = Zlen (tcp_opt_octets o).
Proof.
  destruct o as [|v e|bs|k c]; try done. cbn [fwd_opt]. destruct (flag flags TCP_FLAG_SYN); [done|]. cbn [tcp_opt_octets].
  rewrite !Zlen_app, !block_octets_length. change (Zlen [_; _]) with 2. unfold Zlen. by rewrite length_fmap.
Qed.

(** an option in the memory is translated *)
Lemma tcp_option_mod_at flow d flags (l r : list Z) o k len c :
  opt_ok o -> tcp_opt_octets o = k :: len :: c ->
  tcp_option_mod flow d flags (l ++ tcp_opt_octets o ++ r) (Zlen l) k len = Ok (l ++ tcp_opt_octets (fwd_opt flow d flags o) ++ r)
  /\ k <> TCP_OPTION_EOL /\ k <> TCP_OPTION_NOOP /\ 2 <= len /\ len = Zlen (tcp_opt_octets o).
Proof.
  intros Ho E. destruct o as [|v e|bs|k' c']; cbn [tcp_opt_octets] in E; [discriminate E|..]; injection E as <- <- <-; cbn [opt_ok] in Ho.
  - destruct Ho as [Hv He]. split; [|done]. unfold tcp_option_mod. rewrite Z.eqb_refl. cbn [tcp_opt_octets fwd_opt].
    change (TCP_OPTION_LEN_TIMESTAMP =? TCP_OPTION_LEN_TIMESTAMP) with true. cbv iota.
    rewrite <- !app_assoc, (app_assoc l). rewrite (net_sub_at (l ++ _) _ _ v) by (rewrite ?Zlen_app; done). cbn [obind]. fold (fwd_tsval flow d v).
    destruct (flag flags TCP_FLAG_ACK).
    + rewrite (app_assoc (l ++ _)). rewrite (net_add_at _ r _ e) by (rewrite ?Zlen_app; first [done|change (Zlen [_; _]) with 2; change (Zlen (be 4 _)) with 4; lia]).
      f_equal. fold (fwd_tsecr flow d e). app_eq.
    + f_equal. app_eq.
  - destruct Ho as [Hb Hn]. split; [|split; [done|]; split; [done|]; cbn [tcp_opt_octets]; rewrite Zlen_app, block_octets_length; change (Zlen [_; _]) with 2; lia].
    unfold tcp_option_mod. change (TCP_OPTION_SACK_BLOCK =? TCP_OPTION_TIMESTAMP) with false. rewrite Z.eqb_refl. cbv iota. cbn [fwd_opt].
    destruct (flag flags TCP_FLAG_SYN); [done|]. destruct (Z.ltb_spec (2 + 8 * Zlen bs) 10); [lia|]. unfold TCP_OPTION_LEN_SACK_BLOCK.
    replace (2 + 8 * Zlen bs - 2) with (Zlen bs * 8) by lia. rewrite Z.mod_mul, Z.div_mul by lia. cbn [negb orb Z.eqb].
    replace (Z.to_nat (Zlen bs)) with (length bs) by (unfold Zlen; lia). cbn [tcp_opt_octets]. rewrite <- !app_assoc, (app_assoc l).
    rewrite sack_blocks_at by (rewrite ?Zlen_app; done). f_equal. unfold Zlen. rewrite length_fmap. app_eq.
  - destruct Ho as (H0 & H1 & H8 & H5 & Hn). split; [|split; [done|]; split; [done|]; cbn [tcp_opt_octets]; rewrite Zlen_app; change (Zlen [_; _]) with 2; pose proof (Zlen_nonneg c'); lia].
    unfold tcp_option_mod. destruct (Z.eqb_spec k' TCP_OPTION_TIMESTAMP); [done|]. by destruct (Z.eqb_spec k' TCP_OPTION_SACK_BLOCK).
Qed.

Lemma tcp_options_loop_octets flow d flags (tail r : list Z) opts : tail_ok tail -> Forall opt_ok opts ->
  forall fuel (l : list Z), (length (concat (tcp_opt_octets <$> opts)) + length tail <= fuel)%nat ->
  tcp_options_loop fuel flow d flags (l ++ concat (tcp_opt_octets <$> opts) ++ tail ++ r) (Zlen l) (Zlen (concat (tcp_opt_octets <$> opts)) + Zlen tail)
  = Ok (l ++ concat (tcp_opt_octets <$> (fwd_opt flow d flags <$> opts)) ++ tail ++ r, true).
Proof.
  intros Ht. induction opts as [|o opts IH]; intros Ho fuel l Hf.
  { destruct Ht as [->|[t ->]]; [by destruct fuel|]. destruct fuel as [|fuel]; [simpl in Hf; lia|]. cbn [tcp_options_loop].
    pose proof (Zlen_nonneg t). change (Zlen (concat (tcp_opt_octets <$> []))) with 0. rewrite Zlen_cons.
    destruct (Z.leb_spec (0 + (1 + Zlen t)) 0); [lia|].
    rewrite (mem_u8_at l _ _ 0); [|lia|simpl app; rewrite Zlen_cons, Zlen_app; pose proof (Zlen_nonneg r); lia]. done. }
  apply Forall_cons in Ho as [Hok Ho]. rewrite !fmap_cons, !concat_cons in *. rewrite Zlen_app.
  set (rest := concat (tcp_opt_octets <$> opts)) in *. rewrite length_app in Hf. pose proof (Zlen_nonneg rest). pose proof (Zlen_nonneg tail). pose proof (Zlen_nonneg r).
  rewrite <- !app_assoc. destruct fuel as [|fuel].
  { exfalso. destruct o; cbn [tcp_opt_octets] in Hf; rewrite ?length_app in Hf; simpl length in Hf; lia. }
  cbn [tcp_options_loop].
  assert (o = Noop \/ o <> Noop) as [->|Hn] by (destruct o; [by left|by right..]).
  { cbn [tcp_opt_octets]. change (Zlen [TCP_OPTION_NOOP]) with 1. destruct (Z.leb_spec (1 + Zlen rest + Zlen tail) 0); [lia|].
    rewrite (mem_u8_at l _ _ 0) by (rewrite ?Zlen_app; change (Zlen [TCP_OPTION_NOOP]) with 1; lia). cbn [obind app nth Z.to_nat].
    change (TCP_OPTION_NOOP =? TCP_OPTION_EOL) with false. rewrite Z.eqb_refl. cbv iota.
    specialize (IH Ho fuel (l ++ [TCP_OPTION_NOOP]) ltac:(cbn [tcp_opt_octets] in Hf; simpl length in Hf; lia)). rewrite Zlen_app in IH.
    change (Zlen [TCP_OPTION_NOOP]) with 1 in IH. replace (1 + Zlen rest + Zlen tail - 1) with (Zlen rest + Zlen tail) by lia.
    rewrite <- !app_assoc in IH. exact IH. }
  assert (exists k len c, tcp_opt_octets o = k :: len :: c) as (k & len & c & E) by (destruct o; [done|cbn [tcp_opt_octets]; eauto..]).
  destruct (tcp_option_mod_at flow d flags l (rest ++ tail ++ r) o k len c Hok E) as (Em & Hk0 & Hk1 & Hk2 & El). rewrite <- El.
  destruct (Z.leb_spec (len + Zlen rest + Zlen tail) 0); [lia|].
  assert (mem_u8 (l ++ tcp_opt_octets o ++ rest ++ tail ++ r) (Zlen l) = Ok k) as ->.
  { rewrite (mem_u8_at l _ _ 0) by (rewrite ?Zlen_app; lia). by rewrite E. }
  cbn [obind]. destruct (Z.eqb_spec k TCP_OPTION_EOL); [done|]. destruct (Z.eqb_spec k TCP_OPTION_NOOP); [done|].
  destruct (Z.ltb_spec (len + Zlen rest + Zlen tail) 2); [lia|].
  assert (mem_u8 (l ++ tcp_opt_octets o ++ rest ++ tail ++ r) (Zlen l + 1) = Ok len) as ->.
  { rewrite (mem_u8_at l _ _ 1) by (rewrite ?Zlen_app; lia). by rewrite E. }
  cbn [obind]. destruct (Z.ltb_spec len 2); [lia|]. destruct (Z.ltb_spec (len + Zlen rest + Zlen tail) len); [lia|]. cbn [orb]. rewrite Em. cbn [obind].
  specialize (IH Ho fuel (l ++ tcp_opt_octets (fwd_opt flow d flags o)) ltac:(unfold Zlen in El; lia)). rewrite Zlen_app, tcp_opt_length, <- El in IH.
  replace (len + Zlen rest + Zlen tail - len) with (Zlen rest + Zlen tail) by lia. rewrite <- !app_assoc in IH. exact IH.
Qed.

(** the octets of a TCP header *)
Definition tcp_octets (ports : list Z) (seq ack doff flags : Z) (win csum urg : list Z) : list Z :=
  ports ++ be 4 seq ++ be 4 ack ++ [doff; flags] ++ win ++ csum ++ urg.

Section Segment.
Context {P : VppPacket} {N : VppNet}.

(** a segment: its headers, its options and the octets that follow them *)
Record segment_in (b : vlib_buffer_t) (is_ip4 : bool) (h ports : list Z) (seq ack doff flags : Z) (win csum urg : list Z) (opts : list tcp_opt) (tail rest : list Z)
  : Prop := {
  sg_mem : exists l, Zlen l = vlib_buffer_get_current b
    /\ vb_mem b = l ++ h ++ tcp_octets ports seq ack doff flags win csum urg ++ concat (tcp_opt_octets <$> opts) ++ tail ++ rest;
  sg_h : Zlen h = ip_hdr_len is_ip4 /\ (is_ip4 = true -> ip4_header_bytes h = 20);
  sg_fields : length ports = 4%nat /\ length win = 2%nat /\ length csum = 2%nat /\ length urg = 2%nat;
  sg_seq : is_u32 seq /\ is_u32 ack;
  sg_doff : Z.shiftr (Z.land doff 0xf0) 4 * 4 = 20 + Zlen (concat (tcp_opt_octets <$> opts)) + Zlen tail;
  sg_opts : Forall opt_ok opts /\ tail_ok tail /\ Zlen (concat (tcp_opt_octets <$> opts)) + Zlen tail <= 40
}.

Lemma tcp_octets_length ports seq ack doff flags win csum urg :
  length ports = 4%nat -> length win = 2%nat -> length csum = 2%nat -> length urg = 2%nat -> length (tcp_octets ports seq ack doff flags win csum urg) = 20%nat.
Proof. intros H1 H2 H3 H4. unfold tcp_octets. rewrite !length_app, H1, H2, H3, H4. reflexivity. Qed.

(** the fields the translation reads and writes *)
Lemma tcp_octets_fields ports seq ack doff flags win csum urg t :
  length ports = 4%nat -> length win = 2%nat -> length csum = 2%nat -> length urg = 2%nat -> t = tcp_octets ports seq ack doff flags win csum urg ->
  field t 4 4 = be 4 seq /\ field t 8 4 = be 4 ack /\ nth 12 t 0 = doff /\ nth 13 t 0 = flags
  /\ (forall s a, patch 8 (be 4 a) (patch 4 (be 4 s) t) = tcp_octets ports s a doff flags win csum urg)
  /\ (forall c, length c = 2%nat -> patch 16 c t = tcp_octets ports seq ack doff flags win c urg).
Proof.
  intros H1 H2 H3 H4 ->. explode ports H1. explode win H2. explode csum H3. explode urg H4. repeat split; try done.
  intros c Hc. explode c Hc. done.
Qed.

Lemma tcp_checksums_octets is_ip4 (b : vlib_buffer_t) (l h rest ports : list Z) seq ack doff flags win csum urg :
  vb_mem b = l ++ h ++ tcp_octets ports seq ack doff flags win csum urg ++ rest -> Zlen h = ip_hdr_len is_ip4 -> (is_ip4 = true -> ip4_header_bytes h = 20) ->
  length ports = 4%nat -> length win = 2%nat -> length csum = 2%nat -> length urg = 2%nat ->
  exists b' c, tcp_checksums is_ip4 b (Zlen l) (Zlen l + ip_hdr_len is_ip4) = Ok b'
    /\ vb_mem b' = l ++ (if is_ip4 then patch 10 (le 2 (ip4_header_checksum h)) h else h) ++ tcp_octets ports seq ack doff flags win (le 2 c) urg ++ rest
    /\ vb_current_data b' = vb_current_data b /\ vb_current_length b' = vb_current_length b.
Proof.
  intros Hm Hh Hi Hp Hw Hc Hu. set (t := tcp_octets ports seq ack doff flags win csum urg) in *.
  pose proof (tcp_octets_length ports seq ack doff flags win csum urg Hp Hw Hc Hu) as Lt. fold t in Lt.
  unfold tcp_checksums. set (h' := if is_ip4 then _ else h).
  assert (exists b1, (if is_ip4 then let* h := mem_load (vb_mem b) (Zlen l) 20 in let* h := mem_load (vb_mem b) (Zlen l) (ip4_header_bytes h) in
    on_header b (Zlen l) 20 (patch 10 (le 2 (ip4_header_checksum h))) else Ok b) = Ok b1 /\ vb_mem b1 = l ++ h' ++ t ++ rest /\ Zlen h' = ip_hdr_len is_ip4
    /\ vb_current_data b1 = vb_current_data b /\ vb_current_length b1 = vb_current_length b) as (b1 & -> & Hm1 & Hh1 & Hd1 & Hl1).
  { destruct is_ip4; [|by exists b]. change (ip_hdr_len true) with 20 in *. rewrite Hm, (mem_load_app l h) by done. cbn [obind].
    rewrite Hi, (mem_load_app l h) by done. cbn [obind].
    rewrite (on_header_app b l h (t ++ rest)) by (first [done|plen|unfold Zlen in Hh; plen]). eexists. split; [reflexivity|]. split; [done|].
    split; [|done]. unfold h', Zlen in *. rewrite length_patch; [done|plen]. }
  cbn [obind]. destruct (tcp_octets_fields ports seq ack doff flags win csum urg t Hp Hw Hc Hu eq_refl) as (_ & _ & _ & _ & _ & Hpc).
  assert (forall b2 c1 c2, length c1 = 2%nat -> length c2 = 2%nat -> vb_mem b2 = (l ++ h') ++ tcp_octets ports seq ack doff flags win c1 urg ++ rest ->
    on_header b2 (Zlen l + ip_hdr_len is_ip4) 20 (patch 16 c2) = Ok (set_vb_mem b2 ((l ++ h') ++ tcp_octets ports seq ack doff flags win c2 urg ++ rest))) as Hon.
  { intros b2 c1 c2 H1 H2 Hm2. pose proof (tcp_octets_length ports seq ack doff flags win c1 urg Hp Hw H1 Hu) as L1.
    destruct (tcp_octets_fields ports seq ack doff flags win c1 urg _ Hp Hw H1 Hu eq_refl) as (_ & _ & _ & _ & _ & Hpc1).
    rewrite (on_header_app b2 (l ++ h') (tcp_octets ports seq ack doff flags win c1 urg) rest); [by rewrite Hpc1|done|rewrite Zlen_app; lia|unfold Zlen; by rewrite L1|].
    rewrite Hpc1 by done. rewrite L1. by apply tcp_octets_length. }
  rewrite (Hon b1 csum [0; 0]) by (rewrite ?Hm1; first [done|app_eq]). cbn [obind]. set (c := if is_ip4 then _ else _).
  rewrite (Hon _ [0; 0] (le 2 c)) by done. cbn [obind]. eexists _, c. split; [reflexivity|].
  cbn [vb_mem set_vb_flags set_vb_mem vb_current_data vb_current_length]. split; [app_eq|done].
Qed.

Lemma tcp_translate_octets is_ip4 flow d (b : vlib_buffer_t) h ports seq ack doff flags win csum urg opts tail rest :
  segment_in b is_ip4 h ports seq ack doff flags win csum urg opts tail rest ->
  exists b' c, tcp_translate is_ip4 flow d b = Ok b'
    /\ vlib_buffer_get_current b' = vlib_buffer_get_current b /\ vb_current_length b' = vb_current_length b
    /\ exists l, Zlen l = vlib_buffer_get_current b /\ vb_mem b' = l ++ (if is_ip4 then patch 10 (le 2 (ip4_header_checksum h)) h else h)
         ++ tcp_octets ports (fst (tcp_seq_ack flow d seq ack)) (snd (tcp_seq_ack flow d seq ack)) doff flags win (le 2 c) urg
         ++ concat (tcp_opt_octets <$> (fwd_opt flow d flags <$> opts)) ++ tail ++ rest.
Proof.
  intros [(l & Hl & Hm) [Hh Hi] (Hp & Hw & Hc & Hu) [Hs Ha] Hd (Ho & Ht & H40)].
  set (t := tcp_octets ports seq ack doff flags win csum urg) in *. set (os := concat (tcp_opt_octets <$> opts)) in *.
  pose proof (tcp_octets_length ports seq ack doff flags win csum urg Hp Hw Hc Hu) as Lt. fold t in Lt.
  destruct (tcp_octets_fields ports seq ack doff flags win csum urg t Hp Hw Hc Hu eq_refl) as (F4 & F8 & _ & _ & Fp & _).
  assert (ip_next_header is_ip4 h = ip_hdr_len is_ip4) as Hn by (destruct is_ip4; [by apply Hi|done]).
  unfold tcp_translate. cbv zeta. rewrite <- Hl, Hm, (mem_load_app l h) by done. cbn [obind]. rewrite Hn, (app_assoc l h).
  rewrite (mem_load_app (l ++ h) t) by (rewrite ?Zlen_app; unfold Zlen; rewrite ?Lt; unfold Zlen in Hh; lia). cbn [obind]. rewrite F4, F8, !de_be_be4 by done.
  destruct (tcp_seq_ack flow d seq ack) as [s a] eqn:Esa. cbn [fst snd]. pose proof (tcp_octets_length ports s a doff flags win csum urg Hp Hw Hc Hu) as Lt'.
  rewrite (on_header_app b (l ++ h) t (os ++ tail ++ rest)); [|rewrite Hm; app_eq|rewrite Zlen_app; lia|unfold Zlen; by rewrite Lt|by rewrite Fp, Lt, Lt'].
  cbn [obind]. rewrite Fp. set (t' := tcp_octets ports s a doff flags win csum urg) in *.
  destruct (tcp_octets_fields ports s a doff flags win csum urg t' Hp Hw Hc Hu eq_refl) as (_ & _ & Fd & Ff & _).
  assert (Zlen t' = 20) as Zt by (unfold Zlen; by rewrite Lt'). cbn [vb_mem set_vb_mem]. unfold upf_tcp_tstamp_mod.
  pose proof (Zlen_nonneg (os ++ tail ++ rest)).
  rewrite (mem_u8_at (l ++ h) _ _ 12) by (rewrite ?Zlen_app in *; lia). cbn [obind]. rewrite (mem_u8_at (l ++ h) _ _ 13) by (rewrite ?Zlen_app in *; lia). cbn [obind].
  change (Z.to_nat 12) with 12%nat. change (Z.to_nat 13) with 13%nat. rewrite !app_nth1 by (rewrite Lt'; lia). rewrite Fd, Ff, Hd.
  pose proof (Zlen_nonneg os). pose proof (Zlen_nonneg tail).
  change sizeof_tcp_header with 20. rewrite (wrap_small 8) by (apply in_range_spec; lia).
  replace (20 + Zlen os + Zlen tail - 20) with (Zlen os + Zlen tail) by lia.
  replace ((l ++ h) ++ t' ++ os ++ tail ++ rest) with (((l ++ h) ++ t') ++ os ++ tail ++ rest) by app_eq.
  replace (Zlen l + ip_hdr_len is_ip4 + 20) with (Zlen ((l ++ h) ++ t')) by (rewrite !Zlen_app; lia).
  pose proof (tcp_options_loop_octets flow d flags tail rest opts Ht Ho (Z.to_nat (Zlen os + Zlen tail)) ((l ++ h) ++ t') ltac:(fold os; unfold Zlen; lia)) as Eo.
  fold os in Eo. rewrite Eo. cbn [obind].
  destruct (tcp_checksums_octets is_ip4 (set_vb_mem (set_vb_mem b ((l ++ h) ++ t' ++ os ++ tail ++ rest))
      (((l ++ h) ++ t') ++ concat (tcp_opt_octets <$> (fwd_opt flow d flags <$> opts)) ++ tail ++ rest)) l h
      (concat (tcp_opt_octets <$> (fwd_opt flow d flags <$> opts)) ++ tail ++ rest) ports s a doff flags win csum urg) as (b' & c & E & Hm' & Hd' & Hl'); try done.
  { cbn [vb_mem set_vb_mem]. unfold t'. app_eq. }
  exists b', c. split; [|split; [unfold vlib_buffer_get_current; by rewrite Hd'|split; [exact Hl'|by exists l]]].
  rewrite <- E. repeat f_equal.
Qed.

End Segment.

(** ** One connection *)

(** equations modulo 2^32 *)
Ltac wrap_eq := unfold wrap; change (2 ^ 32) with 4294967296; Z.div_mod_to_equations; lia.

(** the numbers that were kept between the connections *)
Definition spliced_offsets (flow : flow_entry_t) (d : flow_direction_t) (rx tx : tcp_connection_t) : Prop :=
  match d with
  | FT_ORIGIN => flow_seq_offs flow FT_ORIGIN = wrap 32 (conn_snd_nxt tx - conn_rcv_nxt rx)
      /\ flow_seq_offs flow FT_REVERSE = wrap 32 (conn_rcv_nxt tx - conn_snd_nxt rx)
  | FT_REVERSE => flow_seq_offs flow FT_REVERSE = wrap 32 (conn_rcv_nxt rx - conn_snd_nxt tx)
      /\ flow_seq_offs flow FT_ORIGIN = wrap 32 (conn_snd_nxt rx - conn_rcv_nxt tx)
  end.

Lemma splice_offsets `{T : VppTcp} flow d flow' killed :
  splice_tcp_connection flow d = Ok (UPF_PROXY_INPUT_NEXT_TCP_FORWARD, flow', killed) ->
  flow_seq_offs flow FT_ORIGIN = 0 -> flow_seq_offs flow FT_REVERSE = 0 ->
  exists rx tx, transport_get_connection (tc_conn_index (flow_tc flow d)) (tc_thread_index (flow_tc flow d)) = Some rx
    /\ transport_get_connection (tc_conn_index (flow_tc flow (dir_xor FT_REVERSE d))) (tc_thread_index (flow_tc flow (dir_xor FT_REVERSE d))) = Some tx
    /\ spliced_offsets flow' d rx tx /\ fe_is_spliced flow' = true /\ fe_is_reverse flow' = fe_is_reverse flow
    /\ killed = [flow_tc flow d; flow_tc flow (dir_xor FT_REVERSE d)]
    /\ conn_snd_mss rx <= conn_rcv_mss tx /\ conn_snd_mss tx <= conn_rcv_mss rx /\ conn_tstamp tx = conn_tstamp rx
    /\ conn_sack_permitted tx = conn_sack_permitted rx.
Proof.
  intros H H1 H2. unfold splice_tcp_connection in H. cbv zeta in H. change (dir_xor FT_ORIGIN d) with d in H.
  destruct (_ =? u32_none); [done|]. destruct (fe_dont_splice flow); [done|].
  destruct (transport_get_connection _ _) as [rx|] eqn:Er; [|done]. destruct (session_fifos _ _) as [[rf tf]|]; [|done].
  destruct (negb _); [done|]. destruct (transport_get_connection (tc_conn_index (flow_tc flow (dir_xor FT_REVERSE d))) _) as [tx|] eqn:Et; [|discriminate H].
  destruct (_ || _) eqn:Em; [done|]. destruct (negb (eqb (conn_tstamp tx) _)) eqn:Ets; [done|].
  destruct (negb (eqb (conn_sack_permitted tx) _)) eqn:Esk; [done|]. apply negb_false_iff, eqb_prop in Ets, Esk.
  apply orb_false_iff in Em as [Em1 Em2]. apply Z.ltb_ge in Em1, Em2.
  exists rx, tx. split; [done|]. split; [done|]. injection H as <- <-.
  split; [|split; [done|split; [|done]]].
  - clear Er Et. unfold spliced_offsets, flow_seq_offs in *.
    destruct flow as [? ? rev ? ? ? ? ? ? ? ? ? ? ? ? ? ? ? ? ? [so sr] ? ? ?]. destruct d, rev; unfold flow_member in *; simpl in *; subst; by split.
  - by repeat case_match.
Qed.

(** C14. A splice continues both TCP streams: when splice_tcp_connection joins the
    two connections of a flow, for the first time and in either direction, an
    octet that is [k] octets after the next one expected from the sender gets
    the number [k] octets after the next one to be sent to the receiver, and
    acknowledgements and SACK edges of such octets go back to the number the
    sender knows; the same holds for the stream in the other direction, modulo
    2^32 throughout. *)
Theorem splice_continues `{T : VppTcp} flow d flow' killed :
  splice_tcp_connection flow d = Ok (UPF_PROXY_INPUT_NEXT_TCP_FORWARD, flow', killed) ->
  flow_seq_offs flow FT_ORIGIN = 0 -> flow_seq_offs flow FT_REVERSE = 0 ->
  exists rx tx, transport_get_connection (tc_conn_index (flow_tc flow d)) (tc_thread_index (flow_tc flow d)) = Some rx
    /\ transport_get_connection (tc_conn_index (flow_tc flow (dir_xor FT_REVERSE d))) (tc_thread_index (flow_tc flow (dir_xor FT_REVERSE d))) = Some tx
    /\ fe_is_spliced flow' = true
    /\ forall k j,
      let r := dir_xor FT_REVERSE d in
      tcp_seq_ack flow' d (wrap 32 (conn_rcv_nxt rx + k)) (wrap 32 (conn_snd_nxt rx + j))
        = (wrap 32 (conn_snd_nxt tx + k), wrap 32 (conn_rcv_nxt tx + j))
      /\ tcp_seq_ack flow' r (wrap 32 (conn_rcv_nxt tx + j)) (wrap 32 (conn_snd_nxt tx + k))
        = (wrap 32 (conn_snd_nxt rx + j), wrap 32 (conn_rcv_nxt rx + k))
      /\ fwd_edge flow' d (wrap 32 (conn_snd_nxt rx + j)) = wrap 32 (conn_rcv_nxt tx + j)
      /\ fwd_edge flow' r (wrap 32 (conn_snd_nxt tx + k)) = wrap 32 (conn_rcv_nxt rx + k).
Proof.
  intros H H1 H2. destruct (splice_offsets flow d flow' killed H H1 H2) as (rx & tx & Er & Et & Ho & Hs & _).
  exists rx, tx. split; [done|]. split; [done|]. split; [done|]. intros k j. unfold fwd_edge, tcp_seq_ack, spliced_offsets in *.
  destruct d; cbn [dir_xor]; destruct Ho as [-> ->]; repeat split; first [wrap_eq|apply f_equal2; wrap_eq].
Qed.

(** Answers reach the sender in its own numbers: of a segment translated in
    one direction, an acknowledgement of [n] octets, a SACK edge [n] octets into
    it and an echo of its timestamp, translated in the other direction, are
    those of the segment as it was sent, whatever the offsets of the flow. *)
Theorem splice_answers flow d seq ack n v seq' :
  let r := dir_xor FT_REVERSE d in
  let s := fst (tcp_seq_ack flow d seq ack) in
  snd (tcp_seq_ack flow r seq' (wrap 32 (s + n))) = wrap 32 (seq + n)
  /\ fwd_edge flow r (wrap 32 (s + n)) = wrap 32 (seq + n)
  /\ fwd_tsecr flow r (fwd_tsval flow d v) = wrap 32 v.
Proof.
  unfold fwd_edge, fwd_tsecr, fwd_tsval, tcp_seq_ack. destruct d; cbn [dir_xor fst snd]; repeat split; wrap_eq.
Qed.

(** ** Packets the proxy sends *)

(** A packet of the proxy is processed by a rule of its own session or not at
    all: upf_proxy_output sends a packet on to be processed only if its flow
    and the session of the flow are there, the rules the flow was classified
    with are those of the session still, and the index it gives the packet is
    that of an active rule with the id the classification kept for the
    direction. *)
Theorem proxy_output_rule `{P : VppPacket, N : VppNet} u flows direction is_ip4 flow_id (b b' : vlib_buffer_t) :
  upf_proxy_output_packet u flows direction is_ip4 flow_id b = Ok (UPF_PROXY_OUTPUT_NEXT_PROCESS, b') ->
  exists flow sx pdr, pool_elt flows flow_id = Some flow
    /\ pool_elt (am_sessions (um_assoc u)) (fe_session_index flow) = Some sx
    /\ sx_generation sx = fe_generation flow
    /\ vec_elts (r_pdr (pfcp_get_rules sx PFCP_ACTIVE)) !! Z.to_nat (gtpu_pdr_idx (vb_opaque b')) = Some pdr
    /\ pdr_id pdr = wrap 32 (flow_pdr_id flow direction)
    /\ vb_error b' = None.
Proof.
  unfold upf_proxy_output_packet. destruct (flow_id =? u32_none); [done|]. destruct (pool_elt flows flow_id) as [flow|] eqn:Ef; [|done].
  destruct (pool_elt _ (fe_session_index flow)) as [sx|] eqn:Es; [|done]. cbv zeta. intros H.
  destruct (mem_load _ _ _); [|done..]. cbn [obind] in H. destruct (tcp_checksums _ _ _ _) as [b1| |]; [|done..]. cbn [obind] in H.
  destruct (ft_next_map_next !! _) as [n|]; [|done]. destruct (Z.eqb_spec n UPF_PROXY_OUTPUT_NEXT_PROCESS) as [En|Hn]; [|by injection H].
  destruct (Z.eqb_spec (sx_generation sx) (fe_generation flow)) as [Eg|]; [|done]. destruct (pfcp_get_by_id _ _) as [i|] eqn:Ei; [|done].
  injection H as _ <-. apply bsearch_loop_sound in Ei as (pdr & Hp & Hk). exists flow, sx, pdr. repeat split; try done.
  - cbn. by rewrite Nat2Z.id.
  - symmetry. apply intcmp_eq. exact Hk.
Qed.

(** ** A spliced flow *)

From S2P Require Import ApiDemo.

Section Demo.
#[local] Existing Instance demo_vpp.

(** a client of port 4000 and a server of port 80; the connection of the proxy to
    the client is 1 and that to the server 2 *)
Definition demo_client : list Z := ip46_address_set_ip4 [10; 0; 0; 1].
Definition demo_server : list Z := ip46_address_set_ip4 [10; 0; 0; 9].
Definition demo_conn (rmt lcl : list Z * Z) (snd rcv : Z) : tcp_connection_t := mk_conn rmt lcl snd rcv 1400 1400 true true.
Definition demo_tcp : VppTcp := {|
  transport_get_connection c _ :=
    if c =? 1 then Some (demo_conn (demo_client, 4000) (demo_server, 80) 1000 4294967290)
    else if c =? 2 then Some (demo_conn (demo_server, 80) (demo_client, 4000) 7000 9000) else None;
  session_fifos _ _ := Some (0, 0);
  tcp_options_tsval _ := None;
  tcp_time_now := 0
|}.
#[local] Existing Instance demo_tcp.
Definition demo_flow : flow_entry_t :=
  mk_flow (mk_flow_key 7 (mk_order demo_client demo_server) (mk_order 4000 80) 6) 0 FT_ORIGIN
    false true false false false true TCP_F_STATE_ESTABLISHED 0 (both (mk_stats 0 0)) 0 0 0 0
    (both 1) (both 0) (mk_order 2 3) (mk_order (mk_tc 1 0) (mk_tc 2 0)) (both 0) (mk_order 5 3) None 0.
Definition demo_spliced : flow_entry_t :=
  match splice_tcp_connection demo_flow FT_ORIGIN with Ok (_, f, _) => f | _ => demo_flow end.

(** ten octets after the splice the client's number has passed 2^32 *)
Lemma splice_continues_witness :
  splice_tcp_connection demo_flow FT_ORIGIN = Ok (UPF_PROXY_INPUT_NEXT_TCP_FORWARD, demo_spliced, [mk_tc 1 0; mk_tc 2 0])
  /\ tcp_seq_ack demo_spliced FT_ORIGIN 4 1000 = (7010, 9000) /\ tcp_seq_ack demo_spliced FT_REVERSE 9000 7010 = (1000, 4).
Proof.
  split; [reflexivity|].
  destruct (splice_continues demo_flow FT_ORIGIN demo_spliced [mk_tc 1 0; mk_tc 2 0]) as (rx & tx & Hr & Ht & _ & H); [reflexivity..|].
  injection Hr as <-. injection Ht as <-. destruct (H 10 0) as (E1 & E2 & _). split; [exact E1|exact E2].
Defined.

(** a segment of the client with data, timestamps and a SACK block *)
Definition demo_opts : list tcp_opt := [Noop; Noop; Timestamp 100 200; Noop; Noop; Sack [(999, 1000)]].
Definition demo_segment_of (doff : Z) : list Z :=
  demo_ip4 ++ tcp_octets [15; 160; 0; 80] 4 1000 doff 0x10 [16; 0] [1; 2] [0; 0] ++ concat (tcp_opt_octets <$> demo_opts) ++ [] ++ [65; 66].
Definition demo_segment (doff : Z) : vlib_buffer_t :=
  let b := demo_buffer 0 (demo_segment_of doff) (demo_segment_of doff) in
  set_vb_opaque b (mk_opaque 0 0 0 0 0 0 false true 0 5).
Definition demo_flows : pool flow_entry_t := mk_pool {[5 := demo_spliced]} [].


Definition demo_proxied : upf_main_t := demo_tunnels (demo_rules [demo_pdr] []) [] [].
Definition demo_output : outcome (Z * vlib_buffer_t) := upf_proxy_output_packet demo_proxied demo_flows FT_ORIGIN true 5 (demo_segment 0xb0).
Definition demo_output_buffer : vlib_buffer_t := match demo_output with Ok (_, b) => b | _ => demo_segment 0xb0 end.
Lemma proxy_output_rule_witness :
  demo_output = Ok (UPF_PROXY_OUTPUT_NEXT_PROCESS, demo_output_buffer)
  /\ exists pdr, vec_elts (r_pdr (demo_rules [demo_pdr] [])) !! Z.to_nat (gtpu_pdr_idx (vb_opaque demo_output_buffer)) = Some pdr /\ pdr_id pdr = 1.
Proof.
  assert (demo_output = Ok (UPF_PROXY_OUTPUT_NEXT_PROCESS, demo_output_buffer)) as E by (vm_compute; reflexivity). split; [exact E|].
  destruct (proxy_output_rule demo_proxied demo_flows FT_ORIGIN true 5 (demo_segment 0xb0) demo_output_buffer E)
    as (flow & sx & pdr & Hf & Hs & _ & Hp & Hi & _).
  injection Hf as <-. injection Hs as <-. exists pdr. split; [exact Hp|]. rewrite Hi. reflexivity.
Defined.

(** A data offset below 5 is not refused: of a segment of the flow that gives 4
    words, the octets of which upf-tcp4-forward looks for options are 252, and
    it rewrites the SACK block as if the header had it. *)
Lemma short_data_offset :
  exists b', upf_tcp_forward_packet demo_flows true (demo_segment 0x40) = Ok (UPF_TCP_FORWARD_NEXT_FORWARD, b')
    /\ field (vb_mem b') 168 24 = concat (tcp_opt_octets <$> [Noop; Noop; Timestamp 95 203; Noop; Noop; Sack [(8999, 9000)]]).
Proof. eexists. split; vm_compute; reflexivity. Qed.
End Demo.
