(* ===== verification/SessionDpo.v ===== *)
(** * Packets routed to a session

    The packets for the address of a UE reach upf-ip4-session-dpo and
    upf-ip6-session-dpo (src/upf/upf_session_dpo.c) by the route of its session:
    the time to live is decremented, the checksum follows, and the packet enters
    the graph of the session. *)

From Stdlib Require Import ZArith Lia.
From stdpp Require Import base list list_numbers option numbers decidable.
From S2P Require Import Prelude PfcpIo UpfTypes UpfMain FlowKey GtpuBuf GtpuError GtpuDecap.
#[local] Open Scope upf_scope.

(** what VPP brings: the errors of ip4-input and ip6-input (by is_ip4), the type
    and code of the ICMP message, and the checksums that were left to the
    hardware *)
Class VppDpo := {
  IP_ERROR_NONE : bool -> Z;
  IP_ERROR_TIME_EXPIRED : bool -> Z;
  ICMP_time_exceeded_in_transit : bool -> Z * Z;
  vnet_calc_checksums_inline : bool -> vlib_buffer_t -> vlib_buffer_t
}.

Inductive upf_session_dpo_next_t := UPF_SESSION_DPO_NEXT_DROP | UPF_SESSION_DPO_NEXT_ICMP_ERROR | UPF_SESSION_DPO_NEXT_FLOW_PROCESS.
#[export] Instance session_dpo_next_eq_dec : EqDecision upf_session_dpo_next_t.
Proof. solve_decision. Defined.
Definition UPF_SESSION_DPO_ERROR_PROXY_LOOP : Z := 1.

(** a packet after the node, and the ICMP message to be sent for it *)
Record dpo_result := mk_dpo { dpo_next : upf_session_dpo_next_t; dpo_buffer : vlib_buffer_t; dpo_icmp : option (Z * Z) }.

Section Dpo.
Context {P : VppPacket} {D : VppDpo}.

(** the time to live is a u8, and the checksum a u16 in memory order *)
Definition ttl_header (h : list Z) : list Z :=
  let checksum := de_le (field h 10 2) + 1 in
  let checksum := checksum + (if 0xffff <=? checksum then 1 else 0) in
  patch 8 [wrap 8 (nth 8 h 0 - 1)] (patch 10 (le 2 (wrap 16 checksum)) h).
Definition time_exceeded (is_ip4 : bool) (b : vlib_buffer_t) : dpo_result * Z :=
  (mk_dpo UPF_SESSION_DPO_NEXT_ICMP_ERROR (set_vb_sw_if_index b (vb_sw_if_index_rx b) u32_none) (Some (ICMP_time_exceeded_in_transit is_ip4)),
   IP_ERROR_TIME_EXPIRED is_ip4).

(** the packet, its next node and its error *)
Definition ip4_ttl_and_checksum_check (b : vlib_buffer_t) (ip : Z) (next : upf_session_dpo_next_t) (error : Z) : outcome (dpo_result * Z) :=
  if flag (vb_flags b) VNET_BUFFER_F_LOCALLY_ORIGINATED
  then Ok (mk_dpo next (set_vb_flags b (Z.land (vb_flags b) (Z.lnot VNET_BUFFER_F_LOCALLY_ORIGINATED))) None, error)
  else
    let* h := mem_load (vb_mem b) ip 20 in
    let* b := on_header b ip 20 ttl_header in
    Ok (if nth 8 h 0 - 1 <=? 0 then time_exceeded true b else (mk_dpo next b None, error)).
Definition ip6_hop_limit_check (b : vlib_buffer_t) (ip : Z) (next : upf_session_dpo_next_t) (error : Z) : outcome (dpo_result * Z) :=
  if flag (vb_flags b) VNET_BUFFER_F_LOCALLY_ORIGINATED
  then Ok (mk_dpo next (set_vb_flags b (Z.land (vb_flags b) (Z.lnot VNET_BUFFER_F_LOCALLY_ORIGINATED))) None, error)
  else
    let* h := mem_load (vb_mem b) ip 40 in
    let* b := on_header b ip 40 (fun h => patch 7 [wrap 8 (nth 7 h 0 - 1)] h) in
    Ok (if nth 7 h 0 - 1 <=? 0 then time_exceeded false b else (mk_dpo next b None, error)).

(** a packet of the nodes, of a release build; the session is that of the route,
    in ip.adj_index *)
Definition upf_session_dpo_packet (is_ip4 : bool) (b : vlib_buffer_t) : outcome dpo_result :=
  let sidx := vb_adj_index b in
  let ip := vlib_buffer_get_current b in
  let* protocol := if flag (vb_flags b) VNET_BUFFER_F_LOCALLY_ORIGINATED then mem_u8 (vb_mem b) (ip + if is_ip4 then 9 else 6) else Ok 0 in
  if flag (vb_flags b) VNET_BUFFER_F_LOCALLY_ORIGINATED && (protocol =? IP_PROTOCOL_TCP)
  then Ok (mk_dpo UPF_SESSION_DPO_NEXT_FLOW_PROCESS (set_vb_error b (Some UPF_SESSION_DPO_ERROR_PROXY_LOOP)) None)
  else
    let b := UPF_ENTER_SUBGRAPH b sidx is_ip4 in
    let check := if is_ip4 then ip4_ttl_and_checksum_check else ip6_hop_limit_check in
    let* (r, error) := check b ip UPF_SESSION_DPO_NEXT_FLOW_PROCESS (IP_ERROR_NONE is_ip4) in
    let b := vnet_calc_checksums_inline is_ip4 (dpo_buffer r) in
    Ok (mk_dpo (dpo_next r) (set_vb_error b (Some error)) (dpo_icmp r)).
Definition upf_ip4_session_dpo_node (frame : list vlib_buffer_t) : outcome (list dpo_result) := each (upf_session_dpo_packet true) frame.
Definition upf_ip6_session_dpo_node (frame : list vlib_buffer_t) : outcome (list dpo_result) := each (upf_session_dpo_packet false) frame.
End Dpo.

(** without the flags of an offload no checksum is computed *)
Class VppDpoOk {P : VppPacket} (D : VppDpo) := {
  calc_checksums_nothing is_ip4 b :
    Z.land (vb_flags b) (VNET_BUFFER_F_OFFLOAD_CKSUM is_ip4) = 0 -> vnet_calc_checksums_inline is_ip4 b = b
}.

(** ** The checksum *)

(** an octet and the next word of the sum balance *)
Lemma ttl_header_csum (h o : list Z) : length h = 20%nat -> Forall (fun x => 0 <= x < 256) h -> 1 <= nth 8 h 0 ->
  csum_ok (h ++ o) -> csum_ok (ttl_header h ++ o).
Proof.
  intros Hh Ho Ht [k Hk]%csum_ok_diff. apply csum_ok_diff. unfold ttl_header. set (c := de_le (field h 10 2)). cbv zeta.
  assert (0 <= c < 65536) as Hc.
  { unfold c. rewrite <- sum16_word by (apply length_field; lia). explode h Hh. repeat (apply Forall_cons_1 in Ho as [? Ho]). unfold field. cbn [take drop sum16]. lia. }
  assert (nth 8 h 0 < 256) as Hn by (explode h Hh; repeat (apply Forall_cons_1 in Ho as [? Ho]); simpl; lia).
  set (c' := wrap 16 _). assert (0 <= c' < 65536 /\ exists j, c' = c + 1 + 65535 * j) as [Hc' [j Hj]].
  { unfold c', wrap. change (2 ^ 16) with 65536. split; [by apply Z.mod_pos_bound|].
    destruct (Z.leb_spec 0xffff (c + 1)); [exists (-1)|exists 0]; Z.div_mod_to_equations; lia. }
  rewrite sum16_app in Hk by (rewrite Hh; by exists 10%nat).
  rewrite sum16_app by (rewrite !length_patch by (rewrite ?length_patch, ?length_le; simpl; lia); rewrite Hh; by exists 10%nat).
  rewrite sum16_patch1 by (rewrite ?length_patch, ?length_le; first [by exists 4%nat|simpl; lia]).
  rewrite sum16_patch2 by (rewrite ?length_le; first [by exists 5%nat|done|lia]). rewrite sum16_le2 by done.
  rewrite (sum16_word (field h 10 2)) by (apply length_field; lia). fold c.
  replace (nth 8 (patch 10 (le 2 c') h) 0) with (nth 8 h 0) by (explode h Hh; reflexivity).
  rewrite wrap_small by (apply in_range_spec; change (2 ^ 8) with 256; lia). exists (k + j). lia.
Qed.

(** C23. A packet routed to a session enters its graph one hop older: a valid IPv4
    packet, with or without options and not of the proxy, gets the session of
    its route, a time to live that is one less and a header whose checksum is
    valid again; it goes to upf-ip4-flow-process, unless the time to live is
    over: then an ICMP message of the right type is sent for it, and no other
    octet of the packet has changed in either case. *)
Theorem session_dpo_enters `{P : VppPacket, D : VppDpo, DOk : !VppDpoOk D} (b : vlib_buffer_t) (l h o r : list Z) :
  vb_mem b = l ++ h ++ o ++ r -> Zlen l = vlib_buffer_get_current b -> length h = 20%nat -> Forall (fun x => 0 <= x < 256) h ->
  csum_ok (h ++ o) -> 1 <= nth 8 h 0 ->
  flag (vb_flags b) VNET_BUFFER_F_LOCALLY_ORIGINATED = false -> Z.land (vb_flags b) (VNET_BUFFER_F_OFFLOAD_CKSUM true) = 0 ->
  exists q h', upf_session_dpo_packet true b = Ok q
    /\ gtpu_session_index (vb_opaque (dpo_buffer q)) = vb_adj_index b
    /\ vb_mem (dpo_buffer q) = l ++ h' ++ o ++ r /\ csum_ok (h' ++ o)
    /\ nth 8 h' 0 = nth 8 h 0 - 1 /\ take 8 h' = take 8 h /\ nth 9 h' 0 = nth 9 h 0 /\ drop 12 h' = drop 12 h
    /\ (dpo_next q, dpo_icmp q) = if nth 8 h 0 =? 1 then (UPF_SESSION_DPO_NEXT_ICMP_ERROR, Some (ICMP_time_exceeded_in_transit true))
                                  else (UPF_SESSION_DPO_NEXT_FLOW_PROCESS, None).
Proof.
  intros Hm Hl Hh Ho Hc Ht Hf Hoff. unfold upf_session_dpo_packet. rewrite Hf. cbn [obind andb]. cbv zeta.
  unfold ip4_ttl_and_checksum_check. change (vb_flags (UPF_ENTER_SUBGRAPH b _ _)) with (vb_flags b). rewrite Hf.
  change (vb_mem (UPF_ENTER_SUBGRAPH b _ _)) with (vb_mem b). rewrite Hm, (mem_load_app l h) by (unfold Zlen; rewrite ?Hh; done). cbn [obind].
  rewrite (on_header_app _ l h (o ++ r)); [|done|done|unfold Zlen; by rewrite Hh|unfold ttl_header; cbv zeta; plen]. cbn [obind].
  assert (nth 8 h 0 < 256) as Hn by (explode h Hh; repeat (apply Forall_cons_1 in Ho as [? Ho]); simpl; lia).
  set (e := if nth 8 h 0 - 1 <=? 0 then _ else _).
  assert (vb_mem (dpo_buffer (fst e)) = l ++ ttl_header h ++ o ++ r /\ vb_flags (dpo_buffer (fst e)) = vb_flags b
    /\ gtpu_session_index (vb_opaque (dpo_buffer (fst e))) = vb_adj_index b
    /\ (dpo_next (fst e), dpo_icmp (fst e)) = if nth 8 h 0 =? 1 then (UPF_SESSION_DPO_NEXT_ICMP_ERROR, Some (ICMP_time_exceeded_in_transit true))
       else (UPF_SESSION_DPO_NEXT_FLOW_PROCESS, None)) as (Em & Ef & Ei & En).
  { unfold e. destruct (Z.leb_spec (nth 8 h 0 - 1) 0), (Z.eqb_spec (nth 8 h 0) 1); first [done|lia]. }
  destruct e as [q er]. cbn [fst] in *. eexists _, (ttl_header h). split; [reflexivity|]. cbn [dpo_buffer dpo_next dpo_icmp].
  rewrite calc_checksums_nothing by (by rewrite Ef). cbn [vb_mem vb_opaque set_vb_error].
  split; [done|]. split; [done|]. split; [by apply ttl_header_csum|].
  unfold ttl_header. cbv zeta. set (c := wrap 16 _).
  split; [|split; [|split; [|split]]]; [|explode h Hh; reflexivity..|].
  - assert (nth 8 (patch 8 [wrap 8 (nth 8 h 0 - 1)] (patch 10 (le 2 c) h)) 0 = wrap 8 (nth 8 h 0 - 1)) as -> by (explode h Hh; reflexivity).
    apply wrap_small, in_range_spec. change (2 ^ 8) with 256. lia.
  - exact En.
Qed.

(** A packet of the proxy that comes back is noticed, and goes on to
    upf-ip4-flow-process with the metadata it had; its error is the number of
    this node's "proxy output loop detected" in the errors of ip4-input. *)
Lemma session_dpo_proxy_loop `{P : VppPacket, D : VppDpo} (is_ip4 : bool) (b : vlib_buffer_t) :
  flag (vb_flags b) VNET_BUFFER_F_LOCALLY_ORIGINATED = true ->
  mem_u8 (vb_mem b) (vlib_buffer_get_current b + if is_ip4 then 9 else 6) = Ok IP_PROTOCOL_TCP ->
  upf_session_dpo_packet is_ip4 b
  = Ok (mk_dpo UPF_SESSION_DPO_NEXT_FLOW_PROCESS (set_vb_error b (Some UPF_SESSION_DPO_ERROR_PROXY_LOOP)) None).
Proof. intros Hf Hp. unfold upf_session_dpo_packet. by rewrite Hf, Hp. Qed.

Section Demo.
#[local] Existing Instance demo_vpp.
Definition demo_dpo : VppDpo := {|
  IP_ERROR_NONE _ := 0;
  IP_ERROR_TIME_EXPIRED _ := 5;
  ICMP_time_exceeded_in_transit (is_ip4 : bool) := if is_ip4 then (11, 0) else (3, 0);
  vnet_calc_checksums_inline _ b := b
|}.
#[local] Existing Instance demo_dpo.
#[local] Instance demo_dpo_ok : VppDpoOk demo_dpo.
Proof. by split. Qed.

(** a packet to the session 3, with a time to live of 64 or of 1 *)
Definition demo_routed (h : list Z) : vlib_buffer_t := set_vb_adj_index (demo_buffer 0 (h ++ demo_udp) (h ++ demo_udp)) 3.
Definition demo_ip4_last : list Z := [0x45; 0; 0; 60; 0; 1; 0; 0; 1; 17; 0xa5; 0xa5; 10; 0; 0; 9; 10; 0; 0; 3].
Lemma session_dpo_enters_witness :
  (exists q, upf_session_dpo_packet true (demo_routed demo_ip4) = Ok q
     /\ gtpu_session_index (vb_opaque (dpo_buffer q)) = 3 /\ dpo_next q = UPF_SESSION_DPO_NEXT_FLOW_PROCESS)
  /\ exists q, upf_session_dpo_packet true (demo_routed demo_ip4_last) = Ok q
     /\ dpo_next q = UPF_SESSION_DPO_NEXT_ICMP_ERROR /\ dpo_icmp q = Some (11, 0).
Proof.
  split.
  - destruct (session_dpo_enters (demo_routed demo_ip4) (replicate 128 0) demo_ip4 [] (demo_udp ++ replicate 128 238))
      as (q & h' & E & Hi & _ & _ & _ & _ & _ & _ & Hn); [done..|by_eval|by_eval|done|done|done|].
    exists q. split; [exact E|]. split; [exact Hi|]. by injection Hn.
  - destruct (session_dpo_enters (demo_routed demo_ip4_last) (replicate 128 0) demo_ip4_last [] (demo_udp ++ replicate 128 238))
      as (q & h' & E & Hi & _ & _ & _ & _ & _ & _ & Hn); [done..|by_eval|by_eval|done|done|done|].
    exists q. split; [exact E|]. by injection Hn.
Defined.
End Demo.
