(* ===== verification/ProxySession.v ===== *)
(** * Sessions of the TCP proxy

    src/upf/upf_proxy.c and src/upf/upf_proxy_accept.c: the proxy accepts the
    connection of a client (the passive side), looks at what it sends, and
    connects to the server (the active open side). A upf_proxy_session_t is kept
    for the pair; VPP sessions of both sides, and connections that are being
    opened, count as references to it. The session layer of VPP drives it all by
    callbacks; they are the steps of the model, of a release build, one at a
    time. *)

From Stdlib Require Import ZArith Lia String.
From stdpp Require Import base list list_numbers option numbers decidable gmap sets.
From S2P Require Import Prelude PfcpIo PfcpIe PfcpLeaf PfcpCodec UpfTypes UpfVec UpfUrr UpfRules UpfAcl UpfAssoc UpfTeid UpfMain UpfSession FlowTcp FlowKey FlowTable UpfAppDpo AppDetect GtpuBuf GtpuPath TcpSplice.
#[local] Open Scope upf_scope.

(** ** Data *)

(** a session of VPP by its thread and its index there *)
Definition session_t : Type := Z * Z.

(** the FIFOs, those of the session of the client, are left out *)
Record upf_proxy_session_t := mk_ps {
  ps_session_index : Z;
  ps_proxy : session_t;        (** proxy_thread_index, proxy_session_index *)
  ps_active_open : session_t;  (** active_open_thread_index, active_open_session_index *)
  ps_flow_index : Z; ps_refcnt : Z; ps_rx_buf : list Z;
  ps_active_open_establishing : bool; ps_po_disconnected : bool; ps_ao_disconnected : bool }.

Definition set_refcnt (ps : upf_proxy_session_t) (x : Z) : upf_proxy_session_t :=
  mk_ps (ps_session_index ps) (ps_proxy ps) (ps_active_open ps) (ps_flow_index ps) x (ps_rx_buf ps)
    (ps_active_open_establishing ps) (ps_po_disconnected ps) (ps_ao_disconnected ps).
Definition set_rx_buf (ps : upf_proxy_session_t) (x : list Z) : upf_proxy_session_t :=
  mk_ps (ps_session_index ps) (ps_proxy ps) (ps_active_open ps) (ps_flow_index ps) (ps_refcnt ps) x
    (ps_active_open_establishing ps) (ps_po_disconnected ps) (ps_ao_disconnected ps).
Definition set_establishing (ps : upf_proxy_session_t) (x : bool) : upf_proxy_session_t :=
  mk_ps (ps_session_index ps) (ps_proxy ps) (ps_active_open ps) (ps_flow_index ps) (ps_refcnt ps) (ps_rx_buf ps)
    x (ps_po_disconnected ps) (ps_ao_disconnected ps).
Definition set_active_open (ps : upf_proxy_session_t) (x : session_t) : upf_proxy_session_t :=
  mk_ps (ps_session_index ps) (ps_proxy ps) x (ps_flow_index ps) (ps_refcnt ps) (ps_rx_buf ps)
    (ps_active_open_establishing ps) (ps_po_disconnected ps) (ps_ao_disconnected ps).
(** ao_disconnected or po_disconnected *)
Definition set_disconnected (ps : upf_proxy_session_t) (is_active_open : bool) : upf_proxy_session_t :=
  mk_ps (ps_session_index ps) (ps_proxy ps) (ps_active_open ps) (ps_flow_index ps) (ps_refcnt ps) (ps_rx_buf ps)
    (ps_active_open_establishing ps) (if is_active_open then ps_po_disconnected ps else true)
    (if is_active_open then true else ps_ao_disconnected ps).

(** what the proxy does to the session layer; a connection is asked for from the
    address and port of the client to those of the server *)
Record vnet_connect_args_t := mk_connect {
  ca_api_context : Z; ca_sw_if_index : Z; ca_fib_index : Z; ca_is_ip4 : bool;
  ca_server : list Z * Z; ca_client : list Z * Z }.
Inductive proxy_out :=
| Disconnect (s : session_t) (is_active_open : bool)
| Connect (a : vnet_connect_args_t)
| DropRx (s : session_t)
| Enqueue (s : session_t) (data : list Z).

(** the pool of upf_proxy_main_t and its two vectors of vectors; the flows; the
    calls posted to the main thread; the connections VPP is opening; the sessions
    VPP has, of clients and of servers; what was done, the last first *)
Record proxy_t := mk_px {
  px_sessions : pool upf_proxy_session_t;
  px_to_proxy : list (list Z);        (** session_to_proxy_session *)
  px_to_active_open : list (list Z);  (** session_to_active_open_session *)
  px_flows : pool flow_entry_t;
  px_rpc : list Z; px_connects : list Z;
  px_clients : gset session_t; px_servers : gset session_t;
  px_log : list proxy_out }.

Definition set_px_sessions (st : proxy_t) (x : pool upf_proxy_session_t) : proxy_t :=
  mk_px x (px_to_proxy st) (px_to_active_open st) (px_flows st) (px_rpc st) (px_connects st) (px_clients st) (px_servers st) (px_log st).
Definition set_px_flows (st : proxy_t) (x : pool flow_entry_t) : proxy_t :=
  mk_px (px_sessions st) (px_to_proxy st) (px_to_active_open st) x (px_rpc st) (px_connects st) (px_clients st) (px_servers st) (px_log st).
Definition set_px_calls (st : proxy_t) (rpc connects : list Z) : proxy_t :=
  mk_px (px_sessions st) (px_to_proxy st) (px_to_active_open st) (px_flows st) rpc connects (px_clients st) (px_servers st) (px_log st).
Definition set_px_vpp (st : proxy_t) (clients servers : gset session_t) : proxy_t :=
  mk_px (px_sessions st) (px_to_proxy st) (px_to_active_open st) (px_flows st) (px_rpc st) (px_connects st) clients servers (px_log st).
Definition px_did (st : proxy_t) (o : proxy_out) : proxy_t :=
  mk_px (px_sessions st) (px_to_proxy st) (px_to_active_open st) (px_flows st) (px_rpc st) (px_connects st) (px_clients st) (px_servers st) (o :: px_log st).
Definition px_table (st : proxy_t) (is_active_open : bool) : list (list Z) := if is_active_open then px_to_active_open st else px_to_proxy st.
Definition set_px_table (st : proxy_t) (is_active_open : bool) (v : list (list Z)) : proxy_t :=
  mk_px (px_sessions st) (if is_active_open then px_to_proxy st else v) (if is_active_open then v else px_to_active_open st)
    (px_flows st) (px_rpc st) (px_connects st) (px_clients st) (px_servers st) (px_log st).
Definition set_ps (st : proxy_t) (i : Z) (ps : upf_proxy_session_t) : proxy_t := set_px_sessions st (pool_set (px_sessions st) i ps).
Definition set_flow_at (st : proxy_t) (i : Z) (f : flow_entry_t) : proxy_t := set_px_flows st (pool_set (px_flows st) i f).

(** the members of a flow the proxy stores to *)
Definition fe_set_proxy (f : flow_entry_t) (ps_index : Z) (tc : order flow_tc_t) : flow_entry_t :=
  mk_flow (fe_key f) (fe_session_index f) (fe_is_reverse f) (fe_is_redirect f) (fe_is_l3_proxy f)
    (fe_is_spliced f) (fe_spliced_dirty f) (fe_dont_splice f) (fe_app_detection_done f) (fe_tcp_state f)
    ps_index (fe_stats f) (fe_active f) (fe_lifetime f) (fe_timer_index f)
    (fe_application_id f) (fe_pdr_id f) (fe_teid f) (fe_next f) tc (fe_seq_offs f) (fe_tsval_offs f) (fe_app_uri f) (fe_generation f).
Definition set_ps_index (f : flow_entry_t) (x : Z) : flow_entry_t := fe_set_proxy f x (fe_tc f).
Definition set_flow_tc (f : flow_entry_t) (d : flow_direction_t) (x : flow_tc_t) : flow_entry_t :=
  fe_set_proxy f (fe_ps_index f) (flow_member_set f (fe_tc f) d x).

(** ** Sessions of the proxy *)

Definition proxy_session_get (st : proxy_t) (i : Z) : option upf_proxy_session_t := pool_elt (px_sessions st) i.
Definition get_ps (st : proxy_t) (i : Z) : outcome upf_proxy_session_t :=
  match proxy_session_get st i with Some ps => Ok ps | None => Fault NullDeref end.
Definition get_flow (st : proxy_t) (i : Z) : outcome flow_entry_t :=
  match pool_elt (px_flows st) i with Some f => Ok f | None => Fault BadIndex end.

Definition proxy_session_alloc `{VppPool} (st : proxy_t) : Z * proxy_t :=
  let '(i, p) := pool_get (px_sessions st) (mk_ps 0 (0, 0) (0, 0) 0 0 [] false false false) in
  (i, set_px_sessions st (pool_set p i (mk_ps i (0, u32_none) (0, u32_none) u32_none 0 [] false false false))).
Definition proxy_session_free (st : proxy_t) (i : Z) (ps : upf_proxy_session_t) : outcome proxy_t :=
  let* st :=
    if negb (ps_flow_index ps =? u32_none)
    then let* f := get_flow st (ps_flow_index ps) in Ok (set_flow_at st (ps_flow_index ps) (set_ps_index f u32_none))
    else Ok st in
  Ok (set_px_sessions st (pool_put (px_sessions st) i)).
Definition proxy_session_put (st : proxy_t) (i : Z) : outcome proxy_t :=
  let* ps := get_ps st i in
  let ps := set_refcnt ps (ps_refcnt ps - 1) in
  let st := set_ps st i ps in
  if ps_refcnt ps =? 0 then proxy_session_free st i ps else Ok st.

(** the vector of a thread, with vec_validate_init_empty and a store *)
Definition thread_vec (v : list (list Z)) (thread : Z) : outcome (list Z) :=
  if thread <? 0 then Fault BadIndex else match v !! Z.to_nat thread with Some l => Ok l | None => Fault BadIndex end.
Definition vec_store (l : list Z) (i x : Z) : list Z :=
  <[Z.to_nat i := x]> (l ++ replicate (S (Z.to_nat i) - length l) u32_none).
Definition table_store (v : list (list Z)) (s : session_t) (x : Z) : list (list Z) :=
  alter (fun l => vec_store l (snd s) x) (Z.to_nat (fst s)) v.
Definition active_open_session_lookup_add (st : proxy_t) (s : session_t) (i : Z) : outcome proxy_t :=
  let* _ := thread_vec (px_to_active_open st) (fst s) in
  Ok (set_px_table st true (table_store (px_to_active_open st) s i)).
Definition proxy_session_lookup_add (st : proxy_t) (s : session_t) (i : Z) : outcome proxy_t :=
  let* _ := thread_vec (px_to_proxy st) (fst s) in
  let* ps := get_ps st i in
  Ok (set_ps (set_px_table st false (table_store (px_to_proxy st) s i)) i (set_refcnt ps (ps_refcnt ps + 1))).

Definition ps_session_lookup (st : proxy_t) (s : session_t) (is_active_open : bool) : outcome (option Z) :=
  let* l := thread_vec (px_table st is_active_open) (fst s) in
  Ok (match l !! Z.to_nat (snd s) with
      | Some i => if pool_is_free_index (px_sessions st) i then None else Some i
      | None => None
      end).
Definition ps_session_lookup_del (st : proxy_t) (s : session_t) (is_active_open : bool) : outcome proxy_t :=
  let* l := thread_vec (px_table st is_active_open) (fst s) in
  match l !! Z.to_nat (snd s) with
  | None => Fault BadIndex
  | Some i =>
      if pool_is_free_index (px_sessions st) i then Ok st
      else proxy_session_put (set_px_table st is_active_open (table_store (px_table st is_active_open) s u32_none)) i
  end.

(** session_get_if_valid: sessions of both sides are in the pools of VPP *)
Definition session_from_proxy_session_get_if_valid (st : proxy_t) (ps : upf_proxy_session_t) (is_active_open : bool) : option session_t :=
  let s := if is_active_open then ps_active_open ps else ps_proxy ps in
  if snd s =? u32_none then None else if bool_decide (s ∈ px_clients st ∪ px_servers st) then Some s else None.

(** ** Closing *)

Definition proxy_session_try_close_unlocked (st : proxy_t) (i : Z) : outcome proxy_t :=
  let* ps := get_ps st i in
  let '(st, ps) :=
    if negb (ps_ao_disconnected ps) && negb (ps_active_open_establishing ps) then
      match session_from_proxy_session_get_if_valid st ps true with
      | Some s => (px_did st (Disconnect s true), set_disconnected ps true)
      | None => (st, ps)
      end
    else (st, ps) in
  if negb (ps_po_disconnected ps) then
    match session_from_proxy_session_get_if_valid st ps false with
    | Some s => Ok (set_ps (px_did st (Disconnect s false)) i (set_disconnected ps false))
    | None => Fault NullDeref
    end
  else Ok (set_ps st i ps).
Definition proxy_session_try_close_vpp_session (st : proxy_t) (s : session_t) (is_active_open : bool) : outcome proxy_t :=
  let* i := ps_session_lookup st s is_active_open in
  match i with Some i => proxy_session_try_close_unlocked st i | None => Fault NullDeref end.

(** the callback of the session layer when a session goes away *)
Definition session_cleanup (st : proxy_t) (s : session_t) (is_active_open : bool) : outcome proxy_t :=
  let* i := ps_session_lookup st s is_active_open in
  match i with
  | None => Ok st
  | Some i =>
      let* ps := get_ps st i in
      let st := set_ps st i (set_disconnected ps is_active_open) in
      let flow_index := ps_flow_index ps in
      let* st := ps_session_lookup_del st s is_active_open in
      match pool_elt (px_flows st) flow_index with
      | None => Ok st
      | Some flow =>
          let d := if is_active_open then FT_REVERSE else FT_ORIGIN in
          Ok (set_flow_at st flow_index (set_flow_tc flow d (mk_tc u32_none (tc_thread_index (flow_tc flow d)))))
      end
  end.

(** [true] for the return of -1: the flow stays *)
Definition upf_proxy_flow_expiration_hook (st : proxy_t) (flow : flow_entry_t) : outcome (bool * proxy_t) :=
  if fe_ps_index flow =? u32_none then Ok (false, st)
  else let* st := proxy_session_try_close_unlocked st (fe_ps_index flow) in Ok (true, st).

(** ** Clients *)

(** [opaque] is the flow *)
Definition proxy_accept_callback `{VppPool} (st : proxy_t) (s : session_t) (opaque : Z) : outcome proxy_t :=
  let* dup := ps_session_lookup st s false in
  match dup with
  | Some _ => Ok st
  | None =>
      let '(i, st) := proxy_session_alloc st in
      let* st := proxy_session_lookup_add st s i in
      let* ps := get_ps st i in
      let st := set_ps st i (mk_ps (ps_session_index ps) s (ps_active_open ps) opaque (ps_refcnt ps) (ps_rx_buf ps)
                  (ps_active_open_establishing ps) (ps_po_disconnected ps) (ps_ao_disconnected ps)) in
      let* flow := get_flow st opaque in
      Ok (set_flow_at st opaque (set_ps_index flow i))
  end.

(** what VPP makes of a SYN: whether the application is there and FIFOs can be
    had, the session and the connection it gets *)
Record syn_t := mk_syn {
  sy_lookup_ok : bool;     (** tcp_input_lookup_buffer *)
  sy_is_syn : bool;
  sy_old_conn : bool;      (** upf_tcp_lookup_connection *)
  sy_options_ok : bool;    (** tcp_options_parse *)
  sy_app : bool; sy_connected_ok : bool;
  sy_session_index : Z; sy_c_index : Z }.
Definition UPF_PROXY_ERROR_NO_LISTENER : Z := 2.
Definition UPF_PROXY_ERROR_OPTIONS : Z := 4.
Definition UPF_PROXY_ERROR_CREATE_SESSION_FAIL : Z := 5.
Definition UPF_PROXY_ERROR_INVALID_FLOW : Z := 6.
Definition UPF_PROXY_ERROR_CONNECTION_EXISTS : Z := 7.

(** [None] for a return other than 0 *)
Definition proxy_session_stream_accept_notify `{VppPool} (st : proxy_t) (e : syn_t) (thread_index flow_id : Z) : outcome (option proxy_t) :=
  if negb (sy_app e) then Ok None
  else if negb (sy_connected_ok e) then Ok None
  else
    let s := (thread_index, sy_session_index e) in
    let* st := proxy_accept_callback (set_px_vpp st (px_clients st ∪ {[s]}) (px_servers st)) s flow_id in
    Ok (Some st).

(** a packet of upf_proxy_accept_inline; the error, if any *)
Definition upf_proxy_accept_packet `{VppPool} (sessions : pool upf_session_t) (st : proxy_t) (e : syn_t) (thread_index flow_id : Z)
  : outcome (proxy_t * option Z) :=
  let* flow := get_flow st flow_id in
  if pool_is_free_index sessions (fe_session_index flow) then Ok (st, Some UPF_PROXY_ERROR_INVALID_FLOW)
  else if negb (sy_lookup_ok e) then Ok (st, None)
  else if negb (sy_is_syn e) then Ok (st, Some UPF_PROXY_ERROR_NO_LISTENER)
  else if sy_old_conn e then Ok (st, Some UPF_PROXY_ERROR_CONNECTION_EXISTS)
  else if negb (sy_options_ok e) then Ok (st, Some UPF_PROXY_ERROR_OPTIONS)
  else
    let* r := proxy_session_stream_accept_notify st e thread_index flow_id in
    match r with
    | None => Ok (st, Some UPF_PROXY_ERROR_CREATE_SESSION_FAIL)
    | Some st =>
        let* flow := get_flow st flow_id in
        Ok (set_flow_at st flow_id (set_flow_tc flow FT_ORIGIN (mk_tc (sy_c_index e) thread_index)), None)
    end.

(** ** Servers *)

Section Servers.
Context {P : VppPacket}.

(** the connection to the server of a flow, in the network instance of its FAR *)
Definition connect_args (cf : upf_config) (active : rules) (flow : flow_entry_t) (session_index : Z) : outcome vnet_connect_args_t :=
  let src := dir_xor FT_ORIGIN (fe_is_reverse flow) in
  let dst := dir_xor FT_REVERSE (fe_is_reverse flow) in
  let is_ip4 := ip46_address_is_ip4 (order_get (fk_ip (fe_key flow)) dst) in
  match pdr_by_id active (flow_pdr_id flow FT_ORIGIN) with
  | None => Fault NullDeref
  | Some pdr =>
      match far_by_id active (pdr_far_id pdr) with
      | None => Fault NullDeref
      | Some far =>
          let '(sw_if_index, fib_index) := upf_nwi_if_and_fib_index cf is_ip4 (ff_nwi_index (far_forward far)) in
          Ok (mk_connect session_index sw_if_index fib_index is_ip4
                (order_get (fk_ip (fe_key flow)) dst, order_get (fk_port (fe_key flow)) dst)
                (order_get (fk_ip (fe_key flow)) src, order_get (fk_port (fe_key flow)) src))
      end
  end.

(** what a callback finds: the sessions and rules of PFCP, the configuration,
    the octets in the FIFO of the client, the return of vnet_connect, and of
    every svm_fifo_enqueue with whether the 10 seconds are over then *)
Record rx_env := mk_rx {
  rx_sessions : pool upf_session_t; rx_config : upf_config; rx_fifo : list Z; rx_connect : Z; rx_sends : list (Z * bool) }.
Definition flow_session (e : rx_env) (flow : flow_entry_t) : outcome upf_session_t :=
  match pool_elt (rx_sessions e) (fe_session_index flow) with Some sx => Ok sx | None => Fault BadIndex end.

(** not going to connect *)
Definition connect_fails (st : proxy_t) (i : Z) (ps : upf_proxy_session_t) : proxy_t :=
  set_ps st i (set_establishing (set_refcnt ps (ps_refcnt ps - 1)) false).
Definition proxy_start_connect_fn (e : rx_env) (st : proxy_t) (i : Z) : outcome proxy_t :=
  let* ps := get_ps st i in
  match pool_elt (px_flows st) (ps_flow_index ps) with
  | None => Ok (connect_fails st i ps)
  | Some flow =>
      let* sx := flow_session e flow in
      if negb (sx_generation sx =? fe_generation flow) then Ok (connect_fails st i ps)
      else
        let* a := connect_args (rx_config e) (pfcp_get_rules sx PFCP_ACTIVE) flow i in
        if negb (rx_connect e =? 0) then Ok (connect_fails st i ps)
        else Ok (set_px_calls (px_did st (Connect a)) (px_rpc st) (px_connects st ++ [i]))
  end.
(** on a worker the function is called later, on the main thread *)
Definition proxy_start_connect (e : rx_env) (thread_index : Z) (st : proxy_t) (i : Z) : outcome proxy_t :=
  let* ps := get_ps st i in
  let st := set_ps st i (set_refcnt (set_establishing ps true) (ps_refcnt ps + 1)) in
  if thread_index =? 0 then proxy_start_connect_fn e st i
  else Ok (set_px_calls st (px_rpc st ++ [i]) (px_connects st)).

(** the session of the server, [None] after an error; [false] for the return of
    -1, with which VPP closes that session at once *)
Definition active_open_connected_callback (st : proxy_t) (i : Z) (s : option (session_t * flow_tc_t)) : outcome (bool * proxy_t) :=
  let* ps := match proxy_session_get st i with Some ps => Ok ps | None => Fault BadIndex end in
  let st := set_ps st i (set_establishing ps false) in
  let* st :=
    match s with
    | None =>
        let* ps := get_ps st i in
        proxy_session_try_close_unlocked (set_ps st i (set_disconnected ps true)) i
    | Some _ => Ok st
    end in
  let* ps := get_ps st i in
  if ps_po_disconnected ps then
    let* st := proxy_session_put (set_ps st i (set_disconnected ps true)) i in
    Ok (false, st)
  else
    match s with
    | None => Fault NullDeref
    | Some (s, tc) =>
        let st := set_ps st i (set_active_open ps s) in
        let* st := active_open_session_lookup_add st s i in
        match pool_elt (px_flows st) (ps_flow_index ps) with
        | None => Ok (true, st)
        | Some flow => Ok (true, set_flow_at st (ps_flow_index ps) (set_flow_tc flow FT_REVERSE tc))
        end
    end.

(** ** Redirection *)

Definition text_crlf : list Z := [13; 10].
(** a line of a header, and a text in quotation marks *)
Definition http_line (t : string) : list Z := ascii t ++ text_crlf.
Definition quoted (t : list Z) : list Z := [34] ++ t ++ [34].
Definition format_d (x : Z) : list Z := digits 10 x [].

(** the three templates with their arguments *)
Definition wispr_proxy (url : list Z) : list Z :=
  ascii "<!--" ++ [10] ++ ascii "<?xml version=" ++ quoted (ascii "1.0") ++ ascii " encoding=" ++ quoted (ascii "UTF-8") ++ ascii "?>"
  ++ ascii "<WISPAccessGatewayParam xmlns:xsi=" ++ quoted (ascii "http://www.w3.org/2001/XMLSchema-instance")
  ++ ascii " xsi:noNamespaceSchemaLocation=" ++ quoted (ascii "http://www.acmewisp.com/WISPAccessGatewayParam.xsd") ++ ascii ">"
  ++ ascii "<Proxy><MessageType>110</MessageType><ResponseCode>200</ResponseCode><NextURL>" ++ url ++ ascii "</NextURL></Proxy></WISPAccessGatewayParam>"
  ++ [10] ++ ascii "-->" ++ [10].
Definition html_redirect (wispr url : list Z) : list Z :=
  ascii "<!DOCTYPE html>" ++ [10] ++ ascii "<html>" ++ [10] ++ wispr
  ++ ascii "   <head>" ++ [10] ++ ascii "      <title>Redirection</title>" ++ [10]
  ++ ascii "      <meta http-equiv=" ++ quoted (ascii "refresh") ++ ascii " content=" ++ quoted (ascii "0; URL=" ++ url) ++ ascii ">" ++ [10]
  ++ ascii "   </head>" ++ [10] ++ ascii "   <body>" ++ [10] ++ ascii "      Please <a href='" ++ url ++ ascii "'>click here</a> to continue" ++ [10]
  ++ ascii "   </body>" ++ [10] ++ ascii "</html>" ++ [10].
Definition upf_proxy_headers (url : list Z) (content_length : Z) : list Z :=
  http_line "HTTP/1.1 302 OK" ++ (ascii "Location: " ++ url ++ text_crlf) ++ http_line "Content-Type: text/html"
  ++ http_line "Cache-Control: private, no-cache, must-revalidate" ++ http_line "Expires: Mon, 11 Jan 1970 10:10:10 GMT"
  ++ http_line "Connection: close" ++ http_line "Pragma: no-cache" ++ (ascii "Content-Length: " ++ format_d content_length ++ text_crlf) ++ text_crlf.
Definition redirect_response (url : list Z) : list Z :=
  let html := html_redirect (wispr_proxy url) url in upf_proxy_headers url (Zlen html) ++ html.
Definition http_error (status : string) : list Z :=
  (ascii "HTTP/1.1 " ++ ascii status ++ text_crlf) ++ http_line "Content-Type: text/html"
  ++ http_line "Cache-Control: private, no-cache, must-revalidate" ++ http_line "Expires: Mon, 11 Jan 1970 10:10:10 GMT"
  ++ http_line "Connection: close" ++ http_line "Pragma: no-cache" ++ http_line "Content-Length: 0" ++ text_crlf.

(** the loop; what svm_fifo_enqueue takes is from [sends] *)
Fixpoint http_redir_send_data (sends : list (Z * bool)) (st : proxy_t) (i : Z) (s : session_t) (data : list Z) : outcome proxy_t :=
  match data with
  | [] => Ok st
  | _ =>
      match sends with
      | [] => Fault NoFuel
      | (actual_transfer, late) :: sends =>
          if actual_transfer <=? 0
          then if late then proxy_session_try_close_unlocked st i else http_redir_send_data sends st i s data
          else http_redir_send_data sends (px_did st (Enqueue s (take (Z.to_nat actual_transfer) data))) i s (drop (Z.to_nat actual_transfer) data)
      end
  end.

(** whether the request has a GET, from [i] on *)
Fixpoint has_get (n : nat) (request : list Z) : bool :=
  match n with
  | O => false
  | S n => bool_decide (take 4 request = ascii "GET ") || has_get n (drop 1 request)
  end.
Definition redirect_answer (request url : list Z) : list Z :=
  if Zlen request <? 6 then http_error "400 Bad Request"
  else if has_get (length request - 4) request then redirect_response url else http_error "400 Bad Request".

(** [None] for the return of -1 *)
Definition proxy_send_redir (e : rx_env) (st : proxy_t) (s : session_t) (i : Z) (flow : flow_entry_t) (active : rules) : outcome (option proxy_t) :=
  match pdr_by_id active (flow_pdr_id flow FT_ORIGIN) with
  | None => Fault NullDeref
  | Some pdr =>
      match far_by_id active (pdr_far_id pdr) with
      | None => Ok None
      | Some far =>
          if negb (flag (ff_flags (far_forward far)) FAR_F_REDIRECT_INFORMATION) then Ok None
          else
            let* ps := get_ps st i in
            let url := vec_elts (ri_uri (ff_redirect_information (far_forward far))) in
            let* st := http_redir_send_data (rx_sends e) (px_did st (DropRx s)) i s (redirect_answer (ps_rx_buf ps) url) in
            let* st := proxy_session_try_close_unlocked st i in
            Ok (Some st)
      end
  end.

(** ** Data of the client *)

Context {A : AdfLookup} {M : IpMasks}.

Definition set_flow_next_proxy (flow : flow_entry_t) : flow_entry_t :=
  set_flow_next (set_flow_next flow FT_REVERSE FT_NEXT_PROXY) FT_ORIGIN FT_NEXT_PROXY.
Definition proxy_connects (e : rx_env) (s : session_t) (st : proxy_t) (i flow_index : Z) (flow : flow_entry_t) : outcome proxy_t :=
  proxy_start_connect e (fst s) (set_flow_at st flow_index (set_flow_next_proxy flow)) i.

(** what is in the FIFO, 4096 octets at most, stays there *)
Definition proxy_rx_request (e : rx_env) : option (list Z) :=
  if Zlen (rx_fifo e) =? 0 then None else Some (take 4096 (rx_fifo e)).
Definition proxy_rx_callback_static (e : rx_env) (st : proxy_t) (s : session_t) (i : Z) : outcome proxy_t :=
  match proxy_rx_request e with
  | None => Ok st
  | Some rx_buf =>
    let* ps := get_ps st i in
    let st := set_ps st i (set_rx_buf ps rx_buf) in
    let flow_index := ps_flow_index ps in
    let* flow := get_flow st flow_index in
    let* sx := flow_session e flow in
    if negb (sx_generation sx =? fe_generation flow) then proxy_session_try_close_unlocked st i
    else
      let active := pfcp_get_rules sx PFCP_ACTIVE in
      let* redirected := if fe_is_redirect flow then proxy_send_redir e st s i flow active else Ok None in
      match redirected with
      | Some st => Ok st
      | None =>
          let flow := if fe_is_redirect flow then fe_set_redirect flow false else flow in
          let st := set_flow_at st flow_index flow in
          if negb (flag (r_flags active) PFCP_ADR) then proxy_connects e s st i flow_index flow
          else
            let* r := upf_application_detection (Some rx_buf) flow active in
            match r with
            | inl _ => if Zlen (rx_fifo e) <? 4096 then Ok st else proxy_session_try_close_unlocked st i
            | inr (false, flow) => proxy_session_try_close_unlocked (set_flow_at st flow_index flow) i
            | inr (true, flow) => proxy_connects e s (set_flow_at st flow_index flow) i flow_index flow
            end
      end
  end.

(** data for an open connection is left to the FIFO it shares with the client *)
Definition proxy_rx_callback (e : rx_env) (st : proxy_t) (s : session_t) : outcome proxy_t :=
  let* i := ps_session_lookup st s false in
  match i with
  | None => Ok st
  | Some i =>
      let* ps := get_ps st i in
      if ps_po_disconnected ps || ps_ao_disconnected ps then Ok st
      else if negb (snd (ps_active_open ps) =? u32_none) && negb (ps_ao_disconnected ps) then Ok st
      else proxy_rx_callback_static e st s i
  end.

(** the session to which an acknowledgement is sent *)
Definition tx_callback_inline (st : proxy_t) (s : session_t) (is_active_open : bool) (fifo_size max_enqueue : Z) : outcome (option session_t) :=
  if max_enqueue <? Z.min (Z.shiftr fifo_size 3) (Z.shiftl 128 10) then Ok None
  else
    let* i := ps_session_lookup st s is_active_open in
    match i ≫= proxy_session_get st with
    | None => Ok None
    | Some ps =>
        if ps_po_disconnected ps || ps_ao_disconnected ps then Ok None
        else Ok (session_from_proxy_session_get_if_valid st ps (negb is_active_open))
    end.
End Servers.

(** the size of a FIFO after data was put into it or taken from it *)
Definition common_fifo_tuning_callback (low_watermark high_watermark : Z) (enqueued : bool) (seg_usage fifo_in_use fifo_size max_fifo_size bytes : Z) : Z :=
  let fifo_usage := wrap 32 (fifo_in_use * 100 / fifo_size) in
  if enqueued then
    let update_size := if (seg_usage <? low_watermark) && (50 <? fifo_usage) then fifo_in_use
                       else if (seg_usage <? high_watermark) && (80 <? fifo_usage) then fifo_in_use else 0 in
    let update_size := Z.min update_size (wrap 32 (max_fifo_size - fifo_size)) in
    if negb (update_size =? 0) then wrap 32 (fifo_size + update_size) else fifo_size
  else
    let update_size := if (high_watermark <? seg_usage) || (fifo_usage <? 20) then bytes
                       else if (low_watermark <? seg_usage) && (fifo_usage <? 50) then bytes / 2 else 0 in
    let update_size := Z.min update_size (wrap 32 (fifo_size - 4096)) in
    if negb (update_size =? 0) then wrap 32 (fifo_size - update_size) else fifo_size.

(** FIFOs stay within their limits: whatever the fill of the segment and of
    the FIFO, a FIFO of at least 4096 octets and at most the largest size has
    such a size again after it was tuned; it does not shrink when data comes
    and does not grow when data goes. *)
Theorem fifo_tuning_bounds low high enqueued seg_usage in_use size max_size bytes :
  4096 <= size <= max_size -> max_size < 2 ^ 32 -> 0 <= in_use <= size -> 0 <= bytes ->
  let size' := common_fifo_tuning_callback low high enqueued seg_usage in_use size max_size bytes in
  4096 <= size' <= max_size /\ (if enqueued : bool then size <= size' else size' <= size).
Proof.
  intros Hs Hm Hu Hb. unfold common_fifo_tuning_callback. cbv zeta. set (usage := wrap 32 _). destruct enqueued.
  - set (u := if _ && _ then in_use else _). assert (0 <= u <= in_use) by (unfold u; repeat destruct (_ && _); lia).
    rewrite (wrap_small 32 (max_size - size)) by (apply in_range_spec; lia). destruct (Z.eqb_spec (Z.min u (max_size - size)) 0); cbn [negb]; [lia|].
    rewrite wrap_small by (apply in_range_spec; lia). lia.
  - set (u := if _ || _ then bytes else _). assert (0 <= u) by (unfold u; destruct (_ || _); [lia|]; destruct (_ && _); [apply Z.div_pos; lia|lia]).
    rewrite (wrap_small 32 (size - 4096)) by (apply in_range_spec; lia). destruct (Z.eqb_spec (Z.min u (size - 4096)) 0); cbn [negb]; [lia|].
    rewrite wrap_small by (apply in_range_spec; lia). lia.
Qed.

Lemma fifo_tuning_bounds_witness :
  4096 <= common_fifo_tuning_callback 50 80 true 20 60000 65536 134217728 0 <= 134217728
  /\ common_fifo_tuning_callback 50 80 false 90 100 65536 134217728 65536 = 4096.
Proof.
  split; [|reflexivity]. apply (fifo_tuning_bounds 50 80 true 20 60000 65536 134217728 0); lia.
Defined.

(** ** The machine *)

Section Machine.
Context {P : VppPacket} {PL : VppPool} {A : AdfLookup} {M : IpMasks}.

(** what happens: the flow table makes a flow, the data path changes one or its
    timer expires; a SYN reaches upf-proxy-accept; VPP calls back for data of a
    client, for the call posted first, for one of the connections it opens, for
    the end of a session and when it goes away *)
Inductive proxy_event :=
| EvFlow (i : Z) (f : flow_entry_t)
| EvFlowChange (i : Z) (f : flow_entry_t)
| EvExpire (i : Z)
| EvSyn (sessions : pool upf_session_t) (e : syn_t) (thread_index flow_id : Z)
| EvRx (e : rx_env) (s : session_t)
| EvRpc (e : rx_env)
| EvConnected (k : nat) (s : option (session_t * flow_tc_t))
| EvClose (s : session_t) (is_active_open : bool)
| EvCleanup (s : session_t) (is_active_open : bool).

Definition px_side (st : proxy_t) (is_active_open : bool) : gset session_t := if is_active_open then px_servers st else px_clients st.
Definition proxy_step (ev : proxy_event) (st : proxy_t) : outcome proxy_t :=
  match ev with
  | EvFlow i f | EvFlowChange i f => Ok (set_flow_at st i f)
  | EvExpire i =>
      let* f := get_flow st i in
      let* (stays, st) := upf_proxy_flow_expiration_hook st f in
      Ok (if stays : bool then st else set_px_flows st (pool_put (px_flows st) i))
  | EvSyn sessions e thread_index flow_id => let* (st, _) := upf_proxy_accept_packet sessions st e thread_index flow_id in Ok st
  | EvRx e s => proxy_rx_callback e st s
  | EvRpc e =>
      match px_rpc st with
      | [] => Ok st
      | i :: rpc => proxy_start_connect_fn e (set_px_calls st rpc (px_connects st)) i
      end
  | EvConnected k s =>
      match px_connects st !! k with
      | None => Ok st
      | Some i =>
          let* (stays, st) := active_open_connected_callback (set_px_calls st (px_rpc st) (delete k (px_connects st))) i s in
          Ok (match s with Some (s, _) => if stays : bool then set_px_vpp st (px_clients st) (px_servers st ∪ {[s]}) else st | None => st end)
      end
  | EvClose s ao => proxy_session_try_close_vpp_session st s ao
  | EvCleanup s ao =>
      session_cleanup (if ao then set_px_vpp st (px_clients st) (px_servers st ∖ {[s]}) else set_px_vpp st (px_clients st ∖ {[s]}) (px_servers st)) s ao
  end.

(** a session of VPP that the tables can take *)
Definition session_ok (st : proxy_t) (s : session_t) : Prop :=
  (0 <= fst s < Z.of_nat (length (px_to_proxy st)) /\ fst s < u32_none) /\ 0 <= snd s < u32_none.

(** what the flow table, the data path and the session layer of VPP keep to: a new
    flow has no session of the proxy, and the data path does not touch it; a flow
    is given to upf-proxy-accept for the first time, or VPP finds its connection;
    sessions that come up are new, callbacks are for sessions that are there, and
    the timer of 10 seconds runs out at the latest *)
Definition enabled (st : proxy_t) (ev : proxy_event) : Prop :=
  match ev with
  | EvFlow i f => pool_elt (px_flows st) i = None /\ 0 <= i < u32_none /\ fe_ps_index f = u32_none
  | EvFlowChange i f => exists g, pool_elt (px_flows st) i = Some g /\ fe_ps_index f = fe_ps_index g /\ fe_tc f = fe_tc g /\ fe_is_reverse f = fe_is_reverse g
  | EvExpire i => is_Some (pool_elt (px_flows st) i)
  | EvSyn _ e thread_index flow_id =>
      exists f, pool_elt (px_flows st) flow_id = Some f
        /\ (sy_old_conn e = false -> tc_thread_index (flow_tc f FT_ORIGIN) = u32_none)
        /\ session_ok st (thread_index, sy_session_index e)
        /\ ((thread_index, sy_session_index e) ∉ px_clients st ∪ px_servers st) /\ pool_room (px_sessions st)
  | EvRx e s => s ∈ px_clients st /\ last (rx_sends e) = Some (0, true)
  | EvRpc _ => True
  | EvConnected k s =>
      match s with Some (s, _) => session_ok st s /\ (s ∉ px_clients st ∪ px_servers st) | None => True end
  | EvClose s ao | EvCleanup s ao => s ∈ px_side st ao
  end.

(** [n] threads; no flow and no session yet *)
Definition proxy_start (n : nat) : proxy_t := mk_px pool_empty (replicate n []) (replicate n []) pool_empty [] [] ∅ ∅ [].
Inductive proxy_reach (n : nat) : proxy_t -> Prop :=
| reach_start : proxy_reach n (proxy_start n)
| reach_step st ev st' : proxy_reach n st -> enabled st ev -> proxy_step ev st = Ok st' -> proxy_reach n st'.
End Machine.

(** ** References *)

Definition occ (i : Z) (l : list Z) : nat := length (filter (fun x => x = i) l).
Lemma occ_nil i : occ i [] = 0%nat.
Proof. done. Qed.
Lemma occ_cons i x l : occ i (x :: l) = ((if decide (x = i) then 1 else 0) + occ i l)%nat.
Proof. unfold occ. rewrite filter_cons. by destruct (decide (x = i)). Qed.
Lemma occ_app i l l' : occ i (l ++ l') = (occ i l + occ i l')%nat.
Proof. unfold occ. by rewrite filter_app, length_app. Qed.
Lemma occ_insert i l k j x : l !! k = Some j ->
  (occ i (<[k := x]> l) + (if decide (j = i) then 1 else 0) = occ i l + (if decide (x = i) then 1 else 0))%nat.
Proof.
  intros Hk. rewrite insert_take_drop by (by apply lookup_lt_is_Some_1; eauto). rewrite <- (take_drop_middle l k j Hk) at 3.
  rewrite !occ_app, !occ_cons. lia.
Qed.
Lemma occ_delete i l k j : l !! k = Some j -> occ i l = (occ i (delete k l) + (if decide (j = i) then 1 else 0))%nat.
Proof. intros Hk. rewrite <- (take_drop_middle l k j Hk) at 1. rewrite delete_take_drop, !occ_app, occ_cons. lia. Qed.
Lemma occ_elem i l k : l !! k = Some i -> (1 <= occ i l)%nat.
Proof. intros Hk. rewrite (occ_delete i l k i Hk), decide_True by done. lia. Qed.
Lemma occ_none i l n : i <> u32_none -> occ i (l ++ replicate n u32_none) = occ i l.
Proof. intros Hi. rewrite occ_app. induction n as [|n IH]; [by rewrite occ_nil|]. cbn [replicate]. rewrite occ_cons, decide_False by congruence. lia. Qed.

(** the entry of a session in a table *)
Definition table_get (v : list (list Z)) (s : session_t) : option Z := v !! Z.to_nat (fst s) ≫= fun l => l !! Z.to_nat (snd s).

Lemma vec_store_lookup l i x j : 0 <= i ->
  vec_store l i x !! j = if decide (j = Z.to_nat i) then Some x else if decide (j < length l)%nat then l !! j else if decide (j < S (Z.to_nat i))%nat then Some u32_none else None.
Proof.
  intros Hi. unfold vec_store. destruct (decide (j = Z.to_nat i)) as [->|Hj].
  - apply list_lookup_insert_eq. rewrite length_app, length_replicate. lia.
  - rewrite list_lookup_insert_ne by done. destruct (decide (j < length l)%nat) as [Hl|Hl]; [by rewrite lookup_app_l|].
    rewrite lookup_app_r by lia. destruct (decide (j < S (Z.to_nat i))%nat).
    + rewrite lookup_replicate_2 by lia. done.
    + apply lookup_ge_None. rewrite length_replicate. lia.
Qed.
Lemma vec_store_occ l i x j : 0 <= i -> j <> u32_none ->
  (occ j (vec_store l i x) + (if decide (l !! Z.to_nat i = Some j) then 1 else 0) = occ j l + (if decide (x = j) then 1 else 0))%nat.
Proof.
  intros Hi Hj. unfold vec_store. set (l' := l ++ _).
  assert (exists y, l' !! Z.to_nat i = Some y /\ (l !! Z.to_nat i = Some j <-> y = j)) as (y & Hy & Hyj).
  { destruct (decide (Z.to_nat i < length l)%nat) as [Hl|Hl].
    - apply lookup_lt_is_Some_2 in Hl as [y Hy]. exists y. split; [unfold l'; by apply lookup_app_l_Some|]. rewrite Hy. split; congruence.
    - exists u32_none. split.
      + unfold l'. rewrite lookup_app_r by lia. by rewrite lookup_replicate_2 by lia.
      + rewrite lookup_ge_None_2 by lia. split; congruence. }
  pose proof (occ_insert j l' (Z.to_nat i) y x Hy) as H. unfold l' in H at 2. rewrite occ_none in H by done.
  destruct (decide (y = j)), (decide (l !! Z.to_nat i = Some j)); first [lia|exfalso; tauto].
Qed.

(** threads and sessions of VPP as indices *)
Lemma session_eq (s s' : session_t) : 0 <= fst s -> 0 <= snd s -> 0 <= fst s' -> 0 <= snd s' ->
  Z.to_nat (fst s) = Z.to_nat (fst s') -> Z.to_nat (snd s) = Z.to_nat (snd s') -> s = s'.
Proof. destruct s, s'. simpl. intros. f_equal; lia. Qed.

Lemma table_store_get v s s' x i : 0 <= fst s < Z.of_nat (length v) -> 0 <= snd s -> 0 <= fst s' -> 0 <= snd s' -> i <> u32_none ->
  table_get (table_store v s x) s' = Some i <-> (s' = s /\ x = i) \/ (s' <> s /\ table_get v s' = Some i).
Proof.
  intros Ht Hi Ht' Hi' Hn. unfold table_get, table_store.
  destruct (decide (Z.to_nat (fst s') = Z.to_nat (fst s))) as [E|E].
  - rewrite E, list_lookup_alter, decide_True by done. assert (is_Some (v !! Z.to_nat (fst s))) as [l Hl] by (apply lookup_lt_is_Some; lia).
    rewrite Hl. simpl. rewrite vec_store_lookup by done.
    destruct (decide (Z.to_nat (snd s') = Z.to_nat (snd s))) as [E'|E'].
    + pose proof (session_eq s' s Ht' Hi' (proj1 Ht) Hi E E') as ->. split; [intros [= ->]; by left|intros [[_ ->]|[? _]]; done].
    + assert (s' <> s) by congruence. destruct (decide (_ < length l)%nat).
      * split; [by right|intros [[? _]|[_ ?]]; done].
      * rewrite (lookup_ge_None_2 l) by lia. split; [by destruct (decide _); intros [= <-]|intros [[? _]|[_ ?]]; done].
  - assert (s' <> s) by congruence. rewrite list_lookup_alter_ne by done. split; [by right|intros [[? _]|[_ ?]]; done].
Qed.

Lemma table_store_occ v s x i : 0 <= fst s < Z.of_nat (length v) -> 0 <= snd s -> i <> u32_none ->
  (occ i (concat (table_store v s x)) + (if decide (table_get v s = Some i) then 1 else 0) = occ i (concat v) + (if decide (x = i) then 1 else 0))%nat.
Proof.
  intros Ht Hi Hn. assert (is_Some (v !! Z.to_nat (fst s))) as [l Hl] by (apply lookup_lt_is_Some; lia).
  unfold table_store, table_get. rewrite Hl. cbn [mbind option_bind].
  pose proof (vec_store_occ l (snd s) x i Hi Hn) as H. set (f := fun l => vec_store l (snd s) x) in *. change (vec_store l (snd s) x) with (f l) in H.
  assert (occ i (concat (alter f (Z.to_nat (fst s)) v)) + occ i l = occ i (concat v) + occ i (f l))%nat as H'; [|lia].
  clear H Hi Ht. revert Hl. generalize (Z.to_nat (fst s)) as t. induction v as [|l0 v IH]; intros [|t]; [done|done|..]; cbn [alter list_alter concat].
  - intros [= ->]. rewrite !occ_app. lia.
  - intros Hl. change (l0 :: v) with ([l0] ++ v) in Hl. specialize (IH t Hl). rewrite !occ_app. change (list_alter f t v) with (alter f t v). lia.
Qed.

Lemma table_get_occ v s i : table_get v s = Some i -> (1 <= occ i (concat v))%nat.
Proof.
  unfold table_get. destruct (v !! Z.to_nat (fst s)) as [l|] eqn:Hl; [|done]. intros H. cbn [mbind option_bind] in H.
  rewrite <- (take_drop_middle v _ l Hl), concat_app, occ_app. cbn [concat]. rewrite occ_app. apply occ_elem in H. lia.
Qed.
Lemma table_store_length v s x : length (table_store v s x) = length v.
Proof. apply length_alter. Qed.
