(* ===== verification/ProxyInv.v ===== *)
(** * References to the sessions of the proxy

    The invariant of ProxySession.v: the count of a session of the proxy is the
    number of its references, nothing refers to one that was freed, sessions and
    flows know each other, and a side that is not disconnected has its session in
    VPP. Every step keeps it, so no step follows a bad index or null pointer of
    the proxy's own. *)

From Stdlib Require Import ZArith Lia.
From stdpp Require Import base list list_numbers option numbers decidable gmap sets.
From S2P Require Import Prelude PfcpIo UpfTypes UpfVec UpfAcl UpfRules UpfAssoc UpfMain FlowKey FlowTable UpfAppDpo AppDetect GtpuBuf GtpuPath TcpSplice ProxySession.
#[local] Open Scope upf_scope.

(** ** The invariant *)

Definition references (st : proxy_t) : list Z := px_rpc st ++ px_connects st ++ concat (px_to_proxy st) ++ concat (px_to_active_open st).
Definition ps_side (ps : upf_proxy_session_t) (ao : bool) : session_t := if ao then ps_active_open ps else ps_proxy ps.
Definition ps_disconnected (ps : upf_proxy_session_t) (ao : bool) : bool := if ao then ps_ao_disconnected ps else ps_po_disconnected ps.

(** [held]: references in the hands of the code that runs *)
Record proxy_inv (held : list Z) (st : proxy_t) : Prop := {
  pi_threads : length (px_to_active_open st) = length (px_to_proxy st);
  pi_refs i ps : pool_elt (px_sessions st) i = Some ps ->
    ps_refcnt ps = Z.of_nat (occ i (held ++ references st)) /\ ps_session_index ps = i /\ i <> u32_none;
  pi_dead i : pool_elt (px_sessions st) i = None -> i <> u32_none -> occ i (held ++ references st) = 0%nat;
  pi_flow i ps : pool_elt (px_sessions st) i = Some ps -> exists f, pool_elt (px_flows st) (ps_flow_index ps) = Some f /\ fe_ps_index f = i;
  pi_ps j f : pool_elt (px_flows st) j = Some f -> fe_ps_index f <> u32_none ->
    exists ps, pool_elt (px_sessions st) (fe_ps_index f) = Some ps /\ ps_flow_index ps = j;
  pi_side ao i ps : pool_elt (px_sessions st) i = Some ps -> ps_disconnected ps ao = false -> (ao = true -> snd (ps_side ps ao) <> u32_none) ->
    ps_side ps ao ∈ px_side st ao /\ table_get (px_table st ao) (ps_side ps ao) = Some i;
  pi_known ao s : s ∈ px_side st ao <-> session_ok st s /\ exists i, table_get (px_table st ao) s = Some i /\ i <> u32_none;
  pi_fresh j f : pool_elt (px_flows st) j = Some f -> tc_thread_index (flow_tc f FT_ORIGIN) = u32_none -> fe_ps_index f = u32_none;
  pi_flow_index j f : pool_elt (px_flows st) j = Some f -> j <> u32_none;
  pi_calls : Forall (fun i => i <> u32_none) (px_rpc st ++ px_connects st)
}.

Lemma pool_elt_set {A} (p : pool A) i a j : pool_elt (pool_set p i a) j = if decide (i = j) then Some a else pool_elt p j.
Proof. unfold pool_elt, pool_set. apply lookup_insert. Qed.
Lemma pool_elt_put {A} (p : pool A) i j : pool_elt (pool_put p i) j = if decide (i = j) then None else pool_elt p j.
Proof. unfold pool_elt, pool_put. apply lookup_delete. Qed.

(** case analysis on whether an element of a pool is the one that changed *)
Ltac pool_case H := cbn [px_sessions px_flows set_ps set_flow_at set_px_sessions set_px_flows set_px_table set_px_vpp set_px_calls] in H;
  rewrite ?pool_elt_set, ?pool_elt_put in H;
  match type of H with
  | context [decide (?i = ?j)] => destruct (decide (i = j)) as [<-|?]; [first [discriminate H|injection H as <-|idtac]|]
  | _ => idtac
  end.

Section Inv.
Variable held : list Z.
Variable st : proxy_t.
Hypothesis I : proxy_inv held st.

(** references are to sessions that are there *)
Lemma ref_live i : (1 <= occ i (held ++ references st))%nat -> i <> u32_none -> exists ps, pool_elt (px_sessions st) i = Some ps.
Proof. intros H Hi. destruct (pool_elt (px_sessions st) i) as [ps|] eqn:E; [eauto|]. pose proof (pi_dead _ _ I i E Hi). lia. Qed.
Lemma entry_live ao s i : table_get (px_table st ao) s = Some i -> i <> u32_none -> exists ps, pool_elt (px_sessions st) i = Some ps.
Proof.
  intros H Hi. apply ref_live; [|done]. apply table_get_occ in H. unfold references. rewrite !occ_app.
  destruct ao; unfold px_table in H; lia.
Qed.

Lemma inv_did o : proxy_inv held (px_did st o).
Proof. by destruct I; split. Qed.

Lemma inv_set_ps held' i ps ps' :
  pool_elt (px_sessions st) i = Some ps -> ps_session_index ps' = ps_session_index ps -> ps_flow_index ps' = ps_flow_index ps ->
  (forall ao, ps_side ps' ao = ps_side ps ao) -> (forall ao, ps_disconnected ps' ao = false -> ps_disconnected ps ao = false) ->
  (forall j, j <> i -> occ j held' = occ j held) -> ps_refcnt ps' + Z.of_nat (occ i held) = ps_refcnt ps + Z.of_nat (occ i held') ->
  proxy_inv held' (set_ps st i ps').
Proof.
  intros Hi E1 E2 E3 E4 E5 E6. destruct I as [T R D F S Sd K Fr Fi Ca]. split; try done.
  - intros j p Hj. change (references (set_ps st i ps')) with (references st). destruct (R i ps Hi) as (R1 & R2 & R3). rewrite !occ_app in *.
    pool_case Hj; [split; [lia|by rewrite E1]|]. rewrite E5 by done. specialize (R j p Hj). by rewrite occ_app in R.
  - intros j Hj Hn. change (references (set_ps st i ps')) with (references st). pool_case Hj. specialize (D j Hj Hn). rewrite !occ_app in *. rewrite E5 by done. done.
  - intros j p Hj. pool_case Hj; [rewrite E2; eauto|eauto].
  - intros j f Hj Hf. destruct (S j f Hj Hf) as (p & Hp & Hpj). cbn [px_sessions set_ps set_px_sessions]. rewrite pool_elt_set.
    destruct (decide (i = fe_ps_index f)) as [->|]; [|eauto]. exists ps'. split; [done|]. rewrite E2. congruence.
  - intros ao j p Hj Hd Hn. pool_case Hj; [|by apply Sd]. rewrite E3 in *. by apply (Sd ao i ps); auto.
Qed.

Lemma inv_calls held' rpc connects :
  (forall i, (occ i held' + (occ i rpc + occ i connects) = occ i held + (occ i (px_rpc st) + occ i (px_connects st)))%nat) ->
  Forall (fun i => i <> u32_none) (rpc ++ connects) ->
  proxy_inv held' (set_px_calls st rpc connects).
Proof.
  intros E Hc. destruct I as [T R D F S Sd K Fr Fi Ca].
  assert (forall i, occ i (held' ++ references (set_px_calls st rpc connects)) = occ i (held ++ references st)) as Eo.
  { intros i. specialize (E i). unfold references. cbn. rewrite !occ_app. lia. }
  split; try done; intros; rewrite Eo; auto.
Qed.

Lemma inv_set_flow j f f' :
  pool_elt (px_flows st) j = Some f -> fe_ps_index f' = fe_ps_index f ->
  (tc_thread_index (flow_tc f' FT_ORIGIN) = u32_none -> tc_thread_index (flow_tc f FT_ORIGIN) = u32_none \/ fe_ps_index f = u32_none) ->
  proxy_inv held (set_flow_at st j f').
Proof.
  intros Hj E Ht. destruct I as [T R D F S Sd K Fr Fi Ca]. split; try done.
  - intros i ps Hi. destruct (F i ps Hi) as (g & Hg & Hgi). cbn [px_flows set_flow_at set_px_flows]. rewrite pool_elt_set.
    destruct (decide (j = ps_flow_index ps)) as [->|]; [|eauto]. exists f'. split; [done|congruence].
  - intros i g Hi Hg. pool_case Hi; [rewrite E in *; eauto|eauto].
  - intros i g Hi Hg. pool_case Hi; [|eauto]. rewrite E. destruct (Ht Hg); [eauto|done].
  - intros i g Hi. pool_case Hi; eauto.
Qed.
End Inv.

(** ** Operations *)

Lemma occ_self i l : occ i (i :: l) = S (occ i l).
Proof. by rewrite occ_cons, decide_True. Qed.
Lemma occ_other i j l : j <> i -> occ j (i :: l) = occ j l.
Proof. intros H. by rewrite occ_cons, decide_False. Qed.
Lemma get_ps_live st i ps : pool_elt (px_sessions st) i = Some ps -> get_ps st i = Ok ps.
Proof. intros H. unfold get_ps, proxy_session_get. by rewrite H. Qed.

(** a reference in hand is given up *)
Lemma put_runs held st i ps : proxy_inv (i :: held) st -> pool_elt (px_sessions st) i = Some ps ->
  exists st', proxy_session_put st i = Ok st' /\ proxy_inv held st'
    /\ (pool_elt (px_sessions st') i = None <-> occ i (held ++ references st) = 0%nat).
Proof.
  intros I Hi. destruct (pi_refs _ _ I i ps Hi) as (R1 & R2 & R3). cbn [app] in R1. rewrite occ_self in R1.
  destruct (pi_flow _ _ I i ps Hi) as (f & Hf & Hfi).
  assert (proxy_inv held (set_ps st i (set_refcnt ps (ps_refcnt ps - 1)))) as I'.
  { eapply inv_set_ps; [exact I|exact Hi|done|done|by intros []|by intros []|..].
    - intros j Hj. by rewrite occ_other.
    - rewrite occ_self. simpl. lia. }
  unfold proxy_session_put. rewrite (get_ps_live st i ps Hi). cbn [obind ps_refcnt set_refcnt].
  destruct (Z.eqb_spec (ps_refcnt ps - 1) 0) as [E|E].
  2: { eexists. split; [reflexivity|]. split; [exact I'|]. cbn [px_sessions set_ps set_px_sessions]. rewrite pool_elt_set, decide_True by done. split; [done|lia]. }
  unfold proxy_session_free. change (ps_flow_index (set_refcnt ps (ps_refcnt ps - 1))) with (ps_flow_index ps). pose proof (pi_flow_index _ _ I _ f Hf).
  destruct (Z.eqb_spec (ps_flow_index ps) u32_none); [done|]. cbn [negb]. unfold get_flow. change (px_flows (set_ps st i _)) with (px_flows st). rewrite Hf. cbn [obind].
  eexists. split; [reflexivity|]. cbn [px_sessions set_px_sessions]. rewrite pool_elt_put, decide_True by done. split; [|split; [lia|done]].
  set (st1 := set_ps st i _) in *. destruct I' as [T R D F S Sd K Fr Fi Ca].
  assert (occ i (held ++ references st) = 0%nat) as E0 by lia.
  split; try done; cbn [px_sessions px_flows set_px_sessions set_flow_at set_px_flows] in *.
  - intros j p Hj. pool_case Hj. by apply R.
  - intros j Hj Hn. pool_case Hj; [done|by apply D].
  - intros j p Hj. pool_case Hj. destruct (F j p Hj) as (g & Hg & Hgj). rewrite pool_elt_set.
    destruct (decide (ps_flow_index ps = ps_flow_index p)) as [Ep|]; [|eauto]. rewrite Ep in Hf. simpl in Hg. congruence.
  - intros j g Hj Hg. pool_case Hj; [done|]. destruct (S j g Hj Hg) as (p & Hp & Hpj).
    rewrite pool_elt_put. destruct (decide (i = fe_ps_index g)) as [Eg|]; [|eauto]. exfalso.
    unfold st1 in Hp. cbn [px_sessions set_ps set_px_sessions] in Hp. rewrite <- Eg, pool_elt_set, decide_True in Hp by done. injection Hp as <-. simpl in Hpj. congruence.
  - intros ao j p Hj Hd Hn. pool_case Hj. by apply (Sd ao j p).
  - intros j g Hj Hg. pool_case Hj; [done|eauto].
  - intros j g Hj. pool_case Hj; eauto.
Qed.

(** a side that is not disconnected has a session *)
Lemma side_session held st ao i ps : proxy_inv held st -> pool_elt (px_sessions st) i = Some ps -> ps_disconnected ps ao = false ->
  ao = false -> session_from_proxy_session_get_if_valid st ps ao = Some (ps_side ps ao).
Proof.
  intros I Hi Hd ->. destruct (pi_side _ _ I false i ps Hi Hd ltac:(done)) as [Hs _].
  pose proof (proj1 (pi_known _ _ I false _) Hs) as [[_ Hk] _]. unfold session_from_proxy_session_get_if_valid. cbn [ps_side] in *.
  destruct (Z.eqb_spec (snd (ps_proxy ps)) u32_none); [lia|]. rewrite bool_decide_true; [done|]. by apply elem_of_union_l.
Qed.

(** closing reaches the session of the client *)
Lemma try_close_runs held st i ps : proxy_inv held st -> pool_elt (px_sessions st) i = Some ps ->
  exists st' ps', proxy_session_try_close_unlocked st i = Ok st' /\ proxy_inv held st' /\ pool_elt (px_sessions st') i = Some ps'
    /\ ps_po_disconnected ps' = true /\ references st' = references st /\ px_flows st' = px_flows st.
Proof.
  intros I Hi. unfold proxy_session_try_close_unlocked. rewrite (get_ps_live st i ps Hi). cbn [obind].
  set (r := if negb (ps_ao_disconnected ps) && _ then _ else _).
  assert (exists o ps1, r = (match o with Some o => px_did st o | None => st end, ps1) /\ (ps1 = ps \/ ps1 = set_disconnected ps true)) as (o & ps1 & -> & E1).
  { unfold r. destruct (_ && _); [|by exists None, ps; auto]. destruct (session_from_proxy_session_get_if_valid st ps true) as [s|].
    - exists (Some (Disconnect s true)), (set_disconnected ps true). auto.
    - by exists None, ps; auto. }
  set (st1 := match o with Some o => px_did st o | None => st end).
  assert (proxy_inv held st1) as I1 by (unfold st1; destruct o; [by apply inv_did|done]).
  assert (pool_elt (px_sessions st1) i = Some ps /\ references st1 = references st /\ px_flows st1 = px_flows st) as (Hi1 & Er & Ef) by (unfold st1; by destruct o).
  assert (forall o' ps', (ps' = ps1 \/ ps' = set_disconnected ps1 false) -> ps_po_disconnected ps' = true ->
    exists st' ps'', Ok (set_ps (match o' with Some o => px_did st1 o | None => st1 end) i ps') = Ok st' /\ proxy_inv held st' /\ pool_elt (px_sessions st') i = Some ps''
    /\ ps_po_disconnected ps'' = true /\ references st' = references st /\ px_flows st' = px_flows st) as Hend.
  { intros o' ps' E2 Hp. eexists _, ps'. split; [reflexivity|]. split.
    - eapply (inv_set_ps held) with (ps := ps).
      + destruct o'; [by apply inv_did|done].
      + by destruct o'.
      + destruct E1 as [->| ->], E2 as [->| ->]; done.
      + destruct E1 as [->| ->], E2 as [->| ->]; done.
      + intros []; destruct E1 as [->| ->], E2 as [->| ->]; done.
      + intros []; destruct E1 as [->| ->], E2 as [->| ->]; done.
      + done.
      + destruct E1 as [->| ->], E2 as [->| ->]; done.
    - split; [cbn [px_sessions set_ps set_px_sessions]; by rewrite pool_elt_set, decide_True|]. split; [done|]. by destruct o'. }
  destruct (ps_po_disconnected ps1) eqn:Ep; cbn [negb]; [by apply (Hend None); auto|].
  assert (session_from_proxy_session_get_if_valid st1 ps1 false = Some (ps_proxy ps)) as ->.
  { transitivity (session_from_proxy_session_get_if_valid st1 ps false); [by destruct E1 as [->| ->]|].
    apply (side_session held st1 false i ps I1 Hi1); [by destruct E1 as [->| ->]|done]. }
  apply (Hend (Some (Disconnect (ps_proxy ps) false))); auto.
Qed.

(** ** Tables *)

Lemma session_thread held st ao s : proxy_inv held st -> session_ok st s -> 0 <= fst s < Z.of_nat (length (px_table st ao)) /\ 0 <= snd s.
Proof. intros I [[H1 H2] H3]. destruct ao; cbn [px_table]; [rewrite (pi_threads _ _ I)|]; lia. Qed.

(** the vector of the thread of a session is there *)
Lemma thread_vec_ok held st ao s : proxy_inv held st -> session_ok st s ->
  exists l, thread_vec (px_table st ao) (fst s) = Ok l /\ l !! Z.to_nat (snd s) = table_get (px_table st ao) s.
Proof.
  intros I Hs. destruct (session_thread held st ao s I Hs) as [Ht _]. unfold thread_vec, table_get.
  destruct (Z.ltb_spec (fst s) 0); [lia|]. assert (is_Some (px_table st ao !! Z.to_nat (fst s))) as [l Hl] by (apply lookup_lt_is_Some; lia).
  exists l. by rewrite Hl.
Qed.

(** what a table says of a session *)
Lemma lookup_known held st ao s : proxy_inv held st -> s ∈ px_side st ao ->
  exists i ps, ps_session_lookup st s ao = Ok (Some i) /\ table_get (px_table st ao) s = Some i /\ pool_elt (px_sessions st) i = Some ps /\ i <> u32_none /\ session_ok st s.
Proof.
  intros I [Hs (i & Hi & Hn)]%(pi_known _ _ I). destruct (entry_live held st I ao s i Hi Hn) as [ps Hp].
  destruct (thread_vec_ok held st ao s I Hs) as (l & El & Eg). exists i, ps. split; [|done].
  unfold ps_session_lookup. rewrite El. cbn [obind]. rewrite Eg, Hi. unfold pool_is_free_index. by rewrite bool_decide_false by (unfold pool_elt in Hp; by rewrite Hp).
Qed.
Lemma lookup_unknown held st ao s : proxy_inv held st -> session_ok st s -> s ∉ px_side st ao -> ps_session_lookup st s ao = Ok None.
Proof.
  intros I Hs Hn. destruct (thread_vec_ok held st ao s I Hs) as (l & El & Eg). unfold ps_session_lookup. rewrite El. cbn [obind]. rewrite Eg.
  destruct (table_get (px_table st ao) s) as [i|] eqn:Ei; [|done]. destruct (decide (i = u32_none)) as [->|Hi].
  - unfold pool_is_free_index. rewrite bool_decide_true; [done|]. destruct (pool_elts (px_sessions st) !! u32_none) as [ps|] eqn:E; [|done].
    by destruct (pi_refs _ _ I u32_none ps E) as (_ & _ & ?).
  - exfalso. apply Hn, (pi_known _ _ I). eauto.
Qed.

Lemma references_table st ao s x i : 0 <= fst s < Z.of_nat (length (px_table st ao)) -> 0 <= snd s -> i <> u32_none ->
  (occ i (references (set_px_table st ao (table_store (px_table st ao) s x))) + (if decide (table_get (px_table st ao) s = Some i) then 1 else 0)
   = occ i (references st) + (if decide (x = i) then 1 else 0))%nat.
Proof.
  intros Ht Hs Hi. pose proof (table_store_occ (px_table st ao) s x i Ht Hs Hi) as H. unfold references. destruct ao; cbn [px_table set_px_table px_rpc px_connects px_to_proxy px_to_active_open] in *; rewrite !occ_app; lia.
Qed.

(** the session [s] of VPP is gone *)
Definition vpp_del (st : proxy_t) (s : session_t) (ao : bool) : proxy_t :=
  if ao then set_px_vpp st (px_clients st) (px_servers st ∖ {[s]}) else set_px_vpp st (px_clients st ∖ {[s]}) (px_servers st).

Lemma inv_table_del held st ao s i ps : proxy_inv held st -> s ∈ px_side st ao -> table_get (px_table st ao) s = Some i ->
  pool_elt (px_sessions st) i = Some ps -> ps_disconnected ps ao = true ->
  proxy_inv (i :: held) (set_px_table (vpp_del st s ao) ao (table_store (px_table st ao) s u32_none)).
Proof.
  intros I Hs Hg Hi Hd. pose proof (proj1 (pi_known _ _ I ao s) Hs) as [Hok _]. destruct (session_thread held st ao s I Hok) as [Ht Hsn].
  destruct (pi_refs _ _ I i ps Hi) as (_ & _ & Hin). set (st' := set_px_table _ _ _).
  assert (forall j, j <> u32_none -> occ j ((i :: held) ++ references st') = occ j (held ++ references st)) as Eo.
  { intros j Hj. pose proof (references_table st ao s u32_none j Ht Hsn Hj) as E. assert (references st' = references (set_px_table st ao (table_store (px_table st ao) s u32_none))) as -> by (by destruct ao).
    rewrite Hg in E. rewrite !occ_app in *. rewrite occ_cons. rewrite (decide_False (P := u32_none = j)) in E by congruence.
    destruct (decide (Some i = Some j)), (decide (i = j)); first [lia|congruence]. }
  assert (forall ao', px_table st' ao' = if eqb ao ao' then table_store (px_table st ao) s u32_none else px_table st ao') as Etb by (by intros []; destruct ao).
  assert (forall ao' s', s' ∈ px_side st' ao' <-> s' ∈ px_side st ao' /\ (ao' = ao -> s' <> s)) as Esd 
    by (intros [] s'; destruct ao; cbn; rewrite ?elem_of_difference, ?elem_of_singleton; intuition congruence).
  assert (forall ao' s' j, session_ok st s' -> j <> u32_none -> table_get (px_table st' ao') s' = Some j <-> table_get (px_table st ao') s' = Some j /\ (ao' = ao -> s' <> s)) as Egt.
  { intros ao' s' j [[? _] ?] Hj. rewrite Etb. destruct (eqb ao ao') eqn:Eb; [apply eqb_prop in Eb as <-|apply eqb_false_iff in Eb; split; [intros ?; split; [done|by intros ->]|by intros [? _]]].
    rewrite table_store_get by (done || lia). split; [intros [[_ ?]|[? ?]]; [congruence|done]|intros [? ?]; right; auto]. }
  assert (forall s', session_ok st' s' <-> session_ok st s') as Eok by (intros s'; unfold session_ok; destruct ao; cbn; by rewrite ?table_store_length).
  assert (px_sessions st' = px_sessions st /\ px_flows st' = px_flows st) as [Eps Epf] by (by destruct ao).
  destruct I as [T R D F S Sd K Fr Fi Ca]. split; rewrite ?Eps, ?Epf; try done; try (by destruct ao).
  - unfold st'. destruct ao; cbn; by rewrite table_store_length.
  - intros j p Hj. destruct (R j p Hj) as (R1 & R2 & R3). by rewrite Eo.
  - intros j Hj Hn. rewrite Eo by done. by apply D.
  - intros ao' j p Hj Hdp Hn. destruct (Sd ao' j p Hj Hdp Hn) as [S1 S2].
    destruct (R j p Hj) as (_ & _ & Hjn). assert (ao' = ao -> ps_side p ao' <> s) as Hne.
    { intros -> E. rewrite E, Hg in S2. injection S2 as <-. rewrite Hi in Hj. injection Hj as <-. congruence. }
    split; [by apply Esd|]. apply Egt; [by apply K in S1 as [? _]|done|done].
  - intros ao' s'. rewrite Esd, K, Eok. split.
    + intros [[H1 (j & Hj & Hjn)] H2]. split; [done|]. exists j. split; [|done]. by apply Egt.
    + intros [H1 (j & Hj & Hjn)]. apply Egt in Hj as [Hj H2]; eauto.
Qed.

(** the session [s] of VPP is there *)
Definition vpp_add (st : proxy_t) (s : session_t) (ao : bool) : proxy_t :=
  if ao then set_px_vpp st (px_clients st) (px_servers st ∪ {[s]}) else set_px_vpp st (px_clients st ∪ {[s]}) (px_servers st).

Lemma inv_table_add held st ao s i ps ps' : proxy_inv (i :: held) st -> pool_elt (px_sessions st) i = Some ps ->
  session_ok st s -> s ∉ px_side st ao ->
  ps_session_index ps' = ps_session_index ps -> ps_flow_index ps' = ps_flow_index ps -> ps_refcnt ps' = ps_refcnt ps ->
  ps_side ps' ao = s -> ps_side ps' (negb ao) = ps_side ps (negb ao) ->
  ps_disconnected ps' (negb ao) = ps_disconnected ps (negb ao) ->
  proxy_inv held (vpp_add (set_px_table (set_ps st i ps') ao (table_store (px_table st ao) s i)) s ao).
Proof.
  intros I Hi Hok Hs E1 E2 E3 E4 E5 E6. destruct (session_thread _ st ao s I Hok) as [Ht Hsn].
  destruct (pi_refs _ _ I i ps Hi) as (_ & _ & Hin). set (st' := vpp_add _ _ _).
  assert (forall j, table_get (px_table st ao) s = Some j -> j = u32_none) as Hg.
  { intros j Hj. destruct (decide (j = u32_none)) as [|Hj']; [done|]. exfalso. apply Hs, (pi_known _ _ I). eauto. }
  assert (forall j, j <> u32_none -> occ j (held ++ references st') = occ j ((i :: held) ++ references st)) as Eo.
  { intros j Hj. pose proof (references_table st ao s i j Ht Hsn Hj) as E. assert (references st' = references (set_px_table st ao (table_store (px_table st ao) s i))) as -> by (by destruct ao).
    rewrite (decide_False (P := table_get _ _ = Some j)) in E by (intros ?; auto). rewrite !occ_app in *. rewrite occ_cons. lia. }
  assert (forall ao', px_table st' ao' = if eqb ao ao' then table_store (px_table st ao) s i else px_table st ao') as Etb by (by intros []; destruct ao).
  assert (forall ao' s', s' ∈ px_side st' ao' <-> s' ∈ px_side st ao' \/ (ao' = ao /\ s' = s)) as Esd
    by (intros [] s'; destruct ao; cbn; rewrite ?elem_of_union, ?elem_of_singleton; intuition congruence).
  assert (forall ao' s' j, session_ok st s' -> j <> u32_none ->
    table_get (px_table st' ao') s' = Some j <-> table_get (px_table st ao') s' = Some j \/ (ao' = ao /\ s' = s /\ j = i)) as Egt.
  { intros ao' s' j [[? _] ?] Hj. rewrite Etb. destruct (eqb ao ao') eqn:Eb; [apply eqb_prop in Eb as <-|apply eqb_false_iff in Eb; intuition congruence].
    rewrite table_store_get by (done || lia). split; [intros [[-> ->]|[? ?]]; auto|]. intros [Hx|(_ & -> & ->)]; [|by left].
    right. split; [|done]. intros ->. by apply Hj, Hg. }
  assert (forall s', session_ok st' s' <-> session_ok st s') as Eok by (intros s'; unfold session_ok; destruct ao; cbn; by rewrite ?table_store_length).
  assert (px_sessions st' = pool_set (px_sessions st) i ps' /\ px_flows st' = px_flows st) as [Eps Epf] by (by destruct ao).
  destruct I as [T R D F S Sd K Fr Fi Ca]. split; rewrite ?Eps, ?Epf; try done; try (by destruct ao).
  - unfold st'. destruct ao; cbn; by rewrite table_store_length.
  - intros j p Hj. pool_case Hj; [destruct (R i ps Hi) as (R1 & R2 & R3); rewrite E3, E1; by rewrite Eo|].
    destruct (R j p Hj) as (R1 & R2 & R3). by rewrite Eo.
  - intros j Hj Hn. pool_case Hj. rewrite Eo by done. by apply D.
  - intros j p Hj. pool_case Hj; [rewrite E2; eauto|eauto].
  - intros j f Hj Hf. destruct (S j f Hj Hf) as (p & Hp & Hpj). rewrite pool_elt_set.
    destruct (decide (i = fe_ps_index f)) as [->|]; [|eauto]. exists ps'. split; [done|]. rewrite E2. congruence.
  - intros ao' j p Hj Hdp Hn. assert (ps_side p ao' ∈ px_side st ao' /\ table_get (px_table st ao') (ps_side p ao') = Some j \/ (ao' = ao /\ ps_side p ao' = s /\ j = i)) as Hx.
    { pool_case Hj; [|left; by apply (Sd ao' j p)]. destruct (decide (ao' = ao)) as [->|Hao]; [by right|]. left.
      assert (ao' = negb ao) as -> by (by destruct ao, ao'). rewrite E5 in *. rewrite E6 in Hdp. by apply (Sd (negb ao) i ps). }
    assert (j <> u32_none) as Hjn by (pool_case Hj; [done|by destruct (R j p Hj) as (_ & _ & ?)]).
    destruct Hx as [[S1 S2]|(-> & -> & ->)].
    + split; [apply Esd; by left|]. apply Egt; [by apply K in S1 as [? _]|done|by left].
    + split; [apply Esd; by right|]. apply Egt; [done|done|by right].
  - intros ao' s'. rewrite Esd, K, Eok. split.
    + intros [[H1 (j & Hj & Hjn)]|[-> ->]]; (split; [done|]); [exists j; split; [apply Egt; auto|done]|exists i; split; [apply Egt; auto|done]].
    + intros [H1 (j & Hj & Hjn)]. apply Egt in Hj as [Hj|(-> & -> & ->)]; eauto.
Qed.

(** a session of VPP goes away *)
Lemma cleanup_runs st s ao : proxy_inv [] st -> s ∈ px_side st ao ->
  exists st', session_cleanup (vpp_del st s ao) s ao = Ok st' /\ proxy_inv [] st'
    /\ forall i, table_get (px_table st ao) s = Some i -> pool_elt (px_sessions st') i = None <-> occ i (references st) = 1%nat.
Proof.
  intros I Hs. destruct (lookup_known [] st ao s I Hs) as (i & ps & El & Eg & Ep & Hi & Hok).
  unfold session_cleanup. assert (ps_session_lookup (vpp_del st s ao) s ao = Ok (Some i)) as -> by (rewrite <- El; by destruct ao). cbn [obind].
  assert (get_ps (vpp_del st s ao) i = Ok ps) as -> by (apply get_ps_live; by destruct ao). cbn [obind].
  set (ps' := set_disconnected ps ao). set (st1 := set_ps st i ps').
  assert (set_ps (vpp_del st s ao) i ps' = vpp_del st1 s ao) as -> by (by destruct ao).
  assert (proxy_inv [] st1) as I1.
  { eapply inv_set_ps; [exact I|exact Ep|done|done|by intros []|by intros []; destruct ao|done|]. by destruct ao. }
  assert (s ∈ px_side st1 ao /\ table_get (px_table st1 ao) s = Some i) as [Hs1 Hg1] by (by destruct ao).
  assert (pool_elt (px_sessions st1) i = Some ps') as Hi1 by (unfold st1; cbn; by rewrite pool_elt_set, decide_True).
  unfold ps_session_lookup_del. destruct (thread_vec_ok [] st1 ao s I1) as (l & Elv & Elg); [by destruct ao|].
  assert (px_table (vpp_del st1 s ao) ao = px_table st1 ao) as -> by (by destruct ao). rewrite Elv. cbn [obind]. rewrite Elg, Hg1.
  assert (pool_is_free_index (px_sessions (vpp_del st1 s ao)) i = false) as ->.
  { unfold pool_is_free_index. apply bool_decide_false. assert (px_sessions (vpp_del st1 s ao) = px_sessions st1) as -> by (by destruct ao). unfold pool_elt in Hi1. by rewrite Hi1. }
  pose proof (inv_table_del [] st1 ao s i ps' I1 Hs1 Hg1 Hi1 ltac:(by destruct ao)) as I2.
  destruct (put_runs [] _ i ps' I2 ltac:(by destruct ao)) as (st3 & -> & I3 & Hfree). cbn [obind].
  assert (forall k, table_get (px_table st ao) s = Some k -> pool_elt (px_sessions st3) k = None <-> occ k (references st) = 1%nat) as Hfreed.
  { intros k Hk. rewrite Eg in Hk. injection Hk as <-. rewrite Hfree. cbn [app].
    destruct (session_thread [] st ao s I Hok) as [Ht Hsn]. pose proof (references_table st ao s u32_none i Ht Hsn Hi) as E. rewrite decide_True, decide_False in E by (congruence || done).
    assert (references (set_px_table (vpp_del st1 s ao) ao (table_store (px_table st1 ao) s u32_none)) = references (set_px_table st ao (table_store (px_table st ao) s u32_none))) as -> by (by destruct ao).
    lia. }
  destruct (pool_elt (px_flows st3) (ps_flow_index ps)) as [f|] eqn:Ef; [|eauto]. eexists. split; [reflexivity|]. split; [|exact Hfreed].
  eapply inv_set_flow; [exact I3|exact Ef|done|]. intros Ht. left. rewrite <- Ht. unfold flow_tc, set_flow_tc. destruct f as [? ? [] ? ? ? ? ? ? ? ? ? ? ? ? ? ? ? ? [] ? ? ? ?]; by destruct ao.
Qed.

(** ** Callbacks *)

(** [o] returns a value that satisfies [Q], or stops for the reason [R] *)
Definition runs {A} (R : Prop) (Q : A -> Prop) (o : outcome A) : Prop := match o with Ok a => Q a | _ => R end.
Lemma runs_bind {A B} R (Q : A -> Prop) (Q' : B -> Prop) o k : runs R Q o -> (forall a, Q a -> runs R Q' (k a)) -> runs R Q' (obind o k).
Proof. by destruct o; simpl; auto. Qed.
Lemma runs_weaken {A} (R : Prop) (Q Q' : A -> Prop) o : runs R Q o -> (forall a, Q a -> Q' a) -> runs R Q' o.
Proof. destruct o; simpl; auto. Qed.
Definition stops {A} (o : outcome A) : Prop := match o with Ok _ => False | _ => True end.
Lemma stops_runs {A} (R : Prop) (o : outcome A) : (stops o -> R) -> runs R (fun a => o = Ok a) o.
Proof. destruct o; simpl; auto. Qed.

(** a callback for a connection that was opened, or not *)
Lemma connected_runs st k i s : proxy_inv [] st -> px_connects st !! k = Some i ->
  (match s with Some (s, _) => session_ok st s /\ s ∉ px_clients st ∪ px_servers st | None => True end) ->
  exists stays st', active_open_connected_callback (set_px_calls st (px_rpc st) (delete k (px_connects st))) i s = Ok (stays, st')
    /\ proxy_inv [] (match s with Some (s, _) => if stays : bool then vpp_add st' s true else st' | None => st' end).
Proof.
  intros I Hk Hs. set (st0 := set_px_calls st _ _).
  pose proof (pi_calls _ _ I) as Hc. assert (i <> u32_none) as Hi.
  { rewrite Forall_app in Hc. destruct Hc as [_ Hc]. rewrite Forall_lookup in Hc. eauto. }
  assert (proxy_inv [i] st0) as I0.
  { apply (inv_calls [] st I).
    - intros j. rewrite occ_cons, !occ_nil, (occ_delete j _ k i Hk). lia.
    - rewrite Forall_app in *. destruct Hc. split; [done|by apply Forall_delete]. }
  destruct (ref_live [i] st0 I0 i) as [ps Hp]; [simpl; rewrite occ_self; lia|done|].
  unfold active_open_connected_callback, proxy_session_get. rewrite Hp. cbn [obind]. set (ps1 := set_establishing ps false). set (st1 := set_ps st0 i ps1).
  assert (proxy_inv [i] st1) as I1 by (eapply inv_set_ps; [exact I0|exact Hp|done|done|by intros []|by intros []|done|done]).
  assert (pool_elt (px_sessions st1) i = Some ps1) as Hp1 by (unfold st1; cbn; by rewrite pool_elt_set, decide_True).
  assert (forall st2 ps2, proxy_inv [i] st2 -> pool_elt (px_sessions st2) i = Some ps2 -> exists st',
    (let* st := proxy_session_put (set_ps st2 i (set_disconnected ps2 true)) i in Ok (false, st)) = Ok (false, st') /\ proxy_inv [] st') as Hput.
  { intros st2 ps2 I2 Hp2. destruct (put_runs [] (set_ps st2 i (set_disconnected ps2 true)) i (set_disconnected ps2 true)) as (st3 & E3 & I3 & _).
    - eapply inv_set_ps; [exact I2|exact Hp2|done|done|by intros []|by intros []|done|done].
    - cbn. by rewrite pool_elt_set, decide_True.
    - exists st3. by rewrite E3. }
  destruct s as [[s tc]|]; cbn [obind].
  - rewrite (get_ps_live st1 i ps1 Hp1). cbn [obind]. destruct (ps_po_disconnected ps1) eqn:Epo.
    { destruct (Hput st1 ps1 I1 Hp1) as (st' & -> & I'). by exists false, st'. }
    destruct Hs as [Hok Hnew]. destruct (thread_vec_ok [i] st1 true s I1 Hok) as (l & Elv & _).
    unfold active_open_session_lookup_add. change (px_to_active_open (set_ps st1 i _)) with (px_table st1 true). rewrite Elv. cbn [obind].
    set (st2 := set_px_table _ true _).
    assert (proxy_inv [] (vpp_add st2 s true)) as I2.
    { apply (inv_table_add [] st1 true s i ps1 (set_active_open ps1 s) I1 Hp1 Hok); try done. cbn. intros ?. apply Hnew. by apply elem_of_union_r. }
    destruct (pool_elt (px_flows st2) (ps_flow_index ps1)) as [f|] eqn:Ef; [|by exists true, st2].
    exists true, (set_flow_at st2 (ps_flow_index ps1) (set_flow_tc f FT_REVERSE tc)). split; [done|].
    change (vpp_add (set_flow_at st2 ?j ?g) s true) with (set_flow_at (vpp_add st2 s true) j g).
    eapply inv_set_flow; [exact I2|exact Ef|done|]. intros Ht. left. rewrite <- Ht. unfold flow_tc, set_flow_tc.
    by destruct f as [? ? [] ? ? ? ? ? ? ? ? ? ? ? ? ? ? ? ? [] ? ? ? ?].
  - rewrite (get_ps_live st1 i ps1 Hp1). cbn [obind]. set (st2 := set_ps st1 i (set_disconnected ps1 true)).
    assert (proxy_inv [i] st2) as I2 by (eapply inv_set_ps; [exact I1|exact Hp1|done|done|by intros []|by intros []|done|done]).
    destruct (try_close_runs [i] st2 i (set_disconnected ps1 true) I2) as (st3 & ps3 & -> & I3 & Hp3 & Epo & _ & _); [unfold st2; cbn; by rewrite pool_elt_set, decide_True|].
    cbn [obind]. rewrite (get_ps_live st3 i ps3 Hp3). cbn [obind]. rewrite Epo. destruct (Hput st3 ps3 I3 Hp3) as (st' & -> & I'). by exists false, st'.
Qed.

Lemma pool_set_set {A} (p : pool A) i a b : pool_set (pool_set p i a) i b = pool_set p i b.
Proof. unfold pool_set. f_equal. apply insert_insert_eq. Qed.

(** a session of the proxy is made for a flow; its client is not known yet *)
Lemma inv_alloc st i j f f' ps p : proxy_inv [] st -> pool_elt (px_sessions st) i = None -> i <> u32_none ->
  (forall k, pool_elt p k = if decide (i = k) then Some ps else pool_elt (px_sessions st) k) ->
  ps_session_index ps = i -> ps_refcnt ps = 1 -> ps_flow_index ps = j -> ps_po_disconnected ps = true -> snd (ps_active_open ps) = u32_none ->
  pool_elt (px_flows st) j = Some f -> fe_ps_index f = u32_none -> fe_ps_index f' = i -> tc_thread_index (flow_tc f' FT_ORIGIN) <> u32_none ->
  proxy_inv [i] (set_flow_at (set_px_sessions st p) j f').
Proof.
  intros I Hi Hn Hp E1 E2 E3 E4 E5 Hf Hfn Hf' Ht. pose proof (pi_dead _ _ I i Hi Hn) as Hd. simpl in Hd.
  assert (forall k, occ k ([i] ++ references st) = ((if decide (i = k) then 1 else 0) + occ k (references st))%nat) as Eo by (intros k; apply occ_cons).
  destruct I as [T R D F S Sd K Fr Fi Ca]. split; try done; cbn [px_sessions px_flows set_flow_at set_px_flows set_px_sessions].
  - intros k q Hk. rewrite Hp in Hk. change (references (set_flow_at _ _ _)) with (references st). rewrite Eo.
    destruct (decide (i = k)) as [<-|]; [injection Hk as <-; rewrite Hd; auto|]. apply (R k q Hk).
  - intros k Hk Hkn. rewrite Hp in Hk. change (references (set_flow_at _ _ _)) with (references st). rewrite Eo.
    destruct (decide (i = k)); [done|]. by apply (D k).
  - intros k q Hk. rewrite Hp in Hk. rewrite pool_elt_set. destruct (decide (i = k)) as [<-|Hik].
    + injection Hk as <-. rewrite E3, decide_True by done. eauto.
    + destruct (F k q Hk) as (g & Hg & Hgk). destruct (decide (j = ps_flow_index q)) as [->|]; [|eauto]. exfalso. rewrite Hf in Hg.
      injection Hg as <-. destruct (R k q Hk) as (_ & _ & ?). congruence.
  - intros k g Hk Hg. rewrite pool_elt_set in Hk. destruct (decide (j = k)) as [<-|].
    + injection Hk as <-. exists ps. rewrite Hf', Hp, decide_True by done. done.
    + destruct (S k g Hk Hg) as (q & Hq & Hqk). exists q. rewrite Hp. destruct (decide (i = fe_ps_index g)); [congruence|done].
  - intros ao k q Hk Hdq Hs. rewrite Hp in Hk. destruct (decide (i = k)); [|by apply Sd]. injection Hk as <-. exfalso. destruct ao; [by apply Hs|].
    simpl in Hdq. congruence.
  - intros k g Hk Hg. rewrite pool_elt_set in Hk. destruct (decide (j = k)); [by injection Hk as <-|eauto].
  - intros k g Hk. rewrite pool_elt_set in Hk. destruct (decide (j = k)) as [<-|]; eauto.
Qed.

Section Accept.
Context {PL : VppPool} {POk : VppPoolOk PL}.

(** a SYN makes a session of the proxy and a session of VPP, or nothing *)
Lemma accept_runs sessions st e t j f : proxy_inv [] st -> pool_elt (px_flows st) j = Some f ->
  (sy_old_conn e = false -> tc_thread_index (flow_tc f FT_ORIGIN) = u32_none) -> session_ok st (t, sy_session_index e) ->
  (t, sy_session_index e) ∉ px_clients st ∪ px_servers st -> pool_room (px_sessions st) ->
  exists st' err, upf_proxy_accept_packet sessions st e t j = Ok (st', err) /\ proxy_inv [] st'.
Proof.
  intros I Hf Ht Hok Hnew Hroom. unfold upf_proxy_accept_packet, get_flow. rewrite Hf. cbn [obind].
  destruct (pool_is_free_index _ _); [eauto|]. destruct (sy_lookup_ok e); [|eauto]. destruct (sy_is_syn e); [|eauto]. cbn [negb].
  destruct (sy_old_conn e); [eauto|]. destruct (sy_options_ok e); [|eauto]. cbn [negb]. unfold proxy_session_stream_accept_notify.
  destruct (sy_app e); [|eauto]. destruct (sy_connected_ok e); [|eauto]. cbn [negb]. set (s := (t, sy_session_index e)) in *.
  pose proof (pi_fresh _ _ I j f Hf (Ht eq_refl)) as Hfn. assert (s ∉ px_side st false) as Hs by (intros ?; apply Hnew; by apply elem_of_union_l).
  unfold proxy_accept_callback. change (ps_session_lookup (set_px_vpp st _ _) s false) with (ps_session_lookup st s false).
  rewrite (lookup_unknown [] st false s I Hok Hs). cbn [obind]. unfold proxy_session_alloc, pool_get. cbn [px_sessions set_px_vpp].
  destruct (pool_pick_free (pool_elts (px_sessions st)) (pool_free (px_sessions st)) Hroom) as [Hi Hir]. set (i := pool_pick _ _) in *. set (p := mk_pool _ _).
  assert (forall a k, pool_elt (pool_set p i a) k = if decide (i = k) then Some a else pool_elt (px_sessions st) k) as Hp.
  { intros a k. rewrite pool_elt_set. destruct (decide (i = k)); [done|]. unfold p, pool_elt. simpl. by rewrite lookup_insert_ne. }
  cbv iota beta zeta. unfold proxy_session_lookup_add. destruct (thread_vec_ok [] st false s I Hok) as (l & Elv & _).
  cbn [px_to_proxy set_px_sessions set_px_vpp]. change (px_to_proxy st) with (px_table st false). rewrite Elv. cbn [obind].
  erewrite get_ps_live by (cbn [px_sessions set_px_sessions]; rewrite Hp, decide_True by done; reflexivity). cbn [obind].
  erewrite get_ps_live by (cbn [px_sessions set_ps set_px_sessions set_px_table]; rewrite pool_elt_set, decide_True by done; reflexivity). cbn [obind].
  unfold get_flow. cbn [px_flows set_ps set_px_sessions set_px_table set_px_vpp]. rewrite Hf. cbn [obind]. cbn [px_flows set_flow_at set_px_flows].
  rewrite pool_elt_set, decide_True by done. cbn [obind]. eexists _, None. split; [reflexivity|].
  set (psF := mk_ps i s (0, u32_none) j 1 [] false false false). set (psX := mk_ps i s (0, u32_none) j 1 [] false true false).
  set (f' := set_flow_tc (set_ps_index f i) FT_ORIGIN (mk_tc (sy_c_index e) t)).
  assert (proxy_inv [i] (set_flow_at (set_px_sessions st (pool_set p i psX)) j f')) as I1.
  { apply (inv_alloc st i j f f' psX); try done; try apply Hp; [lia|]. destruct Hok as [[_ ?] _]. simpl in *. unfold f', flow_tc, set_flow_tc.
    destruct f as [? ? [] ? ? ? ? ? ? ? ? ? ? ? ? ? ? ? ? [] ? ? ? ?]; simpl; lia. }
  pose proof (inv_table_add [] _ false s i psX psF I1) as I2. cbn [px_sessions set_flow_at set_px_flows set_px_sessions] in I2. rewrite Hp, decide_True in I2 by done.
  specialize (I2 eq_refl Hok Hs eq_refl eq_refl eq_refl eq_refl eq_refl eq_refl).
  unfold set_flow_at, set_ps, set_px_flows, set_px_sessions in *. cbn [px_sessions px_flows set_px_table set_px_vpp px_table px_to_proxy px_to_active_open px_rpc px_connects px_clients px_servers px_log vpp_add] in *.
  rewrite !pool_set_set in *. exact I2.
Qed.
End Accept.

(** ** Connecting and data *)

Section Rx.
Context {P : VppPacket} {A : AdfLookup} {M : IpMasks}.
Variable e : rx_env.

(** what stops a callback: the PFCP session of a flow is gone, or the generation
    of its rules is that of the flow and they do not have the PDR or FAR that is
    looked for, or the detection stops *)
Definition rules_stop (st : proxy_t) : Prop :=
  exists j g, pool_elt (px_flows st) j = Some g
  /\ (pool_elt (rx_sessions e) (fe_session_index g) = None
      \/ exists sx flow, pool_elt (rx_sessions e) (fe_session_index g) = Some sx /\ sx_generation sx = fe_generation g
         /\ fe_session_index flow = fe_session_index g
         /\ (stops (connect_args (rx_config e) (pfcp_get_rules sx PFCP_ACTIVE) flow 0)
             \/ stops (upf_application_detection (Some (take 4096 (rx_fifo e))) flow (pfcp_get_rules sx PFCP_ACTIVE)))).

Lemma rules_stop_flow st j f f' : pool_elt (px_flows st) j = Some f -> fe_session_index f' = fe_session_index f -> fe_generation f' = fe_generation f ->
  rules_stop (set_flow_at st j f') -> rules_stop st.
Proof.
  intros Hf E1 E2 (k & g & Hk & H). cbn [px_flows set_flow_at set_px_flows] in Hk. rewrite pool_elt_set in Hk.
  destruct (decide (j = k)) as [<-|]; [|by exists k, g]. injection Hk as <-. exists j, f. split; [done|]. by rewrite <- E1, <- E2.
Qed.
Lemma connect_args_stops cf r f i i' : stops (connect_args cf r f i) -> stops (connect_args cf r f i').
Proof. unfold connect_args. destruct (pdr_by_id _ _) as [pdr|]; [|done]. destruct (far_by_id _ _); [|done]. by destruct (upf_nwi_if_and_fib_index _ _ _). Qed.

Lemma connect_fails_inv st i ps : proxy_inv [i] st -> pool_elt (px_sessions st) i = Some ps -> proxy_inv [] (connect_fails st i ps).
Proof.
  intros I Hi. eapply inv_set_ps; [exact I|exact Hi|done|done|by intros []|by intros []|..].
  - intros j Hj. by rewrite occ_other.
  - rewrite occ_self, occ_nil. simpl. lia.
Qed.

Lemma connect_fn_runs st i ps : proxy_inv [i] st -> pool_elt (px_sessions st) i = Some ps ->
  runs (rules_stop st) (proxy_inv []) (proxy_start_connect_fn e st i).
Proof.
  intros I Hi. destruct (pi_refs _ _ I i ps Hi) as (_ & _ & Hin). unfold proxy_start_connect_fn. rewrite (get_ps_live st i ps Hi). cbn [obind].
  pose proof (connect_fails_inv st i ps I Hi) as Hfail. destruct (pi_flow _ _ I i ps Hi) as (f & Hf & _). rewrite Hf.
  unfold flow_session. destruct (pool_elt (rx_sessions e) (fe_session_index f)) as [sx|] eqn:Es; [|by exists (ps_flow_index ps), f; auto]. cbn [obind].
  destruct (Z.eqb_spec (sx_generation sx) (fe_generation f)) as [Eg|]; [|exact Hfail]. cbn [negb].
  eapply runs_bind.
  { apply stops_runs. intros Hst. exists (ps_flow_index ps), f. split; [done|]. right. exists sx, f. repeat (split; [done|]). left. eapply connect_args_stops, Hst. }
  intros a _. destruct (negb _); [exact Hfail|]. change (px_rpc st) with (px_rpc (px_did st (Connect a))). change (px_connects st) with (px_connects (px_did st (Connect a))).
  cbn [runs]. apply (inv_calls [i]); [by apply inv_did|..].
  - intros j. rewrite occ_app, occ_nil. lia.
  - pose proof (pi_calls _ _ I) as Hc. cbn. rewrite !Forall_app in *. destruct Hc as [? ?]. rewrite Forall_singleton. auto.
Qed.

Lemma start_connect_runs t st i ps : proxy_inv [] st -> pool_elt (px_sessions st) i = Some ps ->
  runs (rules_stop st) (proxy_inv []) (proxy_start_connect e t st i).
Proof.
  intros I Hi. destruct (pi_refs _ _ I i ps Hi) as (_ & _ & Hin). unfold proxy_start_connect. rewrite (get_ps_live st i ps Hi). cbn [obind].
  set (st1 := set_ps st i _).
  assert (proxy_inv [i] st1) as I1.
  { eapply inv_set_ps; [exact I|exact Hi|done|done|by intros []|by intros []|..].
    - intros j Hj. by rewrite occ_other.
    - rewrite occ_self, occ_nil. simpl. lia. }
  destruct (t =? 0).
  - change (rules_stop st) with (rules_stop st1). eapply connect_fn_runs; [exact I1|]. unfold st1. cbn [px_sessions set_ps set_px_sessions]. by rewrite pool_elt_set, decide_True.
  - cbn [runs]. apply (inv_calls [i] st1 I1).
    + intros j. rewrite occ_app, occ_nil. lia.
    + pose proof (pi_calls _ _ I) as Hc. cbn. rewrite !Forall_app in *. destruct Hc as [? ?]. rewrite Forall_singleton. auto.
Qed.

(** the members of a flow that the detection leaves alone *)
Definition same_flow (f f' : flow_entry_t) : Prop :=
  fe_ps_index f' = fe_ps_index f /\ fe_tc f' = fe_tc f /\ fe_is_reverse f' = fe_is_reverse f
  /\ fe_session_index f' = fe_session_index f /\ fe_generation f' = fe_generation f.
Lemma same_refl f : same_flow f f.
Proof. done. Qed.
Lemma same_trans f g h : same_flow f g -> same_flow g h -> same_flow f h.
Proof. intros (? & ? & ? & ? & ?) (? & ? & ? & ? & ?). repeat split; congruence. Qed.
Lemma detection_out_same f o r : same_flow f (snd (detection_out f o r)).
Proof. unfold detection_out. destruct o as [o|]; [|done]. by destruct (flag _ F_PDI_APPLICATION_ID), r. Qed.
Lemma detection_scan_same uri f act o r : same_flow f (snd (detection_scan uri f act o r)).
Proof.
  unfold detection_scan. set (o' := app_scan_for_uri _ _ _ _ o). set (g := match o' with Some _ => _ | None => _ end).
  apply (same_trans f g); [by unfold g; destruct o'|apply detection_out_same].
Qed.
Lemma ok_inr {T U} (x y : U) : Ok (inr x : T + U) = Ok (inr y) -> x = y.
Proof. by intros [= ->]. Qed.
Lemma detection_same p f r b f' : upf_application_detection p f r = Ok (inr (b, f')) -> same_flow f f'.
Proof.
  unfold upf_application_detection. set (o := if negb (flow_pdr_id f FT_ORIGIN =? 0) then _ else _). set (v := if negb (flow_pdr_id f FT_REVERSE =? u32_none) then _ else _).
  pose proof (detection_out_same f o v) as Ho. pose proof (fun uri => detection_scan_same uri f r o v) as Hs.
  pose proof (fun uri => same_trans f (fe_set_uri f (Some uri)) _ ltac:(done) (detection_scan_same uri (fe_set_uri f (Some uri)) r o v)) as Hu.
  assert (forall d, same_flow f (snd d) -> d = (b, f') -> same_flow f f') as Hd by (intros d Hx ->; exact Hx). intros H.
  destruct o, v; [..|apply ok_inr in H; by apply (Hd (false, f))]; (destruct (fe_app_detection_done f); [destruct (fe_app_uri f) as [uri|]; apply ok_inr in H|
    destruct p as [p|]; [|done]; destruct (ld8 p 0); [|done..]; cbn [obind] in H; destruct (if _ =? TLS_HANDSHAKE then _ else _) as [[| |uri]| |]; try done; cbn [obind] in H; apply ok_inr in H]);
  first [apply (Hd _ Ho H)|apply (Hd _ (Hs _) H)|apply (Hd _ (Hu _) H)].
Qed.

(** the answer is sent, or the client is given up after 10 seconds *)
Lemma send_runs held i s sends : last sends = Some (0, true) -> forall st ps data, proxy_inv held st -> pool_elt (px_sessions st) i = Some ps ->
  exists st' ps', http_redir_send_data sends st i s data = Ok st' /\ proxy_inv held st' /\ pool_elt (px_sessions st') i = Some ps' /\ px_flows st' = px_flows st.
Proof.
  induction sends as [|[n late] sends IH]; intros Hl st ps data I Hi; [done|]. destruct data as [|x data]; [by exists st, ps|]. cbn [http_redir_send_data].
  destruct (Z.leb_spec n 0).
  - destruct late; [destruct (try_close_runs held st i ps I Hi) as (st' & ps' & E & I' & H' & _ & _ & Ef); by exists st', ps'|].
    eapply IH; [|done|done]. by destruct sends.
  - destruct sends as [|y sends]; [by injection Hl as -> ->|]. apply (IH Hl (px_did st (Enqueue s (take (Z.to_nat n) (x :: data)))) ps); [by apply inv_did|exact Hi].
Qed.

Lemma redir_runs st s i ps flow act : last (rx_sends e) = Some (0, true) -> proxy_inv [] st -> pool_elt (px_sessions st) i = Some ps ->
  runs (stops (connect_args (rx_config e) act flow 0)) (fun r => match r with Some st' => proxy_inv [] st' | None => True end) (proxy_send_redir e st s i flow act).
Proof.
  intros Hl I Hi. unfold proxy_send_redir, connect_args. destruct (pdr_by_id _ _) as [pdr|]; [|done]. destruct (far_by_id _ _) as [far|]; [|done].
  destruct (negb _); [done|]. rewrite (get_ps_live st i ps Hi). cbn [obind].
  destruct (send_runs [] i s (rx_sends e) Hl (px_did st (DropRx s)) ps (redirect_answer (ps_rx_buf ps) (vec_elts (PfcpIe.ri_uri (ff_redirect_information (far_forward far))))))
    as (st1 & ps1 & -> & I1 & H1 & _); [by apply inv_did|done|]. cbn [obind].
  destruct (try_close_runs [] st1 i ps1 I1 H1) as (st2 & ps2 & -> & I2 & _). done.
Qed.

Lemma connects_runs s st j f g i ps : proxy_inv [] st -> pool_elt (px_sessions st) i = Some ps -> pool_elt (px_flows st) j = Some f -> same_flow f g ->
  runs (rules_stop st) (proxy_inv []) (proxy_connects e s st i j g).
Proof.
  intros I Hi Hf (S1 & S2 & S3 & S4 & S5). unfold proxy_connects. set (st1 := set_flow_at st j _).
  assert (proxy_inv [] st1) as I1.
  { eapply inv_set_flow; [exact I|exact Hf|exact S1|]. intros Ht. left. rewrite <- Ht. unfold flow_tc. by rewrite <- S2; destruct f, g; simpl in *; subst. }
  pose proof (start_connect_runs (fst s) st1 i ps I1 Hi) as H. destruct (proxy_start_connect e (fst s) st1 i); [exact H|..];
    apply (rules_stop_flow st j f (set_flow_next_proxy g) Hf); done.
Qed.

Lemma rx_static_runs st s i ps : last (rx_sends e) = Some (0, true) -> proxy_inv [] st -> pool_elt (px_sessions st) i = Some ps ->
  runs (rules_stop st) (proxy_inv []) (proxy_rx_callback_static e st s i).
Proof.
  intros Hl I Hi. unfold proxy_rx_callback_static, proxy_rx_request. destruct (_ =? 0); [done|]. rewrite (get_ps_live st i ps Hi). cbn [obind]. cbv zeta.
  set (ps1 := set_rx_buf ps _). set (st1 := set_ps st i ps1).
  assert (proxy_inv [] st1) as I1 by (eapply inv_set_ps; [exact I|exact Hi|done|done|by intros []|by intros []|done|done]).
  assert (pool_elt (px_sessions st1) i = Some ps1) as H1 by (unfold st1; cbn; by rewrite pool_elt_set, decide_True).
  destruct (pi_flow _ _ I i ps Hi) as (f & Hf & _). unfold get_flow. change (px_flows st1) with (px_flows st). rewrite Hf. cbn [obind].
  unfold flow_session. destruct (pool_elt (rx_sessions e) (fe_session_index f)) as [sx|] eqn:Es; [|by exists (ps_flow_index ps), f; auto]. cbn [obind].
  assert (forall st2 ps2, proxy_inv [] st2 -> pool_elt (px_sessions st2) i = Some ps2 -> runs (rules_stop st) (proxy_inv []) (proxy_session_try_close_unlocked st2 i)) as Hclose.
  { intros st2 ps2 I2 H2. destruct (try_close_runs [] st2 i ps2 I2 H2) as (st3 & ps3 & -> & I3 & _). exact I3. }
  destruct (Z.eqb_spec (sx_generation sx) (fe_generation f)) as [Eg|]; [|by apply (Hclose st1 ps1)]. cbn [negb]. set (act := pfcp_get_rules sx PFCP_ACTIVE).
  assert (forall g, same_flow f g -> stops (connect_args (rx_config e) act g 0) \/ stops (upf_application_detection (Some (take 4096 (rx_fifo e))) g act) -> rules_stop st) as Hstop.
  { intros g (_ & _ & _ & Hg & _) H. exists (ps_flow_index ps), f. split; [done|]. right. exists sx, g. auto. }
  apply (runs_bind _ (fun r => match r with Some st' => proxy_inv [] st' | None => True end)).
  { destruct (fe_is_redirect f); [|done]. pose proof (redir_runs st1 s i ps1 f act Hl I1 H1) as H.
    destruct (proxy_send_redir e st1 s i f act); [exact H|apply (Hstop f); auto using same_refl..]. }
  intros [st2|] H2; [exact H2|]. clear H2. set (f1 := if fe_is_redirect f then fe_set_redirect f false else f).
  assert (same_flow f f1) as Sf by (unfold f1; by destruct (fe_is_redirect f)). set (st2 := set_flow_at st1 (ps_flow_index ps) f1).
  assert (forall g, same_flow f g -> proxy_inv [] (set_flow_at st1 (ps_flow_index ps) g)) as Hflow.
  { intros g (S1 & S2 & S3 & _). eapply inv_set_flow; [exact I1|exact Hf|exact S1|]. intros Ht. left. rewrite <- Ht. unfold flow_tc, flow_member. by rewrite S2, S3. }
  assert (forall g h, same_flow f g -> same_flow g h -> runs (rules_stop st) (proxy_inv []) (proxy_connects e s (set_flow_at st1 (ps_flow_index ps) g) i (ps_flow_index ps) h)) as Hcon.
  { intros g h Sg Sh. pose proof (connects_runs s (set_flow_at st1 (ps_flow_index ps) g) (ps_flow_index ps) g h i ps1 (Hflow g Sg) H1) as H.
    cbn [px_flows set_flow_at set_px_flows] in H. rewrite pool_elt_set, decide_True in H by done. specialize (H eq_refl Sh).
    destruct (proxy_connects _ _ _ _ _ _); [exact H|..]; destruct Sg as (_ & _ & _ & ? & ?); apply (rules_stop_flow st1 (ps_flow_index ps) f g Hf); done. }
  destruct (negb _); [by apply Hcon|]. pose proof (fun H => Hstop f1 Sf (or_intror H)) as Hd.
  destruct (upf_application_detection _ f1 act) as [[[]|[[|] g]]| |] eqn:Ed; [..|by apply Hd|by apply Hd]; cbn [obind].
  - destruct (_ <? 4096); [by apply Hflow|]. eapply Hclose; [by apply Hflow|exact H1].
  - apply detection_same in Ed. unfold st2. change (set_flow_at (set_flow_at st1 ?j ?a) ?j ?b) with (set_px_flows st1 (pool_set (pool_set (px_flows st1) j a) j b)).
    rewrite pool_set_set. apply (Hcon g g); [eapply same_trans; eassumption|apply same_refl].
  - apply detection_same in Ed. unfold st2. change (set_flow_at (set_flow_at st1 ?j ?a) ?j ?b) with (set_px_flows st1 (pool_set (pool_set (px_flows st1) j a) j b)).
    rewrite pool_set_set. eapply Hclose; [apply (Hflow g); eapply same_trans; eassumption|exact H1].
Qed.

Lemma rx_runs st s : last (rx_sends e) = Some (0, true) -> proxy_inv [] st -> s ∈ px_clients st ->
  runs (rules_stop st) (proxy_inv []) (proxy_rx_callback e st s).
Proof.
  intros Hl I Hs. destruct (lookup_known [] st false s I Hs) as (i & ps & El & _ & Hi & _). unfold proxy_rx_callback. rewrite El. cbn [obind].
  rewrite (get_ps_live st i ps Hi). cbn [obind]. destruct (_ || _); [done|]. destruct (_ && _); [done|]. by eapply rx_static_runs.
Qed.
End Rx.

(** ** Steps *)

Lemma start_inv n : proxy_inv [] (proxy_start n).
Proof.
  assert (concat (replicate n ([] : list Z)) = []) as Ec by (induction n as [|n IH]; [done|exact IH]).
  assert (forall i, occ i (references (proxy_start n)) = 0%nat) as Eo by (intros i; unfold references; cbn; by rewrite Ec).
  assert (forall ao s, table_get (px_table (proxy_start n) ao) s = None) as Et.
  { intros ao s. unfold table_get. destruct (px_table (proxy_start n) ao !! Z.to_nat (fst s)) as [l|] eqn:E; [|done].
    assert (l = []) as -> by (destruct ao; by apply lookup_replicate in E as [-> _]). done. }
  split; try done.
  intros ao s. rewrite Et. split; [by destruct ao; intros ?%elem_of_empty|by intros (_ & i & ? & _)].
Qed.

Section Steps.
Context {P : VppPacket} {PL : VppPool} {POk : VppPoolOk PL} {A : AdfLookup} {M : IpMasks}.

(** the events that read the rules of PFCP *)
Definition stale_rules (st : proxy_t) (ev : proxy_event) : Prop :=
  match ev with EvRx e _ | EvRpc e => rules_stop e st | _ => False end.

Lemma expire_runs st i f : proxy_inv [] st -> pool_elt (px_flows st) i = Some f -> runs False (proxy_inv []) (proxy_step (EvExpire i) st).
Proof.
  intros I Hf. cbn [proxy_step]. unfold get_flow. rewrite Hf. cbn [obind]. unfold upf_proxy_flow_expiration_hook.
  destruct (Z.eqb_spec (fe_ps_index f) u32_none) as [En|En].
  - cbn [obind runs]. destruct I as [T R D F S Sd K Fr Fi Ca]. split; try done; cbn [px_flows set_px_flows].
    + intros k ps Hk. destruct (F k ps Hk) as (g & Hg & Hgk). rewrite pool_elt_put. destruct (decide (i = ps_flow_index ps)) as [->|]; [|eauto].
      destruct (R k ps Hk) as (_ & _ & ?). congruence.
    + intros k g Hk Hg. pool_case Hk. eauto.
    + intros k g Hk Hg. pool_case Hk. eauto.
    + intros k g Hk. pool_case Hk. eauto.
  - destruct (pi_ps _ _ I i f Hf En) as (ps & Hp & _). destruct (try_close_runs [] st _ ps I Hp) as (st' & ps' & -> & I' & _). exact I'.
Qed.

Lemma step_keeps st ev : proxy_inv [] st -> enabled st ev -> runs (stale_rules st ev) (proxy_inv []) (proxy_step ev st).
Proof.
  intros I He. destruct ev as [i f|i f|i|sessions e t j|e s|e|k s|s ao|s ao]; cbn [enabled] in He.
  - destruct He as (Hn & Hi & Hf). cbn [proxy_step runs]. destruct I as [T R D F S Sd K Fr Fi Ca]. split; try done.
    + intros k ps Hk. destruct (F k ps Hk) as (g & Hg & Hgk). cbn [px_flows set_flow_at set_px_flows]. rewrite pool_elt_set, decide_False by congruence. eauto.
    + intros k g Hk Hg. pool_case Hk; [done|eauto].
    + intros k g Hk Hg. pool_case Hk; [done|eauto].
    + intros k g Hk. pool_case Hk; [lia|eauto].
  - destruct He as (g & Hg & E1 & E2 & E3). cbn [proxy_step runs]. eapply inv_set_flow; [exact I|exact Hg|exact E1|]. intros Ht. left. rewrite <- Ht. unfold flow_tc, flow_member. by rewrite E2, E3.
  - destruct He as [f Hf]. by eapply expire_runs.
  - destruct He as (f & Hf & Ht & Hok & Hn & Hr). destruct (accept_runs sessions st e t j f I Hf Ht Hok Hn Hr) as (st' & err & E & I'). cbn [proxy_step]. rewrite E. exact I'.
  - destruct He as [Hs Hl]. by apply rx_runs.
  - cbn [proxy_step stale_rules]. pose proof (pi_calls _ _ I) as Hc. destruct (px_rpc st) as [|i rpc] eqn:Er; [done|].
    set (st0 := set_px_calls st rpc (px_connects st)). assert (i <> u32_none /\ Forall (fun i => i <> u32_none) (rpc ++ px_connects st)) as [Hi Hc'] by (by apply Forall_cons_1 in Hc).
    assert (proxy_inv [i] st0) as I0 by (apply (inv_calls [] st I); [intros j; rewrite Er, !occ_cons, !occ_nil; lia|done]).
    destruct (ref_live [i] st0 I0 i) as [ps Hp]; [simpl; rewrite occ_self; lia|done|]. change (rules_stop e st) with (rules_stop e st0). by eapply connect_fn_runs.
  - cbn [proxy_step]. destruct (px_connects st !! k) as [i|] eqn:Hk; [|exact I]. destruct (connected_runs st k i s I Hk He) as (stays & st' & -> & I').
    cbn [obind runs]. exact I'.
  - destruct (lookup_known [] st ao s I He) as (i & ps & El & _ & Hi & _). cbn [proxy_step]. unfold proxy_session_try_close_vpp_session. rewrite El. cbn [obind].
    destruct (try_close_runs [] st i ps I Hi) as (st' & ps' & -> & I' & _). exact I'.
  - destruct (cleanup_runs st s ao I He) as (st' & E & I' & _). unfold vpp_del in E. cbn [proxy_step]. rewrite E. exact I'.
Qed.

Lemma reach_inv n st : proxy_reach n st -> proxy_inv [] st.
Proof.
  induction 1 as [|st ev st' Hr IH He E]; [apply start_inv|]. pose proof (step_keeps st ev IH He) as H. by rewrite E in H.
Qed.


(** A session of the proxy is freed with its last reference: when VPP has
    removed a session of either side, the session of the proxy is gone exactly if
    it had no other reference, and the flow is free of it then. *)
Theorem proxy_freed_with_last n st s ao :
  proxy_reach n st -> s ∈ px_side st ao ->
  exists i st', table_get (px_table st ao) s = Some i /\ proxy_step (EvCleanup s ao) st = Ok st'
    /\ (pool_elt (px_sessions st') i = None <-> occ i (references st) = 1%nat)
    /\ (pool_elt (px_sessions st') i = None -> forall j f, pool_elt (px_flows st') j = Some f -> fe_ps_index f <> i).
Proof.
  intros Hr Hs. pose proof (reach_inv n st Hr) as I. destruct (lookup_known [] st ao s I Hs) as (i & ps & _ & Hg & _ & Hi & _).
  destruct (cleanup_runs st s ao I Hs) as (st' & E & I' & Hf). exists i, st'. split; [done|]. split; [exact E|]. split; [by apply Hf|].
  intros Hn j f Hj Hx. destruct (pi_ps _ _ I' j f Hj ltac:(congruence)) as (q & Hq & _). congruence.
Qed.
End Steps.

(** upf_proxy_input gives a flow to upf-proxy-accept before its first connection *)
Lemma accept_first `{P : VppPacket, T : VppTcp} t b flow d flow' killed :
  proxy_next t b flow d = Ok (UPF_PROXY_INPUT_NEXT_PROXY_ACCEPT, flow', killed) -> tc_thread_index (flow_tc flow FT_ORIGIN) = u32_none.
Proof.
  unfold proxy_next. destruct (fe_is_spliced flow); [done|]. destruct (Z.eqb_spec (tc_conn_index (flow_tc flow d)) u32_none); cbn [negb].
  - destruct (Z.eqb_spec (tc_thread_index (flow_tc flow d)) u32_none); [|done]. cbn [negb]. destruct (load_tstamp_offset b d flow); [|done..]. cbn [obind].
    by destruct d; intros [= _].
  - destruct (negb _); [done|]. intros H. exfalso. unfold splice_tcp_connection in H. repeat (case_match; try done).
Qed.


(** ** A connection through the proxy *)

From S2P Require Import GtpuDecap ApiDemo.

Section Demo.
#[local] Existing Instance demo_vpp.
#[local] Instance demo_adf : AdfLookup := fun _ _ => false.

(** two threads; the flow 5 of session 0, whose rule forwards; the client sends
    data on thread 1 *)
Definition demo_sessions : pool upf_session_t := mk_pool {[0 := demo_sx (demo_rules [demo_pdr] [demo_tunnel_far])]} [].
Definition demo_new_flow : flow_entry_t :=
  mk_flow (fe_key demo_flow) 0 FT_ORIGIN false true false false false false FlowTcp.TCP_F_STATE_START u32_none (both (mk_stats 0 0)) 0 0 0 u32_none
    (both 1) (both u32_none) (both FT_NEXT_PROXY) (both (mk_tc u32_none u32_none)) (both 0) (both 0) None 0.
Definition demo_syn (i : Z) : syn_t := mk_syn true true false true true true i 1.
Definition demo_rx (rv : Z) : rx_env := mk_rx demo_sessions demo_config [22; 3; 1] rv [(0, true)].
Definition demo_client_s : session_t := (1, 7).
Definition demo_server_s : session_t := (1, 8).
Definition demo_events : list proxy_event :=
  [EvFlow 5 demo_new_flow; EvSyn demo_sessions (demo_syn 7) 1 5; EvRx (demo_rx 0) demo_client_s; EvRpc (demo_rx 0);
   EvConnected 0 (Some (demo_server_s, mk_tc 2 1)); EvCleanup demo_client_s false].
Definition demo_run (l : list proxy_event) : proxy_t :=
  foldl (fun st ev => match proxy_step ev st with Ok st' => st' | _ => st end) (proxy_start 2) l.

Lemma demo_reach l ev : proxy_reach 2 (demo_run l) -> enabled (demo_run l) ev -> is_ok (proxy_step ev (demo_run l)) = true ->
  proxy_reach 2 (demo_run (l ++ [ev])).
Proof.
  intros Hr He Hok. unfold demo_run at 1. rewrite foldl_app. cbn [foldl]. fold (demo_run l).
  destruct (proxy_step ev (demo_run l)) as [st'| |] eqn:E; [|done..]. by eapply reach_step.
Qed.

Lemma demo_reaches : proxy_reach 2 (demo_run (take 5 demo_events)).
Proof.
  change (take 5 demo_events) with ((((([] ++ [EvFlow 5 demo_new_flow]) ++ [EvSyn demo_sessions (demo_syn 7) 1 5]) ++ [EvRx (demo_rx 0) demo_client_s]) ++ [EvRpc (demo_rx 0)])
    ++ [EvConnected 0 (Some (demo_server_s, mk_tc 2 1))]).
  repeat (apply demo_reach; [|..|vm_compute; reflexivity]); [apply reach_start|..].
  - done.
  - exists demo_new_flow. split; [reflexivity|]. split; [done|]. split; [done|]. split; [by_eval|done].
  - split; [by_eval|done].
  - done.
  - split; [done|by_eval].
Qed.

Lemma demo_sides : demo_client_s ∈ px_clients (demo_run (take 5 demo_events)) /\ demo_server_s ∈ px_servers (demo_run demo_events).
Proof. split; by_eval. Qed.


Lemma demo_reaches_end : proxy_reach 2 (demo_run demo_events).
Proof. apply (demo_reach (take 5 demo_events) (EvCleanup demo_client_s false) demo_reaches (proj1 demo_sides)). vm_compute. reflexivity. Qed.

(** the session of the client was removed before that of the server *)
Lemma proxy_freed_with_last_witness :
  exists st', proxy_step (EvCleanup demo_server_s true) (demo_run demo_events) = Ok st' /\ pool_elt (px_sessions st') 0 = None.
Proof.
  destruct (proxy_freed_with_last 2 (demo_run demo_events) demo_server_s true demo_reaches_end (proj2 demo_sides)) as (i & st' & Hg & E & Hf & _).
  exists st'. split; [exact E|]. assert (i = 0) as -> by (vm_compute in Hg; congruence). apply Hf. vm_compute. reflexivity.
Defined.

(** Data that arrives while the connection to the server is being opened opens
    another: nothing looks at active_open_establishing. *)
Lemma second_connect :
  px_connects (demo_run (take 4 demo_events ++ [EvRx (demo_rx 0) demo_client_s; EvRpc (demo_rx 0)])) = [0; 0].
Proof. vm_compute. reflexivity. Qed.

(** A connection that cannot be opened when the client is gone already: the count
    goes to 0 by refcnt--, the session of the proxy is not freed, and its flow
    does not expire any more. *)
Lemma failed_connect_leaks :
  let st := demo_run (take 3 demo_events ++ [EvCleanup demo_client_s false; EvRpc (demo_rx 1); EvExpire 5]) in
  ps_refcnt <$> pool_elt (px_sessions st) 0 = Some 0 /\ occ 0 (references st) = 0%nat /\ px_rpc st = [] /\ fe_ps_index <$> pool_elt (px_flows st) 5 = Some 0.
Proof. vm_compute. done. Qed.
End Demo.
